(* ===== verification/_CoqProject ===== *)
-Q . S2P
Prelude.v
PyStr.v
PyText.v
PyRe.v
PyRound.v
PyFloat.v
PyJson.v
PyDump.v
Failures.v
Messages.v
Sha256.v
SessionProto.v
Attest.v
Ip.v
Tiers.v
GpuTable.v
Formula.v
DemandWeight.v
Reliability.v
Weights.v
Shell.v
Runner.v
Keys.v
Volumes.v
Power.v
GpuWedge.v
Teardown.v
JobSpec.v
RunCommand.v
Containers.v
Creation.v
Placement.v
Auth.v
Nonce.v
SshKeys.v
Grants.v
GrantThreads.v
Queue.v
Stores.v
Prefetch.v
PullLock.v
Digest.v
Challenge.v
Sftp.v
Vectors.v
Handlers.v
Socket.v
Control.v
Checks.v
Cleanup.v
Drain.v
Client.v
Scrape.v
Express.v
Deep.v
DeepFacts.v
DeepRound.v
Update.v
Monitor.v
Watch.v
Aes.v
Fernet.v
RigHost.v
RigScrape.v
RigFacts.v
Config.v
Portal.v
Persist.v
Slots.v
Models.v
Api.v
Handshake.v
Honest.v
Host.v
Evidence.v
Agent.v
Main.v
Service.v
