(* ===== verification/Prelude.v ===== *)
(** * Microtensor Compute: a verification library

    Microtensor Compute is a pool of machines with GPUs ("rigs").  An agent runs
    on every rig (src/agent), validators verify the rigs, place jobs on them and
    score them (src/validator), a server of the pool, which is not part of the
    repository, passes commands and keeps the records, and both programs share
    the messages and signed byte strings of src/protocol.  The validator also
    sends payloads that run on the rig (src/validator/verify/payloads) and a
    challenge for its cards (src/challenge).  This library translates the
    program into executable definitions and proves what makes it correct.

    ** How the parts interact

    The agent holds one websocket to the server, over which it gets commands and
    sends results, events and its state; it serves validators over HTTP, where
    requests carry a signature of an active validator.  A validator opens a
    session: the agent checks the request, installs the validator's SSH key and
    answers with an attestation bound to the nonce and the host key; the
    validator connects over SSH, runs commands, and closes the session.  In such
    sessions the validator makes the deep pass (all checks of a rig), places and
    removes containers with their encrypted volumes, and cleans up.  Between deep
    passes the express lane asks the rigs for a sign of life.  What was seen ends
    in scores, and the scores in the weights set on the chain.

    ** Files

    Foundations: [Prelude] (errors, dictionaries, lists, counting), [PyStr],
    [PyText] (str), [PyRe] (re), [PyRound], [PyFloat] (float, to the bit),
    [PyJson], [PyDump] (values of json and their text), [Shell] (shlex), [Sha256]
    (hashlib, hmac), [Ip] (ipaddress).

    Protocol (src/protocol): [Failures], [Messages], [SessionProto], [Attest],
    each the module of the same name ([SessionProto] is session.py, [Attest]
    attestation.py).

    Agent (src/agent): [Nonce], [SshKeys], [Grants] and, with its threads,
    [GrantThreads] (access/), [Auth], [Api], [Models] and [Slots] (api/ and hardware/pool.py), [Queue], [Socket], [Handlers]
    and, composed of them, [Control] (control/), [Agent] (main.py,
    control/client.py, control/identity.py), [Stores] (store/),
    [Prefetch], [PullLock] (cache/), [Host] (hardware/host.py, nvml.py, spec.py), [Evidence]
    (hardware/attestation.py, hardware/challenge.py), [Monitor], [Watch]
    (monitor/ and the monitor of main.py), [Update] (updater/), and half of
    [Config] (config.py).

    Validator (src/validator): [Tiers], [GpuTable] (data/), [Formula],
    [DemandWeight], [Reliability], [Weights] (scoring/), [Runner], [Sftp],
    [Client] (session/), [Handshake] (a session between [Client] and the agent's
    [Api] and [Grants]), [Keys], [Volumes] (storage/), [Power], [JobSpec],
    [RunCommand], [Containers], [Creation], [Placement], [Drain] (work/; the first
    half of containers.py is [JobSpec], what docker reads in its command is
    [RunCommand], creation and destruction are [Creation]),
    [GpuWedge], [Teardown] (recovery/), [Cleanup] (storage/sweep.py and
    recovery/device_cgroup.py), [Checks], [Scrape], [Challenge], [Digest]
    (verify/; the kernels of src/challenge are [Digest]), [Express], [Deep] with
    [DeepFacts] and, for the rounds, [DeepRound] (schedule/), [Portal] (pool.py, main.py), half of [Config].
    [Persist] has the files the validator keeps its records in (storage/sweep.py,
    work/power.py).

    Both programs: [Main] has the keys and the command lines (identity.py, main.py),
    [Service] their processes, the tasks and loops with their ends, and the status
    command (main.py).

    Payloads (src/validator/verify/payloads): [Aes], [Fernet], [RigScrape]
    (scrape.py), [RigHost] (inspector.py, host_reality.py), [Challenge.Rig],
    [Digest.Payload] and [Vectors.Process] (challenge_runner.py); [RigFacts]
    composes the scrape payload with the validator that reads its output, and
    [Honest] composes everything a deep pass is made of, on both sides.  [Vectors]
    is scripts/challenge_vector.py with the program it checks.

    A definition has the name of the function or class it translates, in a module
    of the class where two classes share a method name; a method takes the state
    of its object and returns the next one.

    ** How the code is translated

    - A computation that can raise returns [res]: a value or an exception class.
      Classes the program defines and catches as values ([AgentError],
      [ServerError] of the HTTP clients) are constructors of a result type of
      the file.
    - [dict[str, Any]] and JSON values are [json]; the functions of [PyJson] are
      Python's operations on them, with the exceptions they raise.  Classes with
      fixed fields are records, a class of constants an inductive type.
    - Strings are byte strings (Latin-1); floats are binary64 values, rounded as
      IEEE 754 says; integers are unbounded except where the source reduces them
      (the challenge, AES, SHA-256, the weights of sixteen bits).
    - What is outside the repository is a parameter: a record of functions over
      an abstract state, which the theorems quantify over.  [Env] of [Runner] is
      the machine behind SSH with its clock and random draws, [Outer] of [Client]
      adds the agents, the keys and the connections, [Server] and [Around] of
      [Portal] the pool's server, the clock and the chain, [World] of [Deep] what
      a pass asks of the rest; on the rig there are [Box] ([Prefetch]), [Machine]
      ([Grants], [Update], [RigHost]), [Outside] ([Handlers]), [Host] and [Nvml]
      ([Host]), [Rig] and [Lib] ([RigScrape]), [Site] ([Agent]).  Signatures,
      HKDF, Fernet as the validator uses it, json.loads where only its result
      matters, datetime.fromisoformat and the chain are such parameters too; what
      pydantic promises is the class [Checks] of [Models], which the routes of [Api]
      are proved against.  A hypothesis on one of them is stated where it is used
      ([Clock] of [Runner], [PoolClock] of [Drain], [WallClock] of [Portal],
      [BoxClock] of [Prefetch], [honest] of [Challenge]), and every theorem with a hypothesis is applied to a concrete instance.
    - What may be interleaved is a step relation, with invariants over the
      reachable states: the limiter of the express lane, the measurement pool and
      the log streams, the connection of an agent with its tasks, the life of its
      process, and the threads that open, close and sweep the sessions of an agent,
      between whose sections under a lock any other thread may move
      ([GrantThreads]).  The tasks of a round of deep passes take their turns in any
      order ([DeepRound]), the threads of a kernel run in any order
      ([Cuda.any_order] of [Digest]).
      Elsewhere the code that runs between two awaits is one function (a handler of
      a command and the pipeline of one machine too, though they await), and
      gathered queries run in order.  Several readings of the clock in
      a stretch without awaits are one reading.
    - File operations succeed unless the source handles their failure; a file
      that is replaced atomically is a value, except in [Persist], where a save can be
      cut.  Readings of the rig do not change
      while one payload runs.

    ** Fuel

    Loops without a structural argument take fuel.  [RUNNING_POLLS] (10) and
    [PORT_RETRIES] (18) of [Containers] are the polls of ten and of ninety seconds,
    one a second and one in five; on a clock of finite floats that advances while
    the program sleeps ([Clock]) the loops end before ([waits_end]).  [DRAIN_POLLS]
    (129, of sleeps that may end a second early) and [LOCK_FUEL] (1202) are the polls
    of the deadlines of [Drain] and [Prefetch], enough for the same reason
    ([drain_ends], [poll_lock_ends]).  A round of deep passes takes a schedule; any
    one that gives every task seven turns ends it ([run_once_spec]).  [shrink] of
    [Prefetch] takes the number of images (each turn removes one), [split_on] the
    length of the text ([split_fuel_more]: more makes no difference), the search
    for a free port the size of the range ([next_free_spec]), [halve] of [Digest]
    six halvings ([benchmark_words_fit]), [rotational] of [Host] the five levels
    the source tries.  [wait_active] of [Portal] waits for an operator, so its fuel
    is the number of polls one looks at.  Endless loops are their first [n] turns,
    for every [n].

    ** What is proved

    Each property of the manifest carries its number (C1, C2, ...) in its comment.

    - Access: only validators are served ([served_to_validators]), authentication
      ([check_request_spec], [calls_accepted]), sessions ([open_spec],
      [session_established], [start_closes_sessions], [session_closed]), what the
      threads of the agent leave in authorized_keys ([sweep_exact]), nonces
      ([nonce_single_use]).
    - Verification: what a passing deep pass proves and what every pass leaves
      behind ([passed_means_all_checks], [deep_pass_cleans_up]), that
      a round verifies every due machine within the slots ([run_once_spec]), each check ([specs_exact], [exclusivity_exact], [challenge_sound],
      [scrape_authentic], [host_reality_exact]), and that an honest machine passes:
      its cards ([honest_card_passes]), its scrape ([honest_scrape_accepted]), its
      handshake ([inspector_accepted]) and the whole pass ([honest_machine_passes],
      the converse of [passed_means_all_checks] for a machine that runs what it is
      sent).
    - Routines against their definitions: [aes_is_fips197], [digests_agree],
      [run_command_exact], [public_exact], [gpu_error_exact], [spec_roundtrip].
    - Jobs: [create_rolls_back], [choose_safe], [orphans_spare_running],
      [drain_ends].
    - Scores and weights: [score_bounds], [build_well_formed],
      [weights_round_sound], [weights_paced].
    - Control and state: [commands_answered_once], [outbound_in_order],
      [command_answered], [update_authorised], [event_file_whole_lines],
      [restart_restores], [slots_bounded_and_served].
    - Defects, stated as what the code does: [streams_overshoot], and lemmas and
      examples of the files concerned, which the findings of the manifest name.

    ** Not modelled

    - The parser of the command lines (argparse) and logging; the building of the
      uvicorn server and the installing of signal handlers (what a signal does is in
      [Service] and [Vectors]).
    - The frames of the websocket, SFTP and the HTTP libraries: what they carry is
      an argument; the chunks of a log stream.
    - Cancellation of a task inside a function, except where a claim depends on it
      ([Queue], [Control], [Service]); so a round of deep passes is not cancelled.
    - A chain client that refuses to compose, sign or submit the weights.
    - JSON texts of the files the validator keeps: [document] of [PyJson] is
      the value they hold, or that they cannot be read.
    - Failed allocations and launches of the kernels, and the times they take: the
      throughput is what the device says.
    - scripts/import_scan.py, which is about Python's module system; deployment
      files, docs and the portal's server. *)

From stdpp Require Export base tactics list numbers strings pretty option gmap.
From Stdlib Require Export ZArith Lia.

(** ** Python exceptions and the error monad *)

(** The exception classes the program's own handlers tell apart; the last four
    are the program's own, with the text the handlers read ([OSError] too carries
    what its handlers print).  [Diverged] is no exception of the program: it
    marks a polling loop cut off by the fuel of the model. *)
Inductive exn : Type :=
  | TypeError
  | ValueError
  | OverflowError
  | ZeroDivisionError
  | KeyError
  | IndexError
  | AttributeError
  | OSError (text : string)
  | Diverged
  | Cancelled (message : string)
  | SshError (detail : string)
  | ServerError (detail : string)
  | ChallengeUnavailable (detail : string).

#[export] Instance exn_eq_dec : EqDecision exn.
Proof. solve_decision. Defined.

(** A Python computation returns a value or raises. *)
Inductive res (A : Type) : Type :=
  | Ok (a : A)
  | Raise (e : exn).
Arguments Ok {A} a.
Arguments Raise {A} e.

#[export] Instance res_ret : MRet res := fun A a => Ok a.
#[export] Instance res_bind : MBind res := fun A B f m =>
  match m with Ok a => f a | Raise e => Raise e end.
#[export] Instance res_fmap : FMap res := fun A B f m =>
  match m with Ok a => Ok (f a) | Raise e => Raise e end.

(** [try m except es: d] *)
Definition try_except {A} (m : res A) (es : list exn) (d : A) : res A :=
  match m with
  | Ok a => Ok a
  | Raise e => if decide (e ∈ es) then Ok d else Raise e
  end.

Definition is_ok {A} (m : res A) : bool :=
  match m with Ok _ => true | Raise _ => false end.

Lemma elem_of_filter_b {A} (f : A → bool) (x : A) l : x ∈ List.filter f l ↔ x ∈ l ∧ f x = true.
Proof. by rewrite !list_elem_of_In, filter_In. Qed.

Lemma res_bind_ok {A B} (m : res A) (f : A → res B) (b : B) :
  (m ≫= f) = Ok b ↔ ∃ a, m = Ok a ∧ f a = Ok b.
Proof.
  destruct m as [a|e]; simpl; split.
  - eauto.
  - by intros (a' & [= ->] & ?).
  - done.
  - by intros (a' & ? & ?).
Qed.

Lemma Ok_inj {A} (a b : A) : Ok a = Ok b → a = b.
Proof. by intros [= ->]. Qed.

Lemma res_fmap_ok {A B} (f : A → B) (m : res A) (b : B) :
  (f <$> m) = Ok b ↔ ∃ a, m = Ok a ∧ f a = b.
Proof. destruct m; simpl; naive_solver. Qed.

Lemma try_except_ok {A} (m : res A) es (d a : A) :
  m = Ok a → try_except m es d = Ok a.
Proof. by intros ->. Qed.

(** Decompose every hypothesis [bind ... = Ok _]. *)
Ltac res_inv :=
  repeat match goal with
  | H : (_ ≫= _) = Ok _ |- _ =>
      apply res_bind_ok in H; let a := fresh "a" in let Ha := fresh "Ha" in
      destruct H as (a & Ha & H)
  | H : (_ <$> _) = Ok _ |- _ =>
      apply res_fmap_ok in H; let a := fresh "a" in let Ha := fresh "Ha" in
      destruct H as (a & Ha & H)
  | H : Ok _ = Ok _ |- _ => injection H as H; subst
  | H : mret _ = Ok _ |- _ => injection H as H; subst
  | H : Raise _ = Ok _ |- _ => discriminate H
  | H : Ok _ = Raise _ |- _ => discriminate H
  end.

(** Split on every boolean test of the goal, keeping the equations. *)
Ltac case_bools :=
  repeat match goal with
  | |- context [if ?b then _ else _] =>
      lazymatch type of b with
      | bool => let E := fresh "E" in destruct b eqn:E
      end
  end; try done.

(** ** Boolean rewriting *)

Create HintDb py.
Create Rewrite HintDb pyrw.

#[export] Hint Rewrite andb_true_iff orb_true_iff negb_true_iff andb_false_iff
  orb_false_iff negb_false_iff @bool_decide_eq_true @bool_decide_eq_false : pyrw.

Ltac boolify := autorewrite with pyrw in *.

(** ** Ordered dictionaries

    A Python [dict] iterates in insertion order; updating a key keeps its
    position.  The model is an association list without duplicate keys. *)
Section PyDict.
Context {K : Type} `{EqDecision K} {V : Type}.
Implicit Types (d : list (K * V)) (k : K) (v : V).

Fixpoint dget k d : option V :=
  match d with
  | [] => None
  | (k', v) :: d' => if decide (k = k') then Some v else dget k d'
  end.

Fixpoint dset k v d : list (K * V) :=
  match d with
  | [] => [(k, v)]
  | (k', v') :: d' => if decide (k = k') then (k', v) :: d' else (k', v') :: dset k v d'
  end.

Definition dpop k d : list (K * V) := filter (λ kv, kv.1 ≠ k) d.

Definition dmem k d : bool := match dget k d with Some _ => true | None => false end.

Definition dkeys d : list K := d.*1.

Lemma dget_dset k v d : dget k (dset k v d) = Some v.
Proof. induction d as [|[k' v'] d IH]; simpl; repeat (case_decide; simpl); congruence. Qed.

Lemma dget_dset_ne k k' v d : k ≠ k' → dget k' (dset k v d) = dget k' d.
Proof.
  intros Hne. induction d as [|[k2 v2] d IH]; simpl;
    repeat (case_decide; simpl; subst); congruence.
Qed.

Lemma dget_dset_dec k k' v d :
  dget k' (dset k v d) = if decide (k = k') then Some v else dget k' d.
Proof. case_decide; [subst; apply dget_dset | by apply dget_dset_ne]. Qed.

Lemma dget_dpop k d : dget k (dpop k d) = None.
Proof.
  unfold dpop. induction d as [|[k' v'] d IH]; [done|].
  rewrite filter_cons. case_decide; simpl in *; [case_decide; congruence | done].
Qed.

Lemma dget_dpop_ne k k' d : k ≠ k' → dget k' (dpop k d) = dget k' d.
Proof.
  intros Hne. unfold dpop. induction d as [|[k2 v2] d IH]; [done|].
  rewrite filter_cons. case_decide as E; simpl in *; [by rewrite IH|].
  case_decide; [|done]. destruct E. congruence.
Qed.

Lemma dget_dpop_dec k k' d :
  dget k' (dpop k d) = if decide (k = k') then None else dget k' d.
Proof. case_decide; [subst; apply dget_dpop | by apply dget_dpop_ne]. Qed.

Lemma dget_None k d : dget k d = None ↔ k ∉ dkeys d.
Proof.
  unfold dkeys. induction d as [|[k' v'] d IH]; csimpl; [set_solver|].
  case_decide; set_solver.
Qed.

Lemma dget_elem k v d : dget k d = Some v → (k, v) ∈ d.
Proof.
  induction d as [|[k' v'] d IH]; simpl; [done|].
  case_decide; intros ?; simplify_eq; set_solver.
Qed.

Lemma dmem_true k d : dmem k d = true ↔ k ∈ dkeys d.
Proof.
  unfold dmem. destruct (dget k d) eqn:E; split; try done.
  - intros _. destruct (decide (k ∈ dkeys d)) as [|Hn]; [done|].
    apply dget_None in Hn. congruence.
  - intros Hk. by apply dget_None in E.
Qed.

Lemma dkeys_dset k v d :
  dkeys (dset k v d) = if dmem k d then dkeys d else dkeys d ++ [k].
Proof.
  unfold dmem, dkeys. induction d as [|[k' v'] d IH]; csimpl; [done|].
  case_decide; csimpl; [done|]. rewrite IH. by destruct (dget k d).
Qed.

Lemma NoDup_dset k v d : NoDup (dkeys d) → NoDup (dkeys (dset k v d)).
Proof.
  intros Hd. rewrite dkeys_dset. destruct (dmem k d) eqn:E; [done|].
  apply NoDup_app. split; [done|]. split; [|apply NoDup_singleton].
  intros x Hx ->%list_elem_of_singleton. apply dmem_true in Hx. congruence.
Qed.

Lemma dkeys_dpop k d : dkeys (dpop k d) = filter (.≠ k) (dkeys d).
Proof.
  unfold dkeys, dpop. induction d as [|[k' v'] d IH]; [done|].
  csimpl. rewrite !filter_cons. simpl.
  repeat case_decide; csimpl; congruence.
Qed.

Lemma NoDup_dpop k d : NoDup (dkeys d) → NoDup (dkeys (dpop k d)).
Proof. rewrite dkeys_dpop. intros. by apply NoDup_filter. Qed.

Lemma NoDup_dkeys_filter (f : K * V → bool) d :
  NoDup (dkeys d) → NoDup (dkeys (List.filter f d)).
Proof.
  unfold dkeys. induction d as [|[k v] d IH]; csimpl; [done|].
  intros [Hk Hnd]%NoDup_cons. destruct (f (k, v)); csimpl; [|by apply IH].
  apply NoDup_cons. split; [|by apply IH]. intros (kv & -> & Hkv)%list_elem_of_fmap.
  apply Hk, list_elem_of_fmap. exists kv. split; [done|].
  apply list_elem_of_In, filter_In in Hkv as [Hkv _]. by apply list_elem_of_In.
Qed.
End PyDict.

#[export] Hint Resolve NoDup_dset NoDup_dpop NoDup_dkeys_filter : py.
#[export] Hint Rewrite @dget_dset @dget_dpop : pyrw.

(** ** Counting

    How many items of a list satisfy a test, and how an update changes it. *)

Definition tally {A} (f : A → bool) (l : list A) : Z := Z.of_nat (List.length (List.filter f l)).

Lemma tally_insert {A} (f : A → bool) (l : list A) i x y :
  l !! i = Some x → tally f (<[i:=y]> l) = (tally f l - Z.b2z (f x) + Z.b2z (f y))%Z.
Proof.
  unfold tally. revert i. induction l as [|z l IH]; intros [|i]; try done; intros Hi.
  - injection Hi as ->. change (<[0%nat:=y]> (x :: l)) with (y :: l). cbn [List.filter].
    destruct (f x), (f y); cbn [List.length Z.b2z]; lia.
  - specialize (IH i Hi). change (<[S i:=y]> (z :: l)) with (z :: <[i:=y]> l). cbn [List.filter].
    destruct (f z); cbn [List.length] in *; lia.
Qed.

Lemma tally_pos {A} (f : A → bool) (l : list A) : (0 < tally f l)%Z → ∃ i x, l !! i = Some x ∧ f x = true.
Proof.
  unfold tally. induction l as [|z l IH]; [done|]. cbn. destruct (f z) eqn:E.
  - intros _. by exists 0%nat, z.
  - intros (i & x & Hi & Hx)%IH. by exists (S i), x.
Qed.

Lemma tally_nonneg {A} (f : A → bool) (l : list A) : (0 <= tally f l)%Z.
Proof. unfold tally. lia. Qed.

Lemma tally_zero {A} (f : A → bool) (l : list A) : tally f l = 0%Z ↔ ∀ i x, l !! i = Some x → f x = false.
Proof.
  split.
  - intros Ht i x Hi. destruct (f x) eqn:E; [|done]. exfalso.
    unfold tally in Ht. assert (x ∈ List.filter f l) as Hin
      by (apply elem_of_filter_b; split; [by eapply list_elem_of_lookup_2|done]).
    destruct (List.filter f l); [by apply not_elem_of_nil in Hin|simpl in Ht; lia].
  - intros H. destruct (decide (0 < tally f l)%Z) as [(i & x & Hi & Hx)%tally_pos|]; [by rewrite (H i x Hi) in Hx|].
    pose proof (tally_nonneg f l). lia.
Qed.
