(* ===== verification/PyStr.v ===== *)
(** * Python strings

    A [str] is a Rocq [string] read as Latin-1 code points (0 to 255); the
    methods the program uses are defined with Python's rules on that range:
    which code points are whitespace, line boundaries, digits and upper-case
    letters. *)

From stdpp Require Import sorting.
From S2P Require Import Prelude.
From Stdlib Require Import Ascii String.
Local Open Scope string_scope.

Definition code (c : ascii) : Z := Z.of_N (N_of_ascii c).

Definition slen (s : string) : nat := String.length s.

(** ** Character classes *)

Definition between (lo hi : Z) (c : ascii) : bool := ((lo <=? code c) && (code c <=? hi))%Z.

Definition is_digit : ascii → bool := between 48 57.
Definition is_upper_ascii : ascii → bool := between 65 90.
Definition is_lower_ascii : ascii → bool := between 97 122.
Definition is_alnum_ascii (c : ascii) : bool :=
  is_digit c || is_upper_ascii c || is_lower_ascii c.
Definition is_hex (c : ascii) : bool := is_digit c || between 97 102 c.
Definition one_of (s : string) (c : ascii) : bool :=
  existsb (Ascii.eqb c) (list_ascii_of_string s).

(** [str.isspace] on Latin-1. *)
Definition is_space (c : ascii) : bool :=
  between 9 13 c || between 28 31 c || (code c =? 32)%Z || (code c =? 133)%Z || (code c =? 160)%Z.

(** The line boundaries of [str.splitlines]. *)
Definition is_linebreak (c : ascii) : bool :=
  between 10 13 c || between 28 30 c || (code c =? 133)%Z.

Definition lower_char (c : ascii) : ascii :=
  if is_upper_ascii c || (between 192 222 c && negb (code c =? 215)%Z)
  then ascii_of_N (Z.to_N (code c + 32)) else c.

Definition nl : ascii := ascii_of_nat 10.
Definition cr : ascii := ascii_of_nat 13.
Definition tab : ascii := ascii_of_nat 9.
Definition nls : string := String nl "".

(** ** Methods *)

Fixpoint smap (f : ascii → ascii) (s : string) : string :=
  match s with "" => "" | String c s' => String (f c) (smap f s') end.

Fixpoint sforall (f : ascii → bool) (s : string) : bool :=
  match s with "" => true | String c s' => f c && sforall f s' end.

Definition lower (s : string) : string := smap lower_char s.

(** [s[:n]], [s[n:]] and [s[-n:]] *)
Fixpoint stake (n : nat) (s : string) : string :=
  match n, s with S n', String c s' => String c (stake n' s') | _, _ => "" end.
Fixpoint sdrop (n : nat) (s : string) : string :=
  match n, s with S n', String _ s' => sdrop n' s' | _, _ => s end.
Definition slast (n : nat) (s : string) : string := sdrop (slen s - n) s.

Definition startswith (p s : string) : bool := String.prefix p s.
Definition endswith (p s : string) : bool :=
  (slen p <=? slen s)%nat && String.eqb (slast (slen p) s) p.

(** [sub in s] *)
Fixpoint contains (sub s : string) : bool :=
  String.prefix sub s || match s with "" => false | String _ s' => contains sub s' end.

Fixpoint lstrip_p (f : ascii → bool) (s : string) : string :=
  match s with
  | String c s' => if f c then lstrip_p f s' else s
  | "" => ""
  end.

Fixpoint rstrip_p (f : ascii → bool) (s : string) : string :=
  match s with
  | "" => ""
  | String c s' =>
      match rstrip_p f s' with
      | "" => if f c then "" else String c ""
      | t => String c t
      end
  end.

Definition strip (s : string) : string := rstrip_p is_space (lstrip_p is_space s).
Definition rstrip_set (cs s : string) : string := rstrip_p (one_of cs) s.
Definition lstrip_set (cs s : string) : string := lstrip_p (one_of cs) s.

(** The text before and after the first occurrence of [sep]. *)
Fixpoint partition_first (sep s : string) : option (string * string) :=
  if String.prefix sep s then Some ("", sdrop (slen sep) s)
  else match s with
       | "" => None
       | String c s' =>
           match partition_first sep s' with
           | Some (a, b) => Some (String c a, b)
           | None => None
           end
       end.

(** [s.split(sep)] for a non-empty [sep]; the fuel is the length of [s]. *)
Fixpoint split_fuel (fuel : nat) (sep s : string) : list string :=
  match fuel with
  | O => [s]
  | S fuel' =>
      match partition_first sep s with
      | Some (a, b) => a :: split_fuel fuel' sep b
      | None => [s]
      end
  end.
Definition split_on (sep s : string) : list string := split_fuel (S (slen s)) sep s.

(** [s.rsplit(sep, 1)[-1]]: the text after the last occurrence of [sep]. *)
Definition after_last (sep s : string) : string := List.last (split_on sep s) "".

(** [s.split()]: the maximal runs of non-space characters. *)
Fixpoint split_ws_go (cur s : string) : list string :=
  match s with
  | "" => if String.eqb cur "" then [] else [cur]
  | String c s' =>
      if is_space c
      then (if String.eqb cur "" then split_ws_go "" s' else cur :: split_ws_go "" s')
      else split_ws_go (cur +:+ String c "") s'
  end.
Definition split_ws (s : string) : list string := split_ws_go "" s.

(** [s.splitlines()]: [\r\n] is one boundary, and a final boundary opens no
    further line. *)
Fixpoint splitlines_go (cur s : string) : list string :=
  match s with
  | "" => if String.eqb cur "" then [] else [cur]
  | String c s' =>
      if is_linebreak c then
        match s' with
        | String d s'' => if Ascii.eqb c cr && Ascii.eqb d nl
                          then cur :: splitlines_go "" s''
                          else cur :: splitlines_go "" s'
        | "" => [cur]
        end
      else splitlines_go (cur +:+ String c "") s'
  end.
Definition splitlines (s : string) : list string := splitlines_go "" s.

(** The longest prefix of characters in [f], and the rest. *)
Definition take_while (f : ascii → bool) : string → string * string :=
  fix go s := match s with
              | "" => ("", "")
              | String c s' => if f c then let '(a, b) := go s' in (String c a, b) else ("", s)
              end.

Fixpoint join (sep : string) (l : list string) : string :=
  match l with
  | [] => ""
  | [x] => x
  | x :: l' => x +:+ sep +:+ join sep l'
  end.

(** ** Numbers *)

Definition str_of_Z (z : Z) : string := pretty z.

Definition digit_val (c : ascii) : Z := code c - 48.

(** The digits of an int literal: single underscores may separate digits. *)
Fixpoint digits_go (acc : Z) (prev_digit : bool) (s : string) : option Z :=
  match s with
  | "" => if prev_digit then Some acc else None
  | String c s' =>
      if is_digit c then digits_go (acc * 10 + digit_val c)%Z true s'
      else if Ascii.eqb c "_"%char && prev_digit then digits_go acc false s'
      else None
  end.

(** [int(s)] on a string; [None] is a [ValueError]. *)
Definition parse_int (s : string) : option Z :=
  match strip s with
  | String "-" s' => Z.opp <$> digits_go 0 false s'
  | String "+" s' => digits_go 0 false s'
  | s' => digits_go 0 false s'
  end.

(** ** Order of code points *)

Definition str_le (a b : string) : Prop := String.leb a b = true.
#[export] Instance str_le_dec : RelDecision str_le.
Proof. intros a b. unfold str_le. apply _. Defined.

(** [sorted(l)] and [sorted(set(l))] *)
Definition sorted (l : list string) : list string := merge_sort str_le l.
Definition sorted_set (l : list string) : list string := merge_sort str_le (remove_dups l).

(** ** Facts *)

#[global] Arguments String.append !s1 s2 /.

Lemma startswith_refl s : startswith s s = true.
Proof. unfold startswith. induction s as [|c s IH]; simpl; [done|]. by destruct (Ascii.ascii_dec c c). Qed.

Lemma slen_app s t : slen (s +:+ t) = (slen s + slen t)%nat.
Proof. unfold slen. induction s; simpl; congruence. Qed.

Lemma app_nil_r_s s : s +:+ "" = s.
Proof. induction s; simpl; congruence. Qed.

Lemma app_assoc_s s t u : (s +:+ t) +:+ u = s +:+ (t +:+ u).
Proof. induction s; simpl; congruence. Qed.

Lemma sdrop_app s t : sdrop (slen s) (s +:+ t) = t.
Proof. unfold slen. induction s; simpl; [by destruct t|done]. Qed.

Lemma sdrop_0 s : sdrop 0 s = s.
Proof. by destruct s. Qed.

Lemma slen_sdrop n s : slen (sdrop n s) = (slen s - n)%nat.
Proof. unfold slen. revert s. induction n; intros [|c s]; simpl; auto. Qed.

Lemma sapp_inj_l s t u : s +:+ t = s +:+ u → t = u.
Proof. induction s; simpl; [done|]. intros [=]. auto. Qed.

Lemma sapp_inj_r s t u : s +:+ u = t +:+ u → s = t.
Proof.
  intros H. assert (Hl : slen s = slen t).
  { apply (f_equal slen) in H. rewrite !slen_app in H. lia. }
  unfold slen in Hl. revert t H Hl. induction s as [|c s IH]; intros [|d t]; simpl; try done.
  intros [= -> H] [= Hl]. f_equal. auto.
Qed.

Lemma stake_sdrop n s : stake n s +:+ sdrop n s = s.
Proof.
  revert s. induction n as [|n IH]; intros [|c s]; simpl; try done.
  by rewrite IH.
Qed.

Lemma endswith_app s p : endswith p (s +:+ p) = true.
Proof.
  unfold endswith, slast. rewrite slen_app.
  replace (slen s + slen p - slen p)%nat with (slen s) by lia.
  rewrite sdrop_app, String.eqb_refl, andb_true_r. apply Nat.leb_le. lia.
Qed.

Lemma endswith_inv p s : endswith p s = true → ∃ t, s = t +:+ p.
Proof.
  unfold endswith, slast. intros [_ H%String.eqb_eq]%andb_true_iff.
  exists (stake (slen s - slen p) s). rewrite <- H at 2. by rewrite stake_sdrop.
Qed.

Lemma endswith_spec p s : endswith p s = true ↔ ∃ t, s = t +:+ p.
Proof. split; [apply endswith_inv|]. intros [t ->]. apply endswith_app. Qed.

Lemma prefix_app p s : String.prefix p (p +:+ s) = true.
Proof. induction p; simpl; [by destruct s|]. by destruct (ascii_dec a a). Qed.

Lemma prefix_spec p s : String.prefix p s = true ↔ ∃ t, s = p +:+ t.
Proof.
  revert s. induction p as [|c p IH]; intros s; simpl.
  - split; [by exists s|]. by destruct s.
  - destruct s as [|d s]; [split; [done|by intros [? [=]]]|].
    simpl. destruct (ascii_dec c d) as [->|Hne].
    + rewrite IH. split; intros [t H]; exists t; [by rewrite H|by simplify_eq/=].
    + split; [done|]. intros [t [=]]. done.
Qed.

Lemma contains_spec sub s :
  contains sub s = true ↔ ∃ a b, s = a +:+ (sub +:+ b).
Proof.
  induction s as [|c s IH]; cbn [contains].
  - rewrite orb_true_iff, prefix_spec. split.
    + intros [[t H]|?]; [|done]. by exists "", t.
    + intros (a & b & H). left. destruct a; [|done]. by exists b.
  - rewrite orb_true_iff, IH, prefix_spec. split.
    + intros [[t H]|(a & b & ->)]; [by exists "", t|by exists (String c a), b].
    + intros ([|d a] & b & H); simpl in H; [left; by exists b|right].
      injection H as -> ->. by exists a, b.
Qed.

Lemma sforall_app f s t : sforall f (s +:+ t) = sforall f s && sforall f t.
Proof. induction s; simpl; [done|]. by rewrite IHs, andb_assoc. Qed.

Lemma rstrip_p_idem f s : rstrip_p f (rstrip_p f s) = rstrip_p f s.
Proof.
  induction s as [|c s IH]; simpl; [done|].
  destruct (rstrip_p f s) as [|d t] eqn:E.
  - destruct (f c) eqn:Ec; simpl; [done|]. by rewrite Ec.
  - change (rstrip_p f (String c (String d t))) with
      (match rstrip_p f (String d t) with
       | "" => if f c then "" else String c "" | u => String c u end).
    by rewrite IH.
Qed.

Lemma lstrip_p_head f s : match lstrip_p f s with "" => True | String c _ => f c = false end.
Proof. induction s as [|c s IH]; simpl; [done|]. destruct (f c) eqn:E; [done|done]. Qed.

Lemma strip_idem s : strip (strip s) = strip s.
Proof.
  unfold strip. pose proof (lstrip_p_head is_space s) as Hh.
  destruct (lstrip_p is_space s) as [|c t]; [done|].
  assert (lstrip_p is_space (rstrip_p is_space (String c t)) = rstrip_p is_space (String c t)) as ->.
  { simpl. destruct (rstrip_p is_space t); simpl; rewrite Hh; simpl; by rewrite ?Hh. }
  apply rstrip_p_idem.
Qed.
