(* ===== verification/PyText.v ===== *)
(** * More on Python strings

    [str.rfind], the lines of a text and the text of a list of lines, and what
    [strip] and [split] keep. *)

From Stdlib Require Import Ascii String.
From S2P Require Import Prelude.
From S2P Require Import PyStr.
Local Open Scope string_scope.
Local Open Scope list_scope.

(** The text after the last occurrence of [sub] ([s[s.rfind(sub) + len(sub):]]);
    [None] when [rfind] answers -1. *)
Fixpoint after_rfind (sub s : string) : option string :=
  match s with
  | "" => if String.prefix sub "" then Some "" else None
  | String c s' =>
      match after_rfind sub s' with
      | Some r => Some r
      | None => if String.prefix sub s then Some (sdrop (slen sub) s) else None
      end
  end.

Lemma after_rfind_None sub s : after_rfind sub s = None ↔ contains sub s = false.
Proof.
  induction s as [|c s IH]; cbn [after_rfind contains].
  - destruct (String.prefix sub ""); [done|]. by rewrite orb_false_l.
  - destruct (after_rfind sub s) eqn:E.
    + destruct (contains sub s); [by rewrite orb_true_r|]. naive_solver.
    + rewrite (proj1 IH eq_refl), orb_false_r. by destruct (String.prefix sub (String c s)).
Qed.

Lemma after_rfind_split sub s r : after_rfind sub s = Some r → ∃ p, s = p +:+ (sub +:+ r).
Proof.
  revert r. induction s as [|c s IH]; intros r; cbn [after_rfind].
  - destruct (String.prefix sub "") eqn:E; [|done]. intros [= <-].
    apply prefix_spec in E as [t Ht]. exists "". destruct sub; [|done]. by simplify_eq/=.
  - destruct (after_rfind sub s) as [r'|] eqn:E.
    + intros [= <-]. destruct (IH _ eq_refl) as [p ->]. by exists (String c p).
    + destruct (String.prefix sub (String c s)) eqn:F; [|done]. intros [= <-].
      apply prefix_spec in F as [t Ht]. exists "". rewrite Ht, sdrop_app. done.
Qed.

Lemma contains_cons sub c s : contains sub s = true → contains sub (String c s) = true.
Proof. intros H. cbn [contains]. by rewrite H, orb_true_r. Qed.

Lemma contains_app_l sub p s : contains sub s = true → contains sub (p +:+ s) = true.
Proof. intros H. induction p; [done|]. by apply contains_cons. Qed.

(** The text after the last occurrence holds no other one. *)
Lemma after_rfind_last sub s r :
  sub ≠ "" → after_rfind sub s = Some r → contains sub r = false.
Proof.
  intros Hsub. revert r. induction s as [|c s IH]; intros r; cbn [after_rfind].
  - destruct sub; [done|]. done.
  - destruct (after_rfind sub s) as [r'|] eqn:E; [intros [= <-]; auto|].
    destruct (String.prefix sub (String c s)) eqn:F; [|done]. intros [= <-].
    apply after_rfind_None in E. apply prefix_spec in F as [t Ht]. rewrite Ht, sdrop_app.
    apply not_true_iff_false. intros G. rewrite <- not_true_iff_false in E. apply E.
    destruct sub as [|d sub]; [done|]. injection Ht as _ ->. by apply contains_app_l.
Qed.

(** ** What [strip] keeps *)

Lemma lstrip_suffix f s : ∃ p, s = p +:+ lstrip_p f s.
Proof.
  induction s as [|c s [p IH]]; [by exists ""|]. simpl. destruct (f c).
  - exists (String c p). simpl. by rewrite <- IH.
  - by exists "".
Qed.

Lemma rstrip_prefix f s : ∃ p, s = rstrip_p f s +:+ p.
Proof.
  induction s as [|c s [p IH]]; [by exists ""|]. simpl.
  destruct (rstrip_p f s) as [|d t] eqn:E.
  - destruct (f c); [by exists (String c s)|]. exists p. simpl. by rewrite IH at 1.
  - exists p. simpl in *. by rewrite IH at 1.
Qed.

Lemma strip_part s : ∃ a b, s = a +:+ (strip s +:+ b).
Proof.
  destruct (lstrip_suffix is_space s) as [a Ha].
  destruct (rstrip_prefix is_space (lstrip_p is_space s)) as [b Hb].
  exists a, b. unfold strip. by rewrite <- Hb.
Qed.

Lemma sforall_strip f s : sforall f s = true → sforall f (strip s) = true.
Proof.
  destruct (strip_part s) as (a & b & H). rewrite H at 1. rewrite !sforall_app.
  by intros [_ [? _]%andb_true_iff]%andb_true_iff.
Qed.

Lemma contains_strip sub s : contains sub (strip s) = true → contains sub s = true.
Proof.
  destruct (strip_part s) as (a & b & H). rewrite contains_spec. intros (x & y & Hs).
  rewrite H. apply contains_spec. exists (a +:+ x), (y +:+ b).
  by rewrite Hs, !app_assoc_s.
Qed.

Lemma rstrip_no_space s : sforall (λ c, negb (is_space c)) s = true → rstrip_p is_space s = s.
Proof.
  induction s as [|c s IH]; [done|]. simpl. intros [Hc Hs]%andb_true_iff. rewrite (IH Hs).
  destruct s; [|done]. apply negb_true_iff in Hc. by rewrite Hc.
Qed.

Lemma strip_no_space s : sforall (λ c, negb (is_space c)) s = true → strip s = s.
Proof.
  intros H. unfold strip. rewrite rstrip_no_space.
  - destruct s as [|c s]; [done|]. simpl in *. apply andb_true_iff in H as [H _].
    apply negb_true_iff in H. by rewrite H.
  - destruct s as [|c s]; [done|]. simpl in *. apply andb_true_iff in H as [H H'].
    apply negb_true_iff in H as Hc. rewrite Hc. simpl. by rewrite H, H'.
Qed.

Lemma sforall_impl f g s : (∀ c, f c = true → g c = true) → sforall f s = true → sforall g s = true.
Proof.
  intros Hfg. induction s as [|c s IH]; [done|]. simpl. rewrite !andb_true_iff. naive_solver.
Qed.

Lemma sforall_stake f n s : sforall f s = true → sforall f (stake n s) = true.
Proof.
  revert s. induction n as [|n IH]; intros [|c s]; try done. simpl. rewrite !andb_true_iff.
  naive_solver.
Qed.

Lemma contains_forall sub s c :
  sforall (λ d, negb (Ascii.eqb d c)) s = true → contains (String c "") sub = true →
  contains sub s = false.
Proof.
  intros Hs Hc. destruct (contains sub s) eqn:E; [|done]. exfalso.
  apply contains_spec in E as (a & b & ->). apply contains_spec in Hc as (x & y & ->).
  rewrite !sforall_app in Hs. simpl in Hs. rewrite Ascii.eqb_refl in Hs.
  cbn [negb andb] in Hs. rewrite !andb_false_r in Hs. done.
Qed.

(** ** The words of a text *)

Lemma split_ws_go_words s : ∀ cur,
  sforall (λ c, negb (is_space c)) cur = true →
  Forall (λ w, sforall (λ c, negb (is_space c)) w = true) (split_ws_go cur s).
Proof.
  induction s as [|c s IH]; intros cur Hcur; cbn [split_ws_go].
  - destruct (String.eqb cur ""); repeat constructor. done.
  - destruct (is_space c) eqn:E.
    + destruct (String.eqb cur ""); [by apply IH|]. constructor; [done|by apply IH].
    + apply IH. rewrite sforall_app, Hcur. simpl. by rewrite E.
Qed.

Lemma split_ws_words s : Forall (λ w, sforall (λ c, negb (is_space c)) w = true) (split_ws s).
Proof. by apply split_ws_go_words. Qed.

Lemma split_ws_go_some s : ∀ cur, Forall (λ w, w ≠ "") (split_ws_go cur s).
Proof.
  induction s as [|c s IH]; intros cur; cbn [split_ws_go].
  - destruct (String.eqb_spec cur ""); by repeat constructor.
  - destruct (is_space c); [|done]. destruct (String.eqb_spec cur ""); [done|]. by constructor.
Qed.
Lemma split_ws_some s : Forall (λ w, w ≠ "") (split_ws s).
Proof. apply split_ws_go_some. Qed.

Definition wordy (w : string) : Prop := w ≠ "" ∧ sforall (λ c, negb (is_space c)) w = true.

Lemma split_ws_go_word w s : ∀ cur,
  sforall (λ c, negb (is_space c)) w = true → split_ws_go cur (w +:+ s) = split_ws_go (cur +:+ w) s.
Proof.
  induction w as [|c w IH]; intros cur Hw; cbn [String.append]; [by rewrite app_nil_r_s|].
  cbn in Hw. apply andb_true_iff in Hw as [Hc Hw]. apply negb_true_iff in Hc. cbn [split_ws_go]. rewrite Hc, IH by done.
  by rewrite app_assoc_s.
Qed.

Lemma rstrip_word p w : wordy w → rstrip_p is_space (p +:+ w) = p +:+ w.
Proof.
  intros [Hne Hw]. induction p as [|c p IH]; [by apply rstrip_no_space|]. cbn [String.append rstrip_p]. rewrite IH.
  destruct p, w; done.
Qed.

(** Two words and the space between them. *)
Lemma two_words k b : wordy k → wordy b →
  strip (k +:+ " " +:+ b) = k +:+ " " +:+ b ∧ split_ws (k +:+ " " +:+ b) = [k; b].
Proof.
  intros [Hk Hkw] [Hb Hbw]. split.
  - unfold strip. assert (lstrip_p is_space (k +:+ " " +:+ b) = k +:+ " " +:+ b) as ->.
    { destruct k as [|c k]; [done|]. cbn in Hkw. apply andb_true_iff in Hkw as [Hc _]. apply negb_true_iff in Hc.
      cbn [String.append lstrip_p]. by rewrite Hc. }
    rewrite <- app_assoc_s. by apply rstrip_word.
  - unfold split_ws. rewrite split_ws_go_word by done. cbn [String.append split_ws_go].
    change (is_space " ") with true. cbn iota. apply String.eqb_neq in Hk. rewrite Hk. f_equal.
    rewrite <- (app_nil_r_s b) at 1. rewrite split_ws_go_word by done. cbn [String.append split_ws_go].
    apply String.eqb_neq in Hb. by rewrite Hb.
Qed.

(** ** Lines *)

Definition no_break (s : string) : bool := sforall (λ c, negb (is_linebreak c)) s.

(** [join(line + "\n" for line in lines)] *)
Definition text_of (lines : list string) : string :=
  foldr (λ line text, line +:+ nls +:+ text) "" lines.

Lemma splitlines_go_line line rest : ∀ cur, no_break line = true →
  splitlines_go cur (line +:+ nls +:+ rest) = (cur +:+ line) :: splitlines rest.
Proof.
  induction line as [|c line IH]; intros cur Hn.
  - rewrite app_nil_r_s. simpl. by destruct rest.
  - cbn [String.append]. unfold no_break in Hn. simpl in Hn. apply andb_true_iff in Hn as [Hc Hn].
    apply negb_true_iff in Hc. cbn [splitlines_go]. rewrite Hc.
    change (line ++ nls ++ rest)%string with (line +:+ nls +:+ rest).
    rewrite IH by done. by rewrite app_assoc_s.
Qed.

Lemma splitlines_text lines :
  Forall (λ l, no_break l = true) lines → splitlines (text_of lines) = lines.
Proof.
  induction 1 as [|l lines Hl _ IH]; [done|]. cbn [text_of foldr].
  unfold splitlines at 1. rewrite splitlines_go_line by done. by rewrite <- IH at 2.
Qed.

Lemma splitlines_go_no_break s : ∀ cur, no_break cur = true →
  Forall (λ l, no_break l = true) (splitlines_go cur s).
Proof.
  induction s as [s IH] using (induction_ltof1 _ slen). intros cur Hcur.
  destruct s as [|c s]; cbn [splitlines_go].
  - destruct (String.eqb cur ""); by repeat constructor.
  - assert (Hs : ltof string slen s (String c s)) by (unfold ltof, slen; simpl; lia).
    destruct (is_linebreak c) eqn:E.
    + destruct s as [|d s]; [by repeat constructor|].
      destruct (Ascii.eqb c cr && Ascii.eqb d nl); constructor; try done; apply IH; try done.
      unfold ltof, slen. simpl. lia.
    + apply IH; [done|]. unfold no_break. rewrite sforall_app. simpl. rewrite E.
      by apply andb_true_iff.
Qed.

Lemma splitlines_no_break s : Forall (λ l, no_break l = true) (splitlines s).
Proof. by apply splitlines_go_no_break. Qed.

(** ** Splitting at a separator of one byte *)

Lemma partition_first_app sep a b :
  slen sep = 1%nat → contains sep a = false → partition_first sep (a +:+ sep +:+ b) = Some (a, b).
Proof.
  destruct sep as [|x [|]]; [done| |done]. intros _. induction a as [|c a IH]; intros Ha.
  - cbn. destruct (ascii_dec x x); [by destruct b|done].
  - cbn [contains] in Ha. apply orb_false_iff in Ha as [Hc Ha]. specialize (IH Ha).
    set (t := a +:+ String x "" +:+ b) in *.
    transitivity (if String.prefix (String x "") (String c t) then Some ("", sdrop 1 (String c t))
                  else match partition_first (String x "") t with Some (p, q) => Some (String c p, q) | None => None end);
      [done|]. rewrite IH. clearbody t. cbn in *. destruct (ascii_dec x c); [by destruct a|done].
Qed.

Lemma partition_first_cons x c s :
  partition_first (String x "") (String c s) =
  if ascii_dec x c then Some ("", s)
  else match partition_first (String x "") s with Some (a, b) => Some (String c a, b) | None => None end.
Proof. cbn [partition_first String.prefix]. destruct (ascii_dec x c); [by destruct s|done]. Qed.

Lemma contains_step x c s :
  contains (String x "") (String c s) = (if ascii_dec x c then true else contains (String x "") s).
Proof. cbn [contains String.prefix]. destruct (ascii_dec x c); [by destruct s|done]. Qed.

Lemma partition_first_parts x s : ∀ a b,
  partition_first (String x "") s = Some (a, b) → s = a +:+ String x "" +:+ b ∧ contains (String x "") a = false.
Proof.
  induction s as [|c s IH]; intros a b; [done|]. rewrite partition_first_cons.
  destruct (ascii_dec x c) as [<-|Hne]; [by intros [= <- <-]|].
  destruct (partition_first _ s) as [[p q]|]; [|done]. intros [= <- <-].
  destruct (IH p q eq_refl) as [-> Hp]. split; [done|]. rewrite contains_step. by destruct (ascii_dec x c).
Qed.

Lemma partition_first_none x s : contains (String x "") s = false → partition_first (String x "") s = None.
Proof.
  induction s as [|c s IH]; [done|]. rewrite contains_step, partition_first_cons.
  destruct (ascii_dec x c); [done|]. intros H. by rewrite IH.
Qed.

(** The fuel of [split_on] is enough, whatever is added to it. *)
Lemma split_fuel_enough x k : ∀ k' s, (slen s < k)%nat → (slen s < k')%nat →
  split_fuel k (String x "") s = split_fuel k' (String x "") s.
Proof.
  induction k as [|k IH]; intros [|k'] s Hk Hk'; [lia..|]. cbn [split_fuel].
  destruct (partition_first _ s) as [[a b]|] eqn:E; [|done]. f_equal.
  apply partition_first_parts in E as [-> _]. rewrite !slen_app in Hk, Hk'. cbn in Hk, Hk'.
  apply IH; lia.
Qed.

Lemma split_fuel_more x k s : (slen s < k)%nat → split_fuel k (String x "") s = split_on (String x "") s.
Proof. intros H. apply split_fuel_enough; lia. Qed.

Lemma split_on_app x a b : contains (String x "") a = false →
  split_on (String x "") (a +:+ String x "" +:+ b) = a :: split_on (String x "") b.
Proof.
  intros Ha. unfold split_on at 1. cbn [split_fuel]. rewrite partition_first_app by done. f_equal.
  apply split_fuel_more. rewrite !slen_app. cbn. lia.
Qed.

Lemma split_on_free x a : contains (String x "") a = false → split_on (String x "") a = [a].
Proof. intros Ha. unfold split_on. cbn [split_fuel]. by rewrite partition_first_none. Qed.

(** Joining the parts gives the text back, and no part holds the separator. *)
Lemma split_on_cons x s a l : split_on (String x "") s = a :: l →
  contains (String x "") a = false ∧
  match l with
  | [] => s = a
  | _ => ∃ rest, s = a +:+ String x "" +:+ rest ∧ split_on (String x "") rest = l
  end.
Proof.
  unfold split_on at 1. cbn [split_fuel]. destruct (partition_first (String x "") s) as [[p q]|] eqn:E.
  - intros [= <- Hl]. apply partition_first_parts in E as [-> Hp]. split; [done|].
    rewrite split_fuel_more in Hl by (rewrite !slen_app; cbn; lia).
    destruct l as [|b l]; [|by exists q]. unfold split_on in Hl. cbn [split_fuel] in Hl.
    by destruct (partition_first _ q) as [[]|].
  - intros [= <- <-]. split; [|done]. destruct (contains _ s) eqn:Ec; [|done]. exfalso. revert Ec E. clear.
    induction s as [|c s IH]; [done|]. rewrite contains_step, partition_first_cons.
    destruct (ascii_dec x c); [done|]. intros Hc. destruct (partition_first _ s) as [[]|]; [done|]. by intros; apply IH.
Qed.
