(* ===== verification/PyRe.v ===== *)
(** * Regular expressions

    The program's patterns are of the form [^R$] tested with [re.match], where
    [R] uses character classes, concatenation, alternation and repetition.  [R]
    is decided by derivatives ([rmatch], proved equal to the denotation
    [matches]); [re_dollar] adds Python's [$], which also matches just before a
    final newline. *)

From S2P Require Import Prelude.
From S2P Require Import PyStr.
From Stdlib Require Import Ascii String.
Local Open Scope string_scope.

Inductive re : Type :=
  | RNone
  | REps
  | RCls (p : ascii → bool)
  | RCat (a b : re)
  | RAlt (a b : re)
  | RStar (a : re).

Inductive matches : re → string → Prop :=
  | MEps : matches REps ""
  | MCls p c : p c = true → matches (RCls p) (String c "")
  | MCat a b s t : matches a s → matches b t → matches (RCat a b) (s +:+ t)
  | MAltL a b s : matches a s → matches (RAlt a b) s
  | MAltR a b s : matches b s → matches (RAlt a b) s
  | MStar0 a : matches (RStar a) ""
  | MStarS a s t : matches a s → matches (RStar a) t → matches (RStar a) (s +:+ t).

(** ** Derivatives *)

Fixpoint nullable (r : re) : bool :=
  match r with
  | RNone | RCls _ => false
  | REps | RStar _ => true
  | RCat a b => nullable a && nullable b
  | RAlt a b => nullable a || nullable b
  end.

(** Simplifying constructors, which keep the derivatives small. *)
Definition cat (a b : re) : re :=
  match a with RNone => RNone | REps => b | _ => RCat a b end.
Definition alt (a b : re) : re :=
  match a, b with RNone, _ => b | _, RNone => a | _, _ => RAlt a b end.

Fixpoint deriv (c : ascii) (r : re) : re :=
  match r with
  | RNone | REps => RNone
  | RCls p => if p c then REps else RNone
  | RCat a b =>
      if nullable a then alt (cat (deriv c a) b) (deriv c b) else cat (deriv c a) b
  | RAlt a b => alt (deriv c a) (deriv c b)
  | RStar a => cat (deriv c a) (RStar a)
  end.

Fixpoint rmatch (r : re) (s : string) : bool :=
  match s with "" => nullable r | String c s' => rmatch (deriv c r) s' end.

Lemma nullable_spec r : nullable r = true ↔ matches r "".
Proof.
  split.
  - induction r; simpl; intros H; try done; try by constructor.
    + apply andb_true_iff in H as [H1 H2]. change "" with ("" +:+ "").
      constructor; auto.
    + apply orb_true_iff in H as [H|H]; [apply MAltL|apply MAltR]; auto.
  - intros H. remember "" as e eqn:He. induction H; simpl; try done.
    + destruct s; [|done]. simpl in He. rewrite IHmatches1, IHmatches2; done.
    + by rewrite IHmatches.
    + rewrite IHmatches; [apply orb_true_r|done].
Qed.

Lemma cat_spec a b s : matches (cat a b) s ↔ matches (RCat a b) s.
Proof.
  split.
  - destruct a; simpl; try done; intros H.
    + inversion H.
    + change s with ("" +:+ s). constructor; [constructor|done].
  - intros H. inversion H; subst. destruct a; simpl; try done.
    + match goal with H : matches RNone _ |- _ => inversion H end.
    + match goal with H : matches REps _ |- _ => inversion H end. done.
Qed.

Lemma alt_spec a b s : matches (alt a b) s ↔ matches a s ∨ matches b s.
Proof.
  assert (Hn : ∀ s, ¬ matches RNone s) by (intros ? H; inversion H).
  assert (Ha : ∀ a b, matches (RAlt a b) s ↔ matches a s ∨ matches b s).
  { intros a' b'. split.
    - intros H; inversion H; subst; auto.
    - intros [H|H]; [by apply MAltL|by apply MAltR]. }
  destruct a, b; simpl; rewrite ?Ha; naive_solver.
Qed.

Lemma cat_app_inv a b s : matches (RCat a b) s →
  ∃ u v, s = u +:+ v ∧ matches a u ∧ matches b v.
Proof. intros H; inversion H; subst; eauto. Qed.

Lemma star_cons_inv a c s : matches (RStar a) (String c s) →
  ∃ u v, s = u +:+ v ∧ matches a (String c u) ∧ matches (RStar a) v.
Proof.
  intros H. remember (RStar a) as r eqn:Hr. remember (String c s) as w eqn:Hw.
  revert c s Hw. induction H as [| | | | | |a' u v H1 IH1 H2 IH2]; intros c' s' Hw; try done.
  injection Hr as ->. destruct u as [|d u]; simpl in Hw.
  - by apply IH2.
  - injection Hw as -> <-. by exists u, v.
Qed.

Lemma deriv_spec r c s : matches (deriv c r) s ↔ matches r (String c s).
Proof.
  revert s. induction r as [| |p|a IHa b IHb|a IHa b IHb|a IHa]; intros s; simpl.
  - split; intros H; inversion H.
  - split; intros H; inversion H.
  - destruct (p c) eqn:E; split; intros H; inversion H; subst; try by constructor.
    congruence.
  - assert (Hcat : matches (cat (deriv c a) b) s ↔
              ∃ u v, s = u +:+ v ∧ matches a (String c u) ∧ matches b v).
    { rewrite cat_spec. split.
      - intros (u & v & -> & Hu & Hv)%cat_app_inv. apply IHa in Hu. eauto 6.
      - intros (u & v & -> & Hu & Hv). constructor; [by apply IHa|done]. }
    assert (Hfull : matches (RCat a b) (String c s) ↔
              (∃ u v, s = u +:+ v ∧ matches a (String c u) ∧ matches b v) ∨
              (matches a "" ∧ matches b (String c s))).
    { split.
      - intros ([|d u] & v & Hs & Hu & Hv)%cat_app_inv; simpl in Hs.
        + right. by rewrite Hs.
        + injection Hs as -> ->. left. eauto 6.
      - intros [(u & v & -> & Hu & Hv)|[Hu Hv]].
        + change (String c (u +:+ v)) with (String c u +:+ v). by constructor.
        + change (String c s) with ("" +:+ String c s). by constructor. }
    rewrite Hfull, <- nullable_spec. destruct (nullable a).
    + rewrite alt_spec, Hcat, IHb. naive_solver.
    + rewrite Hcat. naive_solver.
  - rewrite alt_spec, IHa, IHb. split.
    + intros [H|H]; [by apply MAltL|by apply MAltR].
    + intros H; inversion H; subst; auto.
  - rewrite cat_spec. split.
    + intros (u & v & -> & Hu & Hv)%cat_app_inv.
      change (String c (u +:+ v)) with (String c u +:+ v).
      constructor; [by apply IHa|done].
    + intros (u & v & -> & Hu & Hv)%star_cons_inv. constructor; [by apply IHa|done].
Qed.

Theorem rmatch_spec r s : rmatch r s = true ↔ matches r s.
Proof.
  revert r. induction s as [|c s IH]; intros r; simpl.
  - apply nullable_spec.
  - by rewrite IH, deriv_spec.
Qed.

(** ** Derived forms *)

(** [r{n}], [r{0,n}], [r{m,n}], [r+], [r?], a literal *)
Fixpoint rep (n : nat) (r : re) : re :=
  match n with O => REps | S n' => RCat r (rep n' r) end.
Fixpoint rep_upto (n : nat) (r : re) : re :=
  match n with O => REps | S n' => RAlt REps (RCat r (rep_upto n' r)) end.
Definition rep_range (m n : nat) (r : re) : re := RCat (rep m r) (rep_upto (n - m) r).
Definition rplus (r : re) : re := RCat r (RStar r).
Definition ropt (r : re) : re := RAlt REps r.
Definition rchar (c : ascii) : re := RCls (Ascii.eqb c).
Fixpoint rlit (s : string) : re :=
  match s with "" => REps | String c s' => RCat (rchar c) (rlit s') end.
Definition ralts (l : list re) : re := fold_right RAlt RNone l.

Lemma matches_cls p s : matches (RCls p) s ↔ ∃ c, s = String c "" ∧ p c = true.
Proof.
  split; [intros H; inversion H; eauto|]. intros (c & -> & H). by constructor.
Qed.

Lemma matches_cat a b s : matches (RCat a b) s ↔ ∃ u v, s = u +:+ v ∧ matches a u ∧ matches b v.
Proof. split; [apply cat_app_inv|]. intros (u & v & -> & ? & ?). by constructor. Qed.

Lemma matches_eps s : matches REps s ↔ s = "".
Proof. split; [intros H; by inversion H|intros ->; constructor]. Qed.

Lemma matches_rep_cls n p s :
  matches (rep n (RCls p)) s ↔ slen s = n ∧ sforall p s = true.
Proof.
  revert s. induction n as [|n IH]; intros s; simpl.
  - rewrite matches_eps. unfold slen. destruct s; simpl; naive_solver lia.
  - rewrite matches_cat. split.
    + intros (u & v & -> & (c & -> & Hc)%matches_cls & Hv). apply IH in Hv as [Hv1 Hv2].
      simpl. rewrite Hc. unfold slen in *. simpl. auto.
    + unfold slen. destruct s as [|c s]; simpl; [naive_solver lia|].
      intros [Hn [Hc Hs]%andb_true_iff].
      exists (String c ""), s. split; [done|]. rewrite matches_cls, IH. unfold slen. naive_solver lia.
Qed.

Lemma matches_star_cls p s : matches (RStar (RCls p)) s ↔ sforall p s = true.
Proof.
  induction s as [|c s IH]; simpl.
  - split; [done|]. constructor.
  - rewrite andb_true_iff, <- IH. split.
    + intros (u & v & -> & (d & Hu & Hd)%matches_cls & Hv)%star_cons_inv.
      injection Hu as -> ->. simpl. done.
    + intros [Hc Hs]. change (String c s) with (String c "" +:+ s).
      constructor; [|done]. by constructor.
Qed.

Lemma matches_lit l s : matches (rlit l) s ↔ s = l.
Proof.
  revert s. induction l as [|c l IH]; intros s; simpl.
  - apply matches_eps.
  - rewrite matches_cat. split.
    + intros (u & v & -> & (d & -> & Hd)%matches_cls & Hv). apply IH in Hv as ->.
      apply Ascii.eqb_eq in Hd as ->. done.
    + intros ->. exists (String c ""), l. rewrite IH. split; [done|].
      split; [|done]. constructor. apply Ascii.eqb_refl.
Qed.

(** ** [re.match(r"^R$", s)]: [R] up to the end, or up to a final newline *)

Definition chomp (s : string) : option string :=
  if endswith nls s then Some (stake (slen s - 1) s) else None.

Definition re_dollar (r : re) (s : string) : bool :=
  rmatch r s || match chomp s with Some t => rmatch r t | None => false end.

Lemma stake_app s t : stake (slen s) (s +:+ t) = s.
Proof. unfold slen. induction s; simpl; [by destruct t|congruence]. Qed.

Lemma chomp_Some s t : chomp s = Some t ↔ s = t +:+ nls.
Proof.
  unfold chomp. destruct (endswith nls s) eqn:E.
  - apply endswith_spec in E as [u ->]. rewrite slen_app.
    replace (slen u + slen nls - 1)%nat with (slen u) by (unfold slen, nls; simpl; lia).
    rewrite stake_app. split; [by intros [= ->]|]. intros ?%sapp_inj_r. congruence.
  - split; [done|]. intros ->. by rewrite endswith_app in E.
Qed.

Lemma re_dollar_spec r s :
  re_dollar r s = true ↔ matches r s ∨ ∃ t, s = t +:+ nls ∧ matches r t.
Proof.
  unfold re_dollar. rewrite orb_true_iff, rmatch_spec. destruct (chomp s) as [t|] eqn:E.
  - apply chomp_Some in E. rewrite rmatch_spec. split; [naive_solver|].
    intros [?|(u & Hu & Hm)]; [auto|]. right. subst. by apply sapp_inj_r in Hu as ->.
  - split; [naive_solver|]. intros [?|(u & Hu%chomp_Some & Hm)]; [auto|congruence].
Qed.

(** ** Characters an expression never matches *)

Fixpoint avoids (c : ascii) (r : re) : bool :=
  match r with
  | RNone | REps => true
  | RCls p => negb (p c)
  | RCat a b | RAlt a b => avoids c a && avoids c b
  | RStar a => avoids c a
  end.

Lemma avoids_matches c r s :
  matches r s → avoids c r = true → sforall (λ d, negb (Ascii.eqb d c)) s = true.
Proof.
  induction 1 as [|p d Hp|a b u v _ IHa _ IHb|a b s _ IH|a b s _ IH|a|a u v _ IHu _ IHv];
    cbn [avoids]; intros Ha; try apply andb_true_iff in Ha as [Ha Hb]; try done; auto.
  - cbn. rewrite andb_true_r. apply negb_true_iff, Ascii.eqb_neq. intros ->. by rewrite Hp in Ha.
  - rewrite sforall_app. by rewrite IHa, IHb.
  - rewrite sforall_app. by rewrite IHu, IHv.
Qed.

(** The end of line a [$] lets through is no other character. *)
Lemma avoids_dollar c r s :
  re_dollar r s = true → avoids c r = true → Ascii.eqb nl c = false →
  sforall (λ d, negb (Ascii.eqb d c)) s = true.
Proof.
  intros [H|(t & -> & H)]%re_dollar_spec Ha Hc; [by apply (avoids_matches c r)|].
  rewrite sforall_app, (avoids_matches c r t H Ha). unfold nls. cbn. by rewrite Hc.
Qed.
