(* ===== verification/PyRound.v ===== *)
(** * Rounding rationals to binary64

    Round-to-nearest-even of a rational to an integer ([rne]) and to a binary64
    value ([rndq]: 53 significant bits, smallest exponent -1074, the overflow
    threshold left to [PyFloat]), with the facts the float operations rest on:
    rounding is monotone, odd, idempotent, and the identity on every
    [m * 2^k] with at most 53 significant bits. *)

From S2P Require Import Prelude.
From Stdlib Require Import QArith Qabs Qround Qpower Lqa.

Local Open Scope Q_scope.

(** ** Rounding to an integer, ties to even *)

Definition rne (q : Q) : Z :=
  let n := Qnum q in let d := Zpos (Qden q) in
  let f := (n / d)%Z in
  let r := (2 * (n mod d))%Z in
  if (r <? d)%Z then f
  else if (d <? r)%Z then (f + 1)%Z
  else if Z.even f then f else (f + 1)%Z.

Lemma rne_spec q :
  Qabs (q - inject_Z (rne q)) <= 1 # 2 ∧
  (Qabs (q - inject_Z (rne q)) == 1 # 2 → Z.even (rne q) = true).
Proof.
  assert (Hq : q == (Qnum q) # (Qden q)) by (destruct q; reflexivity).
  unfold rne. set (n := Qnum q) in *. set (d := Qden q) in *.
  pose proof (Z.div_mod n (Zpos d) ltac:(lia)) as Hdm.
  pose proof (Z.mod_pos_bound n (Zpos d) ltac:(lia)) as Hm.
  set (f := (n / Zpos d)%Z) in *. set (m := (n mod Zpos d)%Z) in *.
  assert (Hpt : ∀ z, Qabs (q - inject_Z z) == Z.abs (n - z * Zpos d) # d).
  { intros z. rewrite Hq. unfold Qminus, Qplus, Qopp, inject_Z, Qabs, Qeq; simpl.
    rewrite !Pos.mul_1_r. nia. }
  assert (Hle : ∀ z, (2 * Z.abs (n - z * Zpos d) <= Zpos d)%Z →
            Qabs (q - inject_Z z) <= 1 # 2).
  { intros z Hz. rewrite Hpt. unfold Qle; simpl. nia. }
  assert (Hne : ∀ z, (2 * Z.abs (n - z * Zpos d) ≠ Zpos d)%Z →
            ¬ Qabs (q - inject_Z z) == 1 # 2).
  { intros z Hz. rewrite Hpt. unfold Qeq; simpl. nia. }
  destruct (Z.ltb_spec (2 * m) (Zpos d)); [|destruct (Z.ltb_spec (Zpos d) (2 * m))].
  - split; [apply Hle; nia|]. intros H'. destruct (Hne f); [nia|done].
  - split; [apply Hle; nia|]. intros H'. destruct (Hne (f + 1)%Z); [nia|done].
  - destruct (Z.even f) eqn:Ev.
    + split; [apply Hle; nia|done].
    + split; [apply Hle; nia|]. intros _.
      rewrite Z.add_1_r, Z.even_succ, <- Z.negb_even, Ev. done.
Qed.

Lemma Qabs_half_le a : Qabs a <= 1 # 2 → - (1 # 2) <= a ∧ a <= 1 # 2.
Proof. intros H. apply Qabs_Qle_condition in H. exact H. Qed.

Lemma inject_Z_le (x y : Z) : (x <= y)%Z ↔ inject_Z x <= inject_Z y.
Proof. by rewrite <- Zle_Qle. Qed.

Lemma inject_Z_lt (x y : Z) : (x < y)%Z ↔ inject_Z x < inject_Z y.
Proof. unfold Qlt, inject_Z. simpl. lia. Qed.

Lemma rne_le x y : x <= y → (rne x <= rne y)%Z.
Proof.
  intros Hxy. destruct (rne_spec x) as [Hx Ex], (rne_spec y) as [Hy Ey].
  apply Qabs_half_le in Hx as [Hx1 Hx2], Hy as [Hy1 Hy2].
  destruct (Z.le_gt_cases (rne x) (rne y)) as [|Hgt]; [done|exfalso].
  assert (Hge : inject_Z (rne y) + 1 <= inject_Z (rne x)).
  { change 1 with (inject_Z 1). rewrite <- inject_Z_plus, <- inject_Z_le. lia. }
  assert (Hx' : x - inject_Z (rne x) == - (1 # 2)) by lra.
  assert (Hy' : y - inject_Z (rne y) == 1 # 2) by lra.
  rewrite Hx' in Ex. rewrite Hy' in Ey.
  specialize (Ex ltac:(reflexivity)). specialize (Ey ltac:(reflexivity)).
  assert (rne x = rne y + 1)%Z as Heq.
  { apply Z.le_antisymm; [|lia]. rewrite inject_Z_le, inject_Z_plus.
    change (inject_Z 1) with 1. lra. }
  rewrite Heq, Z.add_1_r, Z.even_succ, <- Z.negb_even, Ey in Ex. done.
Qed.

#[export] Instance rne_proper : Proper (Qeq ==> eq) rne.
Proof. intros x y Hxy. apply Z.le_antisymm; apply rne_le; rewrite Hxy; apply Qle_refl. Qed.

Lemma rne_Z z : rne (inject_Z z) = z.
Proof.
  unfold rne, inject_Z; simpl. rewrite Z.mod_1_r, Z.div_1_r. done.
Qed.

Lemma rne_opp q : rne (- q) = (- rne q)%Z.
Proof.
  destruct (rne_spec q) as [H1 E1], (rne_spec (- q)) as [H2 E2].
  apply Qabs_half_le in H1 as [H1 H1'], H2 as [H2 H2'].
  destruct (Z.lt_trichotomy (rne (- q)) (- rne q)) as [Hlt|[Heq|Hlt]]; [|done|]; exfalso.
  - assert (inject_Z (rne (- q)) + 1 <= inject_Z (- rne q)).
    { change 1 with (inject_Z 1). rewrite <- inject_Z_plus, <- inject_Z_le. lia. }
    rewrite inject_Z_opp in *.
    assert (Hq : q - inject_Z (rne q) == 1 # 2) by lra.
    assert (Hq' : - q - inject_Z (rne (-q)) == 1 # 2) by lra.
    rewrite Hq in E1. rewrite Hq' in E2.
    specialize (E1 ltac:(reflexivity)). specialize (E2 ltac:(reflexivity)).
    assert (rne (- q) = - rne q - 1)%Z as Heq.
    { apply Z.le_antisymm; [lia|]. rewrite inject_Z_le.
      unfold Z.sub. rewrite inject_Z_plus, !inject_Z_opp. change (inject_Z 1) with 1. lra. }
    rewrite Heq in E2. rewrite Z.sub_1_r, Z.even_pred, <- Z.negb_even, Z.even_opp, E1 in E2. done.
  - assert (inject_Z (- rne q) + 1 <= inject_Z (rne (- q))).
    { change 1 with (inject_Z 1). rewrite <- inject_Z_plus, <- inject_Z_le. lia. }
    rewrite inject_Z_opp in *.
    assert (Hq : q - inject_Z (rne q) == - (1 # 2)) by lra.
    assert (Hq' : - q - inject_Z (rne (-q)) == - (1 # 2)) by lra.
    rewrite Hq in E1. rewrite Hq' in E2.
    specialize (E1 ltac:(reflexivity)). specialize (E2 ltac:(reflexivity)).
    assert (rne (- q) = - rne q + 1)%Z as Heq.
    { apply Z.le_antisymm; [|lia]. rewrite inject_Z_le, inject_Z_plus, !inject_Z_opp.
      change (inject_Z 1) with 1. lra. }
    rewrite Heq in E2. rewrite Z.add_1_r, Z.even_succ, <- Z.negb_even, Z.even_opp, E1 in E2. done.
Qed.

(** ** Powers of two and the binary exponent *)

Definition pow2 (k : Z) : Q := (2 # 1) ^ k.

Lemma pow2_pos k : 0 < pow2 k.
Proof. unfold pow2. apply Qpower_0_lt. reflexivity. Qed.

Lemma pow2_add a b : pow2 (a + b) == pow2 a * pow2 b.
Proof. unfold pow2. apply Qpower_plus. discriminate. Qed.

Lemma pow2_Z k : (0 <= k)%Z → pow2 k == inject_Z (2 ^ k).
Proof.
  intros Hk. unfold pow2. change (2 # 1) with (inject_Z 2).
  by rewrite Zpower_Qpower.
Qed.

Lemma pow2_le a b : (a <= b)%Z → pow2 a <= pow2 b.
Proof.
  intros Hab. replace b with (a + (b - a))%Z by lia. rewrite pow2_add, (pow2_Z (b - a)) by lia.
  rewrite <- (Qmult_1_r (pow2 a)) at 1. apply Qmult_le_l; [apply pow2_pos|].
  change 1 with (inject_Z 1). rewrite <- inject_Z_le.
  pose proof (Z.pow_pos_nonneg 2 (b - a)). lia.
Qed.

Lemma pow2_lt_inv a b : pow2 a < pow2 b → (a < b)%Z.
Proof.
  intros H. destruct (Z.lt_ge_cases a b) as [|Hge]; [done|].
  apply pow2_le in Hge. exfalso. lra.
Qed.

(** The binary exponent of a positive rational: the [e] with
    [2^e <= q < 2^(e+1)]. *)
Definition flog2 (q : Q) : Z :=
  if (Qnum q <=? 0)%Z then 0%Z else
  let e := (Z.log2 (Qnum q) - Z.log2 (Zpos (Qden q)))%Z in
  if Qle_bool (pow2 e) q then e else (e - 1)%Z.

Lemma flog2_spec q : 0 < q → pow2 (flog2 q) <= q ∧ q < pow2 (flog2 q + 1).
Proof.
  intros Hq. assert (Hn : (0 < Qnum q)%Z) by (unfold Qlt in Hq; simpl in Hq; lia).
  pose proof (Z.log2_spec _ Hn) as [Hn1 Hn2].
  pose proof (Z.log2_spec (Zpos (Qden q)) ltac:(lia)) as [Hd1 Hd2].
  set (ln := Z.log2 (Qnum q)) in *. set (ld := Z.log2 (Zpos (Qden q))) in *.
  assert (0 <= ln)%Z by apply Z.log2_nonneg. assert (0 <= ld)%Z by apply Z.log2_nonneg.
  assert (Hqd : q * inject_Z (Zpos (Qden q)) == inject_Z (Qnum q)).
  { destruct q as [n d]; unfold Qeq, Qmult, inject_Z; simpl; lia. }
  rewrite inject_Z_le, <- pow2_Z in Hn1 by lia.
  rewrite Zlt_Qlt, <- pow2_Z in Hn2 by lia.
  rewrite inject_Z_le, <- pow2_Z in Hd1 by lia.
  rewrite Zlt_Qlt, <- pow2_Z in Hd2 by lia.
  replace (Z.succ ln) with (ln - ld + 1 + ld)%Z in Hn2 by lia.
  replace (Z.succ ld) with (ld + 1)%Z in Hd2 by lia.
  replace ln with (ln - ld - 1 + (ld + 1))%Z in Hn1 by lia.
  rewrite <- Hqd in Hn1, Hn2. rewrite (pow2_add (ln - ld + 1)) in Hn2.
  rewrite (pow2_add (ln - ld - 1)) in Hn1.
  set (d := inject_Z (Zpos (Qden q))) in *.
  pose proof (pow2_pos ld). pose proof (pow2_pos (ld + 1)).
  pose proof (pow2_pos (ln - ld + 1)). pose proof (pow2_pos (ln - ld - 1)).
  assert (Hup : q < pow2 (ln - ld + 1)).
  { apply Qnot_le_lt. intros Hle.
    assert (pow2 (ln - ld + 1) * pow2 ld <= q * d) by (apply Qmult_le_compat_nonneg; split; lra).
    lra. }
  assert (Hlo : pow2 (ln - ld - 1) <= q).
  { apply Qnot_lt_le. intros Hlt.
    assert (q * d <= pow2 (ln - ld - 1) * d) by (apply Qmult_le_compat_r; lra).
    assert (pow2 (ln - ld - 1) * d < pow2 (ln - ld - 1) * pow2 (ld + 1)) by (apply Qmult_lt_l; done).
    lra. }
  unfold flog2. rewrite (proj2 (Z.leb_gt _ _)) by done. fold ln ld. destruct (Qle_bool _ q) eqn:E.
  - apply Qle_bool_iff in E. done.
  - assert (¬ pow2 (ln - ld) <= q) by (rewrite <- Qle_bool_iff, E; done).
    replace (ln - ld - 1 + 1)%Z with (ln - ld)%Z by lia. split; [done|]. by apply Qnot_le_lt.
Qed.

Lemma flog2_unique q e : pow2 e <= q → q < pow2 (e + 1) → flog2 q = e.
Proof.
  intros H1 H2. assert (0 < q) by (pose proof (pow2_pos e); lra).
  destruct (flog2_spec q) as [H3 H4]; [done|].
  assert (e < flog2 q + 1)%Z by (apply pow2_lt_inv; lra).
  assert (flog2 q < e + 1)%Z by (apply pow2_lt_inv; lra). lia.
Qed.

Lemma flog2_le x y : 0 < x → x <= y → (flog2 x <= flog2 y)%Z.
Proof.
  intros Hx Hxy. destruct (flog2_spec x) as [H1 _]; [done|].
  destruct (flog2_spec y) as [_ H2]; [lra|].
  assert (flog2 x < flog2 y + 1)%Z by (apply pow2_lt_inv; lra). lia.
Qed.

#[export] Instance flog2_proper : Proper (Qeq ==> eq) (λ q, flog2 (Qabs q)).
Proof.
  intros x y Hxy. destruct (Qeq_dec x 0) as [Hx|Hx].
  - assert (Hy : y == 0) by (rewrite <- Hxy; done).
    unfold Qeq in Hx, Hy; simpl in *. destruct x as [nx dx], y as [ny dy]; simpl in *.
    assert (nx = 0%Z) as -> by lia. assert (ny = 0%Z) as -> by lia.
    done.
  - assert (0 < Qabs x).
    { destruct (Qlt_le_dec 0 (Qabs x)) as [|Hle]; [done|]. exfalso.
      apply Qabs_Qle_condition in Hle. apply Hx. lra. }
    destruct (flog2_spec (Qabs x)) as [H1 H2]; [done|].
    symmetry. apply flog2_unique; rewrite <- Hxy; done.
Qed.

(** ** Rounding a rational to binary64, without the overflow threshold *)

(** The exponent of the last place: 53 significant bits, at least [2^-1074]. *)
Definition fexp (q : Q) : Z := Z.max (flog2 (Qabs q) - 52) (-1074).

Definition rndq (q : Q) : Q :=
  if Qeq_bool q 0 then 0
  else inject_Z (rne (q * pow2 (- fexp q))) * pow2 (fexp q).

#[export] Instance fexp_proper : Proper (Qeq ==> eq) fexp.
Proof. intros x y Hxy. unfold fexp. by rewrite (flog2_proper x y Hxy). Qed.

Lemma Qeq_bool_proper_l x y : x == y → Qeq_bool x 0 = Qeq_bool y 0.
Proof.
  intros Hxy. destruct (Qeq_bool x 0) eqn:E1, (Qeq_bool y 0) eqn:E2; try done.
  - apply Qeq_bool_neq in E2. apply Qeq_bool_iff in E1. rewrite Hxy in E1. done.
  - apply Qeq_bool_neq in E1. apply Qeq_bool_iff in E2. rewrite <- Hxy in E2. done.
Qed.

#[export] Instance rndq_proper : Proper (Qeq ==> Qeq) rndq.
Proof.
  intros x y Hxy. unfold rndq. rewrite (Qeq_bool_proper_l _ _ Hxy).
  destruct (Qeq_bool y 0); [reflexivity|]. rewrite (fexp_proper _ _ Hxy).
  rewrite (rne_proper (x * _) (y * pow2 (- fexp y))); [reflexivity|].
  rewrite Hxy. reflexivity.
Qed.

Lemma rndq_0 : rndq 0 = 0.
Proof. reflexivity. Qed.

Lemma fexp_opp q : fexp (- q) = fexp q.
Proof. unfold fexp. f_equal. f_equal.
  assert (Qabs (- q) = Qabs q) as ->; [|done]. destruct q as [n d]; simpl. by rewrite Z.abs_opp.
Qed.

Lemma rndq_opp q : rndq (- q) == - rndq q.
Proof.
  unfold rndq. destruct (Qeq_bool q 0) eqn:E.
  - apply Qeq_bool_iff in E. rewrite (Qeq_bool_proper_l (- q) 0); [reflexivity|].
    rewrite E. reflexivity.
  - destruct (Qeq_bool (- q) 0) eqn:E'.
    + apply Qeq_bool_iff in E'. apply Qeq_bool_neq in E. destruct E. lra.
    + rewrite fexp_opp.
      rewrite (rne_proper (- q * pow2 (- fexp q)) (- (q * pow2 (- fexp q)))) by ring.
      rewrite rne_opp, inject_Z_opp. ring.
Qed.

Lemma pow2_inv k : pow2 (- k) * pow2 k == 1.
Proof. rewrite <- pow2_add. replace (- k + k)%Z with 0%Z by lia. reflexivity. Qed.

(** Rounding on the grid of step [2^k] is the identity on the grid. *)
Lemma rne_grid m j k :
  (k <= j)%Z → inject_Z (rne (inject_Z m * pow2 j * pow2 (- k))) * pow2 k == inject_Z m * pow2 j.
Proof.
  intros Hkj.
  assert (Hz : inject_Z m * pow2 j * pow2 (- k) == inject_Z (m * 2 ^ (j - k))).
  { rewrite inject_Z_mult, <- pow2_Z, <- Qmult_assoc, <- pow2_add by lia. reflexivity. }
  rewrite (rne_proper _ _ Hz), rne_Z, <- Hz.
  rewrite <- !Qmult_assoc, pow2_inv. ring.
Qed.

Lemma pow2_grid e k : (k <= e)%Z →
  inject_Z (rne (pow2 e * pow2 (- k))) * pow2 k == pow2 e.
Proof.
  intros H. pose proof (rne_grid 1 e k H) as Hg.
  rewrite (rne_proper (pow2 e * pow2 (- k)) (inject_Z 1 * pow2 e * pow2 (- k))).
  - rewrite Hg. change (inject_Z 1) with 1. ring.
  - change (inject_Z 1) with 1. ring.
Qed.

Lemma Qabs_pos_eq q : 0 < q → Qabs q == q.
Proof. intros H. apply Qabs_pos. lra. Qed.

Lemma fexp_pos q : 0 < q → fexp q = Z.max (flog2 q - 52) (-1074).
Proof.
  intros H. unfold fexp. f_equal. f_equal.
  destruct (flog2_spec q H). apply flog2_unique; rewrite Qabs_pos_eq; done.
Qed.

Lemma rndq_pos q : 0 < q →
  rndq q = inject_Z (rne (q * pow2 (- fexp q))) * pow2 (fexp q).
Proof.
  intros H. unfold rndq. destruct (Qeq_bool q 0) eqn:E; [|done].
  apply Qeq_bool_iff in E. lra.
Qed.

Lemma grid_le a b k : a <= b →
  inject_Z (rne (a * pow2 (- k))) * pow2 k <= inject_Z (rne (b * pow2 (- k))) * pow2 k.
Proof.
  intros H. pose proof (pow2_pos k). pose proof (pow2_pos (- k)).
  apply Qmult_le_compat_r; [|lra]. rewrite <- inject_Z_le. apply rne_le.
  apply Qmult_le_compat_r; lra.
Qed.

Lemma rndq_nonneg q : 0 <= q → 0 <= rndq q.
Proof.
  intros H. destruct (Qlt_le_dec 0 q) as [Hq|Hq].
  - rewrite rndq_pos by done. pose proof (grid_le 0 q (fexp q) H) as Hg.
    rewrite (rne_proper (0 * _) (inject_Z 0)), rne_Z in Hg by (rewrite Qmult_0_l; reflexivity).
    change (inject_Z 0) with 0 in Hg. lra.
  - rewrite (rndq_proper q 0) by lra. rewrite rndq_0. lra.
Qed.

Lemma rndq_le_pos x y : 0 < x → x <= y → rndq x <= rndq y.
Proof.
  intros Hx Hxy. rewrite !rndq_pos by lra.
  destruct (Z.eq_dec (fexp x) (fexp y)) as [->|Hne]; [by apply grid_le|].
  assert (Hlog : (flog2 x <= flog2 y)%Z) by (apply flog2_le; done).
  rewrite !fexp_pos in Hne by lra.
  set (e := flog2 y). assert (Hlt : (flog2 x + 1 <= e)%Z) by lia.
  destruct (flog2_spec x) as [_ Hx2]; [done|]. destruct (flog2_spec y) as [Hy1 _]; [lra|].
  apply Qle_trans with (pow2 e).
  - rewrite <- (pow2_grid e (fexp x)); [|rewrite fexp_pos by lra; lia].
    apply grid_le. apply pow2_le in Hlt. lra.
  - rewrite <- (pow2_grid e (fexp y)) at 1; [|rewrite fexp_pos by lra; lia].
    apply grid_le. done.
Qed.

Lemma rndq_nonpos q : q <= 0 → rndq q <= 0.
Proof.
  intros H. assert (Hq : 0 <= rndq (- q)) by (apply rndq_nonneg; lra).
  rewrite rndq_opp in Hq. lra.
Qed.

(** Rounding is monotone. *)
Lemma rndq_le x y : x <= y → rndq x <= rndq y.
Proof.
  intros Hxy. destruct (Qlt_le_dec 0 x) as [Hx|Hx]; [by apply rndq_le_pos|].
  destruct (Qlt_le_dec y 0) as [Hy|Hy].
  - assert (H : rndq (- y) <= rndq (- x)) by (apply rndq_le_pos; lra).
    rewrite !rndq_opp in H. lra.
  - pose proof (rndq_nonpos x Hx). pose proof (rndq_nonneg y Hy). lra.
Qed.

(** [m * 2^k] with at most 53 significant bits is representable. *)
Lemma rndq_dyadic m k :
  (Z.abs m <= 2 ^ 53)%Z → (-1074 <= k)%Z → rndq (inject_Z m * pow2 k) == inject_Z m * pow2 k.
Proof.
  assert (Hpos : ∀ m, (0 < m <= 2 ^ 53)%Z → (-1074 <= k)%Z →
            rndq (inject_Z m * pow2 k) == inject_Z m * pow2 k).
  { clear m. intros m Hm Hk. pose proof (pow2_pos k).
    assert (Hm1 : inject_Z 1 <= inject_Z m) by (rewrite <- inject_Z_le; lia).
    change (inject_Z 1) with 1 in Hm1.
    assert (Hq : 0 < inject_Z m * pow2 k) by (apply Qmult_lt_0_compat; lra).
    rewrite rndq_pos by done.
    destruct (flog2_spec _ Hq) as [He1 He2]. set (e := flog2 (inject_Z m * pow2 k)) in *.
    assert (Hup : inject_Z m * pow2 k <= pow2 (53 + k)).
    { rewrite pow2_add, (pow2_Z 53) by lia. apply Qmult_le_compat_r; [|lra].
      rewrite <- inject_Z_le. lia. }
    assert (Hek : (e <= 53 + k)%Z).
    { assert (e < 53 + k + 1)%Z; [|lia]. apply pow2_lt_inv.
      assert (pow2 (53 + k) < pow2 (53 + k + 1)).
      { rewrite (pow2_add (53 + k) 1). change (pow2 1) with 2.
        pose proof (pow2_pos (53 + k)). lra. } lra. }
    destruct (Z.eq_dec e (53 + k)) as [Heq|Hne].
    - assert (Hm2 : inject_Z m * pow2 k == pow2 e) by (rewrite Heq in *; lra).
      rewrite (fexp_proper _ _ Hm2).
      rewrite (rne_proper _ (pow2 e * pow2 (- fexp (pow2 e)))) by (rewrite Hm2; reflexivity).
      rewrite pow2_grid; [by rewrite Hm2|].
      rewrite fexp_pos by apply pow2_pos.
      rewrite (flog2_unique (pow2 e) e); [lia|lra|].
      rewrite pow2_add. change (pow2 1) with 2. pose proof (pow2_pos e). lra.
    - apply rne_grid. rewrite fexp_pos by done. fold e. lia. }
  intros Hm Hk. destruct (Z.lt_trichotomy m 0) as [Hlt|[->|Hgt]].
  - assert (H : inject_Z m * pow2 k == - (inject_Z (- m) * pow2 k)) by (rewrite inject_Z_opp; ring).
    rewrite (rndq_proper _ _ H), rndq_opp, Hpos by lia. rewrite H. reflexivity.
  - rewrite (rndq_proper _ 0) by ring. change (inject_Z 0) with 0. rewrite rndq_0. ring.
  - apply Hpos; lia.
Qed.

Lemma rndq_Z z : (Z.abs z <= 2 ^ 53)%Z → rndq (inject_Z z) == inject_Z z.
Proof.
  intros Hz. rewrite (rndq_proper _ (inject_Z z * pow2 0)) by (change (pow2 0) with 1; ring).
  rewrite rndq_dyadic by (done || lia). change (pow2 0) with 1. ring.
Qed.

(** What rounding returns is representable. *)
Lemma rndq_idem q : rndq (rndq q) == rndq q.
Proof.
  assert (Hpos : ∀ q, 0 < q → rndq (rndq q) == rndq q).
  { clear q. intros q Hq. rewrite (rndq_pos q) by done. apply rndq_dyadic.
    - destruct (flog2_spec q Hq) as [_ H2].
      rewrite Z.abs_eq.
      + rewrite inject_Z_le, <- (rne_Z (2 ^ 53)), <- inject_Z_le. apply rne_le.
        rewrite <- pow2_Z by lia.
        assert (Hf : (flog2 q + 1 + - fexp q <= 53)%Z) by (rewrite fexp_pos by done; lia).
        apply Qle_trans with (pow2 (flog2 q + 1) * pow2 (- fexp q)).
        * apply Qmult_le_compat_r; [lra|]. pose proof (pow2_pos (- fexp q)). lra.
        * rewrite <- pow2_add. by apply pow2_le.
      + rewrite <- (rne_Z 0). apply rne_le. pose proof (pow2_pos (- fexp q)).
        change (inject_Z 0) with 0. apply Qmult_le_0_compat; lra.
    - unfold fexp. lia. }
  destruct (Qlt_le_dec 0 q) as [Hq|Hq]; [by apply Hpos|].
  destruct (Qlt_le_dec q 0) as [Hn|Hn].
  - assert (Hq2 : q == - - q) by ring.
    rewrite (rndq_proper _ _ Hq2), rndq_opp, rndq_opp, Hpos by lra. reflexivity.
  - rewrite (rndq_proper q 0) by lra. reflexivity.
Qed.
