(* ===== verification/PyFloat.v ===== *)
(** * Python floats: IEEE 754 binary64 over exact rationals

    A finite float is the rational number it denotes, in lowest terms; every
    operation computes the exact rational result and rounds it to nearest, ties
    to even, with gradual underflow and overflow to infinity.  Only the sign of
    zero is not represented (the two zeros compare equal in Python, and division
    by either raises [ZeroDivisionError]).  [fsum] is the compensated summation
    of CPython 3.12, the interpreter of the program's images. *)

From S2P Require Import Prelude.
From S2P Require Import PyRound.
From Stdlib Require Import QArith Qabs Qround Qpower Lqa.

Local Open Scope Q_scope.

Inductive pyfloat : Type :=
  | FFin (q : Q)
  | FInf (neg : bool)
  | FNan.

#[export] Instance pyfloat_eq_dec : EqDecision pyfloat.
Proof. intros x y. unfold Decision. repeat decide equality. Defined.

(** ** Rounding, with overflow *)

Definition big : Q := pow2 1024.

Definition rnd (q : Q) : pyfloat :=
  let r := Qred (rndq q) in
  if Qle_bool big r then FInf false
  else if Qle_bool r (- big) then FInf true
  else FFin r.

(** A decimal literal of the source. *)
Definition flit (q : Q) : pyfloat := rnd q.

(** A literal with an integral value, such as [60.0]. *)
Definition fz (z : Z) : pyfloat := FFin (inject_Z z).

Definition f0 : pyfloat := FFin 0.
Definition f1 : pyfloat := FFin 1.

(** ** Arithmetic *)

Definition sgn_neg (q : Q) : bool := Qle_bool q 0.
Definition is_zero (q : Q) : bool := Qeq_bool q 0.

Definition fneg (x : pyfloat) : pyfloat :=
  match x with FFin q => FFin (- q) | FInf s => FInf (negb s) | FNan => FNan end.

Definition fabs (x : pyfloat) : pyfloat :=
  match x with FFin q => FFin (Qabs q) | FInf _ => FInf false | FNan => FNan end.

Definition fadd (x y : pyfloat) : pyfloat :=
  match x, y with
  | FNan, _ | _, FNan => FNan
  | FInf s, FInf t => if eqb s t then FInf s else FNan
  | FInf s, _ => FInf s
  | _, FInf t => FInf t
  | FFin a, FFin b => rnd (a + b)
  end.

Definition fsub (x y : pyfloat) : pyfloat := fadd x (fneg y).

Definition fmul (x y : pyfloat) : pyfloat :=
  match x, y with
  | FNan, _ | _, FNan => FNan
  | FInf s, FInf t => FInf (xorb s t)
  | FInf s, FFin b => if is_zero b then FNan else FInf (xorb s (sgn_neg b))
  | FFin a, FInf t => if is_zero a then FNan else FInf (xorb (sgn_neg a) t)
  | FFin a, FFin b => rnd (a * b)
  end.

Definition fdiv (x y : pyfloat) : res pyfloat :=
  match x, y with
  | _, FFin b =>
      if is_zero b then Raise ZeroDivisionError
      else Ok match x with
              | FFin a => rnd (a / b)
              | FInf s => FInf (xorb s (sgn_neg b))
              | FNan => FNan
              end
  | FNan, _ | _, FNan => Ok FNan
  | FInf _, FInf _ => Ok FNan
  | FFin _, FInf _ => Ok f0
  end.

(** [int / int] is correctly rounded, and raises on a zero divisor or when the
    result is out of range. *)
Definition int_div (n d : Z) : res pyfloat :=
  if (d =? 0)%Z then Raise ZeroDivisionError
  else match rnd (inject_Z n / inject_Z d) with
       | FInf _ => Raise OverflowError
       | r => Ok r
       end.

(** [float(n)] of an int. *)
Definition float_of_int (n : Z) : res pyfloat :=
  match rnd (inject_Z n) with FInf _ => Raise OverflowError | r => Ok r end.

(** ** Comparisons (every one with a NaN is false) *)

Definition flt (x y : pyfloat) : bool :=
  match x, y with
  | FNan, _ | _, FNan => false
  | FFin a, FFin b => negb (Qle_bool b a)
  | FInf s, FInf t => s && negb t
  | FInf s, FFin _ => s
  | FFin _, FInf t => negb t
  end.

Definition feq (x y : pyfloat) : bool :=
  match x, y with
  | FFin a, FFin b => Qeq_bool a b
  | FInf s, FInf t => eqb s t
  | _, _ => false
  end.

Definition fle (x y : pyfloat) : bool := flt x y || feq x y.

(** [max(x, y)] and [min(x, y)] keep the first argument unless the second is
    strictly better. *)
Definition fmax (x y : pyfloat) : pyfloat := if flt x y then y else x.
Definition fmin (x y : pyfloat) : pyfloat := if flt y x then y else x.

(** ** Conversions to int, and rounding to decimals *)

(** [int(x)] truncates. *)
Definition ftrunc (x : pyfloat) : res Z :=
  match x with
  | FFin q => Ok (Z.quot (Qnum q) (Zpos (Qden q)))
  | FInf _ => Raise OverflowError
  | FNan => Raise ValueError
  end.

(** [round(x)] rounds half to even. *)
Definition fround_int (x : pyfloat) : res Z :=
  match x with
  | FFin q => Ok (rne q)
  | FInf _ => Raise OverflowError
  | FNan => Raise ValueError
  end.

(** [round(x, nd)] is the float nearest to the decimal rounding. *)
Definition fround (nd : Z) (x : pyfloat) : pyfloat :=
  match x with
  | FFin q => rnd (inject_Z (rne (q * inject_Z (10 ^ nd))) / inject_Z (10 ^ nd))
  | _ => x
  end.

(** [bool(x)] *)
Definition ftruthy (x : pyfloat) : bool :=
  match x with FFin q => negb (is_zero q) | _ => true end.

(** ** [sum] of floats: Neumaier's compensated summation, as CPython 3.12 has it *)

Definition is_finite (x : pyfloat) : bool := match x with FFin _ => true | _ => false end.

Fixpoint fsum_go (s c : pyfloat) (l : list pyfloat) : pyfloat :=
  match l with
  | [] => if ftruthy c && is_finite c then fadd s c else s
  | x :: l' =>
      let t := fadd s x in
      let c' := if fle (fabs x) (fabs s)
                then fadd c (fadd (fsub s t) x)
                else fadd c (fadd (fsub x t) s) in
      fsum_go t c' l'
  end.

Definition fsum (l : list pyfloat) : pyfloat :=
  match l with [] => f0 | x :: l' => fsum_go (fadd f0 x) f0 l' end.

(** ** Representable floats *)

(** The finite values an operation can return. *)
Definition representable (q : Q) : Prop :=
  Qred q = q ∧ rndq q == q ∧ Qabs q < big.

Definition fwf (x : pyfloat) : Prop :=
  match x with FFin q => representable q | _ => True end.

Lemma Qred_Qeq q : Qred q == q.
Proof. apply Qred_correct. Qed.

Lemma Qle_bool_false a b : Qle_bool a b = false ↔ b < a.
Proof.
  split.
  - intros H. apply Qnot_le_lt. intros Hle%Qle_bool_iff. congruence.
  - intros H. apply not_true_iff_false. rewrite Qle_bool_iff. lra.
Qed.

Lemma representable_Qred q r : r = Qred q → rndq q == q → Qabs q < big → representable r.
Proof.
  intros -> H1 H2. split; [|split].
  - apply Qred_complete, Qred_Qeq.
  - rewrite Qred_Qeq. done.
  - rewrite Qred_Qeq. done.
Qed.

Lemma rnd_wf q : fwf (rnd q).
Proof.
  unfold rnd. destruct (Qle_bool big _) eqn:E1; [done|].
  destruct (Qle_bool _ (- big)) eqn:E2; [done|]. simpl.
  apply Qle_bool_false in E1, E2. rewrite Qred_Qeq in E1, E2.
  apply (representable_Qred (rndq q)); [done|apply rndq_idem|].
  apply Qabs_Qlt_condition. lra.
Qed.

Lemma rnd_id q : representable q → rnd q = FFin q.
Proof.
  intros (H1 & H2 & H3). unfold rnd.
  assert (Heq : Qred (rndq q) = q) by (rewrite <- H1 at 2; apply Qred_complete; done).
  rewrite Heq. apply Qabs_Qlt_condition in H3 as [H3 H4].
  rewrite (proj2 (Qle_bool_false big q)) by done.
  rewrite (proj2 (Qle_bool_false q (- big))) by done. done.
Qed.

Lemma big_pos : 0 < big.
Proof. apply pow2_pos. Qed.

Lemma representable_Z z : (Z.abs z <= 2 ^ 53)%Z → representable (inject_Z z).
Proof.
  intros H. split; [|split].
  - unfold inject_Z, Qred. pose proof (Z.ggcd_gcd z 1) as Hg.
    pose proof (Z.ggcd_correct_divisors z 1) as Hd.
    destruct (Z.ggcd z 1) as [g [a b]]. simpl in *. rewrite Z.gcd_1_r in Hg. subst.
    destruct Hd as [-> Hb]. assert (b = 1%Z) as -> by lia. simpl. f_equal. lia.
  - by apply rndq_Z.
  - apply Qle_lt_trans with (inject_Z (2 ^ 53)).
    + unfold Qabs, inject_Z, Qle. simpl. lia.
    + rewrite <- pow2_Z by lia. unfold big. reflexivity.
Qed.

Lemma rnd_Z z : (Z.abs z <= 2 ^ 53)%Z → rnd (inject_Z z) = FFin (inject_Z z).
Proof. intros H. by apply rnd_id, representable_Z. Qed.

Lemma float_of_int_small z :
  (Z.abs z <= 2 ^ 53)%Z → float_of_int z = Ok (FFin (inject_Z z)).
Proof. intros H. unfold float_of_int. by rewrite rnd_Z. Qed.

(** Rounding into a range between two representable bounds stays in it. *)
Lemma rnd_between lo hi q :
  representable lo → representable hi → lo <= q → q <= hi →
  ∃ r, rnd q = FFin r ∧ representable r ∧ lo <= r ∧ r <= hi.
Proof.
  intros (L1 & L2 & L3) (H1 & H2 & H3) Hlo Hhi.
  assert (Hl : lo <= rndq q) by (rewrite <- L2; by apply rndq_le).
  assert (Hh : rndq q <= hi) by (rewrite <- H2; by apply rndq_le).
  apply Qabs_Qlt_condition in L3 as [L3 L4], H3 as [H3 H4].
  pose proof (rnd_wf q) as Hwf. revert Hwf. unfold rnd.
  rewrite (proj2 (Qle_bool_false big _)) by (rewrite Qred_Qeq; lra).
  rewrite (proj2 (Qle_bool_false _ (- big))) by (rewrite Qred_Qeq; lra).
  intros Hwf. exists (Qred (rndq q)). pose proof (Qred_Qeq (rndq q)).
  split_and!; [done|done|lra|lra].
Qed.

(** Rounding is monotone, infinities included. *)
Lemma rnd_le_fin x y a b : rnd x = FFin a → rnd y = FFin b → x <= y → a <= b.
Proof.
  unfold rnd. intros Hx Hy Hxy. repeat case_match; simplify_eq.
  apply Qle_trans with (rndq x); [rewrite Qred_correct; apply Qle_refl|].
  apply Qle_trans with (rndq y); [by apply rndq_le|rewrite Qred_correct; apply Qle_refl].
Qed.

(** ** Comparison and rounding *)

Lemma rnd_cases q :
  (rnd q = FInf false ∧ big <= rndq q) ∨ (rnd q = FInf true ∧ rndq q <= - big) ∨
  (rnd q = FFin (Qred (rndq q)) ∧ - big < rndq q ∧ rndq q < big).
Proof.
  unfold rnd. destruct (Qle_bool big _) eqn:E1.
  - left. apply Qle_bool_iff in E1. by rewrite Qred_Qeq in E1.
  - apply Qle_bool_false in E1. rewrite Qred_Qeq in E1. destruct (Qle_bool _ (- big)) eqn:E2.
    + right; left. apply Qle_bool_iff in E2. by rewrite Qred_Qeq in E2.
    + right; right. apply Qle_bool_false in E2. by rewrite Qred_Qeq in E2.
Qed.

Lemma flt_FFin a b : flt (FFin a) (FFin b) = true ↔ a < b.
Proof. simpl. by rewrite negb_true_iff, Qle_bool_false. Qed.

Lemma flt_FFin_false a b : flt (FFin a) (FFin b) = false ↔ b <= a.
Proof. simpl. by rewrite negb_false_iff, Qle_bool_iff. Qed.

Lemma fle_FFin a b : fle (FFin a) (FFin b) = true ↔ a <= b.
Proof.
  unfold fle. rewrite orb_true_iff, flt_FFin. simpl. rewrite Qeq_bool_iff. split.
  - intros [H|H]; [lra|]. rewrite H. apply Qle_refl.
  - intros H. destruct (Qlt_le_dec a b) as [|Hle]; [by left|right]. by apply Qle_antisym.
Qed.

(** A larger rounded bound that [r] is not below is also one for any smaller. *)
Lemma flt_rnd_mono r x y : x <= y → flt r (rnd y) = false → flt r (rnd x) = false.
Proof.
  intros Hxy. pose proof (rndq_le x y Hxy) as Hle. pose proof big_pos.
  destruct (rnd_cases x) as [[-> Hx]|[[-> Hx]|[-> [Hx1 Hx2]]]],
           (rnd_cases y) as [[-> Hy]|[[-> Hy]|[-> [Hy1 Hy2]]]];
    destruct r as [r|[]|]; simpl; try done; try (exfalso; lra);
    rewrite !negb_false_iff, !Qle_bool_iff, !Qred_correct; intros; lra.
Qed.

Lemma flt_lt_mono x y r : x <= y → flt (rnd y) (FFin r) = true → flt (rnd x) (FFin r) = true.
Proof.
  intros Hxy. pose proof (rndq_le x y Hxy) as Hle. pose proof big_pos.
  destruct (rnd_cases x) as [[-> Hx]|[[-> Hx]|[-> [Hx1 Hx2]]]],
           (rnd_cases y) as [[-> Hy]|[[-> Hy]|[-> [Hy1 Hy2]]]];
    simpl; try done; try (exfalso; lra).
  rewrite !negb_true_iff, !Qle_bool_false, !Qred_correct. intros; lra.
Qed.

Lemma feq_refl_fin q : feq (FFin q) (FFin q) = true.
Proof. simpl. by apply Qeq_bool_iff. Qed.

(** ** Floats within bounds *)

(** A finite float between two rationals. *)
Definition frange (lo hi : Q) (x : pyfloat) : Prop :=
  ∃ q, x = FFin q ∧ representable q ∧ lo <= q ∧ q <= hi.

Lemma frange_weaken lo hi hi' x : frange lo hi x → hi <= hi' → frange lo hi' x.
Proof. intros (q & -> & ? & ? & ?) ?. exists q. split_and!; [done|done|done|lra]. Qed.

Lemma frange_rnd lo hi q :
  representable lo → representable hi → lo <= q → q <= hi → frange lo hi (rnd q).
Proof.
  intros Hl Hh H1 H2. destruct (rnd_between lo hi q Hl Hh H1 H2) as (r & E & ?). by exists r.
Qed.

Lemma representable_0 : representable 0.
Proof. apply (representable_Z 0). lia. Qed.

Lemma representable_1 : representable 1.
Proof. apply (representable_Z 1). lia. Qed.

#[export] Hint Resolve representable_0 representable_1 : py.

Lemma frange_f0 hi : 0 <= hi → frange 0 hi f0.
Proof. intros. exists 0. split_and!; auto using Qle_refl with py. Qed.

Lemma frange_f1 : frange 0 1 f1.
Proof. exists 1. split_and!; auto using Qle_refl with py. discriminate. Qed.

(** A product with a factor of at most one does not exceed the other factor. *)
Lemma fmul_shrink d x m : frange 0 d x → frange 0 1 m → frange 0 d (fmul x m).
Proof.
  intros (a & -> & Ha & ? & ?) (b & -> & Hb & ? & ?). simpl.
  apply frange_weaken with a; [|done]. apply frange_rnd; auto with py; nra.
Qed.

Lemma fmul_mono d x x' m m' :
  frange 0 d x → frange 0 d x' → frange 0 1 m → frange 0 1 m' →
  fle x x' = true → fle m m' = true → fle (fmul x m) (fmul x' m') = true.
Proof.
  intros Hx Hx' Hm Hm'.
  pose proof (fmul_shrink _ _ _ Hx Hm) as (r & E & _).
  pose proof (fmul_shrink _ _ _ Hx' Hm') as (r' & E' & _).
  destruct Hx as (a & -> & _ & ? & _), Hx' as (a' & -> & _ & ? & _),
    Hm as (b & -> & _ & ? & _), Hm' as (b' & -> & _ & ? & _).
  rewrite !fle_FFin, E, E'. simpl in E, E'. intros Hxx Hmm. apply fle_FFin.
  apply (rnd_le_fin _ _ _ _ E E'). nra.
Qed.

(** The same bounds with the unit factor first. *)
Lemma fmul_shrink_l d x m : frange 0 1 m → frange 0 d x → frange 0 d (fmul m x).
Proof.
  intros (b & -> & Hb & ? & ?) (a & -> & Ha & ? & ?). simpl.
  apply frange_weaken with a; [|done]. apply frange_rnd; auto with py; nra.
Qed.

Lemma fmul_zero_l d x : frange 0 d x → frange 0 0 (fmul f0 x).
Proof.
  intros (a & -> & _). simpl. apply frange_rnd; auto with py; apply Qle_lteq; right; ring.
Qed.

Lemma fmul_mono_l d x x' m m' :
  frange 0 d x → frange 0 d x' → frange 0 1 m → frange 0 1 m' →
  fle x x' = true → fle m m' = true → fle (fmul m x) (fmul m' x') = true.
Proof.
  intros Hx Hx' Hm Hm'.
  pose proof (fmul_shrink_l _ _ _ Hm Hx) as (r & E & _).
  pose proof (fmul_shrink_l _ _ _ Hm' Hx') as (r' & E' & _).
  destruct Hx as (a & -> & _ & ? & _), Hx' as (a' & -> & _ & ? & _),
    Hm as (b & -> & _ & ? & _), Hm' as (b' & -> & _ & ? & _).
  rewrite !fle_FFin, E, E'. simpl in E, E'. intros Hxx Hmm. apply fle_FFin.
  apply (rnd_le_fin _ _ _ _ E E'). nra.
Qed.

#[export] Hint Resolve fmul_shrink fmul_shrink_l : py.

Lemma fle_refl_range lo hi x : frange lo hi x → fle x x = true.
Proof. intros (q & -> & _). apply fle_FFin, Qle_refl. Qed.

Lemma fz_finite_range z : (Z.abs z <= 2 ^ 53)%Z → frange (inject_Z z) (inject_Z z) (fz z).
Proof.
  intros. exists (inject_Z z).
  split_and!; [done|by apply representable_Z|apply Qle_refl|apply Qle_refl].
Qed.

(** [max(0.0, x)] *)
Definition qpos (q : Q) : Q := if Qle_bool q 0 then 0 else q.

Lemma fmax_f0 q : fmax f0 (FFin q) = FFin (qpos q).
Proof. unfold fmax, qpos, f0. simpl. by destruct (Qle_bool q 0). Qed.

Lemma qpos_nonneg q : 0 <= qpos q.
Proof.
  unfold qpos. destruct (Qle_bool q 0) eqn:E; [lra|]. apply Qle_bool_false in E. lra.
Qed.

Lemma representable_opp q : representable q → representable (- q).
Proof.
  intros (H1 & H2 & H3). split; [|split].
  - by rewrite Qred_opp, H1.
  - by rewrite rndq_opp, H2.
  - by rewrite Qabs_opp.
Qed.
#[export] Hint Resolve representable_opp : py.

(** ** The order of the numbers (floats other than NaN) *)

Definition is_num (x : pyfloat) : bool := match x with FNan => false | _ => true end.

Definition fcmp (x y : pyfloat) : comparison :=
  match x, y with
  | FFin a, FFin b => (a ?= b)%Q
  | FInf true, FInf true | FInf false, FInf false => Eq
  | FInf true, _ | _, FInf false => Lt
  | _, FInf true | FInf false, _ => Gt
  | _, _ => Eq
  end.

Lemma flt_fcmp x y : is_num x = true → is_num y = true →
  flt x y = match fcmp x y with Lt => true | _ => false end ∧
  feq x y = match fcmp x y with Eq => true | _ => false end.
Proof.
  destruct x as [a|[]|], y as [b|[]|]; try done; intros _ _; cbn.
  destruct (Qcompare_spec a b) as [H|H|H].
  - split; [rewrite negb_false_iff, Qle_bool_iff; lra|by apply Qeq_bool_iff].
  - split; [rewrite negb_true_iff; by apply Qle_bool_false|].
    apply not_true_iff_false. rewrite Qeq_bool_iff. lra.
  - split; [rewrite negb_false_iff, Qle_bool_iff; lra|].
    apply not_true_iff_false. rewrite Qeq_bool_iff. lra.
Qed.

Lemma fcmp_opp x y : is_num x = true → is_num y = true → fcmp y x = CompOpp (fcmp x y).
Proof. destruct x as [a|[]|], y as [b|[]|]; try done. intros _ _. cbn. by rewrite Qcompare_antisym. Qed.

Lemma fcmp_trans x y z : is_num x = true → is_num y = true → is_num z = true →
  match fcmp x y, fcmp y z with
  | Eq, r => fcmp x z = r
  | Lt, (Lt | Eq) => fcmp x z = Lt
  | Gt, (Gt | Eq) => fcmp x z = Gt
  | _, _ => True
  end.
Proof.
  destruct x as [a|[]|], y as [b|[]|], z as [c|[]|]; try done; intros _ _ _; cbn;
    try (destruct (Qcompare_spec a b)); try (destruct (Qcompare_spec b c)); try done;
    destruct (Qcompare_spec a c); try done; exfalso; lra.
Qed.

(** ** Readings of a clock

    At least [q] seconds: a finite reading, or infinity (past the finite floats). *)
Definition at_least (q : Q) (x : pyfloat) : Prop :=
  x = FInf false ∨ ∃ r, x = FFin r ∧ representable r ∧ (q <= r)%Q.

(** A time that [seconds] after [x] is past the deadline computed from [x]. *)
Lemma deadline_past x s :
  (∃ r, x = FFin r ∧ representable r) → ∃ d, at_least d x ∧
    ∀ y, at_least (d + s) y → flt y (fadd x (FFin s)) = false.
Proof.
  intros (r & -> & Hr). exists r. split; [right; exists r; split_and!; [done|done|apply Qle_refl]|].
  intros y [->|(z & -> & Hz & Hle)].
  - cbn [fadd]. destruct (rnd (r + s)) as [?|[]|]; done.
  - apply (flt_rnd_mono (FFin z) (r + s) z Hle). rewrite (rnd_id z Hz).
    apply flt_FFin_false, Qle_refl.
Qed.

Lemma at_least_le a b x : (a <= b)%Q → at_least b x → at_least a x.
Proof.
  intros Hab [->|(r & -> & Hr & Hle)]; [by left|right]. exists r. split_and!; [done|done|].
  by apply Qle_trans with b.
Qed.

(** A clock up to its last reading [limit], and a step that takes at least [s]
    seconds of it while it has them left. *)
Definition finite_clock {H} (limit : Q) (read : H → pyfloat) : Prop :=
  ∀ h, ∃ r, read h = FFin r ∧ representable r ∧ (r <= limit)%Q.
Definition takes {H} (limit : Q) (read : H → pyfloat) (s : Q) (step : H → H) : Prop :=
  ∀ h a b, read h = FFin a → read (step h) = FFin b → (a <= b)%Q ∧ ((a + s <= limit)%Q → (a + s <= b)%Q).

Lemma at_least_takes {H} limit (read : H → pyfloat) s step q h :
  finite_clock limit read → takes limit read s step → (0 <= s)%Q → (q + 2 * s <= limit)%Q →
  at_least q (read h) → at_least (q + s) (read (step h)).
Proof.
  intros Hf Ht Hs Hq Ha. destruct (Hf h) as (a & Ea & _), (Hf (step h)) as (b & Eb & Hb & _).
  destruct (Ht h a b Ea Eb) as [Hle Hstep]. rewrite Ea in Ha. rewrite Eb.
  destruct Ha as [?|(r & [= <-] & _ & Hqa)]; [done|]. right. exists b. split_and!; [done|done|].
  destruct (Qlt_le_dec limit (a + s)) as [Hlt|Hle']; [|specialize (Hstep Hle')]; lra.
Qed.

Lemma not_flt_fle x y : is_num x = true → is_num y = true → flt y x = false → fle x y = true.
Proof.
  destruct x as [p|[]|], y as [q|[]|]; try done. intros _ _ H%flt_FFin_false.
  unfold fle. apply orb_true_iff. destruct (Qle_lt_or_eq _ _ H) as [H'|H'].
  - left. unfold flt. apply negb_true_iff, not_true_is_false. rewrite Qle_bool_iff. lra.
  - right. unfold feq. by apply Qeq_bool_iff.
Qed.

(** A real no less than a float rounds to a float no less than it. *)
Lemma fle_rnd w x : representable w → (w <= x)%Q → fle (FFin w) (rnd x) = true.
Proof.
  intros Hw Hx. apply not_flt_fle; [done|by unfold rnd; repeat case_match|].
  apply not_true_is_false. intros Hf%(flt_lt_mono w x); [|done].
  rewrite (rnd_id w Hw) in Hf. apply flt_FFin in Hf. lra.
Qed.

(** A comparison that does not hold: the opposite one does, or one side is a NaN. *)
Lemma flt_false_fle x y : flt y x = false ↔ fle x y = true ∨ x = FNan ∨ y = FNan.
Proof.
  split.
  - intros H. destruct (is_num x) eqn:Hx; [|right; left; by destruct x].
    destruct (is_num y) eqn:Hy; [|right; right; by destruct y]. left. by apply not_flt_fle.
  - intros [H|[->| ->]]; [|by destruct y|by destruct x].
    destruct x as [p|[]|], y as [q|[]|]; try done. apply flt_FFin_false. by apply fle_FFin in H.
Qed.
