(* ===== verification/PyJson.v ===== *)
(** * Dynamically typed values

    The program passes JSON objects around as [dict[str, Any]].  [json] is the
    type of the values [json.loads] returns; the functions below are the Python
    operations the program applies to them ([get], [or], truth value, [str],
    [int], [float], iteration), with the exceptions they raise. *)

From S2P Require Import Prelude.
From S2P Require Import PyStr.
From S2P Require Import PyRound.
From S2P Require Import PyFloat.
From Stdlib Require Import Ascii String QArith.
Local Open Scope string_scope.

#[warnings="-register-all"]
Inductive json : Type :=
  | JNull
  | JBool (b : bool)
  | JInt (z : Z)
  | JFloat (f : pyfloat)
  | JStr (s : string)
  | JList (l : list json)
  | JDict (d : list (string * json)).

Abbreviation dict := (list (string * json)).

(** ** Truth value, [get], [or], iteration *)

Definition truthy (j : json) : bool :=
  match j with
  | JNull => false
  | JBool b => b
  | JInt z => negb (z =? 0)%Z
  | JFloat f => ftruthy f
  | JStr s => negb (String.eqb s "")
  | JList l => match l with [] => false | _ => true end
  | JDict d => match d with [] => false | _ => true end
  end.

(** [a or b] *)
Definition jor (a b : json) : json := if truthy a then a else b.

(** [d.get(k, default)] on a dict *)
Definition getd (k : string) (dflt : json) (d : dict) : json := default dflt (dget k d).
Definition getv (k : string) (d : dict) : json := getd k JNull d.

(** [x.get(k, default)] on a value that may not be a dict *)
Definition jget (k : string) (dflt : json) (j : json) : res json :=
  match j with JDict d => Ok (getd k dflt d) | _ => Raise AttributeError end.

(** [d.setdefault(k, v)] *)
Definition dsetdefault (k : string) (v : json) (d : dict) : dict :=
  if dmem k d then d else app d [(k, v)].

Definition is_dict (j : json) : bool := match j with JDict _ => true | _ => false end.

(** [for x in j] *)
Definition py_iter (j : json) : res (list json) :=
  match j with
  | JList l => Ok l
  | JDict d => Ok (JStr <$> dkeys d)
  | JStr s => Ok ((λ c, JStr (String c "")) <$> list_ascii_of_string s)
  | _ => Raise TypeError
  end.

(** ** [repr] of a float: the shortest decimal that rounds back *)

Definition pow10 (k : Z) : Q :=
  if (0 <=? k)%Z then inject_Z (10 ^ k) else / inject_Z (10 ^ (- k)).

(** The decimal exponent of a positive rational, from an estimate off by one at most. *)
Definition flog10 (q : Q) : Z :=
  let e := (flog2 q * 30103 / 100000)%Z in
  if Qle_bool (pow10 (e + 2)) q then (e + 2)%Z
  else if Qle_bool (pow10 (e + 1)) q then (e + 1)%Z
  else if Qle_bool (pow10 e) q then e else (e - 1)%Z.

Fixpoint shortest (fuel : nat) (n : Z) (q : Q) : Z * Z :=
  let e := flog10 q in
  let d := rne (q * pow10 (n - 1 - e)) in
  match fuel with
  | O => (d, e - n + 1)%Z
  | S fuel' =>
      if decide (rnd (inject_Z d * pow10 (e - n + 1)) = FFin q) then (d, e - n + 1)%Z
      else shortest fuel' (n + 1) q
  end.

Fixpoint zeros (n : nat) : string := match n with O => "" | S n' => String "0" (zeros n') end.

Definition exp_str (e : Z) : string :=
  (if (e <? 0)%Z then "-" else "+") +:+
  (if (Z.abs e <? 10)%Z then "0" else "") +:+ str_of_Z (Z.abs e).

(** The digits [ds] (no trailing zero) of a number with decimal exponent [e], in
    fixed notation for [-4 <= e < hi] and in scientific notation otherwise; [pt]
    ends an integral fixed form. *)
Definition layout (ds : string) (e hi : Z) (pt : string) : string :=
  let n := Z.of_nat (slen ds) in
  if ((-4 <=? e) && (e <? hi))%Z then
    if (e <? 0)%Z then "0." +:+ zeros (Z.to_nat (- e - 1)) +:+ ds
    else if (n <=? e + 1)%Z then ds +:+ zeros (Z.to_nat (e + 1 - n)) +:+ pt
    else stake (Z.to_nat (e + 1)) ds +:+ "." +:+ sdrop (Z.to_nat (e + 1)) ds
  else stake 1 ds +:+ (if (1 <? n)%Z then "." +:+ sdrop 1 ds else "") +:+ "e" +:+ exp_str e.

Definition repr_pos (q : Q) : string :=
  let '(d, x) := shortest 16 1 q in
  layout (rstrip_set "0" (str_of_Z d)) (Z.of_nat (slen (str_of_Z d)) - 1 + x) 16 ".0".

Definition repr_float (f : pyfloat) : string :=
  match f with
  | FNan => "nan"
  | FInf false => "inf"
  | FInf true => "-inf"
  | FFin q => if is_zero q then "0.0"
              else if Qle_bool q 0 then "-" +:+ repr_pos (Qred (- q)) else repr_pos q
  end.

(** [f"{x:.nf}"] *)
Definition format_fixed (nd : nat) (f : pyfloat) : string :=
  match f with
  | FNan => "nan"
  | FInf false => "inf"
  | FInf true => "-inf"
  | FFin q =>
      let m := rne (q * inject_Z (10 ^ Z.of_nat nd)) in
      let ds := str_of_Z (Z.abs m) in
      let ds := zeros (S nd - slen ds) +:+ ds in
      (if (m <? 0)%Z then "-" else "") +:+
      match nd with
      | O => ds
      | _ => stake (slen ds - nd) ds +:+ "." +:+ slast nd ds
      end
  end.

(** [f"{x:g}"]: six significant digits. *)
Definition format_g_pos (q : Q) : string :=
  let e := flog10 q in
  let d := rne (q * pow10 (5 - e)) in
  let '(d, e) := if (d =? 1000000)%Z then (100000, e + 1)%Z else (d, e) in
  layout (rstrip_set "0" (str_of_Z d)) e 6 "".

Definition format_g (f : pyfloat) : string :=
  match f with
  | FNan => "nan"
  | FInf false => "inf"
  | FInf true => "-inf"
  | FFin q => if is_zero q then "0"
              else if Qle_bool q 0 then "-" +:+ format_g_pos (- q) else format_g_pos q
  end.

(** ** [str] and [repr] *)

Definition hexdigit (n : Z) : ascii := ascii_of_N (Z.to_N (if n <? 10 then 48 + n else 87 + n)%Z).

Definition repr_char (q : ascii) (c : ascii) : string :=
  if Ascii.eqb c q || Ascii.eqb c "\"%char then String "\" (String c "")
  else if Ascii.eqb c nl then "\n"
  else if Ascii.eqb c cr then "\r"
  else if Ascii.eqb c tab then "\t"
  else if between 0 31 c || between 127 160 c || (code c =? 173)%Z then
    "\x" +:+ String (hexdigit (code c / 16)) (String (hexdigit (code c mod 16)) "")
  else String c "".

Definition dquote : ascii := ascii_of_nat 34.
Definition squote : ascii := ascii_of_nat 39.

Definition repr_str (s : string) : string :=
  let q := if contains (String squote "") s && negb (contains (String dquote "") s)
           then dquote else squote in
  String q (String.concat "" (repr_char q <$> list_ascii_of_string s)) +:+ String q "".

Fixpoint py_repr (j : json) : string :=
  match j with
  | JNull => "None"
  | JBool b => if b then "True" else "False"
  | JInt z => str_of_Z z
  | JFloat f => repr_float f
  | JStr s => repr_str s
  | JList l => "[" +:+ join ", " (map py_repr l) +:+ "]"
  | JDict d => "{" +:+ join ", " (map (λ kv, repr_str kv.1 +:+ ": " +:+ py_repr kv.2) d) +:+ "}"
  end.

Definition py_str (j : json) : string :=
  match j with JStr s => s | _ => py_repr j end.

(** ** [float(s)] of a string *)

(** A maximal run of digits (single underscores between digits): its value, how
    many digits, and the rest. *)
Fixpoint scan_digits (acc n : Z) (s : string) : Z * Z * string :=
  match s with
  | String c s' =>
      if is_digit c then scan_digits (acc * 10 + digit_val c)%Z (n + 1)%Z s'
      else if Ascii.eqb c "_"%char && (0 <? n)%Z then
        match s' with
        | String d s'' => if is_digit d then scan_digits (acc * 10 + digit_val d)%Z (n + 1)%Z s''
                          else (acc, n, s)
        | "" => (acc, n, s)
        end
      else (acc, n, s)
  | "" => (acc, n, s)
  end.

Definition scan_exponent (s : string) : option Z :=
  match s with
  | "" => Some 0%Z
  | String c s' =>
      if Ascii.eqb c "e"%char then
        let '(neg, t) := match s' with
                         | String "-" t => (true, t)
                         | String "+" t => (false, t)
                         | t => (false, t)
                         end in
        let '(v, n, r) := scan_digits 0 0 t in
        if ((0 <? n)%Z && String.eqb r "") then Some (if neg then - v else v)%Z else None
      else None
  end.

Definition parse_unsigned_float (s : string) : option pyfloat :=
  if String.eqb s "inf" || String.eqb s "infinity" then Some (FInf false)
  else if String.eqb s "nan" then Some FNan
  else
    let '(ip, ni, r) := scan_digits 0 0 s in
    let '(m, nf, r') :=
      match r with
      | String "." t => let '(v, n, u) := scan_digits 0 0 t in ((ip * 10 ^ n + v)%Z, n, u)
      | _ => (ip, 0%Z, r)
      end in
    if (ni + nf =? 0)%Z then None
    else match scan_exponent r' with
         | Some e => Some (rnd (inject_Z m * pow10 (e - nf)))
         | None => None
         end.

Definition parse_float (s : string) : option pyfloat :=
  match lower (strip s) with
  | String "-" t => fneg <$> parse_unsigned_float t
  | String "+" t => parse_unsigned_float t
  | t => parse_unsigned_float t
  end.

(** ** [int(x)] and [float(x)] *)

Definition of_option {A} (e : exn) (o : option A) : res A :=
  match o with Some a => Ok a | None => Raise e end.

Definition py_int (j : json) : res Z :=
  match j with
  | JInt z => Ok z
  | JBool b => Ok (if b then 1 else 0)%Z
  | JFloat f => ftrunc f
  | JStr s => of_option ValueError (parse_int s)
  | JNull | JList _ | JDict _ => Raise TypeError
  end.

Definition py_float (j : json) : res pyfloat :=
  match j with
  | JInt z => float_of_int z
  | JBool b => Ok (if b then f1 else f0)
  | JFloat f => Ok f
  | JStr s => of_option ValueError (parse_float s)
  | JNull | JList _ | JDict _ => Raise TypeError
  end.

(** ** The idioms of the payload readers *)

(** [str(d.get(k, ""))] *)
Definition get_str (k : string) (d : dict) : string := py_str (getd k (JStr "") d).
(** [str(d.get(k, dflt) or dflt)] *)
Definition get_str_or (k dflt : string) (d : dict) : string :=
  py_str (jor (getd k (JStr dflt) d) (JStr dflt)).
(** [int(d.get(k, dflt) or dflt)] *)
Definition get_int_or (k : string) (dflt : Z) (d : dict) : res Z :=
  py_int (jor (getd k (JInt dflt) d) (JInt dflt)).
(** The same within [try ... except (TypeError, ValueError)]. *)
Definition number (k : string) (dflt : Z) (d : dict) : res Z :=
  try_except (get_int_or k dflt d) [TypeError; ValueError] dflt.
(** [float(d.get(k, 0.0) or 0.0)] *)
Definition get_float_or (k : string) (d : dict) : res pyfloat :=
  py_float (jor (getd k (JFloat f0) d) (JFloat f0)).
Definition real (k : string) (d : dict) : res pyfloat :=
  try_except (get_float_or k d) [TypeError; ValueError] f0.
(** [x if isinstance(x, dict) else {}] *)
Definition get_dict (k : string) (d : dict) : dict :=
  match getv k d with JDict b => b | _ => [] end.
Definition get_bool (k : string) (dflt : bool) (d : dict) : bool :=
  truthy (getd k (JBool dflt) d).

(** [payload.get(k) or []], iterated, and [(payload.get(k) or {}).items()] *)
Definition get_list (k : string) (d : dict) : res (list json) :=
  py_iter (jor (getv k d) (JList [])).
Definition get_items (k : string) (d : dict) : res (list (string * json)) :=
  match jor (getv k d) (JDict []) with JDict i => Ok i | _ => Raise AttributeError end.

(** ** Facts *)

Lemma jor_true a b : truthy a = true → jor a b = a.
Proof. unfold jor. by intros ->. Qed.

Lemma py_str_JStr s : py_str (JStr s) = s.
Proof. done. Qed.

Lemma jor_str s : py_str (jor (JStr s) (JStr "")) = s.
Proof. unfold jor. simpl. destruct (String.eqb_spec s ""); simpl; congruence. Qed.

Lemma jor_str_default s t : s ≠ "" → py_str (jor (JStr s) (JStr t)) = s.
Proof. unfold jor. simpl. intros H. by destruct (String.eqb_spec s ""). Qed.

Lemma jor_int z : py_int (jor (JInt z) (JInt 0)) = Ok z.
Proof. unfold jor. simpl. destruct (Z.eqb_spec z 0); simpl; congruence. Qed.

Lemma jor_dict d : jor (JDict d) (JDict []) = JDict d.
Proof. by destruct d. Qed.

#[export] Hint Rewrite py_str_JStr jor_str jor_int jor_dict : pyrw.

Lemma number_raises k dflt d e :
  number k dflt d = Raise e → e = OverflowError.
Proof.
  unfold number, try_except, get_int_or.
  destruct (py_int _) as [|e'] eqn:E; [done|].
  case_decide as Hd; [done|]. intros [= <-].
  destruct (jor _ _); simpl in E; simplify_eq; try set_solver.
  - destruct f; simpl in E; simplify_eq; set_solver.
  - unfold of_option in E. case_match; simplify_eq. set_solver.
Qed.

(** ** Persistent documents

    The ledgers keep one JSON document each, replaced atomically
    ([os.replace]); a reader finds no file, a file that is not JSON (or cannot
    be read), or a value. *)
Inductive document : Type := Absent | Unreadable | Holds (j : json).

(** [x.items()] *)
Definition py_items (j : json) : res (list (string * json)) :=
  match j with JDict d => Ok d | _ => Raise AttributeError end.

(** A dictionary comprehension that converts every value. *)
Definition map_values {A} (f : json → res A) (d : dict) : res (list (string * A)) :=
  mapM (λ kv, v ← f kv.2; mret (kv.1, v)) d.

Lemma mapM_id {A B} (f : B → res A) (g : A → B) (l : list A) :
  (∀ x, x ∈ l → f (g x) = Ok x) → mapM f (g <$> l) = Ok l.
Proof.
  intros H. induction l as [|x l IH]; [done|].
  change (mapM f (g <$> x :: l)) with (y ← f (g x); k ← mapM f (g <$> l); mret (y :: k)).
  rewrite IH, (H x) by set_solver. done.
Qed.

(** Reading back what was written value by value. *)
Lemma map_values_id {A} (f : json → res A) (g : A → json) (l : list (string * A)) :
  (∀ kv, kv ∈ l → f (g kv.2) = Ok kv.2) →
  map_values f ((λ kv, (kv.1, g kv.2)) <$> l) = Ok l.
Proof.
  intros H. unfold map_values.
  apply (mapM_id _ (λ kv, (kv.1, g kv.2)) l). intros [k v] Hkv.
  specialize (H _ Hkv). simpl in H |- *. by rewrite H.
Qed.
