(* ===== verification/PyDump.v ===== *)
(** * JSON text

    [json.dumps] with the separators the program always passes, and what every
    text it produces has in common: it is one line. *)

From stdpp Require Import sorting.
From Stdlib Require Import Ascii String QArith.
From S2P Require Import Prelude.
From S2P Require Import PyStr.
From S2P Require Import PyText.
From S2P Require Import PyFloat.
From S2P Require Import PyJson.
Local Open Scope string_scope.
Local Open Scope list_scope.

(** ** [json.dumps(value, separators=(comma, colon))] *)

Definition escape_char (c : ascii) : string :=
  if Ascii.eqb c dquote || Ascii.eqb c "\"%char then String "\" (String c "")
  else if Ascii.eqb c nl then "\n"
  else if Ascii.eqb c cr then "\r"
  else if Ascii.eqb c tab then "\t"
  else if (code c =? 8)%Z then "\b"
  else if (code c =? 12)%Z then "\f"
  else if between 32 126 c then String c ""
  else "\u00" +:+ String (hexdigit (code c / 16)) (String (hexdigit (code c mod 16)) "").

Definition quoted (s : string) : string :=
  String dquote (String.concat "" (escape_char <$> list_ascii_of_string s)) +:+ String dquote "".

Definition dumps_float (f : pyfloat) : string :=
  match f with
  | FNan => "NaN"
  | FInf false => "Infinity"
  | FInf true => "-Infinity"
  | FFin _ => repr_float f
  end.

Fixpoint dumps (j : json) : string :=
  match j with
  | JNull => "null"
  | JBool b => if b then "true" else "false"
  | JInt z => str_of_Z z
  | JFloat f => dumps_float f
  | JStr s => quoted s
  | JList l => "[" +:+ join "," (map dumps l) +:+ "]"
  | JDict d => "{" +:+ join "," (map (λ kv, quoted kv.1 +:+ ":" +:+ dumps kv.2) d) +:+ "}"
  end.

(** [json.dumps] with its own separators. *)
Fixpoint dumps_spaced (j : json) : string :=
  match j with
  | JNull => "null"
  | JBool b => if b then "true" else "false"
  | JInt z => str_of_Z z
  | JFloat f => dumps_float f
  | JStr s => quoted s
  | JList l => "[" +:+ join ", " (map dumps_spaced l) +:+ "]"
  | JDict d => "{" +:+ join ", " (map (λ kv, quoted kv.1 +:+ ": " +:+ dumps_spaced kv.2) d) +:+ "}"
  end.

Definition key_le (a b : string * json) : Prop := str_le a.1 b.1.
#[export] Instance key_le_dec : RelDecision key_le.
Proof. intros a b. unfold key_le. apply _. Defined.

(** [sort_keys=True], at every depth *)
Fixpoint sort_keys (j : json) : json :=
  match j with
  | JList l => JList (map sort_keys l)
  | JDict d => JDict (merge_sort key_le (map (λ kv, (kv.1, sort_keys kv.2)) d))
  | _ => j
  end.

(** ** Facts *)

Definition not_nl (c : ascii) : bool := negb (Ascii.eqb c nl).
Abbreviation one_line := (sforall not_nl).
(** The characters [json.dumps] leaves in a text. *)
Definition printable (c : ascii) : bool := between 32 126 c.
Abbreviation plain := (sforall printable).

(** Decimal numbers are made of digits and perhaps a sign. *)
Lemma sforall_pretty_go f n : (∀ n, f (pretty_N_char n) = true) →
  ∀ s, sforall f s = true → sforall f (pretty_N_go n s) = true.
Proof.
  intros Hf. induction (N.lt_wf_0 n) as [n _ IH]. intros s Hs. destruct (decide (0 < n)%N) as [Hn|Hn].
  - rewrite pretty_N_go_step by done. apply IH; [apply N.div_lt; lia|]. simpl. by rewrite Hf.
  - replace n with 0%N by lia. by rewrite pretty_N_go_0.
Qed.

Lemma sforall_str_of_Z f z :
  (∀ n, f (pretty_N_char n) = true) → f "-"%char = true → sforall f (str_of_Z z) = true.
Proof.
  intros Hf Hm. assert (∀ n : N, sforall f (pretty n) = true) as HN.
  { intros n. unfold pretty, pretty_N. case_decide; [|by apply sforall_pretty_go].
    cbn. by rewrite (Hf 0%N : f "0"%char = true). }
  unfold str_of_Z, pretty, pretty_Z. destruct z; [apply (HN 0%N)|apply HN|].
  change (f "-"%char && sforall f (pretty (N.pos p)) = true). by rewrite Hm, HN.
Qed.

Lemma pretty_char_digit n : (n < 10)%N →
  is_digit (pretty_N_char n) = true ∧ digit_val (pretty_N_char n) = Z.of_N n.
Proof.
  intros Hn. assert (n = 0 ∨ n = 1 ∨ n = 2 ∨ n = 3 ∨ n = 4 ∨ n = 5 ∨ n = 6 ∨ n = 7 ∨ n = 8 ∨ n = 9)%N as H by lia.
  naive_solver.
Qed.

Lemma digits_go_pretty n : ∀ b s, (0 < n)%N →
  digits_go 0 b (pretty_N_go n s) = digits_go (Z.of_N n) true s.
Proof.
  induction (N.lt_wf_0 n) as [n _ IH]. intros b s Hn. rewrite pretty_N_go_step by done.
  destruct (pretty_char_digit (n mod 10)) as [Hd Hv]; [by apply N.mod_lt|].
  assert (Z.of_N n = Z.of_N (n `div` 10) * 10 + Z.of_N (n mod 10))%Z as Hz
    by (pose proof (N.div_mod n 10 ltac:(done)) as Hdm; rewrite Hdm at 1; lia).
  destruct (decide (0 < n `div` 10)%N) as [Hq|Hq].
  - rewrite IH by (try done; apply N.div_lt; lia). cbn [digits_go]. rewrite Hd, Hv. by rewrite <- Hz.
  - assert (n `div` 10 = 0)%N as H0 by (by apply N.le_0_r, N.nlt_ge). rewrite H0 in *. rewrite pretty_N_go_0. cbn [digits_go]. rewrite Hd, Hv.
    f_equal. lia.
Qed.

Lemma pretty_digits (n : N) : sforall is_digit (pretty n) = true.
Proof.
  unfold pretty, pretty_N. case_decide; [done|]. apply sforall_pretty_go; [|done].
  intros k. unfold pretty_N_char. repeat case_match; reflexivity.
Qed.

Lemma str_of_Z_digits z : (0 <= z)%Z → sforall is_digit (str_of_Z z) = true.
Proof. intros Hz. destruct z as [|p|p]; [done|exact (pretty_digits (N.pos p))|lia]. Qed.

(** [int(str(z)) == z] *)
Lemma parse_int_str z : parse_int (str_of_Z z) = Some z.
Proof.
  assert (∀ n : N, digits_go 0 false (pretty n) = Some (Z.of_N n)) as HN.
  { intros n. unfold pretty, pretty_N. case_decide as Hn; [by subst|]. rewrite digits_go_pretty by lia. done. }
  assert (∀ n, negb (is_space (pretty_N_char n)) = true) as Hs by (intros n; unfold pretty_N_char; repeat case_match; reflexivity).
  assert (strip (str_of_Z z) = str_of_Z z) as E by (apply strip_no_space, sforall_str_of_Z; [exact Hs|done]).
  unfold parse_int. rewrite E. unfold str_of_Z, pretty, pretty_Z. destruct z as [|p|p].
  - reflexivity.
  - specialize (HN (N.pos p)).
    pose proof (pretty_digits (N.pos p)) as Hd.
    change (match pretty (N.pos p) with
            | String "-" s' => Z.opp <$> digits_go 0 false s' | String "+" s' => digits_go 0 false s'
            | s' => digits_go 0 false s' end = Some (Z.pos p)).
    destruct (pretty (N.pos p)) as [|c s]; [done|]. simpl in Hd. apply andb_true_iff in Hd as [Hd _].
    destruct c as [[] [] [] [] [] [] [] []]; first [exact HN|done].
  - change (Z.opp <$> digits_go 0 false (pretty (N.pos p)) = Some (Z.neg p)). rewrite HN. done.
Qed.

Lemma digit_pretty n : printable (pretty_N_char n) = true.
Proof. unfold pretty_N_char. repeat case_match; reflexivity. Qed.

Lemma plain_Z z : plain (str_of_Z z) = true.
Proof. apply sforall_str_of_Z; [apply digit_pretty|done]. Qed.

Lemma plain_app s t : plain s = true → plain t = true → plain (s +:+ t) = true.
Proof. rewrite sforall_app. by intros -> ->. Qed.

Lemma sforall_sdrop f n s : sforall f s = true → sforall f (sdrop n s) = true.
Proof. intros H. rewrite <- (stake_sdrop n s), sforall_app in H. by apply andb_true_iff in H as [_ H]. Qed.

Lemma plain_sdrop n s : plain s = true → plain (sdrop n s) = true.
Proof. apply sforall_sdrop. Qed.

Lemma plain_rstrip cs s : plain s = true → plain (rstrip_set cs s) = true.
Proof.
  intros H. destruct (rstrip_prefix (one_of cs) s) as [p E]. rewrite E, sforall_app in H.
  by apply andb_true_iff in H as [H _].
Qed.

Lemma plain_zeros n : plain (zeros n) = true.
Proof. by induction n. Qed.

Create HintDb line.
#[local] Hint Resolve plain_Z plain_app plain_sdrop plain_rstrip plain_zeros
  sforall_stake : line.

Lemma plain_exp e : plain (exp_str e) = true.
Proof. unfold exp_str. apply plain_app; [by case_match|]. apply plain_app; [by case_match|auto with line]. Qed.

Lemma plain_layout ds e hi pt :
  plain ds = true → plain pt = true → plain (layout ds e hi pt) = true.
Proof.
  intros Hd Hp. unfold layout.
  repeat (case_match; auto 6 using plain_exp with line); repeat apply plain_app;
    auto using plain_exp with line.
Qed.

Lemma plain_float f : plain (dumps_float f) = true.
Proof.
  destruct f as [q|[]|]; [|done..]. cbn [dumps_float repr_float].
  assert (∀ q, plain (repr_pos q) = true) as H.
  { intros r. unfold repr_pos. destruct (shortest 16 1 r). apply plain_layout; auto with line. }
  repeat case_match; try done; auto with line.
Qed.

Lemma plain_escape c : plain (escape_char c) = true.
Proof. destruct c as [[] [] [] [] [] [] [] []]; reflexivity. Qed.

Lemma plain_concat (l : list string) :
  Forall (λ s, plain s = true) l → plain (String.concat "" l) = true.
Proof.
  induction 1 as [|s l Hs _ IH]; [done|]. destruct l; [done|].
  change (plain (s +:+ ("" +:+ String.concat "" (s0 :: l))) = true). by apply plain_app.
Qed.

Lemma plain_join sep (l : list string) :
  plain sep = true → Forall (λ s, plain s = true) l → plain (join sep l) = true.
Proof.
  intros Hs. induction 1 as [|s l H _ IH]; [done|]. destruct l as [|s' l]; [done|].
  change (plain (s +:+ (sep +:+ join sep (s' :: l))) = true). auto with line.
Qed.

Lemma plain_quoted s : plain (quoted s) = true.
Proof.
  change (plain (String dquote "" +:+ (String.concat "" (escape_char <$> list_ascii_of_string s)
    +:+ String dquote "")) = true).
  apply plain_app; [done|]. apply plain_app; [|done]. apply plain_concat.
  apply Forall_fmap, Forall_true. intros c. apply plain_escape.
Qed.

(** JSON text is made of printable characters; so it is one line. *)
Lemma dumps_plain : ∀ j, plain (dumps j) = true.
Proof.
  fix IH 1. intros [| [] | z | f | s | l | d]; [reflexivity..| | | | |].
  - apply plain_Z.
  - apply plain_float.
  - apply plain_quoted.
  - cbn [dumps]. apply plain_app; [done|]. apply plain_app; [|done].
    apply plain_join; [done|]. induction l as [|j l IHl]; [constructor|].
    constructor; [apply IH|apply IHl].
  - cbn [dumps]. apply plain_app; [done|]. apply plain_app; [|done].
    apply plain_join; [done|]. induction d as [|[k j] d IHd]; [constructor|].
    constructor; [|apply IHd]. apply plain_app; [apply plain_quoted|].
    apply plain_app; [done|apply IH].
Qed.

Lemma dumps_one_line j : one_line (dumps j) = true.
Proof.
  apply (sforall_impl printable); [|apply dumps_plain].
  intros c. destruct c as [[] [] [] [] [] [] [] []]; vm_compute; congruence.
Qed.
Lemma dumps_no_break j : no_break (dumps j) = true.
Proof.
  apply (sforall_impl printable); [|apply dumps_plain].
  intros c. destruct c as [[] [] [] [] [] [] [] []]; vm_compute; congruence.
Qed.
Lemma one_line_sdrop n s : one_line s = true → one_line (sdrop n s) = true.
Proof. apply sforall_sdrop. Qed.

(** ** Numbers in a format hold no white space *)

Definition spaceless : string → bool := sforall (λ c, negb (is_space c)).

Lemma spaceless_fixed k f : spaceless (format_fixed k f) = true.
Proof.
  destruct f as [q|[]|]; [|done..]. unfold spaceless, format_fixed.
  match goal with |- context [Z.abs ?x] => set (m := x) end.
  assert (sforall (λ c, negb (is_space c)) (zeros (S k - slen (str_of_Z (Z.abs m))) +:+ str_of_Z (Z.abs m)) = true) as H.
  { rewrite sforall_app. apply andb_true_iff. split.
    - induction (S k - slen (str_of_Z (Z.abs m)))%nat; [done|]. by cbn.
    - apply sforall_str_of_Z; [|done]. intros n. unfold pretty_N_char. repeat case_match; reflexivity. }
  rewrite sforall_app. apply andb_true_iff. split; [by destruct (m <? 0)%Z|].
  destruct k as [|k]; [done|]. rewrite !sforall_app, !andb_true_iff.
  split; [by apply sforall_stake|]. split; [done|]. by apply sforall_sdrop.
Qed.
