(* ===== verification/Failures.v ===== *)
(** * Failure classes and verdicts (protocol/failures.py)

    The classification every check reports with, and [worst], which picks the
    failure a deep pass is recorded under. *)

From S2P Require Import Prelude.
From S2P Require Import PyStr.
From S2P Require Import PyFloat.
From S2P Require Import PyJson.
From Stdlib Require Import String.
Local Open Scope string_scope.

Inductive FailureClass : Type :=
  | SSH_TRANSPORT
  | AGENT_CRASH
  | CHALLENGE_REJECT
  | SPEC_MISMATCH
  | UNAUTHORISED_WORK
  | NESTED_CONTAINER
  | DUPLICATE_UUID
  | VERSION_STALE.

#[export] Instance FailureClass_eq_dec : EqDecision FailureClass.
Proof. solve_decision. Defined.

(** [FailureClass.value] *)
Definition class_value (k : FailureClass) : string :=
  match k with
  | SSH_TRANSPORT => "SSH_TRANSPORT"
  | AGENT_CRASH => "AGENT_CRASH"
  | CHALLENGE_REJECT => "CHALLENGE_REJECT"
  | SPEC_MISMATCH => "SPEC_MISMATCH"
  | UNAUTHORISED_WORK => "UNAUTHORISED_WORK"
  | NESTED_CONTAINER => "NESTED_CONTAINER"
  | DUPLICATE_UUID => "DUPLICATE_UUID"
  | VERSION_STALE => "VERSION_STALE"
  end.

Definition MEANINGS (k : FailureClass) : string :=
  match k with
  | SSH_TRANSPORT => "could not reach the agent"
  | AGENT_CRASH => "agent died during the check"
  | CHALLENGE_REJECT => "wrong answer, or too slow"
  | SPEC_MISMATCH => "hardware is not what was declared"
  | UNAUTHORISED_WORK => "something on the card that is not ours"
  | NESTED_CONTAINER => "agent is not on a real host"
  | DUPLICATE_UUID => "this card is enrolled elsewhere"
  | VERSION_STALE => "agent behind the minimum"
  end.

(** [list(FailureClass)], the order [worst] ranks by. *)
Definition class_order : list FailureClass :=
  [SSH_TRANSPORT; AGENT_CRASH; CHALLENGE_REJECT; SPEC_MISMATCH;
   UNAUTHORISED_WORK; NESTED_CONTAINER; DUPLICATE_UUID; VERSION_STALE].

(** [order.index(kind)] *)
Fixpoint index_of (k : FailureClass) (l : list FailureClass) : nat :=
  match l with
  | [] => 0
  | x :: l' => if decide (x = k) then 0 else S (index_of k l')
  end.
Definition rank (k : FailureClass) : nat := index_of k class_order.

Record Failure : Type := MkFailure {
  kind : FailureClass;
  detail : string;
  fseed : string;
  fevidence : dict;
}.

Definition failure_payload (f : Failure) : dict :=
  [("class", JStr (class_value f.(kind)));
   ("meaning", JStr (MEANINGS f.(kind)));
   ("detail", JStr f.(detail));
   ("seed", JStr f.(fseed));
   ("evidence", JDict f.(fevidence))].

Record Verdict : Type := MkVerdict {
  check : string;
  failure : option Failure;
  evidence : dict;
  elapsed_ms : pyfloat;
}.

Definition passed (v : Verdict) : bool :=
  match v.(failure) with None => true | Some _ => false end.

Definition verdict_payload (v : Verdict) : dict :=
  [("check", JStr v.(check));
   ("passed", JBool (passed v));
   ("elapsed_ms", JFloat (fround 3 v.(elapsed_ms)));
   ("evidence", JDict v.(evidence))] ++
  match v.(failure) with
  | Some f => [("failure", JDict (failure_payload f))]
  | None => []
  end.

(** [min(failures, key=...)] keeps the first of the best. *)
Fixpoint min_by (key : Failure → nat) (best : Failure) (l : list Failure) : Failure :=
  match l with
  | [] => best
  | f :: l' => min_by key (if (key f <? key best)%nat then f else best) l'
  end.

Definition worst (verdicts : list Verdict) : option Failure :=
  match omap failure verdicts with
  | [] => None
  | f :: l => Some (min_by (λ f, rank f.(kind)) f l)
  end.

(** ** Facts *)

Lemma rank_lt k : (rank k < 8)%nat.
Proof. destruct k; compute; lia. Qed.

Lemma rank_inj k k' : rank k = rank k' → k = k'.
Proof. destruct k, k'; compute; congruence. Qed.

Lemma min_by_spec key l : ∀ best,
  let m := min_by key best l in
  m ∈ best :: l ∧ (∀ f, f ∈ best :: l → (key m <= key f)%nat).
Proof.
  induction l as [|f l IH]; intros best; simpl.
  - split; [set_solver|]. intros f ->%list_elem_of_singleton. done.
  - destruct (IH (if (key f <? key best)%nat then f else best)) as [Hin Hle].
    destruct (Nat.ltb_spec (key f) (key best)) as [Hlt|Hge].
    + split; [set_solver|]. intros g Hg.
      assert (key (min_by key f l) <= key f)%nat by (apply Hle; set_solver).
      apply elem_of_cons in Hg as [->|Hg]; [lia|]. by apply Hle.
    + split; [set_solver|]. intros g Hg.
      assert (key (min_by key best l) <= key best)%nat by (apply Hle; set_solver).
      apply elem_of_cons in Hg as [->|Hg]; [done|].
      apply elem_of_cons in Hg as [->|Hg]; [lia|]. apply Hle. set_solver.
Qed.

Lemma worst_None vs : worst vs = None ↔ Forall (λ v, passed v = true) vs.
Proof.
  unfold worst, passed. induction vs as [|v vs IH]; simpl; [done|].
  destruct (failure v) eqn:E; simpl.
  - split; [done|]. intros H. inversion_clear H. by rewrite E in *.
  - rewrite IH. split; [intros; constructor; [by rewrite E|done]|by inversion 1].
Qed.

Lemma worst_app_None vs ws : worst (vs ++ ws) = None ↔ worst vs = None ∧ worst ws = None.
Proof. rewrite !worst_None. apply Forall_app. Qed.

#[export] Hint Rewrite worst_None worst_app_None : pyrw.

(** [worst] is total over verdict lists: it reports a failure exactly when a
    check failed, and what it reports is one of the recorded failures, of the
    class that comes first in the declaration order. *)
Lemma worst_is_first_class vs :
  (worst vs = None ↔ Forall (λ v, passed v = true) vs) ∧
  (∀ f, worst vs = Some f →
     (∃ v, v ∈ vs ∧ v.(failure) = Some f) ∧
     (∀ v g, v ∈ vs → v.(failure) = Some g → (rank f.(kind) <= rank g.(kind))%nat)).
Proof.
  split; [apply worst_None|]. intros f. unfold worst.
  destruct (omap failure vs) as [|g l] eqn:E; [done|]. intros [= <-].
  destruct (min_by_spec (λ f, rank (kind f)) l g) as [Hin Hle]. rewrite <- E in Hin, Hle.
  split.
  - apply list_elem_of_omap in Hin as (v & Hv & Hf). eauto.
  - intros v h Hv Hh. apply Hle. apply list_elem_of_omap. eauto.
Qed.
