(* ===== verification/Messages.v ===== *)
(** * Control messages (protocol/messages.py)

    The messages both sides of the control websocket speak: what each one
    serialises to ([payload]) and how it is read back ([from_payload]).  The
    clock read by [stamp] is an argument. *)

From S2P Require Import Prelude.
From S2P Require Import PyStr.
From S2P Require Import PyFloat.
From S2P Require Import PyJson.
From Stdlib Require Import String.
Local Open Scope string_scope.

Definition PROTOCOL : Z := 1.
Definition PING_SECONDS : Z := 20.
Definition PONG_TIMEOUT_SECONDS : Z := 40.
Definition STATE_SECONDS : Z := 30.
Definition RECONNECT_MIN_SECONDS : pyfloat := fz 1.
Definition RECONNECT_MAX_SECONDS : pyfloat := fz 60.
Definition CLOSE_BAD_HELLO : Z := 4400.
Definition CLOSE_BAD_SIGNATURE : Z := 4401.
Definition CLOSE_UNKNOWN_RIG : Z := 4404.

Inductive ServerMessage : Type := WELCOME | COMMAND | PONG | ERROR.
Definition server_message_value (m : ServerMessage) : string :=
  match m with WELCOME => "welcome" | COMMAND => "command" | PONG => "pong" | ERROR => "error" end.

Inductive AgentMessage : Type := HELLO | PING | STATE | RESULT | EVENT.
Definition agent_message_value (m : AgentMessage) : string :=
  match m with
  | HELLO => "hello" | PING => "ping" | STATE => "state" | RESULT => "result" | EVENT => "event"
  end.

Inductive CommandKind : Type :=
  | SPEC | UTILISATION | CHALLENGE | ATTESTATION | JOB_PLACED | LOG_STREAM
  | PREFETCH | DRAIN | CLAIM_PROMPT.
Definition command_kinds : list CommandKind :=
  [SPEC; UTILISATION; CHALLENGE; ATTESTATION; JOB_PLACED; LOG_STREAM; PREFETCH; DRAIN; CLAIM_PROMPT].
Definition command_kind_value (k : CommandKind) : string :=
  match k with
  | SPEC => "SpecRequest"
  | UTILISATION => "UtilisationRequest"
  | CHALLENGE => "ChallengeRequest"
  | ATTESTATION => "AttestationRequest"
  | JOB_PLACED => "JobPlaced"
  | LOG_STREAM => "LogStreamRequest"
  | PREFETCH => "PrefetchRequest"
  | DRAIN => "DrainRequest"
  | CLAIM_PROMPT => "ClaimPrompt"
  end.

(** [round(time.time(), 3)] *)
Definition stamp (now : pyfloat) : json := JFloat (fround 3 now).

Module Hello.
Record t : Type := Mk { agent : string; timestamp : string; signature : string }.
Definition payload (h : t) : dict :=
  [("type", JStr (agent_message_value HELLO)); ("agent", JStr h.(agent));
   ("timestamp", JStr h.(timestamp)); ("signature", JStr h.(signature));
   ("protocol", JInt PROTOCOL)].
End Hello.

Module Welcome.
Record t : Type := Mk { rig_id : string; ping_seconds : Z; protocol : Z }.
Definition from_payload (p : dict) : res t :=
  ping ← number "ping_seconds" PING_SECONDS p;
  protocol ← number "protocol" PROTOCOL p;
  mret (Mk (get_str "rig_id" p) ping protocol).
End Welcome.

Module Command.
Record t : Type := Mk { id : Z; kind : string; body : dict; expires_at : string }.
Definition from_payload (p : dict) : res t :=
  identifier ← number "id" 0 p;
  mret (Mk identifier (get_str "kind" p) (get_dict "payload" p) (get_str_or "expires_at" "" p)).
Definition known (c : t) : bool :=
  existsb (λ k, String.eqb c.(kind) (command_kind_value k)) command_kinds.
End Command.

Module Result.
Record t : Type := Mk { id : Z; ok : bool; result : dict }.
Definition payload (now : pyfloat) (r : t) : dict :=
  [("type", JStr (agent_message_value RESULT)); ("id", JInt r.(id)); ("ok", JBool r.(ok));
   ("result", JDict r.(result)); ("sent_at", stamp now)].
End Result.

Module State.
Record t : Type := Mk {
  utilisation : dict; containers : list dict; queue_depth : Z;
  agent_version : string; draining : bool; jobs : list string }.
Definition payload (now : pyfloat) (s : t) : dict :=
  [("type", JStr (agent_message_value STATE)); ("utilisation", JDict s.(utilisation));
   ("containers", JList (JDict <$> s.(containers))); ("queue_depth", JInt s.(queue_depth));
   ("agent_version", JStr s.(agent_version)); ("draining", JBool s.(draining));
   ("jobs", JList (JStr <$> s.(jobs))); ("sent_at", stamp now)].
End State.

Module Event.
Record t : Type := Mk { kind : string; detail : dict }.
Definition payload (now : pyfloat) (e : t) : dict :=
  [("type", JStr (agent_message_value EVENT)); ("kind", JStr (stake 40 e.(kind)));
   ("detail", JDict e.(detail)); ("sent_at", stamp now)].
End Event.

Definition ping (now : pyfloat) : dict :=
  [("type", JStr (agent_message_value PING)); ("sent_at", stamp now)].

Module ChallengeRequest.
Record t : Type := Mk {
  seed : Z; cipher : Z; n : Z; rounds : Z; benchmark_n : Z; iterations : Z }.
Definition payload (r : t) : dict :=
  [("seed", JInt r.(seed)); ("cipher", JInt r.(cipher)); ("n", JInt r.(n));
   ("rounds", JInt r.(rounds)); ("benchmark_n", JInt r.(benchmark_n));
   ("iterations", JInt r.(iterations))].
Definition from_payload (p : dict) : res t :=
  seed ← number "seed" 0 p;
  cipher ← number "cipher" 0 p;
  n ← number "n" 256 p;
  rounds ← number "rounds" 2 p;
  benchmark_n ← number "benchmark_n" 2048 p;
  iterations ← number "iterations" 32 p;
  mret (Mk seed cipher n rounds benchmark_n iterations).
End ChallengeRequest.

Module ChallengeAnswer.
Record t : Type := Mk {
  digest : string; elapsed_ms : pyfloat; gops : pyfloat; gbps : pyfloat;
  benchmark_ms : pyfloat; build : string; version : Z; error : string }.
Definition payload (a : t) : dict :=
  [("digest", JStr a.(digest)); ("elapsed_ms", JFloat (fround 3 a.(elapsed_ms)));
   ("gops", JFloat (fround 3 a.(gops))); ("gbps", JFloat (fround 3 a.(gbps)));
   ("benchmark_ms", JFloat (fround 3 a.(benchmark_ms))); ("build", JStr a.(build));
   ("version", JInt a.(version)); ("error", JStr a.(error))].
Definition from_payload (p : dict) : res t :=
  version ← number "version" 0 p;
  elapsed_ms ← real "elapsed_ms" p;
  gops ← real "gops" p;
  gbps ← real "gbps" p;
  benchmark_ms ← real "benchmark_ms" p;
  mret (Mk (get_str_or "digest" "" p) elapsed_ms gops gbps benchmark_ms
           (get_str_or "build" "" p) version (get_str_or "error" "" p)).
End ChallengeAnswer.

Module LogStreamRequest.
Record t : Type := Mk { container : string; tail : Z; seconds : Z }.
(** [str(p.get("container", "") or p.get("name", "") or "")] *)
Definition container_of (p : dict) : string :=
  py_str (jor (jor (getd "container" (JStr "") p) (getd "name" (JStr "") p)) (JStr "")).
Definition from_payload (p : dict) : res t :=
  tail ← number "tail" 200 p;
  seconds ← number "seconds" 30 p;
  mret (Mk (container_of p) (Z.max 1 (Z.min tail 500)) (Z.max 1 (Z.min seconds 300))).
End LogStreamRequest.

Module PrefetchRequest.
Record t : Type := Mk { image : string; digest : string }.
Definition from_payload (p : dict) : t :=
  Mk (get_str_or "image" "" p) (get_str_or "digest" "" p).
(** [self.image.split(":", 1)[0]] *)
Definition before_colon (s : string) : string :=
  match partition_first ":" s with Some (a, _) => a | None => s end.
Definition reference (r : t) : string :=
  if negb (String.eqb r.(digest) "") && negb (contains "@" r.(image))
  then before_colon r.(image) +:+ "@" +:+ r.(digest)
  else r.(image).
End PrefetchRequest.

Module DrainRequest.
Record t : Type := Mk { drain : bool; reason : string }.
Definition from_payload (p : dict) : t :=
  Mk (get_bool "drain" true p) (get_str_or "reason" "" p).
End DrainRequest.

Module ClaimPrompt.
Record t : Type := Mk { hotkey : string; expires_at : string }.
Definition from_payload (p : dict) : t :=
  Mk (get_str_or "hotkey" "" p) (get_str_or "expires_at" "" p).
End ClaimPrompt.

Module AttestationRequest.
Record t : Type := Mk { nonce : string }.
Definition from_payload (p : dict) : t := Mk (lower (strip (get_str_or "nonce" "" p))).
End AttestationRequest.

(** ** Facts *)

Lemma number_int k dflt d z :
  dget k d = Some (JInt z) → (z ≠ 0 ∨ dflt = 0)%Z → number k dflt d = Ok z.
Proof.
  intros H Hz. unfold number, get_int_or, getd. rewrite H. simpl. unfold jor. simpl.
  destruct (Z.eqb_spec z 0) as [->|]; simpl; [|done].
  by destruct Hz as [Hz|Hz]; [|rewrite Hz].
Qed.

(** Reading back a challenge request gives the request that was sent, as soon
    as its four sizes are non-zero: zero is the value the reader replaces by
    the default. *)
Lemma challenge_request_roundtrip (r : ChallengeRequest.t) :
  (ChallengeRequest.n r ≠ 0 → ChallengeRequest.rounds r ≠ 0 →
   ChallengeRequest.benchmark_n r ≠ 0 → ChallengeRequest.iterations r ≠ 0 →
   ChallengeRequest.from_payload (ChallengeRequest.payload r) = Ok r)%Z.
Proof.
  intros. destruct r. unfold ChallengeRequest.from_payload. simpl in *.
  do 6 (erewrite number_int; [simpl|done|tauto]). done.
Qed.

Lemma log_stream_bounds p r :
  LogStreamRequest.from_payload p = Ok r →
  (1 <= LogStreamRequest.tail r <= 500 ∧ 1 <= LogStreamRequest.seconds r <= 300)%Z.
Proof. unfold LogStreamRequest.from_payload. intros H. res_inv. simpl. lia. Qed.
