(* ===== verification/Sha256.v ===== *)
(** * SHA-256 and HMAC-SHA-256 (hashlib and hmac of the standard library)

    Executable definitions over byte strings, checked against the FIPS 180-4
    and RFC 4231 vectors. *)

From S2P Require Import Prelude.
From S2P Require Import PyStr.
From Stdlib Require Import Ascii String.
Local Open Scope string_scope.
Local Open Scope Z_scope.

Definition w32 (z : Z) : Z := Z.land z 0xFFFFFFFF.
Definition rotr (n x : Z) : Z := w32 (Z.lor (Z.shiftr x n) (Z.shiftl x (32 - n))).

(** The constants of the standard are computed from their definition: the first
    32 bits of the fractional parts of the cube roots (round constants) and of the
    square roots (initial value) of the first primes. *)
Fixpoint cbrt_bits (bits : nat) (n root : Z) : Z :=
  match bits with
  | O => root
  | S bits' =>
      let r := root + 2 ^ Z.of_nat bits' in
      cbrt_bits bits' n (if r * r * r <=? n then r else root)
  end.

Definition is_prime (n : nat) : bool :=
  forallb (λ d, negb (n mod d =? 0)%nat) (seq 2 (n - 2)).
Definition primes : list Z := Eval vm_compute in Z.of_nat <$> List.filter is_prime (seq 2 310).

Definition K256 : list Z := Eval vm_compute in
  (λ p, w32 (cbrt_bits 36 (p * 2 ^ 96) 0)) <$> take 64 primes.
Definition H256 : list Z := Eval vm_compute in
  (λ p, w32 (Z.sqrt (p * 2 ^ 64))) <$> take 8 primes.

Definition bytes_of (s : string) : list Z := code <$> list_ascii_of_string s.
Definition of_bytes (l : list Z) : string :=
  string_of_list_ascii ((λ z, ascii_of_N (Z.to_N (Z.land z 255))) <$> l).

Definition be_bytes (n : nat) (z : Z) : list Z :=
  (λ i, Z.land (Z.shiftr z (8 * Z.of_nat (n - 1 - i))) 255) <$> seq 0 n.
Definition be_value (l : list Z) : Z := foldl (λ a b, a * 256 + b) 0 l.

Definition pad (m : list Z) : list Z :=
  let n := List.length m in
  m ++ [128] ++ repeat 0 (((119 - n mod 64) mod 64)%nat) ++ be_bytes 8 (8 * Z.of_nat n).

Fixpoint chunks (fuel n : nat) (l : list Z) : list (list Z) :=
  match fuel, l with
  | _, [] => []
  | O, _ => []
  | S fuel', _ => take n l :: chunks fuel' n (drop n l)
  end.

(** The message schedule, newest word first. *)
Fixpoint schedule (k : nat) (ws : list Z) : list Z :=
  match k with
  | O => ws
  | S k' =>
      let w i := nth i ws 0 in
      let s0 := let x := w 14%nat in Z.lxor (Z.lxor (rotr 7 x) (rotr 18 x)) (Z.shiftr x 3) in
      let s1 := let x := w 1%nat in Z.lxor (Z.lxor (rotr 17 x) (rotr 19 x)) (Z.shiftr x 10) in
      schedule k' (w32 (w 15%nat + s0 + w 6%nat + s1) :: ws)
  end.

Definition round256 (st : list Z) (kw : Z * Z) : list Z :=
  match st with
  | [a; b; c; d; e; f; g; h] =>
      let S1 := Z.lxor (Z.lxor (rotr 6 e) (rotr 11 e)) (rotr 25 e) in
      let ch := Z.lxor (Z.land e f) (Z.land (w32 (Z.lnot e)) g) in
      let t1 := w32 (h + S1 + ch + kw.1 + kw.2) in
      let S0 := Z.lxor (Z.lxor (rotr 2 a) (rotr 13 a)) (rotr 22 a) in
      let maj := Z.lxor (Z.lxor (Z.land a b) (Z.land a c)) (Z.land b c) in
      [w32 (t1 + S0 + maj); a; b; c; w32 (d + t1); e; f; g]
  | _ => st
  end.

Definition compress (h : list Z) (block : list Z) : list Z :=
  let ws := rev (schedule 48 (rev (be_value <$> chunks 16 4 block))) in
  zip_with (λ a b, w32 (a + b)) h (foldl round256 h (combine K256 ws)).

Definition sha256_words (m : list Z) : list Z :=
  let p := pad m in foldl compress H256 (chunks (List.length p) 64 p).

(** [hashlib.sha256(data).digest()] *)
Definition sha256 (data : string) : string :=
  of_bytes (sha256_words (bytes_of data) ≫= be_bytes 4).

Definition hex_digit (n : Z) : ascii := ascii_of_N (Z.to_N (if n <? 10 then 48 + n else 87 + n)).
(** [bytes.hex()] *)
Definition hex (s : string) : string :=
  string_of_list_ascii
    (bytes_of s ≫= λ b, [hex_digit (b / 16); hex_digit (b mod 16)]).

(** [hmac.new(key, msg, sha256).digest()] for a key of at most one block. *)
Definition hmac_sha256 (key msg : string) : string :=
  let k := bytes_of (if (64 <? slen key)%nat then sha256 key else key) in
  let k : list Z := (k ++ repeat 0 (64 - List.length k)%nat)%list in
  let outer := of_bytes (Z.lxor 0x5c <$> k) in
  let inner := of_bytes (Z.lxor 0x36 <$> k) in
  sha256 (outer +:+ sha256 (inner +:+ msg)).

Example sha256_abc :
  hex (sha256 "abc") = "ba7816bf8f01cfea414140de5dae2223b00361a396177a9cb410ff61f20015ad".
Proof. vm_compute. reflexivity. Qed.

Example sha256_two_blocks :
  hex (sha256 "abcdbcdecdefdefgefghfghighijhijkijkljklmklmnlmnomnopnopq")
  = "248d6a61d20638b8e5c026930c3e6039a33ce45964ff2167f6ecedd419db06c1".
Proof. vm_compute. reflexivity. Qed.

Example hmac_rfc4231_2 :
  hex (hmac_sha256 "Jefe" "what do ya want for nothing?")
  = "5bdcc146bf60754e6a042426089575c75a003f089d2739839dec58b964ec3843".
Proof. vm_compute. reflexivity. Qed.

(** ** Lengths *)

Lemma bytes_of_of_bytes_length l : slen (of_bytes l) = List.length l.
Proof. unfold of_bytes, slen. induction l; csimpl; congruence. Qed.

Lemma round256_length st kw : List.length st = 8%nat → List.length (round256 st kw) = 8%nat.
Proof. intros H. by do 9 (destruct st; try done). Qed.

Lemma compress_length h b : List.length h = 8%nat → List.length (compress h b) = 8%nat.
Proof.
  intros H. unfold compress. rewrite length_zip_with.
  assert (∀ l st, List.length st = 8%nat → List.length (foldl round256 st l) = 8%nat) as ->.
  - induction l as [|x l IH]; intros st Hst; simpl; [done|]. by apply IH, round256_length.
  - by rewrite H.
  - done.
Qed.

Lemma sha256_length s : slen (sha256 s) = 32%nat.
Proof.
  unfold sha256. rewrite bytes_of_of_bytes_length.
  assert (List.length (sha256_words (bytes_of s)) = 8%nat) as Hw.
  { unfold sha256_words. generalize (chunks (List.length (pad (bytes_of s))) 64 (pad (bytes_of s))).
    assert (List.length H256 = 8%nat) as Hh by done. revert Hh. generalize H256.
    intros h Hh l. revert h Hh. induction l as [|b l IH]; intros h Hh; simpl; [done|].
    by apply IH, compress_length. }
  revert Hw. generalize (sha256_words (bytes_of s)). intros l Hl.
  by do 9 (destruct l as [|? l]; try done).
Qed.
