(* ===== verification/SessionProto.v ===== *)
(** * The session protocol (protocol/session.py)

    The accepted forms of nonces, public keys and digests, the byte strings that
    are signed, and the payloads of session opening, session closing, agent
    releases and job records. *)

From S2P Require Import Prelude.
From S2P Require Import PyStr.
From S2P Require Import PyRe.
From S2P Require Import PyFloat.
From S2P Require Import PyJson.
From Stdlib Require Import Ascii String.
Local Open Scope string_scope.

Definition NONCE_TTL_SECONDS : Z := 600.
Definition SIGNATURE_WINDOW_SECONDS : Z := 120.
Definition RELEASE_SKEW_SECONDS : Z := 600.

Definition HEADER_HOTKEY : string := "x-mt-hotkey".
Definition HEADER_TIMESTAMP : string := "x-mt-timestamp".
Definition HEADER_SIGNATURE : string := "x-mt-signature".

(** ** Accepted forms *)

Definition NONCE_PATTERN : re := rep 64 (RCls is_hex).

Definition KEY_TYPES : list string :=
  ["ssh-ed25519"; "ecdsa-sha2-nistp256"; "ecdsa-sha2-nistp384"; "ssh-rsa"].
Definition is_base64 (c : ascii) : bool := is_alnum_ascii c || one_of "+/" c.
Definition key_body : re :=
  RCat (ralts (rlit <$> KEY_TYPES))
    (RCat (rchar " ") (RCat (rplus (RCls is_base64)) (RStar (rchar "=")))).
Definition PUBLIC_KEY_PATTERN : re :=
  RCat key_body
    (ropt (RCat (rchar " ") (RStar (RCls (λ c, negb (Ascii.eqb c cr || Ascii.eqb c nl)))))).
Definition DIGEST_PATTERN : re := RCat (rlit "sha256:") (rep 64 (RCls is_hex)).

Definition well_formed_nonce (nonce : string) : bool := re_dollar NONCE_PATTERN nonce.
Definition well_formed_public_key (public_key : string) : bool :=
  let text := strip public_key in
  negb (contains nls text) && re_dollar PUBLIC_KEY_PATTERN text.
Definition well_formed_digest (digest : string) : bool := re_dollar DIGEST_PATTERN digest.

(** ** Signed byte strings *)

(** [str.encode()] is UTF-8: one byte below 128, two from 128 to 255. *)
Fixpoint encode (s : string) : string :=
  match s with
  | "" => ""
  | String c s' =>
      if (code c <? 128)%Z then String c (encode s')
      else String (ascii_of_N (Z.to_N (192 + code c / 64)))
             (String (ascii_of_N (Z.to_N (128 + code c mod 64))) (encode s'))
  end.

(** [str.upper()] on the ASCII letters (HTTP methods). *)
Definition upper_char (c : ascii) : ascii :=
  if is_lower_ascii c then ascii_of_N (Z.to_N (code c - 32)) else c.
Definition upper (s : string) : string := smap upper_char s.

Definition signing_bytes (method path timestamp body : string) : string :=
  join nls [encode (upper method); encode path; encode timestamp; body].

Definition grant_blob (public_key nonce : string) : string :=
  encode (public_key +:+ nls +:+ nonce).

Definition release_message (digest : string) (timestamp : Z) : string :=
  encode (digest +:+ nls +:+ str_of_Z timestamp).

(** ** Payloads *)

Module SessionOpen.
Record t : Type := Mk { public_key : string; nonce : string; signature : string }.
Definition payload (r : t) : dict :=
  [("public_key", JStr r.(public_key)); ("nonce", JStr r.(nonce));
   ("signature", JStr r.(signature))].
Definition from_payload (p : dict) : t :=
  Mk (strip (get_str "public_key" p)) (lower (strip (get_str "nonce" p)))
     (strip (get_str "signature" p)).
Definition problems (r : t) : list string :=
  (if negb (well_formed_public_key r.(public_key))
   then ["public_key must be a single OpenSSH public key line"] else []) ++
  (if negb (well_formed_nonce r.(nonce))
   then ["nonce must be 32 bytes as 64 lowercase hex characters"] else []) ++
  (if String.eqb r.(signature) "" then ["signature is required"] else []).
Definition blob (r : t) : string := grant_blob r.(public_key) r.(nonce).
End SessionOpen.

Module SessionGrant.
Record t : Type := Mk {
  ssh_username : string; ssh_port : Z; ssh_host_key : string; python_path : string;
  root_dir : string; port_range : string; validator : string; expires_at : string;
  gpu_attestation : dict; tdx_quote : string; session_id : string }.
Definition payload (g : t) : dict :=
  [("ssh_username", JStr g.(ssh_username)); ("ssh_port", JInt g.(ssh_port));
   ("ssh_host_key", JStr g.(ssh_host_key)); ("python_path", JStr g.(python_path));
   ("root_dir", JStr g.(root_dir)); ("port_range", JStr g.(port_range));
   ("gpu_attestation", JDict g.(gpu_attestation)); ("tdx_quote", JStr g.(tdx_quote));
   ("validator", JStr g.(validator)); ("expires_at", JStr g.(expires_at));
   ("session_id", JStr g.(session_id))].
Definition from_payload (p : dict) : res t :=
  port ← get_int_or "ssh_port" 22 p;
  mret (Mk (get_str "ssh_username" p) port (get_str "ssh_host_key" p)
    (get_str_or "python_path" "python3" p) (get_str_or "root_dir" "/tmp" p)
    (get_str "port_range" p) (get_str "validator" p) (get_str "expires_at" p)
    (get_dict "gpu_attestation" p) (get_str_or "tdx_quote" "" p) (get_str_or "session_id" "" p)).
End SessionGrant.

Module SessionClose.
Record t : Type := Mk { public_key : string; session_id : string }.
Definition payload (r : t) : dict :=
  [("public_key", JStr r.(public_key)); ("session_id", JStr r.(session_id))].
Definition from_payload (p : dict) : t :=
  Mk (strip (get_str "public_key" p)) (get_str_or "session_id" "" p).
End SessionClose.

Module Release.
Record t : Type := Mk { digest : string; timestamp : Z; signature : string; validator : string }.
Definition payload (r : t) : dict :=
  [("digest", JStr r.(digest)); ("timestamp", JInt r.(timestamp));
   ("signature", JStr r.(signature)); ("validator", JStr r.(validator))].
Definition from_payload (p : dict) : res t :=
  timestamp ← number "timestamp" 0 p;
  mret (Mk (get_str "digest" p) timestamp (get_str "signature" p) (get_str_or "validator" "" p)).
Definition message (r : t) : string := release_message r.(digest) r.(timestamp).
End Release.

Module JobRecord.
Record t : Type := Mk {
  job_id : string; kind : string; subnet : string; pid : Z; gpu_uuid : string;
  container : string; started_at : string }.
Definition payload (j : t) : dict :=
  [("job_id", JStr j.(job_id)); ("kind", JStr j.(kind)); ("subnet", JStr j.(subnet));
   ("pid", JInt j.(pid)); ("gpu_uuid", JStr j.(gpu_uuid)); ("container", JStr j.(container));
   ("started_at", JStr j.(started_at))].
Definition from_payload (p : dict) : res t :=
  pid ← number "pid" 0 p;
  mret (Mk (get_str "job_id" p) (get_str "kind" p) (get_str_or "subnet" "" p) pid
    (get_str_or "gpu_uuid" "" p) (get_str_or "container" "" p) (get_str_or "started_at" "" p)).
End JobRecord.

(** ** Facts about the accepted forms *)

Lemma matches_nonce s : matches NONCE_PATTERN s ↔ slen s = 64%nat ∧ sforall is_hex s = true.
Proof. apply matches_rep_cls. Qed.

Lemma well_formed_nonce_spec s :
  well_formed_nonce s = true ↔
  ∃ t, (s = t ∨ s = t +:+ nls) ∧ slen t = 64%nat ∧ sforall is_hex t = true.
Proof.
  unfold well_formed_nonce. rewrite re_dollar_spec. setoid_rewrite matches_nonce. naive_solver.
Qed.

Lemma well_formed_digest_spec s :
  well_formed_digest s = true ↔
  ∃ t, (s = "sha256:" +:+ t ∨ s = "sha256:" +:+ t +:+ nls) ∧
       slen t = 64%nat ∧ sforall is_hex t = true.
Proof.
  unfold well_formed_digest. rewrite re_dollar_spec. unfold DIGEST_PATTERN.
  setoid_rewrite matches_cat. setoid_rewrite matches_lit. setoid_rewrite matches_rep_cls.
  split.
  - intros [(u & v & -> & -> & Hv)|(w & -> & u & v & -> & -> & Hv)]; exists v; [tauto|].
    split; [|done]. right. by rewrite app_assoc_s.
  - intros (t & [->| ->] & Ht); [left; by exists "sha256:", t|right].
    exists ("sha256:" +:+ t). split; [by rewrite app_assoc_s|]. by exists "sha256:", t.
Qed.

(** Stripping leaves no final newline. *)
Lemma rstrip_p_last f s c : rstrip_p f s ≠ "" → f c = true → ∀ t, rstrip_p f s ≠ t +:+ String c "".
Proof.
  intros Hne Hc. induction s as [|d s IH]; [done|]. simpl in *.
  destruct (rstrip_p f s) as [|e r] eqn:E.
  - destruct (f d) eqn:Hd; [done|]. intros t Ht.
    destruct t as [|x t]; cbn in Ht; [congruence|]. injection Ht as _ Ht. by destruct t.
  - intros t Ht. destruct t as [|x t]; cbn in Ht; [done|]. injection Ht as -> Ht. by eapply IH.
Qed.

Lemma strip_no_newline s t : strip s ≠ t +:+ nls.
Proof.
  unfold strip. destruct (rstrip_p is_space (lstrip_p is_space s)) eqn:E.
  - by destruct t.
  - rewrite <- E. apply rstrip_p_last; [by rewrite E|done].
Qed.

Lemma lower_char_newline c : lower_char c = nl → c = nl.
Proof.
  assert (Forall (λ n, lower_char (ascii_of_nat n) = nl → ascii_of_nat n = nl) (seq 0 256)) as Hall.
  { apply Forall_forall. intros n Hn. apply elem_of_seq in Hn as [_ Hn].
    do 256 (destruct n as [|n]; [vm_compute; congruence|]). lia. }
  rewrite Forall_forall in Hall. intros H. rewrite <- (ascii_nat_embedding c) in *.
  apply Hall; [|done]. apply elem_of_seq. pose proof (nat_ascii_bounded c). lia.
Qed.

Lemma lower_newline s t : lower s = t +:+ nls → ∃ u, s = u +:+ nls.
Proof.
  unfold lower. revert t. induction s as [|c s IH]; intros t; simpl; [by destruct t|].
  destruct t as [|d t]; simpl.
  - intros [= Hc Hs]. apply lower_char_newline in Hc as ->. destruct s; [|done]. by exists "".
  - intros [= _ Hs]. destruct (IH t Hs) as [u ->]. by exists (String c u).
Qed.

(** ** Properties *)

(** A session request read from the wire without problems carries a nonce of
    exactly 64 lowercase hexadecimal characters, a public key line without a
    newline, and a signature. *)
Lemma session_open_accepted p :
  let r := SessionOpen.from_payload p in
  SessionOpen.problems r = [] →
  slen (SessionOpen.nonce r) = 64%nat ∧ sforall is_hex (SessionOpen.nonce r) = true ∧
  contains nls (strip (SessionOpen.public_key r)) = false ∧ SessionOpen.signature r ≠ "".
Proof.
  intros r H. unfold SessionOpen.problems in H.
  apply app_eq_nil in H as [Hk H]. apply app_eq_nil in H as [Hn Hs].
  destruct (well_formed_public_key _) eqn:Ek; [|done]. clear Hk.
  destruct (well_formed_nonce _) eqn:En; [|done]. clear Hn.
  destruct (String.eqb_spec (SessionOpen.signature r) "") as [|Hsig]; [done|]. clear Hs.
  apply well_formed_nonce_spec in En as (t & Ht & Hlen & Hhex).
  assert (SessionOpen.nonce r = t) as ->.
  { destruct Ht as [|Ht]; [done|]. simpl in Ht. apply lower_newline in Ht as [u Hu].
    by apply strip_no_newline in Hu. }
  unfold well_formed_public_key in Ek. apply andb_true_iff in Ek as [Ek _].
  by apply negb_true_iff in Ek.
Qed.

(** Job records survive the wire unchanged. *)
Lemma job_record_roundtrip j : JobRecord.from_payload (JobRecord.payload j) = Ok j.
Proof.
  destruct j. unfold JobRecord.from_payload, number, get_int_or, get_str, get_str_or, getd. simpl.
  rewrite jor_int, !jor_str. done.
Qed.

(** A grant is read back as it was sent when the agent filled the port and the
    two paths (the reader's defaults replace only zero and the empty string). *)
Lemma session_grant_roundtrip (g : SessionGrant.t) :
  SessionGrant.ssh_port g ≠ 0%Z → SessionGrant.python_path g ≠ "" → SessionGrant.root_dir g ≠ "" →
  SessionGrant.from_payload (SessionGrant.payload g) = Ok g.
Proof.
  intros Hp Hpy Hr. destruct g. simpl in *.
  unfold SessionGrant.from_payload, get_int_or, get_str, get_str_or, getd, get_dict, getv. simpl.
  rewrite !jor_str, !jor_str_default by done.
  unfold jor at 1. simpl. destruct (Z.eqb_spec ssh_port 0); [done|]. simpl. done.
Qed.

Definition sample_open : dict :=
  [("public_key", JStr "ssh-ed25519 AAAA"); ("nonce", JStr (String.concat "" (repeat "AB" 32)));
   ("signature", JStr "00")].

Lemma session_open_accepted_witness :
  slen (SessionOpen.nonce (SessionOpen.from_payload sample_open)) = 64%nat.
Proof. apply (session_open_accepted sample_open). vm_compute. reflexivity. Defined.
