(* ===== verification/Attest.v ===== *)
(** * Attestations (protocol/attestation.py)

    The report data that binds an attestation to a session (a digest of the host
    key followed by the session nonce), and the evidence payloads. *)

From S2P Require Import Prelude.
From S2P Require Import PyStr.
From S2P Require Import PyRound.
From S2P Require Import PyFloat.
From S2P Require Import PyJson.
From S2P Require Import Sha256.
From S2P Require Import SessionProto.
From Stdlib Require Import Ascii String QArith.
Local Open Scope string_scope.

Definition HOST_KEY_PREFIX : string := "SSH_HOST_KEY:".
Definition REPORT_DATA_BYTES : nat := 64.

(** [bytes.fromhex(s)]: pairs of hex digits of either case, ASCII whitespace
    allowed between pairs; [None] is a [ValueError]. *)
Definition hex_val (c : ascii) : option Z :=
  if is_digit c then Some (code c - 48)%Z
  else if between 97 102 c then Some (code c - 87)%Z
  else if between 65 70 c then Some (code c - 55)%Z
  else None.

Fixpoint fromhex (s : string) : option (list Z) :=
  match s with
  | "" => Some []
  | String c s' =>
      if between 9 13 c || (code c =? 32)%Z then fromhex s'
      else match s' with
           | String d s'' =>
               h ← hex_val c; l ← hex_val d; rest ← fromhex s''; Some ((16 * h + l)%Z :: rest)
           | "" => None
           end
  end.

Definition report_data (host_key nonce_hex : string) : list Z :=
  let identity := bytes_of (sha256 (HOST_KEY_PREFIX +:+ encode (strip host_key))) in
  let freshness := default [] (fromhex nonce_hex) in
  let freshness := if decide (List.length freshness = 32%nat) then freshness else repeat 0%Z 32 in
  (identity ++ freshness)%list.

Definition report_data_matches (data : list Z) (host_key nonce_hex : string) : bool :=
  let expected := report_data host_key nonce_hex in
  (REPORT_DATA_BYTES <=? List.length data)%nat
  && bool_decide (take REPORT_DATA_BYTES data = expected).

Module GpuEvidence.
Record t : Type := Mk {
  uuid : string; model : string; memory_mb : Z; index : Z; serial : string;
  pci_bus_id : string; mig_mode : string; virtualization : string; driver : string;
  cuda : string }.
Definition payload (g : t) : dict :=
  [("uuid", JStr g.(uuid)); ("model", JStr g.(model)); ("memory_mb", JInt g.(memory_mb));
   ("index", JInt g.(index)); ("serial", JStr g.(serial)); ("pci_bus_id", JStr g.(pci_bus_id));
   ("mig_mode", JStr g.(mig_mode)); ("virtualization", JStr g.(virtualization));
   ("driver", JStr g.(driver)); ("cuda", JStr g.(cuda))].
Definition from_payload (p : dict) : res t :=
  memory_mb ← number "memory_mb" 0 p;
  index ← number "index" 0 p;
  mret (Mk (get_str "uuid" p) (get_str "model" p) memory_mb index (get_str_or "serial" "" p)
    (get_str_or "pci_bus_id" "" p) (get_str_or "mig_mode" "" p)
    (get_str_or "virtualization" "" p) (get_str_or "driver" "" p) (get_str_or "cuda" "" p)).
End GpuEvidence.

Module Attestation.
Record t : Type := Mk {
  nonce : string; agent_version : string; hostname : string; gpus : list GpuEvidence.t;
  driver : string; cuda : string; machine_id : string; boot_id : string; host_key : string;
  report_data_hex : string; tdx_quote : string; gpu_evidence : dict; generated_at : pyfloat }.
Definition payload (a : t) : dict :=
  [("nonce", JStr a.(nonce)); ("agent_version", JStr a.(agent_version));
   ("hostname", JStr a.(hostname));
   ("gpus", JList ((λ g, JDict (GpuEvidence.payload g)) <$> a.(gpus)));
   ("driver", JStr a.(driver)); ("cuda", JStr a.(cuda)); ("machine_id", JStr a.(machine_id));
   ("boot_id", JStr a.(boot_id)); ("host_key", JStr a.(host_key));
   ("report_data", JStr a.(report_data_hex)); ("tdx_quote", JStr a.(tdx_quote));
   ("gpu_evidence", JDict a.(gpu_evidence)); ("generated_at", JFloat a.(generated_at))].
(** [[GpuEvidence.from_payload(g) for g in raw if isinstance(g, dict)]] *)
Fixpoint read_gpus (l : list json) : res (list GpuEvidence.t) :=
  match l with
  | [] => mret []
  | JDict d :: l' => g ← GpuEvidence.from_payload d; gs ← read_gpus l'; mret (g :: gs)
  | _ :: l' => read_gpus l'
  end.
Definition from_payload (p : dict) : res t :=
  gpus ← match getv "gpus" p with JList l => read_gpus l | _ => mret [] end;
  generated_at ← real "generated_at" p;
  mret (Mk (get_str "nonce" p) (get_str "agent_version" p) (get_str "hostname" p) gpus
    (get_str_or "driver" "" p) (get_str_or "cuda" "" p) (get_str_or "machine_id" "" p)
    (get_str_or "boot_id" "" p) (get_str_or "host_key" "" p) (get_str_or "report_data" "" p)
    (get_str_or "tdx_quote" "" p) (get_dict "gpu_evidence" p) generated_at).
Definition bound_to (a : t) (n : string) : bool :=
  negb (String.eqb n "") && String.eqb a.(nonce) n.
End Attestation.

(** ** Properties *)

(** What [bytes.hex()] writes, [bytes.fromhex] reads. *)
Lemma fromhex_hex s : fromhex (hex s) = Some (bytes_of s).
Proof.
  induction s as [|c s IH]; [done|].
  assert (hex (String c s) = String (hex_digit (code c / 16)) (String (hex_digit (code c mod 16)) (hex s))) as -> by done.
  cbn [fromhex]. rewrite IH.
  assert (between 9 13 (hex_digit (code c / 16)) || (code (hex_digit (code c / 16)) =? 32)%Z = false
    ∧ (h ← hex_val (hex_digit (code c / 16)); l ← hex_val (hex_digit (code c mod 16)); Some (16 * h + l)%Z)
      = Some (code c)) as [-> Hc].
  { clear. destruct c as [[] [] [] [] [] [] [] []]; split; reflexivity. }
  destruct (hex_val (hex_digit (code c / 16))) as [h|]; [|done].
  destruct (hex_val (hex_digit (code c mod 16))) as [l|]; [|done]. cbn in Hc. injection Hc as Hc.
  cbn. by rewrite Hc.
Qed.

Lemma length_bytes_of s : List.length (bytes_of s) = slen s.
Proof. unfold bytes_of. rewrite length_fmap. unfold slen. induction s; csimpl; congruence. Qed.

Lemma report_data_length host_key nonce : List.length (report_data host_key nonce) = 64%nat.
Proof.
  unfold report_data. rewrite length_app, length_bytes_of, sha256_length.
  case_decide as Hd; [rewrite Hd; done|done].
Qed.

(** Report data is accepted exactly when its first 64 bytes are the digest of
    the host key followed by the 32 bytes of the session nonce, so a quote made
    for another key or another nonce of the right form is refused. *)
Lemma report_data_matches_iff data host_key nonce fresh :
  fromhex nonce = Some fresh → List.length fresh = 32%nat →
  report_data_matches data host_key nonce = true ↔
  ∃ rest, data = (bytes_of (sha256 (HOST_KEY_PREFIX +:+ encode (strip host_key)))
                  ++ fresh ++ rest)%list.
Proof.
  intros Hf Hl. unfold report_data_matches.
  assert (Hr : report_data host_key nonce =
    (bytes_of (sha256 (HOST_KEY_PREFIX +:+ encode (strip host_key))) ++ fresh)%list).
  { unfold report_data. rewrite Hf. simpl. by rewrite decide_True. }
  rewrite andb_true_iff, bool_decide_eq_true, Nat.leb_le. split.
  - intros [_ Ht]. exists (drop REPORT_DATA_BYTES data).
    rewrite app_assoc, <- Hr, <- Ht. by rewrite take_drop.
  - intros [rest ->]. rewrite app_assoc, <- Hr. pose proof (report_data_length host_key nonce) as Hn.
    rewrite length_app, Hn. unfold REPORT_DATA_BYTES. split; [lia|].
    rewrite <- Hn at 1. by rewrite take_app_length.
Qed.

Lemma gpu_evidence_roundtrip g : GpuEvidence.from_payload (GpuEvidence.payload g) = Ok g.
Proof.
  destruct g. unfold GpuEvidence.from_payload, number, get_int_or, get_str, get_str_or, getd. simpl.
  rewrite !jor_int, !jor_str. done.
Qed.

Lemma real_float k f d : dget k d = Some (JFloat f) → fwf f → real k d = Ok f.
Proof.
  intros H Hw. unfold real, get_float_or, getd. rewrite H. simpl. unfold jor. simpl.
  destruct f as [q| |]; simpl; try done. destruct (is_zero q) eqn:E; simpl; [|done].
  unfold is_zero in E. apply Qeq_bool_iff in E. destruct Hw as [Hq _].
  rewrite <- Hq, (Qred_complete _ _ E). done.
Qed.

(** An attestation survives the wire unchanged. *)
Lemma attestation_roundtrip a :
  fwf (Attestation.generated_at a) → Attestation.from_payload (Attestation.payload a) = Ok a.
Proof.
  intros Hw. destruct a as [n v h gpus dr cu mi bi hk rd tq ge ga].
  unfold Attestation.from_payload.
  assert (Hg : Attestation.read_gpus ((λ g, JDict (GpuEvidence.payload g)) <$> gpus) = Ok gpus).
  { induction gpus as [|g gs IH]; [done|]. rewrite fmap_cons. cbn [Attestation.read_gpus].
    rewrite gpu_evidence_roundtrip. simpl. by rewrite IH. }
  assert (Hf : real "generated_at" (Attestation.payload
    (Attestation.Mk n v h gpus dr cu mi bi hk rd tq ge ga)) = Ok ga) by (by apply real_float).
  rewrite Hf. unfold get_dict, getv, get_str, get_str_or, getd. simpl. rewrite Hg. simpl.
  by rewrite !jor_str.
Qed.

Lemma report_data_matches_iff_witness :
  report_data_matches (report_data "ssh-ed25519 AAAA" (String.concat "" (repeat "ab" 32)))
    "ssh-ed25519 AAAA" (String.concat "" (repeat "ab" 32)) = true.
Proof.
  apply (report_data_matches_iff _ _ _ (repeat 171%Z 32)).
  - vm_compute. reflexivity.
  - reflexivity.
  - exists []. vm_compute. reflexivity.
Defined.

Definition sample_attestation : Attestation.t :=
  Attestation.Mk "ab" "1.0" "host" [GpuEvidence.Mk "GPU-1" "NVIDIA L4" 23034 0 "" "" "" "" "570" "12"]
    "570" "12" "m" "b" "ssh-ed25519 AAAA" "00" "" [] (fz 100).

Lemma attestation_roundtrip_witness :
  Attestation.from_payload (Attestation.payload sample_attestation) = Ok sample_attestation.
Proof. apply attestation_roundtrip. apply (representable_Z 100). lia. Defined.
