(* ===== verification/Ip.v ===== *)
(** * Network addresses (agent/hardware/spec.py, agent/api/auth.py, validator/verify/scrape.py)

    Both programs ask [ipaddress] what an address is: the agent whether a request
    comes from its own machine and whether its address is a public one, the
    validator whether the address of a rig is public. *)

From Stdlib Require Import Ascii String.
From S2P Require Import Prelude.
From S2P Require Import PyStr.
From S2P Require Import PyText.
From S2P Require Import PyDump.
From S2P Require Import Attest.
Local Open Scope string_scope.
Local Open Scope list_scope.

(** ** [ipaddress.ip_address] *)

(** An IPv4 address: four decimal octets. *)
Definition octet (s : string) : option Z :=
  if String.eqb s "" || negb (sforall is_digit s) || (3 <? slen s)%nat
     || (startswith "0" s && negb (String.eqb s "0")) then None
  else v ← parse_int s; if (v <=? 255)%Z then Some v else None.

Definition ipv4 (address : string) : option Z :=
  match split_on "." address with
  | [a; b; c; d] =>
      a ← octet a; b ← octet b; c ← octet c; d ← octet d;
      Some (((a * 256 + b) * 256 + c) * 256 + d)%Z
  | _ => None
  end.

(** A group of an IPv6 address: one to four hex digits. *)
Definition hextet (s : string) : option Z :=
  if String.eqb s "" || (4 <? slen s)%nat then None
  else fold_left (λ acc c, a ← acc; v ← hex_val c; Some (16 * a + v)%Z) (list_ascii_of_string s) (Some 0%Z).

(** The parts between the colons: texts, and the two groups an IPv4 address at
    the end stands for. *)
Definition parts_of (s : string) : option (list (string + Z)) :=
  let parts := split_on ":" s in
  if (List.length parts <? 3)%nat then None
  else match List.rev parts with
       | last :: before =>
           if PyStr.contains "." last then
             v ← ipv4 last;
             Some ((inl <$> List.rev before) ++ [inr (Z.shiftr v 16); inr (Z.land v 0xFFFF)])
           else Some (inl <$> parts)
       | [] => None
       end.

Definition is_empty (p : string + Z) : bool := match p with inl s => String.eqb s "" | inr _ => false end.
Definition group (p : string + Z) : option Z := match p with inl s => hextet s | inr v => Some v end.

Fixpoint join_groups (acc : Z) (l : list (string + Z)) : option Z :=
  match l with
  | [] => Some acc
  | p :: l' => v ← group p; join_groups (Z.lor (Z.shiftl acc 16) v) l'
  end.

(** The positions of the empty parts, the first and the last apart. *)
Fixpoint holes (i : nat) (l : list (string + Z)) : list nat :=
  match l with
  | p :: ((_ :: _) as l') => (if is_empty p then [i] else []) ++ holes (S i) l'
  | _ => []
  end.

Definition ipv6_parts (parts : list (string + Z)) : option Z :=
  let n := List.length parts in
  let first_empty := match parts with p :: _ => is_empty p | [] => false end in
  let last_empty := match List.rev parts with p :: _ => is_empty p | [] => false end in
  if (9 <? n)%nat then None
  else match holes 1 (List.tail parts) with
       | [] =>
           if negb (n =? 8)%nat || first_empty || last_empty then None else join_groups 0 parts
       | [skip] =>
           let hi := if first_empty then (skip - 1)%nat else skip in
           let lo := if last_empty then (n - skip - 1 - 1)%nat else (n - skip - 1)%nat in
           if (first_empty && negb (hi =? 0)%nat) || (last_empty && negb (lo =? 0)%nat)
              || (8 <? hi + lo + 1)%nat then None
           else
             a ← join_groups 0 (take hi parts);
             join_groups (Z.shiftl a (16 * (8 - (Z.of_nat hi + Z.of_nat lo))))
               (drop (n - lo) parts)
       | _ => None
       end.

(** The scope id after a percent sign is split off first. *)
Definition ipv6 (address : string) : option Z :=
  if PyStr.contains "/" address then None
  else
    match partition_first "%" address with
    | Some (addr, scope) =>
        if String.eqb scope "" || PyStr.contains "%" scope then None
        else parts ← parts_of addr; ipv6_parts parts
    | None => parts ← parts_of address; ipv6_parts parts
    end.

Inductive ip : Type := V4 (n : Z) | V6 (n : Z).
(** [None] is [ValueError]. *)
Definition ip_address (s : string) : option ip :=
  match ipv4 s with
  | Some n => Some (V4 n)
  | None => V6 <$> ipv6 s
  end.

(** A network: its first address and the number of bits that are free. *)
Definition in_network (n : Z) (network : Z * Z) : bool :=
  (Z.shiftr n network.2 =? Z.shiftr network.1 network.2)%Z.

(** ** What the programs ask *)

Definition LOOPBACK : list string := ["127.0.0.1"; "::1"; "localhost"; "::ffff:127.0.0.1"].

(** An IPv4 address mapped into IPv6 is looked at as such (Python 3.12.4 on). *)
Definition is_loopback (host : string) : bool :=
  if String.eqb host "" then false
  else if bool_decide (host ∈ LOOPBACK) then true
  else match ip_address host with
       | Some (V4 n) => in_network n (127 * 2 ^ 24, 24)%Z
       | Some (V6 n) => if (Z.shiftr n 32 =? 0xFFFF)%Z then in_network (Z.land n 0xFFFFFFFF) (127 * 2 ^ 24, 24)%Z
                        else (n =? 1)%Z
       | None => false
       end.

(** The networks the validator takes as private, and those of the agent. *)
Definition PRIVATE_NETWORKS : list (Z * Z) :=
  [(10 * 2 ^ 24, 24); (172 * 2 ^ 24 + 16 * 2 ^ 16, 20); (192 * 2 ^ 24 + 168 * 2 ^ 16, 16);
   (100 * 2 ^ 24 + 64 * 2 ^ 16, 22); (127 * 2 ^ 24, 24); (169 * 2 ^ 24 + 254 * 2 ^ 16, 16)]%Z.
Definition PRIVATE : list (Z * Z) := PRIVATE_NETWORKS ++ [(0, 24)]%Z.

Definition is_public_in (private : list (Z * Z)) (address : string) : bool :=
  match ip_address address with
  | Some (V4 n) => negb (existsb (in_network n) private)
  | _ => false
  end.
(** [validator/verify/scrape.py] and [agent/hardware/spec.py] *)
Definition is_public (address : string) : bool := is_public_in PRIVATE_NETWORKS address.
Definition is_public_to_agent (address : string) : bool := is_public_in PRIVATE address.

(** ** Facts *)

Definition digit_of (k : nat) : ascii := ascii_of_nat (48 + k).
Lemma digit_known c : is_digit c = true → ∃ k, (k < 10)%nat ∧ c = digit_of k.
Proof.
  intros H. exists (Z.to_nat (code c - 48)). revert H.
  destruct c as [[] [] [] [] [] [] [] []]; vm_compute; try discriminate; intros _; (split; [lia|reflexivity]).
Qed.

(** The octets of one, two and three digits, by trying them all. *)
Definition octet_ok (s : string) : bool :=
  match octet s with Some v => String.eqb s (str_of_Z v) && (0 <=? v)%Z && (v <=? 255)%Z | None => true end.
Definition all_digits (f : ascii → bool) : bool := forallb (λ k, f (digit_of k)) (seq 0 10).
Lemma all_digits_spec f c : all_digits f = true → is_digit c = true → f c = true.
Proof.
  intros Hf (k & Hk & ->)%digit_known. unfold all_digits in Hf. rewrite forallb_forall in Hf.
  apply Hf, in_seq. lia.
Qed.

Lemma octet_exact s v : octet s = Some v ↔ (0 <= v <= 255)%Z ∧ s = str_of_Z v.
Proof.
  split.
  - intros E. assert (octet_ok s = true) as Hok.
    { unfold octet in E. destruct s as [|a s]; [done|].
      destruct (sforall is_digit (String a s)) eqn:Ed; [|done].
      cbn in Ed. apply andb_true_iff in Ed as [Ha Ed].
      destruct s as [|b s].
      { apply (all_digits_spec (λ a, octet_ok (String a ""))); [vm_compute; reflexivity|done]. }
      cbn in Ed. apply andb_true_iff in Ed as [Hb Ed]. destruct s as [|c s].
      { apply (all_digits_spec (λ b, octet_ok (String a (String b "")))); [|done].
        apply (all_digits_spec (λ a, all_digits (λ b, octet_ok (String a (String b ""))))); [|done].
        vm_compute. reflexivity. }
      cbn in Ed. apply andb_true_iff in Ed as [Hc Ed]. destruct s as [|d s].
      { apply (all_digits_spec (λ c, octet_ok (String a (String b (String c ""))))); [|done].
        apply (all_digits_spec (λ b, all_digits (λ c, octet_ok (String a (String b (String c "")))))); [|done].
        apply (all_digits_spec (λ a, all_digits (λ b, all_digits (λ c, octet_ok (String a (String b (String c ""))))))); [|done].
        vm_compute. reflexivity. }
      replace (3 <? slen _)%nat with true in E by (symmetry; apply Nat.ltb_lt; unfold slen; cbn; lia).
      by rewrite orb_true_r in E. }
    unfold octet_ok in Hok. rewrite E in Hok.
    apply andb_true_iff in Hok as [[Hs H0]%andb_true_iff H1]. apply String.eqb_eq in Hs. by split; [lia|].
  - intros [Hv ->]. assert (∃ k, (k < 256)%nat ∧ v = Z.of_nat k) as (k & Hk & ->).
    { exists (Z.to_nat v). lia. }
    assert (forallb (λ k, bool_decide (octet (str_of_Z (Z.of_nat k)) = Some (Z.of_nat k))) (seq 0 256) = true) as Hall
      by (vm_compute; reflexivity).
    rewrite forallb_forall in Hall. apply (bool_decide_eq_true_1 _), Hall, in_seq. lia.
Qed.

Definition dotted (a b c d : Z) : string :=
  str_of_Z a +:+ "." +:+ str_of_Z b +:+ "." +:+ str_of_Z c +:+ "." +:+ str_of_Z d.
Definition number (a b c d : Z) : Z := (((a * 256 + b) * 256 + c) * 256 + d)%Z.
Definition is_octet (v : Z) : Prop := (0 <= v <= 255)%Z.

Lemma no_dot z : (0 <= z)%Z → contains "." (str_of_Z z) = false.
Proof.
  intros Hz. apply str_of_Z_digits in Hz. revert Hz. generalize (str_of_Z z). intros s.
  induction s as [|c s IH]; [done|]. cbn [sforall]. intros [Hc Hs]%andb_true_iff.
  rewrite contains_step, IH by done. destruct (ascii_dec "."%char c) as [<-|]; [done|done].
Qed.

(** An IPv4 address is read exactly from its four octets in decimal, and only
    from that text: no sign, no space, no leading zero. *)
Lemma ipv4_exact s n :
  ipv4 s = Some n ↔ ∃ a b c d, is_octet a ∧ is_octet b ∧ is_octet c ∧ is_octet d ∧
                      s = dotted a b c d ∧ n = number a b c d.
Proof.
  unfold ipv4, is_octet. split.
  - intros H. destruct (split_on "." s) as [|p1 [|p2 [|p3 [|p4 [|]]]]] eqn:Es; try done.
    apply split_on_cons in Es as (_ & r1 & -> & (_ & r2 & -> & (_ & r3 & -> & (_ & ->)%split_on_cons)%split_on_cons)%split_on_cons).
    destruct (octet p1) as [a|] eqn:Ea; [|done]. destruct (octet p2) as [b|] eqn:Eb; [|done].
    destruct (octet p3) as [c|] eqn:Ec; [|done]. destruct (octet p4) as [d|] eqn:Ed; [|done].
    apply octet_exact in Ea as [? ->], Eb as [? ->], Ec as [? ->], Ed as [? ->].
    injection H as <-. exists a, b, c, d. split_and!; (lia || reflexivity).
  - intros (a & b & c & d & Ha & Hb & Hc & Hd & -> & ->). unfold dotted.
    rewrite !split_on_app, split_on_free by (apply no_dot; lia).
    assert (octet (str_of_Z a) = Some a) as -> by (by apply octet_exact).
    assert (octet (str_of_Z b) = Some b) as -> by (by apply octet_exact).
    assert (octet (str_of_Z c) = Some c) as -> by (by apply octet_exact).
    assert (octet (str_of_Z d) = Some d) as -> by (by apply octet_exact).
    reflexivity.
Qed.

Lemma in_network_range n first free : (0 <= free)%Z → (0 <= n)%Z → (first mod 2 ^ free = 0)%Z →
  in_network n (first, free) = true ↔ (first <= n < first + 2 ^ free)%Z.
Proof.
  intros Hf Hn Hz. unfold in_network. cbn [fst snd]. rewrite Z.eqb_eq, !Z.shiftr_div_pow2 by done.
  pose proof (Z.pow_pos_nonneg 2 free ltac:(lia) Hf) as Hp.
  pose proof (Z.div_mod first (2 ^ free) ltac:(lia)). pose proof (Z.div_mod n (2 ^ free) ltac:(lia)).
  pose proof (Z.mod_pos_bound n (2 ^ free) Hp). split; [intros E; nia|intros E].
  symmetry. apply Z.div_unique with (n - first)%Z; nia.
Qed.

(** The octets of the addresses the agent takes as not public. *)
Definition private_octets (a b : Z) : Prop :=
  a = 0%Z ∨ a = 10%Z ∨ a = 127%Z ∨ (a = 100 ∧ 64 <= b < 128)%Z ∨ (a = 169 ∧ b = 254)%Z
  ∨ (a = 172 ∧ 16 <= b < 32)%Z ∨ (a = 192 ∧ b = 168)%Z.

Lemma private_spec a b c d : is_octet a → is_octet b → is_octet c → is_octet d →
  existsb (in_network (number a b c d)) PRIVATE = true ↔ private_octets a b.
Proof.
  unfold is_octet, private_octets, number. intros Ha Hb Hc Hd. unfold PRIVATE, PRIVATE_NETWORKS.
  cbn [app existsb]. rewrite !orb_true_iff, !in_network_range by (done || lia || reflexivity).
  split; lia.
Qed.

(** C35. An address the agent reports as public is an IPv4 address outside the
    private ranges, written in the usual way, and every such address is. *)
Theorem public_exact s :
  is_public_to_agent s = true ↔ ∃ a b c d, is_octet a ∧ is_octet b ∧ is_octet c ∧ is_octet d ∧
                                  s = dotted a b c d ∧ ¬ private_octets a b.
Proof.
  unfold is_public_to_agent, is_public_in, ip_address. destruct (ipv4 s) as [n|] eqn:E.
  - apply ipv4_exact in E as (a & b & c & d & Ha & Hb & Hc & Hd & -> & ->).
    rewrite negb_true_iff, <- not_true_iff_false, private_spec by done. split.
    + intros H. by exists a, b, c, d.
    + intros (a' & b' & c' & d' & Ha' & Hb' & Hc' & Hd' & Es & H).
      assert (ipv4 (dotted a b c d) = Some (number a' b' c' d')) as E
        by (apply ipv4_exact; rewrite Es; by exists a', b', c', d').
      assert (ipv4 (dotted a b c d) = Some (number a b c d)) as E'
        by (apply ipv4_exact; by exists a, b, c, d).
      rewrite E in E'. injection E' as E'. unfold number, is_octet in *.
      assert (a' = a ∧ b' = b) as [-> ->] by lia. done.
  - destruct (ipv6 s); cbn; (split; [done|]); intros (a & b & c & d & Ha & Hb & Hc & Hd & -> & _).
    all: assert (ipv4 (dotted a b c d) = Some (number a b c d)) as E'
           by (apply ipv4_exact; by exists a, b, c, d); congruence.
Qed.

(** The validator's list of private networks lacks 0.0.0.0/8, which the agent's
    has: on every other address the two agree. *)
Lemma public_lists_differ s :
  is_public s = true ↔ is_public_to_agent s = true ∨ ∃ b c d, is_octet b ∧ is_octet c ∧ is_octet d ∧ s = dotted 0 b c d.
Proof.
  unfold is_public, is_public_to_agent, is_public_in, ip_address. destruct (ipv4 s) as [n|] eqn:E.
  - apply ipv4_exact in E as (a & b & c & d & Ha & Hb & Hc & Hd & -> & ->).
    unfold PRIVATE. rewrite existsb_app, negb_orb, andb_true_iff, !negb_true_iff.
    unfold PRIVATE_NETWORKS. cbn [existsb]. rewrite orb_false_r, <- !not_true_iff_false.
    rewrite !orb_true_iff, !in_network_range
      by (unfold number, is_octet in *; lia || reflexivity).
    split.
    + intros H. destruct (decide (a = 0)%Z) as [->|]; [right; by exists b, c, d|].
      left. split; [exact H|]. unfold number, is_octet in *. lia.
    + intros [[H _]|(b' & c' & d' & Hb' & Hc' & Hd' & Es)]; [exact H|].
      assert (ipv4 (dotted a b c d) = Some (number 0 b' c' d')) as E
        by (apply ipv4_exact; rewrite Es; exists 0%Z, b', c', d'; split_and!; (done || lia)).
      assert (ipv4 (dotted a b c d) = Some (number a b c d)) as E'
        by (apply ipv4_exact; by exists a, b, c, d).
      rewrite E in E'. injection E' as E'. unfold number, is_octet in *. lia.
  - assert (∀ b c d, is_octet b → is_octet c → is_octet d → s ≠ dotted 0 b c d) as Hno.
    { intros b c d Hb Hc Hd ->.
      assert (ipv4 (dotted 0 b c d) = Some (number 0 b c d)) as E'
        by (apply ipv4_exact; exists 0%Z, b, c, d; split_and!; (done || lia)). congruence. }
    destruct (ipv6 s); cbn; (split; [done|]); intros [?|(b & c & d & Hb & Hc & Hd & Es)]; try done.
    all: by destruct (Hno b c d).
Qed.

Example addresses :
  ip_address "192.168.1.7" = Some (V4 3232235783) ∧ ip_address "1.2.3.04" = None ∧
  ip_address "::1" = Some (V6 1) ∧ ip_address "2001:db8::8:800:200c:417a" = Some (V6 0x20010db80000000000080800200c417a) ∧
  ip_address "::ffff:1.2.3.4" = Some (V6 0xffff01020304) ∧ ip_address "1::2::3" = None ∧ ip_address ":1" = None ∧
  ip_address "fe80::1%eth0" = Some (V6 0xfe800000000000000000000000000001) ∧ ip_address "::" = Some (V6 0) ∧
  ip_address "1:2:3:4:5:6:7:8" = Some (V6 0x00010002000300040005000600070008) ∧ ip_address "1::" = Some (V6 (2 ^ 112)) ∧
  ip_address "1:2:3:4:5:6:7:8:" = None ∧ ip_address "12345::" = None.
Proof. vm_compute. by split_and!. Qed.
