(* ===== verification/Tiers.v ===== *)
(** * Tiers and eligibility (validator/data/tiers.py)

    The memory tiers, the kinds of work with their priority, the minimums each
    kind demands of a rig, and the reasons a rig falls short of them. *)

From Stdlib Require Import Ascii String QArith.
From S2P Require Import Prelude.
From S2P Require Import PyStr.
From S2P Require Import PyRound.
From S2P Require Import PyFloat.
From S2P Require Import PyJson.
Local Open Scope string_scope.
Local Open Scope list_scope.

Inductive Tier : Type := ENTRY | STANDARD | PROFESSIONAL | FLAGSHIP.

#[export] Instance Tier_eq_dec : EqDecision Tier.
Proof. solve_decision. Defined.

Definition tier_value (t : Tier) : string :=
  match t with
  | ENTRY => "entry" | STANDARD => "standard" | PROFESSIONAL => "professional"
  | FLAGSHIP => "flagship"
  end.

Definition TIER_ORDER : list Tier := [ENTRY; STANDARD; PROFESSIONAL; FLAGSHIP].

(** [Tier(text)]; [None] is the [ValueError]. *)
Definition tier_of_text (text : string) : option Tier :=
  List.find (λ t, String.eqb text (tier_value t)) TIER_ORDER.

Definition TIER_MEMORY_GB (t : Tier) : Z * option Z :=
  match t with
  | ENTRY => (8, Some 16)
  | STANDARD => (20, Some 24)
  | PROFESSIONAL => (32, Some 48)
  | FLAGSHIP => (80, None)
  end%Z.

Definition FEE_MULTIPLIER (t : Tier) : Z :=
  match t with ENTRY => 1 | STANDARD => 2 | PROFESSIONAL => 3 | FLAGSHIP => 4 end.

Definition tier_for_memory_gb (nominal_gb : pyfloat) : option Tier :=
  if fle (fz 80) nominal_gb then Some FLAGSHIP
  else if fle (fz 32) nominal_gb then Some PROFESSIONAL
  else if fle (fz 20) nominal_gb then Some STANDARD
  else if fle (fz 8) nominal_gb then Some ENTRY
  else None.

Fixpoint tier_index (t : Tier) (l : list Tier) : nat :=
  match l with [] => 0 | x :: l' => if decide (x = t) then 0 else S (tier_index t l') end.

Definition tier_at_least (tier floor : Tier) : bool :=
  (tier_index floor TIER_ORDER <=? tier_index tier TIER_ORDER)%nat.

Inductive WorkKind : Type := RENTAL | INFERENCE | SHAPING | MINING.

#[export] Instance WorkKind_eq_dec : EqDecision WorkKind.
Proof. solve_decision. Defined.

Definition kind_value (k : WorkKind) : string :=
  match k with
  | RENTAL => "rental" | INFERENCE => "inference" | SHAPING => "shaping" | MINING => "mining"
  end.

Definition PRIORITY : list WorkKind := [RENTAL; INFERENCE; SHAPING; MINING].

Record Minimums : Type := MkMinimums {
  mtier : Tier; mvram_gb : Z; ram_ratio : pyfloat; mdisk_gb : Z; mcpu_cores : Z;
  isolation : bool; quotas : bool; mpublic_ipv4 : bool; port_range : bool; mbandwidth_mbps : Z }.

Definition MINIMUMS (k : WorkKind) : Minimums :=
  match k with
  | INFERENCE => MkMinimums ENTRY 8 (fz 1) 180 4 false false false false 0
  | SHAPING => MkMinimums STANDARD 24 (flit (15 # 10)) 500 8 false false false false 200
  | RENTAL => MkMinimums STANDARD 24 (fz 2) 1000 8 true true true true 200
  | MINING => MkMinimums ENTRY 8 (fz 1) 180 4 false false false false 0
  end.

Definition MIN_KERNEL : Z * Z := (5, 19)%Z.
Definition MIN_DISK_GB : Z := 180.
Definition SUPPORTED_OS : list (string * string) := [("ubuntu", "22.04"); ("ubuntu", "24.04")].
Definition SUPPORTED_ARCH : string := "x86_64".

Record Profile : Type := MkProfile {
  gpu_model : string; gpu_count : Z; vram_gb : pyfloat; tier : option Tier; ram_gb : pyfloat;
  disk_gb : pyfloat; disk_ssd : bool; cpu_cores : Z; isolation_ok : bool; quotas_ok : bool;
  public_ipv4 : bool; port_range_ok : bool; bandwidth_mbps : pyfloat; kernel : Z * Z;
  arch : string; os_id : string; os_version : string }.

(** [vram_gb * max(gpu_count, 0)] *)
Definition total_vram_gb (p : Profile) : res pyfloat :=
  n ← float_of_int (Z.max p.(gpu_count) 0); mret (fmul p.(vram_gb) n).

(** [a < b] on pairs of ints *)
Definition pair_lt (a b : Z * Z) : bool :=
  ((a.1 <? b.1) || ((a.1 =? b.1) && (a.2 <? b.2)))%Z.

Definition host_reasons (p : Profile) : list string :=
  (if decide ((lower p.(os_id), p.(os_version)) ∈ SUPPORTED_OS) then []
   else ["operating system " +:+ p.(os_id) +:+ " " +:+ p.(os_version)
         +:+ " is not Ubuntu 22.04 or 24.04"]) ++
  (if pair_lt p.(kernel) MIN_KERNEL
   then ["kernel " +:+ str_of_Z p.(kernel).1 +:+ "." +:+ str_of_Z p.(kernel).2 +:+ " is below 5.19"]
   else []) ++
  (if negb (String.eqb p.(arch) SUPPORTED_ARCH)
   then ["architecture " +:+ p.(arch) +:+ " is not x86_64"] else []) ++
  (if flt p.(disk_gb) (fz MIN_DISK_GB)
   then ["disk " +:+ format_fixed 0 p.(disk_gb) +:+ " GB is below 180 GB"] else []) ++
  (if negb p.(disk_ssd) then ["disk is not solid state"] else []) ++
  (if negb p.(public_ipv4)
   then ["no public IPv4 address without carrier grade translation"] else []) ++
  (match p.(tier) with
   | None => [p.(gpu_model) +:+ " with " +:+ format_fixed 0 p.(vram_gb)
              +:+ " GB is below the entry tier"]
   | Some _ => []
   end).

Definition work_reasons (p : Profile) (k : WorkKind) : res (list string) :=
  let need := MINIMUMS k in
  total ← total_vram_gb p;
  mret (
    (if match p.(tier) with None => true | Some t => negb (tier_at_least t need.(mtier)) end
     then [tier_value need.(mtier) +:+ " tier or above required"] else []) ++
    (if flt p.(vram_gb) (fz need.(mvram_gb))
     then [str_of_Z need.(mvram_gb) +:+ " GB of video memory per card required"] else []) ++
    (if flt p.(ram_gb) (fmul need.(ram_ratio) total)
     then ["system memory must be at least " +:+ format_g need.(ram_ratio)
           +:+ "x total video memory"] else []) ++
    (if flt p.(disk_gb) (fz need.(mdisk_gb))
     then [str_of_Z need.(mdisk_gb) +:+ " GB of solid state disk required"] else []) ++
    (if (p.(cpu_cores) <? need.(mcpu_cores))%Z
     then [str_of_Z need.(mcpu_cores) +:+ " CPU cores required"] else []) ++
    (if need.(isolation) && negb p.(isolation_ok)
     then ["container isolation not active"] else []) ++
    (if need.(quotas) && negb p.(quotas_ok)
     then ["storage driver cannot enforce per container quotas"] else []) ++
    (if need.(mpublic_ipv4) && negb p.(public_ipv4)
     then ["public routable address required"] else []) ++
    (if need.(port_range) && negb p.(port_range_ok)
     then ["reserved port range required"] else []) ++
    (if negb (need.(mbandwidth_mbps) =? 0)%Z && flt p.(bandwidth_mbps) (fz need.(mbandwidth_mbps))
     then ["sustained bandwidth of " +:+ str_of_Z need.(mbandwidth_mbps) +:+ " Mbps required"]
     else [])).

Definition eligibility (p : Profile) (rental_opted_out : bool)
    : res (list (WorkKind * list string)) :=
  mapM (λ k, reasons ← work_reasons p k;
             mret (k, if bool_decide (k = RENTAL) && rental_opted_out
                      then reasons ++ ["rental declined by the owner"] else reasons)) PRIORITY.

Definition is_nil {A} (l : list A) : bool := match l with [] => true | _ => false end.

Definition eligible_kinds (p : Profile) (rental_opted_out : bool) : res (list WorkKind) :=
  table ← eligibility p rental_opted_out;
  mret (fst <$> List.filter (λ kr, is_nil kr.2) table).

(** [f"{text:<10}"] *)
Fixpoint ljust (n : nat) (s : string) : string :=
  match n, s with
  | O, _ => s
  | S n', String c s' => String c (ljust n' s')
  | S n', "" => String " " (ljust n' "")
  end.

Definition render (p : Profile) (rental_opted_out : bool) : res (list string) :=
  table ← eligibility p rental_opted_out;
  mret (table ≫= λ kr,
    (ljust 10 (kind_value kr.1) +:+ " " +:+ (if is_nil kr.2 then "eligible" else "not eligible"))
    :: ((λ r, "           " +:+ r) <$> kr.2)).

(** ** Facts *)

Lemma app_nil_iff {A} (l m : list A) : l ++ m = [] ↔ l = [] ∧ m = [].
Proof. split; [apply app_eq_nil|by intros [-> ->]]. Qed.

Lemma if_nil {A} (b : bool) (x : A) : (if b then [x] else []) = [] ↔ b = false.
Proof. by destruct b. Qed.

Lemma tier_at_least_trans a b c :
  tier_at_least a b = true → tier_at_least b c = true → tier_at_least a c = true.
Proof. unfold tier_at_least. rewrite !Nat.leb_le. lia. Qed.

(** What a rig must satisfy for a kind of work, as a proposition. *)
Definition meets (p : Profile) (total : pyfloat) (k : WorkKind) : Prop :=
  let need := MINIMUMS k in
  (∃ t, p.(tier) = Some t ∧ tier_at_least t need.(mtier) = true) ∧
  flt p.(vram_gb) (fz need.(mvram_gb)) = false ∧
  flt p.(ram_gb) (fmul need.(ram_ratio) total) = false ∧
  flt p.(disk_gb) (fz need.(mdisk_gb)) = false ∧
  (need.(mcpu_cores) <= p.(cpu_cores))%Z ∧
  (need.(isolation) = true → p.(isolation_ok) = true) ∧
  (need.(quotas) = true → p.(quotas_ok) = true) ∧
  (need.(mpublic_ipv4) = true → p.(public_ipv4) = true) ∧
  (need.(port_range) = true → p.(port_range_ok) = true) ∧
  (need.(mbandwidth_mbps) ≠ 0%Z → flt p.(bandwidth_mbps) (fz need.(mbandwidth_mbps)) = false).

Lemma implb_neg a b : a && negb b = false ↔ (a = true → b = true).
Proof. destruct a, b; simpl; naive_solver. Qed.

Lemma work_reasons_meets p k total :
  total_vram_gb p = Ok total → (work_reasons p k = Ok [] ↔ meets p total k).
Proof.
  intros Ht. unfold work_reasons, meets. rewrite Ht. simpl.
  split.
  - intros [= H]. rewrite !app_nil_iff, !if_nil, !implb_neg in H.
    destruct H as (H1 & H2 & H3 & H4 & H5 & H6 & H7 & H8 & H9 & H10).
    split_and!; try done.
    + destruct (tier p) as [t|]; [|done]. exists t. by rewrite negb_false_iff in H1.
    + by apply Z.ltb_ge in H5.
    + intros Hb. destruct (Z.eqb_spec (mbandwidth_mbps (MINIMUMS k)) 0); [done|]. done.
  - intros ((t & Hti & H1) & H2 & H3 & H4 & H5 & H6 & H7 & H8 & H9 & H10). f_equal.
    rewrite !app_nil_iff, !if_nil, !implb_neg. rewrite Hti, H1. split_and!; try done.
    + by apply Z.ltb_ge.
    + destruct (Z.eqb_spec (mbandwidth_mbps (MINIMUMS k)) 0); [done|]. by apply H10.
Qed.

Lemma work_reasons_ok p k total :
  total_vram_gb p = Ok total → ∃ l, work_reasons p k = Ok l ∧ (is_nil l = true ↔ meets p total k).
Proof.
  intros Ht. destruct (work_reasons p k) as [l|e] eqn:E.
  - exists l. split; [done|]. rewrite <- (work_reasons_meets p k total Ht), E.
    destruct l; simpl; naive_solver.
  - unfold work_reasons in E. by rewrite Ht in E.
Qed.

Lemma elem_of_filter_fst (f : list string → bool) (l : list (WorkKind * list string)) k :
  k ∈ (List.filter (λ kr, f kr.2) l).*1 ↔ ∃ r, (k, r) ∈ l ∧ f r = true.
Proof.
  rewrite list_elem_of_fmap. setoid_rewrite list_elem_of_In. setoid_rewrite filter_In. split.
  - intros ([k' r] & -> & Hin & Hf). eauto.
  - intros (r & Hin & Hf). by exists (k, r).
Qed.

Lemma eligible_kinds_iff p opt total :
  total_vram_gb p = Ok total →
  ∃ ks, eligible_kinds p opt = Ok ks ∧
        ∀ k, k ∈ ks ↔ meets p total k ∧ (k = RENTAL → opt = false).
Proof.
  intros Ht.
  destruct (work_reasons_ok p RENTAL total Ht) as (l1 & E1 & H1).
  destruct (work_reasons_ok p INFERENCE total Ht) as (l2 & E2 & H2).
  destruct (work_reasons_ok p SHAPING total Ht) as (l3 & E3 & H3).
  destruct (work_reasons_ok p MINING total Ht) as (l4 & E4 & H4).
  assert (He : eligibility p opt =
    Ok [(RENTAL, if opt then l1 ++ ["rental declined by the owner"] else l1);
        (INFERENCE, l2); (SHAPING, l3); (MINING, l4)]).
  { unfold eligibility, PRIORITY. simpl. by rewrite E1, E2, E3, E4. }
  unfold eligible_kinds. rewrite He. unfold mbind, res_bind, mret, res_ret.
  eexists. split; [reflexivity|]. intros k. rewrite (elem_of_filter_fst is_nil).
  assert (Hr : is_nil (if opt then l1 ++ ["rental declined by the owner"] else l1) = true ↔
               meets p total RENTAL ∧ opt = false).
  { destruct opt; rewrite <- H1; destruct l1; simpl; naive_solver. }
  destruct k; split.
  all: try (intros (r & Hin & Hf); set_unfold in Hin; naive_solver).
  - intros [Hm Ho]. eexists. split; [left|]. apply Hr. auto.
  - intros [Hm _]. exists l2. split; [set_solver|]. by apply H2.
  - intros [Hm _]. exists l3. split; [set_solver|]. by apply H3.
  - intros [Hm _]. exists l4. split; [set_solver|]. by apply H4.
Qed.

Lemma fmul_ratio_mono (r : pyfloat) (a b : Q) (t : pyfloat) :
  (a <= b → 0 < a → flt (fz 0) t = true ∨ t = fz 0 →
  flt r (fmul (FFin b) t) = false → flt r (fmul (FFin a) t) = false)%Q.
Proof.
  intros Hab Ha Ht. assert (Hz : ∀ q, (0 < q)%Q → is_zero q = false ∧ sgn_neg q = false).
  { intros q Hq. unfold is_zero, sgn_neg. split; apply not_true_iff_false.
    - rewrite Qeq_bool_iff. intros H. rewrite H in Hq. by apply Qlt_irrefl in Hq.
    - rewrite Qle_bool_iff. by apply Qlt_not_le. }
  assert (Hb : (0 < b)%Q) by (eapply Qlt_le_trans; eauto).
  destruct t as [q|s|]; simpl.
  - apply flt_rnd_mono. apply Qmult_le_compat_r; [done|].
    destruct Ht as [Ht|[= ->]]; [|discriminate]. apply flt_FFin in Ht. by apply Qlt_le_weak.
  - destruct (Hz a Ha) as [-> ->], (Hz b Hb) as [-> ->]. done.
  - done.
Qed.

Lemma flt_le_trans_false x a b :
  (inject_Z a <= inject_Z b)%Q → flt x (fz b) = false → flt x (fz a) = false.
Proof.
  intros Hab. destruct x as [q|[]|]; simpl; try done.
  rewrite !negb_false_iff, !Qle_bool_iff. intros. by eapply Qle_trans.
Qed.

Lemma meets_ladder p total :
  flt (fz 0) total = true ∨ total = fz 0 →
  (meets p total RENTAL → meets p total SHAPING) ∧
  (meets p total SHAPING → meets p total INFERENCE ∧ meets p total MINING).
Proof.
  intros Ht.
  assert (Hr : ∀ r, flt r (fmul (fz 2) total) = false → flt r (fmul (flit (15 # 10)) total) = false).
  { intros r. change (flit (15 # 10)) with (FFin (3 # 2)).
    apply fmul_ratio_mono; done. }
  assert (Hs : ∀ r, flt r (fmul (flit (15 # 10)) total) = false → flt r (fmul (fz 1) total) = false).
  { intros r. change (flit (15 # 10)) with (FFin (3 # 2)). apply fmul_ratio_mono; done. }
  unfold meets; simpl. split.
  - intros (Hti & Hv & Hm & Hd & Hc & _ & _ & _ & _ & Hb). split_and!; try done; auto.
    by apply (flt_le_trans_false _ 500 1000).
  - intros ((t & Hti & Htt) & Hv & Hm & Hd & Hc & _ & _ & _ & _ & Hb).
    assert (tier_at_least t ENTRY = true) by (by eapply tier_at_least_trans).
    split; (split_and!; [by exists t|by apply (flt_le_trans_false _ 8 24)|by auto
      |by apply (flt_le_trans_false _ 180 500)|lia|done|done|done|done|done]).
Qed.

(** ** Properties *)

(** Eligibility is capability: the eligible kinds are exactly those whose every
    minimum the rig meets (and rental only if the owner did not decline it). *)
Lemma eligible_kinds_spec p opt total :
  total_vram_gb p = Ok total →
  ∃ ks, eligible_kinds p opt = Ok ks ∧
        ∀ k, k ∈ ks ↔ meets p total k ∧ (k = RENTAL → opt = false).
Proof. apply eligible_kinds_iff. Qed.

(** The ladder of minimums: a rig eligible for rental is eligible for model
    shaping, and one eligible for shaping is eligible for inference and mining
    (for a rig whose total video memory is not negative). *)
Lemma eligibility_ladder p opt total ks :
  total_vram_gb p = Ok total → flt (fz 0) total = true ∨ total = fz 0 →
  eligible_kinds p opt = Ok ks →
  (RENTAL ∈ ks → SHAPING ∈ ks) ∧ (SHAPING ∈ ks → INFERENCE ∈ ks ∧ MINING ∈ ks).
Proof.
  intros Ht Hpos Hks. destruct (eligible_kinds_iff p opt total Ht) as (ks' & Hks' & Hin).
  rewrite Hks in Hks'. apply Ok_inj in Hks' as <-. rewrite !Hin.
  destruct (meets_ladder p total Hpos) as [H1 H2]. split.
  - intros [Hr _]. split; [by apply H1|done].
  - intros [Hs _]. destruct (H2 Hs). done.
Qed.

Definition sample_profile : Profile :=
  MkProfile "NVIDIA L4" 1 (fz 24) (Some STANDARD) (fz 64) (fz 1000) true 16 true true true true
    (fz 500) (6, 8)%Z "x86_64" "ubuntu" "24.04".

Lemma eligible_kinds_spec_witness :
  ∃ ks, eligible_kinds sample_profile false = Ok ks ∧
        ∀ k, k ∈ ks ↔ meets sample_profile (fz 24) k ∧ (k = RENTAL → false = false).
Proof. apply eligible_kinds_spec. vm_compute. reflexivity. Defined.

Lemma eligibility_ladder_witness : SHAPING ∈ [RENTAL; INFERENCE; SHAPING; MINING].
Proof.
  apply (eligibility_ladder sample_profile false (fz 24) [RENTAL; INFERENCE; SHAPING; MINING]).
  - vm_compute. reflexivity.
  - left. vm_compute. reflexivity.
  - vm_compute. reflexivity.
  - left.
Defined.
