(* ===== verification/GpuTable.v ===== *)
(** * The accepted card table (validator/data/gpu_table.py)

    The memory sizes of every accepted card, the aliases the driver reports, and
    the window a reading must fall in to match. *)

From Stdlib Require Import Ascii String QArith.
From S2P Require Import Prelude.
From S2P Require Import PyStr.
From S2P Require Import PyRound.
From S2P Require Import PyFloat.
From S2P Require Import PyJson.
From S2P Require Import Tiers.
Local Open Scope string_scope.
Local Open Scope list_scope.

Definition VRAM_FLOOR_RATIO : pyfloat := flit (90 # 100).
Definition VRAM_CEIL_RATIO : pyfloat := flit (105 # 100).
Definition MIB : Z := 1024.

Definition GPU_VRAM_MB : list (string * list Z) :=
  [("NVIDIA B300 SXM6 AC", [294912]);
   ("NVIDIA B200", [196608]);
   ("NVIDIA H200", [144384]);
   ("NVIDIA H200 NVL", [144384]);
   ("NVIDIA H100 80GB HBM3", [81920]);
   ("NVIDIA H100 NVL", [96256]);
   ("NVIDIA H100 PCIe", [81920]);
   ("NVIDIA H800 80GB HBM3", [81920]);
   ("NVIDIA H800 NVL", [96256]);
   ("NVIDIA H800 PCIe", [81920]);
   ("NVIDIA A100 80GB PCIe", [81920]);
   ("NVIDIA A100-SXM4-80GB", [81920]);
   ("NVIDIA A100-SXM4-40GB", [40960]);
   ("NVIDIA A100-PCIE-40GB", [40960]);
   ("NVIDIA A800 80GB PCIe", [81920]);
   ("NVIDIA RTX PRO 6000 Blackwell Server Edition", [98304]);
   ("NVIDIA RTX PRO 6000 Blackwell Workstation Edition", [98304]);
   ("NVIDIA RTX PRO 6000D Blackwell Workstation Edition", [86016]);
   ("NVIDIA RTX 6000D", [86016]);
   ("NVIDIA RTX PRO 5000 Blackwell", [49152; 73728]);
   ("NVIDIA RTX PRO 4500 Blackwell", [32768]);
   ("NVIDIA RTX PRO 4500 Blackwell Server Edition", [32768]);
   ("NVIDIA RTX PRO 4000 Blackwell", [24576]);
   ("NVIDIA RTX PRO 2000 Blackwell", [16384]);
   ("NVIDIA GeForce RTX 5090", [32768]);
   ("NVIDIA GeForce RTX 5080", [16384]);
   ("NVIDIA GeForce RTX 5070 Ti", [16384]);
   ("NVIDIA GeForce RTX 5070", [12288]);
   ("NVIDIA GeForce RTX 5060 Ti", [8192; 16384]);
   ("NVIDIA GeForce RTX 5060", [8192]);
   ("NVIDIA GeForce RTX 4090", [24576]);
   ("NVIDIA GeForce RTX 4090 D", [24576]);
   ("NVIDIA GeForce RTX 4080 SUPER", [16384]);
   ("NVIDIA GeForce RTX 4080", [16384]);
   ("NVIDIA GeForce RTX 4070 Ti SUPER", [16384]);
   ("NVIDIA GeForce RTX 4070 Ti", [12288]);
   ("NVIDIA GeForce RTX 4070 SUPER", [12288]);
   ("NVIDIA GeForce RTX 4070", [12288]);
   ("NVIDIA GeForce RTX 4060 Ti", [8192; 16384]);
   ("NVIDIA GeForce RTX 4060", [8192]);
   ("NVIDIA RTX 6000 Ada Generation", [49152]);
   ("NVIDIA RTX 5880 Ada Generation", [49152]);
   ("NVIDIA RTX 5000 Ada Generation", [32768]);
   ("NVIDIA RTX 4500 Ada Generation", [24576]);
   ("NVIDIA RTX 4000 Ada Generation", [20480]);
   ("NVIDIA L40S", [49152]);
   ("NVIDIA L40", [49152]);
   ("NVIDIA L4", [24576]);
   ("NVIDIA A10 Tensor Core GPU", [24576]);
   ("NVIDIA A40", [49152]);
   ("NVIDIA RTX A6000", [49152]);
   ("NVIDIA RTX A5000", [24576]);
   ("NVIDIA RTX A4500", [20480]);
   ("NVIDIA RTX A4000", [16384]);
   ("NVIDIA RTX A2000", [6144; 12288]);
   ("NVIDIA T4 Tensor Core GPU", [16384]);
   ("NVIDIA Tesla V100 Tensor Core GPU", [16384; 32768]);
   ("NVIDIA Quadro RTX 8000", [49152]);
   ("NVIDIA Quadro RTX 6000", [24576]);
   ("NVIDIA Quadro RTX 5000", [16384]);
   ("NVIDIA TITAN V", [12288]);
   ("NVIDIA TITAN RTX", [24576]);
   ("NVIDIA GeForce RTX 3090 Ti", [24576]);
   ("NVIDIA GeForce RTX 3090", [24576]);
   ("NVIDIA GeForce RTX 3080 Ti", [12288]);
   ("NVIDIA GeForce RTX 3080", [10240; 12288]);
   ("NVIDIA GeForce RTX 3070 Ti", [8192]);
   ("NVIDIA GeForce RTX 3070", [8192]);
   ("NVIDIA GeForce RTX 3060 Ti", [8192]);
   ("NVIDIA GeForce RTX 3060", [8192; 12288]);
   ("NVIDIA GeForce RTX 3050", [6144; 8192]);
   ("NVIDIA GeForce RTX 2080 Ti", [11264]);
   ("NVIDIA GeForce RTX 2080 SUPER", [8192]);
   ("NVIDIA GeForce RTX 2070 SUPER", [8192]);
   ("NVIDIA GeForce RTX 2060 SUPER", [8192]);
   ("NVIDIA GeForce RTX 2060", [6144; 12288]);
   ("NVIDIA GeForce GTX 1660 Ti", [6144]);
   ("NVIDIA GeForce GTX 1660 SUPER", [6144]);
   ("NVIDIA GeForce GTX 1660", [6144]);
   ("NVIDIA GeForce GTX 1080 Ti", [11264]);
   ("NVIDIA GeForce GTX 1080", [8192]);
   ("NVIDIA GeForce GTX 1070 Ti", [8192]);
   ("NVIDIA GeForce GTX 1070", [8192]);
   ("NVIDIA GeForce GTX 1060", [3072; 6144]);
   ("NVIDIA Tesla P100", [12288; 16384]);
   ("NVIDIA Tesla P40", [24576]);
   ("NVIDIA Tesla M40", [12288; 24576]);
   ("NVIDIA Quadro P4000", [8192]);
   ("NVIDIA TITAN Xp", [12288])]%Z.

Definition NORMALIZATION : list (string * string) :=
  [("Tesla V100-SXM2-16GB", "NVIDIA Tesla V100 Tensor Core GPU");
   ("Tesla V100-SXM2-32GB", "NVIDIA Tesla V100 Tensor Core GPU");
   ("Tesla V100-PCIE-16GB", "NVIDIA Tesla V100 Tensor Core GPU");
   ("Tesla V100-PCIE-32GB", "NVIDIA Tesla V100 Tensor Core GPU");
   ("Tesla H100 80GB HBM3", "NVIDIA H100 80GB HBM3");
   ("Tesla T4", "NVIDIA T4 Tensor Core GPU");
   ("NVIDIA T4", "NVIDIA T4 Tensor Core GPU");
   ("NVIDIA A10", "NVIDIA A10 Tensor Core GPU");
   ("NVIDIA A10G", "NVIDIA A10 Tensor Core GPU");
   ("Tesla P100-PCIE-16GB", "NVIDIA Tesla P100");
   ("Tesla P100-PCIE-12GB", "NVIDIA Tesla P100");
   ("Tesla P40", "NVIDIA Tesla P40");
   ("Tesla M40", "NVIDIA Tesla M40");
   ("Tesla M40 24GB", "NVIDIA Tesla M40");
   ("NVIDIA RTX PRO 6000 Blackwell", "NVIDIA RTX PRO 6000 Blackwell Workstation Edition")].

Record Window : Type := MkWindow { nominal_mb : Z; floor_mb : Z; ceil_mb : Z }.

(** [floor_mb <= total_mb <= ceil_mb] *)
Definition contains (w : Window) (total_mb : pyfloat) : bool :=
  fle (fz w.(floor_mb)) total_mb && fle total_mb (fz w.(ceil_mb)).

Record Match : Type := MkMatch { canonical : string; window : Window; mtier : option Tier }.

Definition normalize (name : string) : string :=
  let clean := strip name in default clean (dget clean NORMALIZATION).

(** [round(nominal_mb * ratio)]: the sizes are in range, so neither the
    conversion nor the rounding raises. *)
Definition scaled (nominal_mb : Z) (ratio : pyfloat) : Z :=
  match fround_int (fmul (fz nominal_mb) ratio) with Ok z => z | Raise _ => 0%Z end.

Definition window_for (nominal_mb : Z) : Window :=
  MkWindow nominal_mb (scaled nominal_mb VRAM_FLOOR_RATIO) (scaled nominal_mb VRAM_CEIL_RATIO).

Definition windows_for (name : string) : option (list Window) :=
  match dget (normalize name) GPU_VRAM_MB with
  | Some sizes => Some (window_for <$> sizes)
  | None => None
  end.

Definition is_known (name : string) : bool := dmem (normalize name) GPU_VRAM_MB.

(** [window.nominal_mb / MIB], correctly rounded *)
Definition nominal_gb (w : Window) : pyfloat :=
  match int_div w.(nominal_mb) MIB with Ok x => x | Raise _ => FNan end.

Definition match_card (name : string) (total_mb : pyfloat) : option Match :=
  let canonical := normalize name in
  windows ← windows_for canonical;
  w ← List.find (λ w, contains w total_mb) windows;
  Some (MkMatch canonical w (tier_for_memory_gb (nominal_gb w))).

Definition mismatch_reason (name : string) (total_mb : pyfloat) : string :=
  let canonical := normalize name in
  match windows_for canonical with
  | None => (if String.eqb canonical "" then "unnamed GPU" else canonical)
            +:+ " is not on the accepted list"
  | Some ws =>
      let spans := join ", " ((λ w, str_of_Z w.(floor_mb) +:+ "-" +:+ str_of_Z w.(ceil_mb)
                                    +:+ " MB") <$> ws) in
      canonical +:+ " reports " +:+ format_fixed 0 total_mb
      +:+ " MB, outside every accepted window (" +:+ spans +:+ ")"
  end.

Definition min_list (l : list Z) : option Z :=
  match l with [] => None | x :: l' => Some (fold_left Z.min l' x) end.

Definition probe_memory_mb (name : string) : option Z :=
  sizes ← dget (normalize name) GPU_VRAM_MB;
  smallest ← min_list sizes;
  Some (scaled smallest VRAM_FLOOR_RATIO).

(** ** Facts *)

(** Every name of the table is its own normal form, and every alias leads to a
    listed card. *)
Lemma table_closed :
  forallb (λ '(name, _), String.eqb (normalize name) name) GPU_VRAM_MB = true ∧
  forallb (λ '(_, target), is_known target) NORMALIZATION = true.
Proof. split; vm_compute; reflexivity. Qed.

(** An alias never leads to another alias, and its target carries no blanks. *)
Lemma aliases_final kt :
  kt ∈ NORMALIZATION → dget kt.2 NORMALIZATION = None ∧ strip kt.2 = kt.2.
Proof.
  assert (H : forallb (λ kt, negb (dmem kt.2 NORMALIZATION) && String.eqb (strip kt.2) kt.2)
                NORMALIZATION = true) by (vm_compute; reflexivity).
  rewrite forallb_forall in H. intros Hin%list_elem_of_In%H.
  unfold dmem in Hin. apply andb_true_iff in Hin as [Hd Hs%String.eqb_eq].
  split; [|done]. by destruct (dget kt.2 NORMALIZATION).
Qed.

Lemma normalize_default name :
  normalize name = default (strip name) (dget (strip name) NORMALIZATION).
Proof. reflexivity. Qed.

Lemma normalize_idem name : normalize (normalize name) = normalize name.
Proof.
  rewrite !(normalize_default name).
  destruct (dget (strip name) NORMALIZATION) as [target|] eqn:E; cbn [from_option id];
    rewrite normalize_default.
  - apply dget_elem, aliases_final in E as [Hd Hs]. cbn [snd] in Hd, Hs. by rewrite Hs, Hd.
  - by rewrite strip_idem, E.
Qed.

(** Windows in increasing order without overlap. *)
Fixpoint windows_sorted (ws : list Window) : bool :=
  match ws with
  | [] => true
  | w :: r => forallb (λ w', w.(ceil_mb) <? w'.(floor_mb))%Z r && windows_sorted r
  end.

Definition windows_ok (sizes : list Z) : bool :=
  let ws := window_for <$> sizes in
  forallb (λ w, (0 <? w.(floor_mb)) && (w.(floor_mb) <=? w.(nominal_mb))
                && (w.(nominal_mb) <=? w.(ceil_mb)))%Z ws && windows_sorted ws.

Lemma table_windows : forallb (λ '(_, sizes), windows_ok sizes) GPU_VRAM_MB = true.
Proof. vm_compute. reflexivity. Qed.

Lemma lookup_windows name sizes :
  dget name GPU_VRAM_MB = Some sizes → windows_ok sizes = true.
Proof.
  intros H%dget_elem%list_elem_of_In. pose proof table_windows as Ht.
  rewrite forallb_forall in Ht. by apply (Ht _ H).
Qed.

Lemma contains_disjoint w w' x :
  (w.(ceil_mb) < w'.(floor_mb))%Z → contains w x = true → contains w' x = true → False.
Proof.
  unfold contains. intros Hlt [_ H1]%andb_true_iff [H2 _]%andb_true_iff.
  destruct x as [q|[]|]; try discriminate.
  unfold fz in H1, H2. rewrite fle_FFin in H1, H2.
  assert (Hle : (inject_Z (floor_mb w') <= inject_Z (ceil_mb w))%Q) by (eapply Qle_trans; eauto).
  rewrite <- inject_Z_le in Hle. lia.
Qed.

Lemma sorted_unique ws x w w' :
  windows_sorted ws = true → w ∈ ws → w' ∈ ws →
  contains w x = true → contains w' x = true → w = w'.
Proof.
  induction ws as [|v ws IH]; simpl; [intros _ H; by apply not_elem_of_nil in H|].
  rewrite andb_true_iff, forallb_forall. intros [Hv Hs] Hw Hw' Hc Hc'.
  apply elem_of_cons in Hw as [->|Hw], Hw' as [->|Hw']; [done| | |by apply IH].
  - exfalso. eapply (contains_disjoint v w'); eauto. apply Z.ltb_lt, Hv. by apply list_elem_of_In.
  - exfalso. eapply (contains_disjoint v w); eauto. apply Z.ltb_lt, Hv. by apply list_elem_of_In.
Qed.

(** ** Properties *)

(** A reading matches exactly the listed size whose window holds it: the
    windows of one model never overlap, so the size, the window and the tier a
    card gets are determined by its name and its reported memory. *)
Lemma match_card_spec name total m :
  match_card name total = Some m ↔
  ∃ sizes size,
    dget (normalize name) GPU_VRAM_MB = Some sizes ∧ size ∈ sizes ∧
    contains (window_for size) total = true ∧
    m = MkMatch (normalize name) (window_for size)
          (tier_for_memory_gb (nominal_gb (window_for size))).
Proof.
  unfold match_card, windows_for. rewrite normalize_idem.
  destruct (dget (normalize name) GPU_VRAM_MB) as [sizes|] eqn:E; simpl; split;
    [| | done | naive_solver].
  - destruct (List.find _ _) as [w|] eqn:Ef; [|done].
    intros [= <-]. apply find_some in Ef as [Hin Hc]. apply list_elem_of_In in Hin.
    apply list_elem_of_fmap in Hin as (size & -> & Hs). eauto 10.
  - intros (sizes' & size & [= <-] & Hs & Hc & ->).
    apply lookup_windows in E. unfold windows_ok in E. apply andb_true_iff in E as [_ Hsort].
    assert (Hw : window_for size ∈ window_for <$> sizes) by (apply list_elem_of_fmap; eauto).
    destruct (List.find _ _) as [w|] eqn:Ef.
    + apply find_some in Ef as [Hin Hc']. apply list_elem_of_In in Hin. simpl.
      by rewrite (sorted_unique _ total w (window_for size) Hsort).
    + exfalso. eapply find_none in Ef; [|by apply list_elem_of_In]. simpl in Ef. congruence.
Qed.
