(* ===== verification/Formula.v ===== *)
(** * The score of a machine (validator/scoring/formula.py)

    score = base × w_d × s_c × m_iso × m_up × m_drv × m_opt, and the division of
    the pool by score. *)

From Stdlib Require Import Ascii String QArith Lqa.
From S2P Require Import Prelude.
From S2P Require Import PyStr.
From S2P Require Import PyRound.
From S2P Require Import PyFloat.
From S2P Require Import PyJson.
Local Open Scope string_scope.
Local Open Scope list_scope.

Definition POOL_SHARE : pyfloat := flit (60 # 100).
Definition ISOLATION_MULTIPLIER : pyfloat := flit (80 # 100).
Definition UPTIME_RAMP_DAYS : pyfloat := fz 14.
Definition OPT_OUT_MULTIPLIER : pyfloat := flit (85 # 100).

Record ScoreInputs : Type := MkScoreInputs {
  verified : bool; idemand_weight : pyfloat; gpu_count : Z; fleet_gpu_count : Z;
  isolation_ok : bool; uptime_days : pyfloat; driver_ok : bool; driver_cutoff_passed : bool;
  in_rental : bool; rental_opted_out : bool }.

Record ScoreBreakdown : Type := MkScoreBreakdown {
  base : pyfloat; demand_weight : pyfloat; capacity_share : pyfloat; isolation : pyfloat;
  uptime : pyfloat; driver : pyfloat; opt_out : pyfloat }.

(** The products associate to the left. *)
Definition breakdown_score (b : ScoreBreakdown) : pyfloat :=
  fmul (fmul (fmul (fmul (fmul (fmul b.(base) b.(demand_weight)) b.(capacity_share))
    b.(isolation)) b.(uptime)) b.(driver)) b.(opt_out).

Definition breakdown_payload (b : ScoreBreakdown) : dict :=
  [("base", JFloat b.(base)); ("w_d", JFloat b.(demand_weight));
   ("s_c", JFloat b.(capacity_share)); ("m_iso", JFloat b.(isolation));
   ("m_up", JFloat b.(uptime)); ("m_drv", JFloat b.(driver)); ("m_opt", JFloat b.(opt_out));
   ("score", JFloat (breakdown_score b))].

(** [min(1.0, max(0.0, uptime_days) / UPTIME_RAMP_DAYS)] *)
Definition uptime_multiplier (uptime_days : pyfloat) : res pyfloat :=
  ratio ← fdiv (fmax f0 uptime_days) UPTIME_RAMP_DAYS; mret (fmin f1 ratio).

Definition driver_multiplier (driver_ok cutoff_passed in_rental : bool) : pyfloat :=
  if driver_ok || in_rental then f1 else if cutoff_passed then f0 else f1.

Definition breakdown (inputs : ScoreInputs) : res ScoreBreakdown :=
  let base := if inputs.(verified) then f1 else f0 in
  let demand := fmax f0 inputs.(idemand_weight) in
  capacity ← (if ((0 <? inputs.(fleet_gpu_count)) && (0 <? inputs.(gpu_count)))%Z
              then int_div inputs.(gpu_count) inputs.(fleet_gpu_count) else Ok f0);
  up ← uptime_multiplier inputs.(uptime_days);
  mret (MkScoreBreakdown base demand capacity
          (if inputs.(isolation_ok) then f1 else ISOLATION_MULTIPLIER) up
          (driver_multiplier inputs.(driver_ok) inputs.(driver_cutoff_passed) inputs.(in_rental))
          (if inputs.(rental_opted_out) then OPT_OUT_MULTIPLIER else f1)).

Definition score (inputs : ScoreInputs) : res pyfloat :=
  b ← breakdown inputs; mret (breakdown_score b).

Definition emissions (scores : list (string * pyfloat)) (compute_emission : pyfloat)
    : res (list (string * pyfloat)) :=
  let pool := fmul POOL_SHARE (fmax f0 compute_emission) in
  let total := fsum (List.filter (λ value, flt f0 value) scores.*2) in
  if fle total f0 then Ok ((λ kv, (kv.1, f0)) <$> scores)
  else mapM (λ kv, if flt f0 kv.2 then share ← fdiv (fmul pool kv.2) total; mret (kv.1, share)
                   else mret (kv.1, f0)) scores.

(** ** Each factor lies between zero and one *)

Lemma fdiv_14 x : fdiv x UPTIME_RAMP_DAYS =
  Ok match x with FFin a => rnd (a / 14) | FInf s => FInf s | FNan => FNan end.
Proof. destruct x as [q|[]|]; reflexivity. Qed.

Lemma flt_1_cases (q : Q) : (0 <= q)%Q → frange 0 1 (fmin f1 (rnd q)).
Proof.
  intros Hq. destruct (Qlt_le_dec q 1) as [Hlt|Hle].
  - destruct (frange_rnd 0 1 q) as (r & E & Hr); auto using Qlt_le_weak with py.
    rewrite E. unfold fmin. destruct (flt _ _); [by exists r|apply frange_f1].
  - unfold fmin. replace (flt (rnd q) f1) with false; [apply frange_f1|]. symmetry.
    destruct (rnd_cases q) as [[-> _]|[[-> H]|[-> _]]]; [done| |].
    + pose proof (rndq_le 1 q Hle). pose proof big_pos.
      assert (rndq 1 == 1) as E by apply (rndq_Z 1 ltac:(lia)). rewrite E in *. lra.
    + apply flt_FFin_false. rewrite Qred_correct, <- (rndq_Z 1 ltac:(lia)). by apply rndq_le.
Qed.

Lemma uptime_multiplier_range u : ∃ m, uptime_multiplier u = Ok m ∧ frange 0 1 m.
Proof.
  unfold uptime_multiplier. rewrite fdiv_14. eexists; split; [done|].
  destruct u as [q|[]|]; unfold fmax.
  - destruct (flt f0 (FFin q)) eqn:E.
    + apply flt_FFin in E. apply flt_1_cases. apply Qle_shift_div_l; lra.
    + by apply flt_1_cases.
  - by apply flt_1_cases.
  - apply frange_f1.
  - by apply flt_1_cases.
Qed.

Lemma isolation_range : frange 0 1 ISOLATION_MULTIPLIER.
Proof. apply frange_rnd; auto with py; discriminate. Qed.

Lemma opt_out_range : frange 0 1 OPT_OUT_MULTIPLIER.
Proof. apply frange_rnd; auto with py; discriminate. Qed.

#[export] Hint Resolve frange_f1 isolation_range opt_out_range : py.

Lemma driver_range a b c : frange 0 1 (driver_multiplier a b c).
Proof. unfold driver_multiplier. case_bools; auto using frange_f0 with py. by apply frange_f0. Qed.

Lemma base_range (v : bool) : frange 0 1 (if v then f1 else f0).
Proof. destruct v; [apply frange_f1|by apply frange_f0]. Qed.

Lemma capacity_range n m :
  (n ≤ m)%Z →
  ∃ c, (if ((0 <? m) && (0 <? n))%Z then int_div n m else Ok f0) = Ok c ∧ frange 0 1 c.
Proof.
  intros Hnm. case_bools; [|eexists; split; [done|by apply frange_f0]].
  apply andb_true_iff in E as [Hm%Z.ltb_lt Hn%Z.ltb_lt]. unfold int_div.
  destruct (Z.eqb_spec m 0); [lia|].
  assert (Hm' : (0 < inject_Z m)%Q) by by apply (proj1 (inject_Z_lt 0 m)).
  assert (Hr : frange 0 1 (rnd (inject_Z n / inject_Z m))).
  { apply frange_rnd; auto with py.
    - apply Qle_shift_div_l; [done|]. rewrite Qmult_0_l. apply (proj1 (inject_Z_le 0 n)). lia.
    - apply Qle_shift_div_r; [done|]. rewrite Qmult_1_l. by apply (proj1 (inject_Z_le n m)). }
  destruct Hr as (r & -> & Hr). exists (FFin r). split; [done|]. exists r. by split.
Qed.

(** ** The score *)

(** The multipliers of a machine whose cards are counted in the fleet. *)
Lemma breakdown_ranges i d :
  (gpu_count i ≤ fleet_gpu_count i)%Z → frange 0 d (fmax f0 (idemand_weight i)) →
  ∃ b, breakdown i = Ok b ∧ frange 0 1 b.(base) ∧ frange 0 d b.(demand_weight) ∧
    frange 0 1 b.(capacity_share) ∧ frange 0 1 b.(isolation) ∧ frange 0 1 b.(uptime) ∧
    frange 0 1 b.(driver) ∧ frange 0 1 b.(opt_out).
Proof.
  intros Hn Hd. unfold breakdown.
  destruct (capacity_range _ _ Hn) as (c & -> & Hc).
  destruct (uptime_multiplier_range (uptime_days i)) as (m & Hm & Hu). simpl. rewrite Hm. simpl.
  eexists; split; [done|]. simpl.
  split_and!; auto using base_range, driver_range; case_bools; auto with py.
Qed.

(** ** Properties *)

(** C24. The score of a machine is defined and lies between zero and its demand
    weight: no factor of the formula ever pays more than the market price of the
    cards, and an unverified machine scores exactly zero. *)
Theorem score_bounds i d :
  (gpu_count i ≤ fleet_gpu_count i)%Z → frange 0 d (fmax f0 (idemand_weight i)) →
  ∃ s, score i = Ok s ∧ frange 0 d s ∧ (verified i = false → feq s f0 = true).
Proof.
  intros Hn Hd. destruct (breakdown_ranges i d Hn Hd) as (b & Hb & H1 & H2 & H3 & H4 & H5 & H6 & H7).
  unfold score. rewrite Hb. eexists; split; [done|]. split; [unfold breakdown_score; auto 10 with py|].
  intros Hv. assert (Hb0 : b.(base) = f0).
  { unfold breakdown in Hb. res_inv. by rewrite Hv. }
  assert (H2' : frange 0 0 (fmul b.(base) b.(demand_weight))).
  { rewrite Hb0. by apply (fmul_zero_l d). }
  assert (Hs : frange 0 0 (breakdown_score b)) by (unfold breakdown_score; auto 10 with py).
  destruct Hs as (q & -> & _ & ? & ?). apply Qeq_bool_iff. lra.
Qed.

(** One machine is at least as good as another of the same cards. *)
Definition improves (i j : ScoreInputs) : Prop :=
  implb (verified i) (verified j) = true ∧ idemand_weight i = idemand_weight j ∧
  gpu_count i = gpu_count j ∧ fleet_gpu_count i = fleet_gpu_count j ∧
  implb (isolation_ok i) (isolation_ok j) = true ∧ fle (uptime_days i) (uptime_days j) = true ∧
  implb (driver_ok i) (driver_ok j) = true ∧ implb (in_rental i) (in_rental j) = true ∧
  implb (driver_cutoff_passed j) (driver_cutoff_passed i) = true ∧
  implb (rental_opted_out j) (rental_opted_out i) = true.

Lemma fle_f0_f1 : fle f0 f1 = true.
Proof. reflexivity. Qed.
Lemma fle_same lo hi x : frange lo hi x → fle x x = true.
Proof. apply fle_refl_range. Qed.

#[local] Hint Resolve fle_f0_f1 : py.

Lemma base_mono (v w : bool) :
  implb v w = true → fle (if v then f1 else f0) (if w then f1 else f0) = true.
Proof. by destruct v, w. Qed.

Lemma isolation_mono (v w : bool) :
  implb v w = true →
  fle (if v then f1 else ISOLATION_MULTIPLIER) (if w then f1 else ISOLATION_MULTIPLIER) = true.
Proof. destruct v, w; try done; intros _; vm_compute; reflexivity. Qed.

Lemma opt_out_mono (v w : bool) :
  implb w v = true →
  fle (if v then OPT_OUT_MULTIPLIER else f1) (if w then OPT_OUT_MULTIPLIER else f1) = true.
Proof. destruct v, w; try done; intros _; vm_compute; reflexivity. Qed.

Lemma driver_mono a b c a' b' c' :
  implb a a' = true → implb b' b = true → implb c c' = true →
  fle (driver_multiplier a b c) (driver_multiplier a' b' c') = true.
Proof. by destruct a, a', b, b', c, c'. Qed.

Lemma fle_trans_fin a b c : fle (FFin a) (FFin b) = true → fle (FFin b) (FFin c) = true →
  fle (FFin a) (FFin c) = true.
Proof. rewrite !fle_FFin. apply Qle_trans. Qed.

(** [min(1.0, r)] of rounded quotients grows with the quotient. *)
Lemma fmin1_rnd_mono (x y : Q) : (0 <= x)%Q → (x <= y)%Q →
  fle (fmin f1 (rnd x)) (fmin f1 (rnd y)) = true.
Proof.
  intros Hx Hxy. assert (Hy : (0 <= y)%Q) by lra.
  pose proof (flt_1_cases x Hx) as (a & Ea & _ & _ & Ha1).
  pose proof (flt_1_cases y Hy) as (b & Eb & _ & _ & Hb1). rewrite Ea, Eb. apply fle_FFin.
  unfold fmin in Ea, Eb. destruct (flt (rnd y) f1) eqn:Ey.
  - rewrite (flt_lt_mono x y 1 Hxy Ey : flt (rnd x) f1 = true) in Ea. apply (rnd_le_fin _ _ _ _ Ea Eb Hxy).
  - injection Eb as <-. done.
Qed.

Lemma qpos_14 q : (0 <= qpos q / 14)%Q.
Proof.
  unfold qpos. apply Qle_shift_div_l; [lra|]. destruct (Qle_bool q 0) eqn:E; [lra|].
  apply Qle_bool_false in E. lra.
Qed.

Lemma qpos_mono p q : (p <= q)%Q → (qpos p / 14 <= qpos q / 14)%Q.
Proof.
  intros. unfold Qdiv. apply Qmult_le_compat_r; [|discriminate]. unfold qpos.
  destruct (Qle_bool p 0) eqn:Ep, (Qle_bool q 0) eqn:Eq;
    rewrite ?Qle_bool_iff, ?Qle_bool_false in *; lra.
Qed.

Lemma uptime_mono u v a b :
  fle u v = true → uptime_multiplier u = Ok a → uptime_multiplier v = Ok b → fle a b = true.
Proof.
  unfold uptime_multiplier. rewrite !fdiv_14. simpl. intros Huv [= <-] [= <-].
  assert (H1 : ∀ q : Q, (0 <= q)%Q → fle (fmin f1 (rnd q)) f1 = true).
  { intros q Hq. destruct (flt_1_cases q Hq) as (r & -> & _ & _ & ?). by apply fle_FFin. }
  destruct u as [p|[]|], v as [q|[]|]; try done; rewrite ?fmax_f0.
  - apply fle_FFin in Huv. apply fmin1_rnd_mono; [apply qpos_14|by apply qpos_mono].
  - apply H1, qpos_14.
  - change (fmax f0 (FInf true)) with (FFin 0). cbv beta iota.
    apply fmin1_rnd_mono; [discriminate|]. apply (Qle_trans _ 0); [discriminate|apply qpos_14].
Qed.

Lemma improves_capacity i j :
  improves i j →
  (if ((0 <? fleet_gpu_count i) && (0 <? gpu_count i))%Z
   then int_div (gpu_count i) (fleet_gpu_count i) else Ok f0) =
  (if ((0 <? fleet_gpu_count j) && (0 <? gpu_count j))%Z
   then int_div (gpu_count j) (fleet_gpu_count j) else Ok f0).
Proof. by intros (_ & _ & -> & -> & _). Qed.

(** Every observed improvement pays: of two machines with the same cards, the
    one that is verified, isolated, longer online, on a current driver or in a
    rental, and open to rental, never scores below the other. *)
Lemma score_monotone i j d si sj :
  improves i j → (gpu_count i ≤ fleet_gpu_count i)%Z →
  frange 0 d (fmax f0 (idemand_weight i)) →
  score i = Ok si → score j = Ok sj → fle si sj = true.
Proof.
  intros Hij Hn Hd Hi Hj. pose proof Hij as (V & D & N & F & I & U & R1 & R2 & R3 & O).
  destruct (breakdown_ranges i d Hn Hd) as (b & Hb & H1 & H2 & H3 & H4 & H5 & H6 & H7).
  rewrite N, F in Hn. rewrite D in Hd.
  destruct (breakdown_ranges j d Hn Hd) as (c & Hc & J1 & J2 & J3 & J4 & J5 & J6 & J7).
  unfold score in Hi, Hj. rewrite Hb in Hi. rewrite Hc in Hj.
  injection Hi as <-; injection Hj as <-.
  assert (Hle : fle b.(base) c.(base) = true ∧ fle b.(demand_weight) c.(demand_weight) = true ∧
    fle b.(capacity_share) c.(capacity_share) = true ∧ fle b.(isolation) c.(isolation) = true ∧
    fle b.(uptime) c.(uptime) = true ∧ fle b.(driver) c.(driver) = true ∧
    fle b.(opt_out) c.(opt_out) = true).
  { unfold breakdown in Hb, Hc. rewrite (improves_capacity i j Hij) in Hb.
    apply res_bind_ok in Hb as (cap & Hcap & Hb), Hc as (cap' & Hcap' & Hc).
    rewrite Hcap in Hcap'. injection Hcap' as <-.
    apply res_bind_ok in Hb as (m & Hm & Hb), Hc as (m' & Hm' & Hc).
    injection Hb as <-; injection Hc as <-. cbn in *. rewrite D in *.
    split_and!; eauto using fle_same, base_mono, isolation_mono, opt_out_mono, driver_mono,
      uptime_mono. }
  destruct Hle as (L1 & L2 & L3 & L4 & L5 & L6 & L7). unfold breakdown_score.
  do 5 (apply (fmul_mono d); [auto 10 with py|auto 10 with py|assumption|assumption| |assumption]).
  by apply (fmul_mono_l d).
Qed.

Definition sample_inputs (ok : bool) (up : Z) : ScoreInputs :=
  MkScoreInputs true (flit (35 # 100)) 2 8 ok (fz up) ok true false (negb ok).

Lemma sample_demand : frange 0 1 (fmax f0 (flit (35 # 100))).
Proof. apply frange_rnd; auto with py; discriminate. Qed.

Lemma score_bounds_witness :
  ∃ s, score (sample_inputs true 7) = Ok s ∧ frange 0 1 s.
Proof.
  destruct (score_bounds (sample_inputs true 7) 1) as (s & Hs & Hr & _);
    [vm_compute; discriminate|exact sample_demand|]. eauto.
Defined.

Lemma score_monotone_witness :
  match score (sample_inputs false 3), score (sample_inputs true 7) with
  | Ok a, Ok b => fle a b = true | _, _ => False end.
Proof.
  destruct (score (sample_inputs false 3)) as [a|] eqn:Ea; [|vm_compute in Ea; discriminate].
  destruct (score (sample_inputs true 7)) as [b|] eqn:Eb; [|vm_compute in Eb; discriminate].
  apply (score_monotone (sample_inputs false 3) (sample_inputs true 7) 1 a b);
    [|vm_compute; discriminate|exact sample_demand|done|done].
  repeat split; vm_compute; reflexivity.
Defined.
