(* ===== verification/DemandWeight.v ===== *)
(** * The demand weights (validator/scoring/demand_weight.py)

    The moving average of revenue per card type, its static priors and its
    persistence. *)

From Stdlib Require Import Ascii String QArith Lqa.
From S2P Require Import Prelude.
From S2P Require Import PyStr.
From S2P Require Import PyRound.
From S2P Require Import PyFloat.
From S2P Require Import PyJson.
From S2P Require Import Tiers.
Local Open Scope string_scope.
Local Open Scope list_scope.

Definition ALPHA : pyfloat := flit (1 # 100).
Definition STATIC_PRIOR : list (string * pyfloat) :=
  [(tier_value FLAGSHIP, fz 1); (tier_value PROFESSIONAL, flit (6 # 10));
   (tier_value STANDARD, flit (35 # 100)); (tier_value ENTRY, flit (15 # 100))].
Definition MIN_WEIGHT : pyfloat := flit (1 # 100).

(** [has_path] is [self.path is not None]; the file is passed beside the state. *)
Record DemandWeights : Type := MkDemandWeights {
  has_path : bool; alpha : pyfloat; values : list (string * pyfloat);
  updated_at : list (string * pyfloat) }.

Definition load (file : document) (self : DemandWeights) : res DemandWeights :=
  if negb self.(has_path) then Ok self else
  match file with
  | Absent | Unreadable => Ok self
  | Holds data =>
      v ← jget "values" JNull data;
      v ← py_items (jor v (JDict []));
      values ← map_values py_float v;
      u ← jget "updated_at" JNull data;
      u ← py_items (jor u (JDict []));
      updated_at ← map_values py_float u;
      mret (MkDemandWeights self.(has_path) self.(alpha) values updated_at)
  end.

(** [DemandWeights(path, alpha)] *)
Definition init (has_path : bool) (alpha : pyfloat) (file : document) : res DemandWeights :=
  load file (MkDemandWeights has_path alpha [] []).

Definition floats (d : list (string * pyfloat)) : json :=
  JDict ((λ kv, (kv.1, JFloat kv.2)) <$> d).

Definition save (self : DemandWeights) (file : document) : document :=
  if negb self.(has_path) then file
  else Holds (JDict [("values", floats self.(values)); ("updated_at", floats self.(updated_at))]).

Definition weight (key : string) (tier : option Tier) (self : DemandWeights) : pyfloat :=
  match dget key self.(values) with
  | Some v => fmax MIN_WEIGHT v
  | None =>
      match tier with
      | Some t => default MIN_WEIGHT (dget (tier_value t) STATIC_PRIOR)
      | None => default MIN_WEIGHT (dget key STATIC_PRIOR)
      end
  end.

Definition update (key : string) (revenue_per_gpu_hour : pyfloat) (tier : option Tier)
    (now : pyfloat) (self : DemandWeights) : pyfloat * DemandWeights :=
  let previous := weight key tier self in
  let sample := fmax f0 revenue_per_gpu_hour in
  let value := fadd previous (fmul self.(alpha) (fsub sample previous)) in
  let kept := fmax MIN_WEIGHT value in
  (kept, MkDemandWeights self.(has_path) self.(alpha) (dset key kept self.(values))
           (dset key now self.(updated_at))).

Definition update_many (revenue : list (string * pyfloat)) (tiers : list (string * Tier))
    (now : pyfloat) (self : DemandWeights) (file : document) : DemandWeights * document :=
  let self := fold_left (λ w ks, (update ks.1 ks.2 (dget ks.1 tiers) now w).2) revenue self in
  (self, save self file).

(** [merged.update({...})] *)
Definition snapshot (self : DemandWeights) : list (string * pyfloat) :=
  fold_left (λ merged kv, dset kv.1 (fmax MIN_WEIGHT kv.2) merged) self.(values) STATIC_PRIOR.

(** ** Facts *)

Lemma fmax_min_weight x : fle MIN_WEIGHT (fmax MIN_WEIGHT x) = true.
Proof.
  unfold fmax. destruct (flt MIN_WEIGHT x) eqn:E; [|vm_compute; reflexivity].
  unfold fle. by rewrite E.
Qed.

Lemma fmax_min_idem x : fmax MIN_WEIGHT (fmax MIN_WEIGHT x) = fmax MIN_WEIGHT x.
Proof.
  unfold fmax. destruct (flt MIN_WEIGHT x) eqn:E; [by rewrite E|]. by destruct (flt _ _).
Qed.

Lemma prior_min_weight key : fle MIN_WEIGHT (default MIN_WEIGHT (dget key STATIC_PRIOR)) = true.
Proof.
  assert (H : forallb (λ kv, fle MIN_WEIGHT kv.2) STATIC_PRIOR = true) by (vm_compute; reflexivity).
  rewrite forallb_forall in H. destruct (dget key STATIC_PRIOR) as [v|] eqn:E.
  - apply dget_elem, list_elem_of_In, H in E. exact E.
  - vm_compute. reflexivity.
Qed.

Lemma weight_min key tier self : fle MIN_WEIGHT (weight key tier self) = true.
Proof.
  unfold weight. destruct (dget key _); [apply fmax_min_weight|].
  destruct tier; apply prior_min_weight.
Qed.

Lemma min_weight_pos : ∃ m, MIN_WEIGHT = FFin m ∧ (0 < m)%Q.
Proof. eexists; split; [vm_compute; reflexivity|reflexivity]. Qed.

Lemma weight_update key tier tier' r now self :
  weight key tier' (update key r tier now self).2 = (update key r tier now self).1.
Proof.
  unfold update. cbn [fst snd]. unfold weight at 1. cbn [values]. rewrite dget_dset.
  apply fmax_min_idem.
Qed.

Lemma load_floats l : map_values py_float ((λ kv, (kv.1, JFloat kv.2)) <$> l) = Ok l.
Proof. by apply (map_values_id py_float JFloat). Qed.

Lemma save_load self self' file :
  has_path self = true → has_path self' = true →
  load (save self file) self' =
    Ok (MkDemandWeights true (alpha self') (values self) (updated_at self)).
Proof.
  intros H H'. unfold load, save. rewrite H, H'. 
  unfold floats. cbn -[map_values jor].
  repeat (case_decide; try discriminate; try done). cbn -[map_values jor].
  rewrite !jor_dict. cbn -[map_values].
  rewrite !load_floats. done.
Qed.

Lemma fold_update_path rev tiers now self :
  let self' := fold_left (λ w ks, (update ks.1 ks.2 (dget ks.1 tiers) now w).2) rev self in
  has_path self' = has_path self ∧ alpha self' = alpha self.
Proof.
  revert self. induction rev as [|[k s] rev IH]; intros self; [done|].
  exact (IH (update k s (dget k tiers) now self).2).
Qed.

(** One step of the average, in exact terms: towards the sample. *)
Lemma step_direction a p s :
  (0 <= a)%Q → (a <= 1)%Q → representable p → representable s → (0 <= p)%Q → (0 <= s)%Q →
  match fadd (FFin p) (fmul (FFin a) (fsub (FFin s) (FFin p))) with
  | FFin w => ((p <= s → p <= w) ∧ (s <= p → w <= p))%Q
  | FInf neg => neg = false
  | FNan => False
  end.
Proof.
  intros Ha Ha1 Hp Hs Hp0 Hs0.
  change (fsub (FFin s) (FFin p)) with (rnd (s + - p)).
  destruct (rnd_between (- p) s (s + - p)) as (d & Ed & Hd & Hd1 & Hd2); auto with py; [lra|lra|].
  pose proof (rnd_id p Hp) as Hpp. pose proof (rnd_id 0 representable_0) as H00.
  assert (Hsign : (0 <= s + - p → 0 <= d)%Q ∧ (s + - p <= 0 → d <= 0)%Q).
  { split; intros H; [exact (rnd_le_fin _ _ _ _ H00 Ed H)|exact (rnd_le_fin _ _ _ _ Ed H00 H)]. }
  rewrite Ed. change (fmul (FFin a) (FFin d)) with (rnd (a * d)).
  destruct (rnd_between (- p) s (a * d)) as (e & Ee & He & He1 & He2); auto with py; [nra|nra|].
  assert (Hsign2 : (0 <= a * d → 0 <= e)%Q ∧ (a * d <= 0 → e <= 0)%Q).
  { split; intros H; [exact (rnd_le_fin _ _ _ _ H00 Ee H)|exact (rnd_le_fin _ _ _ _ Ee H00 H)]. }
  rewrite Ee. change (fadd (FFin p) (FFin e)) with (rnd (p + e)). destruct Hsign as [S1 S2], Hsign2 as [S3 S4].
  destruct (rnd (p + e)) as [w|[]|] eqn:Ew; [|exfalso|done|exfalso].
  - split; intros Hle.
    + apply (rnd_le_fin p (p + e) p w Hpp Ew).
      assert (0 <= d)%Q by (apply S1; lra). assert (0 <= e)%Q by (apply S3; nra). lra.
    + apply (rnd_le_fin (p + e) p w p Ew Hpp).
      assert (d <= 0)%Q by (apply S2; lra). assert (e <= 0)%Q by (apply S4; nra). lra.
  - pose proof big_pos. pose proof (rndq_nonneg (p + e) ltac:(lra)).
    destruct (rnd_cases (p + e)) as [[E _]|[[_ H']|[E _]]]; [congruence|lra|congruence].
  - destruct (rnd_cases (p + e)) as [[E _]|[[E _]|[E _]]]; congruence.
Qed.

(** ** Properties *)

(** Whatever the ledger holds, no card type is ever priced below the minimum
    weight, and an update returns the weight the next reader sees. *)
Lemma weight_floor self key r tier tier' now :
  fle MIN_WEIGHT (weight key tier self) = true ∧
  weight key tier' (update key r tier now self).2 = (update key r tier now self).1 ∧
  ∀ other, other ≠ key →
    weight other tier' (update key r tier now self).2 = weight other tier' self.
Proof.
  split_and!; [apply weight_min|apply weight_update|].
  intros other Hne. unfold weight, update. simpl. by rewrite dget_dset_ne.
Qed.

(** An update moves the average towards the (non-negative) revenue sample and
    never away from it: a smoothing factor between zero and one never takes the
    weight below a higher sample's start, or above a lower one's. *)
Lemma update_direction self key tier now a p r s v :
  alpha self = FFin a → (0 <= a)%Q → (a <= 1)%Q →
  weight key tier self = FFin p → representable p →
  fmax f0 r = FFin s → representable s →
  (update key r tier now self).1 = FFin v →
  ((p <= s → p <= v) ∧ (s <= p → v <= p))%Q.
Proof.
  intros Ha Ha0 Ha1 Hw Hp Hr Hs Hu. pose proof (weight_min key tier self) as Hmin.
  unfold update in Hu. cbn [fst] in Hu. rewrite Hw, Ha, Hr in Hu. rewrite Hw in Hmin.
  destruct min_weight_pos as (m & Em & Hm). rewrite Em in *. apply fle_FFin in Hmin.
  assert (Hs0 : (0 <= s)%Q).
  { destruct r as [q|[]|]; [|vm_compute in Hr; try discriminate Hr; injection Hr as <-; lra..].
    rewrite fmax_f0 in Hr. injection Hr as <-. apply qpos_nonneg. }
  pose proof (step_direction a p s Ha0 Ha1 Hp Hs ltac:(lra) Hs0) as Hstep.
  destruct (fadd _ _) as [w|[]|]; [|done..].
  unfold fmax in Hu. destruct (flt (FFin m) (FFin w)) eqn:E; injection Hu as <-; [done|].
  apply flt_FFin_false in E. split; intros; [|done]. destruct Hstep. lra.
Qed.

Definition sample_weights : DemandWeights := MkDemandWeights true ALPHA [("NVIDIA L4", fz 1)] [].

Lemma update_direction_witness :
  match ALPHA, (update "NVIDIA L4" (fz 3) None f0 sample_weights).1 with
  | FFin a, FFin v => (1 <= v)%Q | _, _ => False end.
Proof.
  destruct ALPHA as [a| |] eqn:Ea; [|vm_compute in Ea; discriminate..].
  destruct (update "NVIDIA L4" (fz 3) None f0 sample_weights).1 as [v| |] eqn:Ev;
    [|vm_compute in Ev; discriminate..].
  refine (proj1 (update_direction sample_weights "NVIDIA L4" None f0 a 1 (fz 3) 3 v
    _ _ _ _ _ _ _ Ev) _);
    [exact Ea| | |vm_compute; reflexivity|apply (representable_Z 1); lia|reflexivity
    |apply (representable_Z 3); lia|discriminate];
    vm_compute in Ea; injection Ea as <-; discriminate.
Defined.

(** What [update_many] stored is what the next start reads: every weight it
    computed, bit for bit. *)
Lemma update_many_persists revenue tiers now self file a :
  has_path self = true →
  init true a (update_many revenue tiers now self file).2 =
  Ok (MkDemandWeights true a (values (update_many revenue tiers now self file).1)
        (updated_at (update_many revenue tiers now self file).1)).
Proof.
  intros H. unfold update_many, init. cbn [fst snd].
  apply save_load; [|done]. by rewrite (proj1 (fold_update_path revenue tiers now self)).
Qed.

Lemma update_many_persists_witness :
  is_ok (init true ALPHA
    (update_many [("NVIDIA L4", fz 3)] [("NVIDIA L4", STANDARD)] f0 sample_weights Absent).2) = true.
Proof. by rewrite update_many_persists. Defined.
