(* ===== verification/Reliability.v ===== *)
(** * The uptime ledger (validator/scoring/reliability.py) *)

From Stdlib Require Import Ascii String QArith Lqa.
From S2P Require Import Prelude.
From S2P Require Import PyStr.
From S2P Require Import PyRound.
From S2P Require Import PyFloat.
From S2P Require Import PyJson.
From S2P Require Import Formula.
Local Open Scope string_scope.
Local Open Scope list_scope.

Definition DAY_SECONDS : pyfloat := fz 86400.
Definition MAX_GAP_SECONDS : pyfloat := fz 120.

Record RigReliability : Type := MkRig {
  uptime_seconds : pyfloat; completed_jobs : Z; failed_jobs : Z; first_seen : pyfloat;
  last_seen : pyfloat; last_online : bool }.

(** [RigReliability(first_seen=moment)] *)
Definition new_rig (moment : pyfloat) : RigReliability := MkRig f0 0 0 moment f0 false.

(** The divisors are non-zero constants, so these divisions never raise. *)
Definition rig_uptime_days (r : RigReliability) : res pyfloat := fdiv r.(uptime_seconds) DAY_SECONDS.

Definition multiplier (r : RigReliability) : res pyfloat :=
  days ← rig_uptime_days r; ratio ← fdiv days UPTIME_RAMP_DAYS; mret (fmin f1 ratio).

Definition success_rate (r : RigReliability) : res pyfloat :=
  let total := (r.(completed_jobs) + r.(failed_jobs))%Z in
  if (total =? 0)%Z then Ok f1 else int_div r.(completed_jobs) total.

Definition rig_payload (r : RigReliability) : res dict :=
  days ← rig_uptime_days r; m ← multiplier r; rate ← success_rate r;
  mret [("uptime_seconds", JFloat (fround 1 r.(uptime_seconds)));
        ("uptime_days", JFloat (fround 3 days)); ("multiplier", JFloat (fround 4 m));
        ("completed_jobs", JInt r.(completed_jobs)); ("failed_jobs", JInt r.(failed_jobs));
        ("success_rate", JFloat (fround 4 rate)); ("first_seen", JFloat r.(first_seen));
        ("last_seen", JFloat r.(last_seen)); ("last_online", JBool r.(last_online))].

Abbreviation ledger := (list (string * RigReliability)).

Definition rig_of_payload (now : pyfloat) (body : json) : res RigReliability :=
  uptime ← (jget "uptime_seconds" (JFloat f0) body ≫= py_float);
  completed ← (jget "completed_jobs" (JInt 0) body ≫= py_int);
  failed ← (jget "failed_jobs" (JInt 0) body ≫= py_int);
  first ← (jget "first_seen" (JFloat now) body ≫= py_float);
  last ← (jget "last_seen" (JFloat f0) body ≫= py_float);
  online ← jget "last_online" (JBool false) body;
  mret (MkRig uptime completed failed first last (truthy online)).

(** [UptimeLedger(path)], the file beside it; [None] is [path is None]. *)
Definition load (file : option document) (now : pyfloat) : res ledger :=
  match file with
  | None | Some Absent | Some Unreadable => Ok []
  | Some (Holds data) =>
      rigs ← jget "rigs" JNull data;
      rigs ← py_items (jor rigs (JDict []));
      map_values (rig_of_payload now) rigs
  end.

Definition save (rigs : ledger) : res document :=
  bodies ← mapM (λ kr, p ← rig_payload kr.2; mret (kr.1, JDict p)) rigs;
  mret (Holds (JDict [("rigs", JDict bodies)])).

(** [self.rigs.setdefault(rig_id, dflt)] *)
Definition setdefault (rig_id : string) (dflt : RigReliability) (rigs : ledger) : RigReliability :=
  default dflt (dget rig_id rigs).

Definition observe (rig_id : string) (online : bool) (moment : pyfloat) (rigs : ledger)
    : RigReliability * ledger :=
  let rig := setdefault rig_id (new_rig moment) rigs in
  let gap := fsub moment rig.(last_seen) in
  let credited :=
    if ftruthy rig.(last_seen) && rig.(last_online) && online &&
       flt f0 gap && fle gap MAX_GAP_SECONDS
    then fadd rig.(uptime_seconds) gap else rig.(uptime_seconds) in
  let rig := MkRig credited rig.(completed_jobs) rig.(failed_jobs) rig.(first_seen) moment online in
  (rig, dset rig_id rig rigs).

Definition record_job (rig_id : string) (completed : bool) (now : pyfloat) (rigs : ledger) : ledger :=
  let r := setdefault rig_id (new_rig now) rigs in
  dset rig_id
    (if completed
     then MkRig r.(uptime_seconds) (r.(completed_jobs) + 1) r.(failed_jobs) r.(first_seen)
            r.(last_seen) r.(last_online)
     else MkRig r.(uptime_seconds) r.(completed_jobs) (r.(failed_jobs) + 1) r.(first_seen)
            r.(last_seen) r.(last_online)) rigs.

Definition uptime_days (rig_id : string) (rigs : ledger) : res pyfloat :=
  match dget rig_id rigs with Some rig => rig_uptime_days rig | None => Ok f0 end.

Definition forget (rig_id : string) (rigs : ledger) : ledger := dpop rig_id rigs.

Definition apply_server_uptime (uptime_seconds_by_rig : list (string * pyfloat)) (now : pyfloat)
    (rigs : ledger) : ledger :=
  fold_left (λ rigs '(rig_id, seconds),
    let r := setdefault rig_id (new_rig now) rigs in
    dset rig_id (MkRig (fmax r.(uptime_seconds) seconds) r.(completed_jobs) r.(failed_jobs)
                   r.(first_seen) r.(last_seen) r.(last_online)) rigs)
    uptime_seconds_by_rig rigs.

(** ** Histories of the ledger *)

Inductive op : Type :=
  | Observe (rig_id : string) (online : bool) (moment : pyfloat)
  | RecordJob (rig_id : string) (completed : bool) (now : pyfloat)
  | ServerUptime (seconds : list (string * pyfloat)) (now : pyfloat).

Definition apply_op (rigs : ledger) (o : op) : ledger :=
  match o with
  | Observe i b t => (observe i b t rigs).2
  | RecordJob i b t => record_job i b t rigs
  | ServerUptime l t => apply_server_uptime l t rigs
  end.

Definition seconds (rig_id : string) (rigs : ledger) : pyfloat :=
  match dget rig_id rigs with Some r => r.(uptime_seconds) | None => f0 end.

(** A non-negative float. *)
Definition good (u : pyfloat) : Prop :=
  u = FInf false ∨ ∃ q, u = FFin q ∧ representable q ∧ (0 <= q)%Q.

Lemma good_f0 : good f0.
Proof. right. exists 0%Q. split_and!; [done|auto with py|discriminate]. Qed.

Lemma good_le_refl u : good u → fle u u = true.
Proof. intros [->|(q & -> & _)]; [done|]. apply fle_FFin, Qle_refl. Qed.

Lemma fle_good_trans u v w :
  good u → good v → fle u v = true → fle v w = true → fle u w = true.
Proof.
  intros [->|(q & -> & _)] [->|(q' & -> & _)]; try done.
  - intros _. by destruct w as [|[]|].
  - destruct w as [r|[]|]; try done. rewrite !fle_FFin. apply Qle_trans.
Qed.

(** A credit is positive and at most the maximum gap. *)
Lemma good_credit u gap :
  good u → flt f0 gap = true → fle gap MAX_GAP_SECONDS = true →
  good (fadd u gap) ∧ fle u (fadd u gap) = true.
Proof.
  intros Hu H0 H1. destruct gap as [g|[]|]; try done.
  apply flt_FFin in H0. destruct Hu as [->|(q & -> & Hq & Hq0)]; [split; [by left|done]|].
  cbn [fadd]. pose proof (rnd_id q Hq) as Eq. pose proof (rnd_wf (q + g)) as Hwf.
  assert (Hle : (rndq q <= rndq (q + g))%Q) by (apply rndq_le; lra).
  destruct (rnd (q + g)) as [r|[]|] eqn:E.
  - pose proof (rnd_le_fin q (q + g) q r Eq E ltac:(lra)).
    split; [right; exists r; split_and!; [done|done|lra]|by apply fle_FFin].
  - exfalso. pose proof big_pos. pose proof (rndq_nonneg (q + g) ltac:(lra)).
    destruct (rnd_cases (q + g)) as [[E' _]|[[_ H']|[E' _]]]; [congruence|lra|congruence].
  - split; [by left|done].
  - exfalso. destruct (rnd_cases (q + g)) as [[E' _]|[[E' _]|[E' _]]]; congruence.
Qed.

Lemma good_max u s : good u → fwf s → good (fmax u s) ∧ fle u (fmax u s) = true.
Proof.
  intros Hu Hs. unfold fmax. destruct (flt u s) eqn:E; [|by auto using good_le_refl].
  split; [|unfold fle; by rewrite E].
  destruct Hu as [->|(q & -> & _ & Hq)], s as [p|[]|]; try done; [|by left].
  apply flt_FFin in E. right. exists p. split_and!; [done|done|lra].
Qed.

Definition op_ok (o : op) : Prop :=
  match o with ServerUptime l _ => Forall (λ kv, fwf kv.2) l | _ => True end.

Definition ledger_ok (rigs : ledger) : Prop := ∀ rig_id, good (seconds rig_id rigs).

Lemma seconds_dset k k' r rigs :
  seconds k' (dset k r rigs) = if decide (k = k') then r.(uptime_seconds) else seconds k' rigs.
Proof. unfold seconds. rewrite dget_dset_dec. by case_decide. Qed.

Lemma seconds_setdefault k t rigs : uptime_seconds (setdefault k (new_rig t) rigs) = seconds k rigs.
Proof. unfold setdefault, seconds. by destruct (dget k rigs). Qed.

(** One write that does not lower the credited time of its rig. *)
Lemma dset_grows k r rigs :
  ledger_ok rigs → good r.(uptime_seconds) → fle (seconds k rigs) r.(uptime_seconds) = true →
  ledger_ok (dset k r rigs) ∧ ∀ i, fle (seconds i rigs) (seconds i (dset k r rigs)) = true.
Proof.
  intros Hok Hg Hle. split; intros i; rewrite seconds_dset; case_decide; subst; auto using good_le_refl.
Qed.

Lemma op_grows o rigs :
  op_ok o → ledger_ok rigs →
  ledger_ok (apply_op rigs o) ∧ ∀ i, fle (seconds i rigs) (seconds i (apply_op rigs o)) = true.
Proof.
  destruct o as [k online t|k b t|l t]; intros Ho Hok; cbn [apply_op].
  - unfold observe. cbn [snd]. apply dset_grows; [done|..]; cbn; rewrite !seconds_setdefault;
      destruct (_ && _) eqn:E; auto using good_le_refl;
      apply andb_true_iff in E as [[_ E1]%andb_true_iff E2]; by apply good_credit.
  - unfold record_job. apply dset_grows; [done|..]; destruct b; cbn;
      rewrite ?seconds_setdefault; auto using good_le_refl.
  - cbn in Ho. unfold apply_server_uptime. revert rigs Hok.
    induction Ho as [|[k s] l Hs _ IH]; intros rigs Hok; [split; auto using good_le_refl|].
    cbn [fold_left]. destruct (good_max (seconds k rigs) s (Hok k) Hs) as [Hg Hle].
    destruct (dset_grows k (MkRig (fmax (uptime_seconds (setdefault k (new_rig t) rigs)) s)
      (completed_jobs (setdefault k (new_rig t) rigs)) (failed_jobs (setdefault k (new_rig t) rigs))
      (first_seen (setdefault k (new_rig t) rigs)) (last_seen (setdefault k (new_rig t) rigs))
      (last_online (setdefault k (new_rig t) rigs))) rigs Hok) as [Hok' Hle'];
      [cbn; by rewrite seconds_setdefault..|].
    destruct (IH _ Hok') as [Hok'' Hle'']. split; [done|].
    intros i. eapply fle_good_trans; [apply Hok|apply Hok'|apply Hle'|apply Hle''].
Qed.

(** ** Properties *)

(** No sequence of observations, job records and server figures ever takes
    credited uptime away from any machine, whatever the clock does. *)
Lemma uptime_never_lost ops rigs rig_id :
  Forall op_ok ops → ledger_ok rigs →
  ledger_ok (fold_left apply_op ops rigs) ∧
  fle (seconds rig_id rigs) (seconds rig_id (fold_left apply_op ops rigs)) = true.
Proof.
  intros Hops. revert rigs. induction Hops as [|o ops Ho _ IH]; intros rigs Hok.
  - split; [done|]. by apply good_le_refl.
  - cbn. destruct (op_grows o rigs Ho Hok) as [Hok' Hle]. destruct (IH _ Hok') as [Hok'' Hle'].
    split; [done|]. eapply fle_good_trans; [apply Hok|apply Hok'|apply Hle|apply Hle'].
Qed.

Lemma uptime_never_lost_witness :
  fle (seconds "rig" []) (seconds "rig" (fold_left apply_op
    [Observe "rig" true (fz 1000); Observe "rig" true (fz 1060);
     ServerUptime [("rig", fz 30)] (fz 1061)] [])) = true.
Proof.
  apply uptime_never_lost; [|intros i; apply good_f0].
  do 3 (constructor; [try exact I|]); [|constructor].
  constructor; [|constructor]. apply (representable_Z 30). lia.
Defined.

(** Time is credited only between two consecutive online observations at most
    two minutes apart, and exactly that time: a machine seen offline, a first
    sighting and a silence of more than two minutes earn nothing. *)
Lemma observe_credit rig_id online moment rigs r :
  dget rig_id rigs = Some r →
  let r' := (observe rig_id online moment rigs).1 in
  dget rig_id (observe rig_id online moment rigs).2 = Some r' ∧
  r'.(last_seen) = moment ∧ r'.(last_online) = online ∧
  r'.(completed_jobs) = r.(completed_jobs) ∧ r'.(failed_jobs) = r.(failed_jobs) ∧
  (r'.(uptime_seconds) ≠ r.(uptime_seconds) →
     r.(last_online) = true ∧ online = true ∧
     flt f0 (fsub moment r.(last_seen)) = true ∧
     fle (fsub moment r.(last_seen)) MAX_GAP_SECONDS = true ∧
     r'.(uptime_seconds) = fadd r.(uptime_seconds) (fsub moment r.(last_seen))).
Proof.
  intros H. unfold observe, setdefault. rewrite H. cbn [default fst snd]. rewrite dget_dset.
  split_and!; try done. cbn [uptime_seconds].
  destruct (_ && _) eqn:E; [|done]. boolify. tauto.
Qed.

Lemma observe_credit_witness :
  dget "rig" (observe "rig" true (fz 60) [("rig", new_rig (fz 1))]).2 =
  Some (observe "rig" true (fz 60) [("rig", new_rig (fz 1))]).1.
Proof.
  apply (observe_credit "rig" true (fz 60) [("rig", new_rig (fz 1))] (new_rig (fz 1))). reflexivity.
Defined.
