(* ===== verification/Weights.v ===== *)
(** * The weight vector (validator/scoring/weights.py)

    From scores to the sixteen bit weights set on chain.  The chain itself (the
    uid of a hotkey, the version key, the receipt of an extrinsic) and the ISO
    time parser of the standard library are parameters. *)

From Stdlib Require Import Ascii String QArith Lqa.
From stdpp Require Import sorting.
From S2P Require Import Prelude.
From S2P Require Import PyStr.
From S2P Require Import PyRound.
From S2P Require Import PyFloat.
From S2P Require Import PyJson.
From S2P Require Import Tiers.
From S2P Require Import GpuTable.
From S2P Require Import Formula.
From S2P Require Import DemandWeight.
From S2P Require Import Reliability.
Local Open Scope string_scope.
Local Open Scope list_scope.

Definition U16_MAX : Z := 65535.
Definition HELD_SHARE : pyfloat := flit (40 # 100).
Definition VERIFIED_STATES : list string := ["probation"; "active"].

Record WeightVector : Type := MkVector {
  uids : list Z; weights : list Z; floored : list Z; reserve_uid : option Z }.

Definition opt_int (o : option Z) : json := match o with Some z => JInt z | None => JNull end.

Definition vector_payload (v : WeightVector) : dict :=
  [("uids", JList (JInt <$> v.(uids))); ("weights", JList (JInt <$> v.(weights)));
   ("floored", JList (JInt <$> v.(floored))); ("reserve_uid", opt_int v.(reserve_uid))].

(** Mappings from uid to a number, in insertion order. *)
Abbreviation shares_map := (list (Z * pyfloat)).

Definition normalise (scores : shares_map) : res shares_map :=
  let positive := List.filter (λ kv, flt f0 kv.2) scores in
  let total := fsum positive.*2 in
  if fle total f0 then Ok [] else mapM (λ kv, s ← fdiv kv.2 total; mret (kv.1, s)) positive.

Definition with_reserve (shares : shares_map) (reserve_uid : option Z) (held_share : pyfloat)
    : shares_map :=
  match reserve_uid with
  | None => shares
  | Some reserve =>
      if fle held_share f0 then shares else
      let held := fmin (fmax held_share f0) f1 in
      let scaled := (λ kv, (kv.1, fmul kv.2 (fsub f1 held)))
                      <$> List.filter (λ kv, negb (kv.1 =? reserve)%Z) shares in
      dset reserve (fadd (default f0 (dget reserve scaled)) held) scaled
  end.

(** [max(values)] of a non-empty collection: the first of the largest. *)
Definition max_value (x : pyfloat) (l : list pyfloat) : pyfloat := fold_left fmax l x.

(** [max(1, round(value / top * U16_MAX))] *)
Definition quantise (top value : pyfloat) : res Z :=
  ratio ← fdiv value top;
  quantised ← fround_int (fmul ratio (fz U16_MAX));
  mret (Z.max 1 quantised).

Definition to_u16 (shares : shares_map) : res (list (Z * Z)) :=
  match shares.*2 with
  | [] => Ok []
  | v :: values =>
      let top := max_value v values in
      if fle top f0 then Ok [] else
      mapM (λ kv, w ← quantise top kv.2; mret (kv.1, w))
        (List.filter (λ kv, negb (fle kv.2 f0)) shares)
  end.

(** The loop over the missing uids, until the donor has nothing left to give. *)
Fixpoint floor_loop (donor : Z) (missing : list Z) (u16 : list (Z * Z)) (floored : list Z)
    : list (Z * Z) * list Z :=
  match missing with
  | [] => (u16, floored)
  | uid :: missing' =>
      let left := default 0%Z (dget donor u16) in
      if (left <=? 1)%Z then (u16, floored)
      else floor_loop donor missing' (dset uid 1%Z (dset donor (left - 1)%Z u16)) (floored ++ [uid])
  end.

Definition missing_uids (u16 : list (Z * Z)) (active_uids : list Z) (donor_uid : option Z) : list Z :=
  merge_sort Z.le (List.filter
    (λ uid, negb (dmem uid u16) && negb (bool_decide (Some uid = donor_uid)))
    (remove_dups active_uids)).

(** The mutated mapping and the floored uids. *)
Definition eligibility_floor (u16 : list (Z * Z)) (active_uids : list Z) (donor_uid : option Z)
    : list (Z * Z) * list Z :=
  match missing_uids u16 active_uids donor_uid, donor_uid with
  | [], _ | _, None => (u16, [])
  | missing, Some donor => if dmem donor u16 then floor_loop donor missing u16 [] else (u16, [])
  end.

(** [sorted(u16.items())]: the keys are distinct, so they decide the order. *)
Definition key_le (a b : Z * Z) : Prop := (a.1 ≤ b.1)%Z.
#[export] Instance key_le_dec : RelDecision key_le.
Proof. intros a b. unfold key_le. apply _. Defined.

Definition build (scores : shares_map) (active_uids : list Z) (reserve_uid : option Z)
    (held_share : pyfloat) : res WeightVector :=
  shares ← normalise scores;
  u16 ← to_u16 (with_reserve shares reserve_uid held_share);
  let '(u16, floored) := eligibility_floor u16 active_uids reserve_uid in
  let ordered := merge_sort key_le u16 in
  mret (MkVector ordered.*1 ordered.*2 floored reserve_uid).

(** ** Versions *)

Definition version_key (version : string) : res Z :=
  parts ← mapM (λ part, of_option ValueError (parse_int part)) (take 3 (split_on "." version));
  match (parts ++ [0; 0; 0])%Z with
  | major :: minor :: patch :: _ => mret (major * 10000 + minor * 100 + patch)%Z
  | _ => Raise ValueError
  end.

(** [NUMBERS.findall(text)]: the maximal runs of digits, as numbers. *)
Fixpoint digit_runs (run : option Z) (s : string) : list Z :=
  match s with
  | "" => match run with Some z => [z] | None => [] end
  | String c s' =>
      if is_digit c then digit_runs (Some (default 0 run * 10 + digit_val c)%Z) s'
      else match run with Some z => z :: digit_runs None s' | None => digit_runs None s' end
  end.

Definition parse_version (text : string) : list Z := take 3 (digit_runs None text).

(** [a < b] on tuples of ints *)
Fixpoint tuple_lt (a b : list Z) : bool :=
  match a, b with
  | [], [] => false
  | [], _ :: _ => true
  | _ :: _, [] => false
  | x :: a', y :: b' => ((x <? y) || ((x =? y) && tuple_lt a' b'))%Z
  end.

Definition driver_ok (driver minimum : string) : bool :=
  match parse_version minimum, parse_version driver with
  | [], _ | _, [] => true
  | floor, current => negb (tuple_lt current floor)
  end.

(** ** Scores computed from the roster *)

Section LocalScores.
(** [dt.datetime.fromisoformat], a naive time taken as UTC: the instant in
    microseconds, or [ValueError]. *)
Variable fromisoformat : string → option Z.

Definition uptime_days_of (rig : dict) (ledger : option ledger) (now : Z) : res pyfloat :=
  let rig_id := get_str_or "id" "" rig in
  days ← match ledger with Some l => Reliability.uptime_days rig_id l | None => Ok f0 end;
  let since := get_str_or "uptime_since" "" rig in
  if String.eqb since "" then Ok days else
  match fromisoformat since with
  | Some moment =>
      elapsed ← int_div (now - moment) 1000000; d ← fdiv elapsed (fz 86400); mret (fmax days d)
  | None => Ok days
  end.

Definition in_rental (rig : dict) : res bool :=
  jobs ← py_iter (jor (getv "jobs" rig) (JList []));
  mret (existsb (λ job, match job with
                        | JDict j => String.eqb (get_str "kind" j) "rental"
                        | _ => false end) jobs).

Definition accepted_card (card : json) : option dict :=
  match card with
  | JDict c => if truthy (getd "accepted" (JBool true) c) then Some c else None
  | _ => None
  end.

(** The accepted cards of a rig that passed its last deep pass. *)
Definition verified_cards (rig : dict) : res (list dict) :=
  if negb (bool_decide (get_str "state" rig ∈ VERIFIED_STATES)) then Ok [] else
  last ← jget "passed" (JBool false) (jor (getv "last_pass" rig) (JDict []));
  if negb (truthy last) then Ok [] else
  cards ← py_iter (jor (getv "gpus" rig) (JList []));
  mret (list_omap _ _ accepted_card cards).

Definition card_weight (demand : option DemandWeights) (card : dict) : pyfloat :=
  let tier := tier_of_text (get_str_or "tier" "" card) in
  let key := normalize (get_str_or "model" "" card) in
  match demand with Some d => weight key tier d | None => f1 end.

Definition score_inputs (demand : option DemandWeights) (ledger : option ledger)
    (min_driver_version : string) (driver_cutoff_passed : bool) (now fleet : Z)
    (rig : dict) (cards : list dict) : res ScoreInputs :=
  let weights := card_weight demand <$> cards in
  count ← float_of_int (Z.of_nat (List.length weights));
  mean ← match weights with [] => Ok f0 | _ => fdiv (fsum weights) count end;
  up ← uptime_days_of rig ledger now;
  driver ← jget "driver" (JStr "") (jor (getv "spec" rig) (JDict []));
  rental ← in_rental rig;
  mret (MkScoreInputs true mean (Z.of_nat (List.length cards)) fleet
          (truthy (getd "isolation_verified" (JBool false) rig)) up
          (driver_ok (py_str (jor driver (JStr ""))) min_driver_version) driver_cutoff_passed
          rental (truthy (getd "rental_opt_out" (JBool false) rig))).

Definition local_scores (roster : list dict) (demand : option DemandWeights)
    (ledger : option ledger) (min_driver_version : string) (driver_cutoff_passed : bool) (now : Z)
    : res (list (string * pyfloat)) :=
  found ← mapM (λ rig, cards ← verified_cards rig; mret (rig, cards)) roster;
  let verified := List.filter (λ rc, match rc.2 with [] => false | _ => true end) found in
  let fleet := Z.of_nat (sum_list (List.length ∘ snd <$> verified)) in
  foldl (λ acc rc,
    totals ← acc;
    let hotkey := get_str_or "hotkey" "" rc.1 in
    if String.eqb hotkey "" then Ok totals else
    inputs ← score_inputs demand ledger min_driver_version driver_cutoff_passed now fleet rc.1 rc.2;
    s ← score inputs;
    mret (dset hotkey (fadd (default f0 (dget hotkey totals)) s) totals)) (Ok []) verified.

Definition compute_scores (server_scores : option dict) (roster : list dict)
    (demand : option DemandWeights) (ledger : option ledger) (min_driver_version : string)
    (driver_cutoff_passed : bool) (now : Z) : res (list (string * pyfloat) * string) :=
  server ←
    match server_scores with
    | Some d =>
        if truthy (JDict d) && truthy (getv "epoch" d) then
          items ← py_items (jor (getv "weights" d) (JDict []));
          weights ← map_values py_float items;
          mret (List.filter (λ kv, flt f0 kv.2) weights)
        else Ok []
    | None => Ok []
    end;
  match server with
  | [] =>
      s ← local_scores roster demand ledger min_driver_version driver_cutoff_passed now;
      mret (s, "local")
  | weights => mret (weights, "server")
  end.
End LocalScores.

(** ** The chain *)

Record Call : Type := MkCall { call_function : string; call_params : dict }.

Record Chain : Type := MkChain { netuid : Z; mechanism_id : option Z }.

Section OnChain.
(** The queries [Uids] and [WeightsVersionKey], and the hash of the receipt of
    a signed and submitted call, on a chain that answers: a call the client
    refuses to compose, sign or submit ends the round and is not modelled. *)
Variable uid_of : string → option Z.
Variable chain_version_key : Z.
Variable submit_extrinsic : Call → string.

Definition uids_for (hotkeys : list string) : list (string * Z) :=
  omap (λ hotkey, (hotkey,.) <$> uid_of hotkey) hotkeys.

Definition vector (scores_by_hotkey : list (string * pyfloat)) (active_hotkeys : list string)
    (reserve_uid : option Z) (held_share : pyfloat) : res (WeightVector * list (string * Z)) :=
  let uids := uids_for (sorted_set (dkeys scores_by_hotkey ++ active_hotkeys)) in
  let scores_by_uid :=
    fold_left (λ m hw, match dget hw.1 uids with Some u => dset u hw.2 m | None => m end)
      scores_by_hotkey [] in
  let active_uids := omap (λ h, dget h uids) active_hotkeys in
  v ← build scores_by_uid active_uids reserve_uid held_share;
  mret (v, uids).

(** The outcome reported, and the call submitted, if any. *)
Definition submit (self : Chain) (scores_by_hotkey : list (string * pyfloat))
    (active_hotkeys : list string) (reserve_uid : option Z) (held_share : pyfloat)
    (dry_run : bool) : res (dict * option Call) :=
  vu ← vector scores_by_hotkey active_hotkeys reserve_uid held_share;
  let '(vector, uids_) := vu in
  let outcome :=
    [("submitted", JBool false); ("dry_run", JBool dry_run); ("netuid", JInt self.(netuid));
     ("mechanism_id", opt_int self.(mechanism_id));
     ("known_hotkeys", JInt (Z.of_nat (List.length uids_)));
     ("unknown_hotkeys", JList (JStr <$> sorted_set
        (List.filter (λ h, negb (dmem h uids_)) (dkeys scores_by_hotkey))));
     ("held_share_routed", JBool (bool_decide (is_Some reserve_uid) && flt f0 held_share))]
    ++ vector_payload vector in
  match vector.(uids) with
  | [] => mret (outcome ++ [("reason", JStr "no registered hotkeys with a positive share")], None)
  | _ =>
      let outcome := outcome ++ [("version_key", JInt chain_version_key)] in
      if dry_run then mret (outcome, None) else
      let params := [("netuid", JInt self.(netuid)); ("dests", JList (JInt <$> vector.(uids)));
                     ("weights", JList (JInt <$> vector.(weights)));
                     ("version_key", JInt chain_version_key)] in
      let call := match self.(mechanism_id) with
                  | Some m => MkCall "set_mechanism_weights" (params ++ [("mecid", JInt m)])
                  | None => MkCall "set_weights" params
                  end in
      mret (dset "hash" (JStr (submit_extrinsic call))
              (dset "call" (JStr call.(call_function)) (dset "submitted" (JBool true) outcome)),
            Some call)
  end.
End OnChain.

(** ** Facts: quantising *)

Lemma max_value_spec l : ∀ x,
  Forall (λ v, ∃ q, v = FFin q) (x :: l) →
  max_value x l ∈ x :: l ∧ Forall (λ v, fle v (max_value x l) = true) (x :: l).
Proof.
  unfold max_value. induction l as [|y l IH]; intros x Hf; cbn [fold_left].
  - split; [left|]. apply Forall_singleton. apply Forall_singleton in Hf as [q ->].
    apply fle_FFin, Qle_refl.
  - apply Forall_cons in Hf as [[q ->] Hf]. apply Forall_cons in Hf as [[r ->] Hf].
    unfold fmax at 2 4. destruct (flt (FFin q) (FFin r)) eqn:E;
      (destruct (IH (if flt (FFin q) (FFin r) then FFin r else FFin q)) as [Hin Hall];
       [rewrite E; constructor; eauto|rewrite E in *]).
    + split; [set_solver|]. constructor; [|done].
      inversion Hall as [|? ? H1 H2]; subst. apply flt_FFin in E.
      destruct (fold_left _ _ _) as [m|[]|]; try done.
      rewrite fle_FFin in *. lra.
    + apply flt_FFin_false in E. inversion Hall as [|? ? H1 H2]; subst.
      split; [set_solver|]. repeat constructor; [done| |done].
      destruct (fold_left _ _ _) as [m|[]|]; try done.
      rewrite fle_FFin in *. lra.
Qed.

Lemma quantise_bounds t v :
  (0 < v)%Q → (v <= t)%Q →
  ∃ w, quantise (FFin t) (FFin v) = Ok w ∧ (1 ≤ w ≤ U16_MAX)%Z ∧ (v == t → w = U16_MAX)%Q.
Proof.
  intros Hv Ht. unfold quantise, fdiv.
  replace (is_zero t) with false
    by (symmetry; apply not_true_iff_false; unfold is_zero; rewrite Qeq_bool_iff; lra).
  assert (Hr0 : (0 <= v / t)%Q) by (apply Qle_shift_div_l; lra).
  assert (Hr1 : (v / t <= 1)%Q) by (apply Qle_shift_div_r; lra).
  destruct (rnd_between 0 1 (v / t)) as (r & Er & Hr & Hr2 & Hr3); auto with py.
  cbn [mbind res_bind]. rewrite Er. unfold fz, fmul.
  assert (Hu : representable (inject_Z U16_MAX)) by (apply representable_Z; unfold U16_MAX; lia).
  assert (HU : (0 < inject_Z U16_MAX)%Q) by reflexivity.
  destruct (rnd_between 0 (inject_Z U16_MAX) (r * inject_Z U16_MAX)) as (s & Es & Hs & Hs1 & Hs2);
    auto with py; [nra|nra|].
  rewrite Es. cbn [fround_int mbind res_bind]. eexists. split; [done|].
  assert (Hle : (rne s ≤ U16_MAX)%Z) by (rewrite <- (rne_Z U16_MAX); by apply rne_le).
  split; [unfold U16_MAX in *; lia|].
  intros Heq. assert (Hr' : (r == 1)%Q).
  { pose proof (rnd_id 1 representable_1) as E1.
    pose proof (rnd_le_fin 1 (v / t) 1 r E1 Er). apply Qle_antisym; [done|].
    apply H. rewrite Heq. unfold Qdiv. rewrite Qmult_inv_r by lra. apply Qle_refl. }
  assert (Hs' : (inject_Z U16_MAX <= s)%Q).
  { apply (rnd_le_fin _ _ _ _ (rnd_id _ Hu) Es). rewrite Hr'. lra. }
  assert (U16_MAX ≤ rne s)%Z by (rewrite <- (rne_Z U16_MAX) at 1; by apply rne_le). 
  unfold U16_MAX in *. lia.
Qed.

Lemma mapM_forall {A B} (f : A → res B) (P : A → B → Prop) l :
  (∀ x, x ∈ l → ∃ y, f x = Ok y ∧ P x y) → ∃ l', mapM f l = Ok l' ∧ Forall2 P l l'.
Proof.
  intros H. induction l as [|x l IH]; [exists []; by split|].
  destruct (H x) as (y & Ey & Py); [by left|].
  destruct IH as (l' & El & Pl); [intros; apply H; by right|].
  exists (y :: l'). split; [|by constructor].
  change (mapM f (x :: l)) with (y ← f x; k ← mapM f l; mret (y :: k)).
  by rewrite Ey, El.
Qed.

Definition positive (shares : shares_map) : list Z :=
  (List.filter (λ kv, negb (fle kv.2 f0)) shares).*1.

(** ** Facts: the eligibility floor *)

Definition total_weight (u16 : list (Z * Z)) : Z := foldr Z.add 0%Z u16.*2.

Lemma total_dset k v u16 :
  total_weight (dset k v u16) = (total_weight u16 - default 0 (dget k u16) + v)%Z.
Proof.
  unfold total_weight. induction u16 as [|[k' v'] u16 IH]; cbn; [lia|].
  case_decide; cbn; [lia|]. rewrite IH. lia.
Qed.

Lemma floor_loop_ok donor missing : ∀ u16 acc v,
  NoDup missing → donor ∉ missing → dget donor u16 = Some v → (1 ≤ v)%Z →
  (∀ uid, uid ∈ missing → dget uid u16 = None) →
  let out := floor_loop donor missing u16 acc in
  ∃ given, given `prefix_of` missing ∧ out.2 = acc ++ given ∧
    total_weight out.1 = total_weight u16 ∧
    (∀ uid, uid ∈ given → dget uid out.1 = Some 1%Z) ∧
    (∀ uid, uid ∉ given → uid ≠ donor → dget uid out.1 = dget uid u16) ∧
    dget donor out.1 = Some (v - Z.of_nat (List.length given))%Z ∧
    (1 ≤ v - Z.of_nat (List.length given))%Z ∧
    (given ≠ missing → (v - Z.of_nat (List.length given) = 1)%Z).
Proof.
  induction missing as [|uid missing IH]; intros u16 acc v Hnd Hd Hv H1 Hm; cbn [floor_loop].
  - exists []. cbn. rewrite app_nil_r.
    split_and!; [done|done|done|intros ? []%not_elem_of_nil|done| |lia|by intros []].
    by rewrite Hv, Z.sub_0_r.
  - apply NoDup_cons in Hnd as [Hu Hnd]. apply not_elem_of_cons in Hd as [Hdu Hd].
    rewrite Hv. change (default 0%Z (Some v)) with v. destruct (Z.leb_spec v 1).
    + exists []. cbn. rewrite app_nil_r.
      split_and!; [apply prefix_nil|done|done|intros ? []%not_elem_of_nil|done| |lia|lia].
      by rewrite Hv, Z.sub_0_r.
    + pose proof (Hm uid (list_elem_of_here _ _)) as Hnone.
      destruct (IH (dset uid 1%Z (dset donor (v - 1)%Z u16)) (acc ++ [uid]) (v - 1)%Z)
        as (given & Hp & Hout & Htot & Hg & Hng & Hdon & Hpos & Hstop); try done; [|lia| |].
      * rewrite dget_dset_ne, dget_dset by done. done.
      * intros i Hi. rewrite !dget_dset_ne; [apply Hm; by right|by intros ->|by intros ->].
      * exists (uid :: given). cbn in Hout |- *. split_and!.
        -- by apply prefix_cons.
        -- rewrite Hout. by rewrite <- app_assoc.
        -- rewrite Htot, !total_dset, dget_dset_ne, Hnone, Hv by done. cbn. lia.
        -- intros i [->|Hi]%elem_of_cons; [|by apply Hg].
           rewrite Hng, dget_dset; [done| |done]. intros Hin. apply Hu.
           destruct Hp as [k ->]. apply elem_of_app. by left.
        -- intros i Hi Hne. apply not_elem_of_cons in Hi as [Hi1 Hi2].
           by rewrite Hng, !dget_dset_ne.
        -- rewrite Hdon. f_equal. lia.
        -- lia.
        -- intros Hne. assert (given ≠ missing) by congruence.
           specialize (Hstop ltac:(done)). lia.
Qed.

(** ** Facts: the whole vector *)

Definition u16_ok (u16 : list (Z * Z)) : Prop :=
  NoDup (dkeys u16) ∧ Forall (λ kv, 1 ≤ kv.2 ≤ U16_MAX)%Z u16.

Lemma Forall_dset {K V} `{EqDecision K} (P : V → Prop) (k : K) (v : V) d :
  P v → Forall (λ kv, P kv.2) d → Forall (λ kv, P kv.2) (dset k v d).
Proof.
  intros Hv Hd. induction Hd as [|[k' v'] d Hk Hd IH]; cbn; [by repeat constructor|].
  case_decide; constructor; done.
Qed.

Lemma u16_ok_dset k v u16 : (1 ≤ v ≤ U16_MAX)%Z → u16_ok u16 → u16_ok (dset k v u16).
Proof.
  intros Hv [H1 H2]. split; [by apply NoDup_dset|].
  by apply (Forall_dset (λ v, 1 ≤ v ≤ U16_MAX)%Z).
Qed.

Lemma u16_ok_get k u16 v : u16_ok u16 → dget k u16 = Some v → (1 ≤ v ≤ U16_MAX)%Z.
Proof. intros [_ H] Hv%dget_elem. rewrite Forall_forall in H. apply (H _ Hv). Qed.

Lemma floor_loop_u16 donor missing : ∀ u16 acc,
  u16_ok u16 → u16_ok (floor_loop donor missing u16 acc).1.
Proof.
  induction missing as [|uid missing IH]; intros u16 acc Hok; cbn [floor_loop]; [done|].
  destruct (Z.leb_spec (default 0%Z (dget donor u16)) 1); [done|]. apply IH.
  destruct (dget donor u16) as [v|] eqn:E; cbn in *; [|lia].
  apply (u16_ok_get _ _ _ Hok) in E.
  apply u16_ok_dset; [unfold U16_MAX; lia|]. apply u16_ok_dset; [lia|done].
Qed.

Lemma missing_uids_elem u16 active donor uid :
  uid ∈ missing_uids u16 active donor ↔
  uid ∈ active ∧ dget uid u16 = None ∧ Some uid ≠ donor.
Proof.
  unfold missing_uids. rewrite merge_sort_Permutation, list_elem_of_In, filter_In, <- list_elem_of_In,
    elem_of_remove_dups, andb_true_iff, !negb_true_iff, bool_decide_eq_false.
  unfold dmem. destruct (dget uid u16); naive_solver.
Qed.

Lemma NoDup_missing u16 active donor : NoDup (missing_uids u16 active donor).
Proof.
  unfold missing_uids. rewrite merge_sort_Permutation.
  apply NoDup_ListNoDup, List.NoDup_filter, NoDup_ListNoDup, NoDup_remove_dups.
Qed.

Lemma eligibility_floor_u16 u16 active donor :
  u16_ok u16 → u16_ok (eligibility_floor u16 active donor).1.
Proof.
  intros Hok. unfold eligibility_floor. destruct (missing_uids _ _ _); [done|].
  destruct donor; [|done]. destruct (dmem _ _); [by apply floor_loop_u16|done].
Qed.

Lemma positive_elem uid shares :
  uid ∈ positive shares ↔ ∃ s, (uid, s) ∈ shares ∧ fle s f0 = false.
Proof.
  unfold positive. rewrite list_elem_of_fmap. split.
  - intros ([k s] & -> & Hin). apply list_elem_of_In, filter_In in Hin as [H1 H2].
    exists s. apply negb_true_iff in H2. by apply list_elem_of_In in H1.
  - intros (s & H1 & H2). exists (uid, s). split; [done|].
    apply list_elem_of_In, filter_In. split; [by apply list_elem_of_In|]. cbn. by rewrite H2.
Qed.

Lemma NoDup_positive shares : NoDup (dkeys shares) → NoDup (positive shares).
Proof. apply NoDup_dkeys_filter. Qed.

(** The quantised entries of the positive shares, below a top share among them. *)
Lemma quantise_all shares m :
  NoDup (dkeys shares) →
  (∀ kv, kv ∈ shares → ∃ q, kv.2 = FFin q ∧ (q <= m)%Q) →
  (∃ uid, (uid, FFin m) ∈ shares) → (0 < m)%Q →
  ∃ out, mapM (λ kv, w ← quantise (FFin m) kv.2; mret (kv.1, w))
           (List.filter (λ kv, negb (fle kv.2 f0)) shares) = Ok out ∧
    u16_ok out ∧ out.*1 = positive shares ∧ U16_MAX ∈ out.*2.
Proof.
  intros Hnd Hle [top Htop] Hm.
  destruct (mapM_forall (λ kv : Z * pyfloat, w ← quantise (FFin m) kv.2; mret (kv.1, w))
    (λ kv kw, kv.1 = kw.1 ∧ (1 ≤ kw.2 ≤ U16_MAX)%Z ∧ (kv.2 = FFin m → kw.2 = U16_MAX))
    (List.filter (λ kv, negb (fle kv.2 f0)) shares)) as (out & Hout & Hall).
  { intros kv Hkv. apply list_elem_of_In, filter_In in Hkv as [Hkv Hpos].
    apply list_elem_of_In in Hkv. destruct (Hle _ Hkv) as (q & Eq & Hq). rewrite Eq in Hpos |- *.
    assert (0 < q)%Q.
    { apply negb_true_iff in Hpos. apply Qnot_le_lt. intros Hn.
      apply (fle_FFin q 0) in Hn. unfold f0 in Hpos. congruence. }
    destruct (quantise_bounds m q) as (w & -> & Hw & Htopw); [done|done|].
    exists (kv.1, w). cbn. split_and!; [done|done|lia|lia|]. intros [= ->]. apply Htopw. reflexivity. }
  exists out. assert (Hkeys : out.*1 = positive shares).
  { unfold positive. clear Hout. induction Hall as [|x y l l' (Hx & _)]; [done|]. csimpl. congruence. }
  split_and!; [done| |done|].
  - split; [unfold dkeys; rewrite Hkeys; by apply NoDup_positive|]. clear -Hall.
    induction Hall; constructor; naive_solver.
  - apply Forall2_flip in Hall.
    assert (Hin : (top, FFin m) ∈ List.filter (λ kv, negb (fle kv.2 f0)) shares).
    { apply list_elem_of_In, filter_In. split; [by apply list_elem_of_In|]. cbn.
      apply negb_true_iff, not_true_iff_false. unfold f0. rewrite fle_FFin. lra. }
    apply list_elem_of_lookup in Hin as [i Hi].
    destruct (Forall2_lookup_r _ _ _ _ _ Hall Hi) as (kw & Hkw & _ & _ & Hmax). cbn in Hmax.
    apply list_elem_of_fmap. exists kw. split; [by rewrite Hmax|]. by eapply list_elem_of_lookup_2.
Qed.

Lemma to_u16_ok shares :
  NoDup (dkeys shares) → Forall (λ kv, ∃ q, kv.2 = FFin q) shares →
  ∃ out, to_u16 shares = Ok out ∧ u16_ok out ∧ out.*1 = positive shares ∧
    (positive shares ≠ [] → U16_MAX ∈ out.*2).
Proof.
  intros Hnd Hfin. unfold to_u16. destruct (shares.*2) as [|v values] eqn:Ev.
  { destruct shares; [|done]. exists []. split_and!; [done|by repeat constructor|done|by intros []]. }
  rewrite Forall_forall in Hfin.
  assert (Hfin' : Forall (λ v, ∃ q, v = FFin q) (v :: values)).
  { rewrite <- Ev, Forall_forall. intros x (kv & -> & Hkv)%list_elem_of_fmap. by apply Hfin. }
  destruct (max_value_spec values v Hfin') as [Hin Hall].
  rewrite Forall_forall in Hfin', Hall. destruct (Hfin' _ Hin) as [m Em]. rewrite Em in *.
  assert (Hle : ∀ kv, kv ∈ shares → ∃ q, kv.2 = FFin q ∧ (q <= m)%Q).
  { intros kv Hkv. destruct (Hfin _ Hkv) as [q Eq]. exists q. split; [done|].
    apply fle_FFin. rewrite <- Eq. apply Hall. rewrite <- Ev. by apply list_elem_of_fmap_2. }
  destruct (fle (FFin m) f0) eqn:E; unfold f0 in E.
  - apply fle_FFin in E. assert (Hp : positive shares = []).
    { apply elem_of_nil_inv. intros uid (s & Hs & Hpos)%positive_elem.
      destruct (Hle _ Hs) as (q & Eq & Hq). cbn in Eq. subst. unfold f0 in Hpos.
      apply not_true_iff_false in Hpos. rewrite fle_FFin in Hpos. lra. }
    exists []. rewrite Hp. split_and!; [done|by repeat constructor|done|done].
  - apply not_true_iff_false in E. rewrite fle_FFin in E.
    rewrite <- Ev in Hin. apply list_elem_of_fmap in Hin as ([uid s] & Es & Hs). cbn in Es. subst s.
    destruct (quantise_all shares m) as (out & Hout & Hok & Hk & Hmax); [done|done|eauto|lra|].
    exists out. done.
Qed.

#[local] Instance key_le_total : Total key_le.
Proof. intros a b. unfold key_le. lia. Qed.
#[local] Instance key_le_trans : Transitive key_le.
Proof. intros a b c. unfold key_le. lia. Qed.

Lemma sorted_keys u16 :
  NoDup (dkeys u16) → StronglySorted Z.lt (merge_sort key_le u16).*1.
Proof.
  intros Hnd. pose proof (StronglySorted_merge_sort key_le u16) as Hs.
  assert (Hnd' : NoDup (merge_sort key_le u16).*1) by by rewrite merge_sort_Permutation.
  induction Hs as [|[k v] l Hs IH Hall]; csimpl in *; [constructor|].
  apply NoDup_cons in Hnd' as [Hk Hnd']. constructor; [by apply IH|].
  apply Forall_fmap, Forall_forall. intros kv Hkv. rewrite Forall_forall in Hall.
  specialize (Hall _ Hkv). unfold key_le in Hall. cbn in Hall |- *.
  assert (k ≠ kv.1) by (intros ->; apply Hk; by apply list_elem_of_fmap_2). lia.
Qed.

Lemma with_reserve_ok shares reserve held :
  NoDup (dkeys shares) → Forall (λ kv, frange 0 1 kv.2) shares → frange 0 1 held →
  NoDup (dkeys (with_reserve shares reserve held)) ∧
  Forall (λ kv, frange 0 1 kv.2) (with_reserve shares reserve held).
Proof.
  intros Hnd Hall Hheld. unfold with_reserve. destruct reserve as [reserve|]; [|done].
  destruct (fle held f0) eqn:E; [done|].
  assert (Hclamp : fmin (fmax held f0) f1 = held).
  { destruct Hheld as (h & -> & _ & H0 & H1). unfold fmax, f0.
    rewrite (proj2 (flt_FFin_false h 0) H0). unfold fmin, f1.
    by rewrite (proj2 (flt_FFin_false 1 h) H1). }
  rewrite Hclamp.
  assert (Hrest : frange 0 1 (fsub f1 held)).
  { destruct Hheld as (h & -> & _ & H0 & H1). unfold fsub, fneg, f1, fadd.
    apply frange_rnd; auto with py; lra. }
  set (scaled := (λ kv : Z * pyfloat, (kv.1, fmul kv.2 (fsub f1 held))) <$>
                   List.filter (λ kv, negb (kv.1 =? reserve)%Z) shares).
  assert (Hkeys : dkeys scaled = (List.filter (λ kv, negb (kv.1 =? reserve)%Z) shares).*1).
  { unfold dkeys, scaled. by rewrite <- list_fmap_compose. }
  assert (Hnone : dget reserve scaled = None).
  { apply dget_None. rewrite Hkeys. intros (kv & Ek & Hkv)%list_elem_of_fmap.
    apply list_elem_of_In, filter_In in Hkv as [_ Hne]. subst. by rewrite Z.eqb_refl in Hne. }
  rewrite Hnone. split.
  - apply NoDup_dset. rewrite Hkeys. by apply NoDup_dkeys_filter.
  - apply (Forall_dset (frange 0 1)).
    + destruct Hheld as (h & -> & Hh & H0 & H1). cbn. apply frange_rnd; auto with py; lra.
    + unfold scaled. apply Forall_fmap. rewrite Forall_forall in *. intros kv Hkv.
      apply list_elem_of_In, filter_In in Hkv as [Hkv _]. apply list_elem_of_In in Hkv.
      cbn. apply fmul_shrink; [by apply Hall|done].
Qed.

Lemma normalise_keys scores shares :
  normalise scores = Ok shares → NoDup (dkeys scores) → NoDup (dkeys shares).
Proof.
  unfold normalise. destruct (fle _ _); [intros [= <-] _; constructor|].
  intros H Hnd.
  assert (Hk : dkeys shares = dkeys (List.filter (λ kv, flt f0 kv.2) scores)).
  { revert H. generalize (fsum (List.filter (λ kv, flt f0 kv.2) scores).*2). intros t.
    revert shares. induction (List.filter _ _) as [|[k v] l IH]; intros shares H.
    - by injection H as <-.
    - change (mapM ?f (?x :: ?l)) with (y ← f x; k ← mapM f l; mret (y :: k)) in H. cbn beta in H.
      apply res_bind_ok in H as (y & Hy & H). apply res_bind_ok in H as (ys & Hys & H).
      injection H as <-. apply res_bind_ok in Hy as (s & _ & Hy). injection Hy as <-.
      csimpl. f_equal. by apply IH. }
  rewrite Hk. by apply NoDup_dkeys_filter.
Qed.

(** ** Properties *)

(** Quantising finite shares never fails; it weighs exactly the uids with a
    positive share, each within the chain's sixteen bits and never zero, and
    the largest share gets the full scale. *)
Lemma to_u16_spec shares :
  NoDup (dkeys shares) → Forall (λ kv, ∃ q, kv.2 = FFin q) shares →
  ∃ out, to_u16 shares = Ok out ∧ out.*1 = positive shares ∧
    Forall (λ kv, 1 ≤ kv.2 ≤ 65535)%Z out ∧ (positive shares ≠ [] → 65535%Z ∈ out.*2).
Proof.
  intros Hnd Hf. destruct (to_u16_ok shares Hnd Hf) as (out & H1 & [_ H2] & H3 & H4).
  by exists out.
Qed.

(** The eligibility floor moves weight and creates none: the total is unchanged,
    only the reserve pays, down to one and never to zero, every floored uid was
    missing and gets exactly one, and every other weight is untouched.  A
    missing uid is left out only when the reserve has nothing more to give. *)
Lemma eligibility_floor_spec u16 active donor v :
  dget donor u16 = Some v → (1 ≤ v)%Z →
  let missing := missing_uids u16 active (Some donor) in
  let out := eligibility_floor u16 active (Some donor) in
  out.2 `prefix_of` missing ∧ total_weight out.1 = total_weight u16 ∧
  (∀ uid, uid ∈ out.2 → dget uid u16 = None ∧ dget uid out.1 = Some 1%Z) ∧
  (∀ uid, uid ∉ out.2 → uid ≠ donor → dget uid out.1 = dget uid u16) ∧
  dget donor out.1 = Some (v - Z.of_nat (List.length out.2))%Z ∧
  (1 ≤ v - Z.of_nat (List.length out.2))%Z ∧
  (out.2 ≠ missing → dget donor out.1 = Some 1%Z).
Proof.
  intros Hv H1 missing out.
  assert (Hnone : ∀ uid, uid ∈ missing → dget uid u16 = None)
    by (by intros uid (_ & ? & _)%missing_uids_elem).
  assert (Hd : donor ∉ missing) by (by intros (_ & _ & [])%missing_uids_elem).
  assert (Hout : out = floor_loop donor missing u16 []).
  { unfold out, eligibility_floor. fold missing. unfold dmem. rewrite Hv. by destruct missing. }
  destruct (floor_loop_ok donor missing u16 [] v (NoDup_missing _ _ _) Hd Hv H1 Hnone)
    as (given & Hp & Hg & Htot & Hone & Hrest & Hdon & Hpos & Hstop).
  rewrite <- Hout in *. cbn in Hg. subst given. split_and!; try done.
  - intros uid Hu. split; [|by apply Hone]. apply Hnone. destruct Hp as [k ->].
    apply elem_of_app. by left.
  - intros Hne. rewrite Hdon. f_equal. by apply Hstop.
Qed.

Lemma eligibility_floor_spec_witness :
  eligibility_floor [(0, 3); (7, 65535)]%Z [9; 7; 4; 11]%Z (Some 0%Z)
    = ([(0, 1); (7, 65535); (4, 1); (9, 1)], [4; 9])%Z ∧
  total_weight (eligibility_floor [(0, 3); (7, 65535)]%Z [9; 7; 4; 11]%Z (Some 0%Z)).1 = 65538%Z.
Proof.
  split; [vm_compute; reflexivity|].
  rewrite (proj1 (proj2 (eligibility_floor_spec [(0, 3); (7, 65535)]%Z [9; 7; 4; 11]%Z 0%Z 3%Z
    eq_refl ltac:(lia)))). reflexivity.
Defined.

(** C21. The vector built for the chain is well formed: built without an error for
    any shares within [0, 1], its uids strictly increasing, one weight per uid,
    every weight between one and 65535. *)
Theorem build_well_formed scores shares active reserve held :
  normalise scores = Ok shares → NoDup (dkeys scores) →
  Forall (λ kv, frange 0 1 kv.2) shares → frange 0 1 held →
  ∃ v, build scores active reserve held = Ok v ∧
    StronglySorted Z.lt v.(uids) ∧ List.length v.(weights) = List.length v.(uids) ∧
    Forall (λ w, 1 ≤ w ≤ 65535)%Z v.(weights) ∧ v.(reserve_uid) = reserve.
Proof.
  intros Hn Hnd Hs Hheld. unfold build. rewrite Hn. cbn [mbind res_bind].
  destruct (with_reserve_ok shares reserve held (normalise_keys _ _ Hn Hnd) Hs Hheld) as [Hwk Hws].
  destruct (to_u16_ok (with_reserve shares reserve held) Hwk) as (out & -> & Hok & _).
  { eapply Forall_impl; [exact Hws|]. intros kv (q & ? & _). by exists q. }
  cbn [mbind res_bind]. pose proof (eligibility_floor_u16 out active reserve Hok) as Hf.
  destruct (eligibility_floor out active reserve) as [u16 floored]. destruct Hf as [Hk Hw].
  eexists. split; [done|]. cbn. split_and!; [by apply sorted_keys| | |done].
  - by rewrite !length_fmap.
  - apply Forall_fmap. by rewrite merge_sort_Permutation.
Qed.

Definition sample_scores : shares_map := [(5, fz 3); (2, fz 1); (9, fz 0)]%Z.

Lemma sample_shares : normalise sample_scores = Ok [(5, FFin (3 # 4)); (2, FFin (1 # 4))]%Z.
Proof. vm_compute. reflexivity. Qed.

Lemma sample_share_range (z : Z) (q : Q) :
  rnd q = FFin q → (0 <= q)%Q → (q <= 1)%Q → frange 0 1 (FFin q).
Proof. intros <- H0 H1. apply frange_rnd; auto with py. Qed.

Lemma to_u16_spec_witness :
  ∃ out, to_u16 [(5, FFin (3 # 4)); (2, FFin (1 # 4))]%Z = Ok out ∧ 65535%Z ∈ out.*2.
Proof.
  destruct (to_u16_spec [(5, FFin (3 # 4)); (2, FFin (1 # 4))]%Z) as (out & Ho & _ & _ & Hm).
  - repeat constructor; set_solver.
  - repeat constructor; by eexists.
  - exists out. split; [exact Ho|]. apply Hm. vm_compute. discriminate.
Defined.

Lemma build_well_formed_witness :
  is_ok (build sample_scores [5; 7]%Z (Some 0%Z) HELD_SHARE) = true.
Proof.
  destruct (build_well_formed sample_scores _ [5; 7]%Z (Some 0%Z) HELD_SHARE sample_shares)
    as (v & -> & _); [| | |reflexivity].
  - repeat constructor; set_solver.
  - constructor; [apply (sample_share_range 0); [vm_compute; reflexivity|discriminate..]|].
    constructor; [apply (sample_share_range 0); [vm_compute; reflexivity|discriminate..]|constructor].
  - apply frange_rnd; auto with py; discriminate.
Defined.

(** A dry run, and a vector without a uid, submit nothing; what is submitted is
    the vector that was built, under the chain's own version key. *)
Lemma submit_spec uid_of key receipt self scores active reserve held dry out call :
  submit uid_of key receipt self scores active reserve held dry = Ok (out, call) →
  ∃ v uids_, vector uid_of scores active reserve held = Ok (v, uids_) ∧
    match call with
    | None => dry = true ∨ v.(uids) = []
    | Some c =>
        dry = false ∧ v.(uids) ≠ [] ∧
        dget "dests" c.(call_params) = Some (JList (JInt <$> v.(uids))) ∧
        dget "weights" c.(call_params) = Some (JList (JInt <$> v.(weights))) ∧
        dget "version_key" c.(call_params) = Some (JInt key) ∧
        dget "mecid" c.(call_params) = JInt <$> self.(mechanism_id)
    end.
Proof.
  unfold submit. intros H. apply res_bind_ok in H as ([v us] & Hv & H). exists v, us.
  split; [done|]. destruct (uids v) eqn:E; [injection H as <- <-; by right|].
  destruct dry; [injection H as <- <-; by left|]. injection H as <- <-.
  destruct (mechanism_id self); cbn; split_and!; done.
Qed.

Lemma submit_spec_witness :
  let r := submit (λ h, if String.eqb h "a" then Some 4%Z else None) 7 (λ _, "0x1")
             (MkChain 13 (Some 2%Z)) [("a", fz 1); ("b", fz 1)] [] None HELD_SHARE false in
  match r with Ok (_, Some c) => dget "dests" c.(call_params) = Some (JList [JInt 4])
          | _ => False end.
Proof.
  cbv zeta.
  destruct (submit (λ h, if String.eqb h "a" then Some 4%Z else None) 7 (λ _, "0x1")
    (MkChain 13 (Some 2%Z)) [("a", fz 1); ("b", fz 1)] [] None HELD_SHARE false)
    as [[out [c|]]|] eqn:E; [|vm_compute in E; discriminate..].
  apply submit_spec in E as (v & us & Hv & _ & _ & Hd & _).
  cbv beta iota. rewrite Hd. vm_compute in Hv. injection Hv as <- _. reflexivity.
Defined.
