(* ===== verification/Shell.v ===== *)
(** * Shell words: [shlex.quote] and [shlex.split]

    Every command line the validator sends is built from [shlex.quote]; the
    program splits user text with [shlex.split] (POSIX rules, no comments). *)

From Stdlib Require Import Ascii String.
From S2P Require Import Prelude.
From S2P Require Import PyStr.
Local Open Scope string_scope.
Local Open Scope list_scope.

Definition dq : ascii := ascii_of_nat 34.
Definition sq : ascii := ascii_of_nat 39.
Definition bs : ascii := ascii_of_nat 92.
Definition dqs : string := String dq "".

Definition is_safe (c : ascii) : bool := is_alnum_ascii c || one_of "_@%+=:,./-" c.

(** [s.replace("'", "'\"'\"'")] *)
Fixpoint escape_quotes (s : string) : string :=
  match s with
  | "" => ""
  | String c s' =>
      if Ascii.eqb c sq
      then String sq (String dq (String sq (String dq (String sq (escape_quotes s')))))
      else String c (escape_quotes s')
  end.

Definition quote (s : string) : string :=
  if String.eqb s "" then String sq (String sq "")
  else if sforall is_safe s then s
  else String sq (escape_quotes s +:+ String sq "").

(** The lexer: between words, in a word, within quotes, after a backslash
    (met in a word, or in double quotes). *)
Inductive mode : Type := Blank | Word | Quoted (q : ascii) | Escaped (inside : bool).

Definition shell_space (c : ascii) : bool := one_of (String " " (String tab (String cr nls))) c.

(** [None] is the [ValueError] of an unfinished quotation or escape. *)
Fixpoint lex (m : mode) (token : string) (quoted : bool) (s : string) : option (list string) :=
  match s with
  | "" =>
      match m with
      | Quoted _ | Escaped _ => None
      | Blank | Word => Some (if String.eqb token "" && negb quoted then [] else [token])
      end
  | String c s' =>
      match m with
      | Blank | Word =>
          if shell_space c then
            if String.eqb token "" && negb quoted then lex Blank "" false s'
            else cons token <$> lex Blank "" false s'
          else if Ascii.eqb c bs then lex (Escaped false) token quoted s'
          else if Ascii.eqb c sq || Ascii.eqb c dq then lex (Quoted c) token quoted s'
          else lex Word (token +:+ String c "") quoted s'
      | Quoted q =>
          if Ascii.eqb c q then lex Word token true s'
          else if Ascii.eqb c bs && Ascii.eqb q dq then lex (Escaped true) token true s'
          else lex (Quoted q) (token +:+ String c "") true s'
      | Escaped inside =>
          let token := if inside && negb (Ascii.eqb c bs || Ascii.eqb c dq)
                       then token +:+ String bs "" else token in
          lex (if inside then Quoted dq else Word) (token +:+ String c "") quoted s'
      end
  end.

Definition split (s : string) : option (list string) := lex Blank "" false s.

(** [" ".join(shlex.quote(part) for part in parts)] *)
Definition command_line (parts : list string) : string := join " " (quote <$> parts).

(** ** A quoted word is read back as itself *)

Lemma safe_plain c :
  is_safe c = true →
  shell_space c = false ∧ Ascii.eqb c bs = false ∧ Ascii.eqb c sq = false ∧ Ascii.eqb c dq = false.
Proof. destruct c as [[] [] [] [] [] [] [] []]; vm_compute; intros; repeat split; congruence. Qed.

Lemma lex_plain c tok q s :
  shell_space c = false → Ascii.eqb c bs = false → Ascii.eqb c sq = false → Ascii.eqb c dq = false →
  lex Word tok q (String c s) = lex Word (tok +:+ String c "") q s.
Proof. intros H1 H2 H3 H4. cbn [lex]. by rewrite H1, H2, H3, H4. Qed.

Lemma lex_safe s : ∀ tok q rest,
  sforall is_safe s = true → lex Word tok q (s +:+ rest) = lex Word (tok +:+ s) q rest.
Proof.
  induction s as [|c s IH]; intros tok q rest; cbn [sforall]; [by rewrite app_nil_r_s|].
  intros [Hc Hs]%andb_true_iff. destruct (safe_plain c Hc) as (H1 & H2 & H3 & H4).
  cbn [String.append]. rewrite lex_plain by done. rewrite IH, app_assoc_s by done. done.
Qed.

Lemma lex_escaped s : ∀ tok rest,
  lex (Quoted sq) tok true (escape_quotes s +:+ rest) = lex (Quoted sq) (tok +:+ s) true rest.
Proof.
  induction s as [|c s IH]; intros tok rest; cbn [escape_quotes]; [by rewrite app_nil_r_s|].
  destruct (Ascii.eqb_spec c sq) as [->|Hne].
  - cbn [String.append]. change (lex (Quoted sq) tok true
      (String sq (String dq (String sq (String dq (String sq (escape_quotes s +:+ rest)))))))
      with (lex (Quoted sq) (tok +:+ String sq "") true (escape_quotes s +:+ rest)).
    by rewrite IH, app_assoc_s.
  - cbn [String.append lex]. rewrite (proj2 (Ascii.eqb_neq c sq) Hne).
    replace (Ascii.eqb c bs && Ascii.eqb sq dq) with false by by rewrite andb_false_r.
    rewrite IH, app_assoc_s. done.
Qed.

(** Entering quotes marks the word as quoted. *)
Lemma lex_quoted_flag q tok b s : lex (Quoted q) tok b s = lex (Quoted q) tok true s.
Proof. by destruct s. Qed.

Lemma lex_quote s rest :
  ∃ q, lex Blank "" false (quote s +:+ rest) = lex Word s q rest ∧ String.eqb s "" && negb q = false.
Proof.
  unfold quote. destruct (String.eqb_spec s "") as [->|Hne].
  - exists true. split; [|done]. reflexivity.
  - destruct (sforall is_safe s) eqn:Es.
    + exists false. split; [|done]. destruct s as [|c s]; [done|].
      change (lex Blank "" false (String c s +:+ rest)) with (lex Word "" false (String c s +:+ rest)).
      by rewrite (lex_safe _ _ _ _ Es).
    + exists true. split; [|by destruct (String.eqb s "")].
      cbn [String.append]. rewrite app_assoc_s.
      change (lex Blank "" false (String sq (escape_quotes s +:+ (String sq "" +:+ rest))))
        with (lex (Quoted sq) "" false (escape_quotes s +:+ (String sq "" +:+ rest))).
      rewrite lex_quoted_flag, lex_escaped. reflexivity.
Qed.

(** No text, however hostile, changes how a command line is split: the shell
    sees exactly the words the program listed. *)
Lemma command_line_splits parts : split (command_line parts) = Some parts.
Proof.
  unfold split, command_line. induction parts as [|x parts IH]; [reflexivity|].
  destruct parts as [|y parts].
  - cbn. destruct (lex_quote x "") as (q & Hq & Hx). rewrite app_nil_r_s in Hq.
    rewrite Hq. cbn. by rewrite Hx.
  - change (join " " (quote <$> x :: y :: parts))
      with (quote x +:+ (String " " (join " " (quote <$> y :: parts)))).
    destruct (lex_quote x (String " " (join " " (quote <$> y :: parts)))) as (q & Hq & Hx).
    rewrite Hq. cbn [lex]. change (shell_space " ") with true. cbn iota. rewrite Hx.
    by rewrite IH.
Qed.
