(* ===== verification/Runner.v ===== *)
(** * The remote host (validator/session/runner.py, validator/session/ssh.py)

    The validator acts on a machine only by running commands over a session and
    reading their output.  The machine is a parameter ([Env]): any type of host
    states, any function from a command to a result and a next state, any clock.
    Every operation of the validator is a computation over [St]: the host, the
    log of the commands run so far with their results, and the records the
    validator itself keeps. *)

From Stdlib Require Import Ascii String QArith Lqa.
From S2P Require Import Prelude.
From S2P Require Import PyStr.
From S2P Require Import PyRound.
From S2P Require Import PyFloat.
From S2P Require Import PyJson.
From S2P Require Import Failures.
Local Open Scope string_scope.
Local Open Scope list_scope.

Record CommandResult : Type := MkResult {
  rcommand : string; exit_code : Z; stdout : string; stderr : string; relapsed_ms : pyfloat;
  error : string }.

Definition ok (r : CommandResult) : bool := (r.(exit_code) =? 0)%Z && String.eqb r.(error) "".

Definition transport_failed (r : CommandResult) : bool :=
  negb (String.eqb r.(error) "") && (r.(exit_code) <? 0)%Z.

(** [self.stderr[-chars:]] (for a positive [chars]) *)
Definition stderr_tail (chars : nat) (r : CommandResult) : string := slast chars r.(stderr).

(** [a or b] on strings *)
Definition sor (a b : string) : string := if String.eqb a "" then b else a.

(** ** The session (ssh.py) *)

Definition TRANSPORT_EXIT : Z := -1.
Definition SIGNAL_EXIT : Z := 128.
Definition TIMEOUT_EXIT : Z := 124.
Definition STDERR_TAIL : nat := 2048.

Definition key_fields (line : string) : string * string :=
  match split_ws (strip line) with
  | a :: b :: _ => (a, b)
  | _ => ("", "")
  end.

(** [presented] is [presented.export_public_key("openssh").decode()]; [None] is
    an absent key or a failed export. *)
Definition same_key (presented : option string) (granted : string) : bool :=
  match presented with
  | None => false
  | Some text =>
      let expected := key_fields granted in
      negb (String.eqb expected.2 "") && bool_decide (key_fields (strip text) = expected)
  end.

Definition classify (result : CommandResult) (seed : string) : option Failure :=
  if transport_failed result then Some (MkFailure SSH_TRANSPORT result.(error) seed [])
  else if (result.(exit_code) =? TIMEOUT_EXIT)%Z then
    Some (MkFailure AGENT_CRASH (sor result.(error) "the check timed out") seed
            [("stderr", JStr (stderr_tail STDERR_TAIL result))])
  else if negb (result.(exit_code) =? 0)%Z then
    Some (MkFailure AGENT_CRASH
            (stake 600 ("exit " +:+ str_of_Z result.(exit_code) +:+ ": " +:+
               sor (strip (stderr_tail STDERR_TAIL result)) (sor result.(error) "no output")))
            seed
            [("exit_code", JInt result.(exit_code));
             ("stderr", JStr (stderr_tail STDERR_TAIL result))])
  else None.

Section LastObject.
(** [json.loads]; [None] is the [ValueError]. *)
Variable json_loads : string → option json.

Fixpoint first_object (lines : list string) : option dict :=
  match lines with
  | [] => None
  | line :: lines' =>
      let text := strip line in
      if negb (startswith "{" text) || negb (endswith "}" text) then first_object lines'
      else match json_loads text with
           | Some (JDict d) => Some d
           | _ => first_object lines'
           end
  end.

Definition last_json_object (stdout : string) : option dict :=
  first_object (rev (splitlines stdout)).
End LastObject.

(** How a run over the connection ended: what [asyncssh] returns or raises. *)
Inductive Done : Type :=
  | Exited (status : Z) (out err : string)
  | Signalled (signal : string) (out err : string)
  | TimedOut (out err : string)
  | Broken (exc : string).

(** [SshRunner.run] *)
Definition run_result (command : string) (timeout : pyfloat) (elapsed : pyfloat) (d : Done)
    : CommandResult :=
  match d with
  | TimedOut out err =>
      MkResult command TIMEOUT_EXIT out err elapsed
        ("timed out after " +:+ format_fixed 0 timeout +:+ " s")
  | Broken exc => MkResult command TRANSPORT_EXIT "" "" elapsed ("ssh transport: " +:+ exc)
  | Signalled signal out err =>
      MkResult command SIGNAL_EXIT out (err +:+ nls +:+ "killed by signal " +:+ signal) elapsed ""
  | Exited status out err => MkResult command status out err elapsed ""
  end.

(** ** The state *)

Record event : Type := MkEvent {
  ecommand : string; etimeout : pyfloat; estdin : option string; eresult : CommandResult }.

(** [Inflight]: the jobs asked to stop, and the jobs being created. *)
Record Inflight : Type := MkInflight { cancelled_ : list string; active_ : list string }.

(** One original power limit, and the records of [work/power.py]. *)
Record PowerOriginal : Type := MkOriginal { original_w : pyfloat; recorded_at : pyfloat; pjob : string }.
Record PowerRecords : Type := MkRecords {
  gpus : list (string * PowerOriginal); jobs : list (string * list string) }.

(** One pending teardown of [storage/sweep.py]. *)
Record Retry : Type := MkRetry {
  trig_id : string; tjob_id : string; tvolumes : list string; attempts : Z;
  trecorded_at : pyfloat }.

Record St (H : Type) : Type := MkSt {
  host : H; log : list event; inflight : Inflight; records : PowerRecords;
  job_files : list (string * document); retries : list (string * Retry) }.
Arguments MkSt {H}. Arguments host {H}. Arguments log {H}. Arguments inflight {H}.
Arguments records {H}. Arguments job_files {H}. Arguments retries {H}.

(** The machine, the clocks, the random source ([secrets]: the draws a step
    makes are numbered) and [json.loads].  [woken h] is what the other tasks of the
    validator asked to cancel while this one waited for the host to reach [h]. *)
Record Env (H : Type) : Type := MkEnv {
  exec : string → pyfloat → option string → H → CommandResult * H;
  idle : pyfloat → H → H;
  monotonic : H → pyfloat;
  wall : H → pyfloat;
  woken : H → list string;
  rand_hex : nat → H → string;
  rand_bytes : nat → H → string;
  loads : string → option json }.
Arguments exec {H}. Arguments idle {H}. Arguments monotonic {H}. Arguments wall {H}.
Arguments woken {H}. Arguments rand_hex {H}. Arguments rand_bytes {H}. Arguments loads {H}.

Definition M (H A : Type) : Type := St H → res A * St H.

#[export] Instance M_ret {H} : MRet (M H) := λ A a st, (Ok a, st).
#[export] Instance M_bind {H} : MBind (M H) := λ A B f m st,
  match m st with (Ok a, st') => f a st' | (Raise e, st') => (Raise e, st') end.

Definition lift {H A} (r : res A) : M H A := λ st, (r, st).
Definition get {H} : M H (St H) := λ st, (Ok st, st).

(** The inflight table after an [await]. *)
Definition cancel_inflight (job_id : string) (i : Inflight) : Inflight :=
  if bool_decide (job_id ∈ i.(active_)) then MkInflight (job_id :: i.(cancelled_)) i.(active_) else i.

Definition wake {H} (env : Env H) (h : H) (i : Inflight) : Inflight :=
  foldr cancel_inflight i (env.(woken) h).

(** [await runner.run(command, timeout, stdin)] *)
Definition run_with {H} (env : Env H) (command : string) (timeout : pyfloat) (stdin : option string)
    : M H CommandResult := λ st,
  let '(r, h) := env.(exec) command timeout stdin st.(host) in
  (Ok r, MkSt h (st.(log) ++ [MkEvent command timeout stdin r]) (wake env h st.(inflight))
           st.(records) st.(job_files) st.(retries)).
Definition run {H} (env : Env H) (command : string) (timeout : pyfloat) : M H CommandResult :=
  run_with env command timeout None.

(** [await asyncio.sleep(seconds)] *)
Definition sleep {H} (env : Env H) (seconds : pyfloat) : M H unit := λ st,
  let h := env.(idle) seconds st.(host) in
  (Ok tt, MkSt h st.(log) (wake env h st.(inflight)) st.(records) st.(job_files) st.(retries)).

(** [time.monotonic()] and [time.time()] *)
Definition now {H} (env : Env H) : M H pyfloat := λ st, (Ok (env.(monotonic) st.(host)), st).
Definition time {H} (env : Env H) : M H pyfloat := λ st, (Ok (env.(wall) st.(host)), st).

Definition set_records {H} (r : PowerRecords) : M H unit := λ st,
  (Ok tt, MkSt st.(host) st.(log) st.(inflight) r st.(job_files) st.(retries)).
Definition set_inflight {H} (i : Inflight) : M H unit := λ st,
  (Ok tt, MkSt st.(host) st.(log) i st.(records) st.(job_files) st.(retries)).
Definition set_files {H} (f : list (string * document)) : M H unit := λ st,
  (Ok tt, MkSt st.(host) st.(log) st.(inflight) st.(records) f st.(retries)).
Definition set_retries {H} (r : list (string * Retry)) : M H unit := λ st,
  (Ok tt, MkSt st.(host) st.(log) st.(inflight) st.(records) st.(job_files) r).

(** [for x in l: f(x)] *)
Fixpoint for_each {H A} (f : A → M H unit) (l : list A) : M H unit :=
  match l with [] => mret tt | x :: l' => f x ≫= λ _, for_each f l' end.

(** The loop that collects [g x] of the elements for which it is there. *)
Fixpoint collect {H A B} (f : A → M H (option B)) (l : list A) : M H (list B) :=
  match l with
  | [] => mret []
  | x :: l' => y ← f x; ys ← collect f l'; mret (match y with Some b => b :: ys | None => ys end)
  end.

(** ** Inverting a computation *)

Lemma M_bind_ok {H A B} (m : M H A) (f : A → M H B) st b st' :
  (m ≫= f) st = (Ok b, st') → ∃ a st1, m st = (Ok a, st1) ∧ f a st1 = (Ok b, st').
Proof. unfold mbind, M_bind. destruct (m st) as [[a|e] st1]; [eauto|done]. Qed.

Lemma M_ret_ok {H A} (a b : A) (st st' : St H) :
  (mret a : M H A) st = (Ok b, st') → a = b ∧ st = st'.
Proof. by intros [= -> ->]. Qed.

(** Decompose every hypothesis [m st = (Ok _, _)]. *)
Ltac m_inv :=
  repeat match goal with
  | H : (_ ≫= _) _ = (Ok _, _) |- _ =>
      apply M_bind_ok in H; let a := fresh "a" in let s := fresh "st" in let Ha := fresh "Ha" in
      destruct H as (a & s & Ha & H)
  | H : mret _ _ = (Ok _, _) |- _ => apply M_ret_ok in H as [? ?]; subst
  | H : (if ?b then _ else _) _ = (Ok _, _) |- _ => let E := fresh "E" in destruct b eqn:E
  | H : (match ?x with Some _ => _ | None => _ end) _ = (Ok _, _) |- _ =>
      let E := fresh "E" in destruct x eqn:E
  end.

(** ** A clock that advances

    [time.monotonic()] shows finite floats up to its last reading [limit]; a command
    never sets it back, and a sleep of whole seconds takes them. *)
Class Clock {H} (env : Env H) (limit : Q) : Prop := {
  clock_reads : finite_clock limit env.(monotonic);
  clock_exec c t i : takes limit env.(monotonic) 0 (λ h, (env.(exec) c t i h).2);
  clock_idle s : (0 <= s)%Z → takes limit env.(monotonic) (inject_Z s) (env.(idle) (FFin (inject_Z s))) }.

Lemma run_clock {H} (env : Env H) limit `{!Clock env limit} q c t st :
  at_least q (env.(monotonic) (host st)) →
  ∃ r st', run env c t st = (Ok r, st') ∧ at_least q (env.(monotonic) (host st')).
Proof.
  intros Hq. unfold run, run_with.
  assert (q <= limit)%Q as Hl.
  { destruct (clock_reads (host st)) as (x & E & _ & Hx). rewrite E in Hq. destruct Hq as [?|(y & [= <-] & _ & ?)]; [done|lra]. }
  assert (at_least q (env.(monotonic) (env.(exec) c t None (host st)).2)) as He.
  { apply (at_least_le _ (q + 0)); [lra|].
    apply (at_least_takes limit (monotonic env) 0 (λ h, (env.(exec) c t None h).2) q (host st));
      [apply clock_reads|apply clock_exec|lra|lra|done]. }
  destruct (exec env c t None (host st)) as [r h]. by eexists _, _.
Qed.

Lemma sleep_clock {H} (env : Env H) limit `{!Clock env limit} q s st :
  (0 <= s)%Z → (q + 2 * inject_Z s <= limit)%Q → at_least q (env.(monotonic) (host st)) →
  ∃ st', sleep env (FFin (inject_Z s)) st = (Ok tt, st') ∧ at_least (q + inject_Z s) (env.(monotonic) (host st')).
Proof.
  intros Hs Hl Hq. eexists. split; [done|]. cbn [host].
  apply (at_least_takes limit (monotonic env)); [apply clock_reads|by apply clock_idle| |done|done].
  change 0%Q with (inject_Z 0). by rewrite <- Zle_Qle.
Qed.

(** ** Commands issued *)

(** Everything [m] runs satisfies [P], and it only ever appends to the log. *)
Definition issues {H A} (P : event → Prop) (m : M H A) : Prop :=
  ∀ st, ∃ new, log (m st).2 = log st ++ new ∧ Forall P new.

Section Issues.
Context {H : Type} (P : event → Prop).
Implicit Types (env : Env H).

Lemma issues_quiet {A} (m : M H A) : (∀ st, log (m st).2 = log st) → issues P m.
Proof. intros Hm st. exists []. by rewrite Hm, app_nil_r. Qed.

Lemma issues_ret {A} (a : A) : issues P (mret a : M H A).
Proof. by apply issues_quiet. Qed.

Lemma issues_lift {A} (r : res A) : issues P (lift r : M H A).
Proof. by apply issues_quiet. Qed.

Lemma issues_bind {A B} (m : M H A) (f : A → M H B) :
  issues P m → (∀ a, issues P (f a)) → issues P (m ≫= f).
Proof.
  intros Hm Hf st. destruct (Hm st) as (n1 & H1 & P1). unfold mbind, M_bind.
  destruct (m st) as [[a|e] st']; cbn in *; [|by exists n1].
  destruct (Hf a st') as (n2 & H2 & P2). exists (n1 ++ n2).
  rewrite H2, H1, app_assoc. split; [done|]. by apply Forall_app.
Qed.

Lemma issues_run_with env c t i :
  (∀ r, P (MkEvent c t i r)) → issues P (run_with env c t i).
Proof.
  intros Hc st. unfold run_with. destruct (exec env c t i (host st)) as [r h]. cbn.
  exists [MkEvent c t i r]. split; [done|]. by repeat constructor.
Qed.

Lemma issues_run env c t : (∀ r, P (MkEvent c t None r)) → issues P (run env c t).
Proof. apply issues_run_with. Qed.

Lemma issues_sleep env s : issues P (sleep env s).
Proof. by apply issues_quiet. Qed.

Lemma issues_for_each {A} (f : A → M H unit) l :
  (∀ x, x ∈ l → issues P (f x)) → issues P (for_each f l).
Proof.
  induction l as [|x l IH]; intros Hf; cbn; [apply issues_ret|].
  apply issues_bind; [apply Hf; by left|]. intros _. apply IH. intros y Hy. apply Hf. by right.
Qed.

Lemma issues_collect {A B} (f : A → M H (option B)) l :
  (∀ x, x ∈ l → issues P (f x)) → issues P (collect f l).
Proof.
  induction l as [|x l IH]; intros Hf; cbn; [apply issues_ret|].
  apply issues_bind; [apply Hf; by left|]. intros y.
  apply issues_bind; [|intros; apply issues_ret]. apply IH. intros z Hz. apply Hf. by right.
Qed.
End Issues.

Lemma issues_weaken {H A} (P Q : event → Prop) (m : M H A) :
  (∀ e, P e → Q e) → issues P m → issues Q m.
Proof.
  intros HPQ Hm st. destruct (Hm st) as (new & H1 & H2). exists new. split; [done|].
  eapply Forall_impl; [exact H2|]. done.
Qed.

#[export] Hint Resolve issues_ret issues_lift issues_sleep : py.
#[export] Hint Extern 1 (issues _ (λ _, _)) => apply issues_quiet; done : py.
#[export] Hint Extern 1 (issues _ (now _)) => apply issues_quiet; done : py.
#[export] Hint Extern 1 (issues _ (time _)) => apply issues_quiet; done : py.
#[export] Hint Extern 1 (issues _ (set_records _)) => apply issues_quiet; done : py.
#[export] Hint Extern 1 (issues _ (set_inflight _)) => apply issues_quiet; done : py.
#[export] Hint Extern 1 (issues _ (set_files _)) => apply issues_quiet; done : py.
#[export] Hint Extern 1 (issues _ (set_retries _)) => apply issues_quiet; done : py.
#[export] Hint Extern 1 (issues _ get) => apply issues_quiet; done : py.

(** Walk through a computation: binds, branches and runs. *)
Ltac issues :=
  repeat match goal with
  | |- issues _ (_ ≫= _) => apply issues_bind; [|intros ?]
  | |- issues _ (for_each _ _) => apply issues_for_each; intros ? ?
  | |- issues _ (collect _ _) => apply issues_collect; intros ? ?
  | |- issues _ (run _ _ _) => apply issues_run; intros ?
  | |- issues _ (run_with _ _ _ _) => apply issues_run_with; intros ?
  | |- issues _ (match ?x with _ => _ end) => destruct x
  | |- issues _ (let '_ := ?x in _) => destruct x
  end; auto with py.
