(* ===== verification/Keys.v ===== *)
(** * The volume secrets (validator/storage/keys.py)

    The master secret of the environment, and the passphrase of one volume.  The
    HKDF of the [cryptography] package is a parameter. *)

From Stdlib Require Import Ascii String.
From S2P Require Import Prelude.
From S2P Require Import PyStr.
From S2P Require Import PyRe.
From S2P Require Import Sha256.
From S2P Require Import SessionProto.
From S2P Require Import Attest.
Local Open Scope string_scope.
Local Open Scope list_scope.

Definition MASTER_SECRET_ENV : string := "CV_VOLUME_MASTER_SECRET".
Definition INFO : string := "microtensor-compute volume passphrase v1".
Definition MIN_SECRET_BYTES : nat := 32.
Definition PASSPHRASE_BYTES : nat := 32.

(** ** [binascii] and [base64] *)

(** [binascii.unhexlify]: pairs of hex digits, nothing between them. *)
Fixpoint unhexlify (s : string) : option (list Z) :=
  match s with
  | "" => Some []
  | String _ "" => None
  | String c (String d s') =>
      h ← hex_val c; l ← hex_val d; rest ← unhexlify s'; Some ((16 * h + l)%Z :: rest)
  end.

Definition b64_val (c : ascii) : option Z :=
  if is_upper_ascii c then Some (code c - 65)%Z
  else if is_lower_ascii c then Some (code c - 71)%Z
  else if is_digit c then Some (code c + 4)%Z
  else if Ascii.eqb c "+"%char then Some 62%Z
  else if Ascii.eqb c "/"%char then Some 63%Z
  else None.

(** [base64.b64decode(s, validate=True)]: whole groups of four, padded only at
    the end. *)
Fixpoint b64decode (s : string) : option (list Z) :=
  match s with
  | "" => Some []
  | String a (String b (String c (String d s'))) =>
      x ← b64_val a; y ← b64_val b;
      let b1 := (x * 4 + y / 16)%Z in
      if Ascii.eqb c "="%char then
        if Ascii.eqb d "="%char && String.eqb s' "" then Some [b1] else None
      else
        z ← b64_val c;
        let b2 := ((y mod 16) * 16 + z / 4)%Z in
        if Ascii.eqb d "="%char then if String.eqb s' "" then Some [b1; b2] else None
        else
          w ← b64_val d; rest ← b64decode s';
          Some (b1 :: b2 :: ((z mod 4) * 64 + w)%Z :: rest)
  | _ => None
  end.

(** [base64.urlsafe_b64encode(data).rstrip(b"=")] *)
Definition b64url_digit (n : Z) : ascii :=
  ascii_of_N (Z.to_N (if n <? 26 then n + 65 else if n <? 52 then n + 71
                      else if n <? 62 then n - 4 else if n =? 62 then 45 else 95)%Z).

Fixpoint b64url (l : list Z) : string :=
  match l with
  | [] => ""
  | [a] => String (b64url_digit (a / 4)) (String (b64url_digit ((a mod 4) * 16)) "")
  | [a; b] => String (b64url_digit (a / 4)) (String (b64url_digit ((a mod 4) * 16 + b / 16))
                (String (b64url_digit ((b mod 16) * 4)) ""))
  | a :: b :: c :: l' =>
      String (b64url_digit (a / 4)) (String (b64url_digit ((a mod 4) * 16 + b / 16))
        (String (b64url_digit ((b mod 16) * 4 + c / 64))
           (String (b64url_digit (c mod 64)) (b64url l'))))
  end%Z.

(** [base64.urlsafe_b64encode] *)
Definition b64url_padded (l : list Z) : string :=
  b64url l +:+ String.concat "" (repeat "=" ((3 - List.length l mod 3) mod 3)).

(** ** The module *)

(** The secret, or the message of the [ValueError]. *)
Definition decode_secret (text : string) : list Z + string :=
  let raw := strip text in
  if String.eqb raw "" then inr "volume master secret is empty" else
  let secret := match unhexlify raw with
                | Some s => s
                | None => match b64decode raw with
                          | Some s => s
                          | None => bytes_of (encode raw)
                          end
                end in
  if (List.length secret <? MIN_SECRET_BYTES)%nat
  then inr ("volume master secret must be at least 32 bytes")
  else inl secret.

(** [environ] is [os.environ.get(MASTER_SECRET_ENV, "")]. *)
Definition master_secret (environ : string) : list Z + string := decode_secret environ.

Section Passphrase.
(** [HKDF(SHA256, length, salt, info).derive(secret)] *)
Variable hkdf : nat → string → string → list Z → list Z.

Definition volume_passphrase (secret : list Z) (volume_id : string) : res string :=
  if String.eqb volume_id "" then Raise ValueError else
  mret (b64url (hkdf PASSPHRASE_BYTES (encode volume_id) INFO secret)).
End Passphrase.

(** ** Facts *)

Lemma decode_secret_length text secret :
  decode_secret text = inl secret → (32 ≤ List.length secret)%nat.
Proof.
  unfold decode_secret, MIN_SECRET_BYTES. destruct (String.eqb _ ""); [done|]. cbv zeta.
  destruct (_ <? 32)%nat eqn:E; [done|]. apply Nat.ltb_ge in E. by intros [= <-].
Qed.

(** A passphrase of the alphabet [A-Za-z0-9_-]. *)
Definition is_urlsafe (c : ascii) : bool := is_alnum_ascii c || one_of "-_" c.

Lemma b64url_digit_safe n : (0 ≤ n < 64)%Z → is_urlsafe (b64url_digit n) = true.
Proof.
  intros Hn.
  assert (H : forallb (λ k, is_urlsafe (b64url_digit (Z.of_nat k))) (seq 0 64) = true)
    by (vm_compute; reflexivity).
  rewrite forallb_forall in H. specialize (H (Z.to_nat n)). rewrite Z2Nat.id in H by lia.
  apply H, in_seq. lia.
Qed.

Lemma b64url_safe l : Forall (λ b, 0 ≤ b < 256)%Z l → sforall is_urlsafe (b64url l) = true.
Proof.
  assert (Hlen : ∀ n (l : list Z), (List.length l ≤ n)%nat → Forall (λ b, 0 ≤ b < 256)%Z l →
    sforall is_urlsafe (b64url l) = true); [|intros; by apply (Hlen (List.length l))].
  intros n. induction n as [|n IH]; intros k Hk Hf; [destruct k; [done|simpl in Hk; lia]|].
  destruct k as [|a [|b [|c k]]]; [done|..];
    repeat match goal with H : Forall _ (_ :: _) |- _ => apply Forall_cons in H as [? H] end;
    cbn [b64url sforall]; rewrite ?andb_true_r, !andb_true_iff;
    split_and?; try apply b64url_digit_safe; try (apply IH; [simpl in Hk; lia|done]);
    Z.to_euclidean_division_equations; lia.
Qed.
