(* ===== verification/Volumes.v ===== *)
(** * Ephemeral volumes (validator/storage/volumes.py) *)

From Stdlib Require Import Ascii String QArith.
From S2P Require Import Prelude.
From S2P Require Import PyStr.
From S2P Require Import PyRe.
From S2P Require Import PyRound.
From S2P Require Import PyFloat.
From S2P Require Import PyJson.
From S2P Require Import Sha256.
From S2P Require Import Shell.
From S2P Require Import Runner.
From S2P Require Import Keys.
Local Open Scope string_scope.
Local Open Scope list_scope.

Definition PREFIX : string := "mt-vol-".

Definition name_char (c : ascii) : bool := is_alnum_ascii c || one_of "_.-" c.
Definition path_char (c : ascii) : bool := is_alnum_ascii c || one_of "_./-" c.
Definition user_char (c : ascii) : bool := is_alnum_ascii c || one_of "_.:-" c.

Definition NAME : re :=
  RCat (rlit PREFIX) (RCat (RCls is_alnum_ascii) (rep_upto 60 (RCls name_char))).
Definition MOUNT_PATH : re := RCat (rlit "/") (rep_range 1 200 (RCls path_char)).

Definition CIPHER_PATH : string := "/mnt/mt-cipher".
Definition CREATE_TIMEOUT : pyfloat := fz 10.
Definition CREATE_TIMEOUT_MAX : pyfloat := fz 180.
Definition COMMAND_TIMEOUT : pyfloat := fz 60.
Definition OVERHEAD_GB : pyfloat := fz 20.
Definition FREE_MARGIN_GB : pyfloat := fz 10.
Definition FLOOR_GB : pyfloat := fz 1.
Definition GB : pyfloat := fz 1000000000.

Definition valid (name : string) : bool := re_dollar NAME name.

(** [VolumeNameError] is a [ValueError]. *)
Definition require (name : string) : res string :=
  if negb (valid name) then Raise ValueError else Ok name.

Definition volume_name (job_id : string) : res string := require (PREFIX +:+ job_id).

Definition path_refused (path : string) : bool :=
  negb (re_dollar MOUNT_PATH path) || PyStr.contains ".." path.

Definition require_path (path : string) : res string :=
  if path_refused path then Raise ValueError else Ok path.

(** [math.ceil] *)
Definition fceil (x : pyfloat) : res Z :=
  match x with
  | FFin q => Ok (- (- Qnum q / Zpos (Qden q)))%Z
  | FInf _ => Raise OverflowError
  | FNan => Raise ValueError
  end.

Definition create_timeout (size_gb : pyfloat) : res pyfloat :=
  if fle size_gb (fz 100) then Ok CREATE_TIMEOUT
  else tenth ← fdiv size_gb (fz 10);
       n ← fceil tenth;
       extra ← float_of_int n;
       mret (fmin CREATE_TIMEOUT_MAX (fadd (fz 30) extra)).

Module VolumeSpec.
Record t : Type := Mk {
  name : string; mount_path : string; size_gb : pyfloat; driver : string; sparse : bool;
  encrypted : bool; create : bool }.

Definition payload (v : t) : dict :=
  [("name", JStr v.(name)); ("mount_path", JStr v.(mount_path)); ("size_gb", JFloat v.(size_gb));
   ("driver", JStr v.(driver)); ("sparse", JBool v.(sparse)); ("encrypted", JBool v.(encrypted));
   ("create", JBool v.(create))].

Definition from_payload (p : dict) : res t :=
  size ← get_float_or "size_gb" p;
  mret (Mk (get_str "name" p) (get_str "mount_path" p) size (get_str_or "driver" "" p)
    (get_bool "sparse" false p) (get_bool "encrypted" false p) (get_bool "create" true p)).

Definition problems (v : t) : list string :=
  (if negb (valid v.(name)) then ["volume name " +:+ repr_str v.(name) +:+ " is not accepted"]
   else []) ++
  (if path_refused v.(mount_path)
   then ["mount path " +:+ repr_str v.(mount_path) +:+ " is not accepted"] else []) ++
  (if v.(encrypted) && String.eqb v.(mount_path) CIPHER_PATH
   then ["an encrypted volume cannot mount at the ciphertext path"] else []).

Definition container_target (v : t) : string :=
  if v.(encrypted) then CIPHER_PATH else v.(mount_path).
End VolumeSpec.
Import VolumeSpec(name, mount_path, size_gb, driver, sparse, encrypted, container_target).

Definition mount_args (spec : VolumeSpec.t) : res (list string) :=
  _ ← require spec.(name);
  _ ← require_path spec.(mount_path);
  mret (["-v"; spec.(name) +:+ ":" +:+ container_target spec]
        ++ (if spec.(encrypted) then ["--device"; "/dev/fuse"] else [])).

Definition create_parts (spec : VolumeSpec.t) : res (list string) :=
  name ← require spec.(name);
  size ← (if negb (String.eqb spec.(driver) "") && flt f0 spec.(size_gb) then
            n ← fceil spec.(size_gb); mret ["--opt"; "size=" +:+ str_of_Z (Z.max 1 n) +:+ "G"]
          else mret []);
  mret (["docker"; "volume"; "create"; "--name"; name]
        ++ (if negb (String.eqb spec.(driver) "") then
              ["--driver"; spec.(driver)] ++ size
              ++ (if spec.(sparse) then ["--opt"; "sparse=true"] else [])
            else [])
        ++ ["--label"; "mt.owner=validator"]).

Definition create_command (spec : VolumeSpec.t) : res string :=
  command_line <$> create_parts spec.

(** [(result.error or result.stderr_tail(n)).strip()] *)
Definition failure_text (n : nat) (r : CommandResult) : string :=
  strip (sor r.(error) (stderr_tail n r)).

Section Operations.
Context {H : Type} (env : Env H).
Variable hkdf : nat → string → string → list Z → list Z.

(** [(ok, reason)] *)
Definition create (spec : VolumeSpec.t) : M H (bool * string) :=
  match VolumeSpec.problems spec with
  | p :: _ => mret (false, p)
  | [] =>
      command ← lift (create_command spec);
      timeout ← lift (create_timeout spec.(size_gb));
      result ← run env command timeout;
      if negb (ok result) then mret (false, failure_text 300 result) else mret (true, "")
  end.

Definition destroy_command (name : string) : string := "docker volume rm -f " +:+ quote name.

Definition destroy (name : string) : M H (bool * string) :=
  if negb (valid name)
  then mret (false, "refusing to remove " +:+ repr_str name +:+ ": not an ephemeral volume name")
  else
    result ← run env (destroy_command name) COMMAND_TIMEOUT;
    if ok result || PyStr.contains "no such volume" (lower result.(stderr)) then mret (true, "")
    else mret (false, failure_text 300 result).

Definition list_command : string :=
  "docker volume ls -q --filter name=" +:+ quote ("^" +:+ PREFIX).

Definition list_ours : M H (list string) :=
  result ← run env list_command COMMAND_TIMEOUT;
  if negb (ok result) then mret []
  else mret (List.filter valid (strip <$> splitlines result.(stdout))).

Definition mounts_command : string := "docker ps -a --format '{{.Mounts}}'".

(** The names in use, [None] when they cannot be read. *)
Definition mounted_volumes : M H (option (list string)) :=
  result ← run env mounts_command COMMAND_TIMEOUT;
  if negb (ok result) then mret None
  else mret (Some (List.filter (startswith PREFIX)
         (List.flat_map (λ line, strip <$> split_on "," line) (splitlines result.(stdout))))).

Definition parse_size_bytes (text : string) : pyfloat :=
  match parse_float (strip text) with Some x => x | None => f0 end.

(** [text.splitlines()[-1]] *)
Definition last_line (text : string) : res string :=
  match rev (splitlines text) with l :: _ => Ok l | [] => Raise IndexError end.

Definition size_for (requested_gb share : pyfloat) (quotas : bool) : M H (pyfloat * pyfloat) :=
  if negb quotas || fle requested_gb f0 then mret (requested_gb, f0) else
  root ← run env "docker info --format '{{.DockerRootDir}}'" COMMAND_TIMEOUT;
  if negb (ok root) || String.eqb (strip root.(stdout)) "" then mret (requested_gb, f0) else
  line ← lift (last_line (strip root.(stdout)));
  free ← run env ("df -B1 --output=avail " +:+ quote (strip line) +:+ " | tail -n 1")
           COMMAND_TIMEOUT;
  if negb (ok free) then mret (requested_gb, f0) else
  free_gb ← lift (fdiv (parse_size_bytes free.(stdout)) GB);
  listing ← run env ("docker volume ls -q --filter name=^mt-vol- | xargs -r docker volume inspect --format '{{index .Options " +:+ dqs +:+ "size" +:+ dqs +:+ "}}'") COMMAND_TIMEOUT;
  let existing :=
    if ok listing then
      fold_left (λ acc line, match parse_float (rstrip_set "Gg" (strip line)) with
                             | Some x => fadd acc x | None => acc end)
        (splitlines listing.(stdout)) f0
    else f0 in
  let pool := fmax f0 (fsub (fadd free_gb existing) OVERHEAD_GB) in
  let half := flit (3 # 2) in
  let slice_gb := fmin (fmin (fmul share pool) (fmul requested_gb half))
                    (fmul (fmax f0 (fsub free_gb FREE_MARGIN_GB)) half) in
  volume_gb ← lift (fdiv (fmul slice_gb (fz 2)) (fz 3));
  storage_gb ← lift (fdiv slice_gb (fz 3));
  mret (fmax FLOOR_GB volume_gb, fmax FLOOR_GB storage_gb).

(** ** Encrypted volumes *)

(** [bytes(a ^ b for a, b in zip(raw, pad))] *)
Definition wrap (raw pad : list Z) : list Z := zip_with Z.lxor raw pad.

Definition hex_bytes (l : list Z) : string := hex (of_bytes l).

Definition awk_program : string :=
  "BEGIN{h=" +:+ dqs +:+ "0123456789abcdef" +:+ dqs +:+ ";n=length(w)/2;"
  +:+ "for(i=0;i<n;i++){a=(index(h,substr(w,2*i+1,1))-1)*16+index(h,substr(w,2*i+2,1))-1;"
  +:+ "b=(index(h,substr(k,2*i+1,1))-1)*16+index(h,substr(k,2*i+2,1))-1;"
  +:+ "r=0;p=1;while(a>0||b>0){if((a%2)!=(b%2))r+=p;a=int(a/2);b=int(b/2);p*=2}"
  +:+ "printf " +:+ dqs +:+ "%c" +:+ dqs +:+ ",r}}".

(** [passphrase], the random [pad] of its length and the random token are
    arguments. *)
Definition unwrap_script (passphrase pad token cipher_path plain_path : string) (fresh : bool)
    : string :=
  let raw := bytes_of passphrase in
  let passfile := "/tmp/.mt-" +:+ token in
  let f := dqs +:+ "$F" +:+ dqs in
  let init :=
    if fresh then
      "if [ ! -f " +:+ quote cipher_path +:+ "/gocryptfs.conf ]; then "
      +:+ "gocryptfs -q -init -passfile " +:+ f +:+ " " +:+ quote cipher_path
      +:+ " || exit 3; fi" +:+ nls
    else "[ -f " +:+ quote cipher_path +:+ "/gocryptfs.conf ] || exit 4" +:+ nls in
  "#!/bin/sh" +:+ nls +:+ "set -e" +:+ nls +:+ "umask 077" +:+ nls
  +:+ "F=" +:+ quote passfile +:+ nls
  +:+ "trap 'rm -f " +:+ f +:+ "' EXIT" +:+ nls
  +:+ "awk -v w=" +:+ hex_bytes (wrap raw (bytes_of pad)) +:+ " -v k=" +:+ hex pad +:+ " "
  +:+ quote awk_program +:+ " > " +:+ f +:+ nls
  +:+ "chmod 600 " +:+ f +:+ nls
  +:+ "mkdir -p " +:+ quote cipher_path +:+ " " +:+ quote plain_path +:+ nls
  +:+ init
  +:+ "gocryptfs -q -allow_other -passfile " +:+ f +:+ " " +:+ quote cipher_path +:+ " "
  +:+ quote plain_path +:+ nls.

Definition verify_mount (container path : string) : M H bool :=
  result ← run env ("docker exec " +:+ quote container
                    +:+ " grep -F ' fuse.gocryptfs ' /proc/mounts") COMMAND_TIMEOUT;
  if negb (ok result) then mret false
  else mret (existsb (λ line, match split_ws line with
                              | _ :: p :: t :: _ => String.eqb p path && String.eqb t "fuse.gocryptfs"
                              | _ => false end) (splitlines result.(stdout))).

Definition setup_encrypted (container : string) (spec : VolumeSpec.t) (master_secret : list Z)
    (fresh : bool) : M H (bool * string) :=
  _ ← lift (require spec.(name));
  _ ← lift (require_path spec.(mount_path));
  passphrase ← lift (volume_passphrase hkdf master_secret spec.(name));
  st ← get;
  let pad := env.(rand_bytes) (slen passphrase) st.(host) in
  let script := unwrap_script passphrase pad (env.(rand_hex) 0 st.(host)) CIPHER_PATH
                  spec.(mount_path) fresh in
  let script_path := "/tmp/.mt-" +:+ env.(rand_hex) 1 st.(host) +:+ ".sh" in
  let quoted := quote container in
  written ← run_with env ("docker exec -i " +:+ quoted +:+ " sh -c "
              +:+ quote ("umask 077; cat > " +:+ script_path)) COMMAND_TIMEOUT (Some script);
  if negb (ok written) then
    mret (false, "could not deliver the mount script: " +:+ failure_text 200 written)
  else
  ran ← run env ("docker exec " +:+ quoted +:+ " sh -c "
          +:+ quote ("sh " +:+ script_path +:+ "; s=$?; rm -f " +:+ script_path +:+ "; exit $s"))
          (fz 120);
  if negb (ok ran) then
    if (ran.(exit_code) =? 4)%Z
    then mret (false, "gocryptfs.conf is missing: the volume data is gone, refusing to re-initialise")
    else mret (false, "gocryptfs mount failed: " +:+ failure_text 300 ran)
  else
  mounted ← verify_mount container spec.(mount_path);
  if negb mounted then mret (false, "the encrypted mount is not present in /proc/mounts")
  else mret (true, "").

Definition grant_workspace (container path user : string) : M H bool :=
  if negb (re_dollar (rep_range 1 64 (RCls user_char)) user) then mret false else
  path ← lift (require_path path);
  result ← run env ("docker exec " +:+ quote container +:+ " chown " +:+ quote user +:+ " "
                    +:+ quote path) COMMAND_TIMEOUT;
  mret (ok result).
End Operations.

(** ** Facts *)

(** A command that removes a volume of ours, and nothing else. *)
Definition removes_ours (e : event) : Prop :=
  ∃ name, valid name = true ∧ e.(ecommand) = destroy_command name.

Lemma destroy_issues {H} (env : Env H) name : issues removes_ours (destroy env name).
Proof.
  unfold destroy. destruct (valid name) eqn:E; cbn [negb]; issues. by exists name.
Qed.

(** An accepted name carries the prefix: nothing else is ever removed. *)
Lemma valid_prefix name : valid name = true → startswith PREFIX name = true.
Proof.
  unfold valid, NAME, startswith. rewrite re_dollar_spec, prefix_spec.
  intros [H|(t & -> & H)]; apply matches_cat in H as (u & v & -> & Hu & _);
    apply matches_lit in Hu as ->; rewrite ?app_assoc_s; eauto.
Qed.

Lemma list_ours_valid {H} (env : Env H) st names st' :
  list_ours env st = (Ok names, st') → Forall (λ n, valid n = true) names.
Proof.
  unfold list_ours, mbind, M_bind. destruct (run _ _ _ st) as [[r|] st1] eqn:E; [|done].
  destruct (ok r); cbn; intros [= <- <-]; [|done].
  apply Forall_forall. intros n Hn. by apply list_elem_of_In, filter_In in Hn as [_ ?].
Qed.

Lemma wrap_unwrap raw pad :
  (List.length raw ≤ List.length pad)%nat → wrap (wrap raw pad) pad = raw.
Proof.
  unfold wrap. revert pad. induction raw as [|x raw IH]; intros pad Hl; [done|].
  destruct pad as [|y pad]; cbn in *; [lia|]. rewrite IH by lia.
  f_equal. by rewrite Z.lxor_assoc, Z.lxor_nilpotent, Z.lxor_0_r.
Qed.
