(* ===== verification/Power.v ===== *)
(** * Power limits (validator/work/power.py)

    The original limits remembered per card, the caps of a job and their
    restoration. *)

From Stdlib Require Import Ascii String QArith.
From S2P Require Import Prelude.
From S2P Require Import PyStr.
From S2P Require Import PyRound.
From S2P Require Import PyFloat.
From S2P Require Import PyJson.
From S2P Require Import Shell.
From S2P Require Import Runner.
Local Open Scope string_scope.
Local Open Scope list_scope.

Definition NVIDIA_SMI_TIMEOUT : pyfloat := fz 30.
Definition MIN_RATIO : pyfloat := flit (9 # 10).
Definition STALE_GRACE_SECONDS : pyfloat := fz 1800.

Record PowerState : Type := MkPowerState {
  limit_w : pyfloat; default_w : pyfloat; min_w : pyfloat; max_w : pyfloat; persistence : bool }.

(** ** The records

    Every change is saved at once, so the file always holds the records. *)

Definition remember_original (uuid : string) (original job_id_time : pyfloat) (job_id : string)
    (r : PowerRecords) : PowerRecords :=
  let gpus := if dmem uuid r.(gpus) then r.(gpus)
              else dset uuid (MkOriginal original job_id_time job_id) r.(gpus) in
  let held := default [] (dget job_id r.(jobs)) in
  MkRecords gpus (dset job_id (if bool_decide (uuid ∈ held) then held else held ++ [uuid]) r.(jobs)).

Definition original (uuid : string) (r : PowerRecords) : option pyfloat :=
  original_w <$> dget uuid r.(gpus).

Definition forget (uuid : string) (job_id : option string) (r : PowerRecords) : PowerRecords :=
  MkRecords (dpop uuid r.(gpus))
    (match job_id with
     | None => r.(jobs)
     | Some j =>
         match List.filter (λ u, negb (String.eqb u uuid)) (default [] (dget j r.(jobs))) with
         | [] => dpop j r.(jobs)
         | remaining => dset j remaining r.(jobs)
         end
     end).

Definition stale (now : pyfloat) (r : PowerRecords) : list string :=
  (List.filter (λ kv, flt STALE_GRACE_SECONDS (fsub now kv.2.(recorded_at))) r.(gpus)).*1.

Section Operations.
Context {H : Type} (env : Env H).

Definition query_command (uuid : string) : string :=
  "nvidia-smi -i " +:+ quote uuid +:+ " --query-gpu=power.limit,power.default_limit,power.min_limit,power.max_limit,persistence_mode --format=csv,noheader,nounits".

(** The five fields of the last line, or nothing. *)
Definition parse_state (stdout : string) : option PowerState :=
  let parts := match strip stdout with
               | "" => []
               | text => strip <$> split_on "," (List.last (splitlines text) "")
               end in
  match parts with
  | [a; b; c; d; e] =>
      limit ← parse_float a; dflt ← parse_float b; lo ← parse_float c; hi ← parse_float d;
      Some (MkPowerState limit dflt lo hi (startswith "enabled" (lower e)))
  | _ => None
  end.

Definition read_state (uuid : string) : M H (option PowerState) :=
  result ← run env (query_command uuid) NVIDIA_SMI_TIMEOUT;
  if negb (ok result) then mret None else mret (parse_state result.(stdout)).

Definition limit_command (uuid : string) (watts : Z) : string :=
  "nvidia-smi -i " +:+ quote uuid +:+ " -pl " +:+ str_of_Z watts.

Definition set_limit (uuid : string) (watts : pyfloat) : M H (option PowerState) :=
  _ ← run env ("nvidia-smi -i " +:+ quote uuid +:+ " -pm 1") NVIDIA_SMI_TIMEOUT;
  rounded ← lift (fround_int watts);
  result ← run env (limit_command uuid rounded) NVIDIA_SMI_TIMEOUT;
  if negb (ok result) then mret None else
  state ← read_state uuid;
  match state with
  | Some s => if flt (fz 1) (fabs (fsub s.(limit_w) watts)) then mret None else mret (Some s)
  | None => mret None
  end.

Definition update_records (f : PowerRecords → PowerRecords) : M H unit :=
  st ← get; set_records (f st.(records)).

Definition restore_one (job_id uuid : string) : M H (option string) :=
  st ← get;
  match original uuid st.(records) with
  | None => _ ← update_records (forget uuid (Some job_id)); mret None
  | Some watts =>
      state ← set_limit uuid watts;
      match state with
      | Some _ => _ ← update_records (forget uuid (Some job_id)); mret (Some uuid)
      | None => mret None
      end
  end.

Definition restore_job (job_id : string) : M H (list string) :=
  st ← get;
  collect (restore_one job_id) (default [] (dget job_id st.(records).(jobs))).

(** [records.original(uuid) or state.limit_w] *)
Definition original_or (uuid : string) (r : PowerRecords) (dflt : pyfloat) : pyfloat :=
  match original uuid r with Some w => if ftruthy w then w else dflt | None => dflt end.

Fixpoint apply_caps (job_id : string) (caps : list (string * pyfloat)) : M H (bool * string) :=
  match caps with
  | [] => mret (true, "")
  | (uuid, requested) :: caps' =>
      state ← read_state uuid;
      match state with
      | None =>
          _ ← restore_job job_id; mret (false, uuid +:+ ": could not read power state")
      | Some s =>
          let target := fmin (fmax requested s.(min_w)) s.(max_w) in
          now ← time env;
          _ ← update_records (λ r,
                remember_original uuid (original_or uuid r s.(limit_w)) now job_id r);
          set ← set_limit uuid target;
          match set with
          | None =>
              _ ← restore_job job_id;
              mret (false, uuid +:+ ": limit " +:+ format_fixed 0 target +:+ " W did not read back")
          | Some _ => apply_caps job_id caps'
          end
      end
  end.

Definition raise_one (uuid : string) : M H (option string) :=
  state ← read_state uuid;
  match state with
  | Some s =>
      if fle s.(default_w) f0 then mret None
      else if flt s.(limit_w) (fmul MIN_RATIO s.(default_w)) then
        set ← set_limit uuid s.(default_w);
        mret (match set with Some _ => Some uuid | None => None end)
      else mret None
  | None => mret None
  end.

Definition raise_low_limits (uuids : list string) : M H (list string) := collect raise_one uuids.
End Operations.

(** ** Facts *)

(** A computation that leaves the power records alone. *)
Definition keeps_records {H A} (m : M H A) : Prop := ∀ st, records (m st).2 = records st.

Lemma keeps_bind {H A B} (m : M H A) (f : A → M H B) :
  keeps_records m → (∀ a, keeps_records (f a)) → keeps_records (m ≫= f).
Proof.
  intros Hm Hf st. unfold mbind, M_bind. specialize (Hm st).
  destruct (m st) as [[a|e] st']; cbn in *; [|done]. by rewrite Hf.
Qed.

Lemma keeps_run {H} (env : Env H) c t : keeps_records (run env c t).
Proof. intros st. unfold run, run_with. by destruct (exec _ _ _ _ _). Qed.

Lemma keeps_ret {H A} (a : A) : keeps_records (mret a : M H A).
Proof. done. Qed.

Lemma keeps_lift {H A} (r : res A) : keeps_records (lift r : M H A).
Proof. done. Qed.

#[export] Hint Resolve keeps_run keeps_ret keeps_lift : py.

Lemma keeps_read_state {H} (env : Env H) uuid : keeps_records (read_state env uuid).
Proof. apply keeps_bind; auto with py. intros r. destruct (negb _); auto with py. Qed.

#[export] Hint Resolve keeps_read_state : py.

Lemma keeps_set_limit {H} (env : Env H) uuid w : keeps_records (set_limit env uuid w).
Proof.
  unfold set_limit. repeat (apply keeps_bind; [auto with py|intros ?]).
  destruct (negb _); auto with py. apply keeps_bind; [auto with py|].
  intros [s|]; [destruct (flt _ _)|]; auto with py.
Qed.

(** A limit counts as set only when the card reads it back within a watt. *)
Lemma set_limit_reads_back {H} (env : Env H) uuid w st s st' :
  set_limit env uuid w st = (Ok (Some s), st') →
  flt (fz 1) (fabs (fsub s.(limit_w) w)) = false.
Proof.
  unfold set_limit. intros Hs. m_inv; simplify_eq. done.
Qed.

Lemma records_update {H} (f : PowerRecords → PowerRecords) (st : St H) :
  records (update_records f st).2 = f (records st).
Proof. done. Qed.

(** What one restoration does to the remembered originals. *)
Lemma restore_one_spec {H} (env : Env H) job uuid st out st' :
  restore_one env job uuid st = (Ok out, st') →
  ∀ u o, dget u (gpus (records st)) = Some o →
    dget u (gpus (records st')) = Some o ∨
    (dget u (gpus (records st')) = None ∧ out = Some u).
Proof.
  unfold restore_one. intros Hr u o Ho. apply M_bind_ok in Hr as (s0 & st0 & [= <- <-] & Hr).
  unfold original in Hr. destruct (dget uuid (gpus (records st))) as [w|] eqn:Ew; cbn in Hr.
  - apply M_bind_ok in Hr as (state & st1 & Hs & Hr).
    pose proof (keeps_set_limit env uuid (original_w w) st) as Hk. rewrite Hs in Hk. cbn in Hk.
    destruct state as [p|]; [|apply M_ret_ok in Hr as [_ <-]; left; by rewrite Hk].
    apply M_bind_ok in Hr as ([] & st2 & Hu & Hr). apply M_ret_ok in Hr as [<- <-].
    injection Hu as <-. cbn. rewrite Hk, dget_dpop_dec. case_decide; [right; by subst|by left].
  - apply M_bind_ok in Hr as ([] & st2 & Hu & Hr). apply M_ret_ok in Hr as [<- <-].
    injection Hu as <-. cbn. rewrite dget_dpop_dec. case_decide; [congruence|by left].
Qed.

(** A card without a remembered original gets none from a restoration. *)
Lemma restore_one_absent {H} (env : Env H) job uuid st out st' u :
  restore_one env job uuid st = (Ok out, st') →
  dget u (gpus (records st)) = None → dget u (gpus (records st')) = None.
Proof.
  unfold restore_one. intros Hr Hn. apply M_bind_ok in Hr as (s0 & st0 & [= <- <-] & Hr).
  destruct (original uuid (records st)) as [w|].
  - apply M_bind_ok in Hr as (state & st1 & Hs & Hr).
    pose proof (keeps_set_limit env uuid w st) as Hk. rewrite Hs in Hk. cbn in Hk.
    destruct state; [|apply M_ret_ok in Hr as [_ <-]; by rewrite Hk].
    apply M_bind_ok in Hr as ([] & st2 & [= <-] & Hr). apply M_ret_ok in Hr as [_ <-].
    cbn. rewrite dget_dpop_dec, Hk, Hn. by case_decide.
  - apply M_bind_ok in Hr as ([] & st2 & [= <-] & Hr). apply M_ret_ok in Hr as [_ <-].
    cbn. rewrite dget_dpop_dec, Hn. by case_decide.
Qed.

Lemma restore_all_absent {H} (env : Env H) job l u : ∀ st out st',
  collect (restore_one env job) l st = (Ok out, st') →
  dget u (gpus (records st)) = None → dget u (gpus (records st')) = None.
Proof.
  induction l as [|x l IH]; intros st out st' Hc Hn; cbn in Hc; [by apply M_ret_ok in Hc as [_ <-]|].
  apply M_bind_ok in Hc as (y & st1 & H1 & Hc). apply M_bind_ok in Hc as (ys & st2 & H2 & Hc).
  apply M_ret_ok in Hc as [_ <-]. eapply IH; [exact H2|]. by eapply restore_one_absent.
Qed.

Lemma restore_all_spec {H} (env : Env H) job l : ∀ st out st',
  collect (restore_one env job) l st = (Ok out, st') →
  ∀ u o, dget u (gpus (records st)) = Some o →
    dget u (gpus (records st')) = Some o ∨ (dget u (gpus (records st')) = None ∧ u ∈ out).
Proof.
  induction l as [|x l IH]; intros st out st' Hc u o Ho; cbn in Hc.
  - apply M_ret_ok in Hc as [<- <-]. by left.
  - apply M_bind_ok in Hc as (y & st1 & H1 & Hc). apply M_bind_ok in Hc as (ys & st2 & H2 & Hc).
    apply M_ret_ok in Hc as [<- <-].
    destruct (restore_one_spec env job x st y st1 H1 u o Ho) as [Hs|[Hn ->]].
    + destruct (IH _ _ _ H2 u o Hs) as [?|[? ?]]; [by left|right].
      split; [done|]. destruct y; [by right|done].
    + right. split; [by eapply restore_all_absent|by left].
Qed.

Lemma remember_gpus uuid w t job r u :
  dget u (gpus (remember_original uuid w t job r)) =
  match dget u (gpus r) with
  | Some o => Some o
  | None => if decide (uuid = u) then Some (MkOriginal w t job) else None
  end.
Proof.
  unfold remember_original, dmem. cbn. destruct (dget uuid (gpus r)) as [o|] eqn:E.
  - destruct (dget u (gpus r)) eqn:E2; [done|]. case_decide; congruence.
  - rewrite dget_dset_dec. case_decide; subst; [by rewrite E|]. by destruct (dget u (gpus r)).
Qed.

Lemma apply_caps_ok {H} (env : Env H) job caps : ∀ st reason st',
  apply_caps env job caps st = (Ok (true, reason), st') →
  ∀ u, (∀ o, dget u (gpus (records st)) = Some o → dget u (gpus (records st')) = Some o) ∧
       (u ∈ caps.*1 → is_Some (dget u (gpus (records st')))).
Proof.
  induction caps as [|[uuid requested] caps IH]; intros st reason st' Hc u; cbn [apply_caps] in Hc.
  - apply M_ret_ok in Hc as [_ <-]. split; [done|]. by intros ?%not_elem_of_nil.
  - apply M_bind_ok in Hc as (state & st1 & H1 & Hc).
    pose proof (keeps_read_state env uuid st) as Hk1. rewrite H1 in Hk1. cbn in Hk1.
    destruct state as [s|]; [|apply M_bind_ok in Hc as (? & ? & _ & Hc); by apply M_ret_ok in Hc as [? _]].
    apply M_bind_ok in Hc as (now & st2 & [= _ <-] & Hc).
    apply M_bind_ok in Hc as ([] & st3 & Hu & Hc). injection Hu as <-.
    apply M_bind_ok in Hc as (set & st4 & Hs & Hc).
    match type of Hs with set_limit _ _ ?w ?s = _ =>
      pose proof (keeps_set_limit env uuid w s) as Hk2; rewrite Hs in Hk2; cbn in Hk2 end.
    destruct set as [s'|]; [|apply M_bind_ok in Hc as (? & ? & _ & Hc); by apply M_ret_ok in Hc as [? _]].
    destruct (IH _ _ _ Hc u) as [Hkeep Hin]. rewrite Hk2, remember_gpus, Hk1 in Hkeep.
    split.
    + intros o Ho. rewrite Ho in Hkeep. by apply Hkeep.
    + intros [->|Hu]%elem_of_cons; [|by apply Hin]. rewrite decide_True in Hkeep by done.
      cbn [fst] in Hkeep |- *. clear -Hkeep.
      destruct (dget uuid (gpus (records st))) as [p|]; eexists; exact (Hkeep _ eq_refl).
Qed.

(** ** Properties *)

(** A remembered original limit is given up only once the card has read it
    back: after restoring a job, every original is either still recorded,
    unchanged, or among the cards reported restored. *)
Lemma restore_job_keeps {H} (env : Env H) job st restored st' uuid o :
  restore_job env job st = (Ok restored, st') →
  dget uuid (gpus (records st)) = Some o →
  dget uuid (gpus (records st')) = Some o ∨
  (dget uuid (gpus (records st')) = None ∧ uuid ∈ restored).
Proof.
  intros Hr Ho. apply M_bind_ok in Hr as (s & st0 & [= <- <-] & Hr).
  by apply (restore_all_spec env job _ st restored st' Hr).
Qed.

(** When the caps of a job are applied, the limit each card had before any job
    touched it is on record: a second job on the same card never overwrites the
    original the first one saved. *)
Lemma apply_caps_remembers {H} (env : Env H) job caps st reason st' uuid :
  apply_caps env job caps st = (Ok (true, reason), st') → uuid ∈ caps.*1 →
  is_Some (dget uuid (gpus (records st'))) ∧
  ∀ o, dget uuid (gpus (records st)) = Some o → dget uuid (gpus (records st')) = Some o.
Proof.
  intros Hc Hu. destruct (apply_caps_ok env job caps st reason st' Hc uuid) as [Hkeep Hin].
  split; [by apply Hin|done].
Qed.

(** A host whose only card reports and accepts a limit of its own. *)
Definition sample_line : string := "250.00, 300.00, 100.00, 350.00, Enabled".
Definition sample_env : Env unit :=
  MkEnv unit (λ c _ _ h, (MkResult c 0 sample_line "" f0 "", h)) (λ _ h, h) (λ _, f0) (λ _, f0)
    (λ _, []) (λ _ _, "") (λ _ _, "") (λ _, None).
Definition sample_st (r : PowerRecords) : St unit := MkSt tt [] (MkInflight [] []) r [] [].
Definition sample_records : PowerRecords :=
  MkRecords [("GPU-1", MkOriginal (fz 250) f0 "job")] [("job", ["GPU-1"])].

Lemma restore_job_keeps_witness :
  ∃ restored st', restore_job sample_env "job" (sample_st sample_records) = (Ok restored, st') ∧
    (dget "GPU-1" (gpus (records st')) = Some (MkOriginal (fz 250) f0 "job") ∨
     (dget "GPU-1" (gpus (records st')) = None ∧ "GPU-1" ∈ restored)).
Proof.
  destruct (restore_job sample_env "job" (sample_st sample_records)) as [[r|] st'] eqn:E;
    [|vm_compute in E; discriminate].
  exists r, st'. split; [done|].
  exact (restore_job_keeps sample_env "job" (sample_st sample_records) r st' "GPU-1" _ E eq_refl).
Defined.

Lemma apply_caps_remembers_witness :
  ∃ st', apply_caps sample_env "next" [("GPU-1", fz 250)] (sample_st sample_records) =
    (Ok (true, ""), st') ∧ dget "GPU-1" (gpus (records st')) = Some (MkOriginal (fz 250) f0 "job").
Proof.
  destruct (apply_caps sample_env "next" [("GPU-1", fz 250)] (sample_st sample_records))
    as [[[[] reason]|] st'] eqn:E; [|vm_compute in E; discriminate..].
  assert (reason = "") as -> by (vm_compute in E; congruence).
  exists st'. split; [done|].
  apply (apply_caps_remembers sample_env "next" [("GPU-1", fz 250)] (sample_st sample_records) ""
    st' "GPU-1" E); [|reflexivity].
  apply list_elem_of_here.
Defined.
