(* ===== verification/GpuWedge.v ===== *)
(** * Wedged cards (validator/recovery/gpu_wedge.py) *)

From Stdlib Require Import Ascii String QArith.
From S2P Require Import Prelude.
From S2P Require Import PyStr.
From S2P Require Import PyFloat.
From S2P Require Import PyJson.
From S2P Require Import Shell.
From S2P Require Import Runner.
Local Open Scope string_scope.
Local Open Scope list_scope.

Definition UTILISATION_MIN : pyfloat := fz 95.
Definition MEMORY_MAX_PERCENT : pyfloat := fz 1.
Definition SWEEP_MEMORY_MAX_MIB : pyfloat := fz 16.
Definition SETTLE_SECONDS : pyfloat := fz 5.
Definition QUERY_TIMEOUT : pyfloat := fz 30.
Definition CURE_TIMEOUT : pyfloat := fz 60.
Definition CURE_MARKER : string := "ctx open/close OK".

Definition QUERY_WEDGE : string :=
  "nvidia-smi --query-gpu=uuid,utilization.gpu,memory.used --format=csv,noheader,nounits".
Definition QUERY_APPS : string := "nvidia-smi --query-compute-apps=pid --format=csv,noheader".

Definition CURE_SNIPPET : string :=
  "import ctypes,sys;"
  +:+ "l=ctypes.CDLL('libcuda.so.1');"
  +:+ "assert l.cuInit(0)==0,'cuInit';"
  +:+ "d=ctypes.c_int();"
  +:+ "assert l.cuDeviceGet(ctypes.byref(d),0)==0,'cuDeviceGet';"
  +:+ "c=ctypes.c_void_p();"
  +:+ "assert l.cuCtxCreate_v2(ctypes.byref(c),0,d)==0,'cuCtxCreate';"
  +:+ "assert l.cuCtxDestroy_v2(c)==0,'cuCtxDestroy';"
  +:+ "print('" +:+ CURE_MARKER +:+ "')".

Record SweepResult : Type := MkSweep {
  wedged : list string; cured : list string; still_wedged : list string; skipped : string }.

Definition jstrs (l : list string) : json := JList (JStr <$> l).

Definition sweep_payload (r : SweepResult) : dict :=
  [("wedged", jstrs r.(wedged)); ("cured", jstrs r.(cured));
   ("still_wedged", jstrs r.(still_wedged)); ("skipped", JStr r.(skipped))].

Definition looks_wedged (utilisation memory_used_mib : pyfloat) : bool :=
  fle UTILISATION_MIN utilisation && fle memory_used_mib SWEEP_MEMORY_MAX_MIB.

Definition candidate_from_scrape (gpu : dict) (processes : list json) : res bool :=
  match processes with
  | _ :: _ => Ok false
  | [] =>
      let uuid := py_str (jor (getv "uuid" gpu) (JStr "")) in
      try_except
        (utilisation ← py_float (jor (getv "utilization" gpu) (JFloat f0));
         memory ← py_float (jor (getv "memory_utilization" gpu) (JFloat f0));
         mret (negb (String.eqb uuid "") && fle UTILISATION_MIN utilisation
               && fle memory MEMORY_MAX_PERCENT))
        [TypeError; ValueError] false
  end.

(** One line of the query: the uuid of a card that looks wedged. *)
Definition parse_line (line : string) : option string :=
  match strip <$> split_on "," line with
  | [uuid; u; m] =>
      if negb (startswith "GPU-" uuid) then None else
      utilisation ← parse_float u; memory ← parse_float m;
      if looks_wedged utilisation memory then Some uuid else None
  | _ => None
  end.

Definition parse_query (stdout : string) : list string := list_omap _ _ parse_line (splitlines stdout).

Section Operations.
Context {H : Type} (env : Env H).

(** The two queries are gathered: both start, in this order. *)
Definition query_wedged : M H (list string * string) :=
  apps ← run env QUERY_APPS QUERY_TIMEOUT;
  sample ← run env QUERY_WEDGE QUERY_TIMEOUT;
  if negb (ok apps) || negb (ok sample) then
    mret ([], strip ("query failed: " +:+ sor apps.(error) (stderr_tail 200 apps) +:+ " "
                     +:+ sor sample.(error) (stderr_tail 200 sample)))
  else if negb (String.eqb (strip apps.(stdout)) "") then
    mret ([], "compute processes present, wedge signature cannot apply")
  else mret (parse_query sample.(stdout), "").

Definition wedged_gpus : M H (list string * string) :=
  first ← query_wedged;
  if negb (String.eqb first.2 "") || bool_decide (first.1 = []) then mret ([], first.2) else
  _ ← sleep env SETTLE_SECONDS;
  second ← query_wedged;
  if negb (String.eqb second.2 "") then mret ([], second.2)
  else mret (List.filter (λ u, bool_decide (u ∈ second.1)) first.1, "").

Definition cure_command (uuid : string) : string :=
  "CUDA_VISIBLE_DEVICES=" +:+ quote uuid +:+ " python3 -c " +:+ quote CURE_SNIPPET.

Definition cure (uuid : string) : M H bool :=
  result ← run env (cure_command uuid) CURE_TIMEOUT;
  mret (ok result && PyStr.contains CURE_MARKER result.(stdout)).

Definition sweep : M H SweepResult :=
  found ← wedged_gpus;
  let '(wedged, skipped) := found in
  if negb (String.eqb skipped "") then mret (MkSweep [] [] [] skipped) else
  if bool_decide (wedged = []) then mret (MkSweep [] [] [] "") else
  _ ← for_each (λ uuid, _ ← cure uuid; mret tt) wedged;
  remaining ← query_wedged;
  let still := List.filter (λ u, bool_decide (u ∈ remaining.1)) wedged in
  let cured := List.filter (λ u, negb (bool_decide (u ∈ still))) wedged in
  mret (MkSweep wedged cured still "").
End Operations.

(** ** Facts *)

Lemma sweep_issues {H} (P : event → Prop) (env : Env H) :
  (∀ c t i r, c = QUERY_APPS ∨ c = QUERY_WEDGE ∨ (∃ u, c = cure_command u) →
     P (MkEvent c t i r)) →
  issues P (sweep env).
Proof.
  intros HP.
  assert (Hq : issues P (query_wedged env)) by (unfold query_wedged; issues; apply HP; auto).
  assert (Hw : issues P (wedged_gpus env)).
  { unfold wedged_gpus. apply issues_bind; [done|]. intros [a b].
    destruct (_ || _); [auto with py|]. apply issues_bind; [auto with py|]. intros _.
    apply issues_bind; [done|]. intros [c d]. destruct (negb _); auto with py. }
  unfold sweep. apply issues_bind; [done|]. intros [a b].
  destruct (negb _); [auto with py|]. destruct (bool_decide _); [auto with py|].
  apply issues_bind.
  - apply issues_for_each. intros u _. unfold cure. issues. apply HP. eauto.
  - intros _. apply issues_bind; [done|]. intros; auto with py.
Qed.

(** ** Properties *)

(** A sweep accounts for every card exactly once: the cards it calls wedged are
    split into cured and still wedged, in their order, and a card counts as
    wedged only if both samples showed it. *)
Lemma sweep_partition {H} (env : Env H) st r st' :
  sweep env st = (Ok r, st') →
  (∀ u, u ∈ r.(wedged) ↔ u ∈ r.(cured) ∨ u ∈ r.(still_wedged)) ∧
  (∀ u, u ∈ r.(cured) → u ∉ r.(still_wedged)) ∧
  (r.(skipped) ≠ "" → r.(wedged) = []).
Proof.
  unfold sweep. intros Hs. apply M_bind_ok in Hs as ([w sk] & st1 & Hw & Hs).
  destruct (String.eqb_spec sk ""); cbn [negb] in Hs;
    [|apply M_ret_ok in Hs as [<- _]; cbn; set_solver].
  destruct (bool_decide (w = [])) eqn:Ew; [apply M_ret_ok in Hs as [<- _]; cbn; set_solver|].
  apply M_bind_ok in Hs as ([] & st2 & _ & Hs). apply M_bind_ok in Hs as ([rem sk2] & st3 & _ & Hs).
  apply M_ret_ok in Hs as [<- _]. cbn.
  assert (Hf : ∀ u f (l : list string), u ∈ List.filter f l ↔ u ∈ l ∧ f u = true).
  { intros u f l. by rewrite !list_elem_of_In, filter_In. }
  split_and!; [|intros u|done]; [intros u|]; rewrite !Hf; cbv beta;
    rewrite negb_true_iff, bool_decide_eq_false, Hf; cbv beta; rewrite !bool_decide_eq_true.
  - destruct (decide (u ∈ rem)); tauto.
  - tauto.
Qed.

Lemma sweep_partition_witness :
  let env := MkEnv nat (λ c _ _ n, (MkResult c 0 (if String.eqb c QUERY_WEDGE then
      (if (n <? 4)%nat then "GPU-1, 100, 0" else "GPU-1, 0, 0") else "") "" f0 "", S n))
    (λ _ n, n) (λ _, f0) (λ _, f0) (λ _, []) (λ _ _, "") (λ _ _, "") (λ _, None) in
  let st := MkSt 0%nat [] (MkInflight [] []) (MkRecords [] []) [] [] in
  ∃ r st', sweep env st = (Ok r, st') ∧ r.(wedged) = ["GPU-1"] ∧ "GPU-1" ∉ r.(still_wedged).
Proof.
  intros env st. destruct (sweep env st) as [[r|] st'] eqn:E; [|vm_compute in E; discriminate].
  exists r, st'. split; [done|].
  assert (Hr : r = MkSweep ["GPU-1"] ["GPU-1"] [] "") by (vm_compute in E; congruence).
  destruct (sweep_partition env st r st' E) as (_ & Hc & _). split; [by rewrite Hr|].
  apply Hc. rewrite Hr. apply list_elem_of_here.
Defined.
