(* ===== verification/Teardown.v ===== *)
(** * After a teardown (validator/recovery/teardown.py) *)

From Stdlib Require Import Ascii String QArith.
From S2P Require Import Prelude.
From S2P Require Import PyStr.
From S2P Require Import PyRe.
From S2P Require Import PyFloat.
From S2P Require Import PyJson.
From S2P Require Import Shell.
From S2P Require Import Runner.
From S2P Require Import Volumes.
From S2P Require Import GpuWedge.
Local Open Scope string_scope.
Local Open Scope list_scope.

Definition SCRUB_TIMEOUT : pyfloat := fz 120.
Definition CHUNK_BYTES : Z := 256 * 1024 * 1024.
Definition SCRUB_MARKER : string := "scrubbed_bytes=".

Definition SCRUB_SNIPPET : string :=
  String.concat "" ((λ l, l +:+ nls) <$>
  ["import ctypes,sys";
   "chunk=" +:+ str_of_Z CHUNK_BYTES;
   "def runtime():";
   "    for name in ('libcudart.so','libcudart.so.12','libcudart.so.11.0'):";
   "        try: return ctypes.CDLL(name)";
   "        except OSError: pass";
   "    return None";
   "total=0";
   "rt=runtime()";
   "if rt is not None:";
   "    assert rt.cudaSetDevice(0)==0,'cudaSetDevice'";
   "    held=[]";
   "    while True:";
   "        p=ctypes.c_void_p()";
   "        if rt.cudaMalloc(ctypes.byref(p),ctypes.c_size_t(chunk))!=0: break";
   "        assert rt.cudaMemset(p,0,ctypes.c_size_t(chunk))==0,'cudaMemset'";
   "        held.append(p); total+=chunk";
   "    assert rt.cudaDeviceSynchronize()==0,'cudaDeviceSynchronize'";
   "    for p in held: rt.cudaFree(p)";
   "    rt.cudaDeviceReset()";
   "else:";
   "    cu=ctypes.CDLL('libcuda.so.1')";
   "    assert cu.cuInit(0)==0,'cuInit'";
   "    d=ctypes.c_int(); assert cu.cuDeviceGet(ctypes.byref(d),0)==0,'cuDeviceGet'";
   "    c=ctypes.c_void_p(); assert cu.cuCtxCreate_v2(ctypes.byref(c),0,d)==0,'cuCtxCreate'";
   "    held=[]";
   "    while True:";
   "        p=ctypes.c_uint64()";
   "        if cu.cuMemAlloc_v2(ctypes.byref(p),ctypes.c_size_t(chunk))!=0: break";
   "        assert cu.cuMemsetD8_v2(p,ctypes.c_ubyte(0),ctypes.c_size_t(chunk))==0,'cuMemsetD8'";
   "        held.append(p); total+=chunk";
   "    assert cu.cuCtxSynchronize()==0,'cuCtxSynchronize'";
   "    for p in held: cu.cuMemFree_v2(p)";
   "    cu.cuCtxDestroy_v2(c)";
   "print('" +:+ SCRUB_MARKER +:+ "%d'%total)"]).

(** [^GPU-[0-9a-f-]{36}$] *)
Definition is_uuid_char (c : ascii) : bool := is_hex c || Ascii.eqb c "-"%char.
Definition GPU_UUID : re := RCat (rlit "GPU-") (rep 36 (RCls is_uuid_char)).
Definition gpu_uuid_ok (uuid : string) : bool := re_dollar GPU_UUID uuid.

(** The value of the leading run of digits, if there is one. *)
Fixpoint digit_run (run : option Z) (s : string) : option Z :=
  match s with
  | String c s' => if is_digit c then digit_run (Some (default 0 run * 10 + digit_val c)%Z) s' else run
  | "" => run
  end.

(** [SCRUB_PATTERN.search(text)], the number it captures *)
Fixpoint scrub_search (s : string) : option Z :=
  match (if startswith SCRUB_MARKER s then digit_run None (sdrop (slen SCRUB_MARKER) s) else None) with
  | Some n => Some n
  | None => match s with String _ s' => scrub_search s' | "" => None end
  end.

Record TeardownReport : Type := MkReport {
  scrubbed : list (string * Z); scrub_errors : list (string * string);
  volumes_removed : list string; volume_errors : list (string * string); wedge : dict }.

Definition report_payload (r : TeardownReport) : dict :=
  [("scrubbed", JDict ((λ kv, (kv.1, JInt kv.2)) <$> r.(scrubbed)));
   ("scrub_errors", JDict ((λ kv, (kv.1, JStr kv.2)) <$> r.(scrub_errors)));
   ("volumes_removed", jstrs r.(volumes_removed));
   ("volume_errors", JDict ((λ kv, (kv.1, JStr kv.2)) <$> r.(volume_errors)));
   ("wedge", JDict r.(wedge))].

(** The two entries a step of [after_teardown] makes. *)
Definition note_scrub (uuid : string) (out : Z * string) (r : TeardownReport) : TeardownReport :=
  if String.eqb out.2 ""
  then MkReport (dset uuid out.1 r.(scrubbed)) r.(scrub_errors) r.(volumes_removed)
         r.(volume_errors) r.(wedge)
  else MkReport r.(scrubbed) (dset uuid out.2 r.(scrub_errors)) r.(volumes_removed)
         r.(volume_errors) r.(wedge).

Definition note_removal (name : string) (out : bool * string) (r : TeardownReport) : TeardownReport :=
  if out.1
  then MkReport r.(scrubbed) r.(scrub_errors) (r.(volumes_removed) ++ [name]) r.(volume_errors)
         r.(wedge)
  else MkReport r.(scrubbed) r.(scrub_errors) r.(volumes_removed)
         (dset name out.2 r.(volume_errors)) r.(wedge).

Section Operations.
Context {H : Type} (env : Env H).

Definition scrub_command (uuid python : string) : string :=
  "CUDA_VISIBLE_DEVICES=" +:+ quote uuid +:+ " " +:+ quote python +:+ " -c " +:+ quote SCRUB_SNIPPET.

Definition scrub_vram (uuid python : string) : M H (Z * string) :=
  if negb (gpu_uuid_ok uuid) then mret (0%Z, "uuid " +:+ repr_str uuid +:+ " is not accepted") else
  result ← run env (scrub_command uuid python) SCRUB_TIMEOUT;
  match ok result, scrub_search result.(stdout) with
  | true, Some n => mret (n, "")
  | _, _ => mret (0%Z, sor (failure_text 300 result) "no scrub marker")
  end.

Fixpoint scrub_all (uuids : list string) (python : string) (r : TeardownReport)
    : M H TeardownReport :=
  match uuids with
  | [] => mret r
  | uuid :: uuids' =>
      out ← scrub_vram uuid python;
      scrub_all uuids' python (note_scrub uuid out r)
  end.

Fixpoint remove_all (names : list string) (r : TeardownReport) : M H TeardownReport :=
  match names with
  | [] => mret r
  | name :: names' =>
      out ← destroy env name;
      remove_all names' (note_removal name out r)
  end.

Definition after_teardown (gpu_uuids volume_names : list string) (python : string)
    : M H TeardownReport :=
  r ← scrub_all gpu_uuids python (MkReport [] [] [] [] []);
  r ← remove_all volume_names r;
  swept ← sweep env;
  mret (MkReport r.(scrubbed) r.(scrub_errors) r.(volumes_removed) r.(volume_errors)
          (sweep_payload swept)).
End Operations.
