(* ===== verification/JobSpec.v ===== *)
(** * Job specifications (validator/work/containers.py, first half)

    The specification of a container, the problems that refuse it and the
    command line that runs it. *)

From Stdlib Require Import Ascii String QArith.
From stdpp Require Import sorting.
From S2P Require Import Prelude.
From S2P Require Import PyStr.
From S2P Require Import PyRe.
From S2P Require Import PyRound.
From S2P Require Import PyFloat.
From S2P Require Import PyJson.
From S2P Require Import SessionProto.
From S2P Require Import Tiers.
From S2P Require Import Shell.
From S2P Require Import Runner.
From S2P Require Import Volumes.
From S2P Require Import GpuWedge.
From S2P Require Import Teardown.
Local Open Scope string_scope.
Local Open Scope list_scope.

Definition OWNER_LABEL : string := "mt.owner=validator".
Definition NAME_PREFIX : string := "mt-".
Definition JOB_ID : re := RCat (RCls is_alnum_ascii) (rep_upto 60 (RCls name_char)).
Definition key_start (c : ascii) : bool := is_upper_ascii c || is_lower_ascii c || Ascii.eqb c "_"%char.
Definition key_char (c : ascii) : bool := is_alnum_ascii c || Ascii.eqb c "_"%char.
Definition ENV_KEY : re := RCat (RCls key_start) (rep_upto 63 (RCls key_char)).
Definition image_start (c : ascii) : bool := is_lower_ascii c || is_digit c.
Definition image_char (c : ascii) : bool := image_start c || one_of "._/-" c.
Definition IMAGE_REF : re :=
  RCat (RCls image_start) (RCat (rep_upto 200 (RCls image_char))
    (RCat (rlit "@sha256:") (rep 64 (RCls is_hex)))).
Definition SHM_SIZE : re := RCat (rplus (RCls is_digit)) (ropt (RCls (one_of "kmgKMG"))).
Definition STOP_GRACE_CUSTOMER : Z := 30.
Definition STOP_GRACE_FILLER : Z := 15.
Definition MAX_GPUS : nat := 14.

Module PortMapping.
Record t : Type := Mk { host : Z; container : Z; protocol : string }.
Definition payload (p : t) : dict :=
  [("host", JInt p.(host)); ("container", JInt p.(container)); ("protocol", JStr p.(protocol))].
Definition from_payload (j : json) : res t :=
  match j with
  | JDict p =>
      host ← get_int_or "host" 0 p;
      container ← get_int_or "container" 0 p;
      mret (Mk host container (get_str_or "protocol" "tcp" p))
  | _ => Raise AttributeError
  end.
Definition token (p : t) : string :=
  str_of_Z p.(host) +:+ ":" +:+ str_of_Z p.(container)
  +:+ (if String.eqb p.(protocol) "tcp" then "" else "/" +:+ p.(protocol)).
End PortMapping.

Record JobSpec : Type := MkSpec {
  job_id : string; kind : string; image : string; gpu_uuids : list string; owner : string;
  memory_gb : pyfloat; cpus : pyfloat; storage_gb : pyfloat; shm_size : string;
  ports : list PortMapping.t; container_ports : list Z; port_range : string;
  env_vars : list (string * string); command : string; entrypoint : string;
  volumes : list VolumeSpec.t; whole_node : bool; devices : list string; isolation : bool;
  power_caps : list (string * pyfloat); quotas_supported : bool; workspace_user : string }.

Definition container_name (s : JobSpec) : string := NAME_PREFIX +:+ s.(job_id).

Definition sensitive (s : JobSpec) : bool := String.eqb s.(kind) (kind_value RENTAL).

Definition stop_grace (s : JobSpec) : Z :=
  if bool_decide (s.(kind) ∈ [kind_value RENTAL; kind_value INFERENCE])
  then STOP_GRACE_CUSTOMER else STOP_GRACE_FILLER.

Definition payload (s : JobSpec) : dict :=
  [("job_id", JStr s.(job_id)); ("kind", JStr s.(kind)); ("image", JStr s.(image));
   ("gpu_uuids", jstrs s.(gpu_uuids)); ("owner", JStr s.(owner));
   ("memory_gb", JFloat s.(memory_gb)); ("cpus", JFloat s.(cpus));
   ("storage_gb", JFloat s.(storage_gb)); ("shm_size", JStr s.(shm_size));
   ("ports", JList ((λ p, JDict (PortMapping.payload p)) <$> s.(ports)));
   ("container_ports", JList (JInt <$> s.(container_ports)));
   ("port_range", JStr s.(port_range));
   ("env", JDict ((λ kv, (kv.1, JStr kv.2)) <$> s.(env_vars)));
   ("command", JStr s.(command)); ("entrypoint", JStr s.(entrypoint));
   ("volumes", JList ((λ v, JDict (VolumeSpec.payload v)) <$> s.(volumes)));
   ("whole_node", JBool s.(whole_node)); ("devices", jstrs s.(devices));
   ("isolation", JBool s.(isolation));
   ("power_caps", JDict ((λ kv, (kv.1, JFloat kv.2)) <$> s.(power_caps)));
   ("quotas_supported", JBool s.(quotas_supported));
   ("workspace_user", JStr s.(workspace_user))].

Definition volume_of (j : json) : res VolumeSpec.t :=
  match j with JDict d => VolumeSpec.from_payload d | _ => Raise AttributeError end.

Definition from_payload (p : dict) : res JobSpec :=
  uuids ← get_list "gpu_uuids" p;
  memory ← get_float_or "memory_gb" p;
  cpus ← get_float_or "cpus" p;
  storage ← get_float_or "storage_gb" p;
  ports ← get_list "ports" p; ports ← mapM PortMapping.from_payload ports;
  cports ← get_list "container_ports" p; cports ← mapM py_int cports;
  env ← get_items "env" p;
  vols ← get_list "volumes" p; vols ← mapM volume_of vols;
  devices ← get_list "devices" p;
  caps ← get_items "power_caps" p; caps ← map_values py_float caps;
  mret (MkSpec (get_str "job_id" p) (get_str "kind" p) (get_str "image" p) (py_str <$> uuids)
    (get_str_or "owner" "" p) memory cpus storage (get_str_or "shm_size" "1g" p) ports cports
    (get_str_or "port_range" "" p) ((λ kv, (kv.1, py_str kv.2)) <$> env)
    (get_str_or "command" "" p) (get_str_or "entrypoint" "" p) vols
    (get_bool "whole_node" false p) (py_str <$> devices) (get_bool "isolation" false p) caps
    (get_bool "quotas_supported" false p) (get_str_or "workspace_user" "" p)).

(** ** What refuses a job *)

Definition image_problems (image : string) (allowlist : list string) : list string :=
  if negb (re_dollar IMAGE_REF image) || negb (well_formed_digest (after_last "@" image))
  then ["image " +:+ repr_str image +:+ " must be pinned by sha256 digest"]
  else if negb (bool_decide (image ∈ allowlist))
  then ["image " +:+ image +:+ " is not on the allowlist"]
  else [].

Definition problems (s : JobSpec) (allowlist : list string) : list string :=
  (if negb (re_dollar JOB_ID s.(job_id))
   then ["job id " +:+ repr_str s.(job_id) +:+ " is not accepted"] else [])
  ++ (if negb (bool_decide (s.(kind) ∈ kind_value <$> PRIORITY))
      then ["unknown work kind " +:+ repr_str s.(kind)] else [])
  ++ image_problems s.(image) allowlist
  ++ (match s.(gpu_uuids) with [] => ["no GPU assigned"] | _ => [] end)
  ++ (if (MAX_GPUS <? List.length s.(gpu_uuids))%nat
      then ["more than " +:+ str_of_Z (Z.of_nat MAX_GPUS) +:+ " GPUs assigned"] else [])
  ++ (if existsb (λ u, negb (gpu_uuid_ok u)) s.(gpu_uuids)
      then ["a GPU uuid is malformed"] else [])
  ++ (if sensitive s && negb s.(isolation) then ["rental requires the isolation runtime"] else [])
  ++ List.flat_map (λ kv, if negb (re_dollar ENV_KEY kv.1)
                          then ["environment key " +:+ repr_str kv.1 +:+ " is not accepted"]
                          else []) s.(env_vars)
  ++ (if negb (re_dollar SHM_SIZE s.(shm_size))
      then ["shm size " +:+ repr_str s.(shm_size) +:+ " is not accepted"] else [])
  ++ List.flat_map VolumeSpec.problems s.(volumes)
  ++ (if flt f0 s.(storage_gb) && negb s.(quotas_supported)
      then ["storage quota requested on a host whose driver cannot enforce it"] else []).

(** ** The command line *)

Definition user_tokens (text : string) : option (list string) :=
  if String.eqb (strip text) "" then Some [] else Shell.split text.

(** [entrypoint] and [command] as word lists; an unfinished quotation counts as
    no words. *)
Definition words (text : string) : list string := default [] (user_tokens text).

Definition key_le (a b : string * string) : Prop := str_le a.1 b.1.
#[export] Instance key_le_dec : RelDecision key_le.
Proof. intros a b. unfold key_le. apply _. Defined.

(** The words of [docker run]. *)
Definition run_parts (s : JobSpec) : res (list string) :=
  memory ← (if flt f0 s.(memory_gb)
            then m ← ftrunc (fmul s.(memory_gb) (fz 1024)); mret ["--memory"; str_of_Z m +:+ "m"]
            else mret []);
  storage ← (if flt f0 s.(storage_gb) && s.(quotas_supported)
             then g ← ftrunc s.(storage_gb);
                  mret ["--storage-opt"; "size=" +:+ str_of_Z g +:+ "G"]
             else mret []);
  mounts ← mapM mount_args s.(volumes);
  let entry := words s.(entrypoint) in
  mret (["docker"; "run"; "-d"; "--name"; container_name s; "--restart"; "unless-stopped"]
    ++ (if s.(isolation) then ["--runtime"; "sysbox-runc"] else [])
    ++ ["--gpus"; dqs +:+ "device=" +:+ join "," s.(gpu_uuids) +:+ dqs]
    ++ List.flat_map (λ d, ["--device"; d +:+ ":" +:+ d +:+ ":rwm"]) s.(devices)
    ++ ["--cap-add"; "NET_ADMIN"; "--sysctl"; "net.ipv4.conf.all.src_valid_mark=1"]
    ++ memory
    ++ (if flt f0 s.(cpus) then ["--cpus"; format_g s.(cpus)] else [])
    ++ storage
    ++ ["--shm-size"; s.(shm_size)]
    ++ List.flat_map (λ p, ["-p"; PortMapping.token p]) s.(ports)
    ++ ["--label"; "mt.job=" +:+ s.(job_id); "--label"; "mt.kind=" +:+ s.(kind);
        "--label"; OWNER_LABEL]
    ++ (if String.eqb s.(owner) "" then [] else ["--label"; "mt.tenant=" +:+ s.(owner)])
    ++ ["-e"; "NVIDIA_DRIVER_CAPABILITIES=all"]
    ++ List.flat_map (λ kv, ["-e"; kv.1 +:+ "=" +:+ kv.2]) (merge_sort key_le s.(env_vars))
    ++ List.concat mounts
    ++ (if existsb VolumeSpec.encrypted s.(volumes) && negb s.(isolation)
        then ["--cap-add"; "SYS_ADMIN"; "--security-opt"; "apparmor=unconfined"] else [])
    ++ (match entry with e :: _ => ["--entrypoint"; e] | [] => [] end)
    ++ [s.(image)]
    ++ (match entry with _ :: rest => rest | [] => [] end)
    ++ words s.(command)).

Definition run_command (s : JobSpec) : res string := command_line <$> run_parts s.

(** ** Facts *)

#[local] Arguments jor : simpl never.
#[local] Arguments py_float : simpl never.
#[local] Arguments py_int : simpl never.
#[local] Arguments py_str : simpl never.
#[local] Arguments map_values : simpl never.
#[local] Arguments mapM : simpl never.
#[local] Arguments jstrs : simpl never.
#[local] Arguments fmap : simpl never.


Lemma mapM_map_id {A B} (f : B → res A) (g : A → B) (l : list A) :
  (∀ x, x ∈ l → f (g x) = Ok x) → mapM f (g <$> l) = Ok l.
Proof. apply mapM_id. Qed.

Lemma float_or_0 f : fwf f → py_float (jor (JFloat f) (JFloat f0)) = Ok f.
Proof.
  unfold jor, truthy, ftruthy. destruct f as [q|b|]; try done. intros (Hr & _).
  unfold is_zero. destruct (Qeq_bool q 0) eqn:E; cbn; [|done]. apply Qeq_bool_iff in E.
  apply Qred_complete in E. rewrite Hr in E. subst. done.
Qed.

Lemma jor_strs l : jor (jstrs l) (JList []) = jstrs l.
Proof. by destruct l. Qed.
Lemma jor_list l : jor (JList l) (JList []) = JList l.
Proof. by destruct l. Qed.

Lemma strs_back (l : list string) : py_str <$> (JStr <$> l) = l.
Proof. rewrite <- list_fmap_compose. by rewrite <- (list_fmap_id l) at 2. Qed.

Lemma port_back p : PortMapping.protocol p ≠ "" →
  PortMapping.from_payload (JDict (PortMapping.payload p)) = Ok p.
Proof.
  destruct p as [h c pr]. cbn. intros Hp.
  unfold PortMapping.from_payload, PortMapping.payload, get_int_or, get_str_or, getd.
  simpl. rewrite !jor_int. simpl. by rewrite jor_str_default.
Qed.

Lemma volume_back v : fwf (VolumeSpec.size_gb v) → volume_of (JDict (VolumeSpec.payload v)) = Ok v.
Proof.
  destruct v as [n m sz d sp e c]. cbn. intros Hf.
  unfold VolumeSpec.from_payload, VolumeSpec.payload, get_float_or, get_str, get_str_or, get_bool, getd.
  simpl. rewrite float_or_0 by done. simpl. by rewrite jor_str.
Qed.

(** A job specification whose floats are floats and whose defaults are filled. *)
Definition spec_ok (s : JobSpec) : Prop :=
  fwf s.(memory_gb) ∧ fwf s.(cpus) ∧ fwf s.(storage_gb) ∧ s.(shm_size) ≠ "" ∧
  (∀ p, p ∈ s.(ports) → PortMapping.protocol p ≠ "") ∧
  (∀ v, v ∈ s.(volumes) → fwf (VolumeSpec.size_gb v)).

(** ** Properties *)

(** A job specification stored to disk is read back unchanged: the recreation of
    a container runs what was created. *)
Theorem spec_roundtrip s : spec_ok s → from_payload (payload s) = Ok s.
Proof.
  intros (Hm & Hc & Hs & Hshm & Hp & Hv). destruct s. cbn in *.
  unfold from_payload, payload, get_list, get_items, get_float_or, get_str, get_str_or, get_bool,
    getv, getd. simpl.
  rewrite !float_or_0, !jor_strs, !jor_list, !jor_dict by done.
  simpl.
  rewrite (mapM_map_id PortMapping.from_payload (λ p, JDict (PortMapping.payload p)))
    by (intros; apply port_back; auto).
  rewrite (mapM_map_id py_int JInt) by done.
  rewrite (mapM_map_id volume_of (λ v, JDict (VolumeSpec.payload v)))
    by (intros; apply volume_back; auto).
  rewrite (map_values_id py_float JFloat) by done. simpl.
  rewrite !strs_back, !jor_str, jor_str_default by done. f_equal. f_equal.
  rewrite <- list_fmap_compose. rewrite <- (list_fmap_id env_vars0) at 2.
  apply list_fmap_ext. by intros ? [].
Qed.

(** The shell runs exactly the words the program listed. *)
Lemma run_command_splits s text :
  run_command s = Ok text → ∃ parts, run_parts s = Ok parts ∧ Shell.split text = Some parts.
Proof.
  unfold run_command. destruct (run_parts s) as [parts|]; [|done]. intros [= <-].
  exists parts. split; [done|]. apply command_line_splits.
Qed.

(** What an accepted job is: pinned by digest and on the allowlist, on one to
    fourteen well-formed cards, of a known kind, isolated when it is a rental,
    every volume name and mount path accepted. *)
Lemma accepted_job s allowlist :
  problems s allowlist = [] →
  s.(image) ∈ allowlist ∧ well_formed_digest (after_last "@" s.(image)) = true ∧
  s.(kind) ∈ kind_value <$> PRIORITY ∧
  (1 ≤ List.length s.(gpu_uuids) ≤ 14)%nat ∧
  Forall (λ u, gpu_uuid_ok u = true) s.(gpu_uuids) ∧
  (s.(kind) = "rental" → s.(isolation) = true) ∧
  Forall (λ v, valid (VolumeSpec.name v) = true ∧
               path_refused (VolumeSpec.mount_path v) = false) s.(volumes).
Proof.
  unfold problems. rewrite !app_nil_iff.
  intros (_ & Hk & Hi & Hg & Hn & Hu & Hs & _ & _ & Hv & _).
  unfold image_problems in Hi. destruct (negb _ || negb _) eqn:Ei; [done|].
  apply orb_false_iff in Ei as [_ Ed%negb_false_iff].
  destruct (bool_decide (image s ∈ allowlist)) eqn:Ea; [|done]. apply bool_decide_eq_true in Ea.
  destruct (bool_decide (kind s ∈ _)) eqn:Ek; [|done]. apply bool_decide_eq_true in Ek.
  destruct (existsb _ _) eqn:Ee; [done|].
  split_and!; try done.
  - destruct (gpu_uuids s); [done|cbn; lia].
  - destruct (Nat.ltb_spec MAX_GPUS (List.length (gpu_uuids s))); [done|]. unfold MAX_GPUS in *. lia.
  - apply Forall_forall. intros u Hin%list_elem_of_In.
    destruct (gpu_uuid_ok u) eqn:E; [done|]. exfalso. apply not_true_iff_false in Ee.
    apply Ee, existsb_exists. exists u. by rewrite E.
  - intros Hr. unfold sensitive in Hs. rewrite Hr in Hs. cbn in Hs. by destruct (isolation s).
  - apply Forall_forall. intros v Hin%list_elem_of_In.
    assert (Hp : VolumeSpec.problems v = []).
    { apply elem_of_nil_inv. intros x Hx. assert (Hin' : x ∈ List.flat_map VolumeSpec.problems s.(volumes)).
      { apply list_elem_of_In, in_flat_map. exists v. split; [done|by apply list_elem_of_In]. }
      rewrite Hv in Hin'. by apply not_elem_of_nil in Hin'. }
    unfold VolumeSpec.problems in Hp. destruct (valid _); [|done].
    destruct (path_refused _); [|done]. done.
Qed.

Definition sample_digest : string :=
  "sha256:0123456789abcdef0123456789abcdef0123456789abcdef0123456789abcdef".
Definition sample_uuid : string := "GPU-00000000-1111-2222-3333-444444444444".
Definition sample_spec : JobSpec :=
  MkSpec "job-1" "rental" ("registry/work@" +:+ sample_digest) [sample_uuid] "5F" (fz 32) (fz 8) f0
    "1g" [PortMapping.Mk 40001 22 "tcp"] [] "" [("PATH_EXTRA", "/opt; rm -rf /")] "sleep 'a b'" ""
    [VolumeSpec.Mk "mt-vol-job-1" "/data" (fz 100) "" false false true] false [] true [] false "".

Lemma spec_roundtrip_witness : from_payload (payload sample_spec) = Ok sample_spec.
Proof.
  apply spec_roundtrip. repeat split; try discriminate; try reflexivity.
  - intros p [->|[]%not_elem_of_nil]%elem_of_cons. discriminate.
  - intros v [->|[]%not_elem_of_nil]%elem_of_cons. apply (representable_Z 100). lia.
Defined.

Lemma accepted_job_witness :
  problems sample_spec [sample_spec.(image)] = [] ∧ sample_spec.(isolation) = true.
Proof.
  assert (Hp : problems sample_spec [sample_spec.(image)] = []) by (vm_compute; reflexivity).
  split; [exact Hp|]. apply (accepted_job sample_spec [sample_spec.(image)] Hp). reflexivity.
Defined.
