(* ===== verification/RunCommand.v ===== *)
(** * What docker is told (validator/work/containers.py, run_command)

    A reader of the command line [run_command] builds, written the way docker's own
    reads its arguments: options up to the first word that is none, then the image,
    then the arguments of the container.  The reader knows nothing of the job. *)

From stdpp Require Import sorting.
From Stdlib Require Import Ascii String QArith.
From S2P Require Import Prelude.
From S2P Require Import PyStr.
From S2P Require Import PyText.
From S2P Require Import PyRe.
From S2P Require Import PyFloat.
From S2P Require Import PyJson.
From S2P Require Import SessionProto.
From S2P Require Import Tiers.
From S2P Require Import Shell.
From S2P Require Import Volumes.
From S2P Require Import Teardown.
From S2P Require Import JobSpec.
Local Open Scope string_scope.
Local Open Scope list_scope.

(** ** The reader *)

(** The options of docker that take the next word as their value. *)
Definition VALUED : list string :=
  ["--name"; "--restart"; "--runtime"; "--gpus"; "--device"; "--cap-add"; "--sysctl"; "--memory";
   "--cpus"; "--storage-opt"; "--shm-size"; "-p"; "--label"; "-e"; "-v"; "--security-opt"; "--entrypoint"].

Record DockerRun : Type := MkRun {
  detached : bool; options : list (string * string); run_image : string; run_args : list string }.

Definition with_option (o : string * string) (r : DockerRun) : DockerRun :=
  MkRun r.(detached) (o :: r.(options)) r.(run_image) r.(run_args).

Fixpoint docker_options (words : list string) : option DockerRun :=
  match words with
  | [] => None
  | word :: rest =>
      if String.eqb word "-d" then
        (λ r, MkRun true r.(options) r.(run_image) r.(run_args)) <$> docker_options rest
      else if bool_decide (word ∈ VALUED) then
        match rest with
        | [] => None
        | value :: rest' => with_option (word, value) <$> docker_options rest'
        end
      else if startswith "-" word then None
      else Some (MkRun false [] word rest)
  end.

Definition docker_run (words : list string) : option DockerRun :=
  match words with "docker" :: "run" :: rest => docker_options rest | _ => None end.

(** The values an option is given, in their order. *)
Definition values_in (flag : string) (l : list (string * string)) : list string :=
  snd <$> List.filter (λ o, String.eqb o.1 flag) l.
Definition values (flag : string) (r : DockerRun) : list string := values_in flag r.(options).

(** ** What a job asks for *)

Definition amount (on : bool) (x : pyfloat) (before after : string) : list string :=
  if on then match ftrunc x with Ok n => [before +:+ str_of_Z n +:+ after] | Raise _ => [] end else [].

(** The values of each option; any other option is not given. *)
Definition intended (s : JobSpec) (flag : string) : list string :=
  match flag with
  | "--name" => [NAME_PREFIX +:+ s.(job_id)]
  | "--restart" => ["unless-stopped"]
  | "--runtime" => if s.(isolation) then ["sysbox-runc"] else []
  | "--gpus" => [dqs +:+ "device=" +:+ join "," s.(gpu_uuids) +:+ dqs]
  | "--device" => ((λ d, d +:+ ":" +:+ d +:+ ":rwm") <$> s.(devices))
                  ++ ((λ _, "/dev/fuse") <$> List.filter VolumeSpec.encrypted s.(volumes))
  | "--cap-add" => "NET_ADMIN" :: (if existsb VolumeSpec.encrypted s.(volumes) && negb s.(isolation)
                                   then ["SYS_ADMIN"] else [])
  | "--sysctl" => ["net.ipv4.conf.all.src_valid_mark=1"]
  | "--memory" => amount (flt f0 s.(memory_gb)) (fmul s.(memory_gb) (fz 1024)) "" "m"
  | "--cpus" => if flt f0 s.(cpus) then [format_g s.(cpus)] else []
  | "--storage-opt" => amount (flt f0 s.(storage_gb) && s.(quotas_supported)) s.(storage_gb) "size=" "G"
  | "--shm-size" => [s.(shm_size)]
  | "-p" => PortMapping.token <$> s.(ports)
  | "--label" => ["mt.job=" +:+ s.(job_id); "mt.kind=" +:+ s.(kind); "mt.owner=validator"]
                 ++ (if String.eqb s.(owner) "" then [] else ["mt.tenant=" +:+ s.(owner)])
  | "-e" => "NVIDIA_DRIVER_CAPABILITIES=all"
            :: ((λ kv, kv.1 +:+ "=" +:+ kv.2) <$> merge_sort key_le s.(env_vars))
  | "-v" => (λ v, VolumeSpec.name v +:+ ":" +:+ VolumeSpec.container_target v) <$> s.(volumes)
  | "--security-opt" => if existsb VolumeSpec.encrypted s.(volumes) && negb s.(isolation)
                        then ["apparmor=unconfined"] else []
  | "--entrypoint" => match words s.(entrypoint) with e :: _ => [e] | [] => [] end
  | _ => []
  end.

(** ** Reading pairs *)

Definition flat (l : list (string * string)) : list string := List.flat_map (λ o, [o.1; o.2]) l.
Definition opt (flag : string) (vs : list string) : list (string * string) := (λ v, (flag, v)) <$> vs.

Lemma docker_options_flat l rest :
  Forall (λ o : string * string, o.1 ∈ VALUED) l →
  docker_options (flat l ++ rest)
  = (λ r, MkRun r.(detached) (l ++ r.(options)) r.(run_image) r.(run_args)) <$> docker_options rest.
Proof.
  induction 1 as [|[flag v] l Hf _ IH].
  - cbn [flat flat_map app]. destruct (docker_options rest) as [[]|]; done.
  - change (flat ((flag, v) :: l) ++ rest) with (flag :: v :: (flat l ++ rest)).
    cbn [docker_options]. cbn [fst] in Hf. destruct (String.eqb_spec flag "-d") as [->|_].
    { exfalso. by repeat (apply elem_of_cons in Hf as [?|Hf]; [done|]); apply not_elem_of_nil in Hf. }
    rewrite bool_decide_eq_true_2 by done. rewrite IH.
    destruct (docker_options rest) as [[]|]; done.
Qed.

Lemma values_app flag a b : values_in flag (a ++ b) = values_in flag a ++ values_in flag b.
Proof. unfold values_in. by rewrite List.filter_app, fmap_app. Qed.

Lemma values_opt flag f vs : values_in flag (opt f vs) = if String.eqb f flag then vs else [].
Proof.
  unfold values_in, opt. induction vs as [|v vs IH]; [by destruct (String.eqb f flag)|].
  cbn. destruct (String.eqb f flag) eqn:E; [|done]. cbn. by f_equal.
Qed.

Lemma flat_app a b : flat (a ++ b) = flat a ++ flat b.
Proof. apply flat_map_app. Qed.

Lemma flat_opt flag vs : flat (opt flag vs) = List.flat_map (λ v, [flag; v]) vs.
Proof. induction vs as [|v vs IH]; [done|]. cbn. by do 2 f_equal. Qed.

Lemma flat_opt_map {A} flag (f : A → string) (l : list A) :
  flat (opt flag (f <$> l)) = List.flat_map (λ x, [flag; f x]) l.
Proof. induction l as [|x l IH]; [done|]. cbn. by do 2 f_equal. Qed.

Lemma valued_opt flag vs : flag ∈ VALUED → Forall (λ o : string * string, o.1 ∈ VALUED) (opt flag vs).
Proof. intros H. by apply Forall_fmap, Forall_forall. Qed.

(** The options of the volumes. *)
Definition mounts_of (vs : list VolumeSpec.t) : list (string * string) :=
  List.flat_map (λ v, opt "-v" [VolumeSpec.name v +:+ ":" +:+ VolumeSpec.container_target v]
                      ++ opt "--device" (if VolumeSpec.encrypted v then ["/dev/fuse"] else [])) vs.

Lemma mounts_parts vs ms : mapM mount_args vs = Ok ms → List.concat ms = flat (mounts_of vs).
Proof.
  revert ms. induction vs as [|v vs IH]; intros ms E.
  { injection E as <-. done. }
  apply res_bind_ok in E as (m & Hm & E). apply res_bind_ok in E as (ms' & Hms & E).
  apply Ok_inj in E as <-. cbn [List.concat]. rewrite (IH _ Hms). unfold mounts_of. cbn [flat_map].
  rewrite flat_app. f_equal. unfold mount_args in Hm.
  apply res_bind_ok in Hm as (? & _ & Hm). apply res_bind_ok in Hm as (? & _ & Hm).
  apply Ok_inj in Hm as <-. rewrite flat_app. by destruct (VolumeSpec.encrypted v).
Qed.

Lemma mounts_values flag vs :
  values_in flag (mounts_of vs)
  = if String.eqb "-v" flag then (λ v, VolumeSpec.name v +:+ ":" +:+ VolumeSpec.container_target v) <$> vs
    else if String.eqb "--device" flag then (λ _, "/dev/fuse") <$> List.filter VolumeSpec.encrypted vs
    else [].
Proof.
  induction vs as [|v vs IH].
  - by destruct (String.eqb "-v" flag), (String.eqb "--device" flag).
  - unfold mounts_of. cbn [flat_map]. rewrite !values_app, !values_opt. fold (mounts_of vs). rewrite IH.
    destruct (String.eqb_spec "-v" flag) as [<-|_]; [done|].
    destruct (String.eqb_spec "--device" flag) as [<-|_]; [|done].
    cbn. by destruct (VolumeSpec.encrypted v).
Qed.

Lemma mounts_valued vs : Forall (λ o : string * string, o.1 ∈ VALUED) (mounts_of vs).
Proof.
  unfold mounts_of. induction vs as [|v vs IH]; [constructor|]. cbn [flat_map].
  apply Forall_app. split; [|exact IH]. apply Forall_app. split; apply valued_opt;
    apply (bool_decide_eq_true_1 (_ ∈ _)); vm_compute; reflexivity.
Qed.

(** ** The words of [run_parts] are options, the image and arguments *)

Lemma amount_parts (on : bool) x flag before after words :
  (if on then n ← ftrunc x; mret [flag; before +:+ str_of_Z n +:+ after] else mret []) = Ok words →
  words = flat (opt flag (amount on x before after)).
Proof.
  unfold amount. destruct on; [|by intros [= <-]]. destruct (ftrunc x) as [n|e]; [|done]. by intros [= <-].
Qed.

(** All the options, in the order they are written. *)
Definition all_options (s : JobSpec) : list (string * string) :=
  let given flag := opt flag (intended s flag) in
  given "--name" ++ given "--restart" ++ given "--runtime" ++ given "--gpus"
  ++ opt "--device" ((λ d, d +:+ ":" +:+ d +:+ ":rwm") <$> s.(devices))
  ++ opt "--cap-add" ["NET_ADMIN"] ++ given "--sysctl" ++ given "--memory" ++ given "--cpus"
  ++ given "--storage-opt" ++ given "--shm-size" ++ given "-p" ++ given "--label"
  ++ opt "-e" ["NVIDIA_DRIVER_CAPABILITIES=all"]
  ++ opt "-e" ((λ kv, kv.1 +:+ "=" +:+ kv.2) <$> merge_sort key_le s.(env_vars))
  ++ mounts_of s.(volumes)
  ++ (if existsb VolumeSpec.encrypted s.(volumes) && negb s.(isolation)
      then opt "--cap-add" ["SYS_ADMIN"] ++ opt "--security-opt" ["apparmor=unconfined"] else [])
  ++ given "--entrypoint".

Lemma options_words s parts :
  run_parts s = Ok parts →
  parts = "docker" :: "run" :: "-d" :: flat (all_options s)
          ++ s.(image) :: tail (words s.(entrypoint)) ++ words s.(command).
Proof.
  unfold run_parts. intros E. apply res_bind_ok in E as (memory & Hm & E).
  apply res_bind_ok in E as (storage & Hs & E). apply res_bind_ok in E as (mounts & Hv & E).
  apply Ok_inj in E as <-. apply mounts_parts in Hv.
  assert (memory = flat (opt "--memory" (amount (flt f0 (memory_gb s)) (fmul (memory_gb s) (fz 1024)) "" "m"))) as ->.
  { by apply amount_parts. }
  assert (storage = flat (opt "--storage-opt"
            (amount (flt f0 (storage_gb s) && quotas_supported s) (storage_gb s) "size=" "G"))) as ->.
  { by apply amount_parts. }
  rewrite Hv. unfold all_options. cbn zeta. cbn [intended]. rewrite !flat_app, !flat_opt_map, <- !app_assoc.
  generalize (flat (opt "--memory" (amount (flt f0 (memory_gb s)) (fmul (memory_gb s) (fz 1024)) "" "m"))),
    (flat (opt "--storage-opt" (amount (flt f0 (storage_gb s) && quotas_supported s) (storage_gb s) "size=" "G"))),
    (flat (mounts_of (volumes s))). intros memory storage vols.
  destruct (flt f0 (cpus s)), (String.eqb (owner s) ""), (existsb VolumeSpec.encrypted (volumes s)),
    (isolation s), (words (entrypoint s)); reflexivity.
Qed.

Lemma options_valued s : Forall (λ o : string * string, o.1 ∈ VALUED) (all_options s).
Proof.
  unfold all_options. cbn zeta. repeat apply Forall_app_2; try (apply valued_opt;
    apply (bool_decide_eq_true_1 (_ ∈ _)); vm_compute; reflexivity); [apply mounts_valued|].
  destruct (_ && _); [|constructor].
  apply Forall_app_2; apply valued_opt; apply (bool_decide_eq_true_1 (_ ∈ _)); vm_compute; reflexivity.
Qed.

(** Each option is given what the job asks for it. *)
Lemma options_values s flag : flag ∈ VALUED → values_in flag (all_options s) = intended s flag.
Proof.
  intros Hin. unfold all_options. cbn zeta. rewrite !values_app, mounts_values.
  unfold VALUED in Hin.
  repeat (apply elem_of_cons in Hin as [->|Hin]; [
    rewrite !values_opt; cbn [intended];
    destruct (existsb VolumeSpec.encrypted (volumes s) && negb (isolation s));
    rewrite ?values_app, ?values_opt; cbn; rewrite ?app_nil_r; reflexivity|]).
  by apply not_elem_of_nil in Hin.
Qed.

(** ** What the values hold *)

Lemma without_char c s : sforall (λ d, negb (Ascii.eqb d c)) s = true → contains (String c "") s = false.
Proof. intros H. apply (contains_forall (String c "") s c H). cbn. by destruct (ascii_dec c c). Qed.

Lemma split_join c (l : list string) : l ≠ [] →
  Forall (λ s, contains (String c "") s = false) l → split_on (String c "") (join (String c "") l) = l.
Proof.
  intros Hne H. induction H as [|s l Hs Hl IH]; [done|]. destruct l as [|t l].
  - by apply split_on_free.
  - change (join (String c "") (s :: t :: l)) with (s +:+ String c "" +:+ join (String c "") (t :: l)).
    rewrite split_on_app by done. by rewrite IH.
Qed.

(** An image that is accepted does not begin with a dash. *)
Lemma image_word image : re_dollar IMAGE_REF image = true →
  String.eqb image "-d" = false ∧ bool_decide (image ∈ VALUED) = false ∧ startswith "-" image = false.
Proof.
  intros H. assert (∃ c rest, image = String c rest ∧ image_start c = true) as (c & rest & -> & Hc).
  { apply re_dollar_spec in H as [H|(t & -> & H)]; apply matches_cat in H as (u & v & -> & Hu & _);
      apply matches_cls in Hu as (c & -> & Hc); by eexists c, _. }
  assert (c ≠ "-"%char) as Hd by (by intros ->).
  assert (startswith "-" (String c rest) = false) as Hs.
  { apply not_true_is_false. unfold startswith. rewrite prefix_spec. intros (u & Hu). injection Hu as -> _. done. }
  split_and!; [|apply bool_decide_eq_false_2|done].
  - apply String.eqb_neq. congruence.
  - unfold VALUED. intros Hin. repeat (apply elem_of_cons in Hin as [Hin|Hin]; [congruence|]).
    by apply not_elem_of_nil in Hin.
Qed.

Section Accepted.
Variables (s : JobSpec) (allowlist : list string).
Hypothesis Hok : problems s allowlist = [].

Lemma accepted_image : re_dollar IMAGE_REF s.(image) = true.
Proof.
  unfold problems in Hok. rewrite !app_nil_iff in Hok. destruct Hok as (_ & _ & Hi & _).
  unfold image_problems in Hi. destruct (re_dollar IMAGE_REF _); [done|]. by cbn in Hi.
Qed.

Lemma accepted_keys : Forall (λ kv : string * string, contains "=" kv.1 = false) s.(env_vars).
Proof.
  unfold problems in Hok. rewrite !app_nil_iff in Hok. destruct Hok as (_ & _ & _ & _ & _ & _ & _ & He & _).
  apply Forall_forall. intros kv Hin. apply without_char.
  apply (avoids_dollar _ ENV_KEY); [|vm_compute; reflexivity|reflexivity].
  destruct (re_dollar ENV_KEY kv.1) eqn:E; [done|]. exfalso.
  assert (∀ x, x ∈ @nil string → False) as Hn by (intros x; apply not_elem_of_nil).
  apply (Hn ("environment key " +:+ repr_str kv.1 +:+ " is not accepted")). rewrite <- He.
  apply list_elem_of_In, in_flat_map. exists kv. split; [by apply list_elem_of_In|]. rewrite E. by left.
Qed.
End Accepted.

(** C25. An accepted job becomes the container it describes.  The text [run_command]
    builds, split by a shell and read the way docker reads its arguments, is one
    detached run of the job's image, with the words of the job's entrypoint (past the
    first) and command as its arguments; every option is given exactly the values
    the job asks for and no other option is given.  The values read back: the cards
    are the job's, each volume is mounted at its target, and the environment is the
    job's, sorted by key.  So no field of a job - a label, a value of the
    environment, a word of its command - can add or change an option. *)
Theorem run_command_exact s allowlist text :
  problems s allowlist = [] → run_command s = Ok text →
  ∃ ws o, Shell.split text = Some ws ∧ docker_run ws = Some o ∧
    detached o = true ∧ run_image o = s.(image) ∧
    run_args o = tail (words s.(entrypoint)) ++ words s.(command) ∧
    (∀ flag, flag ∈ VALUED → values flag o = intended s flag) ∧
    Forall (λ x : string * string, x.1 ∈ VALUED) o.(options) ∧
    (∃ cards, values "--gpus" o = [dqs +:+ "device=" +:+ cards +:+ dqs] ∧ split_on "," cards = s.(gpu_uuids)) ∧
    partition_first ":" <$> values "-v" o
      = (λ v, Some (VolumeSpec.name v, VolumeSpec.container_target v)) <$> s.(volumes) ∧
    partition_first "=" <$> values "-e" o
      = Some ("NVIDIA_DRIVER_CAPABILITIES", "all") :: (Some <$> merge_sort key_le s.(env_vars)).
Proof.
  intros Hok Ht. apply run_command_splits in Ht as (ws & Hw & Hs). exists ws.
  apply options_words in Hw as ->.
  destruct (image_word _ (accepted_image s allowlist Hok)) as (Hd & Hv & Hm).
  exists (MkRun true (all_options s) s.(image) (tail (words s.(entrypoint)) ++ words s.(command))).
  assert (∀ flag, flag ∈ VALUED → values flag (MkRun true (all_options s) s.(image)
            (tail (words s.(entrypoint)) ++ words s.(command))) = intended s flag) as Hval.
  { intros flag Hin. by apply options_values. }
  split; [exact Hs|]. split.
  { cbn [docker_run docker_options]. rewrite docker_options_flat by apply options_valued.
    cbn [docker_options]. rewrite Hd, Hv, Hm. cbn. by rewrite app_nil_r. }
  split_and!; [done..|exact Hval|apply options_valued| | |].
  all: rewrite Hval by (apply (bool_decide_eq_true_1 (_ ∈ _)); vm_compute; reflexivity); cbn [intended].
  - eexists. split; [reflexivity|]. destruct (accepted_job s allowlist Hok) as (_ & _ & _ & Hl & Hu & _).
    apply split_join; [by destruct (gpu_uuids s); cbn in Hl; [lia|]|].
    eapply Forall_impl; [exact Hu|]. intros u Hx. apply without_char.
    by apply (avoids_dollar _ _ _ Hx).
  - destruct (accepted_job s allowlist Hok) as (_ & _ & _ & _ & _ & _ & Hvol).
    rewrite <- list_fmap_compose. apply Forall_fmap_ext_1. eapply Forall_impl; [exact Hvol|].
    intros v [Hname _]. cbn. apply (partition_first_app ":"); [done|]. apply without_char.
    apply (avoids_dollar _ _ _ Hname); vm_compute; reflexivity.
  - cbn [fmap list_fmap]. f_equal. rewrite <- list_fmap_compose. apply Forall_fmap_ext_1.
    rewrite (merge_sort_Permutation key_le (env_vars s)).
    eapply Forall_impl; [exact (accepted_keys s allowlist Hok)|]. intros [k v] Hk. cbn in *.
    by apply (partition_first_app "=").
Qed.

Lemma run_command_exact_witness :
  match run_command sample_spec with
  | Ok text => ∃ ws o, Shell.split text = Some ws ∧ docker_run ws = Some o ∧ run_args o = ["sleep"; "a b"]
      ∧ values "-e" o = ["NVIDIA_DRIVER_CAPABILITIES=all"; "PATH_EXTRA=/opt; rm -rf /"]
  | Raise _ => False
  end.
Proof.
  destruct (run_command sample_spec) as [text|] eqn:Et; [|vm_compute in Et; discriminate].
  assert (Hok : problems sample_spec [sample_spec.(image)] = []) by (vm_compute; reflexivity).
  destruct (run_command_exact sample_spec [sample_spec.(image)] text Hok Et)
    as (ws & o & H1 & H2 & _ & _ & H3 & H4 & _).
  exists ws, o. split; [exact H1|]. split; [exact H2|]. split; [exact H3|].
  rewrite H4 by (apply (bool_decide_eq_true_1 (_ ∈ _)); vm_compute; reflexivity). vm_compute. reflexivity.
Defined.
