(* ===== verification/Containers.v ===== *)
(** * Containers on a machine (validator/work/containers.py, second half)

    The store of specifications, the creation of a container with its rollback,
    its destruction and its recreation. *)

From Stdlib Require Import Ascii String QArith Lqa.
From stdpp Require Import sorting.
From S2P Require Import Prelude.
From S2P Require Import PyStr.
From S2P Require Import PyRe.
From S2P Require Import PyRound.
From S2P Require Import PyFloat.
From S2P Require Import PyJson.
From S2P Require Import Shell.
From S2P Require Import Runner.
From S2P Require Import Keys.
From S2P Require Import Volumes.
From S2P Require Import Power.
From S2P Require Import GpuWedge.
From S2P Require Import JobSpec.
Local Open Scope string_scope.
Local Open Scope list_scope.

Definition PULL_TIMEOUT : pyfloat := fz 10800.
Definition PULL_LOCK : string := "/tmp/mt-agent-pull.lock".
Definition RUN_TIMEOUT : pyfloat := fz 300.
Definition PORT_RETRY_SECONDS : pyfloat := fz 90.
Definition PORT_RETRY_INTERVAL : pyfloat := fz 5.
Definition RUNNING_POLL_SECONDS : pyfloat := fz 10.
Definition RUNNING_POLL_INTERVAL : pyfloat := fz 1.
Definition LOG_TAIL_LINES : Z := 100.
Definition LOG_TAIL_CHARS : nat := 4000.
Definition PORT_BUSY_MARKERS : list string :=
  ["port is already allocated"; "address already in use"; "failed to bind host port"; "bind for"].
Definition DEVICE_NODES : list string :=
  ["/dev/nvidiactl"; "/dev/nvidia-uvm"; "/dev/nvidia-uvm-tools"; "/dev/nvidia-modeset"].
Definition HOST_WIDE_DIRS : list string := ["/dev/nvidia-caps"; "/dev/infiniband"].
Definition DEVICE_PROBE : string :=
  "nvidia-smi --query-gpu=uuid,pci.bus_id --format=csv,noheader; echo ---; "
  +:+ "grep -H 'Device Minor' /proc/driver/nvidia/gpus/*/information 2>/dev/null; echo ---; "
  +:+ "ls -1 /dev/nvidia* /dev/nvidia-caps/* /dev/infiniband/* 2>/dev/null".

(** The polls the two waiting loops can make before their deadlines. *)
Definition RUNNING_POLLS : nat := 10.
Definition PORT_RETRIES : nat := 18.

Record CreateResult : Type := MkCreate {
  created : bool; cstep : string; creason : string; ccontainer : string;
  cports : list PortMapping.t; cdiagnostics : dict; celapsed_ms : pyfloat }.

Definition create_payload (r : CreateResult) : dict :=
  [("ok", JBool r.(created)); ("step", JStr r.(cstep)); ("reason", JStr r.(creason));
   ("container", JStr r.(ccontainer));
   ("ports", JList ((λ p, JDict (PortMapping.payload p)) <$> r.(cports)));
   ("diagnostics", JDict r.(cdiagnostics)); ("elapsed_ms", JFloat (fround 1 r.(celapsed_ms)))].

(** [steps] lists the entries of the dictionary in order. *)
Record DestroyResult : Type := MkDestroy {
  destroyed : bool; dreason : string; retry_later : bool; dsteps : dict }.

(** ** Inflight creations *)

Definition start (job_id : string) (i : Inflight) : Inflight :=
  MkInflight (List.filter (λ j, negb (String.eqb j job_id)) i.(cancelled_))
    (job_id :: List.filter (λ j, negb (String.eqb j job_id)) i.(active_)).

Definition finish (job_id : string) (i : Inflight) : Inflight :=
  MkInflight (List.filter (λ j, negb (String.eqb j job_id)) i.(cancelled_))
    (List.filter (λ j, negb (String.eqb j job_id)) i.(active_)).

Definition active (job_id : string) (i : Inflight) : bool := bool_decide (job_id ∈ i.(active_)).

(** The answer of [Inflight.cancel]; its effect is [cancel_inflight]. *)
Definition cancel (job_id : string) (i : Inflight) : bool * Inflight :=
  (active job_id i, cancel_inflight job_id i).

Definition cancelled (job_id : string) (i : Inflight) : bool :=
  bool_decide (job_id ∈ i.(cancelled_)).

(** [wait]: a job that is not in flight is over; else its event is set within the
    time, [finished_in], or not. *)
Definition CANCEL_WAIT_SECONDS : pyfloat := fz 30.
Definition wait (job_id : string) (finished_in : option pyfloat) (timeout : pyfloat) (i : Inflight) : bool :=
  if negb (active job_id i) then true
  else match finished_in with Some t => fle t timeout | None => false end.

(** A job that was finished is waited for no longer. *)
Lemma wait_finished job_id t timeout i : wait job_id t timeout (finish job_id i) = true.
Proof.
  unfold wait, active. rewrite bool_decide_eq_false_2; [done|]. unfold finish. cbn [active_].
  intros [_ Hn]%elem_of_filter_b. by rewrite String.eqb_refl in Hn.
Qed.

(** ** The job store: one document per job *)

Definition job_file (job_id : string) : res string :=
  if negb (re_dollar JOB_ID job_id) then Raise ValueError else Ok job_id.

Definition store_save (s : JobSpec) (rig_id : string) (saved_at : pyfloat)
    (files : list (string * document)) : res (list (string * document)) :=
  target ← job_file s.(job_id);
  mret (dset target (Holds (JDict [("rig_id", JStr rig_id); ("saved_at", JFloat saved_at);
                                   ("spec", JDict (payload s))])) files).

Definition store_load (job_id : string) (files : list (string * document))
    : res (option (JobSpec * string)) :=
  target ← job_file job_id;
  match default Absent (dget target files) with
  | Absent | Unreadable => mret None
  | Holds (JDict body) =>
      match jor (getv "spec" body) (JDict []) with
      | JDict p => s ← from_payload p; mret (Some (s, get_str_or "rig_id" "" body))
      | _ => Raise AttributeError
      end
  | Holds _ => Raise AttributeError
  end.

Definition store_forget (job_id : string) (files : list (string * document))
    : list (string * document) :=
  match job_file job_id with Ok target => dpop target files | Raise _ => files end.

(** In the order of the file names. *)
Definition store_all (files : list (string * document)) : res (list (JobSpec * string)) :=
  found ← mapM (λ name, store_load (stake (slen name - 5) name) files)
            (sorted ((λ k, k +:+ ".json") <$> dkeys files));
  mret (list_omap _ _ id found).

(** ** Ports *)

(** A maximal run of digits at the head: its value and the rest. *)
Fixpoint take_digits (run : option Z) (s : string) : option Z * string :=
  match s with
  | String c s' =>
      if is_digit c then take_digits (Some (default 0 run * 10 + digit_val c)%Z) s' else (run, s)
  | "" => (run, "")
  end.

(** [^\s*(\d+)\s*-\s*(\d+)\s*$] *)
Definition parse_range (text : string) : option (Z * Z) :=
  let '(low, r) := take_digits None (lstrip_p is_space text) in
  low ← low;
  match lstrip_p is_space r with
  | String c r' =>
      if Ascii.eqb c "-"%char then
        let '(high, e) := take_digits None (lstrip_p is_space r') in
        high ← high;
        if String.eqb (lstrip_p is_space e) "" then
          if ((low <? 1) || (65535 <? high) || (high <? low))%Z then None else Some (low, high)
        else None
      else None
  | "" => None
  end.

(** [^.*:(\d+)$] on a word *)
Definition token_port (token : string) : option Z :=
  if negb (PyStr.contains ":" token) then None else
  let tail := after_last ":" token in
  match take_digits None tail with (Some n, "") => Some n | _ => None end.

(** The loop over the candidates: the first free port from [candidate] on. *)
Fixpoint next_free (fuel : nat) (busy : list Z) (candidate high : Z) : Z :=
  match fuel with
  | O => candidate
  | S fuel' =>
      if (candidate <=? high)%Z && bool_decide (candidate ∈ busy)
      then next_free fuel' busy (candidate + 1) high else candidate
  end.

Fixpoint assign_ports (busy : list Z) (candidate high : Z) (wanted : list Z)
    : option (list PortMapping.t) :=
  match wanted with
  | [] => Some []
  | port :: wanted' =>
      let found := next_free (Z.to_nat (high - candidate + 1)) busy candidate high in
      if (high <? found)%Z then None
      else rest ← assign_ports busy (found + 1) high wanted';
           Some (PortMapping.Mk found port "tcp" :: rest)
  end.

(** ** Devices *)

Definition normalise_bus (text : string) : string := slast 12 (lower (strip text)).

(** [uuid, bus] *)
Definition bus_line (line : string) : option (string * string) :=
  match strip <$> split_on "," line with
  | [uuid; bus] => if startswith "GPU-" uuid then Some (uuid, normalise_bus bus) else None
  | _ => None
  end.

Definition MINOR_PREFIX : string := "/proc/driver/nvidia/gpus/".

(** [^/proc/driver/nvidia/gpus/([^/]+)/information:\s*Device Minor:\s*(\d+)] *)
Definition minor_line (line : string) : option (string * Z) :=
  let text := strip line in
  if negb (startswith MINOR_PREFIX text) then None else
  '(bus, r) ← partition_first "/" (sdrop (slen MINOR_PREFIX) text);
  if String.eqb bus "" || negb (startswith "information:" r) then None else
  let r := lstrip_p is_space (sdrop 12 r) in
  if negb (startswith "Device Minor:" r) then None else
  n ← (take_digits None (lstrip_p is_space (sdrop 13 r))).1;
  Some (normalise_bus bus, n).

Definition to_dict {A} (l : list (string * A)) : list (string * A) :=
  fold_left (λ d kv, dset kv.1 kv.2 d) l [].

Definition parse_device_probe (stdout : string)
    : list (string * string) * list (string * Z) * list string :=
  let sections := split_on "---" stdout in
  let section n := splitlines (default "" (sections !! n)) in
  (to_dict (list_omap _ _ bus_line (section 0)),
   to_dict (list_omap _ _ minor_line (section 1)),
   List.filter (startswith "/dev/") (strip <$> section 2)).

(** The node of each card in turn, or why there is none. *)
Fixpoint card_nodes (buses : list (string * string)) (minors : list (string * Z))
    (nodes uuids : list string) : list string + string :=
  match uuids with
  | [] => inl []
  | uuid :: uuids' =>
      match (bus ← dget uuid buses; dget bus minors) with
      | None => inr ("no device node resolved for " +:+ uuid)
      | Some minor =>
          let node := "/dev/nvidia" +:+ str_of_Z minor in
          if negb (bool_decide (node ∈ nodes)) then inr (node +:+ " for " +:+ uuid +:+ " is absent")
          else match card_nodes buses minors nodes uuids' with
               | inl rest => inl (node :: rest)
               | inr e => inr e
               end
      end
  end.

Section Queries.
Context {H : Type} (env : Env H).

Definition used_ports : M H (list Z) :=
  result ← run env "ss -Hltn 2>/dev/null || netstat -ltn 2>/dev/null" COMMAND_TIMEOUT;
  mret (list_omap _ _ token_port (List.flat_map split_ws (splitlines result.(stdout)))).

Definition reserve_ports (s : JobSpec) : M H (list PortMapping.t * string) :=
  match s.(ports), s.(container_ports) with
  | _ :: _, _ | _, [] => mret (s.(ports), "")
  | [], wanted =>
      match parse_range s.(port_range) with
      | None => mret ([], "port range " +:+ repr_str s.(port_range) +:+ " is not usable")
      | Some (low, high) =>
          busy ← used_ports;
          match assign_ports busy low high wanted with
          | None => mret ([], "no free port left in the reserved range")
          | Some mappings => mret (mappings, "")
          end
      end
  end.

Definition device_nodes (uuids : list string) (whole_node : bool) : M H (list string * string) :=
  result ← run env DEVICE_PROBE COMMAND_TIMEOUT;
  if transport_failed result then mret ([], result.(error)) else
  let '(buses, minors, nodes) := parse_device_probe result.(stdout) in
  match card_nodes buses minors nodes uuids with
  | inr reason => mret ([], reason)
  | inl chosen =>
      mret (chosen ++ List.filter (λ n, bool_decide (n ∈ nodes)) DEVICE_NODES
            ++ (if whole_node
                then List.filter (λ n, existsb (λ p, startswith (p +:+ "/") n) HOST_WIDE_DIRS) nodes
                else []), "")
  end.

Definition state_of (name : string) : M H (option dict) :=
  result ← run env ("docker inspect --format '{{json .State}}' " +:+ quote name) COMMAND_TIMEOUT;
  if negb (ok result) then mret None else
  mret (match rev (splitlines (strip result.(stdout))) with
        | line :: _ => match env.(loads) line with Some (JDict d) => Some d | _ => None end
        | [] => None
        end).

Definition running (name : string) : M H (option bool) :=
  state ← state_of name;
  mret (match state with Some d => Some (truthy (getv "Running" d)) | None => None end).

Definition diagnostics (name : string) : M H dict :=
  state ← state_of name;
  logs ← run env ("docker logs --tail " +:+ str_of_Z LOG_TAIL_LINES +:+ " " +:+ quote name
                  +:+ " 2>&1") COMMAND_TIMEOUT;
  let d := default [] state in
  mret [("status", getv "Status" d); ("exit_code", getv "ExitCode" d);
        ("oom_killed", getv "OOMKilled" d); ("error", getv "Error" d);
        ("logs", JStr (slast LOG_TAIL_CHARS logs.(stdout)))].

(** ** The two waiting loops; the fuel bounds the sleeps *)

Fixpoint poll_running (fuel : nat) (deadline : pyfloat) (last name : string)
    : M H (bool * string) :=
  t ← now env;
  if negb (flt t deadline) then
    mret (false, "container not running after 10 s (" +:+ sor last "no state" +:+ ")")
  else match fuel with
  | O => lift (Raise Diverged)
  | S fuel' =>
      state ← state_of name;
      match state with
      | None => _ ← sleep env RUNNING_POLL_INTERVAL; poll_running fuel' deadline last name
      | Some d =>
          if truthy (getv "Running" d) then mret (true, "") else
          let status := get_str_or "Status" "" d in
          if bool_decide (status ∈ ["exited"; "dead"]) then
            mret (false, "container " +:+ status +:+ " with code " +:+ py_str (getv "ExitCode" d))
          else _ ← sleep env RUNNING_POLL_INTERVAL; poll_running fuel' deadline status name
      end
  end.

Definition wait_running (name : string) : M H (bool * string) :=
  t ← now env; poll_running RUNNING_POLLS (fadd t RUNNING_POLL_SECONDS) "" name.

Definition port_busy (stderr : string) : bool :=
  existsb (λ marker, PyStr.contains marker (lower stderr)) PORT_BUSY_MARKERS.

Fixpoint try_run (fuel : nat) (command name : string) (deadline : pyfloat) : M H (bool * string) :=
  result ← run env command RUN_TIMEOUT;
  if ok result then mret (true, "") else
  if transport_failed result then mret (false, result.(error)) else
  t ← now env;
  if port_busy result.(stderr) && flt t deadline then
    match fuel with
    | O => lift (Raise Diverged)
    | S fuel' =>
        _ ← run env ("docker rm -f " +:+ quote name) COMMAND_TIMEOUT;
        _ ← sleep env PORT_RETRY_INTERVAL;
        try_run fuel' command name deadline
    end
  else mret (false, sor (strip (stderr_tail 600 result)) result.(error)).

Definition docker_run (s : JobSpec) : M H (bool * string) :=
  command ← lift (run_command s);
  t ← now env;
  try_run PORT_RETRIES command (container_name s) (fadd t PORT_RETRY_SECONDS).

Definition remove_probe_containers : M H unit :=
  _ ← run env "docker ps -aq --filter label=mt.kind=probe | xargs -r docker rm -f" COMMAND_TIMEOUT;
  mret tt.

(** A volume in use is never touched, and nothing is when the uses are unknown. *)
Definition remove_stale (mounted : list string) (name : string) : M H (option string) :=
  if bool_decide (name ∈ mounted) then mret None
  else out ← destroy env name; mret (if (fst out : bool) then Some name else None).

Definition remove_stale_volumes : M H (list string) :=
  ours ← list_ours env;
  mounted ← mounted_volumes env;
  match mounted with
  | None => mret []
  | Some mounted => collect (remove_stale mounted) ours
  end.
End Queries.

(** ** The waiting loops end *)

Section Ends.
Context {H : Type} (env : Env H) (limit : Q) `{!Clock env limit}.
(** The deadline, and a time from which the clock is past it, two sleeps before the
    clock ends. *)
Variables (deadline : pyfloat) (past : Q).
Hypothesis past_limit : (past + 10 <= limit)%Q.
Hypothesis past_deadline : ∀ y, at_least past y → flt y deadline = false.

Lemma state_of_clock q name st :
  at_least q (env.(monotonic) (host st)) →
  ∃ state st', state_of env name st = (Ok state, st') ∧ at_least q (env.(monotonic) (host st')).
Proof.
  intros Hq. unfold state_of, mbind, M_bind.
  destruct (run_clock env limit q ("docker inspect --format '{{json .State}}' " +:+ quote name)
    COMMAND_TIMEOUT st Hq) as (r & st' & -> & Hq').
  destruct (negb (ok r)); by eexists _, _.
Qed.

Lemma before_past q st : at_least q (env.(monotonic) (host st)) →
  flt (env.(monotonic) (host st)) deadline = true → (q < past)%Q.
Proof.
  intros Hq E. destruct (Qlt_le_dec q past) as [?|Hle]; [done|].
  rewrite past_deadline in E; [done|]. by apply (at_least_le _ q).
Qed.

Lemma poll_running_ends :
  ∀ fuel q last name st, at_least q (env.(monotonic) (host st)) →
    (past <= q + inject_Z (Z.of_nat fuel))%Q →
    ∃ out st', poll_running env fuel deadline last name st = (Ok out, st').
Proof.
  intros fuel. induction fuel as [|fuel IH]; intros q last name st Hq Hle;
    cbn [poll_running]; unfold mbind, M_bind, now; cbn [host].
  - rewrite past_deadline; [by eexists _, _|]. apply (at_least_le _ q); [|exact Hq].
    change (inject_Z (Z.of_nat 0)) with 0%Q in Hle. lra.
  - destruct (flt _ deadline) eqn:E; [|by eexists _, _]. cbn [negb]. pose proof (before_past q st Hq E) as Hlt.
    destruct (state_of_clock q name st Hq) as (state & st1 & -> & Hq1).
    assert (Hnext : ∀ last', ∃ out st', (sleep env RUNNING_POLL_INTERVAL ≫= λ _,
      poll_running env fuel deadline last' name) st1 = (Ok out, st')).
    { intros last'. destruct (sleep_clock env limit q 1 st1 ltac:(lia) ltac:(change (inject_Z 1) with 1%Q; lra) Hq1) as (st2 & Hs & Hq2).
      unfold mbind, M_bind. change RUNNING_POLL_INTERVAL with (FFin (inject_Z 1)). rewrite Hs.
      apply (IH (q + 1)%Q); [done|]. rewrite Nat2Z.inj_succ, <- Z.add_1_l, inject_Z_plus in Hle.
      change (inject_Z 1) with 1%Q in Hle. lra. }
    destruct state as [d|]; [|apply Hnext].
    destruct (truthy _); [by eexists _, _|].
    destruct (bool_decide _); [by eexists _, _|apply Hnext].
Qed.

Lemma try_run_ends command name :
  ∀ fuel q st, at_least q (env.(monotonic) (host st)) →
    (past <= q + 5 * inject_Z (Z.of_nat fuel))%Q →
    ∃ out st', try_run env fuel command name deadline st = (Ok out, st').
Proof.
  intros fuel. induction fuel as [|fuel IH]; intros q st Hq Hle;
    cbn [try_run]; unfold mbind, M_bind;
    destruct (run_clock env limit q command RUN_TIMEOUT st Hq) as (r & st1 & -> & Hq1);
    (destruct (ok r); [by eexists _, _|]); (destruct (transport_failed r); [by eexists _, _|]);
    unfold now; cbn [host].
  - rewrite past_deadline, andb_false_r; [by eexists _, _|]. apply (at_least_le _ q); [|exact Hq1].
    change (inject_Z (Z.of_nat 0)) with 0%Q in Hle. lra.
  - destruct (_ && _) eqn:E; [|by eexists _, _]. apply andb_true_iff in E as [_ E].
    pose proof (before_past q st1 Hq1 E) as Hlt.
    destruct (run_clock env limit q ("docker rm -f " +:+ quote name) COMMAND_TIMEOUT st1 Hq1)
      as (r2 & st2 & -> & Hq2).
    destruct (sleep_clock env limit q 5 st2 ltac:(lia) ltac:(change (inject_Z 5) with 5%Q; lra) Hq2) as (st3 & Hs & Hq3).
    change PORT_RETRY_INTERVAL with (FFin (inject_Z 5)). rewrite Hs.
    apply (IH (q + 5)%Q); [done|]. rewrite Nat2Z.inj_succ, <- Z.add_1_l, inject_Z_plus in Hle.
    change (inject_Z 1) with 1%Q in Hle. lra.
Qed.
End Ends.

(** ** Reserved ports *)

Lemma next_free_spec fuel busy high : ∀ candidate,
  (high - candidate + 1 <= Z.of_nat fuel)%Z →
  let f := next_free fuel busy candidate high in
  (candidate <= f)%Z ∧ (∀ p, (candidate <= p < f)%Z → p ∈ busy) ∧ ((high < f)%Z ∨ f ∉ busy).
Proof.
  induction fuel as [|fuel IH]; intros candidate Hf; cbn [next_free].
  - split_and!; [lia|intros; lia|left; lia].
  - destruct (Z.leb_spec candidate high) as [Hle|Hlt]; cbn [andb];
      [|split_and!; [lia|intros; lia|by left]].
    destruct (bool_decide (candidate ∈ busy)) eqn:E; boolify.
    + destruct (IH (candidate + 1)%Z) as (H1 & H2 & H3); [lia|].
      split_and!; [lia| |done]. intros p Hp. destruct (decide (p = candidate)) as [->|]; [done|].
      apply H2. lia.
    + split_and!; [lia|intros; lia|by right].
Qed.

(** The free ports of a range. *)
Definition free_ports (busy : list Z) (low high : Z) : list Z :=
  filter (.∉ busy) (seqZ low (high - low + 1)).

Lemma free_ports_skip busy low f high :
  (low <= f)%Z → (f <= high)%Z → f ∉ busy → (∀ p, (low <= p < f)%Z → p ∈ busy) →
  free_ports busy low high = f :: free_ports busy (f + 1) high.
Proof.
  intros H1 H2 Hf Hb. unfold free_ports.
  replace (high - low + 1)%Z with ((f - low) + ((1 + (high - (f + 1) + 1))))%Z by lia.
  rewrite seqZ_app, filter_app by lia.
  replace (filter (.∉ busy) (seqZ low (f - low))) with (@nil Z).
  - replace (low + (f - low))%Z with f by lia. cbn [app].
    rewrite seqZ_app by lia. cbn [app]. rewrite filter_app.
    change (seqZ f 1) with [f]. by rewrite filter_cons_True.
  - symmetry. apply elem_of_nil_inv. intros p [Hn Hp]%list_elem_of_filter.
    apply elem_of_seqZ in Hp. apply Hn, Hb. lia.
Qed.

Lemma free_ports_none busy low f high :
  (high < f)%Z → (∀ p, (low <= p < f)%Z → p ∈ busy) → free_ports busy low high = [].
Proof.
  intros H1 Hb. apply elem_of_nil_inv. intros p [Hn Hp]%list_elem_of_filter.
  apply elem_of_seqZ in Hp. apply Hn, Hb. lia.
Qed.

(** The ports handed out are the first free ones, in order: one for each
    container port when there are enough, none otherwise. *)
Lemma assign_ports_spec busy high wanted : ∀ low,
  assign_ports busy low high wanted =
    if (List.length wanted <=? List.length (free_ports busy low high))%nat
    then Some (zip_with (λ h c, PortMapping.Mk h c "tcp") (free_ports busy low high) wanted)
    else None.
Proof.
  induction wanted as [|port wanted IH]; intros low; cbn [assign_ports].
  - cbn. by destruct (free_ports _ _ _).
  - destruct (next_free_spec (Z.to_nat (high - low + 1)) busy high low) as (H1 & H2 & H3); [lia|].
    set (f := next_free _ _ _ _) in *. destruct (Z.ltb_spec high f) as [Hlt|Hle].
    + rewrite (free_ports_none busy low f high) by done. done.
    + destruct H3 as [|Hf]; [lia|]. rewrite (free_ports_skip busy low f high) by done.
      rewrite IH. cbn [List.length Nat.leb zip_with]. by destruct (_ <=? _)%nat.
Qed.

(** A stale sweep removes only accepted volume names that no container mounts,
    and removes nothing at all when the mounts cannot be read. *)
Lemma stale_sweep_safe {H} (env : Env H) st removed st' :
  remove_stale_volumes env st = (Ok removed, st') →
  ∃ ours mounted st1 st2,
    list_ours env st = (Ok ours, st1) ∧ mounted_volumes env st1 = (Ok mounted, st2) ∧
    match mounted with
    | None => removed = [] ∧ st' = st2
    | Some used =>
        (∀ name, name ∈ removed → name ∈ ours ∧ valid name = true ∧ name ∉ used) ∧
        ∃ new, log st' = log st2 ++ new ∧
          Forall (λ e, ∃ name, valid name = true ∧ name ∉ used ∧
                     ecommand e = destroy_command name) new
    end.
Proof.
  unfold remove_stale_volumes. intros Hr.
  apply M_bind_ok in Hr as (ours & st1 & H1 & Hr). apply M_bind_ok in Hr as (mounted & st2 & H2 & Hr).
  exists ours, mounted, st1, st2. split; [done|]. split; [done|].
  pose proof (list_ours_valid env st ours st1 H1) as Hv. rewrite Forall_forall in Hv.
  destruct mounted as [used|]; [|by injection Hr as <- <-].
  split.
  - clear H1 H2. revert st2 removed Hr. induction ours as [|x ours IH]; intros st2 removed Hr; cbn in Hr.
    + injection Hr as <- _. by intros ? ?%not_elem_of_nil.
    + apply M_bind_ok in Hr as (y & st3 & H3 & Hr). apply M_bind_ok in Hr as (ys & st4 & H4 & Hr).
      injection Hr as <- <-. intros name Hin.
      assert (Hrest : name ∈ ys → name ∈ x :: ours ∧ valid name = true ∧ name ∉ used).
      { intros Hy. destruct (IH ltac:(intros; apply Hv; by right) st3 ys H4 name Hy) as (A & B & C).
        split_and!; [by right|done|done]. }
      unfold remove_stale in H3. destruct (bool_decide (x ∈ used)) eqn:E.
      { injection H3 as <- <-. by apply Hrest. }
      apply M_bind_ok in H3 as ([[] reason] & st5 & _ & H3); injection H3 as <- <-;
        [|by apply Hrest].
      apply elem_of_cons in Hin as [->|Hy]; [|by apply Hrest].
      apply bool_decide_eq_false in E. split_and!; [by left|apply Hv; by left|done].
  - assert (Hi : issues (λ e, ∃ name, valid name = true ∧ name ∉ used ∧
      ecommand e = destroy_command name) (collect (remove_stale env used) ours)).
    { apply issues_collect. intros x Hx. unfold remove_stale.
      destruct (bool_decide (x ∈ used)) eqn:E; [auto with py|]. apply bool_decide_eq_false in E.
      apply issues_bind; [|auto with py]. unfold Volumes.destroy. rewrite (Hv x Hx). cbn [negb].
      issues. exists x. split_and!; [by apply Hv|done|done]. }
    specialize (Hi st2). rewrite Hr in Hi. exact Hi.
Qed.

Lemma stale_sweep_safe_witness :
  let env := MkEnv unit (λ c _ _ h, (MkResult c 0
      (if String.eqb c list_command then "mt-vol-a" +:+ nls +:+ "mt-vol-b" +:+ nls +:+ "postgres-data"
       else if String.eqb c mounts_command then "mt-vol-a,/data" else "") "" f0 "", h))
    (λ _ h, h) (λ _, f0) (λ _, f0) (λ _, []) (λ _ _, "") (λ _ _, "") (λ _, None) in
  let st := MkSt tt [] (MkInflight [] []) (MkRecords [] []) [] [] in
  ∃ removed st', remove_stale_volumes env st = (Ok removed, st') ∧ removed = ["mt-vol-b"] ∧
    Forall (λ name, valid name = true) removed.
Proof.
  intros env st.
  assert (Hv : match (remove_stale_volumes env st).1 with Ok r => r = ["mt-vol-b"] | _ => False end)
    by (vm_compute; reflexivity).
  destruct (remove_stale_volumes env st) as [[r|] st'] eqn:E; [|destruct Hv].
  cbn [fst] in Hv. exists r, st'. split; [done|]. split; [done|].
  destruct (stale_sweep_safe env st r st' E) as (ours & [used|] & st1 & st2 & _ & _ & Hs);
    [|destruct Hs as [-> _]; constructor].
  apply Forall_forall. intros name Hn. by apply (proj1 Hs).
Defined.
