(* ===== verification/Creation.v ===== *)
(** * Creating and destroying a container (validator/work/containers.py)

    [create] with every early return, its handlers and its [finally] block;
    [destroy] and [recreate]. *)

From Stdlib Require Import Ascii String QArith Lqa.
From S2P Require Import Prelude.
From S2P Require Import PyStr.
From S2P Require Import PyRe.
From S2P Require Import PyRound.
From S2P Require Import PyFloat.
From S2P Require Import PyJson.
From S2P Require Import Shell.
From S2P Require Import Runner.
From S2P Require Import Keys.
From S2P Require Import Volumes.
From S2P Require Import Power.
From S2P Require Import GpuWedge.
From S2P Require Import JobSpec.
From S2P Require Import Containers.
Local Open Scope string_scope.
Local Open Scope list_scope.

(** ** The frame of a call

    The local variables of [create], which its [finally] block reads. *)
Record Frame : Type := MkFrame {
  fspec : JobSpec; fstep : string; fcreated : list string; fcapped : bool; flaunched : bool;
  fsucceeded : bool }.

(** A statement of the body falls through, returns a result or raises. *)
Inductive flow (A : Type) : Type :=
  | Next (a : A)
  | Return (r : CreateResult)
  | Throw (e : exn).
Arguments Next {A}. Arguments Return {A}. Arguments Throw {A}.

Definition B (H A : Type) : Type := St H → Frame → flow A * St H * Frame.

#[export] Instance B_ret {H} : MRet (B H) := λ A a st f, (Next a, st, f).
#[export] Instance B_bind {H} : MBind (B H) := λ A C k m st f,
  match m st f with
  | (Next a, st', f') => k a st' f'
  | (Return r, st', f') => (Return r, st', f')
  | (Throw e, st', f') => (Throw e, st', f')
  end.

Definition await {H A} (m : M H A) : B H A := λ st f,
  match m st with (Ok a, st') => (Next a, st', f) | (Raise e, st') => (Throw e, st', f) end.
Definition leave {H A} (r : CreateResult) : B H A := λ st f, (Return r, st, f).
Definition frame {H} : B H Frame := λ st f, (Next f, st, f).
Definition update {H} (g : Frame → Frame) : B H unit := λ st f, (Next tt, st, g f).

Definition set_step {H} (s : string) : B H unit :=
  update (λ f, MkFrame f.(fspec) s f.(fcreated) f.(fcapped) f.(flaunched) f.(fsucceeded)).
Definition set_spec {H} (g : JobSpec → JobSpec) : B H unit :=
  update (λ f, MkFrame (g f.(fspec)) f.(fstep) f.(fcreated) f.(fcapped) f.(flaunched) f.(fsucceeded)).
Definition add_created {H} (v : string) : B H unit :=
  update (λ f, MkFrame f.(fspec) f.(fstep) (f.(fcreated) ++ [v]) f.(fcapped) f.(flaunched)
                 f.(fsucceeded)).
Definition set_capped {H} : B H unit :=
  update (λ f, MkFrame f.(fspec) f.(fstep) f.(fcreated) true f.(flaunched) f.(fsucceeded)).
Definition set_launched {H} : B H unit :=
  update (λ f, MkFrame f.(fspec) f.(fstep) f.(fcreated) f.(fcapped) true f.(fsucceeded)).
Definition set_succeeded {H} : B H unit :=
  update (λ f, MkFrame f.(fspec) f.(fstep) f.(fcreated) f.(fcapped) f.(flaunched) true).

(** [CreateResult(False, step, reason)] at the current step *)
Definition fail {H A} (reason : string) (container : string) (diag : dict) : B H A :=
  f ← frame; leave (MkCreate false f.(fstep) reason container [] diag f0).

Definition with_ports (p : list PortMapping.t) (s : JobSpec) : JobSpec :=
  MkSpec s.(job_id) s.(kind) s.(image) s.(gpu_uuids) s.(owner) s.(memory_gb) s.(cpus)
    s.(storage_gb) s.(shm_size) p s.(container_ports) s.(port_range) s.(env_vars) s.(command)
    s.(entrypoint) s.(volumes) s.(whole_node) s.(devices) s.(isolation) s.(power_caps)
    s.(quotas_supported) s.(workspace_user).
Definition with_devices (d : list string) (s : JobSpec) : JobSpec :=
  MkSpec s.(job_id) s.(kind) s.(image) s.(gpu_uuids) s.(owner) s.(memory_gb) s.(cpus)
    s.(storage_gb) s.(shm_size) s.(ports) s.(container_ports) s.(port_range) s.(env_vars) s.(command)
    s.(entrypoint) s.(volumes) s.(whole_node) d s.(isolation) s.(power_caps)
    s.(quotas_supported) s.(workspace_user).
Definition keep_volumes (s : JobSpec) : JobSpec :=
  MkSpec s.(job_id) s.(kind) s.(image) s.(gpu_uuids) s.(owner) s.(memory_gb) s.(cpus)
    s.(storage_gb) s.(shm_size) s.(ports) s.(container_ports) s.(port_range) s.(env_vars) s.(command)
    s.(entrypoint)
    ((λ v, VolumeSpec.Mk (VolumeSpec.name v) (VolumeSpec.mount_path v) (VolumeSpec.size_gb v)
             (VolumeSpec.driver v) (VolumeSpec.sparse v) (VolumeSpec.encrypted v) false)
       <$> s.(volumes))
    s.(whole_node) [] s.(isolation) s.(power_caps) s.(quotas_supported) s.(workspace_user).

Fixpoint for_each_b {H A} (g : A → B H unit) (l : list A) : B H unit :=
  match l with [] => mret tt | x :: l' => g x ≫= λ _, for_each_b g l' end.

Section Create.
Context {H : Type} (env : Env H).
Variable hkdf : nat → string → string → list Z → list Z.
(** [os.environ.get(MASTER_SECRET_ENV, "")] *)
Variable environ : string.
(** [records is not None], [store is not None] and [inflight is not None] *)
Variables (has_records has_store has_inflight : bool).

Definition is_cancelled (job_id : string) : M H bool :=
  st ← get; mret (has_inflight && cancelled job_id st.(inflight)).

Definition checkpoint (job_id : string) : M H unit :=
  c ← is_cancelled job_id;
  if (c : bool)
  then lift (Raise (Cancelled ("job " +:+ job_id +:+ " was cancelled during creation")))
  else mret tt.

Definition pull_command (image : string) : string :=
  "flock -w 1800 " +:+ quote PULL_LOCK +:+ " docker pull " +:+ quote image
  +:+ " 2>&1 || docker pull " +:+ quote image +:+ " 2>&1".

Definition create_volume (v : VolumeSpec.t) : B H unit :=
  if negb (VolumeSpec.create v) then mret tt else
  out ← await (Volumes.create env v);
  let '(good, reason) := (out : bool * string) in
  if negb good then fail (VolumeSpec.name v +:+ ": " +:+ reason) "" []
  else add_created (VolumeSpec.name v).

Definition mount_encrypted (s : JobSpec) (secret : list Z) (v : VolumeSpec.t) : B H unit :=
  if negb (VolumeSpec.encrypted v) then mret tt else
  let name := container_name s in
  out ← await (setup_encrypted env hkdf name v secret (VolumeSpec.create v));
  let '(good, reason) := (out : bool * string) in
  if negb good then
    d ← await (diagnostics env name); fail (VolumeSpec.name v +:+ ": " +:+ reason) name d
  else if String.eqb s.(workspace_user) "" then mret tt
  else _ ← await (grant_workspace env name (VolumeSpec.mount_path v) s.(workspace_user)); mret tt.

Definition apply_power (s : JobSpec) : B H unit :=
  match s.(power_caps) with
  | [] => mret tt
  | caps =>
      if negb has_records then fail "power caps requested without a records file" "" [] else
      out ← await (apply_caps env s.(job_id) caps);
      let '(good, reason) := (out : bool * string) in
      if negb good then fail reason "" [] else set_capped
  end.

Definition save_spec (s : JobSpec) (rig_id : string) : M H unit :=
  t ← time env; st ← get;
  files ← lift (store_save s rig_id t st.(job_files));
  set_files files.

(** The body of the [try], in three parts: up to the launch, ... *)
Definition prepare (s : JobSpec) (allowlist : list string) : B H (list Z) :=
  let name := container_name s in
  match problems s allowlist with
  | p :: _ => fail p "" []
  | [] =>
  secret ← (if existsb VolumeSpec.encrypted s.(volumes) then
              match master_secret environ with
              | inl secret => mret secret
              | inr message => fail message "" []
              end
            else mret []);
  _ ← await (checkpoint s.(job_id));
  _ ← set_step "reserve ports";
  reserved ← await (reserve_ports env s);
  let '(ports_, reason) := (reserved : list PortMapping.t * string) in
  if negb (String.eqb reason "") then fail reason "" [] else
  _ ← set_spec (with_ports ports_);
  _ ← set_step "pull";
  pull ← await (run env (pull_command s.(image)) PULL_TIMEOUT);
  if negb (ok pull) then fail (strip (sor pull.(error) (slast 600 pull.(stdout)))) "" [] else
  _ ← await (checkpoint s.(job_id));
  _ ← set_step "cleanup";
  _ ← await (run env ("docker rm -f " +:+ quote name +:+ " 2>/dev/null") COMMAND_TIMEOUT);
  _ ← await (remove_stale_volumes env);
  _ ← set_step "volumes";
  _ ← for_each_b create_volume s.(volumes);
  _ ← set_step "devices";
  found ← await (device_nodes env s.(gpu_uuids) s.(whole_node));
  let '(devices_, reason) := (found : list string * string) in
  if negb (String.eqb reason "") then fail reason "" [] else
  _ ← set_spec (with_devices devices_);
  _ ← set_step "power";
  _ ← apply_power s;
  _ ← await (remove_probe_containers env);
  _ ← await (checkpoint s.(job_id));
  mret secret
  end.

(** ... the launch, up to the last checkpoint, ... *)
Definition launch (s : JobSpec) (secret : list Z) : B H unit :=
  let name := container_name s in
  _ ← set_step "run";
  f ← frame;
  out ← await (docker_run env f.(fspec));
  let '(good, reason) := (out : bool * string) in
  if negb good then fail reason "" [] else
  _ ← set_launched;
  _ ← set_step "running";
  out ← await (wait_running env name);
  let '(good, reason) := (out : bool * string) in
  if negb good then d ← await (diagnostics env name); fail reason name d else
  _ ← set_step "encrypted volumes";
  _ ← for_each_b (mount_encrypted s secret) s.(volumes);
  await (checkpoint s.(job_id)).

(** ... and the record. *)
Definition record (s : JobSpec) (rig_id : string) (started : pyfloat) : B H unit :=
  _ ← set_step "record";
  f ← frame;
  _ ← await (if has_store then save_spec f.(fspec) rig_id else mret tt);
  _ ← set_succeeded;
  t ← await (now env);
  leave (MkCreate true "done" "" (container_name s) f.(fspec).(ports) []
           (fmul (fsub t started) (fz 1000))).

Definition create_body (s : JobSpec) (allowlist : list string) (rig_id : string)
    (started : pyfloat) : B H unit :=
  secret ← prepare s allowlist;
  _ ← launch s secret;
  record s rig_id started.

Definition remove_command (name : string) : string := "docker rm -f -v " +:+ quote name.

(** [_rollback] *)
Definition rollback (s : JobSpec) (f : Frame) : M H unit :=
  _ ← (if f.(flaunched)
       then _ ← run env (remove_command (container_name s)) COMMAND_TIMEOUT; mret tt
       else mret tt);
  _ ← (if f.(fcapped) && has_records then _ ← restore_job env s.(job_id); mret tt else mret tt);
  _ ← for_each (λ v, _ ← destroy env v; mret tt) f.(fcreated);
  _ ← sweep env;
  mret tt.

Definition update_inflight (g : Inflight → Inflight) : M H unit :=
  if has_inflight then st ← get; set_inflight (g st.(inflight)) else mret tt.

(** The [finally] block. *)
Definition finally (s : JobSpec) (f : Frame) : M H unit :=
  was ← is_cancelled s.(job_id);
  _ ← (if (negb f.(fsucceeded) || (was : bool))
          && (f.(flaunched) || f.(fcapped) || negb (bool_decide (f.(fcreated) = [])))
       then
         _ ← rollback s f;
         if has_store && was
         then st ← get; set_files (store_forget s.(job_id) st.(job_files)) else mret tt
       else mret tt);
  update_inflight (finish s.(job_id)).

(** The handlers: what [create] returns, or the exception it lets through. *)
Definition outcome (name : string) (f : Frame) (r : flow unit) : res CreateResult :=
  let container := if f.(flaunched) then name else "" in
  match r with
  | Return r => Ok r
  | Next _ => Raise Diverged
  | Throw (Cancelled message) => Ok (MkCreate false "cancelled" message container [] [] f0)
  | Throw (SshError detail) => Ok (MkCreate false f.(fstep) detail container [] [] f0)
  | Throw (OSError text) => Ok (MkCreate false f.(fstep) text container [] [] f0)
  | Throw e => Raise e
  end.

Definition first_frame (s : JobSpec) : Frame := MkFrame s "validate" [] false false false.

(** The body run to its end, before the [finally] block. *)
Definition create_try (s : JobSpec) (allowlist : list string) (rig_id : string)
    (st : St H) : flow unit * St H * Frame :=
  let started := env.(monotonic) st.(host) in
  let '(_, st) := update_inflight (start s.(job_id)) st in
  create_body s allowlist rig_id started st (first_frame s).

Definition create (s : JobSpec) (allowlist : list string) (rig_id : string) : M H CreateResult :=
  λ st,
    let '(r, st1, f) := create_try s allowlist rig_id st in
    match finally s f st1 with
    | (Ok _, st2) => (outcome (container_name s) f r, st2)
    | (Raise e, st2) => (Raise e, st2)
    end.
End Create.

(** [^[A-Za-z0-9][A-Za-z0-9_.-]{0,80}$] *)
Definition CONTAINER_NAME : re := RCat (RCls is_alnum_ascii) (rep_upto 80 (RCls name_char)).

Section Destroy.
Context {H : Type} (env : Env H).
Variables (has_records has_store : bool).

Fixpoint destroy_volumes (names : list string) (steps : dict) : M H dict :=
  match names with
  | [] => mret steps
  | name :: names' =>
      out ← Volumes.destroy env name;
      destroy_volumes names'
        (dset name (if (fst out : bool) then JBool true else JStr (snd out)) steps)
  end.

Definition destroy_container (name : string) (grace : Z) (job_id : string)
    (volume_names : list string) (prune_images : bool) : M H DestroyResult :=
  if negb (re_dollar CONTAINER_NAME name) then
    mret (MkDestroy false ("container name " +:+ repr_str name +:+ " is not accepted") false [])
  else
  let quoted := quote name in
  stop ← run env ("docker stop -t " +:+ str_of_Z grace +:+ " " +:+ quoted) (fz (grace + 60));
  let stopped := ("stop", if ok stop then JBool true else JStr (strip (stderr_tail 200 stop))) in
  if transport_failed stop then mret (MkDestroy false stop.(error) true [stopped]) else
  removed ← run env ("docker rm -f -v " +:+ quoted) (fz 120);
  let stderr := lower removed.(stderr) in
  if negb (ok removed || PyStr.contains "no such container" stderr) then
    let text := sor (strip (stderr_tail 300 removed)) removed.(error) in
    _ ← sweep env;
    let retry := PyStr.contains "removal" stderr && PyStr.contains "in progress" stderr in
    mret (MkDestroy false text (retry || transport_failed removed)
            [stopped; ("remove", JStr text)])
  else
  power ← (if has_records && negb (String.eqb job_id "")
           then restored ← restore_job env job_id; mret [("power", jstrs restored)]
           else mret []);
  swept ← sweep env;
  prune ← (if prune_images
           then pruned ← run env "docker image prune -f" COMMAND_TIMEOUT;
                mret [("image_prune", JBool (ok pruned))]
           else mret []);
  vols ← destroy_volumes volume_names [];
  _ ← (if has_store && negb (String.eqb job_id "")
       then st ← get; set_files (store_forget job_id st.(job_files)) else mret tt);
  mret (MkDestroy true "" false
          ([stopped; ("remove", JBool true)] ++ power
           ++ [("gpu_wedge", JDict (sweep_payload swept))] ++ prune
           ++ [("volumes", JDict vols)])).
End Destroy.

(** [recreate]: the container is destroyed, its volumes and power caps kept. *)
Definition recreate {H} (env : Env H) hkdf (environ : string) (has_records has_store : bool)
    (s : JobSpec) (allowlist : list string) (rig_id : string) : M H CreateResult :=
  let s := keep_volumes s in
  torn ← destroy_container env false false (container_name s) (stop_grace s) "" [] false;
  if negb (destroyed torn)
  then mret (MkCreate false "destroy" (dreason torn) (container_name s) [] [] f0)
  else create env hkdf environ has_records has_store false s allowlist rig_id.

(** ** Facts *)

(** What a statement keeps of an unfinished frame: [fsucceeded] stays false
    unless a result with [ok=True] is returned, and every volume recorded as
    created has an accepted name. *)
Definition frame_ok (f : Frame) : Prop :=
  fsucceeded f = false ∧ Forall (λ v, valid v = true) f.(fcreated).

Definition safe {H A} (m : B H A) : Prop := ∀ st f, frame_ok f →
  match m st f with
  | (Return r, _, f') => created r = false ∧ frame_ok f'
  | (_, _, f') => frame_ok f'
  end.

Section Safe.
Context {H : Type}.

Lemma safe_ret {A} (a : A) : safe (mret a : B H A).
Proof. by intros st f Hf. Qed.

Lemma safe_bind {A C} (m : B H A) (k : A → B H C) : safe m → (∀ a, safe (k a)) → safe (m ≫= k).
Proof.
  intros Hm Hk st f Hf. specialize (Hm st f Hf). unfold mbind, B_bind.
  destruct (m st f) as [[[a|r|e] st'] f']; [by apply Hk|done|done].
Qed.

Lemma safe_await {A} (m : M H A) : safe (await m).
Proof. intros st f Hf. unfold await. by destruct (m st) as [[a|e] st']. Qed.

Lemma safe_frame : safe (frame : B H Frame).
Proof. by intros st f Hf. Qed.

Lemma safe_fail {A} reason container diag : safe (fail reason container diag : B H A).
Proof. by intros st f Hf. Qed.

Lemma safe_update (g : Frame → Frame) :
  (∀ f, frame_ok f → frame_ok (g f)) → safe (update g : B H unit).
Proof. intros Hg st f Hf. by apply Hg. Qed.

Lemma safe_for_each {A} (g : A → B H unit) l : (∀ x, safe (g x)) → safe (for_each_b g l).
Proof.
  intros Hg. induction l; cbn; [apply safe_ret|]. apply safe_bind; [apply Hg|]. by intros [].
Qed.
End Safe.

#[export] Hint Resolve safe_ret safe_await safe_frame safe_fail : py.
#[export] Hint Extern 1 (safe (set_step _)) => apply safe_update; intros ? []; split; done : py.
#[export] Hint Extern 1 (safe (set_spec _)) => apply safe_update; intros ? []; split; done : py.
#[export] Hint Extern 1 (safe set_capped) => apply safe_update; intros ? []; split; done : py.
#[export] Hint Extern 1 (safe set_launched) => apply safe_update; intros ? []; split; done : py.

Ltac safe_steps :=
  repeat match goal with
  | |- safe (_ ≫= _) => apply safe_bind; [|intros ?]
  | |- safe (for_each_b _ _) => apply safe_for_each; intros ?
  | |- safe (match ?x with _ => _ end) => destruct x
  end; auto with py.

Section Creation.
Context {H : Type} (env : Env H) (hkdf : nat → string → string → list Z → list Z).
Variables (environ : string) (has_records has_store has_inflight : bool).

Lemma create_volume_ok v st r st' :
  Volumes.create env v st = (Ok (true, r), st') → valid (VolumeSpec.name v) = true.
Proof.
  unfold Volumes.create. destruct (VolumeSpec.problems v) eqn:E; [intros _|by intros [=]].
  unfold VolumeSpec.problems in E. destruct (valid _); [done|discriminate].
Qed.

Lemma safe_create_volume v : safe (create_volume env v).
Proof.
  unfold create_volume. destruct (negb _); [auto with py|].
  intros st f Hf. unfold mbind, B_bind, await.
  destruct (Volumes.create env v st) as [[[[] reason]|e] st'] eqn:E; [|done|done].
  cbn. apply create_volume_ok in E. destruct Hf as [H1 H2]. split; [done|].
  apply Forall_app. split; [done|by repeat constructor].
Qed.

#[local] Hint Resolve safe_create_volume : py.

Lemma safe_prepare s allowlist : safe (prepare env environ has_records has_inflight s allowlist).
Proof. unfold prepare, apply_power. safe_steps. Qed.

Lemma safe_launch s secret : safe (launch env hkdf has_inflight s secret).
Proof. unfold launch, mount_encrypted. safe_steps. Qed.

(** The record comes last: it succeeds or raises, and no other task runs in
    between. *)
Lemma record_spec s rig_id started st f :
  frame_ok f →
  match record env has_store s rig_id started st f with
  | (Return r, st', f') =>
      created r = true ∧ fsucceeded f' = true ∧ fcreated f' = fcreated f ∧
      inflight st' = inflight st ∧ log st' = log st
  | (Throw _, st', f') => frame_ok f'
  | (Next _, _, _) => False
  end.
Proof.
  intros Hf. unfold record, save_spec, mbind, B_bind, M_bind, await, update, set_step, frame, lift.
  destruct has_store; cbn; [|done].
  destruct (store_save _ _ _ _) as [files|e]; cbn; [done|done].
Qed.

Lemma checkpoint_spec job_id (st : St H) :
  match checkpoint has_inflight job_id st with
  | (Ok _, st') => st' = st ∧ has_inflight && cancelled job_id (inflight st) = false
  | (Raise e, st') => st' = st
  end.
Proof.
  unfold checkpoint, is_cancelled, mbind, M_bind, get. cbn. by destruct (_ && _) eqn:E.
Qed.

(** What holds when a statement falls through. *)
Definition post {A} (m : B H A) (Q : St H → Prop) : Prop := ∀ st f,
  match m st f with (Next _, st', _) => Q st' | _ => True end.

Lemma post_bind {A C} (m : B H A) (k : A → B H C) Q : (∀ a, post (k a) Q) → post (m ≫= k) Q.
Proof.
  intros Hk st f. unfold mbind, B_bind. destruct (m st f) as [[[a|r|e] st'] f']; [apply Hk|done|done].
Qed.

Lemma post_checkpoint job_id :
  post (await (checkpoint has_inflight job_id))
    (λ st, has_inflight && cancelled job_id (inflight st) = false).
Proof.
  intros st f. unfold await. pose proof (checkpoint_spec job_id st) as Hc.
  destruct (checkpoint _ _ _) as [[?|?] ?]; [|done]. by destruct Hc as [-> ?].
Qed.

(** A launch that falls through leaves the job not cancelled. *)
Lemma launch_spec s secret :
  post (launch env hkdf has_inflight s secret)
    (λ st, has_inflight && cancelled s.(job_id) (inflight st) = false).
Proof.
  unfold launch. do 3 (apply post_bind; intros ?). destruct a1 as [good reason].
  destruct (negb good); [done|]. do 3 (apply post_bind; intros ?). destruct a3 as [good' reason'].
  destruct (negb good'); [by intros ??; unfold mbind, B_bind, await, fail, frame, leave;
    destruct (diagnostics _ _ _) as [[]]|].
  do 2 (apply post_bind; intros ?). apply post_checkpoint.
Qed.

(** The body, whole. *)
Lemma body_spec s allowlist rig_id started st f :
  frame_ok f →
  match create_body env hkdf environ has_records has_store has_inflight s allowlist rig_id
          started st f with
  | (Return r, st', f') =>
      created r = fsucceeded f' ∧ Forall (λ v, valid v = true) (fcreated f') ∧
      (created r = true → has_inflight && cancelled s.(job_id) (inflight st') = false)
  | (Throw _, st', f') => frame_ok f'
  | (Next _, _, _) => False
  end.
Proof.
  intros Hf. unfold create_body. unfold mbind at 1, B_bind at 1.
  pose proof (safe_prepare s allowlist st f Hf) as Hp.
  destruct (prepare _ _ _ _ _ _ _ _) as [[[secret|r|e] st1] f1];
    [|by destruct Hp as (-> & -> & ?)|done].
  unfold mbind, B_bind. pose proof (safe_launch s secret st1 f1 Hp) as Hl.
  pose proof (launch_spec s secret st1 f1) as Hc.
  destruct (launch _ _ _ _ _ _ _) as [[[[]|r|e] st2] f2]; [|by destruct Hl as (-> & -> & ?)|done].
  pose proof (record_spec s rig_id started st2 f2 Hl) as Hr.
  destruct (record _ _ _ _ _ _ _) as [[[[]|r|e] st3] f3]; [done| |done].
  destruct Hr as (H1 & H2 & H3 & H4 & H5). rewrite H1, H2, H3, H4. split_and!; [done|apply Hl|done].
Qed.

(** ** The rollback *)

Lemma run_logs c t (st : St H) : ∃ r,
  log (run env c t st).2 = log st ++ [MkEvent c t None r].
Proof. unfold run, run_with. destruct (exec _ _ _ _ _) as [r h]. eexists. done. Qed.

(** The log only grows. *)
Definition grows {A} (m : M H A) : Prop := ∀ st, log st `prefix_of` log (m st).2.

Lemma grows_issues {A} (m : M H A) : issues (λ _, True) m → grows m.
Proof. intros Hm st. destruct (Hm st) as (new & -> & _). by apply prefix_app_r. Qed.

(** Some command among the events logged after [st]. *)
Definition logged (c : string) (st st' : St H) : Prop :=
  ∃ new e, log st' = log st ++ new ∧ e ∈ new ∧ ecommand e = c.

Lemma logged_later c st st1 st' :
  logged c st st1 → log st1 `prefix_of` log st' → logged c st st'.
Proof.
  intros (new & e & H1 & H2 & H3) [k Hk]. exists (new ++ k), e.
  rewrite Hk, H1, app_assoc. split_and!; [done|apply elem_of_app; by left|done].
Qed.

Lemma logged_earlier c st st1 st' :
  log st `prefix_of` log st1 → logged c st1 st' → logged c st st'.
Proof.
  intros [k Hk] (new & e & H1 & H2 & H3). exists (k ++ new), e.
  rewrite H1, Hk, app_assoc. split_and!; [done|apply elem_of_app; by right|done].
Qed.

(** Every kind of command is some command: the generic growth of the log. *)
Lemma grows_destroy name : grows (Volumes.destroy env name).
Proof. apply grows_issues. eapply issues_weaken; [|apply destroy_issues]. done. Qed.

Lemma grows_sweep : grows (sweep env).
Proof. apply grows_issues, sweep_issues. done. Qed.

Lemma issues_set_limit uuid w : issues (λ _, True) (set_limit env uuid w).
Proof. unfold set_limit, read_state. issues. Qed.

Lemma grows_restore_job job : grows (restore_job env job).
Proof.
  apply grows_issues. unfold restore_job. apply issues_bind; [auto with py|intros st].
  apply issues_collect. intros u _. unfold restore_one. apply issues_bind; [auto with py|intros s].
  unfold update_records.
  destruct (original _ _); issues. apply issues_set_limit.
Qed.

Lemma grows_bind_ok {A C} (m : M H A) (k : A → M H C) st c st' :
  (m ≫= k) st = (Ok c, st') → grows m → ∃ a st1,
    m st = (Ok a, st1) ∧ log st `prefix_of` log st1 ∧ k a st1 = (Ok c, st').
Proof.
  intros Hk Hg. apply M_bind_ok in Hk as (a & st1 & H1 & H2). exists a, st1.
  specialize (Hg st). rewrite H1 in Hg. done.
Qed.

Lemma destroy_logged name st r st' :
  valid name = true → Volumes.destroy env name st = (Ok r, st') →
  logged (destroy_command name) st st'.
Proof.
  intros Hv. unfold Volumes.destroy. rewrite Hv. cbn [negb].
  intros Hd. apply M_bind_ok in Hd as (res & st1 & H1 & H2).
  destruct (run_logs (destroy_command name) COMMAND_TIMEOUT st) as [r' Hl].
  rewrite H1 in Hl. cbn in Hl. assert (st' = st1) as -> by (destruct (_ || _); by injection H2 as _ <-).
  eexists [_], _. split_and!; [exact Hl|by left|done].
Qed.

Lemma destroy_all_logged names st st' :
  Forall (λ v, valid v = true) names →
  for_each (λ v, _ ← Volumes.destroy env v; mret tt) names st = (Ok tt, st') →
  log st `prefix_of` log st' ∧ ∀ v, v ∈ names → logged (destroy_command v) st st'.
Proof.
  intros Hv. revert st. induction Hv as [|v names Hv _ IH]; intros st Hd; cbn [for_each] in Hd.
  - injection Hd as <-. split; [done|]. by intros v ?%not_elem_of_nil.
  - apply M_bind_ok in Hd as ([] & st1 & H1 & H2).
    apply (grows_bind_ok _ _ _ _ _) in H1 as (r & st2 & H1 & Hp & [= <-]); [|apply grows_destroy].
    destruct (IH _ H2) as [Hp2 Hall]. split; [by transitivity (log st2)|].
    intros u [->|Hu]%elem_of_cons.
    + eapply logged_later; [by eapply destroy_logged|done].
    + eapply logged_earlier; [exact Hp|by apply Hall].
Qed.

Lemma rollback_spec s f st st' :
  Forall (λ v, valid v = true) (fcreated f) →
  rollback env has_records s f st = (Ok tt, st') →
  (flaunched f = true → logged (remove_command (container_name s)) st st') ∧
  (∀ v, v ∈ fcreated f → logged (destroy_command v) st st').
Proof.
  intros Hv. unfold rollback. intros Hr.
  apply M_bind_ok in Hr as ([] & st1 & H1 & Hr). apply M_bind_ok in Hr as ([] & st2 & H2 & Hr).
  apply M_bind_ok in Hr as ([] & st3 & H3 & Hr).
  apply grows_bind_ok in Hr as (w & st4 & _ & Hp4 & [= <-]); [|apply grows_sweep].
  destruct (destroy_all_logged _ _ _ Hv H3) as [Hp3 Hall].
  assert (Hp2 : log st1 `prefix_of` log st2).
  { destruct (_ && _); [|by injection H2 as <-].
    apply grows_bind_ok in H2 as (l & st5 & _ & Hp5 & [= <-]); [done|apply grows_restore_job]. }
  assert (Hp1 : log st `prefix_of` log st1 ∧
    (flaunched f = true → logged (remove_command (container_name s)) st st1)).
  { destruct (flaunched f); [|injection H1 as <-; by split].
    apply M_bind_ok in H1 as (r & st5 & H1 & [= <-]).
    destruct (run_logs (remove_command (container_name s)) COMMAND_TIMEOUT st) as [r' Hl].
    rewrite H1 in Hl. cbn in Hl. split; [by eexists|]. intros _.
    eexists [_], _. split_and!; [exact Hl|by left|done]. }
  destruct Hp1 as [Hp1 Hrm]. split.
  - intros Hl. eapply logged_later; [by apply Hrm|]. by repeat (etransitivity; [done|]).
  - intros v Hin. eapply logged_earlier; [|eapply logged_later; [by apply Hall|done]].
    by etransitivity.
Qed.

Lemma update_inflight_st g (st : St H) :
  ∃ i, update_inflight has_inflight g st =
    (Ok tt, MkSt (host st) (log st) i (records st) (job_files st) (retries st)) ∧
    (has_inflight = true → i = g (inflight st)).
Proof.
  unfold update_inflight. destruct has_inflight.
  - by exists (g (inflight st)).
  - exists (inflight st). split; [by destruct st|done].
Qed.

Lemma finish_inactive job_id i : active job_id (finish job_id i) = false.
Proof.
  unfold active, finish. cbn. apply bool_decide_eq_false.
  intros Hin%list_elem_of_In%filter_In. destruct Hin as [_ Hn]. by rewrite String.eqb_refl in Hn.
Qed.

Lemma finally_spec s f st st' :
  Forall (λ v, valid v = true) (fcreated f) →
  finally env has_records has_store has_inflight s f st = (Ok tt, st') →
  (has_inflight = true → active s.(job_id) (inflight st') = false) ∧
  (fsucceeded f = false →
     (flaunched f = true → logged (remove_command (container_name s)) st st') ∧
     (∀ v, v ∈ fcreated f → logged (destroy_command v) st st')) ∧
  (fsucceeded f = true → has_inflight && cancelled s.(job_id) (inflight st) = false →
     log st' = log st).
Proof.
  intros Hv. unfold finally. intros Hf.
  apply M_bind_ok in Hf as (was & st1 & Hw & Hf). injection Hw as <- <-.
  apply M_bind_ok in Hf as ([] & st2 & H2 & Hf).
  destruct (update_inflight_st (finish s.(job_id)) st2) as (i & Hu & Hi). rewrite Hu in Hf.
  injection Hf as <-. cbn [inflight log].
  split; [intros Hh; rewrite (Hi Hh); apply finish_inactive|].
  split.
  - intros Hs. rewrite Hs in H2. cbn [negb orb andb] in H2.
    destruct (flaunched f || fcapped f || negb (bool_decide (fcreated f = []))) eqn:E.
    + apply M_bind_ok in H2 as ([] & st3 & H3 & H4).
      destruct (rollback_spec s f st st3 Hv H3) as [Hl Hd].
      assert (Hp : log st2 = log st3) by (by destruct (_ && _); injection H4 as <-).
      unfold logged in *. cbn [log]. rewrite Hp. done.
    + apply orb_false_iff in E as [[E1 _]%orb_false_iff E2].
      apply negb_false_iff, bool_decide_eq_true in E2. rewrite E1, E2.
      split; [done|]. by intros v ?%not_elem_of_nil.
  - intros Hs Hc. rewrite Hs, Hc in H2. cbn [negb orb andb] in H2. by injection H2 as <-.
Qed.

Let create_ := create env hkdf environ has_records has_store has_inflight.
Let create_try_ := create_try env hkdf environ has_records has_store has_inflight.

Lemma create_parts s allowlist rig_id st r st2 :
  create_ s allowlist rig_id st = (Ok r, st2) →
  ∃ fl st1 f, create_try_ s allowlist rig_id st = (fl, st1, f) ∧
    finally env has_records has_store has_inflight s f st1 = (Ok tt, st2) ∧
    Forall (λ v, valid v = true) (fcreated f) ∧ created r = fsucceeded f ∧
    (created r = true → has_inflight && cancelled s.(job_id) (inflight st1) = false).
Proof.
  unfold create_, create, create_try_.
  destruct (create_try _ _ _ _ _ _ _ _ _ _) as [[fl st1] f] eqn:E. intros Hc.
  exists fl, st1, f. split; [done|].
  destruct (finally _ _ _ _ _ _ _) as [[[]|e] st3] eqn:Ef; [|done].
  injection Hc as Ho <-. split; [done|]. unfold create_try in E.
  destruct (update_inflight_st (start s.(job_id)) st) as (i & Hu & _). rewrite Hu in E.
  match type of E with create_body _ _ _ _ _ _ _ _ _ ?t ?st ?fr = _ =>
    pose proof (body_spec s allowlist rig_id t st fr) as Hb; rewrite E in Hb end.
  assert (Hf0 : frame_ok (first_frame s)) by (split; [done|constructor]).
  specialize (Hb Hf0). destruct fl as [?|r'|e]; [done| |].
  - injection Ho as <-. destruct Hb as (H1 & H2 & H3). done.
  - destruct Hb as [Hs Hv]. split; [done|]. rewrite Hs.
    destruct e; cbn in Ho; try discriminate; injection Ho as <-; done.
Qed.
End Creation.

(** ** Properties *)

(** C1. A creation that fails leaves nothing behind: whatever step failed and
    whatever the machine answered, if the container was launched it is removed,
    and every volume created for it is removed; the job is no longer in flight. *)
Theorem create_rolls_back {H} (env : Env H) hkdf environ has_records has_store has_inflight
    s allowlist rig_id st r st2 :
  create env hkdf environ has_records has_store has_inflight s allowlist rig_id st = (Ok r, st2) →
  created r = false →
  ∃ fl st1 f,
    create_try env hkdf environ has_records has_store has_inflight s allowlist rig_id st
      = (fl, st1, f) ∧
    (flaunched f = true → logged (remove_command (container_name s)) st1 st2) ∧
    (∀ v, v ∈ fcreated f → logged (destroy_command v) st1 st2) ∧
    (has_inflight = true → active s.(job_id) (inflight st2) = false).
Proof.
  intros Hc Hr.
  destruct (create_parts _ _ _ _ _ _ _ _ _ _ _ _ Hc) as (fl & st1 & f & Ht & Hf & Hv & Hs & _).
  exists fl, st1, f. split; [done|]. rewrite Hr in Hs.
  destruct (finally_spec _ _ _ _ _ _ _ _ Hv Hf) as (Hi & Hroll & _).
  destruct (Hroll (eq_sym Hs)) as [Hl Hd]. done.
Qed.

(** A creation reported as successful is not undone: after the body nothing is
    run on the machine, even when a cancellation had been racing with it, and
    the job is no longer in flight. *)
Lemma create_success_kept {H} (env : Env H) hkdf environ has_records has_store has_inflight
    s allowlist rig_id st r st2 :
  create env hkdf environ has_records has_store has_inflight s allowlist rig_id st = (Ok r, st2) →
  created r = true →
  ∃ fl st1 f,
    create_try env hkdf environ has_records has_store has_inflight s allowlist rig_id st
      = (fl, st1, f) ∧ log st2 = log st1 ∧
    (has_inflight = true → active s.(job_id) (inflight st2) = false).
Proof.
  intros Hc Hr.
  destruct (create_parts _ _ _ _ _ _ _ _ _ _ _ _ Hc) as (fl & st1 & f & Ht & Hf & Hv & Hs & Hnc).
  exists fl, st1, f. split; [done|].
  destruct (finally_spec _ _ _ _ _ _ _ _ Hv Hf) as (Hi & _ & Hk).
  split; [|done]. apply Hk; [by rewrite <- Hs|by apply Hnc].
Qed.

(** A specification with a problem never reaches the machine: the first problem
    is returned, and not one command is run. *)
Lemma create_refuses {H} (env : Env H) hkdf environ has_records has_store has_inflight
    s allowlist rig_id st p rest :
  problems s allowlist = p :: rest →
  ∃ st2,
    create env hkdf environ has_records has_store has_inflight s allowlist rig_id st =
      (Ok (MkCreate false "validate" p "" [] [] f0), st2) ∧
    log st2 = log st ∧ host st2 = host st ∧ records st2 = records st ∧ job_files st2 = job_files st.
Proof.
  intros Hp. unfold create, create_try.
  destruct (update_inflight_st has_inflight (start s.(job_id)) st) as (i & Hu & _). rewrite Hu.
  match goal with |- context [create_body ?a ?b ?c ?d ?e ?f ?s ?l ?r ?t ?u ?w] =>
    assert (Hb : create_body a b c d e f s l r t u w =
      (Return (MkCreate false "validate" p "" [] [] f0), u, w))
      by (unfold create_body, prepare; rewrite Hp; reflexivity); rewrite Hb end.
  unfold finally, is_cancelled, mbind, M_bind, get, mret, M_ret. cbn.
  match goal with |- context [update_inflight has_inflight ?g ?s] =>
    destruct (update_inflight_st has_inflight g s) as (i' & Hu' & _); rewrite Hu' end.
  eexists. split; [done|]. done.
Qed.

(** The two waiting loops of a creation end with an answer: on a clock that
    advances for a hundred seconds more, the container either runs or is reported not
    running after ten seconds, and a busy port is retried for at most ninety. *)
Lemma waits_end {H} (env : Env H) limit `{!Clock env limit} name command st q :
  env.(monotonic) (host st) = FFin q → (q + 100 <= limit)%Q →
  (∃ out st', wait_running env name st = (Ok out, st')) ∧
  (∃ out st', try_run env PORT_RETRIES command name
     (fadd (env.(monotonic) (host st)) PORT_RETRY_SECONDS) st = (Ok out, st')).
Proof.
  intros E Hl. assert (∃ r, env.(monotonic) (host st) = FFin r ∧ representable r) as Hq.
  { destruct (clock_reads (host st)) as (r & Hr & ? & _). by exists r. }
  assert (∀ d, at_least d (env.(monotonic) (host st)) → (d <= q)%Q) as Hdq.
  { intros d [Hd|(r & Hd & _ & Hle)]; rewrite E in Hd; [done|]. by injection Hd as ->. }
  split.
  - destruct (deadline_past _ 10 Hq) as (d & Hd & Hpast). pose proof (Hdq d Hd).
    apply (poll_running_ends env limit _ (d + 10) ltac:(lra) Hpast RUNNING_POLLS d "" name st Hd). apply Qle_refl.
  - destruct (deadline_past _ 90 Hq) as (d & Hd & Hpast). pose proof (Hdq d Hd).
    apply (try_run_ends env limit _ (d + 90) ltac:(lra) Hpast command name PORT_RETRIES d st Hd). apply Qle_refl.
Qed.

(** A machine with one card whose containers run, or never start. *)
Definition sample_probe : string :=
  sample_uuid +:+ ", 00000000:01:00.0" +:+ nls +:+ "---" +:+ nls
  +:+ "/proc/driver/nvidia/gpus/0000:01:00.0/information: Device Minor: 0" +:+ nls
  +:+ "---" +:+ nls +:+ "/dev/nvidia0" +:+ nls.
Definition sample_host (starts : bool) : Env Z :=
  MkEnv Z (λ c _ _ h, (MkResult c 0 (if String.eqb c DEVICE_PROBE then sample_probe else
             if startswith "docker inspect" c then "state" else "") "" f0 "", h))
    (λ _ h, (h + 4)%Z) fz fz (λ _, []) (λ _ _, "") (λ _ _, "")
    (λ _, Some (JDict [("Running", JBool starts)])).
Definition sample_start : St Z := MkSt 0%Z [] (MkInflight [] []) (MkRecords [] []) [] [].
#[local] Abbreviation sample_create starts :=
  (create (sample_host starts) (λ _ _ _ _, []) "" true true true sample_spec
    [sample_spec.(image)] "rig").

Lemma create_rolls_back_witness :
  match sample_create false sample_start with
  | (Ok r, st2) => created r = false ∧
      ∃ st1, logged (remove_command "mt-job-1") st1 st2 ∧ logged (destroy_command "mt-vol-job-1") st1 st2
  | _ => False
  end.
Proof.
  assert (Hr : match (sample_create false sample_start).1 with Ok r => created r = false | _ => False end)
    by (vm_compute; reflexivity).
  assert (Hf : let '(_, _, f) := create_try (sample_host false) (λ _ _ _ _, []) "" true true true
                 sample_spec [sample_spec.(image)] "rig" sample_start in
               flaunched f = true ∧ fcreated f = ["mt-vol-job-1"])
    by (vm_compute; split; reflexivity).
  destruct (sample_create false sample_start) as [[r|] st2] eqn:E; [|destruct Hr].
  cbn [fst] in Hr. split; [exact Hr|].
  destruct (create_rolls_back _ _ _ _ _ _ _ _ _ _ _ _ E Hr) as (fl & st1 & f & Ht & Hl & Hd & _).
  rewrite Ht in Hf. destruct Hf as [Hf1 Hf2].
  exists st1. split; [by apply Hl|]. apply Hd. rewrite Hf2. apply list_elem_of_here.
Defined.

Lemma create_success_kept_witness :
  match sample_create true sample_start with
  | (Ok r, st2) => created r = true ∧ active "job-1" (inflight st2) = false
  | _ => False
  end.
Proof.
  assert (Hr : match (sample_create true sample_start).1 with Ok r => created r = true | _ => False end)
    by (vm_compute; reflexivity).
  destruct (sample_create true sample_start) as [[r|] st2] eqn:E; [|destruct Hr].
  cbn [fst] in Hr. split; [exact Hr|].
  destruct (create_success_kept _ _ _ _ _ _ _ _ _ _ _ _ E Hr) as (fl & st1 & f & _ & _ & Hi).
  by apply Hi.
Defined.

Lemma create_refuses_witness :
  ∃ p st2, create (sample_host true) (λ _ _ _ _, []) "" true true true sample_spec [] "rig"
             sample_start = (Ok (MkCreate false "validate" p "" [] [] f0), st2) ∧ log st2 = [].
Proof.
  destruct (problems sample_spec []) as [|p rest] eqn:E; [vm_compute in E; discriminate|].
  destruct (create_refuses (sample_host true) (λ _ _ _ _, []) "" true true true sample_spec []
    "rig" sample_start p rest E) as (st2 & H & Hl & _). by exists p, st2.
Defined.

(** A machine that refuses every command, on a clock of two hundred seconds. *)
Definition slow_host : Env Z :=
  MkEnv Z (λ c _ _ h, (MkResult c 1 "" "address already in use" f0 "", h))
    (λ s h, match ftrunc s with Ok n => (Z.max 0 h + n)%Z | Raise _ => h end)
    (λ h, FFin (inject_Z (Z.max 0 (Z.min 200 h)))) (λ _, f0) (λ _, []) (λ _ _, "") (λ _ _, "") (λ _, None).

#[local] Instance slow_clock : Clock slow_host 200.
Proof.
  split.
  - intros h. cbn. eexists. split; [done|]. split; [apply representable_Z; lia|].
    change 200%Q with (inject_Z 200). rewrite <- Zle_Qle. lia.
  - intros c t i h a b. cbn. intros [= <-] [= <-]. split; [apply Qle_refl|]. intros _. rewrite Qplus_0_r. apply Qle_refl.
  - intros s Hs h a b. cbn [slow_host monotonic idle].
    assert (ftrunc (FFin (inject_Z s)) = Ok s) as -> by (cbn; by rewrite Z.quot_1_r).
    intros [= <-] [= <-]. change 200%Q with (inject_Z 200). rewrite <- inject_Z_plus, <- !Zle_Qle. lia.
Qed.

Lemma waits_end_witness :
  ∃ out st', wait_running slow_host "mt-job-1"
    (MkSt 5%Z [] (MkInflight [] []) (MkRecords [] []) [] []) = (Ok out, st').
Proof.
  exact (proj1 (waits_end slow_host 200 "mt-job-1" "docker run"
    (MkSt 5%Z [] (MkInflight [] []) (MkRecords [] []) [] []) 5 eq_refl ltac:(done))).
Defined.
