(* ===== verification/Placement.v ===== *)
(** * Placement of a job (validator/work/placement.py) *)

From Stdlib Require Import Ascii String QArith.
From stdpp Require Import sorting.
From S2P Require Import Prelude.
From S2P Require Import PyStr.
From S2P Require Import PyFloat.
From S2P Require Import PyJson.
From S2P Require Import SessionProto.
From S2P Require Import Tiers.
From S2P Require Import Reliability.
From S2P Require Import Weights.
From S2P Require Import Runner.
From S2P Require Import GpuWedge.
Local Open Scope string_scope.
Local Open Scope list_scope.

Fixpoint kind_index (k : WorkKind) (l : list WorkKind) : nat :=
  match l with [] => 0 | x :: l' => if decide (x = k) then 0 else S (kind_index k l') end.

(** [RANK]: the position in [PRIORITY]. *)
Definition RANK (k : WorkKind) : nat := kind_index k PRIORITY.
Definition SENSITIVE : list WorkKind := [RENTAL].
Definition CUSTOMER : list WorkKind := [INFERENCE].

Record Placement : Type := MkPlacement {
  rig_id : string; gpu_uuids : list string; displaced : list string; reason : string }.

Definition placed (p : Placement) : bool :=
  negb (String.eqb p.(rig_id) "") && negb (bool_decide (p.(gpu_uuids) = [])).

Definition payload (p : Placement) : dict :=
  [("rig_id", JStr p.(rig_id)); ("gpu_uuids", jstrs p.(gpu_uuids));
   ("displaced", jstrs p.(displaced)); ("reason", JStr p.(reason))].

Definition kind_of (text : string) : option WorkKind :=
  List.find (λ k, String.eqb text (kind_value k)) PRIORITY.

(** [reasons[0]] *)
Definition first_item (j : json) : res json :=
  match j with
  | JList (x :: _) => Ok x
  | JStr (String c _) => Ok (JStr (String c ""))
  | JList [] | JStr "" => Raise IndexError
  | JDict _ => Raise KeyError
  | _ => Raise TypeError
  end.

Definition ineligible_reason (rig : dict) (kind : WorkKind) : res string :=
  if negb (bool_decide (get_str "state" rig ∈ VERIFIED_STATES))
  then Ok ("rig is " +:+ py_str (getd "state" (JStr "unknown") rig))
  else if negb (get_bool "online" false rig) then Ok "rig is offline"
  else if get_bool "draining" false rig then Ok "rig is draining"
  else if bool_decide (kind = RENTAL) && get_bool "rental_opt_out" false rig
  then Ok "rental declined by the owner"
  else
    kinds ← jget "kinds" JNull (jor (getv "eligibility" rig) (JDict []));
    entry ← jget (kind_value kind) JNull (jor kinds (JDict []));
    match entry with
    | JNull => Ok ("no eligibility record for " +:+ kind_value kind)
    | _ =>
        eligible ← jget "eligible" (JBool false) entry;
        if negb (truthy eligible) then
          reasons ← jget "reasons" JNull entry;
          let reasons := jor reasons (JList []) in
          first ← (if truthy reasons then first_item reasons else Ok (JStr "unspecified"));
          Ok ("not eligible for " +:+ kind_value kind +:+ ": " +:+ py_str first)
        else Ok ""
    end.

(** The cards of a rig, and the jobs on each. *)
Abbreviation occupancy_table := (list (string * list JobRecord.t)).

Definition card_uuid (card : json) : option string :=
  match card with
  | JDict c => if truthy (getv "uuid" c) then Some (get_str "uuid" c) else None
  | _ => None
  end.

Definition add_job (job : JobRecord.t) (table : occupancy_table) (uuid : string) : occupancy_table :=
  dset uuid (default [] (dget uuid table) ++ [job]) table.

Definition targets (uuids : list string) (table : occupancy_table) (job : JobRecord.t) : list string :=
  if negb (String.eqb (JobRecord.gpu_uuid job) "") && dmem (JobRecord.gpu_uuid job) table
  then [JobRecord.gpu_uuid job] else uuids.

Definition occupancy_of (uuids : list string) (jobs : list JobRecord.t) : occupancy_table :=
  fold_left (λ table job, fold_left (add_job job) (targets uuids table job) table) jobs
    (fold_left (λ table uuid, dset uuid [] table) uuids []).

Definition occupancy (rig : dict) (jobs : list JobRecord.t) : res occupancy_table :=
  cards ← get_list "gpus" rig;
  mret (occupancy_of (list_omap _ _ card_uuid cards) jobs).

Definition job_kind (job : JobRecord.t) : option WorkKind := kind_of (JobRecord.kind job).

Definition is_sensitive (k : option WorkKind) : bool :=
  match k with Some k => bool_decide (k ∈ SENSITIVE) | None => false end.
Definition is_customer (k : option WorkKind) : bool :=
  match k with Some k => bool_decide (k ∈ CUSTOMER) | None => false end.

Definition can_share (existing : list JobRecord.t) (kind : WorkKind) : bool :=
  match existing with
  | [] => true
  | _ =>
      let kinds := job_kind <$> existing in
      if bool_decide (kind ∈ SENSITIVE) || existsb is_sensitive kinds then false
      else if bool_decide (kind ∈ CUSTOMER) then forallb is_customer kinds
      else false
  end.

Definition displaceable_by (kind : WorkKind) (job : JobRecord.t) : bool :=
  match job_kind job with
  | None => false
  | Some current =>
      negb (RANK current <=? RANK kind)%nat
      && negb (is_sensitive (Some current) || is_customer (Some current))
  end.

Definition can_displace (existing : list JobRecord.t) (kind : WorkKind) : bool :=
  match existing with [] => false | _ => forallb (displaceable_by kind) existing end.

(** The sort key; the length of a list is a small int, so [float] never raises. *)
Definition rank_rig (rig : dict) (free displaced : Z) (ledger : option ledger)
    : res (list pyfloat) :=
  reliability ← get_float_or "reliability" rig;
  uptime ← match ledger with
           | Some l => Reliability.uptime_days (get_str "id" rig) l
           | None => Ok f0 end;
  d ← float_of_int displaced;
  f ← float_of_int free;
  mret [d; fneg reliability; fneg uptime; fneg f].

(** [a < b] on tuples of floats *)
Fixpoint key_lt (a b : list pyfloat) : bool :=
  match a, b with
  | x :: a', y :: b' => if feq x y then key_lt a' b' else flt x y
  | [], _ :: _ => true
  | _, [] => false
  end.

Section Choose.
Variables (kind : WorkKind) (needed : nat) (whole_node : bool).
Variables (jobs_by_rig : list (string * list JobRecord.t)) (ledger : option ledger).

(** What one rig offers: a placement with its key, or why there is none. *)
Definition consider (rig : dict) : res (string + (list pyfloat * Placement)) :=
  let rig_id := get_str_or "id" "" rig in
  reason ← ineligible_reason rig kind;
  if negb (String.eqb reason "") then mret (inl (rig_id +:+ ": " +:+ reason)) else
  table ← occupancy rig (default [] (dget rig_id jobs_by_rig));
  let size := List.length table in
  if whole_node && negb (size =? needed)%nat then
    mret (inl (rig_id +:+ ": whole node has " +:+ str_of_Z (Z.of_nat size) +:+ " cards, "
               +:+ str_of_Z (Z.of_nat needed) +:+ " requested"))
  else
  let free := (List.filter (λ kv, bool_decide (kv.2 = [])) table).*1 in
  let shareable := (List.filter (λ kv, negb (bool_decide (kv.2 = [])) && can_share kv.2 kind) table).*1 in
  let displaceable := (List.filter (λ kv, negb (bool_decide (kv.2 = [])) && can_displace kv.2 kind) table).*1 in
  let chosen := take needed free in
  let chosen := chosen ++ take (needed - List.length chosen) shareable in
  let moved := take (needed - List.length chosen) displaceable in
  let chosen := chosen ++ moved in
  let displaced :=
    JobRecord.job_id <$> List.flat_map (λ uuid, default [] (dget uuid table)) moved in
  if (List.length chosen <? needed)%nat then
    mret (inl (rig_id +:+ ": only " +:+ str_of_Z (Z.of_nat (List.length chosen)) +:+ " of "
               +:+ str_of_Z (Z.of_nat needed) +:+ " cards available"))
  else
  key ← rank_rig rig (Z.of_nat (List.length free) - Z.of_nat (List.length chosen))
          (Z.of_nat (List.length displaced)) ledger;
  mret (inr (key, MkPlacement rig_id chosen (sorted_set displaced) "")).

(** [candidates.sort(key=...)] is stable: its head is the first candidate that
    no other comes before. *)
Definition best_of (first : list pyfloat * Placement) (rest : list (list pyfloat * Placement))
    : list pyfloat * Placement :=
  fold_left (λ best c, if key_lt c.1 best.1 then c else best) rest first.
End Choose.

Definition choose (kind_text : string) (gpu_count : Z) (roster : list dict)
    (jobs_by_rig : list (string * list JobRecord.t)) (ledger : option ledger) (whole_node : bool)
    : res Placement :=
  match kind_of kind_text with
  | None => Ok (MkPlacement "" [] [] ("unknown work kind " +:+ repr_str kind_text))
  | Some kind =>
      let needed := Z.to_nat (Z.max 1 gpu_count) in
      offers ← mapM (consider kind needed whole_node jobs_by_rig ledger) roster;
      match list_omap _ _ (λ o, match o with inl _ => None | inr c => Some c end) offers with
      | [] =>
          let reasons := list_omap _ _ (λ o, match o with inl r => Some r | inr _ => None end) offers in
          mret (MkPlacement "" [] [] (sor (join "; " (take 8 reasons)) "no rigs in the roster"))
      | first :: rest => mret (best_of first rest).2
      end
  end.

(** ** Facts *)

Lemma mapM_elem {A B} (f : A → res B) l : ∀ out y,
  mapM f l = Ok out → y ∈ out → ∃ x, x ∈ l ∧ f x = Ok y.
Proof.
  induction l as [|x l IH]; intros out y Hm Hy.
  - injection Hm as <-. by apply not_elem_of_nil in Hy.
  - change (mapM f (x :: l)) with (z ← f x; k ← mapM f l; mret (z :: k)) in Hm.
    apply res_bind_ok in Hm as (z & Hz & Hm). apply res_bind_ok in Hm as (k & Hk & Hm).
    injection Hm as <-. apply elem_of_cons in Hy as [->|Hy]; [exists x; split; [by left|done]|].
    destruct (IH k y Hk Hy) as (x' & ? & ?). exists x'. split; [by right|done].
Qed.

Lemma mapM_elem_of {A B} (f : A → res B) l : ∀ out x y,
  mapM f l = Ok out → x ∈ l → f x = Ok y → y ∈ out.
Proof.
  induction l as [|z l IH]; intros out x y Hm Hx Hy; [by apply not_elem_of_nil in Hx|].
  change (mapM f (z :: l)) with (w ← f z; k ← mapM f l; mret (w :: k)) in Hm.
  apply res_bind_ok in Hm as (w & Hw & Hm). apply res_bind_ok in Hm as (k & Hk & Hm).
  injection Hm as <-. apply elem_of_cons in Hx as [->|Hx]; [|right; by eapply IH].
  assert (w = y) as -> by congruence. left.
Qed.

Lemma elem_of_list_omap {A B} (f : A → option B) l y :
  y ∈ list_omap _ _ f l ↔ ∃ x, x ∈ l ∧ f x = Some y.
Proof. exact (list_elem_of_omap f l y). Qed.

Lemma best_of_elem first rest : best_of first rest ∈ first :: rest.
Proof.
  unfold best_of. revert first. induction rest as [|c rest IH]; intros first; cbn; [by left|].
  destruct (key_lt c.1 first.1).
  - specialize (IH c). right. exact IH.
  - specialize (IH first). apply elem_of_cons in IH as [->|IH]; [by left|by right; right].
Qed.

Lemma in_take {A} n (l : list A) x : x ∈ take n l → x ∈ l.
Proof. intros H. rewrite <- (take_drop n l). apply elem_of_app. by left. Qed.

Lemma NoDup_take {A} n (l : list A) : NoDup l → NoDup (take n l).
Proof. intros H. rewrite <- (take_drop n l) in H. by apply NoDup_app in H as [? _]. Qed.

Lemma in_filter_fst {A} (f : string * A → bool) (l : list (string * A)) x :
  x ∈ (List.filter f l).*1 → ∃ v, (x, v) ∈ l ∧ f (x, v) = true.
Proof.
  intros ([k v] & -> & Hin)%list_elem_of_fmap. apply list_elem_of_In, filter_In in Hin as [H1 H2].
  exists v. split; [by apply list_elem_of_In|done].
Qed.

Lemma dget_unique {A} (d : list (string * A)) k v :
  NoDup (dkeys d) → (k, v) ∈ d → dget k d = Some v.
Proof.
  unfold dkeys. induction d as [|[k' v'] d IH]; intros Hnd Hin; [by apply not_elem_of_nil in Hin|].
  csimpl in *. apply NoDup_cons in Hnd as [Hk Hnd]. case_decide as E.
  - subst. apply elem_of_cons in Hin as [[= ->]|Hin]; [done|]. destruct Hk.
    apply list_elem_of_fmap. by exists (k', v).
  - apply elem_of_cons in Hin as [[= -> ->]|Hin]; [done|]. by apply IH.
Qed.

Lemma occupancy_nodup uuids jobs : NoDup (dkeys (occupancy_of uuids jobs)).
Proof.
  unfold occupancy_of.
  assert (H0 : ∀ t, NoDup (dkeys t) →
    NoDup (dkeys (fold_left (λ (t : occupancy_table) u, dset u [] t) uuids t))).
  { induction uuids; intros t Ht; cbn; [done|]. apply IHuuids. by apply NoDup_dset. }
  specialize (H0 [] ltac:(constructor)). revert H0.
  generalize (fold_left (λ (t : occupancy_table) u, dset u [] t) uuids []).
  induction jobs as [|j jobs IH]; intros t Ht; cbn; [done|]. apply IH.
  assert (Hf : ∀ l t, NoDup (dkeys t) → NoDup (dkeys (fold_left (add_job j) l t))).
  { induction l; intros t' Ht'; cbn; [done|]. apply IHl. by apply NoDup_dset. }
  by apply Hf.
Qed.

(** [float] of a count. *)
Lemma kind_of_spec text k : kind_of text = Some k ↔ text = kind_value k.
Proof.
  unfold kind_of. split.
  - intros [_ Hk%String.eqb_eq]%find_some. done.
  - intros ->. by destruct k.
Qed.

Lemma can_share_spec jobs kind :
  jobs ≠ [] → can_share jobs kind = true →
  kind = INFERENCE ∧ ∀ j, j ∈ jobs → job_kind j = Some INFERENCE.
Proof.
  intros Hne. unfold can_share. destruct jobs as [|j0 jobs]; [done|].
  destruct (_ || _); [done|]. destruct (bool_decide (kind ∈ CUSTOMER)) eqn:E; [|done].
  boolify. unfold CUSTOMER in E. apply list_elem_of_singleton in E as ->.
  rewrite forallb_forall. intros Hall. split; [done|]. intros j Hj.
  assert (Hin : job_kind j ∈ job_kind <$> j0 :: jobs) by by apply list_elem_of_fmap_2.
  apply list_elem_of_In, Hall in Hin. unfold is_customer in Hin. destruct (job_kind j); [|done].
  boolify. unfold CUSTOMER in Hin. by apply list_elem_of_singleton in Hin as ->.
Qed.

Lemma can_displace_spec jobs kind j :
  can_displace jobs kind = true → j ∈ jobs →
  ∃ k, job_kind j = Some k ∧ (RANK kind < RANK k)%nat ∧ k ≠ RENTAL ∧ k ≠ INFERENCE.
Proof.
  unfold can_displace. destruct jobs as [|j0 jobs]; [done|]. rewrite forallb_forall.
  intros Hall Hj. apply list_elem_of_In, Hall in Hj. unfold displaceable_by in Hj.
  destruct (job_kind j) as [k|]; [|done]. exists k.
  apply andb_true_iff in Hj as [Hr Hs]. apply negb_true_iff, Nat.leb_gt in Hr.
  apply negb_true_iff, orb_false_iff in Hs as [H1 H2]. split_and!; [done|done| |];
    intros ->; by vm_compute in H1, H2.
Qed.

(** Three partial takes that reach [n] stop exactly there. *)
Lemma take3_length {A} n (f s d : list A) :
  let c1 := take n f in let c2 := c1 ++ take (n - List.length c1) s in
  let c3 := c2 ++ take (n - List.length c2) d in
  (n ≤ List.length c3)%nat → List.length c3 = n.
Proof. cbv zeta. repeat (rewrite ?length_app, ?length_take). lia. Qed.

(** What a placement promises about the rig it names. *)
Definition sound (kind : WorkKind) (needed : nat) (whole_node : bool) (table : occupancy_table)
    (p : Placement) : Prop :=
  NoDup p.(gpu_uuids) ∧ List.length p.(gpu_uuids) = needed ∧
  (whole_node = true → List.length table = needed) ∧
  (∀ uuid, uuid ∈ p.(gpu_uuids) → ∃ jobs, dget uuid table = Some jobs ∧
     (jobs = [] ∨
      (kind = INFERENCE ∧ ∀ j, j ∈ jobs → job_kind j = Some INFERENCE) ∨
      (∀ j, j ∈ jobs → JobRecord.job_id j ∈ p.(displaced) ∧
         ∃ k, job_kind j = Some k ∧ (RANK kind < RANK k)%nat ∧ k ≠ RENTAL ∧ k ≠ INFERENCE))) ∧
  (∀ d, d ∈ p.(displaced) → ∃ uuid jobs j k, uuid ∈ p.(gpu_uuids) ∧ dget uuid table = Some jobs ∧
     j ∈ jobs ∧ JobRecord.job_id j = d ∧
     job_kind j = Some k ∧ (RANK kind < RANK k)%nat ∧ k ≠ RENTAL ∧ k ≠ INFERENCE).

Lemma sorted_set_elem l x : x ∈ sorted_set l ↔ x ∈ l.
Proof. unfold sorted_set. by rewrite merge_sort_Permutation, elem_of_remove_dups. Qed.

Section Consider.
Variables (kind : WorkKind) (table : occupancy_table).
Hypothesis Htable : NoDup (dkeys table).

Let free := (List.filter (λ kv, bool_decide (kv.2 = [])) table).*1.
Let shareable :=
  (List.filter (λ kv, negb (bool_decide (kv.2 = [])) && can_share kv.2 kind) table).*1.
Let displaceable :=
  (List.filter (λ kv, negb (bool_decide (kv.2 = [])) && can_displace kv.2 kind) table).*1.

Lemma free_card u : u ∈ free → dget u table = Some [].
Proof.
  intros (v & Hin & Hv)%in_filter_fst. cbn in Hv. boolify. subst. by apply dget_unique.
Qed.

Lemma shareable_card u : u ∈ shareable →
  ∃ jobs, dget u table = Some jobs ∧ jobs ≠ [] ∧ can_share jobs kind = true.
Proof.
  intros (v & Hin & Hv)%in_filter_fst. cbn in Hv. boolify. destruct Hv as [H1 H2].
  exists v. split_and!; [by apply dget_unique|done|done].
Qed.

Lemma displaceable_card u : u ∈ displaceable →
  ∃ jobs, dget u table = Some jobs ∧ jobs ≠ [] ∧ can_displace jobs kind = true.
Proof.
  intros (v & Hin & Hv)%in_filter_fst. cbn in Hv. boolify. destruct Hv as [H1 H2].
  exists v. split_and!; [by apply dget_unique|done|done].
Qed.

Lemma share_not_displace jobs : jobs ≠ [] → can_share jobs kind = true →
  can_displace jobs kind = true → False.
Proof.
  intros Hne Hs Hd. destruct (can_share_spec jobs kind Hne Hs) as [_ Hall].
  destruct jobs as [|j jobs]; [done|].
  destruct (can_displace_spec _ _ j Hd ltac:(by left)) as (k & Hk & _ & _ & Hne').
  rewrite Hall in Hk by by left. congruence.
Qed.

(** The cards taken in the order free, shareable, displaceable are distinct. *)
Lemma chosen_nodup n a b :
  NoDup (take n free ++ take a shareable ++ take b displaceable).
Proof.
  apply NoDup_app. split; [by apply NoDup_take, NoDup_dkeys_filter|]. split.
  - intros u Hf%in_take%free_card. intros [Hs%in_take%shareable_card|Hd%in_take%displaceable_card]%elem_of_app.
    + destruct Hs as (j & Hj & Hne & _). congruence.
    + destruct Hd as (j & Hj & Hne & _). congruence.
  - apply NoDup_app. split; [by apply NoDup_take, NoDup_dkeys_filter|].
    split; [|by apply NoDup_take, NoDup_dkeys_filter].
    intros u Hs%in_take%shareable_card Hd%in_take%displaceable_card.
    destruct Hs as (j & Hj & Hne & Hs), Hd as (j' & Hj' & _ & Hd).
    rewrite Hj in Hj'. injection Hj' as <-. by eapply share_not_displace.
Qed.

Lemma choice_sound needed whole id moved a b key_reason :
  (whole = true → List.length table = needed) →
  moved = take b displaceable →
  let chosen := take needed free ++ take a shareable ++ moved in
  List.length chosen = needed →
  sound kind needed whole table
    (MkPlacement id chosen (sorted_set (JobRecord.job_id <$>
       List.flat_map (λ uuid, default [] (dget uuid table)) moved)) key_reason).
Proof.
  intros Hw Hm chosen Hlen. unfold sound. cbn [gpu_uuids displaced].
  split_and!; [subst moved; apply chosen_nodup|done|done| |].
  - intros u [Hf|[Hs|Hd]%elem_of_app]%elem_of_app.
    + exists []. split; [by apply free_card, (in_take needed)|by left].
    + apply in_take, shareable_card in Hs as (jobs & Hj & Hne & Hs). exists jobs.
      split; [done|]. right; left. by apply can_share_spec.
    + pose proof Hd as Hd'. rewrite Hm in Hd'.
      apply in_take, displaceable_card in Hd' as (jobs & Hj & Hne & Hdis). exists jobs.
      split; [done|]. right; right. intros j Hin. split; [|by eapply can_displace_spec].
      apply sorted_set_elem, list_elem_of_fmap_2, list_elem_of_In, in_flat_map.
      exists u. rewrite Hj. split; by apply list_elem_of_In.
  - intros d Hd. apply sorted_set_elem, list_elem_of_fmap in Hd as (j & -> & Hj).
    apply list_elem_of_In, in_flat_map in Hj as (u & Hu%list_elem_of_In & Hj%list_elem_of_In).
    pose proof Hu as Hu'. rewrite Hm in Hu'.
    apply in_take, displaceable_card in Hu' as (jobs & Hjobs & Hne & Hdis).
    rewrite Hjobs in Hj. cbn in Hj.
    destruct (can_displace_spec jobs kind j Hdis Hj) as (k & Hk & Hrest).
    exists u, jobs, j, k. split_and!; try done; try tauto.
    unfold chosen. rewrite !elem_of_app. by right; right.
Qed.
End Consider.

Lemma consider_sound kind needed whole jobs_by_rig ledger rig key p :
  (0 < needed)%nat →
  consider kind needed whole jobs_by_rig ledger rig = Ok (inr (key, p)) →
  ineligible_reason rig kind = Ok "" ∧ p.(rig_id) = get_str_or "id" "" rig ∧
  ∃ table, occupancy rig (default [] (dget p.(rig_id) jobs_by_rig)) = Ok table ∧
    sound kind needed whole table p.
Proof.
  intros Hn Hc. unfold consider in Hc.
  apply res_bind_ok in Hc as (reason & Hreason & Hc).
  destruct (String.eqb_spec reason ""); [subst|done]. cbn [negb] in Hc. split; [done|].
  apply res_bind_ok in Hc as (table & Ht & Hc).
  destruct (whole && negb (List.length table =? needed)%nat) eqn:Ew; [done|].
  destruct (_ <? needed)%nat eqn:El in Hc; [done|].
  apply res_bind_ok in Hc as (k & _ & Hc). injection Hc as _ <-. cbn [rig_id].
  split; [done|]. exists table. split; [done|].
  apply Nat.ltb_ge in El.
  assert (Hnd : NoDup (dkeys table)).
  { unfold occupancy in Ht. apply res_bind_ok in Ht as (cards & _ & [= <-]). apply occupancy_nodup. }
  apply take3_length in El. rewrite <- app_assoc in El |- *.
  eapply choice_sound; [done| |reflexivity|done].
  intros ->. cbn in Ew. by apply negb_false_iff, Nat.eqb_eq in Ew.
Qed.

(** ** The order of the candidates *)

(** A key without NaN. *)
Definition num_key (k : list pyfloat) : Prop := List.length k = 4%nat ∧ forallb is_num k = true.

Fixpoint key_cmp (a b : list pyfloat) : comparison :=
  match a, b with
  | x :: a', y :: b' => match fcmp x y with Eq => key_cmp a' b' | c => c end
  | [], [] => Eq
  | [], _ :: _ => Lt
  | _ :: _, [] => Gt
  end.

Lemma key_lt_cmp a : ∀ b, List.length a = List.length b → forallb is_num a = true →
  forallb is_num b = true → key_lt a b = match key_cmp a b with Lt => true | _ => false end.
Proof.
  induction a as [|x a IH]; intros [|y b] Hl Ha Hb; try done. cbn in *.
  apply andb_true_iff in Ha as [Hx Ha], Hb as [Hy Hb]. destruct (flt_fcmp x y Hx Hy) as [-> ->].
  destruct (fcmp x y); [|done|done]. apply IH; [congruence|done|done].
Qed.

Lemma key_cmp_opp a : ∀ b, List.length a = List.length b → forallb is_num a = true →
  forallb is_num b = true → key_cmp b a = CompOpp (key_cmp a b).
Proof.
  induction a as [|x a IH]; intros [|y b] Hl Ha Hb; try done. cbn in *.
  apply andb_true_iff in Ha as [Hx Ha], Hb as [Hy Hb]. rewrite (fcmp_opp x y Hx Hy).
  destruct (fcmp x y); cbn; [|done|done]. apply IH; [congruence|done|done].
Qed.

Lemma key_cmp_trans a : ∀ b c, List.length a = List.length b → List.length b = List.length c →
  forallb is_num a = true → forallb is_num b = true → forallb is_num c = true →
  key_cmp a b ≠ Gt → key_cmp b c ≠ Gt → key_cmp a c ≠ Gt.
Proof.
  induction a as [|x a IH]; intros [|y b] [|z c] Hl1 Hl2 Ha Hb Hc; try done. cbn in *.
  apply andb_true_iff in Ha as [Hx Ha], Hb as [Hy Hb], Hc as [Hz Hc].
  pose proof (fcmp_trans x y z Hx Hy Hz) as Ht.
  destruct (fcmp x y) eqn:E1, (fcmp y z) eqn:E2; try done; rewrite Ht; try done.
  intros H1 H2. by apply (IH b c); [congruence|congruence|..].
Qed.

Lemma best_of_min first rest :
  Forall (λ c, num_key c.1) (first :: rest) →
  Forall (λ c, key_lt c.1 (best_of first rest).1 = false) (first :: rest).
Proof.
  intros Hall.
  assert (Hle : Forall (λ c, key_cmp (best_of first rest).1 c.1 ≠ Gt) (first :: rest)).
  { unfold best_of. revert first Hall. induction rest as [|c rest IH]; intros b Hall.
    - repeat constructor. cbn. apply Forall_singleton in Hall as [Hl Hn].
      pose proof (key_cmp_opp b.1 b.1 eq_refl Hn Hn) as Ho. by destruct (key_cmp b.1 b.1).
    - apply Forall_cons in Hall as [[Hl Hn] Hall]. apply Forall_cons in Hall as [[Hl' Hn'] Hall].
      pose proof (key_lt_cmp c.1 b.1 ltac:(congruence) Hn' Hn) as Hlt.
      pose proof (key_cmp_opp c.1 b.1 ltac:(congruence) Hn' Hn) as Ho. cbn [fold_left].
      destruct (key_lt c.1 b.1) eqn:E.
      + assert (Hc : Forall (λ c, num_key c.1) (c :: rest)) by by constructor.
        specialize (IH c Hc). apply Forall_cons in IH as [Hbc Hrest]. constructor; [|by constructor].
        pose proof (best_of_elem c rest) as Hin. unfold best_of in Hin.
        rewrite Forall_forall in Hc. destruct (Hc _ Hin) as [Hlb Hnb].
        apply (key_cmp_trans _ c.1 b.1); try congruence; try done.
        by destruct (key_cmp c.1 b.1).
      + assert (Hb : Forall (λ c, num_key c.1) (b :: rest)) by by constructor.
        specialize (IH b Hb). apply Forall_cons in IH as [Hbb Hrest].
        constructor; [done|]. constructor; [|done].
        pose proof (best_of_elem b rest) as Hin. unfold best_of in Hin.
        rewrite Forall_forall in Hb. destruct (Hb _ Hin) as [Hlb Hnb].
        apply (key_cmp_trans _ b.1 c.1); try congruence; try done.
        rewrite Ho. by destruct (key_cmp c.1 b.1). }
  pose proof (best_of_elem first rest) as Hin. rewrite Forall_forall in *.
  destruct (Hall _ Hin) as [Hlb Hnb]. intros c Hc. destruct (Hall _ Hc) as [Hlc Hnc].
  specialize (Hle _ Hc). rewrite (key_lt_cmp c.1 (best_of first rest).1 ltac:(congruence) Hnc Hnb).
  pose proof (key_cmp_opp (best_of first rest).1 c.1 ltac:(congruence) Hnb Hnc) as Ho. rewrite Ho.
  by destruct (key_cmp (best_of first rest).1 c.1).
Qed.

(** ** Properties *)

(** C18. A placement is safe: it names an eligible rig of the roster and exactly the
    number of distinct cards asked for (the whole node when asked); each card
    was free, or only inference runs on it and joins it, or every job on it is
    displaced; and nothing is displaced but jobs of strictly lower priority,
    never a rental and never a customer's inference. *)
Theorem choose_safe kind_text gpu_count roster jobs_by_rig ledger whole p :
  choose kind_text gpu_count roster jobs_by_rig ledger whole = Ok p → p.(gpu_uuids) ≠ [] →
  ∃ kind rig table, kind_text = kind_value kind ∧ rig ∈ roster ∧
    ineligible_reason rig kind = Ok "" ∧ p.(rig_id) = get_str_or "id" "" rig ∧
    occupancy rig (default [] (dget p.(rig_id) jobs_by_rig)) = Ok table ∧
    sound kind (Z.to_nat (Z.max 1 gpu_count)) whole table p.
Proof.
  unfold choose. destruct (kind_of kind_text) as [kind|] eqn:Ek; [|by intros [= <-]].
  apply kind_of_spec in Ek. intros Hc Hne. apply res_bind_ok in Hc as (offers & Ho & Hc).
  destruct (list_omap _ _ _ offers) as [|first rest] eqn:El; [by injection Hc as <-|].
  injection Hc as <-. pose proof (best_of_elem first rest) as Hin. rewrite <- El in Hin.
  apply elem_of_list_omap in Hin as ([r|c] & Hin & Hc); [done|]. injection Hc as Hc.
  destruct (mapM_elem _ _ _ _ Ho Hin) as (rig & Hrig & Hcons).
  destruct (best_of first rest) as [key p] eqn:Eb. rewrite Hc in Hcons.
  apply consider_sound in Hcons as (H1 & H2 & table & H3 & H4); [|lia].
  by exists kind, rig, table.
Qed.

(** The placement chosen is a best one: no rig that could take the job comes
    before it in the order of fewest displaced jobs, then reliability, then
    uptime, then free cards left. *)
Lemma choose_best kind kind_text gpu_count roster jobs_by_rig ledger whole p rig c :
  kind_text = kind_value kind →
  choose kind_text gpu_count roster jobs_by_rig ledger whole = Ok p →
  let offer r := consider kind (Z.to_nat (Z.max 1 gpu_count)) whole jobs_by_rig ledger r in
  (∀ r k q, r ∈ roster → offer r = Ok (inr (k, q)) → num_key k) →
  rig ∈ roster → offer rig = Ok (inr c) →
  ∃ best key, best ∈ roster ∧ offer best = Ok (inr (key, p)) ∧ key_lt c.1 key = false.
Proof.
  intros -> Hc offer Hnum Hrig Hoffer. unfold choose in Hc.
  rewrite (proj2 (kind_of_spec _ kind) eq_refl) in Hc.
  apply res_bind_ok in Hc as (offers & Ho & Hc).
  assert (Hin : c ∈ list_omap _ _ (λ o : string + (list pyfloat * Placement),
                      match o with inl _ => None | inr c => Some c end) offers).
  { apply elem_of_list_omap. exists (inr c). split; [|done]. by eapply mapM_elem_of. }
  destruct (list_omap _ _ _ offers) as [|first rest] eqn:El; [by apply not_elem_of_nil in Hin|].
  injection Hc as <-.
  assert (Hback : ∀ d, d ∈ first :: rest → ∃ r, r ∈ roster ∧ offer r = Ok (inr d)).
  { intros d Hd. rewrite <- El in Hd. apply elem_of_list_omap in Hd as ([?|d'] & Hd & [=]); subst.
    destruct (mapM_elem _ _ _ _ Ho Hd) as (r & Hr & Hof). by exists r. }
  assert (Hall : Forall (λ c, num_key c.1) (first :: rest)).
  { apply Forall_forall. intros [k q] Hd. destruct (Hback _ Hd) as (r & Hr & Hof). by eapply Hnum. }
  pose proof (best_of_min first rest Hall) as Hmin. rewrite Forall_forall in Hmin.
  destruct (Hback _ (best_of_elem first rest)) as (r & Hr & Hof).
  destruct (best_of first rest) as [key q] eqn:Eb. exists r, key. split_and!; [done|done|].
  by apply (Hmin c).
Qed.

Definition sample_rig (id : string) (uptime : Z) (uuids : list string) : dict :=
  [("id", JStr id); ("state", JStr "active"); ("online", JBool true);
   ("reliability", JFloat (fz uptime));
   ("eligibility", JDict [("kinds", JDict [("inference", JDict [("eligible", JBool true)])])]);
   ("gpus", JList ((λ u, JDict [("uuid", JStr u)]) <$> uuids))].
Definition sample_jobs : list (string * list JobRecord.t) :=
  [("rig-a", [JobRecord.Mk "job-9" "mining" "" 0 "GPU-1" "" ""])].
Definition sample_roster : list dict :=
  [sample_rig "rig-a" 3 ["GPU-1"; "GPU-2"]; sample_rig "rig-b" 9 ["GPU-3"]].

Lemma choose_safe_witness :
  match choose "inference" 2 sample_roster sample_jobs None true with
  | Ok p => p.(rig_id) = "rig-a" ∧ p.(displaced) = ["job-9"] ∧ NoDup p.(gpu_uuids)
  | Raise _ => False
  end.
Proof.
  assert (Hv : match choose "inference" 2 sample_roster sample_jobs None true with
    | Ok p => p.(rig_id) = "rig-a" ∧ p.(displaced) = ["job-9"] ∧ p.(gpu_uuids) = ["GPU-2"; "GPU-1"]
    | Raise _ => False end) by (vm_compute; repeat split).
  destruct (choose "inference" 2 sample_roster sample_jobs None true) as [p|] eqn:E; [|destruct Hv].
  destruct Hv as (H1 & H2 & H3). split; [done|]. split; [done|].
  destruct (choose_safe _ _ _ _ _ _ p E) as (k & r & t & _ & _ & _ & _ & _ & Hs);
    [by rewrite H3|]. apply Hs.
Defined.

Lemma choose_best_witness :
  match consider INFERENCE 1 false [] None (sample_rig "rig-a" 3 ["GPU-1"; "GPU-2"]),
        choose "inference" 1 sample_roster [] None false with
  | Ok (inr c), Ok p => p.(rig_id) = "rig-b" ∧ ∃ key, key_lt c.1 key = false
  | _, _ => False
  end.
Proof.
  assert (Hv : match choose "inference" 1 sample_roster [] None false with
    | Ok p => p.(rig_id) = "rig-b" | Raise _ => False end) by (vm_compute; reflexivity).
  assert (Hn : Forall (λ r, match consider INFERENCE 1 false [] None r with
    | Ok (inr (k, _)) => num_key k | _ => True end) sample_roster)
    by (repeat constructor; vm_compute; split; reflexivity).
  destruct (choose "inference" 1 sample_roster [] None false) as [p|] eqn:E; [|destruct Hv].
  destruct (consider INFERENCE 1 false [] None (sample_rig "rig-a" 3 ["GPU-1"; "GPU-2"]))
    as [[r|c]|] eqn:Ec; [vm_compute in Ec; discriminate| |vm_compute in Ec; discriminate].
  split; [exact Hv|].
  destruct (choose_best INFERENCE "inference" 1 sample_roster [] None false p
    (sample_rig "rig-a" 3 ["GPU-1"; "GPU-2"]) c eq_refl E) as (b & key & _ & _ & Hk).
  - intros r k q Hr Ho. rewrite Forall_forall in Hn. specialize (Hn r Hr).
    change (Z.to_nat (Z.max 1 1)) with 1%nat in Ho. rewrite Ho in Hn. exact Hn.
  - apply list_elem_of_here.
  - exact Ec.
  - by exists key.
Defined.
