(* ===== verification/Auth.v ===== *)
(** * Request authentication (agent/api/auth.py)

    The signature headers of a validator's request, and the set of active
    validators the agent keeps.  Verifying a signature ([substrateinterface]'s
    [Keypair]) is a parameter. *)

From Stdlib Require Import Ascii String QArith.
From S2P Require Import Prelude.
From S2P Require Import PyStr.
From S2P Require Import PyText.
From S2P Require Import PyRound.
From S2P Require Import PyFloat.
From S2P Require Import PyJson.
From S2P Require Import SessionProto.
From S2P Require Import Attest.
Local Open Scope string_scope.
Local Open Scope list_scope.

(** [abs(moment - float(timestamp)) <= window] *)
Definition fresh (timestamp : string) (window : Z) (moment : pyfloat) : bool :=
  match parse_float timestamp with
  | Some stamped => fle (fabs (fsub moment stamped)) (FFin (inject_Z window))
  | None => false
  end.

Section Keypair.
(** [Keypair(ss58_address=hotkey).verify(message, signature)]; false when it raises. *)
Variable keypair_verify : string → string → list Z → bool.

Definition drop_0x (raw : string) : string :=
  if String.eqb (lower (stake 2 raw)) "0x" then sdrop 2 raw else raw.

Definition verify_hotkey (hotkey message signature : string) : bool :=
  if String.eqb hotkey "" || String.eqb signature "" then false
  else match fromhex (drop_0x (strip signature)) with
       | Some signature_bytes => keypair_verify hotkey message signature_bytes
       | None => false
       end.

Fixpoint signer (hotkeys : list string) (message signature : string) : string :=
  match hotkeys with
  | [] => ""
  | hotkey :: hotkeys' =>
      if verify_hotkey hotkey message signature then hotkey
      else signer hotkeys' message signature
  end.

Lemma signer_spec hotkeys message signature hotkey :
  signer hotkeys message signature = hotkey → hotkey ≠ "" →
  hotkey ∈ hotkeys ∧ verify_hotkey hotkey message signature = true.
Proof.
  intros <-. induction hotkeys as [|h hs IH]; cbn [signer]; [done|].
  destruct (verify_hotkey h message signature) eqn:E; [by split; [left|]|].
  intros [??]%IH. by split; [right|].
Qed.
End Keypair.

(** ** [ValidatorSet] *)

Record ValidatorSet : Type := MkValidators {
  members : list string; updated_at : pyfloat; source : string }.

Definition empty_set : ValidatorSet := MkValidators [] f0 "empty".

Definition sorted_members (l : list string) : list string := sorted_set l.

(** [_load], with the file's document. *)
Definition load (file : document) (self : ValidatorSet) : res ValidatorSet :=
  match file with
  | Holds (JDict saved) =>
      match getv "validators" saved with
      | JList (v :: found) =>
          at_ ← get_float_or "updated_at" saved;
          mret (MkValidators (remove_dups (py_str <$> List.filter truthy (v :: found))) at_ "cache")
      | _ => mret self
      end
  | _ => mret self
  end.

(** The trimmed, non-empty hotkeys. *)
Definition cleaned (hotkeys : list string) : list string :=
  remove_dups (List.filter (λ h, negb (String.eqb h "")) (strip <$> hotkeys)).

Definition same_set (a b : list string) : bool :=
  forallb (λ h, bool_decide (h ∈ b)) a && forallb (λ h, bool_decide (h ∈ a)) b.

Definition saved_document (self : ValidatorSet) : document :=
  Holds (JDict [("validators", JList (JStr <$> sorted_members self.(members)));
                ("updated_at", JFloat self.(updated_at))]).

(** [update]: whether the set changed, the new set, and what the file holds. *)
Definition update (hotkeys : list string) (now : pyfloat) (self : ValidatorSet)
    : bool * ValidatorSet * document :=
  let new := cleaned hotkeys in
  let self' := MkValidators new now "server" in
  (negb (same_set new self.(members)), self', saved_document self').

Definition has_validator (hotkey : string) (self : ValidatorSet) : bool :=
  bool_decide (hotkey ∈ self.(members)).
Definition hotkeys (self : ValidatorSet) : list string := sorted_members self.(members).

(** ** [check_request] *)

Inductive checked : Type :=
  | Accepted (hotkey : string)
  | AuthFailure (status : Z) (detail : string).

(** [str(headers.get(name, "") or "").strip()] *)
Definition header (name : string) (headers : list (string * string)) : string :=
  strip (default "" (dget name headers)).

Section Check.
Variable keypair_verify : string → string → list Z → bool.

Definition check_request (validators : ValidatorSet) (method path : string)
    (headers : list (string * string)) (body : string) (window : Z) (now : pyfloat) : checked :=
  let hotkey := header HEADER_HOTKEY headers in
  let timestamp := header HEADER_TIMESTAMP headers in
  let signature := header HEADER_SIGNATURE headers in
  if String.eqb hotkey "" || String.eqb timestamp "" || String.eqb signature "" then
    AuthFailure 401 "validator signature headers required"
  else if negb (has_validator hotkey validators) then
    AuthFailure 403 "not an active compute validator"
  else if negb (fresh timestamp window now) then
    AuthFailure 401 "timestamp outside the signature window"
  else if negb (verify_hotkey keypair_verify hotkey
                  (signing_bytes method path timestamp body) signature) then
    AuthFailure 401 "signature does not verify"
  else Accepted hotkey.
End Check.

(** ** Facts *)

Definition single_line (s : string) : Prop := sforall (λ c, negb (Ascii.eqb c nl)) s = true.

Lemma encode_single_line s : single_line s → single_line (encode s).
Proof.
  unfold single_line. induction s as [|c s IH]; [done|]. cbn [encode sforall].
  intros [Hc Hs]%andb_true_iff. destruct (code c <? 128)%Z eqn:E; cbn [sforall].
  - by rewrite Hc, IH.
  - rewrite IH by done. revert E. clear.
    destruct c as [[] [] [] [] [] [] [] []]; vm_compute; intros E; try discriminate E; done.
Qed.

Lemma smap_single_line f s : (∀ c, f c = nl → c = nl) → single_line s → single_line (smap f s).
Proof.
  intros Hf. unfold single_line. induction s as [|c s IH]; [done|]. cbn [smap sforall].
  intros [Hc Hs]%andb_true_iff. rewrite IH, andb_true_r by done.
  destruct (Ascii.eqb (f c) nl) eqn:E; [|done]. apply Ascii.eqb_eq, Hf in E as ->. done.
Qed.

Lemma upper_newline c : upper_char c = nl → c = nl.
Proof. destruct c as [[] [] [] [] [] [] [] []]; vm_compute; congruence. Qed.

#[local] Ltac dlia := Z.to_euclidean_division_equations; lia.

Lemma code_bound c : (0 ≤ code c < 256)%Z.
Proof. unfold code. pose proof (N_ascii_bounded c). lia. Qed.

Lemma code_inj c d : code c = code d → c = d.
Proof.
  unfold code. intros H%N2Z.inj. rewrite <- (ascii_N_embedding c), <- (ascii_N_embedding d).
  by rewrite H.
Qed.

Lemma byte_inj a b : (0 ≤ a < 256)%Z → (0 ≤ b < 256)%Z →
  ascii_of_N (Z.to_N a) = ascii_of_N (Z.to_N b) → a = b.
Proof.
  intros Ha Hb H%(f_equal N_of_ascii). rewrite !N_ascii_embedding in H by lia. lia.
Qed.

(** A first byte of two is no byte of one. *)
Lemma lead_byte c d : (code c <? 128)%Z = true →
  c ≠ ascii_of_N (Z.to_N (192 + code d / 64)).
Proof.
  intros Hc ->. pose proof (code_bound d). unfold code at 1 in Hc.
  rewrite N_ascii_embedding in Hc by dlia. apply Z.ltb_lt in Hc. dlia.
Qed.

Lemma encode_inj s t : encode s = encode t → s = t.
Proof.
  revert t. induction s as [|c s IH]; intros [|d t]; cbn [encode]; try done;
    repeat match goal with |- context [if ?b then _ else _] => destruct b eqn:? end; try done.
  - intros [= -> H]. f_equal. auto.
  - intros [= H _]. by apply lead_byte in H.
  - intros [= H _]. symmetry in H. by apply lead_byte in H.
  - pose proof (code_bound c). pose proof (code_bound d). intros Heq. injection Heq as H1 H2 H3.
    apply byte_inj in H1; [|dlia..]. apply byte_inj in H2; [|dlia..].
    f_equal; [|by apply IH]. apply code_inj. dlia.
Qed.

(** The first line of two texts. *)
Lemma first_line_inj u v x y : single_line u → single_line v →
  u +:+ nls +:+ x = v +:+ nls +:+ y → u = v ∧ x = y.
Proof.
  unfold single_line. revert v. induction u as [|c u IH]; intros [|d v]; cbn [sforall].
  - intros _ _ H. split; [done|]. by injection H.
  - intros _ [Hd _]%andb_true_iff H. injection H as H _. subst d. done.
  - intros [Hc _]%andb_true_iff _ H. injection H as H _. subst c. done.
  - intros [_ Hu]%andb_true_iff [_ Hv]%andb_true_iff H. injection H as -> H.
    destruct (IH v Hu Hv H) as [-> ->]. done.
Qed.

(** The signed bytes determine the request. *)
Lemma signing_bytes_inj m p t b m' p' t' b' :
  single_line m → single_line p → single_line t →
  single_line m' → single_line p' → single_line t' →
  signing_bytes m p t b = signing_bytes m' p' t' b' →
  upper m = upper m' ∧ p = p' ∧ t = t' ∧ b = b'.
Proof.
  intros Hm Hp Ht Hm' Hp' Ht' H. unfold signing_bytes in H. cbn [join] in H.
  assert (Hu : ∀ s, single_line s → single_line (encode (upper s))).
  { intros s Hs. by apply encode_single_line, smap_single_line; [apply upper_newline|]. }
  apply first_line_inj in H as [H1 H]; [|by apply Hu..].
  apply first_line_inj in H as [H2 H]; [|by apply encode_single_line..].
  apply first_line_inj in H as [H3 H]; [|by apply encode_single_line..].
  split_and!; [by apply encode_inj|by apply encode_inj|by apply encode_inj|done].
Qed.

(** C19. A request is accepted exactly when its three headers are there, its hotkey is
    an active validator, its timestamp is a number within the window around now,
    and the hotkey's signature verifies over the method, the path, the timestamp
    and the body; and the signed bytes are those of that one request only, so a
    signature cannot be carried over to another method, path, time or body. *)
Theorem check_request_spec keypair_verify validators method path headers body window now hotkey :
  check_request keypair_verify validators method path headers body window now = Accepted hotkey ↔
  let timestamp := header HEADER_TIMESTAMP headers in
  hotkey = header HEADER_HOTKEY headers ∧ hotkey ≠ "" ∧ hotkey ∈ members validators
  ∧ fresh timestamp window now = true
  ∧ ∃ signature, fromhex (drop_0x (strip (header HEADER_SIGNATURE headers))) = Some signature
    ∧ header HEADER_SIGNATURE headers ≠ ""
    ∧ keypair_verify hotkey (signing_bytes method path timestamp body) signature = true
    ∧ ∀ method' path' timestamp' body',
        Forall single_line [method; path; timestamp; method'; path'; timestamp'] →
        signing_bytes method' path' timestamp' body' = signing_bytes method path timestamp body →
        upper method' = upper method ∧ path' = path ∧ timestamp' = timestamp ∧ body' = body.
Proof.
  cbn zeta. unfold check_request, verify_hotkey, has_validator.
  set (h := header HEADER_HOTKEY headers). set (t := header HEADER_TIMESTAMP headers).
  set (s := header HEADER_SIGNATURE headers).
  assert (Hinj : ∀ m' p' t' b', Forall single_line [method; path; t; m'; p'; t'] →
    signing_bytes m' p' t' b' = signing_bytes method path t body →
    upper m' = upper method ∧ p' = path ∧ t' = t ∧ b' = body).
  { intros m' p' t' b' Hl. repeat (apply Forall_cons in Hl as [? Hl]). by apply signing_bytes_inj. }
  assert (Ht : fresh t window now = true → String.eqb t "" = false).
  { destruct t; [|done]. unfold fresh. vm_compute. done. }
  clearbody h t s. split.
  - destruct (String.eqb h "") eqn:E1; [done|]. destruct (String.eqb t "") eqn:E2; [done|].
    destruct (String.eqb s "") eqn:E3; [done|]. cbn [orb].
    case_bool_decide; cbn [negb]; [|done]. destruct (fresh t window now); cbn [negb]; [|done].
    destruct (fromhex (drop_0x (strip s))) as [sg|]; [|done].
    destruct (keypair_verify h _ sg) eqn:E; cbn [negb]; [|done]. intros [= <-].
    apply String.eqb_neq in E1, E3. split_and!; try done. by exists sg.
  - intros (-> & Hh & Hin & Hf & sg & Hs & Hne & Hv & _). rewrite (Ht Hf).
    apply String.eqb_neq in Hh, Hne. rewrite Hh, Hne, (bool_decide_eq_true_2 _ Hin), Hf, Hs, Hv.
    done.
Qed.
