(* ===== verification/Nonce.v ===== *)
(** * Nonces (agent/access/nonce.py)

    The book of nonces an agent has accepted, each with the time it may be
    forgotten.  [accept] and [expire] take the moment as an argument, as the
    methods do. *)

From Stdlib Require Import Ascii String QArith.
From S2P Require Import Prelude.
From S2P Require Import PyStr.
From S2P Require Import PyRe.
From S2P Require Import PyRound.
From S2P Require Import PyFloat.
From S2P Require Import SessionProto.
Local Open Scope string_scope.
Local Open Scope list_scope.

Definition NONCE_TTL_SECONDS : Z := 600.
Definition HEX_NONCE : re := rep 64 (RCls is_hex).

Definition well_formed (nonce : string) : bool := re_dollar HEX_NONCE nonce.

Record NonceBook : Type := MkBook { ttl : Z; seen : list (string * pyfloat) }.

Definition new_book (ttl_seconds : Z) : NonceBook := MkBook ttl_seconds [].

(** [moment + self.ttl] (an int the floats can hold) *)
Definition until (book : NonceBook) (moment : pyfloat) : pyfloat :=
  fadd moment (rnd (inject_Z book.(ttl))).

Definition expire (moment : pyfloat) (book : NonceBook) : Z * NonceBook :=
  let stale := dkeys (List.filter (λ e, fle e.2 moment) book.(seen)) in
  (Z.of_nat (List.length stale), MkBook book.(ttl) (foldl (λ d n, dpop n d) book.(seen) stale)).

Definition accept (nonce : string) (moment : pyfloat) (book : NonceBook) : bool * NonceBook :=
  if negb (well_formed nonce) then (false, book)
  else
    let '(_, book) := expire moment book in
    if dmem nonce book.(seen) then (false, book)
    else (true, MkBook book.(ttl) (dset nonce (until book moment) book.(seen))).

(** [len(book)], and its truth value *)
Definition size (book : NonceBook) : nat := List.length book.(seen).
Definition book_truthy (book : NonceBook) : bool := negb (size book =? 0)%nat.

(** ** Facts *)

Definition accept_all (calls : list (string * pyfloat)) (book : NonceBook) : NonceBook :=
  foldl (λ b c, (accept c.1 c.2 b).2) book calls.

Lemma dget_pop_all {A} n (l : list string) (d : list (string * A)) :
  dget n (foldl (λ d n, dpop n d) d l) = if decide (n ∈ l) then None else dget n d.
Proof.
  revert d. induction l as [|m l IH]; intros d; cbn [foldl].
  - rewrite decide_False by (by apply not_elem_of_nil). done.
  - rewrite IH, dget_dpop_dec.
    destruct (decide (m = n)) as [->|Hne].
    + rewrite (decide_True _ _ (list_elem_of_here n l)). by case_decide.
    + destruct (decide (n ∈ l)) as [Hin|Hin].
      * by rewrite decide_True by (by right).
      * rewrite decide_False; [done|]. intros [->|?]%elem_of_cons; done.
Qed.

Lemma dkeys_filter_elem {A} (f : string * A → bool) n (d : list (string * A)) :
  NoDup (dkeys d) →
  n ∈ dkeys (List.filter f d) ↔ ∃ v, dget n d = Some v ∧ f (n, v) = true.
Proof.
  unfold dkeys. induction d as [|[k v] d IH]; csimpl.
  - intros _. split; [by intros ?%not_elem_of_nil|by intros (v & ? & _)].
  - intros [Hk Hnd]%NoDup_cons. specialize (IH Hnd).
    destruct (decide (n = k)) as [->|Hne].
    + destruct (f (k, v)) eqn:E; csimpl.
      * split; [intros _; by exists v|intros _; by left].
      * rewrite IH. split.
        -- intros (w & Hw & _). apply dget_elem in Hw. exfalso. apply Hk.
           apply list_elem_of_fmap. by exists (k, w).
        -- intros (w & [= <-] & Hf). congruence.
    + destruct (f (k, v)); csimpl; rewrite ?elem_of_cons, IH; naive_solver.
Qed.

Definition book_ok (book : NonceBook) : Prop := NoDup (dkeys book.(seen)).

Lemma dkeys_pop_all {A} (l : list string) (d : list (string * A)) :
  NoDup (dkeys d) → NoDup (dkeys (foldl (λ d n, dpop n d) d l)).
Proof. revert d. induction l; cbn [foldl]; auto with py. Qed.

(** What [expire] leaves: the entries whose time is still to come. *)
Lemma expire_seen moment book n :
  book_ok book →
  dget n (seen (expire moment book).2)
  = match dget n (seen book) with
    | Some u => if fle u moment then None else Some u
    | None => None
    end.
Proof.
  intros Hok. cbn. rewrite dget_pop_all.
  destruct (decide _) as [Hin|Hin].
  - apply dkeys_filter_elem in Hin as (v & -> & Hv); [|done]. cbn in Hv. by rewrite Hv.
  - destruct (dget n (seen book)) as [u|] eqn:E; [|done].
    destruct (fle u moment) eqn:F; [|done]. exfalso. apply Hin.
    apply dkeys_filter_elem; [done|]. by exists u.
Qed.

Lemma expire_ok moment book : book_ok book → book_ok (expire moment book).2.
Proof. intros H. apply dkeys_pop_all, H. Qed.

Lemma accept_ok nonce moment book : book_ok book → book_ok (accept nonce moment book).2.
Proof.
  intros H. unfold accept. destruct (negb _); [done|].
  pose proof (expire_ok moment book H) as He. destruct (expire moment book) as [n b]. cbn in He.
  destruct (dmem nonce (seen b)); [done|]. cbn. apply NoDup_dset, He.
Qed.

Lemma accept_ttl nonce moment book : ttl (accept nonce moment book).2 = ttl book.
Proof.
  unfold accept. destruct (negb _); [done|]. unfold expire. by destruct (dmem _ _).
Qed.

(** The outcome and the new book of a call. *)
Lemma accept_spec nonce moment book :
  book_ok book →
  (accept nonce moment book).1
  = well_formed nonce
    && match dget nonce (seen book) with Some u => fle u moment | None => true end.
Proof.
  intros H. unfold accept. destruct (well_formed nonce); [cbn [negb andb]|done].
  pose proof (expire_seen moment book nonce H) as He.
  destruct (expire moment book) as [k b]. cbn [snd] in He.
  destruct (dmem nonce (seen b)) eqn:E; unfold dmem in E; rewrite He in E;
    destruct (dget nonce (seen book)) as [w|]; try destruct (fle w moment); done.
Qed.

Lemma accept_remembers nonce moment book :
  (accept nonce moment book).1 = true →
  dget nonce (seen (accept nonce moment book).2) = Some (until book moment).
Proof.
  unfold accept. destruct (negb _); [done|]. unfold expire.
  destruct (dmem _ _) eqn:E; [done|]. intros _. cbn. by rewrite dget_dset.
Qed.

(** An entry survives a call made before its time. *)
Lemma accept_keeps n u nonce moment book :
  book_ok book → dget n (seen book) = Some u → fle u moment = false →
  dget n (seen (accept nonce moment book).2) = Some u.
Proof.
  intros H Hn Hu. unfold accept. destruct (negb _); [done|].
  pose proof (expire_seen moment book n H) as He. rewrite Hn, Hu in He.
  destruct (expire moment book) as [k b]. cbn [snd] in He.
  destruct (dmem nonce (seen b)) eqn:E; [done|]. cbn.
  rewrite dget_dset_ne; [done|]. intros ->. unfold dmem in E. by rewrite He in E.
Qed.

(** C37. An accepted nonce is refused on every later call, whatever is accepted in
    between, until its [ttl] seconds are over; and a well-formed nonce that is
    not in the book, or whose time has come, is accepted. *)
Theorem nonce_single_use nonce moment book calls again :
  book_ok book →
  (accept nonce moment book).1 = true →
  Forall (λ c, fle (until book moment) c.2 = false) (calls ++ [(nonce, again)]) →
  let later := accept_all calls (accept nonce moment book).2 in
  (accept nonce again later).1 = false
  ∧ (∀ fresh at_, well_formed fresh = true → dget fresh (seen later) = None →
       (accept fresh at_ later).1 = true).
Proof.
  intros Hok Ha Hc. pose proof (accept_remembers _ _ _ Ha) as Hr. cbn zeta.
  pose proof (accept_ok nonce moment book Hok) as Hok1.
  set (b := (accept nonce moment book).2) in *. clearbody b.
  set (u := until book moment) in *. clearbody u.
  apply Forall_app in Hc as [Hc Hl]. apply Forall_cons in Hl as [Hl _]. cbn [snd] in Hl.
  assert (book_ok (accept_all calls b) ∧ dget nonce (seen (accept_all calls b)) = Some u) as [Hk Hd].
  { clear Ha. revert b Hok1 Hr Hc. induction calls as [|[n m] calls IH]; intros b Hb Hr Hc; [done|].
    apply Forall_cons in Hc as [Hm Hc]. cbn [snd] in Hm. cbn [accept_all foldl fst snd].
    apply IH; [by apply accept_ok|by apply accept_keeps|done]. }
  split.
  - rewrite (accept_spec nonce again _ Hk). rewrite Hd, Hl. apply andb_false_r.
  - intros fresh at_ Hw Hn. by rewrite (accept_spec _ _ _ Hk), Hw, Hn.
Qed.

Lemma nonce_single_use_witness :
  (accept (String.concat "" (repeat "ab" 32)) (fz 599)
     (accept_all [(String.concat "" (repeat "cd" 32), fz 300)]
        (accept (String.concat "" (repeat "ab" 32)) (fz 0) (new_book NONCE_TTL_SECONDS)).2)).1 = false.
Proof.
  eapply (nonce_single_use _ (fz 0) (new_book NONCE_TTL_SECONDS)).
  - apply NoDup_nil_2.
  - vm_compute. reflexivity.
  - repeat constructor.
Defined.
