(* ===== verification/SshKeys.v ===== *)
(** * Session keys in [authorized_keys] (agent/access/ssh_keys.py)

    The file is its text; [None] is a missing file.  A session's key is a line
    that ends with the marker and the session's id; every other line belongs to
    the owner of the machine. *)

From Stdlib Require Import Ascii String.
From S2P Require Import Prelude.
From S2P Require Import PyStr.
From S2P Require Import PyText.
From S2P Require Import PyRe.
From S2P Require Import SessionProto.
Local Open Scope string_scope.
Local Open Scope list_scope.

Definition MARKER : string := "mt-session:".
Definition KEY_TYPES : list string :=
  ["ssh-ed25519"; "ecdsa-sha2-nistp256"; "ecdsa-sha2-nistp384"; "ssh-rsa"].
(** [^(ssh-ed25519|...|ssh-rsa) [A-Za-z0-9+/]+=*$] *)
Definition PUBLIC_KEY : re :=
  RCat (ralts (rlit <$> KEY_TYPES))
    (RCat (rchar " ") (RCat (rplus (RCls is_base64)) (RStar (rchar "=")))).

Definition canonical (public_key : string) : option string :=
  match split_ws (strip public_key) with
  | kind :: body :: _ =>
      if bool_decide (kind ∈ KEY_TYPES) then
        let candidate := kind +:+ " " +:+ body in
        if re_dollar PUBLIC_KEY candidate then Some candidate else None
      else None
  | _ => None
  end.

Definition read (file : option string) : list string :=
  match file with Some text => splitlines text | None => [] end.
Definition write (lines : list string) : option string := Some (text_of lines).

(** The lines without those of a session. *)
Definition marked (session_id : string) (line : string) : bool :=
  endswith (MARKER +:+ session_id) line.
Definition without (session_id : string) (lines : list string) : list string :=
  List.filter (λ line, negb (marked session_id line)) lines.

Definition session_line (key session_id : string) : string :=
  key +:+ " " +:+ MARKER +:+ session_id.

(** [fault] is the text of the [OSError] the write raises, if it fails. *)
Definition grant (fault : option string) (public_key session_id : string) (file : option string)
    : res (string * option string) :=
  match canonical public_key with
  | None => Raise ValueError
  | Some key =>
      match fault with
      | Some text => Raise (OSError text)
      | None =>
          let line := session_line key session_id in
          Ok (line, write (without session_id (read file) ++ [line]))
      end
  end.

Definition revoke (session_id : string) (file : option string) : bool * option string :=
  let lines := read file in
  let kept := without session_id lines in
  if (List.length kept =? List.length lines)%nat then (false, file) else (true, write kept).

Definition revoke_all_sessions (file : option string) : Z * option string :=
  let lines := read file in
  let kept := List.filter (λ line, negb (contains MARKER line)) lines in
  let removed := Z.of_nat (List.length lines - List.length kept) in
  (removed, if (removed =? 0)%Z then file else write kept).

(** The session a line belongs to. *)
Definition session_of (line : string) : option string := strip <$> after_rfind MARKER line.

Definition active_sessions (file : option string) : list string :=
  list_omap _ _ session_of (read file).

(** ** Facts *)

Lemma read_write lines : Forall (λ l, no_break l = true) lines → read (write lines) = lines.
Proof. apply splitlines_text. Qed.

Lemma read_no_break file : Forall (λ l, no_break l = true) (read file).
Proof. destruct file; [apply splitlines_no_break|constructor]. Qed.

Lemma Forall_filter_b {A} (P : A → Prop) f (l : list A) : Forall P l → Forall P (List.filter f l).
Proof. induction 1; cbn; [constructor|]. destruct (f x); [by constructor|done]. Qed.

(** Filtering out nothing. *)
Lemma filter_length_eq {A} (f : A → bool) l :
  List.length (List.filter f l) = List.length l → List.filter f l = l.
Proof.
  induction l as [|x l IH]; [done|]. cbn. destruct (f x); cbn; [intros [=]; by rewrite IH|].
  intros H. pose proof (filter_length_le f l). lia.
Qed.

Lemma revoke_read session_id file : read (revoke session_id file).2 = without session_id (read file).
Proof.
  unfold revoke. destruct (_ =? _)%nat eqn:E; cbn [snd].
  - apply Nat.eqb_eq in E. symmetry. by apply filter_length_eq.
  - apply read_write, Forall_filter_b, read_no_break.
Qed.

Lemma revoke_iff session_id file :
  (revoke session_id file).1 = existsb (marked session_id) (read file).
Proof.
  unfold revoke, without. generalize (read file). intros l.
  assert (H : (List.length (List.filter (λ line, negb (marked session_id line)) l)
               =? List.length l)%nat = negb (existsb (marked session_id) l)).
  { induction l as [|x l IH]; [done|]. cbn [List.filter existsb List.length].
    destruct (marked session_id x); cbn [negb orb]; [|exact IH].
    apply Nat.eqb_neq. pose proof (filter_length_le (λ y, negb (marked session_id y)) l). lia. }
  rewrite H. by destruct (existsb _ _).
Qed.

Lemma revoke_all_read file :
  read (revoke_all_sessions file).2
  = List.filter (λ line, negb (contains MARKER line)) (read file).
Proof.
  unfold revoke_all_sessions. cbn [snd]. destruct (_ =? 0)%Z eqn:E.
  - symmetry. apply filter_length_eq. apply Z.eqb_eq in E.
    pose proof (filter_length_le (λ line, negb (contains MARKER line)) (read file)). lia.
  - apply read_write, Forall_filter_b, read_no_break.
Qed.

Lemma session_of_None line : session_of line = None ↔ contains MARKER line = false.
Proof. unfold session_of. rewrite fmap_None. apply after_rfind_None. Qed.

Lemma session_of_clean line sid : session_of line = Some sid → contains MARKER sid = false.
Proof.
  unfold session_of. intros (r & Hr & ->)%fmap_Some. apply after_rfind_last in Hr; [|done].
  destruct (contains MARKER (strip r)) eqn:E; [|done]. apply contains_strip in E. congruence.
Qed.

Lemma marked_contains sid line : marked sid line = true → contains MARKER line = true.
Proof.
  intros (p & ->)%endswith_spec. apply contains_app_l, contains_spec. by exists "", sid.
Qed.

(** Lines without a marker are never removed. *)
Lemma marked_owner sid line : contains MARKER line = false → marked sid line = false.
Proof. intros H. apply not_true_iff_false. intros ?%marked_contains. congruence. Qed.

(** The marker does not overlap itself: a line that ends with the marker and two
    ids without a marker ends with one id. *)
Lemma marker_shift y s t : MARKER +:+ t = y +:+ (MARKER +:+ s) →
  y = "" ∨ contains MARKER t = true.
Proof.
  unfold MARKER.
  do 11 (destruct y as [|?c y]; [first [by left|by intros [=]]|]; simpl; intros H;
         injection H as _ H; revert H).
  simpl. intros ->. right. apply contains_app_l, contains_spec. by exists "", s.
Qed.

Lemma marker_unique p q s t :
  p +:+ (MARKER +:+ s) = q +:+ (MARKER +:+ t) →
  contains MARKER s = false → contains MARKER t = false → s = t.
Proof.
  revert q. induction p as [|c p IH]; intros q H Hs Ht.
  - symmetry in H. cbn [String.append] in H.
    destruct (marker_shift q t s (eq_sym H)) as [->|?]; [|congruence].
    symmetry. by apply (sapp_inj_l MARKER).
  - destruct q as [|d q].
    + destruct (marker_shift (String c p) s t (eq_sym H)) as [?|?]; [done|congruence].
    + simpl in H. injection H as _ H. by apply (IH q).
Qed.

(** A line is tidy when nothing but the session's id follows its marker. *)
Definition tidy (line : string) : bool :=
  match session_of line with Some sid => marked sid line | None => true end.

Lemma tidy_marked line sid : tidy line = true → contains MARKER sid = false →
  marked sid line = bool_decide (session_of line = Some sid).
Proof.
  intros Ht Hs. unfold tidy in Ht. destruct (session_of line) as [s|] eqn:E.
  - case_bool_decide as Hd.
    + by injection Hd as ->.
    + apply not_true_iff_false. intros (q & Hq)%endswith_spec. apply endswith_spec in Ht as (p & Hp).
      apply Hd. f_equal. apply (marker_unique p q); [congruence| |done].
      by apply session_of_clean in E.
  - rewrite bool_decide_eq_false_2 by done. by apply marked_owner, session_of_None.
Qed.

(** ** The form of a granted line *)

Definition key_char (c : ascii) : bool := is_base64 c || one_of " =-" c.

Definition keyish (r : re) : Prop := ∀ s, matches r s → sforall key_char s = true.

Lemma keyish_star p : (∀ c, p c = true → key_char c = true) → keyish (RStar (RCls p)).
Proof. intros Hp s Hs%matches_star_cls. by apply sforall_impl with p. Qed.

Lemma keyish_cat a b : keyish a → keyish b → keyish (RCat a b).
Proof. intros Ha Hb s (u & v & -> & Hu & Hv)%matches_cat. rewrite sforall_app. by rewrite Ha, Hb. Qed.

Lemma keyish_cls p : (∀ c, p c = true → key_char c = true) → keyish (RCls p).
Proof. intros Hp s (c & -> & Hc)%matches_cls. simpl. by rewrite Hp. Qed.

Lemma matches_alts_lit (l : list string) s : matches (ralts (rlit <$> l)) s → ∃ k, k ∈ l ∧ s = k.
Proof.
  induction l as [|k l IH]; csimpl; intros H; [inversion H|].
  inversion H as [| | | a b x Hx|a b x Hx| |]; subst.
  - apply matches_lit in Hx. exists k. split; [by left|done].
  - destruct (IH Hx) as (k' & ? & ->). exists k'. split; [by right|done].
Qed.

Lemma public_key_chars : keyish PUBLIC_KEY.
Proof.
  assert (Hb : ∀ c, is_base64 c = true → key_char c = true).
  { intros c H. unfold key_char. by rewrite H. }
  assert (Hr : ∀ d, key_char d = true → ∀ c, Ascii.eqb d c = true → key_char c = true).
  { by intros d H c ->%Ascii.eqb_eq. }
  repeat apply keyish_cat; try (apply keyish_star || apply keyish_cls); try done;
    try (by apply Hr).
  intros u (k & Hk & ->)%matches_alts_lit.
  by repeat (apply elem_of_cons in Hk as [->|Hk]; [done|]); apply not_elem_of_nil in Hk.
Qed.

Lemma key_char_line c : key_char c = true →
  is_linebreak c = false ∧ Ascii.eqb c ":"%char = false.
Proof. destruct c as [[] [] [] [] [] [] [] []]; vm_compute; try done. Qed.

(** A canonical key holds neither a line break nor a marker. *)
Lemma canonical_chars public_key key :
  canonical public_key = Some key → sforall key_char key = true.
Proof.
  unfold canonical. pose proof (split_ws_words (strip public_key)) as Hw.
  destruct (split_ws (strip public_key)) as [|kind [|body rest]]; [done..|].
  apply Forall_cons in Hw as [_ [Hb _]%Forall_cons].
  destruct (bool_decide _) eqn:Hk; [|done]. apply bool_decide_eq_true in Hk.
  destruct (re_dollar _ _) eqn:E; [|done]. intros [= <-].
  apply re_dollar_spec in E as [E|(t & Ht & _)]; [by apply public_key_chars|exfalso].
  assert (Hn : sforall (λ c, negb (Ascii.eqb c nl)) (kind +:+ " " +:+ body) = true).
  { rewrite !sforall_app, !andb_true_iff. split_and!; [|done|].
    - by repeat (apply elem_of_cons in Hk as [->|Hk]; [done|]); apply not_elem_of_nil in Hk.
    - revert Hb. apply sforall_impl. intros c. destruct (Ascii.eqb c nl) eqn:Ec; [|done].
      by apply Ascii.eqb_eq in Ec as ->. }
  rewrite Ht, sforall_app in Hn. simpl in Hn. by rewrite andb_false_r in Hn.
Qed.

(** A canonical key is in canonical form. *)
Lemma canonical_idem public_key key : canonical public_key = Some key → canonical key = Some key.
Proof.
  unfold canonical at 1. pose proof (split_ws_words (strip public_key)) as Hw.
  pose proof (split_ws_some (strip public_key)) as Hn.
  destruct (split_ws (strip public_key)) as [|kind [|body rest]]; [done..|].
  apply Forall_cons in Hw as [Hkw [Hbw _]%Forall_cons]. apply Forall_cons in Hn as [Hk [Hb _]%Forall_cons].
  destruct (bool_decide _) eqn:Hd; [|done]. destruct (re_dollar _ _) eqn:E; [|done].
  intros Hx. assert (key = kind +:+ " " +:+ body) as -> by congruence. clear Hx.
  destruct (two_words kind body) as [Hs Hsplit]; [done..|].
  unfold canonical. by rewrite Hs, Hsplit, Hd, E.
Qed.

Definition plain_id (sid : string) : bool := sforall is_hex sid.

Lemma plain_id_spec sid : plain_id sid = true →
  no_break sid = true ∧ strip sid = sid ∧ contains MARKER sid = false.
Proof.
  intros H. split_and!.
  - revert H. apply sforall_impl. by intros [[] [] [] [] [] [] [] []].
  - apply strip_no_space. revert H. apply sforall_impl. by intros [[] [] [] [] [] [] [] []].
  - apply contains_forall with ":"%char; [|done]. revert H. apply sforall_impl.
    by intros [[] [] [] [] [] [] [] []].
Qed.

(** The line of a grant: one line, tidy, of the session. *)
Lemma granted_line public_key key sid :
  canonical public_key = Some key → plain_id sid = true →
  let line := session_line key sid in
  no_break line = true ∧ session_of line = Some sid ∧ tidy line = true.
Proof.
  intros Hk%canonical_chars Hs. pose proof (plain_id_spec sid Hs) as (Hb & Hst & Hc).
  assert (Hm : marked sid (session_line key sid) = true).
  { apply endswith_spec. exists (key +:+ " "). unfold session_line. by rewrite !app_assoc_s. }
  assert (Ho : session_of (session_line key sid) = Some sid).
  { unfold session_of. destruct (after_rfind MARKER (session_line key sid)) as [r|] eqn:E.
    - pose proof (after_rfind_last MARKER _ _ ltac:(done) E) as Hr.
      apply after_rfind_split in E as [p Hp].
      assert (r = sid) as ->; [|by rewrite <- Hst at 2].
      apply (marker_unique p (key +:+ " ")); [|done|done].
      rewrite <- Hp. unfold session_line. by rewrite !app_assoc_s.
    - apply after_rfind_None in E. apply marked_contains in Hm. congruence. }
  split_and!; [|done|by unfold tidy; rewrite Ho].
  unfold session_line, no_break. rewrite !sforall_app, !andb_true_iff. split_and!; try done.
  revert Hk. apply sforall_impl. intros c Hc'%key_char_line. by destruct Hc' as [-> _].
Qed.
