(* ===== verification/Grants.v ===== *)
(** * Session grants (agent/access/grants.py, agent/hardware/attestation.py)

    Opening a session installs the validator's key in [authorized_keys] and
    returns an attestation of the machine bound to the request's nonce; closing,
    expiring and revoking take the key out again.  The state is the nonce book,
    the open sessions, the text of [authorized_keys] and the events written.  An
    operation here is what its thread does when no other comes in between;
    [GrantThreads] interleaves them. *)

From Stdlib Require Import Ascii String QArith.
From S2P Require Import Prelude.
From S2P Require Import PyStr.
From S2P Require Import PyText.
From S2P Require Import PyRe.
From S2P Require Import PyRound.
From S2P Require Import PyFloat.
From S2P Require Import PyJson.
From S2P Require Import Sha256.
From S2P Require Import SessionProto.
From S2P Require Import Attest.
From S2P Require Import Auth.
From S2P Require Import Nonce.
From S2P Require Import SshKeys.
Local Open Scope string_scope.
Local Open Scope list_scope.

Record OpenSession : Type := MkSession {
  session_id : string; public_key : string; validator : string; nonce : string;
  opened_at : pyfloat; expires_at : pyfloat }.

Definition session_payload (s : OpenSession) : dict :=
  [("session_id", JStr s.(session_id)); ("validator", JStr s.(validator));
   ("opened_at", JFloat (fround 3 s.(opened_at))); ("expires_at", JFloat (fround 3 s.(expires_at)))].

Record t : Type := MkGrants {
  nonces : NonceBook; session_ttl : Z; open_sessions : list (string * OpenSession);
  keys : option string; events : list (string * dict) }.

(** [self.nonces = nonces or NonceBook(ttl_seconds)]: an empty book is false. *)
Definition init (given : option NonceBook) (ttl_seconds : Z) (authorized : option string) : t :=
  let book := match given with
              | Some b => if book_truthy b then b else new_book ttl_seconds
              | None => new_book ttl_seconds
              end in
  MkGrants book ttl_seconds [] authorized [].

Definition set_nonces (b : NonceBook) (g : t) : t :=
  MkGrants b g.(session_ttl) g.(open_sessions) g.(keys) g.(events).
Definition set_open (o : list (string * OpenSession)) (g : t) : t :=
  MkGrants g.(nonces) g.(session_ttl) o g.(keys) g.(events).
Definition set_keys (k : option string) (g : t) : t :=
  MkGrants g.(nonces) g.(session_ttl) g.(open_sessions) k g.(events).
Definition write_event (kind : string) (fields : dict) (g : t) : t :=
  MkGrants g.(nonces) g.(session_ttl) g.(open_sessions) g.(keys) (g.(events) ++ [(kind, fields)]).

(** What the agent reads of its machine. *)
Record Machine : Type := MkMachine {
  agent_version : string; machine_hostname : string; machine_id : string; boot_id : string;
  inventory : list dict * string * string;
  tdx_quote : list Z → string;
  gpu_evidence : string → dict;
  host_key_file : option string;
  ssh_user : string; ssh_port : Z; python_path : string; root_dir : string;
  port_range : string }.

(** The moments [time.time()] is read at: for the nonce, the session, the attestation. *)
Record Moments : Type := MkMoments { at_nonce : pyfloat; at_open : pyfloat; at_build : pyfloat }.

(** How [open] ends; [Failed] is an exception other than [GrantError]. *)
Inductive opened : Type :=
  | Granted (g : SessionGrant.t)
  | GrantError (status : Z) (detail : string)
  | Failed (e : exn).

Section Access.
Variable keypair_verify : string → string → list Z → bool.
(** [_iso] *)
Variable iso : pyfloat → string.
Variable machine : Machine.

(** ** [attestation.py] *)

Definition host_key_line (file : option string) : string :=
  match file with
  | Some text =>
      match splitlines text with
      | first :: _ => default (strip first) (canonical first)
      | [] => ""
      end
  | None => ""
  end.

Definition build (nonce host_key : string) (now : pyfloat) : res (option Attestation.t) :=
  let nonce := lower (strip nonce) in
  if negb (well_formed_nonce nonce) then Ok None
  else
    let key_line := if String.eqb host_key "" then host_key_line machine.(host_key_file)
                    else host_key in
    let data := report_data key_line nonce in
    let '(gpus, driver, cuda) := machine.(inventory) in
    cards ← mapM GpuEvidence.from_payload gpus;
    mret (Some (Attestation.Mk nonce machine.(agent_version) machine.(machine_hostname) cards
      driver cuda machine.(machine_id) machine.(boot_id) key_line (hex (of_bytes data))
      (machine.(tdx_quote) data) (machine.(gpu_evidence) nonce) (fround 3 now))).

(** ** [SessionGrants] *)

Definition open (request : SessionOpen.t) (hotkeys : list string) (fault : option string)
    (m : Moments) (st : t) : opened * t :=
  match SessionOpen.problems request with
  | p :: ps => (GrantError 422 (join "; " (p :: ps)), st)
  | [] =>
  match canonical (SessionOpen.public_key request) with
  | None => (GrantError 422 "public_key is not an accepted OpenSSH key", st)
  | Some key =>
  let validator := signer keypair_verify hotkeys (SessionOpen.blob request)
                     (SessionOpen.signature request) in
  if String.eqb validator "" then
    (GrantError 403 "signature does not verify against any active validator hotkey", st)
  else
  let '(fresh, book) := accept (SessionOpen.nonce request) m.(at_nonce) st.(nonces) in
  let st := set_nonces book st in
  if negb fresh then (GrantError 403 "nonce already used or malformed", st) else
  let now := m.(at_open) in
  let sid := stake 16 (SessionOpen.nonce request) in
  match grant fault key sid st.(keys) with
  | Raise (OSError text) => (GrantError 500 ("could not install the key: " +:+ text), st)
  | Raise ValueError =>
      (GrantError 500
         "could not install the key: public key is not an accepted OpenSSH key", st)
  | Raise e => (Failed e, st)
  | Ok (_, file) =>
  let st := set_keys file st in
  let host_key := host_key_line machine.(host_key_file) in
  match build (SessionOpen.nonce request) host_key m.(at_build) with
  | Raise e => (Failed e, st)
  | Ok None =>
      (GrantError 422 "nonce must be 32 bytes as 64 lowercase hex characters",
       set_keys (revoke sid st.(keys)).2 st)
  | Ok (Some evidence) =>
  let expires := fadd now (rnd (inject_Z st.(session_ttl))) in
  let session := MkSession sid key validator (SessionOpen.nonce request) now expires in
  let st := set_open (dset sid session st.(open_sessions)) st in
  let st := write_event "session.open"
              [("session", JStr sid); ("validator", JStr validator);
               ("nonce", JStr (stake 16 (SessionOpen.nonce request)));
               ("expires_at", JStr (iso expires));
               ("tdx", JBool (negb (String.eqb (Attestation.tdx_quote evidence) "")))] st in
  (Granted (SessionGrant.Mk machine.(ssh_user) machine.(ssh_port) host_key
              machine.(python_path) machine.(root_dir) machine.(port_range) validator
              (iso expires) (Attestation.payload evidence) (Attestation.tdx_quote evidence) sid),
   st)
  end end end end.
End Access.

(** [_matching] *)
Definition matching (request : SessionClose.t) (st : t) : list string :=
  let key := if String.eqb (SessionClose.public_key request) "" then None
             else canonical (SessionClose.public_key request) in
  let id := SessionClose.session_id request in
  let found := dkeys (List.filter (λ e : string * OpenSession,
                 (negb (String.eqb id "") && String.eqb e.1 id)
                 || match key with Some k => String.eqb e.2.(public_key) k | None => false end)
                 st.(open_sessions)) in
  if negb (String.eqb id "") && negb (bool_decide (id ∈ found)) then found ++ [id] else found.

Fixpoint close_each (validator : string) (sids : list string) (revoked : Z) (st : t) : Z * t :=
  match sids with
  | [] => (revoked, st)
  | sid :: sids' =>
      let '(gone, file) := revoke sid st.(keys) in
      let st := set_open (dpop sid st.(open_sessions)) (set_keys file st) in
      close_each validator sids' (if gone then revoked + 1 else revoked)%Z
        (write_event "session.close" [("session", JStr sid); ("validator", JStr validator)] st)
  end.

Definition close (request : SessionClose.t) (validator : string) (st : t) : Z * t :=
  close_each validator (matching request st) 0 st.

Definition expired (moment : pyfloat) (st : t) : list string :=
  dkeys (List.filter (λ e : string * OpenSession, fle e.2.(expires_at) moment) st.(open_sessions)).

Fixpoint expire_each (sids : list string) (revoked : Z) (st : t) : Z * t :=
  match sids with
  | [] => (revoked, st)
  | sid :: sids' =>
      let '(gone, file) := revoke sid st.(keys) in
      expire_each sids' (if gone then revoked + 1 else revoked)%Z
        (write_event "session.expire" [("session", JStr sid)] (set_keys file st))
  end.

Fixpoint orphan_each (known : list string) (sids : list string) (revoked : Z) (st : t) : Z * t :=
  match sids with
  | [] => (revoked, st)
  | sid :: sids' =>
      if bool_decide (sid ∈ known) then orphan_each known sids' revoked st
      else
        let '(gone, file) := revoke sid st.(keys) in
        let st := set_keys file st in
        if gone then orphan_each known sids' (revoked + 1)%Z
                       (write_event "session.orphan_revoked" [("session", JStr sid)] st)
        else orphan_each known sids' revoked st
  end.

Definition sweep (moment : pyfloat) (st : t) : Z * t :=
  let gone := expired moment st in
  let st := set_open (foldl (λ d sid, dpop sid d) st.(open_sessions) gone) st in
  let known := dkeys st.(open_sessions) in
  let '(revoked, st) := expire_each gone 0 st in
  let '(revoked, st) := orphan_each known (active_sessions st.(keys)) revoked st in
  (revoked, set_nonces (expire moment st.(nonces)).2 st).

Definition revoke_all (st : t) : Z * t :=
  let st := set_open [] st in
  let '(removed, file) := revoke_all_sessions st.(keys) in
  let st := set_keys file st in
  (removed, if (removed =? 0)%Z then st
            else write_event "session.revoke_all" [("removed", JInt removed)] st).

Definition active (st : t) : list dict := session_payload <$> st.(open_sessions).*2.

(** ** Facts *)

Lemma filter_twice {A} (f g : A → bool) l :
  List.filter f (List.filter g l) = List.filter (λ x, g x && f x) l.
Proof. induction l as [|x l IH]; [done|]. cbn. destruct (g x); cbn; [destruct (f x)|]; congruence. Qed.

Definition live (moment : pyfloat) (st : t) (sid : string) : bool :=
  match dget sid st.(open_sessions) with
  | Some s => negb (fle s.(expires_at) moment)
  | None => false
  end.

(** The lines of the owner of the machine. *)
Definition owner_lines (st : t) : list string :=
  List.filter (λ line, negb (contains MARKER line)) (read st.(keys)).

(** A session id is plain, a line of the file tidy. *)
Record inv (st : t) : Prop := {
  inv_book : book_ok st.(nonces);
  inv_nodup : NoDup (dkeys st.(open_sessions));
  inv_ids : Forall (λ sid, contains MARKER sid = false) (dkeys st.(open_sessions));
  inv_tidy : Forall (λ line, tidy line = true) (read st.(keys)) }.

(** Removing the lines of several sessions. *)
Definition without_all (sids lines : list string) : list string :=
  foldl (λ l sid, without sid l) lines sids.

Lemma without_all_filter sids lines :
  without_all sids lines
  = List.filter (λ line, negb (existsb (λ sid, marked sid line) sids)) lines.
Proof.
  revert lines. induction sids as [|sid sids IH]; intros lines; cbn [without_all foldl existsb].
  - induction lines as [|l lines IHl]; [done|]. cbn. by f_equal.
  - fold (without_all sids (without sid lines)). rewrite IH. unfold without. rewrite filter_twice.
    apply filter_ext. intros l. by rewrite negb_orb.
Qed.

Lemma close_each_spec v sids revoked st :
  let st' := (close_each v sids revoked st).2 in
  read st'.(keys) = without_all sids (read st.(keys))
  ∧ st'.(open_sessions) = foldl (λ d sid, dpop sid d) st.(open_sessions) sids
  ∧ st'.(nonces) = st.(nonces).
Proof.
  revert revoked st. induction sids as [|sid sids IH]; intros revoked st; [done|].
  cbn [close_each]. pose proof (revoke_read sid st.(keys)) as Hr.
  destruct (revoke sid st.(keys)) as [gone file]. cbn [snd] in Hr.
  match goal with |- context [close_each v sids ?r ?s] => destruct (IH r s) as (-> & -> & ->) end.
  cbn [keys open_sessions nonces write_event set_open set_keys without_all foldl]. by rewrite Hr.
Qed.

Lemma expire_each_spec sids revoked st :
  let st' := (expire_each sids revoked st).2 in
  read st'.(keys) = without_all sids (read st.(keys))
  ∧ st'.(open_sessions) = st.(open_sessions) ∧ st'.(nonces) = st.(nonces).
Proof.
  revert revoked st. induction sids as [|sid sids IH]; intros revoked st; [done|].
  cbn [expire_each]. pose proof (revoke_read sid st.(keys)) as Hr.
  destruct (revoke sid st.(keys)) as [gone file]. cbn [snd] in Hr.
  match goal with |- context [expire_each sids ?r ?s] => destruct (IH r s) as (-> & -> & ->) end.
  cbn [keys open_sessions nonces write_event set_keys without_all foldl]. by rewrite Hr.
Qed.

Lemma orphan_each_spec known sids revoked st :
  let st' := (orphan_each known sids revoked st).2 in
  read st'.(keys)
  = without_all (List.filter (λ sid, negb (bool_decide (sid ∈ known))) sids) (read st.(keys))
  ∧ st'.(open_sessions) = st.(open_sessions) ∧ st'.(nonces) = st.(nonces).
Proof.
  revert revoked st. induction sids as [|sid sids IH]; intros revoked st; [done|].
  cbn [orphan_each List.filter]. destruct (bool_decide (sid ∈ known)); cbn [negb]; [apply IH|].
  pose proof (revoke_read sid st.(keys)) as Hr.
  destruct (revoke sid st.(keys)) as [gone file]. cbn [snd] in Hr. destruct gone;
    (match goal with |- context [orphan_each known sids ?r ?s] =>
       destruct (IH r s) as (-> & -> & ->) end);
    cbn [keys open_sessions nonces write_event set_keys without_all foldl]; by rewrite Hr.
Qed.

Lemma owner_without sid lines :
  List.filter (λ line, negb (contains MARKER line)) (without sid lines)
  = List.filter (λ line, negb (contains MARKER line)) lines.
Proof.
  unfold without. rewrite filter_twice. apply filter_ext. intros l.
  destruct (contains MARKER l) eqn:E; [by rewrite andb_false_r|]. by rewrite marked_owner.
Qed.

Lemma owner_without_all sids lines :
  List.filter (λ line, negb (contains MARKER line)) (without_all sids lines)
  = List.filter (λ line, negb (contains MARKER line)) lines.
Proof.
  revert lines. induction sids as [|sid sids IH]; intros lines; [done|]. cbn [without_all foldl].
  etransitivity; [apply IH|]. apply owner_without.
Qed.

Lemma pop_all_keys {A} (l : list string) (d : list (string * A)) :
  NoDup (dkeys d) → NoDup (dkeys (foldl (λ d sid, dpop sid d) d l)).
Proof. apply dkeys_pop_all. Qed.

Lemma pop_all_sub {A} (P : string → Prop) (l : list string) (d : list (string * A)) :
  Forall P (dkeys d) → Forall P (dkeys (foldl (λ d sid, dpop sid d) d l)).
Proof.
  revert d. induction l as [|x l IH]; intros d Hd; [done|]. apply IH. rewrite dkeys_dpop.
  apply Forall_forall. intros y [_ Hy]%list_elem_of_filter. rewrite Forall_forall in Hd. auto.
Qed.

Lemma tidy_without_all sids lines :
  Forall (λ l, tidy l = true) lines → Forall (λ l, tidy l = true) (without_all sids lines).
Proof. intros H. rewrite without_all_filter. by apply Forall_filter_b. Qed.

(** The two loops of [sweep]. *)
Lemma sweep_parts moment st :
  let st' := (sweep moment st).2 in
  let kept := foldl (λ d sid, dpop sid d) st.(open_sessions) (expired moment st) in
  let lines := without_all (expired moment st) (read st.(keys)) in
  read st'.(keys)
  = without_all (List.filter (λ sid, negb (bool_decide (sid ∈ dkeys kept)))
                   (list_omap _ _ session_of lines)) lines
  ∧ st'.(open_sessions) = kept ∧ st'.(nonces) = (expire moment st.(nonces)).2.
Proof.
  unfold sweep. cbn zeta.
  set (gone := expired moment st).
  set (st1 := set_open (foldl (λ d sid, dpop sid d) st.(open_sessions) gone) st).
  pose proof (expire_each_spec gone 0 st1) as (H1 & H2 & H3).
  destruct (expire_each gone 0 st1) as [r st2]. cbn [snd] in H1, H2, H3.
  pose proof (orphan_each_spec (dkeys st1.(open_sessions)) (active_sessions st2.(keys)) r st2)
    as (G1 & G2 & G3).
  destruct (orphan_each _ _ r st2) as [r' st3]. cbn [snd] in G1, G2, G3.
  cbn [snd keys open_sessions nonces set_nonces]. rewrite G1, G2, G3, H2, H3.
  unfold active_sessions. rewrite H1. done.
Qed.

(** ** The nonce of a request *)

Lemma stake_app_le n s u : (n ≤ slen s)%nat → stake n (s +:+ u) = stake n s.
Proof.
  revert s. induction n as [|n IH]; intros [|c s]; unfold slen; cbn; [done|done|lia|].
  intros H. by rewrite IH by (unfold slen; lia).
Qed.

Lemma hex_fixed s : sforall is_hex s = true → lower s = s ∧ strip s = s.
Proof.
  intros H. split.
  - induction s as [|c s IH]; [done|]. cbn in H. apply andb_true_iff in H as [Hc Hs].
    unfold lower in *. cbn. rewrite (IH Hs). f_equal. revert Hc. clear.
    by destruct c as [[] [] [] [] [] [] [] []].
  - apply strip_no_space. revert H. apply sforall_impl. by intros [[] [] [] [] [] [] [] []].
Qed.

Lemma rstrip_app_space f s c : f c = true → rstrip_p f (s +:+ String c "") = rstrip_p f s.
Proof. intros Hc. induction s as [|d s IH]; cbn; [by rewrite Hc|]. by rewrite IH. Qed.

Lemma well_formed_parts nonce : well_formed_nonce nonce = true →
  well_formed_nonce (lower (strip nonce)) = true ∧ plain_id (stake 16 nonce) = true.
Proof.
  intros H. assert (Hs : ∃ h, slen h = 64%nat ∧ sforall is_hex h = true
    ∧ (nonce = h ∨ nonce = h +:+ nls)).
  { apply well_formed_nonce_spec in H as (h & Hn & Hl & Hh). exists h. split_and!; [done..|].
    tauto. }
  destruct Hs as (h & Hl & Hh & Hn).
  assert (Hst : strip nonce = h).
  { destruct (hex_fixed h Hh) as [_ Hst]. destruct Hn as [->| ->]; [done|].
    rewrite <- Hst at 2. unfold strip. destruct h as [|c h]; [done|].
    assert (is_space c = false) as Hc.
    { cbn in Hh. apply andb_true_iff in Hh as [Hc _]. revert Hc. clear.
      by destruct c as [[] [] [] [] [] [] [] []]. }
    cbn [String.append lstrip_p]. rewrite Hc.
    change (String c (h +:+ nls)) with (String c h +:+ nls). by apply rstrip_app_space. }
  split.
  - rewrite Hst. destruct (hex_fixed h Hh) as [-> _]. apply well_formed_nonce_spec.
    exists h. tauto.
  - unfold plain_id. assert (stake 16 nonce = stake 16 h) as ->; [|by apply sforall_stake].
    destruct Hn as [->| ->]; [done|]. apply stake_app_le. lia.
Qed.

(** ** Opening *)

Definition hotkey_signed (kv : string → string → list Z → bool) (hotkeys : list string)
    (request : SessionOpen.t) (hotkey : string) : Prop :=
  hotkey ∈ hotkeys ∧ hotkey ≠ "" ∧
  verify_hotkey kv hotkey (SessionOpen.blob request) (SessionOpen.signature request) = true.

#[local] Opaque report_data.

Lemma build_bound machine nonce host_key now a :
  build machine nonce host_key now = Ok (Some a) →
  host_key = host_key_line machine.(host_key_file) →
  Attestation.nonce a = lower (strip nonce)
  ∧ Attestation.host_key a = host_key
  ∧ Attestation.report_data_hex a = hex (of_bytes (report_data host_key (lower (strip nonce)))).
Proof.
  unfold build. destruct (negb _); [done|]. destruct (inventory machine) as [[gpus driver] cuda].
  intros H Hk. assert (Hl : (if String.eqb host_key "" then host_key_line (host_key_file machine)
                              else host_key) = host_key).
  { destruct (String.eqb host_key ""); [by rewrite <- Hk|done]. }
  cbn zeta in H. rewrite Hl in H.
  generalize dependent (report_data host_key (lower (strip nonce))). intros data H.
  apply res_bind_ok in H as (cards & _ & H). apply Ok_inj in H. by injection H as <-.
Qed.

Lemma build_total machine nonce host_key now :
  well_formed_nonce nonce = true → build machine nonce host_key now ≠ Ok None.
Proof.
  intros [H _]%well_formed_parts. unfold build. rewrite H. cbn [negb].
  destruct (inventory machine) as [[gpus driver] cuda].
  destruct (mapM GpuEvidence.from_payload gpus); done.
Qed.

(** The lines of the file after a grant. *)
Lemma grant_read public_key key sid file line file' :
  canonical public_key = Some key → plain_id sid = true →
  grant None key sid file = Ok (line, file') →
  read file' = without sid (read file) ++ [session_line key sid].
Proof.
  intros Hk Hs. unfold grant. rewrite (canonical_idem public_key key Hk).
  intros [= <- <-]. apply read_write, Forall_app. split.
  - apply Forall_filter_b, read_no_break.
  - constructor; [|constructor]. by apply (granted_line public_key key sid).
Qed.

Definition granted_session (request : SessionOpen.t) (key : string) (m : Moments)
    (hotkey : string) (ttl : Z) : OpenSession :=
  MkSession (stake 16 (SessionOpen.nonce request)) key hotkey (SessionOpen.nonce request)
    m.(at_open) (fadd m.(at_open) (rnd (inject_Z ttl))).

(** The lines with the request's own key for its session, and no other line of that session. *)
Definition with_session (request : SessionOpen.t) (key : string) (lines lines' : list string)
    : Prop :=
  let sid := stake 16 (SessionOpen.nonce request) in
  plain_id sid = true ∧ canonical (SessionOpen.public_key request) = Some key
  ∧ lines' = without sid lines ++ [session_line key sid].

(** C7. A session is granted only to a request that has no problems, is signed by an
    active validator and carries a nonce the book accepts; the grant then names
    that validator, installs exactly one line in authorized_keys - the canonical
    form of the key the request asks for, under the session's id -, records the
    session with that same key until its time to live, and carries an attestation of
    the machine bound to the request's nonce and to the host key it returns.  A refused
    request leaves authorized_keys and the open sessions as they were; only an
    exception out of the attestation can leave a line without a session. *)
Theorem open_spec kv iso machine request hotkeys fault m st :
  match open kv iso machine request hotkeys fault m st with
  | (Granted g, st') =>
      hotkey_signed kv hotkeys request (SessionGrant.validator g)
      ∧ SessionOpen.problems request = []
      ∧ (accept (SessionOpen.nonce request) m.(at_nonce) st.(nonces)).1 = true
      ∧ st'.(nonces) = (accept (SessionOpen.nonce request) m.(at_nonce) st.(nonces)).2
      ∧ (∃ key, with_session request key (read st.(keys)) (read st'.(keys))
           ∧ st'.(open_sessions)
             = dset (stake 16 (SessionOpen.nonce request))
                 (granted_session request key m (SessionGrant.validator g) st.(session_ttl))
                 st.(open_sessions))
      ∧ SessionGrant.session_id g = stake 16 (SessionOpen.nonce request)
      ∧ ∃ a, SessionGrant.gpu_attestation g = Attestation.payload a
          ∧ Attestation.nonce a = lower (strip (SessionOpen.nonce request))
          ∧ Attestation.host_key a = SessionGrant.ssh_host_key g
          ∧ Attestation.report_data_hex a
            = hex (of_bytes (report_data (SessionGrant.ssh_host_key g) (Attestation.nonce a)))
  | (GrantError status _, st') =>
      status ∈ [403; 422; 500]%Z ∧ read st'.(keys) = read st.(keys)
      ∧ st'.(open_sessions) = st.(open_sessions)
      ∧ (st'.(nonces) = st.(nonces)
         ∨ st'.(nonces) = (accept (SessionOpen.nonce request) m.(at_nonce) st.(nonces)).2)
  | (Failed _, st') =>
      st'.(open_sessions) = st.(open_sessions)
      ∧ (∃ key, with_session request key (read st.(keys)) (read st'.(keys)))
      ∧ st'.(nonces) = (accept (SessionOpen.nonce request) m.(at_nonce) st.(nonces)).2
  end.
Proof.
  unfold open. destruct (SessionOpen.problems request) as [|p ps] eqn:Hp.
  2: { cbn. split_and!; auto. set_solver. }
  assert (Hn : well_formed_nonce (SessionOpen.nonce request) = true).
  { unfold SessionOpen.problems in Hp. destruct (well_formed_nonce _); [done|].
    by destruct (negb _). }
  destruct (well_formed_parts _ Hn) as [_ Hid].
  destruct (canonical (SessionOpen.public_key request)) as [key|] eqn:Hk.
  2: { cbn. split_and!; auto. set_solver. }
  set (v := signer kv hotkeys (SessionOpen.blob request) (SessionOpen.signature request)).
  destruct (String.eqb v "") eqn:Hv.
  { cbn. split_and!; auto. set_solver. }
  apply String.eqb_neq in Hv.
  pose proof (signer_spec kv hotkeys (SessionOpen.blob request) (SessionOpen.signature request) v
                eq_refl Hv) as [Hin Hver]. clearbody v.
  destruct (accept (SessionOpen.nonce request) (at_nonce m) (nonces st)) as [fresh book] eqn:Ha.
  destruct fresh; cbn [negb]; [|cbn; split_and!; auto; set_solver].
  destruct (grant fault key _ _) as [[line file]|e] eqn:Hg.
  - assert (fault = None) as ->.
    { unfold grant in Hg. destruct (canonical key); [|done]. by destruct fault. }
    pose proof (grant_read _ _ _ _ _ _ Hk Hid Hg) as Hr. cbn [keys set_nonces] in Hr.
    destruct (build machine _ _ _) as [[a|]|e] eqn:Hb.
    + destruct (build_bound _ _ _ _ _ Hb eq_refl) as (Hb1 & Hb2 & Hb3).
      cbn -[stake]. split_and!; try done; [by exists key|].
      exists a. rewrite Hb1. split_and!; [reflexivity|reflexivity|exact Hb2|exact Hb3].
    + by destruct (build_total _ _ _ _ Hn Hb).
    + cbn -[stake]. split_and!; try done. by exists key.
  - unfold grant in Hg. destruct (canonical key) as [key'|]; [|injection Hg as <-].
    + destruct fault; [|done]. injection Hg as <-. cbn. split_and!; auto. set_solver.
    + cbn. split_and!; auto. set_solver.
Qed.

(** ** The invariant of the threads' shared state *)

Lemma with_session_owner request key lines lines' :
  with_session request key lines lines' →
  List.filter (λ line, negb (contains MARKER line)) lines'
  = List.filter (λ line, negb (contains MARKER line)) lines.
Proof.
  intros (Hid & Hk & ->). rewrite List.filter_app, owner_without.
  destruct (granted_line _ key _ Hk Hid) as (_ & Hs & _). cbn [List.filter].
  destruct (contains MARKER (session_line _ _)) eqn:E; [by rewrite app_nil_r|].
  apply session_of_None in E. congruence.
Qed.

Lemma with_session_tidy request key lines lines' :
  with_session request key lines lines' →
  Forall (λ l, tidy l = true) lines → Forall (λ l, tidy l = true) lines'.
Proof.
  intros (Hid & Hk & ->) H. apply Forall_app. split; [by apply Forall_filter_b|].
  constructor; [|constructor]. by apply (granted_line _ key _ Hk Hid).
Qed.

Lemma dget_gone moment st sid : inv st →
  sid ∈ expired moment st ↔
  ∃ s, dget sid st.(open_sessions) = Some s ∧ fle s.(expires_at) moment = true.
Proof. intros H. apply dkeys_filter_elem, H. Qed.

(** A tidy line belongs to one of some sessions. *)
Lemma marked_by line sids :
  tidy line = true → Forall (λ sid, contains MARKER sid = false) sids →
  existsb (λ sid, marked sid line) sids
  = match session_of line with Some s => bool_decide (s ∈ sids) | None => false end.
Proof.
  intros Ht Hs. induction Hs as [|sid sids Hsid _ IH]; cbn [existsb].
  - by destruct (session_of line).
  - rewrite IH, (tidy_marked line sid Ht Hsid). destruct (session_of line) as [s|]; [|done].
    rewrite <- bool_decide_or. apply bool_decide_ext. rewrite elem_of_cons. naive_solver.
Qed.

(** A session survives the first loop of [sweep] when it is live. *)
Lemma kept_live moment st sid : inv st →
  sid ∈ dkeys (foldl (λ d sid, dpop sid d) st.(open_sessions) (expired moment st))
  ↔ live moment st sid = true.
Proof.
  intros H. rewrite <- dmem_true. unfold dmem, live. rewrite dget_pop_all.
  pose proof (dget_gone moment st sid H) as Hg.
  destruct (decide (sid ∈ expired moment st)) as [Hin|Hin].
  - apply Hg in Hin as (s & -> & ->). done.
  - destruct (dget sid (open_sessions st)) as [s|]; [|done].
    destruct (fle (expires_at s) moment) eqn:E; [|done]. exfalso. apply Hin, Hg. by exists s.
Qed.

Lemma sub_keys moment st sid : sid ∈ expired moment st → sid ∈ dkeys st.(open_sessions).
Proof.
  unfold expired, dkeys. intros (e & -> & He)%list_elem_of_fmap. apply list_elem_of_fmap.
  exists e. split; [done|]. apply list_elem_of_In in He. apply filter_In in He as [He _].
  by apply list_elem_of_In.
Qed.

Lemma orphans_clean (f : string → bool) lines :
  Forall (λ sid, contains MARKER sid = false) (List.filter f (list_omap _ _ session_of lines)).
Proof.
  apply Forall_filter_b, Forall_forall. intros sid (line & _ & Hs)%list_elem_of_omap.
  by apply session_of_clean in Hs.
Qed.

(** A sweep nothing interrupts leaves exactly the lines of the owner and of the
    sessions that are open and not expired. *)
Lemma sweep_lines moment st : inv st →
  let st' := (sweep moment st).2 in
  read st'.(keys)
  = List.filter (λ line, match session_of line with
                         | Some sid => live moment st sid
                         | None => true
                         end) (read st.(keys))
  ∧ ∀ sid, sid ∈ dkeys st'.(open_sessions) ↔ live moment st sid = true.
Proof.
  intros H. cbn zeta. destruct (sweep_parts moment st) as (-> & -> & _). split.
  2: { intros sid. by apply kept_live. }
  set (kept := foldl _ _ _). rewrite (without_all_filter (expired moment st)).
  set (lines := List.filter _ (read (keys st))). rewrite without_all_filter. unfold lines at 2.
  rewrite filter_twice. apply filter_ext_in. intros line Hline%list_elem_of_In.
  assert (Ht : tidy line = true) by (by apply (proj1 (Forall_forall _ _) (inv_tidy _ H))).
  assert (Hgone : existsb (λ sid, marked sid line) (expired moment st)
    = match session_of line with Some s => bool_decide (s ∈ expired moment st) | None => false end).
  { apply marked_by; [done|]. apply Forall_forall. intros sid Hsid.
    apply (proj1 (Forall_forall _ _) (inv_ids _ H)), (sub_keys moment st), Hsid. }
  rewrite Hgone, (marked_by line) by (done || apply orphans_clean).
  destruct (session_of line) as [sid|] eqn:Hs; [|done].
  pose proof (kept_live moment st sid H) as Hk. fold kept in Hk.
  destruct (bool_decide (sid ∈ expired moment st)) eqn:Hg; boolify; cbn [negb andb].
  - apply (dget_gone moment st sid H) in Hg as (s & Hd & Hf). unfold live. by rewrite Hd, Hf.
  - match goal with |- negb (bool_decide ?P) = _ => assert (P ↔ sid ∉ dkeys kept) as Ho end.
    { rewrite list_elem_of_In, filter_In, negb_true_iff, bool_decide_eq_false, <- list_elem_of_In.
      split; [naive_solver|]. intros Hn. split; [|done].
      apply list_elem_of_omap. exists line. split; [|done].
      apply list_elem_of_In, filter_In. split; [by apply list_elem_of_In|]. by rewrite Hgone. }
    case_bool_decide as Hn; destruct (live moment st sid); naive_solver.
Qed.

(** ** A run *)

Definition sample_machine : Machine :=
  MkMachine "1.0" "host" "m" "b" ([], "570", "12.8") (λ _, "") (λ _, [])
    (Some ("ssh-ed25519 AAAA root" +:+ nls)) "rig" 2200 "python3" "/tmp" "40000-40100".
Definition sample_request : SessionOpen.t :=
  SessionOpen.Mk "ssh-ed25519 BBBB" (String.concat "" (repeat "ab" 32)) "00".
Definition sample_file : option string :=
  write ["ssh-ed25519 OOOO owner"; "ssh-ed25519 XXXX mt-session:ff"].
Definition sample_grants : t := init None NONCE_TTL_SECONDS sample_file.
Definition sample_moments : Moments := MkMoments f0 f0 f0.
#[local] Abbreviation sample_open :=
  (open (λ _ _ _, true) (λ _, "") sample_machine sample_request ["5H"] None sample_moments
     sample_grants).2.

(** The run: the key of the session stays, the stray session line goes. *)
Example sweep_run :
  read (sweep (fz 10) sample_open).2.(keys)
  = ["ssh-ed25519 OOOO owner"; "ssh-ed25519 BBBB mt-session:abababababababab"]
  ∧ read (sweep (fz 600) sample_open).2.(keys) = ["ssh-ed25519 OOOO owner"].
Proof. split; vm_compute; reflexivity. Qed.

(** The book handed over is not the one used: an empty book counts as absent. *)
Example given_book_replaced ttl :
  Nonce.ttl (nonces (init (Some (new_book ttl)) NONCE_TTL_SECONDS None)) = NONCE_TTL_SECONDS.
Proof. reflexivity. Qed.
