(* ===== verification/GrantThreads.v ===== *)
(** * The session grants among threads (agent/access/grants.py)

    The routes and the sweep of the agent run the grants on worker threads.  Only
    a section under a lock is one step: the nonce book, the dict of the open
    sessions and each operation on authorized_keys has a lock of its own, and
    between two of them any other thread may move.  A thread is the stage it is at;
    [advance] makes its next step on the shared state, and a run interleaves the
    threads, started at any moment, in any order.  The functions of [Grants] are
    what a thread does when nothing comes in between ([open_alone], [close_alone],
    [sweep_alone], [revoke_all_alone]). *)

From Stdlib Require Import Ascii String QArith.
From S2P Require Import Prelude.
From S2P Require Import PyStr.
From S2P Require Import PyText.
From S2P Require Import PyRe.
From S2P Require Import PyRound.
From S2P Require Import PyFloat.
From S2P Require Import PyJson.
From S2P Require Import Sha256.
From S2P Require Import SessionProto.
From S2P Require Import Attest.
From S2P Require Import Auth.
From S2P Require Import Nonce.
From S2P Require Import SshKeys.
From S2P Require Import Grants.
Local Open Scope string_scope.
Local Open Scope list_scope.

(** What a thread is about to do next, with the local variables it still needs. *)
Inductive stage : Type :=
  | Open_start (request : SessionOpen.t) (hotkeys : list string) (fault : option string) (m : Moments)
  | Open_install (request : SessionOpen.t) (key validator : string) (fault : option string)
      (m : Moments)
  | Open_register (request : SessionOpen.t) (key validator : string) (m : Moments)
  | Open_event (fields : dict) (grant : SessionGrant.t)
  | Opened (o : opened)
  | Close_start (request : SessionClose.t) (validator : string)
  | Close_next (validator : string) (sids : list string) (revoked : Z)
  | Close_pop (validator sid : string) (sids : list string) (revoked : Z)
  | Close_event (validator sid : string) (sids : list string) (revoked : Z)
  | Sweep_start (moment : pyfloat)
  | Sweep_expired (moment : pyfloat) (known sids : list string) (revoked : Z)
  | Sweep_expire_event (moment : pyfloat) (known : list string) (sid : string) (sids : list string)
      (revoked : Z)
  | Sweep_orphans (moment : pyfloat) (known sids : list string) (revoked : Z)
  | Sweep_orphan_event (moment : pyfloat) (known : list string) (sid : string) (sids : list string)
      (revoked : Z)
  | Revoke_start
  | Revoke_file
  | Revoke_event (removed : Z)
  | Counted (n : Z).

(** Where a thread begins. *)
Definition begins (s : stage) : bool :=
  match s with Open_start _ _ _ _ | Close_start _ _ | Sweep_start _ | Revoke_start => true | _ => false end.

Definition session_of_request (request : SessionOpen.t) : string :=
  stake 16 (SessionOpen.nonce request).

Definition bump (gone : bool) (revoked : Z) : Z := if gone then (revoked + 1)%Z else revoked.

Section Threads.
Variable keypair_verify : string → string → list Z → bool.
Variable iso : pyfloat → string.
Variable machine : Machine.

(** ** [open] *)

(** The checks, and [self.nonces.accept] under the book's lock. *)
Definition open_start (request : SessionOpen.t) (hotkeys : list string) (fault : option string)
    (m : Moments) (st : t) : stage * t :=
  match SessionOpen.problems request with
  | p :: ps => (Opened (GrantError 422 (join "; " (p :: ps))), st)
  | [] =>
  match canonical (SessionOpen.public_key request) with
  | None => (Opened (GrantError 422 "public_key is not an accepted OpenSSH key"), st)
  | Some key =>
  let validator := signer keypair_verify hotkeys (SessionOpen.blob request)
                     (SessionOpen.signature request) in
  if String.eqb validator "" then
    (Opened (GrantError 403 "signature does not verify against any active validator hotkey"), st)
  else
  let '(fresh, book) := accept (SessionOpen.nonce request) m.(at_nonce) st.(nonces) in
  if negb fresh then (Opened (GrantError 403 "nonce already used or malformed"), set_nonces book st)
  else (Open_install request key validator fault m, set_nonces book st)
  end end.

(** [ssh_keys.grant], under the lock of the file. *)
Definition open_install (request : SessionOpen.t) (key validator : string) (fault : option string)
    (m : Moments) (st : t) : stage * t :=
  match grant fault key (session_of_request request) st.(keys) with
  | Raise (OSError text) => (Opened (GrantError 500 ("could not install the key: " +:+ text)), st)
  | Raise ValueError =>
      (Opened (GrantError 500
         "could not install the key: public key is not an accepted OpenSSH key"), st)
  | Raise e => (Opened (Failed e), st)
  | Ok (_, file) => (Open_register request key validator m, set_keys file st)
  end.

(** The attestation reads the machine only; then the session is registered, under
    the lock of the dict. *)
Definition open_register (request : SessionOpen.t) (key validator : string) (m : Moments) (st : t)
    : stage * t :=
  let sid := session_of_request request in
  let host_key := host_key_line machine.(host_key_file) in
  match build machine (SessionOpen.nonce request) host_key m.(at_build) with
  | Raise e => (Opened (Failed e), st)
  | Ok None =>
      (Opened (GrantError 422 "nonce must be 32 bytes as 64 lowercase hex characters"),
       set_keys (revoke sid st.(keys)).2 st)
  | Ok (Some evidence) =>
      let expires := fadd m.(at_open) (rnd (inject_Z st.(session_ttl))) in
      let session := MkSession sid key validator (SessionOpen.nonce request) m.(at_open) expires in
      (Open_event
         [("session", JStr sid); ("validator", JStr validator);
          ("nonce", JStr (stake 16 (SessionOpen.nonce request)));
          ("expires_at", JStr (iso expires));
          ("tdx", JBool (negb (String.eqb (Attestation.tdx_quote evidence) "")))]
         (SessionGrant.Mk machine.(ssh_user) machine.(ssh_port) host_key
            machine.(python_path) machine.(root_dir) machine.(port_range) validator
            (iso expires) (Attestation.payload evidence) (Attestation.tdx_quote evidence) sid),
       set_open (dset sid session st.(open_sessions)) st)
  end.

(** ** [sweep] *)

(** The sessions whose time is up leave the dict, the others are known. *)
Definition sweep_start (moment : pyfloat) (st : t) : stage * t :=
  let gone := expired moment st in
  let st := set_open (foldl (λ d sid, dpop sid d) st.(open_sessions) gone) st in
  (Sweep_expired moment (dkeys st.(open_sessions)) gone 0, st).

Definition sweep_orphan (moment : pyfloat) (known : list string) (sid : string)
    (sids : list string) (revoked : Z) (st : t) : stage * t :=
  if bool_decide (sid ∈ known) then (Sweep_orphans moment known sids revoked, st)
  else
    let '(gone, file) := revoke sid st.(keys) in
    if gone then (Sweep_orphan_event moment known sid sids (revoked + 1)%Z, set_keys file st)
    else (Sweep_orphans moment known sids revoked, set_keys file st).

(** ** One step of a thread *)
Definition advance (s : stage) (st : t) : stage * t :=
  match s with
  | Open_start request hotkeys fault m => open_start request hotkeys fault m st
  | Open_install request key validator fault m => open_install request key validator fault m st
  | Open_register request key validator m => open_register request key validator m st
  | Open_event fields g => (Opened (Granted g), write_event "session.open" fields st)
  | Close_start request validator => (Close_next validator (matching request st) 0, st)
  | Close_next validator [] revoked => (Counted revoked, st)
  | Close_next validator (sid :: sids) revoked =>
      let '(gone, file) := revoke sid st.(keys) in
      (Close_pop validator sid sids (bump gone revoked), set_keys file st)
  | Close_pop validator sid sids revoked =>
      (Close_event validator sid sids revoked, set_open (dpop sid st.(open_sessions)) st)
  | Close_event validator sid sids revoked =>
      (Close_next validator sids revoked,
       write_event "session.close" [("session", JStr sid); ("validator", JStr validator)] st)
  | Sweep_start moment => sweep_start moment st
  | Sweep_expired moment known [] revoked =>
      (Sweep_orphans moment known (active_sessions st.(keys)) revoked, st)
  | Sweep_expired moment known (sid :: sids) revoked =>
      let '(gone, file) := revoke sid st.(keys) in
      (Sweep_expire_event moment known sid sids (bump gone revoked), set_keys file st)
  | Sweep_expire_event moment known sid sids revoked =>
      (Sweep_expired moment known sids revoked,
       write_event "session.expire" [("session", JStr sid)] st)
  | Sweep_orphans moment known [] revoked =>
      (Counted revoked, set_nonces (expire moment st.(nonces)).2 st)
  | Sweep_orphans moment known (sid :: sids) revoked =>
      sweep_orphan moment known sid sids revoked st
  | Sweep_orphan_event moment known sid sids revoked =>
      (Sweep_orphans moment known sids revoked,
       write_event "session.orphan_revoked" [("session", JStr sid)] st)
  | Revoke_start => (Revoke_file, set_open [] st)
  | Revoke_file =>
      let '(removed, file) := revoke_all_sessions st.(keys) in
      (if (removed =? 0)%Z then Counted removed else Revoke_event removed, set_keys file st)
  | Revoke_event removed =>
      (Counted removed, write_event "session.revoke_all" [("removed", JInt removed)] st)
  | Opened _ | Counted _ => (s, st)
  end.

(** The steps a thread makes on its own. *)
Definition alone (n : nat) (s : stage) (st : t) : stage * t :=
  Nat.iter n (λ x, advance x.1 x.2) (s, st).

(** ** The threads together *)

Record config : Type := MkConfig { shared : t; threads : list stage }.

Definition move (i : nat) (s : stage) (c : config) : config :=
  let '(s', st) := advance s c.(shared) in MkConfig st (<[i := s']> c.(threads)).

(** A run, with the stages the threads went through in their order. *)
Inductive run : config → list (nat * stage) → config → Prop :=
  | run_nil c : run c [] c
  | run_spawn c s tr c' : begins s = true →
      run (MkConfig c.(shared) (c.(threads) ++ [s])) tr c' → run c tr c'
  | run_move c i s tr c' : c.(threads) !! i = Some s →
      run (move i s c) tr c' → run c ((i, s) :: tr) c'.

(** ** A thread nothing interrupts *)

Lemma alone_S n s st : alone (S n) s st = let '(s', st') := advance s st in alone n s' st'.
Proof.
  unfold alone. rewrite Nat.iter_succ_r. cbn [fst snd]. by destruct (advance s st).
Qed.

Lemma alone_trans n1 n2 s st : alone (n1 + n2) s st = let '(s', st') := alone n1 s st in alone n2 s' st'.
Proof.
  revert s st. induction n1 as [|n1 IH]; intros s st; [done|]. cbn [Nat.add].
  rewrite !alone_S. destruct (advance s st) as [s' st']. apply IH.
Qed.

Lemma open_alone request hotkeys fault m st : ∃ n,
  let '(o, st') := open keypair_verify iso machine request hotkeys fault m st in
  alone n (Open_start request hotkeys fault m) st = (Opened o, st').
Proof.
  unfold open.
  destruct (SessionOpen.problems request) as [|p ps] eqn:Hp; [|exists 1%nat; cbn; unfold open_start; by rewrite Hp].
  destruct (canonical (SessionOpen.public_key request)) as [key|] eqn:Hk;
    [|exists 1%nat; cbn; unfold open_start; by rewrite Hp, Hk].
  destruct (String.eqb _ "") eqn:Hv; [exists 1%nat; cbn; unfold open_start; by rewrite Hp, Hk, Hv|].
  destruct (accept _ _ _) as [fresh book] eqn:Ha.
  destruct fresh; cbn [negb]; [|exists 1%nat; cbn; unfold open_start; by rewrite Hp, Hk, Hv, Ha].
  assert (Hs : advance (Open_start request hotkeys fault m) st
    = (Open_install request key (signer keypair_verify hotkeys (SessionOpen.blob request)
         (SessionOpen.signature request)) fault m, set_nonces book st)).
  { cbn [advance]. unfold open_start. by rewrite Hp, Hk, Hv, Ha. }
  destruct (grant fault key _ _) as [[line file]|e] eqn:Hg.
  2: { exists 2%nat. rewrite alone_S, Hs, alone_S. cbn [advance]. unfold open_install.
       unfold session_of_request. rewrite Hg. by destruct e. }
  destruct (build machine _ _ _) as [[a|]|e] eqn:Hb.
  - exists 4%nat. rewrite alone_S, Hs, alone_S. cbn [advance]. unfold open_install.
    unfold session_of_request. rewrite Hg, alone_S. cbn [advance]. unfold open_register. rewrite Hb.
    reflexivity.
  - exists 3%nat. rewrite alone_S, Hs, alone_S. cbn [advance]. unfold open_install.
    unfold session_of_request. rewrite Hg, alone_S. cbn [advance]. unfold open_register. rewrite Hb.
    reflexivity.
  - exists 3%nat. rewrite alone_S, Hs, alone_S. cbn [advance]. unfold open_install.
    unfold session_of_request. rewrite Hg, alone_S. cbn [advance]. unfold open_register. rewrite Hb.
    reflexivity.
Qed.

Lemma close_next_alone validator sids revoked st : ∃ n,
  let '(r, st') := close_each validator sids revoked st in
  alone n (Close_next validator sids revoked) st = (Counted r, st').
Proof.
  revert revoked st. induction sids as [|sid sids IH]; intros revoked st; [by exists 1%nat|].
  cbn [close_each]. destruct (revoke sid (keys st)) as [gone file] eqn:E.
  match goal with |- context [close_each _ _ ?r ?s] => destruct (IH r s) as [n Hn] end.
  exists (S (S (S n))). do 3 (rewrite alone_S; cbn [advance]; rewrite ?E). exact Hn.
Qed.

Lemma close_alone request validator st : ∃ n,
  let '(r, st') := close request validator st in
  alone n (Close_start request validator) st = (Counted r, st').
Proof.
  destruct (close_next_alone validator (matching request st) 0 st) as [n Hn]. exists (S n).
  by rewrite alone_S.
Qed.

Lemma expired_alone moment known sids revoked st : ∃ n,
  let '(r, st') := expire_each sids revoked st in
  alone n (Sweep_expired moment known sids revoked) st
  = (Sweep_orphans moment known (active_sessions st'.(keys)) r, st').
Proof.
  revert revoked st. induction sids as [|sid sids IH]; intros revoked st; [by exists 1%nat|].
  cbn [expire_each]. destruct (revoke sid (keys st)) as [gone file] eqn:E.
  match goal with |- context [expire_each _ ?r ?s] => destruct (IH r s) as [n Hn] end.
  exists (S (S n)). do 2 (rewrite alone_S; cbn [advance]; rewrite ?E). exact Hn.
Qed.

Lemma orphans_alone moment known sids revoked st : ∃ n,
  let '(r, st') := orphan_each known sids revoked st in
  alone n (Sweep_orphans moment known sids revoked) st
  = (Counted r, set_nonces (expire moment st'.(nonces)).2 st').
Proof.
  revert revoked st. induction sids as [|sid sids IH]; intros revoked st; [by exists 1%nat|].
  cbn [orphan_each]. destruct (bool_decide (sid ∈ known)) eqn:Ek.
  { destruct (IH revoked st) as [n Hn]. exists (S n). rewrite alone_S. cbn [advance].
    unfold sweep_orphan. by rewrite Ek. }
  destruct (revoke sid (keys st)) as [gone file] eqn:E.
  destruct gone;
    (match goal with |- context [orphan_each _ _ ?r ?s] => destruct (IH r s) as [n Hn] end).
  - exists (S (S n)). rewrite alone_S. cbn [advance]. unfold sweep_orphan.
    rewrite Ek, E, alone_S. exact Hn.
  - exists (S n). rewrite alone_S. cbn [advance]. unfold sweep_orphan. rewrite Ek, E. exact Hn.
Qed.

Lemma sweep_alone moment st : ∃ n,
  let '(r, st') := sweep moment st in alone n (Sweep_start moment) st = (Counted r, st').
Proof.
  unfold sweep. cbn zeta. set (st1 := set_open _ st).
  destruct (expired_alone moment (dkeys st1.(open_sessions)) (expired moment st) 0 st1) as [n1 H1].
  destruct (expire_each _ _ _) as [r1 st2].
  destruct (orphans_alone moment (dkeys st1.(open_sessions)) (active_sessions st2.(keys)) r1 st2)
    as [n2 H2].
  destruct (orphan_each _ _ _ _) as [r2 st3].
  exists (S (n1 + n2)). rewrite alone_S. cbn [advance]. unfold sweep_start. rewrite alone_trans.
  fold st1. by rewrite H1.
Qed.

Lemma revoke_all_alone st : ∃ n,
  let '(r, st') := revoke_all st in alone n Revoke_start st = (Counted r, st').
Proof.
  unfold revoke_all. cbn [keys set_open].
  destruct (revoke_all_sessions (keys st)) as [removed file] eqn:E.
  destruct (removed =? 0)%Z eqn:E0; [exists 2%nat|exists 3%nat];
    rewrite alone_S; cbn [advance]; rewrite alone_S; cbn [advance keys set_open];
    rewrite E, E0; reflexivity.
Qed.
End Threads.

(** ** What a step does to authorized_keys *)

(** The session whose lines a step takes out. *)
Definition target (s : stage) : option string :=
  match s with
  | Close_next _ (sid :: _) _ | Sweep_expired _ _ (sid :: _) _ => Some sid
  | Sweep_orphans _ known (sid :: _) _ => if bool_decide (sid ∈ known) then None else Some sid
  | _ => None
  end.

(** A step that may change the lines of a session: it installs that session's key,
    revokes every session, or revokes an id that is that session's or no plain id. *)
Definition touches (s : stage) (sid : string) : bool :=
  match s with
  | Open_install request _ _ _ _ => String.eqb (session_of_request request) sid
  | Revoke_file => true
  | _ => match target s with Some x => String.eqb x sid || contains MARKER x | None => false end
  end.

(** The lines of a session. *)
Definition lines_of (sid : string) (lines : list string) : list string :=
  List.filter (λ line, bool_decide (session_of line = Some sid)) lines.

Definition stage_ok (s : stage) : Prop :=
  match s with
  | Open_install request key _ _ _ | Open_register request key _ _ =>
      well_formed_nonce (SessionOpen.nonce request) = true
      ∧ canonical (SessionOpen.public_key request) = Some key
  | _ => True
  end.

Section Facts.
Variable kv : string → string → list Z → bool.
Variable iso : pyfloat → string.
Variable machine : Machine.
#[local] Abbreviation advance := (advance kv iso machine).

Lemma problems_nonce request :
  SessionOpen.problems request = [] → well_formed_nonce (SessionOpen.nonce request) = true.
Proof. unfold SessionOpen.problems. destruct (well_formed_nonce _); [done|]. by destruct (negb _). Qed.

(** What [open_install] leaves in the file. *)
Lemma install_keys request key v fault m st s' st' :
  stage_ok (Open_install request key v fault m) →
  open_install request key v fault m st = (s', st') →
  st' = st ∨ (∃ file, st' = set_keys file st ∧ with_session request key (read st.(keys)) (read file)
              ∧ s' = Open_register request key v m).
Proof.
  intros [Hn Hk] E. unfold open_install in E. destruct (well_formed_parts _ Hn) as [_ Hid].
  destruct (grant fault key _ _) as [[line file]|e] eqn:Hg.
  - injection E as <- <-. right. exists file. split_and!; [done| |done].
    split_and!; [done..|]. assert (fault = None) as ->.
    { unfold grant in Hg. destruct (canonical key); [|done]. by destruct fault. }
    exact (grant_read _ _ _ _ _ _ Hk Hid Hg).
  - left. destruct e; by injection E as <- <-.
Qed.

(** What [open_register] does: it registers, or an exception ends it. *)
Lemma register_shared request key v m st s' st' :
  stage_ok (Open_register request key v m) →
  open_register iso machine request key v m st = (s', st') →
  stage_ok s' ∧
  (st' = st ∨ ∃ session,
     st' = set_open (dset (session_of_request request) session st.(open_sessions)) st).
Proof.
  intros [Hn Hk] E. unfold open_register in E. destruct (build _ _ _ _) as [[a|]|e] eqn:Hb.
  - injection E as <- <-. split; [done|]. right. by eexists.
  - by destruct (build_total _ _ _ _ Hn Hb).
  - injection E as <- <-. split; [done|]. by left.
Qed.

Lemma start_shared request hotkeys fault m st s' st' :
  open_start kv request hotkeys fault m st = (s', st') →
  stage_ok s' ∧
  (st' = st ∨ st' = set_nonces (accept (SessionOpen.nonce request) m.(at_nonce) st.(nonces)).2 st).
Proof.
  unfold open_start. destruct (SessionOpen.problems request) as [|p ps] eqn:Hp.
  2: { intros [= <- <-]. split; [done|by left]. }
  destruct (canonical _) as [key|] eqn:Hk; [|intros [= <- <-]; split; [done|by left]].
  destruct (String.eqb _ ""); [intros [= <- <-]; split; [done|by left]|].
  destruct (accept _ _ _) as [fresh book].
  destruct fresh; intros [= <- <-]; (split; [|by right]); [|done].
  split; [by apply problems_nonce|done].
Qed.

(** Every step of a thread on the file: nothing, the lines of its target, the
    line of the session it installs, or every session's line. *)
Lemma advance_keys s st : stage_ok s →
  let lines := read st.(keys) in
  let lines' := read (advance s st).2.(keys) in
  (target s = None ∧ lines' = lines)
  ∨ (∃ x, target s = Some x ∧ lines' = without x lines)
  ∨ (∃ request key v fault m, s = Open_install request key v fault m
       ∧ with_session request key lines lines')
  ∨ (s = Revoke_file ∧ lines' = List.filter (λ line, negb (contains MARKER line)) lines).
Proof.
  intros Hok. cbn zeta. destruct s; cbn [GrantThreads.advance]; try (by left).
  - destruct (open_start _ _ _ _ _ _) as [s' st'] eqn:E.
    apply start_shared in E as [_ [->| ->]]; by left.
  - destruct (open_install _ _ _ _ _ _) as [s' st'] eqn:E.
    apply install_keys in E as [->|(file & -> & Hw & _)]; [by left| |done].
    right; right; left. by exists request, key, validator, fault, m.
  - destruct (open_register _ _ _ _ _ _ _) as [s' st'] eqn:E.
    apply register_shared in E as [_ [->|[? ->]]]; [by left..|done].
  - destruct sids as [|sid sids]; [by left|]. right; left. exists sid. split; [done|].
    pose proof (revoke_read sid st.(keys)) as Hr. by destruct (revoke sid _).
  - destruct sids as [|sid sids]; [by left|]. right; left. exists sid. split; [done|].
    pose proof (revoke_read sid st.(keys)) as Hr. by destruct (revoke sid _).
  - destruct sids as [|sid sids]; [by left|]. unfold sweep_orphan. cbn [target].
    destruct (bool_decide (sid ∈ known)) eqn:Hk; [by left|]. right; left. exists sid. split; [done|].
    pose proof (revoke_read sid st.(keys)) as Hr. by destruct (revoke sid _) as [[] file].
  - right; right; right. split; [done|].
    pose proof (revoke_all_read st.(keys)) as Hr. by destruct (revoke_all_sessions _).
Qed.
Lemma advance_owner s st : stage_ok s → owner_lines (advance s st).2 = owner_lines st.
Proof.
  intros Hok. unfold owner_lines.
  destruct (advance_keys s st Hok) as [[_ ->]|[(x & _ & ->)|[(r & key & v & f & m & _ & Hw)|[_ ->]]]].
  - done.
  - apply owner_without.
  - exact (with_session_owner _ _ _ _ Hw).
  - rewrite filter_twice. apply filter_ext. intros l. by destruct (contains MARKER l).
Qed.

Lemma advance_tidy s st : stage_ok s →
  Forall (λ line, tidy line = true) (read st.(keys)) →
  Forall (λ line, tidy line = true) (read (advance s st).2.(keys)).
Proof.
  intros Hok Ht.
  destruct (advance_keys s st Hok) as [[_ ->]|[(x & _ & ->)|[(r & key & v & f & m & _ & Hw)|[_ ->]]]].
  - done.
  - by apply Forall_filter_b.
  - exact (with_session_tidy _ _ _ _ Hw Ht).
  - by apply Forall_filter_b.
Qed.

(** The rest of the shared state: the book and the dict of sessions. *)
Lemma advance_rest s st : stage_ok s →
  let st' := (advance s st).2 in
  (st'.(nonces) = st.(nonces) ∨ (∃ n m, st'.(nonces) = (accept n m st.(nonces)).2)
   ∨ ∃ m, st'.(nonces) = (expire m st.(nonces)).2)
  ∧ (st'.(open_sessions) = st.(open_sessions)
     ∨ (∃ l, st'.(open_sessions) = foldl (λ d sid, dpop sid d) st.(open_sessions) l)
     ∨ st'.(open_sessions) = []
     ∨ ∃ request session, well_formed_nonce (SessionOpen.nonce request) = true ∧
         st'.(open_sessions) = dset (session_of_request request) session st.(open_sessions)).
Proof.
  intros Hok. cbn zeta. destruct s; cbn [GrantThreads.advance]; try (by split; left).
  - destruct (open_start _ _ _ _ _ _) as [s' st'] eqn:E.
    apply start_shared in E as [_ [->| ->]]; (split; [|by left]); [by left|]. right; left. by do 2 eexists.
  - destruct (open_install _ _ _ _ _ _) as [s' st'] eqn:E.
    apply install_keys in E as [->|(file & -> & _)]; [by split; left..|done].
  - destruct (open_register _ _ _ _ _ _ _) as [s' st'] eqn:E.
    apply register_shared in E as [_ [->|[se ->]]]; [by split; left| |done].
    split; [by left|]. right; right; right. exists request, se. split; [apply Hok|done].
  - destruct sids as [|sid sids]; [by split; left|]. destruct (revoke sid _). by split; left.
  - split; [by left|]. right; left. by exists [sid].
  - split; [by left|]. right; left. by exists (expired moment st).
  - destruct sids as [|sid sids]; [by split; left|]. destruct (revoke sid _). by split; left.
  - destruct sids as [|sid sids]; [split; [right; right; by eexists|by left]|].
    unfold sweep_orphan. case_bool_decide; [by split; left|]. destruct (revoke sid _) as [[] file]; by split; left.
  - split; [by left|]. by right; right; left.
Qed.

Lemma advance_inv s st : stage_ok s → inv st → inv (advance s st).2.
Proof.
  intros Hok [Hb Hd Hi Ht]. destruct (advance_rest s st Hok) as [Hn Ho]. split.
  - destruct Hn as [->|[(n & m & ->)|(m & ->)]]; [done|by apply accept_ok|by apply expire_ok].
  - destruct Ho as [->|[(l & ->)|[->|(r & se & _ & ->)]]];
      [done|by apply pop_all_keys|apply NoDup_nil_2|by apply NoDup_dset].
  - destruct Ho as [->|[(l & ->)|[->|(r & se & Hr & ->)]]];
      [done|by apply pop_all_sub|constructor|].
    rewrite dkeys_dset. destruct (dmem _ _); [done|]. apply Forall_app. split; [done|].
    constructor; [|constructor]. apply plain_id_spec. by destruct (well_formed_parts _ Hr).
  - by apply advance_tidy.
Qed.

Lemma advance_ok s st : stage_ok s → stage_ok (advance s st).1.
Proof.
  intros Hok. destruct s; cbn [GrantThreads.advance]; try done.
  - destruct (open_start _ _ _ _ _ _) as [s' st'] eqn:E. by apply start_shared in E as [? _].
  - unfold open_install. destruct (grant _ _ _ _) as [[]|e]; [done|]. by destruct e.
  - destruct (open_register _ _ _ _ _ _ _) as [s' st'] eqn:E.
    by apply register_shared in E as [? _].
  - destruct sids as [|sid sids]; [done|]. by destruct (revoke sid _).
  - destruct sids as [|sid sids]; [done|]. by destruct (revoke sid _).
  - destruct sids as [|sid sids]; [done|]. unfold sweep_orphan. case_bool_decide; [done|].
    by destruct (revoke sid _) as [[] file].
  - destruct (revoke_all_sessions _) as [n file]. by destruct (n =? 0)%Z.
Qed.

(** ** The lines of one session *)

Lemma without_other x sid lines :
  Forall (λ line, tidy line = true) lines → contains MARKER x = false → x ≠ sid →
  lines_of sid (without x lines) = lines_of sid lines.
Proof.
  intros Ht Hx Hne. unfold lines_of, without. rewrite filter_twice.
  apply filter_ext_in. intros line Hl%list_elem_of_In. rewrite Forall_forall in Ht.
  rewrite (tidy_marked line x (Ht _ Hl) Hx). repeat case_bool_decide; naive_solver.
Qed.

Lemma with_session_other request key sid lines lines' :
  Forall (λ line, tidy line = true) lines →
  with_session request key lines lines' → session_of_request request ≠ sid →
  lines_of sid lines' = lines_of sid lines.
Proof.
  intros Ht (Hid & Hk & ->) Hne. unfold lines_of at 1. rewrite List.filter_app.
  cbn [List.filter]. destruct (granted_line _ key _ Hk Hid) as (_ & -> & _).
  rewrite bool_decide_eq_false_2 by (by intros [= ?]). rewrite app_nil_r.
  apply without_other; [done| |done]. by apply plain_id_spec.
Qed.

(** A step that does not touch a session leaves its lines. *)
Lemma advance_lines_of s st sid : stage_ok s →
  Forall (λ line, tidy line = true) (read st.(keys)) → touches s sid = false →
  lines_of sid (read (advance s st).2.(keys)) = lines_of sid (read st.(keys)).
Proof.
  intros Hok Ht Hn.
  destruct (advance_keys s st Hok) as [[_ ->]|[(x & Hx & ->)|[(r & key & v & f & m & -> & Hw)|[-> ->]]]].
  - done.
  - assert (String.eqb x sid || contains MARKER x = false) as [Hne Hc]%orb_false_iff.
    { rewrite <- Hn. unfold touches. rewrite Hx. by destruct s. }
    apply without_other; [done|done|]. by apply String.eqb_neq.
  - apply (with_session_other r key); [done..|]. by apply String.eqb_neq.
  - done.
Qed.

(** A line of a session is one that was there, or the one the step installs. *)
Lemma advance_sub s st line sid : stage_ok s →
  line ∈ read (advance s st).2.(keys) → session_of line = Some sid →
  (line ∈ read st.(keys) ∧ ∀ x, target s = Some x → marked x line = false)
  ∨ ∃ request key v fault m, s = Open_install request key v fault m ∧ session_of_request request = sid.
Proof.
  intros Hok Hl Hs.
  destruct (advance_keys s st Hok) as [[Hx E]|[(x & Hx & E)|[(r & key & v & f & m & -> & Hw)|[-> E]]]].
  - left. rewrite E in Hl. split; [done|]. intros x. by rewrite Hx.
  - left. rewrite E in Hl. apply list_elem_of_In, filter_In in Hl as [Hl%list_elem_of_In Hm].
    split; [done|]. intros y. rewrite Hx. intros [= <-]. by destruct (marked x line).
  - destruct Hw as (Hid & Hk & E). rewrite E in Hl. apply elem_of_app in Hl as [Hl|Hl].
    + left. apply list_elem_of_In, filter_In in Hl as [Hl%list_elem_of_In _]. by split.
    + right. apply list_elem_of_singleton in Hl as ->.
      destruct (granted_line _ key _ Hk Hid) as (_ & Hso & _).
      exists r, key, v, f, m. split; [done|]. apply (inj Some). rewrite <- Hs. symmetry. exact Hso.
  - left. rewrite E in Hl. apply list_elem_of_In, filter_In in Hl as [Hl%list_elem_of_In _]. by split.
Qed.

(** ** A sweep among the other threads *)

(** The stages of a sweep that has taken its snapshot: what it still means to
    revoke is never a session it knows. *)
Definition sweeping (known : list string) (s : stage) : Prop :=
  match s with
  | Sweep_expired _ k gone _ | Sweep_expire_event _ k _ gone _ =>
      k = known ∧ Forall (λ sid, contains MARKER sid = false ∧ sid ∉ known) gone
  | Sweep_orphans _ k ids _ | Sweep_orphan_event _ k _ ids _ =>
      k = known ∧ Forall (λ sid, contains MARKER sid = false) ids
  | Counted _ => True
  | _ => False
  end.

(** What the sweep has yet to do about the lines of the file: each belongs to a
    session it knows, to one it is going to revoke or to one installed meanwhile. *)
Definition cleared (known : list string) (installed : string → Prop) (s : stage)
    (lines : list string) : Prop :=
  match s with
  | Sweep_orphans _ _ ids _ | Sweep_orphan_event _ _ _ ids _ =>
      ∀ line sid, line ∈ lines → session_of line = Some sid →
      sid ∈ known ∨ sid ∈ ids ∨ installed sid
  | Counted _ =>
      ∀ line sid, line ∈ lines → session_of line = Some sid → sid ∈ known ∨ installed sid
  | _ => True
  end.

Lemma orphans_read st :
  Forall (λ sid, contains MARKER sid = false) (active_sessions st.(keys)).
Proof.
  apply Forall_forall. intros sid (line & _ & Hs)%list_elem_of_omap. by apply session_of_clean in Hs.
Qed.

Lemma sweeping_step known s st : sweeping known s → sweeping known (advance s st).1.
Proof.
  destruct s; try done; cbn [GrantThreads.advance sweeping].
  - intros [-> H]. destruct sids as [|sid sids].
    + split; [done|]. apply orphans_read.
    + destruct (revoke sid _). split; [done|]. by apply Forall_cons in H as [_ H].
  - intros [-> H]. destruct sids as [|sid sids]; [done|]. apply Forall_cons in H as [_ H].
    unfold sweep_orphan. case_bool_decide; [by split|]. by destruct (revoke sid _) as [[] file].
Qed.

(** The sweep itself never touches a session it knows. *)
Lemma sweeping_spares known s sid : sweeping known s → sid ∈ known → touches s sid = false.
Proof.
  intros Hs Hk. destruct s; try done; cbn [sweeping touches target] in *; destruct sids as [|x sids];
    try done; destruct Hs as [-> H]; apply Forall_cons in H as [H _].
  - destruct H as [-> H]. rewrite orb_false_r. apply String.eqb_neq. naive_solver.
  - case_bool_decide as Hx; [done|]. rewrite H, orb_false_r. apply String.eqb_neq. naive_solver.
Qed.

Lemma cleared_step known (installed : string → Prop) s st :
  stage_ok s → sweeping known s → Forall (λ line, tidy line = true) (read st.(keys)) →
  cleared known installed s (read st.(keys)) →
  cleared known installed (advance s st).1 (read (advance s st).2.(keys)).
Proof.
  intros Hok Hs Ht Hc.
  assert (Hold : ∀ line sid, line ∈ read (advance s st).2.(keys) → session_of line = Some sid →
            line ∈ read st.(keys) ∧ ∀ x, target s = Some x → marked x line = false).
  { intros line sid Hl Hsid. destruct (advance_sub s st line sid Hok Hl Hsid) as [H|H]; [done|].
    destruct H as (r & key & v & f & m & -> & _). by destruct Hs. }
  destruct s; try done; cbn [GrantThreads.advance sweeping cleared target] in *.
  - destruct sids as [|sid sids]; [|by destruct (revoke sid _)]. intros line sid Hl Hsid.
    right; left. apply list_elem_of_omap. by exists line.
  - destruct sids as [|x sids].
    { intros line sid Hl Hsid. destruct (Hc line sid Hl Hsid) as [?|[Hn|?]]; [by left| |by right].
      by apply not_elem_of_nil in Hn. }
    destruct Hs as [-> Hids]. apply Forall_cons in Hids as [Hx Hids].
    assert (Hnext : ∀ line sid, line ∈ read (sweep_orphan moment known x sids revoked st).2.(keys) →
              session_of line = Some sid → sid ∈ known ∨ sid ∈ sids ∨ installed sid).
    { intros line sid Hl Hsid. destruct (Hold line sid Hl Hsid) as [Hin Hm].
      destruct (Hc line sid Hin Hsid) as [?|[Hn|?]]; [by left| |by right; right].
      apply elem_of_cons in Hn as [->|?]; [|by right; left].
      destruct (bool_decide (x ∈ known)) eqn:Hk; [left; by apply bool_decide_eq_true in Hk|].
      specialize (Hm x eq_refl). rewrite Forall_forall in Ht.
      rewrite (tidy_marked line x (Ht _ Hin) Hx), Hsid in Hm. by case_bool_decide. }
    revert Hnext. unfold sweep_orphan. destruct (bool_decide (x ∈ known)); [done|].
    by destruct (revoke x _) as [[] file].
Qed.

(** ** Runs *)

#[local] Abbreviation run := (run kv iso machine).
#[local] Abbreviation move := (move kv iso machine).

Definition config_ok (c : config) : Prop := inv c.(shared) ∧ Forall stage_ok c.(threads).

Lemma move_shared i s c : (move i s c).(shared) = (advance s c.(shared)).2.
Proof. unfold GrantThreads.move. by destruct (advance s _). Qed.

Lemma move_threads i s c : (move i s c).(threads) = <[i := (advance s c.(shared)).1]> c.(threads).
Proof. unfold GrantThreads.move. by destruct (advance s _). Qed.

Lemma thread_ok i s c : config_ok c → c.(threads) !! i = Some s → stage_ok s.
Proof. intros [_ H] Hi. exact (Forall_lookup_1 _ _ _ _ H Hi). Qed.

Lemma config_ok_move i s c : config_ok c → c.(threads) !! i = Some s → config_ok (move i s c).
Proof.
  intros H Hi. pose proof (thread_ok i s c H Hi) as Hs. destruct H as [Hc Ht]. split.
  - rewrite move_shared. by apply advance_inv.
  - rewrite move_threads. apply Forall_insert; [done|]. by apply advance_ok.
Qed.

Lemma config_ok_spawn s c : config_ok c → begins s = true →
  config_ok (MkConfig c.(shared) (c.(threads) ++ [s])).
Proof.
  intros [Hc Ht] Hb. split; [done|]. apply Forall_app. split; [done|].
  constructor; [by destruct s|constructor].
Qed.

Lemma threads_ok c tr c' : run c tr c' → config_ok c → config_ok c'.
Proof. induction 1; eauto using config_ok_spawn, config_ok_move. Qed.

(** However the threads interleave, the lines of the owner stay as they were. *)
Lemma run_owner c tr c' : run c tr c' → config_ok c → owner_lines c'.(shared) = owner_lines c.(shared).
Proof.
  induction 1 as [c|c s tr c' Hb Hr IH|c i s tr c' Hi Hr IH]; intros Hc; [done| |].
  - apply IH. by apply config_ok_spawn.
  - rewrite IH by (by apply config_ok_move). rewrite move_shared. apply advance_owner.
    exact (thread_ok i s c Hc Hi).
Qed.

(** The state of one sweep in a run of all the threads. *)
Lemma run_sweep i known (installed : string → Prop) c tr c' :
  run c tr c' → config_ok c →
  (∀ j request key v fault m, (j, Open_install request key v fault m) ∈ tr →
     installed (session_of_request request)) →
  (∃ s, c.(threads) !! i = Some s ∧ sweeping known s
        ∧ cleared known installed s (read c.(shared).(keys))) →
  (∃ s, c'.(threads) !! i = Some s ∧ sweeping known s
        ∧ cleared known installed s (read c'.(shared).(keys)))
  ∧ ∀ sid, sid ∈ known → (∀ j s, (j, s) ∈ tr → j ≠ i → touches s sid = false) →
      lines_of sid (read c'.(shared).(keys)) = lines_of sid (read c.(shared).(keys)).
Proof.
  induction 1 as [c|c s tr c' Hb Hr IH|c j s tr c' Hj Hr IH]; intros Hc Hin (si & Hi & Hs & Hcl).
  - split; [by exists si|done].
  - apply IH; [by apply config_ok_spawn|done|]. exists si. split_and!; [|done..].
    cbn [threads]. by apply lookup_app_l_Some.
  - pose proof (thread_ok j s c Hc Hj) as Hok.
    destruct (IH (config_ok_move j s c Hc Hj)) as [IH1 IH2].
    { intros k r key v f m H. apply (Hin k r key v f m). by right. }
    { rewrite move_threads, move_shared. destruct (decide (j = i)) as [->|Hne].
      - rewrite Hi in Hj. injection Hj as ->. exists (advance s (shared c)).1.
        split; [by apply list_lookup_insert_eq, (lookup_lt_Some _ _ _ Hi)|].
        split; [by apply sweeping_step|]. apply cleared_step; [done..| |done].
        apply inv_tidy, Hc.
      - exists si. split; [by rewrite list_lookup_insert_ne|]. split; [done|].
        assert (Hsub : ∀ line sid, line ∈ read (advance s (shared c)).2.(keys) →
                  session_of line = Some sid → line ∈ read (shared c).(keys) ∨ installed sid).
        { intros line sid Hl Hsid.
          destruct (advance_sub s _ line sid Hok Hl Hsid) as [[? _]|(r & key & v & f & m & -> & <-)];
            [by left|]. right. apply (Hin j r key v f m). by left. }
        destruct si; try done; cbn [cleared] in *; intros line y Hl Hy;
          destruct (Hsub line y Hl Hy) as [Hl'|?]; eauto. }
    split; [done|]. intros sid Hk Hn. rewrite (IH2 sid Hk) by (intros; eapply Hn; [by right|done]).
    rewrite move_shared. apply advance_lines_of; [done|apply inv_tidy, Hc|].
    destruct (decide (j = i)) as [->|Hne].
    + rewrite Hi in Hj. injection Hj as ->. by apply (sweeping_spares known).
    + apply (Hn j); [by left|done].
Qed.
End Facts.

(** ** The sweep *)

Section Sweep.
Variable kv : string → string → list Z → bool.
Variable iso : pyfloat → string.
Variable machine : Machine.

(** A sweep left to itself gets to its end from any stage. *)
Lemma orphans_end moment known sids revoked st :
  ∃ n r st', alone kv iso machine n (Sweep_orphans moment known sids revoked) st = (Counted r, st').
Proof.
  destruct (orphans_alone kv iso machine moment known sids revoked st) as [n H].
  destruct (orphan_each _ _ _ _) as [r st']. by exists n, r, (set_nonces (expire moment st'.(nonces)).2 st').
Qed.

Lemma expired_end moment known sids revoked st :
  ∃ n r st', alone kv iso machine n (Sweep_expired moment known sids revoked) st = (Counted r, st').
Proof.
  destruct (expired_alone kv iso machine moment known sids revoked st) as [n1 H1].
  destruct (expire_each _ _ _) as [r1 st1].
  destruct (orphans_end moment known (active_sessions st1.(keys)) r1 st1) as (n2 & r & st' & H2).
  exists (n1 + n2)%nat, r, st'. rewrite alone_trans, H1. exact H2.
Qed.

Lemma sweep_end known s st : sweeping known s →
  ∃ n r st', alone kv iso machine n s st = (Counted r, st').
Proof.
  destruct s; try done; intros _.
  - apply expired_end.
  - match goal with |- context [Sweep_expire_event ?m ?k ?x ?l ?r] =>
      destruct (expired_end m k l r (write_event "session.expire" [("session", JStr x)] st))
        as (n & q & st' & H) end.
    exists (S n), q, st'. rewrite alone_S. exact H.
  - apply orphans_end.
  - match goal with |- context [Sweep_orphan_event ?m ?k ?x ?l ?r] =>
      destruct (orphans_end m k l r (write_event "session.orphan_revoked" [("session", JStr x)] st))
        as (n & q & st' & H) end.
    exists (S n), q, st'. rewrite alone_S. exact H.
  - by exists 0%nat, n, st.
Qed.

(** C2. The agent's threads open, close, sweep and revoke sessions at once; a step is
    one section under a lock, and the steps of the threads interleave in every
    order.  From a start whose authorized_keys is tidy (nothing follows a marker
    but the session's id) with no session open, in every state the threads reach,
    the owner's own lines are as they were.  A sweep that starts there and that
    nothing interrupts ends with exactly the owner's lines and those of the sessions
    open and not expired, and only those stay open.  And however other threads move
    while it sweeps: the lines of a session that was open and not expired when the
    sweep took its snapshot change only where a step of another thread names that
    session; when the sweep returns, every session line in the file belongs to such
    a session or was installed after the snapshot; and at every moment the sweep,
    left to itself, does return.  A session being opened is not among those it knows: if its
    key is in the file before the sweep reads it, the sweep takes it out
    ([opening_session_swept]). *)
Theorem sweep_exact st0 c0 tr0 i moment :
  open_sessions st0 = [] → book_ok (nonces st0) →
  Forall (λ line, tidy line = true) (read st0.(keys)) →
  run kv iso machine (MkConfig st0 []) tr0 c0 → c0.(threads) !! i = Some (Sweep_start moment) →
  let st := c0.(shared) in
  owner_lines st = owner_lines st0
  ∧ (∃ n r st', alone kv iso machine n (Sweep_start moment) st = (Counted r, st')
      ∧ read st'.(keys) = List.filter (λ line, match session_of line with
                                              | Some sid => live moment st sid
                                              | None => true
                                              end) (read st.(keys))
      ∧ ∀ sid, sid ∈ dkeys st'.(open_sessions) ↔ live moment st sid = true)
  ∧ ∀ tr c, run kv iso machine (move kv iso machine i (Sweep_start moment) c0) tr c →
      owner_lines c.(shared) = owner_lines st0
      ∧ (∀ sid, live moment st sid = true →
          (∀ j s, (j, s) ∈ tr → j ≠ i → touches s sid = false) →
          lines_of sid (read c.(shared).(keys)) = lines_of sid (read st.(keys)))
      ∧ ∃ s, c.(threads) !! i = Some s
          ∧ (∃ n r st', alone kv iso machine n s c.(shared) = (Counted r, st'))
          ∧ ∀ r, s = Counted r → ∀ line sid, line ∈ read c.(shared).(keys) →
              session_of line = Some sid →
              live moment st sid = true
              ∨ ∃ j request key v fault m, (j, Open_install request key v fault m) ∈ tr
                  ∧ session_of_request request = sid.
Proof.
  intros Ho Hb Ht Hr0 Hi. cbn zeta.
  assert (Hc0 : config_ok c0).
  { apply (threads_ok _ _ _ _ _ _ Hr0). split; [|constructor]. split; cbn [shared];
      rewrite ?Ho; try done; constructor. }
  assert (Hstart : config_ok (MkConfig st0 [])).
  { split; [|constructor]. split; cbn [shared]; rewrite ?Ho; try done; constructor. }
  pose proof (run_owner _ _ _ _ _ _ Hr0 Hstart) as Hown. split; [exact Hown|]. split.
  - destruct (sweep_alone kv iso machine moment c0.(shared)) as [n Hn].
    pose proof (sweep_lines moment c0.(shared) (proj1 Hc0)) as Hl.
    destruct (sweep moment (shared c0)) as [r st']. by exists n, r, st'.
  - intros tr c Hr. set (known := dkeys (sweep_start moment c0.(shared)).2.(open_sessions)).
    assert (Hk : ∀ sid, sid ∈ known ↔ live moment c0.(shared) sid = true).
    { intros sid. apply kept_live, Hc0. }
    pose proof (config_ok_move kv iso machine _ _ _ Hc0 Hi) as Hc1.
    split; [rewrite (run_owner _ _ _ _ _ _ Hr Hc1), move_shared;
            etransitivity; [by apply advance_owner|exact Hown]|].
    destruct (run_sweep kv iso machine i known
                (λ sid, ∃ j request key v fault m, (j, Open_install request key v fault m) ∈ tr
                   ∧ session_of_request request = sid) _ _ _ Hr Hc1) as [(s & Hs & Hsw & Hcl) Hsp].
    + intros j request key v fault m H. by exists j, request, key, v, fault, m.
    + exists (sweep_start moment c0.(shared)).1.
      rewrite move_threads. split; [by apply list_lookup_insert_eq, (lookup_lt_Some _ _ _ Hi)|].
      split; [|done]. split; [done|]. apply Forall_forall. intros sid Hsid. split.
      * apply (proj1 (Forall_forall _ _) (inv_ids _ (proj1 Hc0))), (sub_keys moment _), Hsid.
      * intros Hin%Hk. apply (dget_gone moment _ _ (proj1 Hc0)) in Hsid as (se & Hd & Hf).
        revert Hin. unfold live. by rewrite Hd, Hf.
    + split.
      * intros sid Hl Hn. rewrite (Hsp sid) by (done || by apply Hk). by rewrite move_shared.
      * exists s. split; [done|]. split; [by apply (sweep_end known)|].
        intros r -> line sid Hin Hsid. destruct (Hcl line sid Hin Hsid) as [H|H]; [left; by apply Hk|by right].
Qed.
End Sweep.

(** ** A run *)

#[local] Abbreviation sample_start :=
  (Open_start sample_request ["5H"] None sample_moments).
#[local] Abbreviation step1 i s c := (move (λ _ _ _, true) (λ _, "") sample_machine i s c).

(** One thread opens; the sweep begins when the session is registered. *)
Definition sample_config : config := MkConfig sample_grants [].
Definition opening_config : config :=
  MkConfig sample_grants [sample_start; Sweep_start (fz 10)].
Definition at_thread (i : nat) (c : config) : stage := default Revoke_start (c.(threads) !! i).
Definition moved (i : nat) (c : config) : config := step1 i (at_thread i c) c.
(** The key is in the file and the session is not registered. *)
Definition installed_config : config := moved 0 (moved 0 opening_config).
Definition registered_config : config := moved 0 installed_config.

Lemma moved_run i c tr c' : (i < length c.(threads))%nat →
  run (λ _ _ _, true) (λ _, "") sample_machine (moved i c) tr c' →
  run (λ _ _ _, true) (λ _, "") sample_machine c ((i, at_thread i c) :: tr) c'.
Proof.
  intros Hi H. apply run_move; [|exact H]. unfold at_thread.
  destruct (lookup_lt_is_Some_2 (threads c) i Hi) as [s ->]. done.
Qed.

(** The session is registered, the sweep runs: the witness of the theorem. *)
Lemma sweep_exact_witness :
  ∃ n r st', alone (λ _ _ _, true) (λ _, "") sample_machine n (Sweep_start (fz 10))
               registered_config.(shared) = (Counted r, st')
    ∧ read st'.(keys) = List.filter (λ line, match session_of line with
                                            | Some sid => live (fz 10) registered_config.(shared) sid
                                            | None => true
                                            end) (read registered_config.(shared).(keys)).
Proof.
  destruct (sweep_exact (λ _ _ _, true) (λ _, "") sample_machine sample_grants registered_config
              [(0%nat, at_thread 0 opening_config); (0%nat, at_thread 0 (moved 0 opening_config));
               (0%nat, at_thread 0 installed_config)] 1 (fz 10)) as (_ & (n & r & st' & H1 & H2 & _) & _).
  - reflexivity.
  - apply NoDup_nil_2.
  - repeat constructor.
  - apply (run_spawn _ _ _ _ sample_start); [reflexivity|].
    apply (run_spawn _ _ _ _ (Sweep_start (fz 10))); [reflexivity|].
    apply moved_run; [vm_compute; lia|]. apply moved_run; [vm_compute; lia|].
    apply moved_run; [vm_compute; lia|]. apply run_nil.
  - vm_compute. reflexivity.
  - by exists n, r, st'.
Defined.

(** The sweep that runs between the installing of a key and the registering of its
    session takes the key out: the session is then granted and open, and
    authorized_keys holds no line of it. *)
Example opening_session_swept :
  let sweeps c := moved 1 (moved 1 (moved 1 (moved 1 (moved 1 (moved 1 (moved 1 c)))))) in
  let c := moved 0 (moved 0 (sweeps installed_config)) in
  read installed_config.(shared).(keys)
  = ["ssh-ed25519 OOOO owner"; "ssh-ed25519 XXXX mt-session:ff";
     "ssh-ed25519 BBBB mt-session:abababababababab"]
  ∧ read c.(shared).(keys) = ["ssh-ed25519 OOOO owner"]
  ∧ dkeys c.(shared).(open_sessions) = ["abababababababab"]
  ∧ (match at_thread 0 c with Opened (Granted g) => SessionGrant.session_id g | _ => "" end)
    = "abababababababab"
  ∧ at_thread 1 c = Counted 2.
Proof. vm_compute. split_and!; reflexivity. Qed.
