(* ===== verification/Queue.v ===== *)
(** * The outbound queue (agent/control/queue.py, the writer of agent/control/socket.py)

    Everything the agent tells the server passes through one bounded queue that
    outlives the connections: when it is full, state reports and pings give way,
    results and events never do.  [Link] adds the writer of a connection, which
    holds one message at a time while the socket sends it. *)

From Stdlib Require Import Ascii String QArith.
From S2P Require Import Prelude.
From S2P Require Import PyStr.
From S2P Require Import PyFloat.
From S2P Require Import PyJson.
From S2P Require Import Messages.
Local Open Scope string_scope.
Local Open Scope list_scope.

Definition MAX_DEPTH : Z := 2000.
Definition DROPPABLE : list string := [agent_message_value STATE; agent_message_value PING].
Definition PRECIOUS : list string := [agent_message_value RESULT; agent_message_value EVENT].

(** [ready] is the [asyncio.Event] the reader of the queue waits on; creating it
    lazily leaves it clear. *)
Record OutboundQueue : Type := MkQueue {
  max_depth : Z; items : list dict; ready : bool; dropped : Z }.

Definition init (max_depth : Z) : OutboundQueue := MkQueue max_depth [] false 0.

Definition depth (q : OutboundQueue) : Z := Z.of_nat (List.length q.(items)).

(** [x in {...}] for a set of strings: lists and dictionaries cannot be hashed. *)
Definition hashed_in (j : json) (s : list string) : res bool :=
  match j with
  | JStr x => Ok (bool_decide (x ∈ s))
  | JList _ | JDict _ => Raise TypeError
  | _ => Ok false
  end.

(** [del self._items[position]] at the first droppable item, if there is one. *)
Fixpoint without_first (l : list dict) : res (option (list dict)) :=
  match l with
  | [] => Ok None
  | item :: l' =>
      found ← hashed_in (getv "type" item) DROPPABLE;
      if (found : bool) then Ok (Some l')
      else rest ← without_first l'; mret (option_map (cons item) rest)
  end.

Definition drop_oldest_droppable (q : OutboundQueue) : res (bool * OutboundQueue) :=
  found ← without_first q.(items);
  match found with
  | Some l => Ok (true, MkQueue q.(max_depth) l q.(ready) (q.(dropped) + 1))
  | None => Ok (false, q)
  end.

Definition wake (q : OutboundQueue) : OutboundQueue :=
  MkQueue q.(max_depth) q.(items) true q.(dropped).

Definition enqueue (front : bool) (message : dict) (q : OutboundQueue) : OutboundQueue :=
  wake (MkQueue q.(max_depth) (if front then message :: q.(items) else q.(items) ++ [message])
          q.(ready) q.(dropped)).

Definition full (q : OutboundQueue) : bool := (q.(max_depth) <=? depth q)%Z.

(** When it raises, the queue is as before. *)
Definition put (now : pyfloat) (message : dict) (front : bool) (q : OutboundQueue)
    : res OutboundQueue :=
  let message := dsetdefault "sent_at" (stamp now) message in
  if full q then
    precious ← hashed_in (getv "type" message) PRECIOUS;
    out ← drop_oldest_droppable q;
    let '(gone, q) := out in
    if (precious : bool) then Ok (enqueue front message q)
    else if negb gone || full q then
      Ok (MkQueue q.(max_depth) q.(items) q.(ready) (q.(dropped) + 1))
    else Ok (enqueue front message q)
  else Ok (enqueue front message q).

Definition requeue (message : dict) (q : OutboundQueue) : OutboundQueue :=
  enqueue true message q.

(** One turn of the loop of [get]: the head of the queue, or the event cleared
    and a wait for it. *)
Definition get (q : OutboundQueue) : option dict * OutboundQueue :=
  match q.(items) with
  | m :: l => (Some m, MkQueue q.(max_depth) l q.(ready) q.(dropped))
  | [] => (None, MkQueue q.(max_depth) [] false q.(dropped))
  end.

(** [OutboundQueue.stamp]: on the message itself, which the caller sends. *)
Definition stamped (now : pyfloat) (q : OutboundQueue) (message : dict) : dict :=
  dset "forwarded_at" (stamp now) (dset "queue_depth" (JInt (depth q)) message).

Fixpoint count_kinds (l : list dict) (kinds : list (string * Z)) : list (string * Z) :=
  match l with
  | [] => kinds
  | item :: l' =>
      let kind := py_str (getd "type" (JStr "?") item) in
      count_kinds l' (dset kind (default 0 (dget kind kinds) + 1)%Z kinds)
  end.

(** [{"depth": ..., "dropped": ..., **kinds}] *)
Definition snapshot (q : OutboundQueue) : list (string * Z) :=
  foldl (λ d kv, dset kv.1 kv.2 d) [("depth", depth q); ("dropped", q.(dropped))]
    (count_kinds q.(items) []).

(** ** What the agent sends *)

Definition send_event (now : pyfloat) (kind : string) (detail : option dict) (q : OutboundQueue)
    : res OutboundQueue :=
  put now (Event.payload now (Event.Mk kind (default [] detail))) false q.
Definition send_result (now : pyfloat) (id : Z) (ok : bool) (result : dict) (q : OutboundQueue)
    : res OutboundQueue :=
  put now (Result.payload now (Result.Mk id ok result)) false q.

(** ** The queue and the writer of a connection

    [writing] is the message between [queue.get] and the end of [socket.send];
    [finished] the messages whose sending ended, with [false] for a writer
    cancelled in the middle of [send]; [accepted] records the results and events
    given to the queue. *)
Record Link : Type := MkLink {
  queue : OutboundQueue; writing : option dict;
  finished : list (bool * dict); accepted : list dict }.

Definition new_link (max_depth : Z) : Link := MkLink (init max_depth) None [] [].

Definition type_of (m : dict) : string :=
  match getv "type" m with JStr s => s | _ => "" end.
Definition is_precious (m : dict) : bool := bool_decide (type_of m ∈ PRECIOUS).
Definition typed (m : dict) : Prop := ∃ s, getv "type" m = JStr s.
(** A message without the two entries every attempt to send it rewrites. *)
Definition core (m : dict) : dict := dpop "forwarded_at" (dpop "queue_depth" m).

(** The steps: any part of the agent puts a message (only pings go to the
    front); the writer takes one, and the socket sends it, or fails and the
    message returns to the front, or the writer is cancelled. *)
Inductive step : Link → Link → Prop :=
  | step_put now m front l q :
      typed m → (is_precious m = true → front = false) →
      put now m front l.(queue) = Ok q →
      step l (MkLink q l.(writing) l.(finished)
                (if is_precious m then l.(accepted) ++ [dsetdefault "sent_at" (stamp now) m]
                 else l.(accepted)))
  | step_wait l q :
      l.(writing) = None → get l.(queue) = (None, q) →
      step l (MkLink q None l.(finished) l.(accepted))
  | step_take now l m q :
      l.(writing) = None → get l.(queue) = (Some m, q) →
      step l (MkLink q (Some (stamped now q m)) l.(finished) l.(accepted))
  | step_sent l m :
      l.(writing) = Some m →
      step l (MkLink l.(queue) None (l.(finished) ++ [(true, m)]) l.(accepted))
  | step_failed l m :
      l.(writing) = Some m →
      step l (MkLink (requeue m l.(queue)) None l.(finished) l.(accepted))
  | step_cancelled l m :
      l.(writing) = Some m →
      step l (MkLink l.(queue) None (l.(finished) ++ [(false, m)]) l.(accepted)).

Definition reachable (max_depth : Z) : Link → Prop := rtc step (new_link max_depth).

(** ** Facts *)

Definition precious_of (l : list dict) : list dict := List.filter is_precious l.

Lemma hashed_in_typed m s : typed m → hashed_in (getv "type" m) s = Ok (bool_decide (type_of m ∈ s)).
Proof. unfold type_of. by intros [x ->]. Qed.

Lemma getv_other k m d v : k ≠ "type" → getv "type" (dset k v m) = getv "type" m ∧
  getv "type" (dpop k d) = getv "type" d.
Proof. intros H. unfold getv, getd. by rewrite dget_dset_ne, dget_dpop_ne. Qed.

Lemma getv_setdefault k v m : k ≠ "type" → getv "type" (dsetdefault k v m) = getv "type" m.
Proof.
  intros H. unfold dsetdefault, getv, getd. case_match; [done|]. f_equal.
  induction m as [|[k' w] m IH]; simpl; [by case_decide|].
  case_decide; [done|]. apply IH. unfold dmem in *. simpl in *. by case_decide.
Qed.

Lemma type_setdefault v m : type_of (dsetdefault "sent_at" v m) = type_of m.
Proof. unfold type_of. by rewrite getv_setdefault. Qed.

Lemma typed_setdefault v m : typed m → typed (dsetdefault "sent_at" v m).
Proof. unfold typed. by rewrite getv_setdefault. Qed.

Lemma type_stamped now q m : getv "type" (stamped now q m) = getv "type" m.
Proof.
  unfold stamped. destruct (getv_other "forwarded_at" (dset "queue_depth" (JInt (depth q)) m) [] (stamp now)) as [-> _]; [done|].
  by destruct (getv_other "queue_depth" m [] (JInt (depth q))) as [-> _].
Qed.

Lemma dpop_cons {V} (k k' : string) (v : V) d :
  dpop k ((k', v) :: d) = if decide (k' = k) then dpop k d else (k', v) :: dpop k d.
Proof. unfold dpop. rewrite filter_cons. simpl. by repeat case_decide. Qed.

Lemma dpop_dset {V} k (v : V) (d : list (string * V)) : dpop k (dset k v d) = dpop k d.
Proof.
  induction d as [|[k' w] d IH]; simpl.
  - rewrite dpop_cons. by case_decide.
  - case_decide; subst; rewrite !dpop_cons; case_decide; congruence.
Qed.

Lemma dpop_comm {V} k k' (d : list (string * V)) : dpop k (dpop k' d) = dpop k' (dpop k d).
Proof. unfold dpop. rewrite !list_filter_filter. apply list_filter_iff. intros x. tauto. Qed.

Lemma core_stamped now q m : core (stamped now q m) = core m.
Proof. unfold core, stamped. by rewrite (dpop_comm "forwarded_at"), dpop_dset, (dpop_comm "queue_depth"), dpop_dset. Qed.

Lemma droppable_light s : s ∈ DROPPABLE → s ∉ PRECIOUS.
Proof.
  unfold DROPPABLE, PRECIOUS. rewrite !elem_of_cons, !elem_of_nil. simpl.
  intros [->|[->|[]]] [|[|[]]]; discriminate.
Qed.

Lemma without_first_spec l : Forall typed l → ∃ o, without_first l = Ok o ∧
  match o with
  | None => True
  | Some l' => ∃ a m b, l = a ++ m :: b ∧ l' = a ++ b ∧ is_precious m = false
  end.
Proof.
  induction 1 as [|m l Hm _ (o & IH & Ho)]; [by exists None|]. simpl.
  rewrite hashed_in_typed by done. simpl. case_bool_decide as Hd.
  - exists (Some l). split; [done|]. exists [], m, l. repeat split.
    unfold is_precious. apply bool_decide_eq_false. by apply droppable_light.
  - rewrite IH. simpl. exists (option_map (cons m) o). split; [done|]. destruct o as [l'|]; [|done].
    destruct Ho as (a & x & b & -> & -> & Hx). by exists (m :: a), x, b.
Qed.

(** What [put] does on messages of known types: results and events get in
    whatever the depth, another message only below the bound, and what is
    dropped is neither result nor event. *)
Definition light (l : list dict) : Z := Z.of_nat (List.length l) - Z.of_nat (List.length (precious_of l)).

Definition put_ok (m : dict) (front : bool) (q q' : OutboundQueue) : Prop :=
  q'.(max_depth) = q.(max_depth) ∧ Forall typed q'.(items) ∧
  precious_of q'.(items) =
    (if is_precious m then (if front then m :: precious_of q.(items)
                            else precious_of q.(items) ++ [m])
     else precious_of q.(items)) ∧
  (light q'.(items) <= Z.max (light q.(items)) q.(max_depth))%Z ∧
  (q'.(dropped) + depth q' = q.(dropped) + depth q + 1)%Z ∧
  (q.(items) = [] ∨ q.(ready) = true → q'.(items) = [] ∨ q'.(ready) = true).

Lemma precious_app a b : precious_of (a ++ b) = precious_of a ++ precious_of b.
Proof. apply List.filter_app. Qed.

Lemma light_app a b : light (a ++ b) = (light a + light b)%Z.
Proof. unfold light. rewrite precious_app, !length_app. lia. Qed.

Lemma light_nonneg l : (0 <= light l)%Z.
Proof.
  unfold light, precious_of. pose proof (List.filter_length_le is_precious l). lia.
Qed.

Lemma light_one m : light [m] = if is_precious m then 0%Z else 1%Z.
Proof. unfold light, precious_of. simpl. by destruct (is_precious m). Qed.

Lemma precious_one m : precious_of [m] = if is_precious m then [m] else [].
Proof. done. Qed.

Lemma light_cons m l : light (m :: l) = (light [m] + light l)%Z.
Proof. apply (light_app [m] l). Qed.

Lemma precious_cons m l : precious_of (m :: l) = precious_of [m] ++ precious_of l.
Proof. apply (precious_app [m] l). Qed.

(** Adding at an end, to a queue that may have lost an item. *)
Lemma enqueue_ok m front q r :
  typed m → Forall typed r.(items) → r.(max_depth) = q.(max_depth) →
  precious_of r.(items) = precious_of q.(items) →
  (light r.(items) <= light q.(items))%Z →
  (is_precious m = false → (light r.(items) + 1 <= q.(max_depth))%Z) →
  (r.(dropped) + depth r = q.(dropped) + depth q)%Z →
  put_ok m front q (enqueue front m r).
Proof.
  intros Hm Hr Hd Hp Hl Hb Hc. unfold put_ok. repeat split; try done; simpl.
  - destruct front; [by constructor|]. apply Forall_app. by repeat constructor.
  - rewrite <- Hp. destruct front; [rewrite precious_cons|rewrite precious_app];
      rewrite precious_one; destruct (is_precious m); rewrite ?app_nil_r; done.
  - assert (light (if front then m :: items r else items r ++ [m]) = (light [m] + light (items r))%Z) as ->
      by (destruct front; [rewrite light_cons | rewrite light_app]; lia).
    rewrite light_one. destruct (is_precious m); [lia|]. specialize (Hb eq_refl). lia.
  - unfold depth in *. simpl. destruct front; rewrite ?length_app; simpl; lia.
  - intros _. by right.
Qed.

Lemma put_typed now m front q :
  Forall typed q.(items) → typed m →
  ∃ q', put now m front q = Ok q' ∧ put_ok (dsetdefault "sent_at" (stamp now) m) front q q'.
Proof.
  intros Hq Hm. unfold put. set (m' := dsetdefault _ _ m).
  assert (typed m') as Hm' by by apply typed_setdefault.
  pose proof (light_nonneg (precious_of q.(items))) as Hn.
  destruct (full q) eqn:Hf.
  2:{ eexists. split; [done|]. apply enqueue_ok; try done. intros _.
      unfold full, depth in Hf. unfold light. lia. }
  rewrite hashed_in_typed by done. simpl.
  unfold drop_oldest_droppable. destruct (without_first_spec q.(items) Hq) as (o & -> & Ho). simpl.
  change (bool_decide (type_of m' ∈ PRECIOUS)) with (is_precious m').
  destruct o as [l'|]; cbn [mbind res_bind negb orb].
  - destruct Ho as (a & x & b & Hi & -> & Hx).
    assert (Forall typed (a ++ b)) as Ht.
    { rewrite Hi in Hq. apply Forall_app in Hq as [? [_ ?]%Forall_cons]. by apply Forall_app. }
    assert (precious_of (a ++ b) = precious_of q.(items)) as Hp.
    { rewrite Hi, !precious_app, (precious_cons x), precious_one, Hx. done. }
    assert (light (a ++ b) + 1 = light q.(items))%Z as Hl.
    { rewrite Hi, !light_app, (light_cons x), light_one, Hx. lia. }
    assert (List.length q.(items) = S (List.length (a ++ b))) as Hlen.
    { rewrite Hi, !length_app. simpl. lia. }
    destruct (is_precious m') eqn:Hpm.
    + eexists. split; [done|]. apply enqueue_ok; simpl; try done; try lia; try congruence.
      unfold depth. simpl. lia.
    + destruct (full (MkQueue _ _ _ _)) eqn:Hf2.
      * eexists. split; [done|]. unfold put_ok. rewrite Hpm. simpl. unfold depth. simpl.
        repeat split; try done; try lia. intros [E|E]; [|by right].
        rewrite E in Hi. by destruct a.
      * eexists. split; [done|]. apply enqueue_ok; simpl; try done; try lia.
        -- intros _. unfold full, depth in Hf2. simpl in Hf2. unfold light. lia.
        -- unfold depth. simpl. lia.
  - destruct (is_precious m') eqn:Hpm.
    + eexists. split; [done|]. apply enqueue_ok; try done. congruence.
    + eexists. split; [done|]. unfold put_ok. rewrite Hpm. simpl. unfold depth. simpl.
      repeat split; try done; lia.
Qed.

(** ** The invariant of the link *)

Definition pending (l : Link) : list dict := option_list l.(writing).
Definition sent_or_lost (l : Link) : list dict := snd <$> l.(finished).
Definition cores (l : list dict) : list dict := core <$> precious_of l.

Definition inv (bound : Z) (l : Link) : Prop :=
  l.(queue).(max_depth) = bound ∧ Forall typed l.(queue).(items) ∧ Forall typed (pending l) ∧
  Forall (λ m, is_precious m = true) l.(accepted) ∧
  cores l.(accepted) = cores (sent_or_lost l) ++ cores (pending l) ++ cores l.(queue).(items) ∧
  (light l.(queue).(items) + light (pending l) <= bound + 1)%Z ∧
  (l.(queue).(items) = [] ∨ l.(queue).(ready) = true).

Lemma cores_app a b : cores (a ++ b) = cores a ++ cores b.
Proof. unfold cores. by rewrite precious_app, fmap_app. Qed.

Lemma cores_cons m l : cores (m :: l) = cores [m] ++ cores l.
Proof. apply (cores_app [m] l). Qed.

Lemma precious_stamped now q m : is_precious (stamped now q m) = is_precious m.
Proof. unfold is_precious, type_of. by rewrite type_stamped. Qed.

Lemma cores_stamped now q m : cores [stamped now q m] = cores [m].
Proof.
  unfold cores. rewrite !precious_one, precious_stamped.
  destruct (is_precious m); csimpl; by rewrite ?core_stamped.
Qed.

Lemma light_stamped now q m : light [stamped now q m] = light [m].
Proof. by rewrite !light_one, precious_stamped. Qed.

Lemma light_nil : light [] = 0%Z.
Proof. done. Qed.

Lemma light_option (o : option dict) : (0 <= light (option_list o) <= 1)%Z.
Proof. destruct o as [m|]; simpl; [rewrite light_one; by destruct (is_precious m) | done]. Qed.

Lemma inv_init bound : (-1 <= bound)%Z → inv bound (new_link bound).
Proof. intros. unfold inv. repeat split; try done; [unfold light; simpl; lia | by left]. Qed.

Lemma get_spec q : get q = match q.(items) with
  | m :: l => (Some m, MkQueue q.(max_depth) l q.(ready) q.(dropped))
  | [] => (None, MkQueue q.(max_depth) [] false q.(dropped)) end.
Proof. done. Qed.

Lemma inv_put bound now m front l q :
  typed m → (is_precious m = true → front = false) → put now m front l.(queue) = Ok q →
  inv bound l →
  inv bound (MkLink q l.(writing) l.(finished)
    (if is_precious m then l.(accepted) ++ [dsetdefault "sent_at" (stamp now) m]
     else l.(accepted))).
Proof.
  intros Hm Hfront Hput (Hb & Ht & Hw & Ha & Hc & Hl & Hr).
  destruct (put_typed now m front _ Ht Hm) as (q' & Hq' & Hmax & Ht' & Hp & Hl' & _ & Hr').
  rewrite Hput in Hq'. injection Hq' as <-.
  assert (is_precious (dsetdefault "sent_at" (stamp now) m) = is_precious m) as Hpm
    by (unfold is_precious; by rewrite type_setdefault).
  rewrite Hpm in Hp. pose proof (light_option l.(writing)).
  unfold inv, pending in *. simpl. repeat split; try done; [congruence| | |lia|by apply Hr'].
  - destruct (is_precious m); [|done]. apply Forall_app. split; [done|]. by repeat constructor.
  - unfold cores at 4. rewrite Hp. destruct (is_precious m) eqn:E; [|done].
    rewrite (Hfront eq_refl), cores_app, Hc, fmap_app. rewrite <- !app_assoc. do 3 f_equal.
    unfold cores. rewrite precious_one, Hpm. done.
Qed.

Lemma inv_step bound l l' : step l l' → inv bound l → inv bound l'.
Proof.
  intros Hs. destruct Hs as [now m front l q Hm Hf Hp|l q Hw Hg|now l m q Hw Hg|l m Hw|l m Hw|l m Hw];
    [by apply inv_put with front|..]; intros (Hb & Ht & Hwt & Ha & Hc & Hl & Hr);
    unfold inv, pending, sent_or_lost in *; rewrite ?Hw in *; simpl in *.
  - rewrite get_spec in Hg. destruct (items (queue l)); [|done]. injection Hg as <-.
    simpl in *. repeat split; try done. by left.
  - rewrite get_spec in Hg. destruct (items (queue l)) as [|x rest] eqn:E; [done|].
    injection Hg as -> <-. simpl in *. destruct Hr as [?|Hr]; [done|]. apply Forall_cons in Ht as [Hx Ht].
    repeat split; try done.
    + constructor; [|done]. destruct Hx as [s Hs]. exists s. by rewrite type_stamped.
    + by rewrite cores_stamped, Hc, cores_cons.
    + rewrite light_stamped. rewrite light_cons in Hl. rewrite ?light_nil in *. lia.
    + by right.
  - repeat split; try done.
    + rewrite fmap_app, cores_app, Hc. csimpl. by rewrite <- app_assoc.
    + pose proof (light_option (Some m)). simpl in *. rewrite ?light_nil in *. lia.
  - repeat split; try done.
    + apply Forall_cons in Hwt as [Hm _]. by constructor.
    + by rewrite Hc, <- cores_cons.
    + rewrite light_cons, ?light_nil in *. lia.
    + by right.
  - repeat split; try done.
    + rewrite fmap_app, cores_app, Hc. csimpl. by rewrite <- app_assoc.
    + pose proof (light_option (Some m)). simpl in *. rewrite ?light_nil in *. lia.
Qed.

Lemma inv_reachable bound l : (-1 <= bound)%Z → reachable bound l → inv bound l.
Proof.
  intros Hb Hr. unfold reachable in Hr. remember (new_link bound) as l0 eqn:E.
  assert (inv bound l0) as Hi by (subst; by apply inv_init). clear E.
  induction Hr; eauto using inv_step.
Qed.

Lemma cores_all l : Forall (λ m, is_precious m = true) l → cores l = core <$> l.
Proof.
  unfold cores. induction 1 as [|m l Hm _ IH]; [done|].
  rewrite precious_cons, precious_one, Hm. csimpl. by rewrite IH.
Qed.

(** C26. Whatever the agent puts, however often connections fail and come back, the
    results and events accepted so far are, in the order they were put: the ones
    whose sending ended, the one being sent, and the ones still queued (compared
    without the two entries every attempt to send rewrites).  None is dropped to
    make room.  The other messages exceed the bound by at most one: a message whose
    sending failed goes back to the queue however full it is.  A reader never waits on
    the event while there is something to read. *)
Theorem outbound_in_order bound l :
  (-1 <= bound)%Z → reachable bound l →
  core <$> l.(accepted) =
    cores (sent_or_lost l) ++ cores (option_list l.(writing)) ++ cores l.(queue).(items) ∧
  (depth l.(queue) <= bound + 1 + Z.of_nat (List.length (precious_of l.(queue).(items))))%Z ∧
  (l.(queue).(items) ≠ [] → l.(queue).(ready) = true).
Proof.
  intros Hb Hr. destruct (inv_reachable _ _ Hb Hr) as (_ & _ & _ & Ha & Hc & Hl & Hw).
  rewrite <- (cores_all _ Ha). split; [done|]. split; [|naive_solver].
  pose proof (light_option l.(writing)). unfold pending, depth, light in *. lia.
Qed.

Definition sample_event : dict := Event.payload (fz 5) (Event.Mk "job.done" []).

(** A queue of depth one, full with a ping, still takes an event; the socket
    fails, and the event is back in the queue. *)
Definition sample_link : Link :=
  match put (fz 5) (ping (fz 5)) true (init 1) with
  | Ok q =>
      match put (fz 5) sample_event false q with
      | Ok q' => let (o, r) := get q' in
                 match o with
                 | Some m => MkLink (requeue (stamped (fz 6) r m) r) None [] [sample_event]
                 | None => new_link 1
                 end
      | Raise _ => new_link 1
      end
  | Raise _ => new_link 1
  end.

Lemma outbound_in_order_witness :
  (-1 <= 1)%Z ∧ reachable 1 sample_link ∧
  dropped (queue sample_link) = 1%Z ∧
  core <$> accepted sample_link = cores (items (queue sample_link)).
Proof.
  assert (reachable 1 sample_link) as Hr.
  { eapply rtc_l; [apply step_put with (now := fz 5) (m := ping (fz 5)) (front := true);
      [by exists "ping" | done | reflexivity]|].
    eapply rtc_l; [apply step_put with (now := fz 5) (m := sample_event) (front := false);
      [by exists "event" | done | reflexivity]|].
    eapply rtc_l; [apply step_take with (now := fz 6); reflexivity|].
    eapply rtc_l; [eapply step_failed; reflexivity|]. apply rtc_refl. }
  split; [done|]. split; [done|]. split; [reflexivity|].
  destruct (outbound_in_order 1 sample_link) as [H _]; [done..|]. rewrite H. reflexivity.
Defined.
