(* ===== verification/Stores.v ===== *)
(** * The agent's stores (agent/store/events.py, agent/store/jobs.py)

    The event file is a log of one JSON object per line, cut back to whole lines
    when it grows past its bound; the job book remembers the jobs the coordinator
    placed.  The file is its content (all of it ASCII: [json.dumps] escapes the
    rest); the operations on it are taken to succeed, and parsing a line is a
    parameter. *)

From Stdlib Require Import Ascii String QArith.
From S2P Require Import Prelude.
From S2P Require Import PyStr.
From S2P Require Import PyText.
From S2P Require Import PyFloat.
From S2P Require Import PyJson.
From S2P Require Import PyDump.
From S2P Require Import Messages.
From S2P Require Import SessionProto.
Local Open Scope string_scope.
Local Open Scope list_scope.

(** ** The event file *)

Module EventStore.
Definition MAX_FILE_SIZE : Z := 50 * 1024 * 1024.
Definition KEEP_TAIL : Z := 25 * 1024 * 1024.

Record t : Type := Mk { max_bytes : Z; keep_bytes : Z; file : option string }.

(** [record.update(fields)] *)
Definition update (record fields : dict) : dict := foldl (λ d kv, dset kv.1 kv.2 d) record fields.

Definition line (now : pyfloat) (kind : string) (fields : dict) : string :=
  dumps (JDict (update [("ts", stamp now); ("kind", JStr kind)] fields)) +:+ nls.

(** [data[-keep:]] *)
Definition from_end (keep : Z) (data : string) : string :=
  if (0 <? keep)%Z then slast (Z.to_nat keep) data else sdrop (Z.to_nat (- keep)) data.

(** [_truncate] on the content of the file: past the first line feed of the
    tail, unless there is none or nothing would be left. *)
Definition truncated (keep : Z) (data : string) : string :=
  let tail := from_end keep data in
  match partition_first nls tail with
  | Some (_, rest) => if String.eqb rest "" then tail else rest
  | None => tail
  end.

Definition write (now : pyfloat) (kind : string) (fields : dict) (s : t) : t :=
  let data := default "" s.(file) +:+ line now kind fields in
  let data := if (s.(max_bytes) <? Z.of_nat (slen data))%Z then truncated s.(keep_bytes) data
              else data in
  Mk s.(max_bytes) s.(keep_bytes) (Some data).

(** [bytes.splitlines] *)
Fixpoint byte_lines_go (cur s : string) : list string :=
  match s with
  | "" => if String.eqb cur "" then [] else [cur]
  | String c s' =>
      if Ascii.eqb c nl then cur :: byte_lines_go "" s'
      else if Ascii.eqb c cr then
        match s' with
        | String d s'' => if Ascii.eqb d nl then cur :: byte_lines_go "" s''
                          else cur :: byte_lines_go "" s'
        | "" => [cur]
        end
      else byte_lines_go (cur +:+ String c "") s'
  end.

(** [lines[-count:]] *)
Definition last_items {A} (count : Z) (l : list A) : list A :=
  if (0 <? count)%Z then drop (List.length l - Z.to_nat count) l else drop (Z.to_nat (- count)) l.

Definition tail (loads : string → option json) (count : Z) (s : t) : list json :=
  match s.(file) with
  | None => []
  | Some data =>
      let size := Z.of_nat (slen data) in
      let window := Z.min size (Z.max count 1 * 512) in
      omap loads (last_items count (byte_lines_go "" (sdrop (Z.to_nat (size - window)) data)))
  end.
End EventStore.

(** ** The job book *)

Module JobBook.
Definition t : Type := list (string * dict).
Definition empty : t := [].

Definition entry_of (now : pyfloat) (job : JobRecord.t) (source : string) (detail : option dict)
    : dict :=
  let entry := dset "source" (JStr source) (dset "recorded_at" (stamp now) (JobRecord.payload job)) in
  match detail with
  | Some ((_ :: _) as d) => dset "detail" (JDict d) entry
  | _ => entry
  end.

Definition record (now : pyfloat) (job : JobRecord.t) (source : string) (detail : option dict)
    (book : t) : dict * t :=
  let entry := entry_of now job source detail in
  (entry, dset (JobRecord.job_id job) entry book).

Definition forget (job_id : string) (book : t) : bool * t := (dmem job_id book, dpop job_id book).
Definition ids (book : t) : list string := dkeys book.
Definition view (book : t) : list dict := book.*2.
Definition size (book : t) : Z := Z.of_nat (List.length book).
Definition mem (job_id : string) (book : t) : bool := dmem job_id book.

(** A recorded job is read back from its entry. *)
Lemma record_readable now job source detail :
  JobRecord.from_payload (entry_of now job source detail) = Ok job.
Proof.
  transitivity (JobRecord.from_payload (JobRecord.payload job)); [|apply job_record_roundtrip].
  destruct job. unfold entry_of. destruct detail as [[|]|]; reflexivity.
Qed.
End JobBook.

(** ** The event file holds whole lines *)

Section EventFile.
Import EventStore.

Lemma sdrop_app_le n s t : (n <= slen s)%nat → sdrop n (s +:+ t) = sdrop n s +:+ t.
Proof.
  revert s. induction n as [|n IH]; intros s H; [by rewrite !sdrop_0|].
  destruct s as [|c s]; [simpl in H; lia|]. apply IH. simpl in H. lia.
Qed.

Lemma sdrop_app_ge n s t : (slen s <= n)%nat → sdrop n (s +:+ t) = sdrop (n - slen s) t.
Proof.
  revert s. induction n as [|n IH]; intros s H.
  - destruct s; [|simpl in H; lia]. by rewrite !sdrop_0.
  - destruct s as [|c s]; [done|]. apply IH. simpl in H. lia.
Qed.

Definition is_line (s : string) : Prop := ∃ body, s = body +:+ nls ∧ one_line body = true.

Lemma line_is_line now kind fields : is_line (line now kind fields).
Proof. eexists. split; [done|]. apply dumps_one_line. Qed.

Definition text (lines : list string) : string := String.concat "" lines.

Lemma text_cons l ls : text (l :: ls) = l +:+ text ls.
Proof. unfold text. destruct ls; simpl; [by rewrite app_nil_r_s | done]. Qed.

Lemma text_app a b : text (a ++ b) = text a +:+ text b.
Proof.
  induction a as [|x a IH]; [done|]. change ((x :: a) ++ b) with (x :: (a ++ b)).
  by rewrite !text_cons, IH, app_assoc_s.
Qed.

Lemma partition_nl c s : Ascii.eqb c nl = false →
  partition_first nls (String c s) =
  match partition_first nls s with Some (a, b) => Some (String c a, b) | None => None end.
Proof.
  intros H. cbn [partition_first]. assert (String.prefix nls (String c s) = false) as ->; [|done].
  unfold nls. cbn [String.prefix]. destruct (ascii_dec nl c) as [<-|]; [|done].
  by rewrite Ascii.eqb_refl in H.
Qed.

Lemma partition_line body rest :
  one_line body = true → partition_first nls (body +:+ (nls +:+ rest)) = Some (body, rest).
Proof.
  induction body as [|c body IH]; intros H.
  - cbn. by destruct rest.
  - apply andb_true_iff in H as [Hc Hb]. unfold not_nl in Hc. apply negb_true_iff in Hc.
    change (String c body +:+ (nls +:+ rest)) with (String c (body +:+ (nls +:+ rest))).
    by rewrite partition_nl, IH.
Qed.

(** Cutting the end of a text of lines, longer than its last line, at its first
    line feed leaves the last lines, at least one of them. *)
Lemma cut_lines n ls last :
  Forall is_line (ls ++ [last]) → (n + slen last < slen (text (ls ++ [last])))%nat →
  ∃ a k, partition_first nls (sdrop n (text (ls ++ [last]))) =
           Some (a, text (drop k (ls ++ [last]))) ∧ (k <= List.length ls)%nat.
Proof.
  revert n. induction ls as [|x ls IH]; intros n Hl Hn.
  - exfalso. revert Hn. unfold text. simpl. lia.
  - apply Forall_cons in Hl as [(body & -> & Hb) Hl].
    change (((body +:+ nls) :: ls) ++ [last]) with ((body +:+ nls) :: (ls ++ [last])) in *.
    rewrite text_cons in *. destruct (decide (n <= slen body)%nat) as [Hk|Hk].
    + exists (sdrop n body), 1%nat. split; [|simpl; lia].
      rewrite app_assoc_s, sdrop_app_le by done. apply partition_line. by apply one_line_sdrop.
    + rewrite slen_app in Hn. rewrite slen_app in Hn. change (slen nls) with 1%nat in Hn.
      destruct (IH (n - slen (body +:+ nls))%nat) as (a & k & Hp & Hle); [done|..].
      { rewrite slen_app. change (slen nls) with 1%nat. lia. }
      exists a, (S k). split; [|simpl; lia]. rewrite sdrop_app_ge; [done|].
      rewrite slen_app. change (slen nls) with 1%nat. lia.
Qed.
Lemma partition_nl_join s : ∀ a b, partition_first nls s = Some (a, b) → s = a +:+ (nls +:+ b).
Proof.
  induction s as [|c s IH]; intros a b; [done|].
  destruct (Ascii.eqb c nl) eqn:E.
  - apply Ascii.eqb_eq in E as ->. unfold nls. cbn. destruct s; intros [= <- <-]; done.
  - rewrite partition_nl by done. destruct (partition_first nls s) as [[a' b']|]; [|done].
    intros [= <- <-]. by rewrite (IH a' b').
Qed.

Lemma text_nonempty k ls last : is_line last → (k <= List.length ls)%nat →
  text (drop k (ls ++ [last])) ≠ "".
Proof.
  intros (b & -> & _) Hk H. rewrite drop_app_le, text_app in H by done.
  apply (f_equal slen) in H. rewrite slen_app in H. unfold text in H at 2. simpl in H.
  rewrite slen_app in H. simpl in H. lia.
Qed.

(** What the file holds after the lines [ls] were written: the last ones. *)
Definition holds_last (max : Z) (ls : list string) (file : option string) : Prop :=
  match file with
  | None => ls = []
  | Some data => ∃ k, data = text (drop k ls) ∧ (k < List.length ls)%nat ∧
                      (Z.of_nat (slen data) <= max)%Z
  end.

Lemma truncated_lines keep ls last :
  Forall is_line (ls ++ [last]) → (0 < keep)%Z → (Z.of_nat (slen last) < keep)%Z →
  (keep <= Z.of_nat (slen (text (ls ++ [last]))))%Z →
  ∃ k, truncated keep (text (ls ++ [last])) = text (drop k (ls ++ [last])) ∧
       (k <= List.length ls)%nat ∧
       (Z.of_nat (slen (truncated keep (text (ls ++ [last])))) <= keep)%Z.
Proof.
  intros Hl Hk Hs Hlen. unfold truncated, from_end, slast.
  destruct (Z.ltb_spec 0 keep); [|lia].
  set (n := (slen (text (ls ++ [last])) - Z.to_nat keep)%nat).
  destruct (cut_lines n ls last Hl) as (a & k & Hp & Hle); [lia|].
  rewrite Hp. apply partition_nl_join in Hp. apply Forall_app in Hl as [_ Hl].
  apply Forall_cons in Hl as [Hl _].
  destruct (String.eqb_spec (text (drop k (ls ++ [last]))) "") as [E|_];
    [by apply text_nonempty in E|].
  exists k. split; [done|]. split; [done|]. apply (f_equal slen) in Hp.
  rewrite slen_sdrop, !slen_app in Hp. lia.
Qed.

Lemma write_holds now kind fields max keep ls file :
  (0 < keep <= max)%Z → (Z.of_nat (slen (line now kind fields)) < keep)%Z → Forall is_line ls →
  holds_last max ls file →
  holds_last max (ls ++ [line now kind fields])
    (EventStore.file (write now kind fields (EventStore.Mk max keep file))).
Proof.
  intros Hk Hs Hls Hf. pose proof (line_is_line now kind fields) as Hline. unfold write. simpl.
  set (l := line now kind fields) in *.
  assert (∃ j, default "" file = text (drop j ls) ∧ (j <= List.length ls)%nat) as (j & Hj & Hjl).
  { destruct file as [data|]; simpl in *; [destruct Hf as (k & -> & ? & _); exists k; split; [done|lia]|].
    subst. by exists 0%nat. }
  rewrite Hj. assert (text (drop j ls) +:+ l = text (drop j ls ++ [l])) as ->.
  { rewrite text_app. unfold text at 3. done. }
  assert (drop j ls ++ [l] = drop j (ls ++ [l])) as Hdrop by by rewrite drop_app_le.
  destruct (Z.ltb_spec max (Z.of_nat (slen (text (drop j ls ++ [l]))))) as [Hbig|Hsmall].
  - destruct (truncated_lines keep (drop j ls) l) as (k & Ht & Hkl & Hlen); [|lia..|].
    { apply Forall_app. split; [by apply Forall_drop|by repeat constructor]. }
    exists (j + k)%nat. rewrite Ht in *. rewrite Hdrop, drop_drop in *.
    rewrite length_drop in Hkl. rewrite length_app. simpl. split; [done|]. lia.
  - exists j. rewrite Hdrop in *. rewrite length_app. simpl. split; [done|]. lia.
Qed.

Definition write_all (ws : list (pyfloat * string * dict)) (s : EventStore.t) : EventStore.t :=
  foldl (λ s w, write w.1.1 w.1.2 w.2 s) s ws.
Definition lines_of (ws : list (pyfloat * string * dict)) : list string :=
  (λ w, line w.1.1 w.1.2 w.2) <$> ws.

(** C39. However many events are written, the file stays within its bound and holds
    whole lines: the most recent ones, the last event among them, each the JSON
    text of one event, as long as every single line is shorter than the tail
    kept. *)
Theorem event_file_whole_lines max keep ws :
  (0 < keep <= max)%Z →
  Forall (λ l, (Z.of_nat (slen l) < keep)%Z) (lines_of ws) →
  holds_last max (lines_of ws) (EventStore.file (write_all ws (EventStore.Mk max keep None))).
Proof.
  intros Hk. induction ws as [|[[now kind] fields] ws IH] using rev_ind; intros Hs; [done|].
  unfold lines_of in *. rewrite fmap_app in *. apply Forall_app in Hs as [Hs Hl].
  apply Forall_cons in Hl as [Hl _]. specialize (IH Hs). simpl in Hl.
  unfold write_all. rewrite foldl_app. fold (write_all ws (EventStore.Mk max keep None)).
  assert (write_all ws (EventStore.Mk max keep None) =
          EventStore.Mk max keep (EventStore.file (write_all ws (EventStore.Mk max keep None)))) as ->.
  { clear. induction ws as [|w ws IH] using rev_ind; [done|].
    unfold write_all. rewrite foldl_app. simpl. fold (write_all ws (EventStore.Mk max keep None)).
    rewrite IH. done. }
  apply write_holds; try done. apply Forall_fmap, Forall_true. intros. apply line_is_line.
Qed.

(** Three events in a file of 150 bytes keeping 100: the first is cut away. *)
Definition sample_writes : list (pyfloat * string * dict) :=
  [(fz 1, "socket.closed", [("clean", JBool true)]); (fz 2, "command", [("id", JInt 7); ("ok", JBool true)]);
   (fz 3, "command", [("id", JInt 8); ("ok", JBool false)])].

Lemma event_file_whole_lines_witness :
  EventStore.file (write_all sample_writes (EventStore.Mk 120 80 None)) =
    Some (text (drop 2 (lines_of sample_writes))) ∧
  holds_last 120 (lines_of sample_writes)
    (EventStore.file (write_all sample_writes (EventStore.Mk 120 80 None))).
Proof.
  split; [vm_compute; reflexivity|]. apply event_file_whole_lines; [lia|].
  repeat constructor; vm_compute; reflexivity.
Defined.
End EventFile.
