(* ===== verification/Prefetch.v ===== *)
(** * Image prefetch (agent/cache/prefetch.py, agent/cache/pull_lock.py)

    Warming an image: what docker already has, whether it fits on the disk, the
    pull under the machine's pull lock, and the check of the digest that was
    asked for.  The machine ([Box]) answers the commands, tells the time, the
    free space and whether the lock file can be opened and locked; the state file
    is a document replaced atomically (operations on it are taken to succeed). *)

From stdpp Require Import sorting.
From Stdlib Require Import Ascii String QArith Lqa.
From S2P Require Import Prelude.
From S2P Require Import PyStr.
From S2P Require Import PyRe.
From S2P Require Import PyFloat.
From S2P Require Import PyJson.
From S2P Require Import PyDump.
From S2P Require Import Messages.
From S2P Require Import SessionProto.
Local Open Scope string_scope.
Local Open Scope list_scope.

Definition PULL_TIMEOUT : pyfloat := fz 900.
Definition MANIFEST_TIMEOUT : pyfloat := fz 20.
Definition INSPECT_TIMEOUT : pyfloat := fz 15.
Definition LOCK_WAIT : pyfloat := fz 600.
Definition STATE_LIMIT : Z := 4096.
Definition FREE_MULTIPLIER : Z := 3.
Definition DOCKER_ROOT : string := "/var/lib/docker".
Definition POLL_SECONDS : pyfloat := flit (1 # 2).

Definition lower_digit : ascii → bool := λ c, is_lower_ascii c || is_digit c.
Definition REFERENCE : re :=
  RCat (RCls lower_digit)
    (RCat (RStar (RCls (λ c, lower_digit c || one_of "._/-" c)))
       (RCat (ropt (RCat (rchar ":") (rplus (RCls (λ c, is_alnum_ascii c || one_of "._-" c)))))
          (ropt (RCat (rlit "@sha256:") (rep 64 (RCls is_hex)))))).

(** ** The machine *)

Record Box (H : Type) : Type := MkBox {
  sub : list string → pyfloat → H → (Z * string) * H;
  lock_opens : H → bool;
  lock_free : H → bool;
  rest : pyfloat → H → H;
  clock : H → pyfloat;
  wall : H → pyfloat;
  disk_free : string → H → option Z;
  loads : string → option json;
  started_at : pyfloat }.
Arguments sub {H}. Arguments lock_opens {H}. Arguments lock_free {H}. Arguments rest {H}.
Arguments clock {H}. Arguments wall {H}. Arguments disk_free {H}. Arguments loads {H}.
Arguments started_at {H}.

(** [ran] is the log of the commands with their results. *)
Record St (H : Type) : Type := MkSt {
  host : H; ran : list (list string * (Z * string)); file : document;
  events : list (string * dict) }.
Arguments MkSt {H}. Arguments host {H}. Arguments ran {H}. Arguments file {H}. Arguments events {H}.

Definition PM (H A : Type) : Type := St H → res A * St H.
#[export] Instance PM_ret {H} : MRet (PM H) := λ A a st, (Ok a, st).
#[export] Instance PM_bind {H} : MBind (PM H) := λ A B f m st,
  match m st with (Ok a, st') => f a st' | (Raise e, st') => (Raise e, st') end.
Definition lift {H A} (r : res A) : PM H A := λ st, (r, st).



(** [_run(args, timeout)]: a timeout and a program that cannot be started are
    exit codes too. *)
Definition run_ {H} (box : Box H) (args : list string) (timeout : pyfloat) : PM H (Z * string) := λ st,
  let '(r, h) := box.(sub) args timeout st.(host) in
  (Ok r, MkSt h (st.(ran) ++ [(args, r)]) st.(file) st.(events)).
Definition now {H} (box : Box H) : PM H pyfloat := λ st, (Ok (box.(clock) st.(host)), st).
Definition write_event {H} (kind : string) (fields : dict) : PM H unit := λ st,
  (Ok tt, MkSt st.(host) st.(ran) st.(file) (st.(events) ++ [(kind, fields)])).

(** ** The pull lock *)

Inductive lock_result : Type := Locked (degraded : bool) | PullBusy.

(** The polling loop of [PullLock.acquire] after a deadline; the fuel of
    [acquire] is enough for the clock of the machine to pass it. *)
Fixpoint poll_lock {H} (box : Box H) (deadline : pyfloat) (fuel : nat) (h : H) : res lock_result * H :=
  if box.(lock_free) h then (Ok (Locked false), h)
  else if fle deadline (box.(clock) h) then (Ok PullBusy, h)
  else match fuel with
       | O => (Raise Diverged, h)
       | S fuel' => poll_lock box deadline fuel' (box.(rest) POLL_SECONDS h)
       end.

Definition LOCK_FUEL : nat := 1202.

Definition acquire {H} (box : Box H) (timeout : pyfloat) : PM H lock_result := λ st,
  if box.(lock_opens) st.(host) then
    let '(r, h) := poll_lock box (fadd (box.(clock) st.(host)) timeout) LOCK_FUEL st.(host) in
    (r, MkSt h st.(ran) st.(file) st.(events))
  else (Ok (Locked true), st).

(** ** The state file *)

Definition encode (state : dict) : string := dumps (sort_keys (JDict state)).

Definition load {H} (box : Box H) (d : document) : dict :=
  let parsed := match d with Holds (JDict p) => p | _ => [] end in
  let parsed := dsetdefault "started_at" (JFloat box.(started_at)) parsed in
  let parsed := dsetdefault "sweep_count" (JInt 0) parsed in
  let parsed := dsetdefault "images" (JDict []) parsed in
  if is_dict (getv "images" parsed) then parsed else dset "images" (JDict []) parsed.

(** [float(images[name].get("pulled_at", 0) or 0)] *)
Definition pulled_at (entry : json) : res pyfloat :=
  v ← jget "pulled_at" (JInt 0) entry; py_float (jor v (JInt 0)).

(** [min(images, key=...)]: the first of the least keys. *)
Fixpoint oldest_from (best : string) (age : pyfloat) (images : list (string * pyfloat)) : string :=
  match images with
  | [] => best
  | (k, a) :: l => if flt a age then oldest_from k a l else oldest_from best age l
  end.
Definition oldest (images : dict) : res string :=
  ages ← map_values pulled_at images;
  match ages with [] => Raise ValueError | (k, a) :: l => Ok (oldest_from k a l) end.

(** The loop of [save]: every turn drops an image. *)
Fixpoint shrink (fuel : nat) (state : dict) (images : dict) : res dict :=
  if ((STATE_LIMIT <? Z.of_nat (slen (encode state))) && negb (bool_decide (images = [])))%Z then
    match fuel with
    | O => Raise Diverged
    | S fuel' =>
        name ← oldest images;
        let images := dpop name images in
        shrink fuel' (dset "images" (JDict images) state) images
    end
  else Ok state.

Definition images_of (state : dict) : dict :=
  match getv "images" state with JDict i => i | _ => [] end.

(** What [save] writes: the file is read back as the value encoded, with its
    keys sorted. *)
Definition saved {H} (box : Box H) (moment : pyfloat) (state : dict) : res dict :=
  let state := dset "started_at" (jor (getv "started_at" state) (JFloat box.(started_at))) state in
  count ← get_int_or "sweep_count" 0 state;
  let state := dset "sweep_count" (JInt count) state in
  let state := dset "updated_at" (stamp moment) state in
  let images := images_of state in
  shrink (List.length images) state images.

Definition save {H} (box : Box H) (state : dict) : PM H unit := λ st,
  match saved box (box.(wall) st.(host)) state with
  | Ok s => (Ok tt, MkSt st.(host) st.(ran) (Holds (sort_keys (JDict s))) st.(events))
  | Raise e => (Raise e, st)
  end.

Definition recorded {H} (box : Box H) (reference : string) (fields : dict) (moment : pyfloat)
    (state : dict) : res dict :=
  let entry := foldl (λ d kv, dset kv.1 kv.2 d) [("pulled_at", stamp moment)] fields in
  let state := dset "images" (JDict (dset reference (JDict entry) (images_of state))) state in
  count ← get_int_or "sweep_count" 0 state;
  mret (dset "sweep_count" (JInt (count + 1)) state).

Definition record {H} (box : Box H) (reference : string) (fields : dict) : PM H unit := λ st,
  (state ← lift (recorded box reference fields (box.(wall) st.(host)) (load box st.(file)));
   save box state) st.

Definition noted {H} (box : Box H) (reference error : string) (moment : pyfloat) (state : dict)
    : res dict :=
  let state := dset "last_error" (JDict [("reference", JStr reference);
                 ("error", JStr (stake 300 error)); ("at", stamp moment)]) state in
  count ← get_int_or "sweep_count" 0 state;
  mret (dset "sweep_count" (JInt (count + 1)) state).

Definition note_error {H} (box : Box H) (reference error : string) : PM H unit := λ st,
  (state ← lift (noted box reference error (box.(wall) st.(host)) (load box st.(file)));
   save box state) st.

(** ** What docker says of an image *)

(** [out.strip().splitlines()[-1]] parsed; [None] for no line or no JSON. *)
Definition last_line_json {H} (box : Box H) (out : string) : option json :=
  match List.rev (splitlines (strip out)) with [] => None | line :: _ => box.(loads) line end.

Definition repo_digests {H} (box : Box H) (reference : string) : PM H (list string) :=
  r ← run_ box ["docker"; "image"; "inspect"; "--format"; "{{json .RepoDigests}}"; reference]
        INSPECT_TIMEOUT;
  let '(code, out) := r in
  if negb (code =? 0)%Z then mret [] else
  mret (match last_line_json box out with Some (JList l) => py_str <$> l | _ => [] end).

Definition manifest_of (entry : json) : json :=
  match entry with
  | JDict d => jor (jor (getv "SchemaV2Manifest" d) (getv "OCIManifest" d)) (JDict [])
  | _ => JDict []
  end.
Definition layers_of (entry : json) : option (list json) :=
  match manifest_of entry with
  | JDict m => match getv "layers" m with JList l => Some l | _ => None end
  | _ => None
  end.
Fixpoint layer_sum (layers : list json) : res Z :=
  match layers with
  | [] => Ok 0%Z
  | JDict d :: l => size ← get_int_or "size" 0 d; rest ← layer_sum l; mret (size + rest)%Z
  | _ :: l => layer_sum l
  end.
Fixpoint sizes_of (entries : list json) : res (list Z) :=
  match entries with
  | [] => Ok []
  | e :: l =>
      match layers_of e with
      | Some layers => s ← layer_sum layers; rest ← sizes_of l; mret (s :: rest)
      | None => sizes_of l
      end
  end.

Definition image_size {H} (box : Box H) (reference : string) : PM H Z :=
  r ← run_ box ["docker"; "manifest"; "inspect"; "--verbose"; reference] MANIFEST_TIMEOUT;
  let '(code, out) := r in
  if negb (code =? 0)%Z then mret 0%Z else
  match box.(loads) (strip out) with
  | None => mret 0%Z
  | Some parsed =>
      sizes ← lift (sizes_of (match parsed with JList l => l | _ => [parsed] end));
      mret (match sizes with [] => 0%Z | s :: l => foldl Z.max s l end)
  end.

Definition free_bytes {H} (box : Box H) : PM H Z := λ st,
  (Ok (match box.(disk_free) DOCKER_ROOT st.(host) with
       | Some n => n
       | None => default 0%Z (box.(disk_free) "/" st.(host))
       end), st).

(** ** [warm] *)

Definition carries (digest : string) (digests : list string) : bool :=
  existsb (endswith ("@" +:+ digest)) digests.

(** [digests[0].split("@", 1)[1] if digests and "@" in digests[0] else ""] *)
Definition first_digest (digests : list string) : string :=
  match digests with
  | d :: _ => match partition_first "@" d with Some (_, b) => b | None => "" end
  | [] => ""
  end.

Definition failed (result : dict) (error : string) : dict := dset "error" (JStr error) result.

(** The end of [warm], after the pull. *)
Definition judge_pull {H} (box : Box H) (request : PrefetchRequest.t) (reference : string)
    (size : Z) (seconds : json) (code : Z) (out : string) (result : dict) : PM H dict :=
  if negb (code =? 0)%Z then
    let error := "docker pull failed (" +:+ str_of_Z code +:+ "): " +:+ slast 300 (strip out) in
    _ ← note_error box reference error;
    _ ← write_event "image.prefetch" [("image", JStr reference); ("ok", JBool false);
                                      ("error", JStr error)];
    mret (failed result error)
  else
  digests ← repo_digests box reference;
  let result := dset "repo_digests" (JList (JStr <$> digests)) result in
  let digest := PrefetchRequest.digest request in
  if negb (String.eqb digest "") && negb (carries digest digests) then
    let error := "pulled image does not carry the requested digest" in
    _ ← note_error box reference error;
    _ ← write_event "image.prefetch" [("image", JStr reference); ("ok", JBool false);
                                      ("error", JStr error)];
    mret (failed result error)
  else
    let pulled := if String.eqb digest "" then first_digest digests else digest in
    _ ← record box reference [("digest", JStr pulled); ("size_bytes", JInt size); ("seconds", seconds)];
    _ ← write_event "image.prefetch" [("image", JStr reference); ("ok", JBool true);
                                      ("digest", JStr pulled); ("seconds", seconds)];
    mret (dset "pulled_digest" (JStr pulled) (dset "warm" (JBool true) (dset "ok" (JBool true) result))).

(** From the lock on. *)
Definition pull {H} (box : Box H) (request : PrefetchRequest.t) (reference : string) (size : Z)
    (result : dict) : PM H dict :=
  lock ← acquire box LOCK_WAIT;
  match lock with
  | PullBusy =>
      _ ← note_error box reference "another pull holds the lock";
      mret (failed result "another pull holds the lock")
  | Locked degraded =>
      started ← now box;
      r ← run_ box ["docker"; "pull"; reference] PULL_TIMEOUT;
      ended ← now box;
      let seconds := JFloat (fround 1 (fsub ended started)) in
      let result := dset "lock_degraded" (JBool degraded) (dset "pull_seconds" seconds result) in
      judge_pull box request reference size seconds r.1 r.2 result
  end.

Definition warm {H} (box : Box H) (request : PrefetchRequest.t) : PM H dict :=
  let reference := PrefetchRequest.reference request in
  let digest := PrefetchRequest.digest request in
  let result := [("image", JStr (PrefetchRequest.image request)); ("digest", JStr digest);
                 ("reference", JStr reference)] in
  if String.eqb reference "" || negb (re_dollar REFERENCE reference) then
    mret (failed result "invalid image reference")
  else if negb (String.eqb digest "") && negb (well_formed_digest digest) then
    mret (failed result "invalid digest")
  else
  present ← repo_digests box reference;
  if negb (String.eqb digest "") && carries digest present then
    _ ← record box reference [("digest", JStr digest); ("size_bytes", JInt 0);
                              ("already_present", JBool true)];
    mret (dset "already_present" (JBool true) (dset "warm" (JBool true) (dset "ok" (JBool true) result)))
  else
  size ← image_size box reference;
  if (size =? 0)%Z then pull box request reference size result else
  free ← free_bytes box;
  let result := dset "free_bytes" (JInt free) (dset "size_bytes" (JInt size) result) in
  if (negb (free =? 0) && (free <? size * FREE_MULTIPLIER))%Z then
    _ ← note_error box reference "not enough free disk for the image";
    mret (failed result "not enough free disk for the image")
  else pull box request reference size result.

(** ** Facts *)

Lemma PM_bind_ok {H A B} (m : PM H A) (f : A → PM H B) st b st' :
  (m ≫= f) st = (Ok b, st') → ∃ a st1, m st = (Ok a, st1) ∧ f a st1 = (Ok b, st').
Proof. unfold mbind, PM_bind. destruct (m st) as [[a|e] st1]; [eauto|done]. Qed.

Lemma PM_ret_ok {H A} (a b : A) (st st' : St H) :
  (mret a : PM H A) st = (Ok b, st') → a = b ∧ st = st'.
Proof. by intros [= -> ->]. Qed.

Ltac pm_inv :=
  repeat match goal with
  | H : (_ ≫= _) _ = (Ok _, _) |- _ =>
      apply PM_bind_ok in H; let a := fresh "a" in let s := fresh "st" in let Ha := fresh "Ha" in
      destruct H as (a & s & Ha & H)
  | H : mret _ _ = (Ok _, _) |- _ => apply PM_ret_ok in H as [? ?]; subst
  end.

(** Computations that run no command. *)
Definition silent {H A} (m : PM H A) : Prop := ∀ st, ran (m st).2 = ran st.

Lemma silent_save {H} (box : Box H) s : silent (save box s).
Proof. intros st. unfold save. by destruct (saved _ _ _). Qed.

Lemma silent_bind {H A B} (m : PM H A) (f : A → PM H B) :
  silent m → (∀ a, silent (f a)) → silent (m ≫= f).
Proof.
  intros Hm Hf st. unfold mbind, PM_bind. specialize (Hm st).
  destruct (m st) as [[a|e] st1]; simpl in *; [rewrite Hf|]; done.
Qed.

Lemma silent_ret {H A} (a : A) : silent (mret a : PM H A).
Proof. done. Qed.

Lemma silent_lift {H A} (r : res A) : silent (lift r : PM H A).
Proof. done. Qed.

Lemma silent_note {H} (box : Box H) r e : silent (note_error box r e).
Proof. intros st. unfold note_error. rewrite (silent_bind (lift _)); [done..|]. intros. apply silent_save. Qed.

Lemma silent_record {H} (box : Box H) r f : silent (record box r f).
Proof. intros st. unfold record. rewrite (silent_bind (lift _)); [done..|]. intros. apply silent_save. Qed.

Lemma silent_event {H} k f : silent (write_event k f : PM H unit).
Proof. done. Qed.

Lemma silent_acquire {H} (box : Box H) t : silent (acquire box t).
Proof. intros st. unfold acquire. case_match; [|done]. by destruct (poll_lock _ _ _ _). Qed.

Lemma silent_now {H} (box : Box H) : silent (now box).
Proof. done. Qed.

Lemma silent_free {H} (box : Box H) : silent (free_bytes box).
Proof. done. Qed.

Lemma silent_ran {H A} (m : PM H A) st a st' : silent m → m st = (Ok a, st') → ran st' = ran st.
Proof. intros Hm E. specialize (Hm st). by rewrite E in Hm. Qed.

Lemma run_ok {H} (box : Box H) args t st r st' :
  run_ box args t st = (Ok r, st') → ran st' = ran st ++ [(args, r)].
Proof. unfold run_. destruct (sub _ _ _ _) as [r' h]. by intros [= <- <-]. Qed.

(** What a listing of the image's digests shows. *)
Definition inspect_command (reference : string) : list string :=
  ["docker"; "image"; "inspect"; "--format"; "{{json .RepoDigests}}"; reference].
Definition listed {H} (box : Box H) (r : Z * string) : list string :=
  if negb (r.1 =? 0)%Z then []
  else match last_line_json box r.2 with Some (JList l) => py_str <$> l | _ => [] end.

Lemma repo_digests_ok {H} (box : Box H) reference st ds st' :
  repo_digests box reference st = (Ok ds, st') →
  ∃ r, ran st' = ran st ++ [(inspect_command reference, r)] ∧ ds = listed box r.
Proof.
  unfold repo_digests, listed. intros E. pm_inv. destruct a as [code out]. apply run_ok in Ha.
  exists (code, out). cbn [fst snd]. case_match; pm_inv; done.
Qed.

Lemma image_size_ok {H} (box : Box H) reference st n st' :
  image_size box reference st = (Ok n, st') →
  ∃ r, ran st' = ran st ++ [(["docker"; "manifest"; "inspect"; "--verbose"; reference], r)].
Proof.
  unfold image_size. intros E. pm_inv. destruct a as [code out]. apply run_ok in Ha.
  exists (code, out). rewrite <- Ha. case_match; [by pm_inv|].
  case_match; [|by pm_inv]. pm_inv. by apply silent_ran in Ha0.
Qed.

Definition is_ok (result : dict) : Prop := getv "ok" result = JBool true.
Definition has_error (result : dict) : Prop := ∃ e, getv "error" result = JStr e.

(** The last command of [ran] is the listing that shows the digest, if one was
    asked for; before it came a successful pull or the image was there. *)
Definition confirmed {H} (box : Box H) (reference digest : string) (before after : list (list string * (Z * string)))
    : Prop :=
  ∃ extra r, after = before ++ extra ++ [(inspect_command reference, r)] ∧
    (digest ≠ "" → carries digest (listed box r) = true) ∧
    ((extra = [] ∧ digest ≠ "") ∨
     ∃ out, List.last extra ([], (1%Z, "")) = (["docker"; "pull"; reference], (0%Z, out))).

Lemma last_snoc' {A} (l : list A) x d : List.last (l ++ [x]) d = x.
Proof. apply List.last_last. Qed.

Definition verdict_ok {H} (box : Box H) (reference digest : string)
    (before after : list (list string * (Z * string))) (result : dict) : Prop :=
  (is_ok result ∧ confirmed box reference digest before after) ∨
  (has_error result ∧ dget "ok" result = None).

Lemma failed_verdict {H} (box : Box H) reference digest b a result e :
  dget "ok" result = None → verdict_ok box reference digest b a (failed result e).
Proof.
  intros Hn. right. unfold has_error, failed, getv, getd. split.
  - exists e. by rewrite dget_dset.
  - by rewrite dget_dset_ne.
Qed.

Lemma dset_ok k v (result : dict) : k ≠ "ok" → dget "ok" result = None → dget "ok" (dset k v result) = None.
Proof. intros. by rewrite dget_dset_ne. Qed.

Lemma after_note {H} (box : Box H) reference digest b r e ev result st out st' :
  (_ ← note_error box r e; _ ← write_event "image.prefetch" ev; mret (failed result e)) st = (Ok out, st') →
  dget "ok" result = None → verdict_ok box reference digest b (ran st') out.
Proof. intros E Hn. pm_inv. by apply failed_verdict. Qed.

Lemma judge_pull_ok {H} (box : Box H) request reference size seconds code out result st res st' before extra :
  dget "ok" result = None →
  ran st = before ++ extra ++ [(["docker"; "pull"; reference], (code, out))] →
  judge_pull box request reference size seconds code out result st = (Ok res, st') →
  verdict_ok box reference (PrefetchRequest.digest request) before (ran st') res.
Proof.
  intros Hn Hran E. unfold judge_pull in E. destruct (Z.eqb_spec code 0) as [->|Hc]; cbn [negb] in E.
  2:{ by eapply after_note. }
  apply PM_bind_ok in E as (ds & st1 & (r & Hr & ->)%repo_digests_ok & E).
  assert (dget "ok" (dset "repo_digests" (JList (JStr <$> listed box r)) result) = None) as Hn'
    by by apply dset_ok.
  destruct (negb (String.eqb (PrefetchRequest.digest request) "") &&
            negb (carries (PrefetchRequest.digest request) (listed box r))) eqn:Hd.
  - by eapply after_note.
  - pm_inv. left. unfold is_ok, getv, getd. split.
    + by rewrite !dget_dset_ne, dget_dset by done.
    + apply silent_ran in Ha; [|apply silent_record]. apply silent_ran in Ha0; [|apply silent_event].
      exists (extra ++ [(["docker"; "pull"; reference], (0%Z, out))]), r.
      split; [by rewrite Ha0, Ha, Hr, Hran, <- !app_assoc|]. split.
      * intros Hne. apply andb_false_iff in Hd as [Hd|Hd]; apply negb_false_iff in Hd; [|done].
        by apply String.eqb_eq in Hd.
      * right. exists out. apply last_snoc'.
Qed.

Lemma pull_ok {H} (box : Box H) request reference size result st res st' before extra :
  dget "ok" result = None → ran st = before ++ extra →
  pull box request reference size result st = (Ok res, st') →
  verdict_ok box reference (PrefetchRequest.digest request) before (ran st') res.
Proof.
  intros Hn Hran E. unfold pull in E.
  apply PM_bind_ok in E as (lock & st1 & Hl & E). apply silent_ran in Hl; [|apply silent_acquire].
  destruct lock as [degraded|]; [|pm_inv; by apply failed_verdict].
  apply PM_bind_ok in E as (t0 & st2 & Ht & E). apply silent_ran in Ht; [|apply silent_now].
  apply PM_bind_ok in E as ([code out] & st3 & Hr & E). apply run_ok in Hr.
  apply PM_bind_ok in E as (t1 & st4 & Ht1 & E). apply silent_ran in Ht1; [|apply silent_now].
  eapply judge_pull_ok with (extra := extra); [|..|exact E].
  - by apply dset_ok, dset_ok.
  - by rewrite Ht1, Hr, Ht, Hl, Hran, <- app_assoc.
Qed.

(** An image is reported warm only on docker's own word: the reference has the
    accepted form and, when a digest is asked for, the last command of the
    prefetch lists it among the image's digests; unless it was already there, a
    pull of that reference succeeded just before.  Every other answer carries an
    error and no [ok]. *)
Lemma warm_verified {H} (box : Box H) request st result st' :
  warm box request st = (Ok result, st') →
  verdict_ok box (PrefetchRequest.reference request) (PrefetchRequest.digest request)
    (ran st) (ran st') result ∧
  (is_ok result →
   re_dollar REFERENCE (PrefetchRequest.reference request) = true ∧
   (PrefetchRequest.digest request ≠ "" →
    well_formed_digest (PrefetchRequest.digest request) = true)).
Proof.
  unfold warm. set (reference := PrefetchRequest.reference request).
  set (digest := PrefetchRequest.digest request).
  set (result0 := [("image", JStr (PrefetchRequest.image request)); ("digest", JStr digest);
                   ("reference", JStr reference)]).
  assert (dget "ok" result0 = None) as Hn by done.
  destruct (String.eqb reference "" || negb (re_dollar REFERENCE reference)) eqn:E1.
  { intros E. pm_inv. split; [by apply failed_verdict|]. unfold is_ok, failed, getv, getd. done. }
  destruct (negb (String.eqb digest "") && negb (well_formed_digest digest)) eqn:E2.
  { intros E. pm_inv. split; [by apply failed_verdict|]. done. }
  apply orb_false_iff in E1 as [_ E1%negb_false_iff].
  intros E. split; [|intros _; split; [done|]].
  2:{ intros Hne%String.eqb_neq. rewrite Hne in E2. simpl in E2. by apply negb_false_iff in E2. }
  apply PM_bind_ok in E as (ds & st1 & (r & Hr & ->)%repo_digests_ok & E).
  destruct (negb (String.eqb digest "") && carries digest (listed box r)) eqn:Hd.
  - pm_inv. left. split; [done|]. apply silent_ran in Ha; [|apply silent_record].
    apply andb_true_iff in Hd as [Hne%negb_true_iff%String.eqb_neq Hd].
    exists [], r. split; [by rewrite Ha, Hr|]. split; [done|]. by left.
  - apply PM_bind_ok in E as (size & st2 & (r2 & Hr2)%image_size_ok & E).
    rewrite Hr, <- app_assoc in Hr2. simpl in Hr2.
    destruct (size =? 0)%Z; [by eapply pull_ok|].
    apply PM_bind_ok in E as (free & st3 & Hf & E). apply silent_ran in Hf; [|apply silent_free].
    rewrite <- Hf in Hr2.
    match type of E with (if ?b then _ else _) _ = _ => destruct b end;
      [pm_inv; by apply failed_verdict|]. eapply pull_ok; [|exact Hr2|exact E]. reflexivity.
Qed.

(** ** The state file stays small *)

Lemma oldest_from_elem best age images :
  oldest_from best age images = best ∨ oldest_from best age images ∈ images.*1.
Proof.
  revert best age. induction images as [|[k a] l IH]; intros best age; simpl; [by left|].
  rewrite elem_of_cons. destruct (flt a age).
  - destruct (IH k a) as [->|?]; auto.
  - destruct (IH best age) as [->|?]; auto.
Qed.

Lemma map_values_keys {A} (f : json → res A) d l : map_values f d = Ok l → l.*1 = d.*1.
Proof.
  unfold map_values. revert l. induction d as [|[k v] d IH]; intros l; [by intros [= <-]|].
  change (mapM ?g ((k, v) :: d)) with (y ← g (k, v); r ← mapM g d; mret (y :: r)).
  intros E. res_inv. csimpl. f_equal. by apply IH.
Qed.

Lemma oldest_elem images name : oldest images = Ok name → name ∈ dkeys images.
Proof.
  unfold oldest, dkeys. intros E. res_inv. apply map_values_keys in Ha. rewrite <- Ha.
  destruct a as [|[k a] l]; [done|]. injection E as <-. csimpl.
  destruct (oldest_from_elem k a l) as [->|?]; [by left|by right].
Qed.

Lemma length_dpop {V} k (d : list (string * V)) : k ∈ dkeys d → (List.length (dpop k d) < List.length d)%nat.
Proof.
  intros (kv & -> & Hkv)%list_elem_of_fmap. unfold dpop.
  apply length_filter_lt with kv; [done|]. naive_solver.
Qed.

Lemma map_values_raise {A} (f : json → res A) d e :
  map_values f d = Raise e → ∃ j, f j = Raise e.
Proof.
  unfold map_values. induction d as [|[k v] d IH]; [done|].
  change (mapM ?g ((k, v) :: d)) with (y ← g (k, v); r ← mapM g d; mret (y :: r)). cbn [fst snd].
  destruct (f v) as [a|e'] eqn:E; cbn [mbind res_bind]; [|intros [= ->]; eauto].
  cbn [mret res_ret]. destruct (mapM _ d) as [|e'] eqn:E'; cbn [mbind res_bind]; [done|].
  intros [= ->]. by apply IH.
Qed.

Lemma pulled_at_ends j : pulled_at j ≠ Raise Diverged.
Proof.
  unfold pulled_at, jget. destruct j; cbn; try done. destruct (jor _ _); cbn; try done.
  - unfold float_of_int. by repeat case_match.
  - unfold of_option. by case_match.
Qed.

Lemma oldest_ends images : oldest images ≠ Raise Diverged.
Proof.
  unfold oldest. destruct (map_values pulled_at images) as [ages|e] eqn:E; cbn.
  - by destruct ages as [|[]].
  - intros [= ->]. apply map_values_raise in E as [j Hj]. by apply pulled_at_ends in Hj.
Qed.

(** The loop of [save] ends within its fuel, on a state that fits the limit or
    holds no image. *)
Lemma shrink_spec fuel state images :
  (List.length images <= fuel)%nat → getv "images" state = JDict images →
  match shrink fuel state images with
  | Ok s => (Z.of_nat (slen (encode s)) <= STATE_LIMIT)%Z ∨ getv "images" s = JDict []
  | Raise e => e ≠ Diverged
  end.
Proof.
  revert state images. induction fuel as [|fuel IH]; intros state images Hf Hi.
  - destruct images; [|simpl in Hf; lia]. unfold shrink. rewrite andb_false_r. by right.
  - cbn [shrink]. match goal with |- context [if ?b then _ else _] => destruct b eqn:E end.
    + destruct (oldest images) as [name|e] eqn:Ho; cbn [mbind res_bind].
      * apply IH; [|unfold getv, getd; by rewrite dget_dset].
        apply oldest_elem, length_dpop in Ho. lia.
      * intros ->; by apply oldest_ends in Ho.
    + apply andb_false_iff in E as [E|E]; [left; apply Z.ltb_ge in E; done|].
      apply negb_false_iff, bool_decide_eq_true in E as ->. by right.
Qed.

(** A clock of finite floats up to its last reading, which a rest between two polls
    advances by its half second. *)
Class BoxClock {H} (box : Box H) (limit : Q) : Prop := {
  box_reads : finite_clock limit box.(clock);
  box_rest : takes limit box.(clock) (1 # 2) (box.(rest) POLL_SECONDS) }.

(** Waiting for the pull lock ends within the fuel of [acquire]. *)
Lemma poll_lock_ends {H} (box : Box H) limit `{!BoxClock box limit} deadline past :
  (past + 1 <= limit)%Q → (∀ y, at_least past y → fle deadline y = true) →
  ∀ fuel q h, at_least q (box.(clock) h) → (past <= q + (1 # 2) * inject_Z (Z.of_nat fuel))%Q →
  ∃ r h', poll_lock box deadline fuel h = (Ok r, h').
Proof.
  intros Hl Hpast fuel. induction fuel as [|fuel IH]; intros q h Hq Hle; cbn [poll_lock].
  - destruct (lock_free box h); [by eexists _, _|]. rewrite Hpast; [by eexists _, _|].
    apply at_least_le with q; [|done]. change (inject_Z (Z.of_nat 0)) with 0%Q in Hle. lra.
  - destruct (lock_free box h); [by eexists _, _|]. destruct (fle _ _) eqn:E; [by eexists _, _|].
    assert (q < past)%Q as Hlt.
    { destruct (Qlt_le_dec q past) as [?|Hge]; [done|]. rewrite Hpast in E; [done|]. by apply (at_least_le _ q). }
    apply (IH (q + (1 # 2))%Q).
    + apply (at_least_takes limit); [apply box_reads|apply box_rest|lra|lra|done].
    + rewrite Nat2Z.inj_succ, <- Z.add_1_l, inject_Z_plus in Hle.
      change (inject_Z 1) with 1%Q in Hle. lra.
Qed.

Lemma at_least_num q x : at_least q x → is_num x = true.
Proof. by intros [->|(r & -> & _)]. Qed.

Lemma acquire_ends {H} (box : Box H) limit `{!BoxClock box limit} st r :
  box.(clock) st.(host) = FFin r → (r + 601 <= limit)%Q →
  ∃ out st', acquire box LOCK_WAIT st = (Ok out, st').
Proof.
  intros Hc Hl. unfold acquire. destruct (lock_opens box (host st)); [|by eexists _, _].
  destruct (box_reads (host st)) as (r' & Hr' & Hr & _). rewrite Hc in Hr'. injection Hr' as <-.
  rewrite Hc. change LOCK_WAIT with (FFin 600).
  assert (at_least r (FFin r)) as Hat by (right; exists r; split_and!; [done|done|apply Qle_refl]).
  assert (is_num (fadd (FFin r) (FFin 600)) = true) as Hnum by (cbn; unfold rnd; by repeat case_match).
  destruct (poll_lock_ends box limit (fadd (FFin r) (FFin 600)) (r + 600) ltac:(lra)) with
    (fuel := LOCK_FUEL) (q := r) (h := host st) as (o & h' & ->).
  - intros y Hy. apply not_flt_fle; [done|by apply at_least_num in Hy|].
    destruct Hy as [->|(z & -> & Hz & Hle)]; [by destruct (fadd _ _) as [|[]|]|].
    cbn [fadd]. apply (flt_rnd_mono (FFin z) (r + 600) z Hle). rewrite (rnd_id z Hz).
    apply flt_FFin_false, Qle_refl.
  - by rewrite Hc.
  - change (Z.of_nat LOCK_FUEL) with 1202%Z. change (inject_Z 1202) with 1202%Q. lra.
  - by eexists _, _.
Qed.

(** A box that has the image with the digest asked for: [loads] reads one
    listing. *)
Definition sample_digest : string :=
  "sha256:0123456789abcdef0123456789abcdef0123456789abcdef0123456789abcdef".
Definition sample_listing : string := "[digests]".
Definition sample_box : Box nat :=
  MkBox _ (λ args _ h, ((0%Z, if String.eqb (List.nth 1 args "") "image" then sample_listing else "{}"), S h))
    (λ _, true) (λ _, true) (λ _ h, S h) (λ h, fz (Z.of_nat h)) (λ h, fz (Z.of_nat h)) (λ _ _, None)
    (λ s, if String.eqb s sample_listing then Some (JList [JStr ("team/app@" +:+ sample_digest)])
          else Some (JDict [])) (fz 0).
(** A lock somebody holds for ever, on a clock of a thousand seconds: each rest
    takes one. *)
Definition held_box : Box nat :=
  MkBox _ (λ _ _ h, ((0%Z, ""), h)) (λ _, true) (λ _, false) (λ _ h, S h)
    (λ h, FFin (inject_Z (Z.min 1000 (Z.of_nat h)))) (λ _, f0) (λ _ _, None) (λ _, None) f0.

#[local] Instance held_clock : BoxClock held_box 1000.
Proof.
  split.
  - intros h. cbn. eexists. split; [done|]. split; [apply representable_Z; lia|].
    change 1000%Q with (inject_Z 1000). rewrite <- Zle_Qle. lia.
  - intros h a b. cbn [held_box clock rest]. intros [= <-] [= <-]. split; [rewrite <- Zle_Qle; lia|].
    intros Hle. assert (Z.min 1000 (Z.of_nat h) + 1 <= Z.min 1000 (Z.of_nat (S h)))%Z as Hz.
    { assert (Z.min 1000 (Z.of_nat h) < 1000)%Z; [|lia]. rewrite Zlt_Qlt. change (inject_Z 1000) with 1000%Q. lra. }
    rewrite Zle_Qle, inject_Z_plus in Hz. change (inject_Z 1) with 1%Q in Hz. lra.
Qed.

Example held_lock_given_up : ∃ out st', acquire held_box LOCK_WAIT (MkSt 0%nat [] Absent []) = (Ok out, st').
Proof. apply (acquire_ends held_box 1000 (MkSt 0%nat [] Absent []) 0); [reflexivity|]. change (601 <= 1000)%Q. lra. Qed.

Definition sample_request : PrefetchRequest.t := PrefetchRequest.Mk "team/app" sample_digest.

Example warm_present :
  (warm sample_box sample_request (MkSt 0%nat [] Absent [])).1 =
  Ok [("image", JStr "team/app"); ("digest", JStr sample_digest);
      ("reference", JStr ("team/app@" +:+ sample_digest)); ("ok", JBool true); ("warm", JBool true);
      ("already_present", JBool true)].
Proof. vm_compute. reflexivity. Qed.

Lemma warm_verified_witness :
  ∃ result st', warm sample_box sample_request (MkSt 0%nat [] Absent []) = (Ok result, st') ∧
    verdict_ok sample_box (PrefetchRequest.reference sample_request) sample_digest [] (ran st') result.
Proof.
  eexists _, _. split; [vm_compute; reflexivity|].
  eapply (warm_verified sample_box sample_request (MkSt 0%nat [] Absent [])). vm_compute. reflexivity.
Defined.
