(* ===== verification/PullLock.v ===== *)
(** * The pull lock (agent/cache/pull_lock.py)

    Programs on one machine that pull an image take an advisory lock on one file.
    [Prefetch] waits for it on its own clock; here is the lock itself, with the
    descriptors it opens and closes, and many programs that use it at once. *)

From S2P Require Import Prelude.
Local Open Scope list_scope.

(** The descriptors that are open, the one that has the lock, and the next one. *)
Record System : Type := MkSystem { opened : list nat; locked : option nat; fresh : nat }.

(** One object: its descriptor, and whether it goes on without a lock. *)
Record PullLock : Type := MkPullLock { fd : option nat; degraded : bool }.
Definition new_lock : PullLock := MkPullLock None false.

(** [os.open]; [os.close], after which the descriptor holds no lock. *)
Definition os_open (s : System) : nat * System := (s.(fresh), MkSystem (s.(fresh) :: s.(opened)) s.(locked) (S s.(fresh))).
Definition unlock (d : nat) (s : System) : System :=
  MkSystem s.(opened) (if decide (s.(locked) = Some d) then None else s.(locked)) s.(fresh).
Definition os_close (d : nat) (s : System) : System :=
  let s := unlock d s in MkSystem (List.filter (λ x, negb (x =? d)%nat) s.(opened)) s.(locked) s.(fresh).
(** [flock(fd, LOCK_EX | LOCK_NB)]: [None] is the [OSError]. *)
Definition flock (d : nat) (s : System) : option System :=
  match s.(locked) with
  | None => Some (MkSystem s.(opened) (Some d) s.(fresh))
  | Some d' => if decide (d' = d) then Some s else None
  end.

(** The first part of [acquire]: without fcntl, or without the file, it goes on degraded. *)
Definition begin_acquire (has_fcntl opens : bool) (l : PullLock) (s : System) : PullLock * System :=
  if negb has_fcntl || negb opens then (MkPullLock l.(fd) true, s)
  else let '(d, s) := os_open s in (MkPullLock (Some d) l.(degraded), s).

Inductive turn : Type := Acquired | Busy | Again.
(** One turn of its loop; [late] is whether the deadline has passed. *)
Definition poll (late : bool) (d : nat) (l : PullLock) (s : System) : turn * PullLock * System :=
  match flock d s with
  | Some s => (Acquired, l, s)
  | None => if late then (Busy, MkPullLock None l.(degraded), os_close d s) else (Again, l, s)
  end.

(** [release]; an error of the unlocking is suppressed, the descriptor is closed. *)
Definition release (unlocks : bool) (l : PullLock) (s : System) : PullLock * System :=
  match l.(fd) with
  | None => (l, s)
  | Some d => (MkPullLock None l.(degraded), os_close d (if unlocks then unlock d s else s))
  end.

(** ** Many programs *)

(** A program before, in the loop of [acquire], in the body of [with], or after it
    (also when [acquire] raised [PullBusy]). *)
Inductive stage : Type := Before | Waiting (d : nat) | Inside (l : PullLock) | After (l : PullLock).

Inductive step : System * list stage → System * list stage → Prop :=
  | enters s ps i has_fcntl opens : ps !! i = Some Before →
      step (s, ps) (let '(l, s) := begin_acquire has_fcntl opens new_lock s in
                    (s, <[i := match l.(fd) with Some d => Waiting d | None => Inside l end]> ps))
  | polls s ps i d late : ps !! i = Some (Waiting d) →
      step (s, ps) (match poll late d (MkPullLock (Some d) false) s with
                    | (Acquired, l, s) => (s, <[i := Inside l]> ps)
                    | (Busy, l, s) => (s, <[i := After l]> ps)
                    | (Again, _, s) => (s, ps)
                    end)
  | leaves s ps i l unlocks : ps !! i = Some (Inside l) →
      step (s, ps) (let '(l, s) := release unlocks l s in (s, <[i := After l]> ps)).

Definition reachable (n : nat) : System * list stage → Prop :=
  rtc step (MkSystem [] None 0, replicate n Before).

(** The descriptor a program has. *)
Definition has (p : stage) : option nat :=
  match p with Before => None | Waiting d => Some d | Inside l | After l => l.(fd) end.

(** Every open descriptor belongs to one program that waits or works, and the
    program that has the lock is inside. *)
Definition inv (c : System * list stage) : Prop :=
  let '(s, ps) := c in
  (∀ d, d ∈ s.(opened) ↔ ∃ i p, ps !! i = Some p ∧ has p = Some d) ∧
  (∀ i j p q d, ps !! i = Some p → ps !! j = Some q → has p = Some d → has q = Some d → i = j) ∧
  (∀ d, d ∈ s.(opened) → (d < s.(fresh))%nat) ∧
  (∀ i l, ps !! i = Some (After l) → l.(fd) = None) ∧
  (∀ i l, ps !! i = Some (Inside l) → l.(degraded) = false → ∃ d, l.(fd) = Some d ∧ s.(locked) = Some d) ∧
  (∀ d, s.(locked) = Some d → ∃ i l, ps !! i = Some (Inside l) ∧ l.(fd) = Some d).

Lemma closed_elem d x s : x ∈ (os_close d s).(opened) ↔ x ∈ s.(opened) ∧ x ≠ d.
Proof. cbn. rewrite elem_of_filter_b, negb_true_iff, Nat.eqb_neq. done. Qed.
Lemma closed_locked d x s : (os_close d s).(locked) = Some x ↔ s.(locked) = Some x ∧ x ≠ d.
Proof.
  cbn. case_decide as Hd; [split; [done|]; intros [E Hx]; congruence|].
  split; [intros E; split; [done|]; intros ->; by apply Hd|by intros [? _]].
Qed.

(** A program that has no descriptor gets one, and waits. *)
Lemma inv_opened s ps i : ps !! i = Some Before → inv (s, ps) →
  inv ((os_open s).2, <[i := Waiting s.(fresh)]> ps).
Proof.
  intros Hi (H1 & H2 & H3 & H4 & H5 & H6). unfold inv. cbn.
  assert (∀ j q, <[i := Waiting s.(fresh)]> ps !! j = Some q ↔
    j = i ∧ q = Waiting s.(fresh) ∨ j ≠ i ∧ ps !! j = Some q) as Hl.
  { intros j q. rewrite list_lookup_insert_Some. pose proof (lookup_lt_Some _ _ _ Hi). naive_solver. }
  assert (∀ j q, ps !! j = Some q → has q ≠ Some s.(fresh)) as Hnew.
  { intros j q Hq E. assert (s.(fresh) ∈ s.(opened)) as Hin by (apply H1; eauto). apply H3 in Hin. lia. }
  split_and!.
  - intros d. rewrite elem_of_cons, H1. setoid_rewrite Hl. split.
    + intros [->|(j & q & Hj & Hq)]; [exists i, (Waiting s.(fresh)); auto|].
      exists j, q. split; [|done]. right. split; [|done]. intros ->. rewrite Hi in Hj. by injection Hj as <-.
    + intros (j & q & [[-> ->]|[Hne Hj]] & Hq); [left; cbn in Hq; congruence|right; eauto].
  - intros j k p q d. rewrite !Hl. intros [[-> ->]|[Hj Hp]] [[-> ->]|[Hk Hq]] Ep Eq; [done| | |by eapply H2].
    + cbn in Ep. injection Ep as <-. by destruct (Hnew _ _ Hq).
    + cbn in Eq. injection Eq as <-. by destruct (Hnew _ _ Hp).
  - intros d [->|Hd]%elem_of_cons; [lia|]. apply H3 in Hd. lia.
  - intros j l. rewrite Hl. intros [[-> ?]|[_ Hj]]; [done|by eapply H4].
  - intros j l. rewrite Hl. intros [[-> ?]|[_ Hj]] Hdeg; [done|by eapply H5].
  - intros d Hd. destruct (H6 d Hd) as (j & l & Hj & Hf). exists j, l. rewrite Hl. split; [|done]. right.
    split; [|done]. intros ->. rewrite Hi in Hj. discriminate.
Qed.

(** A program changes its stage and keeps its descriptor, if it has one; the lock is
    taken only by the program that is inside with it. *)
Lemma inv_kept s ps i p p' lk : ps !! i = Some p → has p' = has p →
  (∀ l, p' = After l → l.(fd) = None) →
  (∀ l, p' = Inside l → l.(degraded) = false → ∃ d, l.(fd) = Some d ∧ lk = Some d) →
  (lk = s.(locked) ∧ (∀ l d, p = Inside l → l.(fd) ≠ Some d) ∨ s.(locked) = None ∧ ∃ l d, p' = Inside l ∧ l.(fd) = Some d ∧ lk = Some d) →
  inv (s, ps) → inv (MkSystem s.(opened) lk s.(fresh), <[i := p']> ps).
Proof.
  intros Hi Hh Ha Hin Hlk (H1 & H2 & H3 & H4 & H5 & H6). unfold inv. cbn [opened locked fresh].
  assert (∀ j q, <[i := p']> ps !! j = Some q ↔ j = i ∧ q = p' ∨ j ≠ i ∧ ps !! j = Some q) as Hl.
  { intros j q. rewrite list_lookup_insert_Some. pose proof (lookup_lt_Some _ _ _ Hi). naive_solver. }
  assert (∀ j q, <[i := p']> ps !! j = Some q → ∃ q', ps !! j = Some q' ∧ has q' = has q) as Hback.
  { intros j q. rewrite Hl. intros [[-> ->]|[_ Hj]]; [by exists p|by exists q]. }
  split_and!.
  - intros d. rewrite H1. split.
    + intros (j & q & Hj & Hq). destruct (decide (j = i)) as [->|Hne].
      * exists i, p'. rewrite Hl. split; [by left|]. rewrite Hi in Hj. injection Hj as <-. congruence.
      * exists j, q. rewrite Hl. split; [by right|done].
    + intros (j & q & Hj & Hq). apply Hback in Hj as (q' & Hj & E). exists j, q'. split; [done|congruence].
  - intros j k q1 q2 d Hj Hk E1 E2. apply Hback in Hj as (q1' & Hj & E1'). apply Hback in Hk as (q2' & Hk & E2').
    apply (H2 j k q1' q2' d Hj Hk); congruence.
  - exact H3.
  - intros j l. rewrite Hl. intros [[-> <-]|[_ Hj]]; [by apply Ha|by eapply H4].
  - intros j l. rewrite Hl. intros [[-> <-]|[_ Hj]] Hdeg; [by apply Hin|].
    destruct (H5 j l Hj Hdeg) as (d & Hd & Hlo). exists d. split; [done|].
    destruct Hlk as [[-> _]|[Hn _]]; [done|congruence].
  - intros d Hd. destruct Hlk as [[-> Hni]|[_ (l & d' & -> & Hf & ->)]].
    + destruct (H6 d Hd) as (j & l & Hj & Hf). exists j, l. rewrite Hl. split; [|done]. right. split; [|done].
      intros ->. rewrite Hi in Hj. injection Hj as Hj. by apply (Hni l d).
    + injection Hd as <-. exists i, l. rewrite Hl. split; [by left|done].
Qed.

(** A program closes its descriptor. *)
Lemma inv_closed s ps i p d b : ps !! i = Some p → has p = Some d → inv (s, ps) →
  inv (os_close d s, <[i := After (MkPullLock None b)]> ps).
Proof.
  intros Hi Hp (H1 & H2 & H3 & H4 & H5 & H6). unfold inv.
  assert (∀ j q, <[i := After (MkPullLock None b)]> ps !! j = Some q ↔
    j = i ∧ q = After (MkPullLock None b) ∨ j ≠ i ∧ ps !! j = Some q) as Hl.
  { intros j q. rewrite list_lookup_insert_Some. pose proof (lookup_lt_Some _ _ _ Hi). naive_solver. }
  assert (∀ j q, j ≠ i → ps !! j = Some q → has q ≠ Some d) as Hother by (intros j q Hne Hj E; apply Hne; eauto).
  split_and!.
  - intros x. rewrite closed_elem, H1. setoid_rewrite Hl. split.
    + intros [(j & q & Hj & Hq) Hx]. exists j, q. split; [|done]. right. split; [|done].
      intros ->. rewrite Hi in Hj. injection Hj as <-. congruence.
    + intros (j & q & [[-> ->]|[Hne Hj]] & Hq); [done|]. split; [eauto|]. intros ->. by eapply Hother.
  - intros j k q1 q2 x. rewrite !Hl. intros [[-> ->]|[Hj Hq1]] [[-> ->]|[Hk Hq2]] E1 E2; try done. eapply H2; eauto.
  - intros x [Hx _]%closed_elem. by apply H3.
  - intros j l. rewrite Hl. intros [[_ [= ->]]|[_ Hj]]; [done|by eapply H4].
  - intros j l. rewrite Hl. intros [[_ ?]|[Hne Hj]] Hdeg; [done|]. destruct (H5 j l Hj Hdeg) as (x & Hx & Hlo).
    exists x. split; [done|]. apply closed_locked. split; [done|]. intros ->. by apply (Hother j (Inside l)).
  - intros x [Hx Hne]%closed_locked. destruct (H6 x Hx) as (j & l & Hj & Hf). exists j, l. rewrite Hl. split; [|done].
    right. split; [|done]. intros ->. rewrite Hi in Hj. injection Hj as ->. cbn in Hp. congruence.
Qed.

Lemma lock_step c c' : step c c' → inv c → inv c'.
Proof.
  intros Hs. destruct Hs as [s ps i has_fcntl opens Hi|s ps i d late Hi|s ps i l unlocks Hi]; intros Hinv.
  - unfold begin_acquire. destruct (_ || _); [|by apply inv_opened]. destruct s as [o k f].
    refine (inv_kept (MkSystem o k f) ps i Before (Inside (MkPullLock None true)) k Hi eq_refl _ _ (or_introl (conj eq_refl _)) Hinv);
      [done| |done]. by intros l [= <-].
  - unfold poll, flock. destruct s as [o [k|] f]; cbn [locked].
    + destruct (decide (k = d)) as [->|_]; [|destruct late; [by apply inv_closed with (Waiting d)|exact Hinv]].
      destruct Hinv as (_ & H2 & _ & _ & _ & H6). destruct (H6 d eq_refl) as (j & l & Hj & Hf).
      assert (i = j) as -> by (by eapply H2). rewrite Hi in Hj. discriminate.
    + refine (inv_kept (MkSystem o None f) ps i (Waiting d) (Inside (MkPullLock (Some d) false)) (Some d) Hi eq_refl _ _ (or_intror (conj eq_refl _)) Hinv);
        [done| |by eexists _, d]. intros l [= <-] _. by exists d.
  - unfold release. destruct (fd l) as [d|] eqn:Ef.
    + assert (os_close d (if unlocks then unlock d s else s) = os_close d s) as ->; [|by apply inv_closed with (Inside l)].
      destruct unlocks; [|done]. unfold os_close, unlock. cbn [opened locked fresh]. f_equal.
      destruct (decide (locked s = Some d)); by rewrite decide_False by done.
    + destruct s as [o k f]. refine (inv_kept (MkSystem o k f) ps i (Inside l) (After l) k Hi eq_refl _ _ (or_introl (conj eq_refl _)) Hinv);
        [by intros l' [= <-]|done|]. intros l' d [= <-]. by rewrite Ef.
Qed.

Lemma lock_inv n c : reachable n c → inv c.
Proof.
  unfold reachable. intros Hr.
  assert (inv (MkSystem [] None 0, replicate n Before)) as H0.
  { unfold inv. cbn. assert (∀ i p, replicate n Before !! i = Some p → p = Before) as Hb
      by (intros i p [-> _]%lookup_replicate; done).
    split_and!; try (intros i l Hi; by apply Hb in Hi); try done.
    - intros d. split; [by intros ?%not_elem_of_nil|]. intros (i & p & Hi & Hp). by rewrite (Hb i p Hi) in Hp.
    - intros i j p q d Hi Hj Hp. by rewrite (Hb i p Hi) in Hp.
    - by intros d ?%not_elem_of_nil. }
  revert H0. generalize dependent (MkSystem [] None 0, replicate n Before). intros c0 Hr.
  induction Hr as [c0|c0 c1 c2 Hs _ IH]; intros H0; [done|]. apply IH. by apply (lock_step c0).
Qed.

(** However many programs take the lock, and in whatever order: two that are inside
    and not degraded are the same one, and when all have left nothing is held and no
    descriptor is open.  A degraded program excludes nobody. *)
Lemma one_pull n s ps : reachable n (s, ps) →
  (∀ i j l l', ps !! i = Some (Inside l) → ps !! j = Some (Inside l') →
     l.(degraded) = false → l'.(degraded) = false → i = j) ∧
  ((∀ i p, ps !! i = Some p → ∃ l, p = After l) → s.(opened) = [] ∧ s.(locked) = None).
Proof.
  intros Hr. destruct (lock_inv _ _ Hr) as (H1 & H2 & _ & H4 & H5 & H6). split.
  - intros i j l l' Hi Hj Hd Hd'. destruct (H5 i l Hi Hd) as (d & Hf & Hlo). destruct (H5 j l' Hj Hd') as (d' & Hf' & Hlo').
    rewrite Hlo in Hlo'. injection Hlo' as <-. by apply (H2 i j (Inside l) (Inside l') d).
  - intros Hall. split.
    + apply elem_of_nil_inv. intros d (i & p & Hi & Hp)%H1. destruct (Hall i p Hi) as [l ->]. cbn in Hp. by rewrite (H4 i l Hi) in Hp.
    + destruct (locked s) as [d|] eqn:E; [|done]. destruct (H6 d eq_refl) as (i & l & Hi & _). by destruct (Hall i _ Hi).
Qed.

(** Without fcntl two programs are inside at once. *)
Lemma degraded_pulls : ∃ s l, reachable 2 (s, [Inside l; Inside l]) ∧ l.(degraded) = true.
Proof.
  exists (MkSystem [] None 0), (MkPullLock None true). split; [|done].
  eapply rtc_l; [by apply enters with (i := 0%nat) (has_fcntl := false) (opens := true)|].
  eapply rtc_l; [by apply enters with (i := 1%nat) (has_fcntl := false) (opens := true)|]. apply rtc_refl.
Qed.
