(* ===== verification/Digest.v ===== *)
(** * The challenge digest (validator/verify/challenge.py, challenge/src, scripts/challenge_vector.py)

    A challenge fills an n by n matrix from a seed and a cipher, squares it a few
    times modulo 2^32 and hashes the result.  The validator recomputes the digest
    with arrays of machine words ([reference_digest], numpy), or with a library
    written in C ([C.solve]); the machine under test runs a tiled kernel
    ([Cuda.solve]).  The three are modelled separately, at their word widths, and
    proved to agree. *)

From Stdlib Require Import Ascii String.
From S2P Require Import Prelude.
Local Open Scope Z_scope.

Definition MASK64 : Z := Z.ones 64.
Definition MASK32 : Z := Z.ones 32.
Definition GOLDEN : Z := 0x9E3779B97F4A7C15.
Definition FNV_OFFSET : Z := 0xCBF29CE484222325.
Definition FNV_PRIME : Z := 0x100000001B3.

(** ** Python integers *)

Definition mix64 (z : Z) : Z :=
  let z := Z.land (Z.lxor z (Z.shiftr z 30) * 0xBF58476D1CE4E5B9) MASK64 in
  let z := Z.land (Z.lxor z (Z.shiftr z 27) * 0x94D049BB133111EB) MASK64 in
  Z.lxor z (Z.shiftr z 31).

Definition seed_state (seed cipher : Z) : Z :=
  Z.land (mix64 (Z.lxor seed 0xA5A5A5A5A5A5A5A5) + mix64 (Z.land (cipher * GOLDEN) MASK64)) MASK64.

(** One turn of the loops of [fnv_u32] and [fnv_u64]. *)
Definition fnv_byte (item : Z) (value : Z) (i : nat) : Z :=
  Z.land (Z.lxor value (Z.land (Z.shiftr item (8 * Z.of_nat i)) 0xFF) * FNV_PRIME) MASK64.
Definition fnv_u32 (value item : Z) : Z := foldl (fnv_byte item) value (seq 0 4).
Definition fnv_u64 (value item : Z) : Z := foldl (fnv_byte item) value (seq 0 8).

(** The end of every digest: the row hashes, then the parameters. *)
Definition fold_digest (rows : list Z) (seed cipher n rounds : Z) : Z :=
  let digest := foldl fnv_u64 FNV_OFFSET rows in
  let digest := fnv_u64 digest seed in
  let digest := fnv_u64 digest cipher in
  let digest := fnv_u32 digest n in
  fnv_u32 digest rounds.

(** ** numpy: arrays of 64-bit and 32-bit words *)

Definition u64 (z : Z) : Z := z `mod` 2 ^ 64.
Definition u32 (z : Z) : Z := z `mod` 2 ^ 32.

(** [array.reshape(n, n)], row by row *)
Definition reshape (n : nat) (l : list Z) : list (list Z) :=
  (λ i, take n (drop (i * n) l)) <$> seq 0 n.

Definition at_ (i j : nat) (m : list (list Z)) : Z := nth j (nth i m []) 0.

(** [a @ b] on n by n arrays of [uint64] *)
Definition matmul (n : nat) (a b : list (list Z)) : list (list Z) :=
  (λ i, (λ j, foldl (λ acc k, u64 (acc + u64 (at_ i k a * at_ k j b))) 0 (seq 0 n)) <$> seq 0 n)
    <$> seq 0 n.

(** [.astype(np.uint32)] *)
Definition astype32 (m : list (list Z)) : list (list Z) := (λ row : list Z, u32 <$> row) <$> m.

Fixpoint iterate {A} (f : A → A) (k : nat) (x : A) : A :=
  match k with O => x | S k' => iterate f k' (f x) end.

(** [matrix[:, column]] *)
Definition column (j : nat) (m : list (list Z)) : list Z := (λ row, nth j row 0) <$> m.

(** [rows ^= (values >> 8 * i) & 0xFF; rows *= prime] *)
Definition mix_column (values : list Z) (rows : list Z) (i : nat) : list Z :=
  (λ rv, u64 (Z.lxor rv.1 (Z.land (Z.shiftr rv.2 (8 * Z.of_nat i)) 0xFF) * FNV_PRIME))
    <$> combine rows values.

Definition filled (state : Z) (n : nat) : list (list Z) :=
  let index := Z.of_nat <$> seq 1 (n * n) in
  let z := (λ i, u64 (state + u64 (i * GOLDEN))) <$> index in
  let z := (λ z, u64 (Z.lxor z (Z.shiftr z 30) * 0xBF58476D1CE4E5B9)) <$> z in
  let z := (λ z, u64 (Z.lxor z (Z.shiftr z 27) * 0x94D049BB133111EB)) <$> z in
  let z := (λ z, Z.lxor z (Z.shiftr z 31)) <$> z in
  reshape n ((λ z, u32 (Z.land z MASK32)) <$> z).

Definition reference_digest (seed cipher : Z) (n rounds : nat) : Z :=
  let state := seed_state seed cipher in
  let matrix := iterate (λ m, astype32 (matmul n m m)) rounds (filled state n) in
  let rows := foldl (λ rows j, foldl (mix_column (column j matrix)) rows (seq 0 4))
                (replicate n FNV_OFFSET) (seq 0 n) in
  fold_digest rows seed cipher (Z.of_nat n) (Z.of_nat rounds).

(** ** The payload's copy (payloads/challenge_runner.py)

    The runner is one file sent to the machine under test, so it carries the digest
    again. *)

Module Payload.
Definition MASK64 : Z := Z.shiftl 1 64 - 1.
Definition MASK32 : Z := Z.shiftl 1 32 - 1.
Definition GOLDEN : Z := 0x9E3779B97F4A7C15.
Definition FNV_OFFSET : Z := 0xCBF29CE484222325.
Definition FNV_PRIME : Z := 0x100000001B3.

Definition mix64 (z : Z) : Z :=
  let z := Z.land (Z.lxor z (Z.shiftr z 30) * 0xBF58476D1CE4E5B9) MASK64 in
  let z := Z.land (Z.lxor z (Z.shiftr z 27) * 0x94D049BB133111EB) MASK64 in
  Z.lxor z (Z.shiftr z 31).
Definition seed_state (seed cipher : Z) : Z :=
  Z.land (mix64 (Z.lxor seed 0xA5A5A5A5A5A5A5A5) + mix64 (Z.land (cipher * GOLDEN) MASK64)) MASK64.
Definition fnv_byte (item : Z) (value : Z) (i : nat) : Z :=
  Z.land (Z.lxor value (Z.land (Z.shiftr item (8 * Z.of_nat i)) 0xFF) * FNV_PRIME) MASK64.
Definition fnv_u32 (value item : Z) : Z := foldl (fnv_byte item) value (seq 0 4).
Definition fnv_u64 (value item : Z) : Z := foldl (fnv_byte item) value (seq 0 8).

(** [index], [z] and the [matrix] made of them *)
Definition filled (state : Z) (n : nat) : list (list Z) :=
  let index := Z.of_nat <$> seq 1 (n * n) in
  let z := (λ i, u64 (state + u64 (i * GOLDEN))) <$> index in
  let z := (λ z, u64 (Z.lxor z (Z.shiftr z 30) * 0xBF58476D1CE4E5B9)) <$> z in
  let z := (λ z, u64 (Z.lxor z (Z.shiftr z 27) * 0x94D049BB133111EB)) <$> z in
  let z := (λ z, Z.lxor z (Z.shiftr z 31)) <$> z in
  reshape n ((λ z, u32 (Z.land z MASK32)) <$> z).
Definition mix_column (values : list Z) (rows : list Z) (i : nat) : list Z :=
  (λ rv, u64 (Z.lxor rv.1 (Z.land (Z.shiftr rv.2 (8 * Z.of_nat i)) 0xFF) * FNV_PRIME))
    <$> combine rows values.

Definition reference_digest (seed cipher : Z) (n rounds : nat) : Z :=
  let state := seed_state seed cipher in
  let matrix := iterate (λ m, astype32 (matmul n m m)) rounds (filled state n) in
  let rows := foldl (λ rows j, foldl (mix_column (column j matrix)) rows (seq 0 4))
                (replicate n FNV_OFFSET) (seq 0 n) in
  let digest := foldl fnv_u64 FNV_OFFSET rows in
  let digest := fnv_u64 digest seed in
  let digest := fnv_u64 digest cipher in
  let digest := fnv_u32 digest (Z.of_nat n) in
  fnv_u32 digest (Z.of_nat rounds).
End Payload.

(** ** The C reference (challenge/src/core.h, challenge/src/reference.c)

    [uint64_t] and [uint32_t] arithmetic wraps around; the matrices are flat.  The
    seed and the cipher are drawn as 64 random bits ([new_request]): the conversion
    to [uint64_t] at the call changes neither. *)

Module C.
Definition mix64 (z : Z) : Z :=
  let z := u64 (Z.lxor z (Z.shiftr z 30) * 0xBF58476D1CE4E5B9) in
  let z := u64 (Z.lxor z (Z.shiftr z 27) * 0x94D049BB133111EB) in
  Z.lxor z (Z.shiftr z 31).
Definition seed_state (seed cipher : Z) : Z :=
  u64 (mix64 (Z.lxor seed 0xA5A5A5A5A5A5A5A5) + mix64 (u64 (cipher * GOLDEN))).
Definition element (state index : Z) : Z :=
  u32 (Z.land (mix64 (u64 (state + u64 ((index + 1) * GOLDEN)))) 0xFFFFFFFF).
Definition fnv_byte (item : Z) (hash : Z) (i : nat) : Z :=
  u64 (Z.lxor hash (Z.land (Z.shiftr item (8 * Z.of_nat i)) 0xFF) * FNV_PRIME).
Definition fnv_u32 (hash value : Z) : Z := foldl (fnv_byte value) hash (seq 0 4).
Definition fnv_u64 (hash value : Z) : Z := foldl (fnv_byte value) hash (seq 0 8).
Definition fold_digest (rows : list Z) (seed cipher n rounds : Z) : Z :=
  fnv_u32 (fnv_u32 (fnv_u64 (fnv_u64 (foldl fnv_u64 FNV_OFFSET rows) seed) cipher) n) rounds.

(** [a[i * n + j]] *)
Definition cell (n : nat) (a : list Z) (i j : nat) : Z := nth (i * n + j) a 0.

(** The three loops, writing [c] in the order of its cells. *)
Definition square (n : nat) (a : list Z) : list Z :=
  (λ ij, foldl (λ acc k, u32 (acc + u32 (cell n a ij.1 k * cell n a k ij.2))) 0 (seq 0 n))
    <$> list_prod (seq 0 n) (seq 0 n).

Definition row_hash (n : nat) (a : list Z) (i : nat) : Z :=
  foldl (λ h j, fnv_u32 h (cell n a i j)) FNV_OFFSET (seq 0 n).

Definition bad_arguments (n rounds : nat) : bool :=
  (n <? 8)%nat || (4096 <? n)%nat || (rounds <? 1)%nat || (16 <? rounds)%nat.

(** [None]: bad arguments (allocations are taken to succeed). *)
Definition solve (seed cipher : Z) (n rounds : nat) : option Z :=
  if bad_arguments n rounds then None else
  let state := seed_state seed cipher in
  let a := (λ k, element state (Z.of_nat k)) <$> seq 0 (n * n) in
  let a := iterate (square n) rounds a in
  Some (fold_digest (row_hash n a <$> seq 0 n) seed cipher (Z.of_nat n) (Z.of_nat rounds)).
End C.

(** ** The kernels (challenge/src/challenge.cu)

    A kernel runs once for every thread of a launch; a thread writes at most one
    cell of the buffer of the launch, and the threads run in an order of the
    device's choosing.  Every thread of [matmul_kernel] walks the tiles of its row
    and column; cells outside the matrix are read as zero. *)

Module Cuda.
Definition TILE : nat := 16.

(** The device: the order of the threads of a launch, by the number of the launch
    and how many threads it has, and what is in a buffer that was just allocated. *)
Record Device : Type := MkDevice { order : nat → nat → list nat; fresh : nat → nat → Z }.
Definition any_order (d : Device) : Prop := ∀ number count, d.(order) number count ≡ₚ seq 0 count.
Definition malloc (d : Device) (buffer count : nat) : list Z := d.(fresh) buffer <$> seq 0 count.

Definition write (mem : list Z) (w : option (nat * Z)) : list Z :=
  match w with Some (i, v) => <[i:=v]> mem | None => mem end.
Definition launch (d : Device) (number blocks threads : nat) (kernel : nat → option (nat * Z)) (mem : list Z) : list Z :=
  foldl (λ mem t, write mem (kernel t)) mem (d.(order) number (blocks * threads)).

Definition fill_kernel (state : Z) (cells k : nat) : option (nat * Z) :=
  if (k <? cells)%nat then Some (k, C.element state (Z.of_nat k)) else None.

(** The tiles of a block in shared memory, once every thread of the block has passed
    the barrier after the loads: thread [(y, k)] put the cell of column [t + k] of its
    row there, thread [(k, x)] that of row [t + k] of its column. *)
Definition left_ (n : nat) (a : list Z) (row t k : nat) : Z :=
  if ((row <? n) && (t + k <? n))%nat then C.cell n a row (t + k) else 0.
Definition right_ (n : nat) (a : list Z) (col t k : nat) : Z :=
  if ((t + k <? n) && (col <? n))%nat then C.cell n a (t + k) col else 0.
Definition tiles (n : nat) : list nat := (λ q, q * TILE)%nat <$> seq 0 ((n + TILE - 1) / TILE).
Definition thread (n : nat) (a : list Z) (row col : nat) : Z :=
  foldl (λ acc t, foldl (λ acc k, u32 (acc + u32 (left_ n a row t k * right_ n a col t k))) acc
                    (seq 0 TILE)) 0 (tiles n).

(** Threads are numbered through the blocks of the grid, row by row, and through
    a block, row by row. *)
Definition grid (n : nat) : nat := ((n + TILE - 1) / TILE)%nat.
Definition row_of (n id : nat) : nat := ((id / (TILE * TILE)) / grid n * TILE + (id mod (TILE * TILE)) / TILE)%nat.
Definition col_of (n id : nat) : nat := ((id / (TILE * TILE)) mod grid n * TILE + (id mod (TILE * TILE)) mod TILE)%nat.
Definition matmul_kernel (n : nat) (a : list Z) (id : nat) : option (nat * Z) :=
  let row := row_of n id in
  let col := col_of n id in
  if ((row <? n) && (col <? n))%nat then Some ((row * n + col)%nat, thread n a row col) else None.

Definition row_hash_kernel (n : nat) (a : list Z) (i : nat) : option (nat * Z) :=
  if (i <? n)%nat then Some (i, C.row_hash n a i) else None.

(** The rounds that are left, from the buffers of the last one: the new matrix is
    written over the one before. *)
Fixpoint squares (d : Device) (n number rounds : nat) (a c : list Z) : list Z :=
  match rounds with
  | O => a
  | S rounds' => squares d n (S number) rounds' (launch d number (grid n * grid n) (TILE * TILE) (matmul_kernel n a) c) a
  end.

Definition solve (d : Device) (seed cipher : Z) (n rounds : nat) : option Z :=
  if C.bad_arguments n rounds then None else
  let cells := (n * n)%nat in
  let state := C.seed_state seed cipher in
  let a := launch d 0 ((cells + 255) / 256) 256 (fill_kernel state cells) (malloc d 0 cells) in
  let a := squares d n 1 rounds a (malloc d 1 cells) in
  let rows := launch d (S rounds) ((n + 127) / 128) 128 (row_hash_kernel n a) (malloc d 2 n) in
  Some (C.fold_digest rows seed cipher (Z.of_nat n) (Z.of_nat rounds)).

(** *** The benchmark *)

Definition bad_benchmark (n iterations : Z) : bool :=
  (n <? 64) || (8192 <? n) || (iterations <? 1) || (1024 <? iterations).

(** The words of the two streamed buffers: halved until they and two matrices of
    [cells] cells fill half the free memory at most; six halvings reach the
    least size. *)
Definition WORDS : Z := 64 * 1024 * 1024.
Definition LEAST_WORDS : Z := 1024 * 1024.
Definition needed (words cells : Z) : Z := words * 2 * 4 + cells * 2 * 4.
Fixpoint halve (fuel : nat) (words cells free : Z) : Z :=
  match fuel with
  | O => words
  | S fuel' =>
      if (LEAST_WORDS <? words) && (free / 2 <? needed words cells) then halve fuel' (words / 2) cells free
      else words
  end.
Definition benchmark_words (cells free : Z) : Z := halve 6 WORDS cells free.

(** The cells a thread of [stream_kernel] writes, every [stride]-th from its own,
    and what it writes in one. *)
Fixpoint stream_cells (fuel : nat) (words stride k : Z) : list Z :=
  match fuel with
  | O => []
  | S fuel' => if k <? words then k :: stream_cells fuel' words stride (k + stride) else []
  end.
Definition streamed (src k salt : Z) : Z := Z.lxor (Z.lxor src (u32 k)) salt.
End Cuda.

(** ** The words *)

Lemma land_mask64 z : Z.land z MASK64 = u64 z.
Proof. unfold MASK64, u64. by rewrite Z.land_ones. Qed.

Lemma land_mask32 z : Z.land z MASK32 = u32 z.
Proof. unfold MASK32, u32. by rewrite Z.land_ones. Qed.

Lemma u64_idem z : u64 (u64 z) = u64 z.
Proof. unfold u64. apply Z.mod_mod. lia. Qed.

Lemma u32_idem z : u32 (u32 z) = u32 z.
Proof. unfold u32. apply Z.mod_mod. lia. Qed.

Lemma mix64_C z : mix64 z = C.mix64 z.
Proof. unfold mix64, C.mix64. by rewrite !land_mask64. Qed.

Lemma seed_state_C s c : seed_state s c = C.seed_state s c.
Proof. unfold seed_state, C.seed_state. by rewrite !land_mask64, !mix64_C. Qed.

Lemma foldl_ext_all {A B} (f g : A → B → A) l a : (∀ x y, f x y = g x y) → foldl f a l = foldl g a l.
Proof. intros H. revert a. induction l as [|x l IH]; intros a; simpl; [done|]. by rewrite H. Qed.

Lemma fnv_u32_C h v : fnv_u32 h v = C.fnv_u32 h v.
Proof. apply foldl_ext_all. intros. unfold fnv_byte. by rewrite land_mask64. Qed.

Lemma fnv_u64_C h v : fnv_u64 h v = C.fnv_u64 h v.
Proof. apply foldl_ext_all. intros. unfold fnv_byte. by rewrite land_mask64. Qed.

Lemma fold_digest_C rows s c n r : fold_digest rows s c n r = C.fold_digest rows s c n r.
Proof.
  unfold fold_digest, C.fold_digest. rewrite !fnv_u32_C, !fnv_u64_C.
  by rewrite (foldl_ext_all fnv_u64 C.fnv_u64) by apply fnv_u64_C.
Qed.

(** ** Matrices as functions

    [rows_of n f] and [flat n f] are the two layouts of the n by n matrix whose
    cells are [f]. *)
Definition rows_of (n : nat) (f : nat → nat → Z) : list (list Z) :=
  (λ i, (λ j, f i j) <$> seq 0 n) <$> seq 0 n.
Definition flat (n : nat) (f : nat → nat → Z) : list Z :=
  (λ ij, f ij.1 ij.2) <$> list_prod (seq 0 n) (seq 0 n).

Lemma nth_fmap_seq {A} (g : nat → A) n i d : (i < n)%nat → nth i (g <$> seq 0 n) d = g i.
Proof.
  intros H. rewrite (nth_indep _ d (g 0%nat)) by (rewrite length_fmap, length_seq; done).
  change (g <$> seq 0 n) with (map g (seq 0 n)). rewrite map_nth, seq_nth by done. done.
Qed.

Lemma at_rows_of n f i j : (i < n)%nat → (j < n)%nat → at_ i j (rows_of n f) = f i j.
Proof. intros. unfold at_, rows_of. by rewrite !nth_fmap_seq. Qed.

Lemma column_rows_of n f j : (j < n)%nat → column j (rows_of n f) = (λ i, f i j) <$> seq 0 n.
Proof.
  intros. unfold column, rows_of. rewrite <- list_fmap_compose. apply list_fmap_ext.
  intros ? i _. simpl. by apply nth_fmap_seq.
Qed.

Lemma nth_list_prod {A B} (l : list A) (k : list B) i j a b :
  (i < length l)%nat → (j < length k)%nat →
  nth (i * length k + j) (list_prod l k) (a, b) = (nth i l a, nth j k b).
Proof.
  revert i. induction l as [|x l IH]; intros i Hi Hj; simpl in *; [lia|].
  destruct i as [|i]; simpl.
  - rewrite app_nth1 by (rewrite length_map; lia).
    rewrite (nth_indep _ (a, b) (x, b)) by (rewrite length_map; lia). by rewrite (map_nth (pair x)).
  - rewrite app_nth2 by (rewrite length_map; lia). rewrite length_map.
    replace (length k + i * length k + j - length k)%nat with (i * length k + j)%nat by lia.
    apply IH; lia.
Qed.

Lemma cell_flat n f i j : (i < n)%nat → (j < n)%nat → C.cell n (flat n f) i j = f i j.
Proof.
  intros Hi Hj. unfold C.cell, flat.
  assert (nth (i * n + j) (list_prod (seq 0 n) (seq 0 n)) (0, 0)%nat = (i, j)) as E.
  { pose proof (nth_list_prod (seq 0 n) (seq 0 n) i j 0%nat 0%nat) as H. rewrite !length_seq in H.
    rewrite H, !seq_nth by done. done. }
  change (?g <$> ?l) with (map g l).
  rewrite (nth_indep _ 0 ((λ ij : nat * nat, f ij.1 ij.2) (0, 0)%nat)).
  - by rewrite (map_nth (λ ij : nat * nat, f ij.1 ij.2)), E.
  - rewrite length_map, length_prod, !length_seq. nia.
Qed.

Lemma list_prod_snoc {A B} (l : list A) x (k : list B) :
  list_prod (l ++ [x]) k = list_prod l k ++ map (pair x) k.
Proof. induction l as [|y l IH]; simpl; [by rewrite app_nil_r|]. by rewrite IH, app_assoc. Qed.

Lemma prod_index m n : (λ ij : nat * nat, ij.1 * n + ij.2)%nat <$> list_prod (seq 0 m) (seq 0 n) = seq 0 (m * n).
Proof.
  induction m as [|m IH]; [done|]. rewrite seq_S, list_prod_snoc, fmap_app, IH. simpl.
  replace (n + m * n)%nat with (m * n + n)%nat by lia. rewrite seq_app. f_equal. simpl.
  change (?g <$> map ?h ?l) with (g <$> (h <$> l)). rewrite <- list_fmap_compose.
  rewrite <- (Nat.add_0_r (m * n)), <- fmap_add_seq. apply list_fmap_ext. intros. simpl. lia.
Qed.

Lemma flat_fill n (g : nat → Z) : g <$> seq 0 (n * n) = flat n (λ i j, g (i * n + j)%nat).
Proof.
  rewrite <- prod_index, <- list_fmap_compose. apply list_fmap_ext. done.
Qed.

Lemma reshape_fill n (g : nat → Z) :
  reshape n (g <$> seq 1 (n * n)) = rows_of n (λ i j, g (S (i * n + j))).
Proof.
  unfold reshape, rows_of. apply list_fmap_ext. intros k i Hi. apply lookup_seq in Hi as [-> Hi].
  rewrite <- fmap_drop, <- fmap_take. simpl. rewrite drop_seq, take_seq.
  replace (n `min` (n * n - k * n))%nat with n by nia.
  replace (1 + k * n)%nat with (S (k * n) + 0)%nat by lia.
  rewrite <- fmap_add_seq, <- list_fmap_compose. apply list_fmap_ext. intros. simpl. by f_equal.
Qed.

(** ** Filling *)

Definition cells (state : Z) (n : nat) (i j : nat) : Z := C.element state (Z.of_nat (i * n + j)).

Lemma filled_rows state n : filled state n = rows_of n (cells state n).
Proof.
  unfold filled. rewrite <- !list_fmap_compose, reshape_fill. unfold rows_of, cells.
  apply list_fmap_ext. intros _ i _. apply list_fmap_ext. intros _ j _. simpl.
  unfold C.element. change MASK32 with 0xFFFFFFFF.
  replace (Z.of_nat (i * n + j) + 1) with (Z.of_nat (S (i * n + j))) by lia. reflexivity.
Qed.

Lemma filled_flat state n :
  (λ k, C.element state (Z.of_nat k)) <$> seq 0 (n * n) = flat n (cells state n).
Proof. apply flat_fill. Qed.

(** ** Squaring *)

Definition sq (n : nat) (f : nat → nat → Z) (i j : nat) : Z :=
  foldl (λ acc k, u32 (acc + u32 (f i k * f k j))) 0 (seq 0 n).

Lemma u32_add a b : u32 (a + u32 b) = u32 (a + b).
Proof. unfold u32. by rewrite Zplus_mod_idemp_r. Qed.

Lemma u32_add_l a b : u32 (u32 a + b) = u32 (a + b).
Proof. unfold u32. by rewrite Zplus_mod_idemp_l. Qed.

Lemma u32_u64 z : u32 (u64 z) = u32 z.
Proof.
  unfold u32, u64. change (2 ^ 64) with (2 ^ 32 * 2 ^ 32).
  rewrite Z.rem_mul_r, Z.mul_comm, Z_mod_plus_full by lia. apply Z.mod_mod. lia.
Qed.

Lemma u32_add_u64 a b : u32 (a + u64 b) = u32 (a + b).
Proof. by rewrite <- (u32_add a (u64 b)), u32_u64, u32_add. Qed.

(** Sums of the same terms, kept modulo 2^64 or modulo 2^32. *)
Lemma sum_words (g : nat → Z) l a b :
  u32 a = u32 b →
  u32 (foldl (λ acc k, u64 (acc + u64 (g k))) a l) = u32 (foldl (λ acc k, u32 (acc + u32 (g k))) b l).
Proof.
  revert a b. induction l as [|k l IH]; intros a b E; [done|]. simpl. apply IH.
  rewrite u32_u64, u32_add_u64, u32_idem, u32_add, <- (u32_add_l a), E. apply u32_add_l.
Qed.

Lemma u32_sum (g : nat → Z) l a :
  u32 a = a → u32 (foldl (λ acc k, u32 (acc + u32 (g k))) a l) = foldl (λ acc k, u32 (acc + u32 (g k))) a l.
Proof. revert a. induction l as [|k l IH]; intros a E; [done|]. apply IH, u32_idem. Qed.

Lemma foldl_ext_in {A B} (f g : A → B → A) l a :
  (∀ x y, y ∈ l → f x y = g x y) → foldl f a l = foldl g a l.
Proof.
  revert a. induction l as [|y l IH]; intros a H; simpl; [done|].
  rewrite H by set_solver. apply IH. intros. apply H. set_solver.
Qed.

Lemma rows_of_ext n f g :
  (∀ i j, (i < n)%nat → (j < n)%nat → f i j = g i j) → rows_of n f = rows_of n g.
Proof.
  intros H. apply list_fmap_ext. intros k i Hi. apply lookup_seq in Hi as [-> Hi].
  apply list_fmap_ext. intros l j Hj. apply lookup_seq in Hj as [-> Hj]. by apply H.
Qed.

Lemma flat_ext n f g :
  (∀ i j, (i < n)%nat → (j < n)%nat → f i j = g i j) → flat n f = flat n g.
Proof.
  intros H. apply list_fmap_ext. intros k [i j] Hij%list_elem_of_lookup_2.
  apply list_elem_of_In, in_prod_iff in Hij as [Hi%in_seq Hj%in_seq]. simpl. apply H; lia.
Qed.

Lemma square_rows n f : astype32 (matmul n (rows_of n f) (rows_of n f)) = rows_of n (sq n f).
Proof.
  unfold astype32, matmul. rewrite <- list_fmap_compose.
  transitivity (rows_of n (λ i j, u32 (foldl (λ acc k, u64 (acc + u64 (at_ i k (rows_of n f) * at_ k j (rows_of n f)))) 0 (seq 0 n)))).
  - apply list_fmap_ext. intros _ i _. simpl. by rewrite <- list_fmap_compose.
  - apply rows_of_ext. intros i j Hi Hj. unfold sq. rewrite (sum_words (λ k, at_ i k _ * at_ k j _) _ 0 0 eq_refl), u32_sum by done.
    apply foldl_ext_in. intros acc k Hk%elem_of_seq. by rewrite !at_rows_of by lia.
Qed.

Lemma square_flat n f : C.square n (flat n f) = flat n (sq n f).
Proof.
  transitivity (flat n (λ i j, foldl (λ acc k, u32 (acc + u32 (C.cell n (flat n f) i k * C.cell n (flat n f) k j))) 0 (seq 0 n))).
  - done.
  - apply flat_ext. intros i j Hi Hj. apply foldl_ext_in. intros acc k Hk%elem_of_seq.
    by rewrite !cell_flat by lia.
Qed.

(** ** The tiles *)

Lemma foldl_map {A B C} (f : A → B → A) (g : C → B) l a : foldl f a (g <$> l) = foldl (λ x y, f x (g y)) a l.
Proof. revert a. induction l as [|y l IH]; intros a; [done|]. apply IH. Qed.

Lemma foldl_tiles {A} (F : A → nat → A) (w m : nat) a :
  foldl (λ acc t, foldl (λ acc k, F acc (t + k)%nat) acc (seq 0 w)) a ((λ q, q * w)%nat <$> seq 0 m) =
  foldl F a (seq 0 (m * w)).
Proof.
  rewrite foldl_map. induction m as [|m IH]; [done|].
  rewrite seq_S, foldl_app, IH. simpl. replace (w + m * w)%nat with (m * w + w)%nat by lia.
  rewrite seq_app, foldl_app. simpl. replace (seq (m * w) w) with (Nat.add (m * w) <$> seq 0 w); [by rewrite foldl_map|].
  rewrite fmap_add_seq. by rewrite Nat.add_0_r.
Qed.

Lemma tiles_cover n : (n <= (n + Cuda.TILE - 1) / Cuda.TILE * Cuda.TILE)%nat.
Proof.
  unfold Cuda.TILE. pose proof (Nat.div_mod_eq (n + 16 - 1) 16).
  pose proof (Nat.mod_upper_bound (n + 16 - 1) 16). lia.
Qed.

Lemma foldl_noop {A B} (f : A → B → A) (P : A → Prop) l a :
  (∀ x y, y ∈ l → P x → f x y = x) → P a → foldl f a l = a.
Proof.
  intros H Ha. revert a Ha. induction l as [|y l IH]; intros a Ha; [done|]. simpl.
  rewrite H by (done || set_solver). apply IH; [|done]. intros. apply H; [set_solver|done].
Qed.

Lemma u32_foldl {B} (g : B → Z) l a : u32 a = a → u32 (foldl (λ acc k, u32 (acc + u32 (g k))) a l) = foldl (λ acc k, u32 (acc + u32 (g k))) a l.
Proof. revert a. induction l as [|k l IH]; intros a E; [done|]. apply IH, u32_idem. Qed.

Lemma thread_sum n f i j :
  (i < n)%nat → (j < n)%nat → Cuda.thread n (flat n f) i j = sq n f i j.
Proof.
  intros Hi Hj. unfold Cuda.thread, Cuda.tiles.
  set (term p := if (p <? n)%nat then f i p * f p j else 0).
  transitivity (foldl (λ acc t, foldl (λ acc k, u32 (acc + u32 (term (t + k)%nat))) acc (seq 0 Cuda.TILE)) 0
                  ((λ q, q * Cuda.TILE)%nat <$> seq 0 ((n + Cuda.TILE - 1) / Cuda.TILE))).
  { apply foldl_ext_all. intros acc t. apply foldl_ext_all. intros acc' k.
    unfold Cuda.left_, Cuda.right_, term. destruct (Nat.ltb_spec i n), (Nat.ltb_spec j n); try lia.
    destruct (Nat.ltb_spec (t + k) n); cbn [andb]; [by rewrite !cell_flat|done]. }
  rewrite (foldl_tiles (λ acc p, u32 (acc + u32 (term p)))).
  pose proof (tiles_cover n) as Hc. set (w := ((n + Cuda.TILE - 1) / Cuda.TILE * Cuda.TILE)%nat) in *.
  replace w with (n + (w - n))%nat by lia. rewrite seq_app, foldl_app.
  rewrite (foldl_noop _ (λ x, u32 x = x)).
  - apply foldl_ext_in. intros acc p Hp%elem_of_seq. unfold term. by destruct (Nat.ltb_spec p n); [|lia].
  - intros x p Hp%elem_of_seq Hx. unfold term. destruct (Nat.ltb_spec p n); [lia|].
    rewrite u32_add, Z.add_0_r. done.
  - by apply u32_foldl.
Qed.

(** *** Launches *)

(** What a launch leaves when every cell is written by some thread, and threads
    that write the same cell write the same value: no order matters, nor what was
    in the buffer. *)
Lemma writes_spec (kernel : nat → option (nat * Z)) (g : nat → Z) ids : ∀ mem,
  (∀ id i v, id ∈ ids → kernel id = Some (i, v) → v = g i) →
  let out := foldl (λ mem t, Cuda.write mem (kernel t)) mem ids in
  length out = length mem ∧
  ∀ i, (i < length mem)%nat → (∃ id, id ∈ ids ∧ kernel id = Some (i, g i)) ∨ mem !! i = Some (g i) →
       out !! i = Some (g i).
Proof.
  induction ids as [|id ids IH]; intros mem Hw; [split; [done|]; intros i _ [(id & []%elem_of_nil & _)|]; done|].
  cbn [foldl]. assert (length (Cuda.write mem (kernel id)) = length mem) as Hl.
  { destruct (kernel id) as [[j v]|]; [apply length_insert|done]. }
  destruct (IH (Cuda.write mem (kernel id))) as [IHl IHi]; [intros id' i v Hin; apply Hw; by right|].
  split; [by rewrite IHl|]. intros i Hi Hin. apply IHi; [by rewrite Hl|].
  assert (mem !! i = Some (g i) → Cuda.write mem (kernel id) !! i = Some (g i)) as Hkeep.
  { intros Hm. destruct (kernel id) as [[j v]|] eqn:Ek; [|done]. cbn. destruct (decide (j = i)) as [->|Hne].
    - rewrite list_lookup_insert_eq by done. f_equal. apply (Hw id i v); [left|done].
    - by rewrite list_lookup_insert_ne. }
  destruct Hin as [(id' & [->|Hin]%elem_of_cons & Ek)|Hm]; [|left; by exists id'|right; by apply Hkeep].
  right. rewrite Ek. cbn. by apply list_lookup_insert_eq.
Qed.

Lemma kernel_launch_spec d number blocks threads kernel mem g :
  Cuda.any_order d →
  (∀ id i v, kernel id = Some (i, v) → v = g i) →
  (∀ i, (i < length mem)%nat → ∃ id, (id < blocks * threads)%nat ∧ kernel id = Some (i, g i)) →
  Cuda.launch d number blocks threads kernel mem = g <$> seq 0 (length mem).
Proof.
  intros Ho Hv Hc. unfold Cuda.launch.
  destruct (writes_spec kernel g (Cuda.order d number (blocks * threads)) mem) as [Hl Hi]; [intros; by eapply Hv|].
  apply list_eq_same_length with (n := length mem); [by rewrite length_fmap, length_seq|done|].
  intros i x y Hlt Hx Hy. destruct (Hc i Hlt) as (id & Hid & Ek).
  rewrite Hi in Hx; [|done|left; exists id; split; [|done]; rewrite (Ho number (blocks * threads)%nat); apply elem_of_seq; lia].
  rewrite list_lookup_fmap, lookup_seq_lt in Hy by done. cbn in Hy. congruence.
Qed.

Lemma malloc_length d buffer count : length (Cuda.malloc d buffer count) = count.
Proof. unfold Cuda.malloc. by rewrite length_fmap, length_seq. Qed.

Lemma blocks_cover n w : (0 < w)%nat → (n <= (n + (w - 1)) / w * w)%nat.
Proof. intros Hw. pose proof (Nat.div_mod_eq (n + (w - 1)) w). pose proof (Nat.mod_upper_bound (n + (w - 1)) w). nia. Qed.

Lemma fill_launch d state cells :
  Cuda.any_order d →
  Cuda.launch d 0 ((cells + 255) / 256) 256 (Cuda.fill_kernel state cells) (Cuda.malloc d 0 cells) =
  (λ k, C.element state (Z.of_nat k)) <$> seq 0 cells.
Proof.
  intros Ho. rewrite (kernel_launch_spec _ _ _ _ _ _ (λ k, C.element state (Z.of_nat k)) Ho), malloc_length; [done| |].
  - intros id i v. unfold Cuda.fill_kernel. destruct (id <? cells)%nat; [|done]. by intros [= -> <-].
  - intros i Hi. rewrite malloc_length in Hi. exists i. pose proof (blocks_cover cells 256). unfold Cuda.fill_kernel.
    rewrite (proj2 (Nat.ltb_lt i cells)) by done. split; [cbn in *; lia|done].
Qed.

Lemma row_hash_launch d number n a :
  Cuda.any_order d →
  Cuda.launch d number ((n + 127) / 128) 128 (Cuda.row_hash_kernel n a) (Cuda.malloc d 2 n) =
  C.row_hash n a <$> seq 0 n.
Proof.
  intros Ho. rewrite (kernel_launch_spec _ _ _ _ _ _ (C.row_hash n a) Ho), malloc_length; [done| |].
  - intros id i v. unfold Cuda.row_hash_kernel. destruct (id <? n)%nat; [|done]. by intros [= -> <-].
  - intros i Hi. rewrite malloc_length in Hi. exists i. pose proof (blocks_cover n 128). unfold Cuda.row_hash_kernel.
    rewrite (proj2 (Nat.ltb_lt i n)) by done. split; [cbn in *; lia|done].
Qed.

Lemma div_of a b m : (b < m)%nat → ((a * m + b) / m = a)%nat.
Proof. intros Hb. rewrite Nat.div_add_l by lia. rewrite Nat.div_small by done. lia. Qed.
Lemma mod_of a b m : (b < m)%nat → ((a * m + b) mod m = b)%nat.
Proof. intros Hb. rewrite Nat.add_comm, Nat.Div0.mod_add. by apply Nat.mod_small. Qed.

(** The thread that writes a cell. *)
Definition id_of (n row col : nat) : nat :=
  ((row / 16 * Cuda.grid n + col / 16) * 256 + (row mod 16 * 16 + col mod 16))%nat.

Lemma id_of_spec n row col :
  (row < n)%nat → (col < n)%nat →
  (id_of n row col < Cuda.grid n * Cuda.grid n * 256)%nat ∧
  Cuda.row_of n (id_of n row col) = row ∧ Cuda.col_of n (id_of n row col) = col.
Proof.
  intros Hr Hc. pose proof (tiles_cover n) as Hcov. fold (Cuda.grid n) in Hcov. unfold Cuda.TILE in Hcov.
  pose proof (Nat.div_mod_eq row 16). pose proof (Nat.div_mod_eq col 16).
  pose proof (Nat.mod_upper_bound row 16). pose proof (Nat.mod_upper_bound col 16).
  unfold id_of, Cuda.row_of, Cuda.col_of, Cuda.TILE. change (16 * 16)%nat with 256%nat.
  assert (row mod 16 * 16 + col mod 16 < 256)%nat as Hb by lia.
  assert (row / 16 < Cuda.grid n)%nat as Hq by lia. assert (col / 16 < Cuda.grid n)%nat as Hq' by lia.
  rewrite div_of, mod_of by done. rewrite !div_of, !mod_of by lia. split; [nia|lia].
Qed.

Lemma flat_seq n f : flat n f = (λ i, f (i / n)%nat (i mod n)%nat) <$> seq 0 (n * n).
Proof.
  rewrite flat_fill. apply flat_ext. intros i j Hi Hj. by rewrite div_of, mod_of.
Qed.

Lemma matmul_launch d number n f c :
  Cuda.any_order d → length c = (n * n)%nat →
  Cuda.launch d number (Cuda.grid n * Cuda.grid n) (Cuda.TILE * Cuda.TILE) (Cuda.matmul_kernel n (flat n f)) c =
  flat n (sq n f).
Proof.
  intros Ho Hc. rewrite (kernel_launch_spec _ _ _ _ _ _ (λ i, sq n f (i / n)%nat (i mod n)%nat) Ho), Hc, flat_seq; [done| |].
  - intros id i v. unfold Cuda.matmul_kernel. destruct (Nat.ltb_spec (Cuda.row_of n id) n), (Nat.ltb_spec (Cuda.col_of n id) n);
      cbn [andb]; try done. intros [= <- <-]. by rewrite thread_sum, div_of, mod_of.
  - intros i Hi. rewrite Hc in Hi. assert (n ≠ 0)%nat as Hn by (intros ->; lia).
    assert (i / n < n)%nat as Hr by (apply Nat.Div0.div_lt_upper_bound; lia).
    assert (i mod n < n)%nat as Hm by (by apply Nat.mod_upper_bound).
    destruct (id_of_spec n (i / n) (i mod n) Hr Hm) as (Hid & Erow & Ecol).
    exists (id_of n (i / n) (i mod n)). split; [done|]. unfold Cuda.matmul_kernel. rewrite Erow, Ecol.
    rewrite (proj2 (Nat.ltb_lt _ _) Hr), (proj2 (Nat.ltb_lt _ _) Hm). cbn [andb]. rewrite thread_sum by done.
    do 2 f_equal. pose proof (Nat.div_mod_eq i n). lia.
Qed.

Lemma squares_spec d n rounds : ∀ number f c,
  Cuda.any_order d → length c = (n * n)%nat →
  Cuda.squares d n number rounds (flat n f) c = flat n (iterate (sq n) rounds f).
Proof.
  induction rounds as [|rounds IH]; intros number f c Ho Hc; [done|]. cbn [Cuda.squares iterate].
  rewrite matmul_launch by done. apply IH; [done|]. unfold flat. by rewrite length_fmap, length_prod, !length_seq.
Qed.

(** ** Rounds and row hashes *)

Lemma iterate_repr {A B} (R : A → B) (f : A → A) (g : B → B) k x :
  (∀ y, g (R y) = R (f y)) → iterate g k (R x) = R (iterate f k x).
Proof. intros H. revert x. induction k as [|k IH]; intros x; simpl; [done|]. by rewrite H. Qed.

Definition hashes (n : nat) (f : nat → nat → Z) : list Z :=
  (λ i, foldl (λ h j, C.fnv_u32 h (f i j)) FNV_OFFSET (seq 0 n)) <$> seq 0 n.

Lemma row_hashes_flat n f : C.row_hash n (flat n f) <$> seq 0 n = hashes n f.
Proof.
  apply list_fmap_ext. intros k i Hi. apply lookup_seq in Hi as [-> Hi]. unfold C.row_hash.
  apply foldl_ext_in. intros h j Hj%elem_of_seq. by rewrite cell_flat by lia.
Qed.

Lemma combine_fmap {A B C} (f : A → B) (g : A → C) l : combine (f <$> l) (g <$> l) = (λ x, (f x, g x)) <$> l.
Proof. induction l as [|x l IH]; [done|]. csimpl. by rewrite IH. Qed.

(** One byte of one column, on every row at once. *)
Lemma mix_column_byte n (v h : nat → Z) b :
  mix_column (v <$> seq 0 n) (h <$> seq 0 n) b = (λ i, C.fnv_byte (v i) (h i) b) <$> seq 0 n.
Proof. unfold mix_column. rewrite combine_fmap, <- list_fmap_compose. done. Qed.

Lemma mix_column_bytes n (v h : nat → Z) bs :
  foldl (mix_column (v <$> seq 0 n)) (h <$> seq 0 n) bs =
  (λ i, foldl (C.fnv_byte (v i)) (h i) bs) <$> seq 0 n.
Proof.
  revert h. induction bs as [|b bs IH]; intros h; [done|]. simpl. rewrite mix_column_byte. apply IH.
Qed.

Lemma mix_columns n f cols h :
  (∀ j, j ∈ cols → (j < n)%nat) →
  foldl (λ rows j, foldl (mix_column (column j (rows_of n f))) rows (seq 0 4)) (h <$> seq 0 n) cols =
  (λ i, foldl (λ h j, C.fnv_u32 h (f i j)) (h i) cols) <$> seq 0 n.
Proof.
  revert h. induction cols as [|j cols IH]; intros h Hc; [done|]. cbn [foldl].
  rewrite column_rows_of by (apply Hc; set_solver). rewrite mix_column_bytes.
  rewrite IH by (intros; apply Hc; set_solver). done.
Qed.

Lemma row_hashes_columns n f :
  foldl (λ rows j, foldl (mix_column (column j (rows_of n f))) rows (seq 0 4))
    (replicate n FNV_OFFSET) (seq 0 n) = hashes n f.
Proof.
  assert (replicate n FNV_OFFSET = (λ _ : nat, FNV_OFFSET) <$> seq 0 n) as ->.
  { generalize 0%nat. induction n as [|n IH]; intros s; [done|]. simpl. by rewrite (IH (S s)). }
  apply (mix_columns n f (seq 0 n) (λ _, FNV_OFFSET)). intros j Hj%elem_of_seq. lia.
Qed.

(** ** Agreement *)

Definition digest_of (seed cipher : Z) (n rounds : nat) : Z :=
  C.fold_digest (hashes n (iterate (sq n) rounds (cells (C.seed_state seed cipher) n)))
    seed cipher (Z.of_nat n) (Z.of_nat rounds).

Lemma solve_C seed cipher n rounds :
  C.solve seed cipher n rounds =
  if C.bad_arguments n rounds then None else Some (digest_of seed cipher n rounds).
Proof.
  unfold C.solve, digest_of. destruct (C.bad_arguments n rounds); [reflexivity|].
  rewrite filled_flat, (iterate_repr (flat n) (sq n) (C.square n)) by apply square_flat.
  rewrite row_hashes_flat. reflexivity.
Qed.


Lemma solve_Cuda d seed cipher n rounds :
  Cuda.any_order d →
  Cuda.solve d seed cipher n rounds =
  if C.bad_arguments n rounds then None else Some (digest_of seed cipher n rounds).
Proof.
  intros Ho. unfold Cuda.solve, digest_of. destruct (C.bad_arguments n rounds); [reflexivity|].
  rewrite fill_launch, filled_flat, squares_spec by (done || apply malloc_length).
  rewrite row_hash_launch, row_hashes_flat by done. reflexivity.
Qed.

Lemma reference_digest_of seed cipher n rounds :
  reference_digest seed cipher n rounds = digest_of seed cipher n rounds.
Proof.
  unfold reference_digest, digest_of. rewrite fold_digest_C, filled_rows, seed_state_C.
  rewrite (iterate_repr (rows_of n) (sq n) (λ m, astype32 (matmul n m m))) by apply square_rows.
  rewrite row_hashes_columns. reflexivity.
Qed.

Lemma payload_words :
  Payload.seed_state = seed_state ∧ Payload.fnv_u32 = fnv_u32 ∧ Payload.fnv_u64 = fnv_u64 ∧
  Payload.filled = filled ∧ Payload.mix_column = mix_column.
Proof. repeat split. Qed.

Lemma payload_digest seed cipher n rounds :
  Payload.reference_digest seed cipher n rounds = reference_digest seed cipher n rounds.
Proof.
  destruct payload_words as (Es & E32 & E64 & Ef & Em). unfold Payload.reference_digest.
  rewrite Es, E32, E64, Ef, Em. unfold Payload.FNV_OFFSET. fold FNV_OFFSET. exact eq_refl.
Qed.

Lemma fnv_u32_range h v : 0 <= C.fnv_u32 h v < 2 ^ 64.
Proof. unfold C.fnv_u32, C.fnv_byte. cbn [seq foldl]. unfold u64. apply Z.mod_pos_bound. lia. Qed.

Lemma digest_range seed cipher n rounds : 0 <= digest_of seed cipher n rounds < 2 ^ 64.
Proof. apply fnv_u32_range. Qed.

(** A device that runs the last thread first, in buffers full of ones. *)
Definition sample_device : Cuda.Device := Cuda.MkDevice (λ _ count, rev (seq 0 count)) (λ _ _, 1).
Lemma sample_device_order : Cuda.any_order sample_device.
Proof. intros number count. apply Permutation_sym, Permutation_rev. Qed.

(** The streamed buffers fit in half the free memory with the matrices, unless
    they have the least size already. *)
Lemma halve_spec fuel cells free : ∀ words e,
  words = Cuda.LEAST_WORDS * 2 ^ Z.of_nat e → (e <= fuel)%nat →
  let w := Cuda.halve fuel words cells free in
  Cuda.LEAST_WORDS <= w <= words ∧ (w = Cuda.LEAST_WORDS ∨ Cuda.needed w cells <= free / 2).
Proof.
  induction fuel as [|fuel IH]; intros words e -> He.
  - replace e with 0%nat by lia. cbn [Cuda.halve]. unfold Cuda.LEAST_WORDS. cbn. lia.
  - cbn [Cuda.halve]. destruct e as [|e].
    + replace (Cuda.LEAST_WORDS * 2 ^ Z.of_nat 0) with Cuda.LEAST_WORDS by (unfold Cuda.LEAST_WORDS; cbn; lia).
      rewrite Z.ltb_irrefl. cbn [andb]. lia.
    + assert (Cuda.LEAST_WORDS * 2 ^ Z.of_nat (S e) = Cuda.LEAST_WORDS * 2 ^ Z.of_nat e * 2) as E
        by (rewrite Nat2Z.inj_succ, Z.pow_succ_r; lia).
      assert (Cuda.LEAST_WORDS <= Cuda.LEAST_WORDS * 2 ^ Z.of_nat e) as Hle
        by (pose proof (Z.pow_pos_nonneg 2 (Z.of_nat e)); unfold Cuda.LEAST_WORDS; lia).
      assert (0 < Cuda.LEAST_WORDS) as Hpos by done. rewrite E.
      destruct (Z.ltb_spec Cuda.LEAST_WORDS (Cuda.LEAST_WORDS * 2 ^ Z.of_nat e * 2)); cbn [andb]; [|lia].
      destruct (Z.ltb_spec (free / 2) (Cuda.needed (Cuda.LEAST_WORDS * 2 ^ Z.of_nat e * 2) cells)); [|lia].
      rewrite Z.div_mul by lia. destruct (IH _ e eq_refl) as [H1 H2]; [lia|]. lia.
Qed.

Lemma benchmark_words_fit cells free :
  let w := Cuda.benchmark_words cells free in
  2 ^ 20 <= w <= 2 ^ 26 ∧ (w = 2 ^ 20 ∨ Cuda.needed w cells <= free / 2).
Proof. apply (halve_spec 6 cells free (2 ^ 26) 6); [reflexivity|lia]. Qed.

(** Every cell of a streamed buffer is written by the one thread its number gives. *)
Lemma stream_cells_spec words stride fuel : ∀ k j,
  0 < stride → 0 <= k → (words - k < Z.of_nat fuel * stride) →
  j ∈ Cuda.stream_cells fuel words stride k ↔ k <= j < words ∧ j mod stride = k mod stride.
Proof.
  induction fuel as [|fuel IH]; intros k j Hs Hk Hf; cbn [Cuda.stream_cells].
  - rewrite elem_of_nil. split; [done|intros [? _]; lia].
  - destruct (Z.ltb_spec k words); [|rewrite elem_of_nil; split; [done|intros [? _]; lia]].
    rewrite elem_of_cons, IH by lia. rewrite <- (Z.mul_1_l stride) at 3. rewrite Z_mod_plus_full. split.
    + intros [->|[? ?]]; [lia|split; [lia|done]].
    + intros [Hj Hm]. destruct (Z.eq_dec j k) as [->|Hne]; [by left|right]. split; [|done].
      assert (j / stride * stride + j mod stride = j) by (rewrite Z.mul_comm; symmetry; apply Z.div_mod; lia).
      assert (k / stride * stride + k mod stride = k) by (rewrite Z.mul_comm; symmetry; apply Z.div_mod; lia).
      generalize dependent (j / stride). generalize dependent (k / stride). rewrite Hm.
      generalize (k mod stride). intros r a Ha b Hb. assert (a < b) by nia. nia.
Qed.

(** A smaller instance of the vectors in challenge/src/selfcheck.c. *)
Example digest_vector : reference_digest 1 2 8 2 = 3768256640609045150.
Proof. vm_compute. reflexivity. Qed.
