(* ===== verification/Challenge.v ===== *)
(** * The compute challenge (validator/verify/challenge.py and its payload)

    The validator uploads a runner and a library, has every card of a machine
    solve the same challenge, and compares the digest, the time and the
    throughput with what it expects.  [run] is the validator's side; [Rig] is the
    payload's answer on the machine. *)

From Stdlib Require Import Ascii String QArith.
From S2P Require Import Prelude.
From S2P Require Import PyStr.
From S2P Require Import PyText.
From S2P Require Import PyFloat.
From S2P Require Import PyJson.
From S2P Require Import Failures.
From S2P Require Import Messages.
From S2P Require Import Sha256.
From S2P Require Import Tiers.
From S2P Require Import Shell.
From S2P Require Import Runner.
From S2P Require Import Digest.
Local Open Scope string_scope.
Local Open Scope list_scope.

Definition RUNNER_NAME : string := "challenge_runner.py".
Definition LIBRARY_NAME : string := "libmtchallenge.so".
Definition MODE_LIBRARY : string := "library".
Definition MODE_REFERENCE : string := "reference".

Definition GOPS_FLOOR (t : Tier) : pyfloat :=
  match t with ENTRY => fz 50 | STANDARD => fz 200 | PROFESSIONAL => fz 400 | FLAGSHIP => fz 1000 end.
Definition GBPS_FLOOR (t : Tier) : pyfloat :=
  match t with ENTRY => fz 100 | STANDARD => fz 300 | PROFESSIONAL => fz 400 | FLAGSHIP => fz 1000 end.

(** ** Hexadecimal *)

Definition hex_val (c : ascii) : option Z :=
  if is_digit c then Some (code c - 48)%Z
  else if between 97 102 c then Some (code c - 87)%Z
  else if between 65 70 c then Some (code c - 55)%Z
  else None.

Fixpoint hex_go (acc : Z) (prev_digit : bool) (s : string) : option Z :=
  match s with
  | "" => if prev_digit then Some acc else None
  | String c s' =>
      match hex_val c with
      | Some v => hex_go (acc * 16 + v)%Z true s'
      | None => if Ascii.eqb c "_"%char && prev_digit then hex_go acc false s' else None
      end
  end.

(** After [0x] an underscore may come first. *)
Definition hex_unsigned (s : string) : option Z :=
  match s with
  | String "0" (String x s') =>
      if Ascii.eqb (lower_char x) "x"%char then
        match s' with
        | String "_" s'' => hex_go 0 false s''
        | _ => hex_go 0 false s'
        end
      else hex_go 0 false s
  | _ => hex_go 0 false s
  end.

(** [int(text, 16)]; [None] is the [ValueError]. *)
Definition int16 (text : string) : option Z :=
  match strip text with
  | String "-" s => Z.opp <$> hex_unsigned s
  | String "+" s => hex_unsigned s
  | s => hex_unsigned s
  end.

(** The lowest [k] hexadecimal digits of a number. *)
Fixpoint hex_digits (k : nat) (z : Z) : string :=
  match k with
  | O => ""
  | S k' => hex_digits k' (z / 16) +:+ String (hexdigit (z mod 16)) ""
  end.

(** [f"{z:016x}"], for a 64-bit word *)
Definition hex016 (z : Z) : string := hex_digits 16 z.

(** ** The parts of [run] *)

Record Settings : Type := MkSettings {
  challenge_library : option (Z → Z → Z → Z → Z * Z * string);
  agent_library : option string;
  agent_library_path : string;
  allow_reference_challenge : bool;
  challenge_max_ms : pyfloat;
  check_timeout : pyfloat }.

(** A native library is a function of the four arguments: code, digest, text
    of the last error. *)
Definition library_digest (solve : Z → Z → Z → Z → Z * Z * string) (seed cipher n rounds : Z) : res Z :=
  let '(code, digest, last_error) := solve seed cipher n rounds in
  if negb (code =? 0)%Z then
    Raise (ChallengeUnavailable
             ("verify library failed with " +:+ str_of_Z code +:+ ": " +:+ last_error))
  else Ok digest.

Definition expected_digest (settings : Settings) (r : ChallengeRequest.t) : res (Z * string) :=
  let seed := ChallengeRequest.seed r in
  let cipher := ChallengeRequest.cipher r in
  let n := ChallengeRequest.n r in
  let rounds := ChallengeRequest.rounds r in
  match settings.(challenge_library) with
  | Some solve => d ← library_digest solve seed cipher n rounds; mret (d, "library")
  | None => Ok (reference_digest seed cipher (Z.to_nat n) (Z.to_nat rounds), "reference")
  end.

Definition floors_for (tier : option Tier) : pyfloat * pyfloat :=
  let chosen := default ENTRY tier in (GOPS_FLOOR chosen, GBPS_FLOOR chosen).

Definition tier_of (rig : dict) : option Tier := tier_of_text (get_str_or "tier" "" rig).

Record Prepared : Type := MkPrepared { mode : string; library_sha256 : string; library_arg : string }.

Definition command_for (python session_dir : string) (p : Prepared) (r : ChallengeRequest.t)
    (uuid : string) : string :=
  let parts := [quote python; "-I"; RUNNER_NAME; quote p.(library_arg);
    str_of_Z (ChallengeRequest.seed r); str_of_Z (ChallengeRequest.cipher r);
    str_of_Z (ChallengeRequest.n r); str_of_Z (ChallengeRequest.rounds r);
    str_of_Z (ChallengeRequest.benchmark_n r); str_of_Z (ChallengeRequest.iterations r)] in
  let prefix := if String.eqb uuid "" then "" else "CUDA_VISIBLE_DEVICES=" +:+ quote uuid +:+ " " in
  "cd " +:+ quote session_dir +:+ " && " +:+ prefix +:+ join " " parts.

(** ** The verdict on one card

    [Stop] ends the loop over the cards. *)
Inductive then_ : Type := Continue | Stop.

Record Examined : Type := MkExamined {
  entry : dict; failures : list Failure; next : then_ }.

Definition or_gpu (uuid : string) : string := sor uuid "gpu".

Definition reject (uuid text seed : string) (ev : dict) : Failure :=
  MkFailure CHALLENGE_REJECT (or_gpu uuid +:+ ": " +:+ text) seed ev.

Definition measured (r : ChallengeRequest.t) (uuid : string) (a : ChallengeAnswer.t) : dict :=
  [("uuid", JStr uuid); ("cipher", JStr (str_of_Z (ChallengeRequest.cipher r)));
   ("elapsed_ms", JFloat (ChallengeAnswer.elapsed_ms a)); ("gops", JFloat (ChallengeAnswer.gops a));
   ("gbps", JFloat (ChallengeAnswer.gbps a))].

Definition digest_ok (a : ChallengeAnswer.t) (expected : Z) : bool :=
  match int16 (ChallengeAnswer.digest a) with Some d => (d =? expected)%Z | None => false end.

(** [entry.update({...})] with what the answer says. *)
Definition answered (entry : dict) (a : ChallengeAnswer.t) (parsed : dict) : dict :=
  entry ++ [("elapsed_ms", JFloat (ChallengeAnswer.elapsed_ms a)); ("gops", JFloat (ChallengeAnswer.gops a));
    ("gbps", JFloat (ChallengeAnswer.gbps a)); ("benchmark_ms", JFloat (ChallengeAnswer.benchmark_ms a));
    ("build", JStr (ChallengeAnswer.build a)); ("version", JInt (ChallengeAnswer.version a));
    ("mode", JStr (get_str "mode" parsed))].

(** Time and throughput of a right answer. *)
Definition judge_speed (settings : Settings) (p : Prepared) (tier : option Tier)
    (r : ChallengeRequest.t) (uuid : string) (a : ChallengeAnswer.t) : list Failure :=
  let seed := str_of_Z (ChallengeRequest.seed r) in
  let '(gops_floor, gbps_floor) := floors_for tier in
  if flt settings.(challenge_max_ms) (ChallengeAnswer.elapsed_ms a) then
    [reject uuid ("solved in " +:+ format_fixed 0 (ChallengeAnswer.elapsed_ms a) +:+ " ms, above " +:+
                  format_fixed 0 settings.(challenge_max_ms) +:+ " ms") seed (measured r uuid a)]
  else if String.eqb p.(mode) MODE_LIBRARY &&
          (flt (ChallengeAnswer.gops a) gops_floor || flt (ChallengeAnswer.gbps a) gbps_floor) then
    [reject uuid ("throughput " +:+ format_fixed 0 (ChallengeAnswer.gops a) +:+ " GOPS and " +:+
       format_fixed 0 (ChallengeAnswer.gbps a) +:+ " GB/s below the " +:+
       tier_value (default ENTRY tier) +:+ " floor of " +:+ format_fixed 0 gops_floor +:+
       " GOPS and " +:+ format_fixed 0 gbps_floor +:+ " GB/s") seed (measured r uuid a)]
  else [].

Definition judge_answer (settings : Settings) (p : Prepared) (tier : option Tier)
    (r : ChallengeRequest.t) (expected : Z) (uuid : string) (entry : dict) (parsed : dict)
    : res Examined :=
  let seed := str_of_Z (ChallengeRequest.seed r) in
  a ← ChallengeAnswer.from_payload parsed;
  let entry := answered entry a parsed in
  let error := ChallengeAnswer.error a in
  let loaded := get_str_or "library_sha256" "" parsed in
  if negb (String.eqb error "") then
    Ok (MkExamined (entry ++ [("error", JStr (stake 300 error))])
          [reject uuid (stake 200 error) seed
             [("cipher", JStr (str_of_Z (ChallengeRequest.cipher r))); ("uuid", JStr uuid)]] Continue)
  else if String.eqb p.(mode) MODE_LIBRARY && negb (String.eqb loaded p.(library_sha256)) then
    Ok (MkExamined (entry ++ [("loaded_sha256", JStr loaded)])
          [MkFailure VERSION_STALE "the runner loaded a library that is not the one uploaded" seed
             [("uploaded", JStr p.(library_sha256)); ("loaded", JStr loaded)]] Continue)
  else
    let ok := digest_ok a expected in
    let entry := entry ++ [("digest_ok", JBool ok)] in
    if negb ok then
      Ok (MkExamined entry [reject uuid "wrong digest" seed (measured r uuid a)] Continue)
    else Ok (MkExamined entry (judge_speed settings p tier r uuid a) Continue).

Definition examine (settings : Settings) (p : Prepared) (tier : option Tier) (r : ChallengeRequest.t)
    (expected : Z) (uuid : string) (result : CommandResult) (parsed : option dict) : res Examined :=
  let seed := str_of_Z (ChallengeRequest.seed r) in
  let entry := [("uuid", JStr uuid); ("command_ms", JFloat (fround 1 result.(relapsed_ms)))] in
  if transport_failed result then
    Ok (MkExamined entry [MkFailure SSH_TRANSPORT result.(error) seed []] Stop)
  else match parsed with
  | None =>
      let crash := default (MkFailure AGENT_CRASH "the runner printed no answer" seed [])
                     (classify result seed) in
      Ok (MkExamined (entry ++ [("error", JStr (stderr_tail 400 result))]) [crash] Continue)
  | Some parsed => judge_answer settings p tier r expected uuid entry parsed
  end.

(** ** [run] *)

Section Run.
Context {H : Type} (env : Env H).
(** The session: its python, and the upload of a file to the machine. *)
Variable python : string.
Variable upload_ : string → string → Z → H → res unit * H.
Variable runner_source : string.

Definition upload (content path : string) (bits : Z) : M H unit := λ st,
  let '(r, h) := upload_ content path bits st.(host) in
  (r, MkSt h st.(log) st.(inflight) st.(records) st.(job_files) st.(retries)).

Definition prepare (settings : Settings) (session_dir : string) : M H Prepared :=
  _ ← upload runner_source (session_dir +:+ "/" +:+ RUNNER_NAME) 384;
  match settings.(agent_library) with
  | Some raw =>
      let remote := session_dir +:+ "/" +:+ LIBRARY_NAME in
      _ ← upload raw remote 448;
      mret (MkPrepared MODE_LIBRARY (hex (sha256 raw)) remote)
  | None =>
      if settings.(allow_reference_challenge) then
        mret (MkPrepared MODE_REFERENCE "" MODE_REFERENCE)
      else lift (Raise (ChallengeUnavailable
        ("the miner challenge library " +:+ settings.(agent_library_path) +:+
         " is missing and CV_ALLOW_REFERENCE_CHALLENGE is off")))
  end.

(** [session.run_json] *)
Definition run_json (command : string) (timeout : pyfloat) : M H (CommandResult * option dict) :=
  r ← run env command timeout; mret (r, last_json_object env.(loads) r.(stdout)).

(** The loop over the cards: entries, failures and the total time. *)
Fixpoint cards (settings : Settings) (session_dir : string) (p : Prepared) (tier : option Tier)
    (r : ChallengeRequest.t) (expected : Z) (targets : list string)
    (entries : list dict) (fails : list Failure) (total : pyfloat)
    : M H (list dict * list Failure * pyfloat) :=
  match targets with
  | [] => mret (entries, fails, total)
  | uuid :: targets' =>
      answer ← run_json (command_for python session_dir p r uuid) settings.(check_timeout);
      let total := fadd total answer.1.(relapsed_ms) in
      x ← lift (examine settings p tier r expected uuid answer.1 answer.2);
      let entries := entries ++ [x.(entry)] in
      let fails := fails ++ x.(failures) in
      match x.(next) with
      | Stop => mret (entries, fails, total)
      | Continue => cards settings session_dir p tier r expected targets' entries fails total
      end
  end.

Definition base_evidence (r : ChallengeRequest.t) (p : Prepared) (method : string)
    (tier : option Tier) : dict :=
  let '(gops_floor, gbps_floor) := floors_for tier in
  [("seed", JStr (str_of_Z (ChallengeRequest.seed r)));
   ("cipher", JStr (str_of_Z (ChallengeRequest.cipher r)));
   ("n", JInt (ChallengeRequest.n r)); ("rounds", JInt (ChallengeRequest.rounds r));
   ("benchmark_n", JInt (ChallengeRequest.benchmark_n r));
   ("iterations", JInt (ChallengeRequest.iterations r));
   ("mode", JStr p.(mode)); ("verified_with", JStr method);
   ("library_sha256", JStr p.(library_sha256));
   ("floors", JDict (if String.eqb p.(mode) MODE_LIBRARY
                     then [("gops", JFloat gops_floor); ("gbps", JFloat gbps_floor)] else []))].

Definition summary (targets : nat) (p : Prepared) (entries : list dict) (fails : list Failure) : string :=
  match fails with
  | _ :: _ =>
      str_of_Z (Z.of_nat (List.length (List.filter (λ e, truthy (getv "digest_ok" e)) entries))) +:+
      " of " +:+ str_of_Z (Z.of_nat targets) +:+ " cards answered in " +:+ p.(mode) +:+ " mode"
  | [] =>
      str_of_Z (Z.of_nat targets) +:+ " cards answered, " +:+
      join ", " ((λ e, match getv "gops" e with JFloat g => format_fixed 0 g | _ => "0" end +:+ " GOPS")
                   <$> entries)
  end.

Definition targets_of (gpu_uuids : list string) : list string :=
  match gpu_uuids with [] => [""] | _ => gpu_uuids end.

Definition run (settings : Settings) (session_dir : string) (r : ChallengeRequest.t)
    (tier : option Tier) (gpu_uuids : list string) : M H Verdict :=
  p ← prepare settings session_dir;
  e ← lift (expected_digest settings r);
  let targets := targets_of gpu_uuids in
  out ← cards settings session_dir p tier r e.1 targets [] [] f0;
  let '(entries, fails, total) := out in
  mret (MkVerdict "challenge" (List.hd_error fails)
          (base_evidence r p e.2 tier ++
             [("gpus", JList (JDict <$> entries));
              ("summary", JStr (summary (List.length targets) p entries fails))]) total).
End Run.

(** ** The payload on the machine (payloads/challenge_runner.py)

    What the runner prints for well-formed arguments, with its own copy of the
    digest ([Payload]). *)
Module Rig.

(** The native library: what it calls itself, the digest, the benchmark, and
    the error texts. *)
Record Library : Type := MkLibrary {
  build : string; version : Z; content : string;
  solve : Z → Z → Z → Z → Z * Z * string;
  benchmark : Z → Z → Z * (pyfloat * pyfloat * pyfloat) * string }.

Definition run_reference (seed cipher n rounds : Z) (elapsed : pyfloat) : dict :=
  [("digest", JStr (hex016 (Payload.reference_digest seed cipher (Z.to_nat n) (Z.to_nat rounds))));
   ("elapsed_ms", JFloat (fround 3 elapsed)); ("gops", JFloat f0); ("gbps", JFloat f0);
   ("benchmark_ms", JFloat f0); ("build", JStr "python-reference"); ("version", JInt 1);
   ("error", JStr ""); ("mode", JStr "reference"); ("library_sha256", JStr "")].

Definition run_library (lib : Library) (seed cipher n rounds benchmark_n iterations : Z)
    (elapsed : pyfloat) : dict :=
  let answer := [("digest", JStr ""); ("elapsed_ms", JFloat f0); ("gops", JFloat f0);
    ("gbps", JFloat f0); ("benchmark_ms", JFloat f0); ("build", JStr lib.(build));
    ("version", JInt lib.(version)); ("error", JStr ""); ("mode", JStr "library");
    ("library_sha256", JStr (hex (sha256 lib.(content))))] in
  let '(code, digest, last_error) := lib.(solve) seed cipher n rounds in
  let answer := dset "elapsed_ms" (JFloat (fround 3 elapsed)) answer in
  if negb (code =? 0)%Z then
    dset "error" (JStr ("solve failed with " +:+ str_of_Z code +:+ ": " +:+ last_error)) answer
  else
  let answer := dset "digest" (JStr (hex016 digest)) answer in
  let '(code, (gops, gbps, ms), last_error) := lib.(benchmark) benchmark_n iterations in
  if negb (code =? 0)%Z then
    dset "error" (JStr ("benchmark failed with " +:+ str_of_Z code +:+ ": " +:+ last_error)) answer
  else dset "benchmark_ms" (JFloat (fround 3 ms)) (dset "gbps" (JFloat (fround 3 gbps))
         (dset "gops" (JFloat (fround 3 gops)) answer)).

Definition failed (text : string) : dict :=
  [("digest", JStr ""); ("elapsed_ms", JFloat f0); ("error", JStr text)].

(** [main]: the exit code and the object printed.  [libraries] loads a path,
    or gives the text of the exception. *)
Definition main (libraries : string → string + Library) (argv : list string) (elapsed : pyfloat)
    : Z * dict :=
  match argv with
  | [_; path; a; b; c; d; e; f] =>
      match parse_int a, parse_int b, parse_int c, parse_int d, parse_int e, parse_int f with
      | Some seed, Some cipher, Some n, Some rounds, Some benchmark_n, Some iterations =>
          let answer :=
            if String.eqb path MODE_REFERENCE then run_reference seed cipher n rounds elapsed
            else match libraries path with
                 | inr lib => run_library lib seed cipher n rounds benchmark_n iterations elapsed
                 | inl text => failed text
                 end in
          ((if truthy (getv "error" answer) then 1 else 0)%Z, answer)
      | _, _, _, _, _, _ => (2%Z, failed "numeric arguments required")
      end
  | _ => (2%Z, failed "usage: runner <lib|reference> seed cipher n rounds benchmark_n iterations")
  end.
End Rig.

(** ** Hexadecimal round trip *)

Lemma hexdigit_ok v : (0 <= v < 16)%Z → is_hex (hexdigit v) = true ∧ hex_val (hexdigit v) = Some v.
Proof.
  intros Hv. assert (v ∈ (Z.of_nat <$> seq 0 16)) as Hin.
  { apply list_elem_of_fmap. exists (Z.to_nat v). split; [lia|]. apply elem_of_seq. lia. }
  clear Hv. revert v Hin. apply Forall_forall. repeat constructor.
Qed.

Lemma hex_go_digits k z acc b s :
  hex_go acc b (hex_digits k z +:+ s) = hex_go (acc * 16 ^ Z.of_nat k + z mod 16 ^ Z.of_nat k) (match k with O => b | _ => true end) s.
Proof.
  revert z acc b s. induction k as [|k IH]; intros z acc b s.
  - rewrite Z.mod_1_r. simpl. f_equal. lia.
  - cbn [hex_digits]. rewrite app_assoc_s, IH.
    assert (0 <= z mod 16 < 16)%Z as Hd by (apply Z.mod_pos_bound; lia).
    destruct (hexdigit_ok _ Hd) as [_ Hv].
    change (String (hexdigit (z mod 16)) "" +:+ s) with (String (hexdigit (z mod 16)) s).
    cbn [hex_go]. rewrite Hv. f_equal.
    rewrite Nat2Z.inj_succ, Z.pow_succ_r by lia.
    rewrite (Z.rem_mul_r z 16 (16 ^ Z.of_nat k)) by lia. lia.
Qed.

Lemma hex_digits_hex k z : sforall is_hex (hex_digits k z) = true.
Proof.
  revert z. induction k as [|k IH]; intros z; [done|]. cbn [hex_digits]. rewrite sforall_app, IH.
  simpl. assert (0 <= z mod 16 < 16)%Z as Hd by (apply Z.mod_pos_bound; lia).
  by rewrite (proj1 (hexdigit_ok _ Hd)).
Qed.

Lemma is_hex_plain c : is_hex c = true →
  is_space c = false ∧ Ascii.eqb (lower_char c) "x"%char = false ∧ c ≠ "-"%char ∧ c ≠ "+"%char.
Proof. by destruct c as [[] [] [] [] [] [] [] []]. Qed.

Lemma int16_plain s : sforall is_hex s = true → int16 s = hex_go 0 false s.
Proof.
  intros Hs. unfold int16. rewrite strip_no_space.
  2:{ apply sforall_impl with is_hex; [|done]. intros c Hc. by destruct (is_hex_plain c Hc) as [-> _]. }
  destruct s as [|c s]; [done|]. apply andb_true_iff in Hs as [Hc Hs].
  destruct (is_hex_plain c Hc) as (_ & _ & Hm & Hp).
  assert (hex_unsigned (String c s) = hex_go 0 false (String c s)) as E.
  { destruct s as [|d s]; [by destruct c as [[] [] [] [] [] [] [] []]|].
    apply andb_true_iff in Hs as [Hd _]. destruct (is_hex_plain d Hd) as (_ & Hx & _).
    unfold hex_unsigned. rewrite Hx. by destruct c as [[] [] [] [] [] [] [] []]. }
  destruct c as [[] [] [] [] [] [] [] []]; first [done | exact E].
Qed.

(** The digest printed is the digest read. *)
Lemma int16_hex016 z : (0 <= z < 2 ^ 64)%Z → int16 (hex016 z) = Some z.
Proof.
  intros Hz. unfold hex016. rewrite int16_plain by apply hex_digits_hex.
  rewrite <- (app_nil_r_s (hex_digits 16 z)), hex_go_digits. cbn [hex_go].
  f_equal. change (16 ^ Z.of_nat 16)%Z with (2 ^ 64)%Z. rewrite Z.mod_small by done. lia.
Qed.

(** ** What a passed challenge shows *)

(** A figure the machine reports is no more than a limit, or no less than a floor.
    A NaN, which the JSON may carry, compares with nothing and passes both. *)
Definition no_more (limit x : pyfloat) : Prop := fle x limit = true ∨ x = FNan ∨ limit = FNan.
Definition no_less (floor x : pyfloat) : Prop := fle floor x = true ∨ x = FNan ∨ floor = FNan.

Lemma no_more_flt limit x : flt limit x = false ↔ no_more limit x.
Proof. apply flt_false_fle. Qed.
Lemma no_less_flt floor x : flt x floor = false ↔ no_less floor x.
Proof. unfold no_less. rewrite flt_false_fle. tauto. Qed.

(** The answer [parsed] of a card: no error, the expected digest, the reported time no
    more than the limit; in library mode also the library that was uploaded and a
    throughput no less than the floors of the tier. *)
Definition good_answer (settings : Settings) (p : Prepared) (tier : option Tier) (expected : Z)
    (parsed : dict) : Prop :=
  ∃ a, ChallengeAnswer.from_payload parsed = Ok a ∧
    ChallengeAnswer.error a = "" ∧ int16 (ChallengeAnswer.digest a) = Some expected ∧
    no_more settings.(challenge_max_ms) (ChallengeAnswer.elapsed_ms a) ∧
    (p.(mode) = MODE_LIBRARY →
     get_str_or "library_sha256" "" parsed = p.(library_sha256) ∧
     no_less (floors_for tier).1 (ChallengeAnswer.gops a) ∧
     no_less (floors_for tier).2 (ChallengeAnswer.gbps a)).

Lemma judge_speed_nil settings p tier r uuid a :
  judge_speed settings p tier r uuid a = [] ↔
  no_more settings.(challenge_max_ms) (ChallengeAnswer.elapsed_ms a) ∧
  (p.(mode) = MODE_LIBRARY →
   no_less (floors_for tier).1 (ChallengeAnswer.gops a) ∧
   no_less (floors_for tier).2 (ChallengeAnswer.gbps a)).
Proof.
  unfold judge_speed. rewrite <- !no_less_flt, <- no_more_flt.
  destruct (floors_for tier) as [g b]. cbn [fst snd].
  destruct (flt (challenge_max_ms settings) _); [naive_solver|].
  destruct (String.eqb_spec (mode p) MODE_LIBRARY) as [E|E]; cbn [andb]; [|naive_solver].
  destruct (flt _ g), (flt _ b); naive_solver.
Qed.

Lemma judge_answer_nil settings p tier r expected uuid entry parsed x :
  judge_answer settings p tier r expected uuid entry parsed = Ok x →
  next x = Continue ∧ (failures x = [] ↔ good_answer settings p tier expected parsed).
Proof.
  unfold judge_answer, good_answer. intros E. apply res_bind_ok in E as (a & Ha & E). rewrite Ha.
  destruct (String.eqb_spec (ChallengeAnswer.error a) "") as [He|He]; cbn [negb] in E.
  2:{ injection E as <-. split; [done|]. simpl. split; [done|]. intros (a' & [= <-] & ? & _). done. }
  destruct (String.eqb_spec (mode p) MODE_LIBRARY) as [Em|Em]; cbn [andb] in E.
  - destruct (String.eqb_spec (get_str_or "library_sha256" "" parsed) (library_sha256 p)) as [Es|Es]; cbn [negb] in E.
    2:{ injection E as <-. split; [done|]. simpl. split; [done|]. intros (a' & [= <-] & _ & _ & _ & H).
        by destruct H as [? _]. }
    unfold digest_ok in E. destruct (int16 (ChallengeAnswer.digest a)) as [d|] eqn:Ed; cbn [negb] in E.
    2:{ injection E as <-. split; [done|]. simpl. split; [done|]. intros (a' & [= <-] & _ & H & _). congruence. }
    destruct (Z.eqb_spec d expected) as [->|Hd]; cbn [negb] in E; injection E as <-; (split; [done|]); simpl.
    + rewrite judge_speed_nil. split; [intros [? H]; exists a; naive_solver|].
      intros (a' & [= <-] & _ & _ & ? & H). naive_solver.
    + split; [done|]. intros (a' & [= <-] & _ & H & _). congruence.
  - unfold digest_ok in E. destruct (int16 (ChallengeAnswer.digest a)) as [d|] eqn:Ed; cbn [negb] in E.
    2:{ injection E as <-. split; [done|]. simpl. split; [done|]. intros (a' & [= <-] & _ & H & _). congruence. }
    destruct (Z.eqb_spec d expected) as [->|Hd]; cbn [negb] in E; injection E as <-; (split; [done|]); simpl.
    + rewrite judge_speed_nil. split; [intros [? H]; exists a; naive_solver|].
      intros (a' & [= <-] & _ & _ & ? & H). naive_solver.
    + split; [done|]. intros (a' & [= <-] & _ & H & _). congruence.
Qed.

Lemma examine_nil settings p tier r expected uuid result parsed x :
  examine settings p tier r expected uuid result parsed = Ok x → failures x = [] →
  next x = Continue ∧ ∃ d, parsed = Some d ∧ good_answer settings p tier expected d.
Proof.
  unfold examine. intros E Hf. destruct (transport_failed result); [by injection E as <-|].
  destruct parsed as [d|]; [|by injection E as <-].
  destruct (judge_answer_nil _ _ _ _ _ _ _ _ _ E) as [? H]. naive_solver.
Qed.

Section RunFacts.
Context {H : Type} (env : Env H).
Variable python : string.
Variable upload_ : string → string → Z → H → res unit * H.
Variable runner_source : string.

(** The answer of a command of the log. *)
Definition answers (st : St H) (command : string) (d : dict) : Prop :=
  ∃ e, e ∈ log st ∧ ecommand e = command ∧ last_json_object env.(loads) (stdout (eresult e)) = Some d.

Lemma cards_sound settings dir p tier r expected : ∀ targets entries fails total st entries' total' st',
  cards env python settings dir p tier r expected targets entries fails total st =
    (Ok (entries', [], total'), st') →
  fails = [] ∧ (∃ l, log st' = log st ++ l) ∧
  ∀ uuid, uuid ∈ targets → ∃ d, answers st' (command_for python dir p r uuid) d ∧
    good_answer settings p tier expected d.
Proof.
  induction targets as [|uuid targets IH]; intros entries fails total st entries' total' st' E; cbn [cards] in E.
  - apply M_ret_ok in E as [[= -> -> ->] ->]. split; [done|]. split; [by exists []; rewrite app_nil_r|].
    intros ? ?%not_elem_of_nil. done.
  - apply M_bind_ok in E as ([result parsed] & st1 & Hr & E).
    unfold run_json in Hr. apply M_bind_ok in Hr as (result' & st2 & Hrun & Hr).
    apply M_ret_ok in Hr as [[= -> <-] ->].
    apply M_bind_ok in E as (x & st3 & Hx & E). injection Hx as Hx <-. cbn [fst snd] in *.
    unfold Runner.run, run_with in Hrun. destruct (exec env _ _ _ _) as [res h]. injection Hrun as -> <-.
    destruct (next x) eqn:En.
    + apply IH in E as (Hf & [l Hl] & Hall). apply app_eq_nil in Hf as [Hf Hfx].
      destruct (examine_nil _ _ _ _ _ _ _ _ _ Hx Hfx) as (_ & d & Hd & Hgood). cbn [log] in Hl.
      split; [done|]. split; [by rewrite Hl, <- app_assoc; eexists|].
      intros u [->|Hu]%elem_of_cons; [|by apply Hall]. exists d. split; [|done].
      exists (MkEvent (command_for python dir p r uuid) (check_timeout settings) None result).
      rewrite Hl. split; [|by split]. rewrite !elem_of_app, list_elem_of_singleton. auto.
    + exfalso. apply M_ret_ok in E as [[= _ E _] _]. apply app_eq_nil in E as [_ Hfx].
      destruct (examine_nil _ _ _ _ _ _ _ _ _ Hx Hfx) as [Hn _]. congruence.
Qed.
End RunFacts.

Section Sound.
Context {H : Type} (env : Env H).
Variable python : string.
Variable upload_ : string → string → Z → H → res unit * H.
Variable runner_source : string.

(** C15. A passed challenge says of every card that the command it was given ([answers]:
    read from the log of the session) printed the expected digest and reported a
    time no more than the limit or not a number.  In library mode - the library of
    the machine is there to upload - the answer also names the very library that was
    uploaded and reports a throughput no less than the floors of its tier or not a
    number ([nan_card_passes]); in reference mode, which the configuration must
    allow, the library and the throughput are not looked at. *)
Theorem challenge_sound settings dir r tier uuids st v st' :
  run env python upload_ runner_source settings dir r tier uuids st = (Ok v, st') →
  failure v = None →
  ∃ p expected method, expected_digest settings r = Ok (expected, method) ∧
    (p.(mode) = MODE_LIBRARY ∧ (∃ raw, settings.(agent_library) = Some raw ∧
                                       p.(library_sha256) = hex (sha256 raw)) ∨
     p.(mode) = MODE_REFERENCE ∧ settings.(allow_reference_challenge) = true) ∧
    ∀ uuid, uuid ∈ targets_of uuids → ∃ d,
      answers env st' (command_for python dir p r uuid) d ∧
      good_answer settings p tier expected d.
Proof.
  unfold run. intros E Hv. apply M_bind_ok in E as (p & st1 & Hp & E).
  apply M_bind_ok in E as ([expected method] & st2 & He & E). injection He as He <-.
  apply M_bind_ok in E as ([[entries fails] total] & st3 & Hc & E).
  apply M_ret_ok in E as [<- <-]. cbn [failure] in Hv. destruct fails as [|f fails]; [|done].
  exists p, expected, method. split; [done|]. split.
  - unfold prepare in Hp. apply M_bind_ok in Hp as (u & st4 & _ & Hp).
    destruct (agent_library settings) as [raw|].
    + left. apply M_bind_ok in Hp as (u' & st5 & _ & Hp). apply M_ret_ok in Hp as [<- _].
      split; [done|]. exists raw. done.
    + right. destruct (allow_reference_challenge settings); [|done]. by apply M_ret_ok in Hp as [<- _].
  - by apply cards_sound in Hc as (_ & _ & Hall).
Qed.
End Sound.

(** ** The honest machine *)

(** A native library whose solver is a digest function on 64-bit words. *)
Definition native (f : Z → Z → nat → nat → option Z) (seed cipher n rounds : Z) : Z * Z * string :=
  match f seed cipher (Z.to_nat n) (Z.to_nat rounds) with
  | Some d => (0%Z, d, "")
  | None => ((-1)%Z, 0%Z, "bad arguments")
  end.

(** The validator verifies with the C library, or without one. *)
Definition verifies (settings : Settings) : Prop :=
  settings.(challenge_library) = None ∨ settings.(challenge_library) = Some (native C.solve).

Lemma expected_digest_of settings r :
  verifies settings →
  C.bad_arguments (Z.to_nat (ChallengeRequest.n r)) (Z.to_nat (ChallengeRequest.rounds r)) = false →
  ∃ method, expected_digest settings r =
    Ok (digest_of (ChallengeRequest.seed r) (ChallengeRequest.cipher r)
          (Z.to_nat (ChallengeRequest.n r)) (Z.to_nat (ChallengeRequest.rounds r)), method).
Proof.
  intros Hv Hb. unfold expected_digest. destruct Hv as [-> | ->].
  - exists "reference". rewrite reference_digest_of. reflexivity.
  - exists "library". unfold library_digest, native. rewrite solve_C, Hb. reflexivity.
Qed.

(** What a machine that runs the tiled kernel prints for a card. *)
Definition card_answer (p : Prepared) (lib : Rig.Library) (r : ChallengeRequest.t) (elapsed : pyfloat) : dict :=
  let seed := ChallengeRequest.seed r in
  let cipher := ChallengeRequest.cipher r in
  let n := ChallengeRequest.n r in
  let rounds := ChallengeRequest.rounds r in
  if String.eqb p.(mode) MODE_REFERENCE then Rig.run_reference seed cipher n rounds elapsed
  else Rig.run_library lib seed cipher n rounds (ChallengeRequest.benchmark_n r)
         (ChallengeRequest.iterations r) elapsed.

Definition honest (p : Prepared) (lib : Rig.Library) (r : ChallengeRequest.t) : Prop :=
  (∃ d, Cuda.any_order d ∧ Rig.solve lib = native (Cuda.solve d)) ∧
  (∃ m e, Rig.benchmark lib (ChallengeRequest.benchmark_n r) (ChallengeRequest.iterations r) = (0%Z, m, e)) ∧
  (p.(mode) = MODE_LIBRARY ∧ p.(library_sha256) = hex (sha256 lib.(Rig.content)) ∨
   p.(mode) = MODE_REFERENCE).

Lemma answer_fields d a :
  ChallengeAnswer.from_payload d = Ok a →
  ChallengeAnswer.error a = get_str_or "error" "" d ∧ ChallengeAnswer.digest a = get_str_or "digest" "" d.
Proof. unfold ChallengeAnswer.from_payload. intros E. res_inv. done. Qed.

Lemma get_str_or_str k s d : dget k d = Some (JStr s) → get_str_or k "" d = s.
Proof. unfold get_str_or, getd. intros ->. apply jor_str. Qed.

#[local] Opaque sha256 digest_of hex016 reference_digest Payload.reference_digest.

Lemma card_answer_fields p lib r elapsed :
  honest p lib r →
  C.bad_arguments (Z.to_nat (ChallengeRequest.n r)) (Z.to_nat (ChallengeRequest.rounds r)) = false →
  let d := card_answer p lib r elapsed in
  dget "error" d = Some (JStr "") ∧
  dget "digest" d = Some (JStr (hex016 (digest_of (ChallengeRequest.seed r) (ChallengeRequest.cipher r)
     (Z.to_nat (ChallengeRequest.n r)) (Z.to_nat (ChallengeRequest.rounds r))))) ∧
  (p.(mode) = MODE_LIBRARY → dget "library_sha256" d = Some (JStr p.(library_sha256))).
Proof.
  intros ((dev & Ho & Hs) & (m & e & Hb) & Hm) Hbad. unfold card_answer.
  destruct (String.eqb_spec (mode p) MODE_REFERENCE) as [E|E].
  - cbn zeta. unfold Rig.run_reference. rewrite payload_digest, reference_digest_of.
    split; [reflexivity|]. split; [reflexivity|]. intros E'. rewrite E' in E. discriminate.
  - destruct Hm as [[_ Hsha]|Hm]; [|done]. cbn zeta. unfold Rig.run_library.
    rewrite Hs. unfold native. rewrite (solve_Cuda dev _ _ _ _ Ho), Hbad, Hb. destruct m as [[g b] ms].
    rewrite Hsha. generalize (hex (sha256 (Rig.content lib))). intros sha.
    split; [reflexivity|]. split; [reflexivity|]. intros _. reflexivity.
Qed.

(** The answer of a card that runs the kernels. *)
Lemma card_passes settings p tier r lib elapsed uuid entry a :
  verifies settings → honest p lib r →
  C.bad_arguments (Z.to_nat (ChallengeRequest.n r)) (Z.to_nat (ChallengeRequest.rounds r)) = false →
  ChallengeAnswer.from_payload (card_answer p lib r elapsed) = Ok a →
  flt settings.(challenge_max_ms) (ChallengeAnswer.elapsed_ms a) = false →
  (p.(mode) = MODE_LIBRARY →
   flt (ChallengeAnswer.gops a) (floors_for tier).1 = false ∧
   flt (ChallengeAnswer.gbps a) (floors_for tier).2 = false) →
  ∃ expected method x, expected_digest settings r = Ok (expected, method) ∧
    judge_answer settings p tier r expected uuid entry (card_answer p lib r elapsed) = Ok x ∧
    failures x = [].
Proof.
  intros Hv Hh Hbad Ha Ht Hf. destruct (expected_digest_of settings r Hv Hbad) as [method He].
  destruct (card_answer_fields p lib r elapsed Hh Hbad) as (Herr & Hdig & Hsha).
  set (expected := digest_of _ _ _ _) in *.
  destruct (answer_fields _ _ Ha) as [Hea Hda].
  rewrite (get_str_or_str _ _ _ Herr) in Hea. rewrite (get_str_or_str _ _ _ Hdig) in Hda.
  assert (good_answer settings p tier expected (card_answer p lib r elapsed)) as Hgood.
  { exists a. rewrite <- no_more_flt, <- no_less_flt, <- no_less_flt.
    split; [done|]. split; [done|]. split.
    - rewrite Hda. apply int16_hex016, digest_range.
    - split; [done|]. intros Hm. split; [by apply get_str_or_str, Hsha|]. by apply Hf. }
  exists expected, method.
  destruct (judge_answer settings p tier r expected uuid entry (card_answer p lib r elapsed)) as [x|e] eqn:E.
  - exists x. split; [done|]. split; [done|]. by apply (judge_answer_nil _ _ _ _ _ _ _ _ _ E).
  - exfalso. unfold judge_answer in E. rewrite Ha in E. cbn [mbind res_bind] in E.
    repeat case_match; discriminate.
Qed.

(** C17. An honest card passes: a machine that runs the kernels on the sizes the
    libraries accept, answers in time and reaches the floors of its tier is
    never rejected, whether the validator checks with its C library or with
    numpy. *)
Theorem honest_card_passes settings p tier r lib elapsed uuid entry a :
  verifies settings → honest p lib r →
  C.bad_arguments (Z.to_nat (ChallengeRequest.n r)) (Z.to_nat (ChallengeRequest.rounds r)) = false →
  ChallengeAnswer.from_payload (card_answer p lib r elapsed) = Ok a →
  flt settings.(challenge_max_ms) (ChallengeAnswer.elapsed_ms a) = false →
  (p.(mode) = MODE_LIBRARY →
   flt (ChallengeAnswer.gops a) (floors_for tier).1 = false ∧
   flt (ChallengeAnswer.gbps a) (floors_for tier).2 = false) →
  ∃ expected method x, expected_digest settings r = Ok (expected, method) ∧
    judge_answer settings p tier r expected uuid entry (card_answer p lib r elapsed) = Ok x ∧
    failures x = [].
Proof. apply card_passes. Qed.

(** ** Examples *)

Definition sample_request : ChallengeRequest.t := ChallengeRequest.Mk 1 2 8 2 64 1.
Definition sample_answer : dict := Rig.run_reference 1 2 8 2 (fz 5).
Definition sample_settings : Settings := MkSettings None None "/usr/lib/libmtchallenge.so" true (fz 15000) (fz 60).
Definition sample_env : Env unit :=
  MkEnv _ (λ c _ _ h, (MkResult c 0 "{answer}" "" (fz 7) "", h)) (λ _ h, h) (λ _, f0) (λ _, f0)
    (λ _, []) (λ _ _, "") (λ _ _, "") (λ _, Some (JDict sample_answer)).
Definition sample_start : St unit := MkSt tt [] (MkInflight [] []) (MkRecords [] []) [] [].
Definition sample_run : res Verdict * St unit :=
  run sample_env "python3" (λ _ _ _ h, (Ok tt, h)) "" sample_settings "/tmp/s" sample_request
    (Some ENTRY) ["GPU-1"] sample_start.

(** A card that reports NaN for its time and its throughput is not rejected. *)
Definition nan_answer : dict :=
  [("digest", JStr (hex016 (reference_digest 1 2 8 2))); ("elapsed_ms", JFloat FNan); ("gops", JFloat FNan);
   ("gbps", JFloat FNan); ("library_sha256", JStr "aa")].
Example nan_card_passes :
  failures <$> (match judge_answer sample_settings (MkPrepared MODE_LIBRARY "aa" "/tmp/s/lib") (Some FLAGSHIP)
                        sample_request (reference_digest 1 2 8 2) "GPU-1" [] nan_answer with
                | Ok x => Some x | Raise _ => None end) = Some [].
Proof. vm_compute. reflexivity. Qed.

Lemma challenge_sound_witness :
  ∃ v st', sample_run = (Ok v, st') ∧ failure v = None ∧
    ∃ expected method, expected_digest sample_settings sample_request = Ok (expected, method) ∧
      ∃ p d, good_answer sample_settings p (Some ENTRY) expected d.
Proof.
  destruct sample_run as [[v|] st'] eqn:E; [|vm_compute in E; discriminate].
  assert (failure v = None) as Hv.
  { revert E. vm_compute. intros [= <- _]. reflexivity. }
  exists v, st'. split; [reflexivity|]. split; [done|].
  destruct (challenge_sound _ _ _ _ _ _ _ _ _ _ _ _ E Hv) as (p & ex & m & He & _ & Hall).
  exists ex, m. split; [exact He|]. destruct (Hall "GPU-1") as (d & _ & Hd); [apply list_elem_of_here|].
  exists p, d. exact Hd.
Defined.

Definition sample_library : Rig.Library :=
  Rig.MkLibrary "miner-cuda" 1 "so" (native (Cuda.solve sample_device)) (λ _ _, (0%Z, (fz 900, fz 700, fz 3), "")).
Definition sample_prepared : Prepared := MkPrepared MODE_LIBRARY (hex (sha256 "so")) "/tmp/s/lib".

Lemma honest_card_passes_witness :
  ∃ a expected method x,
    ChallengeAnswer.from_payload (card_answer sample_prepared sample_library sample_request (fz 5)) = Ok a ∧
    expected_digest sample_settings sample_request = Ok (expected, method) ∧
    judge_answer sample_settings sample_prepared (Some PROFESSIONAL) sample_request expected "GPU-1" []
      (card_answer sample_prepared sample_library sample_request (fz 5)) = Ok x ∧ failures x = [].
Proof.
  destruct (ChallengeAnswer.from_payload (card_answer sample_prepared sample_library sample_request (fz 5)))
    as [a|] eqn:Ea; [|vm_compute in Ea; discriminate].
  assert (flt (fz 15000) (ChallengeAnswer.elapsed_ms a) = false ∧
          flt (ChallengeAnswer.gops a) (fz 400) = false ∧ flt (ChallengeAnswer.gbps a) (fz 400) = false) as (Ht & Hg & Hb).
  { revert Ea. vm_compute. intros [= <-]. repeat split. }
  assert (honest sample_prepared sample_library sample_request) as Hh.
  { split; [by exists sample_device; split; [exact sample_device_order|]|]. split; [by eexists _, _|]. left. split; reflexivity. }
  destruct (honest_card_passes sample_settings sample_prepared (Some PROFESSIONAL) sample_request
              sample_library (fz 5) "GPU-1" [] a (or_introl eq_refl) Hh eq_refl Ea Ht (λ _, conj Hg Hb))
    as (ex & m & x & H1 & H2 & H3).
  exists a, ex, m, x. split; [reflexivity|]. split; [exact H1|]. split; [exact H2|exact H3].
Defined.
