(* ===== verification/Sftp.v ===== *)
(** * Files over a session and the ends of connections (validator/session/ssh.py,
    validator/session/client.py)

    [SshRunner.upload] as the checks use it: the file is written, then its mode is
    set, within a time; whatever fails is a transport failure.  And the parts of
    the runner and of the client that hold a connection. *)

From Stdlib Require Import Ascii String QArith.
From S2P Require Import Prelude.
From S2P Require Import PyStr.
From S2P Require Import PyFloat.
From S2P Require Import PyJson.
From S2P Require Import Failures.
From S2P Require Import Runner.
From S2P Require Import Challenge.
Local Open Scope string_scope.
Local Open Scope list_scope.

Definition UPLOAD_TIMEOUT : pyfloat := fz 300.
Definition CLOSE_TIMEOUT : pyfloat := fz 10.

(** [_text]; [decode] is [bytes.decode("utf-8", "replace")]. *)
Inductive raw : Type := NoText | Bytes (b : string) | Str (s : string).
Definition text_of (decode : string → string) (value : raw) : string :=
  match value with NoText => "" | Bytes b => decode b | Str s => s end.

(** [SshError.failure] and [AgentError.failure] *)
Definition error_failure (k : FailureClass) (detail seed : string) : Failure := MkFailure k detail seed [].

(** ** Uploading *)

(** The files of the machine with their modes, and the faults of the transfer: the
    text of an [OSError] or [asyncssh.Error], or the text of the timeout. *)
Record Sftp (H : Type) : Type := MkSftp {
  files : H → list (string * (string * Z));
  write_ : string → string → H → option string * H;
  chmod : string → Z → H → option string * H;
  timed_out : H → option string }.
Arguments files {H}. Arguments write_ {H}. Arguments chmod {H}. Arguments timed_out {H}.

Section Upload.
Context {H : Type} (sftp : Sftp H).

Definition upload_error (remote_path text : string) : exn := SshError ("upload " +:+ remote_path +:+ ": " +:+ text).

(** [_put]: the fault, if any. *)
Definition put_file (content remote_path : string) (mode : Z) (h : H) : option string * H :=
  match sftp.(write_) content remote_path h with
  | (Some text, h) => (Some text, h)
  | (None, h) => sftp.(chmod) remote_path mode h
  end.

Definition upload_file (content remote_path : string) (mode : Z) (h : H) : res unit * H :=
  match put_file content remote_path mode h with
  | (Some text, h) => (Raise (upload_error remote_path text), h)
  | (None, h) => match sftp.(timed_out) h with
                 | Some text => (Raise (upload_error remote_path text), h)
                 | None => (Ok tt, h)
                 end
  end.

(** What sftp does when it reports no fault. *)
Record Faithful : Prop := {
  write_holds content path h h' : sftp.(write_) content path h = (None, h') →
    ∃ mode, dget path (sftp.(files) h') = Some (content, mode);
  chmod_holds content path mode mode' h h' : sftp.(chmod) path mode h = (None, h') →
    dget path (sftp.(files) h) = Some (content, mode') → dget path (sftp.(files) h') = Some (content, mode) }.

(** An upload that returns left the content with its mode; one that does not, raised
    a transport error, which every check of a session reports as one. *)
Lemma upload_holds content path mode h : Faithful →
  match upload_file content path mode h with
  | (Ok _, h') => dget path (sftp.(files) h') = Some (content, mode)
  | (Raise e, _) => ∃ text, e = SshError ("upload " +:+ path +:+ ": " +:+ text)
  end.
Proof.
  intros [Hw Hc]. unfold upload_file, put_file. destruct (write_ sftp content path h) as [[text|] h1] eqn:Ew; [by exists text|].
  destruct (Hw _ _ _ _ Ew) as [m Hm]. destruct (chmod sftp path mode h1) as [[text|] h2] eqn:Ec; [by exists text|].
  destruct (timed_out sftp h2) as [text|]; [by exists text|]. by apply (Hc _ _ _ _ _ _ Ec Hm).
Qed.
End Upload.

(** ** Connections *)

(** [SshRunner.close]: the connection is closed, and waited for no longer than
    [CLOSE_TIMEOUT]; none of the faults of waiting is raised. *)
Inductive waited : Type := WaitedOut | TimedOut | WaitFailed (text : string).
Definition close_runner (open : Z) (w : waited) : res unit * Z :=
  (match w with WaitedOut | TimedOut | WaitFailed _ => Ok tt end, (open - 1)%Z).

(** The HTTP client of [AgentClient], made when it is first asked for. *)
Record Http : Type := MkHttp { client_open : bool; made : nat; closed : nat }.
Definition http_client (c : Http) : Http :=
  if c.(client_open) then c else MkHttp true (S c.(made)) c.(closed).
Definition http_close (c : Http) : Http :=
  if c.(client_open) then MkHttp false c.(made) (S c.(closed)) else c.

(** At most one is open, and after a close every one made was closed. *)
Inductive use : Type := Ask | Close.
Definition used (c : Http) (u : use) : Http := match u with Ask => http_client c | Close => http_close c end.
Lemma http_balanced uses :
  let c := foldl used (MkHttp false 0 0) uses in
  (c.(made) = (if c.(client_open) then S c.(closed) else c.(closed)))%nat ∧
  (http_close c).(made) = (http_close c).(closed).
Proof.
  cbn zeta. assert (∀ c, c.(made) = (if c.(client_open) then S c.(closed) else c.(closed)) →
    let c' := foldl used c uses in c'.(made) = (if c'.(client_open) then S c'.(closed) else c'.(closed))) as Hi.
  { induction uses as [|u uses IH]; intros c Hc; [exact Hc|]. apply IH. destruct c as [[] m k], u; cbn in *; congruence. }
  specialize (Hi (MkHttp false 0 0) eq_refl). cbn zeta in Hi. destruct (foldl used _ uses) as [[] m k]; cbn in *; split; congruence.
Qed.
