(* ===== verification/Vectors.v ===== *)
(** * The challenge vectors and the runner's process (scripts/challenge_vector.py,
    payloads/challenge_runner.py, challenge/src/selfcheck.c)

    The script recomputes the digests of three cases with its own copy of the
    arithmetic, with numpy where it is installed and with Python integers where it
    is not, and compares them with what the self check of the C library printed
    ([Script]).  [Process] is the runner around [Challenge.Rig]: what it prints and
    that the library is released once, also when a signal ends it. *)

From Stdlib Require Import Ascii String.
From S2P Require Import Prelude.
From S2P Require Import PyStr.
From S2P Require Import PyText.
From S2P Require Import PyFloat.
From S2P Require Import PyJson.
From S2P Require Import PyDump.
From S2P Require Import Sha256.
From S2P Require Import Digest.
From S2P Require Import Challenge.
Local Open Scope string_scope.
Local Open Scope list_scope.

Module Script.
Local Open Scope Z_scope.

Definition MASK64 : Z := Z.shiftl 1 64 - 1.
Definition MASK32 : Z := Z.shiftl 1 32 - 1.
Definition GOLDEN : Z := 0x9E3779B97F4A7C15.
Definition FNV_OFFSET : Z := 0xCBF29CE484222325.
Definition FNV_PRIME : Z := 0x100000001B3.

(** A case: the seed, the cipher, the size and the rounds. *)
Definition case : Type := Z * Z * Z * Z.
Definition CASES : list case := [(1, 2, 64, 2); (0xDEADBEEF, 0x1234, 96, 3); (7, 11, 128, 1)].

Definition mix64 (z : Z) : Z :=
  let z := Z.land (Z.lxor z (Z.shiftr z 30) * 0xBF58476D1CE4E5B9) MASK64 in
  let z := Z.land (Z.lxor z (Z.shiftr z 27) * 0x94D049BB133111EB) MASK64 in
  Z.lxor z (Z.shiftr z 31).
Definition seed_state (seed cipher : Z) : Z :=
  Z.land (mix64 (Z.lxor seed 0xA5A5A5A5A5A5A5A5) + mix64 (Z.land (cipher * GOLDEN) MASK64)) MASK64.
Definition element (state index : Z) : Z :=
  Z.land (mix64 (Z.land (state + (index + 1) * GOLDEN) MASK64)) MASK32.

(** One turn of the loops of [fnv_u32] and [fnv_u64]. *)
Definition fnv_byte (value : Z) (hash_value : Z) (i : nat) : Z :=
  Z.land (Z.lxor hash_value (Z.land (Z.shiftr value (8 * Z.of_nat i)) 0xFF) * FNV_PRIME) MASK64.
Definition fnv_u32 (hash_value value : Z) : Z := foldl (fnv_byte value) hash_value (seq 0 4).
Definition fnv_u64 (hash_value value : Z) : Z := foldl (fnv_byte value) hash_value (seq 0 8).

(** *** [digest] *)

Definition first_rows (state : Z) (n : nat) : list Z :=
  (λ k, element state (Z.of_nat k)) <$> seq 0 (n * n).

(** With numpy: words of 64 bits that wrap around, cut to 32 after every product. *)
Definition rows_numpy (state : Z) (n rounds : nat) : list Z :=
  let matrix := reshape n (first_rows state n) in
  let matrix := iterate (λ m, astype32 (matmul n m m)) rounds matrix in
  concat matrix.

(** Without: three loops over Python integers, [acc] cut to 32 bits at its end. *)
Definition square (n : nat) (rows : list Z) : list Z :=
  foldl (λ out i,
    let row := take n (drop (i * n) rows) in
    foldl (λ out j,
      let acc := foldl (λ acc k, acc + nth k row 0 * nth (k * n + j) rows 0) 0 (seq 0 n) in
      <[(i * n + j)%nat := Z.land acc MASK32]> out) out (seq 0 n))
    (replicate (n * n) 0) (seq 0 n).
Definition rows_python (state : Z) (n rounds : nat) : list Z :=
  iterate (square n) rounds (first_rows state n).

Definition digest (numpy : bool) (seed cipher : Z) (n rounds : nat) : Z :=
  let state := seed_state seed cipher in
  let rows := if numpy then rows_numpy state n rounds else rows_python state n rounds in
  let folded := foldl (λ folded i,
    let h := foldl (λ h j, fnv_u32 h (nth (i * n + j) rows 0)) FNV_OFFSET (seq 0 n) in
    fnv_u64 folded h) FNV_OFFSET (seq 0 n) in
  let folded := fnv_u64 folded seed in
  let folded := fnv_u64 folded cipher in
  let folded := fnv_u32 folded (Z.of_nat n) in
  fnv_u32 folded (Z.of_nat rounds).

(** *** [main] *)

Definition digest_case (numpy : bool) (c : case) : Z :=
  let '(seed, cipher, n, rounds) := c in digest numpy seed cipher (Z.to_nat n) (Z.to_nat rounds).

Definition expected (value : case → Z) : list (case * Z) := (λ c, (c, value c)) <$> CASES.

Definition line_of (cv : case * Z) : string :=
  let '((a, b, c, d), value) := cv in
  join " " [str_of_Z a; str_of_Z b; str_of_Z c; str_of_Z d; hex016 value].

(** [f"{case}"] *)
Definition tuple_text (x : case) : string :=
  let '(a, b, c, d) := x in
  "(" +:+ join ", " [str_of_Z a; str_of_Z b; str_of_Z c; str_of_Z d] +:+ ")".

Definition case_eqb (x y : case) : bool := bool_decide (x = y).
(** [expected[case]] *)
Definition find_case (x : case) (table : list (case * Z)) : option Z :=
  snd <$> List.find (λ cv, case_eqb cv.1 x) table.

(** What the loop over the lines comes to: the lines of five words it saw, or the
    line it prints before it gives up. *)
Inductive outcome : Type := Saw (seen : Z) | Stopped (line : string).

Fixpoint compare (table : list (case * Z)) (seen : Z) (lines : list string) : res outcome :=
  match lines with
  | [] => mret (Saw seen)
  | line :: rest =>
      match split_ws line with
      | [p0; p1; p2; p3; p4] =>
          a ← of_option ValueError (parse_int p0);
          b ← of_option ValueError (parse_int p1);
          c ← of_option ValueError (parse_int p2);
          d ← of_option ValueError (parse_int p3);
          let x := (a, b, c, d) in
          match find_case x table with
          | None => mret (Stopped ("unexpected case " +:+ tuple_text x))
          | Some value =>
              got ← of_option ValueError (int16 p4);
              if negb (value =? got) then
                mret (Stopped ("mismatch for " +:+ tuple_text x +:+ ": python " +:+ hex016 value +:+ " c " +:+ p4))
              else compare table (seen + 1) rest
          end
      | _ => compare table seen rest
      end
  end.

(** The lines printed and the exit code; [value] is [digest] on a case, [text] what
    the file of [--compare] holds. *)
Definition run (value : case → Z) (text : option string) : list string * res Z :=
  let table := expected value in
  let printed := line_of <$> table in
  match text with
  | None => (printed, Ok 0)
  | Some text =>
      match compare table 0 (splitlines text) with
      | Raise e => (printed, Raise e)
      | Ok (Stopped line) => (printed ++ [line], Ok 1)
      | Ok (Saw seen) =>
          if negb (seen =? Z.of_nat (length CASES)) then
            (printed ++ ["expected " +:+ str_of_Z (Z.of_nat (length CASES)) +:+ " cases, saw " +:+ str_of_Z seen], Ok 1)
          else (printed ++ ["challenge reference agrees"], Ok 0)
      end
  end.
Definition main (numpy : bool) (text : option string) : list string * res Z := run (digest_case numpy) text.

(** *** The self check (challenge/src/selfcheck.c): what it prints, or [None] when a
    case does not solve. *)
Definition selfcheck : option string :=
  lines ← mapM (λ x : case, let '(seed, cipher, n, rounds) := x in
                 value ← C.solve seed cipher (Z.to_nat n) (Z.to_nat rounds);
                 Some (line_of (x, value))) CASES;
  Some (text_of lines).
End Script.

(** ** The digests *)

Section Digests.
Local Open Scope Z_scope.

Lemma script_words :
  Script.seed_state = seed_state ∧ Script.fnv_u32 = fnv_u32 ∧ Script.fnv_u64 = fnv_u64.
Proof. repeat split. Qed.

Lemma script_element state k : Script.element state k = C.element state k.
Proof.
  unfold Script.element. change (Script.mix64 ?z) with (mix64 z). change Script.MASK64 with MASK64.
  rewrite mix64_C, land_mask64. unfold C.element. change Script.MASK32 with MASK32. change 0xFFFFFFFF with MASK32.
  rewrite !land_mask32, u32_idem. do 2 f_equal.
  change Script.GOLDEN with GOLDEN. unfold u64. by rewrite Zplus_mod_idemp_r.
Qed.

Lemma first_rows_flat state n : Script.first_rows state n = flat n (cells state n).
Proof.
  rewrite <- filled_flat. apply list_fmap_ext. intros. apply script_element.
Qed.

Lemma reshape_flat n f : reshape n (flat n f) = rows_of n f.
Proof.
  unfold reshape, rows_of. apply list_fmap_ext. intros k i Hi. apply lookup_seq in Hi as [-> Hi].
  rewrite flat_seq, <- fmap_drop, <- fmap_take. simpl. rewrite drop_seq, take_seq.
  replace (n `min` (n * n - k * n))%nat with n by nia. simpl.
  rewrite <- (Nat.add_0_r (k * n)), <- fmap_add_seq, <- list_fmap_compose. apply list_fmap_ext.
  intros l j Hj. apply lookup_seq in Hj as [-> Hj]. simpl. by rewrite div_of, mod_of.
Qed.

Lemma concat_prod (f : nat → nat → Z) l k :
  concat ((λ i, (λ j, f i j) <$> k) <$> l) = (λ ij, f ij.1 ij.2) <$> list_prod l k.
Proof.
  induction l as [|i l IH]; [done|]. csimpl. rewrite IH, fmap_app. f_equal.
  change (map ?g ?x) with (g <$> x). by rewrite <- list_fmap_compose.
Qed.

Lemma concat_rows n f : concat (rows_of n f) = flat n f.
Proof. apply concat_prod. Qed.

Lemma rows_numpy_flat state n rounds :
  Script.rows_numpy state n rounds = flat n (iterate (sq n) rounds (cells state n)).
Proof.
  unfold Script.rows_numpy. rewrite first_rows_flat, reshape_flat.
  by rewrite (iterate_repr (rows_of n) (sq n) (λ m, astype32 (matmul n m m))), concat_rows by apply square_rows.
Qed.

(** A sum kept as an integer and cut at the end, and the sum cut at every step. *)
Lemma u32_plain_sum (g : nat → Z) l a b :
  u32 a = b → u32 (foldl (λ acc k, acc + g k) a l) = foldl (λ acc k, u32 (acc + u32 (g k))) b l.
Proof.
  revert a b. induction l as [|k l IH]; intros a b E; [done|]. simpl. apply IH.
  by rewrite u32_add, <- E, u32_add_l.
Qed.

(** Every cell is assigned once, in the order of the cells. *)
Lemma assign_cells (g : nat → Z) out :
  foldl (λ out i, <[i:=g i]> out) out (seq 0 (length out)) = g <$> seq 0 (length out).
Proof.
  destruct (writes_spec (λ i, Some (i, g i)) g (seq 0 (length out)) out) as [Hl Hi].
  { intros id i v _ [= <- <-]. done. }
  change (λ (mem : list Z) t, Cuda.write mem (Some (t, g t))) with (λ (out : list Z) i, <[i:=g i]> out) in *.
  apply list_eq_same_length with (n := length out); [by rewrite length_fmap, length_seq|done|].
  intros i x y Hlt Hx Hy. rewrite Hi in Hx; [|done|left; exists i; split; [apply elem_of_seq; lia|done]].
  rewrite list_lookup_fmap, lookup_seq_lt in Hy by done. cbn in Hy. congruence.
Qed.

Lemma script_square n f : Script.square n (flat n f) = flat n (sq n f).
Proof.
  transitivity (foldl (λ out t, foldl (λ out j, <[(t + j)%nat := sq n f ((t + j) / n)%nat ((t + j) mod n)%nat]> out) out (seq 0 n))
                  (replicate (n * n) 0) ((λ q, q * n)%nat <$> seq 0 n)).
  - rewrite foldl_map. apply foldl_ext_in. intros out i Hi%elem_of_seq.
    apply foldl_ext_in. intros out' j Hj%elem_of_seq. rewrite div_of, mod_of by lia. f_equal.
    change Script.MASK32 with MASK32. rewrite land_mask32. unfold sq.
    rewrite (u32_plain_sum (λ k, nth k _ 0 * nth (k * n + j) _ 0) _ 0 0 eq_refl).
    apply foldl_ext_in. intros acc k Hk%elem_of_seq. do 4 f_equal.
    + replace (take n (drop (i * n) (flat n f))) with (nth i (reshape n (flat n f)) [])
        by (unfold reshape; apply (nth_fmap_seq (λ i, take n (drop (i * n) (flat n f)))); lia).
      rewrite reshape_flat. change (nth k (nth i (rows_of n f) []) 0) with (at_ i k (rows_of n f)).
      apply at_rows_of; lia.
    + change (nth (k * n + j) (flat n f) 0) with (C.cell n (flat n f) k j). apply cell_flat; lia.
  - rewrite (foldl_tiles (λ (out : list Z) p, <[p:=sq n f (p / n)%nat (p mod n)%nat]> out) n n).
    rewrite flat_seq.
    pose proof (assign_cells (λ p, sq n f (p / n)%nat (p mod n)%nat) (replicate (n * n) 0)) as H.
    by rewrite length_replicate in H.
Qed.

Lemma rows_python_flat state n rounds :
  Script.rows_python state n rounds = flat n (iterate (sq n) rounds (cells state n)).
Proof.
  unfold Script.rows_python. rewrite first_rows_flat.
  apply (iterate_repr (flat n) (sq n) (Script.square n)), script_square.
Qed.

Lemma script_digest numpy seed cipher n rounds :
  Script.digest numpy seed cipher n rounds = digest_of seed cipher n rounds.
Proof.
  destruct script_words as (Es & E32 & E64). unfold Script.digest, digest_of, C.fold_digest.
  rewrite Es, E32, E64, seed_state_C. set (state := C.seed_state seed cipher).
  set (f := iterate (sq n) rounds (cells state n)).
  assert ((if numpy then Script.rows_numpy state n rounds else Script.rows_python state n rounds) = flat n f) as ->
    by (destruct numpy; [apply rows_numpy_flat|apply rows_python_flat]).
  rewrite !fnv_u32_C, !fnv_u64_C. do 4 f_equal. unfold hashes. rewrite foldl_map.
  change Script.FNV_OFFSET with FNV_OFFSET. apply foldl_ext_in. intros acc i Hi%elem_of_seq.
  rewrite fnv_u64_C. f_equal. apply foldl_ext_in. intros h j Hj%elem_of_seq. rewrite fnv_u32_C. f_equal.
  change (nth (i * n + j) (flat n f) 0) with (C.cell n (flat n f) i j). apply cell_flat; lia.
Qed.
End Digests.

(** ** The lines *)

Lemma split_ws_join ws : Forall wordy ws → split_ws (join " " ws) = ws.
Proof.
  intros Hws. induction Hws as [|w ws [Hne Hw] Hws IH]; [done|].
  destruct ws as [|w' ws].
  - cbn [join]. unfold split_ws. rewrite <- (app_nil_r_s w) at 1. rewrite split_ws_go_word by done.
    cbn [split_ws_go String.append]. apply String.eqb_neq in Hne. by rewrite Hne.
  - cbn [join]. unfold split_ws in *. rewrite split_ws_go_word by done. cbn [String.append split_ws_go].
    change (is_space " ") with true. cbn iota. apply String.eqb_neq in Hne. rewrite Hne. f_equal. exact IH.
Qed.

Lemma hex016_wordy z : wordy (hex016 z).
Proof.
  split.
  - unfold hex016. cbn [hex_digits]. by destruct (hex_digits 15 (z / 16)).
  - apply sforall_impl with is_hex; [|apply hex_digits_hex]. intros c Hc. by destruct (is_hex_plain c Hc) as [-> _].
Qed.

Lemma hex016_no_break z : no_break (hex016 z) = true.
Proof.
  apply sforall_impl with is_hex; [|apply hex_digits_hex]. intros c.
  by destruct c as [[] [] [] [] [] [] [] []].
Qed.

Lemma no_break_join ws : Forall (λ w, no_break w = true) ws → no_break (join " " ws) = true.
Proof.
  unfold no_break. induction 1 as [|w ws Hw Hws IH]; [done|]. destruct ws as [|w' ws]; [done|].
  change (join " " (w :: w' :: ws)) with (w +:+ " " +:+ join " " (w' :: ws)). by rewrite !sforall_app, Hw, IH.
Qed.

Definition words_of (x : Script.case) : list string :=
  let '(a, b, c, d) := x in [str_of_Z a; str_of_Z b; str_of_Z c; str_of_Z d].

Lemma cases_plain : Forall (λ x, Forall (λ w, wordy w ∧ no_break w = true) (words_of x)) Script.CASES.
Proof. repeat constructor; discriminate. Qed.

Lemma line_words x value : x ∈ Script.CASES →
  split_ws (Script.line_of (x, value)) = words_of x ++ [hex016 value] ∧
  no_break (Script.line_of (x, value)) = true.
Proof.
  intros Hx. pose proof (proj1 (Forall_forall _ _) cases_plain _ Hx) as [Hw Hn]%Forall_and.
  assert (Script.line_of (x, value) = join " " (words_of x ++ [hex016 value])) as ->
    by (by destruct x as [[[a b] c] d]).
  split.
  - apply split_ws_join, Forall_app_2; [done|]. constructor; [apply hex016_wordy|done].
  - apply no_break_join, Forall_app_2; [done|]. constructor; [apply hex016_no_break|done].
Qed.

(** ** The comparison *)

Lemma find_expected value x : x ∈ Script.CASES → Script.find_case x (Script.expected value) = Some (value x).
Proof.
  intros Hx. unfold Script.find_case, Script.expected. generalize dependent Script.CASES. intros l.
  induction l as [|y l IH]; [by intros ?%elem_of_nil|]. cbn. unfold Script.case_eqb.
  case_bool_decide as E; [by intros _; cbn; rewrite E|]. intros [->|Hx]%elem_of_cons; [done|]. by apply IH.
Qed.

Lemma find_case_in value x v :
  Script.find_case x (Script.expected value) = Some v → x ∈ Script.CASES ∧ v = value x.
Proof.
  unfold Script.find_case, Script.expected. generalize Script.CASES. intros l.
  induction l as [|y l IH]; [done|]. cbn. unfold Script.case_eqb. case_bool_decide as E.
  - intros [= <-]. subst. split; [left|done].
  - intros [Hx ->]%IH. split; [by right|done].
Qed.

Lemma compare_line value x seen rest :
  x ∈ Script.CASES → (0 <= value x < 2 ^ 64)%Z →
  Script.compare (Script.expected value) seen (Script.line_of (x, value x) :: rest) =
  Script.compare (Script.expected value) (seen + 1) rest.
Proof.
  intros Hx Hv. cbn [Script.compare]. rewrite (proj1 (line_words x (value x) Hx)).
  pose proof (find_expected value x Hx) as Hf. destruct x as [[[a b] c] d]. cbn [words_of app].
  rewrite !parse_int_str. cbn [of_option mbind res_bind]. rewrite Hf, int16_hex016 by done.
  cbn [of_option mbind res_bind]. by rewrite Z.eqb_refl.
Qed.

Lemma compare_lines value xs : ∀ seen,
  Forall (λ x, x ∈ Script.CASES) xs → (∀ x, 0 <= value x < 2 ^ 64)%Z →
  Script.compare (Script.expected value) seen ((λ x, Script.line_of (x, value x)) <$> xs) =
  Ok (Script.Saw (seen + Z.of_nat (length xs))).
Proof.
  induction xs as [|x xs IH]; intros seen Hxs Hv; [cbn; by rewrite Z.add_0_r|].
  rewrite fmap_cons. apply Forall_cons in Hxs as [Hx Hxs]. rewrite compare_line, IH by done. do 2 f_equal. cbn [length]. lia.
Qed.

(** Three lines of cases, whichever, are accepted when their digests are right. *)
Lemma run_accepts value xs :
  Forall (λ x, x ∈ Script.CASES) xs → length xs = length Script.CASES → (∀ x, 0 <= value x < 2 ^ 64)%Z →
  Script.run value (Some (text_of ((λ x, Script.line_of (x, value x)) <$> xs))) =
  ((Script.line_of <$> Script.expected value) ++ ["challenge reference agrees"], Ok 0%Z).
Proof.
  intros Hxs Hl Hv. unfold Script.run. rewrite splitlines_text.
  - rewrite compare_lines by done. by rewrite Z.add_0_l, Hl, Z.eqb_refl.
  - apply Forall_fmap, Forall_forall. intros x Hx. rewrite Forall_forall in Hxs. by apply line_words, Hxs.
Qed.

Lemma digest_case_of numpy seed cipher n rounds :
  Script.digest_case numpy (seed, cipher, n, rounds) = digest_of seed cipher (Z.to_nat n) (Z.to_nat rounds).
Proof. apply script_digest. Qed.

Lemma digest_case_range numpy x : (0 <= Script.digest_case numpy x < 2 ^ 64)%Z.
Proof. destruct x as [[[a b] c] d]. rewrite digest_case_of. apply digest_range. Qed.

#[local] Opaque C.solve digest_of Script.digest Script.digest_case hex016 reference_digest Payload.reference_digest Cuda.solve.

Lemma selfcheck_text numpy :
  Script.selfcheck = Some (text_of ((λ x, Script.line_of (x, Script.digest_case numpy x)) <$> Script.CASES)).
Proof.
  unfold Script.selfcheck, Script.CASES. cbn [mapM fmap list_fmap]. rewrite !solve_C, !digest_case_of.
  reflexivity.
Qed.

Lemma compare_sound value lines : ∀ seen final,
  Script.compare (Script.expected value) seen lines = Ok (Script.Saw final) →
  Forall (λ line, ∀ p0 p1 p2 p3 p4, split_ws line = [p0; p1; p2; p3; p4] →
    ∃ a b c d, parse_int p0 = Some a ∧ parse_int p1 = Some b ∧ parse_int p2 = Some c ∧ parse_int p3 = Some d ∧
      (a, b, c, d) ∈ Script.CASES ∧ int16 p4 = Some (value (a, b, c, d))) lines ∧
  final = (seen + Z.of_nat (length (List.filter (λ line, (length (split_ws line) =? 5)%nat) lines)))%Z.
Proof.
  induction lines as [|line lines IH]; intros seen final E; [cbn in E; injection E as <-; split; [done|cbn; lia]|].
  cbn [Script.compare] in E. cbn [List.filter].
  destruct (split_ws line) as [|p0 [|p1 [|p2 [|p3 [|p4 [|p5 ps]]]]]] eqn:Ew;
    try (destruct (IH _ _ E) as [HF ->]; split; [constructor; [intros; congruence|done]|done]).
  destruct (parse_int p0) as [a|] eqn:E0; [|done]. destruct (parse_int p1) as [b|] eqn:E1; [|done].
  destruct (parse_int p2) as [c|] eqn:E2; [|done]. destruct (parse_int p3) as [d|] eqn:E3; [|done].
  cbn [of_option mbind res_bind] in E.
  destruct (Script.find_case (a, b, c, d) (Script.expected value)) as [v|] eqn:Ef; [|done].
  apply find_case_in in Ef as [Hin ->]. destruct (int16 p4) as [got|] eqn:E4; [|done].
  cbn [of_option mbind res_bind] in E. destruct (Z.eqb_spec (value (a, b, c, d)) got) as [Hg|]; [|done].
  cbn [negb] in E. destruct (IH _ _ E) as [HF ->]. split.
  - constructor; [|done]. intros q0 q1 q2 q3 q4 Eq. assert (q0 = p0 ∧ q1 = p1 ∧ q2 = p2 ∧ q3 = p3 ∧ q4 = p4)
      as (-> & -> & -> & -> & ->) by (repeat split; congruence).
    exists a, b, c, d. split_and!; try done. by rewrite E4, Hg.
  - cbn [length Nat.eqb]. lia.
Qed.

(** C14. The six programs that compute a digest compute the same one, for every
    seed, cipher, size and number of rounds the libraries accept: the C library,
    the tiled kernels on a device that runs its threads in any order over buffers
    that hold anything, the validator's arrays, the runner's copy of them, and the
    script's copy with numpy and without; outside those bounds the two libraries
    refuse, and the four others still agree. *)
Theorem digests_agree d seed cipher n rounds :
  Cuda.any_order d →
  let digest := reference_digest seed cipher n rounds in
  C.solve seed cipher n rounds = (if C.bad_arguments n rounds then None else Some digest) ∧
  Cuda.solve d seed cipher n rounds = (if C.bad_arguments n rounds then None else Some digest) ∧
  Payload.reference_digest seed cipher n rounds = digest ∧
  ∀ numpy, Script.digest numpy seed cipher n rounds = digest.
Proof.
  intros Ho. cbn zeta. rewrite (reference_digest_of seed cipher n rounds). split_and!.
  - exact (solve_C seed cipher n rounds).
  - exact (solve_Cuda d seed cipher n rounds Ho).
  - rewrite (payload_digest seed cipher n rounds). exact (reference_digest_of seed cipher n rounds).
  - intros numpy. exact (script_digest numpy seed cipher n rounds).
Qed.

Lemma digests_agree_witness :
  Cuda.any_order sample_device ∧
  C.solve 1 2 8 2 = Some (reference_digest 1 2 8 2) ∧ Cuda.solve sample_device 1 2 8 2 = Some (reference_digest 1 2 8 2) ∧
  Payload.reference_digest 1 2 8 2 = reference_digest 1 2 8 2 ∧
  ∀ numpy, Script.digest numpy 1 2 8 2 = reference_digest 1 2 8 2.
Proof.
  split; [exact sample_device_order|].
  exact (digests_agree sample_device 1 2 8 2 sample_device_order).
Defined.

(** The script accepts what the self check of the C library prints. *)
Lemma selfcheck_accepted numpy :
  ∃ text, Script.selfcheck = Some text ∧
    Script.main numpy (Some text) =
      ((Script.line_of <$> Script.expected (Script.digest_case numpy)) ++ ["challenge reference agrees"], Ok 0%Z).
Proof.
  eexists. split; [exact (selfcheck_text numpy)|]. apply run_accepts; [|done|apply digest_case_range].
  apply Forall_forall. done.
Qed.

(** It returns 0 on a file only when every line of five words in it is one of the
    cases with its digest and there are three such lines. *)
Lemma agreement_means numpy text out :
  Script.main numpy (Some text) = (out, Ok 0%Z) →
  Forall (λ line, ∀ p0 p1 p2 p3 p4, split_ws line = [p0; p1; p2; p3; p4] →
    ∃ a b c d, parse_int p0 = Some a ∧ parse_int p1 = Some b ∧ parse_int p2 = Some c ∧ parse_int p3 = Some d ∧
      (a, b, c, d) ∈ Script.CASES ∧ int16 p4 = Some (Script.digest_case numpy (a, b, c, d))) (splitlines text) ∧
  length (List.filter (λ line, (length (split_ws line) =? 5)%nat) (splitlines text)) = 3%nat.
Proof.
  unfold Script.main, Script.run. intros E.
  destruct (Script.compare _ 0 (splitlines text)) as [[seen|line]|e] eqn:Ec; [|discriminate..].
  destruct (Z.eqb_spec seen (Z.of_nat (length Script.CASES))) as [Hs|]; cbn [negb] in E; [|discriminate].
  apply compare_sound in Ec as [HF Hl]. split; [exact HF|]. rewrite Hs in Hl. cbn [length Script.CASES] in Hl. lia.
Qed.

(** It counts lines, not cases: the line of one case three times is accepted. *)
Lemma one_case_thrice numpy :
  let line := Script.line_of ((1, 2, 64, 2)%Z, Script.digest_case numpy (1, 2, 64, 2)%Z) in
  (Script.main numpy (Some (text_of [line; line; line]))).2 = Ok 0%Z.
Proof.
  refine (f_equal snd (run_accepts (Script.digest_case numpy) (replicate 3 (1, 2, 64, 2)%Z) _ eq_refl (digest_case_range numpy))).
  by repeat constructor.
Qed.

(** ** The process of the runner (payloads/challenge_runner.py) *)

Module Process.

(** [_library] and [_released], and how many times the library was released. *)
Record Held : Type := MkHeld { loaded : bool; released : bool; calls : nat }.
Definition nothing_held : Held := MkHeld false false 0.

Definition release (h : Held) : Held :=
  if negb h.(loaded) || h.(released) then h else MkHeld h.(loaded) true (S h.(calls)).

(** The line written. *)
Definition emit (payload : dict) : string := dumps (JDict payload) +:+ nls.

Definition file_sha256 (content : string) : string := hex (sha256 content).

(** What the handler prints and the code the process ends with. *)
Definition on_signal (signum : Z) (h : Held) : Held * string * Z :=
  (release h, emit (Challenge.Rig.failed ("terminated by signal " +:+ str_of_Z signum)), 143%Z).

(** Where a signal may find the process, once the handlers are installed. *)
Inductive moment : Type := Before_load | Loaded | Released | Printed.

(** The library is loaded and [_library] set: the arguments are good, the mode is
    not the reference and the file loads. *)
Definition loads_library (libraries : string → string + Challenge.Rig.Library) (argv : list string) : bool :=
  match argv with
  | [_; path; a; b; c; d; e; f] =>
      forallb (λ x, match parse_int x with Some _ => true | None => false end) [a; b; c; d; e; f] &&
      negb (String.eqb path MODE_REFERENCE) && match libraries path with inr _ => true | inl _ => false end
  | _ => false
  end.

(** The whole process: the lines written, the exit code and what is left held.
    The handlers are not installed before the arguments are read. *)
Definition process (libraries : string → string + Challenge.Rig.Library) (argv : list string) (elapsed : pyfloat)
    (signal : option (moment * Z)) : list string * Z * Held :=
  let '(code, answer) := Challenge.Rig.main libraries argv elapsed in
  let after_load := MkHeld (loads_library libraries argv) false 0 in
  let ended := release after_load in
  match (if (code =? 2)%Z then None else signal) with
  | None => ([emit answer], code, ended)
  | Some (Before_load, signum) =>
      let '(h, line, code) := on_signal signum nothing_held in ([line], code, h)
  | Some (Loaded, signum) =>
      let '(h, line, code) := on_signal signum after_load in ([line], code, h)
  | Some (Released, signum) =>
      let '(h, line, code) := on_signal signum ended in ([line], code, h)
  | Some (Printed, signum) =>
      let '(h, line, code) := on_signal signum ended in ([emit answer; line], code, h)
  end.

Lemma release_once h : release (release h) = release h.
Proof. destruct h as [[] [] n]; reflexivity. Qed.

(** However the process ends, a library it loaded is released exactly once, and it
    prints one line, or two when the signal comes after the answer. *)
Lemma process_releases libraries argv elapsed signal :
  let '(lines, code, h) := process libraries argv elapsed signal in
  h.(calls) = (if h.(loaded) then 1 else 0)%nat ∧ (1 <= length lines <= 2)%nat ∧
  (length lines = 2%nat → code = 143%Z).
Proof.
  unfold process. destruct (Challenge.Rig.main libraries argv elapsed) as [code answer].
  destruct (if (code =? 2)%Z then None else signal) as [[m signum]|];
    [destruct m|]; destruct (loads_library libraries argv); cbn; split_and!; (done || lia).
Qed.
End Process.
