(* ===== verification/Handlers.v ===== *)
(** * Command handlers (agent/control/handlers.py, agent/hardware/challenge.py)

    What the agent does with each command the server sends, and that every
    command is answered by exactly one result.  The readings of the machine (the
    inventory, the utilisation, the container logs, the challenge library) are
    fields of [Outside]; prefetch and attestation are the modelled components. *)

From Stdlib Require Import Ascii String QArith.
From S2P Require Import Prelude.
From S2P Require Import PyStr.
From S2P Require Import PyRe.
From S2P Require Import PyFloat.
From S2P Require Import PyJson.
From S2P Require Import Messages.
From S2P Require Import SessionProto.
From S2P Require Import Attest.
From S2P Require Import Challenge.
From S2P Require Grants.
From S2P Require Prefetch.
From S2P Require Import Queue.
From S2P Require Import Stores.
Local Open Scope string_scope.
Local Open Scope list_scope.

Definition UNKNOWN : string := "unknown command".
Definition LOG_BYTES : nat := 262144.

(** [monitor/containers.py]: names of containers *)
Definition NAME : re :=
  RCat (RCls is_alnum_ascii) (rep_upto 127 (RCls (λ c, is_alnum_ascii c || one_of "_.-" c))).
Definition valid_name (name : string) : bool := re_dollar NAME name.

(** ** The challenge on the agent *)

Definition MISSING : string := "challenge library not installed".
Definition BUSY : string := "challenge already running".

Definition CODES (code : Z) : string :=
  if (code =? 0)%Z then "ok" else if (code =? -1)%Z then "bad arguments"
  else if (code =? -2)%Z then "allocation failed" else if (code =? -3)%Z then "kernel launch failed"
  else if (code =? -4)%Z then "unavailable" else if (code =? -5)%Z then "device error"
  else "code " +:+ str_of_Z code.

Definition describe_failure (stage : string) (code : Z) (last_error : string) : string :=
  stage +:+ " failed (" +:+ str_of_Z code +:+ "): " +:+ Runner.sor last_error (CODES code).

(** [ctypes.c_uint32(x)] *)
Definition c_uint32 (x : Z) : Z := x mod 2 ^ 32.

(** [challenge.run]: [lib] is [load(path)], [busy] a run holding the lock. *)
Definition challenge_run (lib : option Rig.Library) (busy : bool) (request : ChallengeRequest.t)
    (elapsed_ms : pyfloat) : ChallengeAnswer.t :=
  match lib with
  | None => ChallengeAnswer.Mk "" f0 f0 f0 f0 "" 0 MISSING
  | Some lib =>
  if busy then ChallengeAnswer.Mk "" f0 f0 f0 f0 "" 0 BUSY else
  let build := Rig.build lib in
  let version := Rig.version lib in
  let '(code, digest, last_error) :=
    Rig.solve lib (Digest.u64 (ChallengeRequest.seed request)) (Digest.u64 (ChallengeRequest.cipher request))
      (c_uint32 (ChallengeRequest.n request)) (c_uint32 (ChallengeRequest.rounds request)) in
  if negb (code =? 0)%Z then
    ChallengeAnswer.Mk "" elapsed_ms f0 f0 f0 build version (describe_failure "solve" code last_error)
  else
  let '(bench_code, (gops, gbps, bench_ms), bench_error) :=
    Rig.benchmark lib (c_uint32 (ChallengeRequest.benchmark_n request))
      (c_uint32 (ChallengeRequest.iterations request)) in
  let ok := (bench_code =? 0)%Z in
  ChallengeAnswer.Mk (hex016 digest) elapsed_ms (if ok then gops else f0) (if ok then gbps else f0)
    (if ok then bench_ms else f0) build version
    (if ok then "" else describe_failure "benchmark" bench_code bench_error)
  end.

(** ** The runtime *)

(** What a measurement in the pool gives: a view, or [PoolBusy] or [PoolTimeout]
    with its text. *)
Inductive measurement : Type := Measured (view : dict) | Refused (text : string).

Record Outside (H : Type) : Type := MkOutside {
  now : pyfloat;
  describe : exn → string;
  spec_view : res dict;
  utilisation : res measurement;
  library : option Rig.Library;
  library_busy : bool;
  solved_in : option pyfloat;
  machine : Grants.Machine;
  attested_in_time : bool;
  docker_logs : string → Z → Z → option (Z * string);
  decode : string → string;
  box : Prefetch.Box H;
  warmed_in_time : bool }.
Arguments now {H}. Arguments describe {H}. Arguments spec_view {H}. Arguments utilisation {H}.
Arguments library {H}. Arguments library_busy {H}. Arguments solved_in {H}. Arguments machine {H}.
Arguments attested_in_time {H}. Arguments docker_logs {H}. Arguments decode {H}. Arguments box {H}.
Arguments warmed_in_time {H}.

(** [pending] is [ClaimPrompter.pending]; [host] and [prefetch_file] are what the
    prefetch works on. *)
Record Runtime (H : Type) : Type := MkRuntime {
  jobs : JobBook.t; events : list (string * dict); draining : bool;
  pending : list (string * string); host : H; prefetch_file : document }.
Arguments MkRuntime {H}. Arguments jobs {H}. Arguments events {H}. Arguments draining {H}.
Arguments pending {H}. Arguments host {H}. Arguments prefetch_file {H}.

Section Handlers.
Context {H : Type} (out : Outside H).

Definition write_event (kind : string) (fields : dict) (rt : Runtime H) : Runtime H :=
  MkRuntime rt.(jobs) (rt.(events) ++ [(kind, fields)]) rt.(draining) rt.(pending) rt.(host)
    rt.(prefetch_file).

Definition handled : Type := res (bool * dict) * Runtime H.
Definition refuse (text : string) (rt : Runtime H) : handled := (Ok (false, [("error", JStr text)]), rt).

Definition spec_ (c : Command.t) (rt : Runtime H) : handled :=
  (v ← out.(spec_view); mret (true, v), rt).

Definition utilisation_ (c : Command.t) (rt : Runtime H) : handled :=
  (m ← out.(utilisation);
   mret (match m with Measured v => (true, v) | Refused text => (false, [("error", JStr text)]) end), rt).

Definition challenge_ (c : Command.t) (rt : Runtime H) : handled :=
  match ChallengeRequest.from_payload (Command.body c) with
  | Raise e => (Raise e, rt)
  | Ok request =>
  match out.(library) with
  | None => refuse MISSING rt
  | Some _ =>
  match out.(solved_in) with
  | None =>
      refuse "challenge did not finish in time"
        (write_event "challenge.timeout" [("seed", JInt (ChallengeRequest.seed request));
                                          ("n", JInt (ChallengeRequest.n request))] rt)
  | Some elapsed =>
      let answer := challenge_run out.(library) out.(library_busy) request elapsed in
      let ok := String.eqb (ChallengeAnswer.error answer) "" in
      (Ok (ok, ChallengeAnswer.payload answer),
       write_event "challenge.run" [("seed", JInt (ChallengeRequest.seed request));
         ("n", JInt (ChallengeRequest.n request)); ("rounds", JInt (ChallengeRequest.rounds request));
         ("ok", JBool ok); ("elapsed_ms", JFloat (fround 3 (ChallengeAnswer.elapsed_ms answer)));
         ("error", JStr (ChallengeAnswer.error answer))] rt)
  end end end.

Definition attestation_ (c : Command.t) (rt : Runtime H) : handled :=
  let request := AttestationRequest.from_payload (Command.body c) in
  if negb out.(attested_in_time) then refuse "attestation did not finish in time" rt else
  match Grants.build out.(machine) (AttestationRequest.nonce request) "" out.(now) with
  | Raise e => (Raise e, rt)
  | Ok None => refuse "nonce must be 32 bytes as 64 lowercase hex characters" rt
  | Ok (Some evidence) => (Ok (true, Attestation.payload evidence), rt)
  end.

Definition job_placed_ (c : Command.t) (rt : Runtime H) : handled :=
  match JobRecord.from_payload (Command.body c) with
  | Raise e => (Raise e, rt)
  | Ok job =>
  if String.eqb (JobRecord.job_id job) "" then refuse "job_id required" rt else
  let detail := match getv "detail" (Command.body c) with JDict d => Some d | _ => None end in
  let '(_, book) := JobBook.record out.(now) job "coordinator" detail rt.(jobs) in
  let rt := MkRuntime book rt.(events) rt.(draining) rt.(pending) rt.(host) rt.(prefetch_file) in
  (Ok (true, [("recorded", JStr (JobRecord.job_id job)); ("jobs", JInt (JobBook.size book))]),
   write_event "job.placed" [("job", JStr (JobRecord.job_id job)); ("job_kind", JStr (JobRecord.kind job));
     ("pid", JInt (JobRecord.pid job)); ("container", JStr (JobRecord.container job))] rt)
  end.

(** [_docker_logs]; [None] is the timeout, after which the process is killed. *)
Definition docker_logs_ (name : string) (tail timeout : Z) : Z * string :=
  match out.(docker_logs) name tail timeout with
  | None => (124%Z, "timed out")
  | Some (code, bytes) => (code, out.(decode) (slast LOG_BYTES bytes))
  end.

Definition log_stream_ (c : Command.t) (rt : Runtime H) : handled :=
  match LogStreamRequest.from_payload (Command.body c) with
  | Raise e => (Raise e, rt)
  | Ok request =>
  if negb (valid_name (LogStreamRequest.container request)) then refuse "container name required" rt else
  let tail := LogStreamRequest.tail request in
  let '(code, text) := docker_logs_ (LogStreamRequest.container request) tail (LogStreamRequest.seconds request) in
  let lines := EventStore.last_items tail (splitlines text) in
  (Ok ((code =? 0)%Z, [("container", JStr (LogStreamRequest.container request));
     ("lines", JList (JStr <$> lines)); ("code", JInt code); ("tail", JInt tail)]), rt)
  end.

(** A prefetch that takes too long goes on in its thread: its effects are there,
    its outcome is not. *)
Definition prefetch_ (c : Command.t) (rt : Runtime H) : handled :=
  let request := PrefetchRequest.from_payload (Command.body c) in
  if String.eqb (PrefetchRequest.image request) "" then refuse "image required" rt else
  let '(outcome, st) :=
    Prefetch.warm out.(box) request (Prefetch.MkSt rt.(host) [] rt.(prefetch_file) rt.(events)) in
  let rt := MkRuntime rt.(jobs) (Prefetch.events st) rt.(draining) rt.(pending) (Prefetch.host st)
              (Prefetch.file st) in
  if negb out.(warmed_in_time) then
    (Ok (false, [("error", JStr "prefetch did not finish in time");
                 ("image", JStr (PrefetchRequest.image request))]), rt)
  else (result ← outcome; mret (truthy (getv "ok" result), result), rt).

Definition drain_ (c : Command.t) (rt : Runtime H) : handled :=
  let request := DrainRequest.from_payload (Command.body c) in
  let rt := MkRuntime rt.(jobs) rt.(events) (DrainRequest.drain request) rt.(pending) rt.(host)
              rt.(prefetch_file) in
  let rt := write_event "drain" [("draining", JBool (DrainRequest.drain request));
                                 ("reason", JStr (DrainRequest.reason request))] rt in
  (Ok (true, [("draining", JBool rt.(draining)); ("jobs_running", JInt (JobBook.size rt.(jobs)))]), rt).

(** [runtime.claims.prompt(hotkey, expires_at)]; the banner it prints is left out. *)
Definition prompt (hotkey expires_at : string) (rt : Runtime H) : Runtime H :=
  write_event "claim.prompt" [("hotkey", JStr hotkey); ("expires_at", JStr expires_at)]
    (MkRuntime rt.(jobs) rt.(events) rt.(draining) (dset hotkey expires_at rt.(pending)) rt.(host)
       rt.(prefetch_file)).

Definition claim_prompt_ (c : Command.t) (rt : Runtime H) : handled :=
  let request := ClaimPrompt.from_payload (Command.body c) in
  let hotkey := ClaimPrompt.hotkey request in
  let expires_at := ClaimPrompt.expires_at request in
  if String.eqb hotkey "" then refuse "hotkey required" rt
  else (Ok (true, [("prompted", JStr hotkey); ("expires_at", JStr expires_at)]),
        prompt hotkey expires_at rt).

Definition handler_of (k : CommandKind) : Command.t → Runtime H → handled :=
  match k with
  | SPEC => spec_ | UTILISATION => utilisation_ | CHALLENGE => challenge_
  | ATTESTATION => attestation_ | JOB_PLACED => job_placed_ | LOG_STREAM => log_stream_
  | PREFETCH => prefetch_ | DRAIN => drain_ | CLAIM_PROMPT => claim_prompt_
  end.

(** [HANDLERS.get(kind)] *)
Definition HANDLERS (kind : string) : option (Command.t → Runtime H → handled) :=
  handler_of <$> List.find (λ k, String.eqb kind (command_kind_value k)) command_kinds.

(** Cancellation of the task is not modelled. *)
Definition handle (c : Command.t) (rt : Runtime H) : bool * dict * Runtime H :=
  match HANDLERS (Command.kind c) with
  | None => (false, [("error", JStr UNKNOWN); ("kind", JStr (Command.kind c))], rt)
  | Some handler =>
      match handler c rt with
      | (Ok (ok, result), rt) => (ok, result, rt)
      | (Raise e, rt) =>
          let text := out.(describe) e in
          (false, [("error", JStr (stake 500 text)); ("kind", JStr (Command.kind c))],
           write_event "command.error" [("id", JInt (Command.id c)); ("command", JStr (Command.kind c));
                                        ("error", JStr (stake 300 text))] rt)
      end
  end.

(** [ControlSocket._execute] *)
Definition execute (c : Command.t) (rt : Runtime H) (q : OutboundQueue)
    : res OutboundQueue * Runtime H :=
  let '(ok, result, rt) := handle c rt in
  let rt := write_event "command" [("id", JInt (Command.id c)); ("command", JStr (Command.kind c));
                                   ("ok", JBool ok)] rt in
  (send_result out.(now) (Command.id c) ok result q, rt).
End Handlers.
