(* ===== verification/Socket.v ===== *)
(** * The control channel (agent/control/socket.py, agent/control/claims.py)

    The reconnecting websocket of the agent: the waits between connections, the
    greeting, what the reader does with each message, the ping that ends a silent
    connection, and the decisions on claims sent when the portal wants them.
    Tasks run between awaits; sending and receiving frames is I/O. *)

From Stdlib Require Import Ascii String QArith.
From S2P Require Import Prelude.
From S2P Require Import PyStr.
From S2P Require Import PyRe.
From S2P Require Import PyFloat.
From S2P Require Import PyJson.
From S2P Require Import Messages.
From S2P Require Import SessionProto.
From S2P Require Import Queue.
From S2P Require Import Stores.
From S2P Require Import Handlers.
Local Open Scope string_scope.
Local Open Scope list_scope.

(** ** Reconnecting: [run] *)

(** How a session ended: cleanly, or with an exception whose close code is known. *)
Inductive ending : Type := Clean | Broke (code : Z) (text : string).

Record Link_state : Type := MkLinkState { backoff : pyfloat; need_register : bool; last_close_code : Z }.

Definition first_link : Link_state := MkLinkState RECONNECT_MIN_SECONDS false 0.

(** One turn of the loop after [_session]: the event written, the seconds slept
    before the next turn, and the state that turn starts in. *)
Definition after_session (e : ending) (s : Link_state) : (string * dict) * pyfloat * Link_state :=
  match e with
  | Clean =>
      (("socket.closed", [("clean", JBool true)]), RECONNECT_MIN_SECONDS,
       MkLinkState RECONNECT_MIN_SECONDS true s.(last_close_code))
  | Broke code text =>
      let b := if (code =? CLOSE_UNKNOWN_RIG)%Z then RECONNECT_MIN_SECONDS
               else if ((code =? CLOSE_BAD_HELLO) || (code =? CLOSE_BAD_SIGNATURE))%Z
               then fmax s.(backoff) (fz 5) else s.(backoff) in
      (("socket.error", [("error", JStr (stake 300 text)); ("code", JInt code)]), b,
       MkLinkState (fmin (fmul b (fz 2)) RECONNECT_MAX_SECONDS) true code)
  end.

(** [asyncio.wait(tasks, return_when=FIRST_EXCEPTION)] and the results of the tasks
    that are done: the session waits on while tasks run and none raised. *)
Inductive task : Type := Runs | Returned | Threw (code : Z) (text : string).
Definition session_end (tasks : list task) : option ending :=
  match omap (λ t, match t with Threw code text => Some (Broke code text) | _ => None end) tasks with
  | e :: _ => Some e
  | [] => if forallb (λ t, match t with Returned => true | _ => false end) tasks then Some Clean else None
  end.

(** The code of an exception: of the close frame received, else its [code]
    when it is an int. *)
Definition close_code (received : option json) (code : option json) : res Z :=
  match received with
  | Some j => match j with JNull => Ok (match code with Some (JInt z) => z | Some (JBool b) => Z.b2z b | _ => 0%Z end)
              | _ => py_int j end
  | None => Ok (match code with Some (JInt z) => z | Some (JBool b) => Z.b2z b | _ => 0%Z end)
  end.

(** ** The greeting *)

Definition type_name (j : json) : string :=
  match j with
  | JNull => "NoneType" | JBool _ => "bool" | JInt _ => "int" | JFloat _ => "float"
  | JStr _ => "str" | JList _ => "list" | JDict _ => "dict"
  end.

(** The welcome, or the text of the error. *)
Definition greet (greeting : json) : res Welcome.t + string :=
  match greeting with
  | JDict d =>
      match getv "type" d with
      | JStr t => if String.eqb t (server_message_value WELCOME) then inl (Welcome.from_payload d)
                  else inr ("unexpected greeting type " +:+ type_name greeting)
      | _ => inr ("unexpected greeting type " +:+ type_name greeting)
      end
  | _ => inr ("unexpected greeting type " +:+ type_name greeting)
  end.

(** ** The reader *)

Inductive reaction : Type :=
  | Execute (r : res Command.t)
  | Pong
  | Note (kind : string) (fields : dict)
  | Ignore.

Definition is_type (m : ServerMessage) (kind : json) : bool :=
  match kind with JStr t => String.eqb t (server_message_value m) | _ => false end.

(** What the reader does with one frame. *)
Definition read (loads : string → option json) (raw : string) : reaction :=
  match loads raw with
  | None => Note "socket.bad_message" [("length", JInt (Z.of_nat (slen raw)))]
  | Some (JDict message) =>
      let kind := getv "type" message in
      if is_type COMMAND kind then Execute (Command.from_payload message)
      else if is_type PONG kind then Pong
      else if is_type ERROR kind then
        Note "socket.server_error" [("detail", JStr (stake 300 (get_str "detail" message)))]
      else Ignore
  | Some _ => Ignore
  end.

(** ** The pinger *)

(** [max(1, min(int(every or 20), 20))] *)
Definition ping_interval (every : Z) : Z :=
  Z.max 1 (Z.min (if (every =? 0)%Z then 20 else every) 20).

(** After a sleep: the connection is given up, or not. *)
Definition silent_too_long (now last_pong connected_at : pyfloat) : bool :=
  flt (fz PONG_TIMEOUT_SECONDS) (fsub now (fmax last_pong connected_at)).

(** One turn of [_pinger]: a ping in front of the queue. *)
Definition ping_turn (now : pyfloat) (q : OutboundQueue) : res OutboundQueue :=
  put now (ping now) true q.

(** ** The state report *)

Definition state_payload {H} (out : Outside H) (agent_version : string)
    (containers : option (list dict)) (q : OutboundQueue) (rt : Runtime H) : res dict :=
  m ← out.(Handlers.utilisation);
  let utilisation := match m with Measured v => v | Refused text => [("error", JStr text)] end in
  mret (State.payload out.(Handlers.now)
          (State.Mk utilisation (default [] containers) (depth q) agent_version rt.(draining)
             (JobBook.ids rt.(jobs)))).

(** ** Claims *)

Definition HOTKEY : re :=
  rep_range 46 50 (RCls (λ c, between 49 57 c || between 65 72 c || between 74 78 c || between 80 90 c
                              || between 97 107 c || between 109 122 c)).
Definition well_formed_hotkey (hotkey : string) : bool := re_dollar HOTKEY hotkey.

(** [approvals] is the directory of the decisions, one file a hotkey. *)
Record Claims : Type := MkClaims {
  waiting : list (string * string); announced : list string;
  approvals : list (string * string); claim_events : list (string * dict) }.

Definition claim_event (kind : string) (fields : dict) (c : Claims) : Claims :=
  MkClaims c.(waiting) c.(announced) c.(approvals) (c.(claim_events) ++ [(kind, fields)]).

(** [record_decision]; the error is a [ValueError]. *)
Definition record_decision (hotkey : string) (approved : bool) (c : Claims) : res Claims :=
  if negb (well_formed_hotkey hotkey) then Raise ValueError
  else Ok (MkClaims c.(waiting) c.(announced)
             (dset hotkey (if approved then "approve" else "deny") c.(approvals)) c.(claim_events)).

(** [_send]: [decide] is the call to the portal, [Some text] the exception. *)
Definition send_decision (rig_id : string) (decide : string → bool → option string) (hotkey : string)
    (approved : bool) (c : Claims) : bool * Claims :=
  if String.eqb rig_id "" then (false, c) else
  match decide hotkey approved with
  | Some text =>
      if negb (contains "no claim" text) || negb (bool_decide (hotkey ∈ c.(announced))) then
        let c := claim_event "claim.decide.error" [("hotkey", JStr hotkey); ("error", JStr (stake 200 text))] c in
        (false, MkClaims c.(waiting)
                  (if bool_decide (hotkey ∈ c.(announced)) then c.(announced) else c.(announced) ++ [hotkey])
                  c.(approvals) c.(claim_events))
      else (false, c)
  | None =>
      let c := claim_event "claim.decide" [("hotkey", JStr hotkey); ("approved", JBool approved)] c in
      (true, MkClaims (dpop hotkey c.(waiting)) (List.filter (λ h, negb (String.eqb h hotkey)) c.(announced))
               c.(approvals) c.(claim_events))
  end.

Definition unlink (name : string) (c : Claims) : Claims :=
  MkClaims c.(waiting) c.(announced) (dpop name c.(approvals)) c.(claim_events).

(** One entry of the directory; an unreadable file is left for the next round. *)
Definition drain_entry (rig_id : string) (decide : string → bool → option string)
    (readable : string → bool) (name : string) (c : Claims) : Claims :=
  if negb (well_formed_hotkey name) then unlink name c else
  if negb (readable name) then c else
  let decision := lower (strip (default "" (dget name c.(approvals)))) in
  let '(sent, c) := send_decision rig_id decide name (String.eqb decision "approve") c in
  if sent || negb (String.eqb decision "approve" || String.eqb decision "deny") then unlink name c else c.

(** [_drain], in the order of the names. *)
Definition drain_claims (rig_id : string) (decide : string → bool → option string)
    (readable : string → bool) (c : Claims) : Claims :=
  foldl (λ c name, drain_entry rig_id decide readable name c) c (sorted (dkeys c.(approvals))).

(** [watch]: the rounds, [POLL_SECONDS] apart; [fault] is the text of an [OSError] of
    looking into the directory. *)
Definition POLL_SECONDS : pyfloat := fz 2.
Definition watch_round (rig_id : string) (decide : string → bool → option string)
    (readable : string → bool) (fault : option string) (c : Claims) : Claims :=
  match fault with
  | Some text => claim_event "claim.watch.error" [("error", JStr (stake 200 text))] c
  | None => drain_claims rig_id decide readable c
  end.
Definition watch_claims (rounds : list (string * (string → bool → option string) * (string → bool) * option string))
    (c : Claims) : Claims :=
  foldl (λ c r, let '(rig_id, decide, readable, fault) := r in watch_round rig_id decide readable fault c) c rounds.

(** ** The waits between connections *)

Fixpoint sleeps (es : list ending) (s : Link_state) : list pyfloat :=
  match es with
  | [] => []
  | e :: es' => let '(_, wait, s') := after_session e s in wait :: sleeps es' s'
  end.

(** Every value the backoff can take. *)
Definition waits : list pyfloat := fz <$> [1; 2; 4; 5; 8; 10; 16; 20; 32; 40; 60]%Z.

Lemma wait_step b : b ∈ waits →
  b ∈ waits ∧ fmax b (fz 5) ∈ waits ∧
  fmin (fmul b (fz 2)) RECONNECT_MAX_SECONDS ∈ waits ∧
  fmin (fmul (fmax b (fz 5)) (fz 2)) RECONNECT_MAX_SECONDS ∈ waits.
Proof.
  intros Hb. split; [done|]. revert b Hb. apply Forall_forall. unfold waits. csimpl.
  repeat apply Forall_cons_2; [..|apply Forall_nil_2];
    (split; [|split]); match goal with |- ?x ∈ ?l => assert (bool_decide (x ∈ l) = true) as H by reflexivity;
      by apply bool_decide_eq_true in H end.
Qed.

Lemma after_session_waits e s : backoff s ∈ waits →
  (after_session e s).1.2 ∈ waits ∧ backoff (after_session e s).2 ∈ waits.
Proof.
  intros Hs. assert (RECONNECT_MIN_SECONDS ∈ waits) as H1 by apply list_elem_of_here.
  destruct (wait_step _ Hs) as (_ & H5 & H2 & H52). destruct (wait_step _ H1) as (_ & _ & H12 & _).
  destruct e as [|code text]; [done|]. unfold after_session. cbn [fst snd backoff].
  destruct (code =? CLOSE_UNKNOWN_RIG)%Z; [done|].
  destruct ((code =? CLOSE_BAD_HELLO) || (code =? CLOSE_BAD_SIGNATURE))%Z; done.
Qed.

(** However sessions end, the agent waits between one second and a minute
    before it connects again. *)
Lemma backoff_bounded es :
  Forall (λ w, fle RECONNECT_MIN_SECONDS w = true ∧ fle w RECONNECT_MAX_SECONDS = true)
    (sleeps es first_link).
Proof.
  assert (∀ w, w ∈ waits → fle RECONNECT_MIN_SECONDS w = true ∧ fle w RECONNECT_MAX_SECONDS = true) as Hw.
  { apply Forall_forall. unfold waits. csimpl. repeat apply Forall_cons_2; [..|apply Forall_nil_2]; by split. }
  assert (backoff first_link ∈ waits) as Hb by apply list_elem_of_here. revert Hb.
  generalize first_link. induction es as [|e es IH]; intros s Hs; [constructor|].
  destruct (after_session_waits e s Hs) as [H1 H2]. cbn [sleeps].
  destruct (after_session e s) as [[ev wait] s']. constructor; [by apply Hw|by apply IH].
Qed.

(** A session that ends cleanly resets the wait, but none does: the writer, the
    pinger and the stater are endless loops, which run or raise, so the session
    of a connection closed in good order ends when the next message is sent. *)
Lemma session_never_clean reader writer pinger stater :
  writer ≠ Returned → session_end [reader; writer; pinger; stater] ≠ Some Clean.
Proof. by destruct reader, writer, pinger, stater. Qed.

(** So the wait only grows: after the sixth session, however long and fruitful
    they were, the agent waits a minute before it connects again. *)
Lemma waits_for_good es s : backoff s ∈ waits →
  Forall (λ e, ∃ code text, e = Broke code text ∧ code ∉ [CLOSE_UNKNOWN_RIG; CLOSE_BAD_HELLO; CLOSE_BAD_SIGNATURE]) es →
  (6 <= List.length es)%nat → backoff (foldl (λ s e, (after_session e s).2) s es) = RECONNECT_MAX_SECONDS.
Proof.
  intros Hs Hes Hlen.
  assert (∀ es s, Forall (λ e, ∃ code text, e = Broke code text ∧
      code ∉ [CLOSE_UNKNOWN_RIG; CLOSE_BAD_HELLO; CLOSE_BAD_SIGNATURE]) es →
    backoff (foldl (λ s e, (after_session e s).2) s es)
    = Nat.iter (List.length es) (λ b, fmin (fmul b (fz 2)) RECONNECT_MAX_SECONDS) (backoff s)) as Hiter.
  { clear. intros es. induction es as [|e es IH]; intros s Hes; [done|].
    apply Forall_cons in Hes as [(code & text & -> & Hc) Hes]. cbn [foldl List.length].
    rewrite IH by done. rewrite Nat.iter_succ_r. f_equal.
    rewrite !not_elem_of_cons in Hc. destruct Hc as (H1 & H2 & H3 & _).
    unfold after_session. apply Z.eqb_neq in H1, H2, H3. by rewrite H1, H2, H3. }
  rewrite Hiter by done. destruct (List.length es) as [|[|[|[|[|[|n]]]]]]; try lia.
  assert (∀ n b, b ∈ waits → Nat.iter (6 + n) (λ b, fmin (fmul b (fz 2)) RECONNECT_MAX_SECONDS) b = RECONNECT_MAX_SECONDS)
    as Hwaits; [|by apply (Hwaits n)].
  clear. intros n b Hb. rewrite Nat.add_comm, Nat.iter_add.
  assert (Nat.iter 6 (λ b, fmin (fmul b (fz 2)) RECONNECT_MAX_SECONDS) b = RECONNECT_MAX_SECONDS) as ->.
  { revert b Hb. apply Forall_forall. unfold waits. csimpl. by repeat (constructor; [vm_compute; reflexivity|]). }
  induction n as [|n IH]; [done|]. rewrite Nat.iter_succ, IH. reflexivity.
Qed.

(** ** Every command is answered *)

(** Which part of the runtime a handler may change. *)
Definition touches {H} (kind : string) (rt rt' : Runtime H) : Prop :=
  (kind ≠ command_kind_value JOB_PLACED → rt'.(jobs) = rt.(jobs)) ∧
  (kind ≠ command_kind_value DRAIN → rt'.(draining) = rt.(draining)) ∧
  (kind ≠ command_kind_value CLAIM_PROMPT → rt'.(pending) = rt.(pending)) ∧
  (kind ≠ command_kind_value PREFETCH →
   rt'.(host) = rt.(host) ∧ rt'.(prefetch_file) = rt.(prefetch_file)).

Lemma touches_refl {H} kind (rt : Runtime H) : touches kind rt rt.
Proof. done. Qed.

Lemma touches_event {H} kind (rt rt' : Runtime H) k f :
  touches kind rt rt' → touches kind rt (write_event k f rt').
Proof. done. Qed.

Lemma HANDLERS_kind {H} (out : Outside H) kind h :
  HANDLERS out kind = Some h → ∃ k, kind = command_kind_value k ∧ h = handler_of out k.
Proof.
  unfold HANDLERS. intros (k & Hf & ->)%fmap_Some. exists k. split; [|done].
  apply List.find_some in Hf as [_ Hf]. by apply String.eqb_eq.
Qed.

Lemma handler_touches {H} (out : Outside H) k c rt :
  touches (command_kind_value k) rt (handler_of out k c rt).2.
Proof.
  destruct k; cbn [handler_of]; try done.
  - unfold challenge_. repeat case_match; done.
  - unfold attestation_. repeat case_match; done.
  - unfold job_placed_. destruct (JobRecord.from_payload _); [|done]. case_match; [done|].
    by destruct (JobBook.record _ _ _ _ _).
  - unfold log_stream_. destruct (LogStreamRequest.from_payload _); [|done]. case_match; [done|].
    by destruct (docker_logs_ _ _ _ _).
  - unfold prefetch_. case_match; [done|]. destruct (Prefetch.warm _ _ _). by case_match.
  - unfold claim_prompt_. by case_match.
Qed.

Lemma handle_touches {H} (out : Outside H) c rt : touches (Command.kind c) rt (handle out c rt).2.
Proof.
  unfold handle. destruct (HANDLERS out (Command.kind c)) as [h|] eqn:E; [|done].
  apply HANDLERS_kind in E as (k & -> & ->). pose proof (handler_touches out k c rt) as Ht.
  destruct (handler_of out k c rt) as [[[ok r]|e] rt']; [done|]. by apply touches_event.
Qed.

(** C28. Whatever a command is and whatever happens while it is handled, the agent
    queues exactly one result for it, with its id, behind the results and events
    already queued; and only a job placement changes the job book, only a drain
    request the draining flag, only a claim prompt the pending claims, only a
    prefetch the prefetch state. *)
Theorem command_answered {H} (out : Outside H) c rt q :
  Forall typed q.(items) →
  ∃ ok result q', execute out c rt q = (Ok q', (execute out c rt q).2) ∧
    precious_of q'.(items) = precious_of q.(items) ++
      [Result.payload out.(Handlers.now) (Result.Mk (Command.id c) ok result)] ∧
    touches (Command.kind c) rt (execute out c rt q).2 ∧
    (Command.known c = false → ok = false).
Proof.
  intros Hq. unfold execute. pose proof (handle_touches out c rt) as Ht.
  destruct (handle out c rt) as [[ok result] rt'] eqn:Eh. exists ok, result. unfold send_result.
  assert (typed (Result.payload out.(Handlers.now) (Result.Mk (Command.id c) ok result))) as Hm
    by by exists (agent_message_value RESULT).
  destruct (put_typed out.(Handlers.now) _ false q Hq Hm) as (q' & -> & _ & _ & Hp & _).
  exists q'. split; [done|]. split; [exact Hp|]. split; [exact Ht|].
  intros Hk. unfold handle in Eh. destruct (HANDLERS out (Command.kind c)) as [h|] eqn:E.
  - exfalso. apply HANDLERS_kind in E as (k & Ek & _). unfold Command.known in Hk. rewrite Ek in Hk.
    by destruct k.
  - by injection Eh as <- _ _.
Qed.

Definition sample_outside : Outside nat :=
  MkOutside _ (fz 9) (λ _, "boom") (Raise KeyError) (Ok (Refused "state: too many measurements in flight"))
    None false None (Grants.MkMachine "" "" "" "" ([], "", "") (λ _, "") (λ _, []) None "" 0 "" "" "")
    true (λ _ _ _, None) (λ s, s) Prefetch.sample_box true.
Definition sample_runtime : Runtime nat := MkRuntime JobBook.empty [] false [] 0%nat Absent.
Definition sample_command : Command.t := Command.Mk 7 "SpecRequest" [] "".

(** The inventory fails: the error is the answer. *)
Lemma command_answered_witness :
  handle sample_outside sample_command sample_runtime =
    (false, [("error", JStr "boom"); ("kind", JStr "SpecRequest")],
     write_event "command.error" [("id", JInt 7); ("command", JStr "SpecRequest"); ("error", JStr "boom")]
       sample_runtime) ∧
  ∃ ok result q', execute sample_outside sample_command sample_runtime (Queue.init 1) =
      (Ok q', (execute sample_outside sample_command sample_runtime (Queue.init 1)).2) ∧
    precious_of (items q') = [Result.payload (fz 9) (Result.Mk 7 ok result)].
Proof.
  split; [reflexivity|].
  destruct (command_answered sample_outside sample_command sample_runtime (Queue.init 1))
    as (ok & result & q' & H1 & H2 & _); [constructor|]. exists ok, result, q'. split; [exact H1|exact H2].
Defined.
