(* ===== verification/Control.v ===== *)
(** * The control connection as a whole (agent/control/socket.py)

    [ControlSocket.run] connects again and again; while a connection is open, four
    tasks share it with the tasks of the commands, which outlive it.  A step is
    what one task does between two awaits (a handler of a command is one step); the
    steps of all tasks may come in any order, and the server, the network and the
    clock do as they like.  The queue
    with its writer is the [Link] of [Queue]. *)

From Stdlib Require Import Ascii String QArith.
From S2P Require Import Prelude.
From S2P Require Import PyStr.
From S2P Require Import PyFloat.
From S2P Require Import PyJson.
From S2P Require Import Messages.
From S2P Require Import Queue.
From S2P Require Import Stores.
From S2P Require Import Handlers.
From S2P Require Import Socket.
Local Open Scope string_scope.
Local Open Scope list_scope.

(** Where [run] is: asleep before a turn, at the start of a session, in an open one
    ([reading] until the frames end, [asleep] while the pinger sleeps), or ended by
    [shutdown]. *)
Inductive phase : Type :=
  | Waiting
  | Connecting
  | Open (every : Z) (reading asleep : bool)
  | Over.

Record Control (H : Type) : Type := MkControl {
  link : Link; rt : Runtime H; rig_id : string; at_ : phase;
  connected_at : pyfloat; last_pong : pyfloat; loop : Link_state;
  running : list Command.t; received : list Command.t; abandoned : list Command.t }.
Arguments MkControl {H}. Arguments link {H}. Arguments rt {H}. Arguments rig_id {H}. Arguments at_ {H}.
Arguments connected_at {H}. Arguments last_pong {H}. Arguments loop {H}. Arguments running {H}.
Arguments received {H}. Arguments abandoned {H}.

Section Control.
Context {H : Type} (loads : string → option json).

(** [running] is [_tasks]; [received] and [abandoned] record the commands read and
    those whose task [shutdown] cancelled. *)
Definition first_control (bound : Z) (rig : string) (rt : Runtime H) : Control H :=
  MkControl (new_link bound) rt rig Waiting f0 f0 first_link [] [] [].

(** [connected]: true between the welcome and the end of the session. *)
Definition connected (s : Control H) : bool := match s.(at_) with Open _ _ _ => true | _ => false end.

Definition set_at (p : phase) (s : Control H) : Control H :=
  MkControl s.(link) s.(rt) s.(rig_id) p s.(connected_at) s.(last_pong) s.(loop) s.(running) s.(received) s.(abandoned).
Definition set_link (l : Link) (s : Control H) : Control H :=
  MkControl l s.(rt) s.(rig_id) s.(at_) s.(connected_at) s.(last_pong) s.(loop) s.(running) s.(received) s.(abandoned).
Definition set_rt (r : Runtime H) (s : Control H) : Control H :=
  MkControl s.(link) r s.(rig_id) s.(at_) s.(connected_at) s.(last_pong) s.(loop) s.(running) s.(received) s.(abandoned).
Definition set_loop (l : Link_state) (s : Control H) : Control H :=
  MkControl s.(link) s.(rt) s.(rig_id) s.(at_) s.(connected_at) s.(last_pong) l s.(running) s.(received) s.(abandoned).
Definition set_pong (now : pyfloat) (s : Control H) : Control H :=
  MkControl s.(link) s.(rt) s.(rig_id) s.(at_) s.(connected_at) now s.(loop) s.(running) s.(received) s.(abandoned).
Definition set_tasks (running received abandoned : list Command.t) (s : Control H) : Control H :=
  MkControl s.(link) s.(rt) s.(rig_id) s.(at_) s.(connected_at) s.(last_pong) s.(loop) running received abandoned.

(** [self.send]: results and events are recorded as accepted. *)
Definition put_link (now : pyfloat) (m : dict) (front : bool) (l : Link) : res Link :=
  q ← put now m front l.(queue);
  mret (MkLink q l.(writing) l.(finished)
          (if is_precious m then l.(accepted) ++ [dsetdefault "sent_at" (stamp now) m] else l.(accepted))).

(** *** Between sessions *)

(** The top of the loop: [register] may set the identifier, or fail ([None]). *)
Definition begin_turn (id : option string) (s : Control H) : Control H :=
  let id := if need_register s.(loop) then default s.(rig_id) id else s.(rig_id) in
  MkControl s.(link) s.(rt) id Connecting s.(connected_at) s.(last_pong) s.(loop) s.(running) s.(received) s.(abandoned).

(** The tasks of the session are cancelled: a message the writer holds is not put
    back. *)
Definition cancel_writer (l : Link) : Link :=
  match l.(writing) with
  | Some m => MkLink l.(queue) None (l.(finished) ++ [(false, m)]) l.(accepted)
  | None => l
  end.

(** The end of [_session] and what [run] does about it, up to its sleep. *)
Definition ended (e : ending) (s : Control H) : Control H :=
  let '((kind, fields), _, next) := after_session e s.(loop) in
  set_rt (write_event kind fields s.(rt)) (set_loop next (set_link (cancel_writer s.(link)) (set_at Waiting s))).

(** *** The start of [_session] *)

Definition welcomed (now : pyfloat) (w : Welcome.t) (s : Control H) : Control H :=
  let id := if String.eqb (Welcome.rig_id w) "" then s.(rig_id) else Welcome.rig_id w in
  let rt := write_event "socket.connected" [("rig_id", JStr id); ("ping", JInt (Welcome.ping_seconds w))] s.(rt) in
  MkControl s.(link) rt id (Open (Welcome.ping_seconds w) true false) now now s.(loop) s.(running) s.(received) s.(abandoned).

(** The first frame; [text] is that of the exception, when there is one. *)
Definition greeted (now : pyfloat) (raw text : string) (s : Control H) : Control H :=
  match loads raw with
  | None => ended (Broke 0 text) s
  | Some greeting =>
      match greet greeting with
      | inl (Ok w) => welcomed now w s
      | inl (Raise _) => ended (Broke 0 text) s
      | inr unexpected => ended (Broke 0 unexpected) s
      end
  end.

(** *** The reader and the tasks of the commands *)

Definition on_frame (now : pyfloat) (raw text : string) (s : Control H) : Control H :=
  match Socket.read loads raw with
  | Execute (Ok c) => set_tasks (s.(running) ++ [c]) (s.(received) ++ [c]) s.(abandoned) s
  | Execute (Raise _) => ended (Broke 0 text) s
  | Pong => set_pong now s
  | Note kind fields => set_rt (write_event kind fields s.(rt)) s
  | Ignore => s
  end.

(** [_execute]; [rest] are the tasks that are left. *)
Definition execute_command (out : Outside H) (c : Command.t) (rest : list Command.t) (s : Control H) : res (Control H) :=
  let '(ok, result, rt) := handle out c s.(rt) in
  let rt := write_event "command" [("id", JInt (Command.id c)); ("command", JStr (Command.kind c));
                                   ("ok", JBool ok)] rt in
  l ← put_link out.(Handlers.now) (Result.payload out.(Handlers.now) (Result.Mk (Command.id c) ok result)) false s.(link);
  mret (set_tasks rest s.(received) s.(abandoned) (set_link l (set_rt rt s))).

(** *** The writer *)

Definition take (now : pyfloat) (l : Link) : Link :=
  match get l.(queue) with
  | (Some m, q) => MkLink q (Some (stamped now q m)) l.(finished) l.(accepted)
  | (None, q) => MkLink q None l.(finished) l.(accepted)
  end.
Definition sent (m : dict) (l : Link) : Link := MkLink l.(queue) None (l.(finished) ++ [(true, m)]) l.(accepted).
Definition give_back (m : dict) (l : Link) : Link := MkLink (requeue m l.(queue)) None l.(finished) l.(accepted).

(** *** [shutdown]: the tasks of the commands are cancelled. *)
Definition shutdown (s : Control H) : Control H :=
  set_tasks [] s.(received) (s.(abandoned) ++ s.(running)) (set_link (cancel_writer s.(link)) (set_at Over s)).

(** ** The steps *)

Inductive step : Control H → Control H → Prop :=
  | turn id s : s.(at_) = Waiting → step s (begin_turn id s)
  | unreachable_server code text s : s.(at_) = Connecting → step s (ended (Broke code text) s)
  | greeting now raw text s : s.(at_) = Connecting → step s (greeted now raw text s)
  | frame now raw text s every asleep :
      s.(at_) = Open every true asleep → step s (on_frame now raw text s)
  | frames_end s every asleep : s.(at_) = Open every true asleep → step s (set_at (Open every false asleep) s)
  | frames_broke code text s every asleep : s.(at_) = Open every true asleep → step s (ended (Broke code text) s)
  | executed out c before after s s' :
      s.(running) = before ++ c :: after → execute_command out c (before ++ after) s = Ok s' → step s s'
  | writer_takes now s : connected s = true → s.(link).(writing) = None → step s (set_link (take now s.(link)) s)
  | writer_sent m s : connected s = true → s.(link).(writing) = Some m → step s (set_link (sent m s.(link)) s)
  | writer_failed m code text s :
      connected s = true → s.(link).(writing) = Some m →
      step s (ended (Broke code text) (set_link (give_back m s.(link)) s))
  | pinged now s every reading l :
      s.(at_) = Open every reading false → put_link now (ping now) true s.(link) = Ok l →
      step s (set_at (Open every reading true) (set_link l s))
  | pinger_woke now text s every reading :
      s.(at_) = Open every reading true →
      step s (if silent_too_long now s.(last_pong) s.(connected_at) then ended (Broke 0 text) s
              else set_at (Open every reading false) s)
  | stated out version containers payload s l :
      connected s = true → state_payload out version containers s.(link).(queue) s.(rt) = Ok payload →
      put_link out.(Handlers.now) payload false s.(link) = Ok l → step s (set_link l s)
  | state_failed out version containers e text s :
      connected s = true → state_payload out version containers s.(link).(queue) s.(rt) = Raise e →
      step s (ended (Broke 0 text) s)
  | said now kind detail s l :
      put_link now (Event.payload now (Event.Mk kind detail)) false s.(link) = Ok l → step s (set_link l s)
  | stopped s : s.(at_) ≠ Over → step s (shutdown s).

Definition reachable (bound : Z) (rig : string) (rt : Runtime H) : Control H → Prop :=
  rtc step (first_control bound rig rt).
End Control.

(** ** Facts *)

Section Facts.
Context {H : Type} (loads : string → option json).

Lemma put_link_ok now m front l l' :
  put_link now m front l = Ok l' →
  put now m front l.(queue) = Ok l'.(queue) ∧ l'.(writing) = l.(writing) ∧ l'.(finished) = l.(finished) ∧
  l'.(accepted) = if is_precious m then l.(accepted) ++ [dsetdefault "sent_at" (stamp now) m] else l.(accepted).
Proof.
  unfold put_link. destruct (put now m front (queue l)) as [q|e] eqn:E; [|done].
  cbn [mbind res_bind mret res_ret]. intros [= <-]. done.
Qed.

Lemma put_link_step now m front l l' :
  typed m → (is_precious m = true → front = false) → put_link now m front l = Ok l' → Queue.step l l'.
Proof.
  intros Hm Hf E. destruct (put_link_ok _ _ _ _ _ E) as (Hq & Hw & Hfi & Ha). destruct l' as [q w f a]. cbn in *. subst.
  by apply step_put with front.
Qed.

Lemma cancel_writer_steps l : rtc Queue.step l (cancel_writer l).
Proof. unfold cancel_writer. destruct (writing l) eqn:E; [apply rtc_once; by apply step_cancelled|done]. Qed.

Lemma take_step now l : writing l = None → Queue.step l (take now l).
Proof.
  intros Hw. unfold take. destruct (get (queue l)) as [[m|] q] eqn:E; [by apply step_take|by apply step_wait].
Qed.

Lemma result_typed now id ok result : typed (Result.payload now (Result.Mk id ok result)).
Proof. by exists (agent_message_value RESULT). Qed.
Lemma event_typed now kind detail : typed (Event.payload now (Event.Mk kind detail)).
Proof. by exists (agent_message_value EVENT). Qed.

(** What the end of a session leaves. *)
Lemma ended_spec e (s : Control H) :
  let s' := ended e s in
  s'.(link) = cancel_writer s.(link) ∧ s'.(at_) = Waiting ∧ s'.(running) = s.(running) ∧
  s'.(received) = s.(received) ∧ s'.(abandoned) = s.(abandoned).
Proof. cbn zeta. unfold ended. by destruct (after_session e (loop s)) as [[[kind fields] w] next]. Qed.

Lemma greeted_spec now raw text (s : Control H) :
  let s' := greeted loads now raw text s in
  (s'.(link) = s.(link) ∧ connected s' = true ∨ s'.(link) = cancel_writer s.(link) ∧ s'.(at_) = Waiting) ∧
  s'.(running) = s.(running) ∧ s'.(received) = s.(received) ∧ s'.(abandoned) = s.(abandoned).
Proof.
  cbn zeta. unfold greeted. destruct (loads raw) as [j|]; [destruct (greet j) as [[w|e]|u]|];
    try (by split; [left|]); try (match goal with |- context [ended ?e s] => destruct (ended_spec e s) as (? & ? & ? & ? & ?) end; by split; [right|]).
Qed.
Lemma state_payload_typed (out : Outside H) version containers q rt payload :
  state_payload out version containers q rt = Ok payload → typed payload ∧ is_precious payload = false.
Proof.
  unfold state_payload. destruct (Handlers.utilisation out) as [m|]; [|done]. cbn. intros [= <-].
  split; [by exists (agent_message_value STATE)|done].
Qed.

(** *** One connection, then the next: what happens to the queue *)

Lemma link_steps s s' : step (H := H) loads s s' → rtc Queue.step s.(link) s'.(link).
Proof.
  intros Hs. destruct Hs as [id s Ha|code text s Ha|now raw text s Ha|now raw text s every asleep Ha|s every asleep Ha
    |code text s every asleep Ha|out c before after s s' Hr E|now s Hc Hw|m s Hc Hw|m code text s Hc Hw
    |now s every reading l Ha E|now text s every reading Ha|out version containers payload s l Hc Ep E
    |out version containers e text s Hc Ep|now kind detail s l E|s Ha].
  - done.
  - rewrite (proj1 (ended_spec _ _)). apply cancel_writer_steps.
  - destruct (greeted_spec now raw text s) as ([[-> _]|[-> _]] & _); [done|apply cancel_writer_steps].
  - unfold on_frame. destruct (Socket.read loads raw) as [[c|e]| | |]; try done.
    rewrite (proj1 (ended_spec _ _)). apply cancel_writer_steps.
  - done.
  - rewrite (proj1 (ended_spec _ _)). apply cancel_writer_steps.
  - unfold execute_command in E. destruct (handle out c (rt s)) as [[ok result] rt'].
    destruct (put_link _ _ _ _) as [l|] eqn:El; [|done]. injection E as <-. cbn.
    apply rtc_once, (put_link_step _ _ _ _ _ (result_typed _ _ _ _) (λ _, eq_refl) El).
  - by apply rtc_once, take_step.
  - by apply rtc_once, step_sent.
  - rewrite (proj1 (ended_spec _ _)). cbn. apply rtc_once. by apply step_failed.
  - apply rtc_once. apply put_link_step with now (ping now) true; [by exists (agent_message_value PING)|done|exact E].
  - case_match; [rewrite (proj1 (ended_spec _ _)); apply cancel_writer_steps|done].
  - destruct (state_payload_typed _ _ _ _ _ _ Ep) as [Ht _]. apply rtc_once, (put_link_step _ _ _ _ _ Ht (λ _, eq_refl) E).
  - rewrite (proj1 (ended_spec _ _)). apply cancel_writer_steps.
  - apply rtc_once, (put_link_step _ _ _ _ _ (event_typed _ _ _) (λ _, eq_refl) E).
  - apply cancel_writer_steps.
Qed.

Lemma link_reachable bound rig rt s :
  reachable (H := H) loads bound rig rt s → Queue.reachable bound s.(link).
Proof.
  unfold reachable. intros Hr. assert (Queue.reachable bound (link (first_control bound rig rt))) as H0 by apply rtc_refl.
  revert H0. generalize dependent (first_control bound rig rt). intros s0 Hr.
  induction Hr as [s0|s0 s1 s2 Hs _ IH]; intros H0; [done|]. apply IH. unfold Queue.reachable in *. by rewrite H0, (link_steps s0 s1 Hs).
Qed.

(** *** Results and commands *)

(** The command a message answers. *)
Definition answers (m : dict) : option Z :=
  if String.eqb (type_of m) (agent_message_value RESULT) then match getv "id" m with JInt z => Some z | _ => None end
  else None.
Definition answered (l : list dict) : list Z := omap answers l.

Lemma getv_dpop k k' m : k ≠ k' → getv k (dpop k' m) = getv k m.
Proof. intros Hk. unfold getv, getd. by rewrite dget_dpop_ne. Qed.
Lemma answers_core m : answers (core m) = answers m.
Proof. unfold answers, type_of, core. by rewrite !getv_dpop by done. Qed.

Lemma answers_precious m z : answers m = Some z → is_precious m = true.
Proof.
  unfold answers, is_precious. destruct (String.eqb_spec (type_of m) (agent_message_value RESULT)) as [->|]; [|done].
  intros _. by apply bool_decide_eq_true_2, list_elem_of_here.
Qed.

Lemma answered_app a b : answered (a ++ b) = answered a ++ answered b.
Proof. unfold answered. apply omap_app. Qed.

Lemma answered_cores l : answered l = answered (cores l).
Proof.
  unfold answered, cores, precious_of. induction l as [|m l IH]; [done|]. cbn [List.filter].
  destruct (is_precious m) eqn:Ep; csimpl.
  - rewrite answers_core, IH. done.
  - rewrite IH. destruct (answers m) as [z|] eqn:Ea; [|done]. apply answers_precious in Ea. congruence.
Qed.

Lemma answers_result now id ok result v :
  answers (dsetdefault "sent_at" v (Result.payload now (Result.Mk id ok result))) = Some id.
Proof. reflexivity. Qed.
Lemma answers_event now kind detail v :
  answers (dsetdefault "sent_at" v (Event.payload now (Event.Mk kind detail))) = None.
Proof. reflexivity. Qed.

Definition ids (l : list Command.t) : list Z := Command.id <$> l.

(** Every command read has one result accepted, or its task runs, or was cancelled
    by [shutdown]; between sessions the writer holds no message. *)
Definition inv (s : Control H) : Prop :=
  answered s.(link).(accepted) ++ ids s.(running) ++ ids s.(abandoned) ≡ₚ ids s.(received) ∧
  (connected s = false → s.(link).(writing) = None) ∧ (s.(at_) ≠ Over → s.(abandoned) = []).

Lemma cancel_writer_accepted l : (cancel_writer l).(accepted) = l.(accepted) ∧ (cancel_writer l).(writing) = None.
Proof. unfold cancel_writer. by destruct (writing l) eqn:E. Qed.

Lemma inv_ended e s : inv s → s.(abandoned) = [] → inv (ended e s).
Proof.
  intros (Hi & _ & _) Hab. destruct (ended_spec e s) as (El & Ea & Er & Ec & Eb).
  destruct (cancel_writer_accepted (link s)) as [Hacc Hw]. unfold inv. rewrite El, Er, Ec, Eb, Hacc. auto.
Qed.

Lemma inv_link s l a :
  inv s → l.(writing) = s.(link).(writing) → l.(accepted) = s.(link).(accepted) ++ a → answered a = [] → inv (set_link l s).
Proof.
  intros (Hi & Hw & Hab) El Ea En. unfold inv. cbn. rewrite Ea, answered_app, En, app_nil_r.
  split; [exact Hi|]. split; [|exact Hab]. rewrite El. exact Hw.
Qed.

(** A message that is no result is accepted without answering a command. *)
Lemma control_put now m front s l :
  put_link now m front s.(link) = Ok l → answers (dsetdefault "sent_at" (stamp now) m) = None → inv s → inv (set_link l s).
Proof.
  intros E Hn Hi. destruct (put_link_ok _ _ _ _ _ E) as (_ & Hw & _ & Ha).
  destruct (is_precious m); [apply inv_link with [dsetdefault "sent_at" (stamp now) m]|apply inv_link with []]; try done.
  - cbn. by rewrite Hn.
  - by rewrite app_nil_r.
Qed.

Lemma inv_executed out c before after s s' :
  s.(running) = before ++ c :: after → execute_command out c (before ++ after) s = Ok s' → inv s → inv s'.
Proof.
  intros Hr E (Hi & Hw & Hab). unfold execute_command in E. destruct (handle out c (rt s)) as [[ok result] rt'].
  destruct (put_link _ _ _ _) as [l|] eqn:El; [|done]. injection E as <-.
  destruct (put_link_ok _ _ _ _ _ El) as (_ & Ew & _ & Ea).
  change (is_precious (Result.payload _ _)) with true in Ea. cbn iota in Ea.
  unfold inv. cbn. rewrite Ea, answered_app. split; [|by rewrite Ew].
  rewrite Hr in Hi. unfold ids in *. rewrite fmap_app, fmap_cons in Hi. rewrite fmap_app.
  etrans; [|exact Hi]. rewrite <- !app_assoc. apply Permutation_app_head.
  etrans; [apply (Permutation_middle (Command.id <$> before) ((Command.id <$> after) ++ (Command.id <$> abandoned s)) (Command.id c))|done].
Qed.

Lemma open_connected (s : Control H) every reading asleep : s.(at_) = Open every reading asleep → connected s = true.
Proof. unfold connected. by intros ->. Qed.
Lemma not_over s : connected s = true ∨ s.(at_) = Connecting → inv s → s.(abandoned) = [].
Proof. unfold connected. intros Hc (_ & _ & Hab). apply Hab. intros E. rewrite E in Hc. by destruct Hc. Qed.

Lemma inv_frame now raw text s : connected s = true → inv s → inv (on_frame loads now raw text s).
Proof.
  intros Hc Hi. pose proof (not_over s (or_introl Hc) Hi) as Hab. unfold on_frame.
  destruct (Socket.read loads raw) as [[c|e]| | |]; [|by apply inv_ended|exact Hi..].
  destruct Hi as (Hi & Hw & Ho). unfold inv. cbn. split; [|split; [exact Hw|done]].
  unfold ids in *. rewrite !fmap_app, <- Hi, Hab. cbn. by rewrite !app_nil_r, !app_assoc.
Qed.

Lemma inv_greeted now raw text s : s.(at_) = Connecting → inv s → inv (greeted loads now raw text s).
Proof.
  intros Hc Hi. pose proof (not_over s (or_intror Hc) Hi) as Hab. destruct Hi as (Hi & Hw & Ho).
  destruct (greeted_spec now raw text s) as (Hcase & Er & Ec & Eb). unfold inv. rewrite Er, Ec, Eb.
  destruct (cancel_writer_accepted (link s)) as [Ha Hn].
  destruct Hcase as [[-> Hcon]|[-> _]]; split_and!; try done; [by rewrite Hcon|by rewrite Ha].
Qed.

Lemma control_step s s' : step loads s s' → inv s → inv s'.
Proof.
  intros Hs Hi. destruct Hs as [id s Ha|code text s Ha|now raw text s Ha|now raw text s every asleep Ha|s every asleep Ha
    |code text s every asleep Ha|out c before after s s' Hr E|now s Hc Hw|m s Hc Hw|m code text s Hc Hw
    |now s every reading l Ha E|now text s every reading Ha|out version containers payload s l Hc Ep E
    |out version containers e text s Hc Ep|now kind detail s l E|s Ha];
    try (assert (connected s = true) as Hc by (eapply open_connected; eassumption));
    try (pose proof (not_over s (or_introl Hc) Hi) as Hab).
  - destruct Hi as (Hi & Hw & Ho). unfold inv, connected in *. rewrite Ha in *. cbn. by auto.
  - apply inv_ended; [exact Hi|]. apply (not_over s); auto.
  - by apply inv_greeted.
  - by apply inv_frame.
  - destruct Hi as (Hi & Hw & Ho). unfold inv. cbn. by auto.
  - by apply inv_ended.
  - by apply (inv_executed out c before after s).
  - destruct Hi as (Hi & Hw' & Ho). unfold inv, connected in *. cbn.
    assert (accepted (take now (link s)) = accepted (link s)) as -> by (unfold take; destruct (get _) as [[]]; reflexivity).
    split; [exact Hi|]. split; [|exact Ho]. intros E. rewrite E in Hc. discriminate.
  - destruct Hi as (Hi & Hw' & Ho). unfold inv. cbn. auto.
  - apply inv_ended; [|exact Hab]. destruct Hi as (Hi & Hw' & Ho). unfold inv. cbn. auto.
  - assert (inv (set_link l s)) as (Hi' & Hw' & Ho') by by apply (control_put _ _ _ s l E).
    unfold inv. cbn in *. split_and!; [exact Hi'|done|done].
  - case_match; [by apply inv_ended|]. destruct Hi as (Hi & Hw' & Ho). unfold inv. cbn. split_and!; [exact Hi|done|done].
  - apply (control_put _ _ _ s l E); [|exact Hi]. destruct (state_payload_typed _ _ _ _ _ _ Ep) as [_ Hp].
    destruct (answers _) as [z|] eqn:Ea; [|done]. apply answers_precious in Ea. unfold is_precious in *.
    rewrite type_setdefault in Ea. congruence.
  - by apply inv_ended.
  - by apply (control_put _ _ _ s l E).
  - destruct Hi as (Hi & Hw' & Ho). specialize (Ho Ha). destruct (cancel_writer_accepted (link s)) as [Hacc Hn].
    unfold inv. cbn. rewrite Hacc, Ho. cbn. rewrite Ho in Hi. cbn in Hi. rewrite app_nil_r in Hi. done.
Qed.

Lemma control_inv bound rig rt (s : Control H) : reachable loads bound rig rt s → inv s.
Proof.
  unfold reachable. intros Hr. assert (inv (first_control bound rig rt)) as H0 by by repeat split.
  revert H0. generalize dependent (first_control bound rig rt). intros s0 Hr.
  induction Hr as [s0|s0 s1 s2 Hs _ IH]; intros H0; [done|]. apply IH. by apply (control_step s0).
Qed.

(** The task of a command never fails: its result is put whatever is queued. *)
Lemma execute_total bound rig rt (s : Control H) out c rest :
  (-1 <= bound)%Z → reachable loads bound rig rt s → ∃ s', execute_command out c rest s = Ok s'.
Proof.
  intros Hb Hr. destruct (Queue.inv_reachable bound _ Hb (link_reachable _ _ _ _ Hr)) as (_ & Ht & _).
  unfold execute_command. destruct (handle out c (Control.rt s)) as [[ok result] rt']. unfold put_link.
  destruct (put_typed out.(Handlers.now) _ false _ Ht (result_typed out.(Handlers.now) (Command.id c) ok result)) as (q & -> & _).
  by eexists.
Qed.

(** *** What the writer loses *)

(** A message that left the writer was handed to the socket whole, or lost with it. *)
Definition handed (l : Link) : list dict := snd <$> List.filter (λ x : bool * dict, x.1) l.(finished).
Definition lost (l : Link) : list dict := snd <$> List.filter (λ x : bool * dict, negb x.1) l.(finished).

Lemma answered_cons m l : answered (m :: l) = answered [m] ++ answered l.
Proof. apply (answered_app [m]). Qed.

Lemma answered_finished l : answered (handed l) ++ answered (lost l) ≡ₚ answered (sent_or_lost l).
Proof.
  unfold handed, lost, sent_or_lost. induction (finished l) as [|[[] m] f IH]; [done| |];
    cbn [List.filter fst negb]; rewrite !fmap_cons; cbn [snd]; rewrite !(answered_cons m (_ <$> _)).
  - rewrite <- app_assoc. by apply Permutation_app_head.
  - rewrite Permutation_app_swap_app. by apply Permutation_app_head.
Qed.

Lemma lost_cancel l : lost (cancel_writer l) = lost l ++ option_list l.(writing).
Proof.
  unfold cancel_writer, lost. destruct (writing l) as [m|]; cbn [finished option_list].
  - rewrite List.filter_app, fmap_app. done.
  - by rewrite app_nil_r.
Qed.

Lemma lost_put now m front l l' : put_link now m front l = Ok l' → lost l' = lost l.
Proof. intros (_ & _ & Hf & _)%put_link_ok. unfold lost. by rewrite Hf. Qed.

(** What a step adds to the lost: nothing, or what the writer holds when the
    session ends under it. *)
Definition loses (s s' : Control H) : Prop :=
  lost s'.(link) = lost s.(link)
  ∨ connected s' = false ∧ lost s'.(link) = lost s.(link) ++ option_list s.(link).(writing).

Lemma loses_ended e s : loses s (ended e s).
Proof.
  destruct (ended_spec e s) as (El & Ea & _). right. rewrite El. split; [|apply lost_cancel].
  unfold connected. by rewrite Ea.
Qed.

Lemma step_loses s s' : step loads s s' → loses s s'.
Proof.
  intros Hs. destruct Hs as [id s Ha|code text s Ha|now raw text s Ha|now raw text s every asleep Ha|s every asleep Ha
    |code text s every asleep Ha|out c before after s s' Hr E|now s Hc Hw|m s Hc Hw|m code text s Hc Hw
    |now s every reading l Ha E|now text s every reading Ha|out version containers payload s l Hc Ep E
    |out version containers e text s Hc Ep|now kind detail s l E|s Ha];
    try apply loses_ended; try (by left); try (left; exact (lost_put _ _ _ _ _ E)).
  - destruct (greeted_spec now raw text s) as ([[El _]|[El Ea]] & _); [left; by rewrite El|].
    right. rewrite El. split; [unfold connected; by rewrite Ea|apply lost_cancel].
  - unfold on_frame. destruct (Socket.read loads raw) as [[c|e]| | |]; try (by left). apply loses_ended.
  - left. unfold execute_command in E. destruct (handle out c (rt s)) as [[ok result] rt'].
    destruct (put_link _ _ _ _) as [l|] eqn:El; [|done]. injection E as <-. exact (lost_put _ _ _ _ _ El).
  - left. unfold lost, take. cbn. by destruct (get _) as [[]].
  - left. unfold lost, sent. cbn. rewrite List.filter_app, fmap_app. cbn. by rewrite app_nil_r.
  - case_match; [apply loses_ended|by left].
  - right. split; [done|apply lost_cancel].
Qed.

(** C10. However often the connection fails and comes back, and in whatever order the
    tasks run, the commands the agent read are, each once: those whose result was
    handed to the socket, those whose result was lost with a cancelled writer, the one
    whose result the writer holds, those whose result is queued, those whose task
    runs and those the shutdown abandoned.  A result is lost only by a step that
    ends the session while the writer holds it - at most that one - and a failed
    send puts it back.  A task that runs never fails to put its result; between
    sessions the writer holds nothing, and no command is abandoned before the
    shutdown. *)
Theorem commands_answered_once bound rig rt (s : Control H) :
  (-1 <= bound)%Z → reachable loads bound rig rt s →
  answered (handed s.(link)) ++ answered (lost s.(link)) ++ answered (option_list s.(link).(writing)) ++
    answered s.(link).(queue).(items) ++ ids s.(running) ++ ids s.(abandoned) ≡ₚ ids s.(received) ∧
  (∀ s', step loads s s' →
     lost s'.(link) = lost s.(link)
     ∨ connected s = true ∧ connected s' = false
       ∧ lost s'.(link) = lost s.(link) ++ option_list s.(link).(writing)) ∧
  (∀ out c before after, s.(running) = before ++ c :: after →
     ∃ s', execute_command out c (before ++ after) s = Ok s' ∧ step loads s s') ∧
  (connected s = false → s.(link).(writing) = None) ∧ (s.(at_) ≠ Over → s.(abandoned) = []).
Proof.
  intros Hb Hr. destruct (control_inv _ _ _ _ Hr) as (Hi & Hw & Ho). split; [|split; [|split; [|done]]].
  - destruct (Queue.inv_reachable bound _ Hb (link_reachable _ _ _ _ Hr)) as (_ & _ & _ & _ & Hc & _).
    etrans; [|exact Hi]. rewrite (answered_cores (accepted _)), Hc, !answered_app, <- !answered_cores.
    rewrite <- answered_finished, !app_assoc. done.
  - intros s' Hs. destruct (step_loses s s' Hs) as [?|[Hn Hl]]; [by left|].
    destruct (connected s) eqn:Ec; [by right|]. left. rewrite Hl, (Hw eq_refl). apply app_nil_r.
  - intros out c before after E. destruct (execute_total _ _ _ s out c (before ++ after) Hb Hr) as [s' E'].
    exists s'. split; [exact E'|]. by apply executed with out c before after.
Qed.
End Facts.

(** A command is read and executed; the connection breaks while its result is sent. *)
Definition sample_loads (raw : string) : option json :=
  if String.eqb raw "hi" then Some (JDict [("type", JStr (server_message_value WELCOME)); ("rig_id", JStr "rig-1")])
  else if String.eqb raw "do" then
    Some (JDict [("type", JStr (server_message_value COMMAND)); ("id", JInt 7); ("kind", JStr "SpecRequest")])
  else None.
Definition sample_open : Control nat :=
  on_frame sample_loads (fz 2) "do" "" (greeted sample_loads (fz 1) "hi" "" (begin_turn None (first_control 5 "" sample_runtime))).
Definition sample_done : Control nat :=
  match execute_command sample_outside (Command.Mk 7 "SpecRequest" [] "") [] sample_open with Ok s => s | Raise _ => sample_open end.
Definition sample_end : Control nat :=
  ended (Broke 1006 "gone") (set_link (take (fz 4) sample_done.(link)) sample_done).

Lemma commands_answered_once_witness :
  (-1 <= 5)%Z ∧ reachable sample_loads 5 "" sample_runtime sample_end ∧
  ids sample_end.(received) = [7%Z] ∧ fst <$> sample_end.(link).(finished) = [false] ∧
  answered (handed sample_end.(link)) ++ answered (lost sample_end.(link)) ++ answered (option_list sample_end.(link).(writing)) ++
    answered sample_end.(link).(queue).(items) ++ ids sample_end.(running) ++ ids sample_end.(abandoned) ≡ₚ [7%Z].
Proof.
  assert (reachable sample_loads 5 "" sample_runtime sample_end) as Hr.
  { eapply rtc_l; [by apply turn with (id := None)|].
    eapply rtc_l; [by apply greeting with (now := fz 1) (raw := "hi") (text := "")|].
    eapply rtc_l; [eapply frame with (now := fz 2) (raw := "do") (text := ""); reflexivity|].
    eapply rtc_l; [apply executed with (out := sample_outside) (c := Command.Mk 7 "SpecRequest" [] "") (before := []) (after := []) (s' := sample_done); reflexivity|].
    eapply rtc_l; [by apply writer_takes with (now := fz 4)|].
    eapply rtc_l; [eapply frames_broke with (code := 1006%Z) (text := "gone"); reflexivity|]. apply rtc_refl. }
  split; [lia|]. split; [exact Hr|]. split; [reflexivity|]. split; [reflexivity|].
  exact (proj1 (commands_answered_once sample_loads 5 "" sample_runtime sample_end ltac:(lia) Hr)).
Defined.
