(* ===== verification/Checks.v ===== *)
(** * The deep checks (validator/verify: version, duplicates, exclusivity, host_reality, specs)

    Each check turns what a machine answered into a verdict.  A card, a rig and a
    process are dictionaries as the scrape or the pool sent them. *)

From stdpp Require Import sorting.
From Stdlib Require Import Ascii String QArith.
From S2P Require Import Prelude.
From S2P Require Import PyStr.
From S2P Require Import PyFloat.
From S2P Require Import PyJson.
From S2P Require Import Failures.
From S2P Require Import SessionProto.
From S2P Require Import Tiers.
From S2P Require Import GpuTable.
From S2P Require Import Weights.
From S2P Require Import Shell.
From S2P Require Import Runner.
From S2P Require Import Challenge.
Local Open Scope string_scope.
Local Open Scope list_scope.

Definition fail (check : string) (k : FailureClass) (detail seed : string) (ev evidence : dict) : Verdict :=
  MkVerdict check (Some (MkFailure k detail seed ev)) evidence f0.
Definition pass (check : string) (evidence : dict) : Verdict := MkVerdict check None evidence f0.

(** What a call to the agent gives: an object, or an [AgentError]. *)
Inductive called : Type := Answered (d : dict) | AgentError (k : FailureClass) (detail : string).

(** ** version.py *)

Module Version.
Definition stale (agent_version minimum : string) : bool :=
  match parse_version minimum with
  | [] => false
  | floor => tuple_lt (parse_version agent_version) floor
  end.

Definition check (agent_version minimum seed : string) : Verdict :=
  let evidence := [("agent_version", JStr agent_version); ("minimum", JStr minimum);
                   ("summary", JStr (sor agent_version "unknown"))] in
  if String.eqb agent_version "" then
    fail "version" VERSION_STALE "the agent reports no version" seed [] evidence
  else if stale agent_version minimum then
    fail "version" VERSION_STALE
      ("agent " +:+ agent_version +:+ " is below the minimum " +:+ minimum) seed [] evidence
  else pass "version" evidence.

Definition fetch (answer : called) (minimum seed : string) : Verdict * dict :=
  match answer with
  | AgentError k detail =>
      (fail "version" k detail seed [] [("summary", JStr (stake 120 detail))], [])
  | Answered d => (check (get_str_or "version" "" d) minimum seed, d)
  end.
End Version.

(** ** duplicates.py *)

Module Duplicates.
Definition card_uuid (card : json) : string :=
  match card with JDict d => get_str_or "uuid" "" d | _ => "" end.

Definition add_card (rig_id : string) (index : list (string * list string)) (card : json)
    : list (string * list string) :=
  let uuid := card_uuid card in
  if String.eqb uuid "" then index
  else dset uuid (default [] (dget uuid index) ++ [rig_id]) index.

Definition counted (exclude_rig : string) (rig : dict) : bool :=
  let rig_id := get_str_or "id" "" rig in
  negb (String.eqb rig_id "" || String.eqb rig_id exclude_rig)
  && negb (String.eqb (get_str_or "state" "" rig) "removed").

Fixpoint enrolment_index_go (roster : list dict) (exclude_rig : string)
    (index : list (string * list string)) : res (list (string * list string)) :=
  match roster with
  | [] => Ok index
  | rig :: roster' =>
      if counted exclude_rig rig then
        cards ← get_list "gpus" rig;
        enrolment_index_go roster' exclude_rig
          (foldl (add_card (get_str_or "id" "" rig)) index cards)
      else enrolment_index_go roster' exclude_rig index
  end.
Definition enrolment_index (roster : list dict) (exclude_rig : string) :
    res (list (string * list string)) := enrolment_index_go roster exclude_rig [].

Definition note_duplicate (index : list (string * list string))
    (duplicates : list (string * list string)) (card : dict) : list (string * list string) :=
  let uuid := get_str_or "uuid" "" card in
  match dget uuid index with
  | Some rigs => if String.eqb uuid "" then duplicates else dset uuid rigs duplicates
  | None => duplicates
  end.

Definition rigs_json (d : list (string * list string)) : json :=
  JDict ((λ e : string * list string, (e.1, JList (JStr <$> e.2))) <$> d).

Definition check (gpus : list dict) (rig_id : string) (roster : list dict) (seed : string) : res Verdict :=
  index ← enrolment_index roster rig_id;
  let duplicates := foldl (note_duplicate index) [] gpus in
  let evidence :=
    [("scanned", JInt (Z.of_nat (List.length gpus)));
     ("other_rigs", JInt (Z.of_nat (List.length (remove_dups (List.concat index.*2)))));
     ("duplicates", rigs_json duplicates);
     ("summary", JStr (match duplicates with
                       | [] => "no card enrolled elsewhere"
                       | _ => str_of_Z (Z.of_nat (List.length duplicates)) +:+ " cards enrolled elsewhere"
                       end))] in
  match duplicates with
  | (uuid, r :: _) :: _ =>
      Ok (fail "duplicates" DUPLICATE_UUID (uuid +:+ " is enrolled on rig " +:+ r) seed
            [("duplicates", rigs_json duplicates)] evidence)
  | (_, []) :: _ => Raise IndexError
  | [] => Ok (pass "duplicates" evidence)
  end.
End Duplicates.

(** ** exclusivity.py *)

Module Exclusivity.
Record OwnContainer : Type := MkOwn { id : string; name : string; ojob : string; state : string }.

Definition tabs : string := String tab "".

(** A line of [docker ps] in the format asked for. *)
Definition parse_line (line : string) : option OwnContainer :=
  match split_on tabs (rstrip_set nls line) with
  | a :: b :: rest =>
      if String.eqb (strip a) "" then None
      else Some (MkOwn (strip a) (lstrip_set "/" (strip b))
                   (match rest with c :: _ => strip c | [] => "" end)
                   (match rest with _ :: d :: _ => strip d | _ => "" end))
  | _ => None
  end.
Definition parse_containers (stdout : string) : list OwnContainer := omap parse_line (splitlines stdout).

Definition LIST_COMMAND : string :=
  "docker ps -a --no-trunc --filter label=mt.owner=validator --format '{{.ID}}" +:+ tabs +:+ "{{.Names}}" +:+
  tabs +:+ "{{.Label " +:+ dqs +:+ "mt.job" +:+ dqs +:+ "}}" +:+ tabs +:+ "{{.State}}'".
Definition LIST_TIMEOUT : pyfloat := fz 30.

Definition own_containers {H} (env : Env H) : M H (list OwnContainer * string) :=
  result ← Runner.run env LIST_COMMAND LIST_TIMEOUT;
  mret (if negb (ok result) then ([], strip (sor result.(error) (stderr_tail 200 result)))
        else (parse_containers result.(stdout), "")).

(** The jobs of a rig's record; entries that are not objects are skipped. *)
Fixpoint jobs_from (l : list json) : res (list JobRecord.t) :=
  match l with
  | [] => Ok []
  | JDict job :: l' =>
      r ← JobRecord.from_payload (dsetdefault "job_id" (getd "id" (JStr "") job) job);
      rs ← jobs_from l'; mret (r :: rs)
  | _ :: l' => jobs_from l'
  end.
Definition jobs_of (rig : dict) : res (list JobRecord.t) := l ← get_list "jobs" rig; jobs_from l.

Definition matches_one (container candidate : string) : bool :=
  negb (String.eqb candidate "") && (String.eqb container candidate || startswith candidate container
                                     || startswith container candidate).
(** [known] is a set: its order does not matter. *)
Definition container_matches (container : string) (known : list string) : bool :=
  negb (String.eqb container "") && existsb (matches_one container) known.

Definition pid_of (process : dict) : res Z :=
  try_except (get_int_or "pid" 0 process) [TypeError; ValueError] 0%Z.

(** The state of the loops over the cards and their processes. *)
Record Scan : Type := MkScan { seen_pids : list Z; foreign : list dict; authorised : Z }.

Definition scan_process (job_pids : list Z) (known : list string) (uuid : string) (s : Scan)
    (process : json) : res Scan :=
  match process with
  | JDict p =>
      pid ← pid_of p;
      let container := get_str_or "container" "" p in
      if bool_decide (pid ∈ job_pids) || container_matches container known then
        Ok (MkScan (s.(seen_pids) ++ [pid]) s.(foreign) (s.(authorised) + 1))
      else
        Ok (MkScan (s.(seen_pids) ++ [pid])
              (s.(foreign) ++ [[("uuid", JStr uuid); ("pid", JInt pid); ("comm", getd "comm" (JStr "") p);
                 ("cmdline", JStr (stake 120 (get_str_or "cmdline" "" p)));
                 ("container", JStr (stake 12 container)); ("kind", getd "kind" (JStr "") p);
                 ("memory_mb", getv "memory_mb" p)]]) s.(authorised))
  | _ => Raise AttributeError
  end.

Fixpoint scan_processes (job_pids : list Z) (known : list string) (uuid : string)
    (processes : list json) (s : Scan) : res Scan :=
  match processes with
  | [] => Ok s
  | p :: l => s ← scan_process job_pids known uuid s p; scan_processes job_pids known uuid l s
  end.
Fixpoint scan_cards (job_pids : list Z) (known : list string) (gpus : list dict) (s : Scan) : res Scan :=
  match gpus with
  | [] => Ok s
  | card :: l =>
      processes ← get_list "processes" card;
      s ← scan_processes job_pids known (get_str_or "uuid" "" card) processes s;
      scan_cards job_pids known l s
  end.

Definition job_pids_of (jobs : list JobRecord.t) : list Z :=
  JobRecord.pid <$> List.filter (λ j, (0 <? JobRecord.pid j)%Z) jobs.
Definition known_of (jobs : list JobRecord.t) (ours : list OwnContainer) : list string :=
  (JobRecord.container <$> List.filter (λ j, negb (String.eqb (JobRecord.container j) "")) jobs)
  ++ (id <$> ours) ++ (name <$> ours)
  ++ ((λ c, "mt-" +:+ ojob c) <$> List.filter (λ c, negb (String.eqb (ojob c) "")) ours).
Definition running_of (ours : list OwnContainer) : list string :=
  let up := List.filter (λ c, String.eqb (state c) "" || String.eqb (state c) "running") ours in
  (id <$> up) ++ (name <$> up).

Definition dead_job (seen : list Z) (alive_pids : option (list Z)) (running : list string)
    (job : JobRecord.t) : option dict :=
  let pid := JobRecord.pid job in
  if (0 <? pid)%Z then
    let alive := match alive_pids with Some l => bool_decide (pid ∈ l) | None => false end in
    if negb (bool_decide (pid ∈ seen)) && negb alive then
      Some [("job_id", JStr (JobRecord.job_id job)); ("kind", JStr (JobRecord.kind job));
            ("pid", JInt pid); ("reason", JStr "no process")]
    else None
  else if negb (String.eqb (JobRecord.container job) "")
          && negb (container_matches (JobRecord.container job) running) then
    Some [("job_id", JStr (JobRecord.job_id job)); ("kind", JStr (JobRecord.kind job));
          ("container", JStr (stake 20 (JobRecord.container job)));
          ("reason", JStr "container not running")]
  else None.

Definition count {A} (l : list A) : Z := Z.of_nat (List.length l).

Definition check (gpus : list dict) (jobs : list JobRecord.t) (ours : list OwnContainer)
    (seed : string) (alive_pids : option (list Z)) : res Verdict :=
  s ← scan_cards (job_pids_of jobs) (known_of jobs ours) gpus (MkScan [] [] 0);
  let dead := list_omap _ _ (dead_job s.(seen_pids) alive_pids (running_of ours)) jobs in
  let evidence :=
    [("jobs", JInt (count jobs)); ("own_containers", JInt (count ours));
     ("authorised_processes", JInt s.(authorised));
     ("foreign_processes", JList (JDict <$> take 20 s.(foreign)));
     ("dead_jobs", JList (JDict <$> dead));
     ("summary", JStr (str_of_Z s.(authorised) +:+ " placed, " +:+ str_of_Z (count s.(foreign)) +:+
                       " foreign, " +:+ str_of_Z (count dead) +:+ " dead jobs"))] in
  match s.(foreign) with
  | first :: _ =>
      Ok (fail "exclusivity" UNAUTHORISED_WORK
            ("pid " +:+ py_str (getv "pid" first) +:+ " (" +:+
             py_str (jor (getv "comm" first) (JStr "unknown")) +:+ ") on " +:+
             py_str (jor (getv "uuid" first) (JStr "a card")) +:+ " is not placed by the pool")
            seed [("processes", JList (JDict <$> take 10 s.(foreign)))] evidence)
  | [] => Ok (pass "exclusivity" evidence)
  end.
End Exclusivity.

(** ** host_reality.py *)

Module HostReality.
Definition PAYLOAD : string := "host_reality.py".
Definition NESTED_MARKERS : list string :=
  ["/docker/"; "/lxc/"; "/containerd/"; "/kubepods"; "/podman/"; "/machine.slice/libpod"; "docker-"; "/garden/"].
Definition VIRT_CLEAR : list string := ["none"; "unavailable"; ""].

Definition nested_of (cgroup : string) : list string :=
  List.filter (λ marker, PyStr.contains marker cgroup) NESTED_MARKERS.

Definition nested (detail seed : string) (ev : dict) : option Failure :=
  Some (MkFailure NESTED_CONTAINER detail seed ev).

(** [dmi = host.get("dmi") or {}]; reading a field of anything but an object
    raises. *)
Definition dmi_of (host : dict) : json := jor (getv "dmi" host) (JDict []).
Definition dmi_text (key : string) (dmi : json) : res string :=
  v ← jget key (JStr "") dmi; mret (strip (py_str (jor v (JStr "")))).

(** [not vendor and not product], the second read only when the first is empty. *)
Definition no_identity (dmi : json) : res bool :=
  vendor ← dmi_text "sys_vendor" dmi;
  if negb (String.eqb vendor "") then mret false
  else product ← dmi_text "product_name" dmi; mret (String.eqb product "").

Definition judge (host : dict) (seed : string) : res (option Failure) :=
  if negb (truthy (getv "init_root_reachable" host)) then
    Ok (nested "the init process root is not reachable" seed [])
  else if negb (truthy (getv "init_root_differs" host)) then
    Ok (nested "the init process root is the session root, not a host root" seed [])
  else if negb (truthy (getv "init_os_release_readable" host)) then
    Ok (nested "the host os-release is not readable through the init root" seed [])
  else
  let cgroup := get_str_or "init_cgroup" "" host in
  match nested_of cgroup with
  | marker :: _ =>
      Ok (nested ("the init cgroup shows a nested path (" +:+ marker +:+ ")") seed
            [("init_cgroup", JStr (stake 300 cgroup))])
  | [] =>
  let virt := lower (strip (get_str_or "detect_virt" "" host)) in
  if negb (bool_decide (virt ∈ VIRT_CLEAR)) then
    Ok (nested ("systemd-detect-virt reports " +:+ virt) seed [])
  else
  none ← no_identity (dmi_of host);
  mret (if (none : bool) then nested "no DMI vendor or product identity" seed [] else None)
  end.

Definition evidence_of (parsed : dict) : res dict :=
  let dmi := dmi_of parsed in
  vendor ← jget "sys_vendor" (JStr "") dmi;
  product ← jget "product_name" (JStr "") dmi;
  mret [("summary", JStr (sor (strip (py_str vendor +:+ " " +:+ py_str product)) "host"));
        ("detect_virt", getv "detect_virt" parsed);
        ("init_root_differs", getv "init_root_differs" parsed);
        ("init_comm", getv "init_comm" parsed); ("boot_id", getv "boot_id" parsed);
        ("machine_id", getv "machine_id" parsed); ("kernel", getv "kernel" parsed)].

Section RunCheck.
Context {H : Type} (env : Env H).
Variable python : string.
Variable upload_ : string → string → Z → H → res unit * H.
Variable payload_source : string.

(** The result of the payload. *)
Definition verdict_of (result : CommandResult) (parsed : option dict) (seed : string) : res (Verdict * dict) :=
  match classify result seed, parsed with
  | Some crash, None => Ok (MkVerdict "host reality" (Some crash) [] result.(relapsed_ms), [])
  | None, None =>
      Ok (MkVerdict "host reality"
            (Some (MkFailure AGENT_CRASH "the host reality payload printed no result" seed []))
            [] result.(relapsed_ms), [])
  | _, Some parsed =>
      failure ← judge parsed seed;
      evidence ← evidence_of parsed;
      mret (MkVerdict "host reality" failure evidence result.(relapsed_ms), parsed)
  end.

(** Only the upload raises an [SshError]: a run reports its end as a result. *)
Definition run (session_dir : string) (timeout : pyfloat) (seed : string) : M H (Verdict * dict) := λ st,
  let remote := session_dir +:+ "/" +:+ PAYLOAD in
  match upload upload_ payload_source remote 384 st with
  | (Raise (SshError detail), st) => (Ok (fail "host reality" SSH_TRANSPORT detail seed [] [], []), st)
  | (Raise e, st) => (Raise e, st)
  | (Ok _, st) =>
      (answer ← run_json env (quote python +:+ " -I " +:+ quote remote) timeout;
       lift (verdict_of answer.1 answer.2 seed)) st
  end.
End RunCheck.
End HostReality.

(** ** specs.py *)

Module Specs.
Definition FATAL_NVML : list string :=
  ["DRIVER_NOT_LOADED"; "GPU_IS_LOST"; "GPU_NOT_FOUND"; "MEMORY"; "LIBRARY_NOT_FOUND"; "UNINITIALIZED";
   "LIB_RM_VERSION_MISMATCH"; "RESET_REQUIRED"; "IRQ_ISSUE"; "FUNCTION_NOT_FOUND"; "UNKNOWN"].
Definition CORE_FIELDS : list string := ["handle"; "name"; "uuid"; "memory"].
Definition MIG_ENABLED : Z := 1.
Definition SRIOV : Z := 1.

(** [found[str(card["uuid"])] = card] for the cards that have one. *)
Definition add_card (found : list (string * dict)) (card : json) : list (string * dict) :=
  match card with
  | JDict d => if truthy (getv "uuid" d) then dset (py_str (getv "uuid" d)) d found else found
  | _ => found
  end.
(** [enrolled_cards] of a rig and [seen_cards] of a scrape read alike. *)
Definition enrolled_cards (rig : dict) : res (list (string * dict)) :=
  l ← get_list "gpus" rig; mret (foldl add_card [] l).
Definition seen_cards (data : dict) : res (list (string * dict)) :=
  l ← get_list "gpus" data; mret (foldl add_card [] l).

Definition enrolled_tier (card : dict) : option Tier := tier_of_text (get_str_or "tier" "" card).

(** [name in errors] and [errors[name]] on a value that should be an object. *)
Definition json_in (name : string) (j : json) : res bool :=
  match j with
  | JDict d => Ok (dmem name d)
  | JList l => Ok (existsb (λ x, match x with JStr s => String.eqb s name | _ => false end) l)
  | JStr s => Ok (PyStr.contains name s)
  | _ => Raise TypeError
  end.
Definition json_item (name : string) (j : json) : res json :=
  match j with
  | JDict d => match dget name d with Some v => Ok v | None => Raise KeyError end
  | _ => Raise TypeError
  end.

Fixpoint core_problems (uuid : string) (errors : json) (fields : list string) : res (list string) :=
  match fields with
  | [] => Ok []
  | name :: l =>
      present ← json_in name errors;
      if (present : bool) then
        v ← json_item name errors;
        rest ← core_problems uuid errors l;
        mret ((uuid +:+ ": NVML_ERROR_" +:+ py_str v +:+ " reading " +:+ name) :: rest)
      else core_problems uuid errors l
  end.

(** [x == n] for an int *)
Definition equals_int (j : json) (n : Z) : bool :=
  match j with
  | JInt z => (z =? n)%Z
  | JBool b => (Z.b2z b =? n)%Z
  | JFloat f => feq f (fz n)
  | _ => false
  end.

Definition total_mb (seen : dict) : res pyfloat :=
  try_except (py_float (jor (getv "memory_total_mb" seen) (JInt 0))) [TypeError; ValueError] f0.

Definition tier_problem (uuid : string) (enrolled : dict) (m : Match) : list string :=
  match enrolled_tier enrolled, m.(mtier) with
  | Some declared, Some observed =>
      if decide (observed = declared) then []
      else [uuid +:+ ": enrolled in the " +:+ tier_value declared +:+ " tier, reads as " +:+ tier_value observed]
  | _, _ => []
  end.

Definition mig_problem (uuid : string) (seen : dict) : res (list string) :=
  match getv "mig_mode" seen with
  | JDict mig =>
      current ← py_int (jor (getv "current" mig) (JInt 0));
      mret (if (current =? MIG_ENABLED)%Z then [uuid +:+ ": MIG mode is enabled"] else [])
  | _ => Ok []
  end.

(** [virtualization not in (None, "", "NONE")] *)
Definition clear_virtualization (j : json) : bool :=
  match j with JNull => true | JStr s => String.eqb s "" || String.eqb s "NONE" | _ => false end.

Definition card_problems (uuid : string) (enrolled seen : dict) : res (list string) :=
  core ← core_problems uuid (jor (getv "errors" seen) (JDict [])) CORE_FIELDS;
  match core with
  | _ :: _ => mret core
  | [] =>
  let declared := normalize (get_str_or "model" "" enrolled) in
  let observed := normalize (get_str_or "name" "" seen) in
  let model := if String.eqb declared observed then []
               else [uuid +:+ ": enrolled as " +:+ sor declared "unknown" +:+ ", reads " +:+ sor observed "unnamed"] in
  mb ← total_mb seen;
  let memory := match match_card observed mb with
                | None => [uuid +:+ ": " +:+ mismatch_reason observed mb]
                | Some m => tier_problem uuid enrolled m
                end in
  mig ← mig_problem uuid seen;
  let virtualization := getv "virtualization" seen in
  mret (model ++ memory ++ mig
    ++ (if clear_virtualization virtualization then []
        else [uuid +:+ ": virtualization mode " +:+ py_str virtualization])
    ++ (if equals_int (getv "host_vgpu_mode" seen) SRIOV then [uuid +:+ ": SR-IOV host vGPU mode"] else []))
  end.

Fixpoint all_problems (uuids : list string) (enrolled seen : list (string * dict)) : res (list string) :=
  match uuids with
  | [] => Ok []
  | uuid :: l =>
      here ← card_problems uuid (default [] (dget uuid enrolled)) (default [] (dget uuid seen));
      rest ← all_problems l enrolled seen; mret (here ++ rest)
  end.

Definition card_evidence (uc : string * dict) : json :=
  let '(uuid, card) := uc in
  JDict [("uuid", JStr uuid); ("model", getv "name" card); ("memory_mb", getv "memory_total_mb" card);
    ("mig", match getv "mig_mode" card with JDict m => getv "current" m | _ => JNull end);
    ("virtualization", getv "virtualization" card); ("errors", jor (getv "errors" card) (JDict []))].

Definition difference (a b : list (string * dict)) : list string :=
  sorted (List.filter (λ u, negb (dmem u b)) (dkeys a)).
Definition common (a b : list (string * dict)) : list string :=
  sorted (List.filter (λ u, dmem u b) (dkeys a)).

(** The problems of a scrape without a fatal error. *)
Definition problems_of (enrolled seen : list (string * dict)) : res (list string) :=
  let missing := difference enrolled seen in
  cards ← all_problems (common enrolled seen) enrolled seen;
  mret ((match missing with [] => [] | _ => ["enrolled cards absent: " +:+ join ", " missing] end) ++ cards).

Definition nvml_errors (nvml : json) : res (list string) :=
  v ← jget "errors" JNull nvml; l ← py_iter (jor v (JList [])); mret (map py_str l).

Definition check (data rig : dict) (seed : string) : res Verdict :=
  let nvml := jor (getv "nvml" data) (JDict []) in
  errors ← nvml_errors nvml;
  enrolled ← enrolled_cards rig;
  seen ← seen_cards data;
  driver ← jget "driver" (JStr "") nvml;
  cuda ← jget "cuda" (JStr "") nvml;
  let evidence := [("enrolled", JInt (Exclusivity.count enrolled)); ("seen", JInt (Exclusivity.count seen));
    ("nvml_errors", JList (JStr <$> errors)); ("driver", driver); ("cuda", cuda);
    ("cards", JList (card_evidence <$> seen))] in
  match List.filter (λ e, bool_decide (e ∈ FATAL_NVML)) errors with
  | fatal :: _ =>
      Ok (fail "specs" SPEC_MISMATCH ("NVML_ERROR_" +:+ fatal) seed
            [("errors", JList (JStr <$> errors))] evidence)
  | [] =>
  problems ← problems_of enrolled seen;
  let extra := difference seen enrolled in
  let evidence := evidence ++ [("unenrolled", JList (JStr <$> extra))] in
  match problems with
  | first :: _ =>
      Ok (fail "specs" SPEC_MISMATCH (stake 300 first) seed
            [("problems", JList (JStr <$> take 20 problems))]
            (evidence ++ [("problems", JList (JStr <$> problems))]))
  | [] =>
      Ok (pass "specs" (evidence ++ [("summary", JStr (str_of_Z (Exclusivity.count enrolled) +:+
            " cards as enrolled" +:+ (match extra with [] => "" | _ =>
              ", " +:+ str_of_Z (Exclusivity.count extra) +:+ " unenrolled" end)))]))
  end end.
End Specs.

(** ** What the verdicts mean *)

Module ExclusivityFacts.
Import Exclusivity.

(** A name by which a container of the pool is known: the container of a job
    record, or the id, the name or the job of a container of the validator. *)
Definition our_name (jobs : list JobRecord.t) (ours : list OwnContainer) (n : string) : Prop :=
  (∃ j, j ∈ jobs ∧ JobRecord.container j = n) ∨
  (∃ c, c ∈ ours ∧ (id c = n ∨ name c = n ∨ ojob c ≠ "" ∧ n = "mt-" +:+ ojob c)).

(** A process the pool placed: its pid is the pid of a job record, or its
    container and such a name are one a prefix of the other. *)
Definition placed (jobs : list JobRecord.t) (ours : list OwnContainer) (p : dict) : Prop :=
  ∃ pid, pid_of p = Ok pid ∧
    ((0 < pid ∧ ∃ j, j ∈ jobs ∧ JobRecord.pid j = pid)%Z ∨
     (∃ n, our_name jobs ours n ∧ n ≠ "" ∧ get_str_or "container" "" p ≠ "" ∧
        (startswith n (get_str_or "container" "" p) = true ∨
         startswith (get_str_or "container" "" p) n = true))).

Definition all_placed (jobs : list JobRecord.t) (ours : list OwnContainer) (card : dict) : Prop :=
  ∀ l p, get_list "processes" card = Ok l → JDict p ∈ l → placed jobs ours p.

Lemma elem_job_pids jobs pid :
  pid ∈ job_pids_of jobs ↔ (0 < pid ∧ ∃ j, j ∈ jobs ∧ JobRecord.pid j = pid)%Z.
Proof.
  unfold job_pids_of. rewrite list_elem_of_fmap. split.
  - intros (j & -> & [Hj H%Z.ltb_lt]%elem_of_filter_b). split; [done|]. by exists j.
  - intros (H & j & Hj & <-). exists j. split; [done|]. apply elem_of_filter_b. by rewrite Z.ltb_lt.
Qed.

Lemma elem_known jobs ours n : n ≠ "" → n ∈ known_of jobs ours ↔ our_name jobs ours n.
Proof.
  intros Hn. unfold known_of, our_name. rewrite !elem_of_app, !list_elem_of_fmap. split.
  - intros [(j & -> & [Hj _]%elem_of_filter_b)|[(c & -> & Hc)|[(c & -> & Hc)|(c & -> & [Hc Hj]%elem_of_filter_b)]]].
    + left. by exists j.
    + right. exists c. tauto.
    + right. exists c. tauto.
    + right. exists c. apply negb_true_iff, String.eqb_neq in Hj. tauto.
  - intros [(j & Hj & <-)|(c & Hc & [<-|[<-|[Hj ->]]])].
    + left. exists j. split; [done|]. apply elem_of_filter_b. split; [done|]. by apply negb_true_iff, String.eqb_neq.
    + right. left. by exists c.
    + right. right. left. by exists c.
    + right. right. right. exists c. split; [done|]. apply elem_of_filter_b. split; [done|].
      by apply negb_true_iff, String.eqb_neq.
Qed.

Lemma container_matches_spec container jobs ours :
  container_matches container (known_of jobs ours) = true ↔
  ∃ n, our_name jobs ours n ∧ n ≠ "" ∧ container ≠ "" ∧
    (startswith n container = true ∨ startswith container n = true).
Proof.
  unfold container_matches, matches_one. rewrite andb_true_iff, negb_true_iff, String.eqb_neq, existsb_exists.
  split.
  - intros [Hc (n & Hin & H)]. apply andb_true_iff in H as [Hn%negb_true_iff%String.eqb_neq H].
    exists n. split; [by apply elem_known, list_elem_of_In|]. split; [done|]. split; [done|].
    rewrite !orb_true_iff in H. destruct H as [[->%String.eqb_eq|H]|H]; [left; apply startswith_refl|tauto|tauto].
  - intros (n & Hin & Hn & Hc & H). split; [done|]. exists n.
    split; [by apply list_elem_of_In, elem_known|]. rewrite andb_true_iff, !orb_true_iff.
    apply String.eqb_neq in Hn. rewrite Hn. tauto.
Qed.

Lemma placed_found jobs ours p pid : pid_of p = Ok pid →
  placed jobs ours p ↔ bool_decide (pid ∈ job_pids_of jobs)
    || container_matches (get_str_or "container" "" p) (known_of jobs ours) = true.
Proof.
  intros Hp. rewrite orb_true_iff, bool_decide_eq_true, elem_job_pids, container_matches_spec. split.
  - intros (pid' & Hp' & H). rewrite Hp in Hp'. by injection Hp' as <-.
  - intros H. by exists pid.
Qed.

Lemma scan_process_spec jobs ours uuid s j s' :
  scan_process (job_pids_of jobs) (known_of jobs ours) uuid s j = Ok s' →
  ∃ p, j = JDict p ∧ (foreign s' = [] ↔ foreign s = [] ∧ placed jobs ours p).
Proof.
  unfold scan_process. destruct j as [| | | | | |p]; try done. intros E.
  apply res_bind_ok in E as (pid & Hp & E). exists p. split; [done|].
  rewrite (placed_found _ _ _ _ Hp).
  destruct (_ || _); injection E as <-; cbn [foreign]; split.
  - by intros ->.
  - by intros [-> _].
  - by intros [_ ?]%app_eq_nil.
  - by intros [_ ?].
Qed.

Lemma scan_processes_spec jobs ours uuid l : ∀ s s',
  scan_processes (job_pids_of jobs) (known_of jobs ours) uuid l s = Ok s' →
  (foreign s' = [] ↔ foreign s = [] ∧ ∀ p, JDict p ∈ l → placed jobs ours p).
Proof.
  induction l as [|j l IH]; intros s s' E; cbn [scan_processes] in E.
  - injection E as <-. split; [|tauto]. intros ->. split; [done|]. by intros ? ?%not_elem_of_nil.
  - apply res_bind_ok in E as (s1 & Hs & E). apply IH in E.
    apply scan_process_spec in Hs as (p & -> & Hs). rewrite E, Hs. split.
    + intros [[? ?] Hl]. split; [done|]. intros q [[= ->]|Hq]%elem_of_cons; auto.
    + intros [? Hl]. split; [split; [done|]|]; intros; apply Hl; set_solver.
Qed.

Lemma scan_cards_spec jobs ours gpus : ∀ s s',
  scan_cards (job_pids_of jobs) (known_of jobs ours) gpus s = Ok s' →
  (foreign s' = [] ↔ foreign s = [] ∧ ∀ card, card ∈ gpus → all_placed jobs ours card).
Proof.
  induction gpus as [|card gpus IH]; intros s s' E; cbn [scan_cards] in E.
  - injection E as <-. split; [|tauto]. intros ->. split; [done|]. by intros ? ?%not_elem_of_nil.
  - apply res_bind_ok in E as (l & Hl & E). apply res_bind_ok in E as (s1 & Hs & E).
    apply IH in E. apply scan_processes_spec in Hs. rewrite E, Hs. split.
    + intros [[? Hp] Hc]. split; [done|]. intros c [->|Hin]%elem_of_cons; [|by apply Hc].
      intros l' p Hl' Hin. rewrite Hl in Hl'. injection Hl' as <-. by apply Hp.
    + intros [? Hc]. split; [split; [done|]|].
      * intros p Hp. apply (Hc card) with l; [apply list_elem_of_here|done|done].
      * intros c Hin. apply Hc. by apply list_elem_of_further.
Qed.

(** C38. A machine is called exclusive exactly when every process on every one of its
    cards was placed by the pool: its pid is the pid of a recorded job, or its
    container is one of the validator's. *)
Theorem exclusivity_exact gpus jobs ours seed alive v :
  Exclusivity.check gpus jobs ours seed alive = Ok v →
  (failure v = None ↔ ∀ card, card ∈ gpus → all_placed jobs ours card).
Proof.
  unfold Exclusivity.check. intros E. apply res_bind_ok in E as (s & Hs & E).
  apply scan_cards_spec in Hs. cbn [foreign] in Hs.
  transitivity (foreign s = []); [|rewrite Hs; tauto].
  destruct (foreign s); injection E as <-; cbn; split; done.
Qed.

Definition sample_card : dict :=
  [("uuid", JStr "GPU-1"); ("processes", JList [JDict [("pid", JInt 41)]; JDict [("container", JStr "abc")]])].
Definition sample_record : JobRecord.t := JobRecord.Mk "j" "inference" "" 41 "GPU-1" "abc123" "".
Lemma exclusivity_exact_witness :
  ∃ v, Exclusivity.check [sample_card] [sample_record] [] "s" None = Ok v ∧
    failure v = None ∧ all_placed [sample_record] [] sample_card.
Proof.
  destruct (Exclusivity.check [sample_card] [sample_record] [] "s" None) as [v|] eqn:E;
    [|vm_compute in E; discriminate].
  assert (failure v = None) as Hv by (revert E; vm_compute; by intros [= <-]).
  exists v. split; [reflexivity|]. split; [exact Hv|].
  apply (exclusivity_exact [sample_card] [sample_record] [] "s" None v E); [exact Hv|].
  apply list_elem_of_here.
Defined.
End ExclusivityFacts.

Module DuplicatesFacts.
Import Duplicates.

(** A rig other than the one checked that still counts and lists the card. *)
Definition enrolled_on (roster : list dict) (rig_id uuid : string) : Prop :=
  ∃ rig cards card, rig ∈ roster ∧ counted rig_id rig = true ∧ get_list "gpus" rig = Ok cards ∧
    card ∈ cards ∧ card_uuid card = uuid ∧ uuid ≠ "".

Lemma add_cards_mem rig_id cards index uuid :
  dmem uuid (foldl (add_card rig_id) index cards) = true ↔
  dmem uuid index = true ∨ ∃ card, card ∈ cards ∧ card_uuid card = uuid ∧ uuid ≠ "".
Proof.
  revert index. induction cards as [|c cards IH]; intros index; cbn [foldl].
  - split; [by left|]. intros [?|(c & []%not_elem_of_nil & _)]. done.
  - rewrite IH. unfold add_card. destruct (String.eqb_spec (card_uuid c) "") as [E|E].
    + split; [intros [?|(d & ? & ?)]; [by left|]; right; exists d; set_solver|].
      intros [?|(d & [->|Hd]%elem_of_cons & Hu & Hne)]; [by left|congruence|]. right. by exists d.
    + unfold dmem. rewrite dget_dset_dec. case_decide as Hu.
      * split; [|by left]. intros _. right. exists c. subst. split; [set_solver|done].
      * split; [intros [?|(d & ? & ?)]; [by left|]; right; exists d; set_solver|].
        intros [?|(d & [->|Hd]%elem_of_cons & Hu' & Hne)]; [by left|congruence|]. right. by exists d.
Qed.

Lemma index_go_mem roster rig_id uuid : ∀ index index',
  enrolment_index_go roster rig_id index = Ok index' →
  (dmem uuid index' = true ↔ dmem uuid index = true ∨ enrolled_on roster rig_id uuid).
Proof.
  induction roster as [|rig roster IH]; intros index index' E; cbn [enrolment_index_go] in E.
  - injection E as <-. split; [by left|]. intros [?|(r & ? & ? & []%not_elem_of_nil & _)]. done.
  - destruct (counted rig_id rig) eqn:Hc.
    + apply res_bind_ok in E as (cards & Hg & E). apply IH in E. rewrite E, add_cards_mem. split.
      * intros [[?|(c & Hc1 & Hu & Hne)]|(r & cs & c & Hr & Hrest)]; [by left|right..].
        -- exists rig, cards, c. split; [set_solver|done].
        -- exists r, cs, c. split; [set_solver|done].
      * intros [?|(r & cs & c & [->|Hr]%elem_of_cons & Hrest)]; [by left; left| |].
        -- destruct Hrest as (_ & Hg' & Hin & Hu & Hne). rewrite Hg in Hg'. injection Hg' as <-.
           left. right. by exists c.
        -- right. by exists r, cs, c.
    + apply IH in E. rewrite E. split.
      * intros [?|(r & cs & c & Hr & Hrest)]; [by left|]. right. exists r, cs, c. split; [set_solver|done].
      * intros [?|(r & cs & c & [->|Hr]%elem_of_cons & Hrest)]; [by left| |].
        -- destruct Hrest as (Hc' & _). congruence.
        -- right. by exists r, cs, c.
Qed.

Lemma note_duplicates_nil index gpus d :
  foldl (note_duplicate index) d gpus = [] ↔
  d = [] ∧ ∀ card, card ∈ gpus → get_str_or "uuid" "" card = "" ∨ dget (get_str_or "uuid" "" card) index = None.
Proof.
  revert d. induction gpus as [|c gpus IH]; intros d; cbn [foldl].
  - split; [|tauto]. intros ->. split; [done|]. by intros ? ?%not_elem_of_nil.
  - rewrite IH. unfold note_duplicate.
    destruct (dget (get_str_or "uuid" "" c) index) as [rigs|] eqn:E;
      [destruct (String.eqb_spec (get_str_or "uuid" "" c) "") as [Eu|Eu]|].
    + split; intros [-> H]; (split; [done|]); intros card; [intros [->|?]%elem_of_cons; auto|set_solver].
    + split; [intros [Hd _]; by destruct d as [|[k v] d]; simpl in Hd; [|case_decide]|].
      intros [-> H]. destruct (H c) as [?|?]; [apply list_elem_of_here|congruence..].
    + split; intros [-> H]; (split; [done|]); intros card; [intros [->|?]%elem_of_cons; auto|set_solver].
Qed.

(** A machine passes exactly when none of the cards it shows is enrolled on
    another rig of the roster that has not been removed. *)
Lemma duplicates_exact gpus rig_id roster seed v :
  Duplicates.check gpus rig_id roster seed = Ok v →
  (failure v = None ↔ ∀ card, card ∈ gpus → ¬ enrolled_on roster rig_id (get_str_or "uuid" "" card)).
Proof.
  unfold Duplicates.check. intros E. apply res_bind_ok in E as (index & Hi & E).
  transitivity (foldl (note_duplicate index) [] gpus = []).
  { destruct (foldl (note_duplicate index) [] gpus) as [|[uuid [|r rs]] l]; [|done|];
      injection E as <-; cbn; split; done. }
  rewrite note_duplicates_nil. unfold enrolment_index in Hi.
  assert (∀ u, enrolled_on roster rig_id u ↔ dmem u index = true) as Hm.
  { intros u. rewrite (index_go_mem _ _ u _ _ Hi). unfold dmem at 1. simpl. naive_solver. }
  split.
  - intros [_ H] card Hc (r & cs & c & Hr). destruct (H card Hc) as [He|He].
    + by destruct Hr as (_ & _ & _ & _ & _ & Hne).
    + assert (enrolled_on roster rig_id (get_str_or "uuid" "" card)) as Ho by by exists r, cs, c.
      apply Hm in Ho. unfold dmem in Ho. by rewrite He in Ho.
  - intros H. split; [done|]. intros card Hc. right. specialize (H card Hc). rewrite Hm in H.
    unfold dmem in H. by destruct (dget _ index).
Qed.

Definition sample_roster : list dict :=
  [[("id", JStr "rig-1"); ("gpus", JList [JDict [("uuid", JStr "GPU-1")]])];
   [("id", JStr "rig-2"); ("state", JStr "removed"); ("gpus", JList [JDict [("uuid", JStr "GPU-1")]])]].
Lemma duplicates_exact_witness :
  ∃ v, Duplicates.check [[("uuid", JStr "GPU-1")]] "rig-1" sample_roster "s" = Ok v ∧
    ¬ enrolled_on sample_roster "rig-1" "GPU-1".
Proof.
  destruct (Duplicates.check [[("uuid", JStr "GPU-1")]] "rig-1" sample_roster "s") as [v|] eqn:E;
    [|vm_compute in E; discriminate].
  assert (failure v = None) as Hv by (revert E; vm_compute; by intros [= <-]).
  exists v. split; [reflexivity|].
  apply (proj1 (duplicates_exact [[("uuid", JStr "GPU-1")]] "rig-1" sample_roster "s" v E) Hv
           [("uuid", JStr "GPU-1")]).
  apply list_elem_of_here.
Defined.
End DuplicatesFacts.

Module SpecsFacts.
Import Specs.

Lemma elem_of_sorted u l : u ∈ PyStr.sorted l ↔ u ∈ l.
Proof. unfold PyStr.sorted. by rewrite merge_sort_Permutation. Qed.

Lemma sorted_nil l : PyStr.sorted l = [] ↔ l = [].
Proof.
  unfold PyStr.sorted. split; [|by intros ->]. intros E.
  pose proof (merge_sort_Permutation str_le l) as Hp. rewrite E in Hp. by apply Permutation_nil in Hp.
Qed.

Lemma difference_nil a b : difference a b = [] ↔ ∀ u, u ∈ dkeys a → dmem u b = true.
Proof.
  unfold difference. rewrite sorted_nil. split.
  - intros E u Hu. destruct (dmem u b) eqn:Em; [done|].
    assert (u ∈ List.filter (λ u, negb (dmem u b)) (dkeys a)) as H by (apply elem_of_filter_b; by rewrite Em).
    rewrite E in H. by apply not_elem_of_nil in H.
  - intros H. apply elem_of_nil_inv. intros u [Hu Hn]%elem_of_filter_b. by rewrite H in Hn.
Qed.

(** A card reads as it was enrolled: NVML answered for its core fields, its
    model and the tier of its memory size are those of the record, and it is
    neither split nor virtual. *)
Definition as_enrolled (enrolled seen : list (string * dict)) (uuid : string) : Prop :=
  ∃ e s mb m, dget uuid enrolled = Some e ∧ dget uuid seen = Some s ∧
    (∀ f, f ∈ CORE_FIELDS → json_in f (jor (getv "errors" s) (JDict [])) = Ok false) ∧
    normalize (get_str_or "model" "" e) = normalize (get_str_or "name" "" s) ∧
    total_mb s = Ok mb ∧ match_card (normalize (get_str_or "name" "" s)) mb = Some m ∧
    (∀ t t', enrolled_tier e = Some t → m.(mtier) = Some t' → t = t') ∧
    (∀ mig c, getv "mig_mode" s = JDict mig → py_int (jor (getv "current" mig) (JInt 0)) = Ok c → c ≠ MIG_ENABLED) ∧
    (getv "virtualization" s ∈ [JNull; JStr ""; JStr "NONE"]) ∧
    equals_int (getv "host_vgpu_mode" s) SRIOV = false.

Lemma core_problems_nil uuid errors fields l :
  core_problems uuid errors fields = Ok l →
  (l = [] ↔ ∀ f, f ∈ fields → json_in f errors = Ok false).
Proof.
  revert l. induction fields as [|f fields IH]; intros l E; cbn [core_problems] in E.
  - injection E as <-. split; [|done]. by intros _ f ?%not_elem_of_nil.
  - apply res_bind_ok in E as (present & Hp & E). destruct present.
    + apply res_bind_ok in E as (w & _ & E). apply res_bind_ok in E as (rest & _ & E). injection E as <-.
      split; [done|]. intros H. specialize (H f (list_elem_of_here _ _)). congruence.
    + rewrite (IH _ E). split; intros H f'; [intros [->|Hf]%elem_of_cons; auto|].
      intros Hf. apply H. by apply list_elem_of_further.
Qed.

Lemma tier_problem_nil uuid e m :
  tier_problem uuid e m = [] ↔ ∀ t t', enrolled_tier e = Some t → m.(mtier) = Some t' → t = t'.
Proof.
  unfold tier_problem. destruct (enrolled_tier e) as [t|], (mtier m) as [t'|]; try by split.
  case_decide as Hd; split; [|done|done|].
  - by intros _ ? ? [= <-] [= <-].
  - intros H. exfalso. apply Hd. symmetry. by apply H.
Qed.

Lemma mig_problem_nil uuid s l :
  mig_problem uuid s = Ok l →
  (l = [] ↔ ∀ mig c, getv "mig_mode" s = JDict mig →
              py_int (jor (getv "current" mig) (JInt 0)) = Ok c → c ≠ MIG_ENABLED).
Proof.
  unfold mig_problem. destruct (getv "mig_mode" s) as [| | | | | |mig]; intros E; try by injection E as <-.
  apply res_bind_ok in E as (c & Hc & E). injection E as <-.
  destruct (Z.eqb_spec c MIG_ENABLED) as [He|He]; split; try done.
  - intros H. by destruct (H mig c).
  - intros _ mig' c' [= <-] Hc'. congruence.
Qed.

Lemma clear_virtualization_spec j : clear_virtualization j = true ↔ j ∈ [JNull; JStr ""; JStr "NONE"].
Proof.
  rewrite !elem_of_cons, elem_of_nil. unfold clear_virtualization.
  destruct j; try by (split; [|intros [?|[?|[?|?]]]]).
  - split; [by left|done].
  - rewrite orb_true_iff, !String.eqb_eq. naive_solver.
Qed.

(** The problems of a card that is enrolled and seen. *)
Lemma card_problems_nil enrolled seen uuid e s l :
  dget uuid enrolled = Some e → dget uuid seen = Some s → card_problems uuid e s = Ok l →
  (l = [] ↔ as_enrolled enrolled seen uuid).
Proof.
  intros He Hs E. unfold card_problems in E. apply res_bind_ok in E as (core & Hc & E).
  pose proof (core_problems_nil _ _ _ _ Hc) as Hcore. destruct core as [|w core].
  2:{ injection E as <-. split; [done|]. intros (e' & s' & mb & m & _ & Hs' & H & _).
      rewrite Hs in Hs'. injection Hs' as <-. by apply Hcore. }
  apply res_bind_ok in E as (mb & Hmb & E). apply res_bind_ok in E as (mig & Hmig & E). injection E as <-.
  pose proof (mig_problem_nil _ _ _ Hmig) as Hm. split.
  - intros [H1 [H2 [H3 [H4 H5]%app_eq_nil]%app_eq_nil]%app_eq_nil]%app_eq_nil.
    destruct (match_card _ mb) as [m|] eqn:Em; [|done]. exists e, s, mb, m.
    split_and!; try done; [by apply Hcore|..].
    + by destruct (String.eqb_spec (normalize (get_str_or "model" "" e)) (normalize (get_str_or "name" "" s))).
    + by apply (tier_problem_nil uuid e m).
    + by apply Hm.
    + apply clear_virtualization_spec. by destruct (clear_virtualization _).
    + by destruct (equals_int _ _).
  - intros (e' & s' & mb' & m & He' & Hs' & _ & Hn & Hmb' & Em & Ht & Hg & Hv & Hq).
    rewrite He in He'. injection He' as <-. rewrite Hs in Hs'. injection Hs' as <-.
    rewrite Hmb in Hmb'. injection Hmb' as <-. rewrite Hn, String.eqb_refl, Em, Hq.
    apply clear_virtualization_spec in Hv. rewrite Hv.
    rewrite (proj2 (tier_problem_nil uuid e m) Ht). by rewrite (proj2 Hm Hg).
Qed.

Lemma all_problems_nil uuids enrolled seen l :
  (∀ u, u ∈ uuids → is_Some (dget u enrolled) ∧ is_Some (dget u seen)) →
  all_problems uuids enrolled seen = Ok l →
  (l = [] ↔ ∀ u, u ∈ uuids → as_enrolled enrolled seen u).
Proof.
  revert l. induction uuids as [|u uuids IH]; intros l Hd E; cbn [all_problems] in E.
  - injection E as <-. split; [|done]. by intros _ u ?%not_elem_of_nil.
  - destruct (Hd u (list_elem_of_here _ _)) as [[e He] [s Hs]]. rewrite He, Hs in E. cbn [default] in E.
    apply res_bind_ok in E as (here & Hh & E). apply res_bind_ok in E as (rest & Hr & E).
    injection E as <-. apply (card_problems_nil _ _ _ _ _ _ He Hs) in Hh.
    apply IH in Hr; [|intros w Hw; apply Hd; by apply list_elem_of_further]. split.
    + intros [Hn ->]%app_eq_nil w [->|Hw]%elem_of_cons; [by apply Hh|by apply Hr].
    + intros H. rewrite (proj2 Hh) by (apply H, list_elem_of_here).
      apply Hr. intros w Hw. apply H. by apply list_elem_of_further.
Qed.

(** A scrape passes exactly when no driver error in it is fatal and every
    enrolled card is there and reads as enrolled; cards that were not enrolled
    change nothing. *)
Theorem specs_exact data rig seed v errors enrolled seen :
  nvml_errors (jor (getv "nvml" data) (JDict [])) = Ok errors →
  enrolled_cards rig = Ok enrolled → seen_cards data = Ok seen →
  Specs.check data rig seed = Ok v →
  (failure v = None ↔ (∀ e, e ∈ errors → e ∉ FATAL_NVML) ∧
                      (∀ u, u ∈ dkeys enrolled → as_enrolled enrolled seen u)).
Proof.
  intros He Hen Hs. unfold Specs.check. rewrite He, Hen, Hs. cbn [mbind res_bind].
  intros E. apply res_bind_ok in E as (driver & _ & E). apply res_bind_ok in E as (cuda & _ & E).
  destruct (List.filter (λ e, bool_decide (e ∈ FATAL_NVML)) errors) as [|fatal l] eqn:Ef.
  2:{ injection E as <-. split; [done|]. intros [H _].
      assert (fatal ∈ List.filter (λ e, bool_decide (e ∈ FATAL_NVML)) errors) as Hin
        by (rewrite Ef; apply list_elem_of_here).
      apply elem_of_filter_b in Hin as [Hin Hb%bool_decide_eq_true]. by destruct (H fatal). }
  apply res_bind_ok in E as (problems & Hp & E).
  assert (∀ e, e ∈ errors → e ∉ FATAL_NVML) as Hnf.
  { intros e Hin Hfatal. assert (e ∈ List.filter (λ e, bool_decide (e ∈ FATAL_NVML)) errors) as H
      by (apply elem_of_filter_b; by rewrite bool_decide_eq_true). rewrite Ef in H. by apply not_elem_of_nil in H. }
  transitivity (problems = []); [by destruct problems; injection E as <-; cbn|].
  transitivity (∀ u, u ∈ dkeys enrolled → as_enrolled enrolled seen u); [|tauto].
  unfold problems_of in Hp. apply res_bind_ok in Hp as (cards & Hc & Hp). injection Hp as <-.
  apply all_problems_nil in Hc; [split|].
  - intros [Hm Hcn]%app_eq_nil u Hu. apply Hc; [done|]. apply elem_of_sorted, elem_of_filter_b.
    split; [done|]. apply (proj1 (difference_nil enrolled seen)); [|done]. by destruct (difference enrolled seen).
  - intros H. assert (difference enrolled seen = []) as ->.
    { apply difference_nil. intros u Hu. destruct (H u Hu) as (? & ? & ? & ? & _ & Hs' & _).
      unfold dmem. by rewrite Hs'. }
    apply Hc. intros u [Hu _]%elem_of_sorted%elem_of_filter_b. by apply H.
  - intros u [Hu Hm]%elem_of_sorted%elem_of_filter_b. rewrite <- dmem_true in Hu. revert Hu Hm.
    unfold dmem. by destruct (dget u enrolled), (dget u seen).
Qed.

Definition sample_seen : dict :=
  [("uuid", JStr "GPU-1"); ("name", JStr "NVIDIA GeForce RTX 4090"); ("memory_total_mb", JInt 24564)].
Definition sample_data : dict := [("gpus", JList [JDict sample_seen])].
Definition sample_rig : dict :=
  [("gpus", JList [JDict [("uuid", JStr "GPU-1"); ("model", JStr "NVIDIA GeForce RTX 4090")]])].

Lemma specs_exact_witness :
  ∃ v enrolled seen, Specs.check sample_data sample_rig "s" = Ok v ∧ failure v = None ∧
    as_enrolled enrolled seen "GPU-1".
Proof.
  destruct (Specs.check sample_data sample_rig "s") as [v|] eqn:E; [|vm_compute in E; discriminate].
  assert (failure v = None) as Hv by (revert E; vm_compute; by intros [= <-]).
  destruct (proj1 (specs_exact sample_data sample_rig "s" v [] _ _ eq_refl eq_refl eq_refl E) Hv) as [_ H].
  eexists v, _, _. split; [reflexivity|]. split; [exact Hv|]. apply H. apply list_elem_of_here.
Defined.
End SpecsFacts.
