(* ===== verification/Cleanup.v ===== *)
(** * Sweeps of a machine (validator/storage/sweep.py, validator/recovery/device_cgroup.py)

    What the validator cleans up on a machine besides the jobs it places: the
    teardowns that failed before, the containers of jobs it no longer knows,
    stale volumes and dangling images; and the repair of containers whose cards
    disappeared from their device cgroup. *)

From Stdlib Require Import Ascii String QArith.
From S2P Require Import Prelude.
From S2P Require Import PyStr.
From S2P Require Import PyFloat.
From S2P Require Import PyJson.
From S2P Require Import Shell.
From S2P Require Import Runner.
From S2P Require Import Volumes.
From S2P Require Import Power.
From S2P Require Import GpuWedge.
From S2P Require Import JobSpec.
From S2P Require Import Containers.
From S2P Require Import Creation.
From S2P Require Checks.
Local Open Scope string_scope.
Local Open Scope list_scope.

Abbreviation OwnContainer := Checks.Exclusivity.OwnContainer.
Abbreviation cid := Checks.Exclusivity.id.
Abbreviation cname := Checks.Exclusivity.name.
Abbreviation cjob := Checks.Exclusivity.ojob.
Abbreviation cstate := Checks.Exclusivity.state.

Definition LIST_TIMEOUT : pyfloat := fz 60.
Definition LIST_OURS : string := Checks.Exclusivity.LIST_COMMAND.

Record SweepReport : Type := MkSweepReport {
  stale_volumes : list string; orphaned : list string; dangling : Z;
  retried_teardowns : list string; failed_teardowns : list string;
  power_raised : list string; errors : list string }.

Definition report_payload (r : SweepReport) : dict :=
  [("stale_volumes", jstrs r.(stale_volumes)); ("orphaned_containers", jstrs r.(orphaned));
   ("dangling_images", JInt r.(dangling)); ("retried_teardowns", jstrs r.(retried_teardowns));
   ("failed_teardowns", jstrs r.(failed_teardowns)); ("power_raised", jstrs r.(power_raised));
   ("errors", jstrs r.(errors))].

(** [container.name or container.id] *)
Definition target (c : OwnContainer) : string := sor (cname c) (cid c).

(** The volumes torn down with an orphan: the one named after its job, when that
    is an accepted name. *)
Definition orphan_volumes (c : OwnContainer) : list string :=
  if negb (String.eqb (cjob c) "") && valid (PREFIX +:+ cjob c) then [PREFIX +:+ cjob c] else [].

Definition spared (running_jobs : list string) (c : OwnContainer) : bool :=
  negb (String.eqb (cjob c) "") && bool_decide (cjob c ∈ running_jobs).

(** ** The teardowns to try again *)

Definition retry_entry (rig_id job_id : string) (names : list string) (now : pyfloat)
    (name : string) (pending : list (string * Retry)) : Retry :=
  MkRetry rig_id job_id names
    (match dget name pending with Some e => e.(attempts) | None => 0 end + 1)%Z now.

Definition for_rig (rig_id : string) (pending : list (string * Retry)) : list (string * Retry) :=
  List.filter (λ e : string * Retry, String.eqb e.2.(trig_id) rig_id) pending.

Section Sweep.
Context {H : Type} (env : Env H).
Variables (has_records has_store : bool).

(** [TeardownRetries.add] and [forget]; the file mirrors [pending]. *)
Definition add_retry (rig_id name job_id : string) (names : list string) : M H unit :=
  moment ← time env;
  st ← get;
  set_retries (dset name (retry_entry rig_id job_id names moment name st.(retries)) st.(retries)).
Definition forget_retry (name : string) : M H unit :=
  st ← get; set_retries (dpop name st.(retries)).

Definition own_containers : M H (list OwnContainer * string) :=
  result ← run env LIST_OURS LIST_TIMEOUT;
  mret (if negb (ok result) then ([], strip (sor result.(error) (stderr_tail 200 result)))
        else (Checks.Exclusivity.parse_containers result.(stdout), "")).

Definition destroy_orphan (c : OwnContainer) : M H DestroyResult :=
  destroy_container env has_records has_store (target c) STOP_GRACE_FILLER (cjob c)
    (orphan_volumes c) false.

Fixpoint orphans (running_jobs : list string) (ours : list OwnContainer) : M H (list string * list string) :=
  match ours with
  | [] => mret ([], [])
  | c :: ours' =>
      if spared running_jobs c then orphans running_jobs ours'
      else
        out ← destroy_orphan c;
        rest ← orphans running_jobs ours';
        let '(removed, errs) := rest in
        mret (if destroyed out then (target c :: removed, errs)
              else (removed, (target c +:+ ": " +:+ dreason out) :: errs))
  end.

Definition orphaned_containers (running_jobs : list string) : M H (list string * list string) :=
  found ← own_containers;
  let '(ours, err) := found in
  if negb (String.eqb err "") then mret ([], [err]) else orphans running_jobs ours.

Definition dangling_images : M H Z :=
  listing ← run env "docker images -q --filter dangling=true" LIST_TIMEOUT;
  if negb (ok listing) then mret 0%Z else
  let ids := List.filter (λ l, negb (String.eqb l "")) (strip <$> splitlines listing.(stdout)) in
  match ids with
  | [] => mret 0%Z
  | _ =>
      _ ← run env "docker images -q --filter dangling=true | xargs -r docker image rm -f"
            (fmul LIST_TIMEOUT (fz 5));
      mret (Z.of_nat (List.length ids))
  end.

Fixpoint retry_each (rig_id : string) (entries : list (string * Retry)) : M H (list string * list string) :=
  match entries with
  | [] => mret ([], [])
  | (name, e) :: entries' =>
      out ← destroy_container env has_records has_store name STOP_GRACE_FILLER e.(tjob_id) e.(tvolumes) false;
      _ ← (if destroyed out then forget_retry name else add_retry rig_id name e.(tjob_id) e.(tvolumes));
      rest ← retry_each rig_id entries';
      let '(done, failed) := rest in
      mret (if destroyed out then (name :: done, failed)
            else (done, (name +:+ ": " +:+ dreason out) :: failed))
  end.

Definition retry_teardowns (rig_id : string) : M H (list string * list string) :=
  st ← get; retry_each rig_id (for_rig rig_id st.(retries)).

Definition sweep (rig_id : string) (running_jobs : list string) (has_retries : bool)
    (gpu_uuids : list string) : M H SweepReport :=
  teardowns ← (if has_retries then retry_teardowns rig_id else mret ([], []));
  orphaned ← orphaned_containers running_jobs;
  stale ← remove_stale_volumes env;
  dangling ← dangling_images;
  raised ← (match gpu_uuids with [] => mret [] | _ => raise_low_limits env gpu_uuids end);
  mret (MkSweepReport stale orphaned.1 dangling teardowns.1 teardowns.2 raised orphaned.2).
End Sweep.

(** ** Cards lost from the device cgroup *)

Definition PROBE_TIMEOUT : pyfloat := fz 60.
Definition LOSS_MARKERS : list string :=
  ["operation not permitted"; "eperm"; "unknown error"; "failed to initialize nvml"].

Record RepairReport : Type := MkRepair {
  checked : Z; wiped : list string; repaired : list string;
  failed : list (string * string); rskipped : string }.

Definition repair_payload (r : RepairReport) : dict :=
  [("checked", JInt r.(checked)); ("wiped", jstrs r.(wiped)); ("repaired", jstrs r.(repaired));
   ("failed", JDict ((λ e : string * string, (e.1, JStr e.2)) <$> r.(failed)));
   ("skipped", JStr r.(rskipped))].

Definition looks_wiped (code : Z) (out err : string) : bool :=
  if (code =? 0)%Z && PyStr.contains "GPU 0" out then false
  else let text := lower (out +:+ nls +:+ err) in
       existsb (λ marker, PyStr.contains marker text) LOSS_MARKERS.

Section Cgroup.
Context {H : Type} (env : Env H).
Variable hkdf : nat → string → string → list Z → list Z.
Variable environ : string.
Variables (has_records has_store : bool).

(** [None]: the transport failed. *)
Definition probe (target : string) : M H (option bool) :=
  result ← run env ("docker exec " +:+ quote target +:+ " nvidia-smi -L") PROBE_TIMEOUT;
  mret (if transport_failed result then None
        else Some (looks_wiped result.(exit_code) result.(stdout) result.(stderr))).

(** The wiped containers among [running]; [false] when a probe did not get
    through. *)
Fixpoint probe_each (running : list OwnContainer) : M H (list OwnContainer * bool) :=
  match running with
  | [] => mret ([], true)
  | c :: l =>
      state ← probe (target c);
      match state with
      | None => mret ([], false)
      | Some lost =>
          rest ← probe_each l;
          let '(found, complete) := rest in
          mret ((if (lost : bool) then c :: found else found), complete)
      end
  end.

Definition is_up (c : OwnContainer) : bool := String.eqb (cstate c) "" || String.eqb (cstate c) "running".

Definition detect : M H (list OwnContainer * list OwnContainer * string) :=
  found ← own_containers env;
  let '(ours, err) := found in
  if negb (String.eqb err "") then mret ([], [], err) else
  let running := List.filter is_up ours in
  probed ← probe_each running;
  let '(lost, complete) := probed in
  mret (running, lost, if (complete : bool) then "" else "probe transport failed").

(** The verdict of the probe that follows a repair. *)
Definition after_repair (again : option bool) (what : string) : bool * string :=
  match again with
  | Some false => (true, "")
  | _ => (false, "devices still unreachable after " +:+ what)
  end.

Definition restart_command (target : string) : string := "docker restart -t 30 " +:+ quote target.

Definition saved_job (job : string) (files : list (string * document)) : res (option (JobSpec * string)) :=
  if has_store && negb (String.eqb job "") then store_load job files else Ok None.

(** A container whose job was saved is recreated, another one restarted. *)
Definition repair (c : OwnContainer) (allowlist : list string) : M H (bool * string) :=
  st ← get;
  loaded ← lift (saved_job (cjob c) st.(job_files));
  match loaded with
  | None =>
      restarted ← run env (restart_command (target c)) (fz 120);
      if negb (ok restarted) then
        mret (false, "restart failed: " +:+ strip (sor restarted.(error) (stderr_tail 200 restarted)))
      else again ← probe (target c); mret (after_repair again "restart")
  | Some saved =>
      let '(spec, rig_id) := (saved : JobSpec * string) in
      out ← recreate env hkdf environ has_records has_store spec allowlist rig_id;
      if negb (created out) then mret (false, cstep out +:+ ": " +:+ creason out)
      else again ← probe (container_name spec); mret (after_repair again "recreation")
  end.

Fixpoint repair_each (lost : list OwnContainer) (allowlist : list string) (r : RepairReport)
    : M H RepairReport :=
  match lost with
  | [] => mret r
  | c :: l =>
      out ← repair c allowlist;
      repair_each l allowlist
        (if (fst out : bool) then MkRepair r.(checked) r.(wiped) (r.(repaired) ++ [target c]) r.(failed) r.(rskipped)
         else MkRepair r.(checked) r.(wiped) r.(repaired) (dset (target c) (snd out) r.(failed)) r.(rskipped))
  end.

Definition repair_sweep (allowlist : list string) : M H RepairReport :=
  found ← detect;
  let '(running, lost, err) := found in
  let report := MkRepair (Z.of_nat (List.length running)) (target <$> lost) [] [] err in
  if negb (String.eqb err "") then mret report else repair_each lost allowlist report.
End Cgroup.

(** ** What a cleanup may act on *)

(** A command of docker that stops or removes containers or volumes acts on the
    given names only. *)
Definition acts_on (names vols : list string) (e : event) : Prop :=
  (startswith "docker rm " e.(ecommand) = true →
   ∃ n, n ∈ names ∧ e.(ecommand) = "docker rm -f -v " +:+ quote n) ∧
  (startswith "docker stop " e.(ecommand) = true →
   ∃ n g, n ∈ names ∧ e.(ecommand) = "docker stop -t " +:+ g +:+ " " +:+ quote n) ∧
  (startswith "docker volume rm " e.(ecommand) = true →
   ∃ v, v ∈ vols ∧ e.(ecommand) = destroy_command v).

Definition harmless (c : string) : Prop :=
  startswith "docker rm " c = false ∧ startswith "docker stop " c = false ∧
  startswith "docker volume rm " c = false.

Lemma harmless_acts names vols c t i r : harmless c → acts_on names vols (MkEvent c t i r).
Proof. intros (H1 & H2 & H3). unfold acts_on. cbn [ecommand]. rewrite H1, H2, H3. done. Qed.

Lemma acts_weaken names names' vols vols' e :
  (∀ n, n ∈ names → n ∈ names') → (∀ v, v ∈ vols → v ∈ vols') → acts_on names vols e → acts_on names' vols' e.
Proof. intros Hn Hv (H1 & H2 & H3). split; [|split]; intros Hs; naive_solver. Qed.

Lemma acts_rm n names vols t i r : n ∈ names → acts_on names vols (MkEvent ("docker rm -f -v " +:+ quote n) t i r).
Proof. intros Hn. split; [|split]; cbn [ecommand]; [by exists n|done..]. Qed.

Lemma acts_stop n g names vols t i r :
  n ∈ names → acts_on names vols (MkEvent ("docker stop -t " +:+ g +:+ " " +:+ quote n) t i r).
Proof. intros Hn. split; [|split]; cbn [ecommand]; [done|by exists n, g|done]. Qed.

Lemma acts_volume v names vols t i r : v ∈ vols → acts_on names vols (MkEvent (destroy_command v) t i r).
Proof. intros Hv. split; [|split]; cbn [ecommand]; [done|done|by exists v]. Qed.

(** A container of no running job. *)
Definition orphan (running_jobs : list string) (c : OwnContainer) : bool :=
  String.eqb (cjob c) "" || bool_decide (cjob c ∉ running_jobs).

Lemma orphan_spared running_jobs c : orphan running_jobs c = negb (spared running_jobs c).
Proof. unfold orphan, spared. rewrite negb_andb, negb_involutive. by rewrite bool_decide_not. Qed.

Section Acts.
Context {H : Type} (env : Env H).

Lemma restore_acts names vols job : issues (acts_on names vols) (restore_job env job).
Proof.
  unfold restore_job. apply issues_bind; [auto with py|intros st].
  apply issues_collect. intros u _. unfold restore_one. apply issues_bind; [auto with py|intros s].
  unfold update_records. destruct (original _ _); [|issues].
  apply issues_bind; [|intros; issues]. unfold set_limit, read_state.
  issues; apply harmless_acts; done.
Qed.

Lemma wedge_acts names vols : issues (acts_on names vols) (GpuWedge.sweep env).
Proof. apply sweep_issues. intros c t i r [->|[->|[u ->]]]; by apply harmless_acts. Qed.

Lemma volume_acts names v : issues (acts_on names [v]) (Volumes.destroy env v).
Proof.
  unfold Volumes.destroy. destruct (valid v); cbn [negb]; [|auto with py].
  issues. apply acts_volume, list_elem_of_here.
Qed.

Lemma volumes_acts names vols : ∀ steps, issues (acts_on names vols) (destroy_volumes env vols steps).
Proof.
  induction vols as [|v vols IH]; intros steps; cbn [destroy_volumes]; [auto with py|].
  apply issues_bind.
  - eapply issues_weaken; [|apply (volume_acts names)]. intros e. apply acts_weaken; [done|].
    intros w ->%list_elem_of_singleton. apply list_elem_of_here.
  - intros out. eapply issues_weaken; [|apply IH]. intros e. apply acts_weaken; [done|].
    intros w Hw. by apply list_elem_of_further.
Qed.

Lemma destroy_acts has_records has_store name grace job vols prune :
  issues (acts_on [name] vols) (destroy_container env has_records has_store name grace job vols prune).
Proof.
  unfold destroy_container. destruct (negb (PyRe.re_dollar _ _)); [auto with py|].
  apply issues_bind; [apply issues_run; intros; apply acts_stop, list_elem_of_here|intros stop].
  destruct (transport_failed stop); [auto with py|].
  apply issues_bind; [apply issues_run; intros; apply acts_rm, list_elem_of_here|intros removed].
  destruct (negb _); [apply issues_bind; [apply wedge_acts|auto with py]|].
  apply issues_bind; [destruct (has_records && _); issues; apply restore_acts|intros power].
  apply issues_bind; [apply wedge_acts|intros swept].
  apply issues_bind; [destruct prune; issues; by apply harmless_acts|intros pruned].
  apply issues_bind; [apply volumes_acts|intros v].
  apply issues_bind; [destruct (has_store && _); issues|auto with py].
Qed.

Lemma orphans_acts has_records has_store running_jobs ours :
  let gone := List.filter (orphan running_jobs) ours in
  issues (acts_on (target <$> gone) (List.flat_map orphan_volumes gone))
    (orphans env has_records has_store running_jobs ours).
Proof.
  induction ours as [|c ours IH]; cbn [orphans List.filter]; [auto with py|].
  rewrite orphan_spared. destruct (spared running_jobs c); cbn [negb]; [exact IH|].
  apply issues_bind.
  - eapply issues_weaken; [|apply destroy_acts]. intros e. apply acts_weaken.
    + intros n ->%list_elem_of_singleton. apply list_elem_of_here.
    + intros v Hv. cbn [List.flat_map]. apply elem_of_app. by left.
  - intros out. apply issues_bind.
    + eapply issues_weaken; [|exact IH]. intros e. apply acts_weaken.
      * intros n Hn. by apply list_elem_of_further.
      * intros v Hv. cbn [List.flat_map]. apply elem_of_app. by right.
    + intros [removed errs]. auto with py.
Qed.
End Acts.

(** The containers a listing shows; none when it failed. *)
Definition shown (e : event) : list OwnContainer :=
  if ok e.(eresult) then Checks.Exclusivity.parse_containers e.(eresult).(stdout) else [].

Lemma own_listing {H} (env : Env H) (st : St H) : ∃ listing err st1,
  own_containers env st = (Ok (shown listing, err), st1) ∧
  log st1 = log st ++ [listing] ∧ ecommand listing = LIST_OURS.
Proof.
  unfold own_containers, mbind, M_bind, run, run_with.
  destruct (exec env LIST_OURS LIST_TIMEOUT None (host st)) as [res h].
  exists (MkEvent LIST_OURS LIST_TIMEOUT None res). unfold shown. cbn [eresult mret].
  destruct (ok res); cbn [negb]; eexists _, _; (split; [reflexivity|]); by split.
Qed.

(** C36. The cleanup of orphans spares the jobs that run: it lists the validator's
    containers first, and every container it then stops or removes, and every
    volume it removes, belongs to one of the listing that carries no job or the
    job of none of the running ones; a failed listing shows none. *)
Theorem orphans_spare_running {H} (env : Env H) has_records has_store running_jobs st r st' :
  orphaned_containers env has_records has_store running_jobs st = (r, st') →
  ∃ listing new, log st' = log st ++ listing :: new ∧ ecommand listing = LIST_OURS ∧
    let gone := List.filter (orphan running_jobs) (shown listing) in
    ∀ e, e ∈ new → acts_on (target <$> gone) (List.flat_map orphan_volumes gone) e.
Proof.
  intros E. destruct (own_listing env st) as (listing & err & st1 & Hown & Hlog & Hcmd). exists listing.
  unfold orphaned_containers, mbind, M_bind in E. rewrite Hown in E.
  destruct (negb (String.eqb err "")).
  - exists []. injection E as _ <-. split; [done|]. split; [done|]. by intros gone e ?%not_elem_of_nil.
  - destruct (orphans_acts env has_records has_store running_jobs (shown listing) st1) as (new & Hl & Hnew).
    rewrite E in Hl. cbn [snd] in Hl. exists new. split; [by rewrite Hl, Hlog, <- app_assoc|].
    split; [done|]. intros gone e He. by apply (proj1 (Forall_forall _ _) Hnew).
Qed.

(** Two containers of the validator, one of a running job. *)
Definition sample_listing : string :=
  "aaa" +:+ Checks.Exclusivity.tabs +:+ "mt-1" +:+ Checks.Exclusivity.tabs +:+ "1" +:+ Checks.Exclusivity.tabs +:+ "running" +:+ nls +:+
  "bbb" +:+ Checks.Exclusivity.tabs +:+ "mt-2" +:+ Checks.Exclusivity.tabs +:+ "2" +:+ Checks.Exclusivity.tabs +:+ "exited" +:+ nls.
Definition sample_env : Env unit :=
  MkEnv _ (λ c _ _ h, (MkResult c 0 (if String.eqb c LIST_OURS then sample_listing else "") "" f0 "", h))
    (λ _ h, h) (λ _, f0) (λ _, f0) (λ _, []) (λ _ _, "") (λ _ _, "") (λ _, None).
Definition sample_start : St unit := MkSt tt [] (MkInflight [] []) (MkRecords [] []) [] [].
Definition sample_cleanup : res (list string * list string) * St unit :=
  orphaned_containers sample_env false false ["1"] sample_start.

Lemma orphans_spare_running_witness :
  sample_cleanup.1 = Ok (["mt-2"], []) ∧
  ∃ listing new, log sample_cleanup.2 = listing :: new ∧
    ∀ e, e ∈ new → acts_on ["mt-2"] ["mt-vol-2"] e.
Proof.
  split; [vm_compute; reflexivity|].
  destruct (orphans_spare_running sample_env false false ["1"] sample_start sample_cleanup.1 sample_cleanup.2)
    as (listing & new & Hlog & Hc & Hall); [exact (surjective_pairing sample_cleanup)|].
  exists listing, new. split; [exact Hlog|].
  assert (listing = MkEvent LIST_OURS LIST_TIMEOUT None (MkResult LIST_OURS 0 sample_listing "" f0 "")) as ->.
  { apply (f_equal (λ l, List.hd_error l)) in Hlog. cbn in Hlog. vm_compute in Hlog. injection Hlog as <-. reflexivity. }
  exact Hall.
Defined.
