(* ===== verification/Drain.v ===== *)
(** * Draining a machine (validator/work/drain.py)

    The validator asks the pool's server to drain a machine and polls its record
    until no job is left or the deadline has passed.  The server and the clock are
    a parameter ([Pool]): a call answers with an object or a [ServerError]. *)

From Stdlib Require Import Ascii String QArith Lqa.
From S2P Require Import Prelude.
From S2P Require Import PyStr.
From S2P Require Import PyFloat.
From S2P Require Import PyJson.
From S2P Require Import Messages.
Local Open Scope string_scope.
Local Open Scope list_scope.

Definition DEFAULT_DEADLINE : pyfloat := fz 1800.
Definition POLL_SECONDS : pyfloat := fz 15.
(** Enough polls for the default deadline. *)
Definition DRAIN_POLLS : nat := 129.

Record DrainResult : Type := MkDrain {
  rig_id : string; drained : bool; remaining : list string; elapsed_s : pyfloat;
  command_id : Z; command_state : string; reason : string }.

Definition drain_payload (r : DrainResult) : dict :=
  [("rig_id", JStr r.(rig_id)); ("drained", JBool r.(drained));
   ("remaining", JList (JStr <$> r.(remaining))); ("elapsed_s", JFloat (fround 1 r.(elapsed_s)));
   ("command_id", JInt r.(command_id)); ("command_state", JStr r.(command_state));
   ("reason", JStr r.(reason))].

Definition job_name (job : json) : list string :=
  match job with
  | JDict d => [py_str (jor (jor (getv "id" d) (getv "job_id" d)) (JStr ""))]
  | _ => []
  end.
Definition running_jobs (rig : dict) : res (list string) :=
  l ← get_list "jobs" rig; mret (List.flat_map job_name l).

Record Pool (H : Type) : Type := MkPool {
  command : string → string → dict → H → (string + dict) * H;
  rig : string → H → (string + dict) * H;
  command_result : Z → H → (string + dict) * H;
  monotonic : H → pyfloat;
  idle : pyfloat → H → H }.
Arguments command {H}. Arguments rig {H}. Arguments command_result {H}.
Arguments monotonic {H}. Arguments idle {H}.

Section Drain.
Context {H : Type} (pool : Pool H).

(** The state of the command after the poll asked for it; an error of the server
    is suppressed. *)
Definition next_state (id : Z) (state : string) (h : H) : string * H :=
  if negb (id =? 0)%Z && negb (bool_decide (state ∈ ["done"; "failed"; "expired"])) then
    match pool.(command_result) id h with
    | (inl _, h) => (state, h)
    | (inr answer, h) => (py_str (jor (getd "state" (JStr state) answer) (JStr state)), h)
    end
  else (state, h).

(** One turn of the loop, from its top: the result, or what the next turn starts
    from once the sleep is over. *)
Inductive turned : Type :=
  | Result (r : res DrainResult)
  | Next (state : string) (left_ : list string).

Definition poll_once (name : string) (started deadline : pyfloat) (id : Z)
    (state : string) (before : list string) (h : H) : turned * H :=
  match pool.(rig) name h with
  | (inl detail, h) =>
      (Result (Ok (MkDrain name false before (fsub (pool.(monotonic) h) started) id state
                     ("rig view failed: " +:+ detail))), h)
  | (inr view, h) =>
      match running_jobs view with
      | Raise e => (Result (Raise e), h)
      | Ok left_ =>
          let '(state, h) := next_state id state h in
          let elapsed := fsub (pool.(monotonic) h) started in
          match left_ with
          | [] => (Result (Ok (MkDrain name true [] elapsed id state "")), h)
          | _ =>
              if fle deadline elapsed then
                (Result (Ok (MkDrain name false left_ elapsed id state
                       (str_of_Z (Z.of_nat (List.length left_)) +:+ " jobs still running after " +:+
                        format_fixed 0 deadline +:+ " s"))), h)
              else (Next state left_, h)
          end
      end
  end.

Fixpoint poll_drain (fuel : nat) (name : string) (started deadline poll : pyfloat) (id : Z)
    (state : string) (before : list string) (h : H) : res DrainResult * H :=
  match poll_once name started deadline id state before h with
  | (Result r, h) => (r, h)
  | (Next state left_, h) =>
      match fuel with
      | O => (Raise Diverged, h)
      | S fuel' => poll_drain fuel' name started deadline poll id state left_ (pool.(idle) poll h)
      end
  end.

Definition drain (fuel : nat) (name why : string) (deadline poll : pyfloat) (h : H) : res DrainResult * H :=
  let started := pool.(monotonic) h in
  match pool.(command) name (command_kind_value DRAIN)
          [("drain", JBool true); ("reason", JStr (stake 200 why))] h with
  | (inl detail, h) =>
      (Ok (MkDrain name false [] f0 0 "" ("drain command refused: " +:+ detail)), h)
  | (inr answer, h) =>
      match get_int_or "id" 0 answer with
      | Raise e => (Raise e, h)
      | Ok id => poll_drain fuel name started deadline poll id (get_str_or "state" "" answer) [] h
      end
  end.
End Drain.

(** ** Facts *)

(** The clock of a pool, up to its last reading [limit]: it shows finite floats,
    calls never set it back, and a sleep between two polls takes at least fourteen
    of its fifteen seconds (a second for the resolution of the timers). *)
Class PoolClock {H} (pool : Pool H) (limit : Q) : Prop := {
  clock_reads h : ∃ r, pool.(monotonic) h = FFin r ∧ representable r ∧ (r <= limit)%Q;
  clock_command n k p h a b : pool.(monotonic) h = FFin a →
    pool.(monotonic) (pool.(command) n k p h).2 = FFin b → (a <= b)%Q;
  clock_rig n h a b : pool.(monotonic) h = FFin a →
    pool.(monotonic) (pool.(rig) n h).2 = FFin b → (a <= b)%Q;
  clock_result i h a b : pool.(monotonic) h = FFin a →
    pool.(monotonic) (pool.(command_result) i h).2 = FFin b → (a <= b)%Q;
  clock_idle h a b : pool.(monotonic) h = FFin a → (a + 15 <= limit)%Q →
    pool.(monotonic) (pool.(idle) POLL_SECONDS h) = FFin b → (a + 14 <= b)%Q }.

Section Facts.
Context {H : Type} (pool : Pool H) (limit : Q) `{!PoolClock pool limit}.

(** The clock shows [q] or later. *)
Definition since (q : Q) (h : H) : Prop :=
  ∃ r, pool.(monotonic) h = FFin r ∧ representable r ∧ (q <= r)%Q ∧ (r <= limit)%Q.

Lemma since_le q q' h : (q <= q')%Q → since q' h → since q h.
Proof. intros Hq (r & ? & ? & ? & ?). exists r. split_and!; try done. lra. Qed.

Lemma since_mono (h h' : H) q :
  (∀ a b, pool.(monotonic) h = FFin a → pool.(monotonic) h' = FFin b → (a <= b)%Q) →
  since q h → since q h'.
Proof.
  intros Hm (r & Hr & _ & Hq & _). destruct (clock_reads h') as (r' & Hr' & Hp & Hl).
  exists r'. split_and!; try done. specialize (Hm _ _ Hr Hr'). lra.
Qed.

Lemma next_state_since id state q h : since q h → since q (next_state pool id state h).2.
Proof.
  intros Hq. unfold next_state. destruct (_ && _); [|done].
  pose proof (since_mono h _ q (clock_result id h) Hq) as Hc.
  by destruct (command_result pool id h) as [[d|a] h'].
Qed.

(** A turn sets no clock back. *)
Lemma poll_once_since name started deadline id state before q h :
  since q h → since q (poll_once pool name started deadline id state before h).2.
Proof.
  intros Hq. unfold poll_once. pose proof (since_mono h _ q (clock_rig name h) Hq) as Hr.
  destruct (rig pool name h) as [[detail|view] h1]; [done|]. cbn [snd] in Hr.
  destruct (running_jobs view) as [l|e]; [|done].
  pose proof (next_state_since id state q h1 Hr) as Hn.
  destruct (next_state pool id state h1) as [state' h2]. destruct l; [done|]. by destruct (fle deadline _).
Qed.

(** What is left of the time after a turn that does not end the loop. *)
Lemma poll_once_next name q0 id state before q h state' l h' :
  representable q0 → since q h →
  poll_once pool name (FFin q0) DEFAULT_DEADLINE id state before h = (Next state' l, h') →
  ∃ r, pool.(monotonic) h' = FFin r ∧ (q <= r)%Q ∧ (r < q0 + 1800)%Q.
Proof.
  intros H0 Hq E. pose proof (poll_once_since name (FFin q0) DEFAULT_DEADLINE id state before q h Hq) as Hs.
  rewrite E in Hs. destruct Hs as (r & Hr & _ & Hle & _). cbn [snd] in Hr.
  exists r. split; [done|]. split; [done|].
  unfold poll_once in E. destruct (rig pool name h) as [[detail|view] h1]; [done|].
  destruct (running_jobs view) as [[|x xs]|e]; [by destruct (next_state pool id state h1)| |done].
  destruct (next_state pool id state h1) as [state2 h2].
  destruct (fle DEFAULT_DEADLINE _) eqn:Ef; [done|]. injection E as _ _ ->.
  apply Qnot_le_lt. intros Hge. revert Ef. rewrite Hr. unfold fsub. cbn [fneg fadd].
  change DEFAULT_DEADLINE with (FFin 1800). rewrite fle_rnd; [done| |lra].
  exact (representable_Z 1800 ltac:(lia)).
Qed.

(** ** The turns of one run *)

(** Where the loop stands at the top of its [k]-th turn, when it gets there. *)
Fixpoint turn_top (k : nat) (name : string) (started deadline poll : pyfloat) (id : Z)
    (state : string) (before : list string) (h : H) : option (string * list string * H) :=
  match k with
  | O => Some (state, before, h)
  | S k' =>
      match poll_once pool name started deadline id state before h with
      | (Result _, _) => None
      | (Next state left_, h) =>
          turn_top k' name started deadline poll id state left_ (pool.(idle) poll h)
      end
  end.

(** The loop ends with the result of one of its turns, the last. *)
Lemma poll_drain_ends name q0 id : representable q0 → (q0 + 1815 <= limit)%Q →
  ∀ fuel q state before h, since q h → (q0 + 1800 <= q + 14 * inject_Z (Z.of_nat fuel))%Q →
  ∃ k state' before' h' r h'', (k <= fuel)%nat ∧
    turn_top k name (FFin q0) DEFAULT_DEADLINE POLL_SECONDS id state before h = Some (state', before', h') ∧
    poll_once pool name (FFin q0) DEFAULT_DEADLINE id state' before' h' = (Result r, h'') ∧
    poll_drain pool fuel name (FFin q0) DEFAULT_DEADLINE POLL_SECONDS id state before h = (r, h'').
Proof.
  intros H0 Hlim fuel. induction fuel as [|fuel IH]; intros q state before h Hq Hle; cbn [poll_drain];
    destruct (poll_once pool name (FFin q0) DEFAULT_DEADLINE id state before h) as [[r|state1 l] h1] eqn:E.
  1, 3: exists 0%nat, state, before, h, r, h1; split_and!; try done; lia.
  all: destruct (poll_once_next _ _ _ _ _ _ _ _ _ _ H0 Hq E) as (a & Ha & Hqa & Hlt).
  - exfalso. change (inject_Z (Z.of_nat 0)) with 0%Q in Hle. lra.
  - destruct (clock_reads (pool.(idle) POLL_SECONDS h1)) as (b & Hb & Hpb & Hbl).
    assert (since (q + 14) (pool.(idle) POLL_SECONDS h1)) as Hq1.
    { exists b. split_and!; try done. destruct (Qlt_le_dec limit (a + 15)) as [Hx|Hx]; [lra|].
      pose proof (clock_idle h1 a b Ha Hx Hb). lra. }
    destruct (IH _ state1 l _ Hq1) as (k & s' & b' & h' & r & h'' & Hk & Ht & Hr & Hd).
    { rewrite Nat2Z.inj_succ, <- Z.add_1_l, inject_Z_plus in Hle. change (inject_Z 1) with 1%Q in Hle. lra. }
    exists (S k), s', b', h', r, h''. split_and!; [lia| |done|done]. cbn [turn_top]. by rewrite E.
Qed.
End Facts.

(** What the result of a run says of the last answer to a reading of the record:
    drained exactly when that record lists no job; with jobs left, they are the
    remaining ones and the deadline has passed; a record that cannot be read leaves
    the jobs of the record before. *)
Definition truthful (name : string) (id : Z) (before : list string) (last : string + dict)
    (r : res DrainResult) : Prop :=
  match last with
  | inl detail => ∃ s state, r = Ok (MkDrain name false before s id state ("rig view failed: " +:+ detail))
  | inr view =>
      match running_jobs view with
      | Raise e => r = Raise e
      | Ok [] => ∃ s state, r = Ok (MkDrain name true [] s id state "")
      | Ok left_ => ∃ s state reason, fle DEFAULT_DEADLINE s = true ∧ reason ≠ ""
          ∧ r = Ok (MkDrain name false left_ s id state reason)
      end
  end.

Lemma poll_once_truthful {H} (pool : Pool H) name started id state before h r h' :
  poll_once pool name started DEFAULT_DEADLINE id state before h = (Result r, h') →
  truthful name id before (pool.(rig) name h).1 r.
Proof.
  unfold poll_once, truthful. destruct (rig pool name h) as [[detail|view] h1]; cbn [fst].
  { intros [= <- _]. by eexists _, _. }
  destruct (running_jobs view) as [[|x l]|e]; [| |by intros [= <- _]];
    destruct (next_state pool id state h1) as [state' h2].
  - intros [= <- _]. by eexists _, _.
  - destruct (fle DEFAULT_DEADLINE _) eqn:Ef; [|done]. intros [= <- _].
    eexists _, _, _. split; [exact Ef|]. split; [|reflexivity].
    intros E. apply (f_equal slen) in E. rewrite slen_app in E. simpl in E. lia.
Qed.

Lemma get_int_ends k d m : get_int_or k d m ≠ Raise Diverged.
Proof.
  unfold get_int_or. destruct (jor _ _); cbn; try done; [destruct f|unfold of_option; case_match]; done.
Qed.

(** C40. Draining comes to an end, on a clock that sleeping advances: unless the
    command is refused, one of the first hundred and thirty readings of the
    machine's record is the last, and the result is true of that very reading -
    "drained" exactly when it lists no job; jobs it lists are reported as remaining
    only once the deadline has passed; and a record that cannot be read ends it too,
    with its reason. *)
Theorem drain_ends {H} (pool : Pool H) limit `{!PoolClock pool limit} name why h q :
  pool.(monotonic) h = FFin q → (q + 1815 <= limit)%Q →
  let out := drain pool DRAIN_POLLS name why DEFAULT_DEADLINE POLL_SECONDS h in
  out.1 ≠ Raise Diverged ∧
  match pool.(command) name "DrainRequest" [("drain", JBool true); ("reason", JStr (stake 200 why))] h with
  | (inl detail, _) => out.1 = Ok (MkDrain name false [] f0 0 "" ("drain command refused: " +:+ detail))
  | (inr answer, h1) =>
      match get_int_or "id" 0 answer with
      | Raise e => out.1 = Raise e
      | Ok id => ∃ k state before h2, (k <= DRAIN_POLLS)%nat ∧
          turn_top pool k name (FFin q) DEFAULT_DEADLINE POLL_SECONDS id (get_str_or "state" "" answer) [] h1
          = Some (state, before, h2) ∧
          truthful name id before (pool.(rig) name h2).1 out.1
      end
  end.
Proof.
  intros Hc Hl out.
  destruct (clock_reads h) as (q' & Hq' & Hr & _). rewrite Hc in Hq'. injection Hq' as <-.
  unfold out, drain. rewrite Hc. change (command_kind_value Messages.DRAIN) with "DrainRequest".
  assert (since pool limit q h) as Hq.
  { exists q. split_and!; [done|done|lra|lra]. }
  pose proof (since_mono pool limit h _ q (clock_command name "DrainRequest"
                [("drain", JBool true); ("reason", JStr (stake 200 why))] h) Hq) as Hq1.
  destruct (command pool name _ _ h) as [[detail|answer] h1]; cbn [snd] in Hq1; [done|].
  pose proof (get_int_ends "id" 0 answer) as Hid.
  destruct (get_int_or "id" 0 answer) as [id|e] eqn:Eid; [|split; [by intros [= ->]|reflexivity]].
  destruct (poll_drain_ends pool limit name q id Hr Hl DRAIN_POLLS q (get_str_or "state" "" answer) [] h1 Hq1)
    as (k & state & before & h2 & r & h3 & Hk & Ht & Ho & ->).
  { change (Z.of_nat DRAIN_POLLS) with 129%Z. change (inject_Z 129) with 129%Q. lra. }
  pose proof (poll_once_truthful pool name (FFin q) id state before h2 r h3 Ho) as Htr. cbn [fst]. split.
  - intros ->. revert Htr. unfold truthful. destruct (rig pool name h2).1 as [d|view].
    + intros (? & ? & [=]).
    + destruct (running_jobs view) as [[|x l]|e] eqn:Ej; [intros (? & ? & [=])|intros (? & ? & ? & _ & _ & [=])|].
      intros [= <-]. revert Ej. unfold running_jobs, get_list, py_iter. by destruct (jor _ _).
  - by exists k, state, before, h2.
Qed.

(** ** Two runs *)

Definition one_job : dict := [("jobs", JList [JDict [("id", JStr "j1")]])].
(** The state is the time since the start, in steps of five seconds; the clock ends
    at the hundred and thirtieth poll and the job stays. *)
Definition busy_pool : Pool nat :=
  MkPool _ (λ _ _ _ h, (inr [("id", JInt 4); ("state", JStr "sent")], h)) (λ _ h, (inr one_job, h))
    (λ _ h, (inr [("state", JStr "done")], h)) (λ h, fz (5 * Z.of_nat (Nat.min h 400))) (λ _ h, (h + 3)%nat).

#[local] Instance busy_clock : PoolClock busy_pool 2000.
Proof.
  split.
  - intros h. exists (inject_Z (5 * Z.of_nat (Nat.min h 400))). split; [done|]. split.
    + apply representable_Z. lia.
    + change 2000%Q with (inject_Z 2000). rewrite <- Zle_Qle. lia.
  - intros n k p h a b Ha Hb. cbn in Ha, Hb. rewrite Ha in Hb. injection Hb as ->. apply Qle_refl.
  - intros n h a b Ha Hb. cbn in Ha, Hb. rewrite Ha in Hb. injection Hb as ->. apply Qle_refl.
  - intros i h a b Ha Hb. cbn in Ha, Hb. rewrite Ha in Hb. injection Hb as ->. apply Qle_refl.
  - intros h a b [= <-] Hl [= <-]. change 14%Q with (inject_Z 14). change 15%Q with (inject_Z 15) in Hl.
    change 2000%Q with (inject_Z 2000) in Hl. rewrite <- inject_Z_plus, <- Zle_Qle in *. lia.
Qed.

Lemma drain_ends_witness :
  ∃ k state before h2,
    (drain busy_pool DRAIN_POLLS "rig-1" "update" DEFAULT_DEADLINE POLL_SECONDS 0%nat).1
    = Ok (MkDrain "rig-1" false ["j1"] (fz 1800) 4 "done" "1 jobs still running after 1800 s") ∧
    turn_top busy_pool k "rig-1" (FFin 0) DEFAULT_DEADLINE POLL_SECONDS 4 "sent" [] 0%nat = Some (state, before, h2) ∧
    truthful "rig-1" 4 before (busy_pool.(rig) "rig-1" h2).1
      (drain busy_pool DRAIN_POLLS "rig-1" "update" DEFAULT_DEADLINE POLL_SECONDS 0%nat).1.
Proof.
  destruct (drain_ends busy_pool 2000 "rig-1" "update" 0%nat 0 eq_refl ltac:(lra))
    as (_ & k & state & before & h2 & _ & Ht & Htr).
  exists k, state, before, h2. split; [vm_compute; reflexivity|]. split; [exact Ht|exact Htr].
Defined.

Definition sample_pool : Pool Z :=
  MkPool _ (λ _ _ _ h, (inr [("id", JInt 4); ("state", JStr "sent")], h))
    (λ _ h, (inr (if (h <? 30)%Z then one_job else []), h))
    (λ _ h, (inr [("state", JStr "done")], h)) (λ h, fz h)
    (λ s h, match s with FFin q => (h + Qnum q / Zpos (Qden q))%Z | _ => h end).

(** The job leaves after two polls. *)
Example drain_two_polls :
  (drain sample_pool DRAIN_POLLS "rig-1" "update" DEFAULT_DEADLINE POLL_SECONDS 0%Z).1 =
  Ok (MkDrain "rig-1" true [] (fz 30) 4 "done" "").
Proof. vm_compute. reflexivity. Qed.
