(* ===== verification/Client.v ===== *)
(** * Sessions with a machine (validator/session/client.py, validator/identity.py, validator/session/ssh.py)

    The validator calls the agent of a machine over HTTP with signed headers,
    asks for a session, connects over SSH to the host key the agent granted, and
    closes the session whatever happened in it.  The world ([Outer]) answers the
    calls, makes the keys and the signatures and opens the connections; it shares
    its state with the machine of [Runner]. *)

From stdpp Require Import sorting.
From Stdlib Require Import Ascii String QArith.
From S2P Require Import Prelude.
From S2P Require Import PyStr.
From S2P Require Import PyText.
From S2P Require Import PyFloat.
From S2P Require Import PyJson.
From S2P Require Import PyDump.
From S2P Require Import Failures.
From S2P Require Import SessionProto.
From S2P Require Import Sha256.
From S2P Require Import Attest.
From S2P Require Import Runner.
From S2P Require Import Checks.
From S2P Require Auth.
Local Open Scope string_scope.
Local Open Scope list_scope.

Definition AGENT_TIMEOUT : pyfloat := fz 30.
Definition SESSION_OPEN_PATH : string := "/session/open".
Definition SESSION_CLOSE_PATH : string := "/session/close".
Definition PING_PATH : string := "/ping".
Definition UTILISATION_PATH : string := "/utilisation".
Definition VERSION_PATH : string := "/version".

(** [json.dumps(body, separators=(",", ":"), sort_keys=True)] *)
Definition canonical_json (body : dict) : string := dumps (sort_keys (JDict body)).

(** ** The world *)

Record request : Type := MkRequest {
  method : string; url : string; headers : list (string * string); content : option string;
  rtimeout : pyfloat }.

(** What a call comes to: an [httpx.HTTPError], or a status, whether the content
    is empty, its text and [response.json()] ([None]: [ValueError]). *)
Inductive response : Type :=
  | HttpError (text : string)
  | Response (status : Z) (empty : bool) (text : string) (parsed : option json).

(** How [asyncssh.connect] ends; a connection presents a host key
    ([presented.export_public_key], [None] when it has none). *)
Inductive connected : Type :=
  | HostKeyNotVerifiable (text : string)
  | NotConnected (text : string)
  | Presented (key : option string).

Record Outer (H : Type) : Type := MkOuter {
  hotkey : string;
  sign_ : string → string;
  http : request → H → response * H;
  new_key : H → string;
  connect_ : string → Z → string → string → pyfloat → H → connected * H }.
Arguments MkOuter {H}. Arguments hotkey {H}. Arguments sign_ {H}. Arguments http {H}.
Arguments new_key {H}. Arguments connect_ {H}.

(** The state: that of the machine, the last time stamp signed, the requests
    sent and the number of connections open. *)
Record Net (H : Type) : Type := MkNet {
  machine : St H; last_stamp : pyfloat; sent : list request; connections : Z }.
Arguments MkNet {H}. Arguments machine {H}. Arguments last_stamp {H}. Arguments sent {H}.
Arguments connections {H}.

Definition NM (H A : Type) : Type := Net H → res A * Net H.
#[export] Instance NM_ret {H} : MRet (NM H) := λ A a n, (Ok a, n).
#[export] Instance NM_bind {H} : MBind (NM H) := λ A B f m n,
  match m n with (Ok a, n') => f a n' | (Raise e, n') => (Raise e, n') end.

Definition nlift {H A} (r : res A) : NM H A := λ n, (r, n).
(** An operation on the machine alone. *)
Definition on_machine {H A} (m : M H A) : NM H A := λ n,
  let '(r, st) := m n.(machine) in (r, MkNet st n.(last_stamp) n.(sent) n.(connections)).
(** [try: m finally: f] *)
Definition try_finally {S A} (m : S → res A * S) (f : S → res unit * S) : S → res A * S := λ s,
  let '(r, s) := m s in
  match f s with (Ok _, s) => (r, s) | (Raise e, s) => (Raise e, s) end.

(** ** Identity *)

Section Client.
Context {H : Type} (env : Env H) (out : Outer H).

Definition set_host (h : H) (n : Net H) : Net H :=
  let st := n.(machine) in
  MkNet (MkSt h st.(log) (wake env h st.(inflight)) st.(records) st.(job_files) st.(retries))
    n.(last_stamp) n.(sent) n.(connections).

Definition sign (message : string) : string := "0x" +:+ hex (out.(sign_) message).

(** A stamp is a millisecond later than the one before, or the time; printed, the
    two can be the same ([same_stamp] below). *)
Definition timestamp : NM H string := λ n,
  let stamp := fmax (env.(wall) n.(machine).(host)) (fadd n.(last_stamp) (flit (1 # 1000))) in
  (Ok (format_fixed 3 stamp), MkNet n.(machine) stamp n.(sent) n.(connections)).

Definition identity_headers (method path body : string) : NM H (list (string * string)) :=
  stamp ← timestamp;
  mret [(HEADER_HOTKEY, out.(hotkey)); (HEADER_TIMESTAMP, stamp);
        (HEADER_SIGNATURE, sign (signing_bytes method path stamp body))].

(** ** Calls *)

Definition port_of (key : string) (connection : json) : res Z :=
  v ← jget key (JInt 0) connection;
  try_except (py_int (jor v (JInt 0))) [TypeError; ValueError] 0%Z.

Definition connection_of (rig : dict) : res (string * Z * Z) :=
  let connection := jor (getv "connection" rig) (JDict []) in
  address ← jget "address" (JStr "") connection;
  api_port ← port_of "api_port" connection;
  ssh_port ← port_of "ssh_port" connection;
  mret (py_str (jor address (JStr "")), api_port, ssh_port).

(** [None] is the [AgentError] of a rig without address. *)
Definition base_url (rig : dict) : res (option string) :=
  c ← connection_of rig;
  let '(address, api_port, _) := c in
  mret (if String.eqb address "" || (api_port =? 0)%Z then None
        else Some ("http://" +:+ (if PyStr.contains ":" address then "[" +:+ address +:+ "]" else address) +:+
                   ":" +:+ str_of_Z api_port)).

(** [with contextlib.suppress(Exception): detail = str(answer.json().get("detail", detail))] *)
Definition detail_of (text : string) (parsed : option json) : string :=
  let detail := stake 300 text in
  match parsed with Some (JDict d) => py_str (getd "detail" (JStr detail) d) | _ => detail end.

(** The response to a call. *)
Definition judge_response (method path : string) (r : response) : called :=
  let name := method +:+ " " +:+ path in
  match r with
  | HttpError text => AgentError SSH_TRANSPORT (name +:+ ": " +:+ text)
  | Response status empty text parsed =>
      if (400 <=? status)%Z then
        AgentError (if (500 <=? status)%Z then AGENT_CRASH else SSH_TRANSPORT)
          (name +:+ " refused with " +:+ str_of_Z status +:+ ": " +:+ detail_of text parsed)
      else if empty then Answered []
      else match parsed with
           | None => AgentError AGENT_CRASH (name +:+ ": response is not JSON")
           | Some (JDict d) => Answered d
           | Some v => Answered [("value", v)]
           end
  end.

Definition send (r : request) : NM H response := λ n,
  let '(answer, h) := out.(http) r n.(machine).(host) in
  let n := set_host h n in
  (Ok answer, MkNet n.(machine) n.(last_stamp) (n.(sent) ++ [r]) n.(connections)).

(** [timeout or self._timeout] *)
Definition or_default (timeout : pyfloat) : pyfloat :=
  if truthy (JFloat timeout) then timeout else AGENT_TIMEOUT.

Definition call (rig : dict) (method path : string) (body : option dict) (timeout : pyfloat)
    : NM H called :=
  base ← nlift (base_url rig);
  match base with
  | None => mret (AgentError SSH_TRANSPORT "the rig has no address or api port on record")
  | Some base =>
      let raw := match body with Some b => canonical_json b | None => "" end in
      signed ← identity_headers method path raw;
      let headers := [("accept", "application/json")]
                     ++ (if body then [("content-type", "application/json")] else []) ++ signed in
      let r := MkRequest method (base +:+ path) headers (canonical_json <$> body)
                 (or_default timeout) in
      answer ← send r; mret (judge_response method path answer)
  end.

Definition version (rig : dict) : NM H called := call rig "GET" VERSION_PATH None AGENT_TIMEOUT.
Definition ping (rig : dict) : NM H called := call rig "POST" PING_PATH (Some []) AGENT_TIMEOUT.
Definition utilisation (rig : dict) : NM H called := call rig "POST" UTILISATION_PATH (Some []) AGENT_TIMEOUT.
Definition record_job (rig job : dict) : NM H called := call rig "POST" "/jobs" (Some job) AGENT_TIMEOUT.

(** ** Connecting (SshRunner.connect)

    A refusal is the detail of the [SshError], always of class [SSH_TRANSPORT]. *)
Definition open_connections (k : Z) : NM H unit := λ n,
  (Ok tt, MkNet n.(machine) n.(last_stamp) n.(sent) (n.(connections) + k)).

Definition attempt (address : string) (port : Z) (username host_key : string) (timeout : pyfloat)
    : NM H connected := λ n,
  let '(c, h) := out.(connect_) address port username host_key timeout n.(machine).(host) in
  (Ok c, set_host h n).

Definition connect (address : string) (port : Z) (username host_key : string) (timeout : pyfloat)
    : NM H (unit + string) :=
  if String.eqb (key_fields host_key).2 "" then mret (inr "the grant carries no host key to pin")
  else
    answer ← attempt address port username (strip host_key) timeout;
    match answer with
    | HostKeyNotVerifiable text => mret (inr ("host key differs from the granted one: " +:+ text))
    | NotConnected text =>
        mret (inr ("ssh " +:+ address +:+ ":" +:+ str_of_Z port +:+ ": " +:+ text))
    | Presented key =>
        _ ← open_connections 1;
        if same_key key host_key then mret (inl tt)
        else _ ← open_connections (-1); mret (inr "host key differs from the granted one")
    end.

(** ** A session (AgentClient.open) *)

Record Session : Type := MkSession {
  rig_id : string; address : string; grant : SessionGrant.t; snonce : string;
  public_key : string; attestation : Attestation.t; bound : bool; report_data_ok : option bool }.

Definition python (s : Session) : string := sor (SessionGrant.python_path s.(grant)) "python3".

Definition attestation_summary (s : Session) : dict :=
  let a := s.(attestation) in
  [("bound", JBool s.(bound));
   ("report_data_ok", match s.(report_data_ok) with Some b => JBool b | None => JNull end);
   ("nonce_matches", JBool (String.eqb (Attestation.nonce a) s.(snonce)));
   ("agent_version", JStr (Attestation.agent_version a)); ("hostname", JStr (Attestation.hostname a));
   ("gpus", JInt (Z.of_nat (List.length (Attestation.gpus a))));
   ("driver", JStr (Attestation.driver a)); ("cuda", JStr (Attestation.cuda a));
   ("machine_id", JStr (Attestation.machine_id a)); ("boot_id", JStr (Attestation.boot_id a));
   ("tdx_quote", JBool (negb (String.eqb (sor (Attestation.tdx_quote a) (SessionGrant.tdx_quote s.(grant))) "")));
   ("session_id", JStr (SessionGrant.session_id s.(grant)));
   ("expires_at", JStr (SessionGrant.expires_at s.(grant)))].

Definition attestation_verdict (seed : string) (s : Session) : Verdict :=
  let summary := attestation_summary s ++
    [("summary", JStr (if s.(bound) then "bound to the session nonce" else "not bound"))] in
  if negb s.(bound) then
    fail "attestation" SPEC_MISMATCH "the attestation is not bound to the session nonce" seed
      [("attestation_nonce", JStr (stake 16 (Attestation.nonce s.(attestation))));
       ("expected", JStr (stake 16 s.(snonce)))] summary
  else match s.(report_data_ok) with
       | Some false =>
           fail "attestation" SPEC_MISMATCH
             "the attestation report data does not match the host key and nonce" seed [] summary
       | _ => pass "attestation" summary
       end.

(** [None] when the agent sent no report data. *)
Definition report_ok (a : Attestation.t) (host_key nonce : string) : option bool :=
  if String.eqb (Attestation.report_data_hex a) "" then None
  else Some (match fromhex (Attestation.report_data_hex a) with
             | Some data => report_data_matches data host_key nonce
             | None => false
             end).

(** How the use of a session ends, when no exception other than [AgentError] ends it. *)
Inductive ended (A : Type) : Type := Ended (a : A) | NoSession (k : FailureClass) (detail : string).
#[global] Arguments Ended {A}.
#[global] Arguments NoSession {A}.

(** The new key and the nonce. *)
Definition draw : NM H (string * string) := λ n,
  let h := n.(machine).(host) in
  (Ok (strip (out.(new_key) h), env.(rand_hex) 0 h), n).

Definition first_port (a b : Z) : Z :=
  if (a =? 0)%Z then if (b =? 0)%Z then 22%Z else b else a.

Definition in_grant {A} (id address : string) (ssh_port : Z) (key nonce : string) (g : SessionGrant.t)
    (ssh_timeout : pyfloat) (body : Session → NM H A) : NM H (ended A) :=
  if String.eqb (SessionGrant.ssh_username g) "" then
    mret (NoSession SSH_TRANSPORT "the grant names no ssh user")
  else if String.eqb (SessionGrant.ssh_host_key g) "" then
    mret (NoSession SSH_TRANSPORT "the grant carries no host key")
  else
    a ← nlift (Attestation.from_payload (SessionGrant.gpu_attestation g));
    let s := MkSession id address g nonce key a (Attestation.bound_to a nonce)
               (report_ok a (SessionGrant.ssh_host_key g) nonce) in
    c ← connect address (first_port (SessionGrant.ssh_port g) ssh_port) (SessionGrant.ssh_username g)
          (SessionGrant.ssh_host_key g) ssh_timeout;
    match c with
    | inr detail => mret (NoSession SSH_TRANSPORT detail)
    | inl _ => try_finally (x ← body s; mret (Ended x)) (open_connections (-1))
    end.

(** [with contextlib.suppress(AgentError): await self.call(... SESSION_CLOSE_PATH ...)] *)
Definition close_session (rig : dict) (key : string) (g : SessionGrant.t) : NM H unit :=
  _ ← call rig "POST" SESSION_CLOSE_PATH
        (Some (SessionClose.payload (SessionClose.Mk key (SessionGrant.session_id g)))) AGENT_TIMEOUT;
  mret tt.

Definition with_session {A} (rig : dict) (ssh_timeout : pyfloat) (body : Session → NM H A)
    : NM H (ended A) :=
  c ← nlift (connection_of rig);
  let '(address, _, ssh_port) := c in
  drawn ← draw;
  let '(key, nonce) := drawn in
  answer ← call rig "POST" SESSION_OPEN_PATH
             (Some (SessionOpen.payload (SessionOpen.Mk key nonce (sign (grant_blob key nonce))))) ssh_timeout;
  match answer with
  | AgentError k detail => mret (NoSession k detail)
  | Answered d =>
      g ← nlift (SessionGrant.from_payload d);
      try_finally (in_grant (py_str (getd "id" (JStr "") rig)) address ssh_port key nonce g ssh_timeout body)
        (close_session rig key g)
  end.
End Client.

(** ** Facts *)

Lemma NM_bind_ok {H A B} (m : NM H A) (f : A → NM H B) n b n' :
  (m ≫= f) n = (Ok b, n') → ∃ a n1, m n = (Ok a, n1) ∧ f a n1 = (Ok b, n').
Proof. unfold mbind, NM_bind. destruct (m n) as [[a|e] n1]; [eauto|done]. Qed.

Lemma NM_bindE {H A B} (m : NM H A) (f : A → NM H B) n :
  (m ≫= f) n = match m n with (Ok a, n') => f a n' | (Raise e, n') => (Raise e, n') end.
Proof. reflexivity. Qed.

Lemma NM_bind_lift {H A B} (r : res A) (f : A → NM H B) n :
  (nlift r ≫= f) n = match r with Ok a => f a n | Raise e => (Raise e, n) end.
Proof. by destruct r. Qed.

(** What a computation does to the connections and the requests, on every
    outcome: the connections it opened are closed again, and the requests it
    sends follow those sent before. *)
Definition tidy {H A} (m : NM H A) : Prop :=
  ∀ n, connections (m n).2 = connections n ∧ ∃ l, sent (m n).2 = sent n ++ l.

Section ClientFacts.
Context {H : Type} (env : Env H) (out : Outer H).

Lemma tidy_ret {A} (a : A) : tidy (mret a : NM H A).
Proof. intros n. split; [done|]. exists []. by rewrite app_nil_r. Qed.

Lemma tidy_lift {A} (r : res A) : tidy (nlift r : NM H A).
Proof. intros n. split; [done|]. exists []. by rewrite app_nil_r. Qed.

Lemma tidy_bind {A B} (m : NM H A) (f : A → NM H B) :
  tidy m → (∀ a, tidy (f a)) → tidy (m ≫= f).
Proof.
  intros Hm Hf n. destruct (Hm n) as [Hc (l & Hl)]. unfold mbind, NM_bind.
  destruct (m n) as [[a|e] n1]; cbn [snd] in *; [|by split; [|exists l]].
  destruct (Hf a n1) as [Hc' (l' & Hl')]. split; [congruence|]. exists (l ++ l').
  by rewrite Hl', Hl, app_assoc.
Qed.

(** A call sends nothing, or one request to the agent. *)
Lemma call_spec rig m p body t n :
  match base_url rig with
  | Ok (Some base) => ∃ hs answer n',
      call env out rig m p body t n = (Ok (judge_response m p answer), n') ∧
      connections n' = connections n ∧
      sent n' = sent n ++ [MkRequest m (base +:+ p) hs (canonical_json <$> body) (or_default t)]
  | _ => (call env out rig m p body t n).2 = n ∧ ∀ d, (call env out rig m p body t n).1 ≠ Ok (Answered d)
  end.
Proof.
  unfold call. destruct (base_url rig) as [[base|]|e]; [|by split..].
  unfold nlift, mbind, NM_bind, identity_headers, mbind, timestamp, NM_bind, send. cbn -[format_fixed].
  destruct (http out _ _) as [answer h]. by eexists _, answer, _.
Qed.

Lemma tidy_call rig m p body t : tidy (call env out rig m p body t).
Proof.
  intros n. pose proof (call_spec rig m p body t n) as Hc. destruct (base_url rig) as [[base|]|e].
  - destruct Hc as (hs & answer & n' & -> & Hn & Hs). split; [done|]. eauto.
  - destruct Hc as [-> _]. split; [done|]. exists []. by rewrite app_nil_r.
  - destruct Hc as [-> _]. split; [done|]. exists []. by rewrite app_nil_r.
Qed.

(** After a connection attempt one connection is open exactly when it was
    accepted, and it then presents the host key that was granted. *)
Lemma connect_spec address port user host_key t n :
  ∃ o n', connect env out address port user host_key t n = (Ok o, n') ∧ sent n' = sent n ∧
    match o with
    | inr _ => connections n' = connections n
    | inl _ => (connections n' = connections n + 1)%Z ∧ ∃ key h h',
        out.(connect_) address port user (strip host_key) t h = (Presented key, h') ∧
        same_key key host_key = true
    end.
Proof.
  unfold connect. destruct (String.eqb _ ""); [by eexists _, _|].
  unfold mbind, NM_bind, attempt.
  destruct (connect_ out address port user (strip host_key) t (host (machine n))) as [[x|x|key] h'] eqn:E;
    [by eexists _, _..|].
  cbn. destruct (same_key key host_key) eqn:Ek; eexists _, _; (split; [reflexivity|]); cbn; split; try done.
  - split; [done|]. by exists key, (host (machine n)), h'.
  - lia.
Qed.

(** A session the validator may trust as far as the agent's grant goes: the
    connection presented the host key of the grant, and the session records
    whether the attestation carries its own nonce. *)
Definition pinned (g : SessionGrant.t) (key nonce : string) (ssh_port : Z) (t : pyfloat) (s : Session) : Prop :=
  s.(grant) = g ∧ s.(public_key) = key ∧ s.(snonce) = nonce ∧
  s.(bound) = Attestation.bound_to s.(attestation) nonce ∧
  s.(report_data_ok) = report_ok s.(attestation) (SessionGrant.ssh_host_key g) nonce ∧
  ∃ pres h h',
    out.(connect_) s.(address) (first_port (SessionGrant.ssh_port g) ssh_port) (SessionGrant.ssh_username g)
      (strip (SessionGrant.ssh_host_key g)) t h = (Presented pres, h') ∧
    same_key pres (SessionGrant.ssh_host_key g) = true.

(** The computation of a grant closes the connection it opened, and runs [body]
    on a session pinned to the granted host key. *)
Lemma in_grant_spec {A} id address ssh_port key nonce g t (body : Session → NM H A) n :
  (∀ s, tidy (body s)) →
  let o := in_grant env out id address ssh_port key nonce g t body n in
  connections o.2 = connections n ∧ (∃ l, sent o.2 = sent n ++ l) ∧
  ∀ a, o.1 = Ok (Ended a) → ∃ s m m', pinned g key nonce ssh_port t s ∧ body s m = (Ok a, m').
Proof.
  intros Hb o. unfold o, in_grant.
  assert (∀ n : Net H, ∃ l, sent n = sent n ++ l) as Hnil by (intros; exists []; by rewrite app_nil_r).
  destruct (String.eqb (SessionGrant.ssh_username g) ""); [by split_and!|].
  destruct (String.eqb (SessionGrant.ssh_host_key g) ""); [by split_and!|].
  rewrite NM_bind_lift. destruct (Attestation.from_payload (SessionGrant.gpu_attestation g)) as [a|e]; [|by split_and!].
  set (s := MkSession _ _ _ _ _ _ _ _).
  destruct (connect_spec address (first_port (SessionGrant.ssh_port g) ssh_port) (SessionGrant.ssh_username g)
              (SessionGrant.ssh_host_key g) t n) as (c & n1 & Hc & Hs & Hn).
  rewrite NM_bindE, Hc. destruct c as [[]|detail].
  2:{ split; [done|]. split; [|done]. exists []. rewrite app_nil_r. exact Hs. }
  destruct Hn as [Hn (pres & h & h' & Hp & Hk)]. destruct (Hb s n1) as [Hbc (l & Hbs)].
  unfold try_finally. rewrite NM_bindE. destruct (body s n1) as [[x|e] n2] eqn:Ebody; cbn in *.
  - split; [lia|]. split; [exists l; congruence|]. intros y [= <-].
    exists s, n1, n2. split; [|done]. unfold pinned. split_and!; try done. by exists pres, h, h'.
  - split; [lia|]. split; [exists l; congruence|]. done.
Qed.

(** The calls and the connection leave the log of the machine alone, and a
    session is used at most once. *)
Lemma call_log rig m p body t n : log (machine (call env out rig m p body t n).2) = log (machine n).
Proof.
  unfold call. rewrite NM_bind_lift. destruct (base_url rig) as [[base|]|e]; [|done..].
  unfold mbind, NM_bind, identity_headers, mbind, timestamp, NM_bind, send. cbn -[format_fixed].
  by destruct (http out _ _).
Qed.

Lemma connect_log address port user host_key t n :
  log (machine (connect env out address port user host_key t n).2) = log (machine n).
Proof.
  unfold connect. destruct (String.eqb _ ""); [done|]. unfold mbind, NM_bind, attempt.
  destruct (connect_ out _ _ _ _ _ _) as [[x|x|key] h']; [done..|]. cbn. by destruct (same_key key host_key).
Qed.

Lemma in_grant_used {A} id address ssh_port key nonce g t (body : Session → NM H A) n r n' :
  in_grant env out id address ssh_port key nonce g t body n = (r, n') →
  (log (machine n') = log (machine n) ∧ ∀ a, r ≠ Ok (Ended a)) ∨
  ∃ s m, pinned g key nonce ssh_port t s ∧ log (machine m) = log (machine n) ∧
    log (machine n') = log (machine (body s m).2) ∧ ∀ a, r = Ok (Ended a) → (body s m).1 = Ok a.
Proof.
  unfold in_grant. destruct (String.eqb (SessionGrant.ssh_username g) ""); [by intros [= <- <-]; left|].
  destruct (String.eqb (SessionGrant.ssh_host_key g) ""); [by intros [= <- <-]; left|].
  rewrite NM_bind_lift. destruct (Attestation.from_payload (SessionGrant.gpu_attestation g)) as [a|e];
    [|by intros [= <- <-]; left].
  set (s := MkSession _ _ _ _ _ _ _ _).
  pose proof (connect_log address (first_port (SessionGrant.ssh_port g) ssh_port) (SessionGrant.ssh_username g)
                (SessionGrant.ssh_host_key g) t n) as Hl.
  destruct (connect_spec address (first_port (SessionGrant.ssh_port g) ssh_port) (SessionGrant.ssh_username g)
              (SessionGrant.ssh_host_key g) t n) as (c & n1 & Hc & Hs & Hn).
  rewrite NM_bindE, Hc. rewrite Hc in Hl. cbn [snd] in Hl. destruct c as [[]|detail]; [|by intros [= <- <-]; left].
  destruct Hn as [_ (pres & h & h' & Hp & Hk)]. unfold try_finally. rewrite NM_bindE. intros E. right.
  exists s, n1. split; [unfold pinned; split_and!; try done; by exists pres, h, h'|]. split; [done|].
  destruct (body s n1) as [[x|e] n2]; injection E as <- <-; (split; [done|]); [by intros a' [= ->]|done].
Qed.

Lemma with_session_used {A} rig t (body : Session → NM H A) n r n' :
  with_session env out rig t body n = (r, n') →
  (log (machine n') = log (machine n) ∧ ∀ a, r ≠ Ok (Ended a)) ∨
  ∃ g key nonce port s m, pinned g key nonce port t s ∧ log (machine m) = log (machine n) ∧
    log (machine n') = log (machine (body s m).2) ∧ ∀ a, r = Ok (Ended a) → (body s m).1 = Ok a.
Proof.
  unfold with_session. rewrite NM_bind_lift. destruct (connection_of rig) as [[[address api] port]|e];
    [|by intros [= <- <-]; left].
  rewrite NM_bindE. unfold draw at 1. set (key := strip _). set (nonce := rand_hex env _ _). rewrite NM_bindE.
  set (body0 := Some (SessionOpen.payload _)). pose proof (call_log rig "POST" SESSION_OPEN_PATH body0 t n) as Hl.
  destruct (call env out rig "POST" SESSION_OPEN_PATH body0 t n) as [[[d|k x]|e] n1]; cbn [snd] in Hl;
    [|by intros [= <- <-]; left..].
  rewrite NM_bind_lift. destruct (SessionGrant.from_payload d) as [g|e]; [|by intros [= <- <-]; left].
  unfold try_finally. destruct (in_grant env out _ _ _ _ _ _ _ _ n1) as [o n2] eqn:Eg.
  unfold close_session. rewrite NM_bindE.
  set (body1 := Some (SessionClose.payload _)).
  pose proof (call_log rig "POST" SESSION_CLOSE_PATH body1 AGENT_TIMEOUT n2) as Hl2.
  destruct (call env out rig "POST" SESSION_CLOSE_PATH body1 AGENT_TIMEOUT n2) as [[c|e] n3]; cbn [snd] in Hl2.
  all: intros [= <- <-]; rewrite Hl2, <- Hl; apply in_grant_used in Eg as [[Hn Ho]|(s & m & Hp & Hm & Hn & Ho)];
    [left; by split|right; exists g, key, nonce, port, s, m; by split_and!].
Qed.

Lemma tidy_finally {A} (m : NM H A) (f : NM H unit) : tidy m → tidy f → tidy (try_finally m f).
Proof.
  intros Hm Hf n. unfold try_finally. destruct (Hm n) as [Hc (l & Hl)]. destruct (m n) as [r n1]. cbn [snd] in *.
  destruct (Hf n1) as [Hc' (l' & Hl')]. destruct (f n1) as [[u|e] n2]; cbn [snd] in *;
    (split; [congruence|]; exists (l ++ l'); by rewrite Hl', Hl, app_assoc).
Qed.

Lemma tidy_with_session {A} rig t (body : Session → NM H A) :
  (∀ s, tidy (body s)) → tidy (with_session env out rig t body).
Proof.
  intros Hb. unfold with_session. apply tidy_bind; [apply tidy_lift|]. intros [[address api] port].
  apply tidy_bind; [intros n; split; [done|exists []; by rewrite app_nil_r]|]. intros [key nonce].
  apply tidy_bind; [apply tidy_call|]. intros [d|k x]; [|apply tidy_ret].
  apply tidy_bind; [apply tidy_lift|]. intros g. apply tidy_finally.
  - intros n. destruct (in_grant_spec (py_str (getd "id" (JStr "") rig)) address port key nonce g t body n Hb)
      as (Hc & Hs & _). by split.
  - unfold close_session. apply tidy_bind; [apply tidy_call|]. intros; apply tidy_ret.
Qed.

Definition opening (base key nonce : string) (hs : list (string * string)) (t : pyfloat) : request :=
  MkRequest "POST" (base +:+ SESSION_OPEN_PATH) hs
    (Some (canonical_json (SessionOpen.payload (SessionOpen.Mk key nonce (sign out (grant_blob key nonce))))))
    (or_default t).
Definition closing (base key : string) (g : SessionGrant.t) (hs : list (string * string)) : request :=
  MkRequest "POST" (base +:+ SESSION_CLOSE_PATH) hs
    (Some (canonical_json (SessionClose.payload (SessionClose.Mk key (SessionGrant.session_id g)))))
    AGENT_TIMEOUT.

(** C16. A session is always closed: whatever its use does, returns or raises, as
    long as it cleans up after itself, every grant the agent gave is followed, at
    the very end, by the request to close that session, and no connection stays
    open; without a grant nothing is used.  And what is used is a session over a
    connection that presented the granted host key, which knows whether the
    attestation answers its own fresh nonce. *)
Theorem session_closed {A} rig t (body : Session → NM H A) n r n' :
  (∀ s, tidy (body s)) →
  with_session env out rig t body n = (r, n') →
  connections n' = connections n ∧
  match base_url rig with
  | Ok (Some base) => ∃ key nonce hs answer,
      let o := judge_response "POST" SESSION_OPEN_PATH answer in
      match o with
      | Answered d =>
          match SessionGrant.from_payload d with
          | Ok g => ∃ used hs' port,
              sent n' = sent n ++ opening base key nonce hs t :: used ++ [closing base key g hs'] ∧
              ∀ a, r = Ok (Ended a) → ∃ s m m', pinned g key nonce port t s ∧ body s m = (Ok a, m')
          | Raise e => sent n' = sent n ++ [opening base key nonce hs t] ∧ r = Raise e
          end
      | AgentError k detail => sent n' = sent n ++ [opening base key nonce hs t] ∧ r = Ok (NoSession k detail)
      end
  | _ => sent n' = sent n ∧ ∀ a, r ≠ Ok (Ended a)
  end.
Proof.
  intros Hb. unfold with_session. rewrite NM_bind_lift.
  destruct (connection_of rig) as [[[address api] port]|e] eqn:Ec.
  2:{ intros [= <- <-]. split; [done|]. unfold base_url. rewrite Ec. done. }
  rewrite NM_bindE. unfold draw at 1. set (key := strip _). set (nonce := rand_hex env _ _).
  rewrite NM_bindE. set (body0 := Some (SessionOpen.payload _)).
  pose proof (call_spec rig "POST" SESSION_OPEN_PATH body0 t n) as Hcall.
  destruct (base_url rig) as [[base|]|e] eqn:Eb.
  2,3: destruct Hcall as [Hn Hd];
       destruct (call env out rig "POST" SESSION_OPEN_PATH body0 t n) as [[[d|k x]|e'] n1];
       [by destruct (Hd d)|cbn in Hn; subst n1; by intros [= <- <-]..].
  - destruct Hcall as (hs & answer & n1 & -> & Hc1 & Hs1). intros E.
    assert (connections n' = connections n ∧
      match judge_response "POST" SESSION_OPEN_PATH answer with
      | Answered d =>
          match SessionGrant.from_payload d with
          | Ok g => ∃ used hs' port,
              sent n' = sent n1 ++ used ++ [closing base key g hs'] ∧
              ∀ a, r = Ok (Ended a) → ∃ s m m', pinned g key nonce port t s ∧ body s m = (Ok a, m')
          | Raise e => sent n' = sent n1 ∧ r = Raise e
          end
      | AgentError k detail => sent n' = sent n1 ∧ r = Ok (NoSession k detail)
      end) as [Hc Hm].
    { destruct (judge_response "POST" SESSION_OPEN_PATH answer) as [d|k detail]; [|by injection E as <- <-].
      rewrite NM_bind_lift in E. destruct (SessionGrant.from_payload d) as [g|e]; [|by injection E as <- <-].
      destruct (in_grant_spec (py_str (getd "id" (JStr "") rig)) address port key nonce g t body n1 Hb)
        as (Hc2 & (l & Hs2) & Hp).
      unfold try_finally in E. destruct (in_grant env out _ _ _ _ _ _ _ _ n1) as [o n2]. cbn in Hc2, Hs2, Hp.
      unfold close_session in E. rewrite NM_bindE in E.
      pose proof (call_spec rig "POST" SESSION_CLOSE_PATH
        (Some (SessionClose.payload (SessionClose.Mk key (SessionGrant.session_id g)))) AGENT_TIMEOUT n2) as Hcl.
      rewrite Eb in Hcl. destruct Hcl as (hs' & answer' & n3 & Hcl & Hc3 & Hs3). rewrite Hcl in E.
      injection E as <- <-. split; [congruence|]. exists l, hs', port. rewrite Hs3, Hs2, <- app_assoc. by split. }
    split; [done|]. exists key, nonce, hs, answer. cbn zeta.
    destruct (judge_response "POST" SESSION_OPEN_PATH answer) as [d|k detail];
      [|destruct Hm as [-> ->]; by rewrite Hs1].
    destruct (SessionGrant.from_payload d) as [g|e]; [|destruct Hm as [-> ->]; by rewrite Hs1].
    destruct Hm as (used & hs' & port' & Hs & Hp). exists used, hs', port'. split; [|done].
    rewrite Hs, Hs1, <- app_assoc. done.
Qed.
End ClientFacts.

(** ** Calls and the agent that answers them *)

Lemma hex_spaceless s : spaceless (hex s) = true.
Proof.
  induction s as [|c s IH]; [done|].
  assert (hex (String c s) = String (hex_digit (code c / 16)) (String (hex_digit (code c mod 16)) (hex s))) as -> by done.
  unfold spaceless in *. cbn [sforall]. rewrite IH.
  destruct c as [[] [] [] [] [] [] [] []]; reflexivity.
Qed.

Lemma sign_spaceless {H} (out : Outer H) message : spaceless (sign out message) = true.
Proof. unfold spaceless, sign. rewrite sforall_app. apply andb_true_iff. split; [done|apply hex_spaceless]. Qed.

Lemma own_signature_verifies {H} (out : Outer H) keypair_verify message :
  keypair_verify out.(hotkey) message (bytes_of (out.(sign_) message)) = true → out.(hotkey) ≠ "" →
  Auth.verify_hotkey keypair_verify out.(hotkey) message (sign out message) = true.
Proof.
  intros Hv Hne. unfold Auth.verify_hotkey. apply String.eqb_neq in Hne. rewrite Hne. cbn [orb].
  rewrite strip_no_space by apply sign_spaceless.
  unfold sign, Auth.drop_0x. change ("0x" +:+ ?x) with (String "0" (String "x" x)). cbn [stake sdrop String.eqb].
  change (String.eqb (lower "0x") "0x") with true. cbn iota. by rewrite fromhex_hex.
Qed.

(** The headers of a request the validator signs, at a stamp. *)
Definition headers_at {H} (out : Outer H) (method path : string) (body : option dict) (stamp : string) : list (string * string) :=
  let raw := match body with Some b => canonical_json b | None => "" end in
  [("accept", "application/json")] ++ (if body then [("content-type", "application/json")] else []) ++
  [(HEADER_HOTKEY, out.(hotkey)); (HEADER_TIMESTAMP, stamp);
   (HEADER_SIGNATURE, sign out (signing_bytes method path stamp raw))].

Definition next_stamp {H} (env : Env H) (n : Net H) : pyfloat :=
  fmax (env.(wall) n.(machine).(host)) (fadd n.(last_stamp) (flit (1 # 1000))).

(** What a call sends and gives, when the rig has an address. *)
Lemma call_sends {H} (env : Env H) (out : Outer H) rig m p body t n base :
  base_url rig = Ok (Some base) →
  let r := MkRequest m (base +:+ p) (headers_at out m p body (format_fixed 3 (next_stamp env n)))
             (canonical_json <$> body) (or_default t) in
  ∃ n', call env out rig m p body t n = (Ok (judge_response m p (out.(http) r n.(machine).(host)).1), n') ∧
    sent n' = sent n ++ [r].
Proof.
  intros Hb r. unfold call. rewrite NM_bind_lift, Hb. unfold identity_headers, timestamp, send.
  cbv beta iota zeta delta [mbind NM_bind mret NM_ret]. cbn [machine].
  fold (next_stamp env n). change (http out _ _) with (http out r (host (machine n))).
  destruct (http out r (host (machine n))) as [answer h]. eexists. split; reflexivity.
Qed.

(** The agent accepts those headers. *)
Lemma headers_accepted {H} (out : Outer H) keypair_verify validators m p body stamp window moment :
  (∀ msg, keypair_verify out.(hotkey) msg (bytes_of (out.(sign_) msg)) = true) →
  spaceless out.(hotkey) = true → out.(hotkey) ≠ "" → out.(hotkey) ∈ Auth.members validators →
  spaceless stamp = true → Auth.fresh stamp window moment = true →
  Auth.check_request keypair_verify validators m p (headers_at out m p body stamp)
    (match body with Some b => canonical_json b | None => "" end) window moment = Auth.Accepted out.(hotkey).
Proof.
  intros Hv Hsp Hne Hmem Hst Hf. set (hs := headers_at out m p body stamp).
  set (raw := match body with Some b => canonical_json b | None => "" end).
  assert (Auth.header HEADER_TIMESTAMP hs = stamp) as Ht.
  { unfold hs, Auth.header. destruct body; cbn; by apply strip_no_space. }
  assert (Auth.header HEADER_HOTKEY hs = hotkey out) as Hh.
  { unfold hs, Auth.header. destruct body; cbn; by apply strip_no_space. }
  assert (Auth.header HEADER_SIGNATURE hs = sign out (signing_bytes m p stamp raw)) as Hs.
  { unfold hs, Auth.header. destruct body; cbn -[sign]; apply strip_no_space, sign_spaceless. }
  pose proof (own_signature_verifies out keypair_verify (signing_bytes m p stamp raw) (Hv _) Hne) as Hverify.
  unfold Auth.check_request. rewrite Ht in *. rewrite Hh, Hs, Hf, Hverify.
  unfold Auth.has_validator. rewrite (bool_decide_eq_true_2 _ Hmem).
  apply String.eqb_neq in Hne. rewrite Hne. cbn [orb negb].
  destruct (String.eqb stamp "") eqn:Es; [|done].
  apply String.eqb_eq in Es. rewrite Es in Hf. vm_compute in Hf. discriminate.
Qed.

(** C20. The requests of the validator pass the check of the agent ([Auth]): for
    every method, path and body, whoever makes the call, as long as the library
    verifies what it signed, the hotkey is an active validator, and the stamp
    the request carries is within the window when the agent reads it. *)
Theorem calls_accepted {H} (env : Env H) (out : Outer H) keypair_verify validators
    rig m p body t n a n' r window moment :
  (∀ msg, keypair_verify out.(hotkey) msg (bytes_of (out.(sign_) msg)) = true) →
  spaceless out.(hotkey) = true → out.(hotkey) ≠ "" → out.(hotkey) ∈ Auth.members validators →
  call env out rig m p body t n = (Ok a, n') → sent n' = sent n ++ [r] →
  Auth.fresh (Auth.header HEADER_TIMESTAMP r.(headers)) window moment = true →
  Auth.check_request keypair_verify validators r.(method) p r.(headers)
    (default "" r.(content)) window moment = Auth.Accepted out.(hotkey).
Proof.
  intros Hv Hsp Hne Hmem Hcall Hsent. destruct (base_url rig) as [[base|]|e] eqn:Eb.
  - destruct (call_sends env out rig m p body t n base Eb) as (n1 & E & Hs). rewrite E in Hcall.
    injection Hcall as _ ->. rewrite Hs in Hsent. apply app_inj_1 in Hsent as [_ [= <-]]; [|done]. cbn [method headers content].
    set (stamp := format_fixed 3 (next_stamp env n)).
    assert (spaceless stamp = true) as Hst by apply spaceless_fixed.
    assert (Auth.header HEADER_TIMESTAMP (headers_at out m p body stamp) = stamp) as Ht.
    { unfold Auth.header. destruct body; cbn; by apply strip_no_space. }
    rewrite Ht. intros Hf. replace (default "" (canonical_json <$> body)) with
      (match body with Some b => canonical_json b | None => "" end) by (by destruct body).
    by apply headers_accepted.
  - exfalso. unfold call in Hcall. rewrite NM_bind_lift, Eb in Hcall. injection Hcall as _ <-.
    apply (f_equal List.length) in Hsent. rewrite length_app in Hsent. simpl in Hsent. lia.
  - unfold call in Hcall. rewrite NM_bind_lift, Eb in Hcall. discriminate.
Qed.

(** A machine that grants a session, and a validator that uses it for one command. *)
Definition sample_env : Env unit :=
  MkEnv _ (λ c _ _ h, (MkResult c 0 "ok" "" f0 "", h)) (λ _ h, h) (λ _, f0) (λ _, fz 1000) (λ _, [])
    (λ _ _, "ab") (λ _ _, "") (λ _, None).
Definition sample_grant : dict :=
  [("ssh_username", JStr "mt"); ("ssh_port", JInt 2222); ("ssh_host_key", JStr "ssh-ed25519 AAAA host");
   ("session_id", JStr "s1")].
Definition sample_outer : Outer unit :=
  MkOuter "5Hot" (λ m, stake 2 m) (λ r h, (Response 200 false "{}" (Some (JDict sample_grant)), h))
    (λ _, "ssh-ed25519 BBBB") (λ _ _ _ _ _ h, (Presented (Some "ssh-ed25519 AAAA"), h)).
Definition sample_rig : dict :=
  [("id", JStr "rig-1"); ("connection", JDict [("address", JStr "10.0.0.7"); ("api_port", JInt 8080)])].
Definition sample_net : Net unit :=
  MkNet (MkSt tt [] (MkInflight [] []) (MkRecords [] []) [] []) f0 [] 0.
Definition sample_body (s : Session) : NM unit CommandResult := on_machine (run sample_env "true" (fz 5)).

Lemma session_closed_witness :
  let o := with_session sample_env sample_outer sample_rig (fz 60) sample_body sample_net in
  o.1 = Ok (Ended (MkResult "true" 0 "ok" "" f0 "")) ∧ connections o.2 = 0%Z ∧ List.length (sent o.2) = 2%nat.
Proof.
  split; [vm_compute; reflexivity|].
  destruct (with_session sample_env sample_outer sample_rig (fz 60) sample_body sample_net) as [r n'] eqn:E.
  destruct (session_closed sample_env sample_outer sample_rig (fz 60) sample_body sample_net r n') as [Hc Hm];
    [|exact E|].
  - intros s n. split; [reflexivity|]. exists []. exact (eq_sym (app_nil_r _)).
  - split; [exact Hc|]. revert E. vm_compute. by intros [= _ <-].
Defined.

Lemma calls_accepted_witness :
  let o := call sample_env sample_outer sample_rig "POST" PING_PATH (Some []) AGENT_TIMEOUT sample_net in
  ∃ r, sent o.2 = [r] ∧
    Auth.check_request (λ _ m s, bool_decide (s = bytes_of (stake 2 m))) (Auth.MkValidators ["5Hot"] f0 "") r.(method)
      PING_PATH r.(headers) (default "" r.(content)) 120 (fz 1001) = Auth.Accepted "5Hot".
Proof.
  destruct (call sample_env sample_outer sample_rig "POST" PING_PATH (Some []) AGENT_TIMEOUT sample_net)
    as [[a|] n'] eqn:E; [|vm_compute in E; discriminate].
  destruct (sent n') as [|r [|]] eqn:Es;
    [exfalso; revert E Es; vm_compute; by intros [= _ <-]| |exfalso; revert E Es; vm_compute; by intros [= _ <-]].
  exists r. split; [exact Es|].
  apply (calls_accepted sample_env sample_outer (λ _ m s, bool_decide (s = bytes_of (stake 2 m)))
           (Auth.MkValidators ["5Hot"] f0 "") sample_rig "POST" PING_PATH (Some []) AGENT_TIMEOUT sample_net a n' r 120 (fz 1001)).
  - intros msg. apply bool_decide_eq_true_2. reflexivity.
  - reflexivity.
  - discriminate.
  - apply list_elem_of_here.
  - exact E.
  - exact Es.
  - assert ([r] = sent (call sample_env sample_outer sample_rig "POST" PING_PATH (Some []) AGENT_TIMEOUT sample_net).2)
      as Hr by (rewrite E; exact (eq_sym Es)).
    vm_compute in Hr. injection Hr as ->. vm_compute. reflexivity.
Defined.

(** Two requests within a millisecond of each other can carry the same stamp: it
    grows by a thousandth that is no binary fraction, and is printed rounded. *)
Example same_stamp :
  let last := FFin (3565158400005243 # 2097152) in
  let n := MkNet (MkSt tt [] (MkInflight [] []) (MkRecords [] []) [] []) last [] 0 in
  let o := timestamp sample_env n in
  o.1 = Ok "1700000000.003" ∧ format_fixed 3 last = "1700000000.003" ∧ flt last (last_stamp o.2) = true.
Proof. vm_compute. repeat split. Qed.
