(* ===== verification/Scrape.v ===== *)
(** * The scrape of a machine (validator/verify/scrape.py)

    The validator sends a script with freshly drawn field names, and the key that
    decrypts its answer is a digest of those names: only an answer of this very
    run can be read.  [Fernet] is a parameter. *)

From Stdlib Require Import Ascii String QArith.
From S2P Require Import Prelude.
From S2P Require Import PyStr.
From S2P Require Import PyFloat.
From S2P Require Import PyJson.
From S2P Require Import Failures.
From S2P Require Import Sha256.
From S2P Require Import Keys.
From S2P Require Import Ip.
From S2P Require Import Shell.
From S2P Require Import Runner.
From S2P Require Import Checks.
Local Open Scope string_scope.
Local Open Scope list_scope.

Definition TOKEN_PREFIX : string := "gAAAAA".
Definition SCAN_BYTES : nat := Z.to_nat (256 * 1024).
Definition MAX_CANDIDATES : nat := 20.
Definition quotes : string := String dquote "".
(** [ERROR_LINE] *)
Definition is_error_line (s : string) : bool := startswith ("{" +:+ quotes +:+ "error" +:+ quotes +:+ ":") s.

(** ** The obfuscated payload *)

Record Obfuscated : Type := MkObfuscated { text : string; names : list (string * string); key : string }.

(** [FIELD_LINE] on one line: the constant and the field name. *)
Definition field_line (line : string) : option (string * string) :=
  if negb (startswith "F_" line) then None else
  let '(a, rest) := take_while (λ c, is_upper_ascii c || Ascii.eqb c "_"%char) (sdrop 2 line) in
  let opening := " = " +:+ quotes in
  if String.eqb a "" || negb (startswith opening rest) then None else
  let '(b, rest) := take_while (λ c, is_lower_ascii c || Ascii.eqb c "_"%char) (sdrop (slen opening) rest) in
  if String.eqb b "" || negb (String.eqb rest quotes) then None else Some ("F_" +:+ a, b).

(** The substitution, line after line; [draw k] is the [k]-th token drawn. *)
Fixpoint rewrite_lines (draw : nat → string) (k : nat) (lines : list string)
    : list string * list (string * string) :=
  match lines with
  | [] => ([], [])
  | line :: lines' =>
      match field_line line with
      | None => let '(ls, names) := rewrite_lines draw k lines' in (line :: ls, names)
      | Some (constant, field) =>
          let fresh := "_" +:+ draw k in
          let '(ls, names) := rewrite_lines draw (S k) lines' in
          ((constant +:+ " = " +:+ quotes +:+ fresh +:+ quotes) :: ls, (fresh, field) :: names)
      end
  end.

(** [names] is filled in the order of the lines: a token drawn twice keeps the
    last field. *)
Definition obfuscate (draw : nat → string) (original : string) : res Obfuscated :=
  let '(lines, pairs) := rewrite_lines draw 0 (split_on nls original) in
  match pairs with
  | [] => Raise ValueError
  | _ => Ok (MkObfuscated (join nls lines)
               (foldl (λ d kv, dset kv.1 kv.2 d) [] pairs)
               (b64url_padded (bytes_of (sha256 (String.concat "" pairs.*1)))))
  end.

(** ** Reading the answer *)

(** The lines of the last part of the output, the last first. *)
Definition last_lines (stdout : string) : list string :=
  strip <$> rev (splitlines (slast SCAN_BYTES stdout)).

Definition candidates (stdout : string) : list string :=
  take MAX_CANDIDATES (List.filter (startswith TOKEN_PREFIX) (last_lines stdout)).

Section Scrape.
(** [json.loads] and [Fernet(key).decrypt(token)]; [None] when they raise. *)
Variable loads : string → option json.
Variable fernet : string → string → option string.

Fixpoint reported (lines : list string) : string :=
  match lines with
  | [] => ""
  | line :: lines' =>
      if is_error_line line then
        match loads line with
        | Some (JDict d) => if dmem "error" d then py_str (getd "error" (JStr "") d) else reported lines'
        | _ => reported lines'
        end
      else reported lines'
  end.
Definition error_line (stdout : string) : string := reported (last_lines stdout).

Definition is_ascii (s : string) : bool := sforall (λ c, (code c <? 128)%Z) s.

Fixpoint decrypt (key : string) (tokens : list string) : option dict :=
  match tokens with
  | [] => None
  | token :: tokens' =>
      match (if is_ascii token then fernet key token else None) ≫= loads with
      | Some (JDict d) => Some d
      | _ => decrypt key tokens'
      end
  end.
End Scrape.

(** [{names.get(key, key): value for key, value in card.items()}] *)
Definition restore_card (names : list (string * string)) (card : dict) : dict :=
  foldl (λ d kv, dset (default kv.1 (dget kv.1 names)) kv.2 d) [] card.

Definition restore_cards (names : list (string * string)) (l : list json) : list json :=
  omap (λ card, match card with JDict d => Some (JDict (restore_card names d)) | _ => None end) l.

Definition restore (data : dict) (names : list (string * string)) : res dict :=
  l ← get_list "gpus" data; mret (dset "gpus" (JList (restore_cards names l)) data).

(** ** The specification read from a scrape *)

(** [x.get(k) or {}] *)
Definition jget_or (k : string) (j : json) : res json := v ← jget k JNull j; mret (jor v (JDict [])).
(** [str(x.get(k, "") or "")] *)
Definition jtext (k : string) (j : json) : res string :=
  v ← jget k (JStr "") j; mret (py_str (jor v (JStr ""))).
(** [int((x.get(k) or {}).get(k') or 0)] *)
Definition jcount (k k' : string) (j : json) : res Z :=
  inner ← jget_or k j; v ← jget k' JNull inner; py_int (jor v (JInt 0)).
(** [bool((x.get(k) or {}).get(k', False))] *)
Definition jflag (k k' : string) (j : json) : res bool :=
  inner ← jget_or k j; v ← jget k' (JBool false) inner; mret (truthy v).
(** [str((x.get(k) or {}).get(k', "") or "")] *)
Definition jinner_text (k k' : string) (j : json) : res string := inner ← jget_or k j; jtext k' inner.

Fixpoint spec_gpus (l : list json) : res (list json) :=
  match l with
  | [] => Ok []
  | card :: l' =>
      uuid ← jget "uuid" JNull card;
      if negb (truthy uuid) then spec_gpus l'
      else
        model ← jtext "name" card;
        memory ← jget "memory_total_mb" JNull card;
        mb ← py_int (jor memory (JInt 0));
        rest ← spec_gpus l';
        mret (JDict [("model", JStr model); ("memory_mb", JInt mb); ("uuid", JStr (py_str uuid))] :: rest)
  end.

Definition build_spec (data : dict) (address port_range : string) : res dict :=
  let host := jor (getv "host" data) (JDict []) in
  let nvml := jor (getv "nvml" data) (JDict []) in
  let docker := jor (getv "docker" data) (JDict []) in
  let probes := jor (getv "probes" data) (JDict []) in
  disk ← jget_or "disk" host;
  docker_root ← jget "docker_root" JNull disk;
  volume ← (if truthy docker_root then Ok docker_root else jget_or "root" disk);
  cards ← get_list "gpus" data;
  gpus ← spec_gpus cards;
  sysbox ← jflag "sysbox" "ok" probes;
  idmapped ← jflag "idmapped" "idmapped" probes;
  rotational ← jget "rotational" JNull volume;
  cpu ← jcount "cpu" "count" host;
  ram ← jcount "memory" "total_mb" host;
  total ← jget "total_gb" JNull volume;
  disk_gb ← py_float (jor total (JFloat f0));
  os ← jinner_text "os" "id" host;
  os_version ← jinner_text "os" "version" host;
  kernel ← jtext "kernel" host;
  arch ← jtext "arch" host;
  driver ← jtext "driver" nvml;
  cuda ← jtext "cuda" nvml;
  quota ← jflag "storage_quota" "ok" probes;
  hostname ← jtext "hostname" host;
  runtimes ← jget "runtimes" JNull docker;
  runtimes ← py_iter (jor runtimes (JList []));
  mret [("gpus", JList gpus); ("cpu_cores", JInt cpu); ("ram_mb", JInt ram); ("disk_gb", JFloat disk_gb);
        ("disk_ssd", JBool (match rotational with JBool true => false | _ => true end));
        ("os", JStr os); ("os_version", JStr os_version); ("kernel", JStr kernel); ("arch", JStr arch);
        ("driver", JStr driver); ("cuda", JStr cuda);
        ("isolation", JDict [("sysbox", JBool sysbox); ("idmapped", JBool idmapped)]);
        ("storage_quota", JBool quota); ("hostname", JStr hostname);
        ("public_ipv4", JBool (is_public address)); ("port_range", JStr port_range);
        ("docker_runtimes", JList runtimes)].

(** ** [run] *)

Record ScrapeResult : Type := MkScraped {
  verdict : Verdict; data : option dict; spec : option dict; result_names : list (string * string) }.

Definition refused (v : Verdict) : ScrapeResult := MkScraped v None None [].

Section Run.
Context {H : Type} (env : Env H).
Variable fernet : string → string → option string.
(** The session: its python, its address and the port range of its grant; the
    text of the payload. *)
Variables python address port_range payload : string.

Definition no_data (result : CommandResult) (tokens : list string) (seed : string) : Failure :=
  default (MkFailure AGENT_CRASH
             (match tokens with
              | [] => "the scrape produced no output the validator could decrypt"
              | _ => "no scrape token decrypted with the job key"
              end) seed
             [("candidates", JInt (Z.of_nat (List.length tokens)));
              ("stderr", JStr (stderr_tail 400 result))])
    (classify result seed).

(** What the command printed, read with the key of this run. *)
Definition judge (prepared : Obfuscated) (result : CommandResult) (seed : string) : res ScrapeResult :=
  let evidence := [("command_ms", JFloat (fround 1 result.(relapsed_ms)));
                   ("stdout_bytes", JInt (Z.of_nat (slen result.(stdout))))] in
  if transport_failed result then
    Ok (refused (fail "scrape" SSH_TRANSPORT result.(error) seed [] evidence))
  else
  let text := error_line env.(loads) result.(stdout) in
  if negb (String.eqb text "") then
    Ok (refused (fail "scrape" AGENT_CRASH ("the scrape reported: " +:+ stake 300 text) seed [] evidence))
  else
  let tokens := candidates result.(stdout) in
  match decrypt env.(loads) fernet prepared.(key) tokens with
  | None =>
      Ok (MkScraped (MkVerdict "scrape" (Some (no_data result tokens seed)) evidence f0)
            None None prepared.(names))
  | Some data =>
      restored ← restore data prepared.(names);
      spec ← build_spec restored address port_range;
      let nvml := jor (getv "nvml" restored) (JDict []) in
      errors ← jget "errors" JNull nvml;
      errors ← py_iter (jor errors (JList []));
      let cards := match getv "gpus" spec with JList l => l | _ => [] end in
      let evidence := evidence ++
        [("summary", JStr (str_of_Z (Z.of_nat (List.length cards)) +:+ " cards, driver " +:+
                           sor (get_str "driver" spec) "unknown"));
         ("elapsed_ms", getv "elapsed_ms" restored);
         ("candidates", JInt (Z.of_nat (List.length tokens))); ("nvml_errors", JList errors)] in
      mret (MkScraped (MkVerdict "scrape" None evidence result.(relapsed_ms))
              (Some restored) (Some spec) prepared.(names))
  end.

(** A run over SSH reports its end as a result, so nothing raises [SshError]. *)
Definition run (timeout : pyfloat) (seed : string) : M H ScrapeResult :=
  st ← get;
  prepared ← lift (obfuscate (λ k, env.(rand_hex) k st.(host)) payload);
  result ← run_with env (quote python +:+ " -I -") timeout (Some prepared.(text));
  lift (judge prepared result seed).
End Run.

(** ** Facts *)

Lemma decrypt_spec loads fernet key tokens d :
  decrypt loads fernet key tokens = Some d →
  ∃ token plain, token ∈ tokens ∧ fernet key token = Some plain ∧ loads plain = Some (JDict d).
Proof.
  induction tokens as [|token tokens IH]; cbn [decrypt]; [done|].
  assert (decrypt loads fernet key tokens = Some d → ∃ token' plain, token' ∈ token :: tokens ∧
    fernet key token' = Some plain ∧ loads plain = Some (JDict d)) as Hrest.
  { intros (t & p & Ht & H)%IH. exists t, p. split; [by apply list_elem_of_further|done]. }
  destruct (is_ascii token); [|done]. destruct (fernet key token) as [plain|] eqn:Ef; [|done].
  cbn. destruct (loads plain) as [[]|] eqn:El; try done. intros [= ->].
  exists token, plain. split; [apply list_elem_of_here|done].
Qed.

(** ** The names drawn are undone *)

(** The key the payload writes for a field: the token its constant was given. *)
Definition token_of (pairs : list (string * string)) (field : string) : string :=
  match list_find (λ p, p.2 = field) pairs with Some (_, p) => p.1 | None => field end.
Definition rename_card (pairs : list (string * string)) (card : dict) : dict :=
  (λ kv, (token_of pairs kv.1, kv.2)) <$> card.

Lemma rewrite_lines_tokens draw lines : ∀ k ls pairs,
  rewrite_lines draw k lines = (ls, pairs) →
  pairs.*1 = (λ i, "_" +:+ draw i) <$> seq k (List.length pairs).
Proof.
  induction lines as [|line lines IH]; intros k ls pairs; cbn [rewrite_lines]; [by intros [= <- <-]|].
  destruct (field_line line) as [[constant field]|].
  - destruct (rewrite_lines draw (S k) lines) as [ls' pairs'] eqn:E. intros [= <- <-].
    cbn. f_equal. by apply IH in E.
  - destruct (rewrite_lines draw k lines) as [ls' pairs'] eqn:E. intros [= <- <-]. by apply IH in E.
Qed.

Lemma dset_fresh {V} (k : string) (v : V) d : k ∉ dkeys d → dset k v d = d ++ [(k, v)].
Proof.
  induction d as [|[k' w] d IH]; simpl; [done|]. intros Hn. apply not_elem_of_cons in Hn as [Hk Hn].
  rewrite decide_False by done. by rewrite IH.
Qed.

Lemma foldl_dset_fresh {V} (l d : list (string * V)) :
  NoDup (dkeys d ++ l.*1) → foldl (λ d kv, dset kv.1 kv.2 d) d l = d ++ l.
Proof.
  revert d. induction l as [|[k v] l IH]; intros d Hd; cbn [foldl]; [by rewrite app_nil_r|].
  cbn [fst snd fmap list_fmap] in *. rewrite dset_fresh.
  - rewrite IH, <- app_assoc; [done|]. unfold dkeys in *. by rewrite fmap_app, <- app_assoc.
  - apply NoDup_app in Hd as (_ & Hd & _). intros Hk. apply (Hd k Hk), list_elem_of_here.
Qed.

Lemma restore_token pairs field :
  NoDup pairs.*1 → field ∉ pairs.*1 → default (token_of pairs field) (dget (token_of pairs field) pairs) = field.
Proof.
  intros Hd Hf. unfold token_of. destruct (list_find (λ p, p.2 = field) pairs) as [[i p]|] eqn:E.
  - apply list_find_Some in E as (Hi & <- & _).
    assert (dget p.1 pairs = Some p.2) as ->; [|done]. clear Hf.
    apply list_elem_of_lookup_2 in Hi. induction pairs as [|[k v] pairs IH]; [by apply elem_of_nil in Hi|].
    cbn in *. apply NoDup_cons in Hd as [Hk Hd]. apply elem_of_cons in Hi as [->|Hi]; [by rewrite decide_True|].
    rewrite decide_False; [by apply IH|]. intros E. apply Hk. rewrite ?E, <- ?E. apply list_elem_of_fmap. by exists p.
  - by rewrite (proj2 (dget_None field pairs) Hf).
Qed.

Lemma restore_card_spec pairs card :
  NoDup pairs.*1 → NoDup (dkeys card) → (∀ k, k ∈ dkeys card → k ∉ pairs.*1) →
  restore_card pairs (rename_card pairs card) = card.
Proof.
  intros Hd Hc Hf. unfold restore_card, rename_card.
  transitivity (foldl (λ d kv, dset kv.1 kv.2 d) [] card); [|by rewrite foldl_dset_fresh].
  generalize (@nil (string * json)). revert Hc Hf. induction card as [|[k v] card IH]; intros Hc Hf d; [done|].
  cbn [fmap list_fmap foldl fst snd]. rewrite restore_token; [|done|apply Hf, list_elem_of_here].
  apply NoDup_cons in Hc as [_ Hc]. apply IH; [done|]. intros k' Hk. apply Hf. by apply list_elem_of_further.
Qed.

(** The lines of the payload that name a field, with their constants. *)
Definition field_lines (original : string) : list (string * string) :=
  omap field_line (split_on nls original).

(** The tokens drawn, as the names of the fields. *)
Definition drawn (draw : nat → string) (n : nat) : list string := (λ i, "_" +:+ draw i) <$> seq 0 n.

Lemma rewrite_lines_exact draw lines : ∀ k ls pairs,
  rewrite_lines draw k lines = (ls, pairs) → pairs.*2 = (omap field_line lines).*2.
Proof.
  induction lines as [|line lines IH]; intros k ls pairs; cbn [rewrite_lines]; [by intros [= <- <-]|].
  cbn [omap list_omap]. destruct (field_line line) as [[constant field]|].
  - destruct (rewrite_lines draw (S k) lines) as [ls' pairs'] eqn:E. intros [= <- <-].
    cbn. f_equal. by apply IH in E.
  - destruct (rewrite_lines draw k lines) as [ls' pairs'] eqn:E. intros [= <- <-]. by apply IH in E.
Qed.

(** The line that stands for one of the original, after [n] lines with a field. *)
Definition rewritten_line (draw : nat → string) (n : nat) (line : string) : string :=
  match field_line line with
  | None => line
  | Some (constant, _) => constant +:+ " = " +:+ quotes +:+ ("_" +:+ draw n) +:+ quotes
  end.

Lemma rewrite_lines_text draw lines : ∀ k ls pairs,
  rewrite_lines draw k lines = (ls, pairs) → List.length ls = List.length lines ∧
  ∀ i line, lines !! i = Some line →
    ls !! i = Some (rewritten_line draw (k + List.length (omap field_line (take i lines))) line).
Proof.
  induction lines as [|x lines IH]; intros k ls pairs; cbn [rewrite_lines]; [by intros [= <- <-]|].
  destruct (field_line x) as [[constant field]|] eqn:Ex.
  - destruct (rewrite_lines draw (S k) lines) as [ls' pairs'] eqn:E. intros [= <- <-].
    apply IH in E as [Hl Hi]. split; [cbn; by rewrite Hl|]. intros [|i] line.
    + intros [= <-]. unfold rewritten_line. cbn. by rewrite Ex, Nat.add_0_r.
    + intros Hline. etransitivity; [exact (Hi i line Hline)|]. cbn [take omap list_omap]. rewrite Ex.
      cbn [List.length]. by rewrite Nat.add_succ_r.
  - destruct (rewrite_lines draw k lines) as [ls' pairs'] eqn:E. intros [= <- <-].
    apply IH in E as [Hl Hi]. split; [cbn; by rewrite Hl|]. intros [|i] line.
    + intros [= <-]. unfold rewritten_line. cbn. by rewrite Ex.
    + intros Hline. etransitivity; [exact (Hi i line Hline)|]. cbn [take omap list_omap]. by rewrite Ex.
Qed.

(** What the payload sent is of the original and of the tokens drawn: its lines, the
    key of its answer, and the field each token stands for. *)
Definition obfuscated_by (draw : nat → string) (original : string) (o : Obfuscated) : Prop :=
  let fields := field_lines original in
  let n := List.length fields in
  (∃ ls, o.(text) = join nls ls ∧ List.length ls = List.length (split_on nls original) ∧
     ∀ i line, split_on nls original !! i = Some line →
       ls !! i = Some (rewritten_line draw (List.length (omap field_line (take i (split_on nls original)))) line)) ∧
  n ≠ 0%nat ∧
  o.(key) = b64url_padded (bytes_of (sha256 (String.concat "" (drawn draw n)))) ∧
  ((∀ i j, (i < n)%nat → (j < n)%nat → draw i = draw j → i = j) →
   ∀ i constant field, fields !! i = Some (constant, field) → dget ("_" +:+ draw i) o.(names) = Some field).

Lemma dget_nodup {V} (l : list (string * V)) i k v : NoDup l.*1 → l !! i = Some (k, v) → dget k l = Some v.
Proof.
  revert i. induction l as [|[k' w] l IH]; intros i Hd Hi; [done|].
  rewrite fmap_cons in Hd. apply NoDup_cons in Hd as [Hk Hd]. cbn [fst] in Hk. cbn [dget].
  destruct i as [|i].
  - assert (k' = k ∧ w = v) as [-> ->] by (cbn in Hi; by inversion Hi). by case_decide.
  - case_decide as E; [|by apply (IH i)]. exfalso. apply Hk. rewrite ?E, <- ?E. apply list_elem_of_fmap.
    exists (k, v). split; [done|]. exact (list_elem_of_lookup_2 l i _ Hi).
Qed.

#[local] Opaque sha256.

Lemma obfuscate_spec draw original o : obfuscate draw original = Ok o → obfuscated_by draw original o.
Proof.
  unfold obfuscate. destruct (rewrite_lines draw 0 (split_on nls original)) as [ls pairs] eqn:E. intros Ho.
  pose proof (rewrite_lines_tokens _ _ _ _ _ E) as Ht. pose proof (rewrite_lines_exact _ _ _ _ _ E) as Hf.
  pose proof (rewrite_lines_text _ _ _ _ _ E) as [Hl Hi]. fold (field_lines original) in Hf.
  assert (Hn : List.length pairs = List.length (field_lines original)).
  { apply (f_equal List.length) in Hf. by rewrite !length_fmap in Hf. }
  unfold obfuscated_by. cbn zeta. destruct pairs as [|p pairs]; [done|]. apply Ok_inj in Ho as <-.
  cbn [text key names]. split_and!.
  - by exists ls.
  - rewrite <- Hn. done.
  - rewrite Ht, Hn. reflexivity.
  - intros Hinj i constant field Hfield. set (l := p :: pairs) in *.
    assert (Hd : NoDup l.*1).
    { rewrite Ht. apply NoDup_fmap_2_strong; [|apply NoDup_seq].
      intros a b Ha%elem_of_seq Hb%elem_of_seq [= Eab]. apply Hinj; [lia|lia|done]. }
    rewrite (foldl_dset_fresh l []) by exact Hd. cbn [app].
    assert (Hi2 : l.*2 !! i = Some field) by (rewrite Hf, list_lookup_fmap, Hfield; done).
    assert (Hi1 : l.*1 !! i = Some ("_" +:+ draw i)).
    { rewrite Ht, list_lookup_fmap. apply lookup_lt_Some in Hi2. rewrite length_fmap in Hi2.
      rewrite lookup_seq_lt by exact Hi2. done. }
    apply (dget_nodup l i); [exact Hd|]. rewrite list_lookup_fmap in Hi1, Hi2.
    destruct (l !! i) as [[k v]|]; [|done]. apply (inj Some) in Hi1, Hi2. cbn [fst snd] in Hi1, Hi2. by rewrite Hi1, Hi2.
Qed.

(** C29. A scrape that does not fail was written for this run of the payload.  The last
    thing the validator did is run the payload rewritten with the tokens drawn for
    this run ([obfuscated_by]: each field line holds its own token, every other line
    is the original's, the key is the digest of the tokens in their order, and a
    token names the field of its line); one of the tokens of text it printed decrypts,
    under that key, to the data returned, with the names of the fields put back; no
    other outcome hands out any data. *)
Theorem scrape_authentic {H} (env : Env H) fernet python address port_range payload timeout seed st r st' :
  run env fernet python address port_range payload timeout seed st = (Ok r, st') →
  ∃ prepared result,
    obfuscated_by (λ k, env.(rand_hex) k st.(host)) payload prepared ∧
    log st' = log st ++ [MkEvent (quote python +:+ " -I -") timeout (Some prepared.(text)) result] ∧
    match failure r.(verdict) with
    | Some _ => r.(data) = None ∧ r.(spec) = None
    | None =>
        transport_failed result = false ∧ error_line env.(loads) result.(stdout) = "" ∧
        ∃ token plain d restored spec_,
          token ∈ candidates result.(stdout) ∧ fernet prepared.(key) token = Some plain ∧
          env.(loads) plain = Some (JDict d) ∧ restore d prepared.(names) = Ok restored ∧
          build_spec restored address port_range = Ok spec_ ∧
          r.(data) = Some restored ∧ r.(spec) = Some spec_
    end.
Proof.
  unfold run. intros E. apply M_bind_ok in E as (st0 & st1 & [= <- <-] & E).
  apply M_bind_ok in E as (prepared & st2 & Hp & E). injection Hp as Hp <-.
  apply M_bind_ok in E as (result & st3 & Hr & E). exists prepared, result. split; [by apply obfuscate_spec|].
  unfold run_with in Hr. destruct (exec env _ _ _ (host st)) as [res h]. injection Hr as <- <-.
  injection E as E <-. split; [done|]. unfold judge in E.
  destruct (transport_failed res) eqn:Et; [by injection E as <-|].
  destruct (String.eqb_spec (error_line (loads env) (stdout res)) "") as [Ee|Ee]; [|by injection E as <-].
  cbn [negb] in E. destruct (decrypt (loads env) fernet (key prepared) (candidates (stdout res))) as [d|] eqn:Ed;
    [|by injection E as <-].
  apply decrypt_spec in Ed as (token & plain & Ht & Hf & Hl).
  apply res_bind_ok in E as (restored & Hre & E). apply res_bind_ok in E as (spec_ & Hs & E).
  apply res_bind_ok in E as (errors & _ & E). apply res_bind_ok in E as (errors' & _ & E).
  injection E as <-. cbn. do 2 (split; [done|]). by exists token, plain, d, restored, spec_.
Qed.

(** Whatever tokens are drawn, as long as they differ from each other and from
    the names of the fields, a card the rewritten payload describes under the
    drawn names is read back under its own. *)
Lemma restore_obfuscated draw original o ls pairs card :
  obfuscate draw original = Ok o → rewrite_lines draw 0 (split_on nls original) = (ls, pairs) →
  (∀ i j, draw i = draw j → i = j) →
  NoDup (dkeys card) → (∀ k i, k ∈ dkeys card → k ≠ "_" +:+ draw i) →
  restore_card o.(names) (rename_card pairs card) = card.
Proof.
  intros Ho Hr Hinj Hc Hf. pose proof (rewrite_lines_tokens _ _ _ _ _ Hr) as Ht.
  assert (NoDup pairs.*1) as Hd.
  { rewrite Ht. apply NoDup_fmap_2_strong; [|apply NoDup_seq]. intros i j _ _ [= E]. by apply Hinj. }
  unfold obfuscate in Ho. rewrite Hr in Ho. destruct pairs as [|p pairs]; [done|].
  assert (names o = p :: pairs) as ->.
  { injection Ho as <-. apply (foldl_dset_fresh (p :: pairs) []). exact Hd. }
  apply restore_card_spec; [done|done|].
  intros k Hk Hin. rewrite Ht in Hin. apply list_elem_of_fmap in Hin as (i & -> & _). by apply (Hf _ i Hk).
Qed.

(** A payload of two fields, and a machine that answers in their drawn names. *)
Definition sample_payload : string :=
  "F_NAME = " +:+ quotes +:+ "name" +:+ quotes +:+ nls +:+ "F_UUID = " +:+ quotes +:+ "uuid" +:+ quotes +:+ nls +:+ "print()" +:+ nls.
Definition sample_draw (k : nat) : string := pretty k.
Definition sample_card : dict := [("name", JStr "RTX 4090"); ("uuid", JStr "GPU-1"); ("index", JInt 0)].

Lemma restore_obfuscated_witness :
  ∃ o ls pairs, obfuscate sample_draw sample_payload = Ok o ∧
    rewrite_lines sample_draw 0 (split_on nls sample_payload) = (ls, pairs) ∧
    rename_card pairs sample_card = [("_0", JStr "RTX 4090"); ("_1", JStr "GPU-1"); ("index", JInt 0)] ∧
    restore_card o.(names) (rename_card pairs sample_card) = sample_card.
Proof.
  destruct (obfuscate sample_draw sample_payload) as [o|] eqn:Eo; [|vm_compute in Eo; discriminate].
  destruct (rewrite_lines sample_draw 0 (split_on nls sample_payload)) as [ls pairs] eqn:Er.
  exists o, ls, pairs. split; [reflexivity|]. split; [reflexivity|]. split.
  - revert Er. vm_compute. by intros [= _ <-].
  - apply (restore_obfuscated sample_draw sample_payload o ls pairs sample_card Eo Er).
    + intros i j. apply (inj pretty).
    + apply (bool_decide_unpack _). vm_compute. exact I.
    + intros k i Hk E. subst k. unfold sample_card, dkeys in Hk. cbn in Hk.
      rewrite !elem_of_cons, elem_of_nil in Hk. destruct Hk as [Hk|[Hk|[Hk|[]]]]; discriminate Hk.
Defined.

Definition sample_env : Env unit :=
  MkEnv _ (λ c _ _ h, (MkResult c 0 ("gAAAAAtoken" +:+ nls) "" f0 "", h)) (λ _ h, h) (λ _, f0) (λ _, f0)
    (λ _, []) (λ k _, pretty k) (λ _ _, "")
    (λ s, if String.eqb s "plain" then Some (JDict [("gpus", JList [JDict [("_1", JStr "GPU-1")]])]) else None).
Definition sample_start : St unit := MkSt tt [] (MkInflight [] []) (MkRecords [] []) [] [].

Lemma scrape_authentic_witness :
  ∃ r st' spec_, run sample_env (λ _ _, Some "plain") "python3" "8.8.8.8" "" sample_payload (fz 60) "1" sample_start = (Ok r, st') ∧
    r.(data) = Some [("gpus", JList [JDict [("uuid", JStr "GPU-1")]])] ∧ r.(spec) = Some spec_.
Proof.
  destruct (run sample_env (λ _ _, Some "plain") "python3" "8.8.8.8" "" sample_payload (fz 60) "1" sample_start)
    as [[r|] st'] eqn:E; [|vm_compute in E; discriminate].
  pose proof (scrape_authentic sample_env (λ _ _, Some "plain") "python3" "8.8.8.8" "" sample_payload (fz 60) "1"
    sample_start r st' E) as (prepared & result & _ & _ & Hm).
  assert (failure (verdict r) = None ∧ data r = Some [("gpus", JList [JDict [("uuid", JStr "GPU-1")]])]) as [Hv Hd]
    by (clear Hm; revert E; vm_compute; by intros [= <- _]).
  rewrite Hv in Hm. destruct Hm as (_ & _ & token & plain & d & restored & spec_ & _ & _ & _ & _ & _ & _ & Hs).
  exists r, st', spec_. split; [reflexivity|]. split; [exact Hd|exact Hs].
Defined.
