(* ===== verification/Express.v ===== *)
(** * The express lane (validator/schedule/express.py)

    Twice a minute every machine is asked for its version, a pong and its
    utilisation.  [Limiter] is the pair of semaphores that bounds the calls in
    flight, as a step relation over the tasks that want a slot; the lane itself
    counts the failures in a row and hands out early deep passes. *)

From Stdlib Require Import Ascii String QArith.
From S2P Require Import Prelude.
From S2P Require Import PyStr.
From S2P Require Import PyFloat.
From S2P Require Import PyJson.
From S2P Require Import Failures.
From S2P Require Import Reliability.
From S2P Require Import Runner.
From S2P Require Import Checks.
From S2P Require Import Client.
Local Open Scope string_scope.
Local Open Scope list_scope.

Definition UNREACHABLE_TICKS : Z := 3.
Definition BUSY_PERCENT : Z := 50.
Definition SIGNAL_HISTORY : nat := 500.
Definition LEDGER_SAVE_SECONDS : pyfloat := fz 60.

(** ** Slots *)

Module Limiter.
(** The values of the semaphores; a miner's is made at its first use. *)
Record t : Type := Mk { global_ : Z; per_miner : Z; miners : list (string * Z) }.

Definition init (max_inflight per_miner : Z) : t := Mk (Z.max 1 max_inflight) (Z.max 1 per_miner) [].

Definition miner (owner : string) (l : t) : Z := default l.(per_miner) (dget owner l.(miners)).

(** [acquire] when it does not wait, and [release]. *)
Definition take_miner (owner : string) (l : t) : option t :=
  if (0 <? miner owner l)%Z
  then Some (Mk l.(global_) l.(per_miner) (dset owner (miner owner l - 1)%Z l.(miners))) else None.
Definition take_global (l : t) : option t :=
  if (0 <? l.(global_))%Z then Some (Mk (l.(global_) - 1) l.(per_miner) l.(miners)) else None.
Definition release (owner : string) (l : t) : t :=
  Mk (l.(global_) + 1) l.(per_miner) (dset owner (miner owner l + 1)%Z l.(miners)).

(** A task: waiting for the miner's semaphore, holding it and waiting for the
    other, in its slot, or done. *)
Inductive phase : Type := Waiting | Holding | Inside | Done.
#[export] Instance phase_eq_dec : EqDecision phase.
Proof. solve_decision. Defined.

Record system : Type := MkSystem { limiter : t; tasks : list (string * phase) }.

Inductive step : system → system → Prop :=
  | step_miner i o l l' ts :
      ts !! i = Some (o, Waiting) → take_miner o l = Some l' →
      step (MkSystem l ts) (MkSystem l' (<[i:=(o, Holding)]> ts))
  | step_global i o l l' ts :
      ts !! i = Some (o, Holding) → take_global l = Some l' →
      step (MkSystem l ts) (MkSystem l' (<[i:=(o, Inside)]> ts))
  | step_leave i o l ts :
      ts !! i = Some (o, Inside) →
      step (MkSystem l ts) (MkSystem (release o l) (<[i:=(o, Done)]> ts)).

(** All tasks of a [gather], each with the owner [slot] is given. *)
Definition start (max_inflight per_miner : Z) (owners : list string) : system :=
  MkSystem (init max_inflight per_miner) ((λ o, (o, Waiting)) <$> owners).
End Limiter.

Definition owner_of (rig : dict) : string :=
  py_str (jor (jor (getd "hotkey" (JStr "") rig) (getd "id" (JStr "") rig)) (JStr "")).

(** The owner a slot is taken for. *)
Definition slot_owner (rig : dict) : string := sor (owner_of rig) "-".

(** ** Signals *)

Record Signal : Type := MkSignal {
  srig_id : string; shotkey : string; skind : string; sdetail : string; sat : pyfloat }.

Definition signal_payload (s : Signal) : dict :=
  [("rig_id", JStr s.(srig_id)); ("hotkey", JStr s.(shotkey)); ("kind", JStr s.(skind));
   ("detail", JStr s.(sdetail)); ("at", JFloat s.(sat))].

(** [gpu_percent], else [utilization]; an unreadable one counts as idle. *)
Definition percent_of (card : dict) : res Z :=
  try_except (py_int (jor (getd "gpu_percent" (getd "utilization" (JInt 0) card) card) (JInt 0)))
    [TypeError; ValueError] 0%Z.

(** The cards that are busy. *)
Fixpoint busy_cards (cards : list json) : res (list string) :=
  match cards with
  | [] => Ok []
  | JDict card :: cards' =>
      percent ← percent_of card;
      rest ← busy_cards cards';
      mret (if (BUSY_PERCENT <=? percent)%Z || truthy (getv "processes" card)
            then py_str (jor (getd "uuid" (JStr "") card) (JStr "?")) :: rest
            else rest)
  | _ :: cards' => busy_cards cards'
  end.

Definition utilisation_signal (rig utilisation : dict) : res (option (string * string)) :=
  placed ← get_int_or "jobs_running" 0 rig;
  cards ← get_list "gpus" utilisation;
  match List.filter is_dict cards with
  | [] => Ok None
  | gpus =>
      busy ← busy_cards gpus;
      match busy with
      | [] => Ok (if (0 <? placed)%Z
                  then Some ("idle_while_placed", str_of_Z placed +:+ " jobs placed, every card idle") else None)
      | _ => Ok (if (placed =? 0)%Z
                 then Some ("busy_without_assignment",
                            "cards busy with nothing assigned: " +:+ join ", " (take 4 busy)) else None)
      end
  end.

(** ** The lane *)

Record Lane : Type := MkLane {
  unreachable : list (string * Z); early_due : list string; signals : list Signal;
  last_probe : list (string * dict); uptime : ledger; last_save : pyfloat }.

(** [set(self.early_due)], and the set cleared. *)
Definition take_early_due (l : Lane) : list string * Lane :=
  (l.(early_due), MkLane l.(unreachable) [] l.(signals) l.(last_probe) l.(uptime) l.(last_save)).

(** [deque(maxlen=SIGNAL_HISTORY)] *)
Definition remember (s : Signal) (l : list Signal) : list Signal :=
  let l := l ++ [s] in drop (List.length l - SIGNAL_HISTORY) l.

Definition record (rig : dict) (kind detail : string) (now : pyfloat) (l : Lane) : Lane :=
  let s := MkSignal (py_str (getd "id" (JStr "") rig)) (owner_of rig) kind detail now in
  MkLane l.(unreachable) l.(early_due) (remember s l.(signals)) l.(last_probe) l.(uptime) l.(last_save).

(** What the three calls of a probe come to. *)
Inductive probed : Type := Reached (version ping utilisation : dict) | Unreached (detail : string).

Definition probe_calls {H} (env : Env H) (out : Outer H) (rig : dict) : NM H probed :=
  v ← version env out rig;
  match v with
  | AgentError _ detail => mret (Unreached detail)
  | Answered v =>
      p ← ping env out rig;
      match p with
      | AgentError _ detail => mret (Unreached detail)
      | Answered p =>
          u ← utilisation env out rig;
          match u with
          | AgentError _ detail => mret (Unreached detail)
          | Answered u => mret (Reached v p u)
          end
      end
  end.

Definition set_probe (rig_id : string) (report : dict) (l : Lane) : Lane :=
  MkLane l.(unreachable) l.(early_due) l.(signals) (dset rig_id report l.(last_probe)) l.(uptime) l.(last_save).

(** The rest of [probe], after its last [await]: no other task runs in between.
    [started] and [now] are [time.time()] at its beginning and here. *)
Definition after_calls (rig : dict) (o : probed) (started now : pyfloat) (l : Lane) : res dict * Lane :=
  let id := py_str (getd "id" (JStr "") rig) in
  let report := [("rig_id", JStr id); ("at", JFloat started); ("online", JBool false)] in
  match o with
  | Unreached detail =>
      let report := report ++ [("error", JStr detail)] in
      let count := (default 0 (dget id l.(unreachable)) + 1)%Z in
      let l := MkLane (dset id count l.(unreachable)) l.(early_due) l.(signals) l.(last_probe)
                 (observe id false now l.(uptime)).2 l.(last_save) in
      let l := if (count =? UNREACHABLE_TICKS)%Z then
                 record rig "unreachable"
                   (str_of_Z count +:+ " consecutive express ticks failed: " +:+ stake 120 detail) now
                   (MkLane l.(unreachable) (if bool_decide (id ∈ l.(early_due)) then l.(early_due) else id :: l.(early_due))
                      l.(signals) l.(last_probe) l.(uptime) l.(last_save))
               else l in
      (Ok report, set_probe id report l)
  | Reached version ping utilisation =>
      let l := MkLane (dpop id l.(unreachable)) l.(early_due) l.(signals) l.(last_probe)
                 (observe id true now l.(uptime)).2 l.(last_save) in
      let report := [("rig_id", JStr id); ("at", JFloat started); ("online", JBool true);
        ("agent_version", JStr (get_str_or "version" "" version));
        ("draining", JBool (truthy (getd "draining" (JBool false) version)));
        ("pong", JBool (truthy (getd "ok" (JBool true) ping))); ("utilisation", JDict utilisation)] in
      match utilisation_signal rig utilisation with
      | Raise e => (Raise e, l)
      | Ok signal =>
          let l := match signal with Some (k, d) => record rig k d now l | None => l end in
          (Ok report, set_probe id report l)
      end
  end.

(** The machines a tick asks. *)
Fixpoint wanted (rigs : list json) : res (list dict) :=
  match rigs with
  | [] => Ok []
  | JDict rig :: rigs' =>
      rest ← wanted rigs';
      mret (if truthy (getv "online" rig) && negb (String.eqb (py_str (getd "state" (JStr "") rig)) "removed")
            then rig :: rest else rest)
  | _ :: _ => Raise AttributeError
  end.

Definition tick_rigs (roster : dict) : res (list dict) := l ← get_list "rigs" roster; wanted l.

(** One probe that ended: its machine, its outcome and the two times. *)
Record finished : Type := MkFinished { frig : dict; foutcome : probed; fstarted : pyfloat; fnow : pyfloat }.

(** The probes of a tick end in some order; [gather] keeps their exceptions. *)
Definition apply_probe (l : Lane) (f : finished) : Lane :=
  (after_calls f.(frig) f.(foutcome) f.(fstarted) f.(fnow) l).2.

Definition due_save (now : pyfloat) (l : Lane) : bool := fle LEDGER_SAVE_SECONDS (fsub now l.(last_save)).

(** The end of a tick: the probes in the order they ended, then the ledger,
    written when the last time was a minute ago. *)
Definition tick_end (fs : list finished) (now : pyfloat) (l : Lane) : option (res document) * Lane :=
  let l := foldl apply_probe l fs in
  if due_save now l then
    (Some (save l.(uptime)),
     match save l.(uptime) with
     | Ok _ => MkLane l.(unreachable) l.(early_due) l.(signals) l.(last_probe) l.(uptime) now
     | Raise _ => l
     end)
  else (None, l).

Definition new_lane (uptime : ledger) : Lane := MkLane [] [] [] [] uptime f0.

(** How long [loop] waits after a tick that took [elapsed] seconds: a tick that
    fails is only logged, so the loop never ends. *)
Definition loop_pause (express_seconds : Z) (elapsed : pyfloat) : pyfloat :=
  fmax f1 (fsub (fz express_seconds) elapsed).

(** The lane rests a second at least, whatever the clock says. *)
Lemma loop_pause_least express_seconds elapsed : flt (loop_pause express_seconds elapsed) f1 = false.
Proof.
  unfold loop_pause, fmax. destruct (flt f1 _) eqn:E; [|reflexivity].
  destruct (fsub _ _) as [|[]|q]; try done. revert E. unfold f1. cbn [flt]. rewrite negb_true_iff, negb_false_iff.
  intros E. apply Qle_bool_iff. destruct (Qlt_le_dec q 1) as [Hl|]; [|done].
  apply Qlt_le_weak in Hl. apply Qle_bool_iff in Hl. congruence.
Qed.

(** ** Facts about the slots *)

Module LimiterFacts.
Import Limiter.

Definition holds (o : string) (x : string * phase) : bool :=
  String.eqb x.1 o && (bool_decide (x.2 = Holding) || bool_decide (x.2 = Inside)).
Definition inside (x : string * phase) : bool := bool_decide (x.2 = Inside).

(** Every semaphore counts down the tasks that hold it. *)
Definition inv (max_inflight per : Z) (s : system) : Prop :=
  s.(limiter).(per_miner) = Z.max 1 per ∧
  (s.(limiter).(global_) = Z.max 1 max_inflight - tally inside s.(tasks))%Z ∧ (0 <= s.(limiter).(global_))%Z ∧
  ∀ o, (miner o s.(limiter) = Z.max 1 per - tally (holds o) s.(tasks) ∧ 0 <= miner o s.(limiter))%Z.

Lemma miner_dset o o' v g p ms :
  miner o (Mk g p (dset o' v ms)) = if decide (o' = o) then v else miner o (Mk g p ms).
Proof.
  unfold miner. cbn. case_decide as E; [subst; by rewrite dget_dset|by rewrite dget_dset_ne].
Qed.

Lemma holds_tally o i o' p q ts :
  ts !! i = Some (o', p) →
  tally (holds o) (<[i:=(o', q)]> ts) =
    (tally (holds o) ts - Z.b2z (holds o (o', p)) + Z.b2z (holds o (o', q)))%Z.
Proof. apply tally_insert. Qed.

Lemma holds_phase o o' p :
  holds o' (o, p) = String.eqb o o' && match p with Holding | Inside => true | _ => false end.
Proof. by destruct p. Qed.

Lemma inside_phase o p : inside (o, p) = match p with Inside => true | _ => false end.
Proof. by destruct p. Qed.

Lemma limiter_inv_step mi per s s' : step s s' → inv mi per s → inv mi per s'.
Proof.
  intros Hs (Hp & Hg & Hg0 & Hm). unfold inv.
  destruct Hs as [i o l l' ts Hi Ht|i o l l' ts Hi Ht|i o l ts Hi]; cbn [limiter tasks] in *.
  - unfold take_miner in Ht. destruct (Z.ltb_spec 0 (miner o l)); [|done]. injection Ht as <-.
    cbn [per_miner global_]. split_and!; [done| |done|].
    + rewrite (tally_insert _ _ _ _ _ Hi), !inside_phase. cbn [Z.b2z]. lia.
    + intros o'. rewrite (holds_tally _ _ _ _ _ _ Hi), miner_dset, !holds_phase.
      destruct (Hm o') as [Hm1 Hm2], (Hm o) as [Hm3 Hm4]. destruct l as [g p ms]. cbn [miners global_ per_miner] in *.
      destruct (String.eqb_spec o o') as [->|Hne]; [rewrite decide_True by done|rewrite decide_False by done]; cbn [andb Z.b2z]; lia.
  - unfold take_global in Ht. destruct (Z.ltb_spec 0 (global_ l)); [|done]. injection Ht as <-.
    cbn [per_miner global_]. split_and!; [done| |lia|].
    + rewrite (tally_insert _ _ _ _ _ Hi), !inside_phase. cbn [Z.b2z]. lia.
    + intros o'. rewrite (holds_tally _ _ _ _ _ _ Hi), !holds_phase.
      destruct (Hm o') as [Hm1 Hm2]. unfold miner in *. cbn [miners per_miner].
      destruct (String.eqb o o'); cbn [andb Z.b2z]; lia.
  - unfold release. cbn [per_miner global_]. split_and!; [done| |lia|].
    + rewrite (tally_insert _ _ _ _ _ Hi), !inside_phase. cbn [Z.b2z]. lia.
    + intros o'. rewrite (holds_tally _ _ _ _ _ _ Hi), miner_dset, !holds_phase.
      destruct (Hm o') as [Hm1 Hm2], (Hm o) as [Hm3 Hm4]. destruct l as [g p ms]. cbn [miners global_ per_miner] in *.
      destruct (String.eqb_spec o o') as [->|Hne]; [rewrite decide_True by done|rewrite decide_False by done]; cbn [andb Z.b2z]; [lia|].
      unfold miner in *. cbn [miners per_miner] in *. lia.
Qed.

(** How many steps a task still has to make. *)
Definition left_ (x : string * phase) : nat :=
  match x.2 with Waiting => 3 | Holding => 2 | Inside => 1 | Done => 0 end.
Definition work (ts : list (string * phase)) : nat := sum_list_with left_ ts.

Lemma work_insert ts i x y :
  ts !! i = Some x → (work (<[i:=y]> ts) + left_ x = work ts + left_ y)%nat.
Proof.
  unfold work. revert i. induction ts as [|z ts IH]; intros [|i]; try done; intros Hi.
  - injection Hi as ->. change (<[0%nat:=y]> (x :: ts)) with (y :: ts). simpl. lia.
  - specialize (IH i Hi). change (<[S i:=y]> (z :: ts)) with (z :: <[i:=y]> ts). simpl. lia.
Qed.

Lemma step_work s s' : step s s' → work (tasks s) = S (work (tasks s')).
Proof.
  destruct 1 as [i o l l' ts Hi|i o l l' ts Hi|i o l ts Hi]; cbn [tasks]; pose proof (λ y, work_insert ts i _ y Hi) as Hw.
  - specialize (Hw (o, Holding)). cbn [left_ snd] in Hw. lia.
  - specialize (Hw (o, Inside)). cbn [left_ snd] in Hw. lia.
  - specialize (Hw (o, Done)). cbn [left_ snd] in Hw. lia.
Qed.

(** Some task can go on unless all are done. *)
Lemma progress mi per s : inv mi per s → Forall (λ x, x.2 = Done) s.(tasks) ∨ ∃ s', step s s'.
Proof.
  destruct s as [l ts]. intros (Hp & Hg & Hg0 & Hm). cbn [limiter tasks] in *.
  destruct (decide (0 < tally inside ts)%Z) as [(i & [o p] & Hi & Hx)%tally_pos|Hin].
  { apply bool_decide_eq_true in Hx. cbn in Hx. subst p. right. eexists. by apply (step_leave i). }
  assert (tally inside ts = 0%Z) as Hin0 by (pose proof (tally_nonneg inside ts); lia).
  destruct (decide (0 < tally (λ x, bool_decide (x.2 = Holding)) ts)%Z) as [(i & [o p] & Hi & Hx)%tally_pos|Hho].
  { apply bool_decide_eq_true in Hx. cbn in Hx. subst p. right. eexists.
    eapply step_global; [exact Hi|]. unfold take_global. destruct (Z.ltb_spec 0 (global_ l)); [done|lia]. }
  assert (tally (λ x : string * phase, bool_decide (x.2 = Holding)) ts = 0%Z) as Hho0
    by (pose proof (tally_nonneg (λ x : string * phase, bool_decide (x.2 = Holding)) ts); lia).
  pose proof (proj1 (tally_zero _ _) Hin0) as Hni. pose proof (proj1 (tally_zero _ _) Hho0) as Hnh.
  destruct (decide (Forall (λ x, x.2 = Done) ts)) as [?|Hnd]; [by left|]. right.
  apply not_Forall_Exists, Exists_exists in Hnd as ([o p] & Hx & Hd); [|intros x; apply _].
  apply list_elem_of_lookup_1 in Hx as [i Hi]. cbn in Hd.
  assert (∀ j o' p', ts !! j = Some (o', p') → p' = Waiting ∨ p' = Done) as Hw.
  { intros j o' p' Hj. specialize (Hni j _ Hj). specialize (Hnh j _ Hj). rewrite inside_phase in Hni.
    apply bool_decide_eq_false in Hnh. cbn [snd] in Hnh. destruct p'; naive_solver. }
  destruct (Hw i o p Hi) as [->| ->]; [|done].
  eexists. eapply step_miner; [exact Hi|]. unfold take_miner. destruct (Hm o) as [Hmo _].
  assert (tally (holds o) ts = 0%Z) as Hh0.
  { apply tally_zero. intros j [o' p'] Hj. rewrite holds_phase.
    destruct (Hw j o' p' Hj) as [->| ->]; apply andb_false_r. }
  destruct (Z.ltb_spec 0 (miner o l)); [done|lia].
Qed.

Lemma inv_start mi per owners : inv mi per (start mi per owners).
Proof.
  assert (∀ f : string * phase → bool, (∀ o, f (o, Waiting) = false) →
    tally f ((λ o, (o, Waiting)) <$> owners) = 0%Z) as H0.
  { intros f Hf. apply tally_zero. intros i x Hi. apply list_lookup_fmap_Some in Hi as (o & -> & _). apply Hf. }
  unfold inv, start, init. cbn [limiter tasks per_miner global_].
  rewrite H0 by done. split_and!; [done|lia|lia|]. intros o.
  rewrite H0 by (intros; rewrite holds_phase; apply andb_false_r). unfold miner. cbn. lia.
Qed.

(** C32. The slots bound the calls in flight and everybody is served: in whatever
    order the tasks run, never more than the global bound are inside their slot
    and never more than the bound per miner hold that miner's semaphore; as long
    as some task is not done one of them can go on, and after three steps for
    each task all are. *)
Theorem slots_bounded_and_served max_inflight per owners k s :
  nsteps step k (start max_inflight per owners) s →
  (tally inside s.(tasks) <= Z.max 1 max_inflight)%Z ∧
  (∀ o, tally (holds o) s.(tasks) <= Z.max 1 per)%Z ∧
  (k <= 3 * List.length owners)%nat ∧
  (Forall (λ x, x.2 = Done) s.(tasks) ∨ ∃ s', step s s').
Proof.
  intros Hn. assert (inv max_inflight per s ∧ (k + work s.(tasks) = 3 * List.length owners)%nat) as [Hinv Hw].
  { remember (start max_inflight per owners) as s0 eqn:E0.
    assert (inv max_inflight per s0 ∧ work (tasks s0) = (3 * List.length owners)%nat) as [Hi0 Hw0].
    { subst s0. split; [apply inv_start|]. clear. cbn [start tasks]. induction owners; [done|].
      cbn [fmap list_fmap]. unfold work in *. simpl in *. lia. }
    clear E0. revert Hi0 Hw0. generalize (3 * List.length owners)%nat.
    induction Hn as [s0|k s0 s1 s2 Hs _ IH]; intros m Hi0 Hw0; [split; [done|lia]|].
    pose proof (step_work _ _ Hs) as Hw1. destruct (IH (pred m)) as [? ?]; [by eapply limiter_inv_step|lia|]. split; [done|lia]. }
  destruct Hinv as (Hp & Hg & Hg0 & Hm). split_and!.
  - lia.
  - intros o. destruct (Hm o). lia.
  - lia.
  - by apply (progress max_inflight per).
Qed.

(** Two machines of one miner and one of another, one slot per miner: the second
    machine waits. *)
Lemma slots_bounded_and_served_witness :
  ∃ s, nsteps step 2 (start 4 1 ["a"; "a"; "b"]) s ∧ (tally inside s.(tasks) <= 4)%Z ∧
    (tally (holds "a") s.(tasks) <= 1)%Z.
Proof.
  assert (nsteps step 2 (start 4 1 ["a"; "a"; "b"])
    (MkSystem (Mk 3 1 [("a", 0%Z)]) [("a", Inside); ("a", Waiting); ("b", Waiting)])) as Hn.
  { eapply nsteps_l; [by apply (step_miner 0 "a")|]. eapply nsteps_l; [by apply (step_global 0 "a")|]. constructor. }
  eexists. split; [exact Hn|].
  destruct (slots_bounded_and_served 4 1 ["a"; "a"; "b"] 2 _ Hn) as (H1 & H2 & _).
  split; [exact H1|exact (H2 "a")].
Defined.
End LimiterFacts.

(** ** Facts about the lane *)

(** What happens to a lane: a probe ends, or the deep pass takes the machines due
    early. *)
Inductive act : Type := Finished (f : finished) | Taken.

Definition act_on (l : Lane) (a : act) : Lane :=
  match a with Finished f => apply_probe l f | Taken => (take_early_due l).2 end.
Definition lane_after (u : ledger) (acts : list act) : Lane := foldl act_on (new_lane u) acts.

Definition fid (f : finished) : string := py_str (getd "id" (JStr "") f.(frig)).
Definition failed (f : finished) : bool := match f.(foutcome) with Unreached _ => true | Reached _ _ _ => false end.

(** The outcomes of the probes of one machine, in order, and how many failures
    the last ones are. *)
Definition outcomes (id : string) (acts : list act) : list bool :=
  omap (λ a, match a with Finished f => if String.eqb (fid f) id then Some (failed f) else None | Taken => None end) acts.
Fixpoint leading (l : list bool) : nat := match l with true :: l' => S (leading l') | _ => 0 end.
Definition in_a_row (id : string) (acts : list act) : nat := leading (rev (outcomes id acts)).

Lemma in_a_row_snoc id acts a :
  in_a_row id (acts ++ [a]) =
    match a with
    | Finished f => if String.eqb (fid f) id then if failed f then S (in_a_row id acts) else 0%nat else in_a_row id acts
    | Taken => in_a_row id acts
    end.
Proof.
  unfold in_a_row, outcomes. rewrite omap_app, rev_app_distr. destruct a as [f|]; [|done]. cbn.
  destruct (String.eqb (fid f) id); [|done]. by destruct (failed f).
Qed.

Lemma remember_length s l : (List.length (remember s l) <= SIGNAL_HISTORY)%nat.
Proof. unfold remember. rewrite length_drop. lia. Qed.

(** The counters, the machines due early and the signals after one probe. *)
Lemma apply_probe_spec l f id :
  let n := default 0%Z (dget id (unreachable l)) in
  default 0%Z (dget id (unreachable (apply_probe l f))) =
    (if String.eqb (fid f) id then if failed f then n + 1 else 0 else n)%Z ∧
  (id ∈ early_due (apply_probe l f) ↔
     id ∈ early_due l ∨ (fid f = id ∧ failed f = true ∧ n = 2%Z)) ∧
  ((List.length (signals l) <= SIGNAL_HISTORY)%nat → (List.length (signals (apply_probe l f)) <= SIGNAL_HISTORY)%nat).
Proof.
  cbn zeta. destruct f as [rig o started now]. unfold apply_probe, after_calls, fid, failed. cbn [frig foutcome fstarted fnow].
  set (k := py_str (getd "id" (JStr "") rig)). destruct o as [v p u|detail].
  - assert (default 0%Z (dget id (dpop k (unreachable l))) =
      (if String.eqb k id then 0 else default 0%Z (dget id (unreachable l)))%Z) as Hn.
    { destruct (String.eqb_spec k id) as [<-|Hne]; [by rewrite dget_dpop|by rewrite dget_dpop_ne]. }
    assert (id ∈ early_due l ↔ id ∈ early_due l ∨
      (k = id ∧ false = true ∧ default 0%Z (dget id (unreachable l)) = 2%Z)) as He by naive_solver.
    destruct (utilisation_signal rig u) as [[[kind d]|]|e]; cbn [snd set_probe record unreachable early_due signals];
      (split; [exact Hn|split; [exact He|intros Hl]]); [apply remember_length|done|done].
  - cbn zeta. cbn [unreachable early_due signals]. set (n := default 0%Z (dget k (unreachable l))).
    assert (default 0%Z (dget id (dset k (n + 1)%Z (unreachable l))) =
      (if String.eqb k id then default 0 (dget id (unreachable l)) + 1 else default 0 (dget id (unreachable l)))%Z) as Hc.
    { destruct (String.eqb_spec k id) as [<-|Hne]; [by rewrite dget_dset|by rewrite dget_dset_ne]. }
    destruct (Z.eqb_spec (n + 1) UNREACHABLE_TICKS) as [E|E]; cbn [snd set_probe record unreachable early_due signals];
      (split; [exact Hc|]).
    + split; [|intros _; apply remember_length]. unfold UNREACHABLE_TICKS in E. case_bool_decide as Hk.
      * split; [by left|]. intros [?|(<- & _)]; done.
      * rewrite elem_of_cons. split; [intros [->|?]; [right; split_and!; [done..|unfold n in E; lia]|by left]|].
        intros [?|(<- & _)]; [by right|by left].
    + split; [|done]. split; [by left|]. intros [?|(<- & _ & Hn)]; [done|]. exfalso. apply E.
      unfold n, UNREACHABLE_TICKS. lia.
Qed.

(** A machine is handed to an early deep pass exactly for the third failure in a
    row of its probes, once, and until the set is taken; any answer starts the
    count again, other machines change nothing, and the signals kept are the last
    ones. *)
Lemma early_after_three u acts id :
  let l := lane_after u acts in
  default 0%Z (dget id (unreachable l)) = Z.of_nat (in_a_row id acts) ∧
  (id ∈ early_due l ↔ ∃ before f after, acts = before ++ Finished f :: after ∧ fid f = id ∧ failed f = true ∧
     in_a_row id (before ++ [Finished f]) = 3%nat ∧ Taken ∉ after) ∧
  (List.length (signals l) <= SIGNAL_HISTORY)%nat.
Proof.
  cbn zeta. induction acts as [|a acts (IHn & IHe & IHs)] using rev_ind.
  { split; [done|]. split; [|cbn; lia]. split; [by intros ?%not_elem_of_nil|].
    intros (b & f & after & E & _). by destruct b. }
  unfold lane_after in *. rewrite foldl_app, in_a_row_snoc. cbn [foldl act_on].
  set (l := foldl act_on (new_lane u) acts) in *. destruct a as [f|].
  - change (act_on l (Finished f)) with (apply_probe l f).
    destruct (apply_probe_spec l f id) as (Hn & He & Hs). split; [|split; [rewrite He|by apply Hs]].
    + rewrite Hn, IHn. destruct (String.eqb (fid f) id), (failed f); lia.
    + rewrite IHe, IHn. split.
      * intros [(b & g & after & -> & Hid & Hf & Hr & Ht)|(Hid & Hf & Hr)].
        -- exists b, g, (after ++ [Finished f]). rewrite <- app_assoc. split_and!; try done.
           rewrite elem_of_app, list_elem_of_singleton. by intros [?|?].
        -- exists acts, f, []. rewrite in_a_row_snoc, Hf, (proj2 (String.eqb_eq _ _) Hid).
           split_and!; try done; [lia|by apply not_elem_of_nil].
      * intros (b & g & after & E & Hid & Hf & Hr & Ht).
        destruct after as [|x after _] using rev_ind.
        -- apply app_inj_tail in E as [-> [= ->]]. right. split_and!; [done..|].
           rewrite in_a_row_snoc, Hf, (proj2 (String.eqb_eq _ _) Hid) in Hr. lia.
        -- rewrite app_comm_cons, app_assoc in E. apply app_inj_tail in E as [-> <-]. left.
           exists b, g, after. split_and!; try done. intros ?. apply Ht, elem_of_app. by left.
  - cbn [act_on take_early_due snd unreachable early_due signals]. split; [done|split; [|done]].
    split; [by intros ?%not_elem_of_nil|]. intros (b & g & after & E & _ & _ & _ & Ht).
    destruct after as [|x after _] using rev_ind.
    + by apply app_inj_tail in E as [_ ?].
    + rewrite app_comm_cons, app_assoc in E. apply app_inj_tail in E as [_ <-]. exfalso. apply Ht, elem_of_app.
      right. apply list_elem_of_here.
Qed.
