(* ===== verification/Deep.v ===== *)
(** * The deep pass (validator/schedule/deep.py)

    Once an interval every machine is verified in one session: its version and
    attestation, that it is a real host, its scrape against the enrolment, its
    cards against the other machines, the challenge, the inspector, and that
    nothing but placed work runs on it.  The checks are those of [Checks],
    [Scrape] and [Challenge], in the session of [Client]; what they say becomes
    one outcome, which is reported. *)

From Stdlib Require Import Ascii String QArith.
From S2P Require Import Prelude.
From S2P Require Import PyStr.
From S2P Require Import PyRound.
From S2P Require Import PyFloat.
From S2P Require Import PyJson.
From S2P Require Import Failures.
From S2P Require Import Messages.
From S2P Require Import SessionProto.
From S2P Require Import Sha256.
From S2P Require Import Attest.
From S2P Require Import Keys.
From S2P Require Import Shell.
From S2P Require Import Runner.
From S2P Require Import Checks.
From S2P Require Import GpuWedge.
From S2P Require Import Challenge.
From S2P Require Import Client.
From S2P Require Import Express.
From S2P Require Scrape.
Local Open Scope string_scope.
Local Open Scope list_scope.

Definition DEFAULT_INTERVAL : Z := 3600.
Definition VERIFIABLE_STATES : list string := ["validating"; "probation"; "active"; "failed"].
Definition INSPECTOR : string := "inspector.py".
Definition CLEANUP_TIMEOUT : pyfloat := fz 30.

(** ** Outcomes

    Moments are microseconds since 1970, in UTC. *)

Definition summary_of (v : Verdict) : string :=
  stake 200 (match v.(failure) with
             | Some f => f.(detail)
             | None => py_str (getd "summary" (JStr "ok") v.(evidence))
             end).

Record Outcome : Type := MkOutcome {
  orig_id : string; ohotkey : string; oseed : string; started_at : Z; overdicts : list Verdict;
  odetail : dict; finished_at : option Z; ofailure : option Failure }.

Definition outcome_passed (o : Outcome) : bool := match o.(ofailure) with None => true | Some _ => false end.

(** [(a - b).total_seconds()] *)
Definition total_seconds (microseconds : Z) : pyfloat := rnd (inject_Z microseconds / 1000000).

Definition elapsed_ms (o : Outcome) (now : Z) : pyfloat :=
  fmul (total_seconds (default now o.(finished_at) - o.(started_at))) (fz 1000).

(** The failure of an outcome is one of the failures of its verdicts, the first
    of the worst class: the verdict that holds it is the first of that class. *)
Definition failing_check (o : Outcome) : string :=
  let own f := match o.(ofailure) with Some w => bool_decide (f.(kind) = w.(kind)) | None => false end in
  match List.find (λ v, match v.(failure) with Some f => own f | None => false end) o.(overdicts) with
  | Some v => v.(check)
  | None => match List.find (λ v, negb (passed v)) o.(overdicts) with Some v => v.(check) | None => "" end
  end.

Definition finish (now : Z) (o : Outcome) : Outcome :=
  let o := MkOutcome o.(orig_id) o.(ohotkey) o.(oseed) o.(started_at) o.(overdicts) o.(odetail)
             (Some now) (worst o.(overdicts)) in
  let detail := dset "reason" (JStr (match o.(ofailure) with Some f => f.(detail) | None => "" end)) o.(odetail) in
  let detail := dset "failing_check" (JStr (failing_check o)) detail in
  let detail := dset "elapsed_ms" (JFloat (fround 1 (elapsed_ms o now))) detail in
  MkOutcome o.(orig_id) o.(ohotkey) o.(oseed) o.(started_at) o.(overdicts) detail o.(finished_at) o.(ofailure).

Definition outcome_payload (isoformat : Z → string) (now : Z) (o : Outcome) : dict :=
  [("passed", JBool (outcome_passed o));
   ("failure", JStr (match o.(ofailure) with Some f => class_value f.(kind) | None => "" end));
   ("seed", JStr (stake 80 o.(oseed))); ("detail", JDict o.(odetail));
   ("checks", JList ((λ v, JDict [("check", JStr v.(check)); ("passed", JBool (passed v));
                                  ("value", JStr (summary_of v))]) <$> o.(overdicts)));
   ("started_at", JStr (isoformat o.(started_at)));
   ("finished_at", JStr (isoformat (default now o.(finished_at))))].

(** ** What is kept of the host and of the scrape *)

Definition trimmed_host (host : dict) : dict :=
  omap (λ key, if dmem key host then Some (key, getv key host) else None)
    ["init_root_differs"; "init_os_release_readable"; "init_hostname"; "init_comm"; "init_cgroup";
     "detect_virt"; "dmi"; "kernel"; "boot_id"; "machine_id"; "init_environ_container"; "dockerenv";
     "host_dockerenv"].

Definition CARD_KEYS : list string :=
  ["index"; "name"; "uuid"; "memory_total_mb"; "memory_used_mb"; "compute_capability"; "power_limit_w";
   "power_default_w"; "utilization"; "memory_utilization"; "mig_mode"; "virtualization"; "pci_bus_id";
   "minor"; "errors"].

Fixpoint trimmed_cards (cards : list json) : res (list json) :=
  match cards with
  | [] => Ok []
  | card :: cards' =>
      items ← py_items card;
      rest ← trimmed_cards cards';
      mret (JDict (List.filter (λ kv : string * json, bool_decide (kv.1 ∈ CARD_KEYS)) items) :: rest)
  end.

(** [{k: x.get(k) for k in keys}] *)
Fixpoint picked (keys : list string) (x : json) : res dict :=
  match keys with
  | [] => Ok []
  | k :: keys' => v ← jget k JNull x; rest ← picked keys' x; mret ((k, v) :: rest)
  end.

Definition trimmed_scrape (data : dict) : res dict :=
  let nvml := jor (getv "nvml" data) (JDict []) in
  let host := jor (getv "host" data) (JDict []) in
  let probes := jor (getv "probes" data) (JDict []) in
  driver ← jget "driver" JNull nvml;
  cuda ← jget "cuda" JNull nvml;
  nvml_version ← jget "nvml_version" JNull nvml;
  nvml_errors ← jget "errors" JNull nvml;
  sysbox ← Scrape.jget_or "sysbox" probes;
  sysbox_ok ← jget "ok" JNull sysbox;
  sysbox_items ← py_items sysbox;
  quota ← Scrape.jget_or "storage_quota" probes;
  quota_ok ← jget "ok" JNull quota;
  idmapped ← jget "idmapped" JNull probes;
  image ← jget "image" JNull probes;
  host ← picked ["cpu"; "memory"; "disk"; "os"; "boot_id"; "uptime_seconds"; "nvidia_devices"] host;
  cards ← get_list "gpus" data;
  gpus ← trimmed_cards cards;
  mret [("driver", driver); ("cuda", cuda); ("nvml_version", nvml_version); ("nvml_errors", nvml_errors);
        ("hashes", getv "hashes" data); ("docker", getv "docker" data);
        ("probes", JDict [("sysbox", sysbox_ok);
           ("sysbox_detail", JDict (List.filter (λ kv : string * json, negb (String.eqb kv.1 "stdout")) sysbox_items));
           ("storage_quota", quota_ok); ("idmapped", idmapped); ("image", image)]);
        ("host", JDict host); ("gpus", JList gpus); ("elapsed_ms", getv "elapsed_ms" data)].

(** ** The world of a pass *)

(** The contents of the payload files. *)
Record Payloads : Type := MkPayloads {
  host_source : string; scrape_text : string; runner_source : string; inspector_source : string }.

(** The portal ([PoolClient]), the upload of a file over the session, [Fernet],
    [secrets.randbits(64)] and [datetime]. *)
Record World (H : Type) : Type := MkWorld {
  pool_rigs : bool → H → res dict * H;
  pool_rig : string → H → res dict * H;
  pool_verification : string → dict → H → res dict * H;
  upload_ : string → string → Z → H → res unit * H;
  fernet : string → string → option string;
  randbits : nat → H → Z;
  utcnow : H → Z;
  isoformat : Z → string;
  fromisoformat : string → option Z }.
Arguments MkWorld {H}. Arguments pool_rigs {H}. Arguments pool_rig {H}. Arguments pool_verification {H}.
Arguments upload_ {H}. Arguments fernet {H}. Arguments randbits {H}. Arguments utcnow {H}.
Arguments isoformat {H}. Arguments fromisoformat {H}.

Record Settings : Type := MkDeep {
  deep_seconds : Z; ssh_timeout : pyfloat; challenge_settings : Challenge.Settings }.

(** The verdicts and the detail of a pass, next to the machine. *)
Record Job (H : Type) : Type := MkJob { at_ : St H; verdicts : list Verdict; jdetail : dict }.
Arguments MkJob {H}. Arguments at_ {H}. Arguments verdicts {H}. Arguments jdetail {H}.

Definition DM (H A : Type) : Type := Job H → res A * Job H.
#[export] Instance DM_ret {H} : MRet (DM H) := λ A a j, (Ok a, j).
#[export] Instance DM_bind {H} : MBind (DM H) := λ A B f m j,
  match m j with (Ok a, j') => f a j' | (Raise e, j') => (Raise e, j') end.
Definition dlift {H A} (r : res A) : DM H A := λ j, (r, j).
Definition on_host {H A} (m : M H A) : DM H A := λ j,
  let '(r, st) := m j.(at_) in (r, MkJob st j.(verdicts) j.(jdetail)).
Definition append {H} (v : Verdict) : DM H unit := λ j,
  (Ok tt, MkJob j.(at_) (j.(verdicts) ++ [v]) j.(jdetail)).
Definition note {H} (k : string) (v : json) : DM H unit := λ j,
  (Ok tt, MkJob j.(at_) j.(verdicts) (dset k v j.(jdetail))).
Definition get_verdicts {H} : DM H (list Verdict) := λ j, (Ok j.(verdicts), j).

(** [v.failure is not None and v.failure.kind is FailureClass.SSH_TRANSPORT] *)
Definition transport (v : Verdict) : bool :=
  match v.(failure) with Some f => bool_decide (f.(kind) = SSH_TRANSPORT) | None => false end.

(** [[str(card.get("uuid", "")) for card in cards if card.get("uuid")]] *)
Fixpoint uuids_of (cards : list json) : res (list string) :=
  match cards with
  | [] => Ok []
  | card :: cards' =>
      uuid ← jget "uuid" JNull card;
      rest ← uuids_of cards';
      mret (if truthy uuid then py_str uuid :: rest else rest)
  end.

Fixpoint dicts_of (cards : list json) : res (list dict) :=
  match cards with
  | [] => Ok []
  | JDict d :: cards' => rest ← dicts_of cards'; mret (d :: rest)
  | _ => Raise AttributeError
  end.

(** [len(x)] *)
Definition jlen (j : json) : res Z :=
  match j with
  | JList l => Ok (Z.of_nat (List.length l))
  | JDict d => Ok (Z.of_nat (List.length d))
  | JStr s => Ok (Z.of_nat (slen s))
  | _ => Raise TypeError
  end.

(** The processes the inspector saw; [None] when there is no inspection. *)
Fixpoint pids_of (processes : list json) : res (list Z) :=
  match processes with
  | [] => Ok []
  | JDict p :: ps => pid ← get_int_or "pid" 0 p; rest ← pids_of ps; mret (pid :: rest)
  | _ :: ps => pids_of ps
  end.
Definition alive_of (inspected : dict) : res (option (list Z)) :=
  match inspected with
  | [] => Ok None
  | _ => l ← get_list "processes" inspected; pids ← pids_of l; mret (Some pids)
  end.

(** What the inspector printed, against the secret of this call and the nonce of
    the session.  [hmac.compare_digest] raises on text that is not ASCII. *)
Definition judge_inspector (secret nonce seed : string) (result : CommandResult) (parsed : option dict)
    : res (Verdict * dict) :=
  match parsed with
  | None =>
      let crash := default (MkFailure AGENT_CRASH "the inspector printed no result" seed []) (classify result seed) in
      Ok (MkVerdict "inspector" (Some crash) [] result.(relapsed_ms), [])
  | Some parsed =>
      key ← of_option ValueError (fromhex secret);
      if negb (Scrape.is_ascii nonce) then Raise ValueError else
      let expected := hex (hmac_sha256 (of_bytes key) nonce) in
      let reply := get_str_or "handshake" "" parsed in
      if negb (Scrape.is_ascii reply) then Raise TypeError else
      processes ← jlen (jor (getv "processes" parsed) (JList []));
      containers ← jlen (jor (getv "containers" parsed) (JList []));
      let handshake_ok := String.eqb expected reply in
      let evidence := [("handshake_ok", JBool handshake_ok); ("processes", JInt processes);
        ("containers", JInt containers);
        ("containers_error", JStr (stake 200 (get_str_or "containers_error" "" parsed)));
        ("summary", JStr (str_of_Z processes +:+ " processes, " +:+ str_of_Z containers +:+ " containers"))] in
      if handshake_ok then Ok (MkVerdict "inspector" None evidence result.(relapsed_ms), parsed)
      else Ok (MkVerdict "inspector"
                 (Some (MkFailure AGENT_CRASH "the inspector handshake does not match this session" seed []))
                 evidence result.(relapsed_ms), [])
  end.

(** ** The checks of a session *)

Section Deep.
Context {H : Type} (env : Env H) (out : Outer H) (world : World H) (payloads : Payloads) (settings : Settings).

Definition check_timeout_ : pyfloat := settings.(challenge_settings).(check_timeout).

Definition inspect (s : Session) (session_dir seed : string) : M H (Verdict * dict) := λ st,
  let secret := env.(rand_hex) 0 st.(host) in
  let remote := session_dir +:+ "/" +:+ INSPECTOR in
  match upload world.(upload_) payloads.(inspector_source) remote 384 st with
  | (Raise (SshError detail), st) => (Ok (fail "inspector" SSH_TRANSPORT detail seed [] [], []), st)
  | (Raise e, st) => (Raise e, st)
  | (Ok _, st) =>
      (answer ← run_json env (quote (python s) +:+ " -I " +:+ quote remote +:+ " " +:+ secret +:+ " " +:+ s.(snonce))
                  check_timeout_;
       lift (judge_inspector secret s.(snonce) seed answer.1 answer.2)) st
  end.

(** [if listing_error: exclusivity_verdict.evidence["listing_error"] = ...] *)
Definition with_listing_error (listing_error : string) (v : Verdict) : Verdict :=
  if String.eqb listing_error "" then v
  else MkVerdict v.(check) v.(failure)
         (dset "listing_error" (JStr (stake 200 listing_error)) v.(evidence)) v.(Failures.elapsed_ms).

(** The inspector, the containers and the processes; then, when nothing failed,
    the wedged cards. *)
Definition inspected_part (s : Session) (rig : dict) (session_dir seed : string) (scraped : option dict)
    : DM H unit :=
  i ← on_host (inspect s session_dir seed);
  let '(v, inspected) := i in
  _ ← append v;
  _ ← note "inspector" (JDict v.(evidence));
  if transport v then mret tt else
  listing ← on_host (Exclusivity.own_containers env);
  let '(ours, listing_error) := listing in
  alive ← dlift (alive_of inspected);
  gpus ← dlift (get_list "gpus" (default [] scraped) ≫= dicts_of);
  jobs ← dlift (Exclusivity.jobs_of rig);
  v ← dlift (Exclusivity.check gpus jobs ours seed alive);
  let v := with_listing_error listing_error v in
  _ ← append v;
  _ ← note "exclusivity" (JDict v.(evidence));
  all ← get_verdicts;
  match worst all with
  | None => sweep ← on_host (GpuWedge.sweep env);
            note "recovery" (JDict [("gpu_wedge", JDict (sweep_payload sweep))])
  | Some _ => mret tt
  end.

(** The challenge, on the enrolled cards that were seen. *)
Definition challenged_part (s : Session) (rig : dict) (request : ChallengeRequest.t) (session_dir seed : string)
    (scraped : option dict) (gpu_uuids : list string) : DM H unit :=
  v ← on_host (Challenge.run env (python s) world.(upload_) payloads.(runner_source)
                 settings.(challenge_settings) session_dir request (tier_of rig) gpu_uuids);
  _ ← append v;
  _ ← note "challenge" (JDict (List.filter (λ kv : string * json, negb (String.eqb kv.1 "digest")) v.(evidence)));
  if transport v then mret tt else inspected_part s rig session_dir seed scraped.

(** The scrape against the enrolment and the other machines. *)
Definition compared (rig : dict) (roster : list dict) (seed : string) (data spec : dict)
    (enrolled : list string) : DM H (list string) :=
  _ ← note "spec" (JDict spec);
  trimmed ← dlift (trimmed_scrape data);
  _ ← note "scrape" (JDict trimmed);
  v ← dlift (Specs.check data rig seed);
  _ ← append v;
  _ ← note "specs" (JDict v.(evidence));
  cards ← dlift (get_list "gpus" data);
  gpus ← dlift (dicts_of cards);
  v ← dlift (Duplicates.check gpus (get_str "id" rig) roster seed);
  _ ← append v;
  _ ← note "duplicates" (JDict v.(evidence));
  seen ← dlift (uuids_of cards);
  let present := List.filter (λ uuid, bool_decide (uuid ∈ seen)) enrolled in
  mret (match present with [] => enrolled | _ => present end).

Definition scraped_part (s : Session) (rig : dict) (roster : list dict) (request : ChallengeRequest.t)
    (session_dir seed : string) : DM H unit :=
  scraped ← on_host (Scrape.run env world.(fernet) (python s) s.(address)
                       (SessionGrant.port_range s.(grant)) payloads.(scrape_text) check_timeout_ seed);
  _ ← append (Scrape.verdict scraped);
  cards ← dlift (get_list "gpus" rig);
  enrolled ← dlift (uuids_of cards);
  match Scrape.data scraped, Scrape.spec scraped with
  | Some data, Some spec =>
      uuids ← compared rig roster seed data spec enrolled;
      challenged_part s rig request session_dir seed (Some data) uuids
  | data, _ =>
      if transport (Scrape.verdict scraped) then mret tt
      else challenged_part s rig request session_dir seed data enrolled
  end.

Definition checks (s : Session) (rig : dict) (roster : list dict) (request : ChallengeRequest.t)
    (session_dir seed : string) : DM H unit :=
  h ← on_host (HostReality.run env (python s) world.(upload_) payloads.(host_source) session_dir
                 check_timeout_ seed);
  let '(v, host) := h in
  _ ← append v;
  _ ← note "host" (JDict (trimmed_host host));
  if transport v then mret tt else scraped_part s rig roster request session_dir seed.

Definition make_command (session_dir : string) : string :=
  "mkdir -p " +:+ quote session_dir +:+ " && chmod 700 " +:+ quote session_dir.
Definition remove_command (session_dir : string) : string := "rm -rf " +:+ quote session_dir.

Definition session_dir_of (s : Session) (request : ChallengeRequest.t) : string :=
  rstrip_set "/" (SessionGrant.root_dir s.(grant)) +:+ "/mt-" +:+ hex016 (ChallengeRequest.seed request).

Definition in_session (s : Session) (rig : dict) (roster : list dict) (request : ChallengeRequest.t)
    (seed : string) : DM H unit :=
  _ ← append (attestation_verdict seed s);
  _ ← note "attestation" (JDict (attestation_summary s));
  let session_dir := session_dir_of s request in
  made ← on_host (Runner.run env (make_command session_dir) CLEANUP_TIMEOUT);
  match classify made seed with
  | Some crash =>
      append (MkVerdict "session" (Some crash)
                [("summary", JStr "could not create the session directory")] f0)
  | None =>
      try_finally (checks s rig roster request session_dir seed)
        (_ ← on_host (Runner.run env (remove_command session_dir) CLEANUP_TIMEOUT); mret tt)
  end.

(** The body of the session: what it raises, its verdicts and its detail. *)
Definition session_body (rig : dict) (roster : list dict) (request : ChallengeRequest.t) (seed : string)
    (vs : list Verdict) (d : dict) (s : Session) : NM H (res unit * (list Verdict * dict)) := λ n,
  let '(r, j) := in_session s rig roster request seed (MkJob n.(machine) vs d) in
  (Ok (r, (j.(verdicts), j.(jdetail))), MkNet j.(at_) n.(last_stamp) n.(sent) n.(connections)).

Definition pipeline (rig : dict) (roster : list dict) (min_version : string) (request : ChallengeRequest.t)
    (seed : string) : NM H (list Verdict * dict) :=
  called ← version env out rig;
  let '(v, answer) := Version.fetch called min_version seed in
  let detail := [("agent_version", JStr (get_str_or "version" "" answer))] in
  match v.(failure) with
  | Some _ => mret ([v], detail)
  | None =>
      o ← with_session env out rig settings.(ssh_timeout) (session_body rig roster request seed [v] detail);
      match o with
      | Ended (Ok _, done) => mret done
      | Ended (Raise e, _) => nlift (Raise e)
      | NoSession k text =>
          mret ([v; MkVerdict "session" (Some (MkFailure k text seed [])) [("summary", JStr (stake 120 text))] f0],
                detail)
      end
  end.

End Deep.

(** ** The pass over the machines

    The state of the object and the pass over one machine; [DeepRound] gathers the
    machines of a round. *)

Record Pass (H : Type) : Type := MkPass {
  net : Net H; busy : list string; server_interval : Z; last_outcomes : list (string * Outcome);
  express : Lane }.
Arguments MkPass {H}. Arguments net {H}. Arguments busy {H}. Arguments server_interval {H}.
Arguments last_outcomes {H}. Arguments express {H}.

Definition WM (H A : Type) : Type := Pass H → res A * Pass H.
#[export] Instance WM_ret {H} : MRet (WM H) := λ A a w, (Ok a, w).
#[export] Instance WM_bind {H} : MBind (WM H) := λ A B f m w,
  match m w with (Ok a, w') => f a w' | (Raise e, w') => (Raise e, w') end.

Section Rounds.
Context {H : Type} (env : Env H) (out : Outer H) (world : World H) (payloads : Payloads) (settings : Settings).

Definition wlift {A} (r : res A) : WM H A := λ w, (r, w).
Definition wget : WM H (Pass H) := λ w, (Ok w, w).
Definition set_net (n : Net H) (w : Pass H) : Pass H :=
  MkPass n w.(busy) w.(server_interval) w.(last_outcomes) w.(express).
Definition on_net {A} (m : NM H A) : WM H A := λ w, let '(r, n) := m w.(net) in (r, set_net n w).
(** A call to the portal. *)
Definition ask {A} (call : H → res A * H) : WM H A := λ w,
  let '(r, h) := call w.(net).(machine).(host) in (r, set_net (set_host env h w.(net)) w).
Definition host_of (w : Pass H) : H := w.(net).(machine).(host).
Definition set_busy (l : list string) : WM H unit := λ w,
  (Ok tt, MkPass w.(net) l w.(server_interval) w.(last_outcomes) w.(express)).
Definition set_interval (z : Z) : WM H unit := λ w,
  (Ok tt, MkPass w.(net) w.(busy) z w.(last_outcomes) w.(express)).
Definition set_outcome (id : string) (o : Outcome) : WM H unit := λ w,
  (Ok tt, MkPass w.(net) w.(busy) w.(server_interval) (dset id o w.(last_outcomes)) w.(express)).
Definition take_early : WM H (list string) := λ w,
  let '(ids, lane) := take_early_due w.(express) in
  (Ok ids, MkPass w.(net) w.(busy) w.(server_interval) w.(last_outcomes) lane).

(** [self.settings.deep_seconds or self.server_interval or DEFAULT_INTERVAL] *)
Definition interval (w : Pass H) : Z :=
  if negb (settings.(deep_seconds) =? 0)%Z then settings.(deep_seconds)
  else if negb (w.(server_interval) =? 0)%Z then w.(server_interval) else DEFAULT_INTERVAL.

Definition verifiable (rig : dict) : bool :=
  bool_decide (py_str (getd "state" (JStr "") rig) ∈ VERIFIABLE_STATES).

Definition locally_due (seconds : Z) (now : Z) (rig : dict) : res bool :=
  if negb (verifiable rig) || negb (truthy (getd "online" (JBool false) rig)) then Ok false
  else
    at_ ← jget "at" (JStr "") (jor (getv "last_pass" rig) (JDict []));
    let last := py_str (jor at_ (JStr "")) in
    if String.eqb last "" then Ok true
    else match world.(fromisoformat) last with
         | None => Ok true
         | Some moment => Ok (fle (fz seconds) (total_seconds (now - moment)))
         end.

Fixpoint locally_due_of (seconds now : Z) (rigs : list dict) : res (list dict) :=
  match rigs with
  | [] => Ok []
  | rig :: rigs' =>
      due ← locally_due seconds now rig;
      rest ← locally_due_of seconds now rigs';
      mret (if (due : bool) then rig :: rest else rest)
  end.

Definition id_of (rig : dict) : string := get_str "id" rig.

(** [[rig for rig in answer.get("rigs") or [] if isinstance(rig, dict)]] *)
Definition only_dicts (l : list json) : list dict :=
  omap (λ j, match j with JDict d => Some d | _ => None end) l.
Definition rigs_of (answer : dict) : res (list dict) := l ← get_list "rigs" answer; mret (only_dicts l).

(** The machines handed over by the express lane, after those that are due. *)
Definition add_early (early : list string) (due : list dict) (rig : dict) : list dict :=
  if bool_decide (id_of rig ∈ early) && negb (bool_decide (id_of rig ∈ id_of <$> due)) && verifiable rig
  then due ++ [rig] else due.

Definition due_rigs : WM H (list dict * list dict * string) :=
  roster ← ask (world.(pool_rigs) false);
  roster_rigs ← wlift (rigs_of roster);
  seconds ← wlift (get_int_or "deep_pass_seconds" DEFAULT_INTERVAL roster);
  _ ← set_interval seconds;
  let min_version := get_str_or "agent_min_version" "" roster in
  w ← wget;
  found ← (if negb (settings.(deep_seconds) =? 0)%Z then
             due ← wlift (locally_due_of (interval w) (world.(utcnow) (host_of w)) roster_rigs);
             mret (due, min_version)
           else
             answer ← ask (world.(pool_rigs) true);
             due ← wlift (rigs_of answer);
             mret (due, py_str (jor (getd "agent_min_version" (JStr min_version) answer) (JStr min_version))));
  let '(due, min_version) := found in
  early ← take_early;
  mret (foldl (add_early early) due roster_rigs, roster_rigs, min_version).

Definition report (o : Outcome) : WM H unit := λ w,
  let w := (set_outcome o.(orig_id) o w).2 in
  match ask (world.(pool_verification) o.(orig_id)
               (outcome_payload world.(isoformat) (world.(utcnow) (host_of w)) o)) w with
  | (Ok _, w) => (Ok tt, w)
  | (Raise (ServerError _), w) => (Ok tt, w)
  | (Raise e, w) => (Raise e, w)
  end.

(** The record of the rig: the portal's, or that of the roster when it refuses. *)
Definition connected (rig d : dict) : dict :=
  if dmem "connection" d then d else dset "connection" (jor (getv "connection" rig) (JDict [])) d.

Definition rig_record (rig : dict) : WM H dict := λ w,
  let '(r, w) := ask (world.(pool_rig) (id_of rig)) w in
  (match r with
   | Ok d => Ok (connected rig d)
   | Raise (ServerError _) => Ok (connected rig rig)
   | Raise e => Raise e
   end, w).

Definition new_request (h : H) : ChallengeRequest.t :=
  ChallengeRequest.Mk (world.(randbits) 0 h) (world.(randbits) 1 h) 256 2 2048 32.

(** The pipeline; without a challenge to give there is no outcome. *)
Definition attempt_pipeline (record : dict) (roster : list dict) (min_version : string)
    (request : ChallengeRequest.t) (seed : string) : WM H (option (list Verdict * dict)) := λ w,
  let '(r, w) := on_net (pipeline env out world payloads settings record roster min_version request seed) w in
  (match r with
   | Ok done => Ok (Some done)
   | Raise (ChallengeUnavailable _) => Ok None
   | Raise e => Raise e
   end, w).

Definition verify (rig : dict) (roster : list dict) (min_version : string) : WM H (option Outcome) :=
  w ← wget;
  let request := new_request (host_of w) in
  let seed := str_of_Z (ChallengeRequest.seed request) in
  let started := world.(utcnow) (host_of w) in
  record ← rig_record rig;
  done ← attempt_pipeline record roster min_version request seed;
  match done with
  | None => mret None
  | Some (vs, d) =>
      w ← wget;
      let o := finish (world.(utcnow) (host_of w))
                 (MkOutcome (id_of rig) (owner_of rig) seed started vs d None None) in
      _ ← report o; mret (Some o)
  end.
End Rounds.

(** How long [loop] waits after a round that took [elapsed] seconds; a round that
    fails is only logged. *)
Definition POLL_SECONDS : pyfloat := fz 60.
Definition loop_pause (elapsed : pyfloat) : pyfloat := fmax (fz 5) (fsub POLL_SECONDS elapsed).
