(* ===== verification/DeepFacts.v ===== *)
(** * Facts about the deep pass

    What a passing outcome says, what every outcome leaves on the machine, what is
    reported, and which machines are verified. *)

From Stdlib Require Import Ascii String QArith.
From S2P Require Import Prelude.
From S2P Require Import PyStr.
From S2P Require Import PyFloat.
From S2P Require Import PyJson.
From S2P Require Import Failures.
From S2P Require Import Messages.
From S2P Require Import SessionProto.
From S2P Require Import Sha256.
From S2P Require Import Attest.
From S2P Require Import Shell.
From S2P Require Import Runner.
From S2P Require Import Checks.
From S2P Require Import GpuWedge.
From S2P Require Import Challenge.
From S2P Require Import Client.
From S2P Require Import Express.
From S2P Require Scrape.
From S2P Require Import Deep.
Local Open Scope string_scope.
Local Open Scope list_scope.

(** ** The monad of a pass *)

Lemma DM_bind_ok {H A B} (m : DM H A) (f : A → DM H B) j b j' :
  (m ≫= f) j = (Ok b, j') → ∃ a j1, m j = (Ok a, j1) ∧ f a j1 = (Ok b, j').
Proof. unfold mbind, DM_bind. destruct (m j) as [[a|e] j1]; [eauto|done]. Qed.

Lemma dlift_ok {H A} (r : res A) (j : Job H) a j' : dlift r j = (Ok a, j') → r = Ok a ∧ j' = j.
Proof. by intros [= -> ->]. Qed.

Lemma on_host_ok {H A} (m : M H A) (j : Job H) a j' :
  on_host m j = (Ok a, j') →
  m j.(at_) = (Ok a, j'.(at_)) ∧ verdicts j' = verdicts j ∧ jdetail j' = jdetail j.
Proof. unfold on_host. destruct (m (at_ j)) as [r st]. by intros [= -> <-]. Qed.

Lemma append_bind {H A} v (f : unit → DM H A) (j : Job H) :
  (append v ≫= f) j = f tt (MkJob j.(at_) (j.(verdicts) ++ [v]) j.(jdetail)).
Proof. reflexivity. Qed.

Lemma note_bind {H A} k x (f : unit → DM H A) (j : Job H) :
  (note k x ≫= f) j = f tt (MkJob j.(at_) j.(verdicts) (dset k x j.(jdetail))).
Proof. reflexivity. Qed.

Lemma WM_bind_ok {H A B} (m : WM H A) (f : A → WM H B) w b w' :
  (m ≫= f) w = (Ok b, w') → ∃ a w1, m w = (Ok a, w1) ∧ f a w1 = (Ok b, w').
Proof. unfold mbind, WM_bind. destruct (m w) as [[a|e] w1]; [eauto|done]. Qed.

(** Walk through a pass that returned: one bind, one call, one verdict at a time. *)
Ltac dm_inv :=
  repeat match goal with
  | H : (append _ ≫= _) _ = (Ok _, _) |- _ => rewrite append_bind in H
  | H : (note _ _ ≫= _) _ = (Ok _, _) |- _ => rewrite note_bind in H
  | H : (_ ≫= _) _ = (Ok _, _) |- _ =>
      apply DM_bind_ok in H; let a := fresh "a" in let j := fresh "j" in let Ha := fresh "Ha" in
      destruct H as (a & j & Ha & H)
  | H : dlift _ _ = (Ok _, _) |- _ => let E := fresh "E" in apply dlift_ok in H as [E ->]
  | H : on_host _ _ = (Ok _, _) |- _ =>
      let E := fresh "E" in let Ev := fresh "Ev" in
      apply on_host_ok in H as (E & Ev & _); cbn [at_ verdicts] in E, Ev
  end.

(** A computation only ever appends to the log of the machine, however it ends. *)
Definition appends {H A} (m : DM H A) : Prop :=
  ∀ j, ∃ l, log (m j).2.(at_) = log j.(at_) ++ l.

Section Appends.
Context {H : Type}.

Lemma appends_id {A} (m : DM H A) : (∀ j, (m j).2.(at_) = j.(at_)) → appends m.
Proof. intros Hm j. exists []. by rewrite Hm, app_nil_r. Qed.

Lemma appends_bind {A B} (m : DM H A) (f : A → DM H B) :
  appends m → (∀ a, appends (f a)) → appends (m ≫= f).
Proof.
  intros Hm Hf j. destruct (Hm j) as [l Hl]. unfold mbind, DM_bind.
  destruct (m j) as [[a|e] j1]; cbn [snd] in *; [|by exists l].
  destruct (Hf a j1) as [l' Hl']. exists (l ++ l'). by rewrite Hl', Hl, app_assoc.
Qed.

Lemma appends_on_host {A} (m : M H A) : issues (λ _, True) m → appends (on_host m).
Proof.
  intros Hm j. destruct (Hm j.(at_)) as (l & Hl & _). exists l. unfold on_host.
  destruct (m (at_ j)) as [r st]. exact Hl.
Qed.
End Appends.

Ltac appends :=
  repeat match goal with
  | |- appends (_ ≫= _) => apply appends_bind; [|intros ?]
  | |- appends (on_host _) => apply appends_on_host
  | |- appends (append _) => by apply appends_id
  | |- appends (note _ _) => by apply appends_id
  | |- appends (dlift _) => by apply appends_id
  | |- appends (mret _) => by apply appends_id
  | |- appends get_verdicts => by apply appends_id
  | |- appends (match ?x with _ => _ end) => destruct x
  | |- appends (let '_ := ?x in _) => destruct x
  end.

(** ** What the parts run *)

Section Issue.
Context {H : Type} (env : Env H) (world : World H) (payloads : Payloads) (settings : Settings).
#[local] Abbreviation any := (λ _ : event, True).

Lemma upload_quiet f content path bits : issues any (upload (H := H) f content path bits).
Proof. apply issues_quiet. intros st. unfold upload. by destruct (f content path bits (host st)). Qed.

Lemma run_json_any command timeout : issues any (run_json env command timeout).
Proof. unfold run_json. issues; done. Qed.

(** [try: upload; run except SshError: d] *)
Lemma guarded_upload_any {A} f content path bits (k : M H A) (d : string → A) :
  issues any k →
  issues any (λ st, match upload f content path bits st with
                    | (Raise (SshError detail), st) => (Ok (d detail), st)
                    | (Raise e, st) => (Raise e, st)
                    | (Ok _, st) => k st
                    end).
Proof.
  intros Hk st. destruct (upload_quiet f content path bits st) as (l & Hl & _).
  destruct (upload f content path bits st) as [[u|e] st1]; cbn [snd] in Hl.
  - destruct (Hk st1) as (l' & Hl' & _). exists (l ++ l'). rewrite Hl', Hl, app_assoc.
    split; [done|]. by apply Forall_true.
  - exists l. destruct e; (split; [exact Hl|by apply Forall_true]).
Qed.

Lemma host_reality_any python f source dir timeout seed :
  issues any (HostReality.run env python f source dir timeout seed).
Proof.
  apply (guarded_upload_any f source (dir +:+ "/" +:+ HostReality.PAYLOAD) 384 _
           (λ detail, (fail "host reality" SSH_TRANSPORT detail seed [] [], []))).
  apply issues_bind; [apply run_json_any|]. intros. apply issues_lift.
Qed.

Lemma inspect_any s dir seed : issues any (inspect env world payloads settings s dir seed).
Proof.
  intros st. unfold inspect.
  apply (guarded_upload_any (upload_ world) (inspector_source payloads) (dir +:+ "/" +:+ INSPECTOR) 384
           (answer ← run_json env (quote (python s) +:+ " -I " +:+ quote (dir +:+ "/" +:+ INSPECTOR) +:+ " " +:+
                                   env.(rand_hex) 0 (host st) +:+ " " +:+ s.(snonce)) (check_timeout_ settings);
            lift (judge_inspector (env.(rand_hex) 0 (host st)) s.(snonce) seed answer.1 answer.2))
           (λ detail, (fail "inspector" SSH_TRANSPORT detail seed [] [], []))).
  apply issues_bind; [apply run_json_any|]. intros. apply issues_lift.
Qed.

Lemma scrape_any f python address ports payload timeout seed :
  issues any (Scrape.run env f python address ports payload timeout seed).
Proof. unfold Scrape.run. issues; done. Qed.

Lemma cards_any settings' python dir p tier r expected targets : ∀ entries fails total,
  issues any (cards env python settings' dir p tier r expected targets entries fails total).
Proof.
  induction targets as [|u targets IH]; intros entries fails total; cbn [cards]; [apply issues_ret|].
  apply issues_bind; [apply run_json_any|]. intros answer. apply issues_bind; [apply issues_lift|].
  intros x. destruct (next x); [apply IH|apply issues_ret].
Qed.

Lemma challenge_any python f source settings' dir r tier uuids :
  issues any (Challenge.run env python f source settings' dir r tier uuids).
Proof.
  unfold Challenge.run, prepare. issues; try apply upload_quiet. apply cards_any.
Qed.

Lemma own_containers_any : issues any (Exclusivity.own_containers env).
Proof. unfold Exclusivity.own_containers. issues; done. Qed.

Lemma checks_appends s rig roster request dir seed :
  appends (checks env world payloads settings s rig roster request dir seed).
Proof.
  unfold checks, scraped_part, compared, challenged_part, inspected_part.
  appends; auto using host_reality_any, scrape_any, challenge_any, inspect_any, own_containers_any.
  all: apply sweep_issues; done.
Qed.
End Issue.

(** ** What every pass leaves behind *)

Section Leaves.
Context {H : Type} (env : Env H) (out : Outer H) (world : World H) (payloads : Payloads) (settings : Settings).

Definition made_event (s : Session) (request : ChallengeRequest.t) (e : event) : Prop :=
  ecommand e = make_command (session_dir_of s request).
Definition removed_event (s : Session) (request : ChallengeRequest.t) (e : event) : Prop :=
  ecommand e = remove_command (session_dir_of s request).

(** The directory of a session: made first, and removed last whatever the checks
    do; when it could not be made nothing else runs. *)
Lemma in_session_log s rig roster request seed j :
  ∃ made rest, log (in_session env world payloads settings s rig roster request seed j).2.(at_) =
      log j.(at_) ++ made :: rest ∧ made_event s request made ∧
    match classify (eresult made) seed with
    | Some _ => rest = []
    | None => ∃ during removed, rest = during ++ [removed] ∧ removed_event s request removed
    end.
Proof.
  unfold in_session. rewrite append_bind, note_bind. cbn [at_ verdicts jdetail].
  set (dir := session_dir_of s request). unfold mbind at 1, DM_bind at 1, on_host at 1, Runner.run at 1, run_with at 1.
  cbn [at_]. destruct (exec env (make_command dir) CLEANUP_TIMEOUT None (host (at_ j))) as [made h]. cbn [at_].
  eexists (MkEvent (make_command dir) CLEANUP_TIMEOUT None made). cbn [eresult].
  destruct (classify made seed) as [crash|]; [by exists []|].
  unfold try_finally.
  match goal with |- context [checks ?e ?w ?p ?t ?a ?b ?c ?d ?f ?g ?jj] =>
    destruct (checks_appends e w p t a b c d f g jj) as [during Hd];
    destruct (checks e w p t a b c d f g jj) as [r j1] end.
  cbn [snd at_] in *. unfold mbind, DM_bind, on_host, Runner.run, run_with.
  destruct (exec env (remove_command dir) CLEANUP_TIMEOUT None (host (at_ j1))) as [removed h2]. cbn.
  exists (during ++ [MkEvent (remove_command dir) CLEANUP_TIMEOUT None removed]).
  rewrite Hd. cbn [log]. rewrite <- !app_assoc. split; [done|]. split; [done|]. by eexists during, _.
Qed.

Lemma session_body_tidy rig roster request seed vs d s :
  tidy (session_body env world payloads settings rig roster request seed vs d s).
Proof.
  intros n. unfold session_body. destruct (in_session _ _ _ _ _ _ _ _ _ _) as [r j].
  split; [done|]. exists []. by rewrite app_nil_r.
Qed.

(** C6. A deep pass leaves nothing behind, however it ends: every connection it opened
    is closed; on the machine it either ran no command, or it made one directory
    of its own, and unless that very command failed the last thing it ran is the
    removal of that directory. *)
Theorem deep_pass_cleans_up rig roster min_version request seed n r n' :
  pipeline env out world payloads settings rig roster min_version request seed n = (r, n') →
  connections n' = connections n ∧
  (log (machine n') = log (machine n) ∨
   ∃ dir made rest, log (machine n') = log (machine n) ++ made :: rest ∧
     ecommand made = "mkdir -p " +:+ quote dir +:+ " && chmod 700 " +:+ quote dir ∧
     match classify (eresult made) seed with
     | Some _ => rest = []
     | None => ∃ during removed, rest = during ++ [removed] ∧ ecommand removed = "rm -rf " +:+ quote dir
     end).
Proof.
  unfold pipeline. rewrite NM_bindE.
  pose proof (tidy_call env out rig "GET" VERSION_PATH None AGENT_TIMEOUT n) as [Hc _].
  pose proof (call_log env out rig "GET" VERSION_PATH None AGENT_TIMEOUT n) as Hl. unfold version.
  destruct (call env out rig "GET" VERSION_PATH None AGENT_TIMEOUT n) as [[c|e] n1]; cbn [snd] in Hc, Hl;
    [|intros [= <- <-]; by split; [|left]].
  destruct (Version.fetch c min_version seed) as [v answer].
  destruct (failure v); [intros [= <- <-]; by split; [|left]|].
  rewrite NM_bindE. set (body := session_body _ _ _ _ _ _ _ _ _ _).
  assert (∀ s, tidy (body s)) as Hb by (intros; apply session_body_tidy).
  destruct (with_session env out rig (ssh_timeout settings) body n1) as [o n2] eqn:Ew.
  pose proof (tidy_with_session env out rig (ssh_timeout settings) body Hb n1) as [Hc2 _].
  rewrite Ew in Hc2. cbn [snd] in Hc2.
  apply with_session_used in Ew as [[Hn _]|(g & key & nonce & port & s & m & _ & Hm & Hn & _)].
  - intros E. assert (n' = n2) as -> by (destruct o as [[[[|] ?]|]|]; by injection E).
    split; [congruence|]. left. congruence.
  - intros E. assert (n' = n2) as -> by (destruct o as [[[[|] ?]|]|]; by injection E).
    split; [congruence|]. right. rewrite Hn, <- Hl, <- Hm. unfold body, session_body.
    match goal with |- context [in_session ?e ?w ?p ?t ?a ?b ?c ?d ?f ?jj] =>
      destruct (in_session_log a b c d f jj) as (made & rest & Hlog & Hmade & Hrest);
      destruct (in_session e w p t a b c d f jj) as [r' j'] end.
    cbn [snd machine at_] in *. exists (session_dir_of s request), made, rest. by split_and!.
Qed.
End Leaves.

(** ** What a pass proves *)

(** The names the checks give their verdicts. *)
Lemma version_name called minimum seed v a :
  Version.fetch called minimum seed = (v, a) →
  check v = "version" ∧ (failure v = None → Version.stale (get_str_or "version" "" a) minimum = false).
Proof.
  unfold Version.fetch. destruct called as [d|k t]; intros [= <- <-]; [|done]. unfold Version.check.
  destruct (String.eqb _ ""); [done|]. by destruct (Version.stale _ _).
Qed.

Lemma attestation_name seed s :
  check (attestation_verdict seed s) = "attestation" ∧
  (failure (attestation_verdict seed s) = None → bound s = true ∧ report_data_ok s ≠ Some false).
Proof.
  unfold attestation_verdict. destruct (bound s); [|done]. by destruct (report_data_ok s) as [[]|].
Qed.

Lemma specs_name data rig seed v : Specs.check data rig seed = Ok v → check v = "specs".
Proof.
  unfold Specs.check. intros E. res_inv. destruct (List.filter _ _); [|by simplify_eq].
  res_inv. repeat case_match; by simplify_eq.
Qed.

Lemma duplicates_name gpus id roster seed v : Duplicates.check gpus id roster seed = Ok v → check v = "duplicates".
Proof.
  unfold Duplicates.check. intros E. res_inv. destruct (foldl _ _ _) as [|[u [|r l]] d]; by simplify_eq.
Qed.

Lemma exclusivity_name gpus jobs ours seed alive v :
  Exclusivity.check gpus jobs ours seed alive = Ok v → check v = "exclusivity".
Proof. unfold Exclusivity.check. intros E. res_inv. destruct (Exclusivity.foreign _); by simplify_eq. Qed.

Section Proves.
Context {H : Type} (env : Env H) (out : Outer H) (world : World H) (payloads : Payloads) (settings : Settings).

Lemma host_reality_name python f source dir timeout seed st v host st' :
  HostReality.run env python f source dir timeout seed st = (Ok (v, host), st') →
  check v = "host reality" ∧ (failure v = None → HostReality.judge host seed = Ok None).
Proof.
  unfold HostReality.run. destruct (upload _ _ _ _ _) as [[u|e] st1].
  - intros E. apply M_bind_ok in E as (answer & st2 & _ & E). injection E as E _.
    unfold HostReality.verdict_of in E. destruct (classify answer.1 seed), answer.2 as [d|]; res_inv; simplify_eq;
      (split; [done|]; cbn; first [done|by intros ->]).
  - destruct e; intros [= <- <- <-]. done.
Qed.

Lemma scrape_name f python address ports payload timeout seed st r st' :
  Scrape.run env f python address ports payload timeout seed st = (Ok r, st') →
  check (Scrape.verdict r) = "scrape" ∧
  (failure (Scrape.verdict r) = None → ∃ data spec, Scrape.data r = Some data ∧ Scrape.spec r = Some spec).
Proof.
  unfold Scrape.run. intros E. apply M_bind_ok in E as (st0 & st1 & _ & E).
  apply M_bind_ok in E as (p & st2 & _ & E). apply M_bind_ok in E as (res & st3 & _ & E). injection E as E _.
  unfold Scrape.judge in E. destruct (transport_failed res); [by simplify_eq|].
  destruct (negb _); [by simplify_eq|]. destruct (Scrape.decrypt _ _ _ _); [|by simplify_eq].
  res_inv. simplify_eq. cbn. eauto.
Qed.

Lemma inspect_name s dir seed st v i st' :
  inspect env world payloads settings s dir seed st = (Ok (v, i), st') → check v = "inspector".
Proof.
  unfold inspect. destruct (upload _ _ _ _ _) as [[u|e] st1].
  - intros E. apply M_bind_ok in E as (answer & st2 & _ & E). injection E as E _.
    unfold judge_inspector in E. destruct answer.2 as [d|]; [|by simplify_eq].
    res_inv. destruct (negb _); [done|]. destruct (negb _); [done|]. res_inv.
    destruct (String.eqb _ _); by simplify_eq.
  - destruct e; intros [= <- <- <-]. done.
Qed.

Lemma challenge_name python f source settings' dir r tier uuids st v st' :
  Challenge.run env python f source settings' dir r tier uuids st = (Ok v, st') → check v = "challenge".
Proof.
  unfold Challenge.run. intros E. apply M_bind_ok in E as (p & st1 & _ & E).
  apply M_bind_ok in E as (e & st2 & _ & E). apply M_bind_ok in E as ([[a b] c] & st3 & _ & E).
  by apply M_ret_ok in E as [<- _].
Qed.

Lemma transport_failed_ v : transport v = true → passed v = true → False.
Proof. unfold transport, passed. by destruct (failure v). Qed.

#[local] Abbreviation all_passed := (Forall (λ v, passed v = true)).

Lemma swept_verdicts (vs : list Verdict) (j j' : Job H) :
  match worst vs with
  | None => sweep ← on_host (GpuWedge.sweep env);
            note "recovery" (JDict [("gpu_wedge", JDict (sweep_payload sweep))])
  | Some _ => mret tt
  end j = (Ok tt, j') → verdicts j' = verdicts j.
Proof.
  destruct (worst vs); [by intros [= <-]|]. intros E. dm_inv. injection E as <-. exact Ev.
Qed.

Lemma inspected_ok s rig dir seed scraped j j' :
  inspected_part env world payloads settings s rig dir seed scraped j = (Ok tt, j') →
  ∃ l, verdicts j' = verdicts j ++ l ∧ (all_passed l → ∃ vi ve v gpus jobs ours alive,
    l = [vi; ve] ∧ check vi = "inspector" ∧ check ve = "exclusivity" ∧
    (get_list "gpus" (default [] scraped) ≫= dicts_of) = Ok gpus ∧ Exclusivity.jobs_of rig = Ok jobs ∧
    Exclusivity.check gpus jobs ours seed alive = Ok v ∧ passed v = true).
Proof.
  unfold inspected_part. intros E. apply DM_bind_ok in E as ([vi inspected] & j1 & E1 & E).
  apply on_host_ok in E1 as (E1 & Ev1 & _). apply inspect_name in E1. dm_inv.
  destruct (transport vi) eqn:Et.
  { injection E as <-. cbn [verdicts]. rewrite Ev1. eexists. split; [done|]. intros [Hp _]%Forall_cons.
    by destruct (transport_failed_ vi). }
  apply DM_bind_ok in E as ([ours err] & j2 & E2 & E). apply on_host_ok in E2 as (_ & Ev2 & _). dm_inv.
  match goal with Hg : get_verdicts _ = _ |- _ => injection Hg as <- <- end.
  apply swept_verdicts in E. rewrite E. cbn [verdicts at_] in *. rewrite Ev2, Ev1, <- app_assoc.
  eexists. split; [done|]. intros [_ [Hp _]%Forall_cons]%Forall_cons.
  rename select (Exclusivity.check _ _ _ _ _ = Ok _) into Ex.
  eexists vi, _, _, _, _, ours, _. split; [reflexivity|]. split; [done|].
  assert (∀ v, check (with_listing_error err v) = check v ∧ passed (with_listing_error err v) = passed v) as Hw
    by (intros; unfold with_listing_error; by destruct (String.eqb err "")).
  split; [rewrite (proj1 (Hw _)); by eapply exclusivity_name|].
  split_and!; [done|done|exact Ex|]. by rewrite <- (proj2 (Hw _)).
Qed.

(** The rest of the session after a challenge that passed, and after the scrape. *)
Lemma challenged_ok s rig request dir seed scraped uuids j j' :
  challenged_part env world payloads settings s rig request dir seed scraped uuids j = (Ok tt, j') →
  ∃ l, verdicts j' = verdicts j ++ l ∧ (all_passed l → ∃ vc vi ve v gpus jobs ours alive st st',
    l = [vc; vi; ve] ∧ check <$> l = ["challenge"; "inspector"; "exclusivity"] ∧
    Challenge.run env (python s) world.(upload_) payloads.(runner_source) settings.(challenge_settings) dir request
      (tier_of rig) uuids st = (Ok vc, st') ∧
    (get_list "gpus" (default [] scraped) ≫= dicts_of) = Ok gpus ∧ Exclusivity.jobs_of rig = Ok jobs ∧
    Exclusivity.check gpus jobs ours seed alive = Ok v ∧ passed v = true).
Proof.
  unfold challenged_part. intros E. apply DM_bind_ok in E as (vc & j1 & E1 & E).
  apply on_host_ok in E1 as (E1 & Ev1 & _). dm_inv. destruct (transport vc) eqn:Et.
  { injection E as <-. cbn [verdicts]. rewrite Ev1. eexists. split; [done|]. intros [Hp _]%Forall_cons.
    by destruct (transport_failed_ vc). }
  apply inspected_ok in E as (l & Hl & Hgood). cbn [verdicts] in Hl. rewrite Ev1, <- app_assoc in Hl.
  exists ([vc] ++ l). split; [done|]. intros [Hc Hp]%Forall_cons.
  destruct (Hgood Hp) as (vi & ve & v & gpus & jobs & ours & alive & -> & Hi & He & Hrest).
  exists vc, vi, ve, v, gpus, jobs, ours, alive, (at_ j), (at_ j1). split; [done|].
  split; [cbn; by rewrite (challenge_name _ _ _ _ _ _ _ _ _ _ _ E1), Hi, He|]. by split.
Qed.

(** The cards challenged: of those enrolled, every one that was seen. *)
Lemma compared_ok rig roster seed data spec enrolled (j : Job H) uuids j' :
  compared rig roster seed data spec enrolled j = (Ok uuids, j') →
  ∃ vs vd cards gpus seen, verdicts j' = verdicts j ++ [vs; vd] ∧ Specs.check data rig seed = Ok vs ∧
    get_list "gpus" data = Ok cards ∧ dicts_of cards = Ok gpus ∧
    Duplicates.check gpus (get_str "id" rig) roster seed = Ok vd ∧
    uuids_of cards = Ok seen ∧ (∀ u, u ∈ enrolled → u ∈ seen → u ∈ uuids).
Proof.
  unfold compared. intros E. dm_inv. injection E as <- <-. cbn [verdicts]. rewrite <- app_assoc.
  do 5 eexists. split; [reflexivity|]. split_and!; [eassumption..|].
  intros u Hu Hs. set (present := List.filter _ _).
  assert (u ∈ present) as Hp by (apply elem_of_filter_b; split; [done|by apply bool_decide_eq_true_2]).
  by destruct present.
Qed.

(** What the checks on the machine prove when none of them fails. *)
Record Proved (s : Session) (record : dict) (roster : list dict) (request : ChallengeRequest.t) (dir seed : string)
    (l : list Verdict) : Prop := {
  proved_names : check <$> l =
    ["host reality"; "scrape"; "specs"; "duplicates"; "challenge"; "inspector"; "exclusivity"];
  proved_host : ∃ host, HostReality.judge host seed = Ok None;
  proved_cards : ∃ data cards gpus vs vd,
    get_list "gpus" data = Ok cards ∧ dicts_of cards = Ok gpus ∧
    Specs.check data record seed = Ok vs ∧ vs ∈ l ∧
    Duplicates.check gpus (get_str "id" record) roster seed = Ok vd ∧ vd ∈ l ∧
    (∃ ours_cards enrolled seen uuids st vc st',
       get_list "gpus" record = Ok ours_cards ∧ uuids_of ours_cards = Ok enrolled ∧ uuids_of cards = Ok seen ∧
       (∀ u, u ∈ enrolled → u ∈ seen → u ∈ uuids) ∧
       Challenge.run env (python s) world.(upload_) payloads.(runner_source) settings.(challenge_settings) dir
         request (tier_of record) uuids st = (Ok vc, st') ∧ vc ∈ l) ∧
    (∃ jobs ours alive v, Exclusivity.jobs_of record = Ok jobs ∧
       Exclusivity.check gpus jobs ours seed alive = Ok v ∧ passed v = true) }.

Lemma scraped_ok s rig roster request dir seed j j' :
  scraped_part env world payloads settings s rig roster request dir seed j = (Ok tt, j') →
  ∃ l, verdicts j' = verdicts j ++ l ∧ (all_passed l → ∀ vh host,
    check vh = "host reality" → HostReality.judge host seed = Ok None →
    Proved s rig roster request dir seed (vh :: l)).
Proof.
  unfold scraped_part. intros E. apply DM_bind_ok in E as (r & j1 & E1 & E).
  apply on_host_ok in E1 as (E1 & Ev1 & _). apply scrape_name in E1 as [Hname Hdata]. dm_inv.
  destruct (failure (Scrape.verdict r)) as [f|] eqn:Ef.
  { assert (∃ l, verdicts j' = verdicts j ++ Scrape.verdict r :: l) as [l ->].
    { destruct (Scrape.data r) as [data|], (Scrape.spec r) as [spec|];
        try (destruct (transport (Scrape.verdict r)); [injection E as <-; cbn [verdicts]; rewrite Ev1; by exists []|]);
        try (apply challenged_ok in E as (l & -> & _); cbn [verdicts]; rewrite Ev1, <- app_assoc; by exists l).
      apply DM_bind_ok in E as (uuids & j2 & E2 & E). apply compared_ok in E2 as (vs & vd & _ & _ & _ & Ev2 & _).
      apply challenged_ok in E as (l & -> & _). rewrite Ev2. cbn [verdicts]. rewrite Ev1, <- !app_assoc. by eexists. }
    eexists. split; [done|]. intros [Hp _]%Forall_cons. unfold passed in Hp. by rewrite Ef in Hp. }
  destruct (Hdata eq_refl) as (data & spec & Hd & Hs). rewrite Hd, Hs in E.
  apply DM_bind_ok in E as (uuids & j2 & E2 & E).
  apply compared_ok in E2 as (vs & vd & cards & gpus & seen & Ev2 & Hspecs & Hcards & Hgpus & Hdup & Hseen & Hall).
  apply challenged_ok in E as (l & Hl & Hgood). rewrite Ev2 in Hl. cbn [verdicts] in Hl.
  rewrite Ev1, <- !app_assoc in Hl. eexists. split; [exact Hl|].
  intros Hp vh host Hvh Hhost. apply Forall_app in Hp as [_ [_ Hp]%Forall_app].
  destruct (Hgood Hp) as (vc & vi & ve & v & gpus' & jobs & ours & alive & st & st' & -> & Hn & Hch & Hg & Hjobs & Hex & Hv).
  change (default [] (Some data)) with data in Hg. rewrite Hcards in Hg. cbn in Hg. rewrite Hgpus in Hg. injection Hg as <-.
  cbn in Hn. injection Hn as Hn1 Hn2 Hn3. split.
  - cbn. by rewrite Hvh, Hname, (specs_name _ _ _ _ Hspecs), (duplicates_name _ _ _ _ _ Hdup), Hn1, Hn2, Hn3.
  - by exists host.
  - exists data, cards, gpus, vs, vd. split_and!; try done; [set_solver|set_solver| |].
    + do 4 eexists. exists st, vc, st'. split; [eassumption|]. split; [eassumption|].
      split; [exact Hseen|]. split; [exact Hall|]. split; [exact Hch|]. set_solver.
    + by exists jobs, ours, alive, v.
Qed.

Lemma checks_ok s rig roster request dir seed j j' :
  checks env world payloads settings s rig roster request dir seed j = (Ok tt, j') →
  ∃ l, verdicts j' = verdicts j ++ l ∧ (all_passed l → Proved s rig roster request dir seed l).
Proof.
  unfold checks. intros E. apply DM_bind_ok in E as ([vh host] & j1 & E1 & E).
  apply on_host_ok in E1 as (E1 & Ev1 & _). apply host_reality_name in E1 as [Hname Hjudge]. dm_inv.
  destruct (transport vh) eqn:Et.
  { injection E as <-. cbn [verdicts]. rewrite Ev1. eexists. split; [done|]. intros [Hp _]%Forall_cons.
    by destruct (transport_failed_ vh). }
  apply scraped_ok in E as (l & Hl & Hgood). cbn [verdicts] in Hl. rewrite Ev1, <- app_assoc in Hl.
  exists (vh :: l). split; [done|]. intros [Hp Hl']%Forall_cons.
  apply (Hgood Hl' vh host Hname), Hjudge. unfold passed in Hp. by destruct (failure vh).
Qed.

Lemma in_session_ok s rig roster request seed j j' :
  in_session env world payloads settings s rig roster request seed j = (Ok tt, j') →
  ∃ l, verdicts j' = verdicts j ++ attestation_verdict seed s :: l ∧
    (all_passed l → Proved s rig roster request (session_dir_of s request) seed l).
Proof.
  unfold in_session. intros E. rewrite append_bind, note_bind in E. apply DM_bind_ok in E as (made & j1 & E1 & E).
  apply on_host_ok in E1 as (_ & Ev1 & _). cbn [verdicts] in Ev1.
  destruct (classify made seed) as [crash|].
  { injection E as <-. cbn [verdicts]. rewrite Ev1, <- app_assoc. eexists. split; [done|]. by intros [Hp _]%Forall_cons. }
  unfold try_finally in E.
  destruct (checks env world payloads settings s rig roster request (session_dir_of s request) seed j1) as [r j2] eqn:Ec.
  unfold mbind, DM_bind, on_host, Runner.run, run_with in E. destruct (exec env _ _ _ _) as [res h].
  injection E as -> <-. cbn [verdicts]. apply checks_ok in Ec as (l & Hl & Hgood).
  exists l. split; [|done]. by rewrite Hl, Ev1, <- app_assoc.
Qed.

Lemma pipeline_ok rig roster min_version request seed n vs d n' :
  pipeline env out world payloads settings rig roster min_version request seed n = (Ok (vs, d), n') →
  all_passed vs →
  ∃ s g key nonce port answer v0 l, vs = v0 :: attestation_verdict seed s :: l ∧ check v0 = "version" ∧
    Version.stale (get_str_or "version" "" answer) min_version = false ∧
    pinned out g key nonce port settings.(ssh_timeout) s ∧
    bound s = true ∧ report_data_ok s ≠ Some false ∧ check (attestation_verdict seed s) = "attestation" ∧
    Proved s rig roster request (session_dir_of s request) seed l.
Proof.
  unfold pipeline. intros E Hp. apply NM_bind_ok in E as (called & n1 & _ & E).
  destruct (Version.fetch called min_version seed) as [v answer] eqn:Ef. apply version_name in Ef as [Hv Hstale].
  destruct (failure v) as [f|] eqn:Efv.
  { injection E as <- _ _. apply Forall_cons in Hp as [Hp _]. unfold passed in Hp. by rewrite Efv in Hp. }
  apply NM_bind_ok in E as (o & n2 & Ew & E).
  destruct o as [[r done]|k text].
  2:{ injection E as <- _ _. apply Forall_cons in Hp as [_ [Hp _]%Forall_cons]. done. }
  destruct r as [[]|e]; [|done]. injection E as -> _.
  apply with_session_used in Ew as [[_ Hno]|(g & key & nonce & port & s & m & Hpin & _ & _ & Hbody)]; [by destruct (Hno _ eq_refl)|].
  specialize (Hbody _ eq_refl). unfold session_body in Hbody.
  destruct (in_session env world payloads settings s rig roster request seed _) as [r j'] eqn:Ei.
  cbn [fst] in Hbody. injection Hbody as -> Hvs Hd. apply in_session_ok in Ei as (l & Hl & Hgood).
  rewrite Hvs in Hl. cbn [verdicts app] in Hl. subst vs.
  apply Forall_cons in Hp as [_ [Ha Hl']%Forall_cons].
  destruct (attestation_name seed s) as [Hname Hatt].
  destruct (Hatt ltac:(unfold passed in Ha; by destruct (failure (attestation_verdict seed s)))) as [Hb Hr].
  exists s, g, key, nonce, port, answer, v, l. split_and!; auto.
Qed.
End Proves.

Section Passes.
Context {H : Type} (env : Env H) (out : Outer H) (world : World H) (payloads : Payloads) (settings : Settings).

(** C4. A machine passes only when every check was made and none failed: the verdicts
    are those of the nine checks, in their order.  The agent was not below the
    minimum version, the session ran over a connection that presented the granted
    host key, its attestation answers the nonce of this very session, and for the
    portal's record of the machine ([Proved]): the host is a real one, the scraped
    cards are as enrolled and enrolled nowhere else, the challenge was given to
    every enrolled card that was seen and passed, and no process on the cards is
    foreign. *)
Theorem passed_means_all_checks rig roster min_version w o w' :
  verify env out world payloads settings rig roster min_version w = (Ok (Some o), w') →
  outcome_passed o = true →
  (check <$> o.(overdicts)) = ["version"; "attestation"; "host reality"; "scrape"; "specs"; "duplicates";
                               "challenge"; "inspector"; "exclusivity"] ∧
  Forall (λ v, failure v = None) o.(overdicts) ∧
  ∃ record s g key nonce port answer request seed dir l,
    Version.stale (get_str_or "version" "" answer) min_version = false ∧
    pinned out g key nonce port settings.(ssh_timeout) s ∧
    Attestation.bound_to s.(attestation) nonce = true ∧ report_data_ok s ≠ Some false ∧
    (record = connected rig rig ∨ ∃ h h' d, world.(pool_rig) (id_of rig) h = (Ok d, h') ∧ record = connected rig d) ∧
    Proved env world payloads settings s record roster request dir seed l ∧ l ⊆ o.(overdicts).
Proof.
  unfold verify. intros E Ho. apply WM_bind_ok in E as (w0 & w1 & [= <- <-] & E). cbn zeta in E.
  set (request := new_request world _) in *. set (seed := str_of_Z _) in *.
  apply WM_bind_ok in E as (record & w2 & Er & E).
  apply WM_bind_ok in E as (done & w3 & Ep & E). destruct done as [[vs d]|]; [|done].
  apply WM_bind_ok in E as (w4 & w5 & [= <- <-] & E). apply WM_bind_ok in E as ([] & w6 & _ & [= <- _]).
  unfold outcome_passed in Ho. destruct (ofailure (finish _ _)) eqn:Ef; [done|]. cbn in Ef.
  apply worst_None in Ef. unfold attempt_pipeline, on_net in Ep.
  destruct (pipeline env out world payloads settings record roster min_version request seed (net w2)) as [r n'] eqn:Epi.
  destruct r as [[vs' d']|e]; [|by destruct e]. injection Ep as -> -> <-.
  destruct (pipeline_ok env out world payloads settings _ _ _ _ _ _ _ _ _ Epi Ef)
    as (s & g & key & nonce & port & answer & v0 & l & -> & Hv0 & Hstale & Hpin & Hb & Hr & Ha & Hproved).
  cbn [overdicts finish]. split.
  { cbn. rewrite Hv0, Ha. f_equal. f_equal. apply (proved_names _ _ _ _ _ _ _ _ _ _ _ Hproved). }
  split; [eapply Forall_impl; [exact Ef|]; intros v; unfold passed; by destruct (failure v)|].
  exists record, s, g, key, nonce, port, answer, request, seed, (session_dir_of s request), l.
  split; [done|]. split; [done|]. split.
  { destruct Hpin as (_ & _ & _ & <- & _). done. }
  split; [done|]. split; [|split; [done|set_solver]].
  unfold rig_record, ask in Er. destruct (pool_rig world (id_of rig) _) as [[d'|e] h] eqn:Eq; cbn in Er.
  - right. injection Er as <- _. by exists (host (machine (net w))), h, d'.
  - left. by destruct e; simplify_eq.
Qed.
End Passes.

(** ** What is reported *)

Lemma min_by_snoc key best l g :
  min_by key best (l ++ [g]) = (if (key g <? key (min_by key best l))%nat then g else min_by key best l).
Proof. revert best. induction l as [|f l IH]; intros best; [done|]. apply IH. Qed.

Lemma worst_snoc vs x :
  worst (vs ++ [x]) =
    match worst vs, failure x with
    | None, y => y
    | Some m, Some g => Some (if (rank g.(kind) <? rank m.(kind))%nat then g else m)
    | Some m, None => Some m
    end.
Proof.
  unfold worst. rewrite omap_app. cbn [omap list_omap].
  destruct (omap failure vs) as [|f l], (failure x) as [g|]; rewrite ?app_nil_r; try done.
  cbn [app]. by rewrite min_by_snoc.
Qed.

(** The worst failure is the first of its class, and no class is worse. *)
Lemma worst_first vs f : worst vs = Some f →
  ∃ pre v post, vs = pre ++ v :: post ∧ failure v = Some f ∧
    (∀ v' g, v' ∈ pre → failure v' = Some g → (rank f.(kind) < rank g.(kind))%nat) ∧
    (∀ v' g, v' ∈ post → failure v' = Some g → (rank f.(kind) <= rank g.(kind))%nat).
Proof.
  revert f. induction vs as [|x vs IH] using rev_ind; intros f; [done|]. rewrite worst_snoc.
  destruct (worst vs) as [m|] eqn:Em.
  - destruct (IH m eq_refl) as (pre & v & post & -> & Hv & Hpre & Hpost).
    assert (∀ y, failure x = y → (∀ g, y = Some g → (rank m.(kind) <= rank g.(kind))%nat) → m = f →
      ∃ pre' v' post', (pre ++ v :: post) ++ [x] = pre' ++ v' :: post' ∧ failure v' = Some f ∧
        (∀ v'' g, v'' ∈ pre' → failure v'' = Some g → (rank f.(kind) < rank g.(kind))%nat) ∧
        (∀ v'' g, v'' ∈ post' → failure v'' = Some g → (rank f.(kind) <= rank g.(kind))%nat)) as Hkept.
    { intros y Hy Hle <-. exists pre, v, (post ++ [x]). rewrite <- app_assoc. split_and!; try done.
      intros v'' g [Hin| ->%list_elem_of_singleton]%elem_of_app Hf; [by eapply Hpost|]. apply Hle. congruence. }
    destruct (failure x) as [g|] eqn:Ex; [|intros [= ->]; by apply (Hkept None)].
    destruct (Nat.ltb_spec (rank (kind g)) (rank (kind m))) as [Hlt|Hge]; intros [= <-].
    + exists (pre ++ v :: post), x, []. split_and!; try done; [|by intros ? ? ?%not_elem_of_nil].
      intros v' h [Hin|[->|Hin]%elem_of_cons]%elem_of_app Hf.
      * specialize (Hpre _ _ Hin Hf). lia.
      * rewrite Hv in Hf. by injection Hf as <-.
      * specialize (Hpost _ _ Hin Hf). lia.
    + apply (Hkept (Some g)); [done| |done]. by intros h [= <-].
  - intros Hf. exists vs, x, []. split_and!; try done; [|by intros ? ? ?%not_elem_of_nil].
    intros v' g Hin Hg. apply worst_None in Em. rewrite Forall_forall in Em. specialize (Em _ Hin).
    unfold passed in Em. by rewrite Hg in Em.
Qed.

Lemma find_app {A} (f : A → bool) l l' :
  (∀ x, x ∈ l → f x = false) → List.find f (l ++ l') = List.find f l'.
Proof.
  induction l as [|x l IH]; intros Hl; [done|]. cbn. rewrite Hl by apply list_elem_of_here.
  apply IH. intros y Hy. apply Hl. by apply list_elem_of_further.
Qed.

(** What is reported of a pass: it passed exactly when no verdict failed, it has
    one entry for each verdict, and otherwise its class, its reason and its check
    are those of one verdict: the first of those whose class is the worst. *)
Lemma outcome_reported isoformat now later o :
  let o' := finish now o in
  let p := outcome_payload isoformat later o' in
  (getv "passed" p = JBool true ↔ Forall (λ v, failure v = None) o.(overdicts)) ∧
  (∃ l, getv "checks" p = JList l ∧ List.length l = List.length o.(overdicts)) ∧
  getv "finished_at" p = JStr (isoformat now) ∧
  (getv "passed" p = JBool false →
   ∃ before v f after reported, o.(overdicts) = before ++ v :: after ∧ failure v = Some f ∧
     (∀ v' f', v' ∈ before → failure v' = Some f' → (rank f.(kind) < rank f'.(kind))%nat) ∧
     (∀ v' f', v' ∈ after → failure v' = Some f' → (rank f.(kind) <= rank f'.(kind))%nat) ∧
     getv "failure" p = JStr (class_value f.(kind)) ∧ getv "detail" p = JDict reported ∧
     getv "reason" reported = JStr f.(detail) ∧ getv "failing_check" reported = JStr v.(check)).
Proof.
  cbn zeta. unfold outcome_payload.
  assert (outcome_passed (finish now o) = match worst (overdicts o) with None => true | Some _ => false end) as Hp by done.
  assert (∀ d rest, getv "passed" (("passed", JBool d) :: rest) = JBool d) as Hg by done.
  rewrite Hg, Hp. split; [|split; [|split]].
  - transitivity (worst (overdicts o) = None); [by destruct (worst (overdicts o))|]. rewrite worst_None.
    split; intros Hall; (eapply Forall_impl; [exact Hall|]); intros v; unfold passed; by destruct (failure v).
  - match goal with |- context [("checks", JList ?l)] => exists l end. split; [reflexivity|]. exact (length_fmap _ _).
  - reflexivity.
  - destruct (worst (overdicts o)) as [f|] eqn:Ew; [|done]. intros _.
    destruct (worst_first _ _ Ew) as (pre & v & post & Hvs & Hv & Hpre & Hpost).
    exists pre, v, f, post. eexists. split; [done|]. split; [done|]. split; [done|]. split; [done|].
    assert (ofailure (finish now o) = Some f) as Hf by done. rewrite Hf.
    split; [reflexivity|]. split; [reflexivity|]. cbn [odetail finish]. split.
    + unfold getv, getd. rewrite !dget_dset_ne by done. rewrite dget_dset. cbn [ofailure]. by rewrite Ew.
    + unfold getv, getd. rewrite dget_dset_ne by done. rewrite dget_dset. cbn [default]. f_equal.
      unfold failing_check. cbn [ofailure overdicts]. rewrite Ew, Hvs, find_app.
      * cbn [List.find]. by rewrite Hv, bool_decide_eq_true_2.
      * intros v' Hin. destruct (failure v') as [f'|] eqn:Ef; [|done]. apply bool_decide_eq_false_2. intros E.
        specialize (Hpre _ _ Hin Ef). rewrite E in Hpre. lia.
Qed.

(** ** Which machines are verified *)

Definition keeps {H A} (m : WM H A) : Prop :=
  ∀ w, busy (m w).2 = busy w ∧ express (m w).2 = express w.

Section Rounds.
Context {H : Type} (env : Env H) (out : Outer H) (world : World H) (payloads : Payloads) (settings : Settings).

Lemma pass_keeps_bind {A B} (m : WM H A) (f : A → WM H B) : keeps m → (∀ a, keeps (f a)) → keeps (m ≫= f).
Proof.
  intros Hm Hf w. unfold mbind, WM_bind. destruct (Hm w) as [H1 H2]. destruct (m w) as [[a|e] w1]; [|done].
  cbn [snd] in *. destruct (Hf a w1) as [H3 H4]. split; congruence.
Qed.

Lemma ask_keeps {A} (call : H → res A * H) : keeps (ask env call).
Proof. intros w. unfold ask. by destruct (call _). Qed.

Lemma on_net_keeps {A} (m : NM H A) : keeps (on_net m).
Proof. intros w. unfold on_net. by destruct (m _). Qed.

Lemma add_early_spec early roster due :
  let all := foldl (add_early early) due roster in
  due `prefix_of` all ∧
  (∀ rig, rig ∈ roster → id_of rig ∈ early → verifiable rig = true → id_of rig ∈ id_of <$> all) ∧
  (∀ rig, rig ∈ all → rig ∈ due ∨ rig ∈ roster ∧ id_of rig ∈ early ∧ verifiable rig = true).
Proof.
  cbn zeta. revert due. induction roster as [|rig roster IH]; intros due; cbn [foldl].
  { split; [done|]. split; [by intros ? ?%not_elem_of_nil|by left]. }
  destruct (IH (add_early early due rig)) as (Hp & He & Ha).
  assert (due `prefix_of` add_early early due rig) as Hdue.
  { unfold add_early. destruct (_ && _ && _); [by apply prefix_app_r|done]. }
  split; [by etrans|]. split.
  - intros r [->|Hr]%elem_of_cons Hearly Hv; [|by apply He].
    assert (id_of rig ∈ id_of <$> add_early early due rig) as Hin.
    { unfold add_early. rewrite bool_decide_eq_true_2, Hv by done. cbn [andb].
      destruct (bool_decide_reflect (id_of rig ∈ id_of <$> due)) as [Hd|_]; [exact Hd|]. cbn.
      rewrite fmap_app, elem_of_app. right. apply list_elem_of_here. }
    destruct Hp as [k ->]. rewrite fmap_app, elem_of_app. by left.
  - intros r Hr. apply Ha in Hr as [Hr|(Hr & Hx)]; [|right; split; [by apply list_elem_of_further|done]].
    unfold add_early in Hr. destruct (bool_decide (id_of rig ∈ early)) eqn:E1; [|by left].
    destruct (verifiable rig) eqn:E2; [|rewrite andb_false_r in Hr; by left].
    destruct (_ && _); [|by left]. apply elem_of_app in Hr as [Hr| ->%list_elem_of_singleton]; [by left|].
    right. split; [apply list_elem_of_here|]. by apply bool_decide_eq_true in E1.
Qed.

Lemma keeps_ok {A} (m : WM H A) w a w' : keeps m → m w = (Ok a, w') → busy w' = busy w ∧ express w' = express w.
Proof. intros Hm E. destruct (Hm w) as [H1 H2]. by rewrite E in H1, H2. Qed.

Lemma due_rigs_ok w due roster min_version w' :
  due_rigs env world settings w = (Ok (due, roster, min_version), w') →
  busy w' = busy w ∧ early_due (express w') = [] ∧
  (∀ rig, rig ∈ roster → id_of rig ∈ early_due (express w) → verifiable rig = true → id_of rig ∈ id_of <$> due).
Proof.
  unfold due_rigs. intros E. apply WM_bind_ok in E as (answer & w1 & E1 & E).
  apply keeps_ok in E1 as [B1 X1]; [|apply ask_keeps].
  apply WM_bind_ok in E as (rigs & w2 & [= _ <-] & E). apply WM_bind_ok in E as (seconds & w3 & [= _ <-] & E).
  apply WM_bind_ok in E as ([] & w4 & [= <-] & E). apply WM_bind_ok in E as (w5 & w6 & [= <- <-] & E).
  apply WM_bind_ok in E as ([due' minv'] & w7 & E2 & E).
  assert (busy w7 = busy w1 ∧ express w7 = express w1) as [B2 X2].
  { apply keeps_ok in E2 as [-> ->]; [done|]. destruct (negb _).
    - apply pass_keeps_bind; [done|]. done.
    - apply pass_keeps_bind; [apply ask_keeps|]. intros. by apply pass_keeps_bind. }
  apply WM_bind_ok in E as (early & w8 & E3 & E). injection E3 as <- <-. injection E as <- <- <- <-.
  cbn. split; [congruence|]. split; [done|]. rewrite X2, X1. intros rig.
  apply (add_early_spec (early_due (express w)) rigs due').
Qed.
End Rounds.

(** ** A machine that passes *)

Definition sample_texts (s : string) : option json :=
  if String.eqb s "{host}" then
    Some (JDict [("init_root_reachable", JBool true); ("init_root_differs", JBool true);
                 ("init_os_release_readable", JBool true); ("dmi", JDict [("sys_vendor", JStr "Dell")])])
  else if String.eqb s "scrape" then Some (JDict [("gpus", JList [JDict
    [("_ab", JStr "GPU-1"); ("name", JStr "NVIDIA GeForce RTX 4090"); ("memory_total_mb", JInt 24564)]])])
  else if String.eqb s "{answer}" then Some (JDict [("digest", JStr "0000000000000007")])
  else if String.eqb s "{inspector}" then
    Some (JDict [("handshake", JStr (hex (hmac_sha256 (String (ascii_of_nat 171) "") "ab")));
                 ("processes", JList [JDict [("pid", JInt 1)]])])
  else None.

Definition sample_exec (c : string) : string :=
  if PyStr.contains "host_reality.py" c then "{host}"
  else if String.eqb c "python3 -I -" then "gAAAAAtoken"
  else if PyStr.contains "challenge_runner.py" c then "{answer}"
  else if PyStr.contains "inspector.py" c then "{inspector}" else "".

Definition sample_env : Env unit :=
  MkEnv _ (λ c _ _ h, (MkResult c 0 (sample_exec c) "" f0 "", h)) (λ _ h, h) (λ _, f0) (λ _, fz 1000) (λ _, [])
    (λ _ _, "ab") (λ _ _, "") sample_texts.
Definition sample_out : Outer unit :=
  MkOuter "5Hot" (λ m, stake 2 m)
    (λ r h, (Response 200 false "{}" (Some (JDict
       (if PyStr.contains "version" r.(url) then [("version", JStr "1.2.0")]
        else [("ssh_username", JStr "mt"); ("ssh_host_key", JStr "ssh-ed25519 AAAA host"); ("session_id", JStr "s1");
              ("gpu_attestation", JDict [("nonce", JStr "ab")])]))), h))
    (λ _, "ssh-ed25519 BBBB") (λ _ _ _ _ _ h, (Presented (Some "ssh-ed25519 AAAA"), h)).
Definition sample_record : dict :=
  [("id", JStr "rig-1"); ("state", JStr "active"); ("tier", JStr "entry");
   ("gpus", JList [JDict [("uuid", JStr "GPU-1"); ("model", JStr "NVIDIA GeForce RTX 4090")]]);
   ("connection", JDict [("address", JStr "10.0.0.7"); ("api_port", JInt 8080)])].
Definition sample_world : World unit :=
  MkWorld (λ _ h, (Ok [("rigs", JList [JDict sample_record]); ("agent_min_version", JStr "1.1.0")], h))
    (λ _ h, (Ok sample_record, h)) (λ _ _ h, (Ok [], h)) (λ _ _ _ h, (Ok tt, h)) (λ _ _, Some "scrape") (λ _ _, 5%Z)
    (λ _, 0%Z) (λ _, "now") (λ _, None).
Definition sample_payloads : Payloads :=
  MkPayloads "" ("F_UUID = " +:+ Scrape.quotes +:+ "uuid" +:+ Scrape.quotes) "" "".
Definition sample_settings : Settings :=
  MkDeep 0 (fz 60) (Challenge.MkSettings (Some (λ _ _ _ _, (0%Z, 7%Z, ""))) None "" true (fz 15000) (fz 300)).
Definition sample_pass : Pass unit :=
  MkPass (MkNet (MkSt tt [] (MkInflight [] []) (MkRecords [] []) [] []) f0 [] 0) [] 3600 [] (new_lane []).

Definition sample_verify : res (option Outcome) * Pass unit :=
  verify sample_env sample_out sample_world sample_payloads sample_settings sample_record [sample_record] "1.1.0"
    sample_pass.

Lemma passed_means_all_checks_witness :
  ∃ o w', sample_verify = (Ok (Some o), w') ∧ outcome_passed o = true ∧ List.length o.(overdicts) = 9%nat.
Proof.
  destruct sample_verify as [[[o|]|] w'] eqn:E; [|exfalso; revert E; vm_compute; discriminate..].
  assert (outcome_passed o = true) as Ho by (revert E; vm_compute; by intros [= <- _]).
  destruct (passed_means_all_checks sample_env sample_out sample_world sample_payloads sample_settings sample_record
    [sample_record] "1.1.0" sample_pass o w' E Ho) as [Hn _].
  exists o, w'. split; [reflexivity|]. split; [exact Ho|].
  rewrite <- (length_fmap check), Hn. reflexivity.
Defined.

Lemma deep_pass_cleans_up_witness :
  let o := pipeline sample_env sample_out sample_world sample_payloads sample_settings sample_record [sample_record]
             "1.1.0" (new_request sample_world tt) "5" (net sample_pass) in
  is_ok o.1 = true ∧ connections o.2 = 0%Z.
Proof.
  destruct (pipeline sample_env sample_out sample_world sample_payloads sample_settings sample_record [sample_record]
             "1.1.0" (new_request sample_world tt) "5" (net sample_pass)) as [r n'] eqn:E.
  split; [revert E; vm_compute; by intros [= <- _]|].
  apply (deep_pass_cleans_up sample_env sample_out sample_world sample_payloads sample_settings sample_record
           [sample_record] "1.1.0" (new_request sample_world tt) "5" (net sample_pass) r n' E).
Defined.

(** ** Passes that end without an outcome

    A machine whose SFTP server refuses the challenge runner, and one that prints a
    handshake that is not ASCII: the exceptions ([SshError], [TypeError]) are caught
    by nobody but the round, and the portal is told nothing. *)

Definition with_upload (f : string → string → Z → unit → res unit * unit) : World unit :=
  let w := sample_world in
  MkWorld w.(pool_rigs) w.(pool_rig) w.(pool_verification) f w.(fernet) w.(randbits) w.(utcnow) w.(isoformat)
    w.(fromisoformat).

Lemma refused_runner_unreported :
  let world := with_upload (λ _ path _ h,
    (if PyStr.contains RUNNER_NAME path then Raise (SshError "upload: permission denied") else Ok tt, h)) in
  let o := verify sample_env sample_out world sample_payloads sample_settings sample_record [sample_record] "1.1.0"
             sample_pass in
  o.1 = Raise (SshError "upload: permission denied") ∧ last_outcomes o.2 = [].
Proof. split; vm_compute; reflexivity. Qed.

Lemma handshake_not_ascii_raises secret nonce seed result reply :
  is_Some (fromhex secret) → Scrape.is_ascii nonce = true → Scrape.is_ascii reply = false → reply ≠ "" →
  judge_inspector secret nonce seed result (Some [("handshake", JStr reply)]) = Raise TypeError.
Proof.
  intros [k Hk] Hn Hr Hne. unfold judge_inspector. rewrite Hk. cbn [of_option mbind res_bind]. rewrite Hn. cbn [negb].
  assert (get_str_or "handshake" "" [("handshake", JStr reply)] = reply) as -> by (by apply jor_str_default).
  by rewrite Hr.
Qed.
