(* ===== verification/DeepRound.v ===== *)
(** * A round of deep passes (validator/schedule/deep.py: run_once, guarded)

    [run_once] gathers one task for each machine that is due and not busy.  A task
    marks its machine, waits for a slot of the [Limiter] of [Express] (the miner's
    semaphore, then the global one), verifies, leaves the slot and unmarks the
    machine.  A task is the stage it is at; [advance] takes it to its next await on
    the state all tasks share, and a schedule says whose turn it is, in any order.
    [Deep.verify] is what a task does in its slot when no other task moves in
    between ([verify_alone]).  A round that is cancelled is not modelled. *)

From Stdlib Require Import Ascii String QArith.
From S2P Require Import Prelude.
From S2P Require Import PyStr.
From S2P Require Import PyFloat.
From S2P Require Import PyJson.
From S2P Require Import Failures.
From S2P Require Import Messages.
From S2P Require Import SessionProto.
From S2P Require Import Runner.
From S2P Require Import Checks.
From S2P Require Import Challenge.
From S2P Require Import Client.
From S2P Require Import Express.
From S2P Require Import Deep.
From S2P Require Import DeepFacts.
Local Open Scope string_scope.
Local Open Scope list_scope.

(** Where a task is: not started, waiting for the miner's semaphore, holding it and
    waiting for the other, in its slot (before the portal is asked for the record,
    before the pipeline, before the report, before it leaves), ended. *)
Inductive stage : Type :=
  | Created
  | Waiting
  | Holding
  | Entered
  | Recorded (request : ChallengeRequest.t) (seed : string) (started : Z) (record : dict)
  | Judged (o : Outcome)
  | Leaving (r : res (option Outcome))
  | Gone (o : option Outcome).

Record round (H : Type) : Type := MkRound {
  pass_ : Pass H; slots : Limiter.t; tasks_ : list (dict * stage) }.
Arguments MkRound {H}. Arguments pass_ {H}. Arguments slots {H}. Arguments tasks_ {H}.

(** [self.busy.add] and [self.busy.discard] *)
Definition busy_add (id : string) (l : list string) : list string :=
  if bool_decide (id ∈ l) then l else id :: l.
Definition busy_discard (id : string) (l : list string) : list string :=
  List.filter (λ x, negb (String.eqb x id)) l.
Definition with_busy {H} (f : list string → list string) (w : Pass H) : Pass H :=
  (set_busy (f w.(busy)) w).2.

(** [return_exceptions=True] and [except Exception]: a failed task returns nothing. *)
Definition returned (r : res (option Outcome)) : option Outcome :=
  match r with Ok o => o | Raise _ => None end.

Definition is_gone (x : dict * stage) : bool := match x.2 with Gone _ => true | _ => false end.

Section Rounds.
Context {H : Type} (env : Env H) (out : Outer H) (world : World H) (payloads : Payloads) (settings : Settings).

(** ** The steps of a task *)

(** The parts of [verify], up to the answer of the portal, of the machine, of the portal. *)
Definition enter (rig : dict) (w : Pass H) : stage * Pass H :=
  let request := new_request world (host_of w) in
  let started := world.(utcnow) (host_of w) in
  let '(r, w) := rig_record env world rig w in
  (match r with
   | Ok record => Recorded request (str_of_Z (ChallengeRequest.seed request)) started record
   | Raise e => Leaving (Raise e)
   end, w).

Definition probe (roster : list dict) (min_version : string) (rig : dict) (request : ChallengeRequest.t)
    (seed : string) (started : Z) (record : dict) (w : Pass H) : stage * Pass H :=
  let '(r, w) := attempt_pipeline env out world payloads settings record roster min_version request seed w in
  (match r with
   | Ok (Some (vs, d)) =>
       Judged (finish (world.(utcnow) (host_of w))
                 (MkOutcome (id_of rig) (owner_of rig) seed started vs d None None))
   | Ok None => Leaving (Ok None)
   | Raise e => Leaving (Raise e)
   end, w).

Definition tell (o : Outcome) (w : Pass H) : stage * Pass H :=
  let '(r, w) := report env world o w in
  (Leaving (match r with Ok _ => Ok (Some o) | Raise e => Raise e end), w).

Definition advance (roster : list dict) (min_version : string) (i : nat) (c : round H) : option (round H) :=
  match c.(tasks_) !! i with
  | None => None
  | Some (rig, s) =>
      let go (x : stage * Pass H) := Some (MkRound x.2 c.(slots) (<[i:=(rig, x.1)]> c.(tasks_))) in
      match s with
      | Created => go (Waiting, with_busy (busy_add (id_of rig)) c.(pass_))
      | Waiting =>
          l ← Limiter.take_miner (slot_owner rig) c.(slots);
          Some (MkRound c.(pass_) l (<[i:=(rig, Holding)]> c.(tasks_)))
      | Holding =>
          l ← Limiter.take_global c.(slots);
          Some (MkRound c.(pass_) l (<[i:=(rig, Entered)]> c.(tasks_)))
      | Entered => go (enter rig c.(pass_))
      | Recorded request seed started record =>
          go (probe roster min_version rig request seed started record c.(pass_))
      | Judged o => go (tell o c.(pass_))
      | Leaving r =>
          Some (MkRound (with_busy (busy_discard (id_of rig)) c.(pass_))
                  (Limiter.release (slot_owner rig) c.(slots)) (<[i:=(rig, Gone (returned r))]> c.(tasks_)))
      | Gone _ => None
      end
  end.

(** A schedule: each entry gives a task its turn; one that has to wait stays as it is. *)
Fixpoint gather (roster : list dict) (min_version : string) (schedule : list nat) (c : round H) : round H :=
  match schedule with
  | [] => c
  | i :: rest => gather roster min_version rest (default c (advance roster min_version i c))
  end.

Definition begin_round (slots : Limiter.t) (pending : list dict) (w : Pass H) : round H :=
  MkRound w slots ((λ rig, (rig, Created)) <$> pending).

(** The machines of a round. *)
Definition pending_of (busy : list string) (due : list dict) : list dict :=
  List.filter (λ rig, negb (bool_decide (id_of rig ∈ busy))) due.

(** The round under a schedule: what [run_once] returns, nothing while some task has
    not ended yet; with the state it leaves. *)
Definition run_once (slots : Limiter.t) (schedule : list nat) (w : Pass H) : res (option Z) * round H :=
  let '(r, w) := due_rigs env world settings w in
  match r with
  | Raise e => (Raise e, MkRound w slots [])
  | Ok (due, roster, min_version) =>
      let pending := pending_of w.(busy) due in
      let c := gather roster min_version schedule (begin_round slots pending w) in
      (Ok (if forallb is_gone c.(tasks_) then Some (Z.of_nat (List.length pending)) else None), c)
  end.

(** ** One step *)

Definition active (s : stage) : bool := match s with Created | Gone _ => false | _ => true end.
(** The outcome a task returns or is about to return. *)
Definition outcome_of (s : stage) : option Outcome :=
  match s with Leaving (Ok o) => o | Gone o => o | _ => None end.
Definition steps_left (s : stage) : nat :=
  match s with
  | Created => 7 | Waiting => 6 | Holding => 5 | Entered => 4 | Recorded _ _ _ _ => 3 | Judged _ => 2
  | Leaving _ => 1 | Gone _ => 0
  end.

(** What a step does to the state the tasks share. *)
Definition effect (rig : dict) (s s' : stage) (w w' : Pass H) : Prop :=
  express w' = express w ∧ (steps_left s' < steps_left s)%nat ∧
  busy w' = match s with Created => busy_add (id_of rig) (busy w) | Leaving _ => busy_discard (id_of rig) (busy w)
                    | _ => busy w end ∧
  last_outcomes w' = match s with Judged o => dset (orig_id o) o (last_outcomes w) | _ => last_outcomes w end ∧
  match s with Leaving r => s' = Gone (returned r) | _ => active s' = true end ∧
  (∀ o, s' = Judged o → orig_id o = id_of rig) ∧
  (∀ o, outcome_of s' = Some o → s = Judged o ∨ outcome_of s = Some o).

Lemma enter_effect rig w : effect rig Entered (enter rig w).1 w (enter rig w).2.
Proof.
  unfold enter, rig_record. destruct (ask_keeps env (pool_rig world (id_of rig)) w) as [H1 H2].
  assert (last_outcomes (ask env (pool_rig world (id_of rig)) w).2 = last_outcomes w) as H3
    by (unfold ask; by destruct (pool_rig _ _ _)).
  destruct (ask env _ w) as [[d|e] w1]; [|destruct e]; cbn [fst snd] in *; split_and!; cbn; try done; lia.
Qed.

Lemma probe_effect roster min_version rig request seed started record w :
  let x := probe roster min_version rig request seed started record w in
  effect rig (Recorded request seed started record) x.1 w x.2.
Proof.
  unfold probe, attempt_pipeline, on_net. cbn zeta.
  destruct (pipeline _ _ _ _ _ _ _ _ _ _ _) as [[[vs d]|e] n]; cbn [fst snd].
  - split_and!; try done; [cbn; lia|]. by intros o [= <-].
  - destruct e; cbn; split_and!; try done; cbn; lia.
Qed.

Lemma tell_effect rig o w : effect rig (Judged o) (tell o w).1 w (tell o w).2.
Proof.
  unfold tell, report. set (w1 := (set_outcome _ o w).2).
  match goal with |- context [ask env ?call w1] => set (f := call) end.
  destruct (ask_keeps env f w1) as [H1 H2].
  assert (last_outcomes (ask env f w1).2 = last_outcomes w1) as H3 by (unfold ask; by destruct (f _)).
  destruct (ask env f w1) as [[d|e] w2]; [|destruct e]; cbn [fst snd] in *;
    (split_and!; try done; try (cbn; lia); intros o' [= ->]; by left).
Qed.

Lemma advance_effect roster min_version i c c' : advance roster min_version i c = Some c' →
  ∃ rig s s', c.(tasks_) !! i = Some (rig, s) ∧ c'.(tasks_) = <[i:=(rig, s')]> c.(tasks_) ∧
    effect rig s s' c.(pass_) c'.(pass_).
Proof.
  unfold advance. destruct (tasks_ c !! i) as [[rig s]|]; [|done]. intros E. exists rig, s.
  destruct s; cbn zeta in E; try done;
    try (match type of E with context [Limiter.take_miner ?o ?l] => destruct (Limiter.take_miner o l) eqn:?; [|done]
         | context [Limiter.take_global ?l] => destruct (Limiter.take_global l) eqn:?; [|done] end);
    injection E as <-; cbn [tasks_ pass_]; eexists; (split; [done|split; [done|]]).
  - split_and!; try done; cbn; lia.
  - split_and!; try done; cbn; lia.
  - split_and!; try done; cbn; lia.
  - apply enter_effect.
  - apply probe_effect.
  - apply tell_effect.
  - split_and!; try done; [cbn; lia|]. intros o. destruct r as [o'|]; [|done]. cbn. by right.
Qed.

(** ** The slots

    The tasks as the [Limiter] of [Express] sees them. *)
Definition slot_phase (s : stage) : Limiter.phase :=
  match s with
  | Created | Waiting => Limiter.Waiting | Holding => Limiter.Holding | Gone _ => Limiter.Done
  | _ => Limiter.Inside
  end.
Definition seen (x : dict * stage) : string * Limiter.phase := (slot_owner x.1, slot_phase x.2).
Definition system (c : round H) : Limiter.system := Limiter.MkSystem c.(slots) (seen <$> c.(tasks_)).

Lemma seen_insert i rig s s' (ts : list (dict * stage)) : ts !! i = Some (rig, s) → slot_phase s' = slot_phase s →
  seen <$> <[i:=(rig, s')]> ts = seen <$> ts.
Proof.
  intros Hi E. rewrite list_fmap_insert. apply list_insert_id. rewrite list_lookup_fmap, Hi. cbn. unfold seen. cbn.
  by rewrite E.
Qed.

Lemma advance_system roster min_version i c c' : advance roster min_version i c = Some c' →
  system c' = system c ∨ Limiter.step (system c) (system c').
Proof.
  unfold advance, system. destruct (tasks_ c !! i) as [[rig s]|] eqn:Hi; [|done].
  assert ((seen <$> tasks_ c) !! i = Some (slot_owner rig, slot_phase s)) as Hs by (by rewrite list_lookup_fmap, Hi).
  destruct s; cbn zeta; try done.
  - intros [= <-]. left. cbn [slots tasks_]. by rewrite (seen_insert i rig Created).
  - destruct (Limiter.take_miner _ _) eqn:E; [|done]. intros [= <-]. right. cbn [slots tasks_].
    rewrite list_fmap_insert. by apply (Limiter.step_miner i (slot_owner rig)).
  - destruct (Limiter.take_global _) eqn:E; [|done]. intros [= <-]. right. cbn [slots tasks_].
    rewrite list_fmap_insert. by apply (Limiter.step_global i (slot_owner rig)).
  - intros [= <-]. left. cbn [slots tasks_]. f_equal. apply (seen_insert i rig Entered); [done|].
    unfold enter. by destruct (rig_record _ _ _ _) as [[]].
  - intros [= <-]. left. cbn [slots tasks_]. f_equal. eapply seen_insert; [exact Hi|].
    unfold probe. by destruct (attempt_pipeline _ _ _ _ _ _ _ _ _ _ _) as [[[[]|]|]].
  - intros [= <-]. left. cbn [slots tasks_]. f_equal. eapply seen_insert; [exact Hi|].
    unfold tell. by destruct (report _ _ _ _) as [[]].
  - intros [= <-]. right. cbn [slots tasks_]. rewrite list_fmap_insert. by apply (Limiter.step_leave i (slot_owner rig)).
Qed.

(** Some task can go on unless all have ended. *)
Lemma round_progress roster min_version mi per c : LimiterFacts.inv mi per (system c) →
  forallb is_gone c.(tasks_) = true ∨
  ∃ i, (i < List.length c.(tasks_))%nat ∧ is_Some (advance roster min_version i c).
Proof.
  intros Hinv. destruct (LimiterFacts.progress mi per _ Hinv) as [Hd|[s' Hs]].
  - left. apply forallb_forall. intros [rig s] Hx%list_elem_of_In. apply Forall_fmap in Hd. rewrite Forall_forall in Hd.
    specialize (Hd _ Hx). by destruct s.
  - right. assert (∀ i o p, (seen <$> tasks_ c) !! i = Some (o, p) →
      ∃ rig s, tasks_ c !! i = Some (rig, s) ∧ o = slot_owner rig ∧ p = slot_phase s) as Hat.
    { intros i o p Hi. apply list_lookup_fmap_Some in Hi as ([rig s] & [= -> ->] & Hi). by exists rig, s. }
    unfold system in Hs. inversion Hs as [i o l l' ts Hi Ht E1 E2|i o l l' ts Hi Ht E1 E2|i o l ts Hi E1 E2]; subst;
      destruct (Hat _ _ _ Hi) as (rig & s & Hts & -> & Hp); exists i;
      (split; [by eapply lookup_lt_Some|]); unfold advance; rewrite Hts; destruct s; try done; cbn zeta; by rewrite Ht.
Qed.

(** ** A round

    What holds of the tasks and of the state they share at every moment of a round
    that began with [w0].  No other machine is marked or unmarked, and a machine is
    marked from the start of its first task until one of its tasks ends. *)
Record marks_inv (w0 : Pass H) (c : round H) : Prop := {
  inv_kept : ∀ x, x ∈ busy w0 → x ∈ busy c.(pass_);
  inv_marked : ∀ x, x ∈ busy c.(pass_) →
    x ∈ busy w0 ∨ ∃ i rig s, c.(tasks_) !! i = Some (rig, s) ∧ active s = true ∧ id_of rig = x;
  inv_busy : ∀ i rig s, c.(tasks_) !! i = Some (rig, s) → active s = true →
    (∀ j rig' o, c.(tasks_) !! j = Some (rig', Gone o) → id_of rig' ≠ id_of rig) → id_of rig ∈ busy c.(pass_)
}.

(** The last outcome of a machine listed once is the one its task returns. *)
Record reports_inv (pending : list dict) (w0 : Pass H) (c : round H) : Prop := {
  inv_judged : ∀ i rig o, c.(tasks_) !! i = Some (rig, Judged o) → orig_id o = id_of rig;
  inv_untold : ∀ id, id ∉ id_of <$> pending →
    dget id (last_outcomes c.(pass_)) = dget id (last_outcomes w0);
  inv_told : ∀ i rig s o, c.(tasks_) !! i = Some (rig, s) → outcome_of s = Some o →
    (∀ j rig', pending !! j = Some rig' → id_of rig' = id_of rig → j = i) →
    dget (id_of rig) (last_outcomes c.(pass_)) = Some o
}.

Definition round_inv (pending : list dict) (w0 : Pass H) (c : round H) : Prop :=
  c.(tasks_).*1 = pending ∧ express c.(pass_) = express w0 ∧ marks_inv w0 c ∧ reports_inv pending w0 c.

Lemma elem_busy_add x id l : x ∈ busy_add id l ↔ x = id ∨ x ∈ l.
Proof. unfold busy_add. case_bool_decide; [|by rewrite elem_of_cons]. naive_solver. Qed.

Lemma elem_busy_discard x id l : x ∈ busy_discard id l ↔ x ≠ id ∧ x ∈ l.
Proof.
  unfold busy_discard. rewrite elem_of_filter_b, negb_true_iff, String.eqb_neq. naive_solver.
Qed.

(** The entry a step changed, or another one. *)
Lemma insert_at {A} i j (x y : A) (l : list A) :
  <[i:=x]> l !! j = Some y → (j = i ∧ y = x) ∨ (j ≠ i ∧ l !! j = Some y).
Proof. intros [(-> & -> & _)|[Hne Hj]]%list_lookup_insert_Some; [by left|right; split; [congruence|done]]. Qed.

Lemma marks_step w0 (c c' : round H) i rig s s' :
  c.(tasks_) !! i = Some (rig, s) → c'.(tasks_) = <[i:=(rig, s')]> c.(tasks_) →
  effect rig s s' c.(pass_) c'.(pass_) → id_of rig ∉ busy w0 → marks_inv w0 c → marks_inv w0 c'.
Proof.
  intros Hi Hts (_ & Hleft & Hbusy & _ & Hact & _) Hfree [I3 I4 I5].
  assert (∀ o, s ≠ Gone o) as Hs by (intros o ->; cbn in Hleft; lia).
  assert (∀ s1, <[i:=(rig, s1)]> (tasks_ c) !! i = Some (rig, s1)) as Hat
    by (intros s1; apply list_lookup_insert_eq; by eapply lookup_lt_Some).
  split.
  - intros x Hx. rewrite Hbusy. destruct s; try (by apply I3); [apply elem_busy_add; right; by apply I3|].
    apply elem_busy_discard. split; [by intros ->|by apply I3].
  - intros x Hx. rewrite Hbusy in Hx. rewrite Hts.
    destruct (decide (x = id_of rig ∧ active s' = true)) as [[-> Ha]|Hno]; [right; by exists i, rig, s'|].
    assert (x ∈ busy (pass_ c)) as Hold.
    { destruct s; try done; [|by apply elem_busy_discard in Hx as [_ ?]].
      apply elem_busy_add in Hx as [->|?]; [|done]. by destruct Hno. }
    apply I4 in Hold as [H0|(j & rig' & s1 & Hj & Ha & <-)]; [by left|]. right.
    destruct (decide (j = i)) as [->|Hne]; [|exists j, rig', s1; by rewrite list_lookup_insert_ne].
    rewrite Hi in Hj. injection Hj as -> ->. exfalso.
    destruct s1; try (by destruct Hno). by apply elem_busy_discard in Hx as [? _].
  - rewrite Hts. intros j rig' s1 Hj Ha Hgone. rewrite Hbusy.
    assert (∀ k rig1 o, tasks_ c !! k = Some (rig1, Gone o) → id_of rig1 ≠ id_of rig') as Hold.
    { intros k rig1 o Hk. apply (Hgone k rig1 o). rewrite list_lookup_insert_ne; [done|].
      intros <-. rewrite Hi in Hk. injection Hk as _ ->. by eapply Hs. }
    apply insert_at in Hj as [[-> [= -> ->]]|[Hne Hj]].
    + destruct s; try (by apply (I5 i rig _ Hi)); [apply elem_busy_add; by left|by rewrite Hact in Ha|by destruct (Hs o)].
    + specialize (I5 j rig' s1 Hj Ha Hold). destruct s; try done; [apply elem_busy_add; by right|].
      apply elem_busy_discard. split; [|done]. apply not_eq_sym, (Hgone i rig (returned r)). by rewrite Hat, Hact.
Qed.

Lemma reports_step pending w0 (c c' : round H) i rig s s' :
  c.(tasks_) !! i = Some (rig, s) → c'.(tasks_) = <[i:=(rig, s')]> c.(tasks_) → pending !! i = Some rig →
  (∀ j rig' s1, c.(tasks_) !! j = Some (rig', s1) → pending !! j = Some rig') →
  effect rig s s' c.(pass_) c'.(pass_) → reports_inv pending w0 c → reports_inv pending w0 c'.
Proof.
  intros Hi Hts Hpi Hp (_ & _ & _ & Hlo & _ & Hjud & Hout) [I6 I7 I8].
  assert (∀ id, id ≠ id_of rig → dget id (last_outcomes (pass_ c')) = dget id (last_outcomes (pass_ c))) as Hother.
  { intros id Hid. rewrite Hlo. destruct s; try done. rewrite (I6 i rig o Hi). by apply dget_dset_ne. }
  split.
  - rewrite Hts. intros j rig' o [[-> [= -> E]]|[Hne Hj]]%insert_at; [by apply Hjud|by eapply I6].
  - intros id Hid. rewrite Hother; [by apply I7|]. intros ->. apply Hid, list_elem_of_fmap. exists rig.
    split; [done|]. by eapply list_elem_of_lookup_2.
  - rewrite Hts. intros j rig' s1 o [[-> [= -> ->]]|[Hne Hj]]%insert_at Ho Honly.
    + destruct (Hout o Ho) as [->|Hs].
      * rewrite Hlo, (I6 i rig o Hi). apply dget_dset.
      * rewrite Hlo. destruct s; try done; by apply (I8 i rig _ o Hi).
    + rewrite Hother; [by eapply I8|]. intros E. apply Hne. symmetry. by apply (Honly i rig).
Qed.

Lemma round_inv_step roster min_version pending w0 i c c' :
  (∀ rig, rig ∈ pending → id_of rig ∉ busy w0) → advance roster min_version i c = Some c' →
  round_inv pending w0 c → round_inv pending w0 c'.
Proof.
  intros Hfree (rig & s & s' & Hi & Hts & He)%advance_effect (Hr & Hl & Hm & Hrep).
  assert (∀ j rig' s1, c.(tasks_) !! j = Some (rig', s1) → pending !! j = Some rig') as Hp
    by (intros j rig' s1 Hj; by rewrite <- Hr, list_lookup_fmap, Hj).
  pose proof (Hp _ _ _ Hi) as Hpi. split; [|split; [|split]].
  - rewrite Hts, list_fmap_insert. cbn. rewrite list_insert_id; [done|]. by rewrite Hr.
  - destruct He as [He _]. congruence.
  - eapply (marks_step w0 c); [done..| |done]. apply Hfree. by eapply list_elem_of_lookup_2.
  - by eapply (reports_step pending w0 c).
Qed.

(** ** The turns of a round *)

Definition work (c : round H) : nat := sum_list_with (λ x, steps_left x.2) c.(tasks_).

Lemma steps_insert i rig s s' (ts : list (dict * stage)) : ts !! i = Some (rig, s) →
  (sum_list_with (λ x, steps_left x.2) (<[i:=(rig, s')]> ts) + steps_left s =
   sum_list_with (λ x, steps_left x.2) ts + steps_left s')%nat.
Proof.
  revert i. induction ts as [|x ts IH]; intros [|i] Hi; try done.
  - injection Hi as ->. change (<[0%nat:=(rig, s')]> ((rig, s) :: ts)) with ((rig, s') :: ts). simpl. lia.
  - specialize (IH i Hi). change (<[S i:=(rig, s')]> (x :: ts)) with (x :: <[i:=(rig, s')]> ts). simpl. lia.
Qed.

Lemma advance_work roster min_version i c c' : advance roster min_version i c = Some c' → (work c' < work c)%nat.
Proof.
  intros (rig & s & s' & Hi & Hts & _ & Hl & _)%advance_effect. unfold work. rewrite Hts.
  pose proof (steps_insert i rig s s' _ Hi). lia.
Qed.

Lemma gather_keeps (P : round H → Prop) roster min_version schedule :
  (∀ i c c', advance roster min_version i c = Some c' → P c → P c') →
  ∀ c, P c → P (gather roster min_version schedule c).
Proof.
  intros Hstep. induction schedule as [|i l IH]; intros c Hc; [done|]. cbn. apply IH.
  destruct (advance roster min_version i c) eqn:E; [by eapply Hstep|done].
Qed.

Lemma gather_work roster min_version schedule c : (work (gather roster min_version schedule c) <= work c)%nat.
Proof.
  apply (gather_keeps (λ c', work c' <= work c)%nat); [|done].
  intros i c1 c2 E%advance_work. cbv beta. lia.
Qed.

(** A task that can go on when its turn comes, or another one before it, does. *)
Lemma gather_moves roster min_version schedule i c : i ∈ schedule → is_Some (advance roster min_version i c) →
  (work (gather roster min_version schedule c) < work c)%nat.
Proof.
  intros Hi Hs. induction schedule as [|j l IH]; [by apply elem_of_nil in Hi|]. cbn.
  destruct (advance roster min_version j c) as [c'|] eqn:E; cbn [default from_option id].
  - pose proof (advance_work _ _ _ _ _ E). pose proof (gather_work roster min_version l c'). lia.
  - apply elem_of_cons in Hi as [->|Hi]; [|by apply IH]. rewrite E in Hs. by destruct Hs.
Qed.

Definition inv_slots (mi per : Z) (c : round H) : Prop := LimiterFacts.inv mi per (system c).

Lemma inv_slots_step mi per roster min_version i c c' :
  advance roster min_version i c = Some c' → inv_slots mi per c → inv_slots mi per c'.
Proof.
  unfold inv_slots. intros [->|Hs]%advance_system Hinv; [done|]. by eapply LimiterFacts.limiter_inv_step.
Qed.

Lemma gone_stay roster min_version schedule c :
  forallb is_gone c.(tasks_) = true → gather roster min_version schedule c = c.
Proof.
  intros Hg. induction schedule as [|i l IH]; [done|]. cbn.
  assert (advance roster min_version i c = None) as ->; [|done].
  unfold advance. destruct (tasks_ c !! i) as [[rig s]|] eqn:Hi; [|done].
  rewrite forallb_forall in Hg. specialize (Hg (rig, s)). destruct s; try done;
    (discriminate Hg; apply list_elem_of_In; by eapply list_elem_of_lookup_2).
Qed.

Lemma work_done c : work c = 0%nat → forallb is_gone c.(tasks_) = true.
Proof.
  unfold work. induction (tasks_ c) as [|[rig s] ts IH]; [done|]. cbn. intros Hw.
  destruct s; cbn in Hw; try lia. cbn. apply IH. lia.
Qed.

(** Enough rounds of turns in which nobody is forgotten end all tasks. *)
Lemma gather_fair mi per roster min_version blocks : ∀ c, inv_slots mi per c → (work c <= List.length blocks)%nat →
  (∀ b i, b ∈ blocks → (i < List.length c.(tasks_))%nat → i ∈ b) →
  forallb is_gone (tasks_ (gather roster min_version (concat blocks) c)) = true.
Proof.
  induction blocks as [|b blocks IH]; intros c Hinv Hw Hall; [apply work_done; cbn in *; lia|].
  destruct (forallb is_gone (tasks_ c)) eqn:Hg; [by rewrite gone_stay|].
  destruct (round_progress roster min_version mi per c Hinv) as [?|(i & Hi & Hs)]; [congruence|].
  pose proof (gather_moves roster min_version b i c (Hall b i (list_elem_of_here _ _) Hi) Hs) as Hlt.
  assert (∀ l c, gather roster min_version (b ++ l) c = gather roster min_version l (gather roster min_version b c)) as Happ.
  { intros l. clear. induction b as [|j b IH]; intros c; [done|]. cbn. apply IH. }
  cbn [concat]. rewrite Happ. apply IH.
  - apply (gather_keeps (inv_slots mi per)); [|done]. intros j c1 c2. apply inv_slots_step.
  - cbn in Hw. lia.
  - intros b' j Hb' Hj. apply Hall; [by apply list_elem_of_further|].
    revert Hj. match goal with |- (_ < ?x)%nat → _ => assert (x = List.length (tasks_ c)) as ->; [|done] end.
    apply (gather_keeps (λ c', List.length (tasks_ c') = List.length (tasks_ c))); [|done].
    intros k c1 c2 (rig & s & s' & _ & -> & _)%advance_effect. by rewrite length_insert.
Qed.

(** A turn of a task in its slot. *)
Lemma slot_turn roster min_version i rig s w l ts (x : stage * Pass H) k :
  (i < List.length ts)%nat →
  match s with
  | Entered => x = enter rig w
  | Recorded request seed started record => x = probe roster min_version rig request seed started record w
  | Judged o => x = tell o w
  | _ => False
  end →
  gather roster min_version (repeat i (S k)) (MkRound w l (<[i:=(rig, s)]> ts)) =
  gather roster min_version (repeat i k) (MkRound x.2 l (<[i:=(rig, x.1)]> ts)).
Proof.
  intros Hi Hx. cbn [repeat gather]. f_equal. unfold advance. cbn [tasks_ pass_ slots].
  rewrite list_lookup_insert_eq by done. cbn zeta. destruct s; try done; subst x; cbn [default from_option id];
    by rewrite list_insert_insert_eq.
Qed.

(** Alone in its slot, a task does what [verify] does, and then leaves. *)
Lemma verify_alone roster min_version i rig c r w' :
  c.(tasks_) !! i = Some (rig, Entered) →
  verify env out world payloads settings rig roster min_version c.(pass_) = (r, w') →
  ∃ k, (k <= 3)%nat ∧
    gather roster min_version (repeat i k) c = MkRound w' c.(slots) (<[i:=(rig, Leaving r)]> c.(tasks_)).
Proof.
  intros Hi Hv. pose proof (lookup_lt_Some _ _ _ Hi) as Hlt. destruct c as [w l ts]. cbn [tasks_ pass_ slots] in *.
  assert (MkRound w l ts = MkRound w l (<[i:=(rig, Entered)]> ts)) as -> by (by rewrite list_insert_id).
  unfold verify, mbind, WM_bind, wget in Hv. cbn zeta in Hv.
  destruct (rig_record env world rig w) as [[record|e] w1] eqn:E1.
  2:{ exists 1%nat. split; [lia|]. injection Hv as <- <-. erewrite slot_turn; [|done|reflexivity]. unfold enter. by rewrite E1. }
  destruct (attempt_pipeline _ _ _ _ _ record _ _ _ _ w1) as [[[[vs d]|]|e] w2] eqn:E2.
  2,3: exists 2%nat; (split; [lia|]); injection Hv as <- <-; (erewrite slot_turn; [|done|reflexivity]); unfold enter;
    rewrite E1; cbn [fst snd]; (erewrite slot_turn; [|done|reflexivity]); unfold probe; by rewrite E2.
  exists 3%nat. split; [lia|]. erewrite slot_turn; [|done|reflexivity]. unfold enter. rewrite E1. cbn [fst snd].
  erewrite slot_turn; [|done|reflexivity]. unfold probe. rewrite E2. cbn [fst snd]. erewrite slot_turn; [|done|reflexivity].
  unfold tell. cbn [fst snd].
  match type of Hv with context [report env world ?o w2] => destruct (report env world o w2) as [[u|e] w3] end;
    by injection Hv as <- <-.
Qed.

(** All semaphores at their full value. *)
Definition all_free (max_inflight per_miner : Z) (l : Limiter.t) : Prop :=
  Limiter.per_miner l = Z.max 1 per_miner ∧ Limiter.global_ l = Z.max 1 max_inflight ∧
  ∀ o, Limiter.miner o l = Z.max 1 per_miner.

(** How many tasks are in their slot, and how many hold the semaphore of a miner. *)
Definition in_slot (s : stage) : bool := match slot_phase s with Limiter.Inside => true | _ => false end.
Definition holding (s : stage) : bool :=
  match slot_phase s with Limiter.Holding | Limiter.Inside => true | _ => false end.

(** Seven rounds of turns for each machine in which nobody is forgotten. *)
Definition fair (n : nat) (schedule : list nat) : Prop :=
  ∃ blocks, schedule = concat blocks ∧ (7 * n <= List.length blocks)%nat ∧
    ∀ b i, b ∈ blocks → (i < n)%nat → i ∈ b.

(** A machine the list names once. *)
Definition listed_once (pending : list dict) (i : nat) : Prop :=
  ∀ j rig rig', pending !! i = Some rig → pending !! j = Some rig' → id_of rig' = id_of rig → j = i.

Lemma tally_seen (f : string * Limiter.phase → bool) (ts : list (dict * stage)) :
  tally f (seen <$> ts) = tally (λ x, f (seen x)) ts.
Proof.
  unfold tally. f_equal. induction ts as [|x ts IH]; [done|]. cbn [fmap list_fmap List.filter].
  destruct (f (seen x)); cbn; by rewrite IH.
Qed.

Lemma begin_slots mi per l pending w :
  all_free mi per l → inv_slots mi per (begin_round l pending w).
Proof.
  intros (Hp & Hg & Hm). unfold inv_slots, LimiterFacts.inv, system, begin_round. cbn [Limiter.limiter Limiter.tasks slots tasks_].
  assert (∀ f : string * Limiter.phase → bool, (∀ o, f (o, Limiter.Waiting) = false) →
    tally f (seen <$> ((λ rig, (rig, Created)) <$> pending)) = 0%Z) as H0.
  { intros f Hf. apply tally_zero. intros i x Hi. apply list_lookup_fmap_Some in Hi as (y & -> & Hy).
    apply list_lookup_fmap_Some in Hy as (rig & -> & _). apply Hf. }
  rewrite H0 by done. split_and!; [done|lia|lia|]. intros o. specialize (Hm o).
  rewrite H0 by (intros; rewrite LimiterFacts.holds_phase; apply andb_false_r). lia.
Qed.

Lemma begin_inv l pending w : (∀ rig, rig ∈ pending → id_of rig ∉ busy w) →
  round_inv pending w (begin_round l pending w).
Proof.
  intros Hfree. unfold round_inv, begin_round. cbn [tasks_ pass_].
  assert (∀ i rig s, ((λ rig, (rig, Created)) <$> pending) !! i = Some (rig, s) → s = Created) as Hc.
  { intros i rig s (r & [= _ ->] & _)%list_lookup_fmap_Some. done. }
  split; [|split; [done|split; split]].
  - rewrite <- list_fmap_compose. apply list_fmap_id.
  - done.
  - by left.
  - by intros i rig s ->%Hc.
  - by intros i rig o Hi%Hc.
  - done.
  - by intros i rig s o ->%Hc.
Qed.

Lemma all_gone_free mi per c : forallb is_gone c.(tasks_) = true → inv_slots mi per c → all_free mi per c.(slots).
Proof.
  intros Hg (Hp & Hgl & _ & Hm). cbn [system Limiter.limiter Limiter.tasks] in *.
  assert (∀ f : string * Limiter.phase → bool, (∀ o, f (o, Limiter.Done) = false) → tally f (seen <$> tasks_ c) = 0%Z) as H0.
  { intros f Hf. apply tally_zero. intros i x Hi. apply list_lookup_fmap_Some in Hi as ([rig s] & -> & Hy).
    rewrite forallb_forall in Hg. assert (is_gone (rig, s) = true) as Hs
      by (apply Hg, list_elem_of_In; by eapply list_elem_of_lookup_2). destruct s; try done. apply Hf. }
  split; [done|split].
  - rewrite Hgl, H0 by done. lia.
  - intros o. destruct (Hm o) as [-> _].
    rewrite H0 by (intros; rewrite LimiterFacts.holds_phase; apply andb_false_r). lia.
Qed.

Lemma slots_bound mi per c : inv_slots mi per c →
  (tally (λ x, in_slot x.2) c.(tasks_) <= Z.max 1 mi)%Z ∧
  ∀ o, (tally (λ x, String.eqb (slot_owner x.1) o && holding x.2) c.(tasks_) <= Z.max 1 per)%Z.
Proof.
  intros (Hp & Hg & Hg0 & Hm). cbn [system Limiter.limiter Limiter.tasks] in *. rewrite tally_seen in Hg.
  split.
  - assert (tally (λ x, LimiterFacts.inside (seen x)) (tasks_ c) = tally (λ x, in_slot x.2) (tasks_ c)) as E.
    { unfold tally. do 2 f_equal. apply List.filter_ext. intros [rig s]. apply LimiterFacts.inside_phase. }
    lia.
  - intros o. destruct (Hm o) as [Ho Ho0]. rewrite tally_seen in Ho.
    assert (tally (λ x, LimiterFacts.holds o (seen x)) (tasks_ c) =
            tally (λ x, String.eqb (slot_owner x.1) o && holding x.2) (tasks_ c)) as E.
    { unfold tally. do 2 f_equal. apply List.filter_ext. intros [rig s]. apply LimiterFacts.holds_phase. }
    lia.
Qed.

Lemma fair_ends mi per l schedule roster min_version pending w :
  all_free mi per l → fair (List.length pending) schedule →
  forallb is_gone (tasks_ (gather roster min_version schedule (begin_round l pending w))) = true.
Proof.
  intros Hfree (blocks & -> & Hlen & Hall). apply (gather_fair mi per).
  - by apply begin_slots.
  - etrans; [|exact Hlen]. clear. unfold work, begin_round. cbn [tasks_].
    induction pending as [|rig pending IH]; [done|].
    cbn [fmap list_fmap sum_list_with steps_left snd List.length] in *. lia.
  - intros b i Hb Hi. apply Hall; [done|]. revert Hi. cbn [begin_round tasks_]. by rewrite length_fmap.
Qed.

Lemma ended_inv pending w0 c : round_inv pending w0 c → forallb is_gone c.(tasks_) = true →
  (∀ x, x ∈ busy c.(pass_) ↔ x ∈ busy w0) ∧
  ∀ i rig, pending !! i = Some rig → ∃ o, c.(tasks_) !! i = Some (rig, Gone o) ∧
    ∀ o', o = Some o' → listed_once pending i → dget (id_of rig) (last_outcomes c.(pass_)) = Some o'.
Proof.
  intros (<- & _ & [M1 M2 _] & [_ _ R3]) Hg.
  assert (∀ i rig s, c.(tasks_) !! i = Some (rig, s) → ∃ o, s = Gone o) as Hgone.
  { intros i rig s Hi. rewrite forallb_forall in Hg. assert (is_gone (rig, s) = true) as Hs
      by (apply Hg, list_elem_of_In; by eapply list_elem_of_lookup_2). destruct s; try done. by eexists. }
  split.
  - intros x. split; [|by apply M1]. intros [?|(i & rig & s & Hi & Ha & _)]%M2; [done|].
    destruct (Hgone _ _ _ Hi) as [o ->]. done.
  - intros i rig Hi. pose proof Hi as ([rig' s] & -> & Ht)%list_lookup_fmap_Some. destruct (Hgone _ _ _ Ht) as [o ->].
    exists o. split; [done|]. intros o' -> Honly. eapply R3; [exact Ht|done|].
    intros j rig1 Hj E. by apply (Honly j rig' rig1).
Qed.

(** C31. A round of deep passes, whosever turn it is: the tasks are those of the
    machines that are due and not being verified already, the ones the express lane
    handed over among them; never more than the bound are in a slot, nor more than
    the bound per miner hold that miner's semaphore; a machine is marked busy while
    a task verifies it, until one of its tasks ends (so a machine listed twice is
    verified twice at once, and unmarked by the first to end), and no other
    machine's mark changes.  No task can block or end the round, whatever it
    raises: while one has not ended some task can go on, and turns in which nobody
    is forgotten end them all.  Then the round returns their number, all slots are
    free, the marks are those before the round, the last outcome of a machine
    listed once is the one its task returned, and nobody else's changed. *)
Theorem run_once_spec max_inflight per_miner slots schedule w r c :
  all_free max_inflight per_miner slots →
  run_once slots schedule w = (r, c) →
  match due_rigs env world settings w with
  | (Raise e, w1) => r = Raise e ∧ c = MkRound w1 slots []
  | (Ok (due, roster, min_version), w1) =>
      let pending := pending_of (busy w) due in
      let n := List.length pending in
      c.(tasks_).*1 = pending ∧
      early_due (express c.(pass_)) = [] ∧
      (∀ rig, rig ∈ roster → id_of rig ∈ early_due (express w) → verifiable rig = true → id_of rig ∈ id_of <$> due) ∧
      (tally (λ x, in_slot x.2) c.(tasks_) <= Z.max 1 max_inflight)%Z ∧
      (∀ o, tally (λ x, String.eqb (slot_owner x.1) o && holding x.2) c.(tasks_) <= Z.max 1 per_miner)%Z ∧
      marks_inv w c ∧
      (r = Ok None ∧ (∃ i, is_Some (advance roster min_version i c)) ∧ ¬ fair n schedule ∨
       r = Ok (Some (Z.of_nat n)) ∧ all_free max_inflight per_miner c.(DeepRound.slots) ∧
       (∀ x, x ∈ busy c.(pass_) ↔ x ∈ busy w) ∧
       (∀ id, id ∉ id_of <$> pending → dget id (last_outcomes c.(pass_)) = dget id (last_outcomes w1)) ∧
       ∀ i rig, pending !! i = Some rig → ∃ o, c.(tasks_) !! i = Some (rig, Gone o) ∧
         ∀ o', o = Some o' → listed_once pending i → dget (id_of rig) (last_outcomes c.(pass_)) = Some o')
  end.
Proof.
  intros Hfree. unfold run_once.
  destruct (due_rigs env world settings w) as [[[[due roster] min_version]|e] w1] eqn:Ed; [|by intros [= <- <-]].
  apply due_rigs_ok in Ed as (Hb & He & Hdue). rewrite Hb. cbn zeta.
  set (pending := pending_of (busy w) due). set (c0 := begin_round slots pending w1).
  set (c1 := gather roster min_version schedule c0). intros [= <- <-].
  assert (∀ rig, rig ∈ pending → id_of rig ∉ busy w1) as Hnot.
  { intros rig [_ Hr]%elem_of_filter_b. rewrite Hb. apply negb_true_iff in Hr. by apply bool_decide_eq_false in Hr. }
  pose proof (begin_slots _ _ _ pending w1 Hfree) as Hs0. fold c0 in Hs0.
  assert (inv_slots max_inflight per_miner c1) as Hs.
  { apply (gather_keeps (inv_slots max_inflight per_miner)); [|done]. intros i a b. apply inv_slots_step. }
  assert (round_inv pending w1 c1) as (Hr & Hl & Hm & Hrep).
  { apply (gather_keeps (round_inv pending w1)); [|by apply begin_inv]. intros i a b. by apply round_inv_step. }
  destruct (slots_bound _ _ _ Hs) as [Hin Hhold].
  split; [done|]. split; [congruence|]. split; [done|]. split; [done|]. split; [done|].
  split. { destruct Hm as [M1 M2 M3]. rewrite Hb in M1, M2. by split. }
  destruct (forallb is_gone (tasks_ c1)) eqn:Hg.
  - right. split; [done|]. split; [by eapply all_gone_free|].
    destruct (ended_inv pending w1 c1) as [H1 H2]; [done..|]. rewrite Hb in H1. split; [done|]. split; [|done].
    apply Hrep.
  - left. split; [done|]. split; [|intros Hf].
    + destruct (round_progress roster min_version _ _ c1 Hs) as [?|(i & _ & Hi)]; [congruence|by exists i].
    + pose proof (fair_ends _ _ _ _ roster min_version pending w1 Hfree Hf) as Hg'. fold c0 c1 in Hg'. congruence.
Qed.
End Rounds.

(** ** A round of one machine, and one that lists it twice *)

Definition sample_slots : Limiter.t := Limiter.init 4 2.
Definition sample_schedule : list nat := concat (repeat [0%nat] 7).

Lemma sample_slots_free : all_free 4 2 sample_slots.
Proof. done. Qed.

Lemma sample_fair : fair 1 sample_schedule.
Proof.
  exists (repeat [0%nat] 7). split; [done|]. split; [cbn; lia|]. intros b i Hb Hi.
  apply list_elem_of_In, repeat_spec in Hb as ->. assert (i = 0%nat) as -> by lia. by left.
Qed.

Lemma run_once_spec_witness :
  let o := run_once sample_env sample_out sample_world sample_payloads sample_settings sample_slots sample_schedule
             sample_pass in
  o.1 = Ok (Some 1%Z) ∧ ¬ "rig-1" ∈ busy o.2.(pass_).
Proof.
  destruct (run_once sample_env sample_out sample_world sample_payloads sample_settings sample_slots sample_schedule
             sample_pass) as [r c] eqn:E.
  pose proof (run_once_spec sample_env sample_out sample_world sample_payloads sample_settings 4 2 sample_slots
                sample_schedule sample_pass r c sample_slots_free E) as H.
  destruct (due_rigs sample_env sample_world sample_settings sample_pass) as [[[[due roster] m]|e] w1] eqn:Ed;
    [|exfalso; revert Ed; vm_compute; discriminate].
  assert (List.length (pending_of (busy sample_pass) due) = 1%nat) as Hn
    by (revert Ed; vm_compute; by intros [= <- _ _ _]).
  cbn zeta in H. rewrite Hn in H.
  destruct H as (_ & _ & _ & _ & _ & _ & [(_ & _ & Hf)|(-> & _ & Hb & _)]); [by destruct Hf; apply sample_fair|].
  split; [reflexivity|]. rewrite Hb. apply not_elem_of_nil.
Defined.

(** The portal lists a machine twice: both tasks verify it at the same time, and the
    first to end unmarks it while the other is still in its slot. *)
Example listed_twice_verified_twice :
  let c := gather sample_env sample_out sample_world sample_payloads sample_settings [sample_record] "1.1.0"
             [0;0;0;1;1;1;0;0;0;0]%nat (begin_round sample_slots [sample_record; sample_record] sample_pass) in
  snd <$> c.(tasks_) !! 1%nat = Some Entered ∧ busy c.(pass_) = [].
Proof. split; vm_compute; reflexivity. Qed.
