(* ===== verification/Update.v ===== *)
(** * The updater of the agent (agent/updater/watchtower.py)

    The agent replaces its own image by the one an active validator authorised:
    the signature of the release, the pull by digest, the check of what docker
    then has, the environment file that pins the digest, and the helper container
    that restarts the service.  Docker and the files of the machine ([Machine])
    are parameters; the environment file is part of the state. *)

From Stdlib Require Import Ascii String QArith Lqa.
From S2P Require Import Prelude.
From S2P Require Import PyStr.
From S2P Require Import PyText.
From S2P Require Import PyRe.
From S2P Require Import PyFloat.
From S2P Require Import PyJson.
From S2P Require Import SessionProto.
From S2P Require Auth.
Local Open Scope string_scope.
Local Open Scope list_scope.

Definition PULL_TIMEOUT : pyfloat := fz 900.
Definition INSPECT_TIMEOUT : pyfloat := fz 20.
Definition HELPER_TIMEOUT : pyfloat := fz 180.
Definition STOP_TIMEOUT : Z := 10.
Definition MAX_BACKOFF : pyfloat := fz 3600.
Definition HELPER_PREFIX : string := "rig-agent-update".

(** ** The machine *)

(** How a docker command ends. *)
Inductive ended : Type := Exited (code : Z) (out : string) | TimedOut | NotStarted (text : string).

(** Docker, the clock, the portal's release ([inr]: the text of what it raises),
    [/proc/self/mountinfo], the host name, whether the compose file is mounted,
    and what the environment file raises when it cannot be read or written. *)
Record Machine (H : Type) : Type := MkMachine {
  docker : list string → pyfloat → H → ended * H;
  wall : H → pyfloat;
  portal_release : H → (dict + string) * H;
  mountinfo : H → option string;
  hostname : H → string;
  compose_mounted : H → bool;
  env_refused : H → option string }.
Arguments MkMachine {H}. Arguments docker {H}. Arguments wall {H}. Arguments portal_release {H}.
Arguments mountinfo {H}. Arguments hostname {H}. Arguments compose_mounted {H}. Arguments env_refused {H}.

Record Settings : Type := MkSettings {
  image_repository : string; image_digest : string; compose_file : string; env_file : string;
  update_seconds : Z }.
Definition image_reference (s : Settings) (digest : string) : string := s.(image_repository) +:+ "@" +:+ digest.

(** The state: the docker commands run, the environment file, the events, and the
    fields of the updater. *)
Record St (H : Type) : Type := MkSt {
  host : H; ran : list (list string * ended); env_text : option string; events : list (string * dict);
  failures : Z; last_check : pyfloat; last_error : string; running_digest : string }.
Arguments MkSt {H}. Arguments host {H}. Arguments ran {H}. Arguments env_text {H}. Arguments events {H}.
Arguments failures {H}. Arguments last_check {H}. Arguments last_error {H}. Arguments running_digest {H}.

Definition UM (H A : Type) : Type := St H → res A * St H.
#[export] Instance UM_ret {H} : MRet (UM H) := λ A a st, (Ok a, st).
#[export] Instance UM_bind {H} : MBind (UM H) := λ A B f m st,
  match m st with (Ok a, st') => f a st' | (Raise e, st') => (Raise e, st') end.
Definition ulift {H A} (r : res A) : UM H A := λ st, (r, st).
Definition uget {H} : UM H (St H) := λ st, (Ok st, st).
Definition log_event {H} (kind : string) (fields : dict) : UM H unit := λ st,
  (Ok tt, MkSt st.(host) st.(ran) st.(env_text) (st.(events) ++ [(kind, fields)]) st.(failures) st.(last_check)
           st.(last_error) st.(running_digest)).
Definition set_env {H} (text : string) : UM H unit := λ st,
  (Ok tt, MkSt st.(host) st.(ran) (Some text) st.(events) st.(failures) st.(last_check) st.(last_error)
           st.(running_digest)).
Definition set_fields {H} (failures : Z) (last_check : pyfloat) (last_error running : string) (st : St H) : St H :=
  MkSt st.(host) st.(ran) st.(env_text) st.(events) failures last_check last_error running.

Definition docker_ {H} (machine : Machine H) (args : list string) (timeout : pyfloat) : UM H (Z * string) := λ st,
  let '(e, h) := machine.(docker) args timeout st.(host) in
  (match e with
   | Exited code out => Ok (code, out)
   | TimedOut => Ok (124%Z, "timed out")
   | NotStarted text => Raise (OSError text)
   end,
   MkSt h (st.(ran) ++ [(args, e)]) st.(env_text) st.(events) st.(failures) st.(last_check) st.(last_error)
     st.(running_digest)).

(** ** Which container this is *)

Definition containers_path : string := "/docker/containers/".

(** [CONTAINER_ID.search(line)] *)
Definition id_here (s : string) : option string :=
  if startswith containers_path s then
    let rest := sdrop (slen containers_path) s in
    let id := stake 64 rest in
    if (slen id =? 64)%nat && sforall is_hex id && startswith "/" (sdrop 64 rest) then Some id else None
  else None.
Fixpoint id_in (s : string) : option string :=
  match id_here s with
  | Some id => Some id
  | None => match s with "" => None | String _ s' => id_in s' end
  end.

Fixpoint first_id (lines : list string) : option string :=
  match lines with
  | [] => None
  | line :: lines' => match id_in line with Some id => Some id | None => first_id lines' end
  end.

Definition own_container_id {H} (machine : Machine H) (h : H) : string :=
  match (match machine.(mountinfo) h with Some text => first_id (splitlines text) | None => None end) with
  | Some id => id
  | None => let name := machine.(hostname) h in
            if re_dollar (rep_range 12 64 (RCls is_hex)) name then name else ""
  end.

(** ** The release *)

Section Update.
(** [Keypair.verify], [json.loads] and [str] of an exception. *)
Variable keypair_verify : string → string → list Z → bool.
Variable loads : string → option json.
Variable str_exn : exn → string.

Definition verify_release (payload : dict) (validators : Auth.ValidatorSet) (now : pyfloat)
    : res (option Release.t * string) :=
  match getv "release" payload with
  | JDict raw =>
      release ← Release.from_payload raw;
      if negb (well_formed_digest (Release.digest release)) then Ok (None, "digest is not sha256:<64 hex>")
      else if String.eqb (Release.validator release) ""
              || negb (Auth.has_validator (Release.validator release) validators) then
        Ok (None, "release signer is not an active validator")
      else
        stamped ← float_of_int (Release.timestamp release);
        if flt (FFin (inject_Z RELEASE_SKEW_SECONDS)) (fabs (fsub now stamped)) then
          Ok (None, "release timestamp outside the skew window")
        else if negb (Auth.verify_hotkey keypair_verify (Release.validator release) (Release.message release)
                        (Release.signature release)) then
          Ok (None, "release signature does not verify")
        else Ok (Some release, "")
  | _ => Ok (None, "no release published")
  end.

(** ** The environment file *)

Definition pin : string := "AGENT_IMAGE_SHA256=".

(** The text written: the other lines, then the pin. *)
Definition rewritten (text digest : string) : string :=
  let kept := List.filter (λ line, negb (startswith pin line)) (splitlines text) in
  text_of (kept ++ [pin +:+ digest]).

Context {H : Type} (machine : Machine H) (settings : Settings) (validators : Auth.ValidatorSet).

(** [None], or the text of the [OSError]. *)
Definition rewrite_env (digest : string) : UM H (option string) := λ st,
  match machine.(env_refused) st.(host) with
  | Some text => (Ok (Some text), st)
  | None => (_ ← set_env (rewritten (default "" st.(env_text)) digest); mret None) st
  end.

(** ** Docker *)

Definition last_line (out : string) : option string := List.hd_error (List.rev (splitlines (strip out))).
Definition last_json (out : string) : option json := last_line out ≫= loads.

(** The first entry of the list that names a digest. *)
Fixpoint first_digest (digests : list json) : option string :=
  match digests with
  | [] => None
  | entry :: digests' =>
      match partition_first "@" (py_str entry) with
      | Some (_, digest) => Some digest
      | None => first_digest digests'
      end
  end.

Definition running_image_digest : UM H string :=
  st ← uget;
  let container := own_container_id machine st.(host) in
  if String.eqb container "" then mret settings.(image_digest) else
  r ← docker_ machine ["inspect"; "--format"; "{{.Image}}"; container] INSPECT_TIMEOUT;
  let image := if (r.1 =? 0)%Z then strip r.2 else "" in
  if String.eqb image "" then mret settings.(image_digest) else
  r ← docker_ machine ["image"; "inspect"; "--format"; "{{json .RepoDigests}}"; image] INSPECT_TIMEOUT;
  if negb (r.1 =? 0)%Z then mret settings.(image_digest) else
  let digests := match last_json r.2 with Some (JList l) => l | _ => [] end in
  mret (default settings.(image_digest) (first_digest digests)).

Definition pull_args (digest : string) : list string := ["pull"; image_reference settings digest].
Definition inspect_args (digest : string) : list string :=
  ["image"; "inspect"; "--format"; "{{json .RepoDigests}}"; image_reference settings digest].

(** What is wrong with the image pulled; the empty text when nothing is. *)
Definition pull_and_verify (digest : string) : UM H string :=
  r ← docker_ machine (pull_args digest) PULL_TIMEOUT;
  if negb (r.1 =? 0)%Z then mret ("pull failed (" +:+ str_of_Z r.1 +:+ "): " +:+ slast 300 (strip r.2)) else
  r ← docker_ machine (inspect_args digest) INSPECT_TIMEOUT;
  if negb (r.1 =? 0)%Z then mret ("inspect failed (" +:+ str_of_Z r.1 +:+ "): " +:+ slast 300 (strip r.2)) else
  match last_json r.2 with
  | None => mret "inspect returned no digests"
  | Some digests =>
      entries ← ulift (py_iter digests);
      let listed := match digests with JList _ => entries | _ => [] end in
      if existsb (λ entry, endswith ("@" +:+ digest) (py_str entry)) listed then mret ""
      else mret "pulled image does not carry the authorised digest"
  end.

Definition compose_project : UM H string :=
  st ← uget;
  let container := own_container_id machine st.(host) in
  if String.eqb container "" then mret "" else
  r ← docker_ machine ["inspect"; "--format";
        "{{index .Config.Labels " +:+ String dquote "com.docker.compose.project" +:+ String dquote "}}"; container]
        INSPECT_TIMEOUT;
  mret (if (r.1 =? 0)%Z then strip r.2 else "").

Definition helper_args (helper container project digest : string) : list string :=
  ["run"; "-d"; "--name"; helper; "--entrypoint"; "docker"; "-v"; "/var/run/docker.sock:/var/run/docker.sock"]
  ++ (if String.eqb container "" then [] else ["--volumes-from"; container])
  ++ [image_reference settings digest]
  ++ ["compose"; "-f"; settings.(compose_file); "--env-file"; settings.(env_file)]
  ++ (if String.eqb project "" then [] else ["-p"; project])
  ++ ["up"; "-d"; "--no-deps"; "--timeout"; str_of_Z STOP_TIMEOUT; "agent"].

(** The helper is started, awaited, and removed. *)
Definition run_helper (helper container project digest : string) : UM H string :=
  r ← docker_ machine (helper_args helper container project digest) (fz 60);
  if negb (r.1 =? 0)%Z then
    mret ("could not start the update helper (" +:+ str_of_Z r.1 +:+ "): " +:+ slast 300 (strip r.2)) else
  _ ← log_event "update.helper" [("helper", JStr helper); ("digest", JStr digest)];
  waited ← docker_ machine ["wait"; helper] HELPER_TIMEOUT;
  let exit_code := default "" (last_line waited.2) in
  logs ← docker_ machine ["logs"; "--tail"; "40"; helper] (fz 20);
  _ ← docker_ machine ["rm"; "-f"; helper] (fz 20);
  mret (if negb (waited.1 =? 0)%Z || negb (String.eqb exit_code "0") then
          "update helper exited " +:+
          (if String.eqb exit_code "" then str_of_Z waited.1 else exit_code) +:+ ": " +:+ slast 400 (strip logs.2)
        else "").

Definition start_update (digest : string) : UM H string :=
  st ← uget;
  let container := own_container_id machine st.(host) in
  project ← compose_project;
  st ← uget;
  stamp ← ulift (ftrunc (machine.(wall) st.(host)));
  run_helper (HELPER_PREFIX +:+ "-" +:+ str_of_Z stamp) container project digest.

Definition restart (digest : string) : UM H string :=
  st ← uget;
  if String.eqb settings.(compose_file) "" || negb (machine.(compose_mounted) st.(host)) then
    mret ("compose file " +:+ repr_str settings.(compose_file) +:+ " is not mounted") else
  refused ← rewrite_env digest;
  match refused with
  | Some text => mret ("could not write " +:+ settings.(env_file) +:+ ": " +:+ text)
  | None => start_update digest
  end.

(** ** One check *)

(** What [check_once] returns, or the text of the [RuntimeError] it raises. *)
Inductive checked : Type := Outcome (d : dict) | Problem (text : string).

Definition ask_release : UM H (dict + string) := λ st,
  let '(answer, h) := machine.(portal_release) st.(host) in
  (Ok answer, MkSt h st.(ran) st.(env_text) st.(events) st.(failures) (machine.(wall) st.(host)) st.(last_error)
                st.(running_digest)).

Definition note_running (digest : string) : UM H unit := λ st,
  (Ok tt, set_fields st.(failures) st.(last_check) st.(last_error) digest st).

Definition apply_release (release : Release.t) : UM H checked :=
  running ← running_image_digest;
  _ ← note_running running;
  let digest := Release.digest release in
  if String.eqb running digest then
    mret (Outcome [("applied", JBool false); ("reason", JStr "already running the authorised image");
                   ("digest", JStr running)]) else
  _ ← log_event "update.available" [("digest", JStr digest); ("running", JStr running);
                                    ("validator", JStr (Release.validator release))];
  problem ← pull_and_verify digest;
  if negb (String.eqb problem "") then mret (Problem problem) else
  problem ← restart digest;
  if negb (String.eqb problem "") then mret (Problem problem) else
  _ ← log_event "update.applied" [("digest", JStr digest)];
  mret (Outcome [("applied", JBool true); ("digest", JStr digest)]).

Definition check_once : UM H checked :=
  answer ← ask_release;
  match answer with
  | inr text => mret (Problem text)
  | inl payload =>
      st ← uget;
      v ← ulift (verify_release payload validators (machine.(wall) st.(host)));
      match v with
      | (None, problem) => mret (Outcome [("applied", JBool false); ("reason", JStr problem)])
      | (Some release, _) => apply_release release
      end
  end.

(** ** The loop *)

(** One turn of [run], and how long it then sleeps. *)
Definition turn (st : St H) : pyfloat * St H :=
  let delay := fz settings.(update_seconds) in
  let failed text st :=
    let n := (st.(failures) + 1)%Z in
    let error := stake 300 text in
    let st := set_fields n st.(last_check) error st.(running_digest) st in
    (fmin (fmul delay (fz (2 ^ Z.min n 6))) MAX_BACKOFF,
     (log_event "update.error" [("error", JStr error); ("failures", JInt n)] st).2) in
  match check_once st with
  | (Ok (Outcome d), st) =>
      (if truthy (getv "applied" d) then fmax delay (fz 120) else delay,
       set_fields 0 st.(last_check) "" st.(running_digest) st)
  | (Ok (Problem text), st) => failed text st
  | (Raise e, st) => failed (str_exn e) st
  end.

Fixpoint turns (k : nat) (st : St H) : list pyfloat * St H :=
  match k with
  | O => ([], st)
  | S k' => let '(d, st) := turn st in let '(ds, st) := turns k' st in (d :: ds, st)
  end.
End Update.

(** ** Facts *)

Lemma UM_bind_ok {H A B} (m : UM H A) (f : A → UM H B) st b st' :
  (m ≫= f) st = (Ok b, st') → ∃ a st1, m st = (Ok a, st1) ∧ f a st1 = (Ok b, st').
Proof. unfold mbind, UM_bind. destruct (m st) as [[a|e] st1]; [eauto|done]. Qed.

(** A computation that leaves the environment file alone and whose docker commands
    all satisfy [P], however it ends. *)
Definition does {H A} (P : list string → Prop) (m : UM H A) : Prop :=
  ∀ st, env_text (m st).2 = env_text st ∧ running_digest (m st).2 = running_digest st ∧
    ∃ new, ran (m st).2 = ran st ++ new ∧ Forall (λ c : list string * ended, P c.1) new.
(** It starts no container. *)
Definition starts_nothing (args : list string) : Prop := head args ≠ Some "run".

Section Does.
Context {H : Type} (P : list string → Prop).

Lemma does_quiet {A} (m : UM H A) :
  (∀ st, env_text (m st).2 = env_text st ∧ running_digest (m st).2 = running_digest st ∧ ran (m st).2 = ran st) →
  does P m.
Proof. intros Hm st. destruct (Hm st) as (-> & -> & ->). do 2 (split; [done|]). exists []. by rewrite app_nil_r. Qed.

Lemma does_bind {A B} (m : UM H A) (f : A → UM H B) : does P m → (∀ a, does P (f a)) → does P (m ≫= f).
Proof.
  intros Hm Hf st. unfold mbind, UM_bind. destruct (Hm st) as (He & Hd & new & Hr & Hn).
  destruct (m st) as [[a|e] st1]; cbn [snd] in *; [|split; [done|]; split; [done|]; by exists new].
  destruct (Hf a st1) as (He' & Hd' & new' & Hr' & Hn'). do 2 (split; [congruence|]). exists (new ++ new').
  rewrite Hr', Hr, app_assoc. split; [done|]. by apply Forall_app.
Qed.

Lemma does_docker (machine : Machine H) args timeout : P args → does P (docker_ machine args timeout).
Proof.
  intros Ha st. unfold docker_. destruct (docker machine args timeout (host st)) as [e h]. do 2 (split; [done|]).
  eexists. split; [reflexivity|]. by repeat constructor.
Qed.
End Does.

Ltac does :=
  repeat match goal with
  | |- does _ (_ ≫= _) => apply does_bind; [|intros ?]
  | |- does _ (docker_ _ _ _) => by apply does_docker
  | |- does _ (match ?x with _ => _ end) => destruct x
  | |- does _ _ => by apply does_quiet
  end.

Section Facts.
Variable keypair_verify : string → string → list Z → bool.
Variable loads : string → option json.
Variable str_exn : exn → string.
Context {H : Type} (machine : Machine H) (settings : Settings) (validators : Auth.ValidatorSet).

Lemma ask_release_does : does starts_nothing (ask_release machine).
Proof. apply does_quiet. intros st. unfold ask_release. by destruct (portal_release machine (host st)). Qed.

Lemma running_does : does starts_nothing (running_image_digest loads machine settings).
Proof. unfold running_image_digest. does. Qed.

Lemma pull_does digest : does starts_nothing (pull_and_verify loads machine settings digest).
Proof. unfold pull_and_verify. does. Qed.

Lemma run_helper_does helper container project digest :
  does (λ _, True) (run_helper machine settings helper container project digest).
Proof. unfold run_helper. does. Qed.

Lemma compose_project_does : does (λ _, True) (compose_project machine).
Proof. unfold compose_project. does. Qed.

Lemma start_update_does digest : does (λ _, True) (start_update machine settings digest).
Proof.
  unfold start_update. apply does_bind; [by apply does_quiet|]. intros st.
  apply does_bind; [apply compose_project_does|]. intros project.
  apply does_bind; [by apply does_quiet|]. intros st1. apply does_bind; [by apply does_quiet|].
  intros stamp. apply run_helper_does.
Qed.

(** A restart changes the environment file before anything else, or does nothing. *)
Lemma restart_does digest st r st' :
  restart machine settings digest st = (r, st') →
  running_digest st' = running_digest st ∧ ∃ new, ran st' = ran st ++ new ∧
    (env_text st' = env_text st ∧ new = [] ∨
     env_text st' = Some (rewritten (default "" (env_text st)) digest)).
Proof.
  unfold restart. unfold mbind at 1, UM_bind at 1, uget at 1. destruct (_ || _).
  { intros [= <- <-]. split; [done|]. exists []. rewrite app_nil_r. auto. }
  unfold mbind at 1, UM_bind at 1, rewrite_env at 1. destruct (env_refused machine (host st)) as [text|].
  { intros [= <- <-]. split; [done|]. exists []. rewrite app_nil_r. auto. }
  unfold mbind, UM_bind, set_env, mret, UM_ret. cbn [env_text]. intros E.
  match type of E with _ ?st1 = _ => destruct (start_update_does digest st1) as (He & Hd & new & Hr & _) end.
  rewrite E in He, Hd, Hr. cbn [snd] in *. split; [exact Hd|]. exists new. split; [exact Hr|]. right. exact He.
Qed.

Lemma docker_ok args timeout st code out st' :
  docker_ machine args timeout st = (Ok (code, out), st') →
  (code = 124%Z ∨ ran st' = ran st ++ [(args, Exited code out)]) ∧ env_text st' = env_text st.
Proof.
  unfold docker_. destruct (docker machine args timeout (host st)) as [e h].
  destruct e; intros [= <- <- <-]; cbn; auto.
Qed.

(** The image is right when docker, asked after a pull that succeeded, lists the
    digest. *)
Lemma pull_verified digest st st' :
  pull_and_verify loads machine settings digest st = (Ok "", st') →
  ∃ text out entries entry,
    ran st' = ran st ++ [(pull_args settings digest, Exited 0 text); (inspect_args settings digest, Exited 0 out)] ∧
    last_json loads out = Some (JList entries) ∧ entry ∈ entries ∧ endswith ("@" +:+ digest) (py_str entry) = true.
Proof.
  unfold pull_and_verify. intros E. apply UM_bind_ok in E as ([c1 o1] & st1 & E1 & E). cbn [fst snd] in E.
  destruct (Z.eqb_spec c1 0) as [->|]; [|done]. cbn [negb] in E.
  apply UM_bind_ok in E as ([c2 o2] & st2 & E2 & E). cbn [fst snd] in E.
  destruct (Z.eqb_spec c2 0) as [->|]; [|done]. cbn [negb] in E.
  destruct (last_json loads o2) as [digests|] eqn:Ej; [|done].
  apply UM_bind_ok in E as (entries & st3 & E3 & E). injection E3 as E3 <-.
  destruct (existsb _ _) eqn:Ex; [|done]. injection E as <-.
  apply docker_ok in E1 as [[?|Hr1] _]; [done|]. apply docker_ok in E2 as [[?|Hr2] _]; [done|].
  apply existsb_exists in Ex as (entry & Hin & Hent). apply list_elem_of_In in Hin.
  destruct digests; try by apply not_elem_of_nil in Hin. cbn in E3. injection E3 as ->.
  exists o1, o2, entries, entry. split; [by rewrite Hr2, Hr1, <- app_assoc|done].
Qed.

Lemma verify_release_ok payload now release text :
  verify_release keypair_verify payload validators now = Ok (Some release, text) →
  ∃ raw stamped, getv "release" payload = JDict raw ∧ Release.from_payload raw = Ok release ∧
    well_formed_digest (Release.digest release) = true ∧
    Release.validator release ∈ Auth.members validators ∧
    float_of_int (Release.timestamp release) = Ok stamped ∧
    flt (FFin (inject_Z RELEASE_SKEW_SECONDS)) (fabs (fsub now stamped)) = false ∧
    Auth.verify_hotkey keypair_verify (Release.validator release)
      (release_message (Release.digest release) (Release.timestamp release)) (Release.signature release) = true.
Proof.
  unfold verify_release. destruct (getv "release" payload) as [| | | | | |raw]; try done. intros E. res_inv.
  destruct (well_formed_digest (Release.digest a)) eqn:Ed; [|done]. cbn [negb] in E.
  destruct (String.eqb (Release.validator a) ""); [done|]. cbn [orb] in E.
  destruct (Auth.has_validator (Release.validator a) validators) eqn:Ev; [|done]. cbn [negb] in E. res_inv.
  destruct (flt _ _) eqn:Ef; [done|].
  destruct (Auth.verify_hotkey _ _ _ _) eqn:Es; [|done]. injection E as <- <-.
  exists raw, a0. split_and!; try done. by apply bool_decide_eq_true in Ev.
Qed.

(** What follows an accepted release. *)
Lemma apply_release_spec release st r st' :
  apply_release loads machine settings release st = (r, st') →
  ∃ new, ran st' = ran st ++ new ∧
  ((env_text st' = env_text st ∧ Forall (λ c : list string * ended, head c.1 ≠ Some "run") new) ∨
   ∃ text out entries entry,
     let digest := Release.digest release in
     running_digest st' ≠ digest ∧ (pull_args settings digest, Exited 0 text) ∈ new ∧
     (inspect_args settings digest, Exited 0 out) ∈ new ∧
     last_json loads out = Some (JList entries) ∧ entry ∈ entries ∧
     endswith ("@" +:+ digest) (py_str entry) = true ∧
     env_text st' = Some (rewritten (default "" (env_text st)) digest)).
Proof.
  unfold apply_release. intros E. destruct (running_does st) as (He2 & _ & n2 & Hr2 & Hn2).
  unfold mbind at 1, UM_bind at 1 in E.
  destruct (running_image_digest loads machine settings st) as [[running|e] st2]; cbn [snd] in *;
    [|injection E as <- <-; exists n2; auto].
  unfold mbind at 1, UM_bind at 1, note_running at 1, set_fields at 1 in E.
  destruct (String.eqb_spec running (Release.digest release)) as [Heq|Hrun];
    [injection E as <- <-; exists n2; auto|].
  unfold mbind at 1, UM_bind at 1, log_event at 1 in E. cbn [host ran env_text events failures last_check last_error running_digest] in E.
  match type of E with (pull_and_verify _ _ _ _ ≫= _) ?s = _ => set (st3 := s) in E end.
  destruct (pull_does (Release.digest release) st3) as (He3 & Hd3 & n3 & Hr3 & Hn3). unfold mbind at 1, UM_bind at 1 in E.
  destruct (pull_and_verify loads machine settings (Release.digest release) st3) as [rp st4] eqn:Ep; cbn [snd] in *.
  assert (ran st4 = ran st ++ (n2 ++ n3)) as Hran by (rewrite Hr3; cbn; by rewrite Hr2, app_assoc).
  assert (env_text st4 = env_text st) as He4 by (rewrite He3; exact He2).
  destruct rp as [p|e]; [|injection E as <- <-; exists (n2 ++ n3); split; [done|left; split; [done|by apply Forall_app]]].
  destruct (String.eqb_spec p "") as [->|Hp]; cbn [negb] in E;
    [|injection E as <- <-; exists (n2 ++ n3); split; [done|left; split; [done|by apply Forall_app]]].
  apply pull_verified in Ep as (text & out & entries & entry & Hr3' & Hj & Hin & Hend).
  unfold mbind at 1, UM_bind at 1 in E.
  destruct (restart machine settings (Release.digest release) st4) as [rr st5] eqn:Ere.
  apply restart_does in Ere as (Hd5 & n4 & Hr5 & Hcase).
  assert (env_text st' = env_text st5 ∧ ran st' = ran st5 ∧ running_digest st' = running_digest st5) as (-> & -> & ->).
  { destruct rr as [q|e]; [|by injection E as <- <-]. destruct (negb _); by injection E as <- <-. }
  exists ((n2 ++ n3) ++ n4). split; [by rewrite Hr5, Hran, <- app_assoc|].
  destruct Hcase as [[He5 ->]|He5].
  { left. rewrite app_nil_r. split; [congruence|]. by apply Forall_app. }
  right. rewrite Hr3 in Hr3'. apply app_inv_head in Hr3' as ->. exists text, out, entries, entry. cbn zeta.
  split_and!; try done; [rewrite Hd5, Hd3; exact Hrun|set_solver|set_solver|by rewrite He5, He4].
Qed.

(** A time of signing and a reading of the clock are at most the skew apart, as
    floats, whenever the clock shows a number ([abs(NaN) > 600] is false). *)
Definition fresh (now : pyfloat) (signed : Z) : Prop :=
  ∃ stamped, float_of_int signed = Ok stamped ∧
    ∀ q, now = FFin q → fle (fabs (fsub now stamped)) (fz 600) = true.

Lemma fresh_intro now signed stamped :
  float_of_int signed = Ok stamped →
  flt (FFin (inject_Z RELEASE_SKEW_SECONDS)) (fabs (fsub now stamped)) = false → fresh now signed.
Proof.
  intros Hs Hf. exists stamped. split; [done|]. intros q ->.
  assert (is_num (fabs (fsub (FFin q) stamped)) = true) as Hn.
  { unfold float_of_int in Hs. destruct (rnd (inject_Z signed)) as [a|b|] eqn:E; [|done|].
    - injection Hs as <-. cbn. unfold rnd. by repeat case_match.
    - exfalso. revert E. unfold rnd. by repeat case_match. }
  by apply not_flt_fle.
Qed.

(** C11. Only an authorised image is installed.  Whatever the portal and docker answer,
    and however the check ends: unless the environment file is as before and no
    container was started, the portal's answer carried a release of an active
    validator, dated within ten minutes of what the machine's clock showed right after
    the answer, with a signature that verifies over its digest and time, for
    another image than the one running; docker had pulled that digest and, asked
    afterwards, listed it; and the file now pins it. *)
Theorem update_authorised st r st' :
  check_once keypair_verify loads machine settings validators st = (r, st') →
  ∃ new, ran st' = ran st ++ new ∧
  ((env_text st' = env_text st ∧ Forall (λ c : list string * ended, head c.1 ≠ Some "run") new) ∨
   ∃ payload h raw release text out entries entry,
     let digest := Release.digest release in
     portal_release machine (host st) = (inl payload, h) ∧
     getv "release" payload = JDict raw ∧ Release.from_payload raw = Ok release ∧
     well_formed_digest digest = true ∧ Release.validator release ∈ Auth.members validators ∧
     fresh (wall machine h) (Release.timestamp release) ∧
     Auth.verify_hotkey keypair_verify (Release.validator release)
       (release_message digest (Release.timestamp release)) (Release.signature release) = true ∧
     running_digest st' ≠ digest ∧
     (["pull"; image_reference settings digest], Exited 0 text) ∈ new ∧
     (["image"; "inspect"; "--format"; "{{json .RepoDigests}}"; image_reference settings digest], Exited 0 out) ∈ new ∧
     last_json loads out = Some (JList entries) ∧ entry ∈ entries ∧
     endswith ("@" +:+ digest) (py_str entry) = true ∧
     env_text st' = Some (rewritten (default "" (env_text st)) digest)).
Proof.
  unfold check_once. intros E. destruct (ask_release_does st) as (He1 & _ & n1 & Hr1 & Hn1).
  unfold mbind at 1, UM_bind at 1 in E.
  assert (∃ answer st1, ask_release machine st = (Ok answer, st1)) as (answer & st1 & Ea)
    by (unfold ask_release; destruct (portal_release machine (host st)); eauto).
  rewrite Ea in *. cbn [snd] in *. destruct answer as [payload|text]; [|injection E as <- <-; exists n1; auto].
  unfold mbind at 1, UM_bind at 1, uget at 1, mbind at 1, UM_bind at 1, ulift at 1 in E.
  destruct (verify_release keypair_verify payload validators (wall machine (host st1))) as [[[release|] problem]|e] eqn:Ev;
    [|injection E as <- <-; exists n1; auto..].
  destruct (portal_release machine (host st)) as [answer h] eqn:Eh. unfold ask_release in Ea. rewrite Eh in Ea.
  injection Ea as -> <-. cbn [host] in *.
  apply verify_release_ok in Ev as (raw & stamped & Hraw & Hof & Hform & Hval & Hst & Hskew & Hsig).
  apply apply_release_spec in E as (n2 & Hr2 & Hcase). exists (n1 ++ n2). rewrite Hr2, Hr1, app_assoc. split; [done|].
  destruct Hcase as [[He Hn]|(text & out & entries & entry & Hrun & Hp & Hi & Hj & Hin & Hend & He)].
  { left. split; [congruence|]. by apply Forall_app. }
  right. exists payload, h, raw, release, text, out, entries, entry. cbn zeta in *.
  rewrite He1 in He. split_and!; try done; [by apply (fresh_intro _ _ stamped)|..]; apply elem_of_app; by right.
Qed.
End Facts.

(** ** The environment file *)

Lemma splitlines_rewritten text digest : no_break digest = true →
  splitlines (rewritten text digest) =
    List.filter (λ line, negb (startswith pin line)) (splitlines text) ++ [pin +:+ digest].
Proof.
  intros Hd. unfold rewritten. apply splitlines_text, Forall_app. split.
  - apply Forall_forall. intros line [Hin _]%elem_of_filter_b.
    pose proof (splitlines_no_break text) as Hn. rewrite Forall_forall in Hn. by apply Hn.
  - constructor; [|done]. unfold no_break in *. by rewrite sforall_app, Hd.
Qed.

(** The environment file, read back line by line: every line that pinned no image
    is there as it was and in its place, and one line, the last, pins the image;
    pinning again replaces that line only. *)
Theorem env_pinned text digest : no_break digest = true →
  splitlines (rewritten text digest) =
    List.filter (λ line, negb (startswith "AGENT_IMAGE_SHA256=" line)) (splitlines text)
    ++ ["AGENT_IMAGE_SHA256=" +:+ digest] ∧
  ∀ digest', rewritten (rewritten text digest) digest' = rewritten text digest'.
Proof.
  intros Hd. split; [by apply splitlines_rewritten|]. intros digest'. unfold rewritten at 1.
  rewrite splitlines_rewritten by done. unfold rewritten. f_equal. f_equal.
  rewrite List.filter_app. cbn [List.filter].
  assert (startswith pin (pin +:+ digest) = true) as -> by apply prefix_app. cbn [negb]. rewrite app_nil_r. induction (splitlines text) as [|l ls IH]; [done|]. cbn [List.filter].
  destruct (negb (startswith pin l)) eqn:E; [|done]. cbn [List.filter]. rewrite E. by rewrite IH.
Qed.

Lemma env_pinned_witness :
  splitlines (rewritten ("RIG_NAME=a" +:+ nls +:+ "AGENT_IMAGE_SHA256=old" +:+ nls) "sha256:ab") =
    ["RIG_NAME=a"; "AGENT_IMAGE_SHA256=sha256:ab"].
Proof.
  destruct (env_pinned ("RIG_NAME=a" +:+ nls +:+ "AGENT_IMAGE_SHA256=old" +:+ nls) "sha256:ab") as [H _]; [reflexivity|].
  rewrite H. reflexivity.
Defined.

(** ** The pace of the checks *)

Lemma fmin_fz a b : fmin (fz a) (fz b) = fz (Z.min a b).
Proof.
  unfold fmin, fz, flt. destruct (Qle_bool (inject_Z a) (inject_Z b)) eqn:E; cbn [negb].
  - apply Qle_bool_iff in E. rewrite <- Zle_Qle in E. by rewrite Z.min_l.
  - apply Qle_bool_false in E. rewrite <- Zlt_Qlt in E. rewrite Z.min_r by lia. done.
Qed.
Lemma fmax_fz a b : fmax (fz a) (fz b) = fz (Z.max a b).
Proof.
  unfold fmax, fz, flt. destruct (Qle_bool (inject_Z b) (inject_Z a)) eqn:E; cbn [negb].
  - apply Qle_bool_iff in E. rewrite <- Zle_Qle in E. by rewrite Z.max_l.
  - apply Qle_bool_false in E. rewrite <- Zlt_Qlt in E. rewrite Z.max_r by lia. done.
Qed.
Lemma fmul_fz a b : (Z.abs (a * b) <= 2 ^ 53)%Z → fmul (fz a) (fz b) = fz (a * b).
Proof. intros Hab. by apply rnd_Z. Qed.

(** Every part of a check leaves the count of the failures alone. *)
Definition counts {H A} (m : UM H A) : Prop := ∀ st, failures (m st).2 = failures st.

Section Pace.
Variable keypair_verify : string → string → list Z → bool.
Variable loads : string → option json.
Variable str_exn : exn → string.
Context {H : Type} (machine : Machine H) (settings : Settings) (validators : Auth.ValidatorSet).

Lemma counts_bind {A B} (m : UM H A) (f : A → UM H B) : counts m → (∀ a, counts (f a)) → counts (m ≫= f).
Proof.
  intros Hm Hf st. unfold mbind, UM_bind. specialize (Hm st). destruct (m st) as [[a|e] st1]; [|done].
  cbn [snd] in *. by rewrite Hf.
Qed.

Lemma counts_docker args timeout : counts (docker_ machine args timeout).
Proof. intros st. unfold docker_. by destruct (docker machine args timeout (host st)). Qed.

Lemma check_once_counts : counts (check_once keypair_verify loads machine settings validators).
Proof.
  unfold check_once, apply_release, running_image_digest, pull_and_verify, restart, start_update, compose_project, run_helper.
  repeat match goal with
  | |- counts (_ ≫= _) => apply counts_bind; [|intros ?]
  | |- counts (docker_ _ _ _) => apply counts_docker
  | |- counts (match ?x with _ => _ end) => destruct x
  | |- counts (ask_release _) => intros st; unfold ask_release; by destruct (portal_release machine (host st))
  | |- counts (rewrite_env _ _) => intros st; unfold rewrite_env; by destruct (env_refused machine (host st))
  | |- counts _ => done
  end.
Qed.

(** How long the updater sleeps, for an interval of one second to a year: the
    interval after a check, two minutes at least after an update, and after the
    n-th failure in a row the interval doubled n times (six at most), an hour at
    most.  A check that does not fail forgets the failures. *)
Lemma update_pace st d st' :
  let u := settings.(update_seconds) in
  (1 <= u <= 31536000)%Z → (0 <= failures st)%Z →
  turn keypair_verify loads str_exn machine settings validators st = (d, st') →
  (failures st' = 0 ∧ last_error st' = "" ∧ (d = fz u ∨ d = fz (Z.max u 120)))%Z ∨
  (failures st' = failures st + 1 ∧ d = fz (Z.min (u * 2 ^ Z.min (failures st + 1) 6) 3600))%Z.
Proof.
  cbn zeta. intros Hu Hf. unfold turn.
  assert (fmin (fmul (fz (update_seconds settings)) (fz (2 ^ Z.min (failures st + 1) 6))) MAX_BACKOFF
    = fz (Z.min (update_seconds settings * 2 ^ Z.min (failures st + 1) 6) 3600)) as Hd.
  { assert (1 <= 2 ^ Z.min (failures st + 1) 6 <= 64)%Z.
    { split; [apply (Z.pow_le_mono_r 2 0); lia|]. change 64%Z with (2 ^ 6)%Z. apply Z.pow_le_mono_r; lia. }
    rewrite fmul_fz by nia. apply fmin_fz. }
  pose proof (check_once_counts st) as Hc.
  destruct (check_once keypair_verify loads machine settings validators st) as [[[o|text]|e] st1]; cbn [snd] in Hc;
    intros [= <- <-]; cbn [failures last_error set_fields log_event snd].
  - left. split; [done|]. split; [done|]. destruct (truthy _); [right; apply fmax_fz|by left].
  - right. rewrite Hc. by split.
  - right. rewrite Hc. by split.
Qed.
End Pace.

(** A release of an active validator on a machine that runs another image. *)
Definition sample_digest : string := "sha256:" +:+ String.concat "" (repeat "ab" 32).
Definition sample_machine : Machine unit :=
  MkMachine
    (λ args _ h, (Exited 0 (if bool_decide (head args = Some "wait") then "0" else "digests"), h))
    (λ _, fz 1000)
    (λ h, (inl [("release", JDict [("digest", JStr sample_digest); ("timestamp", JInt 990);
                                   ("signature", JStr "0xab"); ("validator", JStr "5Hot")])], h))
    (λ _, Some ("1 2 0:1 " +:+ containers_path +:+ String.concat "" (repeat "c" 64) +:+ "/hostname")) (λ _, "rig")
    (λ _, true) (λ _, None).
Definition sample_loads (s : string) : option json :=
  if String.eqb s "digests" then Some (JList [JStr ("repo@" +:+ sample_digest)]) else None.
Definition sample_settings : Settings :=
  MkSettings "repo" "" "/opt/rig-agent/docker-compose.yml" "/opt/rig-agent/.env" 300.
Definition sample_state : St unit := MkSt tt [] (Some ("RIG_NAME=a" +:+ nls)) [] 2 f0 "" "".
Definition sample_validators : Auth.ValidatorSet := Auth.MkValidators ["5Hot"] f0 "".
Definition sample_running : Machine unit :=
  MkMachine
    (λ args _ h, (if bool_decide (args = ["inspect"; "--format"; "{{.Image}}"; String.concat "" (repeat "c" 64)])
                  then Exited 1 "" else (docker sample_machine args f0 tt).1, h))
    (wall sample_machine) (portal_release sample_machine) (mountinfo sample_machine) (hostname sample_machine)
    (compose_mounted sample_machine) (env_refused sample_machine).

Lemma update_authorised_witness :
  let o := check_once (λ _ _ _, true) sample_loads sample_running sample_settings sample_validators sample_state in
  o.1 = Ok (Outcome [("applied", JBool true); ("digest", JStr sample_digest)]) ∧
  ∃ digest, env_text o.2 = Some (rewritten ("RIG_NAME=a" +:+ nls) digest) ∧ well_formed_digest digest = true.
Proof.
  destruct (check_once (λ _ _ _, true) sample_loads sample_running sample_settings sample_validators sample_state)
    as [r st'] eqn:E.
  destruct (update_authorised (λ _ _ _, true) sample_loads sample_running sample_settings sample_validators
              sample_state r st' E)
    as (new & _ & [[He _]|(payload & h & raw & release & text & out & entries & entry & _ & _ & _ & Hw & _ & _ & _ & _ & _ & _ & _ & _ & _ & He)]).
  - exfalso. revert E He. vm_compute. intros [= _ <-]. vm_compute. discriminate.
  - split; [revert E; vm_compute; by intros [= <- _]|]. exists (Release.digest release). split; [exact He|exact Hw].
Defined.

(** A portal that cannot be reached, for the third time in a row. *)
Definition sample_offline : Machine unit :=
  MkMachine (docker sample_machine) (wall sample_machine) (λ h, (inr "no route", h)) (mountinfo sample_machine)
    (hostname sample_machine) (compose_mounted sample_machine) (env_refused sample_machine).

Lemma update_pace_witness :
  let o := turn (λ _ _ _, true) sample_loads (λ _, "") sample_offline sample_settings sample_validators sample_state in
  o.1 = fz 2400 ∧ failures o.2 = 3%Z.
Proof.
  destruct (turn (λ _ _ _, true) sample_loads (λ _, "") sample_offline sample_settings sample_validators sample_state)
    as [d st'] eqn:E.
  destruct (update_pace (λ _ _ _, true) sample_loads (λ _, "") sample_offline sample_settings sample_validators
              sample_state d st') as [(H & _ & _)|[H1 H2]]; [split; discriminate|discriminate|exact E| |].
  - exfalso. revert E H. vm_compute. intros [= _ <-]. discriminate.
  - split; [exact H2|exact H1].
Defined.
