(* ===== verification/Monitor.v ===== *)
(** * What the agent watches (agent/monitor/kmsg.py, agent/monitor/containers.py)

    Faults of the GPU driver in the kernel log, and what docker says of the
    containers of jobs; a container that ends while a fault is recent is reported
    as a GPU error.  The regular expressions are written out on byte strings. *)

From Stdlib Require Import Ascii String QArith.
From S2P Require Import Prelude.
From S2P Require Import PyStr.
From S2P Require Import PyText.
From S2P Require Import PyFloat.
From S2P Require Import PyJson.
From S2P Require Import PyDump.
From S2P Require Import Handlers.
Local Open Scope string_scope.
Local Open Scope list_scope.

(** ** Faults in the kernel log *)

Definition SEVERE_XIDS : list (Z * string) :=
  [(13, "graphics engine exception"); (31, "gpu memory page fault");
   (32, "invalid or corrupted push buffer stream"); (43, "gpu stopped processing");
   (45, "preemptive cleanup after a hang"); (48, "double bit ecc error");
   (61, "internal micro-controller breakpoint"); (62, "internal micro-controller halt");
   (63, "ecc page retirement or row remap"); (64, "ecc page retirement failure");
   (68, "video processor exception"); (74, "nvlink error"); (79, "gpu has fallen off the bus");
   (92, "high single bit ecc error rate"); (94, "contained ecc error"); (95, "uncontained ecc error");
   (119, "gsp rpc timeout"); (120, "gsp error"); (140, "unrecoverable ecc error")]%Z.

Record KernelFault : Type := MkFault {
  kind : string; message : string; pci : string; xid : option Z; severe : bool; seen_at : pyfloat }.

(** [SEVERE_XIDS.get(self.xid or -1, "")] *)
Definition meaning (xid : option Z) : string :=
  let key := match xid with Some z => if (z =? 0)%Z then (-1)%Z else z | None => (-1)%Z end in
  default "" (dget key SEVERE_XIDS).

Definition fault_payload (f : KernelFault) : dict :=
  [("kind", JStr f.(kind)); ("message", JStr f.(message)); ("pci", JStr f.(pci));
   ("xid", match f.(xid) with Some z => JInt z | None => JNull end); ("severe", JBool f.(severe));
   ("meaning", JStr (meaning f.(xid))); ("seen_at", JFloat (fround 3 f.(seen_at)))].

Definition xid_prefix : string := "NVRM: Xid (PCI:".
Definition pci_char (c : ascii) : bool := is_digit c || between 65 70 c || between 97 102 c || one_of ":." c.

(** [XID] at the beginning of a text: the address and the number. *)
Definition xid_here (s : string) : option (string * Z) :=
  if startswith xid_prefix s then
    let '(address, rest) := take_while pci_char (sdrop (slen xid_prefix) s) in
    if negb (String.eqb address "") && startswith "): " rest then
      let '(digits, _) := take_while is_digit (sdrop 3 rest) in
      match parse_int digits with Some z => Some (address, z) | None => None end
    else None
  else None.

(** [pattern.search]: the first place of the text where [here] finds something. *)
Fixpoint search {A} (here : string → option A) (s : string) : option A :=
  match here s with
  | Some a => Some a
  | None => match s with "" => None | String _ s' => search here s' end
  end.

Definition word_char (c : ascii) : bool := is_alnum_ascii c || Ascii.eqb c "_"%char.
Definition word_ends (s : string) : bool := match s with "" => true | String c _ => negb (word_char c) end.

(** [.*\b(reset|timeout|stuck)\b]: one of the words, on this line. *)
Fixpoint reset_word (after_word : bool) (s : string) : bool :=
  (negb after_word && existsb (λ w, startswith w s && word_ends (sdrop (slen w) s)) ["reset"; "timeout"; "stuck"])
  || match s with
     | "" => false
     | String c s' => if Ascii.eqb c nl then false else reset_word (word_char c) s'
     end.
(** [RESET], on a text in lower case. *)
Definition reset_here (s : string) : option unit :=
  if startswith "nvrm: " s && reset_word false (sdrop 6 s) then Some tt else None.

Definition parse_line (now : pyfloat) (raw : string) : option KernelFault :=
  let message := strip (match partition_first ";" raw with Some (_, text) => text | None => raw end) in
  if String.eqb message "" then None else
  match search xid_here message with
  | Some (address, z) => Some (MkFault "xid" message address (Some z) (dmem z SEVERE_XIDS) now)
  | None =>
      if PyStr.contains "gpu has fallen off the bus" (lower message) then
        Some (MkFault "fallen_off_bus" message "" (Some 79%Z) true now)
      else match search reset_here (lower message) with
           | Some _ => Some (MkFault "driver_reset" message "" None true now)
           | None => None
           end
  end.

Definition scan_dmesg (now : pyfloat) (text : string) : list KernelFault := omap (parse_line now) (splitlines text).

(** One chunk read from [/dev/kmsg], or one line of [dmesg]: [callback] is called on its fault. *)
Definition watched {S} (callback : KernelFault → S → S) (now : pyfloat) (chunk : string) (s : S) : S :=
  match parse_line now chunk with Some fault => callback fault s | None => s end.

(** ** Containers *)

Definition JOB_LABEL : string := "mt.job".
Definition FAULT_WINDOW_SECONDS : pyfloat := fz 120.
Definition LIFECYCLE : list string :=
  ["start"; "stop"; "restart"; "kill"; "destroy"; "oom"; "die"; "pause"; "unpause"; "create"].
Definition EXIT_REASONS : list (Z * string) :=
  [(0, "purposely_stopped"); (1, "application_error"); (125, "container_failed_to_run");
   (126, "command_invoke_error"); (127, "file_or_directory_not_found"); (128, "invalid_argument_on_exit");
   (134, "abnormal_termination"); (137, "immediate_termination"); (139, "segmentation_fault");
   (143, "graceful_termination"); (255, "exit_status_out_of_range")]%Z.

Definition exit_reason (code : option Z) : string :=
  match code with
  | None => "unknown"
  | Some code =>
      default (if (255 <? code)%Z then "exit_status_out_of_range" else "exit_" +:+ str_of_Z code)
        (dget code EXIT_REASONS)
  end.

Section Containers.
(** [json.loads], and a docker command with its exit code, output and errors. *)
Variable loads : string → option json.
Variable sub : list string → pyfloat → Z * string * string.

(** [a or b or c] on texts *)
Definition first_text (l : list string) : string := default "" (List.find (λ s, negb (String.eqb s "")) l).

Definition stats (name : string) (timeout : pyfloat) : dict :=
  if negb (valid_name name) then [("error", JStr "invalid container name"); ("code", JInt 22)] else
  let '(code, out, err) := sub ["docker"; "stats"; "--no-stream"; "--format"; "{{json .}}"; name] timeout in
  if negb (code =? 0)%Z then
    [("error", JStr (first_text [slast 300 (strip err); slast 300 (strip out); "docker stats failed"]));
     ("code", JInt code)]
  else match (match List.rev (splitlines (strip out)) with [] => None | line :: _ => loads line end) with
       | None => [("error", JStr "unparseable docker stats output"); ("code", JInt 1); ("raw", JStr (slast 500 out))]
       | Some (JDict parsed) => parsed
       | Some _ => [("raw", JStr (slast 500 out))]
       end.

(** The last label of the job among the labels of a container. *)
Definition job_of (labels : string) : string :=
  foldl (λ job pair, if startswith (JOB_LABEL +:+ "=") pair
                     then match partition_first "=" pair with Some (_, v) => v | None => job end else job)
    "" (split_on "," labels).

Definition container_entry (item : dict) : dict :=
  [("name", JStr (get_str_or "Names" "" item)); ("image", JStr (get_str_or "Image" "" item));
   ("state", JStr (get_str_or "State" "" item)); ("status", JStr (get_str_or "Status" "" item));
   ("job", JStr (job_of (get_str_or "Labels" "" item))); ("id", JStr (get_str_or "ID" "" item))].

Definition job_containers (timeout : pyfloat) : list dict :=
  let '(code, out, _) :=
    sub ["docker"; "ps"; "-a"; "--filter"; "label=" +:+ JOB_LABEL; "--format"; "{{json .}}"] timeout in
  if negb (code =? 0)%Z then [] else
  omap (λ line, match loads line with Some (JDict item) => Some (container_entry item) | _ => None end)
    (splitlines out).

(** ** The watcher: the faults it remembers and the events it wrote *)

Record Watcher : Type := MkWatcher { faults : list KernelFault; events : list (string * dict) }.

Definition cutoff (now : pyfloat) : pyfloat := fsub now FAULT_WINDOW_SECONDS.
Definition recent (now : pyfloat) (l : list KernelFault) : list KernelFault :=
  List.filter (λ f, fle (cutoff now) f.(seen_at)) l.

Definition note_fault (now : pyfloat) (fault : KernelFault) (w : Watcher) : Watcher :=
  MkWatcher (recent now (w.(faults) ++ [fault])) w.(events).

Definition recent_fault (now : pyfloat) (w : Watcher) : option KernelFault := last (recent now w.(faults)).

(** [str(event.get("Action", "") or "").split(":", 1)[0]] *)
Definition action_of (event : dict) : string :=
  let action := get_str_or "Action" "" event in
  match partition_first ":" action with Some (a, _) => a | None => action end.

Definition exit_code_of (attributes : dict) : res (option Z) :=
  match getv "exitCode" attributes with
  | JNull | JStr "" => Ok None
  | v => try_except (z ← py_int v; mret (Some z)) [TypeError; ValueError] None
  end.

Definition classify (now : pyfloat) (w : Watcher) (event : dict) : res dict :=
  let actor := get_dict "Actor" event in
  let attributes := get_dict "Attributes" actor in
  let action := action_of event in
  code ← exit_code_of attributes;
  let record := [("action", JStr action); ("container", JStr (get_str_or "name" "" attributes));
    ("id", JStr (stake 12 (get_str_or "ID" "" actor))); ("image", JStr (get_str_or "image" "" attributes));
    ("job", JStr (get_str_or JOB_LABEL "" attributes))] in
  if bool_decide (action ∈ ["die"; "oom"; "kill"]) then
    let reason := if String.eqb action "oom" then "oom_killed" else exit_reason code in
    let exit_code := match code with Some z => JInt z | None => JNull end in
    mret (record ++
      match recent_fault now w with
      | None => [("exit_code", exit_code); ("reason", JStr reason); ("gpu_error", JBool false)]
      | Some fault => [("exit_code", exit_code); ("reason", JStr "gpu_error"); ("gpu_error", JBool true);
                       ("fault", JDict (fault_payload fault))]
      end)
  else mret record.

Definition handle_line (now : pyfloat) (line : string) (w : Watcher) : res unit * Watcher :=
  match loads line with
  | Some (JDict event) =>
      match getd "Type" (JStr "container") event with
      | JStr "container" =>
          if bool_decide (action_of event ∈ LIFECYCLE) then
            match classify now w event with
            | Ok record => (Ok tt, MkWatcher w.(faults) (w.(events) ++ [("container." +:+ action_of event, record)]))
            | Raise e => (Raise e, w)
            end
          else (Ok tt, w)
      | _ => (Ok tt, w)
      end
  | _ => (Ok tt, w)
  end.

(** The lines of one [docker events], until one raises. *)
Fixpoint handle_lines (lines : list (pyfloat * string)) (w : Watcher) : res unit * Watcher :=
  match lines with
  | [] => (Ok tt, w)
  | (now, line) :: lines' =>
      match handle_line now (strip line) w with
      | (Ok _, w) => handle_lines lines' w
      | (Raise e, w) => (Raise e, w)
      end
  end.
End Containers.

(** How long [run] waits before it streams again: [elapsed] is how long the last
    stream lasted. *)
Definition next_delay (elapsed delay : pyfloat) : pyfloat :=
  if flt (fz 60) elapsed then fz 2 else fmin (fmul delay (fz 2)) (fz 60).

(** ** Facts *)

Lemma fle_trans x y z : fle x y = true → fle y z = true → fle x z = true.
Proof.
  destruct x as [|[]|a], y as [|[]|b], z as [|[]|c]; try done.
  rewrite !fle_FFin. apply Qle_trans.
Qed.

Lemma filter_filter {A} (f g : A → bool) l :
  (∀ x, f x = true → g x = true) → List.filter f (List.filter g l) = List.filter f l.
Proof.
  intros Hfg. induction l as [|x l IH]; [done|]. cbn [List.filter]. destruct (g x) eqn:Eg; cbn [List.filter].
  - by rewrite IH.
  - destruct (f x) eqn:Ef; [by rewrite (Hfg x Ef) in Eg|done].
Qed.

Lemma last_filter_None {A} (f : A → bool) l : last (List.filter f l) = None ↔ ∀ x, x ∈ l → f x = false.
Proof.
  rewrite last_None. split.
  - intros Hn x Hx. destruct (f x) eqn:E; [|done]. assert (x ∈ List.filter f l) as Hin by by apply elem_of_filter_b.
    rewrite Hn in Hin. by apply not_elem_of_nil in Hin.
  - intros Ha. induction l as [|x l IH]; [done|]. cbn [List.filter]. rewrite Ha by apply list_elem_of_here.
    apply IH. intros y Hy. apply Ha. by apply list_elem_of_further.
Qed.

Lemma take_while_app f a b :
  sforall f a = true → match b with "" => True | String c _ => f c = false end → take_while f (a +:+ b) = (a, b).
Proof.
  intros Ha Hb. induction a as [|c a IH]; cbn [String.append].
  - destruct b as [|c b]; [done|]. cbn. by rewrite Hb.
  - cbn in Ha. apply andb_true_iff in Ha as [Hc Ha].
    transitivity (if f c then let '(x, y) := take_while f (a +:+ b) in (String c x, y) else ("", String c (a +:+ b)));
      [done|]. by rewrite Hc, IH.
Qed.

(** The line the driver prints for an Xid is read back: the address, the number,
    and whether it is one of the severe ones. *)
Theorem xid_read now level address z rest :
  let line := "NVRM: Xid (PCI:" +:+ address +:+ "): " +:+ str_of_Z z +:+ rest in
  contains ";" level = false → address ≠ "" → sforall pci_char address = true → (0 <= z)%Z →
  match rest with "" => True | String c _ => is_digit c = false end → strip line = line →
  parse_line now (level +:+ ";" +:+ line) = Some (MkFault "xid" line address (Some z) (dmem z SEVERE_XIDS) now).
Proof.
  cbn zeta. intros Hl Hne Hpci Hz Hrest Hstrip. unfold parse_line. rewrite partition_first_app by done.
  rewrite Hstrip. set (tail := "): " +:+ str_of_Z z +:+ rest).
  assert (xid_here (xid_prefix +:+ address +:+ tail) = Some (address, z)) as Hx.
  { unfold xid_here. assert (startswith xid_prefix (xid_prefix +:+ address +:+ tail) = true) as -> by apply prefix_app.
    rewrite sdrop_app, take_while_app by done. apply String.eqb_neq in Hne. rewrite Hne. cbn [negb andb].
    assert (startswith "): " tail = true) as -> by apply prefix_app.
    change (sdrop 3 tail) with (str_of_Z z +:+ rest). rewrite take_while_app; [by rewrite parse_int_str|by apply str_of_Z_digits|done]. }
  change ("NVRM: Xid (PCI:" +:+ address +:+ tail) with (xid_prefix +:+ address +:+ tail).
  assert (∀ s, search xid_here s = match xid_here s with Some a => Some a
    | None => match s with "" => None | String _ s' => search xid_here s' end end) as Hs by (by destruct s).
  rewrite Hs, Hx. reflexivity.
Qed.

Lemma xid_read_witness :
  parse_line f0 "4,1,2,-;NVRM: Xid (PCI:0000:01:00): 79, pid=1" =
    Some (MkFault "xid" "NVRM: Xid (PCI:0000:01:00): 79, pid=1" "0000:01:00" (Some 79%Z) true f0).
Proof.
  apply (xid_read f0 "4,1,2,-" "0000:01:00" 79 ", pid=1"); try reflexivity; [discriminate|lia].
Defined.

(** What happens to a watcher: the kernel watch notes a fault, or docker tells a
    line; each at some time. *)
Inductive act : Type := Noted (now : pyfloat) (fault : KernelFault) | Told (now : pyfloat) (line : string).

Section Watching.
Variable loads : string → option json.

Definition act_on (w : Watcher) (a : act) : Watcher :=
  match a with Noted now fault => note_fault now fault w | Told now line => (handle_line loads now line w).2 end.
Definition watching (acts : list act) : Watcher := foldl act_on (MkWatcher [] []) acts.
Definition noted (acts : list act) : list KernelFault :=
  omap (λ a, match a with Noted _ fault => Some fault | Told _ _ => None end) acts.

Lemma handle_line_faults now line w : faults (handle_line loads now line w).2 = faults w.
Proof. unfold handle_line. repeat case_match; done. Qed.

(** The faults forgotten are none of those still recent. *)
Lemma recent_watching now acts :
  (∀ t f, Noted t f ∈ acts → fle (cutoff t) (cutoff now) = true) →
  recent now (faults (watching acts)) = recent now (noted acts).
Proof.
  unfold watching. induction acts as [|a acts IH] using rev_ind; intros Ht; [done|].
  rewrite foldl_app. unfold noted. rewrite omap_app. fold (noted acts). cbn [foldl].
  assert (recent now (faults (foldl act_on (MkWatcher [] []) acts)) = recent now (noted acts)) as IH'.
  { apply IH. intros t f Hin. apply (Ht t f), elem_of_app. by left. }
  destruct a as [t f|t line]; cbn [act_on omap list_omap].
  - cbn [note_fault faults]. unfold recent at 1 2. rewrite filter_filter.
    + unfold recent in *. rewrite !List.filter_app. by rewrite IH'.
    + intros x Hx. eapply fle_trans; [|exact Hx]. apply (Ht t f), elem_of_app. right. apply list_elem_of_here.
  - rewrite handle_line_faults, app_nil_r. exact IH'.
Qed.

(** C34. A container that ends is reported as a GPU error exactly when the kernel log
    showed a fault in the two minutes before, whatever was noted and told since,
    on a clock that does not go back; the fault told is the last of them, and
    otherwise the reason is the one docker's exit code gives. *)
Theorem gpu_error_exact now acts event record code :
  (∀ t f, Noted t f ∈ acts → fle (fsub t (fz 120)) (fsub now (fz 120)) = true) →
  action_of event = "die" ∨ action_of event = "oom" ∨ action_of event = "kill" →
  exit_code_of (get_dict "Attributes" (get_dict "Actor" event)) = Ok code →
  classify now (watching acts) event = Ok record →
  (getv "gpu_error" record = JBool true ↔
     ∃ f, f ∈ noted acts ∧ fle (fsub now (fz 120)) f.(seen_at) = true) ∧
  (getv "gpu_error" record = JBool true →
     getv "reason" record = JStr "gpu_error" ∧
     ∃ f, last (recent now (noted acts)) = Some f ∧ getv "fault" record = JDict (fault_payload f)) ∧
  (getv "gpu_error" record = JBool false →
     getv "reason" record = JStr (if String.eqb (action_of event) "oom" then "oom_killed" else exit_reason code)).
Proof.
  intros Ht Ha Hcode. unfold classify. rewrite Hcode. cbn [mbind res_bind].
  rewrite bool_decide_eq_true_2 by (rewrite !elem_of_cons; naive_solver).
  unfold recent_fault. rewrite recent_watching by exact Ht.
  destruct (last (recent now (noted acts))) as [f|] eqn:El; intros [= <-].
  - assert (f ∈ recent now (noted acts)) as Hin by (apply last_Some in El as [l' ->]; apply elem_of_app; right; apply list_elem_of_here).
    apply elem_of_filter_b in Hin as [Hin Hf]. split; [|split].
    + split; [intros _; by exists f|reflexivity].
    + intros _. split; [reflexivity|]. by exists f.
    + discriminate.
  - pose proof (proj1 (last_filter_None _ _) El) as Hnone. cbv beta in Hnone. split; [|split].
    + split; [discriminate|]. intros (f & Hin & Hf). exfalso. specialize (Hnone f Hin). unfold cutoff, FAULT_WINDOW_SECONDS in Hnone. congruence.
    + discriminate.
    + reflexivity.
Qed.
End Watching.

(** Docker told at 1000 that a container died with 137; the log showed an Xid at
    950, and one long before. *)
Definition sample_fault (t : Z) : KernelFault := MkFault "xid" "m" "0000:01:00" (Some 79%Z) true (fz t).
Definition sample_died : dict :=
  [("Action", JStr "die"); ("Actor", JDict [("ID", JStr "abc"); ("Attributes", JDict [("exitCode", JStr "137")])])].

Lemma gpu_error_exact_witness :
  ∃ record, classify (fz 1000) (watching (λ _, None) [Noted (fz 10) (sample_fault 10); Noted (fz 950) (sample_fault 950)])
      sample_died = Ok record ∧ getv "gpu_error" record = JBool true ∧ getv "reason" record = JStr "gpu_error".
Proof.
  destruct (classify (fz 1000) (watching (λ _, None) [Noted (fz 10) (sample_fault 10); Noted (fz 950) (sample_fault 950)])
    sample_died) as [record|] eqn:E; [|vm_compute in E; discriminate].
  destruct (gpu_error_exact (λ _, None) (fz 1000) [Noted (fz 10) (sample_fault 10); Noted (fz 950) (sample_fault 950)]
    sample_died record (Some 137%Z)) as (H1 & H2 & _).
  - intros t f [[= -> ->]|[[= -> ->]|[]%not_elem_of_nil]%elem_of_cons]%elem_of_cons; reflexivity.
  - left. reflexivity.
  - reflexivity.
  - exact E.
  - exists record. split; [reflexivity|].
    assert (getv "gpu_error" record = JBool true) as Hg.
    { apply H1. exists (sample_fault 950). split; [apply list_elem_of_further, list_elem_of_here|reflexivity]. }
    split; [exact Hg|exact (proj1 (H2 Hg))].
Defined.
