(* ===== verification/Watch.v ===== *)
(** * The monitor process (agent/monitor/kmsg.py, agent/monitor/containers.py, run_monitor of agent/main.py)

    The loops around [Monitor]: reading the kernel log or following [dmesg], and
    streaming the events of docker, each started again when it ends.  A loop is
    its first [n] turns; what it reads comes from [Log] and [Docker], functions of
    a state in which time passes only by waiting or reading. *)

From Stdlib Require Import Ascii String QArith.
From S2P Require Import Prelude.
From S2P Require Import PyStr.
From S2P Require Import PyText.
From S2P Require Import PyFloat.
From S2P Require Import PyJson.
From S2P Require Import Monitor.
Local Open Scope string_scope.
Local Open Scope list_scope.

(** What a read of [/dev/kmsg] gives: a record, decoded; nothing yet
    ([BlockingIOError], or no bytes); EPIPE or EINVAL; another [OSError]. *)
Inductive failure : Type := NoPermission | Other (text : string).
Inductive reading : Type := Chunk (text : string) | Nothing | Overrun | Broken (e : failure).

Record Log (H : Type) : Type := MkLog {
  stopped : H → bool;
  clock : H → pyfloat;
  opens : H → option failure;
  read : H → reading * H;
  rest : pyfloat → H → H;
  dmesg : H → option string;
  next_line : H → option string * H }.
Arguments stopped {H}. Arguments clock {H}. Arguments opens {H}. Arguments read {H}.
Arguments rest {H}. Arguments dmesg {H}. Arguments next_line {H}.

(** How a watch ended; [None] of an option says that it still goes on. *)
Inductive watch_end : Type := Done | Failed (e : failure).

Definition event (kind : string) (fields : dict) (w : Watcher) : Watcher :=
  MkWatcher w.(faults) (w.(events) ++ [(kind, fields)]).

(** [on_fault] of [run_monitor] *)
Definition on_fault (now : pyfloat) (fault : KernelFault) (w : Watcher) : Watcher :=
  event "gpu.fault" (fault_payload fault) (note_fault now fault w).

Definition poll_seconds : pyfloat := FFin (1 # 2).
Definition DMESG : list string := ["dmesg"; "--follow"; "--kernel"; "--notime"].

Section Kernel.
Context {H : Type} (log : Log H).

(** ** [kmsg.watch] and [kmsg.watch_dmesg] *)

Fixpoint watch_turns (n : nat) (w : Watcher) (h : H) : option watch_end * Watcher * H :=
  match n with
  | O => (None, w, h)
  | S n' =>
      if log.(stopped) h then (Some Done, w, h) else
      let '(r, h) := log.(read) h in
      match r with
      | Nothing => watch_turns n' w (log.(rest) poll_seconds h)
      | Overrun => watch_turns n' w h
      | Broken e => (Some (Failed e), w, h)
      | Chunk "" => watch_turns n' w (log.(rest) poll_seconds h)
      | Chunk text => watch_turns n' (watched (on_fault (log.(clock) h)) (log.(clock) h) text w) h
      end
  end.
Definition watch (n : nat) (w : Watcher) (h : H) : option watch_end * Watcher * H :=
  match log.(opens) h with
  | Some e => (Some (Failed e), w, h)
  | None => watch_turns n w h
  end.

(** The inner option is the text of the [OSError] of starting [dmesg]. *)
Fixpoint dmesg_turns (n : nat) (w : Watcher) (h : H) : option (option string) * Watcher * H :=
  match n with
  | O => (None, w, h)
  | S n' =>
      let '(line, h) := log.(next_line) h in
      match line with
      | None => (Some None, w, h)
      | Some line =>
          if log.(stopped) h then (Some None, w, h)
          else dmesg_turns n' (watched (on_fault (log.(clock) h)) (log.(clock) h) line w) h
      end
  end.
Definition watch_dmesg (n : nat) (w : Watcher) (h : H) : option (option string) * Watcher * H :=
  match log.(dmesg) h with
  | Some text => (Some (Some text), w, h)
  | None => dmesg_turns n w h
  end.

(** ** [watch_kernel] of [run_monitor] *)

(** One turn of its loop; the watches in it go on for [n] turns at most, and a
    watch that still goes on leaves the turn unfinished ([false]). *)
Definition kernel_turn (n : nat) (w : Watcher) (h : H) : bool * Watcher * H :=
  let '(e, w, h) := watch n (event "monitor.kmsg.start" [] w) h in
  match e with
  | None => (false, w, h)
  | Some Done => (true, w, h)
  | Some (Failed NoPermission) =>
      let '(e, w, h) := watch_dmesg n (event "monitor.kmsg.fallback" [("source", JStr "dmesg --follow")] w) h in
      match e with
      | None => (false, w, h)
      | Some None => (true, w, h)
      | Some (Some exc) =>
          (true, event "monitor.error" [("error", JStr ("cannot read /dev/kmsg or run dmesg (" +:+ exc +:+
                                                        "); SYSLOG capability missing"))] w,
           log.(rest) (fz 60) h)
      end
  | Some (Failed (Other text)) =>
      (true, event "monitor.error" [("error", JStr (stake 200 text))] w, log.(rest) (fz 10) h)
  end.

(** The first [turns] turns, with how many were finished. *)
Fixpoint watch_kernel (n turns : nat) (w : Watcher) (h : H) : nat * Watcher * H :=
  match turns with
  | O => (O, w, h)
  | S turns' =>
      if log.(stopped) h then (O, w, h) else
      match kernel_turn n w h with
      | (false, w, h) => (O, w, h)
      | (true, w, h) => let '(k, w, h) := watch_kernel n turns' w h in (S k, w, h)
      end
  end.
End Kernel.

(** ** [ContainerWatcher.run] *)

(** [docker events]: the process starts or not, and gives lines; [ends] says that
    waiting five seconds for its end raised. *)
Record Docker (H : Type) : Type := MkDocker {
  stopping : H → bool;
  monotonic : H → pyfloat;
  time : H → pyfloat;
  spawn : H → option string;
  line : H → option string * H;
  reaped : H → option string * H;
  wait : pyfloat → H → H;
  loads : string → option json;
  text_of : exn → string }.
Arguments stopping {H}. Arguments monotonic {H}. Arguments time {H}. Arguments spawn {H}.
Arguments line {H}. Arguments reaped {H}. Arguments wait {H}. Arguments loads {H}. Arguments text_of {H}.

Definition EVENTS : list string :=
  ["docker"; "events"; "--format"; "{{json .}}"; "--filter"; "type=container"; "--filter"; "label=" +:+ JOB_LABEL].

Section Stream.
Context {H : Type} (docker : Docker H).

(** The lines of a stream: [inl] says that it goes on after [n] lines, [inr] how
    it ended. *)
Fixpoint stream_lines (n : nat) (w : Watcher) (h : H) : (unit + res unit) * Watcher * H :=
  match n with
  | O => (inl tt, w, h)
  | S n' =>
      let '(l, h) := docker.(line) h in
      match l with
      | None => (inr (Ok tt), w, h)
      | Some l =>
          if docker.(stopping) h then (inr (Ok tt), w, h) else
          match handle_line docker.(loads) (docker.(time) h) (strip l) w with
          | (Ok _, w) => stream_lines n' w h
          | (Raise e, w) => (inr (Raise e), w, h)
          end
      end
  end.

(** [_stream_once], with the text of what it raises; the wait for the end of the
    process takes the place of an exception of the lines. *)
Definition stream_once (n : nat) (w : Watcher) (h : H) : (unit + option string) * Watcher * H :=
  match docker.(spawn) h with
  | Some text => (inr (Some text), w, h)
  | None =>
      match stream_lines n w h with
      | (inl _, w, h) => (inl tt, w, h)
      | (inr r, w, h) =>
          match docker.(reaped) h with
          | (Some text, h) => (inr (Some text), w, h)
          | (None, h) => (inr (match r with Ok _ => None | Raise e => Some (docker.(text_of) e) end), w, h)
          end
      end
  end.

(** The first [turns] turns of [run], from the delay of the last; the delays
    waited, in order. *)
Fixpoint run (n turns : nat) (delay : pyfloat) (w : Watcher) (h : H) : list pyfloat * Watcher * H :=
  match turns with
  | O => ([], w, h)
  | S turns' =>
      if docker.(stopping) h then ([], w, h) else
      let started := docker.(monotonic) h in
      match stream_once n (event "monitor.containers.start" [] w) h with
      | (inl _, w, h) => ([], w, h)
      | (inr failed, w, h) =>
          let w := match failed with
                   | Some text => event "monitor.containers.error" [("error", JStr (stake 200 text))] w
                   | None => w
                   end in
          if docker.(stopping) h then ([], w, h) else
          let delay := next_delay (fsub (docker.(monotonic) h) started) delay in
          let '(delays, w, h) := run n turns' delay w (docker.(wait) delay h) in
          (delay :: delays, w, h)
      end
  end.
Definition run_containers (n turns : nat) (w : Watcher) (h : H) : list pyfloat * Watcher * H :=
  run n turns (fz 2) w h.
End Stream.

(** ** Facts *)

Section WatchFacts.
Context {H : Type} (log : Log H).

(** What is read of the log in [n] turns, and when. *)
Fixpoint records (n : nat) (h : H) : list (pyfloat * string) :=
  match n with
  | O => []
  | S n' =>
      if log.(stopped) h then [] else
      let '(r, h) := log.(read) h in
      match r with
      | Nothing | Chunk "" => records n' (log.(rest) poll_seconds h)
      | Overrun => records n' h
      | Broken _ => []
      | Chunk text => (log.(clock) h, text) :: records n' h
      end
  end.

Definition faults_in (l : list (pyfloat * string)) : list (pyfloat * KernelFault) :=
  omap (λ tc, (λ f, (tc.1, f)) <$> parse_line tc.1 tc.2) l.

Lemma faults_in_cons now text l w :
  foldl (λ w tf, on_fault tf.1 tf.2 w) w (faults_in ((now, text) :: l)) =
  foldl (λ w tf, on_fault tf.1 tf.2 w) (watched (on_fault now) now text w) (faults_in l).
Proof.
  unfold faults_in, watched. cbn [omap list_omap fst snd]. by destruct (parse_line now text).
Qed.

(** The watcher is told of the faults read, each once and in their order. *)
Lemma watch_reports n : ∀ w h,
  (watch_turns log n w h).1.2 = foldl (λ w tf, on_fault tf.1 tf.2 w) w (faults_in (records n h)).
Proof.
  induction n as [|n IH]; intros w h; [done|]. cbn [watch_turns records].
  destruct (stopped log h); [done|]. destruct (read log h) as [[[|c text]| | |e] h1]; try done; try apply IH.
  rewrite faults_in_cons. apply IH.
Qed.

(** Each fault is written to the events and remembered for the containers. *)
Lemma on_faults_events l : ∀ w,
  events (foldl (λ w tf, on_fault tf.1 tf.2 w) w l) = events w ++ map (λ tf, ("gpu.fault", fault_payload tf.2)) l.
Proof.
  induction l as [|[t f] l IH]; intros w; cbn [foldl map]; [by rewrite app_nil_r|].
  rewrite IH. cbn. by rewrite <-app_assoc.
Qed.
Lemma on_faults_noted loads l : ∀ w,
  faults (foldl (λ w tf, on_fault tf.1 tf.2 w) w l) =
  faults (foldl (act_on loads) w (map (λ tf, Noted tf.1 tf.2) l)).
Proof.
  assert (∀ w w' l, faults w = faults w' → faults (foldl (λ w tf, on_fault tf.1 tf.2 w) w l) =
                    faults (foldl (act_on loads) w' (map (λ tf, Noted tf.1 tf.2) l))) as Hg; [|by intros w; apply Hg].
  clear. intros w w' l. revert w w'. induction l as [|[t f] l IH]; intros w w' Hw; [done|].
  cbn [foldl map]. apply IH. cbn. unfold note_fault. cbn. by rewrite Hw.
Qed.

(** When the kernel log may not be read, and [dmesg], which may not either, ends
    at once, the loop never waits: every turn starts another [dmesg] and writes
    two events, with no time gone. *)
Lemma dmesg_spins n turns w h :
  log.(stopped) h = false → log.(opens) h = Some NoPermission → log.(dmesg) h = None →
  log.(next_line) h = (None, h) →
  let out := watch_kernel log (S n) turns w h in
  out.2 = h ∧ out.1.1 = turns ∧ length (events out.1.2) = (length (events w) + 2 * turns)%nat.
Proof.
  intros Hs Ho Hd Hl. cbn zeta. revert w. induction turns as [|turns IH]; intros w; [split_and!; [done|done|cbn; lia]|].
  cbn [watch_kernel]. rewrite Hs. unfold kernel_turn, watch. rewrite Ho. unfold watch_dmesg. rewrite Hd.
  cbn [dmesg_turns]. rewrite Hl.
  match goal with |- context [watch_kernel log (S n) turns ?w' h] =>
    specialize (IH w'); destruct (watch_kernel log (S n) turns w' h) as [[k w1] h1] end.
  cbn [fst snd] in *. destruct IH as (-> & -> & IH). split_and!; [done|done|].
  rewrite IH. cbn [event events]. rewrite !length_app. cbn [length]. lia.
Qed.
End WatchFacts.

Definition DELAYS : list pyfloat := map fz [2; 4; 8; 16; 32; 60]%Z.

Lemma next_delay_bounded elapsed delay : delay ∈ DELAYS → next_delay elapsed delay ∈ DELAYS.
Proof.
  intros Hd. unfold next_delay. destruct (flt (fz 60) elapsed); [apply list_elem_of_here|].
  repeat (apply elem_of_cons in Hd as [->|Hd]; [apply (bool_decide_unpack _); by vm_compute|]).
  by apply elem_of_nil in Hd.
Qed.

(** The streams of docker are started again after two seconds at least and sixty
    at most. *)
Lemma run_paced {H} (docker : Docker H) n turns w h delay :
  delay ∈ (run_containers docker n turns w h).1.1 → delay ∈ DELAYS.
Proof.
  unfold run_containers. assert (fz 2 ∈ DELAYS) as H2 by apply list_elem_of_here. revert H2.
  generalize (fz 2). revert w h. induction turns as [|turns IH]; intros w h d Hd; cbn [run]; [by intros ?%elem_of_nil|].
  destruct (stopping docker h); [by intros ?%elem_of_nil|].
  destruct (stream_once _ _ _ _) as [[[|failed] w1] h1]; [by intros ?%elem_of_nil|].
  destruct (stopping docker h1); [by intros ?%elem_of_nil|].
  pose proof (next_delay_bounded (fsub (monotonic docker h1) (monotonic docker h)) d Hd) as Hn.
  match goal with |- context [run docker n turns ?d' ?w' ?h'] =>
    specialize (IH w' h' d' Hn); destruct (run docker n turns d' w' h') as [[ds w2] h2] end.
  cbn [fst] in *. intros [->|Hin]%elem_of_cons; [done|by apply IH].
Qed.

(** ** Example: a log that may not be read, and a docker that is not there *)

Definition closed_log : Log Z := MkLog Z (λ h, (100 <=? h)%Z) fz (λ _, Some NoPermission) (λ h, (Nothing, h))
  (λ _ h, (h + 1)%Z) (λ _, None) (λ h, (None, h)).
Example dmesg_spins_here :
  (watch_kernel closed_log 5 50 (MkWatcher [] []) 0%Z).1.1 = 50%nat.
Proof. reflexivity. Qed.
Definition no_docker : Docker Z := MkDocker Z (λ h, (100 <=? h)%Z) fz fz (λ _, Some "No such file") (λ h, (None, h))
  (λ h, (None, h)) (λ _ h, (h + 1)%Z) (λ _, None) (λ _, "").
Example delays_here :
  (run_containers no_docker 5 8 (MkWatcher [] []) 0%Z).1.1 = map fz [4; 8; 16; 32; 60; 60; 60; 60]%Z.
Proof. vm_compute. reflexivity. Qed.
