(* ===== verification/Aes.v ===== *)
(** * AES-128 as the scrape payload writes it (src/validator/verify/payloads/scrape.py)

    The payload runs with the standard library alone, so it carries its own
    AES: the table of the S-box, the key schedule and the cipher of a block.
    Bytes are integers, a block and a round key are lists of sixteen.  The facts
    relate the code to the definitions of FIPS 197 (the field, the affine map, the
    rows and the columns) and to the inverse cipher. *)

From S2P Require Import Prelude.
From Stdlib Require Import Btauto.
Local Open Scope Z_scope.
Local Open Scope list_scope.

Definition xtime (value : Z) : Z :=
  let value := Z.shiftl value 1 in
  if Z.land value 0x100 =? 0 then value else Z.land (Z.lxor value 0x11B) 0xFF.

(** [list[index]] *)
Definition at_ (l : list Z) (i : Z) : Z := nth (Z.to_nat i) l 0.

(** The tables of the powers of 3 and of their logarithms. *)
Definition tables : list Z * list Z * Z :=
  foldl (λ '(exp, log, x) i, (<[i := x]> exp, <[Z.to_nat x := Z.of_nat i]> log, Z.lxor x (xtime x)))
    (repeat 0 256, repeat 0 256, 1) (seq 0 255).

Definition rotated (v : Z) : Z := Z.land (Z.lor (Z.shiftl v 1) (Z.shiftr v 7)) 0xFF.

Definition sbox_entry (exp log : list Z) (value : Z) : Z :=
  let inverse := if value =? 0 then 0 else at_ exp ((255 - at_ log value) mod 255) in
  let '(s, v) := foldl (λ '(s, v) _, let v := rotated v in (Z.lxor s v, v)) (inverse, inverse) (seq 0 4) in
  Z.lxor s 0x63.

Definition bytes256 : list Z := Z.of_nat <$> seq 0 256.

Definition build_sbox : list Z :=
  let '(exp, log, _) := tables in sbox_entry exp log <$> bytes256.

Definition SBOX : list Z := Eval vm_compute in build_sbox.
Definition RCON : list Z := [0x01; 0x02; 0x04; 0x08; 0x10; 0x20; 0x40; 0x80; 0x1B; 0x36].
Definition SHIFT : list nat :=
  Eval vm_compute in (λ i, ((i / 4 + i mod 4) mod 4) * 4 + i mod 4)%nat <$> seq 0 16.

(** ** The key schedule *)

Definition word (k : list Z) (i : nat) : list Z := take 4 (drop (4 * i) k).

(** One turn of the loop, on the words so far. *)
Definition expand_step (words : list (list Z)) (i : nat) : list (list Z) :=
  let temp := nth (i - 1) words [] in
  let temp := if (i mod 4 =? 0)%nat then
                let temp := drop 1 temp ++ take 1 temp in
                let temp := at_ SBOX <$> temp in
                <[0%nat := Z.lxor (at_ temp 0) (nth (i / 4 - 1) RCON 0)]> temp
              else temp in
  words ++ [zip_with Z.lxor (nth (i - 4) words []) temp].

Definition expand_words (key : list Z) : list (list Z) :=
  foldl expand_step (word key <$> seq 0 4) (seq 4 40).

Definition expand_key (key : list Z) : list (list Z) :=
  let words := expand_words key in
  (λ r, mjoin (take 4 (drop (4 * r) words))) <$> seq 0 11.

(** ** A block *)

Definition add_key (state key : list Z) : list Z := zip_with Z.lxor state key.
Definition sub_bytes (state : list Z) : list Z := at_ SBOX <$> state.
Definition shift_rows (state : list Z) : list Z := (λ i, nth i state 0) <$> SHIFT.

Definition mix (a0 a1 a2 a3 : Z) : list Z :=
  [Z.lxor (Z.lxor (Z.lxor (Z.lxor (xtime a0) (xtime a1)) a1) a2) a3;
   Z.lxor (Z.lxor (Z.lxor (Z.lxor a0 (xtime a1)) (xtime a2)) a2) a3;
   Z.lxor (Z.lxor (Z.lxor (Z.lxor a0 a1) (xtime a2)) (xtime a3)) a3;
   Z.lxor (Z.lxor (Z.lxor (Z.lxor (xtime a0) a0) a1) a2) (xtime a3)].

Fixpoint mix_columns (state : list Z) : list Z :=
  match state with
  | a0 :: a1 :: a2 :: a3 :: rest => mix a0 a1 a2 a3 ++ mix_columns rest
  | _ => []
  end.

Definition round (round_keys : list (list Z)) (state : list Z) (rnd : nat) : list Z :=
  let state := shift_rows (sub_bytes state) in
  let state := if (rnd =? 10)%nat then state else mix_columns state in
  add_key state (nth rnd round_keys []).

Definition encrypt_block (round_keys : list (list Z)) (block : list Z) : list Z :=
  foldl (round round_keys) (add_key block (nth 0 round_keys [])) (seq 1 10).

(** ** FIPS 197

    The field of 256 elements, the S-box, the rows and the columns as the
    standard defines them, and the inverse cipher. *)
Module Fips.

(** Multiplication modulo x^8 + x^4 + x^3 + x + 1, a bit of [b] at a time. *)
Fixpoint times (n : nat) (a b : Z) : Z :=
  match n with
  | O => 0
  | S n' =>
      let a' := Z.shiftl a 1 in
      let a' := if Z.testbit a' 8 then Z.lxor a' 0x11B else a' in
      Z.lxor (if Z.odd b then a else 0) (times n' a' (Z.shiftr b 1))
  end.
Definition mul (a b : Z) : Z := times 8 a b.

(** The inverse of [a] is the byte whose product with it is one; zero has none
    and stands for itself. *)
Definition inverse (a : Z) : Z := default 0 (List.find (λ b, mul a b =? 1) bytes256).

(** Bit [i] of the image is b_i + b_(i+4) + b_(i+5) + b_(i+6) + b_(i+7) + c_i. *)
Definition affine (b : Z) : Z :=
  foldr (λ i acc, acc + (if foldr xorb (Z.testbit 0x63 i)
                             ((λ k, Z.testbit b ((i + k) mod 8)) <$> [0; 4; 5; 6; 7])
                          then 2 ^ i else 0)) 0 (Z.of_nat <$> seq 0 8).
Definition sbox (a : Z) : Z := affine (inverse a).

(** Byte [r] of column [c] comes from column [c + r]. *)
Definition shift_rows (state : list Z) : list Z :=
  c ← seq 0 4; r ← seq 0 4; [nth (4 * ((c + r) mod 4) + r) state 0].
Definition inv_shift_rows (state : list Z) : list Z :=
  c ← seq 0 4; r ← seq 0 4; [nth (4 * ((c + 4 - r) mod 4) + r) state 0].

(** A column times a matrix over the field, given by its rows. *)
Definition dot (row column : list Z) : Z := foldr Z.lxor 0 (zip_with mul row column).
Definition matrix (rows : list (list Z)) (column : list Z) : list Z := (λ row, dot row column) <$> rows.
Definition MIX : list (list Z) := [[2; 3; 1; 1]; [1; 2; 3; 1]; [1; 1; 2; 3]; [3; 1; 1; 2]].
Definition UNMIX : list (list Z) := [[14; 11; 13; 9]; [9; 14; 11; 13]; [13; 9; 14; 11]; [11; 13; 9; 14]].
Definition columns (rows : list (list Z)) (state : list Z) : list Z :=
  c ← seq 0 4; matrix rows (word state c).

Definition cipher (round_keys : list (list Z)) (block : list Z) : list Z :=
  let key r := nth r round_keys [] in
  let state := foldl (λ state r, add_key (columns MIX (shift_rows (sbox <$> state))) (key r))
                 (add_key block (key 0%nat)) (seq 1 9) in
  add_key (shift_rows (sbox <$> state)) (key 10%nat).

Definition inv_sbox (b : Z) : Z := default 0 (List.find (λ a, sbox a =? b) bytes256).
Definition INV_SBOX : list Z := Eval vm_compute in inv_sbox <$> bytes256.

Definition inv_cipher (round_keys : list (list Z)) (block : list Z) : list Z :=
  let key r := nth r round_keys [] in
  let state := foldl (λ state r, columns UNMIX (add_key (at_ INV_SBOX <$> inv_shift_rows state) (key r)))
                 (add_key block (key 10%nat)) (rev (seq 1 9)) in
  add_key (at_ INV_SBOX <$> inv_shift_rows state) (key 0%nat).

(** The round constants are the powers of x. *)
Definition rcon (n : nat) : Z := Nat.iter n (mul 2) 1.
Definition schedule_word (prior latest : list Z) (i : nat) : list Z :=
  let latest := if (i mod 4 =? 0)%nat then
                match sbox <$> (drop 1 latest ++ take 1 latest) with
                | a :: rest => Z.lxor a (rcon (i / 4 - 1)) :: rest
                | [] => []
                end
              else latest in
  zip_with Z.lxor prior latest.

(** The schedule as a window of four words that slides over it. *)
Definition slide (ws : list (list Z)) (i : nat) : list (list Z) :=
  match ws with
  | [w0; w1; w2; w3] => [w1; w2; w3; schedule_word w0 w3 i]
  | _ => ws
  end.
Definition window (key : list Z) (n : nat) : list (list Z) :=
  foldl slide (word key <$> seq 0 4) (seq 4 n).
Definition round_key (key : list Z) (r : nat) : list Z := mjoin (window key (4 * r)).
End Fips.

(** The example of FIPS 197, appendix C.1. *)
Example fips197_c1 :
  encrypt_block (expand_key (Z.of_nat <$> seq 0 16)) ((λ i, Z.of_nat (17 * i)) <$> seq 0 16)
  = [0x69; 0xc4; 0xe0; 0xd8; 0x6a; 0x7b; 0x04; 0x30; 0xd8; 0xcd; 0xb7; 0x80; 0x70; 0xb4; 0xc5; 0x5a].
Proof. vm_compute. reflexivity. Qed.

(** ** Bytes *)

Definition is_byte (b : Z) : Prop := 0 <= b < 256.
Definition block_ok (l : list Z) : Prop := List.length l = 16%nat ∧ Forall is_byte l.

Lemma byte_in b : is_byte b → List.In b bytes256.
Proof.
  intros [H0 H1]. unfold bytes256. apply list_elem_of_In, list_elem_of_fmap. exists (Z.to_nat b).
  split; [lia|]. apply elem_of_seq. lia.
Qed.

(** A check of all the bytes. *)
Lemma every_byte (P : Z → bool) : List.forallb P bytes256 = true → ∀ b, is_byte b → P b = true.
Proof. rewrite List.forallb_forall. intros H b Hb. by apply H, byte_in. Qed.

Lemma at_table {f : Z → Z} l b : l = f <$> bytes256 → is_byte b → at_ l b = f b.
Proof.
  intros -> [H0 H1]. unfold at_, bytes256. rewrite nth_lookup, list_lookup_fmap, list_lookup_fmap.
  rewrite lookup_seq_lt by lia. cbn [fmap option_fmap option_map default Nat.add]. by rewrite Z2Nat.id by lia.
Qed.

Lemma at_bytes l b : List.length l = 256%nat → Forall is_byte l → is_byte b → is_byte (at_ l b).
Proof.
  intros Hl Hb [H0 H1]. unfold at_. rewrite Forall_forall in Hb. apply Hb.
  rewrite nth_lookup. destruct (l !! Z.to_nat b) eqn:E; [cbn; by eapply list_elem_of_lookup_2|].
  apply lookup_ge_None in E. lia.
Qed.

Lemma lxor_byte a b : is_byte a → is_byte b → is_byte (Z.lxor a b).
Proof.
  intros [H0 H1] [G0 G1]. assert (0 <= Z.lxor a b) by (apply Z.lxor_nonneg; lia). split; [done|].
  destruct (Z.eq_dec (Z.lxor a b) 0) as [->|Hne]; [lia|]. apply (Z.log2_lt_pow2 _ 8); [lia|].
  pose proof (Z.log2_lxor a b ltac:(lia) ltac:(lia)).
  assert (∀ x, 0 <= x < 256 → Z.log2 x < 8) as Hlog.
  { intros x Hx. destruct (Z.eq_dec x 0) as [->|]; [done|]. apply Z.log2_lt_pow2; lia. }
  pose proof (Hlog a ltac:(lia)). pose proof (Hlog b ltac:(lia)). lia.
Qed.

Lemma lxor_cancel a b : Z.lxor (Z.lxor a b) b = a.
Proof. by rewrite Z.lxor_assoc, Z.lxor_nilpotent, Z.lxor_0_r. Qed.

(** ** The parts against the standard *)

Lemma sbox_fips b : is_byte b → at_ SBOX b = Fips.sbox b.
Proof. apply at_table. vm_compute. reflexivity. Qed.

Lemma sbox_inverse b : is_byte b → at_ Fips.INV_SBOX (at_ SBOX b) = b.
Proof.
  intros Hb. apply Z.eqb_eq. revert b Hb. apply every_byte. vm_compute. reflexivity.
Qed.

Lemma xtime_fips b : is_byte b → xtime b = Fips.mul 2 b.
Proof. intros Hb. apply Z.eqb_eq. revert b Hb. apply every_byte. vm_compute. reflexivity. Qed.
Lemma xtime_plus_fips b : is_byte b → Z.lxor (xtime b) b = Fips.mul 3 b.
Proof. intros Hb. apply Z.eqb_eq. revert b Hb. apply every_byte. vm_compute. reflexivity. Qed.
Lemma mul_1 b : is_byte b → Fips.mul 1 b = b.
Proof. intros Hb. apply Z.eqb_eq. revert b Hb. apply every_byte. vm_compute. reflexivity. Qed.

Lemma shift_rows_fips state : shift_rows state = Fips.shift_rows state.
Proof. reflexivity. Qed.

Lemma inv_shift_rows_spec state : List.length state = 16%nat → Fips.inv_shift_rows (shift_rows state) = state.
Proof. intros H. by do 17 (destruct state; try done). Qed.

(** The bits of two sums of the same terms are the same. *)
Ltac lxor_bits :=
  apply Z.bits_inj'; intros ? _; rewrite ?Z.lxor_spec, ?Z.bits_0;
  repeat match goal with |- context [Z.testbit ?x ?n] => generalize (Z.testbit x n); intro end; btauto.

Lemma mix_fips a0 a1 a2 a3 : is_byte a0 → is_byte a1 → is_byte a2 → is_byte a3 →
  mix a0 a1 a2 a3 = Fips.matrix Fips.MIX [a0; a1; a2; a3].
Proof.
  intros H0 H1 H2 H3. unfold Fips.matrix, Fips.MIX, mix.
  cbn [fmap list_fmap]. unfold Fips.dot. cbn [zip_with foldr].
  rewrite !mul_1, <- !xtime_fips, <- !xtime_plus_fips by done.
  do 4 (apply (f_equal2 cons); [lxor_bits|]). done.
Qed.

Lemma sixteen (l : list Z) : List.length l = 16%nat →
  ∃ a0 a1 a2 a3 b0 b1 b2 b3 c0 c1 c2 c3 d0 d1 d2 d3,
    l = [a0; a1; a2; a3; b0; b1; b2; b3; c0; c1; c2; c3; d0; d1; d2; d3].
Proof. intros H. do 17 (destruct l; try done). by repeat eexists. Qed.

(** The sixteen bytes of a block, each with its bounds. *)
Ltac bytes_of_block H :=
  let Hf := fresh "Hf" in
  destruct H as [(?&?&?&?&?&?&?&?&?&?&?&?&?&?&?&?&->)%sixteen Hf];
  repeat (apply Forall_cons in Hf as [? Hf]); clear Hf.

Lemma mix_columns_fips state : block_ok state → mix_columns state = Fips.columns Fips.MIX state.
Proof.
  intros H. bytes_of_block H. unfold Fips.columns. cbn [seq mbind list_bind mix_columns].
  unfold word. cbn [drop take Nat.mul Nat.add]. by rewrite !mix_fips by done.
Qed.

(** Multiplication is linear, and the two matrices are inverse. *)
Lemma mul_lxor a b c : Fips.mul a (Z.lxor b c) = Z.lxor (Fips.mul a b) (Fips.mul a c).
Proof.
  unfold Fips.mul. revert a b c. generalize 8%nat as n. induction n as [|n IH]; intros a b c; [done|].
  cbn [Fips.times]. rewrite Z.shiftr_lxor, IH.
  assert (Z.odd (Z.lxor b c) = xorb (Z.odd b) (Z.odd c)) as -> by (rewrite <- !Z.bit0_odd; apply Z.lxor_spec).
  destruct (Z.odd b), (Z.odd c); cbn [xorb]; lxor_bits.
Qed.

Lemma unmix_mix a0 a1 a2 a3 : is_byte a0 → is_byte a1 → is_byte a2 → is_byte a3 →
  Fips.matrix Fips.UNMIX (Fips.matrix Fips.MIX [a0; a1; a2; a3]) = [a0; a1; a2; a3].
Proof.
  intros H0 H1 H2 H3.
  assert (∀ i j x, (i < 4)%nat → (j < 4)%nat → is_byte x →
    foldr Z.lxor 0 (zip_with (λ u row, Fips.mul u (Fips.mul (nth j row 0) x)) (nth i Fips.UNMIX []) Fips.MIX)
    = if (i =? j)%nat then x else 0) as Hid.
  { intros i j x Hi Hj Hx. apply Z.eqb_eq. revert x Hx. apply every_byte.
    do 4 (destruct i; [do 4 (destruct j; [vm_compute; reflexivity|]); lia|]). lia. }
  assert (∀ i, (i < 4)%nat → Fips.dot (nth i Fips.UNMIX []) (Fips.matrix Fips.MIX [a0; a1; a2; a3])
    = nth i [a0; a1; a2; a3] 0) as Hrow.
  { intros i Hi. pose proof (Hid i 0%nat a0 Hi ltac:(lia) H0) as E0. pose proof (Hid i 1%nat a1 Hi ltac:(lia) H1) as E1.
    pose proof (Hid i 2%nat a2 Hi ltac:(lia) H2) as E2. pose proof (Hid i 3%nat a3 Hi ltac:(lia) H3) as E3.
    assert (nth i [a0; a1; a2; a3] 0 = Z.lxor (Z.lxor (if (i =? 0)%nat then a0 else 0) (if (i =? 1)%nat then a1 else 0))
      (Z.lxor (if (i =? 2)%nat then a2 else 0) (if (i =? 3)%nat then a3 else 0))) as ->.
    { do 4 (destruct i; [cbn; rewrite ?Z.lxor_0_r, ?Z.lxor_0_l; done|]). lia. }
    rewrite <- E0, <- E1, <- E2, <- E3. clear. destruct (nth i Fips.UNMIX []) as [|u0 [|u1 [|u2 [|u3 rest]]]];
      unfold Fips.matrix, Fips.dot, Fips.MIX; cbn [fmap list_fmap zip_with foldr nth];
      rewrite ?mul_lxor; try destruct rest; cbn [zip_with foldr]; lxor_bits. }
  transitivity ((λ i, Fips.dot (nth i Fips.UNMIX []) (Fips.matrix Fips.MIX [a0; a1; a2; a3])) <$> seq 0 4); [done|].
  cbn [seq fmap list_fmap]. rewrite (Hrow 0%nat), (Hrow 1%nat), (Hrow 2%nat), (Hrow 3%nat) by lia. done.
Qed.

(** ** Blocks stay blocks *)

Lemma add_key_ok s k : block_ok s → block_ok k → block_ok (add_key s k).
Proof.
  intros Hs Hk. bytes_of_block Hs. bytes_of_block Hk. split; [done|].
  unfold add_key. cbn [zip_with]. repeat (apply Forall_cons; split; [by apply lxor_byte|]). done.
Qed.
Lemma add_key_cancel s k : List.length s = 16%nat → List.length k = 16%nat → add_key (add_key s k) k = s.
Proof.
  intros (?&?&?&?&?&?&?&?&?&?&?&?&?&?&?&?&->)%sixteen (?&?&?&?&?&?&?&?&?&?&?&?&?&?&?&?&->)%sixteen.
  unfold add_key. cbn [zip_with]. by rewrite !lxor_cancel.
Qed.

Lemma sbox_bytes b : is_byte b → is_byte (at_ SBOX b).
Proof.
  apply at_bytes; [done|]. rewrite Forall_forall. intros x Hx%list_elem_of_In. unfold is_byte.
  assert (List.forallb (λ x, (0 <=? x) && (x <? 256)) SBOX = true) as H by (vm_compute; reflexivity).
  rewrite List.forallb_forall in H. specialize (H _ Hx). lia.
Qed.

Lemma sub_bytes_ok s : block_ok s → block_ok (sub_bytes s).
Proof.
  intros [Hl Hb]. split; [unfold sub_bytes; by rewrite length_fmap|]. apply Forall_fmap.
  eapply Forall_impl; [exact Hb|]. apply sbox_bytes.
Qed.
Lemma shift_rows_ok s : block_ok s → block_ok (shift_rows s).
Proof.
  intros H. bytes_of_block H. split; [done|]. cbn.
  repeat (apply Forall_cons; split; [assumption|]). by apply Forall_nil.
Qed.

Lemma xtime_byte b : is_byte b → is_byte (xtime b).
Proof.
  intros Hb. assert ((0 <=? xtime b) && (xtime b <? 256) = true) as H; [|unfold is_byte; lia].
  revert b Hb. apply every_byte. vm_compute. reflexivity.
Qed.
Lemma mix_columns_ok s : block_ok s → block_ok (mix_columns s).
Proof.
  intros H. bytes_of_block H. split; [done|]. cbn [mix_columns mix app].
  repeat (apply Forall_cons; split; [by repeat (apply lxor_byte || apply xtime_byte || assumption)|]). done.
Qed.
#[export] Hint Resolve add_key_ok sub_bytes_ok shift_rows_ok mix_columns_ok : blocks.

Lemma round_ok rks s r : block_ok (nth r rks []) → block_ok s → block_ok (round rks s r).
Proof. intros Hk Hs. unfold round. destruct (r =? 10)%nat; auto with blocks. Qed.

Definition keys_ok (rks : list (list Z)) : Prop := ∀ r, (r <= 10)%nat → block_ok (nth r rks []).

Lemma rounds_ok rks n s : keys_ok rks → (n <= 10)%nat → block_ok s → block_ok (foldl (round rks) s (seq 1 n)).
Proof.
  intros Hk. induction n as [|n IH]; intros Hn Hs; [done|].
  rewrite seq_S, foldl_app. cbn [foldl]. apply round_ok; [apply Hk; lia|]. apply IH; [lia|done].
Qed.

Lemma encrypt_block_ok rks s : keys_ok rks → block_ok s → block_ok (encrypt_block rks s).
Proof. intros Hk Hs. apply rounds_ok; [done|lia|]. apply add_key_ok; [done|]. apply Hk; lia. Qed.

(** ** The cipher is the one of the standard, and its inverse undoes it *)

Lemma sub_bytes_fips s : block_ok s → sub_bytes s = Fips.sbox <$> s.
Proof.
  intros [_ Hb]. unfold sub_bytes. apply list_fmap_ext. intros i x Hx. apply sbox_fips.
  rewrite Forall_forall in Hb. apply Hb. by eapply list_elem_of_lookup_2.
Qed.

Lemma cipher_fips rks block : keys_ok rks → block_ok block → encrypt_block rks block = Fips.cipher rks block.
Proof.
  intros Hk Hb. unfold encrypt_block, Fips.cipher.
  assert (∀ n, (n <= 9)%nat → foldl (round rks) (add_key block (nth 0 rks [])) (seq 1 n) =
    foldl (λ state r, add_key (Fips.columns Fips.MIX (Fips.shift_rows (Fips.sbox <$> state))) (nth r rks []))
      (add_key block (nth 0 rks [])) (seq 1 n)) as Hr.
  { assert (block_ok (add_key block (nth 0 rks []))) as H0 by (apply add_key_ok; [done|apply Hk; lia]).
    induction n as [|n IH]; intros Hn; [done|]. rewrite seq_S, !foldl_app, <- IH by lia. cbn [foldl].
    assert (block_ok (foldl (round rks) (add_key block (nth 0 rks [])) (seq 1 n))) as Hs by (apply rounds_ok; [done|lia|done]).
    unfold round. destruct (Nat.eqb_spec (1 + n) 10) as [|_]; [lia|].
    by rewrite mix_columns_fips, shift_rows_fips, sub_bytes_fips by auto with blocks. }
  rewrite (seq_S 9), foldl_app. cbn [foldl Nat.add]. unfold round at 1. cbn [Nat.eqb].
  rewrite sub_bytes_fips by (apply rounds_ok; [done|lia|apply add_key_ok; [done|apply Hk; lia]]).
  by rewrite Hr, shift_rows_fips by lia.
Qed.

Lemma unshift_unsub s : block_ok s → at_ Fips.INV_SBOX <$> Fips.inv_shift_rows (shift_rows (sub_bytes s)) = s.
Proof.
  intros Hs. rewrite inv_shift_rows_spec by (by apply sub_bytes_ok). unfold sub_bytes.
  rewrite <- list_fmap_compose. transitivity (id <$> s); [|apply list_fmap_id].
  apply list_fmap_ext. intros i x Hx. apply sbox_inverse.
  destruct Hs as [_ Hb]. rewrite Forall_forall in Hb. apply Hb. by eapply list_elem_of_lookup_2.
Qed.

Lemma columns_four rows a b c d :
  List.length a = 4%nat → List.length b = 4%nat → List.length c = 4%nat → List.length d = 4%nat →
  Fips.columns rows (a ++ b ++ c ++ d) =
  Fips.matrix rows a ++ Fips.matrix rows b ++ Fips.matrix rows c ++ Fips.matrix rows d.
Proof.
  intros Ha Hb Hc Hd. do 5 (destruct a; try done). do 5 (destruct b; try done).
  do 5 (destruct c; try done). do 5 (destruct d; try done).
  unfold Fips.columns. cbn [seq mbind list_bind]. unfold word. cbn [drop take Nat.mul Nat.add app].
  by rewrite app_nil_r.
Qed.

Lemma unmix_columns s : block_ok s → Fips.columns Fips.UNMIX (mix_columns s) = s.
Proof.
  intros H. bytes_of_block H. cbn [mix_columns]. rewrite app_nil_r.
  rewrite columns_four by done. by rewrite !mix_fips, !unmix_mix by done.
Qed.

(** The inverse cipher takes back what the cipher made of a block. *)
Lemma inv_cipher_encrypt rks block : keys_ok rks → block_ok block →
  Fips.inv_cipher rks (encrypt_block rks block) = block.
Proof.
  intros Hk Hb. unfold encrypt_block, Fips.inv_cipher. set (key r := nth r rks []).
  set (s0 := add_key block (key 0%nat)).
  assert (block_ok s0) as H0 by (apply add_key_ok; [done|apply Hk; lia]).
  set (back := λ state r, Fips.columns Fips.UNMIX (add_key (at_ Fips.INV_SBOX <$> Fips.inv_shift_rows state) (key r))).
  assert (∀ n, (n <= 9)%nat →
    foldl back (shift_rows (sub_bytes (foldl (round rks) s0 (seq 1 n)))) (rev (seq 1 n)) = shift_rows (sub_bytes s0)) as Hr.
  { induction n as [|n IH]; intros Hn; [done|]. rewrite seq_S, rev_app_distr, !foldl_app. cbn [rev app foldl].
    assert (block_ok (foldl (round rks) s0 (seq 1 n))) as Hs by (apply rounds_ok; [done|lia|done]).
    set (s := foldl (round rks) s0 (seq 1 n)) in *.
    assert (back (shift_rows (sub_bytes (round rks s (1 + n)))) (1 + n)%nat = shift_rows (sub_bytes s)) as ->; [|apply IH; lia].
    unfold back. rewrite unshift_unsub by (apply round_ok; [apply Hk; lia|done]).
    unfold round, key. destruct (Nat.eqb_spec (1 + n) 10) as [|_]; [lia|].
    rewrite add_key_cancel; [apply unmix_columns|apply mix_columns_ok|apply Hk; lia]; auto with blocks. }
  rewrite (seq_S 9), foldl_app. cbn [foldl Nat.add]. unfold round at 1. cbn [Nat.eqb].
  assert (block_ok (foldl (round rks) s0 (seq 1 9))) as H9 by (apply rounds_ok; [done|lia|done]).
  fold (key 10%nat). rewrite add_key_cancel; [|apply shift_rows_ok; auto with blocks|apply Hk; lia].
  rewrite Hr by lia. rewrite unshift_unsub by done. apply add_key_cancel; [apply Hb|apply Hk; lia].
Qed.

(** ** The key schedule *)

Definition word_ok (w : list Z) : Prop := List.length w = 4%nat ∧ Forall is_byte w.

Lemma lxor_word a b : word_ok a → word_ok b → word_ok (zip_with Z.lxor a b).
Proof.
  intros [Ha Fa] [Hb Fb]. do 5 (destruct a; try done). do 5 (destruct b; try done).
  repeat (apply Forall_cons in Fa as [? Fa]). repeat (apply Forall_cons in Fb as [? Fb]).
  split; [done|]. cbn [zip_with]. repeat (apply Forall_cons; split; [by apply lxor_byte|]). by apply Forall_nil.
Qed.

Lemma rcon_fips k : (k < 10)%nat → nth k RCON 0 = Fips.rcon k ∧ is_byte (Fips.rcon k).
Proof.
  intros Hk. unfold is_byte. do 10 (destruct k; [vm_compute; by repeat split|]). lia.
Qed.

(** The word one turn of the loop adds. *)
Definition new_word (prior latest : list Z) (i : nat) : list Z :=
  zip_with Z.lxor prior
    (if (i mod 4 =? 0)%nat then
       let temp := at_ SBOX <$> (drop 1 latest ++ take 1 latest) in
       <[0%nat := Z.lxor (at_ temp 0) (nth (i / 4 - 1) RCON 0)]> temp
     else latest).

Lemma new_word_fips prior latest i : word_ok prior → word_ok latest → (4 <= i < 44)%nat →
  new_word prior latest i = Fips.schedule_word prior latest i ∧ word_ok (new_word prior latest i).
Proof.
  intros Hp [Hl Hf] Hi. unfold new_word, Fips.schedule_word. destruct (i mod 4 =? 0)%nat; [|by split; [|apply lxor_word]].
  destruct (rcon_fips (i / 4 - 1)) as [-> Hb].
  { pose proof (Nat.Div0.div_lt_upper_bound i 4 11). lia. }
  do 5 (destruct latest; try done). repeat (apply Forall_cons in Hf as [? Hf]).
  cbn [drop take app fmap list_fmap]. rewrite <- !sbox_fips by done. split; [done|].
  apply lxor_word; [done|]. split; [done|]. cbn. repeat (apply Forall_cons; split;
    [by repeat (apply lxor_byte || apply sbox_bytes || assumption)|]). by apply Forall_nil.
Qed.

Lemma nth_drop_at {A} (l : list A) n k d : nth k (drop n l) d = nth (n + k) l d.
Proof. by rewrite !nth_lookup, lookup_drop. Qed.

(** After [n] turns there are four words more, all made of bytes, and the last
    four are the window of the standard. *)
Lemma expand_window key n : block_ok key → (n <= 40)%nat →
  let words := foldl expand_step (word key <$> seq 0 4) (seq 4 n) in
  List.length words = (4 + n)%nat ∧ drop n words = Fips.window key n ∧ Forall word_ok (Fips.window key n) ∧
  List.length (Fips.window key n) = 4%nat.
Proof.
  intros Hk. cbn zeta. unfold Fips.window. induction n as [|n IH]; intros Hn.
  { bytes_of_block Hk. split; [done|]. split; [done|]. split; [|done]. cbn.
    repeat (apply Forall_cons; split; [split; [done|]; repeat (apply Forall_cons; split; [done|]); by apply Forall_nil|]).
    by apply Forall_nil. }
  destruct IH as (Hl & Hd & Hf & H4); [lia|]. rewrite (seq_S n 4), !foldl_app. cbn [foldl].
  set (words := foldl expand_step _ _) in *. set (win := foldl Fips.slide _ _) in *.
  assert (expand_step words (4 + n) = words ++ [new_word (nth n words []) (nth (3 + n) words []) (4 + n)]) as ->.
  { unfold expand_step, new_word. replace (4 + n - 1)%nat with (3 + n)%nat by lia.
    replace (4 + n - 4)%nat with n by lia. done. }
  assert (nth n words [] = nth 0 win [] ∧ nth (3 + n) words [] = nth 3 win []) as [-> ->].
  { rewrite <- Hd, !nth_drop_at. split; f_equal; lia. }
  clearbody words win. do 5 (destruct win as [|? win]; try done).
  repeat (apply Forall_cons in Hf as [? Hf]).
  destruct (new_word_fips l l2 (4 + n)) as [Ew Hw]; [done|done|lia|].
  cbn [nth Fips.slide]. rewrite <- Ew. split; [rewrite length_app; cbn; lia|]. split; [|split; [|done]].
  - rewrite drop_app_le by lia. replace (S n) with (n + 1)%nat by lia. rewrite <- drop_drop, Hd. done.
  - by repeat (apply Forall_cons; split; [assumption|]).
Qed.

Lemma expand_key_fips key : block_ok key → expand_key key = Fips.round_key key <$> seq 0 11.
Proof.
  intros Hk. unfold expand_key, expand_words. apply list_fmap_ext. intros i r Hr.
  apply lookup_seq in Hr as [-> Hi]. cbn [Nat.add]. unfold Fips.round_key. f_equal.
  replace 40%nat with (4 * i + (40 - 4 * i))%nat by lia.
  destruct (expand_window key (4 * i) Hk ltac:(lia)) as (Hl & Hd & _ & H4).
  rewrite seq_app, foldl_app. set (words := foldl expand_step _ (seq 4 (4 * i))) in *.
  assert (∀ l, ∃ more, foldl expand_step words l = words ++ more) as Hmore.
  { induction l as [|x l [more IH]] using rev_ind; [exists []; by rewrite app_nil_r|].
    rewrite foldl_app, IH. cbn [foldl]. unfold expand_step at 1. eexists. by rewrite <- app_assoc. }
  destruct (Hmore (seq (4 + 4 * i) (40 - 4 * i))) as [more ->].
  rewrite drop_app_le by lia. rewrite Hd. by rewrite take_app_length' by done.
Qed.

Lemma expand_key_ok key : block_ok key → keys_ok (expand_key key).
Proof.
  intros Hk r Hr. rewrite expand_key_fips by done.
  rewrite nth_lookup, list_lookup_fmap, lookup_seq_lt by lia. cbn [fmap option_fmap option_map default Nat.add].
  destruct (expand_window key (4 * r) Hk ltac:(lia)) as (_ & _ & Hf & H4). unfold Fips.round_key.
  set (win := Fips.window key (4 * r)) in *. clearbody win. do 5 (destruct win as [|? win]; try done).
  repeat (apply Forall_cons in Hf as [[? ?] Hf]). split.
  - cbn. rewrite !length_app. cbn. lia.
  - cbn. rewrite app_nil_r. by repeat (apply Forall_app; split).
Qed.

(** C13. The cipher the payload carries is the AES-128 of FIPS 197, for every key and
    every block: the S-box is the inverse of the field followed by the affine
    map, the rows and the columns are those of the standard, the round keys are
    those of its schedule, and the inverse cipher gives the block back. *)
Theorem aes_is_fips197 key block :
  block_ok key → block_ok block →
  let round_keys := Fips.round_key key <$> seq 0 11 in
  encrypt_block (expand_key key) block = Fips.cipher round_keys block ∧
  Fips.inv_cipher round_keys (encrypt_block (expand_key key) block) = block.
Proof.
  intros Hk Hb. cbn zeta. rewrite <- expand_key_fips by done.
  split; [apply cipher_fips|apply inv_cipher_encrypt]; auto using expand_key_ok.
Qed.

Lemma aes_is_fips197_witness :
  let key := Z.of_nat <$> seq 0 16 in let block := (λ i, Z.of_nat (17 * i)) <$> seq 0 16 in
  Fips.cipher (Fips.round_key key <$> seq 0 11) block = encrypt_block (expand_key key) block.
Proof.
  cbn zeta. symmetry. eapply proj1, aes_is_fips197.
  - split; [reflexivity|]. repeat constructor; vm_compute; congruence.
  - split; [reflexivity|]. repeat constructor; vm_compute; congruence.
Defined.
