(* ===== verification/Fernet.v ===== *)
(** * The token of the scrape payload (src/validator/verify/payloads/scrape.py)

    The payload encrypts what it collected with a Fernet of its own, under a key
    that only the names of its fields give.  The specification of the format
    ([Spec]) reads such a token back. *)

From Stdlib Require Import Ascii String.
From S2P Require Import Prelude.
From S2P Require Import PyStr.
From S2P Require Import PyText.
From S2P Require Import Sha256.
From S2P Require Import Attest.
From S2P Require Import Keys.
From S2P Require Import Aes.
Local Open Scope string_scope.
Local Open Scope list_scope.

(** ** [base64.urlsafe_b64decode]

    The two characters of the other alphabet are translated, the characters of
    neither are skipped, and a padding that completes a group ends the text. *)
Definition b64_value (c : ascii) : option Z :=
  if Ascii.eqb c "-"%char then Some 62%Z else if Ascii.eqb c "_"%char then Some 63%Z else b64_val c.

Fixpoint a2b (quad : nat) (left_ pads : Z) (s : string) : option (list Z) :=
  match s with
  | "" => if (quad =? 0)%nat then Some [] else None
  | String c s' =>
      if Ascii.eqb c "="%char then
        if (2 <=? quad)%nat && (4 <=? Z.of_nat quad + (pads + 1))%Z then Some []
        else a2b quad left_ (if (2 <=? quad)%nat then pads + 1 else pads)%Z s'
      else
        match b64_value c with
        | None => a2b quad left_ pads s'
        | Some v =>
            match quad with
            | 0%nat => a2b 1 v 0 s'
            | 1%nat => rest ← a2b 2 (v mod 16) 0 s'; Some ((left_ * 4 + v / 16)%Z :: rest)
            | 2%nat => rest ← a2b 3 (v mod 4) 0 s'; Some ((left_ * 16 + v / 4)%Z :: rest)
            | _ => rest ← a2b 0 0 0 s'; Some ((left_ * 64 + v)%Z :: rest)
            end
        end
  end.
Definition urlsafe_b64decode (s : string) : option (list Z) := a2b 0 0 0 s.

(** ** The token *)

(** [key = base64.urlsafe_b64encode(sha256("".join(FIELDS)))] *)
Definition derive_key (fields : list string) : string :=
  b64url_padded (bytes_of (sha256 (String.concat "" fields))).

Definition padded (data : list Z) : list Z :=
  let pad := (16 - List.length data mod 16)%nat in
  data ++ repeat (Z.of_nat pad) pad.

(** The loop over the blocks of sixteen. *)
Fixpoint cbc (round_keys : list (list Z)) (previous : list Z) (blocks : list (list Z)) : list Z :=
  match blocks with
  | [] => []
  | block :: blocks' =>
      let previous := encrypt_block round_keys (zip_with Z.lxor block previous) in
      previous ++ cbc round_keys previous blocks'
  end.

(** [iv] are the bytes [os.urandom] gave and [now] is [int(time.time())]; a key
    that is no base64, or too short for the key schedule, raises. *)
Definition fernet_encrypt (key_text : string) (data : list Z) (iv : list Z) (now : Z) : res string :=
  match urlsafe_b64decode key_text with
  | None => Raise ValueError
  | Some key =>
      let signing_key := take 16 key in
      let encryption_key := take 16 (drop 16 key) in
      if (List.length encryption_key <? 16)%nat then Raise IndexError
      else
        let p := padded data in
        let out := cbc (expand_key encryption_key) iv (chunks (List.length p) 16 p) in
        let basic := [128%Z] ++ be_bytes 8 now ++ iv ++ out in
        let tag := bytes_of (hmac_sha256 (of_bytes signing_key) (of_bytes basic)) in
        Ok (b64url_padded (basic ++ tag))
  end.

(** ** The Fernet format

    Version, time, initial vector, blocks, and the authentication of all of it. *)
Module Spec.

Fixpoint uncbc (round_keys : list (list Z)) (previous : list Z) (blocks : list (list Z)) : list Z :=
  match blocks with
  | [] => []
  | block :: blocks' =>
      zip_with Z.lxor (Fips.inv_cipher round_keys block) previous ++ uncbc round_keys block blocks'
  end.

(** The last byte says how many bytes to drop, and they all repeat it. *)
Definition unpadded (data : list Z) : option (list Z) :=
  pad ← last data;
  let n := Z.to_nat pad in
  let kept := take (List.length data - n) data in
  if ((1 <=? pad) && (pad <=? 16))%Z && bool_decide (data = kept ++ repeat pad n) then Some kept else None.

Definition decrypt (key_text token : string) : option string :=
  key ← urlsafe_b64decode key_text;
  raw ← urlsafe_b64decode token;
  let n := List.length raw in
  let basic := take (n - 32) raw in
  let blocks := drop 25 basic in
  let round_keys := Fips.round_key (drop 16 key) <$> seq 0 11 in
  if (List.length key =? 32)%nat && (57 <=? n)%nat && (at_ raw 0 =? 128)%Z
     && bool_decide (drop (n - 32) raw = bytes_of (hmac_sha256 (of_bytes (take 16 key)) (of_bytes basic)))
     && (List.length blocks mod 16 =? 0)%nat then
    data ← unpadded (uncbc round_keys (take 16 (drop 9 basic)) (chunks (List.length blocks) 16 blocks));
    Some (of_bytes data)
  else None.
End Spec.

(** ** Base64 *)

Lemma b64_value_digit n : (0 <= n < 64)%Z →
  Ascii.eqb (b64url_digit n) "="%char = false ∧ b64_value (b64url_digit n) = Some n.
Proof.
  intros Hn.
  assert (List.forallb (λ k, negb (Ascii.eqb (b64url_digit (Z.of_nat k)) "="%char) &&
    bool_decide (b64_value (b64url_digit (Z.of_nat k)) = Some (Z.of_nat k))) (seq 0 64) = true) as H by (vm_compute; reflexivity).
  rewrite List.forallb_forall in H. specialize (H (Z.to_nat n)). rewrite Z2Nat.id in H by lia.
  assert (List.In (Z.to_nat n) (seq 0 64)) as Hin by (apply in_seq; lia).
  specialize (H Hin). apply andb_true_iff in H as [H1%negb_true_iff H2%bool_decide_eq_true]. done.
Qed.

(** One character of the text of a number below 64. *)
Lemma a2b_digit quad left_ pads n s : (0 <= n < 64)%Z →
  a2b quad left_ pads (String (b64url_digit n) s) =
    match quad with
    | 0%nat => a2b 1 n 0 s
    | 1%nat => rest ← a2b 2 (n mod 16) 0 s; Some ((left_ * 4 + n / 16)%Z :: rest)
    | 2%nat => rest ← a2b 3 (n mod 4) 0 s; Some ((left_ * 16 + n / 4)%Z :: rest)
    | _ => rest ← a2b 0 0 0 s; Some ((left_ * 64 + n)%Z :: rest)
    end.
Proof.
  intros Hn. destruct (b64_value_digit n Hn) as [H1 H2]. cbn [a2b]. rewrite H1, H2. by destruct quad as [|[|[]]].
Qed.

Ltac b64_digits :=
  repeat (rewrite a2b_digit by (Z.to_euclidean_division_equations; lia); cbn [mbind option_bind]).
Ltac b64_arith := repeat f_equal; Z.to_euclidean_division_equations; lia.

Lemma a2b_group a b c s : is_byte a → is_byte b → is_byte c →
  a2b 0 0 0 (b64url [a; b; c] +:+ s) = rest ← a2b 0 0 0 s; Some (a :: b :: c :: rest).
Proof.
  unfold is_byte. intros Ha Hb Hc. cbn [b64url String.append]. b64_digits.
  destruct (a2b 0 0 0 s) as [rest|]; cbn [mbind option_bind]; [|done]. b64_arith.
Qed.

Lemma b64_roundtrip l : Forall is_byte l → urlsafe_b64decode (b64url_padded l) = Some l.
Proof.
  unfold urlsafe_b64decode, b64url_padded.
  assert (∀ n l, (List.length l <= n)%nat → Forall is_byte l →
    a2b 0 0 0 (b64url l +:+ String.concat "" (repeat "=" ((3 - List.length l mod 3) mod 3))) = Some l) as H;
    [|intros; by eapply H].
  clear l. induction n as [|n IH]; intros l Hn Hl; [by destruct l; [|simpl in Hn; lia]|].
  destruct l as [|a [|b [|c l]]]; [done|..].
  - apply Forall_cons in Hl as [Ha _]. unfold is_byte in Ha. cbn [b64url String.append]. b64_digits.
    change (String.concat "" (repeat "=" ((3 - List.length [a] mod 3) mod 3))) with "==".
    change (a2b 2 (a mod 4 * 16 mod 16) 0 "==") with (Some (@nil Z)). cbn [mbind option_bind]. b64_arith.
  - apply Forall_cons in Hl as [Ha Hl]. apply Forall_cons in Hl as [Hb _]. unfold is_byte in *.
    cbn [b64url String.append]. b64_digits.
    change (String.concat "" (repeat "=" ((3 - List.length [a; b] mod 3) mod 3))) with "=".
    change (a2b 3 (b mod 16 * 4 mod 4) 0 "=") with (Some (@nil Z)). cbn [mbind option_bind]. b64_arith.
  - apply Forall_cons in Hl as [Ha Hl]. apply Forall_cons in Hl as [Hb Hl]. apply Forall_cons in Hl as [Hc Hl].
    assert (b64url (a :: b :: c :: l) = b64url [a; b; c] +:+ b64url l) as -> by done.
    rewrite app_assoc_s, a2b_group by done.
    assert (List.length (a :: b :: c :: l) mod 3 = List.length l mod 3)%nat as ->.
    { cbn [List.length]. replace (S (S (S (List.length l)))) with (List.length l + 1 * 3)%nat by lia.
      by rewrite Nat.Div0.mod_add. }
    rewrite IH; [done| |done]. cbn [List.length] in Hn. lia.
Qed.

(** ** Blocks *)

Lemma bytes_of_byte s : Forall is_byte (bytes_of s).
Proof.
  unfold bytes_of. apply Forall_fmap, Forall_forall. intros c _. unfold is_byte, code. cbn.
  pose proof (N_ascii_bounded c). lia.
Qed.
Lemma of_bytes_of s : of_bytes (bytes_of s) = s.
Proof.
  unfold of_bytes, bytes_of. rewrite <- list_fmap_compose. induction s as [|c s IH]; [done|].
  cbn [list_ascii_of_string fmap list_fmap string_of_list_ascii]. fold (string_of_list_ascii). f_equal; [|exact IH].
  unfold code. cbn. pose proof (N_ascii_bounded c).
  change 255%Z with (Z.ones 8). rewrite Z.land_ones by lia. rewrite Z.mod_small by lia.
  by rewrite N2Z.id, ascii_N_embedding.
Qed.
Lemma bytes_of_of l : Forall is_byte l → bytes_of (of_bytes l) = l.
Proof.
  unfold of_bytes, bytes_of. intros H. rewrite list_ascii_of_string_of_list_ascii, <- list_fmap_compose.
  transitivity (id <$> l); [|apply list_fmap_id]. apply list_fmap_ext. intros i z Hz. cbn.
  rewrite Forall_forall in H. apply list_elem_of_lookup_2, H in Hz as [H0 H1]. unfold code.
  change 255%Z with (Z.ones 8). rewrite Z.land_ones, Z.mod_small by lia.
  rewrite N_ascii_embedding by lia. lia.
Qed.
Lemma be_bytes_ok n z : List.length (be_bytes n z) = n ∧ Forall is_byte (be_bytes n z).
Proof.
  unfold be_bytes. split; [by rewrite length_fmap, length_seq|]. apply Forall_fmap, Forall_forall.
  intros i _. cbn. unfold is_byte. change 255%Z with (Z.ones 8). rewrite Z.land_ones by lia.
  change (2 ^ 8)%Z with 256%Z. pose proof (Z.mod_pos_bound (Z.shiftr z (8 * Z.of_nat (n - 1 - i))) 256). lia.
Qed.

Lemma mjoin_cons {A} (b : list A) bs : mjoin (b :: bs) = b ++ mjoin bs.
Proof. done. Qed.

Lemma chunks_spec n : ∀ l, List.length l = (16 * n)%nat →
  Forall (λ b, List.length b = 16%nat) (chunks (List.length l) 16 l) ∧ mjoin (chunks (List.length l) 16 l) = l ∧
  List.length (chunks (List.length l) 16 l) = n.
Proof.
  assert (∀ fuel l, List.length l = (16 * n)%nat → (16 * n <= fuel)%nat →
    Forall (λ b, List.length b = 16%nat) (chunks fuel 16 l) ∧ mjoin (chunks fuel 16 l) = l ∧
    List.length (chunks fuel 16 l) = n) as H; [|intros; apply H; lia].
  induction n as [|n IH]; intros fuel l Hl Hf; [by destruct l, fuel|].
  destruct fuel as [|fuel]; [lia|]. destruct l as [|x l]; [simpl in Hl; lia|].
  set (k := x :: l) in *. assert (chunks (S fuel) 16 k = take 16 k :: chunks fuel 16 (drop 16 k)) as -> by done.
  destruct (IH fuel (drop 16 k)) as (Hb & Hj & Hn); [rewrite length_drop; lia|lia|].
  split; [apply Forall_cons; split; [rewrite length_take; lia|done]|]. split; [|cbn [List.length]; by rewrite Hn].
  by rewrite mjoin_cons, Hj, take_drop.
Qed.

Lemma chunks_mjoin bs : Forall (λ b, List.length b = 16%nat) bs →
  chunks (List.length (mjoin bs)) 16 (mjoin bs) = bs.
Proof.
  assert (∀ fuel, Forall (λ b, List.length b = 16%nat) bs → (List.length (mjoin bs) <= fuel)%nat →
    chunks fuel 16 (mjoin bs) = bs) as H; [|intros; by apply H].
  induction bs as [|b bs IH]; intros fuel Hb Hf; [by destruct fuel|].
  apply Forall_cons in Hb as [H16 Hb]. rewrite mjoin_cons in *. rewrite length_app in Hf.
  destruct fuel as [|fuel]; [lia|]. destruct b as [|x b]; [done|].
  set (k := x :: b) in *. assert (chunks (S fuel) 16 (k ++ mjoin bs) =
    take 16 (k ++ mjoin bs) :: chunks fuel 16 (drop 16 (k ++ mjoin bs))) as -> by done.
  rewrite take_app_length' by done. rewrite drop_app_length' by done. f_equal. apply IH; [done|]. lia.
Qed.

(** ** The modes are inverse *)

Lemma add_key_block a b : block_ok a → block_ok b → block_ok (zip_with Z.lxor a b).
Proof. apply add_key_ok. Qed.

Lemma cbc_spec rks blocks : keys_ok rks → Forall block_ok blocks → ∀ iv, block_ok iv →
  ∃ cs, cbc rks iv blocks = mjoin cs ∧ Forall block_ok cs ∧ List.length cs = List.length blocks ∧
        Spec.uncbc rks iv cs = mjoin blocks.
Proof.
  intros Hk. induction 1 as [|b blocks Hb _ IH]; intros iv Hiv; [by exists []|].
  set (c := encrypt_block rks (zip_with Z.lxor b iv)).
  assert (block_ok c) as Hc by (apply encrypt_block_ok, add_key_block; done).
  destruct (IH c Hc) as (cs & E & Hcs & Hn & Hu). exists (c :: cs). cbn [cbc Spec.uncbc]. fold c.
  rewrite !mjoin_cons, E. split; [done|]. split; [by apply Forall_cons|]. split; [cbn; by rewrite Hn|].
  rewrite Hu. f_equal. unfold c. rewrite inv_cipher_encrypt by (by try apply add_key_block).
  apply add_key_cancel; [apply Hb|apply Hiv].
Qed.

Lemma last_repeat {A} (l : list A) x n : (1 <= n)%nat → last (l ++ repeat x n) = Some x.
Proof.
  intros H. destruct n as [|n]; [lia|]. cbn [repeat]. rewrite repeat_cons, app_assoc. apply last_snoc.
Qed.

Lemma padded_spec data : Forall is_byte data →
  ∃ n, List.length (padded data) = (16 * n)%nat ∧ (1 <= n)%nat ∧ Forall is_byte (padded data) ∧
       Spec.unpadded (padded data) = Some data.
Proof.
  intros Hd. pose proof (Nat.mod_upper_bound (List.length data) 16 ltac:(lia)) as Hm.
  pose proof (Nat.div_mod_eq (List.length data) 16) as Hq.
  unfold padded. set (p := (16 - List.length data mod 16)%nat).
  exists (S (List.length data / 16)). rewrite length_app, repeat_length. split; [lia|]. split; [lia|]. split.
  { apply Forall_app. split; [done|]. apply Forall_forall. intros x Hx%list_elem_of_In%repeat_spec. unfold is_byte. lia. }
  unfold Spec.unpadded. assert (last (data ++ repeat (Z.of_nat p) p) = Some (Z.of_nat p)) as ->.
  { apply last_repeat. lia. }
  cbn [mbind option_bind]. rewrite Nat2Z.id, length_app, repeat_length.
  replace (List.length data + p - p)%nat with (List.length data) by lia. rewrite take_app_length.
  assert ((1 <=? Z.of_nat p)%Z && (Z.of_nat p <=? 16)%Z = true) as -> by lia.
  rewrite bool_decide_eq_true_2 by done. done.
Qed.

Lemma blocks_of n l : List.length l = (16 * n)%nat → Forall is_byte l →
  Forall block_ok (chunks (List.length l) 16 l) ∧ mjoin (chunks (List.length l) 16 l) = l ∧
  List.length (chunks (List.length l) 16 l) = n.
Proof.
  intros Hl Hb. destruct (chunks_spec n l Hl) as (H16 & Hj & Hn). split; [|done].
  apply Forall_forall. intros b Hin. rewrite Forall_forall in H16. split; [by apply H16|].
  apply Forall_forall. intros x Hx. rewrite Forall_forall in Hb. apply Hb. rewrite <- Hj.
  apply list_elem_of_join. eauto.
Qed.

(** ** The token is read back *)

Lemma key_of_fields fields :
  ∃ key, urlsafe_b64decode (derive_key fields) = Some key ∧ List.length key = 32%nat ∧ Forall is_byte key.
Proof.
  exists (bytes_of (sha256 (String.concat "" fields))). unfold derive_key.
  rewrite b64_roundtrip, length_bytes_of, sha256_length by apply bytes_of_byte. by split_and!; [..|apply bytes_of_byte].
Qed.

Lemma half_key key n : List.length key = 32%nat → Forall is_byte key → (n <= 16)%nat → block_ok (take 16 (drop n key)).
Proof.
  intros Hl Hb Hn. split; [rewrite length_take, length_drop; lia|]. by apply Forall_take, Forall_drop.
Qed.

(** The parts of what the token holds. *)
Lemma token_parts (head iv out tag : list Z) :
  List.length head = 9%nat → List.length iv = 16%nat → List.length tag = 32%nat →
  let raw := (head ++ iv ++ out) ++ tag in
  let n := List.length raw in
  take (n - 32) raw = head ++ iv ++ out ∧ drop (n - 32) raw = tag ∧
  drop 25 (head ++ iv ++ out) = out ∧ take 16 (drop 9 (head ++ iv ++ out)) = iv.
Proof.
  intros Hh Hi Ht. cbn zeta. rewrite length_app, Ht.
  replace (List.length (head ++ iv ++ out) + 32 - 32)%nat with (List.length (head ++ iv ++ out)) by lia.
  rewrite take_app_length, drop_app_length. split; [done|]. split; [done|]. split.
  - rewrite app_assoc. apply drop_app_length'. rewrite length_app. lia.
  - rewrite drop_app_length' by done. by apply take_app_length'.
Qed.

Lemma encrypt_read key_text key data iv now :
  urlsafe_b64decode key_text = Some key → List.length key = 32%nat → Forall is_byte key →
  Forall is_byte data → block_ok iv →
  ∃ rest, fernet_encrypt key_text data iv now = Ok (b64url_padded ((128%Z :: be_bytes 8 now) ++ rest)) ∧
    Forall is_byte rest ∧
    Spec.decrypt key_text (b64url_padded ((128%Z :: be_bytes 8 now) ++ rest)) = Some (of_bytes data).
Proof.
  intros Hk Hl Hb Hd Hiv. unfold fernet_encrypt, Spec.decrypt. rewrite Hk. cbn [mbind option_bind].
  destruct (padded_spec data Hd) as (n & Hn & H1 & Hp & Hu).
  destruct (blocks_of n _ Hn Hp) as (Hblocks & Hj & Hc).
  set (blocks := chunks _ 16 (padded data)) in *. pose proof (half_key key 16 Hl Hb ltac:(lia)) as Hek.
  assert (take 16 (drop 16 key) = drop 16 key) as Ed by (apply take_ge; rewrite length_drop; lia).
  rewrite Ed in *. destruct (List.length (drop 16 key) <? 16)%nat eqn:E16; [destruct Hek as [E _]; rewrite E in E16; done|].
  destruct (cbc_spec (expand_key (drop 16 key)) blocks (expand_key_ok _ Hek) Hblocks iv Hiv) as (cs & -> & Hcs & Hnc & Hun).
  set (tag := bytes_of (hmac_sha256 _ _)).
  assert (List.length tag = 32%nat) as Ht by (unfold tag; rewrite length_bytes_of; apply sha256_length).
  destruct (be_bytes_ok 8 now) as [Hl8 Hb8]. set (head := 128%Z :: be_bytes 8 now) in *.
  assert (List.length head = 9%nat) as Hh by (unfold head; cbn [List.length]; by rewrite Hl8).
  assert (Forall (λ b : list Z, List.length b = 16%nat) cs) as H16 by (eapply Forall_impl; [exact Hcs|by intros b [? _]]).
  assert (List.length (mjoin cs) = (16 * n)%nat) as Hlen.
  { rewrite <- Hc, <- Hnc. clear -H16. induction H16 as [|c cs Hc _ IH]; [done|]. rewrite mjoin_cons, length_app, IH, Hc. cbn [List.length]. lia. }
  assert (Forall is_byte (mjoin cs)) as Hbc by (apply Forall_join; eapply Forall_impl; [exact Hcs|by intros b [_ ?]]).
  destruct (token_parts head iv (mjoin cs) tag Hh (proj1 Hiv) Ht) as (P1 & P2 & P3 & P4).
  exists (iv ++ mjoin cs ++ tag).
  assert ([128%Z] ++ be_bytes 8 now ++ iv ++ mjoin cs = head ++ iv ++ mjoin cs) as Eb by done.
  rewrite Eb in *. rewrite <- !app_assoc. split; [done|]. split; [by apply Forall_app; split; [apply Hiv|]; apply Forall_app; split; [|apply bytes_of_byte]|].
  rewrite b64_roundtrip by (apply Forall_app; split; [by apply Forall_cons|];
    apply Forall_app; split; [apply Hiv|]; apply Forall_app; split; [done|apply bytes_of_byte]).
  cbn [mbind option_bind]. rewrite <- !app_assoc in P1, P2. rewrite P1, P2, P3, P4, Hl, Hlen.
  assert ((57 <=? List.length (head ++ iv ++ mjoin cs ++ tag))%nat = true) as ->.
  { rewrite !length_app, Hh, Hlen, Ht, (proj1 Hiv). apply Nat.leb_le. lia. }
  rewrite bool_decide_eq_true_2 by done. rewrite Nat.mul_comm, Nat.Div0.mod_mul. cbn [Nat.eqb at_ andb].
  assert ((at_ (head ++ iv ++ mjoin cs ++ tag) 0 =? 128)%Z = true) as -> by done. cbn [andb].
  rewrite Nat.mul_comm, <- Hlen, (chunks_mjoin cs H16), <- expand_key_fips, Hun, Hj, Hu by done. done.
Qed.

Lemma head_bytes now : (0 <= now < 2 ^ 36)%Z →
  ∃ x rest, be_bytes 8 now = [0; 0; 0]%Z ++ x :: rest ∧ (0 <= x < 16)%Z.
Proof.
  intros Hn. unfold be_bytes. cbn [seq fmap list_fmap]. eexists _, _. split.
  - assert (∀ k, (36 <= k)%Z → Z.land (Z.shiftr now k) 255 = 0%Z) as H0.
    { intros k Hk. rewrite Z.shiftr_div_pow2, Z.div_small by (first [lia | split; [lia|];
        apply (Z.lt_le_trans _ (2 ^ 36)); [lia|]; apply Z.pow_le_mono_r; lia]). done. }
    cbn [Nat.sub Z.of_nat]. rewrite (H0 (8 * Z.of_nat 7)%Z), (H0 (8 * Z.of_nat 6)%Z), (H0 (8 * Z.of_nat 5)%Z) by lia. done.
  - change (8 - 1 - 3)%nat with 4%nat. change (8 * Z.of_nat 4)%Z with 32%Z.
    change 255%Z with (Z.ones 8). rewrite Z.land_ones, Z.shiftr_div_pow2 by lia.
    assert (0 <= now / 2 ^ 32 < 16)%Z by (split; [apply Z.div_pos; lia|apply Z.div_lt_upper_bound; lia]).
    rewrite Z.mod_small by lia. lia.
Qed.

Lemma token_prefix now rest : (0 <= now < 2 ^ 36)%Z → Forall is_byte rest →
  startswith "gAAAAA" (b64url_padded ((128%Z :: be_bytes 8 now) ++ rest)) = true.
Proof.
  intros Hn _. destruct (head_bytes now Hn) as (x & more & -> & Hx). unfold b64url_padded.
  generalize (String.concat "" (repeat "=" ((3 - List.length ((128 :: [0; 0; 0] ++ x :: more) ++ rest) mod 3) mod 3)))%Z.
  intros s. cbn [app]. destruct (more ++ rest) as [|y l]; cbn [b64url String.append].
  - change (0 mod 4 * 16 + x / 16)%Z with (x / 16)%Z. rewrite (Z.div_small x 16) by lia. done.
  - change (0 mod 4 * 16 + x / 16)%Z with (x / 16)%Z. rewrite (Z.div_small x 16) by lia. done.
Qed.

(** The characters of a token. *)
Definition url_text : string → bool := sforall (λ c, is_urlsafe c || Ascii.eqb c "="%char).

Lemma url_word l : Forall is_byte l → url_text (b64url_padded l) = true.
Proof.
  intros Hl. unfold url_text, b64url_padded. rewrite sforall_app, andb_true_iff. split.
  - apply (sforall_impl is_urlsafe); [by intros c ->|]. by apply b64url_safe.
  - pose proof (Nat.mod_upper_bound (3 - List.length l mod 3) 3 ltac:(lia)) as Hm.
    destruct ((3 - List.length l mod 3) mod 3)%nat as [|[|[|]]]; [done..|lia].
Qed.

(** What the payload encrypts is read back.  For every list of field names, every
    text, every initial vector and every time up to the year 4147, the token is
    made, is one word that starts with [gAAAAA], and under the key of the same
    names a Fernet decryption returns the text. *)
Lemma token_read_back fields data iv now :
  Forall is_byte data → block_ok iv → (0 <= now < 2 ^ 36)%Z →
  ∃ token, fernet_encrypt (derive_key fields) data iv now = Ok token ∧
    Spec.decrypt (derive_key fields) token = Some (of_bytes data) ∧
    startswith "gAAAAA" token = true ∧ url_text token = true.
Proof.
  intros Hd Hiv Hnow. destruct (key_of_fields fields) as (key & Hk & Hl & Hb).
  destruct (encrypt_read (derive_key fields) key data iv now Hk Hl Hb Hd Hiv) as (rest & E & Hrest & Hdec).
  eexists. split; [exact E|]. split; [exact Hdec|].
  split; [by apply token_prefix|]. apply url_word, Forall_app. split; [|done].
  apply Forall_cons. split; [unfold is_byte; lia|]. apply be_bytes_ok.
Qed.
