(* ===== verification/RigHost.v ===== *)
(** * What the payloads read on the machine

    The two payloads that look at the host (src/validator/verify/payloads):
    inspector.py lists the processes and the containers and answers the handshake
    of the session, host_reality.py says whether the machine is a real host.
    What a payload reads is a field of [Machine]; a payload runs in one go, so a
    reading does not change while it runs. *)

From stdpp Require Import sorting.
From Stdlib Require Import Ascii String QArith.
From S2P Require Import Prelude.
From S2P Require Import PyStr.
From S2P Require Import PyText.
From S2P Require Import PyFloat.
From S2P Require Import PyJson.
From S2P Require Import PyDump.
From S2P Require Import Failures.
From S2P Require Import Sha256.
From S2P Require Import Attest.
From S2P Require Import Runner.
From S2P Require Import Checks.
From S2P Require Scrape.
From S2P Require Import Deep.
Local Open Scope string_scope.
Local Open Scope list_scope.

(** How a command ended: its code and its two outputs, or the text of the
    exception of [subprocess.run]. *)
Inductive answered : Type := Done (code : Z) (out err : string) | Refused (text : string).

Record Machine : Type := MkMachine {
  file : string → option string;
  exists_ : string → bool;
  stat_pair_ : string → option (Z * Z);
  listdir : string → option (list string);
  command : list string → Z → answered;
  uid_ : Z; pid_ : Z; python_version : string;
  json_loads : string → option json }.

(** [handle.read(limit).decode(...)], empty when the file cannot be read *)
Definition read (m : Machine) (path : string) (limit : nat) : string :=
  match m.(file) path with Some text => stake limit text | None => "" end.

Definition isdigit (s : string) : bool := negb (String.eqb s "") && sforall is_digit s.

(** [int(parts[1])] of a line with two words or more, the second of digits *)
Definition second_number (line : string) : option Z :=
  match split_ws line with
  | _ :: word :: _ => if isdigit word then parse_int word else None
  | _ => None
  end.

(** [CONTAINER_ID.search(text)]: the first 64 hex digits in a row *)
Fixpoint container_of (s : string) : string :=
  let id := stake 64 s in
  if (slen id =? 64)%nat && sforall is_hex id then id
  else match s with "" => "" | String _ s' => container_of s' end.

Definition spaced (c : ascii) : ascii := if Ascii.eqb c "000"%char then " "%char else c.
Definition cmdline_of (text : string) : string := stake 200 (strip (smap spaced text)).

(** ** inspector.py *)

Module Inspector.
Definition MAX_PROCESSES : nat := 4000.

Fixpoint uid_in (lines : list string) : Z :=
  match lines with
  | [] => -1
  | line :: lines' =>
      match (if startswith "Uid:" line then second_number line else None) with
      | Some uid => uid
      | None => uid_in lines'
      end
  end.
Definition uid_of (status : string) : Z := uid_in (splitlines status).

Definition ppid_of (status : string) : Z :=
  match List.find (startswith "PPid:") (splitlines status) with
  | Some line => default 0%Z (second_number line)
  | None => 0
  end.

Definition process (m : Machine) (pid : Z) : option dict :=
  let base := "/proc/" +:+ str_of_Z pid in
  let comm := strip (read m (base +:+ "/comm") 64) in
  if String.eqb comm "" then None
  else
    let status := read m (base +:+ "/status") 2048 in
    Some [("pid", JInt pid); ("ppid", JInt (ppid_of status)); ("comm", JStr comm);
          ("cmdline", JStr (cmdline_of (read m (base +:+ "/cmdline") 4096)));
          ("uid", JInt (uid_of status));
          ("container", JStr (container_of (read m (base +:+ "/cgroup") 2048)))].

Definition pids (m : Machine) : option (list Z) :=
  names ← m.(listdir) "/proc";
  Some (merge_sort Z.le (omap (λ name, if isdigit name then parse_int name else None) names)).

Definition processes (m : Machine) : list dict :=
  match pids m with None => [] | Some l => omap (process m) (take MAX_PROCESSES l) end.

(** One label of the comma separated list. *)
Definition add_label (labels : dict) (item : string) : dict :=
  match partition_first "=" item with
  | Some (key, value) => dset (strip key) (JStr (strip value)) labels
  | None => labels
  end.

Definition container (row : dict) : dict :=
  let labels := foldl add_label [] (split_on "," (get_str_or "Labels" "" row)) in
  [("id", JStr (get_str "ID" row)); ("name", JStr (get_str "Names" row)); ("image", JStr (get_str "Image" row));
   ("state", JStr (get_str "State" row)); ("status", JStr (get_str "Status" row));
   ("labels", JDict labels); ("runtime", JStr "")].

(** A row that is no object raises, and nothing catches it. *)
Fixpoint rows (m : Machine) (lines : list string) : res (list dict) :=
  match lines with
  | [] => Ok []
  | line :: lines' =>
      let line := strip line in
      if String.eqb line "" then rows m lines'
      else match m.(json_loads) line with
           | None => rows m lines'
           | Some (JDict row) => rest ← rows m lines'; mret (container row :: rest)
           | Some _ => Raise AttributeError
           end
  end.

Definition containers (m : Machine) : res (list dict * string) :=
  match m.(command) ["docker"; "ps"; "-a"; "--no-trunc"; "--format"; "{{json .}}"] 20 with
  | Refused text => Ok ([], "docker ps: " +:+ text)
  | Done code out err =>
      if negb (code =? 0)%Z then
        Ok ([], "docker ps exit " +:+ str_of_Z code +:+ ": " +:+ stake 200 (strip err))
      else found ← rows m (splitlines out); mret (found, "")
  end.

(** [hmac.new(bytes.fromhex(secret), nonce.encode(ascii), sha256).hexdigest()] *)
Definition handshake (secret_hex nonce_hex : string) : res string :=
  key ← of_option ValueError (fromhex secret_hex);
  if Scrape.is_ascii nonce_hex then Ok (hex (hmac_sha256 (of_bytes key) nonce_hex)) else Raise ValueError.

Definition result (m : Machine) (nonce_hex reply : string) (found : list dict) (error : string)
    (started collected finished : pyfloat) : dict :=
  [("nonce", JStr nonce_hex); ("handshake", JStr reply); ("collected_at", JFloat (fround 3 collected));
   ("processes", JList (JDict <$> processes m)); ("containers", JList (JDict <$> found));
   ("containers_error", JStr error); ("pid", JInt m.(pid_));
   ("elapsed_ms", JFloat (fround 3 (fmul (fsub finished started) (fz 1000))))].

(** The exit code and what is printed; [started], [collected] and [finished] are
    the readings of the clock, and
    [str_exn] the text of an exception. *)
Definition main (m : Machine) (argv : list string) (started collected finished : pyfloat) (str_exn : exn → string)
    : res (Z * string) :=
  match argv with
  | [_; secret_hex; nonce_hex] =>
      match handshake secret_hex nonce_hex with
      | Raise ValueError =>
          Ok (2%Z, dumps_spaced (JDict [("error", JStr ("handshake: " +:+ str_exn ValueError))]) +:+ nls)
      | Raise e => Raise e
      | Ok reply =>
          answer ← containers m;
          let '(found, error) := answer in
          Ok (0%Z, dumps (JDict (result m nonce_hex reply found error started collected finished)) +:+ nls)
      end
  | _ => Ok (2%Z, dumps_spaced (JDict [("error", JStr "usage: inspector <secret hex> <nonce hex>")]) +:+ nls)
  end.
End Inspector.

(** ** host_reality.py *)

Module Reality.
Definition HOST_ROOT : string := "/proc/1/root".
Definition DMI_FIELDS : list string :=
  ["sys_vendor"; "product_name"; "product_version"; "board_vendor"; "board_name"; "bios_vendor"; "bios_version"].
Definition DETECT_VIRT_PATHS : list string :=
  ["/usr/bin/systemd-detect-virt"; "/bin/systemd-detect-virt"; "/usr/sbin/systemd-detect-virt"].

Definition read_ (m : Machine) (path : string) (limit : nat) : string := strip (read m path limit).

(** [run]: the code, or none when the command could not be run *)
Definition run (m : Machine) (argv : list string) (timeout : Z) : option Z * string * string :=
  match m.(command) argv timeout with
  | Done code out err => (Some code, strip out, strip err)
  | Refused text => (None, "", text)
  end.

Definition code_json (code : option Z) : json := match code with Some z => JInt z | None => JNull end.
Definition attempt_of (how binary : string) (code : option Z) (out err : string) : json :=
  JDict [("method", JStr how); ("binary", JStr binary); ("code", code_json code);
         ("out", JStr (stake 80 out)); ("err", JStr (stake 200 err))].

(** What one attempt says: an answer, or nothing and the next one is made. *)
Definition verdict_of (code : option Z) (out : string) : option string :=
  match code with
  | None => None
  | Some c =>
      if (c =? 0)%Z || negb (String.eqb out "") then Some (sor out "none")
      else if (c =? 1)%Z && String.eqb out "" then Some "none" else None
  end.

(** One of the two loops: [there] is the path looked for and [argv] the command. *)
Fixpoint detect_loop (m : Machine) (how : string) (there : string → string) (argv : string → list string)
    (binaries : list string) (attempts : list json) : option string * list json :=
  match binaries with
  | [] => (None, attempts)
  | binary :: binaries' =>
      if m.(exists_) (there binary) then
        let '(code, out, err) := run m (argv binary) 15 in
        let attempts := attempts ++ [attempt_of how binary code out err] in
        match verdict_of code out with
        | Some v => (Some v, attempts)
        | None => detect_loop m how there argv binaries' attempts
        end
      else detect_loop m how there argv binaries' attempts
  end.

Definition detect_virt (m : Machine) : string * list json :=
  match detect_loop m "chroot" (λ b, HOST_ROOT +:+ b) (λ b, ["chroot"; HOST_ROOT; b; "--container"])
          DETECT_VIRT_PATHS [] with
  | (Some v, attempts) => (v, attempts)
  | (None, attempts) =>
      match detect_loop m "local" (λ b, b) (λ b, [b; "--container"]) DETECT_VIRT_PATHS attempts with
      | (Some v, attempts) => (v, attempts)
      | (None, attempts) => ("unavailable", attempts)
      end
  end.

Definition dmi_value (m : Machine) (name : string) : string :=
  sor (read_ m (HOST_ROOT +:+ "/sys/class/dmi/id/" +:+ name) 256) (read_ m ("/sys/class/dmi/id/" +:+ name) 256).
Definition dmi (m : Machine) : dict := (λ name, (name, JStr (dmi_value m name))) <$> DMI_FIELDS.

Definition zero : string := String "000"%char "".
Definition init_environ_container (m : Machine) : string :=
  match m.(file) "/proc/1/environ" with
  | None => ""
  | Some raw =>
      match List.find (startswith "container=") (split_on zero (stake (Z.to_nat 65536) raw)) with
      | Some item => stake 40 (sdrop (slen "container=") item)
      | None => ""
      end
  end.

Definition pair_json (p : option (Z * Z)) : json :=
  match p with Some (a, b) => JList [JInt a; JInt b] | None => JNull end.
Definition differs (a b : option (Z * Z)) : bool :=
  match a, b with Some x, Some y => negb (bool_decide (x = y)) | _, _ => false end.

Definition facts (m : Machine) : dict :=
  let init_root := m.(stat_pair_) (HOST_ROOT +:+ "/") in
  let own_root := m.(stat_pair_) "/" in
  let os_release := read_ m (HOST_ROOT +:+ "/etc/os-release") 4096 in
  let '(virt, attempts) := detect_virt m in
  [("init_root_stat", pair_json init_root); ("own_root_stat", pair_json own_root);
   ("init_root_reachable", JBool (match init_root with Some _ => true | None => false end));
   ("init_root_differs", JBool (differs init_root own_root));
   ("init_os_release_readable", JBool (negb (String.eqb os_release "")));
   ("init_os_release", JStr (stake 1200 os_release));
   ("init_hostname", JStr (read_ m (HOST_ROOT +:+ "/etc/hostname") 256));
   ("init_comm", JStr (read_ m "/proc/1/comm" 64));
   ("init_cgroup", JStr (read_ m "/proc/1/cgroup" 2000));
   ("self_cgroup", JStr (read_ m "/proc/self/cgroup" 2000));
   ("init_environ_container", JStr (init_environ_container m));
   ("dockerenv", JBool (m.(exists_) "/.dockerenv"));
   ("host_dockerenv", JBool (m.(exists_) (HOST_ROOT +:+ "/.dockerenv")));
   ("detect_virt", JStr virt); ("detect_virt_attempts", JList attempts); ("dmi", JDict (dmi m));
   ("kernel", JStr (read_ m "/proc/sys/kernel/osrelease" 128));
   ("boot_id", JStr (read_ m "/proc/sys/kernel/random/boot_id" 64));
   ("machine_id", JStr (sor (read_ m (HOST_ROOT +:+ "/etc/machine-id") 64) (read_ m "/etc/machine-id" 64)));
   ("uid", JInt m.(uid_)); ("python", JStr (List.hd "" (split_ws m.(python_version))))].

Definition main (m : Machine) : string := dumps (JDict (facts m)) +:+ nls.
End Reality.

(** ** What is printed is read *)

Lemma rstrip_p_end f s c : f c = false → rstrip_p f (s +:+ String c "") = s +:+ String c "".
Proof.
  intros Hc. induction s as [|d s IH]; cbn [String.append rstrip_p]; [by rewrite Hc|].
  rewrite IH. by destruct s.
Qed.

Lemma dumps_object d : ∃ inner, dumps (JDict d) = String "{" (inner +:+ "}").
Proof. by eexists. Qed.

(** The one object a payload prints is the last object of its output. *)
Lemma printed_object loads d :
  loads (dumps (JDict d)) = Some (JDict d) → last_json_object loads (dumps (JDict d) +:+ nls) = Some d.
Proof.
  intros Hl. unfold last_json_object. change (dumps (JDict d) +:+ nls) with (text_of [dumps (JDict d)]).
  rewrite (splitlines_text [dumps (JDict d)]) by (constructor; [apply dumps_no_break|done]).
  cbn [rev app first_object]. destruct (dumps_object d) as [inner E].
  assert (strip (dumps (JDict d)) = dumps (JDict d)) as ->.
  { rewrite E. unfold strip. cbn [lstrip_p is_space].
    change (String "{" (inner +:+ "}")) with ((String "{" inner) +:+ "}").
    transitivity (rstrip_p is_space ((String "{" inner) +:+ "}")); [done|]. by apply rstrip_p_end. }
  rewrite Hl, E. change (startswith "{" (String "{" (inner +:+ "}"))) with (String.prefix "" (inner +:+ "}")).
  change (String "{" (inner +:+ "}")) with ((String "{" inner) +:+ "}"). rewrite endswith_app.
  by destruct (inner +:+ "}").
Qed.

Lemma hex_ascii s : Scrape.is_ascii (hex s) = true.
Proof.
  induction s as [|c s IH]; [done|].
  assert (hex (String c s) = hex (String c "") +:+ hex s) as ->.
  { unfold hex, bytes_of. cbn [list_ascii_of_string fmap list_fmap mbind list_bind]. by rewrite app_nil_r. }
  unfold Scrape.is_ascii. rewrite sforall_app. apply andb_true_iff. split; [|exact IH].
  destruct c as [[] [] [] [] [] [] [] []]; reflexivity.
Qed.

(** The handshake, read with any [json.loads] that reads back what was printed. *)
Lemma handshake_accepted loads m script secret nonce seed started collected finished str_exn key found error result :
  fromhex secret = Some key → Scrape.is_ascii nonce = true → Inspector.containers m = Ok (found, error) →
  (let printed := Inspector.result m nonce (hex (hmac_sha256 (of_bytes key) nonce)) found error started collected finished in
   loads (dumps (JDict printed)) = Some (JDict printed)) →
  Inspector.main m [script; secret; nonce] started collected finished str_exn = Ok (0%Z, result.(stdout)) →
  ∃ v parsed, judge_inspector secret nonce seed result (last_json_object loads result.(stdout)) = Ok (v, parsed) ∧
    failure v = None ∧ getv "nonce" parsed = JStr nonce ∧
    getv "processes" parsed = JList (JDict <$> Inspector.processes m) ∧
    getv "containers" parsed = JList (JDict <$> found).
Proof.
  cbn zeta. intros Hk Hn Hc Hl. unfold Inspector.main, Inspector.handshake. rewrite Hk, Hn, Hc. cbn [of_option mbind res_bind].
  set (reply := hex (hmac_sha256 (of_bytes key) nonce)).
  set (printed := Inspector.result m nonce reply found error started collected finished).
  intros E. apply (f_equal (λ r, match r with Ok (_, text) => text | Raise _ => "" end)) in E. cbv beta iota in E.
  rewrite <- E, (printed_object _ printed Hl). unfold judge_inspector. rewrite Hk, Hn. cbn [of_option mbind res_bind negb].
  fold reply. assert (get_str_or "handshake" "" printed = reply) as -> by apply jor_str.
  unfold reply at 1. rewrite hex_ascii. cbn [negb].
  assert (∀ l : list dict, ∃ z, jlen (jor (JList (JDict <$> l)) (JList [])) = Ok z) as Hlen by (intros [|]; by eexists).
  change (getv "processes" printed) with (JList (JDict <$> Inspector.processes m)).
  change (getv "containers" printed) with (JList (JDict <$> found)).
  destruct (Hlen (Inspector.processes m)) as [z1 ->]. destruct (Hlen found) as [z2 ->]. cbn [mbind res_bind].
  rewrite String.eqb_refl. eexists _, _. split; [reflexivity|]. by split_and!.
Qed.

(** The handshake of a machine that runs the inspector is accepted: whatever it
    lists, what the inspector prints for the secret and the nonce of the session
    passes the check of the validator, which is then given that list. *)
Theorem inspector_accepted m script secret nonce seed started collected finished str_exn key found error result :
  fromhex secret = Some key → Scrape.is_ascii nonce = true → Inspector.containers m = Ok (found, error) →
  (let printed := Inspector.result m nonce (hex (hmac_sha256 (of_bytes key) nonce)) found error started collected finished in
   m.(json_loads) (dumps (JDict printed)) = Some (JDict printed)) →
  Inspector.main m [script; secret; nonce] started collected finished str_exn = Ok (0%Z, result.(stdout)) →
  ∃ v parsed, judge_inspector secret nonce seed result (last_json_object m.(json_loads) result.(stdout)) = Ok (v, parsed) ∧
    failure v = None ∧ getv "nonce" parsed = JStr nonce ∧
    getv "processes" parsed = JList (JDict <$> Inspector.processes m) ∧
    getv "containers" parsed = JList (JDict <$> found).
Proof. apply handshake_accepted. Qed.

(** The fields the verdict reads. *)
Lemma facts_fields m :
  let d := Reality.facts m in
  let init := m.(stat_pair_) "/proc/1/root/" in let own := m.(stat_pair_) "/" in
  getv "init_root_reachable" d = JBool (bool_decide (is_Some init)) ∧
  getv "init_root_differs" d = JBool (Reality.differs init own) ∧
  getv "init_os_release_readable" d = JBool (negb (String.eqb (strip (read m "/proc/1/root/etc/os-release" 4096)) "")) ∧
  get_str_or "init_cgroup" "" d = strip (read m "/proc/1/cgroup" 2000) ∧
  get_str_or "detect_virt" "" d = (Reality.detect_virt m).1 ∧
  getv "dmi" d = JDict (Reality.dmi m).
Proof.
  cbn zeta. unfold Reality.facts. destruct (Reality.detect_virt m) as [virt attempts].
  split.
  { transitivity (JBool (match stat_pair_ m "/proc/1/root/" with Some _ => true | None => false end)); [reflexivity|].
    by destruct (stat_pair_ m "/proc/1/root/"). }
  split; [reflexivity|]. split; [reflexivity|].
  split; [apply jor_str|]. split; [apply jor_str|reflexivity].
Qed.

Lemma no_identity_dmi m :
  HostReality.no_identity (jor (JDict (Reality.dmi m)) (JDict [])) =
    Ok (String.eqb (strip (Reality.dmi_value m "sys_vendor")) "" && String.eqb (strip (Reality.dmi_value m "product_name")) "").
Proof.
  rewrite jor_dict. unfold HostReality.no_identity, HostReality.dmi_text.
  change (jget "sys_vendor" (JStr "") (JDict (Reality.dmi m))) with (Ok (JStr (Reality.dmi_value m "sys_vendor"))).
  change (jget "product_name" (JStr "") (JDict (Reality.dmi m))) with (Ok (JStr (Reality.dmi_value m "product_name"))).
  cbn [mbind res_bind mret res_ret]. rewrite !jor_str. by destruct (String.eqb (strip (Reality.dmi_value m "sys_vendor")) "").
Qed.

Lemma nested_of_nil cgroup :
  HostReality.nested_of cgroup = [] ↔ ∀ marker, marker ∈ HostReality.NESTED_MARKERS → PyStr.contains marker cgroup = false.
Proof.
  unfold HostReality.nested_of. generalize HostReality.NESTED_MARKERS. intros l. split.
  - intros E marker Hin. destruct (PyStr.contains marker cgroup) eqn:Hc; [|done].
    exfalso. assert (marker ∈ List.filter (λ x, PyStr.contains x cgroup) l) as H by (by apply elem_of_filter_b).
    rewrite E in H. by apply not_elem_of_nil in H.
  - induction l as [|x l IH]; intros H; [done|]. cbn [List.filter]. rewrite (H x) by apply list_elem_of_here.
    apply IH. intros y Hy. apply H. by apply list_elem_of_further.
Qed.

(** The verdict on the host, condition by condition. *)
Lemma reality_judged m seed :
  HostReality.judge (Reality.facts m) seed = Ok None ↔
  (∃ init own, m.(stat_pair_) "/proc/1/root/" = Some init ∧ m.(stat_pair_) "/" = Some own ∧ init ≠ own) ∧
  strip (read m "/proc/1/root/etc/os-release" 4096) ≠ "" ∧
  (∀ marker, marker ∈ HostReality.NESTED_MARKERS → PyStr.contains marker (strip (read m "/proc/1/cgroup" 2000)) = false) ∧
  lower (strip (Reality.detect_virt m).1) ∈ ["none"; "unavailable"; ""] ∧
  (strip (Reality.dmi_value m "sys_vendor") ≠ "" ∨ strip (Reality.dmi_value m "product_name") ≠ "").
Proof.
  destruct (facts_fields m) as (E1 & E2 & E3 & E4 & E5 & E6).
  unfold HostReality.judge, HostReality.dmi_of. rewrite E1, E2, E3, E4, E5, E6, no_identity_dmi. cbn [truthy].
  set (init := stat_pair_ m "/proc/1/root/") in *. set (own := stat_pair_ m "/") in *. clearbody init own.
  set (os := strip (read m "/proc/1/root/etc/os-release" 4096)). set (cgroup := strip (read m "/proc/1/cgroup" 2000)).
  set (virt := lower (strip (Reality.detect_virt m).1)).
  set (vendor := strip (Reality.dmi_value m "sys_vendor")). set (product := strip (Reality.dmi_value m "product_name")).
  rewrite <- nested_of_nil. clear E1 E2 E3 E4 E5 E6.
  destruct init as [i|]; cbn [bool_decide negb]; [|split; [done|by intros ((? & ? & ? & _) & _)]].
  assert (Reality.differs (Some i) own = true ↔ ∃ o, own = Some o ∧ i ≠ o) as Hd.
  { unfold Reality.differs. destruct own as [o|]; [|split; [done|by intros (? & ? & _)]].
    rewrite negb_true_iff, bool_decide_eq_false. naive_solver. }
  change (bool_decide (is_Some (Some i))) with true. cbn [negb].
  destruct (Reality.differs (Some i) own) eqn:Ed; cbn [negb].
  2:{ split; [done|]. intros ((? & o & [= <-] & Ho & Hne) & _). exfalso. by assert (false = true) by (apply Hd; eauto). }
  destruct (String.eqb_spec os "") as [->|Hos]; cbn [negb]; [split; [done|by intros (_ & ? & _)]|].
  destruct (HostReality.nested_of cgroup) as [|x l]; [|split; [done|by intros (_ & _ & ? & _)]].
  case_bool_decide as Hv; cbn [negb]; [|split; [done|by intros (_ & _ & _ & ? & _)]].
  cbn [mbind res_bind mret res_ret].
  destruct (String.eqb_spec vendor "") as [Ev|Ev], (String.eqb_spec product "") as [Ep|Ep]; cbn [andb].
  1: split; [done|by intros (_ & _ & _ & _ & [?|?])].
  all: split; [|done]; intros _; split_and!; try done; try (destruct (proj1 Hd eq_refl) as (o & ? & ?); by eauto); by first [left|right].
Qed.

(** C30. The verdict on the host is exact: a machine that runs the payload is accepted
    exactly when the root of its init process can be looked at and is not its own
    root, the os-release there is not empty, the cgroup of init names no
    container, systemd-detect-virt says none or cannot be asked, and the board
    says who made it. *)
Theorem host_reality_exact m seed :
  HostReality.judge (Reality.facts m) seed = Ok None ↔
  (∃ init own, m.(stat_pair_) "/proc/1/root/" = Some init ∧ m.(stat_pair_) "/" = Some own ∧ init ≠ own) ∧
  strip (read m "/proc/1/root/etc/os-release" 4096) ≠ "" ∧
  (∀ marker, marker ∈ HostReality.NESTED_MARKERS → PyStr.contains marker (strip (read m "/proc/1/cgroup" 2000)) = false) ∧
  lower (strip (Reality.detect_virt m).1) ∈ ["none"; "unavailable"; ""] ∧
  (strip (Reality.dmi_value m "sys_vendor") ≠ "" ∨ strip (Reality.dmi_value m "product_name") ≠ "").
Proof. exact (reality_judged m seed). Qed.

(** ** Examples *)

Definition sample_machine (loads : string → option json) : Machine :=
  MkMachine (λ path, if String.eqb path "/proc/7/comm" then Some ("python3" +:+ nls) else None) (λ _, false)
    (λ _, None) (λ path, if String.eqb path "/proc" then Some ["self"; "7"; "meminfo"; "12"] else None)
    (λ _ _, Refused "no docker") 0 7 "3.12.3 (main)" loads.

Lemma inspector_accepted_witness :
  let printed := Inspector.result (sample_machine (λ _, None)) "ab" (hex (hmac_sha256 (of_bytes [10%Z]) "ab")) []
                   "docker ps: no docker" f0 f0 f0 in
  let m := sample_machine (λ _, Some (JDict printed)) in
  ∃ v parsed, judge_inspector "0a" "ab" "s" (MkResult "c" 0 (dumps (JDict printed) +:+ nls) "" f0 "")
    (last_json_object m.(json_loads) (dumps (JDict printed) +:+ nls)) = Ok (v, parsed) ∧ failure v = None ∧
    getv "processes" parsed = JList (JDict <$> Inspector.processes m).
Proof.
  cbn zeta. set (printed := Inspector.result _ _ _ _ _ _ _ _).
  destruct (inspector_accepted (sample_machine (λ _, Some (JDict printed))) "inspector" "0a" "ab" "s" f0 f0 f0
    (λ _, "") [10%Z] [] "docker ps: no docker" (MkResult "c" 0 (dumps (JDict printed) +:+ nls) "" f0 ""))
    as (v & parsed & E & Hv & _ & Hp & _); [reflexivity..|].
  exists v, parsed. split; [exact E|]. split; [exact Hv|exact Hp].
Defined.
