(* ===== verification/RigScrape.v ===== *)
(** * The scrape payload (src/validator/verify/payloads/scrape.py)

    What the payload collects on the machine and prints as one token: the cards
    through NVML, the host, docker and the probes.  The payload refers to the
    fields of a card by constants, and the validator rewrites those constants
    before it sends the payload, so the definitions take their values: [F] maps
    the name of a constant to its value.  The functions of the NVML library are the
    fields of [Lib]: its answers do not change while the payload runs. *)

From stdpp Require Import sorting.
From Stdlib Require Import Ascii String QArith.
From S2P Require Import Prelude.
From S2P Require Import PyStr.
From S2P Require Import PyText.
From S2P Require Import PyFloat.
From S2P Require Import PyJson.
From S2P Require Import PyDump.
From S2P Require Import Sha256.
From S2P Require Import Keys.
From S2P Require Import Fernet.
From S2P Require Import Runner.
From S2P Require Import RigHost.
Local Open Scope string_scope.
Local Open Scope list_scope.

(** The constants of the fields with the values the file gives them, in the order
    of the file, which is the order of [FIELDS] too. *)
Definition CONSTANTS : list (string * string) :=
  [("F_INDEX", "index"); ("F_NAME", "name"); ("F_UUID", "uuid"); ("F_SERIAL", "serial");
   ("F_MEMORY_TOTAL", "memory_total_mb"); ("F_MEMORY_USED", "memory_used_mb");
   ("F_CAPABILITY", "compute_capability"); ("F_POWER_LIMIT", "power_limit_w");
   ("F_POWER_DEFAULT", "power_default_w"); ("F_POWER_MIN", "power_min_w"); ("F_POWER_MAX", "power_max_w");
   ("F_CLOCK_GRAPHICS", "clock_graphics_mhz"); ("F_CLOCK_SM", "clock_sm_mhz");
   ("F_CLOCK_MEMORY", "clock_memory_mhz"); ("F_PCIE_WIDTH", "pcie_width");
   ("F_PCIE_GENERATION", "pcie_generation"); ("F_UTILIZATION", "utilization");
   ("F_MEMORY_UTILIZATION", "memory_utilization"); ("F_MIG_MODE", "mig_mode");
   ("F_VIRTUALIZATION", "virtualization"); ("F_HOST_VGPU", "host_vgpu_mode"); ("F_ECC", "ecc_mode");
   ("F_PCI_BUS", "pci_bus_id"); ("F_MINOR", "minor"); ("F_PROCESSES", "processes"); ("F_ERRORS", "errors")].

Definition FIELDS (F : string → string) : list string := F <$> CONSTANTS.*1.

Definition HOST_ROOT : string := "/proc/1/root".
Definition PROBE_TIMEOUT : Z := 30.
Definition NVML_CANDIDATES : list string :=
  ["/usr/lib/x86_64-linux-gnu/libnvidia-ml.so.1"; "/usr/lib64/libnvidia-ml.so.1"; "/usr/lib/libnvidia-ml.so.1"].
Definition NVML_NAMES : list (Z * string) :=
  [(0, "SUCCESS"); (1, "UNINITIALIZED"); (2, "INVALID_ARGUMENT"); (3, "NOT_SUPPORTED"); (4, "NO_PERMISSION");
   (5, "ALREADY_INITIALIZED"); (6, "NOT_FOUND"); (7, "INSUFFICIENT_SIZE"); (8, "INSUFFICIENT_POWER");
   (9, "DRIVER_NOT_LOADED"); (10, "TIMEOUT"); (11, "IRQ_ISSUE"); (12, "LIBRARY_NOT_FOUND");
   (13, "FUNCTION_NOT_FOUND"); (14, "CORRUPTED_INFOROM"); (15, "GPU_IS_LOST"); (16, "RESET_REQUIRED");
   (17, "OPERATING_SYSTEM"); (18, "LIB_RM_VERSION_MISMATCH"); (19, "IN_USE"); (20, "MEMORY"); (21, "NO_DATA");
   (22, "VGPU_ECC_NOT_SUPPORTED"); (23, "INSUFFICIENT_RESOURCES"); (24, "FREQ_NOT_SUPPORTED");
   (25, "ARGUMENT_VERSION_MISMATCH"); (26, "DEPRECATED"); (27, "NOT_READY"); (28, "GPU_NOT_FOUND");
   (29, "INVALID_STATE"); (999, "UNKNOWN")]%Z.
Definition INSUFFICIENT_SIZE : Z := 7.
Definition FUNCTION_NOT_FOUND : Z := 13.
Definition VIRTUALIZATION_NAMES : list (Z * string) :=
  [(0, "NONE"); (1, "PASSTHROUGH"); (2, "VGPU"); (3, "HOST_VGPU"); (4, "HOST_VSGA")]%Z.

(** ** NVML *)

(** The library: what a function returns for its arguments ([None]: the library
    has no such function), and what it writes then; the first argument of a
    function of a card is its index. *)
Record Lib : Type := MkLib {
  code : string → list Z → option Z;
  uints : string → list Z → list Z;
  text : string → list Z → string;
  procs : string → list Z → list (Z * Z * (Z * Z));
  error_text : Z → string }.

(** The name of a failure. *)
Definition failure_name (c : Z) : string := default ("CODE_" +:+ str_of_Z c) (dget c NVML_NAMES).

Section Nvml.
Variable lib : Lib.
Variable m : Machine.
Variable F : string → string.

Definition call (name : string) (args : list Z) : Z := default FUNCTION_NOT_FOUND (lib.(code) name args).
Definition has_function (name : string) (args : list Z) : bool :=
  match lib.(code) name args with Some _ => true | None => false end.

(** [check], then a value; or the code of the [NvmlFailure]. *)
Definition checked (name : string) (args : list Z) (v : json) : json + Z :=
  let c := call name args in if (c =? 0)%Z then inl v else inr c.

Definition note (c : Z) (errors : list string) : list string :=
  if bool_decide (failure_name c ∈ errors) then errors else errors ++ [failure_name c].

Definition out (name : string) (args : list Z) (k : nat) : Z := nth k (lib.(uints) name args) 0%Z.

Definition string_ (name : string) (i : Z) : json + Z := checked name [i] (JStr (lib.(text) name [i])).
Definition uint (name : string) (i : Z) (extra : list Z) : json + Z :=
  checked name (i :: extra) (JInt (out name (i :: extra) 0)).

(** [x / 1000.0] for an unsigned int of 32 bits *)
Definition watts (z : Z) : json := JFloat (rnd (inject_Z z / 1000)).
Definition power (name : string) (i : Z) : json + Z := checked name [i] (watts (out name [i] 0)).

(** ** A card *)

Definition set_error (field name : string) (card : dict) : dict :=
  let errors := F "F_ERRORS" in
  dset errors (JDict (dset field (JStr name) (get_dict errors card))) card.

Definition attempt (field : string) (action : json + Z) (card : dict) : dict :=
  match action with
  | inl v => dset field v card
  | inr c => set_error field (failure_name c) (dset field JNull card)
  end.

(** Two fields read by one call, with their own name among the errors. *)
Definition both (field field' label name : string) (i : Z) (v v' : json) (card : dict) : dict :=
  let c := call name [i] in
  if (c =? 0)%Z then dset field' v' (dset field v card)
  else set_error label (failure_name c) (dset field' JNull (dset field JNull card)).

Definition mebibytes (z : Z) : Z := z / (1024 * 1024).

Definition describe_process (pid : Z) (kind : string) (memory_mb : Z) (instance : Z * Z) : dict :=
  let base := "/proc/" +:+ str_of_Z pid in
  let status := read m (base +:+ "/status") 2048 in
  let uid := match List.find (startswith "Uid:") (splitlines status) with
             | Some line => default (-1)%Z (second_number line)
             | None => (-1)%Z
             end in
  [("pid", JInt pid); ("kind", JStr kind); ("memory_mb", JInt memory_mb);
   ("comm", JStr (strip (read m (base +:+ "/comm") 64)));
   ("cmdline", JStr (cmdline_of (read m (base +:+ "/cmdline") 4096)));
   ("uid", JInt uid); ("container", JStr (container_of (read m (base +:+ "/cgroup") 4096)));
   ("gpu_instance", JInt instance.1); ("compute_instance", JInt instance.2);
   ("alive", JBool (m.(exists_) base))].

Definition NO_INSTANCE : Z := 0xFFFFFFFF.
Definition entry_of (kind : string) (v1 : bool) (e : Z * Z * (Z * Z)) : dict :=
  let '(pid, memory, instance) := e in
  describe_process pid kind (if (memory =? 0xFFFFFFFFFFFFFFFF)%Z then -1 else mebibytes memory)%Z
    (if v1 then (NO_INSTANCE, NO_INSTANCE) else instance).

(** The loop over the versions of a function: the entries, the name of the error
    and the code to note. *)
Fixpoint running_loop (versions : list (string * bool)) (i : Z) (kind : string) (last : option Z)
    : list dict * string * option Z :=
  match versions with
  | [] => match last with
          | None => ([], "FUNCTION_NOT_FOUND", None)
          | Some c => ([], failure_name c, Some c)
          end
  | (name, v1) :: versions' =>
      if negb (has_function name [i]) then running_loop versions' i kind last
      else
        let c := call name [i] in
        if (c =? 0)%Z then ([], "", None)
        else if negb (c =? INSUFFICIENT_SIZE)%Z then running_loop versions' i kind (Some c)
        else
          let size := (out name [i] 0 * 2 + 5)%Z in
          let c := call name [i; size] in
          if negb (c =? 0)%Z then running_loop versions' i kind (Some c)
          else (entry_of kind v1 <$> take (Z.to_nat (out name [i; size] 0)) (lib.(procs) name [i; size]), "", None)
  end.

Definition running_processes (i : Z) (family kind : string) : list dict * string * option Z :=
  running_loop [(family +:+ "_v3", false); (family +:+ "_v2", false); (family, true)] i kind None.

Definition note_error (label error : string) (card : dict) : dict :=
  if String.eqb error "" then card else set_error label error card.

(** [seen = {entry["pid"] ...}]: a graphics process that computes is listed once. *)
Definition pid_of (entry : dict) : Z := match getv "pid" entry with JInt z => z | _ => 0 end.
Definition merged (compute graphics : list dict) : list dict :=
  compute ++ List.filter (λ entry, negb (bool_decide (pid_of entry ∈ pid_of <$> compute))) graphics.

Definition pci_names : list string := ["nvmlDeviceGetPciInfo_v3"; "nvmlDeviceGetPciInfo_v2"; "nvmlDeviceGetPciInfo"].
(** The bus address in the structure: [text] of the two arguments is the long
    form, which only the third version has, of one the legacy form. *)
Definition pci (i : Z) : json + Z :=
  match List.find (λ name, has_function name [i]) pci_names with
  | None => inr FUNCTION_NOT_FOUND
  | Some name =>
      let legacy := lib.(text) name [i] in
      checked name [i] (JStr (if endswith "_v3" name then sor (lib.(text) name [i; 1%Z]) legacy else legacy))
  end.

Definition mig (i : Z) : json + Z :=
  let f := "nvmlDeviceGetMigMode" in
  checked f [i] (JDict [("current", JInt (out f [i] 0)); ("pending", JInt (out f [i] 1))]).
Definition virtualization (i : Z) : json + Z :=
  let f := "nvmlDeviceGetVirtualizationMode" in
  let mode := out f [i] 0 in
  checked f [i] (JStr (default ("MODE_" +:+ str_of_Z mode) (dget mode VIRTUALIZATION_NAMES))).
Definition capability (i : Z) : json + Z :=
  let f := "nvmlDeviceGetCudaComputeCapability" in
  checked f [i] (JStr (str_of_Z (out f [i] 0) +:+ "." +:+ str_of_Z (out f [i] 1))).

(** The fields a card reads, in their order, after its handle. *)
Definition readings (i : Z) (card : dict) : dict :=
  let card := attempt (F "F_NAME") (string_ "nvmlDeviceGetName" i) card in
  let card := attempt (F "F_UUID") (string_ "nvmlDeviceGetUUID" i) card in
  let card := attempt (F "F_SERIAL") (string_ "nvmlDeviceGetSerial" i) card in
  let memory := "nvmlDeviceGetMemoryInfo" in
  let card := both (F "F_MEMORY_TOTAL") (F "F_MEMORY_USED") "memory" memory i
                (JInt (mebibytes (out memory [i] 0))) (JInt (mebibytes (out memory [i] 2))) card in
  let card := attempt (F "F_CAPABILITY") (capability i) card in
  let card := attempt (F "F_POWER_LIMIT") (power "nvmlDeviceGetPowerManagementLimit" i) card in
  let card := attempt (F "F_POWER_DEFAULT") (power "nvmlDeviceGetPowerManagementDefaultLimit" i) card in
  let limits := "nvmlDeviceGetPowerManagementLimitConstraints" in
  let card := both (F "F_POWER_MIN") (F "F_POWER_MAX") "power_constraints" limits i
                (watts (out limits [i] 0)) (watts (out limits [i] 1)) card in
  let card := attempt (F "F_CLOCK_GRAPHICS") (uint "nvmlDeviceGetClockInfo" i [0%Z]) card in
  let card := attempt (F "F_CLOCK_SM") (uint "nvmlDeviceGetClockInfo" i [1%Z]) card in
  let card := attempt (F "F_CLOCK_MEMORY") (uint "nvmlDeviceGetClockInfo" i [2%Z]) card in
  let card := attempt (F "F_PCIE_WIDTH") (uint "nvmlDeviceGetCurrPcieLinkWidth" i []) card in
  let card := attempt (F "F_PCIE_GENERATION") (uint "nvmlDeviceGetCurrPcieLinkGeneration" i []) card in
  let rates := "nvmlDeviceGetUtilizationRates" in
  let card := both (F "F_UTILIZATION") (F "F_MEMORY_UTILIZATION") "utilization" rates i
                (JInt (out rates [i] 0)) (JInt (out rates [i] 1)) card in
  let card := attempt (F "F_MIG_MODE") (mig i) card in
  let card := attempt (F "F_VIRTUALIZATION") (virtualization i) card in
  let card := attempt (F "F_HOST_VGPU") (uint "nvmlDeviceGetHostVgpuMode" i []) card in
  let card := attempt (F "F_ECC") (uint "nvmlDeviceGetEccMode" i []) card in
  let card := attempt (F "F_PCI_BUS") (pci i) card in
  attempt (F "F_MINOR") (uint "nvmlDeviceGetMinorNumber" i []) card.

Definition note_call (name : string) (i : Z) (errors : list string) : list string :=
  let c := call name [i] in if (c =? 0)%Z then errors else note c errors.
Definition note_last (last : option Z) (errors : list string) : list string :=
  match last with Some c => note c errors | None => errors end.

(** The card, and [nvml.errors] after it. *)
Definition scrape_gpu (i : Z) (errors : list string) : dict * list string :=
  let card := dset (F "F_ERRORS") (JDict []) [(F "F_INDEX", JInt i)] in
  let handle := "nvmlDeviceGetHandleByIndex_v2" in
  let c := call handle [i] in
  if negb (c =? 0)%Z then (set_error "handle" (failure_name c) card, note c errors)
  else
    let card := readings i card in
    let errors := note_call "nvmlDeviceGetMemoryInfo" i errors in
    let '(compute, error, noted) := running_processes i "nvmlDeviceGetComputeRunningProcesses" "compute" in
    let card := note_error "compute_processes" error card in
    let errors := note_last noted errors in
    let '(graphics, error, noted) := running_processes i "nvmlDeviceGetGraphicsRunningProcesses" "graphics" in
    let card := note_error "graphics_processes" error card in
    let errors := note_last noted errors in
    (dset (F "F_PROCESSES") (JList (JDict <$> merged compute graphics)) card, errors).
End Nvml.

(** ** The library on the machine *)

Record Rig : Type := MkRig {
  machine : Machine;
  isfile : string → bool;
  isdir : string → bool;
  walk : list string;             (** directories under [/usr] with the library, in the order of [os.walk] *)
  load : string → Lib + string;   (** [ctypes.CDLL], or the text of its [OSError] *)
  md5 : string → string;
  device : string → option (Z * Z);   (** major and minor number of the device a path is on *)
  realpath : string → string;
  disk_usage : string → (Z * Z) + string;
  affinity : option Z;
  cpu_count : option Z;
  release : string; arch : string; hostname : string;
  which : string → option string;
  ld_preload : string;
  os_error : string → string      (** the text of the [OSError] of opening a path *) }.

Definition better (a b : string) : bool :=
  let key path := (negb (contains "x86_64" path) && negb (contains "lib64" path), slen path) in
  let '(p, n) := key a in let '(q, k) := key b in
  if Bool.eqb p q then (n <? k)%nat else negb p.

(** [found.sort(key=...); found[0]]: the first of the least ones *)
Fixpoint least (best : string) (l : list string) : string :=
  match l with
  | [] => best
  | x :: l' => least (if better x best then x else best) l'
  end.

Definition find_nvml (r : Rig) : string :=
  match List.find r.(isfile) NVML_CANDIDATES with
  | Some candidate => candidate
  | None =>
      match (λ base, base +:+ "/libnvidia-ml.so.1") <$> take 9 r.(walk) with
      | [] => ""
      | x :: l => least x l
      end
  end.

Definition file_hashes (r : Rig) (path : string) : dict :=
  if String.eqb path "" then [("path", JStr ""); ("error", JStr "not found")]
  else match r.(machine).(file) path with
       | None => [("path", JStr path); ("error", JStr (r.(os_error) path))]
       | Some raw => [("path", JStr path); ("size", JInt (Z.of_nat (slen raw)));
                      ("sha256", JStr (hex (sha256 raw))); ("md5", JStr (r.(md5) raw))]
       end.

(** [Nvml(path)]: the hashes of the library and the library, or the [OSError] *)
Definition open_nvml (r : Rig) (path : string) : (dict * Lib) + string :=
  match r.(machine).(file) path with
  | None => inr (r.(os_error) path)
  | Some _ => match r.(load) path with
              | inl lib => inl (file_hashes r path, lib)
              | inr text => inr text
              end
  end.

Definition version_of (lib : Lib) (name : string) : string :=
  if (call lib name [] =? 0)%Z then lib.(text) name [] else "".
Definition cuda_of (lib : Lib) : string :=
  match List.find (λ name, (call lib name [] =? 0)%Z)
          ["nvmlSystemGetCudaDriverVersion_v2"; "nvmlSystemGetCudaDriverVersion"] with
  | Some name => let v := out lib name [] 0 in str_of_Z (v / 1000) +:+ "." +:+ str_of_Z ((v mod 1000) / 10)
  | None => ""
  end.

Fixpoint scrape_cards (lib : Lib) (m : Machine) (F : string → string) (n : nat) (i : Z) (errors : list string)
    : list dict * list string :=
  match n with
  | O => ([], errors)
  | S n' => let '(card, errors) := scrape_gpu lib m F i errors in
            let '(cards, errors) := scrape_cards lib m F n' (i + 1)%Z errors in (card :: cards, errors)
  end.

(** What is known of the library besides the cards. *)
Definition nvml_fields (library driver cuda version : string) (hashes : dict) (errors : list string) (count : Z)
    (extra : dict) : dict :=
  [("library", JStr library); ("hashes", JDict hashes); ("errors", JList (JStr <$> errors));
   ("driver", JStr driver); ("cuda", JStr cuda); ("nvml_version", JStr version); ("count", JInt count)] ++ extra.

(** [scrape_nvml]: the result without its cards, and the cards *)
Definition scrape_nvml (r : Rig) (F : string → string) : dict * list dict :=
  let path := find_nvml r in
  if String.eqb path "" then (nvml_fields "" "" "" "" [] ["LIBRARY_NOT_FOUND"] 0 [], [])
  else match open_nvml r path with
  | inr text => (nvml_fields path "" "" "" [] ["LIBRARY_NOT_FOUND"] 0 [("load_error", JStr text)], [])
  | inl (hashes, lib) =>
      let c := call lib "nvmlInit_v2" [] in
      if negb (c =? 0)%Z then
        (nvml_fields path "" "" "" hashes (note c []) 0 [("init_error", JStr (lib.(error_text) c))], [])
      else
        let driver := version_of lib "nvmlSystemGetDriverVersion" in
        let version := version_of lib "nvmlSystemGetNVMLVersion" in
        let counting := "nvmlDeviceGetCount_v2" in
        let c := call lib counting [] in
        if negb (c =? 0)%Z then (nvml_fields path driver (cuda_of lib) version hashes (note c []) 0 [], [])
        else
          let count := out lib counting [] 0 in
          let '(cards, errors) := scrape_cards lib r.(machine) F (Z.to_nat count) 0 [] in
          (nvml_fields path driver (cuda_of lib) version hashes errors count [], cards)
  end.

(** ** The host *)

Definition set_field (fields : list (string * string)) (line : string) : list (string * string) :=
  if startswith "#" line then fields
  else match partition_first "=" line with
       | Some (key, value) =>
           dset (strip key) (rstrip_set (String dquote "") (lstrip_set (String dquote "") (strip value))) fields
       | None => fields
       end.
Definition os_release (m : Machine) : list (string * string) :=
  let text := sor (read m (HOST_ROOT +:+ "/etc/os-release") 8192) (read m "/etc/os-release" 8192) in
  foldl set_field [] (splitlines text).

(** [line.split(":", 1)[1]] raises on a line without a colon. *)
Definition cpu_facts (r : Rig) : res dict :=
  let info := read r.(machine) "/proc/cpuinfo" (Z.to_nat 1048576) in
  model ← match List.find (λ line, startswith "model name" (lower line)) (splitlines info) with
          | None => Ok ""
          | Some line => match partition_first ":" line with
                         | Some (_, value) => Ok (strip value)
                         | None => Raise IndexError
                         end
          end;
  let count := match r.(affinity) with Some n => n | None => default 0%Z r.(cpu_count) end in
  let load := split_ws (read r.(machine) "/proc/loadavg" 128) in
  mret [("model", JStr model); ("count", JInt count); ("load", JList (JStr <$> take 3 load))].

(** One line of meminfo; [x] is the total and the available memory so far. *)
Definition memory_line (x : Z * Z) (line : string) : Z * Z :=
  match second_number line, split_ws line with
  | Some n, word :: _ =>
      if String.eqb word "MemTotal:" then ((n / 1024)%Z, x.2)
      else if String.eqb word "MemAvailable:" then (x.1, (n / 1024)%Z) else x
  | _, _ => x
  end.
Definition memory_facts (m : Machine) : dict :=
  let '(total, available) := foldl memory_line (0%Z, 0%Z) (splitlines (read m "/proc/meminfo" 8192)) in
  [("total_mb", JInt total); ("available_mb", JInt available)].

(** [run(argv, timeout)]: the code, or none, and the two outputs *)
Definition run (m : Machine) (argv : list string) (timeout : Z) : option Z * string * string :=
  match m.(command) argv timeout with
  | Done code out err => (Some code, out, err)
  | Refused text => (None, "", text)
  end.
Definition succeeded (code : option Z) : bool := bool_decide (code = Some 0%Z).

Definition block_dir : string := "/sys/class/block".
Definition dirname (path : string) : string :=
  match after_rfind "/" path with
  | None => ""
  | Some base =>
      let head := stake (slen path - slen base) path in
      if sforall (Ascii.eqb "/"%char) head then head else rstrip_set "/" head
  end.

(** The flag of the disk behind a device of [/sys/class/block]. *)
Definition rotational_flag (r : Rig) (name : string) : json :=
  let real := r.(realpath) (block_dir +:+ "/" +:+ name) in
  let flag_of candidate := strip (read r.(machine) (candidate +:+ "/queue/rotational") 8) in
  match List.find (λ f, bool_decide (f ∈ ["0"; "1"])) [flag_of real; flag_of (dirname real)] with
  | Some flag => JBool (String.eqb flag "1")
  | None => JNull
  end.

(** The disks [lsblk] lists, when they are all of one kind. *)
Definition all_disks (m : Machine) : option bool :=
  let '(code, out, _) := run m ["lsblk"; "-d"; "-n"; "-o"; "NAME,ROTA,TYPE"] 10 in
  if negb (succeeded code) then None
  else
    let kinds := omap (λ line, match split_ws line with _ :: rota :: "disk" :: _ => Some rota | _ => None end)
                   (splitlines out) in
    match kinds with
    | [] => None
    | _ => if forallb (String.eqb "0") kinds then Some false
           else if forallb (String.eqb "1") kinds then Some true else None
    end.

Definition block_rotational (r : Rig) (path : string) : json * string :=
  match r.(device) path with
  | None => (JNull, "stat failed")
  | Some (major, minor) =>
      let wanted := str_of_Z major +:+ ":" +:+ str_of_Z minor in
      match r.(machine).(listdir) block_dir with
      | None => (JNull, "no sysfs")
      | Some names =>
          match List.find (λ name, String.eqb (strip (read r.(machine) (block_dir +:+ "/" +:+ name +:+ "/dev") 32)) wanted)
                  names with
          | Some name => (rotational_flag r name, name)
          | None => match all_disks r.(machine) with
                    | Some b => (JBool b, "lsblk all disks")
                    | None => (JNull, "unresolved " +:+ wanted)
                    end
          end
      end
  end.

(** [round(n / 1e9, 1)] *)
Definition gigabytes (n : Z) : res json := x ← float_of_int n; y ← fdiv x (fz 1000000000); mret (JFloat (fround 1 y)).

Definition disk_entry (r : Rig) (label path : string) : res dict :=
  if String.eqb path "" || negb (r.(isdir) path) then Ok []
  else match r.(disk_usage) path with
       | inr text => Ok [(label, JDict [("path", JStr path); ("error", JStr text)])]
       | inl (total, free) =>
           let '(rotational, method) := block_rotational r path in
           total ← gigabytes total; free ← gigabytes free;
           mret [(label, JDict [("path", JStr path); ("total_gb", total); ("free_gb", free);
                                ("rotational", rotational); ("method", JStr method)])]
       end.

(** [os.path.join(HOST_ROOT, docker_root.lstrip("/"))] *)
Definition under_root (docker_root : string) : string :=
  if String.eqb docker_root "" then "" else HOST_ROOT +:+ "/" +:+ lstrip_set "/" docker_root.

Definition disk_facts (r : Rig) (docker_root : string) : res dict :=
  root ← disk_entry r "root" (if r.(isdir) HOST_ROOT then HOST_ROOT else "/");
  docker ← disk_entry r "docker_root" (under_root docker_root);
  mret (root ++ docker).

(** ** Docker and the probes *)

(** [str(info.get(key, ""))] and the rest; [info] that is no object raises. *)
Definition docker_facts (m : Machine) : res dict :=
  let '(code, out, err) := run m ["docker"; "info"; "--format"; "{{json .}}"] 20 in
  if negb (succeeded code) || String.eqb (strip out) "" then
    Ok [("available", JBool false); ("error", JStr (stake 300 (strip (sor err "docker info failed"))))]
  else match m.(json_loads) out with
  | None => Ok [("available", JBool false); ("error", JStr "docker info is not JSON")]
  | Some (JDict info) =>
      runtimes ← get_items "Runtimes" info;
      Ok [("available", JBool true); ("server_version", JStr (get_str "ServerVersion" info));
          ("runtimes", JList (JStr <$> sorted runtimes.*1));
          ("default_runtime", JStr (get_str "DefaultRuntime" info)); ("driver", JStr (get_str "Driver" info));
          ("driver_status", jor (getv "DriverStatus" info) (JList []));
          ("root_dir", JStr (get_str "DockerRootDir" info)); ("cgroup_driver", JStr (get_str "CgroupDriver" info));
          ("cgroup_version", JStr (get_str "CgroupVersion" info));
          ("containers_running", getv "ContainersRunning" info); ("images", getv "Images" info)]
  | Some _ => Raise AttributeError
  end.

Definition own_container_id (m : Machine) : string :=
  sor (container_of (read m "/proc/self/cgroup" 4096))
      (container_of (read m "/proc/self/mountinfo" (Z.to_nat 65536))).

Definition probe_image (m : Machine) : string * string :=
  let own := own_container_id m in
  let inspected := if String.eqb own "" then ""
                   else let '(code, out, _) := run m ["docker"; "inspect"; "--format"; "{{.Image}}"; own] 15 in
                        if succeeded code then strip out else "" in
  if negb (String.eqb inspected "") then (inspected, "own container")
  else
    let '(code, out, _) := run m ["docker"; "images"; "-q"] 15 in
    match (if succeeded code then List.find (λ line, negb (String.eqb (strip line) "")) (splitlines out) else None) with
    | Some line => (strip line, "first local image")
    | None => ("", "no local image")
    end.

(** [times] are the two readings of the clock around the command. *)
Definition probe (m : Machine) (argv : list string) (marker : option string) (times : pyfloat * pyfloat) : dict :=
  let '(code, out, err) := run m argv PROBE_TIMEOUT in
  let ok := succeeded code && match marker with None => true | Some text => contains text out end in
  [("ok", JBool ok); ("code", Reality.code_json code); ("stdout", JStr (slast 300 (strip out)));
   ("stderr", JStr (slast 300 (strip err)));
   ("elapsed_ms", JFloat (fround 1 (fmul (fsub times.2 times.1) (fz 1000)))); ("command", JStr (join " " argv))].

(** [re.search] of the line of the journal: yes or no at the first place that has
    one of the two after the words. *)
Definition mounts_words : string := "ID-mapped mounts supported by kernel:".
Definition mounts_here (s : string) : option bool :=
  if startswith mounts_words s then
    let rest := lstrip_p is_space (sdrop (slen mounts_words) s) in
    if startswith "yes" rest then Some true else if startswith "no" rest then Some false else None
  else None.
Fixpoint mounts_in (s : string) : option bool :=
  match mounts_here s with
  | Some b => Some b
  | None => match s with "" => None | String _ s' => mounts_in s' end
  end.
(** The last line that says so. *)
Definition journal_verdict (lines : list string) : option bool := last (omap mounts_in lines).

Definition journals : list (list string) :=
  let argv := ["journalctl"; "-u"; "sysbox-mgr"; "-b"; "--no-pager"; "-o"; "cat"] in
  [["chroot"; HOST_ROOT] ++ argv; argv].

Fixpoint asked (m : Machine) (l : list (list string)) : option bool :=
  match l with
  | [] => None
  | argv :: l' =>
      let '(code, out, _) := run m argv 15 in
      match (if succeeded code then journal_verdict (splitlines out) else None) with
      | Some b => Some b
      | None => asked m l'
      end
  end.

(** Tuples compare entry by entry. *)
Definition idmapped_facts (m : Machine) (kernel : Z * Z) (runtimes : list string) : dict :=
  match asked m journals with
  | Some b => [("idmapped", JBool b); ("method", JStr "sysbox-mgr journal")]
  | None =>
      let recent := ((5 <? kernel.1) || ((kernel.1 =? 5) && (19 <=? kernel.2)))%Z in
      [("idmapped", JBool (recent && bool_decide ("sysbox-runc" ∈ runtimes)));
       ("method", JStr "kernel version and runtime presence")]
  end.

(** [re.match] of two numbers with a dot between them *)
Definition kernel_tuple (text : string) : Z * Z :=
  let '(a, rest) := take_while is_digit text in
  match rest with
  | String "." rest =>
      let '(b, _) := take_while is_digit rest in
      match parse_int a, parse_int b with Some a, Some b => (a, b) | _, _ => (0, 0)%Z end
  | _ => (0, 0)%Z
  end.

(** ** The payload *)

Definition host_facts (r : Rig) (docker : dict) : res dict :=
  let m := r.(machine) in
  let os := os_release m in
  let os_field key := default "" (dget key os) in
  let hostname := sor (strip (read m (HOST_ROOT +:+ "/etc/hostname") 256)) r.(hostname) in
  cpu ← cpu_facts r;
  disk ← disk_facts r (get_str "root_dir" docker);
  let '(major, minor) := kernel_tuple r.(release) in
  uptime ← of_option ValueError (parse_float (List.hd "0" (split_ws (read m "/proc/uptime" 64))));
  devices ← (if r.(isdir) "/dev" then of_option (OSError "/dev") (m.(listdir) "/dev") else Ok []);
  mret [("cpu", JDict cpu); ("memory", JDict (memory_facts m)); ("disk", JDict disk);
        ("os", JDict [("id", JStr (lower (os_field "ID"))); ("version", JStr (os_field "VERSION_ID"));
                      ("pretty", JStr (os_field "PRETTY_NAME"))]);
        ("kernel", JStr r.(release)); ("kernel_tuple", JList [JInt major; JInt minor]); ("arch", JStr r.(arch));
        ("hostname", JStr hostname); ("boot_id", JStr (strip (read m "/proc/sys/kernel/random/boot_id" 64)));
        ("machine_id", JStr (sor (strip (read m (HOST_ROOT +:+ "/etc/machine-id") 64))
                                 (strip (read m "/etc/machine-id" 64))));
        ("uptime_seconds", JFloat uptime);
        ("rm_profiling_admin_only", JStr (stake 800 (strip (read m "/proc/driver/nvidia/params" 4096))));
        ("nvidia_devices", JList (JStr <$> sorted (List.filter (startswith "nvidia") devices)));
        ("ld_preload", JStr r.(ld_preload)); ("python", JStr (List.hd "" (split_ws m.(python_version))));
        ("uid", JInt m.(uid_))].

Definition skipped (why : string) : dict := [("ok", JBool false); ("skipped", JStr why)].

(** The names of the runtimes docker listed. *)
Definition runtimes_of (docker : dict) : list string :=
  match getv "runtimes" docker with
  | JList l => omap (λ x, match x with JStr s => Some s | _ => None end) l
  | _ => []
  end.

Section Main.
Variable r : Rig.
Variable F : string → string.
(** The readings of the clock, numbered in their order, the bytes of
    [os.urandom] and the text of an exception. *)
Variable clock : nat → pyfloat.
Variable iv : list Z.
Variable str_exn : exn → string.

Definition probes (docker : dict) (kernel : Z * Z) : dict :=
  let m := r.(machine) in
  let '(image, source) := probe_image m in
  let runtimes := runtimes_of docker in
  let '(sysbox, quota) :=
    if negb (truthy (getv "available" docker)) then (skipped "docker unavailable", skipped "docker unavailable")
    else if String.eqb image "" then (skipped "no local image", skipped "no local image")
    else
      (if bool_decide ("sysbox-runc" ∈ runtimes)
       then probe m ["docker"; "run"; "--rm"; "--runtime=sysbox-runc"; "--gpus"; "all"; image; "nvidia-smi"; "-L"]
              (Some "GPU 0") (clock 1, clock 2)
       else skipped "sysbox-runc runtime not registered",
       probe m ["docker"; "run"; "--rm"; "--storage-opt"; "size=1g"; image; "true"] None (clock 3, clock 4)) in
  [("image", JStr image); ("image_source", JStr source); ("sysbox", JDict sysbox); ("storage_quota", JDict quota);
   ("idmapped", JDict (idmapped_facts m kernel runtimes))].

Definition hashes_of (nvml : dict) : dict :=
  [("nvidia_smi", JDict (file_hashes r (default "" (r.(which) "nvidia-smi"))));
   ("nvml", JDict (get_dict "hashes" nvml));
   ("docker", JDict (file_hashes r (default "" (r.(which) "docker"))))].

(** What is collected; an exception of any part ends the collection. *)
Definition collect : res dict :=
  let '(nvml, cards) := scrape_nvml r F in
  docker ← docker_facts r.(machine);
  host ← host_facts r docker;
  let checks := probes docker (kernel_tuple r.(release)) in
  mret [("version", JInt 1); ("collected_at", JFloat (fround 3 (clock 5)));
        ("elapsed_ms", JFloat (fround 1 (fmul (fsub (clock 6) (clock 0)) (fz 1000))));
        ("gpus", JList (JDict <$> cards)); ("nvml", JDict nvml); ("host", JDict host); ("docker", JDict docker);
        ("probes", JDict checks); ("hashes", JDict (hashes_of nvml))].

(** The exit code and what is printed. *)
Definition main : Z * string :=
  if negb (String.eqb r.(ld_preload) "") then
    (1%Z, dumps_spaced (JDict [("error", JStr "LD_PRELOAD is set")]) +:+ nls)
  else
    match (payload ← collect;
           now ← ftrunc (clock 7);
           fernet_encrypt (derive_key (FIELDS F)) (bytes_of (dumps (JDict payload))) iv now) with
    | Ok token => (0%Z, token +:+ nls)
    | Raise e => (1%Z, dumps_spaced (JDict [("error", JStr (str_exn e))]) +:+ nls)
    end.
End Main.
