(* ===== verification/RigFacts.v ===== *)
(** * What an honest machine prints is accepted

    The scrape payload ([RigScrape]) run under the names the validator drew, and
    the validator ([Scrape]) that reads its output: the key is the same on both
    sides, the one token found decrypts to what the payload collected, and the
    cards come back under the names of the file. *)

From Stdlib Require Import Ascii String QArith.
From S2P Require Import Prelude.
From S2P Require Import PyStr.
From S2P Require Import PyText.
From S2P Require Import PyFloat.
From S2P Require Import PyJson.
From S2P Require Import PyDump.
From S2P Require Import Sha256.
From S2P Require Import Keys.
From S2P Require Import Failures.
From S2P Require Import Runner.
From S2P Require Import Aes.
From S2P Require Import Fernet.
From S2P Require Import Checks.
From S2P Require Import RigHost.
From S2P Require Import RigScrape.
From S2P Require Scrape.
Local Open Scope string_scope.
Local Open Scope list_scope.

(** ** The names drawn *)

Definition NAMES : list string := CONSTANTS.*2.
(** The labels of errors that are no field. *)
Definition LABELS : list string :=
  ["handle"; "memory"; "power_constraints"; "utilization"; "compute_processes"; "graphics_processes"].

(** The values of the constants in the file. *)
Definition written (c : string) : string := default "" (dget c CONSTANTS).

Section Drawn.
Variable draw : nat → string.
Hypothesis draw_inj : ∀ i j, draw i = draw j → i = j.

Definition tokens : list string := (λ i, "_" +:+ draw i) <$> seq 0 (List.length CONSTANTS).
Definition pairs : list (string * string) := zip tokens NAMES.
(** The values of the constants in the text the validator sends. *)
Definition drawn (c : string) : string := default "" (dget c (zip CONSTANTS.*1 tokens)).

Lemma fields_drawn : FIELDS drawn = tokens.
Proof. reflexivity. Qed.

Lemma drawn_token : Forall (λ c, drawn c = Scrape.token_of pairs (written c)) CONSTANTS.*1.
Proof. repeat (constructor; [reflexivity|]). constructor. Qed.

Lemma token_drawn : Forall (λ f, ∃ i, NAMES !! i = Some f ∧ Scrape.token_of pairs f = "_" +:+ draw i) NAMES.
Proof.
  apply Forall_lookup_2. intros i f Hf. exists i. split; [done|].
  do 26 (destruct i as [|i]; [injection Hf as <-; reflexivity|]). discriminate.
Qed.

Lemma token_name f : f ∈ NAMES → ∃ i, NAMES !! i = Some f ∧ Scrape.token_of pairs f = "_" +:+ draw i.
Proof. intros Hf. pose proof token_drawn as H. rewrite Forall_forall in H. by apply H. Qed.

Lemma token_inj f f' : f ∈ NAMES → f' ∈ NAMES → Scrape.token_of pairs f = Scrape.token_of pairs f' → f = f'.
Proof.
  intros (i & Hi & ->)%token_name (j & Hj & ->)%token_name [= E]. apply draw_inj in E as ->. congruence.
Qed.

Lemma drawn_written c : c ∈ CONSTANTS.*1 → drawn c = Scrape.token_of pairs (written c) ∧ written c ∈ NAMES.
Proof.
  intros Hc. split; [pose proof drawn_token as H; rewrite Forall_forall in H; by apply H|].
  assert (Forall (λ c, bool_decide (written c ∈ NAMES) = true) CONSTANTS.*1) as H.
  { repeat (constructor; [reflexivity|]). constructor. }
  rewrite Forall_forall in H. by apply H, bool_decide_eq_true in Hc.
Qed.

(** ** Keys under another name *)

Definition map_keys (g : string → string) (d : dict) : dict := (λ kv, (g kv.1, kv.2)) <$> d.

Lemma dset_map_keys g k v d : (∀ k', k' ∈ dkeys d → g k' = g k → k' = k) →
  dset (g k) v (map_keys g d) = map_keys g (dset k v d).
Proof.
  induction d as [|[k' w] d IH]; intros Hg; [done|]. cbn [map_keys fmap list_fmap dset fst snd].
  assert (∀ k', k' ∈ dkeys d → g k' = g k → k' = k) as Hg' by (intros x Hx; apply Hg; by apply list_elem_of_further).
  destruct (decide (k = k')) as [<-|Hne]; [by rewrite decide_True|].
  rewrite decide_False.
  - cbn [fmap list_fmap fst snd]. f_equal. by apply IH.
  - intros E. apply Hne. symmetry. apply Hg; [apply list_elem_of_here|done].
Qed.

Lemma dget_map_keys g k d : (∀ k', k' ∈ dkeys d → g k' = g k → k' = k) →
  dget (g k) (map_keys g d) = dget k d.
Proof.
  induction d as [|[k' w] d IH]; intros Hg; [done|]. cbn [map_keys fmap list_fmap dget fst snd].
  destruct (decide (k = k')) as [<-|Hne]; [by rewrite decide_True|]. rewrite decide_False.
  - apply IH. intros x Hx. apply Hg. by apply list_elem_of_further.
  - intros E. apply Hne. symmetry. apply Hg; [apply list_elem_of_here|done].
Qed.

(** The names of the errors of a card: those of fields stay under the token. *)
Definition error_key (k : string) : string :=
  if String.eqb k "utilization" then k else Scrape.token_of pairs k.
Definition hide_errors (j : json) : json :=
  match j with JDict e => JDict (map_keys error_key e) | _ => j end.
Definition hide (card : dict) : dict :=
  (λ kv, (kv.1, if String.eqb kv.1 "errors" then hide_errors kv.2 else kv.2)) <$> card.

Lemma error_key_inj k k' : k ∈ NAMES ++ LABELS → k' ∈ NAMES ++ LABELS → error_key k = error_key k' → k = k'.
Proof.
  assert (∀ k, k ∈ NAMES ++ LABELS →
    error_key k = k ∧ k ∈ LABELS ∨ k ∈ NAMES ∧ error_key k = Scrape.token_of pairs k) as H.
  { intros x Hx. destruct (decide (x ∈ LABELS)) as [Hl|Hl]; [left|right].
    - split; [|done]. clear Hx. assert (Forall (λ x, error_key x = x) LABELS) as HF.
      { repeat (constructor; [reflexivity|]). constructor. }
      rewrite Forall_forall in HF. by apply HF.
    - apply elem_of_app in Hx as [Hx|?]; [|done]. split; [done|]. unfold error_key.
      destruct (String.eqb_spec x "utilization") as [->|]; [|done].
      destruct Hl. by apply (bool_decide_eq_true_1 ("utilization" ∈ LABELS)). }
  assert (∀ k i, k ∈ LABELS → k ≠ "_" +:+ draw i) as Hlab.
  { intros x i Hx ->. assert (Forall (λ x, String.prefix "_" x = false) LABELS) as HF.
    { repeat (constructor; [reflexivity|]). constructor. }
    rewrite Forall_forall in HF. apply HF in Hx. cbn in Hx. by destruct (draw i). }
  intros [(Ek & Hk)|(Hk & Ek)]%H [(Ek' & Hk')|(Hk' & Ek')]%H; rewrite Ek, Ek'; [done|..].
  - destruct (token_name _ Hk') as (i & _ & ->). intros E. by destruct (Hlab k i).
  - destruct (token_name _ Hk) as (i & _ & ->). intros E. by destruct (Hlab k' i).
  - by apply token_inj.
Qed.

(** ** A card under the two sets of names *)

Record sim (card card0 : dict) : Prop := {
  sim_eq : card = Scrape.rename_card pairs (hide card0);
  sim_keys : ∀ k, k ∈ dkeys card0 → k ∈ NAMES;
  sim_nodup : NoDup (dkeys card0);
  sim_errors : ∃ e, dget "errors" card0 = Some (JDict e) ∧ ∀ k, k ∈ dkeys e → k ∈ NAMES ++ LABELS }.

Lemma hide_dset k v card : hide (dset k v card) =
  dset k (if String.eqb k "errors" then hide_errors v else v) (hide card).
Proof.
  induction card as [|[k' w] card IH]; cbn [dset hide fmap list_fmap fst snd]; [done|].
  destruct (decide (k = k')) as [<-|Hne]; cbn [hide fmap list_fmap fst snd]; [done|]. f_equal. apply IH.
Qed.

Lemma dkeys_hide card : dkeys (hide card) = dkeys card.
Proof. unfold dkeys, hide. rewrite <- list_fmap_compose. by apply list_fmap_ext. Qed.

Lemma sim_dset card card0 c v v0 :
  sim card card0 → c ∈ CONSTANTS.*1 →
  v = (if String.eqb (written c) "errors" then hide_errors v0 else v0) →
  (written c = "errors" → ∃ e, v0 = JDict e ∧ ∀ k, k ∈ dkeys e → k ∈ NAMES ++ LABELS) →
  sim (dset (drawn c) v card) (dset (written c) v0 card0).
Proof.
  intros [-> Hk Hn (e & He & Hke)] Hc -> Herr. destruct (drawn_written c Hc) as [-> Hw]. split.
  - rewrite hide_dset. change (Scrape.rename_card pairs) with (map_keys (Scrape.token_of pairs)).
    apply dset_map_keys. rewrite dkeys_hide. intros k' Hk' E. apply token_inj; auto.
  - intros k. rewrite dkeys_dset. destruct (dmem (written c) card0); [apply Hk|].
    rewrite elem_of_app, list_elem_of_singleton. intros [?| ->]; auto.
  - by apply NoDup_dset.
  - destruct (decide (written c = "errors")) as [E|Hne].
    + destruct (Herr E) as (e' & -> & He'). exists e'. rewrite E. by rewrite dget_dset.
    + exists e. by rewrite dget_dset_ne.
Qed.

(** Another field than the errors. *)
Lemma sim_field card card0 c v : sim card card0 → c ∈ CONSTANTS.*1 → String.eqb (written c) "errors" = false →
  sim (dset (drawn c) v card) (dset (written c) v card0).
Proof.
  intros Hs Hc Hne. apply sim_dset; [done|done|by rewrite Hne|]. intros E. by rewrite E in Hne.
Qed.

Lemma sim_set_error card card0 label label0 name : sim card card0 →
  label0 ∈ NAMES ++ LABELS → label = error_key label0 →
  sim (set_error drawn label name card) (set_error written label0 name card0).
Proof.
  intros Hs Hl ->. unfold set_error. pose proof Hs as [Ec Hk Hn (e & He & Hke)].
  assert (get_dict (written "F_ERRORS") card0 = e) as E0.
  { change (written "F_ERRORS") with "errors". unfold get_dict, getv, getd. by rewrite He. }
  assert (get_dict (drawn "F_ERRORS") card = map_keys error_key e) as E1.
  { unfold get_dict, getv, getd. destruct (drawn_written "F_ERRORS") as [-> Hw]; [by apply (bool_decide_eq_true_1 (_ ∈ _))|].
    rewrite Ec. change (Scrape.rename_card pairs) with (map_keys (Scrape.token_of pairs)).
    rewrite dget_map_keys by (rewrite dkeys_hide; intros; apply token_inj; auto).
    change (written "F_ERRORS") with "errors". clear -He. induction card0 as [|[k v] card0 IH]; [done|].
    cbn [hide fmap list_fmap dget fst snd] in *. destruct (decide ("errors" = k)) as [<-|]; [by injection He as ->|by apply IH]. }
  rewrite E0, E1. apply sim_dset; [done|by apply (bool_decide_eq_true_1 (_ ∈ _))|..].
  - cbn. f_equal. apply dset_map_keys. intros k' Hk' E. apply error_key_inj; auto.
  - intros _. eexists. split; [done|]. intros k. rewrite dkeys_dset. destruct (dmem label0 e); [apply Hke|].
    rewrite elem_of_app, list_elem_of_singleton. intros [?| ->]; auto.
Qed.

Definition plain_field (c : string) : bool :=
  bool_decide (c ∈ CONSTANTS.*1) && negb (String.eqb (written c) "errors").

Lemma sim_plain card card0 c v : sim card card0 → plain_field c = true → sim (dset (drawn c) v card) (dset (written c) v card0).
Proof. intros Hs [Hc%bool_decide_eq_true Hp%negb_true_iff]%andb_true_iff. by apply sim_field. Qed.

Lemma sim_attempt card card0 c action : sim card card0 → plain_field c = true →
  negb (String.eqb (written c) "utilization") = true →
  sim (attempt drawn (drawn c) action card) (attempt written (written c) action card0).
Proof.
  intros Hs Hp Hu. unfold attempt. destruct action as [v|code]; [by apply sim_plain|].
  apply andb_true_iff in Hp as [Hc%bool_decide_eq_true Hp]. destruct (drawn_written c Hc) as [E Hw].
  apply sim_set_error.
  - apply sim_plain; [done|]. unfold plain_field. by rewrite bool_decide_eq_true_2.
  - apply elem_of_app. by left.
  - unfold error_key. apply negb_true_iff in Hu. by rewrite Hu.
Qed.

Lemma sim_label card card0 label name : sim card card0 → label ∈ LABELS → error_key label = label →
  sim (set_error drawn label name card) (set_error written label name card0).
Proof. intros Hs Hl E. apply sim_set_error; [done|apply elem_of_app; by right|by rewrite E]. Qed.

Lemma sim_both lib card card0 c c' label name i v v' : sim card card0 → plain_field c = true → plain_field c' = true →
  label ∈ LABELS → error_key label = label →
  sim (both lib drawn (drawn c) (drawn c') label name i v v' card)
      (both lib written (written c) (written c') label name i v v' card0).
Proof.
  intros Hs Hc Hc' Hl E. unfold both. destruct (call lib name [i] =? 0)%Z; [by repeat apply sim_plain|].
  apply sim_label; [by repeat apply sim_plain|done|done].
Qed.

Lemma sim_readings lib i card card0 : sim card card0 →
  sim (readings lib drawn i card) (readings lib written i card0).
Proof.
  intros Hs. unfold readings.
  repeat first [apply sim_attempt; [|reflexivity|reflexivity]
               |apply sim_both; [|reflexivity|reflexivity|by apply (bool_decide_eq_true_1 (_ ∈ _))|reflexivity]].
  exact Hs.
Qed.

Lemma sim_note_error label error card card0 : sim card card0 → label ∈ LABELS → error_key label = label →
  sim (note_error drawn label error card) (note_error written label error card0).
Proof. intros Hs Hl E. unfold note_error. destruct (String.eqb error ""); [done|]. by apply sim_label. Qed.

(** A card read under the drawn names is the card read under the names of the
    file, with the names drawn for its keys and for those of its errors. *)
Lemma sim_scrape_gpu lib m i errors :
  sim (scrape_gpu lib m drawn i errors).1 (scrape_gpu lib m written i errors).1 ∧
  (scrape_gpu lib m drawn i errors).2 = (scrape_gpu lib m written i errors).2.
Proof.
  assert (sim (dset (drawn "F_ERRORS") (JDict []) [(drawn "F_INDEX", JInt i)])
              (dset (written "F_ERRORS") (JDict []) [(written "F_INDEX", JInt i)])) as H0.
  { split.
    - transitivity [(drawn "F_INDEX", JInt i); (drawn "F_ERRORS", JDict [])]; [|reflexivity].
      cbn [dset]. rewrite decide_False; [done|]. intros E. change ("_" +:+ draw 25 = "_" +:+ draw 0) in E.
      injection E as E. by apply draw_inj in E.
    - intros k Hk. change (k ∈ ["index"; "errors"]) in Hk. rewrite !elem_of_cons in Hk.
      destruct Hk as [->|[->|Hk%elem_of_nil]]; [by apply (bool_decide_eq_true_1 (_ ∈ _))..|done].
    - by apply (bool_decide_eq_true_1 (NoDup ["index"; "errors"])).
    - exists []. split; [done|]. by intros k ?%elem_of_nil. }
  unfold scrape_gpu. destruct (negb _).
  - cbn [fst snd]. split; [|done]. apply sim_label; [done|by apply (bool_decide_eq_true_1 (_ ∈ _))|done].
  - destruct (running_processes lib m i "nvmlDeviceGetComputeRunningProcesses" "compute") as [[compute e1] n1].
    destruct (running_processes lib m i "nvmlDeviceGetGraphicsRunningProcesses" "graphics") as [[graphics e2] n2].
    cbn [fst snd]. split; [|done]. apply sim_plain; [|done].
    apply sim_note_error; [|by apply (bool_decide_eq_true_1 (_ ∈ _))|done].
    apply sim_note_error; [|by apply (bool_decide_eq_true_1 (_ ∈ _))|done].
    by apply sim_readings.
Qed.

Lemma sim_scrape_cards lib m n : ∀ i errors,
  Forall2 sim (scrape_cards lib m drawn n i errors).1 (scrape_cards lib m written n i errors).1 ∧
  (scrape_cards lib m drawn n i errors).2 = (scrape_cards lib m written n i errors).2.
Proof.
  induction n as [|n IH]; intros i errors; cbn [scrape_cards fst snd]; [split; [apply Forall2_nil_2|reflexivity]|].
  destruct (sim_scrape_gpu lib m i errors) as [Hs He].
  destruct (scrape_gpu lib m drawn i errors) as [card es], (scrape_gpu lib m written i errors) as [card0 es0].
  cbn in Hs, He. subst es0. specialize (IH (i + 1)%Z es).
  destruct (scrape_cards lib m drawn n (i + 1) es) as [cards es1], (scrape_cards lib m written n (i + 1) es) as [cards0 es2].
  cbn in *. destruct IH as [Hc ->]. split; [by constructor|done].
Qed.

(** What is known of the library does not depend on the names. *)
Lemma sim_scrape_nvml r :
  Forall2 sim (scrape_nvml r drawn).2 (scrape_nvml r written).2 ∧ (scrape_nvml r drawn).1 = (scrape_nvml r written).1.
Proof.
  unfold scrape_nvml. destruct (String.eqb (find_nvml r) ""); [by split; [constructor|]|].
  destruct (open_nvml r (find_nvml r)) as [[hashes lib]|text]; [|by split; [constructor|]].
  destruct (negb (call lib "nvmlInit_v2" [] =? 0)%Z); [by split; [constructor|]|]. cbv zeta.
  destruct (negb (call lib "nvmlDeviceGetCount_v2" [] =? 0)%Z); [by split; [constructor|]|].
  destruct (sim_scrape_cards lib (machine r) (Z.to_nat (out lib "nvmlDeviceGetCount_v2" [] 0)) 0 []) as [Hc He].
  destruct (scrape_cards lib (machine r) drawn _ 0 []) as [cards es], (scrape_cards lib (machine r) written _ 0 []) as [cards0 es0].
  cbn in *. by subst.
Qed.

(** The card is read back under the names of the file, but its errors are not. *)
Lemma sim_restored card card0 : sim card card0 → Scrape.restore_card pairs card = hide card0.
Proof.
  intros [-> Hk Hn _]. apply Scrape.restore_card_spec.
  - unfold pairs. rewrite fst_zip by done. unfold tokens. apply NoDup_fmap_2_strong; [|apply NoDup_seq].
    intros i j _ _ [= E]. by apply draw_inj.
  - by rewrite dkeys_hide.
  - intros k. rewrite dkeys_hide. intros Hk'%Hk. unfold pairs. rewrite fst_zip by done.
    intros Hin. apply list_elem_of_fmap in Hin as (i & -> & _).
    assert (Forall (λ x, String.prefix "_" x = false) NAMES) as HF.
    { repeat (constructor; [reflexivity|]). constructor. }
    rewrite Forall_forall in HF. apply HF in Hk'. cbn in Hk'. by destruct (draw i).
Qed.

(** ** The text and its key *)

Lemma rewrite_lines_fields lines : ∀ k ls ps, Scrape.rewrite_lines draw k lines = (ls, ps) →
  ps.*2 = (omap Scrape.field_line lines).*2.
Proof.
  induction lines as [|line lines IH]; intros k ls ps; cbn [Scrape.rewrite_lines omap list_omap]; [by intros [= <- <-]|].
  destruct (Scrape.field_line line) as [[constant field]|].
  - destruct (Scrape.rewrite_lines draw (S k) lines) as [ls' ps'] eqn:E. intros [= <- <-].
    cbn [fmap list_fmap snd]. f_equal. by apply IH in E.
  - destruct (Scrape.rewrite_lines draw k lines) as [ls' ps'] eqn:E. intros [= <- <-]. by apply IH in E.
Qed.

Lemma pairs_fst : pairs.*1 = tokens.
Proof. reflexivity. Qed.

Lemma tokens_nodup : NoDup tokens.
Proof.
  unfold tokens. apply NoDup_fmap_2_strong; [|apply NoDup_seq]. intros i j _ _ [= E]. by apply draw_inj.
Qed.

(** The validator and the payload agree on the names and on the key. *)
Lemma obfuscate_drawn original prepared :
  Scrape.obfuscate draw original = Ok prepared → omap Scrape.field_line (split_on nls original) = CONSTANTS →
  Scrape.names prepared = pairs ∧ Scrape.key prepared = derive_key (FIELDS drawn).
Proof.
  unfold Scrape.obfuscate. destruct (Scrape.rewrite_lines draw 0 (split_on nls original)) as [ls ps] eqn:E.
  intros Ho Hf. pose proof (rewrite_lines_fields _ _ _ _ E) as E2. rewrite Hf in E2.
  pose proof (Scrape.rewrite_lines_tokens _ _ _ _ _ E) as E1.
  assert (List.length ps = List.length CONSTANTS) as Hl by (rewrite <- (length_fmap snd ps), E2; apply length_fmap).
  rewrite Hl in E1. assert (ps = pairs) as ->.
  { rewrite <- (zip_fst_snd ps), E1, E2. done. }
  rewrite fields_drawn. assert (Ok (Scrape.MkObfuscated (join nls ls) (foldl (λ d kv, dset kv.1 kv.2 d) [] pairs)
    (b64url_padded (bytes_of (sha256 (String.concat "" pairs.*1))))) = Ok prepared) as <-%Ok_inj by exact Ho.
  cbn [Scrape.names Scrape.key]. split; [|done].
  apply (Scrape.foldl_dset_fresh pairs []). cbn [dkeys fmap list_fmap app]. rewrite pairs_fst. apply tokens_nodup.
Qed.
End Drawn.

(** ** The output *)

Lemma url_spaceless s : url_text s = true → spaceless s = true.
Proof.
  apply sforall_impl. intros c. destruct c as [[] [] [] [] [] [] [] []]; vm_compute; congruence.
Qed.
Lemma url_no_break s : url_text s = true → no_break s = true.
Proof.
  apply sforall_impl. intros c. destruct c as [[] [] [] [] [] [] [] []]; vm_compute; congruence.
Qed.
Lemma url_ascii s : url_text s = true → Scrape.is_ascii s = true.
Proof.
  apply sforall_impl. intros c. destruct c as [[] [] [] [] [] [] [] []]; vm_compute; congruence.
Qed.

Lemma slast_all n s : (slen s <= n)%nat → slast n s = s.
Proof. intros H. unfold slast. replace (slen s - n)%nat with 0%nat by lia. apply sdrop_0. Qed.

(** One token on one line is the one candidate, and no error. *)
Lemma candidates_token loads token : url_text token = true → startswith "gAAAAA" token = true →
  (slen (token +:+ nls) <= Scrape.SCAN_BYTES)%nat →
  Scrape.candidates (token +:+ nls) = [token] ∧ Scrape.error_line loads (token +:+ nls) = "".
Proof.
  intros Hs Hp Hn. assert (Scrape.last_lines (token +:+ nls) = [token]) as E.
  { unfold Scrape.last_lines. rewrite slast_all by done. change (token +:+ nls) with (text_of [token]).
    rewrite splitlines_text by (constructor; [by apply url_no_break|done]).
    cbn [rev app fmap list_fmap]. rewrite strip_no_space; [done|]. by apply url_spaceless. }
  unfold Scrape.candidates, Scrape.error_line. rewrite E. split.
  - cbn [List.filter]. change Scrape.TOKEN_PREFIX with "gAAAAA". by rewrite Hp.
  - cbn [Scrape.reported]. apply prefix_spec in Hp as [rest ->]. done.
Qed.

(** ** The specification of an honest machine *)

(** The memory a card reports is a number, or nothing. *)
Definition number_at (k : string) (card : dict) : Prop :=
  ∀ v, dget k card = Some v → v = JNull ∨ ∃ z, v = JInt z.

Lemma number_dset k k' v card : number_at k card → k' ≠ k → number_at k (dset k' v card).
Proof. intros H Hne w. rewrite dget_dset_ne by done. apply H. Qed.

Lemma number_attempt k F field action card : number_at k card → field ≠ k → F "F_ERRORS" ≠ k →
  number_at k (attempt F field action card).
Proof.
  intros H Hf He. unfold attempt, set_error. destruct action; by repeat apply number_dset.
Qed.

Lemma number_error k F label name card : number_at k card → F "F_ERRORS" ≠ k → number_at k (set_error F label name card).
Proof. intros. by apply number_dset. Qed.

Lemma number_both k lib F field field' label name i v v' card : number_at k card →
  F "F_ERRORS" ≠ k → (field = k → ∃ z, v = JInt z) → (field' = k → ∃ z, v' = JInt z) →
  number_at k (both lib F field field' label name i v v' card).
Proof.
  intros H He Hv Hv'. unfold both.
  assert (∀ w x d, number_at k d → (x = k → w = JNull ∨ ∃ z, w = JInt z) → number_at k (dset x w d)) as Hset.
  { intros w x d Hd Hw. destruct (decide (x = k)) as [->|]; [|by apply number_dset].
    intros u. rewrite dget_dset. intros [= <-]. by apply Hw. }
  destruct (call lib name [i] =? 0)%Z; [|apply number_error; [|done]]; repeat apply Hset; auto.
Qed.

Lemma number_card lib m i errors : number_at "memory_total_mb" (scrape_gpu lib m written i errors).1.
Proof.
  assert (number_at "memory_total_mb" (dset (written "F_ERRORS") (JDict []) [(written "F_INDEX", JInt i)])) as H0 by (intros v H; by vm_compute in H).
  unfold scrape_gpu. destruct (negb _); [by apply number_error|].
  destruct (running_processes lib m i "nvmlDeviceGetComputeRunningProcesses" "compute") as [[compute e1] n1].
  destruct (running_processes lib m i "nvmlDeviceGetGraphicsRunningProcesses" "graphics") as [[graphics e2] n2].
  cbn [fst]. apply number_dset; [|done]. unfold note_error.
  assert (number_at "memory_total_mb" (readings lib written i (dset (written "F_ERRORS") (JDict []) [(written "F_INDEX", JInt i)]))) as Hr.
  { unfold readings. repeat first [apply number_attempt; [|done|done]
      |apply number_both; [|done|by eauto|by eauto]
      |apply number_both; [|done|intros E; by vm_compute in E|intros E; by vm_compute in E]]. exact H0. }
  destruct (String.eqb e1 ""), (String.eqb e2 ""); repeat apply number_error; done.
Qed.

Lemma number_cards lib m n : ∀ i errors, Forall (number_at "memory_total_mb") (scrape_cards lib m written n i errors).1.
Proof.
  induction n as [|n IH]; intros i errors; cbn [scrape_cards fst]; [apply Forall_nil_2|].
  pose proof (number_card lib m i errors) as Hc. destruct (scrape_gpu lib m written i errors) as [card es].
  specialize (IH (i + 1)%Z es). destruct (scrape_cards lib m written n (i + 1) es) as [cards es'].
  cbn [fst] in *. by apply Forall_cons.
Qed.

Lemma number_nvml r : Forall (number_at "memory_total_mb") (scrape_nvml r written).2.
Proof.
  unfold scrape_nvml. destruct (String.eqb (find_nvml r) ""); [apply Forall_nil_2|].
  destruct (open_nvml r (find_nvml r)) as [[hashes lib]|text]; [|apply Forall_nil_2].
  destruct (negb (call lib "nvmlInit_v2" [] =? 0)%Z); [apply Forall_nil_2|]. cbv zeta.
  destruct (negb (call lib "nvmlDeviceGetCount_v2" [] =? 0)%Z); [apply Forall_nil_2|].
  pose proof (number_cards lib (machine r) (Z.to_nat (out lib "nvmlDeviceGetCount_v2" [] 0)) 0 []) as H.
  by destruct (scrape_cards lib (machine r) written _ 0 []).
Qed.

Lemma dget_hide draw k card : k ≠ "errors" → dget k (hide draw card) = dget k card.
Proof.
  intros Hk. induction card as [|[k' v] card IH]; [done|]. cbn [hide fmap list_fmap dget fst snd].
  destruct (decide (k = k')) as [<-|]; [|apply IH]. apply String.eqb_neq in Hk. by rewrite Hk.
Qed.

(** The cards of a specification are read without an exception. *)
Lemma spec_gpus_ok cards : Forall (number_at "memory_total_mb") cards → is_ok (Scrape.spec_gpus (JDict <$> cards)) = true.
Proof.
  induction 1 as [|card cards Hc _ IH]; [done|]. cbn [fmap list_fmap Scrape.spec_gpus jget mbind res_bind].
  destruct (Scrape.spec_gpus (JDict <$> cards)) as [rest|] eqn:E; [|done].
  destruct (negb (truthy (getd "uuid" JNull card))); [done|].
  cbn [Scrape.jtext jget mbind res_bind mret res_ret].
  assert (∃ z, py_int (jor (getd "memory_total_mb" JNull card) (JInt 0)) = Ok z) as [z ->]; [|done].
  unfold getd. destruct (dget "memory_total_mb" card) as [v|] eqn:Ev; [|by eexists].
  destruct (Hc v Ev) as [->|[z ->]]; [by eexists|]. cbv [default from_option id].
  unfold jor. destruct (truthy (JInt z)); by eexists.
Qed.

(** A value that [x.get] can be asked: an object. *)
Lemma collect_shape r F clock payload : collect r F clock = Ok payload →
  ∃ docker host,
    docker_facts r.(machine) = Ok docker ∧ host_facts r docker = Ok host ∧
    payload = [("version", JInt 1); ("collected_at", JFloat (fround 3 (clock 5%nat)));
        ("elapsed_ms", JFloat (fround 1 (fmul (fsub (clock 6%nat) (clock 0%nat)) (fz 1000))));
        ("gpus", JList (JDict <$> (scrape_nvml r F).2)); ("nvml", JDict (scrape_nvml r F).1); ("host", JDict host);
        ("docker", JDict docker); ("probes", JDict (probes r clock docker (kernel_tuple r.(release))));
        ("hashes", JDict (hashes_of r (scrape_nvml r F).1))].
Proof.
  unfold collect. destruct (scrape_nvml r F) as [nvml cards]. intros E.
  apply res_bind_ok in E as (docker & Hd & E). apply res_bind_ok in E as (host & Hh & E).
  exists docker, host. split; [done|]. split; [done|]. symmetry. by apply Ok_inj.
Qed.

(** An entry of the disks: an object whose size, if it has one, is a float. *)
Definition disk_like (v : json) : Prop :=
  ∃ e, v = JDict e ∧ (getd "total_gb" JNull e = JNull ∨ ∃ x, getd "total_gb" JNull e = JFloat x).

Lemma disk_entry_like r label path l : disk_entry r label path = Ok l →
  l = [] ∨ ∃ v, l = [(label, v)] ∧ disk_like v.
Proof.
  unfold disk_entry. destruct (_ || _); [intros [= <-]; by left|].
  destruct (disk_usage r path) as [[total free]|text].
  - destruct (block_rotational r path) as [rot how]. intros E. right.
    apply res_bind_ok in E as (t & Et & E). apply res_bind_ok in E as (f & _ & E).
    apply Ok_inj in E as <-. eexists. split; [done|]. eexists. split; [done|]. right.
    unfold gigabytes in Et. apply res_bind_ok in Et as (x & _ & Et). apply res_bind_ok in Et as (y & _ & Et).
    apply Ok_inj in Et as <-. by eexists.
  - intros <-%Ok_inj. right. eexists. split; [done|]. eexists. split; [done|]. by left.
Qed.

(** What the specification reads of the host. *)
Lemma host_shape r docker host : host_facts r docker = Ok host →
  ∃ disk n model load ram os_id os_version,
    getv "disk" host = JDict disk ∧ (∀ k v, dget k disk = Some v → disk_like v) ∧
    getv "cpu" host = JDict [("model", JStr model); ("count", JInt n); ("load", JList load)] ∧
    (∃ free, getv "memory" host = JDict [("total_mb", JInt ram); ("available_mb", JInt free)]) ∧
    (∃ pretty, getv "os" host = JDict [("id", JStr os_id); ("version", JStr os_version); ("pretty", JStr pretty)]).
Proof.
  unfold host_facts. intros E. apply res_bind_ok in E as (cpu & Hcpu & E).
  apply res_bind_ok in E as (disk & Hdisk & E). destruct (kernel_tuple (release r)) as [major minor].
  apply res_bind_ok in E as (uptime & _ & E). apply res_bind_ok in E as (devices & _ & E). apply Ok_inj in E as <-.
  unfold cpu_facts in Hcpu. apply res_bind_ok in Hcpu as (model & _ & Hcpu). apply Ok_inj in Hcpu as <-.
  unfold disk_facts in Hdisk. apply res_bind_ok in Hdisk as (d1 & H1 & Hdisk).
  apply res_bind_ok in Hdisk as (d2 & H2 & Hdisk). apply Ok_inj in Hdisk as <-.
  destruct (memory_facts (machine r)) as [|[k1 v1] l1] eqn:Em; unfold memory_facts in Em;
    destruct (foldl memory_line (0%Z, 0%Z) _) as [total available]; [discriminate|].
  exists (d1 ++ d2). eexists _, _, _, total, _, _. split; [reflexivity|]. split; [|split; [reflexivity|]].
  - intros k v Hv%dget_elem. apply elem_of_app in Hv as [Hv|Hv].
    + apply disk_entry_like in H1 as [->|(w & -> & Hw)]; [by apply elem_of_nil in Hv|].
      apply list_elem_of_singleton in Hv as [= -> ->]. done.
    + apply disk_entry_like in H2 as [->|(w & -> & Hw)]; [by apply elem_of_nil in Hv|].
      apply list_elem_of_singleton in Hv as [= -> ->]. done.
  - split; [exists available; by rewrite Em|]. by eexists.
Qed.

Lemma jget_dict k dflt d : jget k dflt (JDict d) = Ok (getd k dflt d).
Proof. reflexivity. Qed.

Lemma disk_reads disk : (∀ k v, dget k disk = Some v → disk_like v) →
  ∃ e, (if truthy (getd "docker_root" JNull disk) then Ok (getd "docker_root" JNull disk)
        else Scrape.jget_or "root" (JDict disk)) = Ok (JDict e) ∧
    (getd "total_gb" JNull e = JNull ∨ ∃ x, getd "total_gb" JNull e = JFloat x).
Proof.
  intros Hd. unfold Scrape.jget_or. rewrite jget_dict. cbn [mbind res_bind mret res_ret].
  assert (∀ k, getd k JNull disk = JNull ∨ disk_like (getd k JNull disk)) as H.
  { intros k. unfold getd. destruct (dget k disk) as [v|] eqn:E; [right; by eapply Hd|by left]. }
  destruct (H "docker_root") as [->|(e & -> & He)].
  2:{ destruct (truthy (JDict e)) eqn:T; [by exists e|]. destruct (H "root") as [->|(e' & -> & He')]; [exists []; split; [done|by left]|].
      unfold jor. destruct (truthy (JDict e')); [by exists e'|exists []; split; [done|by left]]. }
  cbn [truthy]. destruct (H "root") as [->|(e' & -> & He')]; [exists []; split; [done|by left]|].
  unfold jor. destruct (truthy (JDict e')); [by exists e'|exists []; split; [done|by left]].
Qed.

Lemma docker_runtimes m docker : docker_facts m = Ok docker →
  ∃ l, py_iter (jor (getd "runtimes" JNull docker) (JList [])) = Ok l.
Proof.
  unfold docker_facts. destruct (run m _ 20) as [[code out] err]. destruct (_ || _); [intros <-%Ok_inj; by eexists|].
  destruct (json_loads m out) as [[]|]; try discriminate; [|intros <-%Ok_inj; by eexists].
  intros E. apply res_bind_ok in E as (runtimes & _ & E). apply Ok_inj in E as <-.
  assert (∀ l, ∃ l', py_iter (jor (JList l) (JList [])) = Ok l') as H by (intros []; by eexists).
  apply (H (JStr <$> sorted runtimes.*1)).
Qed.

Lemma probes_shape r clock docker kernel :
  ∃ sysbox quota idmapped, let checks := probes r clock docker kernel in
    getd "sysbox" JNull checks = JDict sysbox ∧ getd "storage_quota" JNull checks = JDict quota ∧
    getd "idmapped" JNull checks = JDict idmapped.
Proof.
  unfold probes. destruct (probe_image (machine r)) as [image source].
  match goal with |- context [let '(_, _) := ?x in _] => destruct x as [sysbox quota] end.
  by eexists _, _, _.
Qed.

Lemma jflag_ok k k' d e : getd k JNull d = JDict e → is_ok (Scrape.jflag k k' (JDict d)) = true.
Proof.
  intros E. unfold Scrape.jflag, Scrape.jget_or. rewrite jget_dict, E. cbn [mbind res_bind mret res_ret].
  rewrite jor_dict. by rewrite jget_dict.
Qed.

(** The specification of what was collected, with any cards whose memory is a
    number, is built without an exception. *)
Lemma build_spec_collected r F clock payload cards address port_range :
  collect r F clock = Ok payload → Forall (number_at "memory_total_mb") cards →
  is_ok (Scrape.build_spec (dset "gpus" (JList (JDict <$> cards)) payload) address port_range) = true.
Proof.
  intros Hc Hn. apply collect_shape in Hc as (docker & host & Hd & Hh & ->).
  apply host_shape in Hh as (disk & n & model & load & ram & osid & osv & E1 & Hdisk & E2 & [free E3] & [pretty E4]).
  apply docker_runtimes in Hd as [runtimes Hr].
  destruct (probes_shape r clock docker (kernel_tuple (release r))) as (sysbox & quota & idm & P1 & P2 & P3).
  set (checks := probes r clock docker (kernel_tuple (release r))) in *. clearbody checks.
  unfold Scrape.build_spec.
  set (data := dset "gpus" _ _). assert (getv "host" data = JDict host) as -> by reflexivity.
  assert (getv "nvml" data = JDict (scrape_nvml r F).1) as -> by reflexivity.
  assert (getv "docker" data = JDict docker) as -> by reflexivity.
  assert (getv "probes" data = JDict checks) as -> by reflexivity.
  assert (get_list "gpus" data = Ok (JDict <$> cards)) as -> by (unfold data; destruct cards; reflexivity).
  rewrite !jor_dict. clearbody data. unfold getv in E1, E2, E3, E4.
  destruct (disk_reads disk Hdisk) as (e & Ee & Ht).
  assert (Scrape.jget_or "disk" (JDict host) = Ok (JDict disk)) as ->.
  { unfold Scrape.jget_or. rewrite jget_dict, E1. cbn [mbind res_bind mret res_ret]. by rewrite jor_dict. }
  cbn [mbind res_bind]. rewrite (jget_dict "docker_root"). cbn [mbind res_bind]. rewrite Ee. cbn [mbind res_bind].
  apply spec_gpus_ok in Hn. destruct (Scrape.spec_gpus (JDict <$> cards)) as [gpus|]; [|done].
  pose proof (jflag_ok _ "ok" _ _ P1) as F1. pose proof (jflag_ok _ "ok" _ _ P2) as F2.
  pose proof (jflag_ok _ "idmapped" _ _ P3) as F3.
  destruct (Scrape.jflag "sysbox" "ok" (JDict checks)) as [b1|]; [|done].
  destruct (Scrape.jflag "storage_quota" "ok" (JDict checks)) as [b2|]; [|done].
  destruct (Scrape.jflag "idmapped" "idmapped" (JDict checks)) as [b3|]; [|done].
  cbn [mbind res_bind]. rewrite !jget_dict. cbn [mbind res_bind].
  assert (Scrape.jcount "cpu" "count" (JDict host) = Ok n) as ->.
  { unfold Scrape.jcount, Scrape.jget_or. rewrite jget_dict, E2. cbn [mbind res_bind mret res_ret]. apply jor_int. }
  assert (Scrape.jcount "memory" "total_mb" (JDict host) = Ok ram) as ->.
  { unfold Scrape.jcount, Scrape.jget_or. rewrite jget_dict, E3. cbn [mbind res_bind mret res_ret]. apply jor_int. }
  cbn [mbind res_bind].
  assert (∃ x, py_float (jor (getd "total_gb" JNull e) (JFloat f0)) = Ok x) as [x ->].
  { destruct Ht as [->|[y ->]]; [by eexists|]. unfold jor. destruct (truthy (JFloat y)); by eexists. }
  cbn [mbind res_bind].
  assert (∀ k, ∃ s, Scrape.jinner_text "os" k (JDict host) = Ok s) as Hos.
  { intros k. unfold Scrape.jinner_text, Scrape.jget_or. rewrite jget_dict, E4. cbn [mbind res_bind mret res_ret].
    rewrite jor_dict. by eexists. }
  destruct (Hos "id") as [s1 ->], (Hos "version") as [s2 ->]. unfold Scrape.jtext. rewrite !jget_dict.
  cbn [mbind res_bind mret res_ret]. by rewrite Hr.
Qed.

Lemma nvml_errors r F : ∃ l, getd "errors" JNull (scrape_nvml r F).1 = JList l.
Proof.
  unfold scrape_nvml. destruct (String.eqb (find_nvml r) ""); [by eexists|].
  destruct (open_nvml r (find_nvml r)) as [[hashes lib]|text]; [|by eexists].
  destruct (negb (call lib "nvmlInit_v2" [] =? 0)%Z); [by eexists|]. cbv zeta.
  destruct (negb (call lib "nvmlDeviceGetCount_v2" [] =? 0)%Z); [by eexists|].
  destruct (scrape_cards lib (machine r) F _ 0 []) as [cards es]. by eexists.
Qed.

(** What the validator reads of the cards. *)
Lemma restored_cards draw r : (∀ i j, draw i = draw j → i = j) →
  Scrape.restore_cards (pairs draw) (JDict <$> (scrape_nvml r (drawn draw)).2)
  = JDict <$> (hide draw <$> (scrape_nvml r written).2).
Proof.
  intros Hinj. destruct (sim_scrape_nvml draw Hinj r) as [Hc _]. unfold Scrape.restore_cards.
  induction Hc as [|card card0 cards cards0 Hs _ IH]; [done|]. cbn [fmap list_fmap omap list_omap].
  by rewrite (sim_restored draw Hinj card card0 Hs), IH.
Qed.

Lemma dset_gpus (a b c v w : json) (rest : dict) :
  dset "gpus" v (("version", a) :: ("collected_at", b) :: ("elapsed_ms", c) :: ("gpus", w) :: rest)
  = ("version", a) :: ("collected_at", b) :: ("elapsed_ms", c) :: ("gpus", v) :: rest.
Proof. reflexivity. Qed.

(** The names do not matter for what else is collected. *)
Lemma collect_names draw r clock payload : (∀ i j, draw i = draw j → i = j) →
  collect r (drawn draw) clock = Ok payload →
  ∃ plain, collect r written clock = Ok plain ∧
    Scrape.restore payload (pairs draw)
    = Ok (dset "gpus" (JList (JDict <$> (hide draw <$> (scrape_nvml r written).2))) plain) ∧
    dset "gpus" (JList (JDict <$> (hide draw <$> (scrape_nvml r written).2))) plain =
    dset "gpus" (JList (JDict <$> (hide draw <$> (scrape_nvml r written).2))) payload.
Proof.
  intros Hinj Hc. pose proof (restored_cards draw r Hinj) as Hr. destruct (sim_scrape_nvml draw Hinj r) as [_ Hn].
  assert (∃ plain, collect r written clock = Ok plain) as [plain Hp].
  { unfold collect in *. destruct (scrape_nvml r (drawn draw)) as [n1 c1], (scrape_nvml r written) as [n2 c2].
    destruct (docker_facts (machine r)) as [docker|]; [|done]. cbn [mbind res_bind] in *.
    destruct (host_facts r docker) as [host|]; [|done]. by eexists. }
  exists plain. split; [done|]. apply collect_shape in Hc as (docker & host & Hd & Hh & ->).
  apply collect_shape in Hp as (docker' & host' & Hd' & Hh' & ->).
  rewrite Hd in Hd'. apply Ok_inj in Hd' as <-. rewrite Hh in Hh'. apply Ok_inj in Hh' as <-.
  rewrite Hn. unfold Scrape.restore.
  assert (∀ cards rest, get_list "gpus" (("version", JInt 1) :: ("collected_at", JFloat (fround 3 (clock 5%nat)))
    :: ("elapsed_ms", JFloat (fround 1 (fmul (fsub (clock 6%nat) (clock 0%nat)) (fz 1000))))
    :: ("gpus", JList (JDict <$> cards)) :: rest) = Ok (JDict <$> cards)) as Hg by (intros [] ?; reflexivity).
  rewrite Hg. cbn [mbind res_bind]. rewrite Hr, !dset_gpus. split; reflexivity.
Qed.

(** What the validator makes of the scrape, the specification included. *)
Lemma scrape_accepted {H} (env : Env H) fernet address port_range r clock iv str_exn draw original
    prepared result seed payload now :
  (∀ i j, draw i = draw j → i = j) →
  Scrape.obfuscate draw original = Ok prepared →
  omap Scrape.field_line (split_on nls original) = CONSTANTS →
  r.(ld_preload) = "" → collect r (drawn draw) clock = Ok payload → ftrunc (clock 7%nat) = Ok now →
  (0 <= now < 2 ^ 36)%Z → block_ok iv →
  result.(stdout) = (main r (drawn draw) clock iv str_exn).2 → transport_failed result = false →
  (slen result.(stdout) <= Scrape.SCAN_BYTES)%nat →
  (∀ token, fernet (Scrape.key prepared) token = Spec.decrypt (Scrape.key prepared) token) →
  env.(loads) (dumps (JDict payload)) = Some (JDict payload) →
  ∃ scraped plain, Scrape.judge env fernet address port_range prepared result seed = Ok scraped ∧
    failure (Scrape.verdict scraped) = None ∧ is_Some (Scrape.spec scraped) ∧ collect r written clock = Ok plain ∧
    Scrape.data scraped = Some (dset "gpus" (JList (JDict <$> (hide draw <$> (scrape_nvml r written).2))) plain).
Proof.
  intros Hinj Ho Hf Hld Hc Hnow Hrange Hiv Hout Htr Hlen Hfernet Hl.
  destruct (obfuscate_drawn draw Hinj original prepared Ho Hf) as [Hnames Hkey].
  destruct (token_read_back (FIELDS (drawn draw)) (bytes_of (dumps (JDict payload))) iv now
    (bytes_of_byte _) Hiv Hrange) as (token & Henc & Hdec & Hpre & Hword). rewrite <- Hkey in *.
  assert (result.(stdout) = token +:+ nls) as Hs.
  { rewrite Hout. unfold main. rewrite Hld. cbn [String.eqb negb]. rewrite Hc. cbn [mbind res_bind].
    rewrite Hnow. cbn [mbind res_bind]. by rewrite <- Hkey, Henc. }
  rewrite Hs in Hlen. destruct (candidates_token env.(loads) token Hword Hpre Hlen) as [Hcand Herr].
  destruct (collect_names draw r clock payload Hinj Hc) as (plain & Hp & Hre & Heq).
  set (restored := dset "gpus" _ plain) in *.
  assert (is_ok (Scrape.build_spec restored address port_range) = true) as Hspec.
  { eapply build_spec_collected; [exact Hp|]. apply Forall_fmap. eapply Forall_impl; [apply number_nvml|].
    intros card Hn v. cbn. rewrite dget_hide by done. apply Hn. }
  assert (∃ l, getd "errors" JNull (scrape_nvml r written).1 = JList l ∧ getv "nvml" restored = JDict (scrape_nvml r written).1) as (errors & He & Hnv).
  { destruct (nvml_errors r written) as [l He]. exists l. split; [done|].
    apply collect_shape in Hp as (docker & host & _ & _ & E). unfold restored. rewrite E. reflexivity. }
  unfold Scrape.judge. rewrite Htr, Hs, Herr, Hcand. cbn [String.eqb negb].
  assert (Scrape.decrypt env.(loads) fernet (Scrape.key prepared) [token] = Some payload) as ->.
  { cbn [Scrape.decrypt]. rewrite (url_ascii token Hword), Hfernet, Hdec. cbn [mbind option_bind].
    by rewrite of_bytes_of, Hl. }
  rewrite Hnames, Hre. cbn [mbind res_bind].
  destruct (Scrape.build_spec restored address port_range) as [spec|]; [|done]. cbn [mbind res_bind].
  rewrite Hnv, jor_dict, jget_dict, He. cbn [mbind res_bind].
  assert (∃ l, py_iter (jor (JList errors) (JList [])) = Ok l) as [l ->] by (destruct errors; by eexists).
  cbn [mbind res_bind mret res_ret]. eexists _, plain. split; [reflexivity|]. by split_and!.
Qed.

(** C12. What an honest machine prints is accepted and says what the machine is.  When
    the validator sends the payload with its 26 field constants rewritten, a
    machine that runs it on its own readings prints one token; the key the
    validator kept decrypts it, no check of the scrape fails and none raises, and
    the data handed on are those the payload of the file would have collected:
    the cards under the names of the file, except that in the errors of a card
    the fields stay under the names drawn ([hide]). *)
Theorem honest_scrape_accepted {H} (env : Env H) fernet address port_range r clock iv str_exn draw original
    prepared result seed payload now :
  (∀ i j, draw i = draw j → i = j) →
  Scrape.obfuscate draw original = Ok prepared →
  omap Scrape.field_line (split_on nls original) = CONSTANTS →
  r.(ld_preload) = "" → collect r (drawn draw) clock = Ok payload → ftrunc (clock 7%nat) = Ok now →
  (0 <= now < 2 ^ 36)%Z → block_ok iv →
  result.(stdout) = (main r (drawn draw) clock iv str_exn).2 → transport_failed result = false →
  (slen result.(stdout) <= Scrape.SCAN_BYTES)%nat →
  (∀ token, fernet (Scrape.key prepared) token = Spec.decrypt (Scrape.key prepared) token) →
  env.(loads) (dumps (JDict payload)) = Some (JDict payload) →
  ∃ scraped plain, Scrape.judge env fernet address port_range prepared result seed = Ok scraped ∧
    failure (Scrape.verdict scraped) = None ∧ collect r written clock = Ok plain ∧
    Scrape.data scraped = Some (dset "gpus" (JList (JDict <$> (hide draw <$> (scrape_nvml r written).2))) plain).
Proof.
  intros. destruct (scrape_accepted env fernet address port_range r clock iv str_exn draw original prepared result seed
    payload now) as (scraped & plain & E & Hv & _ & Hrest); [done..|]. exists scraped, plain. by split.
Qed.

(** ** The errors of a card *)

(** The keys of the errors the validator reads are labels, or drawn names. *)
Lemma errors_read draw lib m i errors : (∀ i j, draw i = draw j → i = j) →
  ∃ e, getv "errors" (Scrape.restore_card (pairs draw) (scrape_gpu lib m (drawn draw) i errors).1)
       = JDict (map_keys (error_key draw) e) ∧ ∀ k, k ∈ dkeys e → k ∈ NAMES ++ LABELS.
Proof.
  intros Hinj. destruct (sim_scrape_gpu draw Hinj lib m i errors) as [Hs _].
  rewrite (sim_restored draw Hinj _ _ Hs). destruct Hs as [_ _ _ (e & He & Hk)]. exists e. split; [|done].
  unfold getv, getd. revert He. generalize (scrape_gpu lib m written i errors).1. clear. intros card He.
  induction card as [|[k v] card IH]; [done|]. cbn [hide fmap list_fmap dget fst snd] in *.
  destruct (decide ("errors" = k)) as [<-|]; [by injection He as ->|by apply IH].
Qed.

Lemma error_key_name draw k f : (∀ i j, draw i = draw j → i = j) →
  k ∈ NAMES ++ LABELS → f ∈ NAMES → f ≠ "utilization" → error_key draw k = f → False.
Proof.
  intros Hinj Hk Hf Hne E.
  assert (Forall (λ x, String.prefix "_" x = false ∧ (x ∈ LABELS → x = "utilization")) NAMES) as HF.
  { repeat (constructor; [split; [reflexivity|intros H; first [reflexivity|by apply (bool_decide_eq_true_2 _) in H]]|]). constructor. }
  rewrite Forall_forall in HF. destruct (HF f Hf) as [Hp Hl].
  destruct (decide (k ∈ NAMES)) as [Hn|Hn].
  - unfold error_key in E. destruct (String.eqb_spec k "utilization") as [->|_]; [by subst f|].
    destruct (token_name draw k Hn) as (i & _ & Et). rewrite Et in E. subst f. cbn in Hp. by destruct (draw i).
  - apply elem_of_app in Hk as [?|Hk]; [done|]. apply Hne, Hl.
    assert (Forall (λ x, error_key draw x = x) LABELS) as HL by (repeat (constructor; [reflexivity|]); constructor).
    rewrite Forall_forall in HL. rewrite (HL k Hk) in E. by subst.
Qed.

(** A name the driver could not read goes unreported.  Whatever the library
    answers for a card, and so also when reading its name failed, the check of
    the specifications finds no error of the name or of the identifier in what it
    is given: the payload files those errors under the drawn names, which are
    put back for the card and not for its errors. *)
Lemma unread_name_unreported draw lib m i errors uuid :
  (∀ i j, draw i = draw j → i = j) →
  let seen := Scrape.restore_card (pairs draw) (scrape_gpu lib m (drawn draw) i errors).1 in
  Specs.core_problems uuid (jor (getv "errors" seen) (JDict [])) ["name"; "uuid"] = Ok [].
Proof.
  intros Hinj. cbn zeta. destruct (errors_read draw lib m i errors Hinj) as (e & -> & Hk). rewrite jor_dict.
  assert (∀ f, f ∈ ["name"; "uuid"] → dmem f (map_keys (error_key draw) e) = false) as Hno.
  { intros f Hf. destruct (dmem f _) eqn:E; [|done]. exfalso. apply dmem_true in E.
    unfold dkeys, map_keys in E. rewrite <- list_fmap_compose in E. apply list_elem_of_fmap in E as ([k v] & E & Hin).
    apply (error_key_name draw k f Hinj); [apply Hk, list_elem_of_fmap; by exists (k, v)|..|done];
      rewrite !elem_of_cons in Hf; destruct Hf as [->|[->|Hf%elem_of_nil]]; try done;
      by apply (bool_decide_eq_true_1 (_ ∈ _)). }
  cbn [Specs.core_problems]. unfold Specs.json_in. rewrite !Hno by (by apply (bool_decide_eq_true_1 (_ ∈ _))). done.
Qed.

(** ** Examples *)

Definition sample_text : string :=
  join nls ((λ cf, cf.1 +:+ " = " +:+ String dquote "" +:+ cf.2 +:+ String dquote "") <$> CONSTANTS).
Definition sample_rig : Rig :=
  MkRig (MkMachine (λ _, None) (λ _, false) (λ _, None) (λ _, None) (λ _ _, Refused "") 0 1 "3.12" (λ _, None))
    (λ _, false) (λ _, false) [] (λ _, inr "") (λ _, "") (λ _, None) (λ p, p) (λ _, inr "") None None
    "6.8.0" "x86_64" "rig" (λ _, None) "" (λ _, "").
Definition sample_clock (n : nat) : pyfloat := f0.
Definition sample_draw (k : nat) : string := pretty k.
Definition sample_payload : dict :=
  match collect sample_rig (drawn sample_draw) sample_clock with Ok d => d | Raise _ => [] end.
Definition sample_env : Env unit :=
  MkEnv unit (λ c _ _ h, (MkResult c 0 "" "" f0 "", h)) (λ _ h, h) (λ _, f0) (λ _, f0)
    (λ _, []) (λ _ _, "") (λ _ _, "") (λ _, Some (JDict sample_payload)).
Definition sample_result : CommandResult :=
  MkResult "python3 -I -" 0 (main sample_rig (drawn sample_draw) sample_clock (repeat 0%Z 16) (λ _, "")).2 "" f0 "".

Lemma honest_scrape_accepted_witness :
  ∃ prepared scraped plain, Scrape.obfuscate sample_draw sample_text = Ok prepared ∧
    Scrape.judge sample_env Spec.decrypt "203.0.113.7" "40000-40100" prepared sample_result "s" = Ok scraped ∧
    failure (Scrape.verdict scraped) = None ∧ collect sample_rig written sample_clock = Ok plain.
Proof.
  destruct (Scrape.obfuscate sample_draw sample_text) as [prepared|] eqn:Ho; [|vm_compute in Ho; discriminate].
  destruct (honest_scrape_accepted sample_env Spec.decrypt "203.0.113.7" "40000-40100" sample_rig sample_clock
    (repeat 0%Z 16) (λ _, "") sample_draw sample_text prepared sample_result "s" sample_payload 0)
    as (scraped & plain & E & Hv & Hp & _).
  - intros i j E. unfold sample_draw in E. by apply (inj pretty).
  - exact Ho.
  - vm_compute. reflexivity.
  - reflexivity.
  - vm_compute. reflexivity.
  - reflexivity.
  - lia.
  - split; [reflexivity|]. repeat constructor; vm_compute; congruence.
  - reflexivity.
  - reflexivity.
  - apply Nat.leb_le. vm_compute. reflexivity.
  - reflexivity.
  - reflexivity.
  - exists prepared, scraped, plain. split; [reflexivity|]. split; [exact E|]. split; [exact Hv|exact Hp].
Defined.

(** A card whose name the driver does not give. *)
Definition sample_lib : Lib :=
  MkLib (λ name _, Some (if String.eqb name "nvmlDeviceGetName" then 15 else 0)%Z) (λ _ _, [0; 0; 0]%Z) (λ _ _, "x")
    (λ _ _, []) (λ _, "").
Lemma unread_name_unreported_witness :
  let card := (scrape_gpu sample_lib (machine sample_rig) written 0 []).1 in
  let seen := Scrape.restore_card (pairs sample_draw)
                (scrape_gpu sample_lib (machine sample_rig) (drawn sample_draw) 0 []).1 in
  dget "name" (get_dict "errors" card) = Some (JStr "GPU_IS_LOST") ∧
  Specs.core_problems "u" (jor (getv "errors" seen) (JDict [])) ["name"; "uuid"] = Ok [].
Proof.
  split; [vm_compute; reflexivity|]. apply unread_name_unreported.
  intros i j E. unfold sample_draw in E. by apply (inj pretty).
Defined.
