(* ===== verification/Config.v ===== *)
(** * Settings (validator/config.py, agent/config.py)

    Both programs read their settings once, from the environment ([environ]:
    the value of a variable, [None] when it is not set).  Paths are the strings
    they are built from. *)

From Stdlib Require Import Ascii String QArith Lqa.
From S2P Require Import Prelude.
From S2P Require Import PyStr.
From S2P Require Import PyFloat.
From S2P Require Import PyJson.
From S2P Require Import Messages.
From S2P Require Import SessionProto.
From S2P Require Import Runner.
From S2P Require Keys.
Local Open Scope string_scope.
Local Open Scope list_scope.

Abbreviation environment := (string → option string).

Definition SOCKET_PATH : string := "/v1/compute/agents/socket".

(** [Path(directory) / name] *)
Definition under (directory name : string) : string :=
  if String.eqb directory "/" then "/" +:+ name else directory +:+ "/" +:+ name.

(** ** The validator *)

Module Validator.
Definition TRUE_VALUES : list string := ["1"; "true"; "yes"; "on"].
Definition DEFAULT_SERVER_URL : string := "https://api.microtensor.cloud".
Definition DEFAULT_CHAIN_ENDPOINT : string := "wss://entrypoint-finney.opentensor.ai:443".
Definition DEFAULT_STATE_DIR : string := "/var/lib/compute-validator".
Definition DEFAULT_CHALLENGE_LIBRARY : string := "/usr/lib/libmtverify.so".
Definition DEFAULT_AGENT_LIBRARY : string := "/usr/lib/libmtchallenge.so".

Record Settings : Type := MkSettings {
  server_url : string; label : string; hotkey_seed : string; hotkey_mnemonic : string;
  wallet_hotkey_file : string; network : string; netuid : Z; chain_endpoint : string;
  set_weights : bool; weights_seconds : Z; max_inflight : Z; per_miner : Z; ssh_timeout : Z;
  check_timeout : Z; state_dir : string; express_seconds : Z; deep_seconds : Z;
  challenge_library : string; agent_library : string; allow_reference_challenge : bool;
  challenge_max_ms : pyfloat; reserve_uid : option Z; held_share : pyfloat;
  min_driver_version : string; driver_cutoff : string; mechanism_id : option Z;
  volume_secret_set : bool; image_allowlist : list string; signature_window_seconds : Z }.

Section Settings.
Context (environ : environment).

Definition text_ (name dflt : string) : string := strip (default dflt (environ name)).
Definition int_ (name : string) (dflt : Z) : Z :=
  match environ name with Some s => default dflt (parse_int s) | None => dflt end.
Definition float_ (name : string) (dflt : pyfloat) : pyfloat :=
  match environ name with Some s => default dflt (parse_float s) | None => dflt end.
Definition bool_ (name : string) (dflt : bool) : bool :=
  match environ name with
  | None => dflt
  | Some raw => bool_decide (lower (strip raw) ∈ TRUE_VALUES)
  end.
Definition optional_int (name : string) : option Z :=
  let raw := text_ name "" in if String.eqb raw "" then None else parse_int raw.
Definition list_ (name : string) : list string :=
  List.filter (λ item, negb (String.eqb item "")) (strip <$> split_on "," (default "" (environ name))).

Definition settings : Settings :=
  {| server_url := text_ "CV_SERVER_URL" DEFAULT_SERVER_URL;
     label := text_ "CV_LABEL" "";
     hotkey_seed := text_ "CV_HOTKEY_SEED" "";
     hotkey_mnemonic := text_ "CV_HOTKEY_MNEMONIC" "";
     wallet_hotkey_file := text_ "CV_WALLET_HOTKEY_FILE" "";
     network := text_ "CV_NETWORK" "finney";
     netuid := int_ "CV_NETUID" 92;
     chain_endpoint := text_ "CV_CHAIN_ENDPOINT" DEFAULT_CHAIN_ENDPOINT;
     set_weights := bool_ "CV_SET_WEIGHTS" false;
     weights_seconds := int_ "CV_WEIGHTS_SECONDS" 3600;
     max_inflight := Z.max 1 (int_ "CV_MAX_INFLIGHT" 4);
     per_miner := Z.max 1 (int_ "CV_PER_MINER" 2);
     ssh_timeout := int_ "CV_SSH_TIMEOUT" 60;
     check_timeout := int_ "CV_CHECK_TIMEOUT" 300;
     state_dir := text_ "CV_STATE_DIR" DEFAULT_STATE_DIR;
     express_seconds := Z.max 5 (int_ "CV_EXPRESS_SECONDS" 30);
     deep_seconds := Z.max 0 (int_ "CV_DEEP_SECONDS" 0);
     challenge_library := text_ "CV_CHALLENGE_LIBRARY" DEFAULT_CHALLENGE_LIBRARY;
     agent_library := text_ "CV_AGENT_LIBRARY" DEFAULT_AGENT_LIBRARY;
     allow_reference_challenge := bool_ "CV_ALLOW_REFERENCE_CHALLENGE" false;
     challenge_max_ms := float_ "CV_CHALLENGE_MAX_MS" (fz 15000);
     reserve_uid := optional_int "CV_RESERVE_UID";
     held_share := fmin (fmax (float_ "CV_HELD_SHARE" (flit (4 # 10))) f0) f1;
     min_driver_version := text_ "CV_MIN_DRIVER_VERSION" "";
     driver_cutoff := text_ "CV_DRIVER_CUTOFF" "";
     mechanism_id := optional_int "CV_MECHANISM_ID";
     volume_secret_set := negb (String.eqb (text_ Keys.MASTER_SECRET_ENV "") "");
     image_allowlist := list_ "CV_IMAGE_ALLOWLIST";
     signature_window_seconds := 120 |}.
End Settings.

Section Cutoff.
(** [dt.datetime.fromisoformat], a naive time taken as UTC: the instant in
    microseconds, or [ValueError]. *)
Variable fromisoformat : string → option Z.

Definition driver_cutoff_at (s : Settings) : option Z :=
  if String.eqb s.(driver_cutoff) "" then None else fromisoformat s.(driver_cutoff).

Definition driver_cutoff_passed (s : Settings) (now : Z) : bool :=
  match driver_cutoff_at s with None => false | Some cutoff => (cutoff <=? now)%Z end.
End Cutoff.

Definition path (s : Settings) (name : string) : string := under s.(state_dir) name.
End Validator.

(** ** The agent *)

Module Agent.
Definition DEFAULT_SERVER : string := "https://api.microtensor.cloud".
Definition DEFAULT_IMAGE : string := "ghcr.io/microtensor-io/rig-agent".

Record Settings : Type := MkSettings {
  server_url : string; state_dir : string; log_dir : string; internal_port : Z; external_port : Z;
  ssh_port : Z; ssh_user : string; ssh_home : string; ssh_host_key : string; public_address : string;
  label : string; port_range : string; python_path : string; root_dir : string;
  image_repository : string; image_digest : string; compose_file : string; env_file : string;
  update_seconds : Z; validators_refresh_seconds : Z; challenge_library : string;
  dstack_socket : string; nonce_ttl_seconds : Z; ping_seconds : Z; state_seconds : Z;
  signature_window_seconds : Z; release_skew_seconds : Z; grant_sweep_seconds : Z }.

Section Settings.
Context (environ : environment).

(** [int(os.environ.get(name, "") or default)]: an empty value is the default. *)
Definition int_ (name : string) (dflt : Z) : Z :=
  match default "" (environ name) with "" => dflt | s => default dflt (parse_int s) end.
Definition text_ (name dflt : string) : string := sor (strip (default "" (environ name))) dflt.

Definition settings : Settings :=
  {| server_url := text_ "RIG_SERVER_URL" DEFAULT_SERVER;
     state_dir := text_ "RIG_STATE_DIR" "/var/lib/rig-agent";
     log_dir := text_ "RIG_LOG_DIR" "/var/lib/rig-agent-logs";
     internal_port := int_ "RIG_INTERNAL_PORT" 8800;
     external_port := int_ "RIG_EXTERNAL_PORT" 8800;
     ssh_port := int_ "RIG_SSH_PORT" 2200;
     ssh_user := text_ "RIG_SSH_USER" "rig";
     ssh_home := text_ "RIG_SSH_HOME" "/home/rig";
     ssh_host_key := text_ "RIG_SSH_HOST_KEY" "/etc/ssh/ssh_host_ed25519_key.pub";
     public_address := text_ "RIG_PUBLIC_ADDRESS" "";
     label := text_ "RIG_LABEL" "";
     port_range := text_ "RIG_PORT_RANGE" "40000-40100";
     python_path := text_ "RIG_PYTHON" "/usr/bin/python3";
     root_dir := text_ "RIG_ROOT_DIR" "/opt/mt-agent";
     image_repository := text_ "AGENT_IMAGE" DEFAULT_IMAGE;
     image_digest := text_ "AGENT_IMAGE_SHA256" "";
     compose_file := text_ "RIG_COMPOSE_FILE" "/opt/rig-agent/docker-compose.yml";
     env_file := text_ "RIG_ENV_FILE" "/opt/rig-agent/.env";
     update_seconds := int_ "RIG_UPDATE_SECONDS" 300;
     validators_refresh_seconds := int_ "RIG_VALIDATORS_REFRESH_SECONDS" 300;
     challenge_library := text_ "RIG_CHALLENGE_LIBRARY" "/usr/lib/libmtchallenge.so";
     dstack_socket := text_ "RIG_DSTACK_SOCKET" "/var/run/dstack.sock";
     nonce_ttl_seconds := NONCE_TTL_SECONDS;
     ping_seconds := PING_SECONDS;
     state_seconds := STATE_SECONDS;
     signature_window_seconds := SIGNATURE_WINDOW_SECONDS;
     release_skew_seconds := RELEASE_SKEW_SECONDS;
     grant_sweep_seconds := 60 |}.
End Settings.

Definition key_path (s : Settings) : string := under s.(state_dir) "agent.key".
Definition rig_path (s : Settings) : string := under s.(state_dir) "rig.json".
Definition validators_path (s : Settings) : string := under s.(state_dir) "validators.json".
Definition prefetch_path (s : Settings) : string := under s.(state_dir) "prefetch.json".
Definition approvals_dir (s : Settings) : string := under s.(state_dir) "approvals".
Definition events_path (s : Settings) : string := under s.(log_dir) "events.jsonl".
Definition authorized_keys (s : Settings) : string := under (under s.(ssh_home) ".ssh") "authorized_keys".
Definition base_url (s : Settings) : string := rstrip_set "/" s.(server_url).
Definition socket_url (s : Settings) : string :=
  let base := base_url s in
  let scheme := if startswith "https" base then "wss" else "ws" in
  let host := match partition_first "://" base with Some (_, rest) => rest | None => base end in
  scheme +:+ "://" +:+ host +:+ SOCKET_PATH.
End Agent.

(** ** Facts *)

Lemma fwf_neg x : fwf x → fwf (fneg x).
Proof. destruct x as [q|s|]; cbn; [apply representable_opp|done..]. Qed.

Lemma parse_unsigned_float_wf s x : parse_unsigned_float s = Some x → fwf x.
Proof.
  unfold parse_unsigned_float. destruct (_ || _); [by intros [= <-]|].
  destruct (String.eqb s "nan"); [by intros [= <-]|]. destruct (scan_digits 0 0 s) as [[ip ni] r].
  destruct (match r with String "." t => _ | _ => _ end) as [[m nf] r'].
  destruct (_ =? 0)%Z; [done|]. destruct (scan_exponent r'); intros [= <-]. apply rnd_wf.
Qed.

(** What [float] reads from a text is a float. *)
Lemma parse_float_wf s x : parse_float s = Some x → fwf x.
Proof.
  unfold parse_float. destruct (lower (strip s)) as [|[[] [] [] [] [] [] [] []] t];
    try apply parse_unsigned_float_wf.
  destruct (parse_unsigned_float t) as [y|] eqn:E; intros [= <-].
  apply fwf_neg. by apply parse_unsigned_float_wf in E.
Qed.

Lemma clamped x : fwf x → fmin (fmax x f0) f1 = FNan ∨ frange 0 1 (fmin (fmax x f0) f1).
Proof.
  intros Hx. destruct x as [q|[]|]; [| | |by left]; right.
  - unfold fmax, f0, flt. destruct (Qle_bool 0 q) eqn:E0; cbn [negb].
    + unfold fmin, f1, flt. destruct (Qle_bool q 1) eqn:E1; cbn [negb]; [|apply frange_f1].
      exists q. apply Qle_bool_iff in E0, E1. by split_and!.
    + apply (frange_f0 1). discriminate.
  - apply (frange_f0 1). discriminate.
  - apply frange_f1.
Qed.

(** Whatever the environment holds, the settings of the validator keep the
    bounds the scheduler counts on: at least one slot, a probe every five
    seconds at most, and a held share within [0, 1] unless it was given as
    [nan]. *)
Lemma settings_bounded environ :
  let s := Validator.settings environ in
  (1 ≤ Validator.max_inflight s)%Z ∧ (1 ≤ Validator.per_miner s)%Z ∧
  (5 ≤ Validator.express_seconds s)%Z ∧ (0 ≤ Validator.deep_seconds s)%Z ∧
  (Validator.held_share s = FNan ∨ frange 0 1 (Validator.held_share s)).
Proof.
  intros s. unfold s. cbn [Validator.settings Validator.max_inflight Validator.per_miner
    Validator.express_seconds Validator.deep_seconds Validator.held_share].
  split_and!; [lia..|]. apply clamped.
  unfold Validator.float_. destruct (environ _) as [s'|]; [|apply rnd_wf].
  destruct (parse_float s') eqn:E; [by apply parse_float_wf in E|apply rnd_wf].
Qed.

(** The address of the control socket is that of the server, over TLS exactly
    when the server is. *)
Lemma socket_url_of_server (tls : bool) host s :
  Agent.base_url s = (if tls then "https://" else "http://") +:+ host →
  Agent.socket_url s = (if tls then "wss://" else "ws://") +:+ host +:+ SOCKET_PATH.
Proof.
  intros E. unfold Agent.socket_url. rewrite E. destruct tls, host; reflexivity.
Qed.

Example default_settings :
  let s := Validator.settings (λ _, None) in
  Validator.path s "demand.json" = "/var/lib/compute-validator/demand.json" ∧
  Validator.held_share s = flit (4 # 10) ∧ Validator.image_allowlist s = [] ∧
  Agent.socket_url (Agent.settings (λ _, None)) = "wss://api.microtensor.cloud/v1/compute/agents/socket".
Proof. vm_compute. by split_and!. Qed.
