(* ===== verification/Portal.v ===== *)
(** * The pool's server and the validator's own loop (validator/pool.py, validator/main.py)

    The validator registers with the server, waits until the operator activates
    it, and from time to time turns the scores into weights on the chain.  The
    server ([Server]) is a parameter: it answers a request with a status and a
    text, and shares its state with the machine of [Runner] and the network of
    [Client], whose stamps it also carries. *)

From stdpp Require Import sorting.
From Stdlib Require Import Ascii String QArith Lqa.
From S2P Require Import Prelude.
From S2P Require Import PyStr.
From S2P Require Import PyFloat.
From S2P Require Import PyJson.
From S2P Require Import SessionProto.
From S2P Require Import Runner.
From S2P Require Import Reliability.
From S2P Require Import DemandWeight.
From S2P Require Import Weights.
From S2P Require Import Client.
From S2P Require Import Config.
From S2P Require Drain.
Local Open Scope string_scope.
Local Open Scope list_scope.

Definition VALIDATORS : string := "/v1/compute/validators".
Definition POOL : string := "/v1/pool".
Definition ACTIVATION_POLL_SECONDS : pyfloat := fz 60.

(** ** Calls and what they come to *)

Record query : Type := MkQuery {
  qmethod : string; qpath : string; qparams : list (string * string);
  qheaders : list (string * string); qcontent : option string }.

Record Server (H : Type) : Type := MkServer { serve : query → H → response * H }.
Arguments MkServer {H}. Arguments serve {H}.

(** A value, the [ServerError] of a status and a detail, or another exception. *)
Inductive got (A : Type) : Type :=
  | Got (a : A)
  | Refused (status : Z) (detail : string)
  | Raised (e : exn).
Arguments Got {A}. Arguments Refused {A}. Arguments Raised {A}.

(** The state: that of the network, the queries made and the calls submitted to
    the chain. *)
Record Portal (H : Type) : Type := MkPortal { net : Net H; asked : list query; calls : list Call }.
Arguments MkPortal {H}. Arguments net {H}. Arguments asked {H}. Arguments calls {H}.
Definition host_of {H} (p : Portal H) : H := p.(net).(machine).(host).

Definition PM (H A : Type) : Type := Portal H → got A * Portal H.
#[export] Instance PM_ret {H} : MRet (PM H) := λ A a p, (Got a, p).
#[export] Instance PM_bind {H} : MBind (PM H) := λ A B f m p,
  match m p with
  | (Got a, p) => f a p
  | (Refused status detail, p) => (Refused status detail, p)
  | (Raised e, p) => (Raised e, p)
  end.

Definition plift {H A} (r : res A) : PM H A := λ p,
  (match r with Ok a => Got a | Raise e => Raised e end, p).
Definition refuse {H A} (status : Z) (detail : string) : PM H A := λ p, (Refused status detail, p).
Definition on_net {H A} (m : NM H A) : PM H A := λ p,
  let '(r, n) := m p.(net) in
  (match r with Ok a => Got a | Raise e => Raised e end, MkPortal n p.(asked) p.(calls)).
(** [try: m except ServerError as exc: f(exc.status, exc.detail)] *)
Definition or_refused {H A} (m : PM H A) (f : Z → string → PM H A) : PM H A := λ p,
  match m p with
  | (Refused status detail, p) => f status detail p
  | out => out
  end.

(** [dict(j)] on a value of the parser: an object, or the pairs of an iterable.
    Pairs whose first is not a text are never looked up, and are left out. *)
Fixpoint dict_pairs (l : list json) (acc : dict) : res dict :=
  match l with
  | [] => Ok acc
  | x :: l' =>
      pair ← py_iter x;
      match pair with
      | [JStr k; v] => dict_pairs l' (dset k v acc)
      | [JList _; _] | [JDict _; _] => Raise TypeError
      | [_; _] => dict_pairs l' acc
      | _ => Raise ValueError
      end
  end.
Definition py_dict (j : json) : res dict :=
  match j with
  | JDict d => Ok d
  | _ => l ← py_iter j; dict_pairs l []
  end.

(** ** The client (PoolClient) *)

Section Pool.
Context {H : Type} (env : Env H) (out : Outer H) (server : Server H).

Definition send_query (q : query) : PM H response := λ p,
  let '(answer, h) := server.(serve) q (host_of p) in
  (Got answer, MkPortal (set_host env h p.(net)) (p.(asked) ++ [q]) p.(calls)).

(** [detail = answer.text[:500]], or what the object answered says it is *)
Definition server_detail (text : string) (parsed : option json) : string :=
  let detail := stake 500 text in
  match parsed with Some (JDict d) => py_str (getd "detail" (JStr detail) d) | _ => detail end.

Definition judge_query (method path : string) (answer : response) : PM H json :=
  match answer with
  | HttpError text => refuse 0 (method +:+ " " +:+ path +:+ ": " +:+ text)
  | Response status empty text parsed =>
      if (400 <=? status)%Z then refuse status (server_detail text parsed)
      else if empty then mret (JDict [])
      else match parsed with
           | Some j => mret j
           | None => refuse status "response is not JSON"
           end
  end.

Definition call_server (method path : string) (body : option dict) (params : list (string * string))
    (signed : bool) : PM H json :=
  let raw := match body with Some b => canonical_json b | None => "" end in
  let headers := [("accept", "application/json")]
                 ++ (if body then [("content-type", "application/json")] else []) in
  identity ← (if signed then on_net (identity_headers env out method path raw) else mret []);
  answer ← send_query (MkQuery method path params (headers ++ identity) (canonical_json <$> body));
  judge_query method path answer.

Definition object (m : PM H json) : PM H dict := j ← m; plift (py_dict j).

Definition register (label : string) : PM H dict :=
  object (call_server "POST" (VALIDATORS +:+ "/register") (Some [("label", JStr label)]) [] true).
Definition me : PM H dict := object (call_server "GET" (VALIDATORS +:+ "/me") None [] true).
Definition hardware : PM H dict := object (call_server "GET" (VALIDATORS +:+ "/hardware") None [] true).
Definition rigs (due : bool) : PM H dict :=
  object (call_server "GET" (VALIDATORS +:+ "/rigs") None (if due then [("due", "true")] else []) true).
Definition rig (rig_id : string) : PM H dict :=
  object (call_server "GET" (VALIDATORS +:+ "/rigs/" +:+ rig_id) None [] true).
Definition command (rig_id kind : string) (payload : dict) : PM H dict :=
  object (call_server "POST" (VALIDATORS +:+ "/rigs/" +:+ rig_id +:+ "/commands")
            (Some [("kind", JStr kind); ("payload", JDict payload)]) [] true).
Definition command_result (command_id : Z) : PM H dict :=
  object (call_server "GET" (VALIDATORS +:+ "/commands/" +:+ str_of_Z command_id) None [] true).
Definition verification (rig_id : string) (payload : dict) : PM H dict :=
  object (call_server "POST" (VALIDATORS +:+ "/rigs/" +:+ rig_id +:+ "/verifications") (Some payload) [] true).
Definition place_job (rig_id : string) (payload : dict) : PM H dict :=
  object (call_server "POST" (VALIDATORS +:+ "/rigs/" +:+ rig_id +:+ "/jobs") (Some payload) [] true).
Definition finish_job (job_id state : string) (revenue_tao : pyfloat) : PM H dict :=
  object (call_server "POST" (VALIDATORS +:+ "/jobs/" +:+ job_id +:+ "/finish")
            (Some [("state", JStr state); ("revenue_tao", JFloat (fmax f0 revenue_tao))]) [] true).
Definition scores : PM H dict := object (call_server "GET" (VALIDATORS +:+ "/scores") None [] true).
Definition release (digest : string) (timestamp : Z) (signature : string) : PM H dict :=
  object (call_server "POST" (VALIDATORS +:+ "/release")
            (Some [("digest", JStr digest); ("timestamp", JInt timestamp); ("signature", JStr signature)])
            [] true).
Definition validators : PM H (list string) :=
  answer ← call_server "GET" (POOL +:+ "/validators") None [] false;
  found ← plift (jget "validators" JNull answer);
  items ← plift (py_iter (jor found (JList [])));
  mret (py_str <$> items).
Definition agent_release : PM H dict :=
  object (call_server "GET" (POOL +:+ "/agent-release") None [] false).
End Pool.

(** ** The validator (Validator) *)

(** What the chain says at a moment: the queries of [Weights], and the hash of
    the receipt of a call. *)
Record ChainView : Type := MkView {
  uid_of : string → option Z; version_key : Z; receipt : Call → string }.

(** The parts the validator reads and does not own: the demand weights and the
    ledger of the other loops, the chain (or the exception its library raises),
    what submitting a call does to the world, the clock and the dates. *)
Record Around (H : Type) : Type := MkAround {
  demand_now : H → DemandWeights; ledger_now : H → ledger;
  chain_now : H → exn + ChainView; settled : Call → H → H;
  utcnow : H → Z; fromisoformat : string → option Z }.
Arguments MkAround {H}. Arguments demand_now {H}. Arguments ledger_now {H}. Arguments chain_now {H}.
Arguments settled {H}. Arguments utcnow {H}. Arguments fromisoformat {H}.

(** One attempt of the loop to set the weights. *)
Record Attempt : Type := MkAttempt { begun : pyfloat; ended : pyfloat; outcome : got dict }.

Section Validator.
Context {H : Type} (env : Env H) (out : Outer H) (server : Server H) (around : Around H)
  (settings : Config.Validator.Settings).
Import Config.Validator.

Definition asleep (seconds : pyfloat) : PM H unit := λ p,
  (Got tt, MkPortal (set_host env (idle env seconds (host_of p)) p.(net)) p.(asked) p.(calls)).

Definition ensure_registered : PM H bool :=
  m ← or_refused (me env out server)
        (λ status detail,
          if bool_decide (status ∈ [401; 403; 404]%Z)
          then register env out server (sor settings.(label) (stake 12 out.(hotkey)))
          else refuse status detail);
  mret (String.eqb (py_str (getd "state" (JStr "") m)) "active").

(** The loop until the server says active; [Diverged] marks the fuel. *)
Fixpoint wait_active (fuel : nat) : PM H unit :=
  active ← or_refused ensure_registered (λ _ _, mret false);
  if active : bool then mret tt
  else match fuel with
       | O => plift (Raise Diverged)
       | S fuel' => _ ← asleep ACTIVATION_POLL_SECONDS; wait_active fuel'
       end.

Definition dict_rigs (roster : list json) : list dict :=
  omap (λ j, match j with JDict d => Some d | _ => None end) roster.

Definition online_hotkey (rig : dict) : list string :=
  if truthy (getv "online" rig) && truthy (getv "hotkey" rig) then [get_str "hotkey" rig] else [].

Definition now_at {A} (f : H → A) : PM H A := λ p, (Got (f (host_of p)), p).

Definition scores_by_hotkey : PM H (list (string * pyfloat) * string * list string) :=
  roster ← rigs env out server false;
  found ← plift (py_iter (jor (getv "rigs" roster) (JList [])));
  let rigs := dict_rigs found in
  server_scores ← or_refused (d ← scores env out server; mret (Some d)) (λ _ _, mret None);
  demand ← now_at around.(demand_now);
  ledger ← now_at around.(ledger_now);
  now ← now_at around.(utcnow);
  computed ← plift (compute_scores around.(fromisoformat) server_scores rigs (Some demand) (Some ledger)
                      settings.(min_driver_version)
                      (driver_cutoff_passed around.(fromisoformat) settings now) now);
  let '(scores, origin) := computed in
  mret (scores, origin, remove_dups (List.flat_map online_hotkey rigs)).

Definition to_chain (call : Call) : PM H unit := λ p,
  (Got tt, MkPortal (set_host env (around.(settled) call (host_of p)) p.(net)) p.(asked) (p.(calls) ++ [call])).

(** [self.chain.submit(...)] *)
Definition submit_weights (scores : list (string * pyfloat)) (active : list string) (dry_run : bool)
    : PM H dict :=
  seen ← now_at around.(chain_now);
  match seen with
  | inl e => plift (Raise e)
  | inr view =>
      oc ← plift (submit view.(uid_of) view.(version_key) view.(receipt)
                    (MkChain settings.(netuid) settings.(mechanism_id)) scores active
                    settings.(reserve_uid) settings.(held_share) dry_run);
      match oc.2 with
      | None => mret oc.1
      | Some call => _ ← to_chain call; mret oc.1
      end
  end.

Definition set_weights_once (dry_run : bool) : PM H dict :=
  found ← scores_by_hotkey;
  let '(scores, origin, active) := found in
  match scores with
  | [] => mret [("submitted", JBool false); ("dry_run", JBool dry_run); ("origin", JStr origin);
                ("reason", JStr "no scores yet")]
  | _ =>
      outcome ← submit_weights scores active dry_run;
      let outcome := dset "origin" (JStr origin) outcome in
      mret (if negb (bool_decide (is_Some settings.(reserve_uid))) && flt f0 settings.(held_share)
            then dset "note" (JStr ("held share not routed: CV_RESERVE_UID is unset, " +:+
                                    "shares renormalised over miners")) outcome
            else outcome)
  end.

(** One turn of the loop, from the time of the last attempt to the sleep. *)
Definition weights_turn (last_weights : pyfloat) (p : Portal H) : option Attempt * pyfloat * Portal H :=
  let begun := env.(wall) (host_of p) in
  if fle (fz settings.(weights_seconds)) (fsub begun last_weights) then
    let '(outcome, p) := set_weights_once false p in
    let ended := env.(wall) (host_of p) in
    (Some (MkAttempt begun ended outcome), ended, (asleep (fz 30) p).2)
  else (None, last_weights, (asleep (fz 30) p).2).

(** The first [turns] turns of the loop. *)
Fixpoint weights_turns (turns : nat) (last_weights : pyfloat) (p : Portal H) : list Attempt * Portal H :=
  match turns with
  | O => ([], p)
  | S turns' =>
      let '(a, last, p) := weights_turn last_weights p in
      let '(rest, p) := weights_turns turns' last p in
      (match a with Some a => a :: rest | None => rest end, p)
  end.
Definition weights_loop (turns : nat) (p : Portal H) : list Attempt * Portal H :=
  if settings.(set_weights) then weights_turns turns f0 p else ([], p).

(** ** Commands of the validator's command line *)

Definition show (what : string) : PM H dict :=
  if String.eqb what "scores" then scores env out server
  else rigs env out server (String.eqb what "due").

Definition sign_release (digest : string) : PM H dict :=
  now ← now_at env.(wall);
  timestamp ← plift (ftrunc now);
  release env out server digest timestamp (sign out (release_message digest timestamp)).

Definition register_command : PM H string :=
  active ← ensure_registered;
  mret (if active : bool then "active" else "registered, awaiting operator activation").

(** The exit code, and what is printed. *)
Definition weights_command (dry_run : bool) : PM H (Z * dict) :=
  outcome ← set_weights_once dry_run;
  mret ((if truthy (getv "submitted" outcome) || dry_run then 0 else 1)%Z, outcome).

(** [main]: a [ServerError] is printed and ends with 3. *)
Definition exit_code {A} (code : A → Z) (r : got A) : res Z :=
  match r with Got a => Ok (code a) | Refused _ _ => Ok 3%Z | Raised e => Raise e end.
End Validator.

(** ** Facts *)

Section PortalFacts.
Context {H : Type} (env : Env H) (out : Outer H) (server : Server H) (around : Around H)
  (settings : Config.Validator.Settings).
Import Config.Validator.

Lemma PM_bindE {A B} (m : PM H A) (f : A → PM H B) p :
  (m ≫= f) p = match m p with
               | (Got a, p) => f a p
               | (Refused s d, p) => (Refused s d, p)
               | (Raised e, p) => (Raised e, p)
               end.
Proof. reflexivity. Qed.

Lemma PM_bind_got {A B} (m : PM H A) (f : A → PM H B) p b p' :
  (m ≫= f) p = (Got b, p') → ∃ a p1, m p = (Got a, p1) ∧ f a p1 = (Got b, p').
Proof. rewrite PM_bindE. destruct (m p) as [[a|s d|e] p1]; [eauto|done..]. Qed.

Lemma plift_got {A} (r : res A) (p : Portal H) a p' : plift r p = (Got a, p') → r = Ok a ∧ p' = p.
Proof. unfold plift. destruct r; [|done]. by intros [= <- <-]. Qed.

(** A computation that submits nothing to the chain. *)
Definition quiet {A} (m : PM H A) : Prop := ∀ p, calls (m p).2 = calls p.

Lemma quiet_ret {A} (a : A) : quiet (mret a : PM H A).
Proof. done. Qed.
Lemma quiet_lift {A} (r : res A) : quiet (plift r : PM H A).
Proof. done. Qed.
Lemma quiet_refuse {A} s d : quiet (refuse s d : PM H A).
Proof. done. Qed.
Lemma quiet_bind {A B} (m : PM H A) (f : A → PM H B) : quiet m → (∀ a, quiet (f a)) → quiet (m ≫= f).
Proof.
  intros Hm Hf p. rewrite PM_bindE. specialize (Hm p).
  destruct (m p) as [[a|s d|e] p1]; cbn [snd] in *; [|done..]. by rewrite Hf.
Qed.
Lemma quiet_net {A} (m : NM H A) : quiet (on_net m).
Proof. intros p. unfold on_net. by destruct (m (net p)). Qed.
Lemma quiet_at {A} (f : H → A) : quiet (now_at f).
Proof. done. Qed.
Lemma quiet_refused {A} (m : PM H A) f : quiet m → (∀ s d, quiet (f s d)) → quiet (or_refused m f).
Proof.
  intros Hm Hf p. unfold or_refused. specialize (Hm p).
  destruct (m p) as [[a|s d|e] p1]; cbn [snd] in *; [done| |done]. by rewrite Hf.
Qed.
Lemma quiet_send q : quiet (send_query env server q).
Proof. intros p. unfold send_query. by destruct (serve server q (host_of p)). Qed.

Lemma quiet_call m path body params signed : quiet (call_server env out server m path body params signed).
Proof.
  apply quiet_bind; [destruct signed; [apply quiet_net|apply quiet_ret]|]. intros identity.
  apply quiet_bind; [apply quiet_send|]. intros [text|status empty text parsed]; cbn; [apply quiet_refuse|].
  destruct (400 <=? status)%Z; [apply quiet_refuse|]. destruct empty; [apply quiet_ret|].
  destruct parsed; [apply quiet_ret|apply quiet_refuse].
Qed.

Lemma quiet_object m : quiet m → quiet (object m : PM H dict).
Proof. intros Hm. apply quiet_bind; [exact Hm|]. intros j. apply quiet_lift. Qed.

Lemma quiet_scores : quiet (scores_by_hotkey env out server around settings).
Proof.
  unfold scores_by_hotkey.
  apply quiet_bind; [apply quiet_object, quiet_call|]. intros roster.
  apply quiet_bind; [apply quiet_lift|]. intros found.
  apply quiet_bind; [apply quiet_refused; [|intros; apply quiet_ret]|].
  { apply quiet_bind; [apply quiet_object, quiet_call|]. intros d. apply quiet_ret. }
  intros ss. do 3 (apply quiet_bind; [apply quiet_at|]; intros ?).
  apply quiet_bind; [apply quiet_lift|]. intros [s origin]. apply quiet_ret.
Qed.

Lemma submit_weights_calls scores active dry p o p' :
  submit_weights env around settings scores active dry p = (o, p') →
  calls p' = calls p ∨ ∃ view res call,
    chain_now around (host_of p) = inr view ∧ calls p' = calls p ++ [call] ∧
    submit (uid_of view) (version_key view) (receipt view)
      (MkChain settings.(netuid) settings.(mechanism_id)) scores active
      settings.(reserve_uid) settings.(held_share) dry = Ok (res, Some call).
Proof.
  unfold submit_weights. rewrite PM_bindE. cbn [now_at].
  destruct (chain_now around (host_of p)) as [e|view]; [intros [= <- <-]; by left|].
  rewrite PM_bindE. unfold plift.
  destruct (submit _ _ _ _ _ _ _ _ _) as [[res [call|]]|e] eqn:E; cbn.
  - intros [= <- <-]. right. by exists view, res, call.
  - intros [= <- <-]. by left.
  - intros [= <- <-]. by left.
Qed.
End PortalFacts.

(** ** Who gets a weight *)

Lemma mapM_keys {K A B} (f : K * A → res (K * B)) l : ∀ l',
  (∀ x y, f x = Ok y → y.1 = x.1) → mapM f l = Ok l' → l'.*1 = l.*1.
Proof.
  induction l as [|x l IH]; intros l' Hf H; [by injection H as <-|].
  change (mapM f (x :: l)) with (y ← f x; k ← mapM f l; mret (y :: k)) in H.
  apply res_bind_ok in H as (y & Hy & H). apply res_bind_ok in H as (ys & Hys & H). injection H as <-.
  cbn. rewrite (Hf _ _ Hy). f_equal. by apply IH.
Qed.

Lemma normalise_positive scores shares uid :
  normalise scores = Ok shares → uid ∈ shares.*1 → ∃ x, (uid, x) ∈ scores ∧ flt f0 x = true.
Proof.
  unfold normalise. destruct (fle _ _).
  { intros [= <-] Hin. by apply not_elem_of_nil in Hin. }
  intros H Hin. apply mapM_keys in H; [|intros x y (s & _ & [= <-])%res_bind_ok; done].
  rewrite H in Hin. apply list_elem_of_fmap in Hin as ([k x] & -> & Hin).
  apply elem_of_filter_b in Hin as [Hin Hx]. by exists x.
Qed.

Lemma dset_keys {K V} `{EqDecision K} (k : K) (v : V) d uid : uid ∈ (dset k v d).*1 → uid = k ∨ uid ∈ d.*1.
Proof.
  intros Hin. change ((dset k v d).*1) with (dkeys (dset k v d)) in Hin. rewrite dkeys_dset in Hin.
  destruct (dmem k d); [by right|]. apply elem_of_app in Hin as [Hin|Hin]; [by right|].
  left. by apply list_elem_of_singleton in Hin.
Qed.

Lemma with_reserve_keys shares reserve held uid :
  uid ∈ (with_reserve shares reserve held).*1 → Some uid = reserve ∨ uid ∈ shares.*1.
Proof.
  unfold with_reserve. destruct reserve as [r|]; [|by right]. destruct (fle held f0); [by right|].
  intros [->|Hin]%dset_keys; [by left|]. right. rewrite <- list_fmap_compose in Hin.
  apply list_elem_of_fmap in Hin as (x & -> & Hin). apply elem_of_filter_b in Hin as [Hin _].
  by apply (list_elem_of_fmap_2 fst) in Hin.
Qed.

Lemma to_u16_keys shares u16 uid : to_u16 shares = Ok u16 → uid ∈ u16.*1 → uid ∈ shares.*1.
Proof.
  unfold to_u16. destruct (shares.*2) as [|v values]; [by intros [= <-] ?%not_elem_of_nil|].
  destruct (fle _ f0); [by intros [= <-] ?%not_elem_of_nil|]. intros H Hin.
  apply mapM_keys in H; [|intros x y (s & _ & [= <-])%res_bind_ok; done]. rewrite H in Hin.
  apply list_elem_of_fmap in Hin as (x & -> & Hin). apply elem_of_filter_b in Hin as [Hin _].
  by apply (list_elem_of_fmap_2 fst) in Hin.
Qed.

Lemma floor_keys donor missing uid : ∀ u16 acc,
  uid ∈ (floor_loop donor missing u16 acc).1.*1 → uid ∈ missing ∨ uid = donor ∨ uid ∈ u16.*1.
Proof.
  induction missing as [|m missing IH]; intros u16 acc; cbn [floor_loop]; [by right; right|].
  destruct (Z.leb_spec (default 0%Z (dget donor u16)) 1); [by right; right|].
  intros [Hin|[Hin|Hin]]%IH; [left; by right|by right; left|].
  apply dset_keys in Hin as [->|Hin]; [left; by left|]. apply dset_keys in Hin as [->|Hin]; auto.
Qed.

Lemma eligibility_keys u16 active donor uid :
  uid ∈ (eligibility_floor u16 active donor).1.*1 → uid ∈ active ∨ uid ∈ u16.*1.
Proof.
  unfold eligibility_floor. destruct (missing_uids u16 active donor) as [|m missing] eqn:Em; [by right|].
  destruct donor as [d|]; [|by right]. destruct (dmem d u16) eqn:Ed; [|by right].
  intros [Hin|[->|Hin]]%floor_keys; [|right|by right].
  - left. rewrite <- Em in Hin. by apply missing_uids_elem in Hin as (? & _).
  - by apply dmem_true in Ed.
Qed.

(** Only a uid with a positive score, an active one or the reserve is weighed. *)
Lemma build_sources scores active reserve held v uid :
  build scores active reserve held = Ok v → uid ∈ v.(uids) →
  Some uid = reserve ∨ uid ∈ active ∨ ∃ x, (uid, x) ∈ scores ∧ flt f0 x = true.
Proof.
  unfold build. intros (shares & Hn & (u16 & Hu & H)%res_bind_ok)%res_bind_ok Hin.
  destruct (eligibility_floor u16 active reserve) as [u16' floored] eqn:Ef.
  injection H as <-. cbn [uids] in Hin. rewrite merge_sort_Permutation in Hin.
  change u16' with (u16', floored).1 in Hin. rewrite <- Ef in Hin.
  apply eligibility_keys in Hin as [Hin|Hin]; [by right; left|].
  eapply to_u16_keys in Hin; [|exact Hu]. apply with_reserve_keys in Hin as [Hin|Hin]; [by left|].
  right; right. by eapply normalise_positive.
Qed.

Lemma dset_elem {K V} `{EqDecision K} (k : K) (v : V) d x :
  x ∈ dset k v d → x = (k, v) ∨ x ∈ d.
Proof.
  induction d as [|[k' v'] d IH]; cbn [dset]; [intros ->%list_elem_of_singleton; by left|].
  destruct (decide (k = k')) as [<-|]; intros [->|Hin]%elem_of_cons; [by left|by right; right|by right; left|].
  destruct (IH Hin); [by left|by right; right].
Qed.

Lemma by_uid_sources (us : list (string * Z)) (l : list (string * pyfloat)) : ∀ m uid x,
  (uid, x) ∈ fold_left (λ m hw, match dget hw.1 us with Some u => dset u hw.2 m | None => m end) l m →
  (uid, x) ∈ m ∨ ∃ h, (h, x) ∈ l ∧ dget h us = Some uid.
Proof.
  induction l as [|[h w] l IH]; intros m uid x; cbn [fold_left]; [by left|].
  intros [Hin|(h' & Hin & E)]%IH; [|right; exists h'; split; [by right|done]]. cbn [fst snd] in Hin.
  destruct (dget h us) as [u|] eqn:E; [|by left].
  apply dset_elem in Hin as [[= -> ->]|Hin]; [|by left]. right. exists h. split; [by left|done].
Qed.

Lemma uids_for_get uid_of hs h u : dget h (uids_for uid_of hs) = Some u → uid_of h = Some u.
Proof.
  intros (h' & _ & E)%dget_elem%list_elem_of_omap. destruct (uid_of h') eqn:Eu; [|done].
  by injection E as -> ->.
Qed.

(** The vector for the chain weighs the reserve, the uids of the active hotkeys
    and those of the hotkeys with a positive score. *)
Lemma vector_sources uid_of scores active reserve held v us uid :
  vector uid_of scores active reserve held = Ok (v, us) → uid ∈ v.(uids) →
  Some uid = reserve ∨ ∃ h, uid_of h = Some uid ∧
    (h ∈ active ∨ ∃ x, (h, x) ∈ scores ∧ flt f0 x = true).
Proof.
  unfold vector. intros (v' & Hb & [= <- <-])%res_bind_ok Hin.
  eapply build_sources in Hin as [Hin|[Hin|(x & Hin & Hx)]]; [| | |exact Hb]; [by left|right..].
  - apply list_elem_of_omap in Hin as (h & Hin & E%uids_for_get). exists h. auto.
  - apply by_uid_sources in Hin as [Hin|(h & Hin & E%uids_for_get)]; [by apply not_elem_of_nil in Hin|].
    exists h. split; [done|]. right. by exists x.
Qed.

Lemma submit_dests uid_of key receipt self scores active reserve held dry res call :
  submit uid_of key receipt self scores active reserve held dry = Ok (res, Some call) →
  dry = false ∧ ∃ v us, vector uid_of scores active reserve held = Ok (v, us) ∧
    dget "dests" call.(call_params) = Some (JList (JInt <$> v.(uids))).
Proof.
  unfold submit. intros ([v us] & Hv & H)%res_bind_ok. destruct (uids v) eqn:E; [done|].
  destruct dry; [done|]. split; [done|]. exists v, us. split; [done|].
  rewrite E. destruct (mechanism_id self); injection H as _ <-; reflexivity.
Qed.

Section Rounds.
Context {H : Type} (env : Env H) (out : Outer H) (server : Server H) (around : Around H)
  (settings : Config.Validator.Settings).
Import Config.Validator.

(** A hotkey of the roster: some rig of it is online and has that hotkey. *)
Definition hotkey_online (roster : list json) (h : string) : Prop :=
  ∃ rig, JDict rig ∈ roster ∧ truthy (getv "online" rig) = true ∧ truthy (getv "hotkey" rig) = true
    ∧ h = py_str (getd "hotkey" (JStr "") rig).

Lemma active_online found h :
  h ∈ remove_dups (List.flat_map online_hotkey (dict_rigs found)) ↔ hotkey_online found h.
Proof.
  rewrite elem_of_remove_dups, list_elem_of_In, in_flat_map. unfold hotkey_online, online_hotkey, dict_rigs. split.
  - intros (rig & Hr%list_elem_of_In & Hh). apply list_elem_of_omap in Hr as (j & Hj & Ej).
    destruct j as [| | | | | |d]; try done. injection Ej as ->. exists rig.
    destruct (truthy (getv "online" rig)), (truthy (getv "hotkey" rig)); try done.
    destruct Hh as [<-|[]]. by split_and!.
  - intros (rig & Hr & Ho & Hk & ->). exists rig. rewrite Ho, Hk. split; [|by left].
    apply list_elem_of_In, list_elem_of_omap. by exists (JDict rig).
Qed.

(** What the scores are computed from: the roster, and the server's own scores
    unless it refuses them. *)
Lemma scores_by_hotkey_got p scores origin active p' :
  scores_by_hotkey env out server around settings p = (Got (scores, origin, active), p') →
  ∃ roster found server_scores p1,
    rigs env out server false p = (Got roster, p1) ∧
    py_iter (jor (getv "rigs" roster) (JList [])) = Ok found ∧
    or_refused (d ← Portal.scores env out server; mret (Some d)) (λ _ _, mret None) p1 = (Got server_scores, p') ∧
    active = remove_dups (List.flat_map online_hotkey (dict_rigs found)) ∧
    let h := host_of p' in
    compute_scores around.(fromisoformat) server_scores (dict_rigs found) (Some (around.(demand_now) h))
      (Some (around.(ledger_now) h)) settings.(min_driver_version)
      (driver_cutoff_passed around.(fromisoformat) settings (around.(utcnow) h)) (around.(utcnow) h)
    = Ok (scores, origin).
Proof.
  unfold scores_by_hotkey. intros E. apply PM_bind_got in E as (roster & p1 & Hr & E).
  apply PM_bind_got in E as (found & p2 & Hf & E). apply plift_got in Hf as [Hf ->].
  apply PM_bind_got in E as (ss & p3 & Hs & E).
  do 3 (apply PM_bind_got in E as (? & ? & [= <- <-] & E)).
  apply PM_bind_got in E as ([sc og] & p4 & Hc & E). apply plift_got in Hc as [Hc ->].
  injection E as <- <- <- <-. by exists roster, found, ss, p1.
Qed.

(** C22. A round of the weights submits to the chain at most one call, none when
    it is dry or there are no scores.  The call weighs only the reserve uid, the uids
    of hotkeys with a rig online in the roster the server has just answered with, and
    those of hotkeys with a positive score, the scores being those computed from
    that roster and the server's own. *)
Theorem weights_round_sound dry p :
  let p' := (set_weights_once env out server around settings dry p).2 in
  calls p' = calls p ∨
  ∃ call roster p1 found server_scores p2 scores origin view us,
    let h := host_of p2 in
    dry = false ∧ calls p' = calls p ++ [call] ∧
    rigs env out server false p = (Got roster, p1) ∧
    py_iter (jor (getv "rigs" roster) (JList [])) = Ok found ∧
    or_refused (d ← Portal.scores env out server; mret (Some d)) (λ _ _, mret None) p1 = (Got server_scores, p2) ∧
    compute_scores around.(fromisoformat) server_scores (dict_rigs found) (Some (around.(demand_now) h))
      (Some (around.(ledger_now) h)) settings.(min_driver_version)
      (driver_cutoff_passed around.(fromisoformat) settings (around.(utcnow) h)) (around.(utcnow) h)
    = Ok (scores, origin) ∧ scores ≠ [] ∧
    chain_now around h = inr view ∧
    dget "dests" call.(call_params) = Some (JList (JInt <$> us)) ∧
    ∀ uid, uid ∈ us → Some uid = settings.(reserve_uid) ∨
      ∃ hotkey, uid_of view hotkey = Some uid ∧
        (hotkey_online found hotkey ∨ ∃ x, (hotkey, x) ∈ scores ∧ flt f0 x = true).
Proof.
  intros p'. unfold p', set_weights_once. clear p'. rewrite PM_bindE.
  pose proof (quiet_scores env out server around settings p) as Hq.
  destruct (scores_by_hotkey env out server around settings p) as [[[[scores origin] active]|s d|e] p2] eqn:Es;
    cbn [snd] in Hq; [|by left..].
  apply scores_by_hotkey_got in Es as (roster & found & ss & p1 & Hr & Hf & Hs & -> & Hc).
  destruct scores as [|x scores]; [by left|]. rewrite PM_bindE.
  destruct (submit_weights env around settings (x :: scores) _ dry p2) as [r p3] eqn:Ew.
  match goal with |- context [calls ?q] => assert (calls q = calls p3) as Hcalls by (by destruct r); rewrite Hcalls end.
  apply submit_weights_calls in Ew as [E|(view & res & call & Hv & E & Hsub)]; [left; congruence|].
  right. apply submit_dests in Hsub as (-> & v & us & Hvec & Hd).
  exists call, roster, p1, found, ss, p2, (x :: scores), origin, view, v.(uids). cbn zeta.
  split; [done|]. split; [congruence|]. split_and!; try done.
  intros uid Hin. eapply vector_sources in Hin as [?|(h & Hu & [Ha|Hx])]; [by left| | |exact Hvec];
    right; exists h; (split; [done|]); [left; by apply active_online|by right].
Qed.

Lemma round_calls p :
  ∃ new, calls (set_weights_once env out server around settings false p).2 = calls p ++ new ∧
    (List.length new <= 1)%nat.
Proof.
  unfold set_weights_once. rewrite PM_bindE.
  pose proof (quiet_scores env out server around settings p) as Hq.
  destruct (scores_by_hotkey env out server around settings p) as [[[[scores origin] active]|s d|e] p1];
    cbn [snd] in *; [|exists []; rewrite app_nil_r; auto..].
  destruct scores as [|x scores]; [exists []; rewrite app_nil_r; auto|]. rewrite PM_bindE.
  destruct (submit_weights env around settings (x :: scores) active false p1) as [r p2] eqn:Ew.
  apply submit_weights_calls in Ew as [E|(view & res & call & _ & E & _)].
  - exists []. rewrite app_nil_r. split; [|cbn; lia]. destruct r; cbn; congruence.
  - exists [call]. split; [|done]. destruct r; cbn; congruence.
Qed.

(** The attempts of some turns, the last attempt having ended at [last]. *)
Lemma turns_spec turns : ∀ last p,
  let '(attempts, p') := weights_turns env out server around settings turns last p in
  (∀ a l, attempts = a :: l → fle (fz settings.(weights_seconds)) (fsub a.(begun) last) = true) ∧
  (∀ i a b, attempts !! i = Some a → attempts !! S i = Some b →
     fle (fz settings.(weights_seconds)) (fsub b.(begun) a.(ended)) = true) ∧
  ∃ new, calls p' = calls p ++ new ∧ (List.length new <= List.length attempts)%nat.
Proof.
  induction turns as [|turns IH]; intros last p; cbn [weights_turns].
  { split_and!; [done|done|]. exists []. by rewrite app_nil_r. }
  unfold weights_turn.
  destruct (fle (fz settings.(weights_seconds)) (fsub (env.(wall) (host_of p)) last)) eqn:Edue.
  - destruct (round_calls p) as (c & Hc & Hlen).
    destruct (set_weights_once env out server around settings false p) as [o p1]. cbn [snd] in Hc.
    set (at_ := env.(wall) (host_of p1)). specialize (IH at_ (asleep env (fz 30) p1).2).
    destruct (weights_turns env out server around settings turns at_ _) as [rest p2].
    destruct IH as (Hhead & Hpairs & new & Hnew & Hl). split_and!.
    + by intros a l [= <- <-].
    + intros [|i] a b; cbn; [|apply Hpairs]. intros [= <-] Hb. destruct rest as [|b' rest]; [done|].
      injection Hb as ->. by apply (Hhead b rest).
    + exists (c ++ new). split; [rewrite Hnew; cbn; by rewrite Hc, app_assoc|].
      rewrite length_app. cbn. lia.
  - specialize (IH last (asleep env (fz 30) p).2).
    destruct (weights_turns env out server around settings turns last _) as [rest p2]. exact IH.
Qed.

(** ** The clock of the loop *)

(** The clock shows no earlier time. *)
Definition later (h h' : H) : Prop :=
  ∀ a b, env.(wall) h = FFin a → env.(wall) h' = FFin b → (a <= b)%Q.

(** The wall clock of the validator, up to its last reading [limit]: it shows finite
    floats, neither a request, a call to the chain nor a sleep sets it back, and the
    sleep between two turns takes at least twenty-nine of its thirty seconds. *)
Class WallClock (limit : Q) : Prop := {
  wall_reads h : ∃ r, env.(wall) h = FFin r;
  wall_serve q h : later h (server.(serve) q h).2;
  wall_settled call h : later h (around.(settled) call h);
  wall_asleep h : later h (env.(idle) (fz 30) h);
  wall_idle h a b : env.(wall) h = FFin a → env.(wall) (env.(idle) (fz 30) h) = FFin b →
    (a + 30 <= limit)%Q → (a + 29 <= b)%Q }.

Section Steady.
Context (limit : Q) `{!WallClock limit}.

Lemma later_refl h : later h h.
Proof. intros a b -> [= ->]. apply Qle_refl. Qed.
Lemma later_trans h1 h2 h3 : later h1 h2 → later h2 h3 → later h1 h3.
Proof.
  intros H1 H2 a c Ha Hc. destruct (wall_reads h2) as [b Hb].
  apply Qle_trans with b; [by apply H1|by apply H2].
Qed.

(** A computation that does not set the clock back. *)
Definition steady {A} (m : PM H A) : Prop := ∀ p, later (host_of p) (host_of (m p).2).

Lemma steady_ret {A} (a : A) : steady (mret a : PM H A).
Proof. intros p. apply later_refl. Qed.
Lemma steady_lift {A} (r : res A) : steady (plift r : PM H A).
Proof. intros p. apply later_refl. Qed.
Lemma steady_refuse {A} s d : steady (refuse s d : PM H A).
Proof. intros p. apply later_refl. Qed.
Lemma steady_at {A} (f : H → A) : steady (now_at f).
Proof. intros p. apply later_refl. Qed.
Lemma steady_bind {A B} (m : PM H A) (f : A → PM H B) : steady m → (∀ a, steady (f a)) → steady (m ≫= f).
Proof.
  intros Hm Hf p. rewrite PM_bindE. specialize (Hm p).
  destruct (m p) as [[a|s d|e] p1]; cbn [snd] in *; [|done..].
  exact (later_trans _ _ _ Hm (Hf a p1)).
Qed.
Lemma steady_refused {A} (m : PM H A) f : steady m → (∀ s d, steady (f s d)) → steady (or_refused m f).
Proof.
  intros Hm Hf p. unfold or_refused. specialize (Hm p).
  destruct (m p) as [[a|s d|e] p1]; cbn [snd] in *; [done| |done]. exact (later_trans _ _ _ Hm (Hf s d p1)).
Qed.

Lemma steady_call m path body params signed : steady (call_server env out server m path body params signed).
Proof.
  apply steady_bind; [destruct signed; [|apply steady_ret]|].
  { intros p. unfold on_net. cbn. apply later_refl. }
  intros identity. apply steady_bind.
  { intros p. unfold send_query. pose proof (wall_serve (MkQuery m path params
      (([("accept", "application/json")] ++ (if body then [("content-type", "application/json")] else [])) ++ identity)
      (canonical_json <$> body)) (host_of p)) as Hs. by destruct (serve server _ (host_of p)). }
  intros [text|status empty text parsed]; cbn; [apply steady_refuse|].
  destruct (400 <=? status)%Z; [apply steady_refuse|]. destruct empty; [apply steady_ret|].
  destruct parsed; [apply steady_ret|apply steady_refuse].
Qed.

Lemma steady_object m : steady m → steady (object m : PM H dict).
Proof. intros Hm. apply steady_bind; [exact Hm|]. intros j. apply steady_lift. Qed.

Lemma steady_scores : steady (scores_by_hotkey env out server around settings).
Proof.
  unfold scores_by_hotkey.
  apply steady_bind; [apply steady_object, steady_call|]. intros roster.
  apply steady_bind; [apply steady_lift|]. intros found.
  apply steady_bind; [apply steady_refused; [|intros; apply steady_ret]|].
  { apply steady_bind; [apply steady_object, steady_call|]. intros d. apply steady_ret. }
  intros ss. do 3 (apply steady_bind; [apply steady_at|]; intros ?).
  apply steady_bind; [apply steady_lift|]. intros [s origin]. apply steady_ret.
Qed.

(** A round of the weights does not set the clock back. *)
Lemma steady_round : steady (set_weights_once env out server around settings false).
Proof.
  apply steady_bind; [apply steady_scores|]. intros [[scores origin] active].
  destruct scores as [|x scores]; [apply steady_ret|].
  apply steady_bind; [|intros outcome; apply steady_ret].
  apply steady_bind; [apply steady_at|]. intros [e|view]; [apply steady_lift|].
  apply steady_bind; [apply steady_lift|]. intros [o [call|]]; [|apply steady_ret].
  apply steady_bind; [|intros ?; apply steady_ret].
  intros p. exact (wall_settled call (host_of p)).
Qed.
End Steady.

(** The clock after the sleep of a turn. *)
Lemma asleep_wall limit `{!WallClock limit} p a : env.(wall) (host_of p) = FFin a →
  ∃ b, env.(wall) (host_of (asleep env (fz 30) p).2) = FFin b ∧ (a <= b)%Q ∧
    ((a + 30 <= limit)%Q → (a + 29 <= b)%Q).
Proof.
  intros Ha. change (host_of (asleep env (fz 30) p).2) with (env.(idle) (fz 30) (host_of p)).
  destruct (wall_reads (env.(idle) (fz 30) (host_of p))) as [b Hb]. exists b.
  split; [done|]. split; [by apply (wall_asleep (host_of p))|]. by apply (wall_idle (host_of p)).
Qed.

(** The turns that make an attempt due, in twenty-nine seconds each. *)
Definition turns_per_attempt : nat := Z.to_nat ((settings.(weights_seconds) + 28) / 29).

Lemma not_due b last : (0 < settings.(weights_seconds) < 2 ^ 53)%Z →
  fle (fz settings.(weights_seconds)) (fsub (FFin b) (FFin last)) = false →
  (b < last + inject_Z settings.(weights_seconds))%Q.
Proof.
  intros Hw Hf. apply Qnot_le_lt. intros Hge. revert Hf. unfold fsub, fz. cbn [fneg fadd].
  rewrite fle_rnd; [done|apply representable_Z; lia|lra].
Qed.

(** [j] sleeps have passed since the last attempt ended. *)
Lemma turns_live limit `{!WallClock limit} turns : (0 < settings.(weights_seconds) < 2 ^ 53)%Z →
  ∀ last p j a, env.(wall) (host_of p) = FFin a → (last + 29 * inject_Z (Z.of_nat j) <= a)%Q →
  (j <= turns_per_attempt)%nat →
  let '(attempts, p') := weights_turns env out server around settings turns (FFin last) p in
  ∃ b, env.(wall) (host_of p') = FFin b ∧ (a <= b)%Q ∧
    ((turns + j <= turns_per_attempt * S (List.length attempts))%nat ∨ (limit < b + 30)%Q).
Proof.
  intros Hw. induction turns as [|turns IH]; intros last p j a Ha Hj Hle; cbn [weights_turns].
  { exists a. split; [done|]. split; [apply Qle_refl|]. left. cbn [List.length]. lia. }
  unfold weights_turn. rewrite Ha.
  destruct (fle (fz settings.(weights_seconds)) (fsub (FFin a) (FFin last))) eqn:Edue.
  - pose proof (steady_round limit p) as Hround.
    destruct (set_weights_once env out server around settings false p) as [o p1]. cbn [snd] in Hround.
    destruct (wall_reads (host_of p1)) as [e He]. specialize (Hround a e Ha He). rewrite He.
    destruct (asleep_wall limit p1 e He) as (b & Hb & Heb & Hs).
    assert (∃ i, (e + 29 * inject_Z (Z.of_nat i) <= b)%Q ∧ (i <= turns_per_attempt)%nat ∧
              (i = 1%nat ∨ (limit < e + 30)%Q)) as (i & Hi & Him & Hcase).
    { destruct (Qlt_le_dec limit (e + 30)) as [Hover|Hin].
      - exists 0%nat. change (inject_Z (Z.of_nat 0)) with 0%Q. split_and!; [lra|lia|by right].
      - exists 1%nat. change (inject_Z (Z.of_nat 1)) with 1%Q. specialize (Hs Hin).
        split_and!; [lra| |by left]. unfold turns_per_attempt. apply Nat2Z.inj_le.
        rewrite Z2Nat.id by (apply Z.div_pos; lia). apply Z.div_le_lower_bound; lia. }
    specialize (IH e (asleep env (fz 30) p1).2 i b Hb Hi Him).
    destruct (weights_turns env out server around settings turns (FFin e) _) as [rest p2].
    destruct IH as (b' & Hb' & Hbb & IH). exists b'. split; [done|]. split; [lra|].
    destruct Hcase as [->|Hover]; [|right; lra]. destruct IH as [IH|IH]; [left|by right].
    cbn [List.length]. lia.
  - pose proof (not_due a last Hw Edue) as Hnot.
    assert (S j <= turns_per_attempt)%nat as Hj1.
    { assert (29 * Z.of_nat j < settings.(weights_seconds))%Z as Hlt.
      { rewrite Zlt_Qlt, inject_Z_mult. change (inject_Z 29) with 29%Q. lra. }
      unfold turns_per_attempt. apply Nat2Z.inj_le. rewrite Z2Nat.id by (apply Z.div_pos; lia).
      apply Z.div_le_lower_bound; lia. }
    destruct (asleep_wall limit p a Ha) as (b & Hb & Hab & Hs).
    destruct (Qlt_le_dec limit (a + 30)) as [Hover|Hin].
    + specialize (IH last (asleep env (fz 30) p).2 j b Hb ltac:(lra) Hle).
      destruct (weights_turns env out server around settings turns (FFin last) _) as [rest p2].
      destruct IH as (b' & Hb' & Hbb & _). exists b'. split; [done|]. split; [lra|]. right. lra.
    + specialize (Hs Hin). assert (last + 29 * inject_Z (Z.of_nat (S j)) <= b)%Q as Hsj.
      { rewrite Nat2Z.inj_succ, <- Z.add_1_l, inject_Z_plus. change (inject_Z 1) with 1%Q. lra. }
      specialize (IH last (asleep env (fz 30) p).2 (S j) b Hb Hsj Hj1).
      destruct (weights_turns env out server around settings turns (FFin last) _) as [rest p2].
      destruct IH as (b' & Hb' & Hbb & IH). exists b'. split; [done|]. split; [lra|].
      destruct IH as [IH|IH]; [left; lia|by right].
Qed.

(** C23. The weights are set for ever, and no faster than configured.  Whatever the
    attempts come to - a refusal, an exception, a call -, between two of them at least
    the configured time passes, from the end of one to the start of the next, and
    each submits at most one call.  While the clock runs (up to its last reading
    [limit]), every so many turns of the loop, as many as make up that time in
    twenty-nine seconds each, bring an attempt.  With the weights switched off the
    loop returns at once: no turn, no attempt, no call. *)
Theorem weights_paced limit `{!WallClock limit} turns p a :
  env.(wall) (host_of p) = FFin a → (0 <= a)%Q → (0 < settings.(weights_seconds) < 2 ^ 53)%Z →
  let '(attempts, p') := weights_loop env out server around settings turns p in
  if settings.(set_weights) then
    (∀ i a b, attempts !! i = Some a → attempts !! S i = Some b →
       fle (fz settings.(weights_seconds)) (fsub b.(begun) a.(ended)) = true) ∧
    (∃ new, calls p' = calls p ++ new ∧ (List.length new <= List.length attempts)%nat) ∧
    ∃ b, env.(wall) (host_of p') = FFin b ∧ (a <= b)%Q ∧
      ((turns <= turns_per_attempt * S (List.length attempts))%nat ∨ (limit < b + 30)%Q)
  else attempts = [] ∧ p' = p.
Proof.
  intros Ha H0 Hw. unfold weights_loop. destruct (set_weights settings) eqn:Eset; [|done].
  pose proof (turns_spec turns f0 p) as Ht.
  pose proof (turns_live limit turns Hw 0 p 0 a Ha) as Hl. fold f0 in Hl.
  destruct (weights_turns env out server around settings turns f0 p) as [attempts p'].
  destruct Ht as (_ & Hpairs & Hnew). split; [exact Hpairs|]. split; [exact Hnew|].
  destruct Hl as (b & Hb & Hab & Hl); [change (inject_Z (Z.of_nat 0)) with 0%Q; lra|lia|].
  exists b. split; [done|]. split; [done|]. by rewrite Nat.add_0_r in Hl.
Qed.
End Rounds.

(** ** Examples *)

Definition answer_text (text : string) (j : json) : response := Response 200 false text (Some j).
Definition sample_server : Server Z :=
  MkServer (λ q h,
    (if String.eqb q.(qpath) (VALIDATORS +:+ "/me") then Response 404 false "who" None
     else if String.eqb q.(qpath) (VALIDATORS +:+ "/register") then answer_text "" (JDict [("state", JStr "active")])
     else if String.eqb q.(qpath) (VALIDATORS +:+ "/rigs") then
       answer_text "" (JDict [("rigs", JList [JDict [("hotkey", JStr "5A"); ("online", JBool true)];
                                              JDict [("hotkey", JStr "5B"); ("online", JBool false)]])])
     else answer_text "" (JDict [("epoch", JInt 3);
                                 ("weights", JDict [("5B", JFloat (fz 3)); ("5C", JFloat (fz 1))])]),
     (h + 1)%Z)).
Definition sample_env : Env Z :=
  MkEnv _ (λ c _ _ h, (MkResult c 0 "" "" f0 "", h)) (λ s h, (h + 3600)%Z) (λ h, fz h) (λ h, fz h)
    (λ _, []) (λ _ _, "") (λ _ _, "") (λ _, None).
Definition sample_out : Outer Z :=
  MkOuter "5Validator" (λ _, "sig") (λ _ h, (HttpError "", h)) (λ _, "") (λ _ _ _ _ _ h, (NotConnected "", h)).
Definition sample_around : Around Z :=
  MkAround (λ _, MkDemandWeights false ALPHA [] []) (λ _, [])
    (λ _, inr (MkView (λ h, if String.eqb h "5A" then Some 1%Z else if String.eqb h "5B" then Some 2%Z else None)
                 7 (λ _, "0xabc")))
    (λ _ h, h) (λ h, h) (λ _, None).
Definition sample_environ (name : string) : option string :=
  if String.eqb name "CV_SET_WEIGHTS" then Some "1" else if String.eqb name "CV_RESERVE_UID" then Some "0" else None.
Definition sample_settings : Config.Validator.Settings := Config.Validator.settings sample_environ.
Definition sample_portal : Portal Z := MkPortal (MkNet (MkSt 5000%Z [] (MkInflight [] []) (MkRecords [] []) [] []) f0 [] 0) [] [].

(** Five seconds a step: a request takes one, the sleep of a turn six; the clock
    stops at ten million seconds. *)
Definition loop_env : Env Z :=
  MkEnv _ (λ c _ _ h, (MkResult c 0 "" "" f0 "", h)) (λ s h, (h + 6)%Z)
    (λ h, fz h) (λ h, fz (5 * Z.min h 2000000)) (λ _, []) (λ _ _, "") (λ _ _, "") (λ _, None).

#[local] Instance loop_clock : WallClock loop_env sample_server sample_around 9999970.
Proof.
  split.
  - intros h. by eexists.
  - intros q h a b [= <-] [= <-]. rewrite <- Zle_Qle. lia.
  - intros c h. apply later_refl.
  - intros h a b [= <-] [= <-]. rewrite <- Zle_Qle. lia.
  - intros h a b [= <-] [= <-]. change 30%Q with (inject_Z 30). change 29%Q with (inject_Z 29).
    change 9999970%Q with (inject_Z 9999970). rewrite <- !inject_Z_plus, <- !Zle_Qle. lia.
Qed.

Definition loop_settings : Config.Validator.Settings := Config.Validator.settings (λ name,
  if String.eqb name "CV_WEIGHTS_SECONDS" then Some "120" else sample_environ name).

Example registers : (ensure_registered sample_env sample_out sample_server sample_settings sample_portal).1 = Got true.
Proof. vm_compute. reflexivity. Qed.

Example submits_twice :
  let '(attempts, p) := weights_loop sample_env sample_out sample_server sample_around sample_settings 2 sample_portal in
  List.length attempts = 2%nat ∧
  (λ c, dget "dests" c.(call_params)) <$> p.(calls)
    = [Some (JList [JInt 0; JInt 1; JInt 2]); Some (JList [JInt 0; JInt 1; JInt 2])].
Proof. vm_compute. split; reflexivity. Qed.

(** Twenty minutes of the loop, with the weights set every two. *)
Lemma weights_paced_witness :
  let '(attempts, p) :=
    weights_loop loop_env sample_out sample_server sample_around loop_settings 40 sample_portal in
  (∃ new, calls p = calls sample_portal ++ new ∧ (List.length new <= List.length attempts)%nat) ∧
  (40 <= turns_per_attempt loop_settings * S (List.length attempts))%nat.
Proof.
  pose proof (weights_paced loop_env sample_out sample_server sample_around loop_settings 9999970 40
                sample_portal 25000 eq_refl ltac:(vm_compute; discriminate) ltac:(vm_compute; by split)) as Hp.
  destruct (weights_loop loop_env sample_out sample_server sample_around loop_settings 40 sample_portal)
    as [attempts p] eqn:E.
  destruct Hp as (_ & Hn & b & Hb & _ & [Hl|Hl]).
  - split; [exact Hn|exact Hl].
  - exfalso. assert (wall loop_env (host_of p) = fz 26300) as Hc.
    { change p with (attempts, p).2. rewrite <- E. vm_compute. reflexivity. }
    rewrite Hc in Hb. injection Hb as <-. revert Hl. vm_compute. discriminate.
Defined.
