(* ===== verification/Persist.v ===== *)
(** * What the validator keeps on disk (validator/storage/sweep.py, validator/work/power.py)

    The teardowns to try again and the original power limits are kept in a file
    each, written beside it and renamed over it.  [Runner.St] holds them as they
    are in memory; here is what a new process reads back, also when the last one
    died while it saved. *)

From Stdlib Require Import Ascii String QArith.
From S2P Require Import Prelude.
From S2P Require Import PyStr.
From S2P Require Import PyFloat.
From S2P Require Import PyJson.
From S2P Require Import Runner.
From S2P Require Import Power.
From S2P Require Import Cleanup.
From S2P Require Import Portal.
Local Open Scope string_scope.
Local Open Scope list_scope.

(** ** Writing beside and renaming *)

Module Atomic.

(** The file and the temporary one beside it. *)
Record Files : Type := MkFiles { file : document; temp : document }.

(** [temp.write_text(...)] makes the file empty and fills it; [os.replace] renames it. *)
Definition steps (new : document) : list (Files → Files) :=
  [(λ fs, MkFiles fs.(file) Unreadable); (λ fs, MkFiles fs.(file) new); (λ fs, MkFiles fs.(temp) Absent)].

(** A save cut after some of its steps. *)
Definition save_cut (k : nat) (new : document) (fs : Files) : Files :=
  foldl (λ fs step, step fs) fs (take k (steps new)).

Lemma cut_safe k new fs :
  (save_cut k new fs).(file) = (if (k <? 3)%nat then fs.(file) else new).
Proof. destruct k as [|[|[|[|k]]]]; reflexivity. Qed.
End Atomic.

(** ** The teardowns to try again (TeardownRetries) *)

Module Retries.

Definition entry (e : Retry) : dict :=
  [("rig_id", JStr e.(trig_id)); ("job_id", JStr e.(tjob_id)); ("volumes", JList (JStr <$> e.(tvolumes)));
   ("attempts", JInt e.(attempts)); ("recorded_at", JFloat e.(trecorded_at))].

Definition raw (pending : list (string * Retry)) : list (string * dict) := (λ ne : string * Retry, (ne.1, entry ne.2)) <$> pending.

Definition save (pending : list (string * Retry)) : document :=
  Holds (JDict [("pending", JDict ((λ ne : string * dict, (ne.1, JDict ne.2)) <$> raw pending))]).

(** [load]; nothing is pending at first. *)
Definition load (file : document) : res (list (string * dict)) :=
  match file with
  | Absent | Unreadable => Ok []
  | Holds data =>
      found ← jget "pending" JNull data;
      items ← py_items (jor found (JDict []));
      map_values py_dict items
  end.

(** How an entry is read: [for_rig], the job, the volumes, the attempts so far. *)
Definition for_rig (rig_id : string) (pending : list (string * dict)) : list (string * dict) :=
  List.filter (λ ne : string * dict, match getv "rig_id" ne.2 with JStr s => String.eqb s rig_id | _ => false end) pending.
Definition job_of (e : dict) : string := get_str_or "job_id" "" e.
Definition volumes_of (e : dict) : res (list string) := l ← get_list "volumes" e; Ok (py_str <$> (l : list json)).
Definition attempts_of (e : option dict) : res Z := py_int (getd "attempts" (JInt 0) (default [] e)).
End Retries.

(** ** The original power limits (PowerRecords) *)

Module Limits.

Definition entry (o : PowerOriginal) : dict :=
  [("original_w", JFloat o.(original_w)); ("recorded_at", JFloat o.(recorded_at)); ("job", JStr o.(pjob))].

(** The records as they are read: the entries of the cards are kept as they are. *)
Record Raw : Type := MkRaw { rgpus : list (string * json); rjobs : list (string * list json) }.
Definition raw (r : PowerRecords) : Raw :=
  MkRaw ((λ uo : string * PowerOriginal, (uo.1, JDict (entry uo.2))) <$> r.(gpus))
    ((λ jl : string * list string, (jl.1, JStr <$> jl.2)) <$> r.(jobs)).

Definition save (r : PowerRecords) : document :=
  Holds (JDict [("gpus", JDict (raw r).(rgpus)); ("jobs", JDict ((λ jl : string * list json, (jl.1, JList jl.2)) <$> (raw r).(rjobs)))]).

Definition load (file : document) : res Raw :=
  match file with
  | Absent | Unreadable => Ok (MkRaw [] [])
  | Holds data =>
      gpus ← jget "gpus" JNull data;
      gpus ← py_dict (jor gpus (JDict []));
      jobs ← jget "jobs" JNull data;
      jobs ← py_items (jor jobs (JDict []));
      jobs ← map_values py_iter jobs;
      mret (MkRaw gpus jobs)
  end.

(** [original]: an empty record is none. *)
Definition original (uuid : string) (r : Raw) : res (option pyfloat) :=
  match dget uuid r.(rgpus) with
  | Some record =>
      if truthy record then
        match record with
        | JDict d => match dget "original_w" d with Some w => Some <$> py_float w | None => Raise KeyError end
        | _ => Raise TypeError
        end
      else Ok None
  | None => Ok None
  end.
End Limits.

(** ** What a new process reads *)

Lemma jor_dict_id (d : dict) : jor (JDict d) (JDict []) = JDict d.
Proof. by destruct d. Qed.

Lemma retries_loaded pending : Retries.load (Retries.save pending) = Ok (Retries.raw pending).
Proof.
  unfold Retries.load, Retries.save. cbn [jget getd dget decide default from_option id mbind res_bind].
  change (getd "pending" JNull ?d) with (default JNull (dget "pending" d)). cbn [dget]. rewrite decide_True by done.
  cbn [default from_option id mbind res_bind]. rewrite jor_dict_id. cbn [py_items mbind res_bind]. unfold map_values.
  apply mapM_id. intros [name e] _. reflexivity.
Qed.

Lemma limits_loaded r : Limits.load (Limits.save r) = Ok (Limits.raw r).
Proof.
  unfold Limits.load, Limits.save. destruct r as [g j]. cbn [Limits.raw Limits.rgpus Limits.rjobs gpus jobs].
  set (cards := (λ uo : string * PowerOriginal, (uo.1, JDict (Limits.entry uo.2))) <$> g).
  set (held := (λ jl : string * list string, (jl.1, JStr <$> jl.2)) <$> j).
  change (jget "gpus" JNull (JDict [("gpus", JDict cards); ("jobs", ?x)])) with (Ok (JDict cards)).
  change (jget "jobs" JNull (JDict [("gpus", JDict cards); ("jobs", ?x)])) with (Ok x).
  cbn [mbind res_bind]. rewrite !jor_dict_id. cbn [py_dict py_items mbind res_bind]. unfold map_values.
  rewrite mapM_id; [reflexivity|]. intros [job l] _. reflexivity.
Qed.

Lemma dget_fmap {A B} (f : A → B) k (d : list (string * A)) :
  dget k ((λ kv, (kv.1, f kv.2)) <$> d) = f <$> dget k d.
Proof. induction d as [|[k' v] d IH]; [done|]. csimpl. by case_decide. Qed.

(** C27. What the validator kept survives its end: a process that starts after the last
    one died anywhere while it saved reads the teardowns to try again and the
    original power limits as they were before that save, or as they were after it,
    never anything in between; and what is read gives the same machines, jobs,
    volumes, attempts and limits as the memory of the process that wrote it. *)
Theorem restart_restores pending pending' records records' k :
  let retries := (Atomic.save_cut k (Retries.save pending') (Atomic.MkFiles (Retries.save pending) Absent)).(Atomic.file) in
  let limits := (Atomic.save_cut k (Limits.save records') (Atomic.MkFiles (Limits.save records) Absent)).(Atomic.file) in
  Retries.load retries = Ok (Retries.raw (if (k <? 3)%nat then pending else pending')) ∧
  Limits.load limits = Ok (Limits.raw (if (k <? 3)%nat then records else records')) ∧
  (∀ rig, Retries.for_rig rig (Retries.raw pending) = Retries.raw (for_rig rig pending)) ∧
  (∀ e, Retries.job_of (Retries.entry e) = e.(tjob_id) ∧ Retries.volumes_of (Retries.entry e) = Ok e.(tvolumes)) ∧
  (∀ name, Retries.attempts_of (dget name (Retries.raw pending)) =
             Ok (match dget name pending with Some e => e.(attempts) | None => 0%Z end)) ∧
  (∀ uuid, Limits.original uuid (Limits.raw records) = Ok (Power.original uuid records)).
Proof.
  cbn zeta. rewrite !Atomic.cut_safe. cbn [Atomic.file]. split_and!.
  - destruct (k <? 3)%nat; apply retries_loaded.
  - destruct (k <? 3)%nat; apply limits_loaded.
  - intros rig. unfold Retries.for_rig, Retries.raw, for_rig. induction pending as [|[name e] l IH]; [done|].
    cbn [fmap list_fmap List.filter fst snd]. change (getv "rig_id" (Retries.entry e)) with (JStr (trig_id e)). cbn iota.
    destruct (String.eqb (trig_id e) rig); cbn [fmap list_fmap fst snd]; by rewrite <- IH.
  - intros e. split; [apply jor_str|]. unfold Retries.volumes_of, PyJson.get_list.
    change (getv "volumes" (Retries.entry e)) with (JList (JStr <$> tvolumes e)).
    assert (∀ l : list string, py_iter (jor (JList (JStr <$> l)) (JList [])) = Ok (JStr <$> l)) as -> by (by intros []).
    cbn. f_equal. rewrite <- list_fmap_compose. apply list_fmap_id.
  - intros name. unfold Retries.attempts_of, Retries.raw. rewrite (dget_fmap Retries.entry). by destruct (dget name pending).
  - intros uuid. unfold Limits.original, Power.original, Limits.raw. cbn [Limits.rgpus].
    rewrite (dget_fmap (λ o, JDict (Limits.entry o))). by destruct (dget uuid (gpus records)).
Qed.
