(* ===== verification/Slots.v ===== *)
(** * Slots of the agent's HTTP server (agent/hardware/pool.py, agent/api/routes.py)

    Two counters bound what validators may ask at the same time: the slots of the
    measurements, taken before the work starts, and the log streams, counted when
    the process that feeds them is there.  Requests are served concurrently, so
    both are step relations: a step is what runs between two [await]s. *)

From Stdlib Require Import ZArith.
From S2P Require Import Prelude.

(** ** Measurements ([MetricsPool]) *)

Module Pool.
Definition WORKERS : Z := 4.
Definition IN_FLIGHT : Z := 3.

Record t : Type := Mk { slots : Z; in_flight : Z; rejected : Z; timed_out : Z }.
Definition init (in_flight : Z) : t := Mk in_flight 0 0 0.

(** The two ends of [run]: a slot or [PoolBusy], and the [finally]. *)
Definition enter (p : t) : option t :=
  if (0 <? p.(slots))%Z then Some (Mk (p.(slots) - 1) (p.(in_flight) + 1) p.(rejected) p.(timed_out)) else None.
Definition reject (p : t) : t := Mk p.(slots) p.(in_flight) (p.(rejected) + 1) p.(timed_out).
Definition leave (late : bool) (p : t) : t :=
  Mk (p.(slots) + 1) (p.(in_flight) - 1) p.(rejected) (if late then p.(timed_out) + 1 else p.(timed_out))%Z.

(** A call ([Dropped] when the pool was shut down before its function ran), and the
    thread that runs its function: asked for, waiting for a thread, run by one, or
    over. *)
Inductive phase : Type := Asked | Awaiting | Busy | TimedOut | Answered | Dropped.
Inductive worker : Type := NotYet | Queued | Working | Over.

Record system : Type := MkSystem { pool : t; calls : list (phase * worker) }.

Definition awaiting (c : phase * worker) : bool := match c.1 with Awaiting => true | _ => false end.
Definition refused (c : phase * worker) : bool := match c.1 with Busy => true | _ => false end.
Definition late (c : phase * worker) : bool := match c.1 with TimedOut => true | _ => false end.
Definition working (c : phase * worker) : bool := match c.2 with Working => true | _ => false end.

(** A thread is free when fewer than [workers] functions run; a call that is
    cancelled while it waits for one never runs, and one that runs goes on. *)
Inductive step (workers : Z) : system → system → Prop :=
  | step_busy i p cs :
      cs !! i = Some (Asked, NotYet) → enter p = None →
      step workers (MkSystem p cs) (MkSystem (reject p) (<[i:=(Busy, Over)]> cs))
  | step_enter i p p' cs :
      cs !! i = Some (Asked, NotYet) → enter p = Some p' →
      step workers (MkSystem p cs) (MkSystem p' (<[i:=(Awaiting, Queued)]> cs))
  | step_begin i p cs :
      cs !! i = Some (Awaiting, Queued) → (tally working cs < workers)%Z →
      step workers (MkSystem p cs) (MkSystem p (<[i:=(Awaiting, Working)]> cs))
  | step_answer i p cs :
      cs !! i = Some (Awaiting, Working) →
      step workers (MkSystem p cs) (MkSystem (leave false p) (<[i:=(Answered, Over)]> cs))
  | step_late i w p cs :
      cs !! i = Some (Awaiting, w) →
      step workers (MkSystem p cs)
        (MkSystem (leave true p) (<[i:=(TimedOut, match w with Working => Working | _ => Over end)]> cs))
  | step_freed i p cs :
      cs !! i = Some (TimedOut, Working) →
      step workers (MkSystem p cs) (MkSystem p (<[i:=(TimedOut, Over)]> cs)).

(** [shutdown], at the end of the agent: the functions no thread runs yet are
    cancelled, and their calls give their slots back. *)
Definition queued (c : phase * worker) : bool := match c with (Awaiting, Queued) => true | _ => false end.
Definition drop (c : phase * worker) : phase * worker := if queued c then (Dropped, Over) else c.
Definition shutdown (s : system) : system :=
  let n := tally queued s.(calls) in
  MkSystem (Mk (s.(pool).(slots) + n) (s.(pool).(in_flight) - n) s.(pool).(rejected) s.(pool).(timed_out))
    (drop <$> s.(calls)).

Definition start (n : nat) : system := MkSystem (init IN_FLIGHT) (replicate n (Asked, NotYet)).
Definition reachable (n : nat) : system → Prop := rtc (step WORKERS) (start n).
End Pool.

(** ** Log streams *)

Module Streams.
Definition LOG_STREAMS : Z := 10.

(** A request for a log to follow: it is refused or passes the test of the
    counter; its process is made, and only then it is counted; at its end it is
    no longer. *)
Inductive phase : Type := Asked | Spawning | Streaming | Closed.
Record system : Type := MkSystem { active : Z; requests : list phase }.

Definition spawning (p : phase) : bool := match p with Spawning => true | _ => false end.
Definition streaming (p : phase) : bool := match p with Streaming => true | _ => false end.

(** [overlap]: how many processes may be in the making at the same time. *)
Inductive step (overlap : Z) : system → system → Prop :=
  | step_refuse i n rs :
      rs !! i = Some Asked → (LOG_STREAMS <= n)%Z →
      step overlap (MkSystem n rs) (MkSystem n (<[i:=Closed]> rs))
  | step_pass i n rs :
      rs !! i = Some Asked → (n < LOG_STREAMS)%Z → (tally spawning rs < overlap)%Z →
      step overlap (MkSystem n rs) (MkSystem n (<[i:=Spawning]> rs))
  | step_fail i n rs :
      rs !! i = Some Spawning →
      step overlap (MkSystem n rs) (MkSystem n (<[i:=Closed]> rs))
  | step_count i n rs :
      rs !! i = Some Spawning →
      step overlap (MkSystem n rs) (MkSystem (n + 1) (<[i:=Streaming]> rs))
  | step_end i n rs :
      rs !! i = Some Streaming →
      step overlap (MkSystem n rs) (MkSystem (n - 1) (<[i:=Closed]> rs)).

Definition start (n : nat) : system := MkSystem 0 (replicate n Asked).
Definition reachable (overlap : Z) (n : nat) : system → Prop := rtc (step overlap) (start n).
End Streams.

(** ** Facts: measurements *)

Module PoolFacts.
Import Pool.

(** The counters count, whatever the order of the steps. *)
Definition inv (s : system) : Prop :=
  s.(pool).(in_flight) = tally awaiting s.(calls) ∧
  (s.(pool).(slots) = IN_FLIGHT - tally awaiting s.(calls))%Z ∧ (0 <= s.(pool).(slots))%Z ∧
  s.(pool).(rejected) = tally refused s.(calls) ∧ s.(pool).(timed_out) = tally late s.(calls) ∧
  (tally working s.(calls) <= WORKERS)%Z.

Lemma tally_start {A} (f : A → bool) x n : f x = false → tally f (replicate n x) = 0%Z.
Proof. intros H. apply tally_zero. intros i y [-> _]%lookup_replicate. exact H. Qed.

Lemma pool_inv_start n : inv (start n).
Proof. unfold inv, start. cbn. rewrite !tally_start by done. unfold IN_FLIGHT, WORKERS. lia. Qed.

Lemma pool_inv_kept s s' : step WORKERS s s' → inv s → inv s'.
Proof.
  intros Hs (H1 & H2 & H3 & H4 & H5 & H6). unfold inv.
  destruct Hs as [i p cs Hi He|i p p' cs Hi He|i p cs Hi Hw|i p cs Hi|i w p cs Hi|i p cs Hi]; cbn [pool calls] in *;
    rewrite !(tally_insert _ _ _ _ _ Hi).
  - destruct p as [s f r o]. cbn in *. lia.
  - unfold enter in He. destruct (Z.ltb_spec 0 (slots p)); [|done]. injection He as <-. cbn in *. lia.
  - cbn in *. lia.
  - destruct p as [s f r o]. cbn in *. lia.
  - destruct p as [s f r o]. destruct w; cbn in *; lia.
  - destruct p as [s f r o]. cbn in *. lia.
Qed.

Lemma pool_reachable_inv n s : reachable n s → inv s.
Proof.
  unfold reachable. generalize (pool_inv_start n). generalize (start n). intros s0 H0 Hr.
  induction Hr as [|s1 s2 s3 Hs _ IH]; [done|]. apply IH. by eapply pool_inv_kept.
Qed.

(** The counters still count after the shutdown, and what is awaited then is run. *)
Lemma pool_shut n s : reachable n s →
  inv (shutdown s) ∧ ∀ i c, (shutdown s).(calls) !! i = Some c → queued c = false.
Proof.
  intros (H1 & H2 & H3 & H4 & H5 & H6)%pool_reachable_inv. split.
  - assert (∀ cs, tally awaiting (drop <$> cs) = (tally awaiting cs - tally queued cs)%Z ∧
      tally refused (drop <$> cs) = tally refused cs ∧ tally late (drop <$> cs) = tally late cs ∧
      tally working (drop <$> cs) = tally working cs) as Hd.
    { unfold tally. induction cs as [|[[] []] cs (IH1 & IH2 & IH3 & IH4)]; [done|..]; cbn in *; lia. }
    destruct (Hd s.(calls)) as (D1 & D2 & D3 & D4). pose proof (tally_nonneg queued s.(calls)).
    unfold inv, shutdown. cbn [pool calls slots in_flight rejected timed_out]. lia.
  - intros i c. unfold shutdown. cbn [calls]. rewrite list_lookup_fmap.
    destruct (s.(calls) !! i) as [c'|]; [|done]. intros [= <-]. unfold drop. by destruct (queued c') eqn:E.
Qed.

(** At most three measurements are awaited at any time, in every order of the
    steps, and the counters reported are the numbers of calls awaited, refused
    and timed out; a call is refused only while three others are awaited. *)
Lemma pool_counts n s :
  reachable n s →
  s.(pool).(in_flight) = tally awaiting s.(calls) ∧ (0 <= s.(pool).(in_flight) <= IN_FLIGHT)%Z ∧
  s.(pool).(rejected) = tally refused s.(calls) ∧ s.(pool).(timed_out) = tally late s.(calls) ∧
  (enter s.(pool) = None ↔ tally awaiting s.(calls) = IN_FLIGHT).
Proof.
  intros (H1 & H2 & H3 & H4 & H5 & H6)%pool_reachable_inv.
  pose proof (tally_nonneg awaiting s.(calls)). split_and!; [done|lia|unfold IN_FLIGHT in *; lia|done|done|].
  unfold enter. destruct (Z.ltb_spec 0 (slots (pool s))); split; (done || lia).
Qed.

Lemma pool_counts_witness :
  ∃ s, reachable 2 s ∧ tally awaiting s.(calls) = 1%Z ∧ s.(pool).(in_flight) = 1%Z.
Proof.
  exists (MkSystem (Mk 2 1 0 0) [(Awaiting, Queued); (Asked, NotYet)]).
  assert (reachable 2 (MkSystem (Mk 2 1 0 0) [(Awaiting, Queued); (Asked, NotYet)])) as Hr.
  { apply rtc_once. by apply (step_enter WORKERS 0 (init IN_FLIGHT)). }
  split; [exact Hr|]. split; [reflexivity|].
  exact (eq_trans (proj1 (pool_counts 2 _ Hr)) eq_refl).
Defined.

(** A slot is given back while the function still runs: functions that do not
    return take the threads one by one, and then nothing is awaited, every slot
    is free and no call that enters is ever begun. *)
Lemma threads_run_out :
  ∃ s, reachable 4 s ∧ s.(pool) = Mk IN_FLIGHT 0 0 4 ∧ tally working s.(calls) = WORKERS.
Proof.
  exists (MkSystem (Mk 3 0 0 4) (replicate 4 (TimedOut, Working))). split; [|by split].
  assert (∀ i k cs, cs !! i = Some (Asked, NotYet) → (tally working cs < 4)%Z →
    rtc (step WORKERS) (MkSystem (Mk 3 0 0 k) cs)
      (MkSystem (Mk 3 0 0 (k + 1)) (<[i:=(TimedOut, Working)]> cs))) as Hhang.
  { intros i k cs Hi Hw.
    eapply rtc_l; [by apply (step_enter _ i _ (Mk 2 1 0 k))|].
    eapply rtc_l; [apply (step_begin _ i)|].
    { apply list_lookup_insert_eq. by eapply lookup_lt_Some. }
    { rewrite (tally_insert _ _ _ _ _ Hi). unfold WORKERS. cbn. lia. }
    eapply rtc_l; [apply (step_late _ i Working)|].
    { rewrite list_insert_insert_eq. apply list_lookup_insert_eq. by eapply lookup_lt_Some. }
    rewrite !list_insert_insert_eq. apply rtc_refl. }
  unfold reachable, start.
  etrans; [apply (Hhang 0%nat 0%Z); done|]. etrans; [apply (Hhang 1%nat 1%Z); done|].
  etrans; [apply (Hhang 2%nat 2%Z); done|]. apply (Hhang 3%nat 3%Z); done.
Qed.
End PoolFacts.

(** ** Facts: log streams *)

Module StreamFacts.
Import Streams.

Definition inv (overlap : Z) (s : system) : Prop :=
  s.(active) = tally streaming s.(requests) ∧ (tally spawning s.(requests) <= overlap)%Z ∧
  (s.(active) + tally spawning s.(requests) <= LOG_STREAMS - 1 + overlap)%Z.

Lemma stream_inv_kept overlap s s' : step overlap s s' → inv overlap s → inv overlap s'.
Proof.
  intros Hs (H1 & H2 & H3). unfold inv.
  destruct Hs as [i n rs Hi Hn|i n rs Hi Hn Ho|i n rs Hi|i n rs Hi|i n rs Hi]; cbn [active requests] in *;
    rewrite !(tally_insert _ _ _ _ _ Hi); cbn; unfold LOG_STREAMS in *; lia.
Qed.

Lemma stream_inv_start overlap n : (0 <= overlap)%Z → inv overlap (start n).
Proof.
  intros Ho. unfold inv, start. cbn. rewrite !PoolFacts.tally_start by done. unfold LOG_STREAMS. lia.
Qed.

(** [a] streams, [b] processes in the making and [c] requests to come. *)
Definition at_ (a b c : nat) : system :=
  MkSystem (Z.of_nat a) (replicate a Streaming ++ replicate b Spawning ++ replicate c Asked).

Lemma tally_app {A} (f : A → bool) l k : tally f (l ++ k) = (tally f l + tally f k)%Z.
Proof. unfold tally. rewrite List.filter_app, length_app. lia. Qed.
Lemma tally_all {A} (f : A → bool) x n : f x = true → tally f (replicate n x) = Z.of_nat n.
Proof.
  intros H. unfold tally. f_equal. induction n as [|n IH]; [done|]. cbn. rewrite H. cbn. by rewrite IH.
Qed.

Lemma pass_at overlap a b c : (Z.of_nat a < LOG_STREAMS)%Z → (Z.of_nat b < overlap)%Z →
  step overlap (at_ a b (S c)) (at_ a (S b) c).
Proof.
  intros Ha Hb. unfold at_.
  replace (replicate a Streaming ++ replicate (S b) Spawning ++ replicate c Asked)
    with (<[(a + b)%nat:=Spawning]> (replicate a Streaming ++ replicate b Spawning ++ replicate (S c) Asked)).
  - apply step_pass; [|done|].
    + rewrite app_assoc, lookup_app_r; rewrite length_app, !length_replicate; [|lia].
      by rewrite Nat.sub_diag.
    + rewrite !tally_app, (tally_all spawning Spawning b), !PoolFacts.tally_start by done. lia.
  - rewrite app_assoc. rewrite insert_app_r_alt; rewrite length_app, !length_replicate; [|lia].
    rewrite Nat.sub_diag. cbn [replicate]. change (<[0%nat:=Spawning]> (Asked :: replicate c Asked)) with (Spawning :: replicate c Asked).
    change (Spawning :: replicate b Spawning) with (replicate (S b) Spawning).
    rewrite replicate_S_end, <- !app_assoc. done.
Qed.

Lemma count_at overlap a b c : step overlap (at_ a (S b) c) (at_ (S a) b c).
Proof.
  unfold at_.
  replace (replicate (S a) Streaming ++ replicate b Spawning ++ replicate c Asked)
    with (<[a:=Streaming]> (replicate a Streaming ++ replicate (S b) Spawning ++ replicate c Asked)).
  - replace (Z.of_nat (S a)) with (Z.of_nat a + 1)%Z by lia. apply step_count.
    rewrite lookup_app_r; rewrite length_replicate; [|lia]. by rewrite Nat.sub_diag.
  - rewrite insert_app_r_alt; rewrite length_replicate; [|lia]. rewrite Nat.sub_diag.
    rewrite (replicate_S_end a), <- app_assoc. done.
Qed.

(** Nine streams, one request at a time. *)
Lemma nine overlap a c : (1 <= overlap)%Z → (a <= 9)%nat →
  rtc (step overlap) (at_ 0 0 (a + c)) (at_ a 0 c).
Proof.
  intros Ho. revert c. induction a as [|a IH]; intros c Ha; [apply rtc_refl|].
  replace (S a + c)%nat with (a + S c)%nat by lia. etrans; [apply IH; lia|].
  eapply rtc_l; [apply pass_at; unfold LOG_STREAMS; lia|]. apply rtc_once, count_at.
Qed.

Lemma all_pass overlap k c : (Z.of_nat k <= overlap)%Z →
  rtc (step overlap) (at_ 9 0 (k + c)) (at_ 9 k c).
Proof.
  intros Hk. revert c Hk. induction k as [|k IH]; intros c Hk; [apply rtc_refl|].
  replace (S k + c)%nat with (k + S c)%nat by lia. etrans; [apply IH; lia|].
  apply rtc_once, pass_at; unfold LOG_STREAMS; lia.
Qed.

Lemma all_count overlap a k : rtc (step overlap) (at_ a k 0) (at_ (a + k) 0 0).
Proof.
  revert a. induction k as [|k IH]; intros a; [rewrite Nat.add_0_r; apply rtc_refl|].
  eapply rtc_l; [apply count_at|]. replace (a + S k)%nat with (S a + k)%nat by lia. apply IH.
Qed.

(** C33. The counter is tested before the process of a stream is made and raised
    after it: with [k] processes in the making at the same time there are up to
    [9 + k] streams, and that many can be reached.  So the limit of ten holds for
    requests that come one at a time, and no limit holds for those that come
    together. *)
Theorem streams_overshoot k :
  (1 <= k)%nat →
  (∀ n s, reachable (Z.of_nat k) n s →
     s.(active) = tally streaming s.(requests) ∧ (s.(active) <= LOG_STREAMS - 1 + Z.of_nat k)%Z) ∧
  ∃ n s, reachable (Z.of_nat k) n s ∧ s.(active) = (LOG_STREAMS - 1 + Z.of_nat k)%Z.
Proof.
  intros Hk. split.
  - intros n s Hr. assert (inv (Z.of_nat k) s) as (H1 & H2 & H3).
    { unfold reachable in Hr. revert Hr. generalize (stream_inv_start (Z.of_nat k) n ltac:(lia)).
      generalize (start n). intros s0 H0 Hr. induction Hr as [|s1 s2 s3 Hs _ IH]; [done|]. apply IH.
      by eapply stream_inv_kept. }
    pose proof (tally_nonneg spawning s.(requests)). split; [done|lia].
  - exists (9 + k)%nat, (at_ (9 + k) 0 0). split; [|unfold LOG_STREAMS; cbn [active at_]; lia].
    unfold reachable, start. change (MkSystem 0 (replicate (9 + k) Asked)) with (at_ 0 0 (9 + k)).
    etrans; [apply nine; lia|]. etrans; [|apply all_count].
    rewrite <- (Nat.add_0_r k) at 2. apply all_pass. lia.
Qed.

Lemma streams_overshoot_witness : ∃ n s, reachable 5 n s ∧ s.(active) = 14%Z.
Proof. exact (proj2 (streams_overshoot 5 ltac:(lia))). Defined.
End StreamFacts.
