(* ===== verification/Models.v ===== *)
(** * The bodies of requests and answers (agent/api/models.py)

    Each model is the list of its fields with their types, bounds and defaults.
    Checking a body is the work of the framework; what the program relies on is the
    class [Checks]: a body whose fields have the declared types within the declared
    bounds is taken as it is, and what is let through has them. *)

From Stdlib Require Import Ascii String.
From S2P Require Import Prelude.
From S2P Require Import PyStr.
From S2P Require Import PyFloat.
From S2P Require Import PyJson.
Local Open Scope string_scope.
Local Open Scope list_scope.

(** [str] with its least and greatest length, [int] with its least value, the others. *)
Inductive kind : Type :=
  | TStr (min_length : nat) (max_length : option nat)
  | TInt (ge : option Z)
  | TFloat
  | TBool
  | TDict.

(** A field without a default is required. *)
Record field : Type := MkField { fname : string; ftype : kind; fdefault : option json }.
Definition model : Type := list field.

Definition text (name : string) (least : nat) (most : nat) : field := MkField name (TStr least (Some most)) None.
Definition text_or (name : string) (most : nat) : field := MkField name (TStr 0 (Some most)) (Some (JStr "")).
Definition plain (name : string) : field := MkField name (TStr 0 None) None.
Definition plain_or (name default : string) : field := MkField name (TStr 0 None) (Some (JStr default)).
Definition dict_or (name : string) : field := MkField name TDict (Some (JDict [])).

Definition SessionOpenBody : model := [text "public_key" 1 4096; text "nonce" 64 64; text "signature" 1 512].
Definition SessionCloseBody : model := [text_or "public_key" 4096; text_or "session_id" 64].
Definition JobBody : model :=
  [text "job_id" 1 120; text_or "kind" 40; text_or "subnet" 40; MkField "pid" (TInt (Some 0%Z)) (Some (JInt 0));
   text_or "gpu_uuid" 80; text_or "container" 128; text_or "started_at" 64; dict_or "detail"].
Definition VersionResponse : model :=
  [plain "version"; MkField "protocol" (TInt None) None; plain_or "rig_id" ""; plain_or "image" "";
   MkField "draining" TBool (Some (JBool false)); MkField "challenge_library" TBool (Some (JBool false))].
Definition PingResponse : model :=
  [MkField "ok" TBool (Some (JBool true)); plain_or "rig_id" ""; plain_or "version" "";
   MkField "draining" TBool (Some (JBool false)); MkField "at" TFloat (Some (JFloat f0))].
Definition SessionGrantResponse : model :=
  [plain "ssh_username"; MkField "ssh_port" (TInt None) None; plain "ssh_host_key"; plain "python_path";
   plain "root_dir"; plain "port_range"; dict_or "gpu_attestation"; plain_or "tdx_quote" "";
   plain_or "validator" ""; plain_or "expires_at" ""; plain_or "session_id" ""].
Definition SessionCloseResponse : model := [MkField "revoked" (TInt None) (Some (JInt 0))].
Definition JobResponse : model := [plain "recorded"; MkField "jobs" (TInt None) None].
Definition ErrorResponse : model := [plain "detail"; plain_or "stage" ""].

Definition MODELS : list (string * model) :=
  [("SessionOpenBody", SessionOpenBody); ("SessionCloseBody", SessionCloseBody); ("JobBody", JobBody);
   ("VersionResponse", VersionResponse); ("PingResponse", PingResponse);
   ("SessionGrantResponse", SessionGrantResponse); ("SessionCloseResponse", SessionCloseResponse);
   ("JobResponse", JobResponse); ("ErrorResponse", ErrorResponse)].

(** ** Bodies that fit *)

Definition within (s : string) (least : nat) (most : option nat) : bool :=
  (least <=? slen s)%nat && match most with Some m => (slen s <=? m)%nat | None => true end.

Definition fits (k : kind) (j : json) : bool :=
  match k, j with
  | TStr least most, JStr s => within s least most
  | TInt ge, JInt z => match ge with Some b => (b <=? z)%Z | None => true end
  | TFloat, JFloat _ => true
  | TBool, JBool _ => true
  | TDict, JDict _ => true
  | _, _ => false
  end.

(** The fields of the model, read from a body: other entries are ignored, a missing
    one takes its default. *)
Fixpoint conforms (m : model) (d : dict) : option dict :=
  match m with
  | [] => Some []
  | f :: m' =>
      v ← match dget f.(fname) d with
          | Some j => if fits f.(ftype) j then Some j else None
          | None => f.(fdefault)
          end;
      rest ← conforms m' d;
      Some ((f.(fname), v) :: rest)
  end.

(** What the framework promises of its check: the fields, or the place and the text
    of the first error. *)
Class Checks (validate : string → dict → option (list string * string) + dict) : Prop := {
  takes_exact name m d fields : dget name MODELS = Some m → conforms m d = Some fields → validate name d = inr fields;
  gives_exact name m d fields : dget name MODELS = Some m → validate name d = inr fields → conforms m fields = Some fields }.

(** ** Facts *)

Lemma dget_head {V} (k : string) (v : V) d : dget k ((k, v) :: d) = Some v.
Proof. simpl. by rewrite decide_True. Qed.
Lemma dget_tail {V} (k k' : string) (v : V) d : k ≠ k' → dget k ((k', v) :: d) = dget k d.
Proof. intros Hk. simpl. by rewrite decide_False. Qed.

(** The names of a model are distinct and its defaults fit. *)
Definition well_formed (m : model) : bool :=
  bool_decide (NoDup (fname <$> m)) && forallb (λ f, match f.(fdefault) with Some j => fits f.(ftype) j | None => true end) m.

Lemma models_well_formed : Forall (λ nm, well_formed nm.2 = true) MODELS.
Proof. repeat constructor. Qed.

Lemma model_well_formed name m : dget name MODELS = Some m → well_formed m = true.
Proof.
  intros Hm. apply dget_elem in Hm. exact (proj1 (Forall_forall _ _) models_well_formed (name, m) Hm).
Qed.

(** What a field read from a body is. *)
Lemma conforms_names m d fields : conforms m d = Some fields → dkeys fields = fname <$> m.
Proof.
  revert fields. induction m as [|f m IH]; intros fields E; cbn in E; [by injection E as <-|].
  destruct (match dget (fname f) d with Some j => _ | None => _ end) as [v|]; [|done]. cbn in E.
  destruct (conforms m d) as [rest|]; [|done]. injection E as <-. csimpl. unfold dkeys in *. csimpl. by rewrite (IH rest).
Qed.

Lemma conforms_field m d fields f :
  well_formed m = true → conforms m d = Some fields → f ∈ m →
  ∃ j, dget f.(fname) fields = Some j ∧ fits f.(ftype) j = true ∧ (dget f.(fname) d = None → f.(fdefault) = Some j) ∧
    (∀ j', dget f.(fname) d = Some j' → j = j').
Proof.
  intros Hwf. apply andb_true_iff in Hwf as [Hnd%bool_decide_eq_true Hdef].
  revert fields. induction m as [|g m IH]; intros fields E Hf; [by apply elem_of_nil in Hf|].
  apply NoDup_cons in Hnd as [Hg Hnd]. cbn in Hdef. apply andb_true_iff in Hdef as [Hd Hdef]. cbn in E.
  destruct (match dget (fname g) d with Some j => _ | None => _ end) as [v|] eqn:Ev; [|done]. cbn in E.
  destruct (conforms m d) as [rest|] eqn:Er; [|done]. injection E as <-.
  apply elem_of_cons in Hf as [->|Hf].
  - exists v. rewrite dget_head. split; [done|].
    destruct (dget (fname g) d) as [j|]; [|by rewrite Ev in Hd].
    destruct (fits (ftype g) j) eqn:Ef; [|done]. injection Ev as <-. split_and!; [done|done|]. by intros j' [= ->].
  - destruct (IH Hnd Hdef rest eq_refl Hf) as (j & Hj & H1 & H2 & H3). exists j. split; [|done].
    rewrite dget_tail; [done|]. intros E. apply Hg. rewrite <- E. by apply list_elem_of_fmap_2.
Qed.

(** Fields that fit are read as they are. *)
Lemma conforms_self m : ∀ d,
  (∀ f, f ∈ m → ∃ j, dget f.(fname) d = Some j ∧ fits f.(ftype) j = true) →
  conforms m d = Some ((λ f, (f.(fname), default JNull (dget f.(fname) d))) <$> m).
Proof.
  induction m as [|f m IH]; intros d Hf; [done|]. cbn.
  destruct (Hf f) as (j & Hj & Hfit); [left|]. rewrite Hj, Hfit. cbn.
  rewrite IH by (intros g Hg; apply Hf; by right). done.
Qed.

Lemma conforms_idem m d fields : well_formed m = true → conforms m d = Some fields → conforms m fields = Some fields.
Proof.
  intros Hwf E. rewrite conforms_self.
  - f_equal. pose proof (conforms_names m d fields E) as Hk.
    assert (NoDup (dkeys fields)) as Hnd
      by (rewrite Hk; apply andb_true_iff in Hwf as [Hnd _]; by apply bool_decide_eq_true in Hnd).
    transitivity ((λ k, (k, default JNull (dget k fields))) <$> dkeys fields).
    { by rewrite Hk, <- list_fmap_compose. }
    clear -Hnd. induction fields as [|[k v] fields IH]; [done|]. unfold dkeys in *. cbn [fmap list_fmap fst] in *.
    apply NoDup_cons in Hnd as [Hk Hnd]. rewrite dget_head. f_equal.
    rewrite <- (IH Hnd) at 2. apply list_fmap_ext. intros i k' Hk'%list_elem_of_lookup_2.
    rewrite dget_tail; [done|]. by intros ->.
  - intros f Hf. destruct (conforms_field m d fields f Hwf E Hf) as (j & Hj & Hfit & _). by exists j.
Qed.

(** A check that takes nothing but what fits is one. *)
Definition strict (name : string) (d : dict) : option (list string * string) + dict :=
  match dget name MODELS with
  | Some m => match conforms m d with Some fields => inr fields | None => inl (Some ([], "invalid")) end
  | None => inl None
  end.

#[export] Instance strict_checks : Checks strict.
Proof.
  split; unfold strict; intros name m d fields Hm; rewrite Hm; [by intros ->|].
  intros E. destruct (conforms m d) as [x|] eqn:Ec; [|discriminate]. injection E as ->.
  by apply (conforms_idem m d), Ec; apply (model_well_formed name).
Qed.
