(* ===== verification/Api.v ===== *)
(** * The agent's HTTP routes (agent/api/routes.py, the dependency of agent/api/auth.py)

    What the agent answers a request of a validator, and what the request leaves
    behind: sessions, the job book, events, log streams.  The framework picks the
    route of a request and checks bodies against the models ([Models]); both are
    parameters, as are the measurements and docker. *)

From Stdlib Require Import Ascii String QArith.
From S2P Require Import Prelude.
From S2P Require Import PyStr.
From S2P Require Import PyFloat.
From S2P Require Import PyJson.
From S2P Require Import Messages.
From S2P Require Import SessionProto.
From S2P Require Import Runner.
From S2P Require Import Attest.
From S2P Require Import Auth.
From S2P Require Import Nonce.
From S2P Require Import SshKeys.
From S2P Require Import Handlers.
From S2P Require Import Stores.
From S2P Require Import Ip.
From S2P Require Import Slots.
From S2P Require Grants Models.
Local Open Scope string_scope.
Local Open Scope list_scope.

Definition TAIL_MAX : Z := 500.

Record req : Type := MkReq {
  rmethod : string; rpath : string; rheaders : list (string * string); rbody : string;
  client : option string }.

Inductive reply : Type :=
  | Json (d : dict)
  | Text (t : string)
  | Stream
  | HttpError (status : Z) (detail : string)
  | Crashed (e : exn).

(** The route of a request, with the parameters of its path and its query. *)
Inductive route : Type :=
  | Version | Ping | SessionOpen | SessionClose | Utilisation | Jobs
  | ContainerUtilisation (name : string)
  | ContainerLogs (name : string) (tail : Z) (follow : bool).

(** A measurement in the pool: a view, or the text of [PoolBusy] or [PoolTimeout]. *)
Inductive measured : Type := Seen (view : dict) | Busy (text : string) | Late (text : string).

(** What a request finds around it.  [validate] is the check of a body against a
    model, by its name, of which [Models.Checks] is the contract: its fields, or the place and the text of the first error, if any. *)
Record Around : Type := MkAround {
  loads : string → option json;
  validate : string → dict → option (list string * string) + dict;
  keypair_verify : string → string → list Z → bool;
  validators : ValidatorSet;
  window : Z;
  now : pyfloat;
  iso : pyfloat → string;
  machine : Grants.Machine;
  moments : Grants.Moments;
  key_fault : option string;
  opened_late : bool;
  agent_version : string;
  rig_id : string;
  image_digest : string;
  library_installed : bool;
  utilisation : measured;
  container_stats : string → measured;
  docker_logs : string → Z → option (Z * string);
  query_error : string }.

(** What a request may change: the sessions and the events, the job book, and the
    number of log streams. *)
Record Runtime : Type := MkRuntime { grants : Grants.t; jobs : JobBook.t; draining : bool; streams : Z }.
Definition set_grants (g : Grants.t) (rt : Runtime) : Runtime := MkRuntime g rt.(jobs) rt.(draining) rt.(streams).

Section Routes.
Context (around : Around).

(** [require_validator] *)
Definition require_validator (r : req) : checked :=
  check_request around.(keypair_verify) around.(validators) r.(rmethod) r.(rpath) r.(rheaders) r.(rbody)
    around.(window) around.(now).

Definition parse (model : string) (r : req) : reply + dict :=
  match around.(loads) (sor r.(rbody) "{}") with
  | None => inl (HttpError 400 "body must be JSON")
  | Some (JDict data) =>
      match around.(validate) model data with
      | inr fields => inr fields
      | inl first =>
          let '(loc, msg) := default ([], "invalid") first in
          inl (HttpError 422 (lstrip_set ": " (rstrip_set ": " (join "." loc +:+ ": " +:+ msg))))
      end
  | Some _ => inl (HttpError 422 "body must be a JSON object")
  end.

Definition version_view (rt : Runtime) : dict :=
  [("version", JStr around.(agent_version)); ("protocol", JInt PROTOCOL); ("rig_id", JStr around.(rig_id));
   ("image", JStr around.(image_digest)); ("draining", JBool rt.(draining));
   ("challenge_library", JBool around.(library_installed))].

Definition version (r : req) (rt : Runtime) : reply :=
  if is_loopback (default "" r.(client)) then Json (version_view rt)
  else match require_validator r with
       | Accepted _ => Json (version_view rt)
       | AuthFailure status detail => HttpError status detail
       end.

Definition ping (rt : Runtime) : reply :=
  Json [("ok", JBool true); ("rig_id", JStr around.(rig_id)); ("version", JStr around.(agent_version));
        ("draining", JBool rt.(draining)); ("at", JFloat (fround 3 around.(now)))].

(** The hotkeys tried on the signature of the grant: that of the request first. *)
Definition candidates (validator : string) : list string :=
  validator :: List.filter (λ key, negb (String.eqb key validator)) (hotkeys around.(validators)).

(** The session is opened by a thread, which goes on when the answer comes late. *)
Definition session_open (validator : string) (r : req) (rt : Runtime) : reply * Runtime :=
  match parse "SessionOpenBody" r with
  | inl e => (e, rt)
  | inr body =>
      let opening := SessionOpen.from_payload body in
      let '(o, g) := Grants.open around.(keypair_verify) around.(iso) around.(machine) opening
                       (candidates validator) around.(key_fault) around.(moments) rt.(grants) in
      if around.(opened_late) then (HttpError 504 "session open timed out at attestation", set_grants g rt)
      else match o with
           | Grants.Granted grant =>
               (match around.(validate) "SessionGrantResponse" (SessionGrant.payload grant) with
                | inr fields => Json fields
                | inl _ => Crashed ValueError
                end, set_grants g rt)
           | Grants.GrantError status detail =>
               (HttpError status detail,
                set_grants (Grants.write_event "session.refused"
                              [("validator", JStr validator); ("status", JInt status); ("detail", JStr detail)] g) rt)
           | Grants.Failed e => (Crashed e, set_grants g rt)
           end
  end.

Definition session_close (validator : string) (r : req) (rt : Runtime) : reply * Runtime :=
  match parse "SessionCloseBody" r with
  | inl e => (e, rt)
  | inr body =>
      let closing := SessionClose.from_payload body in
      if String.eqb (SessionClose.public_key closing) "" && String.eqb (SessionClose.session_id closing) "" then
        (HttpError 422 "public_key or session_id required", rt)
      else
        let '(revoked, g) := Grants.close closing validator rt.(grants) in
        (Json [("revoked", JInt revoked)], set_grants g rt)
  end.

Definition utilisation_view : reply :=
  match around.(utilisation) with
  | Seen view => Json view
  | Busy text => HttpError 503 text
  | Late text => HttpError 504 text
  end.

Definition container_utilisation (name : string) : reply :=
  if negb (valid_name name) then HttpError 422 "invalid container name"
  else match around.(container_stats) name with
       | Busy text => HttpError 503 text
       | Late text => HttpError 504 text
       | Seen view =>
           match dget "error" view with
           | Some e => HttpError (match getv "code" view with
                                  | JInt 124 => 504
                                  | JFloat f => if feq f (fz 124) then 504 else 404
                                  | _ => 404
                                  end) (py_str e)
           | None => Json view
           end
       end.

Definition container_logs (name : string) (tail : Z) (follow : bool) (rt : Runtime) : reply * Runtime :=
  if (tail <? 1)%Z || (TAIL_MAX <? tail)%Z then (HttpError 422 around.(query_error), rt)
  else if negb (valid_name name) then (HttpError 422 "invalid container name", rt)
  else if follow then
    if (Streams.LOG_STREAMS <=? rt.(streams))%Z then (HttpError 429 "too many log streams", rt)
    else (Stream, MkRuntime rt.(grants) rt.(jobs) rt.(draining) (rt.(streams) + 1))
  else match around.(docker_logs) name tail with
       | None => (HttpError 504 "docker logs timed out", rt)
       | Some (code, text) =>
           if negb (code =? 0)%Z then (HttpError 404 (sor (slast 300 (strip text)) "container not found"), rt)
           else (Text text, rt)
       end.

Definition record_job (validator : string) (r : req) (rt : Runtime) : reply * Runtime :=
  match parse "JobBody" r with
  | inl e => (e, rt)
  | inr body =>
      match JobRecord.from_payload body with
      | Raise e => (Crashed e, rt)
      | Ok job =>
          let book := (JobBook.record around.(now) job validator (Some (get_dict "detail" body)) rt.(jobs)).2 in
          let g := Grants.write_event "job.record"
                     [("job", JStr (JobRecord.job_id job)); ("job_kind", JStr (JobRecord.kind job));
                      ("pid", JInt (JobRecord.pid job)); ("validator", JStr validator)] rt.(grants) in
          (Json [("recorded", JStr (JobRecord.job_id job)); ("jobs", JInt (JobBook.size book))],
           MkRuntime g book rt.(draining) rt.(streams))
      end
  end.

(** A request on its route. *)
Definition serve (c : route) (r : req) (rt : Runtime) : reply * Runtime :=
  match c with
  | Version => (version r rt, rt)
  | _ =>
      match require_validator r with
      | AuthFailure status detail => (HttpError status detail, rt)
      | Accepted validator =>
          match c with
          | SessionOpen => session_open validator r rt
          | SessionClose => session_close validator r rt
          | Utilisation => (utilisation_view, rt)
          | ContainerUtilisation name => (container_utilisation name, rt)
          | ContainerLogs name tail follow => container_logs name tail follow rt
          | Jobs => record_job validator r rt
          | _ => (ping rt, rt)
          end
      end
  end.
End Routes.

(** ** Facts *)

Definition answered (o : reply) : bool :=
  match o with Json _ | Text _ | Stream => true | HttpError _ _ | Crashed _ => false end.

(** A request of an active validator: fresh, and signed with its key over the
    method, the path, the time stamp and the body. *)
Definition authorised (around : Around) (r : req) (hotkey : string) : Prop :=
  hotkey ∈ members around.(validators) ∧ hotkey = header HEADER_HOTKEY r.(rheaders) ∧
  fresh (header HEADER_TIMESTAMP r.(rheaders)) around.(window) around.(now) = true ∧
  verify_hotkey around.(keypair_verify) hotkey
    (signing_bytes r.(rmethod) r.(rpath) (header HEADER_TIMESTAMP r.(rheaders)) r.(rbody))
    (header HEADER_SIGNATURE r.(rheaders)) = true.

Lemma accepted_authorised around r hotkey : require_validator around r = Accepted hotkey → authorised around r hotkey.
Proof.
  unfold require_validator, check_request, authorised, has_validator.
  destruct (_ || _ || _); [done|]. case_bool_decide; cbn [negb]; [|done].
  destruct (fresh _ _ _) eqn:Ef; cbn [negb]; [|done].
  destruct (verify_hotkey _ _ _ _) eqn:Ev; cbn [negb]; [|done]. by intros [= <-].
Qed.

(** What the routes may change: opening and closing the sessions, a job the job
    book and the events, following a log the number of streams. *)
Definition touched (c : route) (rt rt' : Runtime) : Prop :=
  rt'.(draining) = rt.(draining) ∧
  match c with
  | SessionOpen | SessionClose => rt'.(jobs) = rt.(jobs) ∧ rt'.(streams) = rt.(streams)
  | Jobs => rt'.(streams) = rt.(streams) ∧
      Grants.open_sessions rt'.(grants) = Grants.open_sessions rt.(grants) ∧
      Grants.keys rt'.(grants) = Grants.keys rt.(grants) ∧ Grants.nonces rt'.(grants) = Grants.nonces rt.(grants)
  | ContainerLogs _ _ true => rt'.(grants) = rt.(grants) ∧ rt'.(jobs) = rt.(jobs) ∧
      (rt'.(streams) <= Z.max rt.(streams) Streams.LOG_STREAMS)%Z
  | _ => rt' = rt
  end.

Lemma touched_refl c rt : touched c rt rt.
Proof. unfold touched. split; [done|]. destruct c as [| | | | | |name|name tail []]; try done. split_and!; [done|done|lia]. Qed.

Lemma session_open_touched around v r rt : touched SessionOpen rt (session_open around v r rt).2.
Proof.
  unfold session_open. destruct (parse _ _ _); [apply touched_refl|].
  destruct (Grants.open _ _ _ _ _ _ _ _) as [[] g]; by destruct (opened_late around).
Qed.

Lemma session_close_touched around v r rt : touched SessionClose rt (session_close around v r rt).2.
Proof.
  unfold session_close. destruct (parse _ _ _); [apply touched_refl|].
  destruct (_ && _); [apply touched_refl|]. by destruct (Grants.close _ _ _).
Qed.

Lemma record_job_touched around v r rt : touched Jobs rt (record_job around v r rt).2.
Proof.
  unfold record_job. destruct (parse _ _ _); [apply touched_refl|].
  by destruct (JobRecord.from_payload _).
Qed.

Lemma container_logs_touched around name tail follow rt :
  touched (ContainerLogs name tail follow) rt (container_logs around name tail follow rt).2.
Proof.
  unfold container_logs. destruct (_ || _); [apply touched_refl|]. destruct (negb _); [apply touched_refl|].
  destruct follow.
  - destruct (Z.leb_spec Streams.LOG_STREAMS (streams rt)); [apply touched_refl|].
    unfold touched, Streams.LOG_STREAMS in *. cbn. split_and!; (done || lia).
  - destruct (docker_logs _ _ _) as [[code text]|]; [destruct (negb _)|]; apply touched_refl.
Qed.

(** C8. The agent does nothing for a request, and tells nothing but why, unless
    it comes from an active validator and is signed with its key, freshly and for
    this method, path and body; the version, which its own machine may ask, is
    the only exception.  And each route changes only its own part. *)
Theorem served_to_validators around c r rt :
  let out := serve around c r rt in
  (answered out.1 = true ∨ out.2 ≠ rt →
     (∃ hotkey, authorised around r hotkey) ∨ (c = Version ∧ is_loopback (default "" r.(client)) = true)) ∧
  touched c rt out.2.
Proof.
  intros out. unfold out, serve. clear out. destruct (require_validator around r) as [v|status detail] eqn:E.
  - split; [intros _; left; exists v; by apply accepted_authorised|].
    destruct c as [| | | | | |name|name tail follow]; try apply touched_refl;
      [apply session_open_touched|apply session_close_touched|apply record_job_touched|apply container_logs_touched].
  - assert (c ≠ Version → (HttpError status detail, rt).2 = rt) as Hsame by done.
    destruct c; cbn [fst snd answered]; (split; [|apply touched_refl]); try by intros [].
    unfold version. rewrite E. intros [H|[]]; [|done]. right. split; [done|].
    by destruct (is_loopback _).
Qed.

(** ** Bodies and answers *)

Section Bodies.
Context (around : Around) {checks : Models.Checks around.(validate)}.

Lemma parse_fits name m r body :
  dget name Models.MODELS = Some m → parse around name r = inr body → Models.conforms m body = Some body.
Proof.
  unfold parse. intros Hm E. destruct (loads around _) as [[| | | | | |data]|]; try discriminate.
  destruct (validate around name data) as [first|fields] eqn:Ev; [by destruct (default _ _)|].
  injection E as <-. by apply (Models.gives_exact name m data).
Qed.

(** A job that is recorded has an identifier of 1 to 120 characters and a process
    number that is not negative, and recording one never ends in an internal error. *)
Lemma job_fits r body : parse around "JobBody" r = inr body →
  ∃ id pid, dget "job_id" body = Some (JStr id) ∧ (1 <= slen id <= 120)%nat ∧
    dget "pid" body = Some (JInt pid) ∧ (0 <= pid)%Z.
Proof.
  intros E. apply (parse_fits _ Models.JobBody) in E; [|reflexivity].
  destruct (Models.conforms_field Models.JobBody body body (Models.text "job_id" 1 120)) as (j & Hj & Hf & _);
    [reflexivity|exact E|apply list_elem_of_here|].
  destruct (Models.conforms_field Models.JobBody body body (Models.MkField "pid" (Models.TInt (Some 0%Z)) (Some (JInt 0))))
    as (p & Hp & Hfp & _); [reflexivity|exact E|do 3 apply list_elem_of_further; apply list_elem_of_here|].
  cbn [Models.fname Models.ftype Models.text Models.fits] in *.
  destruct j as [| | | |id| |]; try discriminate. destruct p as [| |pid| | | |]; try discriminate.
  exists id, pid. unfold Models.within in Hf. apply andb_true_iff in Hf as [H1%Nat.leb_le H2%Nat.leb_le].
  apply Z.leb_le in Hfp. done.
Qed.

Lemma parse_refuses name r o e : parse around name r = inl o → o ≠ Crashed e.
Proof. unfold parse. intros E. repeat case_match; try discriminate; injection E as <-; discriminate. Qed.

Lemma job_read body pid : dget "pid" body = Some (JInt pid) → ∃ job, JobRecord.from_payload body = Ok job.
Proof.
  intros Hp. unfold JobRecord.from_payload, PyJson.number, get_int_or, getd. rewrite Hp. cbn [default from_option id].
  assert (∃ z, py_int (jor (JInt pid) (JInt 0)) = Ok z) as (z & ->)
    by (unfold jor; destruct (truthy (JInt pid)); by eexists).
  by eexists.
Qed.

Lemma record_job_answers v r rt e : (record_job around v r rt).1 ≠ Crashed e.
Proof.
  unfold record_job. destruct (parse around "JobBody" r) as [o|body] eqn:E; [by apply (parse_refuses _ _ _ _ E)|].
  destruct (job_fits r body E) as (id & pid & _ & _ & Hp & _). by destruct (job_read body pid Hp) as [job ->].
Qed.

(** A grant is told as it was made. *)
Lemma grant_told g :
  around.(validate) "SessionGrantResponse" (SessionGrant.payload g) = inr (SessionGrant.payload g).
Proof. by apply (Models.takes_exact _ Models.SessionGrantResponse). Qed.

(** The answers have the fields of their models, in their order. *)
Lemma answers_fit rt r d : is_loopback (default "" r.(client)) = true → version around r rt = Json d →
  Models.conforms Models.VersionResponse d = Some d ∧
  ∃ p, ping around rt = Json p ∧ Models.conforms Models.PingResponse p = Some p.
Proof.
  unfold version. intros -> [= <-]. split; [reflexivity|]. eexists. split; [reflexivity|]. reflexivity.
Qed.
End Bodies.

(** ** Examples *)

Definition sample_validators : ValidatorSet := MkValidators ["5Val"] f0 "server".
Definition sample_req : req :=
  MkReq "POST" "/session/open" [(HEADER_HOTKEY, "5Val"); (HEADER_TIMESTAMP, "10"); (HEADER_SIGNATURE, "0x00")]
    "{...}" (Some "198.51.100.7").
Definition sample_around (late : bool) : Around :=
  MkAround (λ _, Some (JDict (SessionOpen.payload Grants.sample_request))) (λ _ d, inr d) (λ _ _ _, true)
    sample_validators 120 (fz 20) (λ _, "") Grants.sample_machine Grants.sample_moments None late "1.1.0" "rig-1"
    "sha256:0" true (Busy "busy") (λ _, Busy "busy") (λ _ _, None) "tail".
Definition sample_runtime : Runtime := MkRuntime Grants.sample_grants JobBook.empty false 0.

(** The answer says that opening the session timed out, and the session is open:
    its key is in [authorized_keys] until it expires. *)
Example late_open :
  let out := serve (sample_around true) SessionOpen sample_req sample_runtime in
  out.1 = HttpError 504 "session open timed out at attestation" ∧
  List.length (Grants.open_sessions out.2.(grants)) = 1%nat ∧
  Grants.keys out.2.(grants) ≠ Grants.keys sample_runtime.(grants).
Proof. vm_compute. by split_and!. Qed.

Example refused_unsigned :
  serve (sample_around false) Jobs (MkReq "POST" "/jobs" [] "" (Some "127.0.0.1")) sample_runtime
  = (HttpError 401 "validator signature headers required", sample_runtime).
Proof. reflexivity. Qed.
