(* ===== verification/Handshake.v ===== *)
(** * A validator and an honest agent

    The two sides of a session put together: the validator's [with_session]
    ([Client]) sends its requests to the agent's routes ([Api]), whose grants
    ([Grants]) it reads back, and connects to the host key they name. *)

From Stdlib Require Import Ascii String QArith.
From S2P Require Import Prelude.
From S2P Require Import PyStr.
From S2P Require Import PyText.
From S2P Require Import PyFloat.
From S2P Require Import PyJson.
From S2P Require Import PyDump.
From S2P Require Import Failures.
From S2P Require Import SessionProto.
From S2P Require Import Sha256.
From S2P Require Import Attest.
From S2P Require Import Runner.
From S2P Require Import Nonce.
From S2P Require Import SshKeys.
From S2P Require Import Aes.
From S2P Require Import Fernet.
From S2P Require Import Client.
From S2P Require Api Auth Grants Models Placement.
Local Open Scope string_scope.
Local Open Scope list_scope.

(** ** The agent grants the request *)

Lemma fround_wf nd x : fwf (fround nd x).
Proof. destruct x; (exact I || apply rnd_wf). Qed.

Lemma hex_val_byte c v : hex_val c = Some v → (0 <= v < 16)%Z.
Proof. destruct c as [[] [] [] [] [] [] [] []]; intros E; vm_compute in E; (discriminate || (injection E as <-; lia)). Qed.

Lemma fromhex_bytes s : ∀ l, fromhex s = Some l → Forall is_byte l.
Proof.
  induction s as [s IH] using (induction_ltof1 _ slen). unfold ltof in IH. intros l.
  destruct s as [|c s]; cbn [fromhex]; [intros [= <-]; constructor|].
  destruct (_ || _); [apply IH; unfold slen; simpl; lia|]. destruct s as [|d s]; [done|].
  destruct (hex_val c) as [h|] eqn:Eh; [|done]. destruct (hex_val d) as [w|] eqn:Ew; [|done].
  cbn. destruct (fromhex s) as [rest|] eqn:Er; [|done]. intros [= <-].
  constructor; [|apply (IH s); [unfold slen; simpl; lia|done]].
  apply hex_val_byte in Eh, Ew. unfold is_byte. lia.
Qed.

Lemma bytes_of_bytes s : Forall is_byte (bytes_of s).
Proof.
  unfold bytes_of. apply Forall_fmap, Forall_forall. intros c _. unfold is_byte, code. cbn.
  pose proof (N_ascii_bounded c). lia.
Qed.

Lemma report_data_bytes host_key nonce : Forall is_byte (report_data host_key nonce).
Proof.
  unfold report_data. apply Forall_app. split; [apply bytes_of_bytes|].
  case_decide; [|by repeat constructor]. destruct (fromhex nonce) as [l|] eqn:E; [|constructor].
  by apply fromhex_bytes in E.
Qed.

(** The report data an agent wrote in hex are those its validator expects. *)
Lemma report_ok_own a host_key nonce :
  Attestation.report_data_hex a = hex (of_bytes (report_data host_key nonce)) → report_ok a host_key nonce = Some true.
Proof.
  intros Ha. unfold report_ok. rewrite Ha, fromhex_hex, bytes_of_of by apply report_data_bytes.
  destruct (String.eqb_spec (hex (of_bytes (report_data host_key nonce))) "") as [E|_].
  - exfalso. pose proof (fromhex_hex (of_bytes (report_data host_key nonce))) as Hx.
    rewrite E, bytes_of_of in Hx by apply report_data_bytes. injection Hx as Hx.
    pose proof (report_data_length host_key nonce) as Hl. by rewrite <- Hx in Hl.
  - f_equal. unfold report_data_matches. pose proof (report_data_length host_key nonce) as Hl.
    rewrite Hl. cbn [andb Nat.leb]. apply bool_decide_eq_true_2. by rewrite take_ge by (rewrite Hl; unfold REPORT_DATA_BYTES; lia).
Qed.

(** What the attestation of a well-formed nonce says. *)
Lemma build_own machine nonce gpus driver cuda cards now :
  slen nonce = 64%nat → sforall is_hex nonce = true →
  Grants.inventory machine = (gpus, driver, cuda) → mapM GpuEvidence.from_payload gpus = Ok cards →
  let hk := Grants.host_key_line (Grants.host_key_file machine) in
  ∃ a, Grants.build machine nonce hk now = Ok (Some a) ∧ Attestation.nonce a = nonce ∧
    Attestation.report_data_hex a = hex (of_bytes (report_data hk nonce)) ∧ fwf (Attestation.generated_at a).
Proof.
  intros Hl Hx Hi Hc hk. destruct (Grants.hex_fixed nonce Hx) as [Hlow Hstrip].
  unfold Grants.build. rewrite Hstrip, Hlow.
  assert (well_formed_nonce nonce = true) as ->
    by (apply well_formed_nonce_spec; exists nonce; split; [left; reflexivity|by split]).
  cbn [negb]. rewrite Hi, Hc. cbn [mbind res_bind mret res_ret].
  eexists. split; [reflexivity|].
  cbn [Attestation.nonce Attestation.report_data_hex Attestation.generated_at].
  split; [reflexivity|]. split; [|apply fround_wf]. fold hk. destruct (String.eqb hk ""); reflexivity.
Qed.

Lemma open_granted kv iso machine request hotkey rest m st k a :
  SessionOpen.problems request = [] → canonical (SessionOpen.public_key request) = Some k →
  Auth.verify_hotkey kv hotkey (SessionOpen.blob request) (SessionOpen.signature request) = true → hotkey ≠ "" →
  (accept (SessionOpen.nonce request) (Grants.at_nonce m) (Grants.nonces st)).1 = true →
  let hk := Grants.host_key_line (Grants.host_key_file machine) in
  Grants.build machine (SessionOpen.nonce request) hk (Grants.at_build m) = Ok (Some a) →
  ∃ g st', Grants.open kv iso machine request (hotkey :: rest) None m st = (Grants.Granted g, st') ∧
    SessionGrant.ssh_username g = Grants.ssh_user machine ∧ SessionGrant.ssh_port g = Grants.ssh_port machine ∧
    SessionGrant.ssh_host_key g = hk ∧ SessionGrant.python_path g = Grants.python_path machine ∧
    SessionGrant.root_dir g = Grants.root_dir machine ∧ SessionGrant.validator g = hotkey ∧
    SessionGrant.gpu_attestation g = Attestation.payload a.
Proof.
  intros Hp Hk Hv Hne Hacc hk Hb. unfold Grants.open. rewrite Hp, Hk. cbn [Auth.signer]. rewrite Hv.
  apply String.eqb_neq in Hne. rewrite Hne.
  destruct (accept _ _ _) as [fresh book]. cbn [fst] in Hacc. subst fresh. cbn [negb].
  unfold SshKeys.grant. destruct (canonical k) as [k'|] eqn:Ek.
  2:{ exfalso. apply canonical_idem in Hk. rewrite Hk in Ek. discriminate. }
  fold hk. rewrite Hb. eexists _, _. split; [reflexivity|]. done.
Qed.

(** ** The session *)

Lemma hex_slen s : slen (hex s) = (2 * slen s)%nat.
Proof.
  unfold hex. assert (∀ l : list ascii, slen (string_of_list_ascii l) = List.length l) as Hl
    by (intros l; induction l as [|c l IH]; [done|]; unfold slen in *; cbn; by rewrite IH).
  rewrite Hl. unfold bytes_of. induction s as [|c s IH]; [done|]. unfold slen in *. cbn in *. lia.
Qed.

(** A request as the framework hands it to the route of its path, and an answer as
    the validator's HTTP library reads it; [text] is the text of a body. *)
Definition arrives (r : request) : Api.req :=
  Api.MkReq r.(method) SESSION_OPEN_PATH r.(headers) (default "" r.(content)) None.
Definition answer_of (text : dict → string) (o : Api.reply) : response :=
  match o with
  | Api.Json d => Response 200 false (text d) (Some (JDict d))
  | Api.HttpError status detail =>
      let d := [("detail", JStr detail)] in Response status false (text d) (Some (JDict d))
  | Api.Text t => Response 200 (String.eqb t "") t None
  | Api.Stream => Response 200 false "" None
  | Api.Crashed _ => Response 500 false "Internal Server Error" None
  end.

Section Session.
Context {H : Type} (env : Env H) (out : Outer H) (around : Api.Around) (rt : Api.Runtime).
Context (text : dict → string) (rig : dict) (n : Net H).

(** What the validator draws for the session, and what it asks. *)
Definition own_key : string := strip (out.(new_key) (host (machine n))).
Definition own_nonce : string := env.(rand_hex) 0 (host (machine n)).
Definition own_request : SessionOpen.t :=
  SessionOpen.Mk own_key own_nonce (sign out (grant_blob own_key own_nonce)).
Definition machine_key : string := Grants.host_key_line (Grants.host_key_file around.(Api.machine)).

(** The validator: a hotkey, an OpenSSH key, signatures of 64 bytes (or any that
    the model of the request has room for), 32 random bytes in hex. *)
Record sound_validator : Prop := {
  sound_hotkey : spaceless out.(hotkey) = true ∧ out.(hotkey) ≠ "";
  sound_key : well_formed_public_key own_key = true ∧ (slen own_key <= 4096)%nat ∧ ∃ k, canonical own_key = Some k;
  sound_signature : ∀ msg, (slen (out.(sign_) msg) <= 255)%nat;
  sound_nonce : slen own_nonce = 64%nat ∧ sforall is_hex own_nonce = true }.

(** The agent: it knows the validator, its clock is near the validator's, it has
    not seen the nonce, and can write the key and read its cards; its settings
    name a user, a port, two paths and a host key. *)
Record ready_agent : Prop := {
  ready_member : out.(hotkey) ∈ Auth.members around.(Api.validators);
  ready_verify : ∀ msg, around.(Api.keypair_verify) out.(hotkey) msg (bytes_of (out.(sign_) msg)) = true;
  ready_clock : Auth.fresh (format_fixed 3 (next_stamp env n)) around.(Api.window) around.(Api.now) = true;
  ready_nonce : (accept own_nonce (Grants.at_nonce around.(Api.moments)) (Grants.nonces rt.(Api.grants))).1 = true;
  ready_write : around.(Api.key_fault) = None ∧ around.(Api.opened_late) = false;
  ready_cards : ∃ gpus driver cuda cards,
    Grants.inventory around.(Api.machine) = (gpus, driver, cuda) ∧ mapM GpuEvidence.from_payload gpus = Ok cards;
  ready_settings : Grants.ssh_user around.(Api.machine) ≠ "" ∧ Grants.ssh_port around.(Api.machine) ≠ 0%Z ∧
    Grants.python_path around.(Api.machine) ≠ "" ∧ Grants.root_dir around.(Api.machine) ≠ "";
  ready_key : (key_fields machine_key).2 ≠ "" }.

(** What is between them: json reads back what it wrote, bodies are checked
    against their models, HTTP carries the request and its answer, and whoever
    answers SSH shows the machine's host key. *)
Record plain_link : Prop := {
  link_address : ∃ base, base_url rig = Ok (Some base);
  link_json : ∃ body, around.(Api.loads) (canonical_json (SessionOpen.payload own_request)) = Some (JDict body) ∧
    body ≡ₚ SessionOpen.payload own_request;
  link_models : Models.Checks around.(Api.validate);
  link_http : ∀ r, (out.(http) r (host (machine n))).1 =
    answer_of text (Api.serve around Api.SessionOpen (arrives r) rt).1;
  link_ssh : ∀ address port user key timeout h, key = strip machine_key →
    ∃ presented h', out.(connect_) address port user key timeout h = (Presented presented, h') ∧
      same_key presented machine_key = true }.

Lemma perm_get (d d' : dict) k v : NoDup (d'.*1) → d ≡ₚ d' → (k, v) ∈ d' → dget k d = Some v.
Proof.
  intros Hd Hp Hin. apply Placement.dget_unique; [unfold dkeys; by rewrite Hp|by rewrite Hp].
Qed.

Lemma sign_length msg : slen (sign out msg) = (2 + 2 * slen (out.(sign_) msg))%nat.
Proof. unfold sign. rewrite <- hex_slen. reflexivity. Qed.

(** The agent reads the request that was written: the model takes it as it is. *)
Lemma request_taken body : sound_validator → plain_link →
  body ≡ₚ SessionOpen.payload own_request →
  around.(Api.validate) "SessionOpenBody" body = inr (SessionOpen.payload own_request).
Proof.
  intros [_ (Hk & Hkl & _) Hs [Hlen Hhex]] [_ _ Hm _ _] Hp.
  apply (Models.takes_exact (Checks := Hm) _ Models.SessionOpenBody); [reflexivity|].
  assert (NoDup (SessionOpen.payload own_request).*1) as Hd by (apply (bool_decide_unpack _); vm_compute; exact I).
  unfold Models.SessionOpenBody, Models.conforms. cbn [Models.fname Models.ftype Models.text].
  rewrite (perm_get _ _ "public_key" (JStr own_key) Hd Hp) by (cbn; set_solver).
  rewrite (perm_get _ _ "nonce" (JStr own_nonce) Hd Hp) by (cbn; set_solver).
  rewrite (perm_get _ _ "signature" (JStr (sign out (grant_blob own_key own_nonce))) Hd Hp) by (cbn -[sign]; set_solver).
  unfold Models.fits, Models.within. rewrite Hlen.
  assert ((1 <=? slen own_key)%nat = true) as ->.
  { apply Nat.leb_le. destruct own_key as [|c k]; [discriminate|]. cbn. lia. }
  rewrite (proj2 (Nat.leb_le _ _) Hkl). pose proof (sign_length (grant_blob own_key own_nonce)) as Hsl.
  specialize (Hs (grant_blob own_key own_nonce)).
  rewrite (proj2 (Nat.leb_le 1 _)) by lia. rewrite (proj2 (Nat.leb_le _ 512)) by lia. reflexivity.
Qed.

Lemma own_request_read : sound_validator → SessionOpen.from_payload (SessionOpen.payload own_request) = own_request.
Proof.
  intros [_ _ _ [Hlen Hhex]]. destruct (Grants.hex_fixed own_nonce Hhex) as [Hlow Hstrip].
  unfold SessionOpen.from_payload, own_request, get_str, getd. cbn [SessionOpen.payload dget decide].
  change (SessionOpen.Mk (strip own_key) (lower (strip own_nonce)) (strip (sign out (grant_blob own_key own_nonce))) =
    SessionOpen.Mk own_key own_nonce (sign out (grant_blob own_key own_nonce))).
  rewrite Hstrip, Hlow. unfold own_key at 1. rewrite strip_idem.
  rewrite (strip_no_space (sign out _)) by apply sign_spaceless. reflexivity.
Qed.

Lemma request_sound : sound_validator → SessionOpen.problems own_request = [].
Proof.
  intros [_ [Hk _] _ [Hlen Hhex]]. unfold SessionOpen.problems. cbn [SessionOpen.public_key SessionOpen.nonce SessionOpen.signature own_request].
  rewrite Hk. assert (well_formed_nonce own_nonce = true) as ->
    by (apply well_formed_nonce_spec; exists own_nonce; split; [left; reflexivity|by split]).
  reflexivity.
Qed.

(** The agent's answer to the request, read by the validator: a grant bound to
    the request. *)
Lemma agent_grants r :
  sound_validator → ready_agent → plain_link →
  r.(method) = "POST" → r.(content) = Some (canonical_json (SessionOpen.payload own_request)) →
  r.(headers) = headers_at out "POST" SESSION_OPEN_PATH (Some (SessionOpen.payload own_request))
                  (format_fixed 3 (next_stamp env n)) →
  ∃ g a rt', Api.serve around Api.SessionOpen (arrives r) rt = (Api.Json (SessionGrant.payload g), rt') ∧
    SessionGrant.from_payload (SessionGrant.payload g) = Ok g ∧
    SessionGrant.ssh_username g = Grants.ssh_user around.(Api.machine) ∧ SessionGrant.ssh_host_key g = machine_key ∧
    SessionGrant.validator g = out.(hotkey) ∧
    Attestation.from_payload (SessionGrant.gpu_attestation g) = Ok a ∧ Attestation.nonce a = own_nonce ∧
    Attestation.report_data_hex a = hex (of_bytes (report_data machine_key own_nonce)) ∧
    SessionGrant.python_path g = Grants.python_path around.(Api.machine) ∧
    SessionGrant.root_dir g = Grants.root_dir around.(Api.machine).
Proof.
  intros Hs Hr Hl Hm Hc Hh. pose proof Hs as [[Hsp Hne] (Hwk & _ & k & Hk) _ [Hlen Hhex]].
  pose proof Hr as [Hmem Hver Hclock Hnonce [Hf Hlate] (gpus & driver & cuda & cards & Hi & Hcards) (Hu & Hport & Hpy & Hroot) Hkey].
  pose proof Hl as [_ (body & Hjson & Hperm) _ _ _].
  pose proof (request_taken body Hs Hl Hperm) as Hval.
  unfold Api.serve, Api.require_validator. cbn [Api.rmethod Api.rpath Api.rheaders Api.rbody arrives].
  rewrite Hm, Hh, Hc. cbn [default from_option id].
  rewrite (headers_accepted out _ _ "POST" SESSION_OPEN_PATH (Some (SessionOpen.payload own_request))) by
    (done || apply spaceless_fixed).
  unfold Api.session_open, Api.parse. cbn [Api.rbody arrives]. rewrite Hc. cbn [default from_option id].
  assert (Runner.sor (canonical_json (SessionOpen.payload own_request)) "{}" =
          canonical_json (SessionOpen.payload own_request)) as ->.
  { unfold Runner.sor. destruct (String.eqb_spec (canonical_json (SessionOpen.payload own_request)) "") as [E|]; [|done].
    exfalso. revert E. unfold canonical_json. done. }
  rewrite Hjson, Hval, own_request_read by done.
  destruct (build_own around.(Api.machine) own_nonce gpus driver cuda cards (Grants.at_build around.(Api.moments)))
    as (a & Hbuild & Han & Har & Haw); [done..|].
  destruct (open_granted around.(Api.keypair_verify) around.(Api.iso) around.(Api.machine) own_request out.(hotkey)
    (List.filter (λ key, negb (String.eqb key out.(hotkey))) (Auth.hotkeys around.(Api.validators)))
    around.(Api.moments) rt.(Api.grants) k a) as (g & st' & Hopen & H1 & H2 & H3 & H4 & H5 & H6 & H7);
    [by apply request_sound|done|by apply own_signature_verifies|done..|].
  unfold Api.candidates. rewrite Hf, Hopen, Hlate, (Api.grant_told around (checks := link_models Hl) g). exists g, a. eexists. split; [reflexivity|].
  split; [apply session_grant_roundtrip; congruence|]. split; [done|]. split; [done|]. split; [done|].
  split; [rewrite H7; by apply attestation_roundtrip|]. by split.
Qed.

Lemma connects address port user timeout m :
  plain_link → (key_fields machine_key).2 ≠ "" →
  ∃ m', connect env out address port user machine_key timeout m = (Ok (inl tt), m').
Proof.
  intros [_ _ _ _ Hssh] Hkey. unfold connect. apply String.eqb_neq in Hkey. rewrite Hkey.
  destruct (Hssh address port user (strip machine_key) timeout (host (machine m)) eq_refl) as (p & h' & Hc & Hsame).
  unfold mbind, NM_bind, attempt. rewrite Hc. cbn. rewrite Hsame. by eexists.
Qed.

Lemma close_ends key g m base : base_url rig = Ok (Some base) → ∃ m', close_session env out rig key g m = (Ok tt, m').
Proof.
  intros Hb. unfold close_session. rewrite NM_bindE.
  destruct (call_sends env out rig "POST" SESSION_CLOSE_PATH
              (Some (SessionClose.payload (SessionClose.Mk key (SessionGrant.session_id g)))) AGENT_TIMEOUT m base Hb)
    as (m' & E & _). rewrite E. by exists m'.
Qed.

(** The session, from the request to its end. *)
Lemma session_opens {A} timeout (body : Session → NM H A) :
  sound_validator → ready_agent → plain_link →
  ∃ s m, s.(snonce) = own_nonce ∧ SessionGrant.validator s.(grant) = out.(hotkey) ∧
    SessionGrant.ssh_host_key s.(grant) = machine_key ∧
    SessionGrant.python_path s.(grant) = Grants.python_path around.(Api.machine) ∧
    SessionGrant.root_dir s.(grant) = Grants.root_dir around.(Api.machine) ∧
    s.(bound) = true ∧ s.(report_data_ok) = Some true ∧
    (∀ seed, failure (attestation_verdict seed s) = None) ∧
    (with_session env out rig timeout body n).1 =
      match (body s m).1 with Ok x => Ok (Ended x) | Raise e => Raise e end.
Proof.
  intros Hs Hr Hl. pose proof Hl as [[base Hbase] _ _ Hhttp _]. pose proof Hr as [_ _ _ _ _ _ (Hu & _) Hkey].
  destruct (connection_of rig) as [[[address api] port]|e] eqn:Ec;
    [|by unfold base_url in Hbase; rewrite Ec in Hbase].
  unfold with_session. rewrite NM_bind_lift, Ec, NM_bindE. unfold draw at 1. fold own_key own_nonce. fold own_request.
  destruct (call_sends env out rig "POST" SESSION_OPEN_PATH (Some (SessionOpen.payload own_request)) timeout n base Hbase)
    as (n1 & Ecall & _).
  rewrite NM_bindE, Ecall, Hhttp.
  match goal with |- context [arrives ?r] => destruct (agent_grants r Hs Hr Hl) as
    (g & a & rt' & -> & Hback & Hguser & Hgkey & Hgval & Hatt & Han & Har & Hgpy & Hgroot); [reflexivity..|] end.
  cbn [fst answer_of judge_response Z.leb Z.compare Pos.compare Pos.compare_cont].
  rewrite NM_bind_lift, Hback.
  set (s := MkSession (py_str (getd "id" (JStr "") rig)) address g own_nonce own_key a (Attestation.bound_to a own_nonce)
              (report_ok a (SessionGrant.ssh_host_key g) own_nonce)).
  assert (report_data_ok s = Some true) as Hrep by (cbn; rewrite Hgkey; by apply report_ok_own).
  assert (bound s = true) as Hbound.
  { cbn. unfold Attestation.bound_to. rewrite Han, String.eqb_refl, andb_true_r. destruct Hs as [_ _ _ [Hlen _]].
    by destruct own_nonce. }
  destruct (connects address (first_port (SessionGrant.ssh_port g) port) (SessionGrant.ssh_username g) timeout n1 Hl Hkey)
    as (m & Em).
  exists s, m. split; [done|]. split; [done|]. split; [done|]. split; [done|]. split; [done|]. split; [done|]. split; [done|]. split.
  { intros seed. unfold attestation_verdict. rewrite Hbound, Hrep. reflexivity. }
  unfold try_finally at 1.
  assert (in_grant env out (py_str (getd "id" (JStr "") rig)) address port own_key own_nonce g timeout body n1 =
    (match (body s m).1 with Ok x => Ok (Ended x) | Raise e => Raise e end, (open_connections (-1) (body s m).2).2)) as ->.
  { unfold in_grant. rewrite Hguser. apply String.eqb_neq in Hu. rewrite Hu.
    destruct (String.eqb_spec (SessionGrant.ssh_host_key g) "") as [E|_].
    { exfalso. apply Hkey. rewrite <- Hgkey, E. reflexivity. }
    rewrite NM_bind_lift, Hatt. fold s. rewrite NM_bindE, Hgkey, <- Hguser, Em. unfold try_finally. rewrite NM_bindE.
    destruct (body s m) as [[x|e] m2]; reflexivity. }
  destruct (close_ends own_key g (open_connections (-1) (body s m).2).2 base Hbase) as (m' & ->). done.
Qed.

(** C9. A validator gets its session from an honest agent: the grant it asks for is
    given and read back, SSH connects to the host key of the grant, and the body
    runs in a session whose attestation is bound to the nonce of the validator and
    carries the report data of that key and nonce, so the check of the
    attestation passes; and the session ends as its body does. *)
Theorem session_established {A} timeout (body : Session → NM H A) :
  sound_validator → ready_agent → plain_link →
  ∃ s m, s.(snonce) = own_nonce ∧ SessionGrant.validator s.(grant) = out.(hotkey) ∧
    SessionGrant.ssh_host_key s.(grant) = machine_key ∧
    s.(bound) = true ∧ s.(report_data_ok) = Some true ∧
    (∀ seed, failure (attestation_verdict seed s) = None) ∧
    (with_session env out rig timeout body n).1 =
      match (body s m).1 with Ok x => Ok (Ended x) | Raise e => Raise e end.
Proof.
  intros Hs Hr Hl. destruct (session_opens timeout body Hs Hr Hl) as (s & m & Hn & Hv & Hk & _ & _ & Hrest).
  exists s, m. by split_and!; try apply Hrest.
Qed.
End Session.

(** ** Example: the session a validator opens for its own attestation *)

Definition here_env : Env unit :=
  MkEnv _ (λ c _ _ h, (MkResult c 0 "ok" "" f0 "", h)) (λ _ h, h) (λ _, f0) (λ _, fz 1000) (λ _, [])
    (λ _ _, String.concat "" (repeat "ab" 32)) (λ _ _, "") (λ _, None).
Definition here_key (_ : unit) : string := "ssh-ed25519 BBBB mt-validator".
Definition here_sign (m : string) : string := stake 2 m.
Definition here_net : Net unit := MkNet (MkSt tt [] (MkInflight [] []) (MkRecords [] []) [] []) f0 [] 0.
(** The keys of the validator, before anything is connected. *)
Definition here_keys : Outer unit :=
  MkOuter "5Hot" here_sign (λ _ h, (HttpError "", h)) here_key (λ _ _ _ _ _ h, (NotConnected "", h)).
Definition here_around : Api.Around :=
  Api.MkAround (λ _, Some (JDict (SessionOpen.payload (own_request here_env here_keys here_net)))) Models.strict
    (λ _ m s, bool_decide (s = bytes_of (here_sign m))) (Auth.MkValidators ["5Hot"] f0 "server") 120 (fz 1001)
    (λ _, "") Grants.sample_machine Grants.sample_moments None false "1.1.0" "rig-1" "sha256:0" true
    (Api.Busy "busy") (λ _, Api.Busy "busy") (λ _ _, None) "tail".
Definition here_out : Outer unit :=
  MkOuter "5Hot" here_sign
    (λ r h, (answer_of (λ _, "{}") (Api.serve here_around Api.SessionOpen (arrives r) Api.sample_runtime).1, h))
    here_key (λ _ _ _ _ _ h, (Presented (Some "ssh-ed25519 AAAA"), h)).
Definition here_rig : dict :=
  [("id", JStr "rig-1"); ("connection", JDict [("address", JStr "10.0.0.7"); ("api_port", JInt 8080)])].

Lemma session_established_witness :
  (with_session here_env here_out here_rig (fz 60) (λ s, mret s.(bound)) here_net).1 = Ok (Ended true).
Proof.
  destruct (session_established here_env here_out here_around Api.sample_runtime (λ _, "{}") here_rig here_net (fz 60)
    (λ s, mret s.(bound))) as (s & m & _ & _ & _ & Hb & _ & _ & E).
  - split.
    + split; [reflexivity|discriminate].
    + split; [vm_compute; reflexivity|]. split; [vm_compute; lia|]. exists "ssh-ed25519 BBBB". vm_compute. reflexivity.
    + intros msg. destruct msg as [|c [|d msg]]; cbn; lia.
    + split; reflexivity.
  - split.
    + apply list_elem_of_here.
    + intros msg. apply bool_decide_eq_true_2. reflexivity.
    + vm_compute. reflexivity.
    + vm_compute. reflexivity.
    + split; reflexivity.
    + exists [], "570", "12.8", []. split; reflexivity.
    + split_and!; discriminate.
    + vm_compute. discriminate.
  - split.
    + eexists. vm_compute. reflexivity.
    + exists (SessionOpen.payload (own_request here_env here_keys here_net)). split; [reflexivity|].
      assert (own_request here_env here_out here_net = own_request here_env here_keys here_net) as -> by (vm_compute; reflexivity).
      apply Permutation_refl.
    + apply Models.strict_checks.
    + intros r. reflexivity.
    + intros address port user key timeout h _. exists (Some "ssh-ed25519 AAAA"), h. split; [reflexivity|vm_compute; reflexivity].
  - rewrite E. cbn. rewrite Hb. reflexivity.
Defined.
