(* ===== verification/Honest.v ===== *)
(** * An honest machine passes the deep pass

    The validator's pass ([Deep]) over a session with a machine that runs what it
    is sent: the payloads of [RigHost] and [RigScrape] and the runner of
    [Challenge.Rig] print what they print on the machine's own readings, the
    session is that of [Handshake], and the cards are as enrolled.  Then every check
    is made and none fails.  The first part are the checks that end well whatever
    the state, the second the machine, the third the pass. *)

From Stdlib Require Import Ascii String QArith.
From S2P Require Import Prelude.
From S2P Require Import PyStr.
From S2P Require Import PyFloat.
From S2P Require Import PyJson.
From S2P Require Import PyDump.
From S2P Require Import Failures.
From S2P Require Import Messages.
From S2P Require Import SessionProto.
From S2P Require Import Attest.
From S2P Require Import Sha256.
From S2P Require Import Shell.
From S2P Require Import Runner.
From S2P Require Import Checks.
From S2P Require Import GpuWedge.
From S2P Require Import Challenge.
From S2P Require Import Client.
From S2P Require Import Deep.
From S2P Require Import DeepFacts.
From S2P Require Aes Fernet.
From S2P Require RigHost.
From S2P Require RigScrape.
From S2P Require RigFacts.
From S2P Require Digest Models Scrape Api Handshake.
Local Open Scope string_scope.
Local Open Scope list_scope.

(** ** Computations that end well *)

(** From every state [m] returns something that satisfies [Q]. *)
Definition ends {H A} (m : M H A) (Q : A → Prop) : Prop := ∀ st, ∃ a st', m st = (Ok a, st') ∧ Q a.

(** In a pass too, and the verdicts it adds have no failure. *)
Definition goes {H A} (m : DM H A) (Q : A → Prop) : Prop :=
  ∀ j, ∃ a j' l, m j = (Ok a, j') ∧ verdicts j' = verdicts j ++ l ∧ Forall (λ v, passed v = true) l ∧ Q a.

Section Rules.
Context {H : Type}.

Lemma M_bindE {A B} (m : M H A) (f : A → M H B) st :
  (m ≫= f) st = match m st with (Ok a, st') => f a st' | (Raise e, st') => (Raise e, st') end.
Proof. done. Qed.

Lemma ends_bind {A B} (m : M H A) (f : A → M H B) (Q : A → Prop) R :
  ends m Q → (∀ a, Q a → ends (f a) R) → ends (m ≫= f) R.
Proof.
  intros Hm Hf st. destruct (Hm st) as (a & st1 & E & Ha). destruct (Hf a Ha st1) as (b & st2 & E' & Hb).
  exists b, st2. unfold mbind, M_bind. by rewrite E.
Qed.
Lemma ends_ret {A} (a : A) (Q : A → Prop) : Q a → ends (mret a : M H A) Q.
Proof. intros Ha st. by exists a, st. Qed.
Lemma ends_lift {A} (r : res A) a (Q : A → Prop) : r = Ok a → Q a → ends (lift r : M H A) Q.
Proof. intros -> Ha st. by exists a, st. Qed.
Lemma ends_weaken {A} (m : M H A) (Q R : A → Prop) : (∀ a, Q a → R a) → ends m Q → ends m R.
Proof. intros HQ Hm st. destruct (Hm st) as (a & st' & E & Ha). exists a, st'. auto. Qed.
Lemma ends_for_each {A} (f : A → M H unit) l : (∀ x, ends (f x) (λ _, True)) → ends (for_each f l) (λ _, True).
Proof. intros Hf. induction l as [|x l IH]; [by apply ends_ret|]. apply ends_bind with (λ _, True); auto. Qed.

Lemma goes_bind {A B} (m : DM H A) (f : A → DM H B) (Q : A → Prop) R :
  goes m Q → (∀ a, Q a → goes (f a) R) → goes (m ≫= f) R.
Proof.
  intros Hm Hf j. destruct (Hm j) as (a & j1 & l1 & E & Hv & Hl & Ha).
  destruct (Hf a Ha j1) as (b & j2 & l2 & E' & Hv' & Hl' & Hb).
  exists b, j2, (l1 ++ l2). split; [unfold mbind, DM_bind; by rewrite E|].
  split; [by rewrite Hv', Hv, app_assoc|]. split; [by apply Forall_app|done].
Qed.
Lemma goes_quiet {A} (m : DM H A) (Q : A → Prop) :
  (∀ j, ∃ a j', m j = (Ok a, j') ∧ verdicts j' = verdicts j ∧ Q a) → goes m Q.
Proof. intros Hm j. destruct (Hm j) as (a & j' & E & Hv & Ha). exists a, j', []. by rewrite app_nil_r. Qed.
Lemma goes_ret {A} (a : A) (Q : A → Prop) : Q a → goes (mret a : DM H A) Q.
Proof. intros Ha. apply goes_quiet. intros j. by exists a, j. Qed.
(** What comes after a value that is known, a note and a verdict that passed. *)
Lemma goes_known {A B} (r : res A) a (f : A → DM H B) R : r = Ok a → goes (f a) R → goes (dlift r ≫= f) R.
Proof. by intros ->. Qed.
Lemma goes_note {B} k x (f : unit → DM H B) R : goes (f tt) R → goes (Deep.note k x ≫= f) R.
Proof. intros Hf. apply goes_bind with (λ _, True); [apply goes_quiet; intros j; by eexists _, _|by intros []]. Qed.
Lemma goes_append {B} v (f : unit → DM H B) R : passed v = true → goes (f tt) R → goes (Deep.append v ≫= f) R.
Proof.
  intros Hv Hf. apply goes_bind with (λ _, True); [|by intros []].
  intros j. eexists _, _, [v]. split; [done|]. split; [done|]. split; [by constructor|done].
Qed.
Lemma goes_on_host {A} (m : M H A) (Q : A → Prop) : ends m Q → goes (on_host m) Q.
Proof.
  intros Hm. apply goes_quiet. intros j. destruct (Hm (at_ j)) as (a & st & E & Ha).
  eexists a, _. unfold on_host. rewrite E. split; [done|]. by split.
Qed.
Lemma goes_finally {A} (m : DM H A) (f : DM H unit) (Q : A → Prop) R :
  goes m Q → goes f R → goes (try_finally m f) Q.
Proof.
  intros Hm Hf j. destruct (Hm j) as (a & j1 & l1 & E & Hv & Hl & Ha).
  destruct (Hf j1) as (b & j2 & l2 & E' & Hv' & Hl' & _).
  exists a, j2, (l1 ++ l2). unfold try_finally. rewrite E, E'.
  split; [done|]. split; [by rewrite Hv', Hv, app_assoc|]. split; [by apply Forall_app|done].
Qed.

(** A run always ends. *)
Lemma ends_run_with (env : Env H) c t i : ends (run_with env c t i) (λ _, True).
Proof. intros st. unfold run_with. destruct (exec env c t i (host st)) as [r h]. by eexists _, _. Qed.
Lemma ends_sleep (env : Env H) t : ends (sleep env t) (λ _, True).
Proof. intros st. by eexists _, _. Qed.

(** The sweep of the wedged cards and the listing of the containers always end. *)
Lemma ends_query (env : Env H) : ends (query_wedged env) (λ _, True).
Proof.
  unfold query_wedged, run. eapply ends_bind; [apply ends_run_with|]. intros apps _.
  eapply ends_bind; [apply ends_run_with|]. intros sample _.
  destruct (_ || _); [by apply ends_ret|]. destruct (negb _); by apply ends_ret.
Qed.
Lemma ends_sweep (env : Env H) : ends (GpuWedge.sweep env) (λ _, True).
Proof.
  assert (ends (wedged_gpus env) (λ _, True)) as Hw.
  { unfold wedged_gpus. eapply ends_bind; [apply ends_query|]. intros first _.
    destruct (_ || _); [by apply ends_ret|]. eapply ends_bind; [apply ends_sleep|]. intros [] _.
    eapply ends_bind; [apply ends_query|]. intros second _. destruct (negb _); by apply ends_ret. }
  unfold GpuWedge.sweep. eapply ends_bind; [exact Hw|]. intros [w sk] _.
  destruct (negb _); [by apply ends_ret|]. destruct (bool_decide _); [by apply ends_ret|].
  eapply ends_bind; [apply ends_for_each; intros u; eapply ends_bind|].
  - unfold cure, run. eapply ends_bind; [apply ends_run_with|]. intros; by apply ends_ret with (Q := λ _, True).
  - intros; by apply ends_ret.
  - intros [] _. eapply ends_bind; [apply ends_query|]. intros; by apply ends_ret.
Qed.
End Rules.

(** ** Verdicts that pass *)

(** Every process of a card was placed. *)
Definition placed_card (jobs : list JobRecord.t) (ours : list Exclusivity.OwnContainer) (card : dict) : Prop :=
  ∃ l, get_list "processes" card = Ok l ∧ Forall (λ p, ∃ d, p = JDict d ∧ ExclusivityFacts.placed jobs ours d) l.

Lemma scan_processes_ends jobs ours uuid l : ∀ s,
  Forall (λ p, ∃ d, p = JDict d ∧ ExclusivityFacts.placed jobs ours d) l →
  ∃ s', Exclusivity.scan_processes (Exclusivity.job_pids_of jobs) (Exclusivity.known_of jobs ours) uuid l s = Ok s'.
Proof.
  induction l as [|p l IH]; intros s Hl; [by eexists|]. apply Forall_cons in Hl as [(d & -> & Hd) Hl].
  cbn [Exclusivity.scan_processes Exclusivity.scan_process]. destruct (id Hd) as (pid & Hp & _).
  rewrite Hp. cbn [mbind res_bind]. apply (ExclusivityFacts.placed_found _ _ _ _ Hp) in Hd. rewrite Hd. by apply IH.
Qed.

Lemma scan_cards_ends jobs ours gpus : ∀ s, Forall (placed_card jobs ours) gpus →
  ∃ s', Exclusivity.scan_cards (Exclusivity.job_pids_of jobs) (Exclusivity.known_of jobs ours) gpus s = Ok s'.
Proof.
  induction gpus as [|card gpus IH]; intros s Hg; [by eexists|]. apply Forall_cons in Hg as [(l & Hl & Hp) Hg].
  cbn [Exclusivity.scan_cards]. rewrite Hl. cbn [mbind res_bind].
  destruct (scan_processes_ends jobs ours (get_str_or "uuid" "" card) l s Hp) as [s' ->]. by apply IH.
Qed.

Lemma exclusivity_pass gpus jobs ours seed alive : Forall (placed_card jobs ours) gpus →
  ∃ v, Exclusivity.check gpus jobs ours seed alive = Ok v ∧ passed v = true.
Proof.
  intros Hg. unfold Exclusivity.check.
  destruct (scan_cards_ends jobs ours gpus (Exclusivity.MkScan [] [] 0) Hg) as [s Hs]. rewrite Hs. cbn [mbind res_bind].
  apply ExclusivityFacts.scan_cards_spec in Hs. cbn [Exclusivity.foreign] in Hs.
  assert (Exclusivity.foreign s = []) as ->; [|by eexists].
  apply Hs. split; [done|]. intros card Hc l p Hl Hp. rewrite Forall_forall in Hg.
  destruct (Hg card Hc) as (l' & Hl' & Hall). rewrite Hl in Hl'. apply Ok_inj in Hl' as <-.
  rewrite Forall_forall in Hall. destruct (Hall _ Hp) as (d & [= <-] & Hd). exact Hd.
Qed.

Lemma duplicates_pass gpus rig_id roster seed :
  is_ok (Duplicates.enrolment_index roster rig_id) = true →
  Forall (λ card, ¬ DuplicatesFacts.enrolled_on roster rig_id (get_str_or "uuid" "" card)) gpus →
  ∃ v, Duplicates.check gpus rig_id roster seed = Ok v ∧ passed v = true.
Proof.
  intros Hi Hg. unfold Duplicates.check. destruct (Duplicates.enrolment_index roster rig_id) as [index|] eqn:E; [|done].
  cbn [mbind res_bind]. assert (foldl (Duplicates.note_duplicate index) [] gpus = []) as ->; [|by eexists].
  apply DuplicatesFacts.note_duplicates_nil. split; [done|]. intros card Hc. right.
  rewrite Forall_forall in Hg. specialize (Hg card Hc). destruct (dget _ index) eqn:Ed; [|done].
  exfalso. apply Hg. destruct (proj1 (DuplicatesFacts.index_go_mem _ _ (get_str_or "uuid" "" card) _ _ E)) as [Hd|Hd];
    [unfold dmem; by rewrite Ed|done|exact Hd].
Qed.

(** The cards of the record are there and read as enrolled. *)
Definition enrolled_cards_read (record : dict) (cards : list dict) : Prop :=
  ∃ enrolled, Specs.enrolled_cards record = Ok enrolled ∧
    let seen := foldl Specs.add_card [] (JDict <$> cards) in
    ∀ u, u ∈ dkeys enrolled → SpecsFacts.as_enrolled enrolled seen u ∧
      Specs.mig_problem u (default [] (dget u seen)) = Ok [].

Lemma core_problems_none uuid errors fields :
  (∀ f, f ∈ fields → Specs.json_in f errors = Ok false) → Specs.core_problems uuid errors fields = Ok [].
Proof.
  induction fields as [|f fields IH]; intros Hf; [done|]. cbn [Specs.core_problems].
  rewrite (Hf f (list_elem_of_here _ _)). cbn [mbind res_bind]. apply IH. intros g Hg. apply Hf. by apply list_elem_of_further.
Qed.

Lemma card_problems_none enrolled seen u :
  SpecsFacts.as_enrolled enrolled seen u → Specs.mig_problem u (default [] (dget u seen)) = Ok [] →
  Specs.card_problems u (default [] (dget u enrolled)) (default [] (dget u seen)) = Ok [].
Proof.
  intros Ha Hmig. pose proof Ha as (e & s & mb & m & He & Hs & Hcore & _ & Hmb & _).
  rewrite He, Hs in *. cbn [default from_option id] in *.
  assert (∃ l, Specs.card_problems u e s = Ok l) as [l Hl].
  { unfold Specs.card_problems. rewrite (core_problems_none _ _ _ Hcore). cbn [mbind res_bind].
    rewrite Hmb. cbn [mbind res_bind]. rewrite Hmig. by eexists. }
  rewrite Hl. f_equal. by apply (SpecsFacts.card_problems_nil _ _ _ _ _ _ He Hs Hl).
Qed.

Lemma specs_pass data nvml cards record seed errors :
  getv "nvml" data = JDict nvml → get_list "gpus" data = Ok (JDict <$> cards) →
  Specs.nvml_errors (JDict nvml) = Ok errors → Forall (λ e, e ∉ Specs.FATAL_NVML) errors →
  enrolled_cards_read record cards →
  ∃ v, Specs.check data record seed = Ok v ∧ passed v = true.
Proof.
  intros Hn Hg He Hf (enrolled & Hen & Hread). unfold Specs.check. rewrite Hn, jor_dict, He, Hen.
  unfold Specs.seen_cards. rewrite Hg. cbn [mbind res_bind mret res_ret]. cbn zeta in Hread.
  set (seen := foldl Specs.add_card [] (JDict <$> cards)) in *.
  rewrite !RigFacts.jget_dict. cbn [mbind res_bind].
  assert (List.filter (λ e, bool_decide (e ∈ Specs.FATAL_NVML)) errors = []) as ->.
  { apply elem_of_nil_inv. intros e [Hin Hb%bool_decide_eq_true]%elem_of_filter_b. rewrite Forall_forall in Hf. by apply (Hf e). }
  unfold Specs.problems_of.
  assert (Specs.difference enrolled seen = []) as ->.
  { apply SpecsFacts.difference_nil. intros u Hu. destruct (Hread u Hu) as [(? & s & ? & ? & _ & Hs & _) _].
    unfold dmem. by rewrite Hs. }
  assert (∀ us, (∀ u, u ∈ us → u ∈ dkeys enrolled) → Specs.all_problems us enrolled seen = Ok []) as Hall.
  { induction us as [|u us IH]; intros Hus; [done|]. cbn [Specs.all_problems].
    destruct (Hread u (Hus u (list_elem_of_here _ _))) as [Ha Hm]. rewrite (card_problems_none _ _ _ Ha Hm).
    cbn [mbind res_bind]. rewrite IH; [done|]. intros w Hw. apply Hus. by apply list_elem_of_further. }
  rewrite Hall; [by eexists|]. intros u [Hu _]%SpecsFacts.elem_of_sorted%elem_of_filter_b. exact Hu.
Qed.

(** What is kept of a scrape that was collected. *)
Lemma trimmed_cards_ends cards : is_ok (trimmed_cards (JDict <$> cards)) = true.
Proof.
  induction cards as [|card cards IH]; [done|]. cbn [fmap list_fmap trimmed_cards py_items mbind res_bind].
  by destruct (trimmed_cards (JDict <$> cards)).
Qed.
Lemma picked_ends keys d : is_ok (picked keys (JDict d)) = true.
Proof.
  induction keys as [|k keys IH]; [done|]. cbn [picked]. rewrite RigFacts.jget_dict. cbn [mbind res_bind].
  by destruct (picked keys (JDict d)).
Qed.
Lemma dicts_of_dicts cards : dicts_of (JDict <$> cards) = Ok cards.
Proof. induction cards as [|card cards IH]; [done|]. cbn [fmap list_fmap dicts_of mbind res_bind]. by rewrite IH. Qed.
Lemma uuids_of_dicts cards : is_ok (uuids_of (JDict <$> cards)) = true.
Proof.
  induction cards as [|card cards IH]; [done|]. cbn [fmap list_fmap uuids_of]. rewrite RigFacts.jget_dict.
  cbn [mbind res_bind]. by destruct (uuids_of (JDict <$> cards)).
Qed.

(** The parts of the data handed on. *)
Record Collected (data nvml : dict) (cards : list dict) : Prop := {
  collected_nvml : getv "nvml" data = JDict nvml;
  collected_cards : get_list "gpus" data = Ok (JDict <$> cards);
  collected_trimmed : is_ok (trimmed_scrape data) = true }.

Lemma collected r F clock payload cards :
  RigScrape.collect r F clock = Ok payload →
  Collected (dset "gpus" (JList (JDict <$> cards)) payload) (RigScrape.scrape_nvml r F).1 cards.
Proof.
  intros Hc. apply RigFacts.collect_shape in Hc as (docker & host & Hd & Hh & ->).
  destruct (RigFacts.probes_shape r clock docker (RigScrape.kernel_tuple (RigScrape.release r)))
    as (sysbox & quota & idm & P1 & P2 & P3).
  set (checks := RigScrape.probes r clock docker (RigScrape.kernel_tuple (RigScrape.release r))) in *. clearbody checks.
  set (data := dset "gpus" _ _).
  assert (getv "nvml" data = JDict (RigScrape.scrape_nvml r F).1) as En by reflexivity.
  assert (get_list "gpus" data = Ok (JDict <$> cards)) as Eg by (unfold data; destruct cards; reflexivity).
  split; [exact En|exact Eg|].
  assert (getv "host" data = JDict host) as Eh by reflexivity.
  assert (getv "probes" data = JDict checks) as Ep by reflexivity.
  unfold trimmed_scrape. rewrite En, Eh, Ep, Eg, !jor_dict. generalize (RigScrape.scrape_nvml r F).1. intros nvml.
  clearbody data. rewrite !RigFacts.jget_dict. cbn [mbind res_bind].
  assert (∀ k e, getd k JNull checks = JDict e → Scrape.jget_or k (JDict checks) = Ok (JDict e)) as Hor.
  { intros k e E. unfold Scrape.jget_or. rewrite RigFacts.jget_dict, E. cbn [mbind res_bind mret res_ret]. by rewrite jor_dict. }
  rewrite (Hor _ _ P1). cbn [mbind res_bind]. rewrite !RigFacts.jget_dict. cbn [mbind res_bind py_items].
  rewrite (Hor _ _ P2). cbn [mbind res_bind]. rewrite !RigFacts.jget_dict. cbn [mbind res_bind].
  pose proof (picked_ends ["cpu"; "memory"; "disk"; "os"; "boot_id"; "uptime_seconds"; "nvidia_devices"] host) as Hp.
  destruct (picked _ (JDict host)) as [l|]; [|done]. cbn [mbind res_bind].
  pose proof (trimmed_cards_ends cards) as Ht. by destruct (trimmed_cards (JDict <$> cards)).
Qed.

(** ** The machine *)

(** A host: its init process can be looked at and has a root of its own, an
    os-release is there, no container and no virtualisation shows, and the board
    says who made it. *)
Definition real_host (m : RigHost.Machine) : Prop :=
  (∃ init own, RigHost.stat_pair_ m "/proc/1/root/" = Some init ∧ RigHost.stat_pair_ m "/" = Some own ∧ init ≠ own) ∧
  strip (RigHost.read m "/proc/1/root/etc/os-release" 4096) ≠ "" ∧
  (∀ marker, marker ∈ HostReality.NESTED_MARKERS → PyStr.contains marker (strip (RigHost.read m "/proc/1/cgroup" 2000)) = false) ∧
  lower (strip (RigHost.Reality.detect_virt m).1) ∈ ["none"; "unavailable"; ""] ∧
  (strip (RigHost.Reality.dmi_value m "sys_vendor") ≠ "" ∨ strip (RigHost.Reality.dmi_value m "product_name") ≠ "").

Section Honest.
Context {H : Type} (env : Env H) (world : World H) (payloads : Payloads) (settings : Deep.Settings).
Context (r : RigScrape.Rig) (lib : Rig.Library) (str_exn : exn → string).
Context (record : dict) (roster : list dict) (request : ChallengeRequest.t) (seed python_ dir nonce listing : string).

Let draw (h : H) (k : nat) : string := env.(rand_hex) k h.
Let ours : list Exclusivity.OwnContainer := Exclusivity.parse_containers listing.

(** What the runner is told to use ([prepare]). *)
Definition prepared : Prepared :=
  match settings.(challenge_settings).(agent_library) with
  | Some raw => MkPrepared MODE_LIBRARY (hex (sha256 raw)) (dir +:+ "/" +:+ LIBRARY_NAME)
  | None => MkPrepared MODE_REFERENCE "" MODE_REFERENCE
  end.

(** A command that ends well and prints [out]. *)
Definition prints (c : string) (i : option string) (h : H) (out : string) : Prop :=
  ∀ t, ∃ res h', env.(exec) c t i h = (res, h') ∧ ok res = true ∧ res.(stdout) = out.
(** [json.loads] reads back what [json.dumps] wrote. *)
Definition read_back (d : dict) : Prop := env.(loads) (dumps (JDict d)) = Some (JDict d).

(** The cards as the validator reads them from a scrape sent in state [h]. *)
Definition seen_cards (h : H) : list dict := RigFacts.hide (draw h) <$> (RigScrape.scrape_nvml r RigFacts.written).2.

(** The machine runs what it is sent: the payloads and the runner are processes
    that read it, whenever they are started. *)
Record Plays : Prop := {
  plays_upload : ∀ content path bits h, (world.(upload_) content path bits h).1 = Ok tt;
  plays_shell : ∀ h, prints (make_command dir) None h "";
  plays_host : read_back (RigHost.Reality.facts (RigScrape.machine r)) ∧ ∀ h,
    prints (quote python_ +:+ " -I " +:+ quote (dir +:+ "/" +:+ HostReality.PAYLOAD)) None h
      (RigHost.Reality.main (RigScrape.machine r));
  plays_scrape : ∀ h, ∃ clock iv payload now, let F := RigFacts.drawn (draw h) in
    let out := (RigScrape.main r F clock iv str_exn).2 in
    RigScrape.collect r F clock = Ok payload ∧ read_back payload ∧ (slen out <= Scrape.SCAN_BYTES)%nat ∧
    ftrunc (clock 7%nat) = Ok now ∧ (0 <= now < 2 ^ 36)%Z ∧ Aes.block_ok iv ∧
    ∀ p, Scrape.obfuscate (draw h) payloads.(scrape_text) = Ok p →
      prints (quote python_ +:+ " -I -") (Some p.(Scrape.text)) h out;
  plays_runner : ∀ uuid h, ∃ elapsed a, let d := card_answer prepared lib request elapsed in
    prints (command_for python_ dir prepared request uuid) None h (dumps (JDict d) +:+ nls) ∧ read_back d ∧
    ChallengeAnswer.from_payload d = Ok a ∧
    flt settings.(challenge_settings).(challenge_max_ms) (ChallengeAnswer.elapsed_ms a) = false ∧
    (prepared.(mode) = MODE_LIBRARY →
     flt (ChallengeAnswer.gops a) (floors_for (tier_of record)).1 = false ∧
     flt (ChallengeAnswer.gbps a) (floors_for (tier_of record)).2 = false);
  plays_inspector : ∀ key h, fromhex (draw h 0) = Some key → ∃ started collected finished found error out,
    let m := RigScrape.machine r in
    RigHost.Inspector.containers m = Ok (found, error) ∧
    read_back (RigHost.Inspector.result m nonce (hex (hmac_sha256 (of_bytes key) nonce)) found error
                 started collected finished) ∧
    RigHost.Inspector.main m [INSPECTOR; draw h 0; nonce] started collected finished str_exn = Ok (0%Z, out) ∧
    ∀ h', prints (quote python_ +:+ " -I " +:+ quote (dir +:+ "/" +:+ INSPECTOR) +:+ " " +:+ draw h 0 +:+ " " +:+ nonce)
           None h' out;
  plays_docker : ∀ h, prints Exclusivity.LIST_COMMAND None h listing }.

(** What it is: a host and not a container, whose driver has no fatal error, with a
    challenge library that computes the digest. *)
Record Sound : Prop := {
  sound_host : real_host (RigScrape.machine r);
  sound_loader : RigScrape.ld_preload r = "";
  sound_driver : ∃ errors, Specs.nvml_errors (JDict (RigScrape.scrape_nvml r RigFacts.written).1) = Ok errors ∧
    Forall (λ e, e ∉ Specs.FATAL_NVML) errors;
  sound_library : honest prepared lib request }.

(** What the portal says of it: the cards are enrolled, here and nowhere else, and
    what runs on them was placed. *)
Record Enrolled : Prop := {
  enrolled_record : ∃ cards, get_list "gpus" record = Ok cards ∧ is_ok (uuids_of cards) = true;
  enrolled_cards : ∀ h, enrolled_cards_read record (seen_cards h);
  enrolled_roster : is_ok (Duplicates.enrolment_index roster (get_str "id" record)) = true;
  enrolled_here : ∀ h, Forall (λ card,
    ¬ DuplicatesFacts.enrolled_on roster (get_str "id" record) (get_str_or "uuid" "" card)) (seen_cards h);
  enrolled_work : ∃ jobs, Exclusivity.jobs_of record = Ok jobs ∧ ∀ h, Forall (placed_card jobs ours) (seen_cards h) }.

(** The validator: the payload has its constants, the draws differ, Fernet is
    Fernet, and it can compute the digest of the challenge it gives. *)
Record Able : Prop := {
  able_payload : omap Scrape.field_line (split_on nls payloads.(scrape_text)) = RigScrape.CONSTANTS;
  able_draws : ∀ h i j, draw h i = draw h j → i = j;
  able_secret : ∀ h, is_Some (fromhex (draw h 0));
  able_nonce : Scrape.is_ascii nonce = true;
  able_fernet : ∀ key token, world.(fernet) key token = Fernet.Spec.decrypt key token;
  able_digest : verifies settings.(challenge_settings);
  able_mode : settings.(challenge_settings).(agent_library) = None →
    settings.(challenge_settings).(allow_reference_challenge) = true;
  able_request : Digest.C.bad_arguments (Z.to_nat (ChallengeRequest.n request)) (Z.to_nat (ChallengeRequest.rounds request)) = false }.

Context (Hplays : Plays) (Hsound : Sound) (Henrolled : Enrolled) (Hable : Able).
Context (s : Session) (Hpython : python s = python_) (Hnonce : s.(snonce) = nonce).

Lemma ok_clean res : ok res = true → classify res seed = None ∧ transport_failed res = false.
Proof.
  unfold ok, classify, transport_failed. intros [H0%Z.eqb_eq He%String.eqb_eq]%andb_true_iff. by rewrite H0, He.
Qed.
Lemma passed_sent v : passed v = true → transport v = false.
Proof. unfold passed, transport. by destruct (failure v). Qed.

Lemma ends_prints c t out : (∀ h, prints c None h out) → ends (Runner.run env c t) (λ res, ok res = true ∧ res.(stdout) = out).
Proof.
  intros Hp st. destruct (Hp (host st) t) as (res & h' & E & Ho & Hs). unfold Runner.run, run_with. rewrite E. by eexists _, _.
Qed.
Lemma json_at c t d st : prints c None (host st) (dumps (JDict d) +:+ nls) → read_back d →
  ∃ res st', run_json env c t st = (Ok (res, Some d), st') ∧ ok res = true.
Proof.
  intros Hp Hd. destruct (Hp t) as (res & h' & E & Ho & Hs).
  eexists res, _. split; [|exact Ho]. unfold run_json. rewrite M_bindE. unfold Runner.run, run_with. rewrite E.
  by rewrite Hs, (RigHost.printed_object _ _ Hd).
Qed.
Lemma ends_json c t d : (∀ h, prints c None h (dumps (JDict d) +:+ nls)) → read_back d →
  ends (run_json env c t) (λ a, ok a.1 = true ∧ a.2 = Some d).
Proof.
  intros Hp Hd st. destruct (json_at c t d st (Hp _) Hd) as (res & st' & E & Ho). by exists (res, Some d), st'.
Qed.
Lemma uploaded content path bits st : ∃ st', upload world.(upload_) content path bits st = (Ok tt, st').
Proof.
  unfold upload. pose proof (plays_upload Hplays content path bits (host st)) as E.
  destruct (upload_ world content path bits (host st)) as [[[]|e] h]; [by eexists|discriminate E].
Qed.

(** *** The checks, one by one *)

Lemma host_passes t : ends (HostReality.run env (python s) world.(upload_) payloads.(host_source) dir t seed)
  (λ x, passed x.1 = true).
Proof.
  rewrite Hpython. intros st. unfold HostReality.run.
  destruct (uploaded payloads.(host_source) (dir +:+ "/" +:+ HostReality.PAYLOAD) 384 st) as [st1 ->].
  destruct (plays_host Hplays) as [Hread Hp].
  refine (ends_bind _ _ _ _ (ends_json _ t _ Hp Hread) _ st1). intros [res parsed] [Ho E]. cbn in Ho, E. subst parsed.
  assert (∃ x, HostReality.verdict_of res (Some (RigHost.Reality.facts (RigScrape.machine r))) seed = Ok x ∧ passed x.1 = true)
    as (x & E & Hx); [|by apply ends_lift with x].
  unfold HostReality.verdict_of. destruct (ok_clean res Ho) as [-> _].
  rewrite (proj2 (RigHost.reality_judged _ seed) (sound_host Hsound)). cbn [mbind res_bind].
  destruct (RigHost.facts_fields (RigScrape.machine r)) as (_ & _ & _ & _ & _ & Ed).
  unfold HostReality.evidence_of, HostReality.dmi_of. rewrite Ed, jor_dict, !RigFacts.jget_dict. by eexists.
Qed.

Lemma scrape_passes t : ends (Scrape.run env world.(fernet) (python s) s.(address)
    (SessionGrant.port_range s.(grant)) payloads.(scrape_text) t seed)
  (λ x, passed (Scrape.verdict x) = true ∧ ∃ h data spec, Scrape.data x = Some data ∧ Scrape.spec x = Some spec ∧
     Collected data (RigScrape.scrape_nvml r RigFacts.written).1 (seen_cards h)).
Proof.
  rewrite Hpython. intros st. set (h := host st).
  destruct (plays_scrape Hplays h) as (clock & iv & payload & now & Hc & Hread & Hlen & Hnow & Hrange & Hiv & Hp).
  assert (∃ p, Scrape.obfuscate (draw h) payloads.(scrape_text) = Ok p) as [p Eo].
  { pose proof (able_payload Hable) as Hf. unfold Scrape.obfuscate.
    destruct (Scrape.rewrite_lines (draw h) 0 (split_on nls payloads.(scrape_text))) as [ls ps] eqn:E.
    pose proof (RigFacts.rewrite_lines_fields (draw h) _ _ _ _ E) as Hps.
    destruct ps as [|x ps]; [|by eexists]. exfalso. rewrite Hf in Hps. discriminate Hps. }
  destruct (Hp p Eo t) as (res & h' & Ex & Ho & Hs). destruct (ok_clean res Ho) as [_ Htr].
  unfold Scrape.run. unfold mbind at 1, M_bind at 1. cbn [Runner.get]. unfold mbind at 1, M_bind at 1, lift at 1.
  fold h (draw h). rewrite Eo. unfold mbind at 1, M_bind at 1. unfold run_with. fold h. rewrite Ex.
  destruct (RigFacts.scrape_accepted env world.(fernet) s.(address) (SessionGrant.port_range s.(grant)) r clock iv str_exn
    (draw h) payloads.(scrape_text) p res seed payload now) as (x & plain & Ej & Hv & [spec Hspec] & Hplain & Hdata); try done.
  - apply (able_draws Hable).
  - apply (able_payload Hable).
  - apply (sound_loader Hsound).
  - by rewrite Hs.
  - intros token. apply (able_fernet Hable).
  - unfold lift. rewrite Ej. eexists x, _. split; [done|]. split; [unfold passed; by rewrite Hv|].
    eexists h, _, spec. split; [exact Hdata|]. split; [exact Hspec|]. by apply collected with clock.
Qed.

Lemma compared_passes data spec h enrolled :
  Collected data (RigScrape.scrape_nvml r RigFacts.written).1 (seen_cards h) →
  goes (compared (H := H) record roster seed data spec enrolled) (λ _, True).
Proof.
  intros [Hn Hc Ht]. unfold compared.
  destruct (sound_driver Hsound) as (errors & He & Hf).
  destruct (specs_pass data _ _ record seed errors Hn Hc He Hf (enrolled_cards Henrolled h)) as (vs & Es & Ps).
  destruct (duplicates_pass _ _ roster seed (enrolled_roster Henrolled) (enrolled_here Henrolled h)) as (vd & Ed & Pd).
  pose proof (uuids_of_dicts (seen_cards h)) as Hu. destruct (uuids_of (JDict <$> seen_cards h)) as [seen|] eqn:Eu; [|done].
  destruct (trimmed_scrape data) as [trimmed|]; [|done].
  apply goes_note. apply goes_known with trimmed; [done|]. apply goes_note.
  apply (goes_known _ _ _ _ Es), (goes_append _ _ _ Ps), goes_note.
  apply (goes_known _ _ _ _ Hc), (goes_known _ _ _ _ (dicts_of_dicts _)).
  apply (goes_known _ _ _ _ Ed), (goes_append _ _ _ Pd), goes_note.
  apply (goes_known _ _ _ _ Eu). by apply goes_ret.
Qed.

Lemma prepare_ends : ends (prepare world.(upload_) payloads.(runner_source) settings.(challenge_settings) dir) (eq prepared).
Proof.
  intros st. unfold prepare, prepared. destruct (uploaded payloads.(runner_source) (dir +:+ "/" +:+ RUNNER_NAME) 384 st) as [st1 E].
  unfold mbind at 1, M_bind at 1. rewrite E.
  destruct (agent_library (challenge_settings settings)) as [raw|] eqn:El.
  - destruct (uploaded raw (dir +:+ "/" +:+ LIBRARY_NAME) 448 st1) as [st2 E']. unfold mbind, M_bind. rewrite E'. by eexists _, _.
  - rewrite (able_mode Hable El). by eexists _, _.
Qed.

Lemma cards_pass expected method targets :
  expected_digest settings.(challenge_settings) request = Ok (expected, method) → ∀ entries total,
  ends (cards env (python s) settings.(challenge_settings) dir prepared (tier_of record) request expected targets entries [] total)
    (λ x, x.1.2 = []).
Proof.
  rewrite Hpython. intros He. induction targets as [|uuid targets IH]; intros entries total; cbn [cards]; [by apply ends_ret|].
  intros st. destruct (plays_runner Hplays uuid (host st)) as (elapsed & a & Hp & Hread & Ha & Ht & Hf).
  destruct (json_at _ settings.(challenge_settings).(check_timeout) _ st Hp Hread) as (res & st1 & Ex & Ho).
  destruct (ok_clean res Ho) as [_ Htr]. rewrite M_bindE, Ex. cbn [fst snd]. rewrite M_bindE. unfold examine. rewrite Htr.
  destruct (card_passes settings.(challenge_settings) prepared (tier_of record) request lib elapsed uuid
    [("uuid", JStr uuid); ("command_ms", JFloat (fround 1 res.(relapsed_ms)))] a (able_digest Hable) (sound_library Hsound)
    (able_request Hable) Ha Ht Hf) as (expected' & method' & x & He' & Ej & Hx).
  rewrite He in He'. apply Ok_inj in He' as [= <- <-].
  unfold lift. rewrite Ej, Hx. cbn [app].
  destruct (next x); [apply IH|]. by apply ends_ret.
Qed.

Lemma challenge_passes uuids : ends (Challenge.run env (python s) world.(upload_) payloads.(runner_source)
    settings.(challenge_settings) dir request (tier_of record) uuids) (λ v, passed v = true).
Proof.
  unfold Challenge.run. eapply ends_bind; [apply prepare_ends|]. intros ? <-.
  destruct (expected_digest_of _ _ (able_digest Hable) (able_request Hable)) as [method He].
  eapply ends_bind; [apply (ends_lift _ _ (eq _) He eq_refl)|]. intros ? <-. cbn [fst snd].
  eapply ends_bind; [by apply cards_pass with method|]. intros [[entries fails] total] E. cbn in E. subst fails.
  by apply ends_ret.
Qed.

Lemma pids_read m : is_ok (pids_of (JDict <$> RigHost.Inspector.processes m)) = true.
Proof.
  unfold RigHost.Inspector.processes. destruct (RigHost.Inspector.pids m) as [l|]; [|done].
  generalize (take RigHost.Inspector.MAX_PROCESSES l). clear l. intros l. induction l as [|pid l IH]; [done|].
  cbn [omap list_omap]. destruct (RigHost.Inspector.process m pid) as [d|] eqn:E; [|exact IH].
  assert (∃ z, get_int_or "pid" 0 d = Ok z) as [z Hz].
  { unfold RigHost.Inspector.process in E. destruct (String.eqb _ ""); [done|]. apply (inj Some) in E as <-. eexists. apply jor_int. }
  cbn [fmap list_fmap pids_of]. rewrite Hz. cbn [mbind res_bind].
  change (is_ok (others ← pids_of (JDict <$> omap (RigHost.Inspector.process m) l); mret (z :: others)) = true).
  by destruct (pids_of (JDict <$> omap (RigHost.Inspector.process m) l)).
Qed.

Lemma inspect_passes : ends (inspect env world payloads settings s dir seed)
  (λ x, passed x.1 = true ∧ is_ok (alive_of x.2) = true).
Proof.
  intros st. unfold inspect. rewrite Hpython, Hnonce. set (h := host st). destruct (able_secret Hable h) as [key Hkey].
  destruct (plays_inspector Hplays key h Hkey) as (t0 & t1 & t2 & found & error & out & Hc & Hread & Hmain & Hp).
  destruct (uploaded payloads.(inspector_source) (dir +:+ "/" +:+ INSPECTOR) 384 st) as [st1 ->].
  destruct (Hp (host st1) (check_timeout_ settings)) as (res & h' & Ex & Ho & Hs).
  rewrite M_bindE. unfold run_json at 1. rewrite M_bindE. unfold Runner.run, run_with.
  change (rand_hex env 0 h) with (draw h 0). rewrite Ex. cbn [mret M_ret fst snd].
  destruct (RigHost.handshake_accepted env.(loads) (RigScrape.machine r) INSPECTOR (draw h 0) nonce seed t0 t1 t2 str_exn
    key found error res Hkey (able_nonce Hable) Hc Hread) as (v & parsed & E & Hv & _ & Hpr & _); [by rewrite Hs|].
  unfold lift. rewrite E. eexists (v, parsed), _. split; [done|]. split; [cbn; unfold passed; by rewrite Hv|].
  cbn [snd]. destruct parsed as [|kv parsed]; [done|]. unfold alive_of, get_list. rewrite Hpr.
  assert (∀ l : list dict, py_iter (jor (JList (JDict <$> l)) (JList [])) = Ok (JDict <$> l)) as -> by (by intros []).
  cbn [mbind res_bind]. pose proof (pids_read (RigScrape.machine r)) as Hl.
  by destruct (pids_of (JDict <$> RigHost.Inspector.processes (RigScrape.machine r))).
Qed.

(** *** The checks together *)

Lemma inspected_passes data h :
  Collected data (RigScrape.scrape_nvml r RigFacts.written).1 (seen_cards h) →
  goes (inspected_part env world payloads settings s record dir seed (Some data)) (λ _, True).
Proof.
  intros [_ Hc _]. unfold inspected_part. destruct (enrolled_work Henrolled) as (jobs & Hj & Hw).
  eapply goes_bind; [apply goes_on_host, inspect_passes|]. intros [v inspected] [Hv Ha]. cbn [fst snd] in Hv, Ha.
  apply (goes_append _ _ _ Hv), goes_note. rewrite (passed_sent v Hv).
  eapply goes_bind with (Q := λ x, x = (ours, "")).
  { apply goes_on_host. unfold Exclusivity.own_containers. eapply ends_bind; [apply ends_prints, (plays_docker Hplays)|].
    intros res [Ho Hs]. apply ends_ret. by rewrite Ho, Hs. }
  intros ? ->. destruct (alive_of inspected) as [alive|] eqn:Eal; [|done]. apply (goes_known _ _ _ _ eq_refl).
  apply goes_known with (seen_cards h); [change (default [] (Some data)) with data; rewrite Hc; apply dicts_of_dicts|].
  apply (goes_known _ _ _ _ Hj).
  destruct (exclusivity_pass (seen_cards h) jobs ours seed alive (Hw h)) as (ve & Ee & Pe).
  apply (goes_known _ _ _ _ Ee). change (with_listing_error "" ve) with ve. apply (goes_append _ _ _ Pe), goes_note.
  eapply goes_bind with (Q := λ _, True); [apply goes_quiet; intros j; by eexists _, _|]. intros all _.
  destruct (worst all); [by apply goes_ret|].
  eapply goes_bind; [apply goes_on_host, ends_sweep|]. intros sweep _.
  apply goes_quiet. intros j. by eexists _, _.
Qed.

Lemma challenged_passes data h uuids :
  Collected data (RigScrape.scrape_nvml r RigFacts.written).1 (seen_cards h) →
  goes (challenged_part env world payloads settings s record request dir seed (Some data) uuids) (λ _, True).
Proof.
  intros Hc. unfold challenged_part. eapply goes_bind; [apply goes_on_host, challenge_passes|]. intros v Hv.
  apply (goes_append _ _ _ Hv), goes_note. rewrite (passed_sent v Hv). by apply inspected_passes with h.
Qed.

Lemma checks_pass : goes (checks env world payloads settings s record roster request dir seed) (λ _, True).
Proof.
  unfold checks. eapply goes_bind; [apply goes_on_host, host_passes|]. intros [v host] Hv. cbn [fst] in Hv.
  apply (goes_append _ _ _ Hv), goes_note. rewrite (passed_sent v Hv). unfold scraped_part.
  eapply goes_bind; [apply goes_on_host, scrape_passes|]. intros scraped (Hs & h & data & spec & Ed & Es & Hc).
  apply (goes_append _ _ _ Hs). destruct (enrolled_record Henrolled) as (cards & Eg & Hu).
  apply (goes_known _ _ _ _ Eg). destruct (uuids_of cards) as [enrolled|] eqn:Eu; [|done]. apply (goes_known _ _ _ _ eq_refl).
  rewrite Ed, Es. eapply goes_bind; [by apply compared_passes with h|]. intros uuids _. by apply challenged_passes with h.
Qed.
(** The session: its directory is made, the checks pass, the directory is removed. *)
Lemma session_passes : dir = session_dir_of s request → failure (attestation_verdict seed s) = None →
  goes (in_session env world payloads settings s record roster request seed) (λ _, True).
Proof.
  intros Hdir Ha. unfold in_session.
  assert (passed (attestation_verdict seed s) = true) as Hp by (unfold passed; by rewrite Ha).
  apply (goes_append _ _ _ Hp), goes_note. rewrite <- Hdir.
  eapply goes_bind; [apply goes_on_host, ends_prints, (plays_shell Hplays)|]. intros made [Ho _].
  destruct (ok_clean made Ho) as [-> _]. eapply goes_finally; [apply checks_pass|].
  eapply goes_bind; [apply goes_on_host, ends_run_with|]. intros res _. by apply goes_ret with (Q := λ _, True).
Qed.
End Honest.

(** ** The pass *)

Section Pass.
Context {H : Type} (env : Env H) (out : Outer H) (world : World H) (payloads : Payloads) (settings : Deep.Settings).
Context (around : Api.Around) (rt : Api.Runtime) (text : dict → string).
Context (r : RigScrape.Rig) (lib : Rig.Library) (str_exn : exn → string).
Context (record : dict) (roster : list dict) (min_version : string) (request : ChallengeRequest.t) (seed listing : string).
Context (n : Net H).

(** The network after the agent was asked for its version, and what the session is
    opened with. *)
Definition asked : Net H := (version env out record n).2.
Definition own_python : string := sor (Grants.python_path around.(Api.machine)) "python3".
Definition own_dir : string :=
  rstrip_set "/" (Grants.root_dir around.(Api.machine)) +:+ "/mt-" +:+ hex016 (ChallengeRequest.seed request).
Definition own_nonce : string := Handshake.own_nonce env asked.

(** The agent tells a version that is not below the minimum. *)
Definition current_agent : Prop :=
  ∃ a, (version env out record n).1 = Ok (Answered a) ∧ get_str_or "version" "" a ≠ "" ∧
    Version.stale (get_str_or "version" "" a) min_version = false.

Lemma honest_pipeline :
  current_agent → Handshake.sound_validator env out asked → Handshake.ready_agent env out around rt asked →
  Handshake.plain_link env out around rt text record asked →
  Plays env world payloads settings r lib str_exn record request own_python own_dir own_nonce listing →
  Sound settings r lib request own_dir → Enrolled env r record roster listing →
  Able env world payloads settings request own_nonce →
  ∃ vs d n', pipeline env out world payloads settings record roster min_version request seed n = (Ok (vs, d), n') ∧
    Forall (λ v, passed v = true) vs.
Proof.
  intros (a & Ea & Hne & Hst) Hs Hr Hl Hp Hsd He Ha. unfold pipeline. rewrite NM_bindE.
  destruct (version env out record n) as [called n1] eqn:Ev. cbn [fst] in Ea. subst called.
  assert (asked = n1) as Easked by (unfold asked; by rewrite Ev).
  unfold Version.fetch, Version.check. apply String.eqb_neq in Hne. rewrite Hne, Hst. cbn [failure pass].
  set (v := pass "version" _). set (d := [("agent_version", _)]).
  destruct (Handshake.session_opens env out around rt text record asked settings.(ssh_timeout)
    (session_body env world payloads settings record roster request seed [v] d) Hs Hr Hl)
    as (s & m & Hn & _ & _ & Hpy & Hroot & _ & _ & Hatt & Hw).
  assert (goes (in_session env world payloads settings s record roster request seed) (λ _, True)) as Hg.
  { eapply session_passes; [exact Hp|exact Hsd|exact He|exact Ha|..].
    - unfold python, own_python. by rewrite Hpy.
    - exact Hn.
    - unfold own_dir, session_dir_of. by rewrite Hroot.
    - apply Hatt. }
  destruct (Hg (MkJob m.(machine) [v] d)) as ([] & j' & l & Ej & Hv & Hall & _).
  rewrite NM_bindE. rewrite Easked in Hw.
  destruct (with_session env out record (ssh_timeout settings) _ n1) as [o n2] eqn:Eo. cbn [fst] in Hw. subst o.
  unfold session_body. rewrite Ej. cbn [fst]. eexists _, _, n2. split; [reflexivity|].
  rewrite Hv. cbn [verdicts app]. by constructor.
Qed.

(** C5. An honest machine passes.  An agent that knows the validator, on a machine that
    runs the payloads and the runner it is sent on its own readings, that is a host
    and not a container, whose cards are those enrolled for it and for no other, with
    nothing on them but placed work, and that answers the challenge in time, passes
    the deep pass: from the question for the version to the last check nothing
    fails or raises, all nine checks are made, and the outcome reported is a pass. *)
Theorem honest_machine_passes :
  current_agent → Handshake.sound_validator env out asked → Handshake.ready_agent env out around rt asked →
  Handshake.plain_link env out around rt text record asked →
  Plays env world payloads settings r lib str_exn record request own_python own_dir own_nonce listing →
  Sound settings r lib request own_dir → Enrolled env r record roster listing →
  Able env world payloads settings request own_nonce →
  ∃ vs d, (pipeline env out world payloads settings record roster min_version request seed n).1 = Ok (vs, d) ∧
    check <$> vs = ["version"; "attestation"; "host reality"; "scrape"; "specs"; "duplicates"; "challenge";
                    "inspector"; "exclusivity"] ∧
    ∀ now o, o.(overdicts) = vs → outcome_passed (finish now o) = true.
Proof.
  intros Hc Hs Hr Hl Hp Hsd He Ha. destruct (honest_pipeline Hc Hs Hr Hl Hp Hsd He Ha) as (vs & d & n' & E & Hall).
  exists vs, d. split; [by rewrite E|]. split.
  - destruct (pipeline_ok _ _ _ _ _ _ _ _ _ _ _ _ _ _ E Hall)
      as (s & g & key & nonce & port & answer & v0 & l & -> & Hv0 & _ & _ & _ & _ & Hat & Hproved).
    cbn [fmap list_fmap]. rewrite Hv0, Hat. do 2 f_equal. apply (proved_names _ _ _ _ _ _ _ _ _ _ _ Hproved).
  - intros now o <-. unfold outcome_passed, finish. cbn [ofailure].
    assert (worst o.(overdicts) = None) as ->; [|done]. apply worst_None. exact Hall.
Qed.
End Pass.

(** ** A machine that passes *)

Definition sample_nvml : RigScrape.Lib :=
  RigScrape.MkLib (λ _ _, Some 0%Z)
    (λ name _, if String.eqb name "nvmlDeviceGetCount_v2" then [1%Z]
               else if String.eqb name "nvmlDeviceGetMemoryInfo" then [24564 * 1048576; 0; 1048576]%Z else [0; 0; 0]%Z)
    (λ name _, if String.eqb name "nvmlDeviceGetName" then "NVIDIA GeForce RTX 4090"
               else if String.eqb name "nvmlDeviceGetUUID" then "GPU-1" else "550") (λ _ _, []) (λ _, "").
Definition sample_host : RigHost.Machine :=
  RigHost.MkMachine (λ path, if String.eqb path "/proc/1/root/etc/os-release" then Some "ID=ubuntu"
                             else if String.eqb path "/proc/1/root/sys/class/dmi/id/sys_vendor" then Some "Dell"
                             else if String.eqb path "/proc/7/comm" then Some "python3"
                             else if String.eqb path "/usr/lib64/libnvidia-ml.so.1" then Some "ELF" else None)
    (λ _, false) (λ path, if String.eqb path "/" then Some (8, 2)%Z else if String.eqb path "/proc/1/root/" then Some (8, 3)%Z else None)
    (λ path, if String.eqb path "/proc" then Some ["self"; "7"] else None) (λ _ _, RigHost.Refused "") 0 7 "3.12" (λ _, None).
Definition sample_rig : RigScrape.Rig :=
  RigScrape.MkRig sample_host (λ path, String.eqb path "/usr/lib64/libnvidia-ml.so.1") (λ _, false) [] (λ _, inl sample_nvml)
    (λ _, "") (λ _, None) (λ p, p) (λ _, inr "") None None "6.8.0" "x86_64" "rig" (λ _, None) "" (λ _, "").

(** The draws of the validator, and what the machine prints. *)
Definition sample_secret : string := String.concat "" (repeat "ab" 32).
Definition sample_draw (k : nat) : string := sample_secret +:+ match k with O => "" | _ => "x" +:+ pretty k end.
Definition sample_clock (n : nat) : pyfloat := f0.
Definition sample_payload : dict :=
  match RigScrape.collect sample_rig (RigFacts.drawn sample_draw) sample_clock with Ok d => d | Raise _ => [] end.
Definition sample_request : ChallengeRequest.t := ChallengeRequest.Mk 1 2 8 2 64 1.
Definition sample_dir : string := "/tmp/mt-" +:+ hex016 1.
Definition sample_chosen : Prepared := MkPrepared MODE_LIBRARY (hex (sha256 "so")) (sample_dir +:+ "/" +:+ LIBRARY_NAME).
Definition sample_answer : dict := card_answer sample_chosen Challenge.sample_library sample_request (fz 5).
Definition sample_inspected : dict :=
  RigHost.Inspector.result sample_host sample_secret
    (hex (hmac_sha256 (of_bytes (default [] (fromhex sample_secret))) sample_secret)) [] "docker ps: " f0 f0 f0.
Definition sample_facts : dict := RigHost.Reality.facts sample_host.
Definition sample_loads (text : string) : option json :=
  List.find (λ j, String.eqb text (dumps j))
    [JDict sample_payload; JDict sample_answer; JDict sample_inspected; JDict sample_facts].

Definition sample_output (c : string) : string :=
  if String.eqb c ("python3 -I " +:+ sample_dir +:+ "/host_reality.py") then dumps (JDict sample_facts) +:+ nls
  else if String.eqb c "python3 -I -" then
    (RigScrape.main sample_rig (RigFacts.drawn sample_draw) sample_clock (repeat 0%Z 16) (λ _, "")).2
  else if startswith "cd " c then dumps (JDict sample_answer) +:+ nls
  else if String.eqb c ("python3 -I " +:+ sample_dir +:+ "/inspector.py " +:+ sample_secret +:+ " " +:+ sample_secret) then
    dumps (JDict sample_inspected) +:+ nls
  else "".
Definition sample_env : Env nat :=
  MkEnv _ (λ c _ _ h, (MkResult c 0 (sample_output c) "" f0 "", h)) (λ _ h, h) (λ _, f0) (λ _, fz 1000) (λ _, [])
    (λ k _, sample_draw k) (λ _ _, "") sample_loads.
Definition sample_world : World nat :=
  MkWorld (λ _ h, (Ok [], h)) (λ _ h, (Ok [], h)) (λ _ _ h, (Ok [], h)) (λ _ _ _ h, (Ok tt, h)) Fernet.Spec.decrypt
    (λ _ _, 1%Z) (λ _, 0%Z) (λ _, "now") (λ _, None).
Definition sample_payloads : Payloads := MkPayloads "" RigFacts.sample_text "" "".
Definition sample_settings : Deep.Settings :=
  MkDeep 0 (fz 60) (Challenge.MkSettings None (Some "so") "" false (fz 15000) (fz 60)).
Definition sample_record : dict :=
  [("id", JStr "rig-1"); ("state", JStr "active"); ("tier", JStr "entry");
   ("gpus", JList [JDict [("uuid", JStr "GPU-1"); ("model", JStr "NVIDIA GeForce RTX 4090")]]);
   ("connection", JDict [("address", JStr "10.0.0.7"); ("api_port", JInt 8080)])].

(** The agent tells its version first, then opens the session. *)
Definition sample_out : Outer nat :=
  MkOuter "5Hot" Handshake.here_sign
    (λ r h, match h with
            | O => (Response 200 false "{}" (Some (JDict [("version", JStr "1.2.0")])), 1%nat)
            | _ => (Handshake.answer_of (λ _, "{}")
                      (Api.serve Handshake.here_around Api.SessionOpen (Handshake.arrives r) Api.sample_runtime).1, h)
            end)
    (λ _, "ssh-ed25519 BBBB mt-validator") (λ _ _ _ _ _ h, (Presented (Some "ssh-ed25519 AAAA"), h)).
Definition sample_net : Net nat := MkNet (MkSt 0%nat [] (MkInflight [] []) (MkRecords [] []) [] []) f0 [] 0.

Lemma sample_draw_inj i j : sample_draw i = sample_draw j → i = j.
Proof.
  unfold sample_draw. intros E%sapp_inj_l. destruct i as [|i], j as [|j]; try done. apply sapp_inj_l in E. by apply (inj pretty).
Qed.

Lemma sample_plays :
  Plays sample_env sample_world sample_payloads sample_settings sample_rig Challenge.sample_library (λ _, "") sample_record
    sample_request "python3" sample_dir sample_secret "".
Proof.
  split.
  - done.
  - intros h t. eexists _, _. split; [reflexivity|]. split; [reflexivity|]. vm_compute. reflexivity.
  - split; [vm_compute; reflexivity|]. intros h t. eexists _, _. split; [reflexivity|]. split; [reflexivity|]. vm_compute. reflexivity.
  - intros h. exists sample_clock, (repeat 0%Z 16), sample_payload, 0%Z. split; [vm_compute; reflexivity|].
    split; [vm_compute; reflexivity|]. split; [apply Nat.leb_le; vm_compute; reflexivity|]. split; [reflexivity|].
    split; [lia|]. split; [split; [reflexivity|]; repeat constructor; vm_compute; congruence|].
    intros p _ t. eexists _, _. split; [reflexivity|]. split; [reflexivity|]. vm_compute. reflexivity.
  - intros uuid h.
    destruct (ChallengeAnswer.from_payload sample_answer) as [a|] eqn:Ea; [|vm_compute in Ea; discriminate].
    exists (fz 5), a. split.
    { intros t. eexists _, _. split; [reflexivity|]. split; reflexivity. }
    split; [vm_compute; reflexivity|]. split; [exact Ea|]. revert Ea. vm_compute. intros [= <-]. by repeat split.
  - intros key h Hk. exists f0, f0, f0, [], "docker ps: ", (dumps (JDict sample_inspected) +:+ nls).
    assert (key = default [] (fromhex sample_secret)) as ->.
    { change (rand_hex sample_env 0 h) with (sample_draw 0) in Hk. revert Hk. vm_compute. by intros [= <-]. }
    split; [reflexivity|]. split; [vm_compute; reflexivity|]. split; [vm_compute; reflexivity|].
    intros h' t. eexists _, _. split; [reflexivity|]. split; [reflexivity|]. vm_compute. reflexivity.
  - intros h t. eexists _, _. split; [reflexivity|]. split; [reflexivity|]. vm_compute. reflexivity.
Qed.

Lemma sample_sound : Sound sample_settings sample_rig Challenge.sample_library sample_request sample_dir.
Proof.
  split.
  - split; [exists (8, 3)%Z, (8, 2)%Z; by split_and!|]. split; [vm_compute; discriminate|].
    split; [intros marker Hm; revert marker Hm; apply Forall_forall; by repeat constructor|].
    split; [vm_compute; set_solver|]. left. vm_compute. discriminate.
  - reflexivity.
  - exists []. split; [vm_compute; reflexivity|constructor].
  - split; [by exists Digest.sample_device; split; [exact Digest.sample_device_order|]|].
    split; [by eexists _, _|]. left. split; reflexivity.
Qed.

Lemma sample_able : Able sample_env sample_world sample_payloads sample_settings sample_request sample_secret.
Proof.
  split; [vm_compute; reflexivity|intros h; apply sample_draw_inj|intros h; eexists; vm_compute; reflexivity|vm_compute; reflexivity
    |done|by left|done|done].
Qed.

Lemma sample_enrolled : Enrolled sample_env sample_rig sample_record [sample_record] "".
Proof.
  split.
  - eexists. split; reflexivity.
  - intros h. eexists. split; [reflexivity|]. cbn zeta. intros u Hu.
    assert (u = "GPU-1") as -> by (by apply list_elem_of_singleton in Hu). split; [|vm_compute; reflexivity].
    eexists _, _, (fz 24564), _. split; [vm_compute; reflexivity|]. split; [vm_compute; reflexivity|].
    split; [intros f Hf; revert f Hf; apply Forall_forall; by repeat constructor|].
    split; [vm_compute; reflexivity|]. split; [vm_compute; reflexivity|]. split; [vm_compute; reflexivity|].
    split; [vm_compute; by intros|]. split; [|split; [vm_compute; set_solver|vm_compute; reflexivity]].
    intros mig c [= <-]. vm_compute. by intros [= <-].
  - reflexivity.
  - intros h. constructor; [|constructor]. intros (rig & cards & card & ->%list_elem_of_singleton & Hc & _). vm_compute in Hc. discriminate.
  - exists []. split; [reflexivity|]. intros h. constructor; [|constructor]. exists []. split; [vm_compute; reflexivity|constructor].
Qed.

Lemma honest_machine_passes_witness :
  ∃ vs d, (pipeline sample_env sample_out sample_world sample_payloads sample_settings sample_record [sample_record]
             "1.1.0" sample_request "1" sample_net).1 = Ok (vs, d) ∧ List.length vs = 9%nat.
Proof.
  destruct (honest_machine_passes sample_env sample_out sample_world sample_payloads sample_settings
    Handshake.here_around Api.sample_runtime (λ _, "{}") sample_rig Challenge.sample_library (λ _, "") sample_record
    [sample_record] "1.1.0" sample_request "1" "" sample_net) as (vs & d & E & Hn & _).
  - eexists. split; [vm_compute; reflexivity|]. split; [discriminate|reflexivity].
  - split.
    + split; [reflexivity|discriminate].
    + split; [vm_compute; reflexivity|]. split; [vm_compute; lia|]. exists "ssh-ed25519 BBBB". vm_compute. reflexivity.
    + intros msg. destruct msg as [|c [|d msg]]; cbn; lia.
    + split; reflexivity.
  - split.
    + apply list_elem_of_here.
    + intros msg. apply bool_decide_eq_true_2. reflexivity.
    + vm_compute. reflexivity.
    + vm_compute. reflexivity.
    + split; reflexivity.
    + exists [], "570", "12.8", []. split; reflexivity.
    + split_and!; discriminate.
    + vm_compute. discriminate.
  - split.
    + eexists. vm_compute. reflexivity.
    + exists (SessionOpen.payload (Handshake.own_request Handshake.here_env Handshake.here_keys Handshake.here_net)).
      split; [reflexivity|].
      assert (Handshake.own_request sample_env sample_out (asked sample_env sample_out sample_record sample_net) =
              Handshake.own_request Handshake.here_env Handshake.here_keys Handshake.here_net) as -> by (vm_compute; reflexivity).
      apply Permutation_refl.
    + apply Models.strict_checks.
    + intros r. reflexivity.
    + intros address port user key timeout h _. exists (Some "ssh-ed25519 AAAA"), h. split; [reflexivity|vm_compute; reflexivity].
  - exact sample_plays.
  - exact sample_sound.
  - exact sample_enrolled.
  - exact sample_able.
  - exists vs, d. split; [exact E|]. rewrite <- (length_fmap check), Hn. reflexivity.
Defined.
