(* ===== verification/Host.v ===== *)
(** * What the agent says of its machine (agent/hardware/host.py, agent/hardware/nvml.py, agent/hardware/spec.py)

    The agent describes its machine to the pool's server: the processor, the
    memory, the disk, the cards, the isolation.  What it reads is a field of
    [Host] or of [Nvml]; the results of docker and of the quota probe are kept for
    a while in two caches. *)

From Stdlib Require Import Ascii String QArith.
From S2P Require Import Prelude.
From S2P Require Import PyStr.
From S2P Require Import PyText.
From S2P Require Import PyFloat.
From S2P Require Import PyJson.
From S2P Require Import Attest.
From S2P Require Import Runner.
From S2P Require Import Weights.
From S2P Require Import Ip.
From S2P Require Import Config.
From S2P Require Import RigHost.
From S2P Require Import RigScrape.
Local Open Scope string_scope.
Local Open Scope list_scope.

(** ** host.py *)

(** The readings of the machine: the text of a file ([None]: [OSError]), whether
    a path exists, the device and inode of a path, the path of a command, a
    command run with a limit of seconds. *)
Record Host : Type := MkHost {
  text_file : string → option string;
  there : string → bool;
  inode : string → option (Z * Z);
  which : string → option string;
  sub : list string → Z → answered;
  platform_release : string; platform_machine : string; platform_system : string;
  platform_processor : string;
  gethostname : string;
  cpu_count : option Z; os_cpu_count : Z; memory_total : option Z;
  resolve : string → option string;
  is_dir : string → bool;
  listdir_ : string → option (list string);
  block_device : string → option (Z * Z);
  disk_total : string → option Z;
  own_address : option string;
  parse_json : string → option json }.

Definition HOST_ROOT : string := "/proc/1/root".
Definition DMI_FIELDS : list string :=
  ["sys_vendor"; "product_name"; "product_version"; "board_vendor"; "board_name"; "bios_version"].
Definition NESTED_MARKERS : list string :=
  ["/docker/"; "/lxc/"; "/containerd/"; "/kubepods"; "/podman/"; "/machine.slice/libpod"].

Section Host.
Context (m : Host).

Definition read_text (path : string) (limit : nat) : string :=
  match m.(text_file) path with Some text => strip (stake limit text) | None => "" end.

Definition host_path (relative : string) : string :=
  let rest := "/" +:+ lstrip_set "/" relative in
  if m.(there) (HOST_ROOT +:+ rest) then HOST_ROOT +:+ rest else rest.

Definition init_root_is_host : bool :=
  match m.(inode) HOST_ROOT, m.(inode) "/" with
  | Some a, Some b => negb (bool_decide (a = b))
  | _, _ => false
  end.

Definition init_cgroup : string := read_text "/proc/1/cgroup" 4096.
Definition cgroup_is_nested (text : string) : bool := existsb (λ marker, PyStr.contains marker text) NESTED_MARKERS.

Definition detect_virt_container : string :=
  match m.(which) "systemd-detect-virt" with
  | None => "unknown"
  | Some binary =>
      match m.(sub) [binary; "--container"] 5 with
      | Refused _ => "unknown"
      | Done _ out _ => sor (strip out) "none"
      end
  end.

Definition dmi : dict :=
  (λ name, (name, JStr (read_text (host_path "/sys/class/dmi/id" +:+ "/" +:+ name) 256))) <$> DMI_FIELDS.

Definition kernel_release : string :=
  sor (read_text (host_path "/proc/sys/kernel/osrelease") 128) m.(platform_release).

(** [re.match(r"(\d+)\.(\d+)", text)] *)
Definition kernel_version_tuple (release : string) : Z * Z :=
  let '(major, rest) := take_while is_digit (sor release kernel_release) in
  match rest with
  | String "." rest =>
      let '(minor, _) := take_while is_digit rest in
      match parse_int major, parse_int minor with
      | Some a, Some b => (a, b)
      | _, _ => (0, 0)%Z
      end
  | _ => (0, 0)%Z
  end.

Definition set_release (fields : list (string * string)) (line : string) : list (string * string) :=
  match partition_first "=" line with
  | Some (key, value) =>
      dset (strip key) (rstrip_set (String dquote "") (lstrip_set (String dquote "") (strip value))) fields
  | None => fields
  end.
Definition os_release : list (string * string) :=
  foldl set_release [] (splitlines (read_text (host_path "/etc/os-release") 8192)).

Definition machine_id : string := read_text (host_path "/etc/machine-id") 64.

Definition summary : dict :=
  let release := kernel_release in
  let tuple := kernel_version_tuple release in
  [("init_root_is_host", JBool init_root_is_host); ("init_cgroup", JStr (stake 512 init_cgroup));
   ("cgroup_nested", JBool (cgroup_is_nested init_cgroup)); ("virt_container", JStr detect_virt_container);
   ("dmi", JDict dmi); ("kernel", JStr release); ("kernel_tuple", JList [JInt tuple.1; JInt tuple.2]);
   ("arch", JStr m.(platform_machine)); ("os", JStr (default "" (dget "PRETTY_NAME" os_release)));
   ("machine_id", JStr machine_id)].

(** ** spec.py *)

(** [_run]: the code, and the two outputs joined. *)
Definition run (args : list string) (timeout : Z) : Z * string :=
  match m.(sub) args timeout with
  | Done code out err => (code, out +:+ err)
  | Refused text => ((-1)%Z, text)
  end.

Definition model_name (line : string) : option string :=
  if startswith "model name" (lower line)
  then match partition_first ":" line with Some (_, name) => Some (strip name) | None => None end
  else None.

(** The first item of a list on which [f] gives something. *)
Definition first_some {A B} (f : A → option B) (l : list A) : option B := head (omap f l).

Definition cpu_model : string :=
  match first_some model_name (splitlines (read_text (host_path "/proc/cpuinfo") (Z.to_nat 65536))) with
  | Some name => name
  | None =>
      match (match m.(which) "lscpu" with
             | Some binary =>
                 let '(code, out) := run [binary] 5 in
                 if (code =? 0)%Z then first_some model_name (splitlines out) else None
             | None => None
             end) with
      | Some name => name
      | None => m.(platform_processor)
      end
  end.

Definition cpu_cores : Z := default m.(os_cpu_count) m.(cpu_count).

Definition memory_kilobytes (line : string) : option Z :=
  if startswith "MemTotal:" line then head (digit_runs None line) else None.
Definition ram_mb : Z :=
  match first_some memory_kilobytes (splitlines (read_text (host_path "/proc/meminfo") 4096)) with
  | Some kilobytes => (kilobytes / 1024)%Z
  | None => match m.(memory_total) with Some total => (total / (1024 * 1024))%Z | None => 0%Z end
  end.

(** [path.parent] of an absolute path *)
Definition parent (path : string) : string := dirname path.

(** [_rotational_flag]: the depth is five levels at most. *)
Fixpoint rotational_at (levels : nat) (node : string) : option bool :=
  match levels with
  | O => None
  | S levels' =>
      match m.(resolve) node with
      | None => None
      | Some resolved =>
          let slaves := resolved +:+ "/slaves" in
          let children := if m.(is_dir) slaves then default [] (m.(listdir_) slaves) else [] in
          let known := omap (λ child, rotational_at levels' (slaves +:+ "/" +:+ child)) children in
          match known with
          | _ :: _ => Some (existsb id known)
          | [] =>
              first_some (λ candidate,
                let text := read_text candidate 8 in
                if bool_decide (text ∈ ["0"; "1"]) then Some (String.eqb text "1") else None)
                [resolved +:+ "/queue/rotational"; parent resolved +:+ "/queue/rotational"]
          end
      end
  end.

Definition rotational (path : string) : option bool :=
  match m.(block_device) path with
  | None => None
  | Some (major, minor) =>
      let node := "/sys/dev/block/" +:+ str_of_Z major +:+ ":" +:+ str_of_Z minor in
      if m.(there) node then rotational_at 5 node else None
  end.

Definition disk_root (info : dict) : string :=
  let candidate := host_path (py_str (jor (getd "DockerRootDir" (JStr "") info) (JStr "/var/lib/docker"))) in
  if m.(there) candidate then candidate else "/".

(** The gigabytes, and whether the disk is known not to be a spinning one. *)
Definition disk (info : dict) : res (json * bool) :=
  let root := disk_root info in
  match (match m.(disk_total) root with
         | Some total => Some (root, total)
         | None => match m.(disk_total) "/" with Some total => Some ("/", total) | None => None end
         end) with
  | None => Ok (JFloat f0, false)
  | Some (root, total) =>
      size ← gigabytes total;
      mret (size, bool_decide (rotational root = Some false))
  end.

Definition default_address : string := default "" m.(own_address).

(** [IDMAPPED.findall(text)], the letters of either case: what sysbox says, in order. *)
Definition idmapped_words : string := lower mounts_words.
Definition idmapped_here (s : string) : option bool :=
  if startswith idmapped_words s then
    let rest := lstrip_p is_space (sdrop (slen idmapped_words) s) in
    if startswith "yes" rest then Some true else if startswith "no" rest then Some false else None
  else None.
Fixpoint idmapped_in (s : string) : list bool :=
  (match idmapped_here s with Some b => [b] | None => [] end) ++
  (match s with "" => [] | String _ s' => idmapped_in s' end).
Definition found_in (text : string) : option bool := last (idmapped_in (lower text)).

Definition SYSBOX_LOG : string := "/var/log/sysbox-mgr.log".
Definition journal_calls (binary : string) : list (list string) :=
  let unit_ := ["-u"; "sysbox-mgr"; "-b"; "--no-pager"; "-o"; "cat"] in
  [binary :: unit_; binary :: "-D" :: host_path "/var/log/journal" :: unit_].

Definition idmapped_mounts : option bool * string :=
  let said args := let '(code, out) := run args 10 in if (code =? 0)%Z then found_in out else None in
  match (match m.(which) "journalctl" with
         | Some binary => first_some said (journal_calls binary)
         | None => None
         end) with
  | Some b => (Some b, "journal")
  | None =>
      match found_in (read_text (host_path SYSBOX_LOG) (Z.to_nat (1024 * 1024))) with
      | Some b => (Some b, "sysbox-mgr.log")
      | None => (None, "unknown")
      end
  end.

Definition pair_le (a b : Z * Z) : bool := ((a.1 <? b.1) || ((a.1 =? b.1) && (a.2 <=? b.2)))%Z.

Definition isolation (info : dict) : dict :=
  let sysbox := match jor (getv "Runtimes" info) (JDict []) with
                | JDict runtimes => dmem "sysbox-runc" runtimes
                | _ => false
                end in
  let '(idmapped, source) :=
    match idmapped_mounts with
    | (Some b, source) => (b, source)
    | (None, _) => (sysbox && pair_le (5, 19)%Z (kernel_version_tuple kernel_release), "kernel-version")
    end in
  [("sysbox", JBool sysbox); ("idmapped", JBool idmapped); ("idmapped_source", JStr source)].

Definition hostname : string := sor (read_text (host_path "/etc/hostname") 256) m.(gethostname).
End Host.

(** ** The two caches of spec.py *)

Definition QUOTA_TTL_OK : pyfloat := fz 3600.
Definition QUOTA_TTL_FAILED : pyfloat := fz 600.
Definition DOCKER_INFO_TTL : pyfloat := fz 60.
Definition QUOTA_ARGS : list string := ["docker"; "run"; "--rm"; "--storage-opt"; "size=1g"; "alpine"; "true"].
Definition INFO_ARGS : list string := ["docker"; "info"; "--format"; "{{json .}}"].

Record Caches : Type := MkCaches {
  quota : option bool; quota_at : pyfloat; quota_detail : string;
  info : dict; info_at : pyfloat }.
Definition no_caches : Caches := MkCaches None f0 "" [] f0.

(** [docker_info]: what docker says, and whether it was asked. *)
Definition docker_info (m : Host) (now : pyfloat) (c : Caches) : dict * bool * Caches :=
  if negb (match c.(info) with [] => true | _ => false end) && flt (fsub now c.(info_at)) DOCKER_INFO_TTL
  then (c.(info), false, c)
  else match m.(which) "docker" with
       | None => ([], false, c)
       | Some _ =>
           let '(code, out) := run m INFO_ARGS 20 in
           if negb (code =? 0)%Z then ([], true, c)
           else match List.rev (splitlines (strip out)) with
                | line :: _ =>
                    match m.(parse_json) line with
                    | Some (JDict parsed) =>
                        (parsed, true, MkCaches c.(quota) c.(quota_at) c.(quota_detail) parsed now)
                    | _ => ([], true, c)
                    end
                | [] => ([], true, c)
                end
       end.

Definition set_quota (value : bool) (now : pyfloat) (detail : string) (c : Caches) : Caches :=
  MkCaches (Some value) now detail c.(info) c.(info_at).

(** [storage_quota]: the answer, and whether the container was run. *)
Definition storage_quota (m : Host) (now : pyfloat) (c : Caches) : bool * bool * Caches :=
  let age := fsub now c.(quota_at) in
  let known := match c.(quota) with
               | Some true => flt age QUOTA_TTL_OK
               | Some false => flt age QUOTA_TTL_FAILED
               | None => false
               end in
  if known then (bool_decide (c.(quota) = Some true), false, c)
  else match m.(which) "docker" with
       | None => (false, false, set_quota false now "docker cli missing" c)
       | Some _ =>
           let '(code, out) := run m QUOTA_ARGS 30 in
           ((code =? 0)%Z, true, set_quota (code =? 0)%Z now (slast 300 (strip out)) c)
       end.

Definition storage_quota_detail (c : Caches) : string := c.(quota_detail).

(** ** nvml.py *)

(** An exception of the library: an [ImportError], or one with its number ([value],
    when it has one) and the name of its class. *)
Record failure : Type := MkFailure { is_import : bool; value : option Z; type_name : string }.

Inductive asked (A : Type) : Type := Given (a : A) | Failed (e : failure).
Arguments Given {A}. Arguments Failed {A}.
#[export] Instance asked_ret : MRet asked := λ A a, Given a.
#[export] Instance asked_bind : MBind asked := λ A B f x, match x with Given a => f a | Failed e => Failed e end.

(** The processes of a card: each a process id and the memory used, if any. *)
Record Card : Type := MkCard {
  c_uuid : asked string; c_name : asked string; c_memory : asked (Z * Z);
  c_serial : asked string; c_pci : asked (option string); c_mig : asked (option Z); c_virtualization : asked Z;
  c_rates : asked Z; c_power : asked Z; c_temperature : asked Z;
  c_compute : asked (list (Z * option Z)); c_graphics : asked (list (Z * option Z)) }.

(** The library: how its start goes, the versions, the number of cards, a card by
    its index, and the names of its errors in the order of [dir]. *)
Record Nvml : Type := MkNvml {
  initialised : asked unit; installed : bool; error_names : list (string * Z);
  driver_version : asked string; cuda_v2 : asked Z; cuda_v1 : asked Z;
  device_count : asked Z; device : Z → asked Card }.

Definition MIB : Z := 1024 * 1024.
Definition LIBRARY_MISSING : string := "NVML_ERROR_LIBRARY_NOT_FOUND".
Definition VIRTUALIZATION : list (Z * string) :=
  [(0, "none"); (1, "passthrough"); (2, "vgpu"); (3, "host_vgpu"); (4, "host_vsga")]%Z.

Definition upper_ascii (s : string) : string := SessionProto.upper s.

Section Nvml.
Context (lib : Nvml).

Definition error_name (e : failure) : string :=
  if e.(is_import) then LIBRARY_MISSING
  else match e.(value) with
       | None => "NVML_ERROR_" +:+ upper_ascii e.(type_name)
       | Some v =>
           if negb lib.(installed) then LIBRARY_MISSING
           else match List.find (λ nv, (nv.2 =? v)%Z) lib.(error_names) with
                | Some (name, _) => name
                | None => "NVML_ERROR_" +:+ str_of_Z v
                end
       end.

Definition optional {A} (x : asked A) : option A := match x with Given a => Some a | Failed _ => None end.

Definition cuda_text (raw : Z) : string := str_of_Z (raw / 1000) +:+ "." +:+ str_of_Z (raw mod 1000 / 10).
Definition driver_of : string * string :=
  (default "" (optional lib.(driver_version)),
   match optional lib.(cuda_v2) with
   | Some raw => cuda_text raw
   | None => default "" (cuda_text <$> optional lib.(cuda_v1))
   end).

(** [c_mig]: the mode in force, [None] for an answer that is false. *)
Definition mig_mode (c : Card) : string :=
  match optional c.(c_mig) with
  | Some (Some mode) => if (mode =? 1)%Z then "enabled" else "disabled"
  | _ => ""
  end.
Definition virtualization_of (c : Card) : string :=
  match optional c.(c_virtualization) with
  | Some mode => default ("mode_" +:+ str_of_Z mode) (dget mode VIRTUALIZATION)
  | None => ""
  end.

Definition card (index : Z) (driver cuda : string) : asked dict :=
  c ← lib.(device) index;
  memory ← c.(c_memory);
  uuid ← c.(c_uuid);
  name ← c.(c_name);
  mret [("uuid", JStr uuid); ("model", JStr name); ("memory_mb", JInt (memory.1 / MIB)); ("index", JInt index);
        ("serial", JStr (default "" (optional c.(c_serial))));
        ("pci_bus_id", JStr (match optional c.(c_pci) with Some (Some id) => id | _ => "" end));
        ("mig_mode", JStr (mig_mode c)); ("virtualization", JStr (virtualization_of c));
        ("driver", JStr driver); ("cuda", JStr cuda)].

(** The cards one after the other, up to the first that fails. *)
Fixpoint each_card (one : Z → asked dict) (n : nat) (index : Z) : list dict * option failure :=
  match n with
  | O => ([], None)
  | S n' =>
      match one index with
      | Failed e => ([], Some e)
      | Given c => let '(cs, e) := each_card one n' (index + 1) in (c :: cs, e)
      end
  end.

Definition over_cards (one : Z → asked dict) : list dict * option failure :=
  match lib.(device_count) with
  | Failed e => ([], Some e)
  | Given n => each_card one (Z.to_nat n) 0
  end.

Definition error_text (e : option failure) : string := match e with Some e => error_name e | None => "" end.

(** The cards, the driver, the version of CUDA and the error. *)
Definition inventory : list dict * string * string * string :=
  match lib.(initialised) with
  | Failed e => ([], "", "", error_name e)
  | Given _ =>
      let '(driver, cuda) := driver_of in
      let '(cards, e) := over_cards (λ i, card i driver cuda) in
      (cards, driver, cuda, error_text e)
  end.

(** [_processes]: a process seen twice keeps the kind it was seen with first. *)
Definition note_process (kind : string) (seen : list (Z * dict)) (p : Z * option Z) : list (Z * dict) :=
  let '(pid, used) := p in
  let entry := default [("pid", JInt pid); ("memory_mb", JInt 0); ("kind", JStr kind)] (dget pid seen) in
  let entry := match used with
               | Some u => if (0 <? u)%Z then dset "memory_mb" (JInt (u / MIB)) entry else entry
               | None => entry
               end in
  dset pid entry seen.
Definition processes_of (c : Card) : list dict :=
  let seen := foldl (note_process "compute") [] (default [] (optional c.(c_compute))) in
  (foldl (note_process "graphics") seen (default [] (optional c.(c_graphics)))).*2.

Definition percent (used total : Z) : res pyfloat :=
  if (total =? 0)%Z then Ok f0
  else u ← float_of_int used; t ← float_of_int total; p ← fdiv (fmul (fz 100) u) t; mret (fround 1 p).
Definition watts_of (milliwatts : Z) : res pyfloat :=
  mw ← float_of_int milliwatts; w ← fdiv mw (fz 1000); mret (fround 1 w).

(** The readings of a card in use; the floats of numbers out of their range raise
    and count as a failure without a number. *)
Definition as_asked {A} (r : res A) : asked A :=
  match r with Ok a => Given a | Raise _ => Failed (MkFailure false None "OverflowError") end.
Definition card_utilisation (index : Z) : asked dict :=
  c ← lib.(device) index;
  memory ← c.(c_memory);
  let total := (memory.1 / MIB)%Z in
  let used := (memory.2 / MIB)%Z in
  uuid ← c.(c_uuid);
  share ← as_asked (percent used total);
  power ← (match optional c.(c_power) with
           | Some mw => w ← as_asked (watts_of mw); mret (JFloat w)
           | None => mret JNull
           end);
  mret [("uuid", JStr uuid); ("index", JInt index); ("gpu_percent", JInt (default 0%Z (optional c.(c_rates))));
        ("memory_percent", JFloat share); ("memory_used_mb", JInt used); ("memory_total_mb", JInt total);
        ("power_w", power);
        ("temperature_c", match optional c.(c_temperature) with Some t => JInt t | None => JNull end);
        ("processes", JList (JDict <$> processes_of c))].

(** What [psutil], [shutil] and [os] say of the load: the share of the processor,
    the memory used and in all, the disk used and in all, the load averages. *)
Record Load : Type := MkLoad {
  cpu_percent : json; ram : option (Z * Z); disk_usage_ : option (Z * Z); averages : list pyfloat }.

Definition host_load (l : Load) : res dict :=
  let view := match l.(ram) with
              | Some (used, total) =>
                  [("cpu_percent", l.(cpu_percent)); ("ram_used_mb", JInt (used / MIB)); ("ram_total_mb", JInt (total / MIB))]
              | None => [("cpu_percent", JNull); ("ram_used_mb", JNull); ("ram_total_mb", JNull)]
              end in
  disk ← (match l.(disk_usage_) with
          | Some (used, total) => u ← gigabytes used; t ← gigabytes total; mret (u, t)
          | None => mret (JNull, JNull)
          end);
  mret (view ++ [("disk_used_gb", disk.1); ("disk_total_gb", disk.2);
                 ("load", JList ((λ x, JFloat (fround 2 x)) <$> l.(averages)))]).

Definition utilisation (m : Host) (l : Load) (now : pyfloat) : res dict :=
  let '(cards, error) := match lib.(initialised) with
                         | Failed e => ([], error_name e)
                         | Given _ => let '(cards, e) := over_cards card_utilisation in (cards, error_text e)
                         end in
  load ← host_load l;
  mret ([("gpus", JList (JDict <$> cards)); ("nvml_error", JStr error); ("at", JFloat (fround 3 now));
         ("hostname", JStr m.(gethostname))] ++ load).

Definition found_on (index : Z) : asked (list dict) :=
  c ← lib.(device) index;
  uuid ← c.(c_uuid);
  mret ((λ p, ("gpu_uuid", JStr uuid) :: ("index", JInt index) :: p) <$> processes_of c).
Fixpoint found_processes (n : nat) (index : Z) : list dict * option failure :=
  match n with
  | O => ([], None)
  | S n' =>
      match found_on index with
      | Failed e => ([], Some e)
      | Given ps => let '(rest, e) := found_processes n' (index + 1) in (ps ++ rest, e)
      end
  end.
Definition processes : dict :=
  let '(found, error) :=
    match lib.(initialised), lib.(device_count) with
    | Failed e, _ | Given _, Failed e => ([], error_name e)
    | Given _, Given n => let '(found, e) := found_processes (Z.to_nat n) 0 in (found, error_text e)
    end in
  [("processes", JList (JDict <$> found)); ("nvml_error", JStr error)].
End Nvml.

(** ** The description of the machine ([spec.build]) *)

Definition CARD_FIELDS : list string :=
  ["uuid"; "model"; "memory_mb"; "index"; "serial"; "pci_bus_id"; "mig_mode"; "virtualization"].

Definition build (m : Host) (lib : Nvml) (settings : Config.Agent.Settings) (version : string) (now : pyfloat)
    (c : Caches) : res dict * Caches :=
  let '(info, _, c) := docker_info m now c in
  let '(cards, driver, cuda, error) := inventory lib in
  let release := os_release m in
  let address := sor (Agent.public_address settings) (default_address m) in
  match disk m info with
  | Raise e => (Raise e, c)
  | Ok (size, ssd) =>
      let '(quota, _, c) := storage_quota m now c in
      (Ok [("gpus", JList ((λ card, JDict ((λ field, (field, getv field card)) <$> CARD_FIELDS)) <$> cards));
           ("cpu_model", JStr (cpu_model m)); ("cpu_cores", JInt (cpu_cores m)); ("ram_mb", JInt (ram_mb m));
           ("disk_gb", size); ("disk_ssd", JBool ssd);
           ("os", JStr (sor (lower (default "" (dget "ID" release))) (lower m.(platform_system))));
           ("os_version", JStr (default "" (dget "VERSION_ID" release)));
           ("kernel", JStr (kernel_release m)); ("arch", JStr m.(platform_machine));
           ("driver", JStr driver); ("cuda", JStr cuda); ("isolation", JDict (isolation m info));
           ("storage_quota", JBool quota); ("hostname", JStr (hostname m));
           ("port_range", JStr (Agent.port_range settings)); ("address", JStr address);
           ("public_ipv4", JBool (is_public_to_agent address));
           ("docker", JStr (py_str (jor (getd "ServerVersion" (JStr "") info) (JStr ""))));
           ("storage_driver", JStr (py_str (jor (getd "Driver" (JStr "") info) (JStr ""))));
           ("nvml_error", JStr error); ("agent_version", JStr version); ("host", JDict (summary m))], c)
  end.

(** ** Facts *)

(** The items before the first failure, and that failure. *)
Lemma each_card_spec (one : Z → asked dict) n : ∀ index cs e,
  each_card one n index = (cs, e) →
  (∀ i c, cs !! i = Some c → one (index + Z.of_nat i)%Z = Given c) ∧
  match e with
  | None => List.length cs = n
  | Some f => (List.length cs < n)%nat ∧ one (index + Z.of_nat (List.length cs))%Z = Failed f
  end.
Proof.
  induction n as [|n IH]; intros index cs e; cbn [each_card]; [by intros [= <- <-]|].
  destruct (one index) as [c|f] eqn:E.
  - destruct (each_card one n (index + 1)) as [rest e'] eqn:Er. intros [= <- <-].
    destruct (IH _ _ _ Er) as [Hin Hend]. split.
    + intros [|i] x; cbn; [intros [= <-]; by rewrite Z.add_0_r|]. intros Hi.
      rewrite <- (Hin i x Hi). f_equal. lia.
    + destruct e' as [f|]; cbn [List.length]; [|lia]. destruct Hend as [Hlt Hf]. split; [lia|].
      rewrite <- Hf. f_equal. lia.
  - intros [= <- <-]. split; [done|]. cbn. rewrite Z.add_0_r. split; [lia|done].
Qed.

(** The inventory lists, in order, the cards before the first one the driver does
    not answer for, and names its error: with no error every card the driver
    counts is there, and a driver that does not start gives no card. *)
Lemma inventory_exact lib :
  let '(cards, driver, cuda, error) := inventory lib in
  match lib.(initialised), lib.(device_count) with
  | Failed e, _ => cards = [] ∧ driver = "" ∧ error = error_name lib e
  | Given _, Failed e => cards = [] ∧ error = error_name lib e
  | Given _, Given n =>
      (∀ i c, cards !! i = Some c → card lib (Z.of_nat i) driver cuda = Given c) ∧
      ((error = "" ∧ List.length cards = Z.to_nat n) ∨
       ∃ e, card lib (Z.of_nat (List.length cards)) driver cuda = Failed e ∧
            (List.length cards < Z.to_nat n)%nat ∧ error = error_name lib e)
  end.
Proof.
  unfold inventory. destruct (initialised lib) as [[]|e]; [|done].
  destruct (driver_of lib) as [driver cuda]. unfold over_cards.
  destruct (device_count lib) as [n|e]; [|done].
  destruct (each_card _ (Z.to_nat n) 0) as [cs e] eqn:E. apply each_card_spec in E as [Hin Hend].
  split; [intros i c Hi; by apply (Hin i c) in Hi|].
  destruct e as [e|]; cbn [error_text].
  - right. exists e. destruct Hend as [Hlt He]. by split_and!.
  - by left.
Qed.

(** An answer about quotas is kept for its time to live: while it lasts nothing
    is run, whatever the machine would say. *)
Lemma quota_kept m m' now now' c :
  let '(answer, ran, c1) := storage_quota m now c in
  c1.(quota_at) = now → flt (fsub now' now) (if answer : bool then QUOTA_TTL_OK else QUOTA_TTL_FAILED) = true →
  c1.(quota) = Some answer → storage_quota m' now' c1 = (answer, false, c1).
Proof.
  destruct (storage_quota m now c) as [[answer ran] c1]. intros Hat Hage Hq.
  unfold storage_quota. rewrite Hat, Hq. destruct answer; by rewrite Hage.
Qed.

(** The last line counts, with letters of either case. *)
Example sample_idmapped :
  found_in "x ID-mapped mounts supported by kernel: no ... id-mapped mounts supported by kernel:  YES" = Some true.
Proof. reflexivity. Qed.

Definition sample_card (uuid : asked string) : Card :=
  MkCard uuid (Given "NVIDIA L4") (Given (24 * 1024 * MIB, 0)%Z) (Failed (MkFailure false (Some 3%Z) "NVMLError"))
    (Given (Some "0000:01:00.0")) (Given None) (Given 0%Z) (Given 0%Z) (Given 30000%Z) (Given 40%Z)
    (Given [(7%Z, Some (512 * MIB)%Z)]) (Given [(7%Z, None)]).
Definition sample_lib : Nvml :=
  MkNvml (Given tt) true [("NVML_ERROR_GPU_IS_LOST", 15%Z); ("NVML_ERROR_NOT_SUPPORTED", 3%Z)] (Given "570.1")
    (Given 12080%Z) (Given 0%Z) (Given 2%Z)
    (λ i, Given (sample_card (if (i =? 0)%Z then Given "GPU-0" else Failed (MkFailure false (Some 15%Z) "NVMLError")))).
Example sample_inventory :
  let '(cards, driver, cuda, error) := inventory sample_lib in
  List.length cards = 1%nat ∧ driver = "570.1" ∧ cuda = "12.8" ∧ error = "NVML_ERROR_GPU_IS_LOST".
Proof. vm_compute. by split_and!. Qed.
