(* ===== verification/Evidence.v ===== *)
(** * Evidence of the hardware (agent/hardware/attestation.py, agent/hardware/challenge.py)

    What the attestation of [Grants] asks the machine for: the quote of the TDX
    device, which a local socket gives, and the evidence of the NVIDIA kit; and
    the native libraries of the challenge, which are loaded once and kept. *)

From Stdlib Require Import Ascii String QArith.
From S2P Require Import Prelude.
From S2P Require Import PyStr.
From S2P Require Import PyFloat.
From S2P Require Import PyJson.
From S2P Require Import PyDump.
From S2P Require Import Runner.
From S2P Require Import Sha256.
From S2P Require Import SessionProto.
From S2P Require Import Attest.
From S2P Require Import Challenge.
From S2P Require Import Handlers.
From S2P Require Import Host.
From S2P Require Grants.
Local Open Scope string_scope.
Local Open Scope list_scope.

(** ** The quote *)

Definition BOOT_ID : string := "/proc/sys/kernel/random/boot_id".
Definition QUOTE_PATHS : list string := ["/GetQuote"; "/prpc/Tappd.TdxQuote?json"].

(** The socket of the device: whether its path exists, and what a POST with a body
    gives, a status and the text read of at most a megabyte; [None] is an
    exception.  [parse] is [json.loads]. *)
Record Device : Type := MkDevice {
  exists_ : bool;
  post : string → string → option (Z * string);
  parse : string → option json }.

Definition quote_body (data : list Z) : string :=
  "{" +:+ quoted "report_data" +:+ ": " +:+ quoted (hex (of_bytes data)) +:+ ", " +:+
  quoted "hash_algorithm" +:+ ": " +:+ quoted "raw" +:+ "}".

Definition quote_request (device : Device) (path body : string) : option string :=
  match device.(post) path body with
  | None => None
  | Some (status, raw) =>
      if negb (status =? 200)%Z then Some "" else
      match device.(parse) raw with
      | None => None
      | Some (JDict parsed) => Some (match getd "quote" (JStr "") parsed with JStr quote => quote | _ => "" end)
      | Some _ => Some ""
      end
  end.

Fixpoint first_quote (device : Device) (body : string) (paths : list string) : string :=
  match paths with
  | [] => ""
  | path :: paths' =>
      let quote := default "" (quote_request device path body) in
      if negb (String.eqb quote "") then quote else first_quote device body paths'
  end.
Definition tdx_quote (device : Device) (data : list Z) : string :=
  if device.(exists_) then first_quote device (quote_body data) QUOTE_PATHS else "".

(** The kit: [None] when it is not installed or fails; else the evidence it gives
    for a name and a nonce, as JSON. *)
Definition gpu_evidence (kit : string → string → option json) (name nonce : string) : dict :=
  match kit name nonce with
  | Some evidence => [("nonce", JStr nonce); ("evidence", evidence)]
  | None => []
  end.

(** The attestation's machine, from what it reads. *)
Definition boot_id (m : Host) : string := read_text m BOOT_ID 64.
Definition machine_of (m : Host) (device : Device) (kit : string → string → option json)
    (version : string) (inventory : list dict * string * string) (host_key_file : option string)
    (user : string) (port : Z) (python root ports : string) : Grants.Machine :=
  Grants.MkMachine version (hostname m) (machine_id m) (boot_id m) inventory (tdx_quote device)
    (gpu_evidence kit (hostname m)) host_key_file user port python root ports.

(** ** The native libraries *)

Module Libraries.

(** A library that was loaded: what it computes ([Rig.Library]; its build and
    version may raise) and the code that releasing it gives. *)
Record CDLL : Type := MkCDLL {
  rig : Rig.Library;
  build_ : option string; version_ : option Z; release_ : option Z }.

Definition MISSING_CODE : Z := (-5)%Z.

(** The files of the machine: which exist, and what loading one gives ([None]:
    [OSError], or [AttributeError] of a missing function). *)
Record Disk : Type := MkDisk { is_file : string → bool; dlopen : string → option CDLL }.

(** [_loaded] *)
Definition t : Type := list (string * CDLL).

Definition load (disk : Disk) (path : string) (loaded : t) : option CDLL * t :=
  match dget path loaded with
  | Some library => (Some library, loaded)
  | None =>
      if negb (disk.(is_file) path) then (None, loaded) else
      match disk.(dlopen) path with
      | None => (None, loaded)
      | Some library => (Some library, dset path library loaded)
      end
  end.
Definition installed (disk : Disk) (path : string) (loaded : t) : bool * t :=
  let '(library, loaded) := load disk path loaded in (bool_decide (is_Some library), loaded).

Definition release (library : option CDLL) : Z :=
  match library with None => 0%Z | Some library => default MISSING_CODE library.(release_) end.
Definition release_all (loaded : t) : list Z := map (λ x, release (Some x.2)) loaded.

Definition describe (disk : Disk) (path : string) (loaded : t) : dict * t :=
  let '(library, loaded) := load disk path loaded in
  (match library with
   | None => [("installed", JBool false); ("path", JStr path)]
   | Some library =>
       [("installed", JBool true); ("path", JStr path); ("build", JStr (default "" library.(build_)));
        ("version", JInt (default 0%Z library.(version_)))]
   end, loaded).

(** [run] on a path: the library is loaded first, and released at the end of a
    run that got the lock. *)
Definition run (disk : Disk) (path : string) (busy : bool) (request : Messages.ChallengeRequest.t)
    (elapsed_ms : pyfloat) (loaded : t) : Messages.ChallengeAnswer.t * list Z * t :=
  let '(library, loaded) := load disk path loaded in
  (challenge_run (rig <$> library) busy request elapsed_ms,
   match library with Some _ => if busy then [] else [release library] | None => [] end, loaded).
End Libraries.

(** ** Facts *)

(** A quote an attestation carries was given by the device, with status 200, for
    the very report data of the attestation, which bind its nonce and host key. *)
Lemma quote_bound m device kit version inventory file user port python root ports nonce host_key now a :
  Grants.build (machine_of m device kit version inventory file user port python root ports)
    nonce host_key now = Ok (Some a) →
  Attestation.tdx_quote a ≠ "" →
  let data := report_data (Attestation.host_key a) (Attestation.nonce a) in
  Attestation.report_data_hex a = hex (of_bytes data) ∧ device.(exists_) = true ∧
  ∃ path raw parsed, path ∈ QUOTE_PATHS ∧ device.(post) path (quote_body data) = Some (200%Z, raw) ∧
    device.(parse) raw = Some (JDict parsed) ∧ getd "quote" (JStr "") parsed = JStr (Attestation.tdx_quote a).
Proof.
  unfold Grants.build. destruct (negb (well_formed_nonce _)); [done|].
  cbn [Grants.inventory machine_of]. destruct inventory as [[gpus driver] cuda].
  destruct (mapM _ gpus) as [cards|] eqn:E; cbn [mbind res_bind mret res_ret]; [|discriminate].
  intros [= <-] Hq. cbn [Attestation.tdx_quote Attestation.host_key Attestation.nonce Attestation.report_data_hex
    Grants.tdx_quote machine_of] in *. split; [done|].
  match goal with |- context [quote_body ?d] => set (data := d) in * end. clearbody data.
  unfold tdx_quote in *. destruct (exists_ device); [|done]. split; [done|].
  induction QUOTE_PATHS as [|path paths IH]; [done|]. cbn [first_quote] in *.
  destruct (quote_request device path (quote_body data)) as [q|] eqn:Er; cbn [default from_option] in *; unfold id in *.
  2:{ destruct (IH Hq) as (p & raw & parsed & Hin & H). exists p, raw, parsed. split; [by apply list_elem_of_further|exact H]. }
  destruct (String.eqb_spec q "") as [->|Hne]; cbn [negb] in *.
  { destruct (IH Hq) as (p & raw & parsed & Hin & H). exists p, raw, parsed. split; [by apply list_elem_of_further|exact H]. }
  unfold quote_request in Er. destruct (post device path _) as [[status raw]|] eqn:Ep; [|done].
  destruct (Z.eqb_spec status 200) as [->|]; cbn [negb] in Er; [|congruence].
  destruct (parse device raw) as [[| | | | | |parsed]|] eqn:Eparse; try congruence.
  exists path, raw, parsed. split; [apply list_elem_of_here|]. split_and!; [done|done|].
  revert Er. destruct (getd "quote" (JStr "") parsed); congruence.
Qed.

Module LibraryFacts.
Import Libraries.

(** A path that was loaded gives the same library from then on, whatever becomes
    of the file. *)
Lemma load_kept disk disk' path loaded library :
  (load disk path loaded).1 = Some library →
  load disk' path (load disk path loaded).2 = (Some library, (load disk path loaded).2).
Proof.
  unfold load. destruct (dget path loaded) as [l|] eqn:E.
  - intros [= ->]. cbn. by rewrite E.
  - destruct (is_file disk path); cbn [negb]; [|done]. destruct (dlopen disk path) as [l|]; [|done].
    intros [= ->]. cbn [snd]. by rewrite dget_dset.
Qed.

(** A run that got the lock releases the library; the others release nothing. *)
Lemma run_releases disk path busy request elapsed loaded :
  let '(_, codes, _) := run disk path busy request elapsed loaded in
  (length codes = if bool_decide (is_Some (load disk path loaded).1) && negb busy then 1 else 0)%nat.
Proof. unfold run. destruct (load disk path loaded) as [[l|] d]; cbn; by destruct busy. Qed.
End LibraryFacts.

(** ** Example: the first path of a device is unknown, the second answers *)

Definition sample_device : Device :=
  MkDevice true (λ path _, if String.eqb path "/GetQuote" then Some (404%Z, "") else Some (200%Z, "{}"))
    (λ _, Some (JDict [("quote", JStr "0400")])).
Example second_path : tdx_quote sample_device [1; 2; 3]%Z = "0400".
Proof. reflexivity. Qed.
Example no_device : tdx_quote (MkDevice false (λ _ _, None) (λ _, None)) [1]%Z = "".
Proof. reflexivity. Qed.
