(* ===== verification/Agent.v ===== *)
(** * The agent's own loop (agent/main.py, agent/control/client.py, agent/control/identity.py)

    The agent keeps a key, registers its machine with the pool's server under it,
    refreshes the set of validators and sweeps the sessions.  The server and the
    key are parameters; the description of the machine is [Host.build]. *)

From Stdlib Require Import Ascii String QArith.
From S2P Require Import Prelude.
From S2P Require Import PyStr.
From S2P Require Import PyFloat.
From S2P Require Import PyJson.
From S2P Require Import PyDump.
From S2P Require Import Messages.
From S2P Require Import SessionProto.
From S2P Require Import Sha256.
From S2P Require Import Runner.
From S2P Require Import Attest.
From S2P Require Import Auth.
From S2P Require Import SshKeys.
From S2P Require Import Client.
From S2P Require Import Config.
From S2P Require Import Portal.
From S2P Require Import Ip.
From S2P Require Import Host.
From S2P Require Grants.
From S2P Require Aes.
From S2P Require Fernet.
Local Open Scope string_scope.
Local Open Scope list_scope.

Definition AGENTS : string := "/v1/compute/agents".
Definition VALIDATORS_PATH : string := "/v1/pool/validators".
Definition RELEASE_PATH : string := "/v1/pool/agent-release".
Definition HEADER_AGENT : string := "x-mt-agent".
Definition SPEC_TIMEOUT : pyfloat := fz 120.
Definition RETRY_VALIDATORS_SECONDS : Z := 30.

(** ** The key (AgentKey)

    An Ed25519 key pair: the private bytes decide the public ones and signatures. *)
Record Ed25519 : Type := MkEd25519 {
  public_of : list Z → list Z; signed : list Z → string → list Z; urandom : list Z }.

(** [load_or_create]: the private bytes and the text the file then holds; a
    text that is not the hex of 32 bytes raises. *)
Definition load_or_create (ed : Ed25519) (file : option string) : res (list Z) * option string :=
  match strip (default "" file) with
  | "" => (Ok ed.(urandom), Some (hex (of_bytes ed.(urandom))))
  | text =>
      (match fromhex text with
       | Some bytes => if (List.length bytes =? 32)%nat then Ok bytes else Raise ValueError
       | None => Raise ValueError
       end, file)
  end.

Section Key.
Context (ed : Ed25519) (private : list Z).
Definition private_hex : string := hex (of_bytes private).
Definition public_hex : string := hex (of_bytes (ed.(public_of) private)).
Definition sign_hex (message : string) : string := hex (of_bytes (ed.(signed) private message)).
Definition stamp_text (now : pyfloat) : string := format_fixed 3 now.
Definition key_headers (now : pyfloat) (method path body : string) : list (string * string) :=
  [(HEADER_AGENT, public_hex); (HEADER_TIMESTAMP, stamp_text now);
   (HEADER_SIGNATURE, sign_hex (signing_bytes method path (stamp_text now) body))].
Definition hello (now : pyfloat) (path : string) : Hello.t :=
  Hello.Mk public_hex (stamp_text now) (sign_hex (signing_bytes "WS" path (stamp_text now) "")).
End Key.

(** ** The client (ServerClient) *)

(** [encode]: what [json.dumps] cannot write is written as its text; of parsed
    data there is nothing of the kind. *)
Definition encode_body (body : dict) : string := canonical_json body.

(** A value, a [ServerError], or another exception with its text. *)
Inductive call (A : Type) : Type :=
  | Answer (a : A)
  | ServerError (status : Z) (detail : string)
  | Exception (text : string).
Arguments Answer {A}. Arguments ServerError {A}. Arguments Exception {A}.

(** [str(exc)] of a call that raised. *)
Definition text_of_call {A} (c : call A) : string :=
  match c with
  | Answer _ => ""
  | ServerError status detail => str_of_Z status +:+ ": " +:+ detail
  | Exception text => text
  end.

(** What surrounds the agent: the server, the clock, the exceptions of Python as
    texts, the machine and its library, whether the description came in time. *)
Record Site (H : Type) : Type := MkSite {
  ask : query → H → response * H;
  clock : H → pyfloat;
  rest : pyfloat → H → H;
  describe : exn → string;
  host_now : H → Host; nvml_now : H → Nvml; described_in_time : H → bool }.
Arguments MkSite {H}. Arguments ask {H}. Arguments clock {H}. Arguments rest {H}. Arguments describe {H}.
Arguments host_now {H}. Arguments nvml_now {H}. Arguments described_in_time {H}.

(** The state of the runtime: what it asked, its identifier, the file of the last
    registration, the validators and their file, the codes shown on the console,
    the events, the sessions and the caches of the description. *)
Record Agent (H : Type) : Type := MkAgent {
  site : H; queries : list query; rig_id : string; rig_file : option dict;
  validators : ValidatorSet; validators_file : document; codes : list string;
  grants : Grants.t; caches : Caches }.
Arguments MkAgent {H}. Arguments site {H}. Arguments queries {H}. Arguments rig_id {H}. Arguments rig_file {H}.
Arguments validators {H}. Arguments validators_file {H}. Arguments codes {H}. Arguments grants {H}. Arguments caches {H}.

Section Agent.
Context {H : Type} (s : Site H) (ed : Ed25519) (private : list Z) (settings : Config.Agent.Settings)
  (version : string).

Definition AM (A : Type) : Type := Agent H → call A * Agent H.
#[local] Instance AM_ret : MRet AM := λ A a g, (Answer a, g).
#[local] Instance AM_bind : MBind AM := λ A B f m g,
  match m g with
  | (Answer a, g) => f a g
  | (ServerError status detail, g) => (ServerError status detail, g)
  | (Exception text, g) => (Exception text, g)
  end.
Definition fails {A} (c : call A) : AM A := λ g, (c, g).
Definition raises {A} (r : res A) : AM A := λ g,
  (match r with Ok a => Answer a | Raise e => Exception (s.(describe) e) end, g).

Definition set_site (h : H) (g : Agent H) : Agent H :=
  MkAgent h g.(queries) g.(rig_id) g.(rig_file) g.(validators) g.(validators_file) g.(codes) g.(grants) g.(caches).
Definition set_grants (st : Grants.t) (g : Agent H) : Agent H :=
  MkAgent g.(site) g.(queries) g.(rig_id) g.(rig_file) g.(validators) g.(validators_file) g.(codes) st g.(caches).
Definition event (kind : string) (fields : dict) (g : Agent H) : Agent H :=
  set_grants (Grants.write_event kind fields g.(grants)) g.

Definition exchange (q : query) : AM response := λ g,
  let '(answer, h) := s.(ask) q g.(site) in
  let g := set_site h g in
  (Answer answer, MkAgent g.(site) (g.(queries) ++ [q]) g.(rig_id) g.(rig_file) g.(validators) g.(validators_file)
                    g.(codes) g.(grants) g.(caches)).

(** [answer.json() if answer.content else {}], or the error of a refusal *)
Definition judge_signed (answer : response) : AM json :=
  match answer with
  | HttpError text => fails (Exception text)
  | Response status empty text parsed =>
      if (400 <=? status)%Z then fails (ServerError status (server_detail text parsed))
      else if empty then mret (JDict [])
      else match parsed with Some j => mret j | None => raises (Raise ValueError) end
  end.
Definition judge_public (answer : response) : AM json :=
  match answer with
  | HttpError text => fails (Exception text)
  | Response status empty text parsed =>
      if (400 <=? status)%Z then fails (ServerError status (stake 500 text))
      else match parsed with Some j => mret j | None => raises (Raise ValueError) end
  end.

Definition signed_call (method path : string) (body : option dict) : AM json := λ g,
  let raw := match body with Some b => encode_body b | None => "" end in
  let headers := [("accept", "application/json")]
                 ++ (if body then [("content-type", "application/json")] else [])
                 ++ key_headers ed private (s.(clock) g.(site)) method path raw in
  (exchange (MkQuery method path [] headers (encode_body <$> body)) ≫= judge_signed) g.
Definition public_call (path : string) : AM json :=
  exchange (MkQuery "GET" path [] [("accept", "application/json")] None) ≫= judge_public.

Definition as_dict (m : AM json) : AM dict := j ← m; raises (py_dict j).
Definition post_register (payload : dict) : AM dict :=
  as_dict (signed_call "POST" (AGENTS +:+ "/register") (Some payload)).
Definition get_claim (rig : string) : AM dict := as_dict (signed_call "GET" (AGENTS +:+ "/" +:+ rig +:+ "/claim") None).
Definition decide_claim (rig hotkey : string) (approved : bool) : AM dict :=
  as_dict (signed_call "POST" (AGENTS +:+ "/" +:+ rig +:+ "/claim/decision")
             (Some [("hotkey", JStr hotkey); ("approved", JBool approved)])).
Definition report_state (rig : string) (payload : dict) : AM dict :=
  as_dict (signed_call "POST" (AGENTS +:+ "/" +:+ rig +:+ "/state") (Some payload)).
Definition found_list (key : string) (answer : json) : AM (list json) :=
  match answer with JDict d => raises (py_iter (getd key (JList []) d)) | _ => mret [] end.
Definition poll_commands (rig : string) : AM (list dict) :=
  answer ← signed_call "GET" (AGENTS +:+ "/" +:+ rig +:+ "/commands") None;
  found ← found_list "commands" answer;
  mret (dict_rigs found).
Definition command_result (rig : string) (command_id : Z) (ok : bool) (result : dict) : AM dict :=
  as_dict (signed_call "POST" (AGENTS +:+ "/" +:+ rig +:+ "/commands/" +:+ str_of_Z command_id +:+ "/result")
             (Some [("ok", JBool ok); ("result", JDict result)])).
Definition get_validators : AM (list string) :=
  answer ← public_call VALIDATORS_PATH;
  found ← found_list "validators" answer;
  mret (py_str <$> List.filter truthy found).
Definition get_release : AM dict :=
  answer ← public_call RELEASE_PATH;
  mret (match answer with JDict d => d | _ => [] end).

(** ** Registering *)

Definition keep_caches (c : Caches) (g : Agent H) : Agent H :=
  MkAgent g.(site) g.(queries) g.(rig_id) g.(rig_file) g.(validators) g.(validators_file) g.(codes) g.(grants) c.

(** [asyncio.wait_for(asyncio.to_thread(spec.build, config), SPEC_TIMEOUT)] *)
Definition describe_machine : AM dict := λ g,
  let h := g.(site) in
  let '(view, c) := Host.build (s.(host_now) h) (s.(nvml_now) h) settings version (s.(clock) h) g.(caches) in
  let g := keep_caches c g in
  if s.(described_in_time) h then raises view g else (Exception "", g).

Definition card_payload (card : json) : json :=
  match card with
  | JDict d => JDict [("uuid", getv "uuid" d); ("model", getv "model" d); ("memory_mb", getv "memory_mb" d);
                      ("index", getv "index" d)]
  | j => j
  end.
Definition cards_of (view : dict) : list json := match getv "gpus" view with JList l => l | _ => [] end.
Definition registration (view : dict) : dict :=
  [("gpus", JList (card_payload <$> cards_of view));
   ("host", JDict (List.filter (λ kv : string * json, negb (String.eqb kv.1 "gpus")) view));
   ("address", getd "address" (JStr "") view); ("api_port", JInt (Config.Agent.external_port settings));
   ("ssh_port", JInt (Config.Agent.ssh_port settings)); ("agent_version", JStr version);
   ("label", JStr (sor (Config.Agent.label settings) (py_str (getd "hostname" (JStr "") view))))].

Definition registered (answer view : dict) (g : Agent H) : Agent H :=
  let id := py_str (jor (getd "rig_id" (JStr "") answer) (JStr g.(rig_id))) in
  let g := MkAgent g.(site) g.(queries) id (Some answer) g.(validators) g.(validators_file) g.(codes) g.(grants)
             g.(caches) in
  event "register" [("rig_id", JStr id); ("state", getv "state" answer); ("tier", getv "tier" answer);
                    ("gpus", JInt (Z.of_nat (List.length (cards_of view))));
                    ("nvml_error", getd "nvml_error" (JStr "") view)] g.
Definition announce_code (code : string) (g : Agent H) : Agent H :=
  MkAgent g.(site) g.(queries) g.(rig_id) g.(rig_file) g.(validators) g.(validators_file) (g.(codes) ++ [code])
    g.(grants) g.(caches).

(** The code of the claim, when the answer carries one. *)
Definition claim_code (answer : dict) : string :=
  match getv "claim" answer with JDict claim => py_str (jor (getd "code" (JStr "") claim) (JStr "")) | _ => "" end.

Definition settle (view answer : dict) : AM dict := λ g,
  let g := registered answer view g in
  let code := claim_code answer in
  (Answer answer,
   if negb (String.eqb code "") && negb (truthy (getv "hotkey" answer)) then announce_code code g else g).

Definition register_machine : AM dict :=
  view ← describe_machine;
  answer ← post_register (registration view);
  settle view answer.

(** ** The loops *)

Definition set_validators (v : ValidatorSet) (file : document) (g : Agent H) : Agent H :=
  MkAgent g.(site) g.(queries) g.(rig_id) g.(rig_file) v file g.(codes) g.(grants) g.(caches).

(** One turn of [refresh_validators]: the delay before the next one. *)
Definition refresh_turn (g : Agent H) : Z * Agent H :=
  let usual := Config.Agent.validators_refresh_seconds settings in
  match get_validators g with
  | (Answer [], g) => (RETRY_VALIDATORS_SECONDS, g)
  | (Answer found, g) =>
      let '(changed, v, file) := Auth.update found (s.(clock) g.(site)) g.(validators) in
      let g := set_validators v file g in
      (usual, if changed then event "validators.updated" [("count", JInt (Z.of_nat (List.length found)))] g else g)
  | (failed, g) =>
      let g := event "validators.error" [("error", JStr (stake 200 (text_of_call failed)))] g in
      (match members g.(validators) with [] => RETRY_VALIDATORS_SECONDS | _ => usual end, g)
  end.

(** The turns of a while, each followed by its sleep. *)
Fixpoint refresh_turns (n : nat) (g : Agent H) : Agent H :=
  match n with
  | O => g
  | S n' =>
      let '(delay, g) := refresh_turn g in
      refresh_turns n' (set_site (s.(rest) (fz delay) g.(site)) g)
  end.

(** One turn of [sweep_grants]: the sleep comes first. *)
Definition sweep_turn (g : Agent H) : Agent H :=
  let g := set_site (s.(rest) (fz (Config.Agent.grant_sweep_seconds settings)) g.(site)) g in
  set_grants (Grants.sweep (s.(clock) g.(site)) g.(grants)).2 g.

(** ** Starting and ending *)

(** The start of [run]: the sessions left open are closed, the machine is
    registered; a refusal for good is an exit code, else the loops are started. *)
Definition ready (g : Agent H) : Agent H :=
  let g := event "agent.start" [("version", JStr version); ("rig_id", JStr g.(rig_id));
                                ("key", JStr (stake 16 (public_hex ed private)))] g in
  set_grants (Grants.revoke_all g.(grants)).2 g.
Definition start (g : Agent H) : option Z * Agent H :=
  match register_machine (ready g) with
  | (Answer _, g) => (None, g)
  | (ServerError status detail, g) =>
      let g := event "register.refused" [("status", JInt status); ("detail", JStr (stake 300 detail))] g in
      (if bool_decide (status ∈ [409; 426]%Z) then Some 2%Z else None, g)
  | (Exception text, g) => (None, event "register.error" [("error", JStr (stake 300 text))] g)
  end.

(** How a task that is done ended; the first to end, or the signal, ends the run. *)
Inductive ended_task : Type := Stopped | TaskCancelled | TaskReturned | TaskFailed (name text : string).
Definition task_events (done : list ended_task) (g : Agent H) : Z * Agent H :=
  foldl (λ cg t, match t with
                 | TaskFailed name text =>
                     (1%Z, event "agent.task_failed" [("task", JStr name); ("error", JStr (stake 300 text))] cg.2)
                 | _ => cg
                 end) (0%Z, g) done.
Definition finish_run (queue : json) (done : list ended_task) (g : Agent H) : Z * Agent H :=
  let '(code, g) := task_events done g in
  (code, event "agent.stop" [("code", JInt code); ("queue", queue)] g).
End Agent.

(** ** Facts *)

Section AgentFacts.
Context {H : Type} (s : Site H) (ed : Ed25519) (private : list Z) (settings : Config.Agent.Settings)
  (version : string).

(** What a call or a registration may change of the runtime: never the sessions,
    the nonces, the text of [authorized_keys] or the validators. *)
Definition keeps {A} (m : AM (H := H) A) : Prop := ∀ g,
  Grants.open_sessions (m g).2.(grants) = Grants.open_sessions g.(grants) ∧
  Grants.keys (m g).2.(grants) = Grants.keys g.(grants) ∧
  Grants.nonces (m g).2.(grants) = Grants.nonces g.(grants) ∧ (m g).2.(validators) = g.(validators).

Lemma keeps_same {A} (c : call A) : keeps (fails c).
Proof. done. Qed.
Lemma keeps_answer {A} (a : A) : keeps (λ g, (Answer a, g)).
Proof. done. Qed.
Lemma keeps_raises {A} (r : res A) : keeps (raises s r).
Proof. done. Qed.
Lemma keeps_then {A B} (m : AM A) (f : A → AM B) :
  keeps m → (∀ a, keeps (f a)) → keeps (AM_bind _ _ f m).
Proof.
  intros Hm Hf g. unfold AM_bind. destruct (Hm g) as (H1 & H2 & H3 & H4).
  destruct (m g) as [[a|st d|t] g1]; cbn [snd] in *; [|done..].
  destruct (Hf a g1) as (K1 & K2 & K3 & K4). by rewrite K1, K2, K3, K4.
Qed.

Lemma keeps_exchange q : keeps (exchange s q).
Proof. intros g. unfold exchange. by destruct (ask s q (site g)). Qed.
Lemma keeps_judge answer : keeps (judge_signed s answer).
Proof.
  destruct answer as [text|status empty text parsed]; [apply keeps_same|]. unfold judge_signed.
  destruct (400 <=? status)%Z; [apply keeps_same|]. destruct empty; [apply keeps_answer|].
  destruct parsed; [apply keeps_answer|apply keeps_raises].
Qed.
Lemma keeps_signed method path body : keeps (signed_call s ed private method path body).
Proof. intros g. unfold signed_call. apply keeps_then; [apply keeps_exchange|apply keeps_judge]. Qed.
Lemma keeps_register : keeps (register_machine s ed private settings version).
Proof.
  unfold register_machine. apply keeps_then.
  - intros g. unfold describe_machine. destruct (Host.build _ _ _ _ _ _) as [view c].
    by destruct (described_in_time s (site g)), view.
  - intros view. apply keeps_then.
    + apply keeps_then; [apply keeps_signed|]. intros j. apply keeps_raises.
    + intros answer g. unfold settle. by destruct (_ && _).
Qed.

Lemma revoke_all_owner st :
  read (Grants.keys (Grants.revoke_all st).2) = Grants.owner_lines st ∧
  Grants.open_sessions (Grants.revoke_all st).2 = [].
Proof.
  unfold Grants.revoke_all. change (Grants.keys (Grants.set_open [] st)) with (Grants.keys st).
  pose proof (revoke_all_read (Grants.keys st)) as Hr.
  destruct (revoke_all_sessions (Grants.keys st)) as [n file]. cbn [snd] in Hr.
  destruct (n =? 0)%Z; by split.
Qed.

(** C3. At its start the agent closes every session that was left open: whatever
    the server answers, only the owner's lines are left in [authorized_keys] and
    no session is open; and the agent ends at once, with the code 2, exactly when
    the server refuses the registration with 409 or 426. *)
Theorem start_closes_sessions g :
  let '(code, g') := start s ed private settings version g in
  read (Grants.keys g'.(grants)) = Grants.owner_lines g.(grants) ∧
  Grants.open_sessions g'.(grants) = [] ∧ g'.(validators) = g.(validators) ∧
  (code = None ∨ code = Some 2%Z) ∧
  (code = Some 2%Z ↔ ∃ status detail g2, (status = 409 ∨ status = 426)%Z ∧
     register_machine s ed private settings version (ready ed private version g) = (ServerError status detail, g2)).
Proof.
  unfold start. pose proof (keeps_register (ready ed private version g)) as (Ho & Hk & _ & Hv).
  assert (read (Grants.keys (ready ed private version g).(grants)) = Grants.owner_lines g.(grants)
          ∧ Grants.open_sessions (ready ed private version g).(grants) = []) as [Hr Hs].
  { exact (revoke_all_owner (Grants.write_event "agent.start"
      [("version", JStr version); ("rig_id", JStr g.(rig_id)); ("key", JStr (stake 16 (public_hex ed private)))]
      g.(grants))). }
  destruct (register_machine s ed private settings version (ready ed private version g)) as [o g2] eqn:E.
  cbn [snd] in *. rewrite <- Hk in Hr. rewrite <- Ho in Hs.
  destruct o as [answer|status detail|text]; cbn [fst snd]; split_and!; try done; auto.
  - split; [done|]. by intros (st & d & g3 & _ & [=]).
  - destruct (bool_decide _); auto.
  - split.
    + case_bool_decide as Hin; [|done]. intros _. exists status, detail, g2.
      rewrite elem_of_cons, list_elem_of_singleton in Hin. auto.
    + intros (st & d & g3 & Hst & [= -> -> ->]). by destruct Hst as [-> | ->].
  - split; [done|]. by intros (st & d & g3 & _ & [=]).
Qed.
End AgentFacts.

Lemma hex_plain l : sforall is_hex (hex l) = true.
Proof.
  induction l as [|c l IH]; [done|].
  assert (hex (String c l) = String (Sha256.hex_digit (code c / 16)) (String (Sha256.hex_digit (code c mod 16)) (hex l)))
    as -> by done.
  cbn [sforall]. rewrite IH. clear IH. destruct c as [[] [] [] [] [] [] [] []]; reflexivity.
Qed.

(** The key of an agent survives its restarts: what a start reads or makes, the
    next start reads from the file it left, and leaves the file alone; the file
    of a new key holds exactly the 32 bytes drawn. *)
Lemma key_survives ed file key file' :
  List.length ed.(urandom) = 32%nat → Forall Aes.is_byte ed.(urandom) →
  load_or_create ed file = (Ok key, file') →
  load_or_create ed file' = (Ok key, file') ∧ List.length key = 32%nat ∧
  (file' = file ∨ key = ed.(urandom) ∧ file' = Some (private_hex key)).
Proof.
  intros Hlen Hb. unfold load_or_create at 1. destruct (strip (default "" file)) as [|c text] eqn:Ef.
  - intros [= <- <-]. unfold load_or_create. cbn [from_option id].
    destruct (Grants.hex_fixed _ (hex_plain (of_bytes (urandom ed)))) as [_ ->].
    assert (fromhex (hex (of_bytes (urandom ed))) = Some (urandom ed)) as Hx
      by (by rewrite fromhex_hex, Fernet.bytes_of_of).
    destruct (hex (of_bytes (urandom ed))) as [|c text] eqn:Eh.
    + injection Hx as Hx. by rewrite <- Hx in Hlen.
    + rewrite Hx, Hlen. split; [done|]. split; [done|]. right. split; [done|]. unfold private_hex. by rewrite Eh.
  - destruct (fromhex (String c text)) as [bytes|] eqn:Ex; [|done].
    destruct (Nat.eqb_spec (List.length bytes) 32); [|done]. intros [= <- <-].
    split; [|by split; [|left]]. unfold load_or_create. rewrite Ef, Ex. by rewrite (proj2 (Nat.eqb_eq _ _)).
Qed.

Definition sample_ed : Ed25519 := MkEd25519 id (λ k _, k) (repeat 171%Z 32).
Lemma key_survives_witness :
  load_or_create sample_ed (Some (private_hex (repeat 171%Z 32))) = (Ok (repeat 171%Z 32), Some (private_hex (repeat 171%Z 32))).
Proof.
  apply (key_survives sample_ed None); [reflexivity| |vm_compute; reflexivity].
  apply Forall_forall. intros x Hx. apply list_elem_of_In, repeat_spec in Hx as ->. split; [|reflexivity]. discriminate.
Defined.
