(* ===== verification/Main.v ===== *)
(** * Keys and command lines (validator/identity.py, main of validator/main.py, main of agent/main.py)

    Where the validator's key comes from, what each command of the two programs
    does and the exit code it ends with, and what the agent keeps across its
    restarts.  The parser of the command line is a library: a command is what it
    gives. *)

From Stdlib Require Import Ascii String QArith.
From S2P Require Import Prelude.
From S2P Require Import PyStr.
From S2P Require Import PyText.
From S2P Require Import PyFloat.
From S2P Require Import PyJson.
From S2P Require Import Runner.
From S2P Require Import Sha256.
From S2P Require Import Attest.
From S2P Require Import Client.
From S2P Require Import Socket.
From S2P Require Import Portal.
From S2P Require Import Agent.
From S2P Require Config Grants Aes Fernet.
Local Open Scope string_scope.
Local Open Scope list_scope.

(** ** The validator's key *)

(** [Keypair] of the key library: from a seed of 32 bytes, from a phrase, or
    from raw keys, with the kind of the key; the last two may raise. *)
Record Keyring (K : Type) : Type := MkKeyring {
  create_from_seed : list Z → K;
  create_from_mnemonic : string → res K;
  of_raw : option (list Z) → list Z → bool → res K;
  ss58_address : K → string }.
Arguments MkKeyring {K}. Arguments create_from_seed {K}. Arguments create_from_mnemonic {K}.
Arguments of_raw {K}. Arguments ss58_address {K}.

(** A key, an [IdentityError] with its text, or another exception. *)
Inductive loaded (A : Type) : Type := Loaded (a : A) | IdentityError (text : string) | Crash (e : exn).
Arguments Loaded {A}. Arguments IdentityError {A}. Arguments Crash {A}.
#[export] Instance loaded_ret : MRet loaded := λ A a, Loaded a.
#[export] Instance loaded_bind : MBind loaded := λ A B f m,
  match m with Loaded a => f a | IdentityError text => IdentityError text | Crash e => Crash e end.
Definition of_res {A} (r : res A) : loaded A := match r with Ok a => Loaded a | Raise e => Crash e end.

Definition without_0x (s : string) : string := if startswith "0x" s then sdrop 2 s else s.

Definition seed_bytes (text : string) : loaded (list Z) :=
  match fromhex (without_0x (strip text)) with
  | None => IdentityError "the hotkey seed must be hex"
  | Some raw => if negb (List.length raw =? 32)%nat then IdentityError "the hotkey seed must be 32 bytes"
                else Loaded raw
  end.

Section Keypair.
Context {K : Type} (ring : Keyring K) (settings : Config.Validator.Settings).
(** Reading and parsing the wallet's file, or the text of the exception. *)
Variable wallet : string → string + json.

(** [str(data.get(key, "") or "")] *)
Definition field_of (data : json) (key : string) : loaded string :=
  v ← of_res (jget key (JStr "") data); mret (py_str (jor v (JStr ""))).

Definition from_seed_text (text : string) : loaded K := raw ← seed_bytes text; mret (ring.(create_from_seed) raw).
Definition from_phrase (text : string) : loaded K := of_res (ring.(create_from_mnemonic) (strip text)).

(** A value that is not hex raises [ValueError] here. *)
Definition raw_hex (text : string) : loaded (list Z) :=
  match fromhex (without_0x text) with Some raw => Loaded raw | None => Crash ValueError end.

Definition from_wallet (data : json) : loaded K :=
  seed ← field_of data "secretSeed";
  phrase ← field_of data "secretPhrase";
  if negb (String.eqb seed "") then from_seed_text seed
  else if negb (String.eqb phrase "") then from_phrase phrase
  else
    private ← field_of data "privateKey";
    if negb (String.eqb private "") then
      raw ← raw_hex private;
      public ← field_of data "publicKey";
      kind ← of_res (v ← jget "cryptoType" (JInt 1) data; py_int (jor v (JInt 1)));
      public_key ← (if negb (String.eqb public "") then b ← raw_hex public; mret (Some b) else mret None);
      of_res (ring.(of_raw) public_key raw (kind =? 0)%Z)
    else IdentityError "the wallet hotkey file has neither secretSeed, secretPhrase nor privateKey".

Definition load_keypair : loaded K :=
  if negb (String.eqb (Config.Validator.hotkey_seed settings) "") then
    from_seed_text (Config.Validator.hotkey_seed settings)
  else if negb (String.eqb (Config.Validator.hotkey_mnemonic settings) "") then
    from_phrase (Config.Validator.hotkey_mnemonic settings)
  else if negb (String.eqb (Config.Validator.wallet_hotkey_file settings) "") then
    match wallet (Config.Validator.wallet_hotkey_file settings) with
    | inl text => IdentityError ("cannot read the wallet hotkey file: " +:+ text)
    | inr data => from_wallet data
    end
  else IdentityError "set CV_HOTKEY_SEED, CV_HOTKEY_MNEMONIC or CV_WALLET_HOTKEY_FILE".

(** ** The validator's command line *)

Inductive command : Type :=
  | Run | RegisterCommand | Hotkey | VersionCommand | Show (what : string)
  | SignRelease (digest : string) | WeightsCommand (dry_run : bool) | NoCommand.

Context {H : Type} (env : Env H) (server : Server H) (around : Around H).
(** What the key makes of the rest; and how the run of the loops ends, if it does. *)
Variable outer : K → Outer H.
Variable ran : K → res Z.

(** [main]: the exit code, or what it raises; an [IdentityError] ends with 2, a
    [ServerError] with 3. *)
Definition keyed (f : K → res Z) : res Z :=
  match load_keypair with Loaded key => f key | IdentityError _ => Ok 2%Z | Crash e => Raise e end.
Definition validator_main (c : command) (p : Portal H) : res Z :=
  match c with
  | VersionCommand => Ok 0%Z
  | Hotkey => keyed (λ _, Ok 0%Z)
  | RegisterCommand => keyed (λ key, exit_code (λ _, 0%Z) (register_command env (outer key) server settings p).1)
  | Show what => keyed (λ key, exit_code (λ _, 0%Z) (show env (outer key) server what p).1)
  | SignRelease digest => keyed (λ key, exit_code (λ _, 0%Z) (sign_release env (outer key) server digest p).1)
  | WeightsCommand dry_run =>
      keyed (λ key, exit_code fst (weights_command env (outer key) server around settings dry_run p).1)
  | Run => keyed ran
  | NoCommand => Ok 1%Z
  end.
End Keypair.

(** ** The agent's command line *)

Inductive agent_command : Type :=
  | AgentRun (monitor : bool) | AgentKeys | AgentVersion | Status
  | Approve (hotkey : string) (deny : bool) | NoAgentCommand.

(** The exit code and the decisions on claims that are left; [ran] is how the
    agent or the monitor ended. *)
Definition agent_main (ran : bool → Z) (key : res (list Z)) (c : agent_command) (claims : Claims)
    : res Z * Claims :=
  match c with
  | AgentVersion => (Ok 0%Z, claims)
  | AgentKeys | Status => (_ ← key; mret 0%Z, claims)
  | Approve hotkey deny =>
      match record_decision hotkey (negb deny) claims with
      | Ok claims' => (Ok 0%Z, claims')
      | Raise _ => (Ok 2%Z, claims)
      end
  | AgentRun monitor => (Ok (ran monitor), claims)
  | NoAgentCommand => (Ok 1%Z, claims)
  end.

(** [_saved_rig_id]: the identifier the last registration left, from the file's
    value, [None] when it cannot be read. *)
Definition saved_rig_id (file : option json) : string :=
  match file with
  | Some (JDict saved) => py_str (getd "rig_id" (JStr "") saved)
  | _ => ""
  end.

(** ** Facts *)

(** A seed of 32 bytes written in hex, with or without 0x, is read back. *)
Lemma seed_survives raw :
  List.length raw = 32%nat → Forall Aes.is_byte raw →
  seed_bytes (hex (of_bytes raw)) = Loaded raw ∧ seed_bytes ("0x" +:+ hex (of_bytes raw)) = Loaded raw.
Proof.
  intros Hlen Hb. pose proof (hex_plain (of_bytes raw)) as Hp.
  assert (fromhex (hex (of_bytes raw)) = Some raw) as Hx by by rewrite fromhex_hex, Fernet.bytes_of_of.
  assert (strip (hex (of_bytes raw)) = hex (of_bytes raw)) as Hs by apply (Grants.hex_fixed _ Hp).
  assert (strip ("0x" +:+ hex (of_bytes raw)) = "0x" +:+ hex (of_bytes raw)) as Hs'.
  { apply strip_no_space. cbn. apply sforall_impl with is_hex; [|done].
    intros c Hc. by destruct (Challenge.is_hex_plain c Hc) as [-> _]. }
  assert (without_0x (hex (of_bytes raw)) = hex (of_bytes raw)) as H0.
  { unfold without_0x. destruct (startswith "0x" (hex (of_bytes raw))) eqn:E; [|done]. exfalso.
    apply prefix_spec in E as [t Ht]. rewrite Ht in Hp. done. }
  unfold seed_bytes. rewrite Hs, Hs', H0, Hx, Hlen. split; [done|].
  assert (without_0x ("0x" +:+ hex (of_bytes raw)) = hex (of_bytes raw)) as ->.
  { unfold without_0x. replace (startswith "0x" ("0x" +:+ hex (of_bytes raw))) with true by (symmetry; apply prefix_app).
    apply (sdrop_app "0x"). }
  by rewrite Hx, Hlen.
Qed.

(** Whatever the environment and the file hold, a key is loaded from the first
    source that is set; and without a key every command but [version] ends with 2,
    none of them having asked the server anything. *)
Lemma no_key_no_request {K H} (ring : Keyring K) settings wallet (env : Env H) server around outer ran c p text :
  load_keypair ring settings wallet = IdentityError text →
  validator_main ring settings wallet env server around outer ran c p =
  Ok (match c with VersionCommand => 0 | NoCommand => 1 | _ => 2 end)%Z.
Proof. intros E. destruct c; unfold validator_main, keyed; by rewrite ?E. Qed.

(** The identifier the server gave is the one the next start begins with. *)
Lemma rig_id_survives {H} (answer view : dict) (g : Agent H) id :
  getv "rig_id" answer = JStr id → id ≠ "" →
  let g' := registered answer view g in
  rig_id g' = id ∧ saved_rig_id (JDict <$> rig_file g') = id.
Proof.
  intros Hid Hne. unfold registered. cbn [rig_id rig_file event set_grants fmap option_fmap option_map saved_rig_id].
  assert (getd "rig_id" (JStr "") answer = JStr id) as ->.
  { unfold getv, getd in *. destruct (dget "rig_id" answer); cbn in *; congruence. }
  split; [|done]. apply String.eqb_neq in Hne. unfold jor. cbn. by rewrite Hne.
Qed.

(** But an answer without identifier leaves the old one for this run only, and a
    null one becomes the text None at the next start. *)
Example null_rig_id : saved_rig_id (Some (JDict [("rig_id", JNull)])) = "None".
Proof. reflexivity. Qed.
