(* ===== verification/Service.v ===== *)
(** * The two programs as processes (agent/main.py, validator/main.py)

    How the agent's tasks start, end together and are cleaned up after; what the
    status command prints; how the registration is kept; and how the validator's
    three loops end.  The tasks themselves are [Control], [Agent], [Update] and
    [Api]; uvicorn and the signals of the system are steps that may come at any
    time. *)

From Stdlib Require Import Ascii String QArith Qround.
From S2P Require Import Prelude.
From S2P Require Import PyStr.
From S2P Require Import PyFloat.
From S2P Require Import PyJson.
From S2P Require Import PyDump.
From S2P Require Import Persist.
Local Open Scope string_scope.
Local Open Scope list_scope.

(** ** The registration that is kept *)

(** [_save]: the file and what is beside it; [Some text] is an [OSError] after some
    of the steps, which is an event. *)
Definition save_registration (view : dict) (failed : option (nat * string)) (fs : Atomic.Files)
    : Atomic.Files * list (string * dict) :=
  match failed with
  | None => (Atomic.save_cut 3 (Holds (JDict view)) fs, [])
  | Some (k, text) =>
      (Atomic.save_cut (Nat.min k 2) (Holds (JDict view)) fs, [("state.save_error", [("error", JStr (stake 200 text))])])
  end.

(** ** The life of the agent *)

Module Life.

Definition TASKS : list string := ["api"; "validators"; "socket"; "claims"; "updater"; "grants"; "exit"].

Inductive status : Type := Running | Returned | Failed (text : string) | Cancelled.

(** What [run] did after its tasks, in order. *)
Inductive cleanup : Type := SocketShutdown | ClientClosed | PoolShutdown | LibrariesReleased | Stopped (code : Z).

Inductive phase : Type := Serving | Ending (code : Z) | Ended (code : Z).

Record Process : Type := MkProcess {
  tasks : list (string * status); should_exit : bool; stop : bool; signals : nat; at_ : phase;
  failures : list (string * string); cleaned : list cleanup }.

Definition started : Process := MkProcess ((λ name, (name, Running)) <$> TASKS) false false 0 Serving [] [].

(** A task is set to what it became. *)
Definition become (name : string) (s : status) (p : Process) : Process :=
  MkProcess (dset name s p.(tasks)) p.(should_exit) p.(stop) p.(signals) p.(at_) p.(failures) p.(cleaned).
Definition set_stop (p : Process) : Process :=
  MkProcess p.(tasks) p.(should_exit) true p.(signals) p.(at_) p.(failures) p.(cleaned).

(** [on_signal]: the libraries are released and [stop] is set. *)
Definition on_signal (p : Process) : Process :=
  MkProcess p.(tasks) p.(should_exit) true (S p.(signals)) p.(at_) p.(failures) p.(cleaned).

(** The tasks that raised, of those that are done. *)
Definition failed_tasks (p : Process) : list (string * string) :=
  omap (λ t, match t.2 with Failed text => Some (t.1, text) | _ => None end) p.(tasks).
Definition some_done (p : Process) : bool :=
  existsb (λ t, match t.2 with Running => false | _ => true end) p.(tasks).

(** The first task to end, or [stop], ends the wait; each failure is an event. *)
Definition noticed (p : Process) : Process :=
  let failed := failed_tasks p in
  MkProcess p.(tasks) true p.(stop) p.(signals) (Ending (match failed with [] => 0 | _ => 1 end))
    ((λ nt, (nt.1, stake 300 nt.2)) <$> failed) p.(cleaned).

(** The end of [run]: the api has its seconds to end, every task that still runs is
    cancelled, then the socket, the client, the pool and the libraries. *)
Definition finish (code : Z) (p : Process) : Process :=
  MkProcess ((λ t : string * status, (t.1, match t.2 with Running => Cancelled | s => s end)) <$> p.(tasks))
    true p.(stop) p.(signals) (Ended code) p.(failures)
    [SocketShutdown; ClientClosed; PoolShutdown; LibrariesReleased; Stopped code].

Inductive step : Process → Process → Prop :=
  | signalled p : p.(at_) = Serving → step p (on_signal p)
  | server_told p : step p (MkProcess p.(tasks) true p.(stop) p.(signals) p.(at_) p.(failures) p.(cleaned))
  | exit_watched p : dget "exit" p.(tasks) = Some Running → p.(should_exit) = true →
      step p (become "exit" Returned (set_stop p))
  | task_returned p name : dget name p.(tasks) = Some Running → name = "api" → step p (become name Returned p)
  | task_raised p name text : dget name p.(tasks) = Some Running → step p (become name (Failed text) p)
  | wait_over p : p.(at_) = Serving → p.(stop) = true ∨ some_done p = true → step p (noticed p)
  | cleaned_up p code : p.(at_) = Ending code → step p (finish code p).

Definition reachable : Process → Prop := rtc step started.

(** The names never change. *)
Lemma become_names name s p st :
  dget name p.(tasks) = Some st → dkeys (become name s p).(tasks) = dkeys p.(tasks).
Proof. intros E. unfold become. cbn [tasks]. rewrite dkeys_dset. unfold dmem. by rewrite E. Qed.

Definition inv (p : Process) : Prop :=
  dkeys p.(tasks) = TASKS ∧
  match p.(at_) with
  | Serving => p.(cleaned) = [] ∧ p.(failures) = []
  | Ending code => p.(cleaned) = [] ∧ (code = 1%Z ↔ p.(failures) ≠ []) ∧ (code = 0%Z ∨ code = 1%Z)
  | Ended code =>
      p.(cleaned) = [SocketShutdown; ClientClosed; PoolShutdown; LibrariesReleased; Stopped code] ∧
      (code = 1%Z ↔ p.(failures) ≠ []) ∧ (code = 0%Z ∨ code = 1%Z)
  end.

Lemma life_step p p' : step p p' → inv p → inv p'.
Proof.
  intros Hs [Hk Hp]. destruct Hs as [p Ha|p|p Ht He|p name Ht Hn|p name text Ht|p Ha Hd|p code Ha]; unfold inv in *; cbn in *.
  - by rewrite Ha in *.
  - done.
  - split; [|exact Hp]. rewrite <- Hk. by apply (become_names "exit" Returned (set_stop p) Running).
  - split; [|exact Hp]. rewrite <- Hk. by apply (become_names name Returned p Running).
  - split; [|exact Hp]. rewrite <- Hk. by apply (become_names name (Failed text) p Running).
  - rewrite Ha in Hp. destruct Hp as [Hc _]. split; [done|]. split; [done|].
    destruct (failed_tasks p) as [|x l]; cbn [fmap list_fmap]; (split; [split; congruence|]); [by left|by right].
  - rewrite Ha in Hp. destruct Hp as (_ & Hcode & H01). split; [|by split_and!].
    rewrite <- Hk. unfold dkeys. rewrite <- list_fmap_compose. by apply list_fmap_ext.
Qed.

(** However the agent ends, it cleans up once and in order, after its last task, and
    its code is 1 exactly when a task that was noticed had failed. *)
Lemma life_ends p code : reachable p → p.(at_) = Ended code →
  p.(cleaned) = [SocketShutdown; ClientClosed; PoolShutdown; LibrariesReleased; Stopped code] ∧
  (code = 1%Z ↔ p.(failures) ≠ []) ∧ (code = 0%Z ∨ code = 1%Z).
Proof.
  intros Hr Ha. assert (inv p) as [_ Hp]; [|by rewrite Ha in Hp].
  assert (inv started) as H0 by done. unfold reachable in Hr. revert H0. generalize dependent started.
  intros p0 Hr. induction Hr as [p|p p1 p2 Hs _ IH]; intros H0; [done|]. apply IH; [done|by apply (life_step p)].
Qed.

(** Once a signal came the agent can end, whatever its tasks do. *)
Lemma signal_ends p : p.(at_) = Serving → p.(stop) = true →
  ∃ p' code, rtc step p p' ∧ p'.(at_) = Ended code.
Proof.
  intros Ha Hs. eexists _, _. split; [eapply rtc_l; [apply wait_over; [exact Ha|by left]|]; apply rtc_once, cleaned_up; reflexivity|reflexivity].
Qed.
End Life.

(** ** What the status command prints *)

Section Status.

(** [f"{d.get(key, '') or '-'}"] *)
Definition or_dash (key : string) (d : dict) : string := py_str (jor (getd key (JStr "") d) (JStr "-")).

Definition two (z : Z) : string := if (z <? 10)%Z then "0" +:+ str_of_Z z else str_of_Z z.

(** [time.strftime("%H:%M:%S", time.gmtime(x))], for moments in years the platform has. *)
Definition clock_text (x : pyfloat) : res string :=
  match x with
  | FNan => Raise ValueError
  | FInf _ => Raise OverflowError
  | FFin q =>
      let s := (Qfloor q mod 86400)%Z in
      Ok (two (s / 3600) +:+ ":" +:+ two (s / 60 mod 60) +:+ ":" +:+ two (s mod 60))
  end.

Definition event_line (record : dict) : res string :=
  ts ← py_float (jor (getd "ts" (JInt 0) record) (JInt 0));
  moment ← clock_text ts;
  let fields := List.filter (λ kv : string * json, negb (bool_decide (kv.1 ∈ ["ts"; "kind"]))) record in
  mret ("  " +:+ moment +:+ " " +:+ py_str (getd "kind" (JStr "") record) +:+ " " +:+ stake 120 (dumps_spaced (JDict fields))).

(** The answer of the api on the machine, or the text of the exception. *)
Definition api_line (describe : exn → string) (live : string + json) : string :=
  match live with
  | inl text => "api             down (" +:+ text +:+ ")"
  | inr (JDict d) =>
      "api             up, draining=" +:+ py_str (getv "draining" d) +:+ ", image=" +:+ py_str (jor (getv "image" d) (JStr "-"))
  | inr _ => "api             down (" +:+ describe AttributeError +:+ ")"
  end.

(** [status]: the file of the registration ([None] when it cannot be read), the api
    and the last events.  The lines printed before it raises are not kept. *)
Definition status (version public_hex : string) (describe : exn → string) (file : option json)
    (live : string + json) (records : list dict) : res (list string) :=
  match default (JDict []) file with
  | JDict saved =>
      events ← mapM event_line records;
      let claim := match getv "claim" saved with JDict c => c | _ => [] end in
      mret ((["agent version   " +:+ version; "agent key       " +:+ public_hex;
              "rig id          " +:+ or_dash "rig_id" saved; "rig state       " +:+ or_dash "state" saved;
              "hotkey          " +:+ or_dash "hotkey" saved; "tier            " +:+ or_dash "tier" saved]
             ++ match claim with
                | [] => []
                | _ => ["claim           " +:+ py_str (getd "state" (JStr "") claim) +:+ " code " +:+ or_dash "code" claim]
                end)
            ++ api_line describe live :: events)
  | _ => Raise AttributeError
  end.

(** A registration that is no object ends the command. *)
Example status_unreadable version key describe live :
  status version key describe (Some (JList [])) live [] = Raise AttributeError.
Proof. reflexivity. Qed.
Example clock_text_of : clock_text (fz 86399) = Ok "23:59:59".
Proof. reflexivity. Qed.
End Status.

(** ** The loops of the validator *)

Module Loops.

(** How one of the three loops ended the gather: none of them returns. *)
Inductive ending : Type := Raised (text : string) | Interrupted.

Inductive action : Type := SaveLedger | CloseAgents | ClosePool | CloseChain.

(** The clean-up of [run]: each part may raise, and then the ones after it are not
    done.  What is raised in the end is what the clean-up raised, or the loop. *)
Fixpoint clean (faults : action → option string) (actions : list action) (e : ending) : list action * ending :=
  match actions with
  | [] => ([], e)
  | a :: actions' =>
      match faults a with
      | Some text => ([a], Raised text)
      | None => let '(done, e) := clean faults actions' e in (a :: done, e)
      end
  end.
Definition run (faults : action → option string) (e : ending) : list action * ending :=
  clean faults [SaveLedger; CloseAgents; ClosePool; CloseChain] e.

(** The ledger is always saved, and a clean-up without faults closes everything and
    ends as the loop did. *)
Lemma run_saves faults e :
  (run faults e).1 !! 0%nat = Some SaveLedger ∧
  ((∀ a, faults a = None) → run faults e = ([SaveLedger; CloseAgents; ClosePool; CloseChain], e)).
Proof.
  unfold run. split.
  - change (clean faults [SaveLedger; CloseAgents; ClosePool; CloseChain] e) with
      (match faults SaveLedger with
       | Some text => ([SaveLedger], Raised text)
       | None => let '(done, e) := clean faults [CloseAgents; ClosePool; CloseChain] e in (SaveLedger :: done, e)
       end).
    destruct (faults SaveLedger); [done|]. by destruct (clean faults _ e).
  - intros Hn. cbn. by rewrite !Hn.
Qed.
End Loops.
